(* ===== verification/_CoqProject ===== *)
-Q . S2P
Prelude.v
Bitstream.v
TansTable.v
TansCodec.v
Entropy.v
Delta.v
Lzp.v
Header.v
Lz.v
Freq.v
Crc32.v
Simd.v
Platform.v
Ctx.v
Dict.v
Train.v
UnigramCount.v
ClassMap.v
LzpVote.v
Training.v
Heap.v
Decompress.v
Compress.v
Payload.v
Packets.v
Sync.v
Stateless.v
Stages.v
Session.v
Safety.v
Progress.v
Transport.v
Metering.v
Datagram.v
Persist.v
Deploy.v
Double.v
CText.v
Corpus.v
Replay.v
BenchStats.v
BenchRun.v
BenchNetc.v
BenchGates.v
BenchArgs.v
BenchBaseline.v
BenchReport.v
BenchAdapters.v
BenchOodle.v
BenchMain.v
BenchFactories.v
BenchMulticore.v
Sdk.v
SdkOwners.v
SdkSpec.v
SdkMemory.v
SdkSession.v
SdkFaults.v
