(* ===== verification/Prelude.v ===== *)
(** * netc: a verified model of a packet compression library

    netc (src/src/, public API src/include/netc.h) compresses network packets
    of up to 65535 bytes.  A dictionary is trained offline on sample packets,
    serialised, and loaded by both peers; each peer creates a context, and
    [netc_compress] / [netc_decompress] exchange packets while the two contexts
    keep the same history.  A stateless pair of calls needs the dictionary
    only.  A packet goes through: delta against the previous packets, LZP XOR
    filter, tANS entropy coding with one of several table choices, competing
    LZ77 and cross-packet LZ77 stages, and a passthrough fallback.  The
    repository's benchmark program (src/bench/) drives the library and other
    compressors through one vtable on eight generated workloads, checks every
    round trip, and gates the measurements; it is modelled as well.  So is the C++
    binding (src/sdk/cpp/), move-only objects that own the library's handles.

    ** How the code is modelled

    A C function is a Gallina function of its inputs, in the [outcome] monad
    of this file: [Ok] for a normal return, [Fail] for an error code, [Undef]
    for an operation the C standard leaves undefined (array access out of
    bounds, a shift by the word width or more).  A theorem that a call is [Ok]
    or [Fail] is thus also a memory-safety statement.  Buffers are lists of
    bytes ([Z] in 0..255); integers of width w are [Z] with the wrap-around
    written out ([u8] .. [u64]); a NULL pointer is [None]; a struct is a
    [Record] and a mutating function returns the new record.  A buffer that is
    filled from its start is the list of the bytes written so far; a store is
    checked against its capacity ([store] for one written at once, [put] for one
    that grows; the caller's buffer, the context's arena, the trial buffers on the
    stack) and a read against what is there ([peek]); both are [Undef] beyond it.
    A for loop is
    [foldM] over its index range or a structural recursion over the buffer.
    While loops without a structural measure take fuel and are [Undef] when it
    runs out: the length of the data for the LZ and RLE coders and the block
    loops of the SIMD kernels (every iteration consumes a byte), a constant
    for the bit stream (the accumulator holds at most eight bytes).  Since the
    theorems exclude [Undef], they show that the fuel is enough.
    Whether an allocation succeeds, what the CPUID instructions return and which
    back ends a build contains are parameters.  Doubles are IEEE 754 binary64
    values ([spec_float], rounded to nearest even after every operation, so
    without extended precision or contraction).  For the benchmark program the
    clock, the date, libm's [exp], the file system, the compression libraries and
    the Oodle SDK are parameters, with a class for what their documentation
    promises ([ExpOk], [ZlibOk], [Lz4Ok], [SnappyOk], [DeflateOk], [ZstdOk],
    [OodleOk]); concrete instances show that the promises can be kept.  Threads
    are machines whose steps are interleaved by an arbitrary schedule, and a data
    race is [Undef].  A method of the C++ binding is a state transformer on worlds
    (objects in scope by name, native structures by address, the heap, the files)
    that returns or throws; using or freeing a handle whose structure is gone is
    [Undef].

    ** Files and the code they model

    - Prelude.v: the outcome monad, arrays, machine integers, byte order,
      tactics and the lemmas shared by all files.
    - Bitstream.v: util/netc_bitstream.h, the LIFO bit stream.
    - TansTable.v, TansCodec.v, Entropy.v: algo/netc_tans.{h,c}, table
      construction (12 and 10 bits), single-state, two-state, per-position
      and bigram coders; [table_ok] is the contract between the builder and
      the coders, Entropy.v the contract of the coders with the packet layer.
    - Freq.v: freq_normalize (core/netc_dict.c, algo/netc_adaptive.c) and
      netc_freq_rescale_12_to_10.
    - Delta.v: algo/netc_delta.h.   Lzp.v: algo/netc_lzp.h.
    - Header.v: include/netc.h constants, the 8-byte and compact headers of
      core/netc_internal.h, little-endian access of util/netc_platform.h.
    - Lz.v: RLE, LZ77 and cross-packet LZ77 of core/netc_compress.c and
      core/netc_decompress.c.
    - Crc32.v: util/netc_crc32.c.   Simd.v: simd/ (generic, SSE4.2, AVX2, NEON
      kernels and dispatch); class [SimdOk] is what a dispatch table promises.
    - Platform.v: CPU detection of simd/netc_simd_generic.c; netc_strerror and
      netc_version.
    - Ctx.v: core/netc_ctx.c, algo/netc_adaptive.c, the context and dictionary
      records, history ring, adaptive model; [ctx_ok], [dict_ok] are their
      invariants.
    - Dict.v: core/netc_dict.c, netc_dict_save and netc_dict_load; class [Wire]
      relates a writer and a reader of one field, and is composed from bytes
      up to the whole blob.
    - Train.v: core/netc_dict.c, netc_dict_train; UnigramCount.v, ClassMap.v and
      LzpVote.v specify its statistics, Training.v the whole call.
    - Heap.v: the allocations and releases of contexts and dictionaries
      (netc_ctx_create and destroy, netc_dict_train, load and free), as programs
      over a heap of live blocks that return what the functional models return.
    - Decompress.v, Compress.v: core/netc_decompress.c and
      core/netc_compress.c, every stage and both stateless calls.
    - Payload.v, Packets.v, Stages.v: each stage's packet decodes to its input.
    - Sync.v, Session.v: [sync] relates the contexts of two peers; [advance] is
      the history step of both.
    - Stateless.v, Safety.v, Progress.v, Transport.v, Metering.v, Datagram.v,
      Deploy.v: the theorems about the API calls.   Persist.v: what every call
      leaves in a context (its dictionary and flags).

    The benchmark program, src/bench/:

    - Double.v, CText.v: doubles and their roundings; the text formats of stdio
      and stdlib (printf conversions, strtod, atol, strstr) the program uses.
    - Corpus.v, Replay.v: bench_corpus.c, the splitmix64 generators of the eight
      workloads and their static objects.
    - BenchStats.v: bench_stats.c.   BenchRun.v: bench_compressor.c and
      bench_throughput.c, the vtable and the loops; class [BcOk] is what an adapter
      promises to the loop.
    - BenchNetc.v: bench_netc.c and the loop of bench_runner.c, over the models of
      the library.   BenchAdapters.v: bench_zlib.c, bench_lz4.c, bench_snappy.c,
      bench_huffman.c, bench_zstd.c.   BenchOodle.v: bench_oodle.c.
    - BenchGates.v: the gates of bench_runner.c and the comparison of
      bench_baseline.c.   BenchBaseline.v: the files of bench_baseline.c.
    - BenchArgs.v: the command line.   BenchReport.v: bench_reporter.c.
    - BenchMain.v, BenchFactories.v: bench_main.c, the main loop over workloads and
      adapters, and the adapters of each build.
    - BenchMulticore.v: bench_multicore.c, threads and tiers; classes [Encodes] and
      [FactoryOk] are what the compressors and their factory promise.

    The C++ binding, src/sdk/cpp/:

    - Sdk.v: NetcResult.cpp, NetcDict.cpp, NetcTrainer.cpp, NetcContext.cpp and
      their headers, every method, over the models of the library and of Heap.v.
    - SdkOwners.v: who owns which handle and which blocks; the view of a world
      without handles.
    - SdkSpec.v: programs over the objects and their specification, where a Dict
      holds a dictionary and a Context a context.
    - SdkMemory.v: the methods implement the specification and keep the ownership
      invariant.   SdkSession.v: a whole session.   SdkFaults.v: what the headers
      say and the code does not do.

    ** What the theorems show

    - Transport (Transport.v, Deploy.v): from training and loading a dictionary
      to any sequence of messages (at most 65535 bytes, below 256 bytes or of even
      size; tables that code every byte; compact headers without adaptive
      mode), every call succeeds, every message arrives
      unchanged, packets stay within [netc_compress_bound], the contexts stay
      synchronised, reset restarts a session; single packets between any
      synchronised contexts; the stateless pair; contexts without history, whose
      packets may be lost, repeated and reordered (Datagram.v).
    - Safety and bounds (Safety.v, Transport.v, Lz.v, Dict.v): the
      decoders on any bytes whose bitstreams can be opened ([readable]; the bit
      reader is undefined on a stream of more than 8 bytes that ends in a zero
      byte), the dictionary loader on arbitrary bytes, the encoder with any buffer.
    - Codec correctness (Entropy.v, Bitstream.v, Freq.v, Delta.v, Lzp.v, Lz.v,
      Header.v, Crc32.v): round trips, exactness of the table builder,
      equivalence of the CRC table with the bitwise polynomial division.
    - Training (UnigramCount.v, ClassMap.v, LzpVote.v, Training.v): the counts
      of the SIMD kernels are the naive counts, the class map is a balanced
      clustering, the LZP table learns majorities, the result is a well-formed
      dictionary that codes every byte.
    - Memory (Heap.v): whichever allocation fails, nothing is freed twice, and
      failed creations and loads leave no block behind; training loses one
      block ([dict_train_leaks]).
    - State (Ctx.v): the ring buffer refines a bounded queue, the adaptive
      update preserves the context invariant, creation establishes it; the
      statistics of a session are exact (Metering.v).
    - Errors: truncated packets, packets of another dictionary and damaged
      dictionary blobs are rejected.  Where the code fails to do what it means
      to, the failure is stated as a theorem: odd sizes in the two-state coder
      ([tans_x2_odd_wrong]), a missing end marker in the bit reader
      ([bsr_missing_sentinel]), order-2 delta lost by compact headers
      ([compact_order2_lost]), state advanced by a failed call
      ([failed_call_advances]), output buffers of 2 to 7 bytes overrun
      ([small_buffer_overrun]), class maps not validated on load
      ([class_map_unchecked]), and in passing [tans_absent_symbol],
      [freq_rescale_incomplete], [neon_crc_not_inverted].  The transport
      theorems carry the conditions these make necessary.
    - Benchmark: the program terminates with every selected result stored, in
      order and under its name ([harness_completes]); netc, Zstandard and Oodle
      adapters pass their round-trip checks, and a run is tied to its [traffic]: the
      packets of the corpus and what was written for them; the corpus is well formed
      and replayed; percentiles are order statistics; baselines that are written
      and read completely are read back; reports are complete; the
      multi-core run gives the same counts under every interleaving
      ([multicore_deterministic]).  Counts are bounded by 2^31 (an int counter in
      the corpus) and training by 2^22 packets.  Defects are theorems too:
      [ci_check_undefined], [ci_check_vacuous], [netc_gated_against_itself],
      [failed_train_dangles], [oodle_failed_train_double_free],
      [oodle_window_reads_garbage], [oodle_encoder_overflows],
      [truncated_save_reports_success], [telemetry_not_replayed],
      [multicore_races].

    - C++ binding: programs that release no dictionary a context is bound to,
      load trusted blobs and decompress readable packets ([admissible]) behave as the specification without handles says ([sdk_refines]) and lose at
      most one block per training and per save that throws ([sdk_memory_safe]);
      trained, saved and loaded dictionaries carry messages between two Contexts
      ([sdk_session]).  That a Dict outlives its Context is not enough
      ([reload_dangles]); [load_file_stays_open], [save_file_truncates].

    ** Not modelled

    The compiler macros and branch hints; netc_lzp_hash3 and bucket_start_offset
    (never called); the clock and its calibration (bench_timer.h), the date, the
    usage text and progress messages of the benchmark, its note in scaling mode,
    and the functions that only print gates, regressions and throughput;
    in the C++ binding, input ranges inside the output vector and the implicit
    copies of a Trainer; the C# binding (src/sdk/csharp), which is written in
    another language around the same C functions; the tests and the vendored test
    framework. *)

From stdpp Require Import prelude.
From Stdlib Require Import ZArith Lia Znumtheory.

Local Open Scope Z_scope.

(** ** Outcomes of C code

    [Ok a]: the function returned normally with [a];
    [Fail e]: it returned an error ([unit] for the [-1] convention, a
    [netc_result_t] for the API);
    [Undef]: the C code performs an operation without defined meaning (an
    array access out of range, a shift by at least the width). *)
Inductive outcome (E A : Type) : Type :=
| Ok (a : A)
| Fail (e : E)
| Undef.
Arguments Ok {E A} a.
Arguments Fail {E A} e.
Arguments Undef {E A}.

#[export] Instance outcome_ret {E} : MRet (outcome E) := fun A a => Ok a.
#[export] Instance outcome_bind {E} : MBind (outcome E) := fun A B f m =>
  match m with Ok a => f a | Fail e => Fail e | Undef => Undef end.
Arguments outcome_bind {E A B} f !m /.

(** [attempt m]: run [m]; its error is a value the caller inspects, as in
    [if (f(...) != 0) ...] or [n == (size_t)-1].  Undefined behaviour is not
    recoverable. *)
Definition attempt {E A} (m : outcome unit A) : outcome E (option A) :=
  match m with
  | Ok a => Ok (Some a)
  | Fail _ => Ok None
  | Undef => Undef
  end.

(** [or_fail e m]: return the error code [e] when [m] fails. *)
Definition or_fail {E A} (e : E) (m : outcome unit A) : outcome E A :=
  match m with
  | Ok a => Ok a
  | Fail _ => Fail e
  | Undef => Undef
  end.

(** Defined behaviour: the computation is not [Undef]. *)
Definition defined {E A} (m : outcome E A) : Prop := m <> Undef.

(** A [for] loop over the elements of a list, in order. *)
Fixpoint foldM {E S A} (f : S -> A -> outcome E S) (s : S) (l : list A)
  : outcome E S :=
  match l with
  | [] => Ok s
  | a :: l' => s' ← f s a; foldM f s' l'
  end.

(** A C array as a list: reads and writes out of range are undefined. *)
Definition aget {E A} (l : list A) (i : Z) : outcome E A :=
  if i <? 0 then Undef
  else match l !! Z.to_nat i with Some x => Ok x | None => Undef end.

Definition aset {E A} (l : list A) (i : Z) (x : A) : outcome E (list A) :=
  if (0 <=? i) && (i <? Z.of_nat (length l))
  then Ok (<[Z.to_nat i := x]> l) else Undef.

Abbreviation zlen l := (Z.of_nat (length l)).

(** [l[a .. a+n)] *)
Definition slice {A} (l : list A) (a n : Z) : list A :=
  take (Z.to_nat n) (drop (Z.to_nat a) l).

(** [memcpy]: [data] written at [buf + pos], and [n] bytes read at [buf + pos]. *)
Definition blit {E} (buf : list Z) (pos : Z) (data : list Z) : outcome E (list Z) :=
  if (0 <=? pos) && (pos + zlen data <=? zlen buf)
  then Ok (take (Z.to_nat pos) buf ++ data ++ drop (Z.to_nat (pos + zlen data)) buf)
  else Undef.
Definition peek {E} (buf : list Z) (pos n : Z) : outcome E (list Z) :=
  if (0 <=? pos) && (0 <=? n) && (pos + n <=? zlen buf) then Ok (slice buf pos n) else Undef.

(** [data] written from the start of a buffer of [cap] bytes, and [data] written
    behind the bytes [buf] already there.  Writing past the end is undefined: a
    guard of the code that is missing, or too weak, shows as [Undef]. *)
Definition store {E} (cap : Z) (data : list Z) : outcome E (list Z) :=
  if zlen data <=? cap then Ok data else Undef.
Definition put {E} (cap : Z) (buf data : list Z) : outcome E (list Z) := store cap (buf ++ data).

(** ** Fixed-width unsigned integers *)
Definition u8 (x : Z) : Z := x mod 2 ^ 8.
Definition u16 (x : Z) : Z := x mod 2 ^ 16.
Definition u32 (x : Z) : Z := x mod 2 ^ 32.
Definition u64 (x : Z) : Z := x mod 2 ^ 64.

Definition is_byte (b : Z) : Prop := 0 <= b < 256.
Definition bytes (l : list Z) : Prop := Forall is_byte l.

(** [x << n] on [uint64_t]: undefined when the count is not in [0, 64). *)
Definition shl64 {E} (x n : Z) : outcome E Z :=
  if (0 <=? n) && (n <? 64) then Ok (u64 (Z.shiftl x n)) else Undef.

(** Test of a flag bit: [(flags & mask) != 0]. *)
Definition has (flags mask : Z) : bool := negb (Z.land flags mask =? 0).

(** ** Little-endian byte strings *)
Fixpoint le_val (l : list Z) : Z :=
  match l with
  | [] => 0
  | b :: l' => b + 2 ^ 8 * le_val l'
  end.

Fixpoint le_bytes (n : nat) (v : Z) : list Z :=
  match n with
  | O => []
  | S n' => u8 v :: le_bytes n' (Z.shiftr v 8)
  end.

(** ** Tactics and hint databases *)
Create HintDb netc.

(** [lia] on goals with [/] and [mod] by constants. *)
Ltac dlia := Z.div_mod_to_equations; lia.

(** Destruct the test of the innermost conditional, turning boolean
    comparisons on [Z] into propositions. *)
Ltac bool_to_prop :=
  repeat match goal with
  | H : (_ && _) = true |- _ => apply andb_true_iff in H; destruct H
  | H : (_ && _) = false |- _ => apply andb_false_iff in H
  | H : (_ || _) = false |- _ => apply orb_false_iff in H; destruct H
  | H : negb _ = true |- _ => apply negb_true_iff in H
  | H : negb _ = false |- _ => apply negb_false_iff in H
  | H : (_ =? _) = true |- _ => apply Z.eqb_eq in H
  | H : (_ =? _) = false |- _ => apply Z.eqb_neq in H
  | H : (_ <? _) = true |- _ => apply Z.ltb_lt in H
  | H : (_ <? _) = false |- _ => apply Z.ltb_ge in H
  | H : (_ <=? _) = true |- _ => apply Z.leb_le in H
  | H : (_ <=? _) = false |- _ => apply Z.leb_gt in H
  end.

Ltac case_if :=
  match goal with
  | |- context [if ?b then _ else _] =>
      let E := fresh "E" in destruct b eqn:E; bool_to_prop
  end.

Ltac case_if_in H :=
  match type of H with
  | context [if ?b then _ else _] =>
      let E := fresh "E" in destruct b eqn:E; bool_to_prop
  end.

(** Evaluate a conditional whose test [lia] decides. *)
Ltac if_true :=
  match goal with
  | |- context [if ?b then _ else _] =>
      replace b with true by (symmetry; rewrite ?andb_true_iff, ?orb_true_iff;
        first [lia | apply Z.leb_le; lia | apply Z.ltb_lt; lia | apply Z.eqb_eq; lia])
  end.
Ltac if_false :=
  match goal with
  | |- context [if ?b then _ else _] =>
      replace b with false by (symmetry; rewrite ?andb_false_iff, ?orb_false_iff;
        first [lia | apply Z.leb_gt; lia | apply Z.ltb_ge; lia | apply Z.eqb_neq; lia])
  end.

(** Reduce binds on computed outcomes, and nothing else.  By rewriting: the
    continuation is left alone. *)
Lemma bind_Ok_l {E A B} (a : A) (f : A -> outcome E B) : (Ok a ≫= f) = f a.
Proof. done. Qed.
Lemma bind_Fail_l {E A B} (e : E) (f : A -> outcome E B) : (Fail e ≫= f) = Fail e.
Proof. done. Qed.
Lemma bind_Undef_l {E A B} (f : A -> outcome E B) : (Undef ≫= f) = Undef.
Proof. done. Qed.
Ltac mstep := rewrite ?bind_Ok_l, ?bind_Fail_l, ?bind_Undef_l.

(** Invert a monadic hypothesis [m >>= f = Ok _]. *)
Lemma bind_Ok {E A B} (m : outcome E A) (f : A -> outcome E B) b :
  (m ≫= f) = Ok b <-> exists a, m = Ok a /\ f a = Ok b.
Proof. destruct m; simpl; split; [eauto|intros (? & [= ->] & ?); done|done|by intros (? & ? & _)|done|by intros (? & ? & _)]. Qed.

Lemma Ok_inj {E A} (a b : A) : @Ok E A a = Ok b -> a = b.
Proof. by intros [= ->]. Qed.

Ltac inv_ok :=
  repeat match goal with
  | H : (_ ≫= _) = Ok _ |- _ =>
      let a := fresh "a" in let Ha := fresh "Ha" in
      apply bind_Ok in H; destruct H as (a & Ha & H)
  | H : Ok _ = Ok _ |- _ => injection H as H; subst
  | H : Fail _ = Ok _ |- _ => discriminate H
  | H : Undef = Ok _ |- _ => discriminate H
  end.

(** ** Generic lemmas: folds and arrays *)
Lemma foldM_app {E S A} (f : S -> A -> outcome E S) s l1 l2 :
  foldM f s (l1 ++ l2) = (s' ← foldM f s l1; foldM f s' l2).
Proof.
  revert s. induction l1 as [|a l1 IH]; intros s; simpl; [done|].
  destruct (f s a); simpl; auto.
Qed.

Lemma foldM_snoc {E S A} (f : S -> A -> outcome E S) s l a :
  foldM f s (l ++ [a]) = (s' ← foldM f s l; f s' a).
Proof.
  rewrite foldM_app. destruct (foldM f s l) as [s'| |]; simpl; auto.
  destruct (f s' a); done.
Qed.

Lemma foldM_ext {E S A} (f g : S -> A -> outcome E S) s l :
  (forall s a, a ∈ l -> f s a = g s a) -> foldM f s l = foldM g s l.
Proof.
  revert s. induction l as [|a l IH]; intros s H; simpl; [done|].
  rewrite H by set_solver. destruct (g s a); simpl; auto.
  apply IH. set_solver.
Qed.

Lemma foldM_inv {E S A} (P : S -> Prop) (f : S -> A -> outcome E S) s l :
  (forall s a, P s -> a ∈ l -> exists s', f s a = Ok s' /\ P s') -> P s ->
  exists s', foldM f s l = Ok s' /\ P s'.
Proof.
  revert s. induction l as [|a l IH]; intros s Hf Hs; simpl; [by exists s|].
  destruct (Hf s a Hs) as (s1 & -> & H1); [set_solver|]. mstep. apply IH; [|done].
  intros s2 a2 H2 Ha2. apply Hf; [done|set_solver].
Qed.

Lemma foldM_safe {E S A} (P : S -> Prop) (f : S -> A -> outcome E S) s l :
  (forall s a, P s -> a ∈ l -> (exists e, f s a = Fail e) \/ exists s', f s a = Ok s' /\ P s') -> P s ->
  (exists e, foldM f s l = Fail e) \/ exists s', foldM f s l = Ok s' /\ P s'.
Proof.
  revert s. induction l as [|a l IH]; intros s Hf Hs; simpl; [right; eauto|].
  destruct (Hf s a Hs) as [[e ->]|(s' & -> & Hs')]; [by left|left; eauto|]. mstep.
  apply IH; [|done]. intros. apply Hf; [done|by right].
Qed.

(** The range [s, s + n) grows at its end. *)
Lemma seqZ_snoc s n : 0 <= n -> seqZ s (Z.succ n) = seqZ s n ++ [s + n].
Proof. intros. rewrite <- Z.add_1_r, seqZ_app by lia. done. Qed.

Lemma aget_Some {E A} (l : list A) i x :
  0 <= i -> l !! Z.to_nat i = Some x -> @aget E A l i = Ok x.
Proof. intros Hi Hx. unfold aget. if_false. by rewrite Hx. Qed.

Lemma aget_lookup {E A} (l : list A) i x :
  l !! Z.to_nat i = Some x -> 0 <= i -> @aget E A l i = Ok x.
Proof. intros. by apply aget_Some. Qed.

Lemma aget_Ok {E A} (l : list A) i x :
  @aget E A l i = Ok x <-> 0 <= i /\ l !! Z.to_nat i = Some x.
Proof.
  split; [|intros []; by apply aget_Some].
  unfold aget. case_if; [done|]. destruct (l !! Z.to_nat i) eqn:?; [|done].
  intros [= ->]. auto.
Qed.

Lemma aget_Ok_lt {E A} (l : list A) i x :
  @aget E A l i = Ok x -> 0 <= i < zlen l.
Proof. intros [? ?%lookup_lt_Some]%aget_Ok. lia. Qed.

Lemma aget_total {E A} (l : list A) i :
  0 <= i < zlen l -> exists x, @aget E A l i = Ok x.
Proof.
  intros Hi. destruct (lookup_lt_is_Some_2 l (Z.to_nat i)) as [x Hx]; [lia|].
  exists x. apply aget_Some; [lia|done].
Qed.

Lemma aget_not_Fail {E A} (l : list A) i (e : E) : aget l i <> Fail e.
Proof. unfold aget. case_if; [done|]. by destruct (_ !! _). Qed.

Lemma aset_ok {E A} (l : list A) i x :
  0 <= i < zlen l -> @aset E A l i x = Ok (<[Z.to_nat i := x]> l).
Proof. intros Hi. unfold aset. by if_true. Qed.

Lemma blit_ok {E} buf pos data :
  0 <= pos -> pos + zlen data <= zlen buf ->
  @blit E buf pos data = Ok (take (Z.to_nat pos) buf ++ data ++ drop (Z.to_nat (pos + zlen data)) buf).
Proof. intros. unfold blit. by if_true. Qed.

Lemma peek_ok {E} buf pos n :
  0 <= pos -> 0 <= n -> pos + n <= zlen buf -> @peek E buf pos n = Ok (slice buf pos n).
Proof. intros. unfold peek. by if_true. Qed.

Lemma slice_0 {A} (l : list A) n : slice l 0 n = take (Z.to_nat n) l.
Proof. unfold slice. by rewrite drop_0. Qed.

Lemma peek_take {E} buf n : 0 <= n <= zlen buf -> @peek E buf 0 n = Ok (take (Z.to_nat n) buf).
Proof. intros. rewrite peek_ok by lia. by rewrite slice_0. Qed.

Lemma store_ok {E} cap data : zlen data <= cap -> @store E cap data = Ok data.
Proof. intros. unfold store. by if_true. Qed.

Lemma store_Ok {E} cap data out : @store E cap data = Ok out <-> out = data /\ zlen data <= cap.
Proof. unfold store. case_if; split; [by intros [= ->]|by intros [-> _]|done|intros [_ ?]; lia]. Qed.

Lemma put_ok {E} cap buf data : zlen buf + zlen data <= cap -> @put E cap buf data = Ok (buf ++ data).
Proof. intros. apply store_ok. rewrite length_app. lia. Qed.

Lemma put_Ok {E} cap buf data out :
  @put E cap buf data = Ok out <-> out = buf ++ data /\ zlen buf + zlen data <= cap.
Proof. unfold put. rewrite store_Ok, length_app, Nat2Z.inj_add. done. Qed.

Lemma slice_app_mid {A} (a b c : list A) i n :
  i = zlen a -> n = zlen b -> slice (a ++ b ++ c) i n = b.
Proof. intros -> ->. unfold slice. by rewrite !Nat2Z.id, drop_app_length, take_app_length. Qed.

Lemma slice_app_end {A} (a b : list A) i n :
  i = zlen a -> zlen b <= n -> slice (a ++ b) i n = b.
Proof. intros -> ?. unfold slice. rewrite Nat2Z.id, drop_app_length. apply take_ge. lia. Qed.

Lemma length_slice {A} (l : list A) a n :
  0 <= a -> 0 <= n -> a + n <= zlen l -> zlen (slice l a n) = n.
Proof. intros. unfold slice. rewrite length_take, length_drop. lia. Qed.

Lemma list_eq_lookup_Z {A} (l k : list A) :
  length l = length k ->
  (forall i, 0 <= i < zlen l -> l !! Z.to_nat i = k !! Z.to_nat i) -> l = k.
Proof.
  intros Hlen H. apply list_eq_same_length with (length k); [done..|].
  intros i x y Hi Hx Hy. specialize (H (Z.of_nat i)).
  rewrite Nat2Z.id in H. rewrite H in Hx by lia. congruence.
Qed.

(** ** Generic lemmas: integers *)
Lemma u8_range x : is_byte (u8 x).
Proof. unfold u8, is_byte. by apply (Z.mod_pos_bound x 256). Qed.
#[export] Hint Resolve u8_range : netc.

Lemma u8_small x : is_byte x -> u8 x = x.
Proof. unfold u8, is_byte. intros. apply Z.mod_small. lia. Qed.

Lemma u16_small x : 0 <= x < 65536 -> u16 x = x.
Proof. intros. apply Z.mod_small. lia. Qed.

Lemma u32_small x : 0 <= x < 2 ^ 32 -> u32 x = x.
Proof. intros. by apply Z.mod_small. Qed.

Lemma u64_small x : 0 <= x < 2 ^ 64 -> u64 x = x.
Proof. intros. by apply Z.mod_small. Qed.

Lemma shl64_ok {E} x n : 0 <= n < 64 -> @shl64 E x n = Ok (u64 (x * 2 ^ n)).
Proof. intros. unfold shl64. if_true. by rewrite Z.shiftl_mul_pow2 by lia. Qed.

Lemma pow2_pos n : 0 <= n -> 0 < 2 ^ n.
Proof. intros. apply Z.pow_pos_nonneg; lia. Qed.

Lemma pow2_split a b : 0 <= b <= a -> 2 ^ a = 2 ^ b * 2 ^ (a - b).
Proof. intros. rewrite <- Z.pow_add_r by lia. f_equal. lia. Qed.

(** Bitwise or of values with disjoint bits is addition. *)
Lemma lor_disjoint_add a b n :
  0 <= n -> 0 <= a < 2 ^ n -> Z.lor a (b * 2 ^ n) = a + b * 2 ^ n.
Proof.
  intros Hn Ha. assert (Z.land a (b * 2 ^ n) = 0) as H0.
  { apply Z.bits_inj'. intros i Hi. rewrite Z.land_spec, Z.bits_0.
    destruct (decide (i < n)).
    - rewrite Z.mul_pow2_bits_low by lia. apply andb_false_r.
    - destruct (decide (a = 0)) as [->|]; [by rewrite Z.bits_0|].
      rewrite Z.bits_above_log2; [done|lia|].
      apply Z.lt_le_trans with n; [|lia]. apply Z.log2_lt_pow2; lia. }
  rewrite <- Z.lxor_lor by done. symmetry. by apply Z.add_nocarry_lxor.
Qed.

(** Splitting a 16-bit value into its low and high bytes. *)
Lemma u16_join v : 0 <= v -> Z.lor (Z.land v 0xFF) (Z.shiftl (Z.shiftr v 8) 8) = v.
Proof.
  intros Hv. change 0xFF with (Z.ones 8).
  rewrite Z.land_ones, Z.shiftl_mul_pow2, Z.shiftr_div_pow2 by lia.
  rewrite lor_disjoint_add; [|lia|apply Z.mod_pos_bound; lia].
  rewrite Z.add_comm, (Z.mul_comm (v / 2 ^ 8)). symmetry. apply Z.div_mod. lia.
Qed.

Lemma log2_lt_bound a n : 0 < n -> 0 <= a < 2 ^ n -> Z.log2 a < n.
Proof.
  intros. destruct (decide (a = 0)) as [->|]; [done|]. apply Z.log2_lt_pow2; lia.
Qed.

Lemma lxor_lt a b n :
  0 < n -> 0 <= a < 2 ^ n -> 0 <= b < 2 ^ n -> 0 <= Z.lxor a b < 2 ^ n.
Proof.
  intros Hn Ha Hb. assert (0 <= Z.lxor a b) by (apply Z.lxor_nonneg; lia).
  split; [done|]. destruct (decide (Z.lxor a b = 0)) as [->|Hne]; [lia|].
  apply Z.log2_lt_pow2; [lia|].
  eapply Z.le_lt_trans; [apply Z.log2_lxor; lia|].
  apply Z.max_lub_lt; by apply log2_lt_bound.
Qed.

Lemma lxor_byte a b : is_byte a -> is_byte b -> is_byte (Z.lxor a b).
Proof. apply (lxor_lt a b 8). lia. Qed.
#[export] Hint Resolve lxor_byte : netc.

Lemma lxor_cancel a b : Z.lxor (Z.lxor a b) b = a.
Proof. by rewrite Z.lxor_assoc, Z.lxor_nilpotent, Z.lxor_0_r. Qed.

(** ** Generic lemmas: byte strings *)
Lemma bytes_app l k : bytes (l ++ k) <-> bytes l /\ bytes k.
Proof. apply Forall_app. Qed.

Lemma bytes_cons b l : bytes (b :: l) <-> is_byte b /\ bytes l.
Proof. apply Forall_cons. Qed.

Lemma bytes_nil : bytes [].
Proof. constructor. Qed.
#[export] Hint Resolve bytes_nil : netc.

Lemma bytes_lookup l i b : bytes l -> l !! i = Some b -> is_byte b.
Proof. apply Forall_lookup_1. Qed.

Lemma bytes_aget {E} l i b : bytes l -> @aget E Z l i = Ok b -> is_byte b.
Proof. intros ? [_ ?]%aget_Ok. by eapply bytes_lookup. Qed.

Lemma bytes_take n l : bytes l -> bytes (take n l).
Proof. apply Forall_take. Qed.

Lemma bytes_drop n l : bytes l -> bytes (drop n l).
Proof. apply Forall_drop. Qed.

Lemma bytes_slice l a n : bytes l -> bytes (slice l a n).
Proof. intros. by apply bytes_take, bytes_drop. Qed.
#[export] Hint Resolve bytes_take bytes_drop bytes_slice : netc.

Lemma le_bytes_length n v : length (le_bytes n v) = n.
Proof. revert v. induction n; intros; cbn [le_bytes length]; auto. Qed.

Lemma le_bytes_bytes n v : bytes (le_bytes n v).
Proof. revert v. induction n; intros; cbn [le_bytes]; constructor; [apply u8_range|apply IHn]. Qed.
#[export] Hint Resolve le_bytes_bytes : netc.

Lemma pow2_8_S n : 2 ^ (8 * Z.of_nat (S n)) = 2 ^ 8 * 2 ^ (8 * Z.of_nat n).
Proof. rewrite <- Z.pow_add_r by lia. f_equal. lia. Qed.

Lemma le_val_bytes n v : le_val (le_bytes n v) = v mod 2 ^ (8 * Z.of_nat n).
Proof.
  revert v. induction n as [|n IH]; intros v; cbn [le_bytes le_val].
  { by rewrite Z.mod_1_r. }
  rewrite IH, pow2_8_S, Z.shiftr_div_pow2 by lia. unfold u8.
  rewrite Z.rem_mul_r; [done|lia|apply pow2_pos; lia].
Qed.

Lemma le_val_bound l : bytes l -> 0 <= le_val l < 2 ^ (8 * zlen l).
Proof.
  induction 1 as [|b l Hb Hl IH]; [simpl; lia|]. simpl length. rewrite pow2_8_S.
  simpl le_val. unfold is_byte in Hb. change (2 ^ 8) with 256. nia.
Qed.

Lemma le_val_app l k : le_val (l ++ k) = le_val l + 2 ^ (8 * zlen l) * le_val k.
Proof.
  induction l as [|b l IH]; [simpl; lia|]. simpl app. simpl length. rewrite pow2_8_S.
  simpl le_val. rewrite IH. ring.
Qed.

Lemma le_bytes_val l : bytes l -> le_bytes (length l) (le_val l) = l.
Proof.
  induction 1 as [|b l Hb Hl IH]; [done|]. simpl length. cbn [le_val le_bytes].
  unfold u8. rewrite Z.shiftr_div_pow2 by lia. unfold is_byte in Hb. f_equal.
  - rewrite (Z.mul_comm (2 ^ 8)), Z_mod_plus_full. by apply Z.mod_small.
  - rewrite (Z.mul_comm (2 ^ 8)), Z.div_add by lia. rewrite Z.div_small by lia. by rewrite Z.add_0_l.
Qed.

Lemma le_val_take_drop n l :
  bytes l -> (n <= length l)%nat ->
  le_val (take n l) = le_val l mod 2 ^ (8 * Z.of_nat n) /\
  le_val (drop n l) = le_val l / 2 ^ (8 * Z.of_nat n).
Proof.
  intros Hl Hn. rewrite <- (take_drop n l) at 2 4.
  rewrite le_val_app, length_take_le by done.
  pose proof (le_val_bound (take n l) ltac:(auto with netc)) as Hb.
  rewrite length_take_le in Hb by done.
  pose proof (pow2_pos (8 * Z.of_nat n) ltac:(lia)).
  rewrite (Z.mul_comm _ (le_val (drop n l))). split.
  - rewrite Z_mod_plus_full. by rewrite Z.mod_small.
  - rewrite Z.div_add, Z.div_small by lia. lia.
Qed.

#[global] Arguments le_bytes : simpl never.
