(* ===== verification/Bitstream.v ===== *)
(** * Bit-level I/O of the tANS codec (src/src/util/netc_bitstream.h)

    The writer packs bits LSB-first through a 64-bit accumulator that is
    flushed 32 bits at a time; the reader consumes the stream from its last
    byte backwards.  [Module Bsw] and [Module Bsr] translate the two; the
    abstract view of both is one integer [W] of [N] bits ([bsw_rep],
    [bsr_rep]): a write pushes bits on top of [W], a read pops them, so the
    stream is a stack of bits.  The codec's theorems only use this view. *)

From stdpp Require Import prelude.
From Stdlib Require Import ZArith Lia.
From S2P Require Import Prelude.

Local Open Scope Z_scope.

(** ** Writer *)

(** [w_buf] are the bytes in [start, ptr), [w_cap] is [end - start]. *)
Record netc_bsw_t := BSW {
  w_buf : list Z;
  w_cap : Z;
  w_accum : Z;
  w_bits : Z;
}.

Definition netc_bsw_init (cap : Z) : netc_bsw_t := BSW [] cap 0 0.

Definition netc_bsw_write (w : netc_bsw_t) (v nb : Z) : outcome unit netc_bsw_t :=
  sh ← shl64 v (w_bits w);
  let accum := Z.lor (w_accum w) sh in
  let bits := w_bits w + nb in
  if 32 <=? bits then
    if w_cap w <? zlen (w_buf w) + 4 then Fail tt
    else buf ← put (w_cap w) (w_buf w) (le_bytes 4 (u32 accum));
         Ok (BSW buf (w_cap w) (Z.shiftr accum 32) (bits - 32))
  else Ok (BSW (w_buf w) (w_cap w) accum bits).

(** The [while (w->bits > 0)] loop; [fuel] bounds the iterations. *)
Fixpoint bsw_flush_loop (fuel : nat) (w : netc_bsw_t) : outcome unit (list Z) :=
  match fuel with
  | O => Undef
  | S fuel' =>
      if 0 <? w_bits w then
        if w_cap w <=? zlen (w_buf w) then Fail tt
        else buf ← put (w_cap w) (w_buf w) [Z.land (w_accum w) 0xFF];
             bsw_flush_loop fuel' (BSW buf (w_cap w) (Z.shiftr (w_accum w) 8) (w_bits w - 8))
      else Ok (w_buf w)
  end.

(** The flushed stream (its length is the returned byte count).  At most 32
    bits are pending, so 5 tests of the loop condition are enough; [9] covers
    a full 64-bit accumulator. *)
Definition netc_bsw_flush (w : netc_bsw_t) : outcome unit (list Z) :=
  sh ← shl64 1 (w_bits w);
  bsw_flush_loop 9 (BSW (w_buf w) (w_cap w) (Z.lor (w_accum w) sh) (w_bits w + 1)).

Definition netc_bsw_size (w : netc_bsw_t) : Z := zlen (w_buf w).

(** ** Reader *)

(** [r_ptr] is [ptr - start]: the number of bytes not yet loaded. *)
Record netc_bsr_t := BSR {
  r_buf : list Z;
  r_ptr : Z;
  r_accum : Z;
  r_bits : Z;
}.

Definition netc_bsr__floorlog2_byte (v : Z) : Z :=
  let '(v, n) := if has v 0xF0 then (Z.shiftr v 4, 4) else (v, 0) in
  let '(v, n) := if has v 0x0C then (Z.shiftr v 2, n + 2) else (v, n) in
  if has v 0x02 then n + 1 else n.

Definition netc_bsr_init (buf : list Z) : outcome unit netc_bsr_t :=
  let size := zlen buf in
  if size =? 0 then Ok (BSR buf 0 0 0) else
  let fill := if size <? 8 then size else 8 in
  raw ← foldM (fun raw i =>
          b ← aget buf (size - fill + i);
          sh ← shl64 b (i * 8);
          Ok (Z.lor raw sh)) 0 (seqZ 0 fill);
  let total_bits := fill * 8 in
  accum ← shl64 raw (64 - total_bits);
  let last_byte := u8 (Z.shiftr accum 56) in
  if last_byte =? 0 then Ok (BSR buf (size - fill) accum 0) else
  let lead_zeros := 7 - netc_bsr__floorlog2_byte last_byte in
  let skip := lead_zeros + 1 in
  accum' ← shl64 accum skip;
  let bits := total_bits - skip in
  Ok (BSR buf (size - fill) accum' (if bits <? 0 then 0 else bits)).

(** [accum >> (64 - nb)], for [nb] in 1..32. *)
Definition netc_bsr_peek (r : netc_bsr_t) (nb : Z) : outcome unit Z :=
  if (1 <=? nb) && (nb <=? 64)
  then Ok (u32 (Z.shiftr (r_accum r) (64 - nb))) else Undef.

(** The refill loop: each round loads one byte and adds 8 bits, so 9 rounds
    reach [bits > 56] from any [bits >= -7]; below that the shift count of the
    first round is already out of range. *)
Fixpoint bsr_refill (fuel : nat) (r : netc_bsr_t) : outcome unit netc_bsr_t :=
  match fuel with
  | O => Undef
  | S fuel' =>
      if (r_bits r <=? 56) && (0 <? r_ptr r) then
        b ← aget (r_buf r) (r_ptr r - 1);
        sh ← shl64 b (56 - r_bits r);
        bsr_refill fuel' (BSR (r_buf r) (r_ptr r - 1)
                              (Z.lor (r_accum r) sh) (r_bits r + 8))
      else Ok r
  end.

Definition netc_bsr_consume (r : netc_bsr_t) (nb : Z) : outcome unit netc_bsr_t :=
  accum ← shl64 (r_accum r) nb;
  r' ← bsr_refill 10 (BSR (r_buf r) (r_ptr r) accum (r_bits r - nb));
  if 0 <=? r_bits r' then Ok r' else Fail tt.

Definition netc_bsr_read (r : netc_bsr_t) (nb : Z) : outcome unit (Z * netc_bsr_t) :=
  out ← netc_bsr_peek r nb;
  r' ← netc_bsr_consume r nb;
  Ok (out, r').

Definition netc_bsr_empty (r : netc_bsr_t) : bool :=
  (r_bits r <=? 0) && (r_ptr r <=? 0).

(** ** The bit-stack view *)

(** The writer holds the [N]-bit integer [W]. *)
Record bsw_rep (w : netc_bsw_t) (W N : Z) : Prop := {
  bsw_bytes : bytes (w_buf w);
  bsw_fits : zlen (w_buf w) <= w_cap w;
  bsw_bits : 0 <= w_bits w < 32;
  bsw_accum : 0 <= w_accum w < 2 ^ w_bits w;
  bsw_count : N = 8 * zlen (w_buf w) + w_bits w;
  bsw_value : W = le_val (w_buf w) + w_accum w * 2 ^ (8 * zlen (w_buf w));
}.

(** The reader still has to deliver the [N] bits of [W], topmost first: the
    window holds the top bits, the bytes below [ptr] the rest. *)
Record bsr_core (r : netc_bsr_t) (W N : Z) : Prop := {
  bsr_bytes : bytes (r_buf r);
  bsr_ptr : 0 <= r_ptr r <= zlen (r_buf r);
  bsr_bits : 0 <= r_bits r <= 64;
  bsr_count : N = 8 * r_ptr r + r_bits r;
  bsr_range : 0 <= W < 2 ^ N;
  bsr_accum : r_accum r = W / 2 ^ (8 * r_ptr r) * 2 ^ (64 - r_bits r);
  bsr_low : W mod 2 ^ (8 * r_ptr r) = le_val (take (Z.to_nat (r_ptr r)) (r_buf r));
}.

(** Between operations the window is full unless the bytes ran out. *)
Definition bsr_rep (r : netc_bsr_t) (W N : Z) : Prop :=
  bsr_core r W N /\ (56 <= r_bits r \/ r_ptr r = 0).

(** A flushed stream: the [N] bits of [W] below the sentinel bit. *)
Definition sealed (out : list Z) (W N : Z) : Prop :=
  bytes out /\ 0 <= N /\ 0 <= W < 2 ^ N /\
  le_val out = W + 2 ^ N /\ zlen out = N / 8 + 1.

(** *** Writer lemmas *)
Lemma bsw_init_rep cap : 0 <= cap -> bsw_rep (netc_bsw_init cap) 0 0.
Proof. intros. split; simpl; try lia. constructor. Qed.

Lemma bsw_rep_range w W N : bsw_rep w W N -> 0 <= N /\ 0 <= W < 2 ^ N.
Proof.
  intros [Hb _ Hbits Hacc -> ->]. pose proof (le_val_bound _ Hb).
  rewrite Z.pow_add_r by lia. split; [lia|].
  pose proof (pow2_pos (8 * zlen (w_buf w)) ltac:(lia)).
  pose proof (pow2_pos (w_bits w) ltac:(lia)). nia.
Qed.

(** Writing [nb] bits pushes them on top, or fails for lack of room. *)
Lemma bsw_write_spec w W N v nb :
  bsw_rep w W N -> 0 <= nb <= 32 -> 0 <= v < 2 ^ nb ->
  (exists w', netc_bsw_write w v nb = Ok w' /\ w_cap w' = w_cap w /\
     bsw_rep w' (W + v * 2 ^ N) (N + nb)) \/
  (netc_bsw_write w v nb = Fail tt /\ 8 * w_cap w < N + nb + 32).
Proof.
  intros [Hb Hcap Hbits Hacc HN HW] Hnb Hv. unfold netc_bsw_write.
  set (len := zlen (w_buf w)) in *. set (bits := w_bits w) in *.
  assert (Hsh : 0 <= v * 2 ^ bits < 2 ^ (bits + nb)).
  { rewrite Z.pow_add_r by lia. pose proof (pow2_pos bits ltac:(lia)). nia. }
  assert (Hlt : 2 ^ (bits + nb) <= 2 ^ 63) by (apply Z.pow_le_mono_r; lia).
  rewrite shl64_ok by lia. simpl. rewrite u64_small by lia.
  rewrite lor_disjoint_add by lia. set (accum := w_accum w + v * 2 ^ bits).
  assert (Ha : 0 <= accum < 2 ^ (bits + nb)).
  { subst accum. rewrite Z.pow_add_r by lia. nia. }
  assert (HWv : W + v * 2 ^ N = le_val (w_buf w) + accum * 2 ^ (8 * len)).
  { subst accum. rewrite HW, HN, Z.pow_add_r by lia. ring. }
  case_if; [case_if|].
  - right. split; [done|]. subst len; lia.
  - left. rewrite put_ok by (rewrite le_bytes_length; subst len; lia). mstep. eexists. split; [done|]. split; [done|]. split; simpl.
    + apply bytes_app; split; [done|apply le_bytes_bytes].
    + rewrite length_app, le_bytes_length. lia.
    + lia.
    + rewrite Z.shiftr_div_pow2 by lia. split; [apply Z.div_pos; lia|].
      apply Z.div_lt_upper_bound; [lia|]. rewrite <- Z.pow_add_r by lia.
      replace (32 + (bits + nb - 32)) with (bits + nb) by lia. lia.
    + rewrite length_app, le_bytes_length. lia.
    + rewrite HWv, le_val_app, le_val_bytes, length_app, le_bytes_length.
      unfold u32. change (8 * Z.of_nat 4) with 32. rewrite Z.mod_mod by lia.
      rewrite Z.shiftr_div_pow2 by lia. fold len.
      replace (8 * Z.of_nat (length (w_buf w) + 4)) with (8 * len + 32) by lia.
      rewrite Z.pow_add_r by lia.
      rewrite (Z.div_mod accum (2 ^ 32)) at 1 by lia. ring.
  - left. eexists. split; [done|]. split; [done|]. split; simpl; try done; lia.
Qed.

Lemma bsw_flush_loop_spec fuel w :
  bytes (w_buf w) -> -8 < w_bits w <= 8 * (Z.of_nat fuel - 1) ->
  0 <= w_accum w < 2 ^ Z.max 0 (w_bits w) ->
  (exists out, bsw_flush_loop fuel w = Ok out /\ bytes out /\
     le_val out = le_val (w_buf w) + w_accum w * 2 ^ (8 * zlen (w_buf w)) /\
     zlen out = zlen (w_buf w) + (Z.max 0 (w_bits w) + 7) / 8) \/
  (bsw_flush_loop fuel w = Fail tt /\
     w_cap w < zlen (w_buf w) + (Z.max 0 (w_bits w) + 7) / 8).
Proof.
  revert w. induction fuel as [|fuel IH]; intros w Hb Hbits Hacc; [lia|].
  simpl. case_if; [case_if|].
  - right. split; [done|]. dlia.
  - rewrite Z.max_r in Hacc by lia. rewrite put_ok by (simpl; lia). simpl. set (w' := BSW _ _ _ _).
    assert (Hlen : zlen (w_buf w') = zlen (w_buf w) + 1)
      by (subst w'; simpl; rewrite length_app; simpl; lia).
    assert (Hlow : Z.land (w_accum w) 255 = w_accum w mod 2 ^ 8)
      by exact (Z.land_ones (w_accum w) 8 ltac:(lia)).
    destruct (IH w') as [(out & -> & Hout & Hv & Hl)|[-> Hl]].
    + subst w'; simpl. apply bytes_app. split; [done|].
      repeat constructor; rewrite Hlow; apply Z.mod_pos_bound; lia.
    + subst w'; simpl; lia.
    + subst w'; simpl. rewrite Z.shiftr_div_pow2 by lia. split; [apply Z.div_pos; lia|].
      apply Z.div_lt_upper_bound; [lia|]. rewrite <- Z.pow_add_r by lia.
      eapply Z.lt_le_trans; [apply Hacc|]. apply Z.pow_le_mono_r; lia.
    + left. exists out. split; [done|]. split; [done|]. rewrite Hlen in Hv, Hl. split.
      * rewrite Hv. subst w'; simpl w_buf; simpl w_accum.
        rewrite le_val_app. simpl le_val. rewrite Hlow, Z.shiftr_div_pow2 by lia.
        replace (8 * (zlen (w_buf w) + 1)) with (8 * zlen (w_buf w) + 8) by lia.
        rewrite Z.pow_add_r by lia.
        rewrite (Z.div_mod (w_accum w) (2 ^ 8)) at 3 by lia. ring.
      * subst w'; simpl in Hl. dlia.
    + right. split; [done|]. rewrite Hlen in Hl. subst w'; simpl in Hl. dlia.
  - left. exists (w_buf w). rewrite Z.max_l in * by lia. change (2 ^ 0) with 1 in Hacc.
    replace (w_accum w) with 0 by lia. repeat split; [done|lia|]. change ((0 + 7) / 8) with 0. lia.
Qed.

(** Flushing seals the stack, or fails for lack of room. *)
Lemma bsw_flush_spec w W N :
  bsw_rep w W N ->
  (exists out, netc_bsw_flush w = Ok out /\ sealed out W N) \/
  (netc_bsw_flush w = Fail tt /\ w_cap w < N / 8 + 1).
Proof.
  intros Hrep. destruct (bsw_rep_range _ _ _ Hrep) as [HN0 HW0].
  destruct Hrep as [Hb Hcap Hbits Hacc HN HW].
  unfold netc_bsw_flush. rewrite shl64_ok by lia. mstep.
  rewrite u64_small; cycle 1.
  { rewrite Z.mul_1_l. split; [apply Z.pow_nonneg; lia|apply Z.pow_lt_mono_r; lia]. }
  rewrite lor_disjoint_add by lia.
  pose proof (pow2_pos (w_bits w) ltac:(lia)).
  set (w1 := BSW _ _ _ _).
  assert (Hrest : (Z.max 0 (w_bits w1) + 7) / 8 = N / 8 + 1 - zlen (w_buf w))
    by (subst w1; simpl; dlia).
  assert (Hw1 : w_buf w1 = w_buf w /\ w_cap w1 = w_cap w) by (split; reflexivity).
  destruct Hw1 as [Hw1 Hc1].
  destruct (bsw_flush_loop_spec 9 w1) as [(out & -> & Hout & Hv & Hl)|[-> Hl]].
  - by rewrite Hw1.
  - subst w1; simpl; lia.
  - subst w1; cbn [w_accum w_bits]. rewrite Z.max_r by lia. rewrite Z.pow_add_r by lia. lia.
  - left. exists out. split; [done|]. rewrite Hrest, Hw1 in Hl. rewrite Hw1 in Hv.
    split; [done|]. split; [done|]. split; [done|]. split; [|lia].
    rewrite Hv, HW, HN, Z.pow_add_r by lia. subst w1; cbn [w_accum]. ring.
  - right. split; [done|]. rewrite Hrest, Hw1, Hc1 in Hl. lia.
Qed.

(** *** Reader lemmas *)

Lemma mod_div_pow2 W a b :
  0 <= a -> 0 <= b -> W mod 2 ^ (a + b) / 2 ^ a = (W / 2 ^ a) mod 2 ^ b.
Proof.
  intros. pose proof (pow2_pos a ltac:(lia)). pose proof (pow2_pos b ltac:(lia)).
  rewrite Z.pow_add_r, Z.rem_mul_r by lia.
  rewrite (Z.mul_comm (2 ^ a)), Z.div_add by lia.
  rewrite Z.div_small; [done|]. by apply Z.mod_pos_bound.
Qed.

Lemma mod_mod_pow2 W a b : 0 <= a <= b -> (W mod 2 ^ b) mod 2 ^ a = W mod 2 ^ a.
Proof.
  intros. rewrite (pow2_split b a) by lia.
  pose proof (pow2_pos a ltac:(lia)). pose proof (pow2_pos (b - a) ltac:(lia)).
  rewrite Z.rem_mul_r, (Z.mul_comm (2 ^ a)), Z.mod_add by lia. by rewrite Z.mod_mod by lia.
Qed.

(** Shifting the top-aligned window left by [nb] drops its [nb] top bits. *)
Lemma window_shift h bits nb :
  0 <= nb <= bits -> bits <= 64 ->
  u64 (h * 2 ^ (64 - bits) * 2 ^ nb) = h mod 2 ^ (bits - nb) * 2 ^ (64 - (bits - nb)).
Proof.
  intros. unfold u64. rewrite <- Z.mul_assoc, <- Z.pow_add_r by lia.
  replace (64 - bits + nb) with (64 - (bits - nb)) by lia.
  rewrite (pow2_split 64 (bits - nb)) by lia. apply Zmult_mod_distr_r.
Qed.

Lemma byte_shift_bound b n : is_byte b -> 0 <= n -> 0 <= b * 2 ^ n < 2 ^ (8 + n).
Proof.
  intros Hb Hn. rewrite Z.pow_add_r by lia. pose proof (pow2_pos n Hn).
  unfold is_byte in Hb. change (2 ^ 8) with 256. nia.
Qed.

(** The byte below the window is the next digit of [W]. *)
Lemma bsr_next_byte r W N b :
  bsr_core r W N -> 0 < r_ptr r -> r_buf r !! Z.to_nat (r_ptr r - 1) = Some b ->
  W / 2 ^ (8 * (r_ptr r - 1)) = W / 2 ^ (8 * r_ptr r) * 2 ^ 8 + b /\
  W mod 2 ^ (8 * (r_ptr r - 1)) = le_val (take (Z.to_nat (r_ptr r - 1)) (r_buf r)).
Proof.
  intros [Hby Hptr _ _ _ _ Hlow] Hp Hb. set (p := r_ptr r) in *.
  replace (Z.to_nat p) with (S (Z.to_nat (p - 1))) in Hlow by lia.
  rewrite (take_S_r _ _ _ Hb), le_val_app in Hlow. cbn [le_val] in Hlow.
  pose proof (le_val_bound (take (Z.to_nat (p - 1)) (r_buf r)) ltac:(auto with netc)) as Hlb.
  rewrite length_take_le in Hlow, Hlb by lia.
  replace (8 * Z.of_nat (Z.to_nat (p - 1))) with (8 * (p - 1)) in Hlow, Hlb by lia.
  set (q := 8 * (p - 1)) in *. set (low := le_val (take _ _)) in *.
  replace (8 * p) with (q + 8) in * by lia.
  pose proof (pow2_pos q ltac:(lia)).
  assert (HW : W = (W / 2 ^ (q + 8) * 2 ^ 8 + b) * 2 ^ q + low).
  { rewrite (Z.div_mod W (2 ^ (q + 8))) at 1 by (apply Z.pow_nonzero; lia).
    rewrite Hlow, Z.pow_add_r by lia. ring. }
  split.
  - rewrite HW at 1. rewrite Z.div_add_l by lia. rewrite (Z.div_small low) by exact Hlb. ring.
  - rewrite HW, Z.add_comm, Z.mod_add by lia. by apply Z.mod_small.
Qed.

Lemma bsr_refill_step r W N b :
  bsr_core r W N -> r_bits r <= 56 -> 0 < r_ptr r ->
  r_buf r !! Z.to_nat (r_ptr r - 1) = Some b ->
  bsr_core (BSR (r_buf r) (r_ptr r - 1)
              (Z.lor (r_accum r) (u64 (b * 2 ^ (56 - r_bits r)))) (r_bits r + 8)) W N.
Proof.
  intros Hc Hbits Hp Hb. destruct (bsr_next_byte _ _ _ _ Hc Hp Hb) as [Hdiv Hmod].
  destruct Hc as [Hby Hptr Hbits0 HN HW Hacc Hlow].
  pose proof (byte_shift_bound b (56 - r_bits r) (bytes_lookup _ _ _ Hby Hb) ltac:(lia)) as Hs.
  split; cbn [r_buf r_ptr r_accum r_bits]; [done|lia|lia|lia|done| |done].
  replace (8 + (56 - r_bits r)) with (64 - r_bits r) in Hs by lia.
  assert (2 ^ (64 - r_bits r) <= 2 ^ 64) by (apply Z.pow_le_mono_r; lia).
  rewrite u64_small by lia. rewrite Hacc, Hdiv, Z.lor_comm.
  rewrite lor_disjoint_add by lia.
  replace (64 - (r_bits r + 8)) with (56 - r_bits r) by lia.
  replace (64 - r_bits r) with (8 + (56 - r_bits r)) by lia.
  rewrite Z.pow_add_r by lia. ring.
Qed.

Lemma bsr_refill_stop fuel r :
  r_ptr r <= 0 -> bsr_refill (S fuel) r = Ok r.
Proof. intros. simpl. by if_false. Qed.

Lemma bsr_refill_spec fuel r W N :
  bsr_core r W N -> 57 - r_bits r <= 8 * (Z.of_nat fuel - 1) -> (0 < fuel)%nat ->
  exists r', bsr_refill fuel r = Ok r' /\ bsr_rep r' W N.
Proof.
  revert r. induction fuel as [|fuel IH]; intros r Hc Hf Hpos; [lia|]. simpl.
  case_if.
  - pose proof (bsr_ptr _ _ _ Hc). pose proof (bsr_bits _ _ _ Hc).
    destruct (lookup_lt_is_Some_2 (r_buf r) (Z.to_nat (r_ptr r - 1))) as [b Hb]; [lia|].
    rewrite (aget_Some _ _ b) by (done || lia). mstep. rewrite shl64_ok by lia. mstep.
    apply IH; [by apply bsr_refill_step|simpl; lia|lia].
  - exists r. split; [done|]. split; [done|].
    pose proof (bsr_ptr _ _ _ Hc). pose proof (bsr_bits _ _ _ Hc). lia.
Qed.

(** Dropping [nb] bits of the window. *)
Lemma bsr_drop_core r W N nb :
  bsr_core r W N -> 0 <= nb <= r_bits r ->
  bsr_core (BSR (r_buf r) (r_ptr r) (u64 (r_accum r * 2 ^ nb)) (r_bits r - nb))
           (W mod 2 ^ (N - nb)) (N - nb).
Proof.
  intros [Hby Hptr Hbits HN HW Hacc Hlow] Hnb.
  split; cbn [r_buf r_ptr r_accum r_bits]; [done|done|lia|lia| | |].
  - apply Z.mod_pos_bound, pow2_pos. lia.
  - rewrite Hacc, window_shift by lia. f_equal.
    replace (N - nb) with (8 * r_ptr r + (r_bits r - nb)) by lia.
    rewrite mod_div_pow2 by lia. done.
  - rewrite mod_mod_pow2 by lia. done.
Qed.

(** Reading [nb] bits pops them; it fails exactly when fewer remain. *)
Lemma bsr_read_spec r W N nb :
  bsr_rep r W N -> 1 <= nb <= 32 ->
  if nb <=? N then
    exists r', netc_bsr_read r nb = Ok (W / 2 ^ (N - nb), r') /\
      bsr_rep r' (W mod 2 ^ (N - nb)) (N - nb)
  else netc_bsr_read r nb = Fail tt.
Proof.
  intros [Hc Hfull] Hnb. pose proof (bsr_count _ _ _ Hc) as HN.
  pose proof (bsr_bits _ _ _ Hc) as Hbits. pose proof (bsr_ptr _ _ _ Hc) as Hptr.
  unfold netc_bsr_read, netc_bsr_peek, netc_bsr_consume. if_true. mstep.
  rewrite shl64_ok by lia. mstep. case_if.
  - destruct (bsr_refill_spec 10 _ _ _ (bsr_drop_core r W N nb Hc ltac:(lia)))
      as (r' & -> & Hrep'); [simpl; lia|lia|]. mstep.
    pose proof (bsr_bits _ _ _ (proj1 Hrep')). if_true. mstep.
    exists r'. split; [|done]. do 2 f_equal.
    pose proof (bsr_range _ _ _ Hc) as HW.
    rewrite Z.shiftr_div_pow2, (bsr_accum _ _ _ Hc) by lia.
    replace (64 - nb) with ((64 - r_bits r) + (r_bits r - nb)) by lia.
    rewrite Z.pow_add_r, <- Z.div_div by (try apply pow2_pos; try apply Z.pow_nonzero; lia).
    rewrite Z.div_mul by (apply Z.pow_nonzero; lia).
    rewrite Z.div_div, <- Z.pow_add_r by (try apply pow2_pos; try apply Z.pow_nonzero; lia).
    replace (8 * r_ptr r + (r_bits r - nb)) with (N - nb) by lia.
    apply u32_small. split; [apply Z.div_pos; [lia|apply pow2_pos; lia]|].
    apply Z.div_lt_upper_bound; [apply pow2_pos; lia|]. rewrite <- Z.pow_add_r by lia.
    eapply Z.lt_le_trans; [apply HW|]. apply Z.pow_le_mono_r; lia.
  - rewrite bsr_refill_stop by (cbn [r_ptr]; lia). mstep. cbn [r_bits]. by if_false.
Qed.

(** *** Opening a stream *)

Lemma floorlog2_byte_log2 v : 1 <= v < 256 -> netc_bsr__floorlog2_byte v = Z.log2 v.
Proof.
  intros Hv.
  assert (Hall : forallb (fun v => netc_bsr__floorlog2_byte v =? Z.log2 v) (seqZ 1 255) = true)
    by (vm_compute; reflexivity).
  rewrite forallb_forall in Hall. apply Z.eqb_eq, Hall, list_elem_of_In, elem_of_seqZ. lia.
Qed.

(** The load loop assembles the last [fill] bytes, little-endian. *)
Lemma bsr_load_spec buf (s n : nat) :
  bytes buf -> (s + n <= length buf)%nat -> (n <= 8)%nat ->
  foldM (fun raw i =>
           b ← aget buf (Z.of_nat s + i); sh ← shl64 b (i * 8);
           (Ok (Z.lor raw sh) : outcome unit Z)) 0 (seqZ 0 (Z.of_nat n))
  = Ok (le_val (take n (drop s buf))).
Proof.
  intros Hb. induction n as [|n IH]; intros Hn H8; [done|].
  rewrite Nat2Z.inj_succ, seqZ_snoc by lia. rewrite foldM_snoc, IH by lia. mstep.
  destruct (lookup_lt_is_Some_2 buf (s + n)) as [b Hbn]; [lia|].
  rewrite Z.add_0_l, (aget_Some _ _ b) by
    (lia || (replace (Z.to_nat (Z.of_nat s + Z.of_nat n)) with (s + n)%nat by lia; done)).
  mstep. rewrite shl64_ok by lia. mstep. f_equal.
  pose proof (byte_shift_bound b (Z.of_nat n * 8) (bytes_lookup _ _ _ Hb Hbn) ltac:(lia)).
  rewrite u64_small; cycle 1.
  { split; [lia|]. eapply Z.lt_le_trans; [apply H|]. apply Z.pow_le_mono_r; lia. }
  assert (Hlen : length (take n (drop s buf)) = n)
    by (rewrite length_take_le; rewrite ?length_drop; lia).
  pose proof (le_val_bound (take n (drop s buf)) ltac:(auto with netc)) as Hlb.
  rewrite Hlen in Hlb. rewrite lor_disjoint_add by (rewrite ?(Z.mul_comm _ 8); lia).
  rewrite (take_S_r _ _ b) by (by rewrite lookup_drop). rewrite le_val_app, Hlen.
  cbn [le_val]. rewrite (Z.mul_comm 8). ring.
Qed.

(** [netc_bsr_init], with the loop evaluated. *)
Lemma bsr_init_eq buf :
  bytes buf -> buf <> [] ->
  let fill := Z.min (zlen buf) 8 in
  let raw := le_val buf / 2 ^ (8 * (zlen buf - fill)) in
  let accum := raw * 2 ^ (64 - fill * 8) in
  let last := u8 (Z.shiftr accum 56) in
  let skip := 7 - netc_bsr__floorlog2_byte last + 1 in
  0 <= raw < 2 ^ (fill * 8) /\
  netc_bsr_init buf =
    if last =? 0 then Ok (BSR buf (zlen buf - fill) accum 0)
    else accum' ← shl64 accum skip;
         Ok (BSR buf (zlen buf - fill) accum'
               (if fill * 8 - skip <? 0 then 0 else fill * 8 - skip)).
Proof.
  intros Hb Hne fill raw accum last skip.
  assert (0 < length buf)%nat by (destruct buf; [done|simpl; lia]).
  set (s := (length buf - Z.to_nat fill)%nat).
  assert (Hs : zlen buf - fill = Z.of_nat s) by lia.
  destruct (le_val_take_drop s buf Hb ltac:(lia)) as [_ Hd].
  assert (Hraw : le_val (drop s buf) = raw) by (subst raw; by rewrite Hs, Hd).
  assert (Hlen : length (drop s buf) = Z.to_nat fill) by (rewrite length_drop; lia).
  pose proof (le_val_bound (drop s buf) ltac:(auto with netc)) as Hrb.
  rewrite Hraw, Hlen in Hrb. replace (8 * Z.of_nat (Z.to_nat fill)) with (fill * 8) in Hrb by lia.
  split; [done|]. unfold netc_bsr_init. if_false.
  replace (if zlen buf <? 8 then zlen buf else 8) with fill by (case_if; lia).
  rewrite Hs. replace (seqZ 0 fill) with (seqZ 0 (Z.of_nat (Z.to_nat fill))) by (f_equal; lia).
  rewrite bsr_load_spec by (done || lia). mstep.
  rewrite take_ge by lia. rewrite Hraw, shl64_ok by lia. mstep.
  rewrite u64_small; [done|]. fold accum.
  subst accum. pose proof (pow2_pos (64 - fill * 8) ltac:(lia)). split; [nia|].
  rewrite (pow2_split 64 (fill * 8)) by lia. apply Z.mul_lt_mono_pos_r; lia.
Qed.

(** Opening a sealed stream restores the stack: the sentinel is located and
    skipped together with the padding above it. *)
Lemma bsr_init_sealed out W N :
  sealed out W N -> exists r, netc_bsr_init out = Ok r /\ bsr_rep r W N.
Proof.
  intros (Hb & HN0 & HW & Hv & Hlen).
  assert (Hne : out <> []) by (intros ->; simpl in Hlen; dlia).
  destruct (bsr_init_eq out Hb Hne) as [Hraw ->].
  set (fill := Z.min (zlen out) 8) in *. set (p := zlen out - fill) in *.
  set (raw := le_val out / 2 ^ (8 * p)) in *. set (m := N mod 8).
  assert (Hbits : N - 8 * p = fill * 8 - (8 - m)) by (subst m p; dlia).
  assert (Hm : 0 <= m < 8) by (apply Z.mod_pos_bound; lia).
  set (bits := N - 8 * p) in *.
  assert (Hf : 1 <= fill <= 8) by (subst fill; dlia).
  pose proof (pow2_pos (8 * p) ltac:(lia)) as Hp0.
  assert (Hrawv : raw = W / 2 ^ (8 * p) + 2 ^ bits).
  { subst raw. rewrite Hv, (pow2_split N (8 * p)) by lia. rewrite Z.add_comm, Z.mul_comm.
    rewrite Z.div_add_l by lia. fold bits. lia. }
  assert (Hwhi : 0 <= W / 2 ^ (8 * p) < 2 ^ bits).
  { split; [apply Z.div_pos; lia|]. apply Z.div_lt_upper_bound; [lia|].
    subst bits. rewrite <- Z.pow_add_r by lia. replace (8 * p + (N - 8 * p)) with N by lia. lia. }
  assert (Hlast : Z.shiftr (raw * 2 ^ (64 - fill * 8)) 56 = raw / 2 ^ (fill * 8 - 8)).
  { rewrite Z.shiftr_div_pow2 by lia.
    replace 56 with ((64 - fill * 8) + (fill * 8 - 8)) by lia.
    rewrite Z.pow_add_r, <- Z.div_div by (try apply Z.pow_nonzero; try apply pow2_pos; lia).
    by rewrite Z.div_mul by (apply Z.pow_nonzero; lia). }
  rewrite Hlast. clear Hlast.
  assert (Hlo : 2 ^ m <= raw / 2 ^ (fill * 8 - 8) < 2 ^ (m + 1)).
  { pose proof (pow2_pos (fill * 8 - 8) ltac:(lia)).
    assert (2 ^ bits = 2 ^ (fill * 8 - 8) * 2 ^ m)
      by (rewrite <- Z.pow_add_r by lia; f_equal; lia).
    split.
    - apply Z.div_le_lower_bound; lia.
    - apply Z.div_lt_upper_bound; [lia|]. rewrite Z.pow_add_r by lia. lia. }
  assert (2 ^ (m + 1) <= 2 ^ 8) by (apply Z.pow_le_mono_r; lia).
  pose proof (pow2_pos m ltac:(lia)). change (2 ^ 8) with 256 in *.
  rewrite u8_small by (unfold is_byte; lia). if_false.
  rewrite floorlog2_byte_log2 by lia.
  rewrite (Z.log2_unique _ m) by (rewrite <- ?Z.add_1_r; lia).
  rewrite shl64_ok by lia. mstep. eexists. split; [done|].
  if_false. replace (fill * 8 - (7 - m + 1)) with bits by lia.
  split; [split|]; cbn [r_buf r_ptr r_accum r_bits]; try done; try lia.
  - replace (64 - fill * 8) with (64 - (bits + (7 - m + 1))) by lia.
    rewrite window_shift by lia. fold p.
    replace (bits + (7 - m + 1) - (7 - m + 1)) with bits by lia. f_equal.
    rewrite Hrawv, Z.add_mod, Z.mod_same, Z.add_0_r, Z.mod_mod by (apply Z.pow_nonzero; lia).
    by apply Z.mod_small.
  - destruct (le_val_take_drop (Z.to_nat p) out Hb ltac:(lia)) as [-> _].
    rewrite Hv, Z2Nat.id by lia. rewrite (pow2_split N (8 * p)) by lia.
    rewrite (Z.mul_comm (2 ^ (8 * p))). by rewrite Z.mod_add by lia.
Qed.

(** *** Reading arbitrary bytes

    What the decoder relies on for untrusted input: no read is undefined, and
    the value delivered fits the width asked for. *)
Definition bsr_safe (r : netc_bsr_t) : Prop :=
  bytes (r_buf r) /\ 0 <= r_ptr r <= zlen (r_buf r) /\ 0 <= r_bits r <= 64 /\
  (56 <= r_bits r \/ r_ptr r = 0) /\ 0 <= r_accum r < 2 ^ 64.

Lemma lor_lt a b n : 0 < n -> 0 <= a < 2 ^ n -> 0 <= b < 2 ^ n -> 0 <= Z.lor a b < 2 ^ n.
Proof.
  intros Hn Ha Hb. assert (0 <= Z.lor a b) by (apply Z.lor_nonneg; lia).
  split; [done|]. destruct (decide (Z.lor a b = 0)) as [->|Hne]; [lia|].
  apply Z.log2_lt_pow2; [lia|]. rewrite Z.log2_lor by lia.
  apply Z.max_lub_lt; by apply log2_lt_bound.
Qed.

Lemma u64_range x : 0 <= u64 x < 2 ^ 64.
Proof. apply Z.mod_pos_bound. lia. Qed.

Lemma bsr_refill_safe fuel r :
  bytes (r_buf r) -> 0 <= r_ptr r <= zlen (r_buf r) -> 0 <= r_bits r <= 64 ->
  0 <= r_accum r < 2 ^ 64 ->
  57 - r_bits r <= 8 * (Z.of_nat fuel - 1) -> (0 < fuel)%nat ->
  exists r', bsr_refill fuel r = Ok r' /\ bsr_safe r'.
Proof.
  revert r. induction fuel as [|fuel IH]; intros r Hb Hp Hbits Hacc Hf Hpos; [lia|]. simpl.
  case_if.
  - destruct (aget_total (E:=unit) (r_buf r) (r_ptr r - 1)) as [b ->]; [lia|]. mstep.
    rewrite shl64_ok by lia. mstep.
    apply IH; simpl; try done; try lia. apply lor_lt; [lia|done|apply u64_range].
  - exists r. split; [done|]. split; [done|]. lia.
Qed.

Lemma bsr_read_safe r nb :
  bsr_safe r -> 1 <= nb <= 32 ->
  netc_bsr_read r nb = Fail tt \/
  exists v r', netc_bsr_read r nb = Ok (v, r') /\ 0 <= v < 2 ^ nb /\ bsr_safe r'.
Proof.
  intros (Hb & Hp & Hbits & Hfull & Hacc) Hnb.
  unfold netc_bsr_read, netc_bsr_peek, netc_bsr_consume. if_true. mstep.
  rewrite shl64_ok by lia. mstep. destruct (decide (r_bits r < nb)).
  - left. rewrite bsr_refill_stop by (simpl; lia). mstep. simpl. by if_false.
  - right. destruct (bsr_refill_safe 10 (BSR (r_buf r) (r_ptr r)
      (u64 (r_accum r * 2 ^ nb)) (r_bits r - nb))) as (r' & -> & Hs);
      simpl; try done; try lia; [apply u64_range|].
    mstep. pose proof Hs as (_ & _ & ? & _). if_true. mstep. do 2 eexists. split; [done|].
    split; [|done]. rewrite Z.shiftr_div_pow2 by lia.
    assert (Hq : 0 <= r_accum r / 2 ^ (64 - nb) < 2 ^ nb).
    { split; [apply Z.div_pos; [lia|apply pow2_pos; lia]|].
      apply Z.div_lt_upper_bound; [apply pow2_pos; lia|].
      rewrite <- Z.pow_add_r by lia. replace (64 - nb + nb) with 64 by lia. lia. }
    assert (2 ^ nb <= 2 ^ 32) by (apply Z.pow_le_mono_r; lia).
    rewrite u32_small; lia.
Qed.

(** The last byte of the buffer is the top byte of the window. *)
Lemma window_top l b :
  bytes (l ++ [b]) ->
  let fill := Z.min (zlen (l ++ [b])) 8 in
  u8 (Z.shiftr (le_val (l ++ [b]) / 2 ^ (8 * (zlen (l ++ [b]) - fill)) * 2 ^ (64 - fill * 8)) 56) = b.
Proof.
  intros Hb fill. apply bytes_app in Hb as [Hl' Hb']. unfold bytes in Hb'. rewrite Forall_singleton in Hb'.
  assert (Hlen : zlen (l ++ [b]) = zlen l + 1) by (rewrite length_app; simpl; lia).
  rewrite le_val_app. cbn [le_val]. pose proof (le_val_bound l Hl') as Hlb.
  set (L := le_val l) in *. unfold fill in *. rewrite Hlen in *. set (k := zlen l) in *.
  set (f := Z.min (k + 1) 8) in *.
  rewrite Z.shiftr_div_pow2 by lia.
  replace 56 with ((64 - f * 8) + (f * 8 - 8)) by lia.
  rewrite Z.pow_add_r, <- Z.div_div by (try apply Z.pow_nonzero; try apply pow2_pos; lia).
  rewrite Z.div_mul by (apply Z.pow_nonzero; lia).
  rewrite Z.div_div, <- Z.pow_add_r by (try apply Z.pow_nonzero; try apply pow2_pos; lia).
  replace (8 * (k + 1 - f) + (f * 8 - 8)) with (8 * k) by lia.
  rewrite Z.mul_0_r, Z.add_0_r, (Z.mul_comm (2 ^ (8 * k))).
  rewrite Z.div_add by (apply Z.pow_nonzero; lia). rewrite Z.div_small by lia.
  rewrite Z.add_0_l. by apply u8_small.
Qed.

(** Any byte string can be opened; unless it is longer than the 8-byte window
    and ends in a zero byte, reading it is always defined. *)
Lemma bsr_init_safe buf :
  bytes buf ->
  exists r, netc_bsr_init buf = Ok r /\
    (zlen buf <= 8 \/ last buf <> Some 0 -> bsr_safe r).
Proof.
  intros Hb. destruct (decide (buf = [])) as [->|Hne].
  { exists (BSR [] 0 0 0). split; [done|]. intros _. unfold bsr_safe; simpl.
    repeat split; try lia; constructor. }
  destruct (bsr_init_eq buf Hb Hne) as [Hraw ->].
  set (fill := Z.min (zlen buf) 8) in *. set (raw := _ / _) in *.
  set (accum := raw * 2 ^ (64 - fill * 8)). set (lastb := u8 _).
  assert (0 < length buf)%nat by (destruct buf; [done|simpl; lia]).
  assert (Hacc : 0 <= accum < 2 ^ 64).
  { subst accum. pose proof (pow2_pos (64 - fill * 8) ltac:(lia)). split; [nia|].
    rewrite (pow2_split 64 (fill * 8)) by lia. apply Z.mul_lt_mono_pos_r; lia. }
  case_if.
  - eexists. split; [done|]. intros Hc. unfold bsr_safe; cbn [r_buf r_ptr r_bits r_accum].
    repeat split; try done; try lia. right. destruct Hc as [?|Hl]; [lia|]. exfalso. apply Hl.
    destruct (exists_last Hne) as (l & b & ->). rewrite last_snoc. f_equal.
    rewrite <- E. symmetry. by apply window_top.
  - pose proof (u8_range (Z.shiftr accum 56)) as Hu. fold lastb in Hu. unfold is_byte in Hu.
    pose proof (log2_lt_bound lastb 8 ltac:(lia) ltac:(lia)).
    pose proof (Z.log2_nonneg lastb).
    rewrite floorlog2_byte_log2 by lia. rewrite shl64_ok by lia. mstep.
    eexists. split; [done|]. intros _. unfold bsr_safe; cbn [r_buf r_ptr r_bits r_accum].
    pose proof (u64_range (accum * 2 ^ (7 - Z.log2 lastb + 1))).
    split; [done|]. split; [lia|]. split; [case_if; lia|]. split; [|done]. case_if; lia.
Qed.

(** ** Sequences of writes *)
Fixpoint bsw_write_all (w : netc_bsw_t) (fields : list (Z * Z)) : outcome unit netc_bsw_t :=
  match fields with
  | [] => Ok w
  | (v, nb) :: fields' => w' ← netc_bsw_write w v nb; bsw_write_all w' fields'
  end.

Fixpoint bsr_read_all (r : netc_bsr_t) (widths : list Z) : outcome unit (list Z * netc_bsr_t) :=
  match widths with
  | [] => Ok ([], r)
  | nb :: widths' =>
      '(v, r1) ← netc_bsr_read r nb;
      '(vs, r2) ← bsr_read_all r1 widths';
      Ok (v :: vs, r2)
  end.

(** A field: a value of 1 to 32 bits. *)
Definition field_ok (f : Z * Z) : Prop := 1 <= f.2 <= 32 /\ 0 <= f.1 < 2 ^ f.2.

Definition total_bits (fields : list (Z * Z)) : Z := foldr (fun f n => f.2 + n) 0 fields.

Lemma total_bits_nonneg fields : Forall field_ok fields -> 0 <= total_bits fields.
Proof. induction 1 as [|[v nb] fields [Hnb _] _ IH]; simpl in *; lia. Qed.

Lemma bsr_read_all_app r ws1 ws2 vs1 r1 vs2 r2 :
  bsr_read_all r ws1 = Ok (vs1, r1) -> bsr_read_all r1 ws2 = Ok (vs2, r2) ->
  bsr_read_all r (ws1 ++ ws2) = Ok (vs1 ++ vs2, r2).
Proof.
  revert r vs1. induction ws1 as [|nb ws1 IH]; intros r vs1 H1 H2; simpl in *; [by injection H1 as <- <-|].
  apply bind_Ok in H1 as ([v r'] & Hv & H1). apply bind_Ok in H1 as ([vs r''] & Hvs & H1).
  injection H1 as <- <-. rewrite Hv. mstep. by rewrite (IH _ _ Hvs H2).
Qed.

(** The writer pushes on the bit stack, the reader pops. *)
Lemma bsw_write_all_spec w W N fields :
  bsw_rep w W N -> Forall field_ok fields -> N + total_bits fields + 32 <= 8 * w_cap w ->
  exists w' W', bsw_write_all w fields = Ok w' /\ w_cap w' = w_cap w /\ bsw_rep w' W' (N + total_bits fields) /\
    forall r, bsr_rep r W' (N + total_bits fields) ->
      exists r', bsr_read_all r (rev (fields.*2)) = Ok (rev (fields.*1), r') /\ bsr_rep r' W N.
Proof.
  intros Hw Hf. revert w W N Hw. induction Hf as [|[v nb] fields [Hnb Hv] Hf IH]; intros w W N Hw Hc; simpl in *.
  { exists w, W. rewrite Z.add_0_r. split_and!; [done..|]. intros r Hr. by exists r. }
  pose proof (total_bits_nonneg fields Hf).
  destruct (bsw_write_spec w W N v nb Hw) as [(w1 & -> & Hc1 & Hw1)|[_ ?]]; [lia|done| |lia].
  destruct (IH w1 _ _ Hw1) as (w' & W' & Hwr & Hc' & Hw' & Hrd); [lia|]. mstep.
  replace (N + (nb + total_bits fields)) with (N + nb + total_bits fields) by lia.
  exists w', W'. split_and!; [done|congruence|done|]. intros r Hr. destruct (Hrd r Hr) as (r1 & Hr1 & Hrep1).
  pose proof (bsr_read_spec r1 _ _ nb Hrep1 Hnb) as Hone. destruct (bsw_rep_range w W N Hw) as [HN HW].
  destruct (Z.leb_spec nb (N + nb)); [|lia]. replace (N + nb - nb) with N in Hone by lia.
  rewrite Z.div_add, Z.div_small, Z.mod_add, Z.mod_small in Hone by lia.
  destruct Hone as (r' & Hone & Hrep). exists r'. split; [|done].
  apply (bsr_read_all_app _ _ _ _ _ _ _ Hr1). simpl. rewrite Hone. done.
Qed.

(** ** Properties *)

(** Any sequence of fields of 1 to 32 bits is written into a buffer with room
    for it, flushed, and read back in reverse order, after which the reader is
    at the start of the buffer and refuses every further read. *)
Theorem bitstream_roundtrip (fields : list (Z * Z)) (cap : Z) :
  Forall field_ok fields -> total_bits fields + 40 <= 8 * cap ->
  exists w out r r', bsw_write_all (netc_bsw_init cap) fields = Ok w /\ netc_bsw_flush w = Ok out /\
    zlen out = total_bits fields / 8 + 1 /\ netc_bsr_init out = Ok r /\
    bsr_read_all r (rev (fields.*2)) = Ok (rev (fields.*1), r') /\ netc_bsr_empty r' = true /\
    forall nb, 1 <= nb <= 32 -> netc_bsr_read r' nb = Fail tt.
Proof.
  intros Hf Hc. pose proof (total_bits_nonneg fields Hf).
  destruct (bsw_write_all_spec (netc_bsw_init cap) 0 0 fields (bsw_init_rep cap ltac:(lia)) Hf)
    as (w & W & Hw & Hcw & Hrep & Hrd); [simpl; lia|]. simpl in Hcw, Hrep, Hrd.
  destruct (bsw_flush_spec w _ _ Hrep) as [(out & Hfl & Hs)|[_ Hlt]]; [|rewrite Hcw in Hlt; dlia].
  destruct (bsr_init_sealed _ _ _ Hs) as (r & Hr & Hrr). destruct (Hrd r Hrr) as (r' & Hall & Hend).
  exists w, out, r, r'. split_and!; [done|done|apply Hs|done|done| |].
  - destruct Hend as [[_ Hp Hb Hn _ _ _] _]. unfold netc_bsr_empty. apply andb_true_intro. split; apply Z.leb_le; lia.
  - intros nb Hnb. pose proof (bsr_read_spec r' 0 0 nb Hend Hnb) as Hk. by destruct (Z.leb_spec nb 0); [lia|].
Qed.

Lemma bitstream_roundtrip_witness :
  exists w out r r', bsw_write_all (netc_bsw_init 16) [(5, 3); (1000, 12); (1, 1)] = Ok w /\ netc_bsw_flush w = Ok out /\
    zlen out = 3 /\ netc_bsr_init out = Ok r /\
    bsr_read_all r [1; 12; 3] = Ok ([1; 1000; 5], r') /\ netc_bsr_empty r' = true /\
    forall nb, 1 <= nb <= 32 -> netc_bsr_read r' nb = Fail tt.
Proof.
  apply (bitstream_roundtrip [(5, 3); (1000, 12); (1, 1)] 16).
  - repeat constructor; simpl; lia.
  - simpl. lia.
Defined.

(** The reader on a stream whose last byte is zero (no sentinel bit) and that
    is longer than the accumulator.  [netc_bsr_init] accepts it with no bit
    available, so the first read of 8 or more bits shifts a 64-bit value by 64
    or more. *)
Theorem bsr_missing_sentinel (buf : list Z) (nb : Z) :
  bytes buf -> 8 < zlen buf -> last buf = Some 0 -> 8 <= nb <= 32 ->
  exists r, netc_bsr_init buf = Ok r /\ netc_bsr_read r nb = Undef.
Proof.
  intros Hb Hl Hz Hnb. assert (buf <> []) as Hne by (by intros ->).
  destruct (bsr_init_eq buf Hb Hne) as [Hraw ->]. destruct (exists_last Hne) as (l & b & ->).
  rewrite last_snoc in Hz. injection Hz as ->. rewrite window_top by done. rewrite Z.eqb_refl.
  eexists. split; [done|]. rewrite Z.min_r by lia. unfold netc_bsr_read, netc_bsr_peek, netc_bsr_consume.
  cbn [r_buf r_ptr r_accum r_bits]. if_true. mstep. rewrite shl64_ok by lia. mstep.
  cbn [bsr_refill r_buf r_ptr r_accum r_bits]. if_true.
  destruct (@aget_total unit _ (l ++ [0]) (zlen (l ++ [0]) - 8 - 1)) as [x ->]; [lia|]. mstep.
  unfold shl64. if_false. done.
Qed.

Lemma bsr_missing_sentinel_witness :
  exists r, netc_bsr_init [1; 2; 3; 4; 5; 6; 7; 8; 9; 0] = Ok r /\ netc_bsr_read r 12 = Undef.
Proof.
  apply (bsr_missing_sentinel [1; 2; 3; 4; 5; 6; 7; 8; 9; 0] 12).
  - repeat constructor; unfold is_byte; lia.
  - simpl. lia.
  - reflexivity.
  - lia.
Defined.
