(* ===== verification/TansTable.v ===== *)
(** * tANS tables (src/src/algo/netc_tans.h, netc_tans.c: table builders)

    The 12-bit tables ([netc_tans_build]) and the 10-bit tables
    ([netc_tans_build_10]) are the same construction for two sets of
    parameters; [TansParams] holds them and the two builders are instances.
    [table_ok] states what the builder promises to the codec: the laws of an
    encode/decode table pair.  The codec (TansCodec.v) uses only these laws. *)

From stdpp Require Import prelude.
From Stdlib Require Import ZArith Lia Znumtheory.
From S2P Require Import Prelude.

Local Open Scope Z_scope.

(** ** Parameters *)
Class TansParams := {
  TABLE_LOG : Z;
  SPREAD_STEP : Z;
  TABLE_LOG_range : 1 <= TABLE_LOG <= 12;
  SPREAD_STEP_pos : 0 <= SPREAD_STEP < 2 ^ 16;
  SPREAD_STEP_coprime : Z.gcd (2 ^ TABLE_LOG) SPREAD_STEP = 1;
}.

Definition TABLE_SIZE `{TansParams} : Z := 2 ^ TABLE_LOG.

Definition NETC_TANS_SYMBOLS : Z := 256.

(** [NETC_TANS_TABLE_LOG] = 12, [NETC_TANS_SPREAD_STEP] = 2048 + 512 + 3. *)
Definition P12 : TansParams.
Proof.
  refine {| TABLE_LOG := 12;
            SPREAD_STEP := Z.shiftr (2 ^ 12) 1 + Z.shiftr (2 ^ 12) 3 + 3 |};
    [lia|by vm_compute|by vm_compute].
Defined.

(** [NETC_TANS_TABLE_LOG_10] = 10, [NETC_TANS_SPREAD_STEP_10] = 643. *)
Definition P10 : TansParams.
Proof.
  refine {| TABLE_LOG := 10; SPREAD_STEP := 643 |}; [lia|by vm_compute|by vm_compute].
Defined.

(** ** Table data *)
Record netc_tans_decode_entry_t := DecodeEntry {
  d_symbol : Z;
  d_nb_bits : Z;
  d_next_state_base : Z;
}.

Record netc_tans_encode_entry_t := EncodeEntry {
  e_freq : Z;
  e_lower : Z;
  e_cumul : Z;
  e_nb_hi : Z;
}.

Record netc_tans_table_t := TansTable {
  t_decode : list netc_tans_decode_entry_t;
  t_encode_state : list Z;
  t_encode : list netc_tans_encode_entry_t;
  t_freq : list Z;
  t_valid : bool;
}.

(** ** Construction *)

(** [while (v > 1) { v >>= 1; n++; }]: 32 rounds exhaust a 32-bit value. *)
Fixpoint floor_log2_loop (fuel : nat) (v n : Z) : Z :=
  match fuel with
  | O => n
  | S fuel' => if 1 <? v then floor_log2_loop fuel' (Z.shiftr v 1) (n + 1) else n
  end.
Definition floor_log2_u32 (v : Z) : Z := floor_log2_loop 32 v 0.

(** [total += freq[s]] for all [s]. *)
Definition freq_total (freq : list Z) : Z :=
  fold_left (fun total f => u32 (total + f)) freq 0.

(** [cumul[s+1] = cumul[s] + freq[s]] (uint16). *)
Fixpoint cumul_from (c : Z) (freq : list Z) : list Z :=
  c :: match freq with
       | [] => []
       | f :: freq' => cumul_from (u16 (c + f)) freq'
       end.

Section Build.
Context `{P : TansParams}.

(** Step 2: the encode entry of a symbol with frequency [f]. *)
Definition encode_entry (f c : Z) : netc_tans_encode_entry_t :=
  if f =? 0 then EncodeEntry 0 0 0 0 else
  let fl := floor_log2_u32 f in
  let nb_hi := if TABLE_LOG - fl <? 0 then 0 else TABLE_LOG - fl in
  EncodeEntry (u16 f) (u16 (Z.shiftl f nb_hi)) c (u8 nb_hi).

(** [pos = (pos + STEP) & (TABLE_SIZE - 1)] *)
Definition next_pos (pos : Z) : Z := Z.land (pos + SPREAD_STEP) (TABLE_SIZE - 1).

(** Step 3, one symbol: its [f] occurrences take the next slots. *)
Definition spread_symbol (c f : Z) (st : list Z * Z) : outcome unit (list Z * Z) :=
  foldM (fun '(es, pos) k =>
           es' ← aset es (c + k) (u16 (TABLE_SIZE + pos));
           Ok (es', next_pos pos)) st (seqZ 0 f).

Definition spread (freq cumul : list Z) : outcome unit (list Z * Z) :=
  foldM (fun st s =>
           f ← aget freq s;
           if f =? 0 then Ok st else
           c ← aget cumul s;
           spread_symbol c f st)
        (replicate (Z.to_nat TABLE_SIZE) 0, 0) (seqZ 0 NETC_TANS_SYMBOLS).

(** Step 4: the decode entry of occurrence [k] of symbol [s]. *)
Definition decode_entry (s f k : Z) : netc_tans_decode_entry_t :=
  let X_prev := f + k in
  let nb_j := TABLE_LOG - floor_log2_u32 X_prev in
  let nb_j := if nb_j <? 0 then 0 else nb_j in
  DecodeEntry (u8 s) (u8 nb_j) (u16 (Z.shiftl X_prev nb_j)).

Definition decode_symbol (s f : Z) (st : list netc_tans_decode_entry_t * Z)
  : outcome unit (list netc_tans_decode_entry_t * Z) :=
  foldM (fun '(dec, pos) k =>
           dec' ← aset dec pos (decode_entry s f k);
           Ok (dec', next_pos pos)) st (seqZ 0 f).

Definition decode_table (freq : list Z)
  : outcome unit (list netc_tans_decode_entry_t * Z) :=
  foldM (fun st s =>
           f ← aget freq s;
           if f =? 0 then Ok st else decode_symbol s f st)
        (replicate (Z.to_nat TABLE_SIZE) (DecodeEntry 0 0 0), 0)
        (seqZ 0 NETC_TANS_SYMBOLS).

Definition tans_build (freq : list Z) : outcome unit netc_tans_table_t :=
  if negb (freq_total freq =? TABLE_SIZE) then Fail tt else
  let cumul := cumul_from 0 freq in
  '(es, _) ← spread freq cumul;
  '(dec, _) ← decode_table freq;
  Ok (TansTable dec es (zip_with encode_entry freq cumul) freq true).

End Build.

Definition netc_tans_build : list Z -> outcome unit netc_tans_table_t := tans_build (P := P12).
Definition netc_tans_build_10 : list Z -> outcome unit netc_tans_table_t := tans_build (P := P10).

(** ** What the codec relies on

    [freq_ok freq]: 256 normalised counts that sum to the table size.
    [table_ok tbl freq]: for every occurrence [k] of a symbol [s] there is a
    slot such that the encode chain leads to it and its decode entry undoes
    the step; every slot belongs to one occurrence. *)
Definition lsum (l : list Z) : Z := foldr Z.add 0 l.

Definition freq_ok `{TansParams} (freq : list Z) : Prop :=
  length freq = 256%nat /\ Forall (fun f => 0 <= f) freq /\ lsum freq = TABLE_SIZE.

Record table_ok `{TansParams} (tbl : netc_tans_table_t) (freq : list Z) : Prop := {
  tok_freq_ok : freq_ok freq;
  tok_valid : t_valid tbl = true;
  tok_freq : t_freq tbl = freq;
  tok_decode_len : zlen (t_decode tbl) = TABLE_SIZE;
  tok_encode : forall s f, 0 <= s -> freq !! Z.to_nat s = Some f ->
    exists e, t_encode tbl !! Z.to_nat s = Some e /\
      e_freq e = f /\
      (f = 0 -> e = EncodeEntry 0 0 0 0) /\
      (0 < f -> e_nb_hi e = TABLE_LOG - Z.log2 f /\
        e_lower e = f * 2 ^ (TABLE_LOG - Z.log2 f) /\
        forall k, 0 <= k < f ->
          exists slot, 0 <= slot < TABLE_SIZE /\ 0 <= e_cumul e /\
            t_encode_state tbl !! Z.to_nat (e_cumul e + k) = Some (TABLE_SIZE + slot) /\
            t_decode tbl !! Z.to_nat slot =
              Some (DecodeEntry s (TABLE_LOG - Z.log2 (f + k))
                      ((f + k) * 2 ^ (TABLE_LOG - Z.log2 (f + k)))));
  tok_slots : forall slot, 0 <= slot < TABLE_SIZE ->
    exists s f k, 0 <= s < 256 /\ freq !! Z.to_nat s = Some f /\ 0 <= k < f /\
      t_decode tbl !! Z.to_nat slot =
        Some (DecodeEntry s (TABLE_LOG - Z.log2 (f + k))
                ((f + k) * 2 ^ (TABLE_LOG - Z.log2 (f + k))));
  tok_es_len : zlen (t_encode_state tbl) = TABLE_SIZE;
}.

(** ** The builder keeps its promise *)

Lemma lsum_app l k : lsum (l ++ k) = lsum l + lsum k.
Proof. induction l; simpl in *; lia. Qed.

Lemma lsum_nonneg l : Forall (fun f => 0 <= f) l -> 0 <= lsum l.
Proof. induction 1; simpl; lia. Qed.

Lemma lsum_take_le l i : Forall (fun f => 0 <= f) l -> 0 <= lsum (take i l) <= lsum l.
Proof.
  intros Hl. rewrite <- (take_drop i l) at 3. rewrite lsum_app.
  pose proof (lsum_nonneg (take i l) ltac:(by apply Forall_take)).
  pose proof (lsum_nonneg (drop i l) ltac:(by apply Forall_drop)). lia.
Qed.

Lemma lsum_take_S l i f :
  l !! i = Some f -> lsum (take (S i) l) = lsum (take i l) + f.
Proof. intros H. rewrite (take_S_r _ _ _ H), lsum_app. simpl. lia. Qed.

Lemma lsum_lookup_le l i f : Forall (fun f => 0 <= f) l -> l !! i = Some f -> 0 <= f <= lsum l.
Proof.
  intros Hl Hi. pose proof (lsum_take_le l (S i) Hl) as H1.
  pose proof (lsum_take_le l i Hl) as H2. rewrite (lsum_take_S _ _ _ Hi) in H1.
  assert (0 <= f) by exact (Forall_lookup_1 _ _ _ _ Hl Hi). lia.
Qed.

Lemma floor_log2_loop_spec fuel v n :
  0 < v < 2 ^ (Z.of_nat fuel + 1) -> floor_log2_loop fuel v n = n + Z.log2 v.
Proof.
  revert v n. induction fuel as [|fuel IH]; intros v n Hv; simpl.
  { change (2 ^ (Z.of_nat 0 + 1)) with 2 in Hv. replace v with 1 by lia.
    change (Z.log2 1) with 0. lia. }
  case_if; cycle 1.
  { replace v with 1 by lia. change (Z.log2 1) with 0. lia. }
  rewrite IH.
  - rewrite Z.log2_shiftr by lia. pose proof (Z.log2_pos v ltac:(lia)). lia.
  - rewrite Z.shiftr_div_pow2 by lia. change (2 ^ 1) with 2. split.
    + apply Z.div_str_pos. lia.
    + apply Z.div_lt_upper_bound; [lia|].
      replace (Z.of_nat (S fuel) + 1) with (1 + (Z.of_nat fuel + 1)) in Hv by lia.
      rewrite Z.pow_add_r in Hv by lia. change (2 ^ 1) with 2 in Hv. lia.
Qed.

Lemma floor_log2_u32_spec v : 0 < v < 2 ^ 32 -> floor_log2_u32 v = Z.log2 v.
Proof. intros. unfold floor_log2_u32. rewrite floor_log2_loop_spec; simpl; lia. Qed.

Lemma freq_total_from freq t :
  0 <= t -> Forall (fun f => 0 <= f) freq -> t + lsum freq < 2 ^ 32 ->
  fold_left (fun total f => u32 (total + f)) freq t = t + lsum freq.
Proof.
  revert t. induction freq as [|f freq IH]; intros t Ht Hf Hs; simpl in *; [lia|].
  apply Forall_cons in Hf as [Hf0 Hf]. pose proof (lsum_nonneg _ Hf).
  rewrite u32_small, IH; lia || done.
Qed.

Lemma lsum_le_bound l b : Forall (fun f => 0 <= f <= b) l -> lsum l <= b * zlen l.
Proof. induction 1; simpl; lia. Qed.

(** The sum test accepts exactly the normalised tables. *)
Lemma freq_total_lsum freq :
  length freq = 256%nat -> Forall (fun f => 0 <= f < 65536) freq ->
  freq_total freq = lsum freq.
Proof.
  intros Hl Hf. unfold freq_total. rewrite freq_total_from; [lia|lia| |].
  - eapply Forall_impl; [done|]. simpl; lia.
  - pose proof (lsum_le_bound freq 65535 ltac:(eapply Forall_impl; [done|simpl; lia])). lia.
Qed.

Section BuildOk.
Context `{P : TansParams}.

Lemma TABLE_SIZE_range : 2 <= TABLE_SIZE <= 4096.
Proof.
  pose proof TABLE_LOG_range. unfold TABLE_SIZE. split.
  - apply (Z.pow_le_mono_r 2 1); lia.
  - apply (Z.pow_le_mono_r 2 _ 12); lia.
Qed.

(** Position of the [t]-th slot handed out by the spread. *)
Definition slotpos (t : Z) : Z := (t * SPREAD_STEP) mod TABLE_SIZE.

Lemma slotpos_range t : 0 <= slotpos t < TABLE_SIZE.
Proof. apply Z.mod_pos_bound. pose proof TABLE_SIZE_range. lia. Qed.

Lemma next_pos_slotpos t : next_pos (slotpos t) = slotpos (t + 1).
Proof.
  pose proof TABLE_LOG_range. pose proof TABLE_SIZE_range. unfold next_pos.
  replace (TABLE_SIZE - 1) with (Z.ones TABLE_LOG)
    by (rewrite Z.ones_equiv; unfold TABLE_SIZE; lia).
  rewrite Z.land_ones by lia. unfold slotpos. fold TABLE_SIZE.
  rewrite Z.add_mod_idemp_l by lia. f_equal. ring.
Qed.

(** The step is coprime with the table size, so no slot is handed out twice. *)
Lemma slotpos_inj i j :
  0 <= i < TABLE_SIZE -> 0 <= j < TABLE_SIZE -> slotpos i = slotpos j -> i = j.
Proof.
  intros Hi Hj H. pose proof TABLE_SIZE_range. unfold slotpos in H.
  assert (Hd : (TABLE_SIZE | SPREAD_STEP * (i - j))).
  { apply Z.mod_divide; [lia|]. replace (SPREAD_STEP * (i - j))
      with (i * SPREAD_STEP - j * SPREAD_STEP) by ring.
    rewrite Zminus_mod, H, Z.sub_diag. by apply Z.mod_0_l; lia. }
  apply Z.gauss in Hd; [|apply SPREAD_STEP_coprime].
  destruct Hd as [q Hq]. assert (q = 0) by nia. lia.
Qed.

(** Every slot is handed out: an injection of a finite range into itself. *)
Lemma slotpos_surj slot :
  0 <= slot < TABLE_SIZE -> exists t, 0 <= t < TABLE_SIZE /\ slotpos t = slot.
Proof.
  intros Hs. pose proof TABLE_SIZE_range.
  set (dom := seqZ 0 TABLE_SIZE).
  assert (Hnd : NoDup (slotpos <$> dom)).
  { apply NoDup_fmap_2_strong; [|apply NoDup_seqZ].
    intros x y Hx Hy. apply elem_of_seqZ in Hx, Hy. apply slotpos_inj; lia. }
  assert (Hsub : slotpos <$> dom ⊆ dom).
  { intros x (t & -> & Ht)%list_elem_of_fmap. apply elem_of_seqZ.
    pose proof (slotpos_range t). lia. }
  assert (Hp : slotpos <$> dom ≡ₚ dom).
  { apply submseteq_length_Permutation; [|by rewrite length_fmap].
    by apply NoDup_submseteq. }
  assert (Hin : slot ∈ slotpos <$> dom) by (rewrite Hp; apply elem_of_seqZ; lia).
  apply list_elem_of_fmap in Hin as (t & -> & Ht%elem_of_seqZ). exists t. split; [lia|done].
Qed.

(** The occurrences in the order of the two spread passes:
    (symbol, frequency, cumulative count, rank). *)
Fixpoint occs (s c : Z) (freq : list Z) : list (Z * Z * Z * Z) :=
  match freq with
  | [] => []
  | f :: freq' => ((fun k => (s, f, c, k)) <$> seqZ 0 f) ++ occs (s + 1) (c + f) freq'
  end.

Lemma occs_length s c freq :
  Forall (fun f => 0 <= f) freq -> zlen (occs s c freq) = lsum freq.
Proof.
  intros Hf. revert s c. induction Hf as [|f freq Hf0 Hf IH]; intros s c; simpl; [done|].
  rewrite length_app, length_fmap, length_seqZ, Nat2Z.inj_add, IH. lia.
Qed.

Lemma occs_lookup s c freq i s' f' c' k' :
  Forall (fun f => 0 <= f) freq ->
  occs s c freq !! i = Some (s', f', c', k') ->
  c' + k' = c + Z.of_nat i /\ 0 <= k' < f' /\ s <= s' /\ freq !! Z.to_nat (s' - s) = Some f'.
Proof.
  intros Hf. revert s c i. induction Hf as [|f freq Hf0 Hf IH]; intros s c i H; simpl in *; [done|].
  apply lookup_app_Some in H as [H|[Hge H]].
  - rewrite list_lookup_fmap in H. apply fmap_Some in H as (k & Hk & [= -> -> -> ->]).
    apply lookup_seqZ in Hk as [-> Hk]. rewrite Z.sub_diag. simpl. repeat split; lia.
  - rewrite length_fmap, length_seqZ in *. apply IH in H as (? & ? & ? & Hl).
    replace (Z.to_nat (s' - s)) with (S (Z.to_nat (s' - (s + 1)))) by lia.
    repeat split; try lia. done.
Qed.

Lemma occs_at s c freq j f k :
  Forall (fun f => 0 <= f) freq -> freq !! j = Some f -> 0 <= k < f ->
  occs s c freq !! Z.to_nat (lsum (take j freq) + k) =
    Some (s + Z.of_nat j, f, c + lsum (take j freq), k).
Proof.
  intros Hf. revert s c j. induction Hf as [|f0 freq Hf0 Hf IH]; intros s c j Hj Hk; [done|].
  destruct j as [|j]; simpl in *.
  - injection Hj as ->. rewrite lookup_app_l by (rewrite length_fmap, length_seqZ; lia).
    rewrite list_lookup_fmap, lookup_seqZ_lt by lia. simpl. by rewrite !Z.add_0_r, Z2Nat.id by lia.
  - pose proof (lsum_nonneg (take j freq) ltac:(by apply Forall_take)).
    rewrite lookup_app_r by (rewrite length_fmap, length_seqZ; lia).
    rewrite length_fmap, length_seqZ.
    replace (Z.to_nat (f0 + lsum (take j freq) + k) - Z.to_nat f0)%nat
      with (Z.to_nat (lsum (take j freq) + k)) by lia.
    replace (s + Z.of_nat (S j)) with (s + 1 + Z.of_nat j) by lia.
    replace (c + (f0 + lsum (take j freq))) with (c + f0 + lsum (take j freq)) by lia.
    by apply IH.
Qed.

Lemma cumul_from_lookup c freq i :
  Forall (fun f => 0 <= f) freq -> 0 <= c -> c + lsum freq < 65536 -> (i <= length freq)%nat ->
  cumul_from c freq !! i = Some (c + lsum (take i freq)).
Proof.
  intros Hf. revert c i. induction Hf as [|f freq Hf0 Hf IH]; intros c i Hc Hs Hi.
  { destruct i; simpl in *; [f_equal; lia|lia]. }
  pose proof (lsum_nonneg _ Hf). destruct i as [|i]; simpl in *; [f_equal; lia|].
  rewrite u16_small, IH by lia. f_equal. lia.
Qed.

(** Both passes are one loop over the occurrences. *)
Definition spread_step (st : list Z * Z) (o : Z * Z * Z * Z) : outcome unit (list Z * Z) :=
  let '(es, pos) := st in let '(s, f, c, k) := o in
  es' ← aset es (c + k) (u16 (TABLE_SIZE + pos)); Ok (es', next_pos pos).

Definition decode_step (st : list netc_tans_decode_entry_t * Z) (o : Z * Z * Z * Z)
  : outcome unit (list netc_tans_decode_entry_t * Z) :=
  let '(dec, pos) := st in let '(s, f, c, k) := o in
  dec' ← aset dec pos (decode_entry s f k); Ok (dec', next_pos pos).

Lemma foldM_fmap {E S A B} (g : S -> B -> outcome E S) (h : A -> B) s l :
  foldM g s (h <$> l) = foldM (fun s a => g s (h a)) s l.
Proof. revert s. induction l as [|a l IH]; intros s; [done|]. simpl. by destruct (g s (h a)); simpl. Qed.

(** An outer loop over the symbols whose body loops over the occurrences. *)
Lemma symbol_loop {S} (body : S -> Z -> outcome unit S) (step : S -> Z * Z * Z * Z -> outcome unit S)
    pre freq st :
  (forall st j f, freq !! j = Some f ->
     body st (zlen pre + Z.of_nat j) =
     foldM step st ((fun k => (zlen pre + Z.of_nat j, f,
                                lsum pre + lsum (take j freq), k)) <$> seqZ 0 f)) ->
  foldM body st (seqZ (zlen pre) (zlen freq)) =
  foldM step st (occs (zlen pre) (lsum pre) freq).
Proof.
  revert pre st. induction freq as [|f freq IH]; intros pre st H; [done|].
  simpl length. rewrite seqZ_cons by lia. simpl. rewrite foldM_app.
  assert (H0 : body st (zlen pre) = foldM step st ((fun k => (zlen pre, f, lsum pre, k)) <$> seqZ 0 f)).
  { pose proof (H st 0%nat f eq_refl) as H0. rewrite Z.add_0_r in H0. rewrite H0.
    f_equal. apply list_fmap_ext. intros _ k _. simpl. by rewrite !Z.add_0_r. }
  rewrite H0. destruct (foldM step st _) as [st'| |]; [|done|done]. mstep.
  replace (Z.succ (zlen pre)) with (zlen (pre ++ [f])) by (rewrite length_app; simpl; lia).
  replace (Z.pred (Z.of_nat (Datatypes.S (length freq)))) with (zlen freq) by lia.
  replace (zlen pre + 1) with (zlen (pre ++ [f])) by (rewrite length_app; simpl; lia).
  replace (lsum pre + f) with (lsum (pre ++ [f])) by (rewrite lsum_app; simpl; lia).
  apply IH. intros st1 j f1 Hj. pose proof (H st1 (Datatypes.S j) f1 Hj) as H1.
  rewrite length_app. simpl length. rewrite lsum_app. simpl lsum in H1 |- *.
  replace (Z.of_nat (length pre + 1) + Z.of_nat j) with (zlen pre + Z.of_nat (Datatypes.S j)) by lia.
  rewrite H1. f_equal. apply list_fmap_ext. intros _ k _. do 2 f_equal. lia.
Qed.

Lemma spread_occs freq n :
  freq_ok freq -> (n <= length (occs 0 0 freq))%nat ->
  exists es, foldM spread_step (replicate (Z.to_nat TABLE_SIZE) 0, 0) (take n (occs 0 0 freq))
      = Ok (es, slotpos (Z.of_nat n)) /\
    zlen es = TABLE_SIZE /\
    forall i, (i < n)%nat -> es !! i = Some (TABLE_SIZE + slotpos (Z.of_nat i)).
Proof.
  intros (Hlen & Hf & Hsum). pose proof TABLE_SIZE_range.
  pose proof (occs_length 0 0 freq Hf) as Hol. rewrite Hsum in Hol.
  induction n as [|n IH]; intros Hn.
  { eexists. split; [done|]. split; [rewrite length_replicate; lia|lia]. }
  destruct IH as (es & IH & Hes & Hlook); [lia|].
  destruct (lookup_lt_is_Some_2 (occs 0 0 freq) n) as [[[[s f] c] k] Ho]; [lia|].
  rewrite (take_S_r _ _ _ Ho), foldM_snoc, IH. mstep. cbn [spread_step].
  destruct (occs_lookup _ _ _ _ _ _ _ _ Hf Ho) as (Hck & Hk & _ & _).
  pose proof (slotpos_range (Z.of_nat n)). rewrite aset_ok by lia. mstep.
  rewrite u16_small by lia. eexists. split.
  { rewrite next_pos_slotpos. do 3 f_equal. lia. }
  rewrite length_insert. split; [done|]. intros i Hi.
  replace (Z.to_nat (c + k)) with n by lia. destruct (decide (i = n)) as [->|].
  - rewrite list_lookup_insert_eq by lia. done.
  - rewrite list_lookup_insert_ne by done. apply Hlook. lia.
Qed.

Lemma decode_occs freq n :
  freq_ok freq -> (n <= length (occs 0 0 freq))%nat ->
  exists dec, foldM decode_step (replicate (Z.to_nat TABLE_SIZE) (DecodeEntry 0 0 0), 0)
        (take n (occs 0 0 freq)) = Ok (dec, slotpos (Z.of_nat n)) /\
    zlen dec = TABLE_SIZE /\
    forall i s f c k, (i < n)%nat -> occs 0 0 freq !! i = Some (s, f, c, k) ->
      dec !! Z.to_nat (slotpos (Z.of_nat i)) = Some (decode_entry s f k).
Proof.
  intros (Hlen & Hf & Hsum). pose proof TABLE_SIZE_range.
  pose proof (occs_length 0 0 freq Hf) as Hol. rewrite Hsum in Hol.
  induction n as [|n IH]; intros Hn.
  { eexists. split; [done|]. split; [rewrite length_replicate; lia|lia]. }
  destruct IH as (dec & IH & Hdec & Hlook); [lia|].
  destruct (lookup_lt_is_Some_2 (occs 0 0 freq) n) as [[[[s f] c] k] Ho]; [lia|].
  rewrite (take_S_r _ _ _ Ho), foldM_snoc, IH. mstep. cbn [decode_step].
  pose proof (slotpos_range (Z.of_nat n)). rewrite aset_ok by lia. mstep. eexists. split.
  { rewrite next_pos_slotpos. do 3 f_equal. lia. }
  rewrite length_insert. split; [done|]. intros i s' f' c' k' Hi Ho'.
  destruct (decide (i = n)) as [->|].
  - rewrite list_lookup_insert_eq by lia. congruence.
  - rewrite list_lookup_insert_ne; [apply (Hlook i s' f' c' k'); [lia|done]|].
    intros Heq. assert (slotpos (Z.of_nat i) = slotpos (Z.of_nat n)).
    { pose proof (slotpos_range (Z.of_nat i)). lia. }
    apply slotpos_inj in H1; lia.
Qed.

Lemma spread_loop_eq freq :
  freq_ok freq ->
  spread freq (cumul_from 0 freq) =
  foldM spread_step (replicate (Z.to_nat TABLE_SIZE) 0, 0) (occs 0 0 freq).
Proof.
  intros (Hlen & Hf & Hsum). pose proof TABLE_SIZE_range. unfold spread.
  change (seqZ 0 NETC_TANS_SYMBOLS) with (seqZ (zlen (@nil Z)) 256).
  replace 256 with (zlen freq) by lia.
  apply (symbol_loop _ spread_step []). intros st j f Hj. simpl.
  rewrite !Z.add_0_l, (aget_Some freq _ f) by (lia || by rewrite Nat2Z.id). mstep.
  case_if; [subst; done|].
  rewrite (aget_Some _ _ (lsum (take j freq))); [|lia|].
  - mstep. unfold spread_symbol. rewrite foldM_fmap. apply foldM_ext. by intros [] k _.
  - rewrite Nat2Z.id, cumul_from_lookup; [done|done|lia|lia|].
    apply lookup_lt_Some in Hj. lia.
Qed.

Lemma decode_loop_eq freq :
  freq_ok freq ->
  decode_table freq =
  foldM decode_step (replicate (Z.to_nat TABLE_SIZE) (DecodeEntry 0 0 0), 0) (occs 0 0 freq).
Proof.
  intros (Hlen & Hf & Hsum). unfold decode_table.
  change (seqZ 0 NETC_TANS_SYMBOLS) with (seqZ (zlen (@nil Z)) 256).
  replace 256 with (zlen freq) by lia.
  apply (symbol_loop _ decode_step []). intros st j f Hj. simpl.
  rewrite !Z.add_0_l, (aget_Some freq _ f) by (lia || by rewrite Nat2Z.id). mstep.
  case_if; [subst; done|]. unfold decode_symbol. rewrite foldM_fmap.
  apply foldM_ext. by intros [] k _.
Qed.

(** [y * 2 ^ (LOG - log2 y)] is [y] scaled into the state range. *)
Lemma state_scale y :
  0 < y < 2 * TABLE_SIZE ->
  0 <= Z.log2 y <= TABLE_LOG /\ TABLE_SIZE <= y * 2 ^ (TABLE_LOG - Z.log2 y) < 2 * TABLE_SIZE.
Proof.
  intros Hy. pose proof TABLE_LOG_range. pose proof (Z.log2_nonneg y).
  assert (Hl : Z.log2 y <= TABLE_LOG).
  { apply Z.lt_succ_r, Z.log2_lt_pow2; [lia|]. rewrite Z.pow_succ_r by lia. apply Hy. }
  split; [lia|]. destruct (Z.log2_spec y) as [H1 H2]; [lia|].
  assert (0 < 2 ^ (TABLE_LOG - Z.log2 y)) by (apply pow2_pos; lia).
  assert (Hts : TABLE_SIZE = 2 ^ Z.log2 y * 2 ^ (TABLE_LOG - Z.log2 y))
    by (apply pow2_split; lia).
  rewrite Z.pow_succ_r in H2 by lia. rewrite Hts. nia.
Qed.

Lemma decode_entry_eq s f k :
  0 <= s < 256 -> 0 <= k < f -> f <= TABLE_SIZE ->
  decode_entry s f k =
    DecodeEntry s (TABLE_LOG - Z.log2 (f + k)) ((f + k) * 2 ^ (TABLE_LOG - Z.log2 (f + k))).
Proof.
  intros Hs Hk Hf. pose proof TABLE_SIZE_range. pose proof TABLE_LOG_range.
  destruct (state_scale (f + k)) as [Hl Hr]; [lia|]. unfold decode_entry.
  rewrite floor_log2_u32_spec by lia. if_false.
  rewrite Z.shiftl_mul_pow2 by lia.
  rewrite !u8_small, u16_small; [done|lia|unfold is_byte; lia|done].
Qed.

Lemma encode_entry_eq f c :
  0 < f <= TABLE_SIZE ->
  encode_entry f c =
    EncodeEntry f (f * 2 ^ (TABLE_LOG - Z.log2 f)) c (TABLE_LOG - Z.log2 f).
Proof.
  intros Hf. pose proof TABLE_SIZE_range. pose proof TABLE_LOG_range.
  destruct (state_scale f) as [Hl Hr]; [lia|]. unfold encode_entry. if_false.
  rewrite floor_log2_u32_spec by lia. if_false. rewrite Z.shiftl_mul_pow2 by lia.
  rewrite !u16_small, u8_small by (unfold is_byte; lia). done.
Qed.

(** The builder succeeds on every normalised frequency table, and the table it
    returns satisfies the codec's interface. *)
Lemma tans_build_ok freq :
  freq_ok freq -> exists tbl, tans_build freq = Ok tbl /\ table_ok tbl freq.
Proof.
  intros Hok. pose proof Hok as (Hlen & Hf & Hsum). pose proof TABLE_SIZE_range.
  assert (Hft : freq_total freq = TABLE_SIZE).
  { unfold freq_total. rewrite freq_total_from by (done || lia). lia. }
  pose proof (occs_length 0 0 freq Hf) as Hol. rewrite Hsum in Hol.
  destruct (spread_occs freq (length (occs 0 0 freq)) Hok) as (es & Hes & Hesl & Hesi); [lia|].
  destruct (decode_occs freq (length (occs 0 0 freq)) Hok) as (dec & Hdec & Hdecl & Hdeci); [lia|].
  rewrite take_ge in Hes, Hdec by lia.
  unfold tans_build. rewrite Hft, Z.eqb_refl. cbn [negb].
  rewrite spread_loop_eq, Hes by done. mstep. rewrite decode_loop_eq, Hdec by done. mstep.
  eexists. split; [done|]. split; cbn [t_valid t_freq t_decode t_encode t_encode_state]; try done.
  - intros s f Hs Hsf. pose proof (lookup_lt_Some _ _ _ Hsf) as Hlt.
    pose proof (lsum_lookup_le _ _ _ Hf Hsf) as Hfr. rewrite Hsum in Hfr.
    assert (Hc : cumul_from 0 freq !! Z.to_nat s = Some (lsum (take (Z.to_nat s) freq)))
      by (rewrite cumul_from_lookup; [done|done|lia|lia|lia]).
    eexists. split; [by rewrite lookup_zip_with, Hsf; simpl; rewrite Hc|].
    destruct (decide (f = 0)) as [->|Hf0]; [split; [done|]; split; [done|lia]|].
    rewrite encode_entry_eq by lia. cbn [e_freq e_nb_hi e_lower e_cumul].
    split; [done|]. split; [lia|]. intros _. split; [done|]. split; [done|].
    intros k Hk. pose proof (lsum_take_le freq (Z.to_nat s) Hf) as Hts.
    pose proof (occs_at 0 0 freq _ _ _ Hf Hsf Hk) as Ho.
    pose proof (lookup_lt_Some _ _ _ Ho) as Hol'.
    exists (slotpos (lsum (take (Z.to_nat s) freq) + k)).
    pose proof (slotpos_range (lsum (take (Z.to_nat s) freq) + k)).
    split; [done|]. split; [lia|]. split.
    + rewrite Hesi by done. by rewrite Z2Nat.id by lia.
    + pose proof (Hdeci _ _ _ _ _ Hol' Ho) as Hd. rewrite Z2Nat.id in Hd by lia.
      rewrite Hd. f_equal. rewrite Z.add_0_l, Z2Nat.id by lia. apply decode_entry_eq; lia.
  - intros slot Hslot. destruct (slotpos_surj slot Hslot) as (t & Ht & <-).
    destruct (lookup_lt_is_Some_2 (occs 0 0 freq) (Z.to_nat t)) as [[[[s f] c] k] Ho]; [lia|].
    destruct (occs_lookup _ _ _ _ _ _ _ _ Hf Ho) as (_ & Hk & Hs & Hsf).
    rewrite Z.sub_0_r in Hsf. pose proof (lookup_lt_Some _ _ _ Hsf) as Hlt.
    pose proof (lsum_lookup_le _ _ _ Hf Hsf) as Hfr.
    exists s, f, k. split; [lia|]. split; [done|]. split; [done|].
    pose proof (Hdeci (Z.to_nat t) _ _ _ _ ltac:(lia) Ho) as Hd. rewrite Z2Nat.id in Hd by lia.
    rewrite Hd. f_equal. apply decode_entry_eq; lia.
Qed.

(** Conversely a table is only built from a normalised frequency table. *)
Lemma tans_build_inv freq tbl :
  length freq = 256%nat -> Forall (fun f => 0 <= f < 65536) freq ->
  tans_build freq = Ok tbl -> freq_ok freq /\ table_ok tbl freq.
Proof.
  intros Hl Hf Hb. assert (Hok : freq_ok freq).
  { split; [done|]. split; [eapply Forall_impl; [done|simpl; lia]|].
    unfold tans_build in Hb. case_if_in Hb; [done|]. by rewrite <- freq_total_lsum. }
  split; [done|]. destruct (tans_build_ok freq Hok) as (tbl' & Hb' & Ht). congruence.
Qed.

(** The sum test rejects everything else. *)
Lemma tans_build_reject freq :
  length freq = 256%nat -> Forall (fun f => 0 <= f < 65536) freq ->
  lsum freq <> TABLE_SIZE -> tans_build freq = Fail tt.
Proof.
  intros Hl Hf Hs. unfold tans_build. rewrite freq_total_lsum by done. case_if; [done|lia].
Qed.

End BuildOk.
