(* ===== verification/TansCodec.v ===== *)
(** * The tANS encoders and decoders (src/src/algo/netc_tans.c)

    All variants share one encode step and one decode step; they differ in
    which table a position uses.  The C encoders run [i] from [src_size - 1]
    down to 0: [encode_loop] is that loop as a recursion that handles the tail
    of the input first.  The decoders run forward.

    Pointer arguments are non-NULL here (a NULL argument makes every function
    return its error value before doing anything).  [Fail tt] is the error
    return ([0] for the encoders, [-1] for the others). *)

From stdpp Require Import prelude.
From Stdlib Require Import ZArith Lia.
From S2P Require Import Prelude Bitstream TansTable.

Local Open Scope Z_scope.

(** ** Context buckets (netc_tans.h) *)

Definition NETC_CTX_COUNT : Z := 16.
Definition NETC_BIGRAM_CTX_COUNT : Z := 8.

Definition bucket_lut : list Z :=
  replicate 8 0 ++ replicate 8 1 ++ replicate 8 2 ++ replicate 8 3 ++
  replicate 16 4 ++ replicate 16 5 ++ replicate 32 6 ++ replicate 32 7 ++
  replicate 64 8 ++ replicate 64 9.

Definition netc_ctx_bucket (offset : Z) : Z :=
  if offset <? 256 then default 0 (bucket_lut !! Z.to_nat offset)
  else if offset <? 384 then 10
  else if offset <? 512 then 11
  else if offset <? 1024 then 12
  else if offset <? 4096 then 13
  else if offset <? 16384 then 14
  else 15.

(** [class_map] is NULL for the v4 fallback. *)
Definition netc_bigram_class (prev_byte : Z) (class_map : option (list Z))
  : outcome unit Z :=
  match class_map with
  | Some m => aget m prev_byte
  | None => Ok (Z.shiftr prev_byte 6)
  end.

(** ** One step *)
Section Step.
Context `{P : TansParams}.

Definition encode_nb (e : netc_tans_encode_entry_t) (X : Z) : Z :=
  if (e_nb_hi e =? 0) || (e_lower e <=? X) then e_nb_hi e else e_nb_hi e - 1.

Definition tans_encode_step (tbl : netc_tans_table_t) (X sym : Z) (bsw : netc_bsw_t)
  : outcome unit (Z * netc_bsw_t) :=
  e ← aget (t_encode tbl) sym;
  let f := e_freq e in
  let nb := encode_nb e X in
  let j := u32 (Z.shiftr X nb - f) in
  bsw' ← (if 0 <? nb then netc_bsw_write bsw (Z.land X (Z.shiftl 1 nb - 1)) nb else Ok bsw);
  X' ← aget (t_encode_state tbl) (u32 (e_cumul e + j));
  Ok (X', bsw').

(** The variants that test [f == 0] first. *)
Definition tans_encode_step_checked (tbl : netc_tans_table_t) (X sym : Z) (bsw : netc_bsw_t)
  : outcome unit (Z * netc_bsw_t) :=
  e ← aget (t_encode tbl) sym;
  if e_freq e =? 0 then Fail tt else tans_encode_step tbl X sym bsw.

Definition tans_decode_step (tbl : netc_tans_table_t) (X : Z) (bsr : netc_bsr_t)
  : outcome unit (Z * Z * netc_bsr_t) :=
  d ← aget (t_decode tbl) (u32 (X - TABLE_SIZE));
  '(bits_val, bsr') ← (if 0 <? d_nb_bits d then netc_bsr_read bsr (d_nb_bits d) else Ok (0, bsr));
  Ok (d_symbol d, d_next_state_base d + bits_val, bsr').

(** ** Loops *)

(** [for (i = src_size; i-- > 0;)]; [prev] is the byte before position [i]. *)
Fixpoint encode_loop
    (step : Z -> Z -> Z -> Z * netc_bsw_t -> outcome unit (Z * netc_bsw_t))
    (i prev : Z) (src : list Z) (st : Z * netc_bsw_t) : outcome unit (Z * netc_bsw_t) :=
  match src with
  | [] => Ok st
  | sym :: src' =>
      st' ← encode_loop step (i + 1) sym src' st;
      step i prev sym st'
  end.

(** [for (i = 0; i < dst_size; i++)]; [sel i prev] is the table of position [i]. *)
Fixpoint decode_loop (sel : Z -> Z -> outcome unit netc_tans_table_t)
    (i prev : Z) (n : nat) (X : Z) (bsr : netc_bsr_t) : outcome unit (list Z) :=
  match n with
  | O => Ok []
  | S n' =>
      tbl ← sel i prev;
      '(sym, X', bsr') ← tans_decode_step tbl X bsr;
      rest ← decode_loop sel (i + 1) sym n' X' bsr';
      Ok (sym :: rest)
  end.

(** The encoders return the final state, 0 being the error value. *)
Definition final_state (r : Z * netc_bsw_t) : outcome unit (Z * netc_bsw_t) :=
  if r.1 =? 0 then Fail tt else Ok r.

(** [if (X < TABLE_SIZE) X = TABLE_SIZE;] *)
Definition clamp_state (X : Z) : Z := if X <? TABLE_SIZE then TABLE_SIZE else X.

(** The decoders' check of the state read from the packet. *)
Definition state_in_range (X : Z) : bool := (TABLE_SIZE <=? X) && (X <? 2 * TABLE_SIZE).

(** ** Single table *)
Definition tans_encode (step : netc_tans_table_t -> Z -> Z -> netc_bsw_t -> outcome unit (Z * netc_bsw_t))
    (tbl : netc_tans_table_t) (src : list Z) (bsw : netc_bsw_t) (initial_state : Z)
  : outcome unit (Z * netc_bsw_t) :=
  if negb (t_valid tbl) || (zlen src =? 0) then Fail tt else
  r ← encode_loop (fun _ _ sym '(X, w) => step tbl X sym w) 0 0 src
        (clamp_state initial_state, bsw);
  final_state r.

Definition tans_decode (tbl : netc_tans_table_t) (bsr : netc_bsr_t) (dst_size : nat)
    (initial_state : Z) : outcome unit (list Z) :=
  if negb (t_valid tbl) || (Z.of_nat dst_size =? 0) then Fail tt else
  if negb (state_in_range initial_state) then Fail tt else
  decode_loop (fun _ _ => Ok tbl) 0 0 dst_size initial_state bsr.

(** ** Two interleaved states *)

(** The pair loop, right to left: [src[i+1]] with [X1], then [src[i]] with [X0]. *)
Fixpoint encode_pairs (tbl : netc_tans_table_t) (src : list Z) (st : Z * Z * netc_bsw_t)
  : outcome unit (Z * Z * netc_bsw_t) :=
  match src with
  | a :: b :: src' =>
      '(X0, X1, w) ← encode_pairs tbl src' st;
      '(X1', w1) ← tans_encode_step tbl X1 b w;
      '(X0', w2) ← tans_encode_step tbl X0 a w1;
      Ok (X0', X1', w2)
  | _ => Ok st
  end.

(** With an odd size the last symbol is encoded first, with [X0]. *)
Definition tans_encode_x2 (tbl : netc_tans_table_t) (src : list Z) (bsw : netc_bsw_t)
  : outcome unit (Z * Z * netc_bsw_t) :=
  if negb (t_valid tbl) || (zlen src <? 2) then Fail tt else
  let n := length src in
  if Z.odd (zlen src) then
    sym ← aget src (zlen src - 1);
    '(X0, w) ← tans_encode_step tbl TABLE_SIZE sym bsw;
    encode_pairs tbl (take (n - 1) src) (X0, TABLE_SIZE, w)
  else encode_pairs tbl src (TABLE_SIZE, TABLE_SIZE, bsw).

(** [n] pairs. *)
Fixpoint decode_pairs (tbl : netc_tans_table_t) (n : nat) (X0 X1 : Z) (bsr : netc_bsr_t)
  : outcome unit (list Z) :=
  match n with
  | O => Ok []
  | S n' =>
      '(s0, X0', r1) ← tans_decode_step tbl X0 bsr;
      '(s1, X1', r2) ← tans_decode_step tbl X1 r1;
      rest ← decode_pairs tbl n' X0' X1' r2;
      Ok (s0 :: s1 :: rest)
  end.

(** With an odd size the first symbol is decoded from [X0] on its own. *)
Definition tans_decode_x2 (tbl : netc_tans_table_t) (bsr : netc_bsr_t) (dst_size : nat)
    (initial_state0 initial_state1 : Z) : outcome unit (list Z) :=
  if negb (t_valid tbl) || (Z.of_nat dst_size <? 2) then Fail tt else
  if negb (state_in_range initial_state0) then Fail tt else
  if negb (state_in_range initial_state1) then Fail tt else
  if Z.odd (Z.of_nat dst_size) then
    '(s, X0, r) ← tans_decode_step tbl initial_state0 bsr;
    rest ← decode_pairs tbl (Nat.div2 dst_size) X0 initial_state1 r;
    Ok (s :: rest)
  else decode_pairs tbl (Nat.div2 dst_size) initial_state0 initial_state1 bsr.

(** ** One table per position (PCTX) *)
Definition pctx_table (tables : list netc_tans_table_t) (i _prev : Z)
  : outcome unit netc_tans_table_t :=
  tbl ← aget tables (netc_ctx_bucket i);
  if negb (t_valid tbl) then Fail tt else Ok tbl.

(** Position and class of the previous byte, falling back to the unigram table. *)
Definition bigram_table (bigram_tables : list (list netc_tans_table_t))
    (unigram_tables : list netc_tans_table_t) (class_map : option (list Z)) (i prev : Z)
  : outcome unit netc_tans_table_t :=
  let bucket := netc_ctx_bucket i in
  bclass ← netc_bigram_class prev class_map;
  row ← aget bigram_tables bucket;
  tbl ← aget row bclass;
  tbl ← (if negb (t_valid tbl) then aget unigram_tables bucket else Ok tbl);
  if negb (t_valid tbl) then Fail tt else Ok tbl.

Definition encode_switching (sel : Z -> Z -> outcome unit netc_tans_table_t)
    (src : list Z) (bsw : netc_bsw_t) (initial_state : Z) : outcome unit (Z * netc_bsw_t) :=
  if zlen src =? 0 then Fail tt else
  r ← encode_loop (fun i prev sym '(X, w) =>
                     tbl ← sel i prev; tans_encode_step_checked tbl X sym w)
        0 0 src (clamp_state initial_state, bsw);
  final_state r.

Definition decode_switching (sel : Z -> Z -> outcome unit netc_tans_table_t)
    (bsr : netc_bsr_t) (dst_size : nat) (initial_state : Z) : outcome unit (list Z) :=
  if Z.of_nat dst_size =? 0 then Fail tt else
  if negb (state_in_range initial_state) then Fail tt else
  decode_loop sel 0 0 dst_size initial_state bsr.

End Step.

(** ** The C entry points *)

Definition netc_tans_encode := tans_encode (P := P12) tans_encode_step.
Definition netc_tans_decode := tans_decode (P := P12).
Definition netc_tans_encode_x2 := tans_encode_x2 (P := P12).
Definition netc_tans_decode_x2 := tans_decode_x2 (P := P12).

Definition netc_tans_encode_10 := tans_encode (P := P10) tans_encode_step_checked.
Definition netc_tans_decode_10 := tans_decode (P := P10).

Definition netc_tans_encode_pctx (tables : list netc_tans_table_t) :=
  encode_switching (P := P12) (pctx_table tables).
Definition netc_tans_decode_pctx (tables : list netc_tans_table_t) :=
  decode_switching (P := P12) (pctx_table tables).

Definition netc_tans_encode_pctx_bigram bigram_tables unigram_tables class_map :=
  encode_switching (P := P12) (bigram_table bigram_tables unigram_tables class_map).
Definition netc_tans_decode_pctx_bigram bigram_tables unigram_tables class_map :=
  decode_switching (P := P12) (bigram_table bigram_tables unigram_tables class_map).

(** ** One step is invertible *)
Section StepLemmas.
Context `{P : TansParams}.

Definition state_ok (X : Z) : Prop := TABLE_SIZE <= X < 2 * TABLE_SIZE.

Lemma state_in_range_ok X : state_in_range X = true <-> state_ok X.
Proof. unfold state_in_range, state_ok. lia. Qed.

(** The renormalised state: shifting [X] right by the chosen bit count lands in
    [f, 2f), and the bit count is the one the decoder derives from the result. *)
Lemma encode_nb_spec e f X :
  0 < f <= TABLE_SIZE -> state_ok X ->
  e_nb_hi e = TABLE_LOG - Z.log2 f -> e_lower e = f * 2 ^ (TABLE_LOG - Z.log2 f) ->
  let nb := encode_nb e X in
  0 <= nb <= TABLE_LOG /\ f <= X / 2 ^ nb < 2 * f /\ TABLE_LOG - Z.log2 (X / 2 ^ nb) = nb.
Proof.
  intros Hf HX Hnb Hlo nb. pose proof TABLE_LOG_range. pose proof TABLE_SIZE_range.
  unfold state_ok in HX. destruct (state_scale f) as [Hl Hr]; [lia|].
  set (g := Z.log2 f) in *. destruct (Z.log2_spec f) as [Hg1 Hg2]; [lia|]. fold g in Hg1, Hg2.
  rewrite Z.pow_succ_r in Hg2 by lia.
  assert (Hts : TABLE_SIZE = 2 ^ g * 2 ^ (TABLE_LOG - g)) by (apply pow2_split; lia).
  assert (Hcase : (nb = TABLE_LOG - g /\ f * 2 ^ (TABLE_LOG - g) <= X) \/
                  (nb = TABLE_LOG - g - 1 /\ 0 <= nb /\ X < f * 2 ^ (TABLE_LOG - g))).
  { subst nb. unfold encode_nb. rewrite Hnb, Hlo. destruct (_ || _) eqn:E.
    - left. split; [done|]. apply orb_true_iff in E as [E|E]; bool_to_prop; [|done].
      rewrite E in *. change (2 ^ 0) with 1 in *. lia.
    - right. bool_to_prop. split; [done|]. split; lia. }
  assert (Hb : 0 <= nb <= TABLE_LOG) by lia. split; [done|].
  pose proof (pow2_pos nb ltac:(lia)) as Hp.
  assert (Hdiv : f <= X / 2 ^ nb < 2 * f).
  { destruct Hcase as [[-> Hle]|[Hn [Hn0 Hlt]]].
    - split; [apply Z.div_le_lower_bound; lia|].
      apply Z.div_lt_upper_bound; [lia|]. nia.
    - assert (H2 : 2 ^ (TABLE_LOG - g) = 2 * 2 ^ nb)
        by (rewrite <- Z.pow_succ_r by lia; f_equal; lia).
      split; [apply Z.div_le_lower_bound; [lia|]; nia|].
      apply Z.div_lt_upper_bound; [lia|]. nia. }
  split; [done|].
  rewrite <- Z.shiftr_div_pow2, Z.log2_shiftr by lia.
  assert (HlX : Z.log2 X = TABLE_LOG).
  { apply Z.log2_unique; [lia|]. rewrite Z.pow_succ_r by lia. fold TABLE_SIZE. lia. }
  rewrite HlX. lia.
Qed.

(** The bits a step pushes: how many and their value. *)
Definition step_bits (tbl : netc_tans_table_t) (X sym nb : Z) : Prop :=
  exists e, t_encode tbl !! Z.to_nat sym = Some e /\ nb = encode_nb e X.

Definition freq_of (freq : list Z) (sym : Z) : Z := default 0 (freq !! Z.to_nat sym).

Lemma encode_step_spec tbl freq X sym w W N :
  table_ok tbl freq -> is_byte sym -> state_ok X -> bsw_rep w W N ->
  0 < freq_of freq sym ->
  exists nb, 0 <= nb <= TABLE_LOG /\
  ((exists X' w', tans_encode_step tbl X sym w = Ok (X', w') /\ state_ok X' /\
      w_cap w' = w_cap w /\
      bsw_rep w' (W + X mod 2 ^ nb * 2 ^ N) (N + nb) /\
      forall r, bsr_rep r (W + X mod 2 ^ nb * 2 ^ N) (N + nb) ->
        exists r', tans_decode_step tbl X' r = Ok (sym, X, r') /\ bsr_rep r' W N) \/
   (tans_encode_step tbl X sym w = Fail tt /\ 8 * w_cap w < N + nb + 32)).
Proof.
  intros Ht Hsym HX Hw Hfs. unfold is_byte in Hsym.
  pose proof TABLE_LOG_range. pose proof TABLE_SIZE_range.
  destruct (tok_freq_ok _ _ Ht) as (Hlen & Hnn & Hsum).
  destruct (lookup_lt_is_Some_2 freq (Z.to_nat sym)) as [f Hf]; [lia|].
  unfold freq_of in Hfs. rewrite Hf in Hfs. simpl in Hfs.
  pose proof (lsum_lookup_le _ _ _ Hnn Hf) as Hfr. rewrite Hsum in Hfr.
  destruct (tok_encode _ _ Ht sym f ltac:(lia) Hf) as (e & He & Hef & _ & Hpos).
  destruct (Hpos Hfs) as (Hnb & Hlo & Hslots). clear Hpos.
  destruct (encode_nb_spec e f X ltac:(lia) HX Hnb Hlo) as (Hb & Hdiv & Hlog).
  set (nb := encode_nb e X) in *. exists nb. split; [done|].
  unfold tans_encode_step. rewrite (aget_Some _ _ e) by (done || lia). mstep.
  rewrite Hef. fold nb. unfold state_ok in HX.
  pose proof (pow2_pos nb ltac:(lia)) as Hp.
  set (v := X mod 2 ^ nb). assert (Hv : 0 <= v < 2 ^ nb) by (by apply Z.mod_pos_bound).
  assert (Hland : Z.land X (Z.shiftl 1 nb - 1) = v).
  { rewrite Z.shiftl_1_l. replace (2 ^ nb - 1) with (Z.ones nb) by (rewrite Z.ones_equiv; lia).
    apply Z.land_ones. lia. }
  rewrite Hland. set (j := X / 2 ^ nb - f).
  assert (Hj : u32 (Z.shiftr X nb - f) = j)
    by (rewrite Z.shiftr_div_pow2 by lia; apply u32_small; lia).
  rewrite Hj. destruct (Hslots j ltac:(lia)) as (slot & Hslot & Hc & Hes & Hdec).
  assert (Hcj : e_cumul e + j < TABLE_SIZE).
  { apply lookup_lt_Some in Hes. pose proof (tok_es_len _ _ Ht). lia. }
  assert (Hwr : (exists w', (if 0 <? nb then netc_bsw_write w v nb else Ok w) = Ok w' /\
            w_cap w' = w_cap w /\ bsw_rep w' (W + v * 2 ^ N) (N + nb)) \/
          ((if 0 <? nb then netc_bsw_write w v nb else Ok w) = Fail tt /\
            8 * w_cap w < N + nb + 32)).
  { case_if; [apply bsw_write_spec; done || lia|]. left. exists w.
    replace nb with 0 in * by lia. change (2 ^ 0) with 1 in Hv.
    replace v with 0 by lia. rewrite Z.mul_0_l, !Z.add_0_r. done. }
  destruct Hwr as [(w' & -> & Hcap & Hw')|[-> Hcap]]; [|right; by split].
  left. mstep. rewrite u32_small by lia. rewrite (aget_lookup _ _ _ Hes) by lia. mstep.
  do 2 eexists. split; [done|]. split; [unfold state_ok; lia|]. split; [done|]. split; [done|].
  intros r Hr. unfold tans_decode_step.
  replace (u32 (TABLE_SIZE + slot - TABLE_SIZE)) with slot by (rewrite u32_small; lia).
  rewrite (aget_lookup _ _ _ Hdec) by lia. mstep. cbn [d_nb_bits d_symbol d_next_state_base].
  replace (f + j) with (X / 2 ^ nb) by lia. rewrite Hlog.
  assert (HX' : X / 2 ^ nb * 2 ^ nb + v = X)
    by (subst v; rewrite (Z.div_mod X (2 ^ nb)) at 3 by lia; ring).
  destruct (bsw_rep_range _ _ _ Hw) as [HN HW].
  case_if.
  - pose proof (bsr_read_spec r _ _ nb Hr ltac:(lia)) as Hread. case_if_in Hread; [|lia].
    destruct Hread as (r' & -> & Hr'). mstep.
    replace (N + nb - nb) with N in * by lia. exists r'.
    assert (Hq : (W + v * 2 ^ N) / 2 ^ N = v).
    { rewrite Z.div_add by lia. rewrite Z.div_small; lia. }
    assert (Hm : (W + v * 2 ^ N) mod 2 ^ N = W).
    { rewrite Z.mod_add by lia. by apply Z.mod_small. }
    rewrite Hq, HX'. rewrite Hm in Hr'. done.
  - mstep. exists r. replace nb with 0 in * by lia. change (2 ^ 0) with 1 in Hv.
    replace v with 0 in * by lia. rewrite HX'. rewrite Z.mul_0_l, !Z.add_0_r in Hr. done.
Qed.

(** A symbol absent from the table makes the unchecked step read past the end
    of [encode_state]; the checked step reports it. *)
Lemma encode_step_absent tbl freq X sym w :
  table_ok tbl freq -> is_byte sym -> state_ok X -> freq_of freq sym = 0 ->
  tans_encode_step tbl X sym w = Undef /\ tans_encode_step_checked tbl X sym w = Fail tt.
Proof.
  intros Ht Hsym HX Hfs. unfold is_byte in Hsym. pose proof TABLE_SIZE_range.
  destruct (tok_freq_ok _ _ Ht) as (Hlen & _ & _).
  destruct (lookup_lt_is_Some_2 freq (Z.to_nat sym)) as [f Hf]; [lia|].
  unfold freq_of in Hfs. rewrite Hf in Hfs. simpl in Hfs. subst f.
  destruct (tok_encode _ _ Ht sym 0 ltac:(lia) Hf) as (e & He & Hef & H0 & _).
  rewrite H0 in * by done.
  unfold tans_encode_step_checked, tans_encode_step.
  rewrite (aget_lookup _ _ _ He) by lia. mstep. cbn [e_freq e_cumul]. split; [|done].
  change (encode_nb (EncodeEntry 0 0 0 0) X) with 0. if_false. mstep.
  unfold state_ok in HX. rewrite Z.shiftr_0_r, Z.sub_0_r, Z.add_0_l.
  rewrite !u32_small by (rewrite ?u32_small; lia).
  unfold aget. if_false. rewrite lookup_ge_None_2; [done|].
  pose proof (tok_es_len _ _ Ht). lia.
Qed.

Lemma encode_step_checked_eq tbl freq X sym w :
  table_ok tbl freq -> is_byte sym -> 0 < freq_of freq sym ->
  tans_encode_step_checked tbl X sym w = tans_encode_step tbl X sym w.
Proof.
  intros Ht Hsym Hfs. unfold is_byte in Hsym.
  destruct (tok_freq_ok _ _ Ht) as (Hlen & _ & _).
  destruct (lookup_lt_is_Some_2 freq (Z.to_nat sym)) as [f Hf]; [lia|].
  unfold freq_of in Hfs. rewrite Hf in Hfs. simpl in Hfs.
  destruct (tok_encode _ _ Ht sym f ltac:(lia) Hf) as (e & He & Hef & _ & _).
  unfold tans_encode_step_checked. rewrite (aget_lookup _ _ _ He) by lia. mstep.
  by if_false.
Qed.

(** Decoding from any state in range is defined, whatever the stream holds,
    and keeps the state in range. *)
Lemma decode_step_safe tbl freq X r :
  table_ok tbl freq -> state_ok X -> bsr_safe r ->
  tans_decode_step tbl X r = Fail tt \/
  exists s X' r', tans_decode_step tbl X r = Ok (s, X', r') /\
    is_byte s /\ state_ok X' /\ bsr_safe r'.
Proof.
  intros Ht HX Hr. unfold state_ok in *. pose proof TABLE_SIZE_range. pose proof TABLE_LOG_range.
  destruct (tok_slots _ _ Ht (X - TABLE_SIZE)) as (s & f & k & Hs & Hf & Hk & Hd); [lia|].
  destruct (tok_freq_ok _ _ Ht) as (Hlen & Hnn & Hsum).
  pose proof (lsum_lookup_le _ _ _ Hnn Hf) as Hfr. rewrite Hsum in Hfr.
  destruct (state_scale (f + k)) as [Hl Hsc]; [lia|].
  unfold tans_decode_step. rewrite u32_small by lia.
  rewrite (aget_lookup _ _ _ Hd) by lia. mstep. cbn [d_nb_bits d_symbol d_next_state_base].
  set (nb := TABLE_LOG - Z.log2 (f + k)) in *.
  assert (Hval : forall v, 0 <= v < 2 ^ nb ->
    TABLE_SIZE <= (f + k) * 2 ^ nb + v < 2 * TABLE_SIZE).
  { intros v Hv. split; [lia|]. destruct (Z.log2_spec (f + k)) as [_ H2]; [lia|].
    assert (Hts : 2 * TABLE_SIZE = 2 ^ (Z.succ (Z.log2 (f + k))) * 2 ^ nb).
    { rewrite <- Z.pow_add_r by lia. unfold TABLE_SIZE. rewrite <- Z.pow_succ_r by lia.
      f_equal. lia. }
    rewrite Hts. nia. }
  case_if.
  - destruct (bsr_read_safe r nb Hr ltac:(lia)) as [->|(v & r' & -> & Hv & Hr')]; [by left|].
    right. mstep. do 3 eexists. split; [done|]. split; [done|]. split; [by apply Hval|done].
  - right. mstep. do 3 eexists. split; [done|]. split; [done|]. split; [|done].
    apply Hval. replace nb with 0 by lia. done.
Qed.

End StepLemmas.

(** ** Whole streams *)
Section Streams.
Context `{P : TansParams}.

(** The step of a table-switching encoder, with or without the [f == 0] test. *)
Definition sel_step (chk : bool) (sel : Z -> Z -> outcome unit netc_tans_table_t)
    (i prev sym : Z) (st : Z * netc_bsw_t) : outcome unit (Z * netc_bsw_t) :=
  let '(X, w) := st in
  tbl ← sel i prev;
  (if chk then tans_encode_step_checked else tans_encode_step) tbl X sym w.

Lemma encode_loop_ext step1 step2 i prev src st :
  (forall i prev sym st, step1 i prev sym st = step2 i prev sym st) ->
  encode_loop step1 i prev src st = encode_loop step2 i prev src st.
Proof.
  intros H. revert i prev. induction src as [|a src IH]; intros i prev; simpl; [done|].
  rewrite IH. by destruct (encode_loop step2 (i + 1) a src st); simpl.
Qed.

(** Every table the selector returns was built from a frequency table. *)
Definition sel_ok (sel : Z -> Z -> outcome unit netc_tans_table_t) : Prop :=
  forall i prev tbl, sel i prev = Ok tbl -> exists freq, table_ok tbl freq.

(** Every symbol of [src] has a table, and is in it. *)
Fixpoint covered (sel : Z -> Z -> outcome unit netc_tans_table_t) (i prev : Z) (src : list Z)
  : Prop :=
  match src with
  | [] => True
  | sym :: src' =>
      (exists tbl freq, sel i prev = Ok tbl /\ table_ok tbl freq /\ 0 < freq_of freq sym) /\
      covered sel (i + 1) sym src'
  end.

Lemma sel_step_eq chk sel i prev sym X w tbl freq :
  sel i prev = Ok tbl -> table_ok tbl freq -> is_byte sym -> 0 < freq_of freq sym ->
  sel_step chk sel i prev sym (X, w) = tans_encode_step tbl X sym w.
Proof.
  intros Hs Ht Hb Hf. unfold sel_step. rewrite Hs. mstep. destruct chk; [|done].
  by eapply encode_step_checked_eq.
Qed.

(** Encoding a covered input: success with a stream that decodes back, or
    failure for lack of room, which 12 bits per symbol and one word avoid. *)
Lemma encode_loop_covered chk sel src i prev X w W N :
  bytes src -> covered sel i prev src -> state_ok X -> bsw_rep w W N ->
  (exists X' w' W' N', encode_loop (sel_step chk sel) i prev src (X, w) = Ok (X', w') /\
     state_ok X' /\ w_cap w' = w_cap w /\ bsw_rep w' W' N' /\
     N <= N' <= N + TABLE_LOG * zlen src /\
     forall r, bsr_rep r W' N' -> decode_loop sel i prev (length src) X' r = Ok src) \/
  (encode_loop (sel_step chk sel) i prev src (X, w) = Fail tt /\
     8 * w_cap w < N + TABLE_LOG * zlen src + 32).
Proof.
  pose proof TABLE_LOG_range. intros Hb. revert i prev.
  induction Hb as [|sym src Hsym Hb IH]; intros i prev Hc HX Hw.
  { left. exists X, w, W, N. simpl. do 4 (split; [done|]). split; [lia|done]. }
  destruct Hc as [(tbl & freq & Hsel & Ht & Hf) Hc]. simpl encode_loop. simpl length.
  destruct (IH _ _ Hc HX Hw) as
    [(X1 & w1 & W1 & N1 & -> & HX1 & Hcap1 & Hw1 & HN1 & Hdec)|[-> Hcap]];
    [|right; split; [done|lia]].
  mstep. rewrite (sel_step_eq _ _ _ _ _ _ _ _ _ Hsel Ht Hsym Hf).
  destruct (encode_step_spec _ _ _ _ _ _ _ Ht Hsym HX1 Hw1 Hf) as (nb & Hnb & Hst).
  destruct Hst as [(X2 & w2 & -> & HX2 & Hcap2 & Hw2 & Hd2)|[-> Hcap]];
    [left|right; split; [done|lia]].
  do 4 eexists. split; [done|]. split; [done|]. split; [congruence|]. split; [done|].
  split; [lia|]. intros r Hr. destruct (Hd2 r Hr) as (r' & Hd & Hr').
  simpl. rewrite Hsel. mstep. rewrite Hd. mstep. rewrite (Hdec r' Hr'). done.
Qed.

(** An encoder that succeeds has coded a covered input. *)
Lemma encode_loop_Ok_covered chk sel src i prev X w W N X' w' :
  sel_ok sel -> bytes src -> state_ok X -> bsw_rep w W N ->
  encode_loop (sel_step chk sel) i prev src (X, w) = Ok (X', w') -> covered sel i prev src.
Proof.
  intros Hsel Hb. revert i prev X' w'.
  induction Hb as [|sym src Hsym Hb IH]; intros i prev X' w' HX Hw He; simpl; [done|].
  simpl in He. destruct (encode_loop _ (i + 1) sym src _) as [[X1 w1]| |] eqn:E1; try done.
  rewrite bind_Ok_l in He.
  assert (Hc : covered sel (i + 1) sym src) by (by eapply IH). split; [|done].
  destruct (encode_loop_covered chk sel src (i + 1) sym X w W N Hb Hc HX Hw) as
    [(? & ? & W1 & N1 & Heq & HX1 & _ & Hw1 & _ & _)|[Heq _]]; [|congruence].
  rewrite E1 in Heq. injection Heq as <- <-.
  unfold sel_step in He. destruct (sel i prev) as [tbl| |] eqn:Es; try done.
  destruct (Hsel _ _ _ Es) as [freq Ht]. exists tbl, freq. split; [done|]. split; [done|].
  destruct (decide (0 < freq_of freq sym)) as [|Hn]; [done|]. exfalso.
  assert (Hz : freq_of freq sym = 0).
  { destruct (tok_freq_ok _ _ Ht) as (_ & Hnn & _). unfold freq_of in *.
    destruct (freq !! Z.to_nat sym) as [f|] eqn:Ef; simpl in *; [|done].
    assert (0 <= f) by exact (Forall_lookup_1 _ _ _ _ Hnn Ef). lia. }
  destruct (encode_step_absent _ _ _ _ w1 Ht Hsym HX1 Hz) as [Hu Hk].
  rewrite bind_Ok_l in He. destruct chk; congruence.
Qed.

(** Encode, seal, open, decode. *)
Lemma stream_roundtrip chk sel src cap X' w' out :
  sel_ok sel -> bytes src -> 0 <= cap ->
  encode_loop (sel_step chk sel) 0 0 src (TABLE_SIZE, netc_bsw_init cap) = Ok (X', w') ->
  netc_bsw_flush w' = Ok out ->
  state_ok X' /\ bytes out /\
  exists r, netc_bsr_init out = Ok r /\ decode_loop sel 0 0 (length src) X' r = Ok src.
Proof.
  intros Hsel Hb Hcap He Hf. pose proof TABLE_SIZE_range.
  assert (HX : state_ok TABLE_SIZE) by (unfold state_ok; lia).
  pose proof (bsw_init_rep cap Hcap) as Hw.
  pose proof (encode_loop_Ok_covered _ _ _ _ _ _ _ _ _ _ _ Hsel Hb HX Hw He) as Hc.
  destruct (encode_loop_covered chk sel src 0 0 _ _ 0 0 Hb Hc HX Hw) as
    [(X1 & w1 & W1 & N1 & Heq & HX1 & _ & Hw1 & _ & Hdec)|[Heq _]]; [|congruence].
  rewrite He in Heq. injection Heq as <- <-.
  destruct (bsw_flush_spec _ _ _ Hw1) as [(out' & Hf' & Hs)|[Hf' _]]; [|congruence].
  rewrite Hf in Hf'. injection Hf' as <-. split; [done|]. split; [apply Hs|].
  destruct (bsr_init_sealed _ _ _ Hs) as (r & Hr & Hrep). eauto.
Qed.

(** With room for [TABLE_LOG] bits per symbol, the encoder succeeds. *)
Lemma stream_total chk sel src cap :
  bytes src -> covered sel 0 0 src -> TABLE_LOG * zlen src + 40 <= 8 * cap ->
  exists X' w' out,
    encode_loop (sel_step chk sel) 0 0 src (TABLE_SIZE, netc_bsw_init cap) = Ok (X', w') /\
    netc_bsw_flush w' = Ok out /\ 8 * zlen out <= TABLE_LOG * zlen src + 8.
Proof.
  intros Hb Hc Hcap. pose proof TABLE_SIZE_range. pose proof TABLE_LOG_range.
  assert (HX : state_ok TABLE_SIZE) by (unfold state_ok; lia).
  pose proof (bsw_init_rep cap ltac:(lia)) as Hw.
  destruct (encode_loop_covered chk sel src 0 0 _ _ 0 0 Hb Hc HX Hw) as
    [(X1 & w1 & W1 & N1 & Heq & HX1 & Hcw & Hw1 & HN1 & Hdec)|[Heq ?]];
    [|cbn [w_cap netc_bsw_init] in *; lia].
  cbn [w_cap netc_bsw_init] in Hcw.
  destruct (bsw_flush_spec _ _ _ Hw1) as [(out & Hf & Hs)|[Hf Hlt]].
  - do 3 eexists. split; [done|]. split; [done|].
    destruct Hs as (_ & _ & _ & _ & ->). dlia.
  - rewrite Hcw in Hlt. dlia.
Qed.

(** Decoding arbitrary data never leaves defined behaviour. *)
Lemma decode_loop_safe sel i prev n X r :
  (forall i prev, 0 <= i -> is_byte prev ->
     sel i prev = Fail tt \/ exists tbl freq, sel i prev = Ok tbl /\ table_ok tbl freq) ->
  0 <= i -> is_byte prev -> state_ok X -> bsr_safe r ->
  decode_loop sel i prev n X r = Fail tt \/
  exists dst, decode_loop sel i prev n X r = Ok dst /\ length dst = n /\ bytes dst.
Proof.
  intros Hsel. revert i prev X r.
  induction n as [|n IH]; intros i prev X r Hi Hp HX Hr; simpl.
  { right. exists []. repeat split. constructor. }
  destruct (Hsel i prev Hi Hp) as [->|(tbl & freq & -> & Ht)]; [by left|]. mstep.
  destruct (decode_step_safe tbl freq X r Ht HX Hr) as
    [->|(s & X' & r' & -> & Hs & HX' & Hr')]; [by left|]. mstep.
  destruct (IH (i + 1) s X' r' ltac:(lia) Hs HX' Hr') as [->|(dst & -> & Hl & Hbd)]; [by left|].
  right. mstep. exists (s :: dst). simpl. split; [done|]. split; [lia|]. by constructor.
Qed.

Lemma decode_pairs_safe tbl freq n X0 X1 r :
  table_ok tbl freq -> state_ok X0 -> state_ok X1 -> bsr_safe r ->
  decode_pairs tbl n X0 X1 r = Fail tt \/
  exists dst, decode_pairs tbl n X0 X1 r = Ok dst /\ length dst = (2 * n)%nat /\ bytes dst.
Proof.
  intros Ht. revert X0 X1 r. induction n as [|n IH]; intros X0 X1 r H0 H1 Hr; cbn [decode_pairs].
  { right. exists []. repeat split. constructor. }
  destruct (decode_step_safe tbl freq X0 r Ht H0 Hr) as [->|(s0 & X0' & r1 & -> & Hs0 & H0' & Hr1)]; [by left|]. mstep.
  destruct (decode_step_safe tbl freq X1 r1 Ht H1 Hr1) as [->|(s1 & X1' & r2 & -> & Hs1 & H1' & Hr2)]; [by left|]. mstep.
  destruct (IH X0' X1' r2 H0' H1' Hr2) as [->|(dst & -> & Hl & Hbd)]; [by left|]. mstep.
  right. exists (s0 :: s1 :: dst). simpl. split; [done|]. split; [lia|]. do 2 (constructor; [done|]). done.
Qed.

Lemma decode_x2_safe tbl freq r n X0 X1 :
  table_ok tbl freq -> bsr_safe r ->
  tans_decode_x2 tbl r n X0 X1 = Fail tt \/
  exists dst, tans_decode_x2 tbl r n X0 X1 = Ok dst /\ length dst = n /\ bytes dst.
Proof.
  intros Ht Hr. unfold tans_decode_x2. destruct (_ || _); [by left|].
  destruct (state_in_range X0) eqn:E0; [|by left]. destruct (state_in_range X1) eqn:E1; [|by left].
  apply state_in_range_ok in E0, E1. cbn [negb]. cbv iota.
  destruct (Z.odd (Z.of_nat n)) eqn:Eo.
  - assert (n = S (2 * Nat.div2 n)) as Hn.
    { pose proof (Nat.div2_odd n) as Hd. rewrite <- Nat.negb_even in Hd.
      assert (Nat.even n = false) as He; [|rewrite He in Hd; simpl in Hd; lia].
      apply not_true_is_false. intros [k Hk]%Nat.even_spec. apply Z.odd_spec in Eo as [m Hm]. lia. }
    destruct (decode_step_safe tbl freq X0 r Ht E0 Hr) as [->|(s & X' & r' & -> & Hs & HX' & Hr')]; [by left|]. mstep.
    destruct (decode_pairs_safe tbl freq (Nat.div2 n) X' X1 r' Ht HX' E1 Hr') as [->|(dst & -> & Hl & Hb)]; [by left|].
    mstep. right. exists (s :: dst). split; [done|]. split; [cbn [length]; lia|by constructor].
  - assert (n = (2 * Nat.div2 n)%nat) as Hn.
    { pose proof (Nat.div2_odd n) as Hd. rewrite <- Nat.negb_even in Hd.
      assert (Nat.even n = true) as He; [|rewrite He in Hd; simpl in Hd; lia].
      rewrite Zeven.Zodd_even_bool, negb_false_iff in Eo. apply Z.even_spec in Eo as [m Hm].
      apply Nat.even_spec. exists (Z.to_nat m). lia. }
    destruct (decode_pairs_safe tbl freq (Nat.div2 n) X0 X1 r Ht E0 E1 Hr) as [->|(dst & -> & Hl & Hb)]; [by left|].
    right. exists dst. split; [done|]. split; [lia|done].
Qed.

(** *** Two states *)

(** What a successful step leaves behind. *)
Lemma encode_step_Ok tbl freq X sym w W N X' w' :
  table_ok tbl freq -> is_byte sym -> state_ok X -> bsw_rep w W N ->
  tans_encode_step tbl X sym w = Ok (X', w') ->
  state_ok X' /\ exists W' N', bsw_rep w' W' N' /\
    forall r, bsr_rep r W' N' ->
      exists r', tans_decode_step tbl X' r = Ok (sym, X, r') /\ bsr_rep r' W N.
Proof.
  intros Ht Hsym HX Hw He.
  assert (Hf : 0 < freq_of freq sym).
  { destruct (decide (0 < freq_of freq sym)) as [|Hn]; [done|]. exfalso.
    destruct (tok_freq_ok _ _ Ht) as (_ & Hnn & _).
    assert (Hz : freq_of freq sym = 0).
    { unfold freq_of in *. destruct (freq !! Z.to_nat sym) as [f|] eqn:Ef; simpl in *; [|done].
      assert (0 <= f) by exact (Forall_lookup_1 _ _ _ _ Hnn Ef). lia. }
    destruct (encode_step_absent _ _ _ _ w Ht Hsym HX Hz) as [Hu _]. congruence. }
  destruct (encode_step_spec _ _ _ _ _ _ _ Ht Hsym HX Hw Hf) as
    (nb & _ & [(X1 & w1 & Heq & HX1 & _ & Hw1 & Hd)|[Heq _]]); [|congruence].
  rewrite He in Heq. injection Heq as <- <-. split; [done|]. eauto.
Qed.

(** The symbol a state decodes to does not depend on the stream. *)
Definition state_symbol (tbl : netc_tans_table_t) (X sym : Z) : Prop :=
  forall r s X' r', tans_decode_step tbl X r = Ok (s, X', r') -> s = sym.

Lemma state_symbol_intro tbl X sym Xp w W N W1 N1 :
  bsw_rep w W N ->
  (forall r, bsr_rep r W N ->
     exists r', tans_decode_step tbl X r = Ok (sym, Xp, r') /\ bsr_rep r' W1 N1) ->
  state_symbol tbl X sym.
Proof.
  intros Hw Hd.
  (* a reader positioned on the same bits exists: seal them with room to spare *)
  destruct (bsw_flush_spec (BSW (w_buf w) (zlen (w_buf w) + 9) (w_accum w) (w_bits w)) W N)
    as [(out & _ & Hs)|[_ Hlt]].
  { destruct Hw. split; cbn [w_buf w_cap w_bits w_accum]; try done. lia. }
  2:{ cbn [w_cap] in Hlt. destruct Hw as [_ _ ? _ -> _]. exfalso. dlia. }
  destruct (bsr_init_sealed _ _ _ Hs) as (r0 & _ & Hr0). destruct (Hd r0 Hr0) as (r1 & Hd0 & _).
  intros r s X2 r' H2. unfold tans_decode_step in *.
  destruct (aget (t_decode tbl) (u32 (X - TABLE_SIZE))) as [d| |]; try done.
  rewrite bind_Ok_l in *. apply bind_Ok in H2 as ([b2 r2] & _ & H2).
  apply bind_Ok in Hd0 as ([b3 r3] & _ & Hd0). congruence.
Qed.

Lemma list_pair_ind {A} (Q : list A -> Prop) :
  Q [] -> (forall x, Q [x]) -> (forall x y l, Q l -> Q (x :: y :: l)) -> forall l, Q l.
Proof.
  intros H0 H1 H2 l. enough (Q l /\ forall x, Q (x :: l)) by tauto.
  induction l as [|y l [IH IHx]]; split; auto.
Qed.

(** Encoding pairs: the streams decode back pairwise, and [X0] carries the
    first symbol. *)
Lemma encode_pairs_spec tbl freq src X0 X1 w W N X0' X1' w' :
  table_ok tbl freq -> bytes src -> Nat.even (length src) = true ->
  state_ok X0 -> state_ok X1 -> bsw_rep w W N ->
  encode_pairs tbl src (X0, X1, w) = Ok (X0', X1', w') ->
  state_ok X0' /\ state_ok X1' /\ exists W' N', bsw_rep w' W' N' /\
    (forall r, bsr_rep r W' N' ->
       decode_pairs tbl (Nat.div2 (length src)) X0' X1' r = Ok src) /\
    match src with
    | a :: b :: src2 => exists X0p W1 N1,
        (forall r, bsr_rep r W' N' ->
           exists r', tans_decode_step tbl X0' r = Ok (a, X0p, r') /\ bsr_rep r' W1 N1) /\
        match src2 with
        | [] => X0p = X0
        | c :: _ => state_symbol tbl X0p c
        end
    | _ => X0' = X0
    end.
Proof.
  intros Ht Hb Hev HX0 HX1 Hw. revert Hb Hev X0' X1' w'.
  induction src as [|a|a b src IH] using list_pair_ind; intros Hb Hev X0' X1' w' He.
  - injection He as <- <- <-. split; [done|]. split; [done|]. exists W, N. done.
  - done.
  - apply Forall_cons in Hb as [Ha Hb]. apply Forall_cons in Hb as [Hbb Hb].
    cbn [encode_pairs] in He. apply bind_Ok in He as ([[Y0 Y1] w1] & E1 & He).
    apply bind_Ok in He as ([Y1' w2] & E2 & He). apply bind_Ok in He as ([Y0' w3] & E3 & He).
    injection He as <- <- <-.
    destruct (IH Hb Hev _ _ _ E1) as (HY0 & HY1 & W1 & N1 & Hw1 & Hd1 & Hlink).
    destruct (encode_step_Ok _ _ _ _ _ _ _ _ _ Ht Hbb HY1 Hw1 E2) as (HY1' & W2 & N2 & Hw2 & Hd2).
    destruct (encode_step_Ok _ _ _ _ _ _ _ _ _ Ht Ha HY0 Hw2 E3) as (HY0' & W3 & N3 & Hw3 & Hd3).
    split; [done|]. split; [done|]. exists W3, N3. split; [done|]. split.
    + intros r Hr. destruct (Hd3 r Hr) as (r' & Hr1 & Hrep1).
      destruct (Hd2 r' Hrep1) as (r2 & Hr2 & Hrep2).
      cbn [length Nat.div2 decode_pairs]. rewrite Hr1. mstep. rewrite Hr2. mstep.
      by rewrite (Hd1 r2 Hrep2).
    + exists Y0, W2, N2. split; [done|]. destruct src as [|c [|d src2]]; [done|done|].
      destruct Hlink as (Xp & Wp & Np & Hdp & _).
      exact (state_symbol_intro _ _ _ _ _ _ _ _ _ Hw1 Hdp).
Qed.

(** An even-length input. *)
Lemma x2_roundtrip_even tbl freq src cap X0 X1 w out :
  table_ok tbl freq -> bytes src -> 0 <= cap -> Z.odd (zlen src) = false ->
  tans_encode_x2 tbl src (netc_bsw_init cap) = Ok (X0, X1, w) ->
  netc_bsw_flush w = Ok out ->
  state_ok X0 /\ state_ok X1 /\
  exists r, netc_bsr_init out = Ok r /\ tans_decode_x2 tbl r (length src) X0 X1 = Ok src.
Proof.
  intros Ht Hb Hcap Hodd He Hf. pose proof TABLE_SIZE_range.
  assert (HX : state_ok TABLE_SIZE) by (unfold state_ok; lia).
  unfold tans_encode_x2 in He. destruct (_ || _) eqn:E in He; [done|]. rewrite Hodd in He.
  rewrite Zeven.Zodd_even_bool, negb_false_iff in Hodd.
  assert (Hev : Nat.even (length src) = true).
  { apply Nat.even_spec. apply Z.even_spec in Hodd as [k Hk]. exists (Z.to_nat k). lia. }
  destruct (encode_pairs_spec _ _ _ _ _ _ _ _ _ _ _ Ht Hb Hev HX HX (bsw_init_rep cap Hcap) He)
    as (HX0 & HX1 & W & N & Hw & Hd & _).
  destruct (bsw_flush_spec _ _ _ Hw) as [(out' & Hf' & Hs)|[Hf' _]]; [|congruence].
  rewrite Hf in Hf'. injection Hf' as <-.
  destruct (bsr_init_sealed _ _ _ Hs) as (r & Hr & Hrep). split; [done|]. split; [done|]. exists r. split; [done|].
  unfold tans_decode_x2. rewrite E. apply state_in_range_ok in HX0, HX1. rewrite HX0, HX1.
  cbn [negb]. rewrite Zeven.Zodd_even_bool, Hodd. cbn [negb]. by apply Hd.
Qed.

(** An odd-length input of at least three symbols: the decoder hands the
    third symbol out in second place. *)
Lemma x2_odd_swaps tbl freq a b c src cap X0 X1 w out dst r :
  table_ok tbl freq -> bytes (a :: b :: c :: src) -> 0 <= cap -> Z.odd (zlen src) = false ->
  tans_encode_x2 tbl (a :: b :: c :: src) (netc_bsw_init cap) = Ok (X0, X1, w) ->
  netc_bsw_flush w = Ok out -> netc_bsr_init out = Ok r ->
  tans_decode_x2 tbl r (length (a :: b :: c :: src)) X0 X1 = Ok dst ->
  dst !! 1%nat = Some c.
Proof.
  intros Ht Hb Hcap Hodd He Hf Hr Hdec. pose proof TABLE_SIZE_range.
  assert (HX : state_ok TABLE_SIZE) by (unfold state_ok; lia).
  set (s := a :: b :: c :: src) in *.
  assert (Hs3 : Z.odd (zlen s) = true).
  { subst s. cbn [length]. rewrite !Nat2Z.inj_succ, Z.odd_succ, Z.even_succ, Z.odd_succ.
    rewrite <- Z.negb_odd, Hodd. done. }
  unfold tans_encode_x2 in He. case_if_in He; [done|]. rewrite Hs3 in He.
  apply bind_Ok in He as (z & Hz & He). apply bind_Ok in He as ([Y0 w1] & E1 & He).
  destruct (exists_last (l := s)) as (s0 & z' & Hsnoc); [done|].
  assert (Hlen0 : length s = S (length s0)) by (rewrite Hsnoc, length_app; simpl; lia).
  assert (z = z').
  { apply aget_Ok in Hz as [_ Hz]. rewrite Hsnoc in Hz.
    rewrite lookup_app_r in Hz by (rewrite length_app; simpl; lia).
    rewrite length_app in Hz. simpl in Hz.
    replace (Z.to_nat _ - length s0)%nat with 0%nat in Hz by lia. simpl in Hz. congruence. }
  subst z'. replace (take (length s - 1) s) with s0 in He
    by (rewrite Hlen0, Hsnoc; rewrite take_app_le by lia; rewrite take_ge; [done|lia]).
  assert (Hbs : bytes s0 /\ is_byte z).
  { rewrite Hsnoc in Hb. apply bytes_app in Hb as [? Hz']. split; [done|].
    by apply Forall_cons in Hz' as [? _]. }
  destruct Hbs as [Hb0 Hbz].
  assert (Hev : Nat.even (length s0) = true).
  { apply Nat.even_spec. rewrite Hlen0, Nat2Z.inj_succ, Z.odd_succ in Hs3.
    apply Z.even_spec in Hs3 as [k Hk]. exists (Z.to_nat k). lia. }
  destruct (encode_step_Ok _ _ _ _ _ _ _ _ _ Ht Hbz HX (bsw_init_rep cap Hcap) E1)
    as (HY0 & W1 & N1 & Hw1 & Hd1).
  destruct (encode_pairs_spec _ _ _ _ _ _ _ _ _ _ _ Ht Hb0 Hev HY0 HX Hw1 He)
    as (HX0 & HX1 & W & N & Hw & _ & Hlink).
  destruct (bsw_flush_spec _ _ _ Hw) as [(out' & Hf' & Hsl)|[Hf' _]]; [|congruence].
  rewrite Hf in Hf'. injection Hf' as <-.
  destruct (bsr_init_sealed _ _ _ Hsl) as (r' & Hr' & Hrep). rewrite Hr in Hr'. injection Hr' as <-.
  destruct s0 as [|a0 [|b0 s2]]; [done|done|].
  assert (a0 = a /\ b0 = b /\ head (s2 ++ [z]) = Some c) as (-> & -> & Hhd).
  { subst s. simpl in Hsnoc. injection Hsnoc as <- <- Hs2. rewrite <- Hs2. done. }
  destruct Hlink as (X0p & W2 & N2 & Hda & Hsym).
  assert (Hc : state_symbol tbl X0p c).
  { destruct s2 as [|c0 s2]; simpl in Hhd; injection Hhd as ->; [|done].
    subst X0p. exact (state_symbol_intro _ _ _ _ _ _ _ _ _ Hw1 Hd1). }
  unfold tans_decode_x2 in Hdec. case_if_in Hdec; [done|].
  apply state_in_range_ok in HX0, HX1. rewrite HX0, HX1 in Hdec. cbn [negb] in Hdec.
  fold s in Hdec. rewrite Hs3 in Hdec. destruct (Hda r Hrep) as (r1 & Hd0 & _).
  rewrite Hd0, bind_Ok_l in Hdec. apply bind_Ok in Hdec as (rest & Hrest & Hdec).
  injection Hdec as <-. cbn [lookup list_lookup].
  rewrite Hlen0 in Hrest. cbn [length Nat.div2] in Hrest.
  cbn [decode_pairs] in Hrest. apply bind_Ok in Hrest as ([[s0' Z0] r2] & Hd2 & Hrest).
  apply bind_Ok in Hrest as ([[s1' Z1] r3] & _ & Hrest). apply bind_Ok in Hrest as (? & _ & Hrest).
  injection Hrest as <-. by rewrite (Hc _ _ _ _ Hd2).
Qed.

End Streams.

(** ** Sets of tables *)

(** A table marked valid was built from a frequency table. *)
Definition tbl_ok (tbl : netc_tans_table_t) : Prop :=
  t_valid tbl = true -> exists freq, table_ok (H := P12) tbl freq.

Definition tables_ok (tables : list netc_tans_table_t) : Prop :=
  zlen tables = NETC_CTX_COUNT /\ Forall tbl_ok tables.

Definition bigram_ok (bigram_tables : list (list netc_tans_table_t)) : Prop :=
  zlen bigram_tables = NETC_CTX_COUNT /\
  Forall (fun row => zlen row = NETC_BIGRAM_CTX_COUNT /\ Forall tbl_ok row) bigram_tables.

Definition class_map_ok (class_map : option (list Z)) : Prop :=
  match class_map with
  | Some m => zlen m = 256 /\ Forall (fun c => 0 <= c < NETC_BIGRAM_CTX_COUNT) m
  | None => True
  end.

Lemma ctx_bucket_range i : 0 <= netc_ctx_bucket i < NETC_CTX_COUNT.
Proof.
  unfold netc_ctx_bucket, NETC_CTX_COUNT. repeat case_if; try lia.
  destruct (bucket_lut !! Z.to_nat i) as [b|] eqn:Eb; simpl; [|lia].
  assert (Forall (fun b => 0 <= b < 16) bucket_lut) as Hf
    by (repeat (constructor; [lia|]); constructor).
  exact (Forall_lookup_1 _ _ _ _ Hf Eb).
Qed.

Lemma tables_get {E} tables b :
  tables_ok tables -> 0 <= b < NETC_CTX_COUNT ->
  exists tbl, @aget E _ tables b = Ok tbl /\ tbl_ok tbl.
Proof.
  intros [Hl Hf] Hb. destruct (@aget_total E _ tables b) as [t Ht]; [lia|].
  exists t. split; [done|]. apply aget_Ok in Ht as [_ Ht]. by eapply Forall_lookup_1.
Qed.

Lemma bigram_get {E} bigram b c :
  bigram_ok bigram -> 0 <= b < NETC_CTX_COUNT -> 0 <= c < NETC_BIGRAM_CTX_COUNT ->
  exists row tbl, @aget E _ bigram b = Ok row /\ @aget E _ row c = Ok tbl /\ tbl_ok tbl.
Proof.
  intros [Hl Hf] Hb Hc. destruct (@aget_total E _ bigram b) as [row Hr]; [lia|].
  pose proof Hr as [_ Hr']%aget_Ok. eapply Forall_lookup_1 in Hf as [Hrl Hrf]; [|done].
  destruct (@aget_total E _ row c) as [t Ht]; [lia|]. exists row, t. split; [done|].
  split; [done|]. apply aget_Ok in Ht as [_ Ht]. by eapply Forall_lookup_1.
Qed.

Lemma bigram_class_ok prev m :
  class_map_ok m -> is_byte prev ->
  exists c, netc_bigram_class prev m = Ok c /\ 0 <= c < NETC_BIGRAM_CTX_COUNT.
Proof.
  unfold class_map_ok, netc_bigram_class, is_byte. intros Hm Hp. destruct m as [m|].
  - destruct Hm as [Hl Hf]. destruct (@aget_total unit _ m prev) as [c Hc]; [lia|].
    exists c. split; [done|]. apply aget_Ok in Hc as [_ Hc]. exact (Forall_lookup_1 _ _ _ _ Hf Hc).
  - eexists. split; [done|]. rewrite Z.shiftr_div_pow2 by lia. unfold NETC_BIGRAM_CTX_COUNT. dlia.
Qed.

Lemma pctx_sel_ok tables : tables_ok tables -> sel_ok (P := P12) (pctx_table tables).
Proof.
  intros Ht i prev tbl H. unfold pctx_table in H.
  destruct (@tables_get unit tables (netc_ctx_bucket i) Ht (ctx_bucket_range i)) as (t & Hg & Hok).
  rewrite Hg, bind_Ok_l in H. case_if_in H; [done|]. injection H as <-. by apply Hok.
Qed.

Lemma pctx_sel_defined tables i prev : tables_ok tables -> pctx_table tables i prev <> Undef.
Proof.
  intros Ht. unfold pctx_table.
  destruct (@tables_get unit tables (netc_ctx_bucket i) Ht (ctx_bucket_range i)) as (t & -> & _).
  mstep. by case_if.
Qed.

(** The bigram selector on a well-formed dictionary. *)
Lemma bigram_sel_spec bigram tables m i prev :
  bigram_ok bigram -> tables_ok tables -> class_map_ok m -> is_byte prev ->
  bigram_table bigram tables m i prev = Fail tt \/
  exists tbl, bigram_table bigram tables m i prev = Ok tbl /\ t_valid tbl = true /\ tbl_ok tbl.
Proof.
  intros Hb Ht Hm Hp. unfold bigram_table.
  destruct (bigram_class_ok prev m Hm Hp) as (c & -> & Hc). mstep.
  destruct (@bigram_get unit bigram (netc_ctx_bucket i) c Hb (ctx_bucket_range i) Hc)
    as (row & t & -> & Hr & Hok). mstep. rewrite Hr. mstep.
  destruct (t_valid t) eqn:Ev; simpl negb; cbv iota; mstep.
  - rewrite Ev. right. by exists t.
  - destruct (@tables_get unit tables (netc_ctx_bucket i) Ht (ctx_bucket_range i)) as (u & -> & Hu).
    mstep. destruct (t_valid u) eqn:Eu; [right; by exists u|by left].
Qed.

(** Restricting a selector to byte contexts does not change a stream of bytes. *)
Definition byte_sel (sel : Z -> Z -> outcome unit netc_tans_table_t) (i prev : Z) :=
  if (0 <=? prev) && (prev <? 256) then sel i prev else Fail tt.

Lemma encode_loop_byte_sel `{P : TansParams} chk sel i prev src st :
  bytes src -> is_byte prev ->
  encode_loop (sel_step chk (byte_sel sel)) i prev src st = encode_loop (sel_step chk sel) i prev src st.
Proof.
  intros Hb. revert i prev. induction Hb as [|a src Ha Hb IH]; intros i prev Hp; [done|].
  simpl. rewrite IH by done. destruct (encode_loop (sel_step chk sel) (i + 1) a src st) as [[X w]| |]; [|done..].
  mstep. unfold sel_step, byte_sel. unfold is_byte in Hp. by if_true.
Qed.

Lemma decode_loop_byte_sel `{P : TansParams} sel i prev n X r dst :
  is_byte prev -> bytes dst ->
  decode_loop (byte_sel sel) i prev n X r = Ok dst -> decode_loop sel i prev n X r = Ok dst.
Proof.
  revert i prev X r dst. induction n as [|n IH]; intros i prev X r dst Hp Hd H; [done|].
  simpl in *. apply bind_Ok in H as (tbl & Hs & H). apply bind_Ok in H as ([[s X'] r'] & Hds & H).
  apply bind_Ok in H as (rest & Hrest & H). injection H as <-. apply bytes_cons in Hd as [Hs1 Hd].
  unfold byte_sel in Hs. unfold is_byte in Hp. case_if_in Hs; [|lia]. rewrite Hs. mstep. rewrite Hds. mstep.
  by rewrite (IH _ _ _ _ _ Hs1 Hd Hrest).
Qed.

(** ** The entry points *)

Lemma clamp_init `{P : TansParams} : clamp_state TABLE_SIZE = TABLE_SIZE.
Proof. unfold clamp_state. by rewrite Z.ltb_irrefl. Qed.

(** A stream coded with one table decodes with it ([chk]: the 10-bit coder
    tests for absent symbols). *)
Lemma tans_roundtrip `{P : TansParams} (chk : bool) tbl freq src cap X w out :
  table_ok tbl freq -> bytes src -> 0 <= cap ->
  tans_encode (if chk then tans_encode_step_checked else tans_encode_step) tbl src
    (netc_bsw_init cap) TABLE_SIZE = Ok (X, w) ->
  netc_bsw_flush w = Ok out ->
  state_ok X /\ bytes out /\
  exists r, netc_bsr_init out = Ok r /\ tans_decode tbl r (length src) X = Ok src.
Proof.
  intros Ht Hb Hcap He Hf. unfold tans_encode in He. destruct (_ || _) eqn:E in He; [done|]. rewrite clamp_init in He.
  apply bind_Ok in He as ([X' w'] & He & Hfs). unfold final_state in Hfs. destruct (_ =? 0) in Hfs; [done|].
  injection Hfs as -> ->.
  rewrite (encode_loop_ext _ (sel_step chk (fun _ _ => Ok tbl))) in He
    by (intros ? ? ? [? ?]; by destruct chk).
  destruct (stream_roundtrip chk (fun _ _ => Ok tbl) src cap X w out) as (HX & Hbo & r & Hr & Hd);
    [intros ? ? ? [= <-]; by exists freq|done..|].
  split; [done|]. split; [done|]. exists r. split; [done|]. unfold tans_decode.
  rewrite E. apply state_in_range_ok in HX. by rewrite HX.
Qed.

(** The same for a coder that switches tables. *)
Lemma switching_roundtrip `{P : TansParams} sel src cap X w out :
  sel_ok (byte_sel sel) -> bytes src -> 0 <= cap ->
  encode_switching sel src (netc_bsw_init cap) TABLE_SIZE = Ok (X, w) ->
  netc_bsw_flush w = Ok out ->
  state_ok X /\ bytes out /\
  exists r, netc_bsr_init out = Ok r /\ decode_switching sel r (length src) X = Ok src.
Proof.
  intros Ht Hb Hcap He Hf. unfold encode_switching in He. case_if_in He; [done|]. rewrite clamp_init in He.
  apply bind_Ok in He as ([X' w'] & He & Hfs). unfold final_state in Hfs. destruct (_ =? 0) in Hfs; [done|].
  injection Hfs as -> ->.
  rewrite (encode_loop_ext _ (sel_step true sel)) in He by (by intros ? ? ? [? ?]).
  rewrite <- encode_loop_byte_sel in He by done.
  destruct (stream_roundtrip true (byte_sel sel) src cap X w out) as (HX & Hbo & r & Hr & Hd); [done..|].
  split; [done|]. split; [done|]. exists r. split; [done|]. unfold decode_switching.
  destruct (Z.eqb_spec (zlen src) 0); [lia|]. apply state_in_range_ok in HX. rewrite HX. simpl negb. cbv iota.
  by apply decode_loop_byte_sel in Hd.
Qed.

Lemma byte_sel_pctx tables : tables_ok tables -> sel_ok (P := P12) (byte_sel (pctx_table tables)).
Proof.
  intros Ht i prev tbl H. unfold byte_sel in H. case_if_in H; [|done]. by eapply pctx_sel_ok.
Qed.

Lemma byte_sel_bigram bigram tables m :
  bigram_ok bigram -> tables_ok tables -> class_map_ok m ->
  sel_ok (P := P12) (byte_sel (bigram_table bigram tables m)).
Proof.
  intros Hb Ht Hm i prev tbl H. unfold byte_sel in H. case_if_in H; [|done].
  destruct (bigram_sel_spec bigram tables m i prev Hb Ht Hm) as [H'|(t & H' & Hv & Hok)];
    [done|congruence|]. rewrite H in H'. injection H' as <-. by apply Hok.
Qed.
