(* ===== verification/Entropy.v ===== *)
(** * The contract of the entropy coder

    What the rest of the library relies on, stated from a frequency table to
    the decoded bytes: a table is built exactly from normalised frequencies,
    and with room for [TABLE_LOG] bits per symbol every encoder returns a
    stream from which its decoder recovers the input.  The two-state coder
    does so for even sizes only. *)

From stdpp Require Import prelude.
From Stdlib Require Import ZArith Lia.
From S2P Require Import Prelude TansTable Bitstream TansCodec.

Local Open Scope Z_scope.

(** ** Two states, with enough room *)
Section PairsTotal.
Context `{P : TansParams}.

(** Every symbol of [src] occurs in the frequency table. *)
Definition present (freq src : list Z) : Prop := Forall (fun s => 0 < freq_of freq s) src.

Lemma step_room tbl freq X sym w W N :
  table_ok tbl freq -> is_byte sym -> 0 < freq_of freq sym -> state_ok X -> bsw_rep w W N ->
  N + TABLE_LOG + 32 <= 8 * w_cap w ->
  exists X' w' W' N', tans_encode_step tbl X sym w = Ok (X', w') /\ state_ok X' /\ w_cap w' = w_cap w /\
    bsw_rep w' W' N' /\ N' <= N + TABLE_LOG.
Proof.
  intros Ht Hs Hf HX Hw Hc.
  destruct (encode_step_spec tbl freq X sym w W N Ht Hs HX Hw Hf)
    as (nb & Hnb & [(X' & w' & He & HX' & Hc' & Hw' & _)|[_ ?]]); [|lia].
  exists X', w', (W + X mod 2 ^ nb * 2 ^ N), (N + nb). split_and!; (done || lia).
Qed.

Lemma pairs_room tbl freq src X0 X1 w W N :
  table_ok tbl freq -> bytes src -> present freq src -> state_ok X0 -> state_ok X1 -> bsw_rep w W N ->
  N + TABLE_LOG * zlen src + 32 <= 8 * w_cap w ->
  exists X0' X1' w' W' N', encode_pairs tbl src (X0, X1, w) = Ok (X0', X1', w') /\ state_ok X0' /\ state_ok X1' /\
    w_cap w' = w_cap w /\ bsw_rep w' W' N' /\ N' <= N + TABLE_LOG * zlen src.
Proof.
  intros Ht Hb Hp H0 H1 Hw. pose proof TABLE_LOG_range. revert Hb Hp.
  induction src as [|a|a b src IH] using list_pair_ind; intros Hb Hp Hc.
  - exists X0, X1, w, W, N. split_and!; (done || lia).
  - exists X0, X1, w, W, N. split_and!; (done || lia).
  - apply bytes_cons in Hb as [Ha Hb]. apply bytes_cons in Hb as [Hb1 Hb].
    apply Forall_cons in Hp as [Hpa Hp]. apply Forall_cons in Hp as [Hpb Hp]. cbn [length] in *.
    destruct IH as (Y0 & Y1 & w1 & W1 & N1 & E1 & HY0 & HY1 & Hc1 & Hw1 & HN1); [done|done|lia|].
    destruct (step_room tbl freq Y1 b w1 W1 N1) as (Y1' & w2 & W2 & N2 & E2 & HY1' & Hc2 & Hw2 & HN2); [done..|lia|].
    destruct (step_room tbl freq Y0 a w2 W2 N2) as (Y0' & w3 & W3 & N3 & E3 & HY0' & Hc3 & Hw3 & HN3); [done..|lia|].
    exists Y0', Y1', w3, W3, N3. cbn [encode_pairs]. rewrite E1. mstep. rewrite E2. mstep. rewrite E3. mstep.
    split_and!; (done || congruence || lia).
Qed.

(** A stream with room for one more byte can be sealed. *)
Lemma flush_room w W N : bsw_rep w W N -> N + 8 <= 8 * w_cap w ->
  exists out r, netc_bsw_flush w = Ok out /\ netc_bsr_init out = Ok r /\ bsr_rep r W N /\ 8 * zlen out <= N + 8.
Proof.
  intros Hw Hc. destruct (bsw_flush_spec w W N Hw) as [(out & Hf & Hs)|[_ Hlt]]; [|dlia].
  destruct (bsr_init_sealed out W N Hs) as (r & Hr & Hrep). exists out, r. split_and!; [done..|].
  destruct Hs as (_ & _ & _ & _ & ->). dlia.
Qed.

Lemma x2_room tbl freq src cap :
  table_ok tbl freq -> bytes src -> present freq src -> 2 <= zlen src -> TABLE_LOG * zlen src + 40 <= 8 * cap ->
  exists X0 X1 w out r, tans_encode_x2 tbl src (netc_bsw_init cap) = Ok (X0, X1, w) /\
    netc_bsw_flush w = Ok out /\ netc_bsr_init out = Ok r /\ 8 * zlen out <= TABLE_LOG * zlen src + 8.
Proof.
  intros Ht Hb Hp Hl Hc. pose proof TABLE_SIZE_range. pose proof TABLE_LOG_range.
  assert (state_ok TABLE_SIZE) as HX by (unfold state_ok; lia).
  pose proof (bsw_init_rep cap ltac:(lia)) as Hw. unfold tans_encode_x2. rewrite (tok_valid _ _ Ht).
  destruct (Z.ltb_spec (zlen src) 2); [lia|]. simpl orb. cbv iota.
  assert (exists X0 X1 w W N, (if Z.odd (zlen src) then
      sym ← aget src (zlen src - 1);
      '(X0, w) ← tans_encode_step tbl TABLE_SIZE sym (netc_bsw_init cap);
      encode_pairs tbl (take (length src - 1) src) (X0, TABLE_SIZE, w)
    else encode_pairs tbl src (TABLE_SIZE, TABLE_SIZE, netc_bsw_init cap)) = Ok (X0, X1, w) /\
    w_cap w = cap /\ bsw_rep w W N /\ N <= TABLE_LOG * zlen src) as (X0 & X1 & w & W & N & He & Hcw & Hrep & HN).
  - destruct (Z.odd (zlen src)).
    + destruct (@aget_total unit _ src (zlen src - 1)) as [sym Hsym]; [lia|]. rewrite Hsym. mstep.
      assert (is_byte sym) by (by eapply bytes_aget).
      assert (0 < freq_of freq sym) by (apply aget_Ok in Hsym as [_ Hsym]; exact (Forall_lookup_1 _ _ _ _ Hp Hsym)).
      destruct (step_room tbl freq TABLE_SIZE sym _ 0 0 Ht H2 H3 HX Hw) as (Y & w1 & W1 & N1 & -> & HY & Hc1 & Hw1 & HN1);
        [simpl; lia|]. mstep. cbn [w_cap netc_bsw_init] in Hc1.
      assert (zlen (take (length src - 1) src) = zlen src - 1) as Htl by (rewrite length_take; lia).
      destruct (pairs_room tbl freq (take (length src - 1) src) Y TABLE_SIZE w1 W1 N1)
        as (X0 & X1 & w & W & N & He & _ & _ & Hc2 & Hw2 & HN2); [done|auto with netc|by apply Forall_take|done|done|done|
        rewrite Htl, Hc1; lia|]. rewrite Htl in HN2. exists X0, X1, w, W, N. split; [done|]. split; [congruence|]. split; [done|lia].
    + destruct (pairs_room tbl freq src TABLE_SIZE TABLE_SIZE (netc_bsw_init cap) 0 0)
        as (X0 & X1 & w & W & N & He & _ & _ & Hc2 & Hw2 & HN2); [done..|simpl; lia|].
      exists X0, X1, w, W, N. split; [done|]. split; [done|]. split; [done|lia].
  - destruct (flush_room w W N Hrep) as (out & r & Hf & Hr & _ & Hlo); [lia|].
    exists X0, X1, w, out, r. split; [done|]. split; [done|]. split; [done|lia].
Qed.
End PairsTotal.

(** ** Tables that cover an input *)

(** A selector with a table for every context, in which every byte occurs. *)
Lemma covered_const `{P : TansParams} tbl freq src i prev :
  table_ok tbl freq -> present freq src -> covered (fun _ _ => Ok tbl) i prev src.
Proof.
  intros Ht Hp. revert i prev. induction Hp as [|a src Ha Hp IH]; intros i prev; simpl; [done|].
  split; [by exists tbl, freq|apply IH].
Qed.

Lemma covered_sel `{P : TansParams} sel src i prev :
  (forall i prev, is_byte prev -> exists tbl freq, sel i prev = Ok tbl /\ table_ok tbl freq /\
     forall sym, is_byte sym -> 0 < freq_of freq sym) ->
  bytes src -> is_byte prev -> covered sel i prev src.
Proof.
  intros Hs Hb. revert i prev. induction Hb as [|a src Ha Hb IH]; intros i prev Hp; simpl; [done|].
  split; [|by apply IH]. destruct (Hs i prev Hp) as (tbl & freq & H1 & H2 & H3). eauto 10.
Qed.

(** A valid table in which every byte occurs. *)
Definition codes_bytes (tbl : netc_tans_table_t) : Prop :=
  t_valid tbl = true /\ exists freq, table_ok (H := P12) tbl freq /\ forall sym, is_byte sym -> 0 < freq_of freq sym.

(** A switching coder all of whose tables code every byte. *)
Lemma switching_total sel src cap :
  (forall i prev, is_byte prev -> exists tbl, sel i prev = Ok tbl /\ codes_bytes tbl) ->
  bytes src -> src <> [] -> 12 * zlen src + 40 <= 8 * cap ->
  exists X w out, encode_switching (P := P12) sel src (netc_bsw_init cap) 4096 = Ok (X, w) /\
    netc_bsw_flush w = Ok out /\ 8 * zlen out <= 12 * zlen src + 8 /\
    exists r, netc_bsr_init out = Ok r /\ decode_switching (P := P12) sel r (length src) X = Ok src.
Proof.
  intros Hsel Hb Hne Hc.
  assert (covered (P := P12) sel 0 0 src) as Hcov.
  { apply covered_sel; [|done|done]. intros i prev Hp. destruct (Hsel i prev Hp) as (tbl & H1 & _ & freq & H2 & H3). eauto 10. }
  destruct (stream_total (P := P12) true sel src cap Hb Hcov Hc) as (X & w & out & He & Hf & Hlo).
  assert (sel_ok (P := P12) (byte_sel sel)) as Hsok.
  { intros i prev tbl H. unfold byte_sel in H. case_if_in H; [|done].
    destruct (Hsel i prev) as (t & Ht & _ & freq & Hok & _); [done|]. rewrite H in Ht. injection Ht as <-. by exists freq. }
  assert (encode_switching (P := P12) sel src (netc_bsw_init cap) 4096 = Ok (X, w)) as Hes.
  { unfold encode_switching. destruct (Z.eqb_spec (zlen src) 0); [by destruct src|].
    rewrite (clamp_init (P := P12) : clamp_state (P := P12) 4096 = 4096).
    rewrite (encode_loop_ext _ (sel_step true sel)) by (by intros ? ? ? [? ?]).
    change (TABLE_SIZE (H := P12)) with 4096 in He. rewrite He. mstep. unfold final_state. cbn [fst].
    rewrite <- (encode_loop_byte_sel (P := P12)) in He by done.
    destruct (stream_roundtrip (P := P12) true (byte_sel sel) src cap X w out) as ((HX & _) & _); [done|done|lia|done|done|].
    destruct (Z.eqb_spec X 0); [|done]. subst X. by vm_compute in HX. }
  exists X, w, out. split; [done|]. split; [done|]. split; [exact Hlo|].
  destruct (switching_roundtrip (P := P12) sel src cap X w out) as (_ & _ & Hr); [done|done|lia|done|done|done].
Qed.

Lemma all_tables tables b :
  zlen tables = NETC_CTX_COUNT -> Forall codes_bytes tables -> 0 <= b < NETC_CTX_COUNT ->
  exists tbl, @aget unit _ tables b = Ok tbl /\ codes_bytes tbl.
Proof.
  intros Hl Hf Hb. destruct (@aget_total unit _ tables b) as [t Ht]; [lia|].
  exists t. split; [done|]. apply aget_Ok in Ht as [_ Ht]. by eapply Forall_lookup_1.
Qed.

Lemma codes_tbl_ok tbl : codes_bytes tbl -> tbl_ok tbl.
Proof. intros (_ & freq & Hok & _) _. by exists freq. Qed.

(** ** Claims *)

(** C15: [netc_tans_build] and [netc_tans_build_10] accept exactly the 256-entry
    frequency tables that sum to the table size; the table they return obeys
    the encode/decode laws ([table_ok]: every occurrence of a symbol has its
    own slot, which decodes to that symbol and back to the encoder's state). *)
Theorem tans_build_exact `{P : TansParams} (freq : list Z) :
  length freq = 256%nat -> Forall (fun f => 0 <= f < 65536) freq ->
  (lsum freq = TABLE_SIZE /\ exists tbl, tans_build freq = Ok tbl /\ table_ok tbl freq) \/
  (lsum freq <> TABLE_SIZE /\ tans_build freq = Fail tt).
Proof.
  intros Hl Hf. destruct (decide (lsum freq = TABLE_SIZE)) as [Hs|Hs]; [left|right].
  - split; [done|]. apply tans_build_ok. split; [done|]. split; [|done].
    eapply Forall_impl; [exact Hf|]. simpl. lia.
  - split; [done|]. by apply tans_build_reject.
Qed.

(** The uniform frequency table. *)
Definition uniform (n : Z) : list Z := replicate 256 n.

Lemma uniform_ok n : 0 <= n -> lsum (uniform n) = 256 * n /\ length (uniform n) = 256%nat /\ Forall (fun f => 0 <= f) (uniform n).
Proof.
  intros Hn. split; [unfold uniform; simpl; lia|]. split; [done|]. by apply Forall_replicate.
Qed.

Lemma uniform_freq n s : is_byte s -> freq_of (uniform n) s = n.
Proof. intros Hs. unfold freq_of, uniform, is_byte in *. rewrite lookup_replicate_2 by lia. done. Qed.

Lemma tans_build_exact_witness :
  exists tbl, tans_build (P := P10) (uniform 4) = Ok tbl /\ table_ok (H := P10) tbl (uniform 4).
Proof.
  destruct (tans_build_exact (P := P10) (uniform 4)) as [[_ H]|[H _]].
  - reflexivity.
  - apply Forall_replicate. lia.
  - exact H.
  - destruct H. reflexivity.
Defined.

(** C14: from a normalised frequency table to the decoded bytes: the table is
    built; an input all of whose bytes occur in it is encoded within
    [TABLE_LOG] bits per byte, by the unchecked 12-bit coder ([chk] false) and
    by the coder that tests for absent symbols; and the decoder started from
    the final state and the sealed stream returns the input. *)
Theorem tans_codec_correct `{P : TansParams} (chk : bool) (freq src : list Z) (cap : Z) :
  freq_ok freq -> bytes src -> present freq src -> src <> [] -> TABLE_LOG * zlen src + 40 <= 8 * cap ->
  exists tbl X w out r,
    tans_build freq = Ok tbl /\
    tans_encode (if chk then tans_encode_step_checked else tans_encode_step) tbl src
      (netc_bsw_init cap) TABLE_SIZE = Ok (X, w) /\
    netc_bsw_flush w = Ok out /\ 8 * zlen out <= TABLE_LOG * zlen src + 8 /\
    netc_bsr_init out = Ok r /\ tans_decode tbl r (length src) X = Ok src.
Proof.
  intros Hf Hb Hp Hne Hc. destruct (tans_build_ok freq Hf) as (tbl & Hbld & Ht).
  pose proof TABLE_SIZE_range. pose proof TABLE_LOG_range.
  destruct (stream_total chk (fun _ _ => Ok tbl) src cap Hb) as (X & w & out & He & Hfl & Hlo);
    [by eapply covered_const|done|].
  assert (tans_encode (if chk then tans_encode_step_checked else tans_encode_step) tbl src
      (netc_bsw_init cap) TABLE_SIZE = Ok (X, w)) as Hes.
  { unfold tans_encode. rewrite (tok_valid _ _ Ht). destruct (Z.eqb_spec (zlen src) 0); [by destruct src|]. simpl orb. cbv iota.
    rewrite clamp_init, (encode_loop_ext _ (sel_step chk (fun _ _ => Ok tbl))) by (intros ? ? ? [? ?]; by destruct chk).
    rewrite He. mstep. unfold final_state. cbn [fst].
    destruct (stream_roundtrip chk (fun _ _ => Ok tbl) src cap X w out) as ((HX & _) & _);
      [intros ? ? ? [= <-]; by exists freq|done|lia|done|done|]. destruct (Z.eqb_spec X 0); [lia|done]. }
  destruct (tans_roundtrip chk tbl freq src cap X w out) as (_ & _ & r & Hr & Hd); [done|done|lia|done|done|].
  exists tbl, X, w, out, r. split_and!; done.
Qed.

Lemma tans_codec_correct_witness :
  exists tbl X w out r,
    tans_build (P := P12) (uniform 16) = Ok tbl /\
    tans_encode (P := P12) tans_encode_step tbl [7; 0; 255] (netc_bsw_init 64) (TABLE_SIZE (H := P12)) = Ok (X, w) /\
    netc_bsw_flush w = Ok out /\ 8 * zlen out <= 12 * 3 + 8 /\
    netc_bsr_init out = Ok r /\ tans_decode (P := P12) tbl r 3 X = Ok [7; 0; 255].
Proof.
  apply (tans_codec_correct (P := P12) false (uniform 16) [7; 0; 255] 64).
  - split; [done|]. split; [by apply uniform_ok|reflexivity].
  - repeat constructor; unfold is_byte; lia.
  - repeat constructor; rewrite uniform_freq; unfold is_byte; lia.
  - discriminate.
  - simpl. lia.
Defined.

(** C19: the two-state coder on an input of even size: encoder and decoder are
    inverse. *)
Theorem tans_x2_even_correct `{P : TansParams} (freq src : list Z) (cap : Z) :
  freq_ok freq -> bytes src -> present freq src -> 2 <= zlen src -> Z.odd (zlen src) = false ->
  TABLE_LOG * zlen src + 40 <= 8 * cap ->
  exists tbl X0 X1 w out r,
    tans_build freq = Ok tbl /\ tans_encode_x2 tbl src (netc_bsw_init cap) = Ok (X0, X1, w) /\
    netc_bsw_flush w = Ok out /\ 8 * zlen out <= TABLE_LOG * zlen src + 8 /\
    netc_bsr_init out = Ok r /\ tans_decode_x2 tbl r (length src) X0 X1 = Ok src.
Proof.
  intros Hf Hb Hp Hl Ho Hc. destruct (tans_build_ok freq Hf) as (tbl & Hbld & Ht). pose proof TABLE_LOG_range.
  destruct (x2_room tbl freq src cap Ht Hb Hp Hl Hc) as (X0 & X1 & w & out & r & He & Hfl & Hr & Hlo).
  destruct (x2_roundtrip_even tbl freq src cap X0 X1 w out) as (_ & _ & r' & Hr' & Hd); [done|done|nia|done|done|done|].
  assert (r = r') as <- by congruence. exists tbl, X0, X1, w, out, r. split_and!; done.
Qed.

Lemma tans_x2_even_correct_witness :
  exists tbl X0 X1 w out r,
    tans_build (P := P12) (uniform 16) = Ok tbl /\
    tans_encode_x2 (P := P12) tbl [7; 0; 255; 1] (netc_bsw_init 64) = Ok (X0, X1, w) /\
    netc_bsw_flush w = Ok out /\ 8 * zlen out <= 12 * 4 + 8 /\
    netc_bsr_init out = Ok r /\ tans_decode_x2 (P := P12) tbl r 4 X0 X1 = Ok [7; 0; 255; 1].
Proof.
  apply (tans_x2_even_correct (P := P12) (uniform 16) [7; 0; 255; 1] 64).
  - split; [done|]. split; [by apply uniform_ok|reflexivity].
  - repeat constructor; unfold is_byte; lia.
  - repeat constructor; rewrite uniform_freq; unfold is_byte; lia.
  - simpl. lia.
  - reflexivity.
  - simpl. lia.
Defined.

(** The two-state coder on an input of odd size, at least three: the
    encoder returns a stream, but the decoder does not return the input as soon
    as the second and third bytes differ.  (The encoder codes the last byte
    with the first state, the decoder reads the first byte from it and then
    pairs from the second byte on, so the states are out of step.) *)
Theorem tans_x2_odd_wrong `{P : TansParams} (freq src : list Z) (a b c cap : Z) :
  freq_ok freq -> bytes (a :: b :: c :: src) -> present freq (a :: b :: c :: src) ->
  Z.odd (zlen src) = false -> b <> c -> TABLE_LOG * (zlen src + 3) + 40 <= 8 * cap ->
  exists tbl X0 X1 w out r,
    tans_build freq = Ok tbl /\ tans_encode_x2 tbl (a :: b :: c :: src) (netc_bsw_init cap) = Ok (X0, X1, w) /\
    netc_bsw_flush w = Ok out /\ netc_bsr_init out = Ok r /\
    tans_decode_x2 tbl r (length (a :: b :: c :: src)) X0 X1 <> Ok (a :: b :: c :: src).
Proof.
  intros Hf Hb Hp Ho Hbc Hc. destruct (tans_build_ok freq Hf) as (tbl & Hbld & Ht). pose proof TABLE_LOG_range.
  destruct (x2_room tbl freq (a :: b :: c :: src) cap Ht Hb Hp) as (X0 & X1 & w & out & r & He & Hfl & Hr & _);
    [cbn [length]; lia|cbn [length]; nia|].
  exists tbl, X0, X1, w, out, r. split_and!; [done..|]. intros Hd.
  assert (0 <= cap) as Hcap by nia.
  pose proof (x2_odd_swaps tbl freq a b c src cap X0 X1 w out _ r Ht Hb Hcap Ho He Hfl Hr Hd) as H1.
  simpl in H1. congruence.
Qed.

Lemma tans_x2_odd_wrong_witness :
  exists tbl X0 X1 w out r,
    tans_build (P := P12) (uniform 16) = Ok tbl /\
    tans_encode_x2 (P := P12) tbl [1; 2; 3] (netc_bsw_init 64) = Ok (X0, X1, w) /\
    netc_bsw_flush w = Ok out /\ netc_bsr_init out = Ok r /\
    tans_decode_x2 (P := P12) tbl r 3 X0 X1 <> Ok [1; 2; 3].
Proof.
  apply (tans_x2_odd_wrong (P := P12) (uniform 16) [] 1 2 3 64).
  - split; [done|]. split; [by apply uniform_ok|reflexivity].
  - repeat constructor; unfold is_byte; lia.
  - repeat constructor; rewrite uniform_freq; unfold is_byte; lia.
  - reflexivity.
  - discriminate.
  - simpl. lia.
Defined.

(** C16: the position-aware coders.  With 16 bucket tables that code every byte,
    [netc_tans_encode_pctx] succeeds within 12 bits per byte and
    [netc_tans_decode_pctx] returns the input; so does the bigram pair, for any
    well-formed bigram tables and class map whose valid tables code every byte,
    an invalid one falling back to the bucket's table. *)
Theorem tans_pctx_correct (tables : list netc_tans_table_t) (bigram : list (list netc_tans_table_t))
    (class_map : option (list Z)) (src : list Z) (cap : Z) :
  zlen tables = NETC_CTX_COUNT -> Forall codes_bytes tables ->
  bigram_ok bigram -> Forall (Forall (fun t => t_valid t = true -> codes_bytes t)) bigram -> class_map_ok class_map ->
  bytes src -> src <> [] -> 12 * zlen src + 40 <= 8 * cap ->
  (exists X w out r, netc_tans_encode_pctx tables src (netc_bsw_init cap) 4096 = Ok (X, w) /\
     netc_bsw_flush w = Ok out /\ 8 * zlen out <= 12 * zlen src + 8 /\
     netc_bsr_init out = Ok r /\ netc_tans_decode_pctx tables r (length src) X = Ok src) /\
  (exists X w out r, netc_tans_encode_pctx_bigram bigram tables class_map src (netc_bsw_init cap) 4096 = Ok (X, w) /\
     netc_bsw_flush w = Ok out /\ 8 * zlen out <= 12 * zlen src + 8 /\
     netc_bsr_init out = Ok r /\ netc_tans_decode_pctx_bigram bigram tables class_map r (length src) X = Ok src).
Proof.
  intros Hl Hf Hbg Hbf Hm Hb Hne Hc.
  assert (forall i prev, is_byte prev -> exists tbl, pctx_table tables i prev = Ok tbl /\ codes_bytes tbl) as H1.
  { intros i prev _. unfold pctx_table. destruct (all_tables tables (netc_ctx_bucket i) Hl Hf (ctx_bucket_range i)) as (t & -> & Ht).
    mstep. rewrite (proj1 Ht). by exists t. }
  assert (forall i prev, is_byte prev -> exists tbl, bigram_table bigram tables class_map i prev = Ok tbl /\ codes_bytes tbl) as H2.
  { intros i prev Hp. unfold bigram_table. destruct (bigram_class_ok prev class_map Hm Hp) as (k & -> & Hk). mstep.
    destruct (@bigram_get unit bigram (netc_ctx_bucket i) k Hbg (ctx_bucket_range i) Hk) as (row & t & Hrow & Ht & _).
    rewrite Hrow. mstep. rewrite Ht. mstep.
    apply aget_Ok in Hrow as [_ Hrow]. apply aget_Ok in Ht as [_ Ht].
    pose proof (Forall_lookup_1 _ _ _ _ (Forall_lookup_1 _ _ _ _ Hbf Hrow) Ht) as Hc1. simpl in Hc1.
    destruct (t_valid t) eqn:Ev; simpl negb; cbv iota; mstep; [rewrite Ev; eauto|].
    destruct (all_tables tables (netc_ctx_bucket i) Hl Hf (ctx_bucket_range i)) as (u & -> & Hu). mstep.
    rewrite (proj1 Hu). by exists u. }
  split.
  - destruct (switching_total _ src cap H1 Hb Hne Hc) as (X & w & out & ? & ? & ? & r & ? & ?). by exists X, w, out, r.
  - destruct (switching_total _ src cap H2 Hb Hne Hc) as (X & w & out & ? & ? & ? & r & ? & ?). by exists X, w, out, r.
Qed.

(** A table that codes every byte, for the examples. *)
Lemma uniform_codes : exists tbl, netc_tans_build (uniform 16) = Ok tbl /\ codes_bytes tbl.
Proof.
  destruct (tans_build_ok (P := P12) (uniform 16)) as (tbl & Hb & Ht).
  - split; [done|]. split; [by apply uniform_ok|reflexivity].
  - exists tbl. split; [exact Hb|]. split; [apply (tok_valid (H := P12) _ _ Ht)|]. exists (uniform 16). split; [exact Ht|].
    intros sym Hs. by rewrite uniform_freq.
Qed.

Lemma tans_pctx_correct_witness :
  exists tbl, netc_tans_build (uniform 16) = Ok tbl /\
    exists X w out r, netc_tans_encode_pctx (replicate 16 tbl) [9; 8] (netc_bsw_init 64) 4096 = Ok (X, w) /\
      netc_bsw_flush w = Ok out /\ 8 * zlen out <= 12 * 2 + 8 /\
      netc_bsr_init out = Ok r /\ netc_tans_decode_pctx (replicate 16 tbl) r 2 X = Ok [9; 8].
Proof.
  destruct uniform_codes as (tbl & Hb & Hc). exists tbl. split; [exact Hb|].
  refine (proj1 (tans_pctx_correct (replicate 16 tbl) (replicate 16 (replicate 8 tbl)) None [9; 8] 64 _ _ _ _ _ _ _ _)).
  - reflexivity.
  - apply Forall_replicate. exact Hc.
  - split; [reflexivity|]. apply Forall_replicate. split; [reflexivity|]. apply Forall_replicate, codes_tbl_ok, Hc.
  - do 2 apply Forall_replicate. intros _. exact Hc.
  - exact I.
  - repeat constructor; unfold is_byte; lia.
  - discriminate.
  - simpl. lia.
Defined.

(** A symbol that does not occur in the table.  The coders with the
    [f == 0] test report an error; the 12-bit single-table and two-state coders
    have no such test and index [encode_state] out of range. *)
Theorem tans_absent_symbol `{P : TansParams} (tbl : netc_tans_table_t) (freq : list Z) (X sym : Z) (w : netc_bsw_t) :
  table_ok tbl freq -> is_byte sym -> state_ok X -> freq_of freq sym = 0 ->
  tans_encode_step tbl X sym w = Undef /\ tans_encode_step_checked tbl X sym w = Fail tt.
Proof. apply encode_step_absent. Qed.

(** All weight on the byte 0. *)
Lemma tans_absent_symbol_witness :
  exists tbl, tans_build (P := P10) (1024 :: replicate 255 0) = Ok tbl /\
    tans_encode_step tbl 1024 5 (netc_bsw_init 64) = Undef.
Proof.
  destruct (tans_build_ok (P := P10) (1024 :: replicate 255 0)) as (tbl & Hb & Ht).
  - split; [reflexivity|]. split; [|reflexivity]. constructor; [lia|]. apply Forall_replicate. lia.
  - exists tbl. split; [exact Hb|].
    refine (proj1 (tans_absent_symbol (P := P10) tbl (1024 :: replicate 255 0) 1024 5 (netc_bsw_init 64) Ht _ _ _)).
    + unfold is_byte. lia.
    + unfold state_ok. change (TABLE_SIZE (H := P10)) with 1024. lia.
    + reflexivity.
Defined.
