(* ===== verification/Delta.v ===== *)
(** * Inter-packet delta prediction (src/src/algo/netc_delta.h)

    Byte [i] of a packet is predicted from byte [i] of the previous packet (or
    extrapolated from the previous two); the residual is an XOR or a wrapping
    subtraction depending on the field class of the offset.  The decoder works
    in place (the output buffer is the residual buffer); each position reads
    its residual before writing it, so the pure recursion below is that loop.
    The predictor buffers must be at least as long as the packet: reading past
    their end is [Undef]. *)

From stdpp Require Import prelude.
From Stdlib Require Import ZArith Lia.
From S2P Require Import Prelude.

Local Open Scope Z_scope.

Definition NETC_DELTA_HEADER_END : Z := 16.
Definition NETC_DELTA_SUBHEADER_END : Z := 64.
Definition NETC_DELTA_BODY_END : Z := 256.
Definition NETC_DELTA_MIN_SIZE : Z := 8.

(** XOR for the HEADER and BODY offsets, SUB for SUBHEADER and TAIL. *)
Definition xor_class (i : Z) : bool :=
  (i <? NETC_DELTA_HEADER_END) ||
  ((NETC_DELTA_SUBHEADER_END <=? i) && (i <? NETC_DELTA_BODY_END)).

Definition delta_enc_byte (i predicted curr : Z) : Z :=
  if xor_class i then Z.lxor curr predicted else u8 (curr - predicted).

Definition delta_dec_byte (i predicted residual : Z) : Z :=
  if xor_class i then Z.lxor residual predicted else u8 (residual + predicted).

(** [for (i = 0; i < size; i++) out[i] = op(i, prev[i], data[i])]. *)
Fixpoint delta_loop (op : Z -> Z -> Z -> Z) (i : Z) (prev data : list Z)
  {struct data} : outcome unit (list Z) :=
  match data with
  | [] => Ok []
  | d :: data' =>
      match prev with
      | [] => Undef
      | p :: prev' => rest ← delta_loop op (i + 1) prev' data'; Ok (op i p d :: rest)
      end
  end.

Definition netc_delta_encode (prev curr : list Z) : outcome unit (list Z) :=
  delta_loop delta_enc_byte 0 prev curr.

Definition netc_delta_decode (prev residual : list Z) : outcome unit (list Z) :=
  delta_loop delta_dec_byte 0 prev residual.

(** Linear extrapolation [2 * prev - prev2], wrapping. *)
Definition order2_predict (p2 p : Z) : Z := u8 (2 * p - p2).

Fixpoint delta_loop2 (op : Z -> Z -> Z -> Z) (i : Z) (prev2 prev data : list Z)
  {struct data} : outcome unit (list Z) :=
  match data with
  | [] => Ok []
  | d :: data' =>
      match prev2, prev with
      | p2 :: prev2', p :: prev' =>
          rest ← delta_loop2 op (i + 1) prev2' prev' data';
          Ok (op i (order2_predict p2 p) d :: rest)
      | _, _ => Undef
      end
  end.

Definition netc_delta_encode_order2 (prev2 prev curr : list Z) : outcome unit (list Z) :=
  delta_loop2 delta_enc_byte 0 prev2 prev curr.

Definition netc_delta_decode_order2 (prev2 prev residual : list Z) : outcome unit (list Z) :=
  delta_loop2 delta_dec_byte 0 prev2 prev residual.

(** ** Lemmas *)

Lemma delta_byte_inv i p c :
  is_byte p -> is_byte c -> delta_dec_byte i p (delta_enc_byte i p c) = c.
Proof.
  intros Hp Hc. unfold delta_dec_byte, delta_enc_byte. destruct (xor_class i).
  - apply lxor_cancel.
  - unfold u8. rewrite Zplus_mod_idemp_l. replace (c - p + p) with c by ring. by apply u8_small.
Qed.

Lemma delta_enc_byte_range i p c : is_byte p -> is_byte c -> is_byte (delta_enc_byte i p c).
Proof. intros. unfold delta_enc_byte. destruct (xor_class i); auto with netc. Qed.

Lemma delta_dec_byte_range i p c : is_byte p -> is_byte c -> is_byte (delta_dec_byte i p c).
Proof. intros. unfold delta_dec_byte. destruct (xor_class i); auto with netc. Qed.
#[export] Hint Resolve delta_enc_byte_range delta_dec_byte_range : netc.

Lemma delta_loop_bytes op i prev data :
  (forall i p d, is_byte p -> is_byte d -> is_byte (op i p d)) ->
  bytes prev -> bytes data -> (length data <= length prev)%nat ->
  exists out, delta_loop op i prev data = Ok out /\ length out = length data /\ bytes out.
Proof.
  intros Hop Hp Hd. revert i data Hd.
  induction Hp as [|p prev Hpb Hp IH]; intros i data Hd Hl; destruct Hd as [|d data Hdb Hd];
    simpl in *; try lia.
  1,2: exists []; repeat split; constructor.
  destruct (IH (i + 1) data Hd) as (out & -> & Hlo & Hbo); [lia|]. mstep.
  eexists. split; [done|]. simpl. split; [lia|]. constructor; auto.
Qed.

Lemma delta_loop_inv i prev curr :
  bytes prev -> bytes curr -> (length curr <= length prev)%nat ->
  exists res, delta_loop delta_enc_byte i prev curr = Ok res /\
    length res = length curr /\ bytes res /\ delta_loop delta_dec_byte i prev res = Ok curr.
Proof.
  intros Hp Hc. revert i curr Hc.
  induction Hp as [|p prev Hpb Hp IH]; intros i curr Hc Hl; destruct Hc as [|c curr Hcb Hc];
    simpl in *; try lia.
  1,2: exists []; repeat split; constructor.
  destruct (IH (i + 1) curr Hc) as (res & -> & Hlr & Hbr & Hd); [lia|]. mstep.
  eexists. split; [done|]. simpl. split; [lia|].
  split; [constructor; auto with netc|]. rewrite Hd. mstep. by rewrite delta_byte_inv.
Qed.

(** Order-2 coding is order-1 coding against the extrapolated packet. *)
Lemma delta_loop2_eq op i prev2 prev data :
  length prev2 = length prev ->
  delta_loop2 op i prev2 prev data = delta_loop op i (zip_with order2_predict prev2 prev) data.
Proof.
  revert i prev2 prev. induction data as [|d data IH]; intros i prev2 prev Hl; [done|].
  destruct prev2 as [|p2 prev2], prev as [|p prev]; simpl in *; try lia; [done|].
  rewrite IH by lia. done.
Qed.

Lemma order2_bytes prev2 prev : bytes (zip_with order2_predict prev2 prev).
Proof.
  revert prev. induction prev2 as [|p2 prev2 IH]; intros [|p prev]; simpl; try constructor;
    [apply u8_range|apply IH].
Qed.

Lemma delta_loop2_inv i prev2 prev curr :
  length prev2 = length prev -> bytes curr -> (length curr <= length prev)%nat ->
  exists res, delta_loop2 delta_enc_byte i prev2 prev curr = Ok res /\
    length res = length curr /\ bytes res /\ delta_loop2 delta_dec_byte i prev2 prev res = Ok curr.
Proof.
  intros Hl Hc Hlen.
  destruct (delta_loop_inv i (zip_with order2_predict prev2 prev) curr) as (res & He & ? & ? & Hd).
  - apply order2_bytes.
  - done.
  - rewrite length_zip_with. lia.
  - exists res. by rewrite !delta_loop2_eq by done.
Qed.

(** ** Properties *)

(** Delta decoding undoes delta encoding, of order 1 against the previous
    packet and of order 2 against the prediction from the previous two, for a
    packet no longer than its reference; the residual has the packet's length. *)
Theorem delta_roundtrip (prev2 prev curr : list Z) :
  bytes prev -> bytes curr -> (length curr <= length prev)%nat -> length prev2 = length prev ->
  (exists res, netc_delta_encode prev curr = Ok res /\ length res = length curr /\ bytes res /\
     netc_delta_decode prev res = Ok curr) /\
  (exists res, netc_delta_encode_order2 prev2 prev curr = Ok res /\ length res = length curr /\ bytes res /\
     netc_delta_decode_order2 prev2 prev res = Ok curr).
Proof. intros Hp Hc Hl H2. split; [by apply delta_loop_inv|by apply delta_loop2_inv]. Qed.

Lemma delta_roundtrip_witness :
  netc_delta_encode [10; 20; 30] [11; 20; 29] = Ok [1; 0; 3] /\
  exists res, netc_delta_encode_order2 [9; 20; 31] [10; 20; 30] [11; 20; 29] = Ok res /\ length res = 3%nat /\ bytes res /\
    netc_delta_decode_order2 [9; 20; 31] [10; 20; 30] res = Ok [11; 20; 29].
Proof.
  split; [reflexivity|].
  refine (proj2 (delta_roundtrip [9; 20; 31] [10; 20; 30] [11; 20; 29] _ _ _ _));
    [repeat constructor; unfold is_byte; lia..|simpl; lia|reflexivity].
Defined.
