(* ===== verification/Lzp.v ===== *)
(** * LZP prediction (src/src/algo/netc_lzp.h)

    Each byte is predicted from a hash of the previous byte and its position.
    [netc_lzp_xor_filter] / [netc_lzp_xor_unfilter] are the composable filter
    of the compressor, [netc_lzp_predict] / [netc_lzp_reconstruct] the
    stand-alone codec, [netc_lzp_adaptive_update] the learning step both ends
    run on the same bytes.  The unfilter may run in place: position [i] is read
    before it is written, and the context is the byte already reconstructed at
    [i - 1]. *)

From stdpp Require Import prelude.
From Stdlib Require Import ZArith Lia.
From S2P Require Import Prelude.

Local Open Scope Z_scope.

Definition NETC_LZP_HT_BITS : Z := 17.
Definition NETC_LZP_HT_SIZE : Z := Z.shiftl 1 NETC_LZP_HT_BITS.
Definition NETC_LZP_HT_MASK : Z := NETC_LZP_HT_SIZE - 1.

(** [valid] is 0 for an empty slot, else the confidence (1..255). *)
Record netc_lzp_entry_t := LzpEntry { lzp_value : Z; lzp_valid : Z }.

(** One FNV-1a round on [uint32_t]. *)
Definition fnv_round (h x : Z) : Z := u32 (Z.lxor h x * 16777619).

Definition netc_lzp_hash (prev_byte pos : Z) : Z :=
  let h := fnv_round 2166136261 prev_byte in
  let h := fnv_round h (Z.land pos 0xFFFF) in
  let h := fnv_round h (Z.shiftr pos 16) in
  Z.land h NETC_LZP_HT_MASK.

(** [lzp_table[h].valid ? lzp_table[h].value : 0] *)
Definition lzp_prediction (tbl : list netc_lzp_entry_t) (prev i : Z) : outcome unit Z :=
  e ← aget tbl (netc_lzp_hash prev (u32 i));
  Ok (if negb (lzp_valid e =? 0) then lzp_value e else 0).

Fixpoint lzp_filter_loop (tbl : list netc_lzp_entry_t) (i prev : Z) (src : list Z)
  : outcome unit (list Z) :=
  match src with
  | [] => Ok []
  | b :: src' =>
      prediction ← lzp_prediction tbl prev i;
      rest ← lzp_filter_loop tbl (i + 1) b src';
      Ok (Z.lxor b prediction :: rest)
  end.

Definition netc_lzp_xor_filter (tbl : list netc_lzp_entry_t) (src : list Z)
  : outcome unit (list Z) := lzp_filter_loop tbl 0 0 src.

Fixpoint lzp_unfilter_loop (tbl : list netc_lzp_entry_t) (i prev : Z) (src : list Z)
  : outcome unit (list Z) :=
  match src with
  | [] => Ok []
  | b :: src' =>
      prediction ← lzp_prediction tbl prev i;
      let orig := Z.lxor b prediction in
      rest ← lzp_unfilter_loop tbl (i + 1) orig src';
      Ok (orig :: rest)
  end.

Definition netc_lzp_xor_unfilter (tbl : list netc_lzp_entry_t) (src : list Z)
  : outcome unit (list Z) := lzp_unfilter_loop tbl 0 0 src.

(** ** Adaptive update *)

(** The new contents of the slot after observing [b]. *)
Definition lzp_adapt_entry (e : netc_lzp_entry_t) (b : Z) : netc_lzp_entry_t :=
  if lzp_valid e =? 0 then LzpEntry b 1
  else if negb (lzp_value e =? b) then
    if 1 <? lzp_valid e then LzpEntry (lzp_value e) (lzp_valid e - 1)
    else LzpEntry b 1
  else if lzp_valid e <? 255 then LzpEntry (lzp_value e) (lzp_valid e + 1)
  else e.

Fixpoint lzp_update_loop (tbl : list netc_lzp_entry_t) (i prev : Z) (data : list Z)
  : outcome unit (list netc_lzp_entry_t) :=
  match data with
  | [] => Ok tbl
  | b :: data' =>
      let h := netc_lzp_hash prev (u32 i) in
      e ← aget tbl h;
      tbl' ← aset tbl h (lzp_adapt_entry e b);
      lzp_update_loop tbl' (i + 1) b data'
  end.

(** A NULL table (adaptive mode off, or no LZP model) is left alone. *)
Definition netc_lzp_adaptive_update (tbl : option (list netc_lzp_entry_t)) (data : list Z)
  : outcome unit (option (list netc_lzp_entry_t)) :=
  match tbl with
  | None => Ok None
  | Some t => t' ← lzp_update_loop t 0 0 data; Ok (Some t')
  end.

(** ** Stand-alone codec *)

(** [flag_dst[i >> 3] |= 0x80 >> (i & 7)] *)
Definition set_flag (flags : list Z) (i : Z) : outcome unit (list Z) :=
  b ← aget flags (Z.shiftr i 3);
  aset flags (Z.shiftr i 3) (Z.lor b (Z.shiftr 0x80 (Z.land i 7))).

(** [(flag_data[i >> 3] >> (7 - (i & 7))) & 1] *)
Definition get_flag (flags : list Z) (i : Z) : outcome unit bool :=
  b ← aget flags (Z.shiftr i 3);
  Ok (Z.land (Z.shiftr b (7 - Z.land i 7)) 1 =? 1).

(** [lit_dst[n_literals++] = b] with a [uint16_t] counter: position [n] is the
    first free one unless the counter wrapped around. *)
Definition push_literal (lits : list Z) (n b : Z) : list Z * Z :=
  (if n =? zlen lits then lits ++ [b] else <[Z.to_nat n := b]> lits, u16 (n + 1)).

Fixpoint lzp_predict_loop (tbl : list netc_lzp_entry_t) (i prev : Z) (src : list Z)
    (flags lits : list Z) (n_literals : Z) : outcome unit (list Z * list Z * Z) :=
  match src with
  | [] => Ok (flags, lits, n_literals)
  | b :: src' =>
      e ← aget tbl (netc_lzp_hash prev (u32 i));
      if negb (lzp_valid e =? 0) && (lzp_value e =? b) then
        flags' ← set_flag flags i;
        lzp_predict_loop tbl (i + 1) b src' flags' lits n_literals
      else
        let '(lits', n') := push_literal lits n_literals b in
        lzp_predict_loop tbl (i + 1) b src' flags lits' n'
  end.

Definition netc_lzp_predict (tbl : list netc_lzp_entry_t) (src : list Z) (dst_cap : Z)
  : outcome unit (list Z) :=
  let src_size := zlen src in
  if src_size <? 2 then Fail tt else
  let flag_bytes := (src_size + 7) / 8 in
  if dst_cap <? 2 + flag_bytes + src_size then Fail tt else
  '(flags, lits, n_literals) ←
    lzp_predict_loop tbl 0 0 src (replicate (Z.to_nat flag_bytes) 0) [] 0;
  let total := 2 + flag_bytes + n_literals in
  if total <? src_size
  then Ok ([Z.land n_literals 0xFF; Z.shiftr n_literals 8] ++ flags
           ++ slice lits 0 n_literals)
  else Fail tt.

Fixpoint lzp_reconstruct_loop (tbl : list netc_lzp_entry_t) (flags lits : list Z)
    (n_literals : Z) (n : nat) (i prev lit_idx : Z) : outcome unit (list Z * Z) :=
  match n with
  | O => Ok ([], lit_idx)
  | S n' =>
      flag ← get_flag flags i;
      e ← aget tbl (netc_lzp_hash prev (u32 i));
      '(b, lit_idx') ←
        (if flag : bool then
           if lzp_valid e =? 0 then Fail tt else Ok (lzp_value e, lit_idx)
         else
           if n_literals <=? lit_idx then Fail tt
           else b ← aget lits lit_idx; Ok (b, lit_idx + 1));
      '(rest, k) ← lzp_reconstruct_loop tbl flags lits n_literals n' (i + 1) b lit_idx';
      Ok (b :: rest, k)
  end.

Definition netc_lzp_reconstruct (tbl : list netc_lzp_entry_t) (src : list Z) (dst_size : nat)
  : outcome unit (list Z) :=
  if Z.of_nat dst_size <? 2 then Fail tt else
  if zlen src <? 2 then Fail tt else
  b0 ← aget src 0;
  b1 ← aget src 1;
  let n_literals := Z.lor b0 (Z.shiftl b1 8) in
  let flag_bytes := (Z.of_nat dst_size + 7) / 8 in
  if zlen src <? 2 + flag_bytes + n_literals then Fail tt else
  let flags := slice src 2 flag_bytes in
  let lits := slice src (2 + flag_bytes) (zlen src - (2 + flag_bytes)) in
  '(dst, lit_idx) ← lzp_reconstruct_loop tbl flags lits n_literals dst_size 0 0 0;
  if lit_idx =? n_literals then Ok dst else Fail tt.

(** ** Lemmas *)

Definition lzp_entry_ok (e : netc_lzp_entry_t) : Prop :=
  is_byte (lzp_value e) /\ is_byte (lzp_valid e).

(** The table has its full size and [uint8_t] fields. *)
Definition lzp_table_ok (tbl : list netc_lzp_entry_t) : Prop :=
  zlen tbl = NETC_LZP_HT_SIZE /\ Forall lzp_entry_ok tbl.

Lemma lzp_hash_range prev pos : 0 <= netc_lzp_hash prev pos < NETC_LZP_HT_SIZE.
Proof.
  unfold netc_lzp_hash. change NETC_LZP_HT_MASK with (Z.ones 17).
  change NETC_LZP_HT_SIZE with (2 ^ 17). rewrite Z.land_ones by lia.
  by apply Z.mod_pos_bound.
Qed.

Lemma lzp_lookup {E} tbl prev pos :
  lzp_table_ok tbl ->
  exists e, @aget E _ tbl (netc_lzp_hash prev pos) = Ok e /\ lzp_entry_ok e.
Proof.
  intros [Hl Hf]. pose proof (lzp_hash_range prev pos).
  destruct (@aget_total E _ tbl (netc_lzp_hash prev pos)) as [e He]; [lia|].
  exists e. split; [done|]. apply aget_Ok in He as [_ He]. by eapply Forall_lookup_1.
Qed.

Lemma lzp_prediction_ok tbl prev i :
  lzp_table_ok tbl -> exists p, lzp_prediction tbl prev i = Ok p /\ is_byte p.
Proof.
  intros Hok. unfold lzp_prediction.
  destruct (@lzp_lookup unit tbl prev (u32 i) Hok) as (e & -> & ? & _). mstep.
  eexists. split; [done|]. case_if; [done|]. by unfold is_byte.
Qed.

(** The unfilter inverts the filter: the context of byte [i] is the original
    byte [i - 1] on both sides. *)
Lemma lzp_filter_inv tbl i prev src :
  lzp_table_ok tbl -> bytes src ->
  exists out, lzp_filter_loop tbl i prev src = Ok out /\ length out = length src /\
    bytes out /\ lzp_unfilter_loop tbl i prev out = Ok src.
Proof.
  intros Hok Hs. revert i prev. induction Hs as [|b src Hb Hs IH]; intros i prev.
  { exists []. repeat split; constructor. }
  destruct (lzp_prediction_ok tbl prev i Hok) as (p & Hp & Hpb).
  destruct (IH (i + 1) b) as (out & Ho & Hlo & Hbo & Hu).
  exists (Z.lxor b p :: out). cbn [lzp_filter_loop lzp_unfilter_loop].
  rewrite Hp. mstep. rewrite Ho. mstep. split; [done|]. split; [simpl; lia|].
  split; [constructor; auto with netc|]. by rewrite lxor_cancel, Hu.
Qed.

Lemma lzp_unfilter_total tbl i prev src :
  lzp_table_ok tbl -> bytes src ->
  exists out, lzp_unfilter_loop tbl i prev src = Ok out /\ length out = length src /\ bytes out.
Proof.
  intros Hok Hs. revert i prev. induction Hs as [|b src Hb Hs IH]; intros i prev.
  { exists []. repeat split; constructor. }
  destruct (lzp_prediction_ok tbl prev i Hok) as (p & Hp & Hpb).
  destruct (IH (i + 1) (Z.lxor b p)) as (out & Ho & Hlo & Hbo).
  exists (Z.lxor b p :: out). cbn [lzp_unfilter_loop].
  rewrite Hp. mstep. rewrite Ho. mstep. split; [done|]. split; [simpl; lia|].
  constructor; auto with netc.
Qed.

Lemma lzp_adapt_entry_ok e b : lzp_entry_ok e -> is_byte b -> lzp_entry_ok (lzp_adapt_entry e b).
Proof.
  intros [Hv Hc] Hb. unfold lzp_adapt_entry, lzp_entry_ok, is_byte in *.
  repeat case_if; simpl; lia.
Qed.

(** The adaptive update never fails and keeps the table well formed. *)
Lemma lzp_update_ok tbl i prev data :
  lzp_table_ok tbl -> bytes data ->
  exists tbl', lzp_update_loop tbl i prev data = Ok tbl' /\ lzp_table_ok tbl'.
Proof.
  intros Hok Hd. revert tbl i prev Hok.
  induction Hd as [|b data Hb Hd IH]; intros tbl i prev Hok; [by exists tbl|].
  cbn [lzp_update_loop].
  destruct (@lzp_lookup unit tbl prev (u32 i) Hok) as (e & -> & He). mstep.
  pose proof (lzp_hash_range prev (u32 i)) as Hh. destruct Hok as [Hl Hf].
  rewrite aset_ok by lia. mstep. apply IH. split; [by rewrite length_insert|].
  apply Forall_insert; [done|]. by apply lzp_adapt_entry_ok.
Qed.

(** *** Flag bitmap *)

Lemma land_7 x : Z.land x 7 = x mod 2 ^ 3.
Proof. change 7 with (Z.ones 3). by apply Z.land_ones. Qed.

Lemma get_flag_testbit flags i :
  get_flag flags i = (b ← aget flags (Z.shiftr i 3); Ok (Z.testbit b (7 - Z.land i 7))).
Proof.
  unfold get_flag. destruct (aget flags _) as [b| |]; mstep; [|done..]. f_equal.
  rewrite land_7. assert (0 <= i mod 2 ^ 3 < 8) by (apply Z.mod_pos_bound; lia).
  change 1 with (Z.ones 1) at 1. rewrite Z.land_ones by lia.
  rewrite Z.testbit_eqb, Z.shiftr_div_pow2 by lia. done.
Qed.

Lemma set_flag_spec flags i :
  0 <= i < 8 * zlen flags ->
  exists flags', set_flag flags i = Ok flags' /\ length flags' = length flags /\
    forall j, 0 <= j < 8 * zlen flags ->
      get_flag flags' j = if j =? i then Ok true else get_flag flags j.
Proof.
  intros Hi. unfold set_flag. rewrite Z.shiftr_div_pow2 by lia.
  destruct (@aget_total unit _ flags (i / 2 ^ 3)) as [b Hb]; [dlia|].
  rewrite Hb. mstep. rewrite aset_ok by dlia. eexists. split; [done|].
  split; [apply length_insert|]. intros j Hj. rewrite !get_flag_testbit.
  rewrite (Z.shiftr_div_pow2 j), !land_7 by lia.
  assert (0 <= i mod 2 ^ 3 < 8) by (apply Z.mod_pos_bound; lia).
  assert (0 <= j mod 2 ^ 3 < 8) by (apply Z.mod_pos_bound; lia).
  assert (Z.shiftr 128 (i mod 2 ^ 3) = 2 ^ (7 - i mod 2 ^ 3)) as ->.
  { rewrite Z.shiftr_div_pow2 by lia. change 128 with (2 ^ 7).
    rewrite (pow2_split 7 (i mod 2 ^ 3)), Z.mul_comm, Z.div_mul by lia. lia. }
  destruct (decide (i / 2 ^ 3 = j / 2 ^ 3)) as [Hq|Hq].
  - rewrite <- Hq, Hb. rewrite (aget_Some _ _ (Z.lor b (2 ^ (7 - i mod 2 ^ 3)))).
    2: dlia. 2: apply list_lookup_insert_eq; dlia.
    mstep. rewrite Z.lor_spec, Z.pow2_bits_eqb by lia. case_if.
    + subst j. by rewrite Z.eqb_refl, orb_true_r.
    + assert (i mod 2 ^ 3 <> j mod 2 ^ 3) by dlia.
      replace (7 - i mod 2 ^ 3 =? 7 - j mod 2 ^ 3) with false by (symmetry; lia).
      by rewrite orb_false_r.
  - unfold aget. rewrite list_lookup_insert_ne by dlia.
    destruct (Z.eqb_spec j i); [by subst|done].
Qed.

(** *** The stand-alone codec *)

(** What reconstruction needs of the flags and literals from position [i] on. *)
Inductive lzp_coded (tbl : list netc_lzp_entry_t) (flags : list Z)
  : Z -> Z -> list Z -> list Z -> Prop :=
| coded_nil i prev : lzp_coded tbl flags i prev [] []
| coded_hit i prev b src lits e :
    get_flag flags i = Ok true -> aget (E := unit) tbl (netc_lzp_hash prev (u32 i)) = Ok e ->
    lzp_valid e <> 0 -> lzp_value e = b ->
    lzp_coded tbl flags (i + 1) b src lits ->
    lzp_coded tbl flags i prev (b :: src) lits
| coded_miss i prev b src lits e :
    get_flag flags i = Ok false -> aget (E := unit) tbl (netc_lzp_hash prev (u32 i)) = Ok e ->
    lzp_coded tbl flags (i + 1) b src lits ->
    lzp_coded tbl flags i prev (b :: src) (b :: lits).

(** The encoder: bits before [i] are kept, bits from [i] on start at zero. *)
Lemma lzp_predict_loop_spec tbl src i prev flags lits :
  lzp_table_ok tbl -> 0 <= i -> i + zlen src <= 8 * zlen flags ->
  zlen lits + zlen src < 65536 ->
  (forall j, i <= j < 8 * zlen flags -> get_flag flags j = Ok false) ->
  exists flags' new,
    lzp_predict_loop tbl i prev src flags lits (zlen lits) = Ok (flags', lits ++ new, zlen (lits ++ new)) /\
    length flags' = length flags /\ (length new <= length src)%nat /\
    (forall j, 0 <= j < i -> get_flag flags' j = get_flag flags j) /\
    lzp_coded tbl flags' i prev src new.
Proof.
  intros Hok. revert i prev flags lits.
  induction src as [|b src IH]; intros i prev flags lits Hi Hlen Hlits H0.
  { exists flags, []. rewrite app_nil_r. repeat split; [done|constructor]. }
  cbn [lzp_predict_loop]. simpl length in *.
  destruct (@lzp_lookup unit tbl prev (u32 i) Hok) as (e & He & _). rewrite He. mstep. case_if.
  - destruct (set_flag_spec flags i) as (f1 & -> & Hl1 & Hg); [lia|]. mstep.
    destruct (IH (i + 1) b f1 lits) as (f2 & new & -> & Hl2 & Hn & Hkeep & Hc); [lia|lia|lia| |].
    { intros j Hj. rewrite Hg by lia. if_false. apply H0. lia. }
    exists f2, new. split; [done|]. split; [lia|]. split; [lia|]. split.
    + intros j Hj. rewrite Hkeep, Hg by lia. by if_false.
    + eapply coded_hit; [|done..]. rewrite Hkeep, Hg by lia. by rewrite Z.eqb_refl.
  - unfold push_literal. rewrite Z.eqb_refl, u16_small by lia.
    replace (zlen lits + 1) with (zlen (lits ++ [b])) by (rewrite length_app; simpl; lia).
    destruct (IH (i + 1) b flags (lits ++ [b])) as (f2 & new & -> & Hl2 & Hn & Hkeep & Hc);
      [lia|lia|rewrite length_app; simpl; lia|intros; apply H0; lia|].
    exists f2, (b :: new). rewrite <- app_assoc. simpl. split; [done|]. split; [lia|].
    split; [lia|]. split; [intros; apply Hkeep; lia|].
    eapply coded_miss; [|done..]. rewrite Hkeep by lia. apply H0. lia.
Qed.

(** The decoder on coded flags and literals. *)
Lemma lzp_reconstruct_coded tbl flags i prev src new lits1 :
  lzp_coded tbl flags i prev src new ->
  lzp_reconstruct_loop tbl flags (lits1 ++ new) (zlen (lits1 ++ new)) (length src) i prev (zlen lits1)
  = Ok (src, zlen (lits1 ++ new)).
Proof.
  intros Hc. revert lits1.
  induction Hc as [|i prev b src lits e Hf He Hv Hb Hc IH|i prev b src lits e Hf He Hc IH];
    intros lits1; cbn [lzp_reconstruct_loop length].
  - by rewrite app_nil_r.
  - rewrite Hf. mstep. rewrite He. mstep. cbv iota. if_false. subst b. mstep. rewrite IH. done.
  - rewrite Hf. mstep. rewrite He. mstep. cbv iota. rewrite length_app. simpl length. if_false.
    rewrite (aget_Some _ _ b); [|lia|].
    2: { rewrite Nat2Z.id, lookup_app_r, Nat.sub_diag by lia. done. }
    mstep. specialize (IH (lits1 ++ [b])). rewrite <- app_assoc in IH. simpl app in IH.
    rewrite !length_app in IH. simpl length in IH.
    replace (zlen lits1 + 1) with (Z.of_nat (length lits1 + 1)) by lia. by rewrite IH.
Qed.

(** ** Properties *)

(** The LZP XOR filter is undone by the unfilter with the same table; both
    keep length and stay within bytes. *)
Theorem lzp_filter_roundtrip (tbl : list netc_lzp_entry_t) (src : list Z) :
  lzp_table_ok tbl -> bytes src ->
  exists out, netc_lzp_xor_filter tbl src = Ok out /\ length out = length src /\ bytes out /\
    netc_lzp_xor_unfilter tbl out = Ok src.
Proof. apply lzp_filter_inv. Qed.

(** A table of the right size and no prediction. *)
Definition lzp_empty : list netc_lzp_entry_t := replicate (Z.to_nat NETC_LZP_HT_SIZE) (LzpEntry 0 0).

Lemma lzp_empty_ok : lzp_table_ok lzp_empty.
Proof.
  split; [unfold lzp_empty; rewrite length_replicate; unfold NETC_LZP_HT_SIZE; rewrite Z.shiftl_1_l; lia|].
  apply Forall_replicate. unfold lzp_entry_ok, is_byte. simpl. lia.
Qed.

Lemma lzp_filter_roundtrip_witness :
  exists out, netc_lzp_xor_filter lzp_empty [1; 2; 3] = Ok out /\ length out = 3%nat /\ bytes out /\
    netc_lzp_xor_unfilter lzp_empty out = Ok [1; 2; 3].
Proof.
  apply (lzp_filter_roundtrip lzp_empty [1; 2; 3]); [apply lzp_empty_ok|].
  repeat constructor; unfold is_byte; lia.
Defined.

(** The stand-alone LZP codec: [netc_lzp_predict] rejects a packet (too short,
    too small a buffer, or no gain), or its output is shorter than the packet
    and [netc_lzp_reconstruct] with the same table returns the packet. *)
Theorem lzp_predict_roundtrip (tbl : list netc_lzp_entry_t) (src : list Z) (cap : Z) :
  lzp_table_ok tbl -> bytes src -> zlen src <= 65535 ->
  netc_lzp_predict tbl src cap = Fail tt \/
  exists out, netc_lzp_predict tbl src cap = Ok out /\
    zlen out < zlen src /\ netc_lzp_reconstruct tbl out (length src) = Ok src.
Proof.
  intros Hok Hs Hsz. unfold netc_lzp_predict. case_if; [by left|]. case_if; [by left|].
  set (fb := (zlen src + 7) / 8) in *. assert (0 <= fb /\ zlen src <= 8 * fb) as [Hfb1 Hfb2] by (unfold fb; dlia).
  destruct (lzp_predict_loop_spec tbl src 0 0 (replicate (Z.to_nat fb) 0) [])
    as (flags & lits & Hp & Hlf & Hln & _ & Hc); [done|lia|rewrite length_replicate; lia|simpl; lia| |].
  { intros j Hj. rewrite length_replicate in Hj. rewrite get_flag_testbit.
    rewrite Z.shiftr_div_pow2 by lia.
    rewrite (aget_Some _ _ 0); [|dlia|apply lookup_replicate_2; dlia]. mstep. by rewrite Z.bits_0. }
  change (zlen []) with 0 in Hp. rewrite Hp. rewrite length_replicate in Hlf. mstep. simpl app.
  simpl length in *. case_if; [|by left]. right. eexists. split; [done|].
  rewrite (slice_app_end [] lits) by (simpl; lia).
  assert (length (flags ++ lits) = (Z.to_nat fb + length lits)%nat) by (rewrite length_app; lia).
  split; [simpl length; lia|].
  unfold netc_lzp_reconstruct. simpl length. if_false. if_false.
  change (aget (?a :: ?l) 0) with (Ok (E := unit) a). change (aget (?a :: ?b :: ?l) 1) with (Ok (E := unit) b). mstep.
  rewrite u16_join by lia.
  fold fb. if_false.
  match goal with |- context [?a :: ?b :: flags ++ lits] =>
    change (a :: b :: flags ++ lits) with ([a; b] ++ flags ++ lits) end.
  rewrite slice_app_mid by (simpl; lia).
  rewrite (app_assoc _ flags lits), slice_app_end by (rewrite ?length_app; simpl; lia).
  pose proof (lzp_reconstruct_coded tbl flags 0 0 src lits [] Hc) as Hr.
  change (zlen []) with 0 in Hr. simpl app in Hr. rewrite Hr. mstep. by rewrite Z.eqb_refl.
Qed.

Lemma lzp_predict_roundtrip_witness :
  netc_lzp_predict lzp_empty [7; 7; 7; 7] 100 = Fail tt \/
  exists out, netc_lzp_predict lzp_empty [7; 7; 7; 7] 100 = Ok out /\
    zlen out < 4 /\ netc_lzp_reconstruct lzp_empty out 4 = Ok [7; 7; 7; 7].
Proof.
  apply (lzp_predict_roundtrip lzp_empty [7; 7; 7; 7] 100); [apply lzp_empty_ok| |simpl; lia].
  repeat constructor; unfold is_byte; lia.
Defined.

(** Learning: [netc_lzp_adaptive_update] is defined on every packet and
    keeps the table well formed (size, byte predictions, confidence in 0..255). *)
Theorem lzp_learning_invariant (tbl : list netc_lzp_entry_t) (data : list Z) :
  lzp_table_ok tbl -> bytes data ->
  exists tbl', netc_lzp_adaptive_update (Some tbl) data = Ok (Some tbl') /\ lzp_table_ok tbl'.
Proof.
  intros Ht Hb. destruct (lzp_update_ok tbl 0 0 data Ht Hb) as (t' & He & Hok). exists t'. split; [|done].
  unfold netc_lzp_adaptive_update. by rewrite He.
Qed.

Lemma lzp_learning_invariant_witness :
  exists tbl', netc_lzp_adaptive_update (Some lzp_empty) [1; 2; 3] = Ok (Some tbl') /\ lzp_table_ok tbl'.
Proof.
  apply (lzp_learning_invariant lzp_empty [1; 2; 3]); [apply lzp_empty_ok|].
  repeat constructor; unfold is_byte; lia.
Defined.
