(* ===== verification/Header.v ===== *)
(** * Public constants and packet headers
      (src/include/netc.h, src/src/core/netc_internal.h, src/src/util/netc_platform.h)

    The 8-byte legacy header and the 2/4-byte compact header with its table of
    packet types.  A header writer is the list of bytes it stores; a reader
    takes the packet and is [Undef] when it would read past its end. *)

From stdpp Require Import prelude.
From Stdlib Require Import ZArith Lia.
From S2P Require Import Prelude.

Local Open Scope Z_scope.

(** ** netc.h *)
Definition NETC_MAX_PACKET_SIZE : Z := 65535.
Definition NETC_MAX_OVERHEAD : Z := 8.
Definition NETC_HEADER_SIZE : Z := 8.
Definition NETC_COMPACT_HDR_MIN : Z := 2.
Definition NETC_COMPACT_HDR_MAX : Z := 4.

(** The output buffer size the documentation asks for ([size_t] arithmetic). *)
Definition netc_compress_bound (src_size : Z) : Z := u64 (src_size + NETC_MAX_OVERHEAD).

(** The error codes of [netc_result_t]; [NETC_OK] is [Ok]. *)
Inductive netc_result_t : Type :=
| NETC_ERR_NOMEM
| NETC_ERR_TOOBIG
| NETC_ERR_CORRUPT
| NETC_ERR_DICT_INVALID
| NETC_ERR_BUF_SMALL
| NETC_ERR_CTX_NULL
| NETC_ERR_UNSUPPORTED
| NETC_ERR_VERSION
| NETC_ERR_INVALID_ARG.

#[export] Instance netc_result_eq_dec : EqDecision netc_result_t.
Proof. solve_decision. Defined.

(** Results of API functions. *)
Abbreviation result := (outcome netc_result_t).

Definition NETC_PKT_FLAG_DELTA : Z := 0x01.
Definition NETC_PKT_FLAG_BIGRAM : Z := 0x02.
Definition NETC_PKT_FLAG_PASSTHRU : Z := 0x04.
Definition NETC_PKT_FLAG_DICT_ID : Z := 0x08.
Definition NETC_PKT_FLAG_MREG : Z := 0x10.
Definition NETC_PKT_FLAG_RLE : Z := 0x20.
Definition NETC_PKT_FLAG_X2 : Z := 0x40.
Definition NETC_PKT_FLAG_LZ77 : Z := 0x80.

Definition NETC_ALG_TANS : Z := 0x01.
Definition NETC_ALG_RANS : Z := 0x02.
Definition NETC_ALG_LZ77X : Z := 0x03.
Definition NETC_ALG_TANS_PCTX : Z := 0x04.
Definition NETC_ALG_LZP : Z := 0x05.
Definition NETC_ALG_TANS_10 : Z := 0x06.
Definition NETC_ALG_PASSTHRU : Z := 0xFF.

Definition NETC_CFG_FLAG_STATEFUL : Z := 0x01.
Definition NETC_CFG_FLAG_STATELESS : Z := 0x02.
Definition NETC_CFG_FLAG_DELTA : Z := 0x04.
Definition NETC_CFG_FLAG_BIGRAM : Z := 0x08.
Definition NETC_CFG_FLAG_STATS : Z := 0x10.
Definition NETC_CFG_FLAG_COMPACT_HDR : Z := 0x20.
Definition NETC_CFG_FLAG_FAST_COMPRESS : Z := 0x100.
Definition NETC_CFG_FLAG_ADAPTIVE : Z := 0x200.

(** ** Little-endian accessors *)
Definition netc_read_u16_le {E} (p : list Z) (off : Z) : outcome E Z :=
  b0 ← aget p off;
  b1 ← aget p (off + 1);
  Ok (le_val [b0; b1]).

Definition netc_write_u16_le (v : Z) : list Z := le_bytes 2 v.

Definition netc_read_u32_le {E} (p : list Z) (off : Z) : outcome E Z :=
  b0 ← aget p off;
  b1 ← aget p (off + 1);
  b2 ← aget p (off + 2);
  b3 ← aget p (off + 3);
  Ok (le_val [b0; b1; b2; b3]).

Definition netc_write_u32_le (v : Z) : list Z := le_bytes 4 v.

(** ** Legacy header *)
Record netc_pkt_header_t := PktHeader {
  original_size : Z;     (* uint16_t *)
  compressed_size : Z;   (* uint16_t *)
  hdr_flags : Z;         (* uint8_t *)
  algorithm : Z;         (* uint8_t *)
  model_id : Z;          (* uint8_t *)
  context_seq : Z        (* uint8_t *)
}.

Definition netc_hdr_write (h : netc_pkt_header_t) : list Z :=
  netc_write_u16_le (original_size h) ++ netc_write_u16_le (compressed_size h) ++
  [hdr_flags h; algorithm h; model_id h; context_seq h].

Definition netc_hdr_read {E} (src : list Z) : outcome E netc_pkt_header_t :=
  osz ← netc_read_u16_le src 0;
  csz ← netc_read_u16_le src 2;
  fl ← aget src 4;
  al ← aget src 5;
  mid ← aget src 6;
  seq ← aget src 7;
  Ok (PktHeader osz csz fl al mid seq).

(** ** Compact header: the packet-type table *)

(** 0x00-0x0F: passthrough, PCTX, MREG and LZ77X types (0x0F is unused). *)
Definition pkt_type_low (t : Z) : Z * Z :=
  let flags l := foldr Z.lor NETC_PKT_FLAG_DICT_ID l in
  match t with
  | 0x00 => (flags [NETC_PKT_FLAG_PASSTHRU], NETC_ALG_PASSTHRU)
  | 0x01 => (flags [NETC_PKT_FLAG_PASSTHRU; NETC_PKT_FLAG_LZ77], NETC_ALG_PASSTHRU)
  | 0x02 => (flags [NETC_PKT_FLAG_PASSTHRU; NETC_PKT_FLAG_LZ77; NETC_PKT_FLAG_DELTA], NETC_ALG_PASSTHRU)
  | 0x03 => (flags [NETC_PKT_FLAG_PASSTHRU; NETC_PKT_FLAG_RLE], NETC_ALG_PASSTHRU)
  | 0x04 => (flags [], NETC_ALG_TANS_PCTX)
  | 0x05 => (flags [NETC_PKT_FLAG_DELTA], NETC_ALG_TANS_PCTX)
  | 0x06 => (flags [], Z.lor NETC_ALG_TANS_PCTX 0x10)
  | 0x07 => (flags [NETC_PKT_FLAG_DELTA], Z.lor NETC_ALG_TANS_PCTX 0x10)
  | 0x08 => (flags [NETC_PKT_FLAG_MREG], NETC_ALG_TANS)
  | 0x09 => (flags [NETC_PKT_FLAG_MREG; NETC_PKT_FLAG_DELTA], NETC_ALG_TANS)
  | 0x0A => (flags [NETC_PKT_FLAG_MREG; NETC_PKT_FLAG_X2], NETC_ALG_TANS)
  | 0x0B => (flags [NETC_PKT_FLAG_MREG; NETC_PKT_FLAG_X2; NETC_PKT_FLAG_DELTA], NETC_ALG_TANS)
  | 0x0C => (flags [NETC_PKT_FLAG_MREG; NETC_PKT_FLAG_BIGRAM], NETC_ALG_TANS)
  | 0x0D => (flags [NETC_PKT_FLAG_MREG; NETC_PKT_FLAG_BIGRAM; NETC_PKT_FLAG_DELTA], NETC_ALG_TANS)
  | 0x0E => (flags [], NETC_ALG_LZ77X)
  | _ => (0, 0)
  end.

(** 0x10-0x6F: single-region tANS, one entry per bucket in each row of 16. *)
Definition pkt_type_tans (t : Z) : Z * Z :=
  let alg := Z.lor NETC_ALG_TANS (Z.shiftl (Z.land t 0x0F) 4) in
  let flags l := foldr Z.lor NETC_PKT_FLAG_DICT_ID l in
  match Z.shiftr t 4 with
  | 0x1 => (flags [], alg)
  | 0x2 => (flags [NETC_PKT_FLAG_DELTA], alg)
  | 0x3 => (flags [NETC_PKT_FLAG_BIGRAM], alg)
  | 0x4 => (flags [NETC_PKT_FLAG_BIGRAM; NETC_PKT_FLAG_DELTA], alg)
  | 0x5 => (flags [NETC_PKT_FLAG_X2], alg)
  | 0x6 => (flags [NETC_PKT_FLAG_X2; NETC_PKT_FLAG_DELTA], alg)
  | _ => (0, 0)
  end.

(** 0x70-0xAF: single-region LZP, one entry per bucket in each row of 16. *)
Definition pkt_type_lzp (t : Z) : Z * Z :=
  let alg := Z.lor NETC_ALG_LZP (Z.shiftl (Z.land t 0x0F) 4) in
  let flags l := foldr Z.lor NETC_PKT_FLAG_DICT_ID l in
  match Z.shiftr t 4 with
  | 0x7 => (flags [], alg)
  | 0x8 => (flags [NETC_PKT_FLAG_DELTA], alg)
  | 0x9 => (flags [NETC_PKT_FLAG_BIGRAM], alg)
  | 0xA => (flags [NETC_PKT_FLAG_BIGRAM; NETC_PKT_FLAG_DELTA], alg)
  | _ => (0, 0)
  end.

(** 0xB0-0xFF: 10-bit tANS, the PCTX bigram and order-2 types, the sentinel. *)
Definition pkt_type_high (t : Z) : Z * Z :=
  let alg10 := Z.lor NETC_ALG_TANS_10 (Z.shiftl (Z.land t 0x0F) 4) in
  let flags l := foldr Z.lor NETC_PKT_FLAG_DICT_ID l in
  if Z.shiftr t 4 =? 0xB then (flags [], alg10) else
  if Z.shiftr t 4 =? 0xC then (flags [NETC_PKT_FLAG_DELTA], alg10) else
  match t with
  | 0xD0 => (flags [NETC_PKT_FLAG_BIGRAM], NETC_ALG_TANS_PCTX)
  | 0xD1 => (flags [NETC_PKT_FLAG_BIGRAM; NETC_PKT_FLAG_DELTA], NETC_ALG_TANS_PCTX)
  | 0xD2 => (flags [NETC_PKT_FLAG_BIGRAM], Z.lor NETC_ALG_TANS_PCTX 0x10)
  | 0xD3 => (flags [NETC_PKT_FLAG_BIGRAM; NETC_PKT_FLAG_DELTA], Z.lor NETC_ALG_TANS_PCTX 0x10)
  | 0xD4 => (flags [NETC_PKT_FLAG_DELTA; NETC_PKT_FLAG_RLE], NETC_ALG_TANS_PCTX)
  | 0xD5 => (flags [NETC_PKT_FLAG_DELTA; NETC_PKT_FLAG_RLE], Z.lor NETC_ALG_TANS_PCTX 0x10)
  | 0xD6 => (flags [NETC_PKT_FLAG_BIGRAM; NETC_PKT_FLAG_DELTA; NETC_PKT_FLAG_RLE], NETC_ALG_TANS_PCTX)
  | 0xD7 => (flags [NETC_PKT_FLAG_BIGRAM; NETC_PKT_FLAG_DELTA; NETC_PKT_FLAG_RLE],
             Z.lor NETC_ALG_TANS_PCTX 0x10)
  | 0xFF => (0xFF, 0xFF)
  | _ => (0, 0)
  end.

(** [netc_pkt_type_table[t]] as (flags, algorithm); unlisted entries are zero. *)
Definition netc_pkt_type_table (t : Z) : Z * Z :=
  if t <? 0x10 then pkt_type_low t else
  if t <? 0x70 then pkt_type_tans t else
  if t <? 0xB0 then pkt_type_lzp t else pkt_type_high t.

Definition netc_compact_type_encode (flags algorithm : Z) : Z :=
  let alg_lo := Z.land algorithm 0x0F in
  let bucket := Z.land (Z.shiftr algorithm 4) 0x0F in
  let delta := if has flags NETC_PKT_FLAG_DELTA then 1 else 0 in
  let bigram := if has flags NETC_PKT_FLAG_BIGRAM then 1 else 0 in
  let x2 := if has flags NETC_PKT_FLAG_X2 then 1 else 0 in
  if has flags NETC_PKT_FLAG_PASSTHRU then
    if has flags NETC_PKT_FLAG_LZ77 then u8 (0x01 + delta) else
    if has flags NETC_PKT_FLAG_RLE then 0x03 else 0x00
  else if alg_lo =? NETC_ALG_TANS_PCTX then
    let lzp := if negb (bucket =? 0) then 1 else 0 in
    if has flags NETC_PKT_FLAG_RLE then u8 (0xD4 + lzp + bigram * 2) else
    if negb (bigram =? 0) then u8 (0xD0 + delta + lzp * 2) else
    u8 (0x04 + delta + lzp * 2)
  else if alg_lo =? NETC_ALG_LZ77X then 0x0E
  else if has flags NETC_PKT_FLAG_MREG then
    if negb (bigram =? 0) then u8 (0x0C + delta) else
    if negb (x2 =? 0) then u8 (0x0A + delta) else
    u8 (0x08 + delta)
  else if alg_lo =? NETC_ALG_TANS then
    let base :=
      if negb (bigram =? 0) && negb (delta =? 0) then 0x40
      else if negb (bigram =? 0) then 0x30
      else if negb (x2 =? 0) && negb (delta =? 0) then 0x60
      else if negb (x2 =? 0) then 0x50
      else if negb (delta =? 0) then 0x20
      else 0x10 in
    u8 (base + bucket)
  else if alg_lo =? NETC_ALG_LZP then
    let base :=
      if negb (bigram =? 0) && negb (delta =? 0) then 0xA0
      else if negb (bigram =? 0) then 0x90
      else if negb (delta =? 0) then 0x80
      else 0x70 in
    u8 (base + bucket)
  else if alg_lo =? NETC_ALG_TANS_10 then
    let base := if negb (delta =? 0) then 0xC0 else 0xB0 in
    u8 (base + bucket)
  else 0xFF.

Definition netc_hdr_write_compact (pkt_type original_size : Z) : list Z :=
  if original_size <=? 127 then [pkt_type; u8 original_size]
  else [pkt_type; 0x80] ++ netc_write_u16_le original_size.

(** Header size and the fields on the wire (size, flags, algorithm); [None] is
    the return value 0. *)
Definition netc_hdr_read_compact {E} (src : list Z) (src_size : Z)
  : outcome E (option (Z * (Z * Z * Z))) :=
  if src_size <? 2 then Ok None else
  pkt_type ← aget src 0;
  let '(flags, alg) := netc_pkt_type_table pkt_type in
  if (pkt_type =? 0xFF) || ((flags =? 0) && (alg =? 0)) then Ok None else
  b1 ← aget src 1;
  if negb (has b1 0x80) then Ok (Some (2, (Z.land b1 0x7F, flags, alg))) else
  if src_size <? 4 then Ok None else
  osz ← netc_read_u16_le src 2;
  Ok (Some (4, (osz, flags, alg))).

Definition netc_hdr_emit (h : netc_pkt_header_t) (compact : bool) : list Z :=
  if compact
  then netc_hdr_write_compact (netc_compact_type_encode (hdr_flags h) (algorithm h)) (original_size h)
  else netc_hdr_write h.

(** ** Lemmas *)

Definition hdr_ok (h : netc_pkt_header_t) : Prop :=
  0 <= original_size h < 65536 /\ 0 <= compressed_size h < 65536 /\
  is_byte (hdr_flags h) /\ is_byte (algorithm h) /\ is_byte (model_id h) /\
  is_byte (context_seq h).

(** Bytes at the front of a list, and after a prefix. *)
Lemma aget_app_r {E A} (pre l : list A) i :
  zlen pre <= i -> @aget E A (pre ++ l) i = aget l (i - zlen pre).
Proof.
  intros Hi. unfold aget. if_false. if_false. rewrite lookup_app_r by lia.
  by replace (Z.to_nat (i - zlen pre)) with (Z.to_nat i - length pre)%nat by lia.
Qed.

Lemma aget_app_l {E A} (l rest : list A) i :
  i < zlen l -> @aget E A (l ++ rest) i = aget l i.
Proof.
  intros Hi. unfold aget. destruct (Z.ltb_spec i 0); [done|]. rewrite lookup_app_l by lia. done.
Qed.

Lemma read_u16_at {E} (pre rest : list Z) v off :
  off = zlen pre ->
  @netc_read_u16_le E (pre ++ netc_write_u16_le v ++ rest) off = Ok (v mod 2 ^ 16).
Proof.
  intros ->. unfold netc_read_u16_le. rewrite !(aget_app_r pre) by lia.
  replace (zlen pre - zlen pre) with 0 by lia. replace (zlen pre + 1 - zlen pre) with 1 by lia.
  change (2 ^ 16) with (2 ^ (8 * Z.of_nat 2)). rewrite <- le_val_bytes. reflexivity.
Qed.

Lemma read_u16_front {E} v rest : @netc_read_u16_le E (netc_write_u16_le v ++ rest) 0 = Ok (v mod 2 ^ 16).
Proof. exact (read_u16_at [] rest v 0 eq_refl). Qed.

Lemma read_u32_at {E} (pre rest : list Z) v off :
  off = zlen pre ->
  @netc_read_u32_le E (pre ++ netc_write_u32_le v ++ rest) off = Ok (v mod 2 ^ 32).
Proof.
  intros ->. unfold netc_read_u32_le. rewrite !(aget_app_r pre) by lia.
  replace (zlen pre - zlen pre) with 0 by lia. replace (zlen pre + 1 - zlen pre) with 1 by lia.
  replace (zlen pre + 2 - zlen pre) with 2 by lia. replace (zlen pre + 3 - zlen pre) with 3 by lia.
  change (2 ^ 32) with (2 ^ (8 * Z.of_nat 4)). rewrite <- le_val_bytes. reflexivity.
Qed.

Lemma read_u32_front {E} v rest : @netc_read_u32_le E (netc_write_u32_le v ++ rest) 0 = Ok (v mod 2 ^ 32).
Proof. exact (read_u32_at [] rest v 0 eq_refl). Qed.

Lemma read_u16_total {E} (p : list Z) off :
  bytes p -> 0 <= off -> off + 2 <= zlen p ->
  exists v, @netc_read_u16_le E p off = Ok v /\ 0 <= v < 65536.
Proof.
  intros Hp H0 Hl. unfold netc_read_u16_le.
  destruct (@aget_total E _ p off) as [b0 Hb0]; [lia|].
  destruct (@aget_total E _ p (off + 1)) as [b1 Hb1]; [lia|].
  rewrite Hb0. mstep. rewrite Hb1. mstep. eexists. split; [done|].
  apply bytes_aget in Hb0, Hb1; [|done..].
  apply (le_val_bound [b0; b1]). repeat (constructor; [done|]); constructor.
Qed.

Lemma read_u32_total {E} (p : list Z) off :
  bytes p -> 0 <= off -> off + 4 <= zlen p ->
  exists v, @netc_read_u32_le E p off = Ok v /\ 0 <= v < 2 ^ 32.
Proof.
  intros Hp H0 Hl. unfold netc_read_u32_le.
  destruct (@aget_total E _ p off) as [b0 Hb0]; [lia|].
  destruct (@aget_total E _ p (off + 1)) as [b1 Hb1]; [lia|].
  destruct (@aget_total E _ p (off + 2)) as [b2 Hb2]; [lia|].
  destruct (@aget_total E _ p (off + 3)) as [b3 Hb3]; [lia|].
  rewrite Hb0. mstep. rewrite Hb1. mstep. rewrite Hb2. mstep. rewrite Hb3. mstep.
  eexists. split; [done|]. apply bytes_aget in Hb0, Hb1, Hb2, Hb3; [|done..].
  apply (le_val_bound [b0; b1; b2; b3]). repeat (constructor; [done|]); constructor.
Qed.

Lemma hdr_write_length h : zlen (netc_hdr_write h) = 8.
Proof. done. Qed.

Lemma hdr_read_write {E} h rest :
  hdr_ok h -> @netc_hdr_read E (netc_hdr_write h ++ rest) = Ok h.
Proof.
  intros (Ho & Hc & _). unfold netc_hdr_read, netc_hdr_write. rewrite <- !app_assoc.
  rewrite read_u16_front. mstep.
  rewrite (read_u16_at (netc_write_u16_le (original_size h))) by done. mstep.
  destruct h as [o c f a m s]. simpl in *. rewrite !Z.mod_small by lia. done.
Qed.

(** Reading a header never fails once the packet has eight bytes. *)
Lemma hdr_read_total {E} src :
  bytes src -> 8 <= zlen src ->
  exists h, @netc_hdr_read E src = Ok h /\ hdr_ok h.
Proof.
  intros Hs Hl. unfold netc_hdr_read.
  destruct (@read_u16_total E src 0) as (o & -> & Ho); [done|lia..|]. mstep.
  destruct (@read_u16_total E src 2) as (c & -> & Hc); [done|lia..|]. mstep.
  destruct (@aget_total E _ src 4) as [f Hf]; [lia|]. rewrite Hf. mstep.
  destruct (@aget_total E _ src 5) as [a Ha]; [lia|]. rewrite Ha. mstep.
  destruct (@aget_total E _ src 6) as [m Hm]; [lia|]. rewrite Hm. mstep.
  destruct (@aget_total E _ src 7) as [s Hq]; [lia|]. rewrite Hq. mstep.
  eexists. split; [done|]. unfold hdr_ok. simpl.
  split; [done|]. split; [done|]. repeat split; by eapply bytes_aget.
Qed.

(** *** Compact packet types *)

Definition type_valid (t : Z) : bool :=
  let '(f, a) := netc_pkt_type_table t in
  negb ((t =? 0xFF) || ((f =? 0) && (a =? 0))).

(** Packets whose flags and algorithm byte survive the compact header. *)
Definition representable (flags alg : Z) : Prop :=
  let t := netc_compact_type_encode flags alg in
  type_valid t = true /\ netc_pkt_type_table t = (flags, alg).

Lemma byte_forall (P : Z -> bool) :
  forallb P (seqZ 0 256) = true -> forall b, is_byte b -> P b = true.
Proof.
  intros H b Hb. rewrite forallb_forall in H. apply H.
  apply list_elem_of_In, elem_of_seqZ. unfold is_byte in Hb. lia.
Qed.

Lemma table_encode t :
  is_byte t -> type_valid t = true ->
  netc_compact_type_encode (netc_pkt_type_table t).1 (netc_pkt_type_table t).2 = t.
Proof.
  intros Hb Hv.
  pose proof (byte_forall (fun t => implb (type_valid t)
    (netc_compact_type_encode (netc_pkt_type_table t).1 (netc_pkt_type_table t).2 =? t)))
    as H.
  specialize (H ltac:(vm_compute; reflexivity) t Hb). simpl in H. rewrite Hv in H.
  by apply Z.eqb_eq.
Qed.

Lemma encode_byte f a : is_byte (netc_compact_type_encode f a).
Proof.
  unfold netc_compact_type_encode, is_byte, u8.
  repeat case_match; try lia; apply (Z.mod_pos_bound _ 256); lia.
Qed.

Lemma type_table_byte t :
  is_byte t -> is_byte (netc_pkt_type_table t).1 /\ is_byte (netc_pkt_type_table t).2.
Proof.
  intros Hb.
  pose proof (byte_forall (fun t => (0 <=? (netc_pkt_type_table t).1) && ((netc_pkt_type_table t).1 <? 256)
    && (0 <=? (netc_pkt_type_table t).2) && ((netc_pkt_type_table t).2 <? 256))) as H.
  specialize (H ltac:(vm_compute; reflexivity) t Hb). simpl in H. unfold is_byte.
  bool_to_prop. lia.
Qed.

Lemma land_80 b : is_byte b -> has b 0x80 = (128 <=? b).
Proof.
  intros Hb. pose proof (byte_forall (fun b => Bool.eqb (has b 0x80) (128 <=? b))) as H.
  specialize (H ltac:(vm_compute; reflexivity) b Hb). by apply eqb_prop in H.
Qed.

Lemma compact_hdr_length t n :
  zlen (netc_hdr_write_compact t n) = if n <=? 127 then NETC_COMPACT_HDR_MIN else NETC_COMPACT_HDR_MAX.
Proof. unfold netc_hdr_write_compact. by case_if. Qed.

Lemma hdr_read_compact_write {E} t n rest src_size :
  0 <= n < 65536 -> type_valid t = true ->
  src_size = zlen (netc_hdr_write_compact t n ++ rest) ->
  @netc_hdr_read_compact E (netc_hdr_write_compact t n ++ rest) src_size =
  Ok (Some (zlen (netc_hdr_write_compact t n),
            (n, (netc_pkt_type_table t).1, (netc_pkt_type_table t).2))).
Proof.
  intros Hn Hv Hs. unfold netc_hdr_read_compact.
  assert (2 <= zlen (netc_hdr_write_compact t n)) as Hl.
  { rewrite compact_hdr_length. by case_if. }
  rewrite length_app in Hs. if_false.
  unfold netc_hdr_write_compact in *. unfold type_valid in Hv.
  destruct (netc_pkt_type_table t) as [f a] eqn:Ht. destruct (Z.leb_spec n 127).
  - cbn [app]. change (aget (t :: ?l) 0) with (Ok (E := E) t). mstep. rewrite Ht.
    apply negb_true_iff in Hv. rewrite Hv.
    change (aget (?a :: ?b :: ?l) 1) with (Ok (E := E) b). mstep.
    rewrite u8_small by (unfold is_byte; lia). rewrite land_80 by (unfold is_byte; lia).
    replace (128 <=? n) with false by (symmetry; lia). simpl negb. cbv iota.
    change 127 with (Z.ones 7). rewrite Z.land_ones, Z.mod_small by lia. done.
  - rewrite <- app_assoc. cbn [app]. change (aget (t :: ?l) 0) with (Ok (E := E) t). mstep. rewrite Ht.
    apply negb_true_iff in Hv. rewrite Hv.
    change (aget (?a :: ?b :: ?l) 1) with (Ok (E := E) b). mstep.
    change (has 128 128) with true. simpl negb. cbv iota.
    rewrite length_app in Hs. simpl length in Hs. if_false.
    change (t :: 128 :: ?l) with ([t; 128] ++ l). rewrite read_u16_at by done. mstep. by rewrite Z.mod_small by lia.
Qed.

(** Any packet prefix: the compact header reader is total, and the header it
    accepts is well formed. *)
Lemma hdr_read_compact_total {E} src :
  bytes src ->
  @netc_hdr_read_compact E src (zlen src) = Ok None \/
  exists n osz f a, @netc_hdr_read_compact E src (zlen src) = Ok (Some (n, (osz, f, a))) /\
    2 <= n <= 4 /\ n <= zlen src /\ 0 <= osz < 65536 /\ is_byte f /\ is_byte a.
Proof.
  intros Hs. unfold netc_hdr_read_compact. case_if; [by left|].
  destruct (@aget_total E _ src 0) as [t Ht]; [lia|]. rewrite Ht. mstep.
  apply bytes_aget in Ht; [|done]. pose proof (type_table_byte t Ht) as Hb.
  destruct (netc_pkt_type_table t) as [f a]. simpl in Hb. case_if; [by left|].
  destruct (@aget_total E _ src 1) as [b1 Hb1]; [lia|]. rewrite Hb1. mstep. case_if.
  { right. eexists _, _, _, _. split; [done|]. change 127 with (Z.ones 7).
    rewrite Z.land_ones by lia. pose proof (Z.mod_pos_bound b1 (2 ^ 7)).
    split; [lia|]. split; [lia|]. split; [lia|done]. }
  case_if; [by left|]. destruct (@read_u16_total E src 2) as (v & -> & Hv); [done|lia..|]. mstep.
  right. eexists _, _, _, _. split; [done|]. split; [lia|]. split; [lia|]. done.
Qed.

(** ** Properties *)

Lemma le_bytes_pair b0 b1 : is_byte b0 -> is_byte b1 -> le_bytes 2 (le_val [b0; b1]) = [b0; b1].
Proof.
  intros H0 H1. apply (le_bytes_val [b0; b1]). repeat constructor; apply H0 || apply H1.
Qed.

(** C26: the 8-byte header is a bijection between headers with fields in range and
    8-byte strings: what [netc_hdr_write] emits [netc_hdr_read] parses (with any
    payload after it), and any 8 bytes parse to a header in range that is
    written as the same bytes. *)
Theorem header_bijection {E} :
  (forall h rest, hdr_ok h -> zlen (netc_hdr_write h) = NETC_HEADER_SIZE /\
     @netc_hdr_read E (netc_hdr_write h ++ rest) = Ok h) /\
  (forall src, bytes src -> zlen src = NETC_HEADER_SIZE ->
     exists h, @netc_hdr_read E src = Ok h /\ hdr_ok h /\ netc_hdr_write h = src).
Proof.
  split.
  - intros h rest Hh. split; [apply hdr_write_length|by apply hdr_read_write].
  - intros src Hb Hl. unfold NETC_HEADER_SIZE in Hl. destruct (@hdr_read_total E src Hb) as (h & Hh & Hok); [lia|].
    exists h. split; [done|]. split; [done|].
    destruct src as [|b0 [|b1 [|b2 [|b3 [|b4 [|b5 [|b6 [|b7 [|]]]]]]]]]; simpl in Hl; try lia.
    do 8 (apply bytes_cons in Hb as [? Hb]).
    assert (Ok h = @Ok E _ (PktHeader (le_val [b0; b1]) (le_val [b2; b3]) b4 b5 b6 b7)) as Hk by (rewrite <- Hh; done).
    assert (h = PktHeader (le_val [b0; b1]) (le_val [b2; b3]) b4 b5 b6 b7) as -> by congruence.
    unfold netc_hdr_write, netc_write_u16_le. cbn [original_size compressed_size hdr_flags algorithm model_id context_seq].
    by rewrite !le_bytes_pair.
Qed.

(** C27: a compact header of a representable packet is 2 bytes (up to 127 payload
    bytes) or 4 bytes, and reading it gives back size, flags and algorithm. *)
Theorem compact_header_roundtrip {E} (h : netc_pkt_header_t) (rest : list Z) :
  hdr_ok h -> representable (hdr_flags h) (algorithm h) ->
  zlen (netc_hdr_emit h true) = (if original_size h <=? 127 then 2 else 4) /\
  @netc_hdr_read_compact E (netc_hdr_emit h true ++ rest) (zlen (netc_hdr_emit h true ++ rest)) =
    Ok (Some (zlen (netc_hdr_emit h true), (original_size h, hdr_flags h, algorithm h))).
Proof.
  intros (Ho & _) [Hv Ht]. unfold netc_hdr_emit. split; [apply compact_hdr_length|].
  rewrite (hdr_read_compact_write _ _ _ _ Ho Hv eq_refl), Ht. done.
Qed.

Lemma compact_header_roundtrip_witness :
  zlen (netc_hdr_emit (PktHeader 300 7 0x09 0x21 1 2) true) = 4 /\
  @netc_hdr_read_compact unit (netc_hdr_emit (PktHeader 300 7 0x09 0x21 1 2) true ++ [1; 2])
    (zlen (netc_hdr_emit (PktHeader 300 7 0x09 0x21 1 2) true ++ [1; 2])) =
  Ok (Some (zlen (netc_hdr_emit (PktHeader 300 7 0x09 0x21 1 2) true), (300, 0x09, 0x21))).
Proof.
  apply (compact_header_roundtrip (PktHeader 300 7 0x09 0x21 1 2) [1; 2]).
  - unfold hdr_ok, is_byte; simpl; lia.
  - split; reflexivity.
Defined.

(** Every packet type that the reader accepts is the encoding of its own
    flags and algorithm, so no two accepted types mean the same packet and each
    of them is representable. *)
Theorem compact_types_distinct (t : Z) :
  is_byte t -> type_valid t = true ->
  let '(flags, alg) := netc_pkt_type_table t in
  netc_compact_type_encode flags alg = t /\ representable flags alg.
Proof.
  intros Hb Hv. pose proof (table_encode t Hb Hv) as He. destruct (netc_pkt_type_table t) as [f a] eqn:Et.
  simpl in He. split; [done|]. unfold representable. by rewrite He.
Qed.

Lemma compact_types_distinct_witness :
  netc_pkt_type_table 0xD5 = (0x29, 0x14) /\ netc_compact_type_encode 0x29 0x14 = 0xD5 /\ representable 0x29 0x14.
Proof.
  split; [reflexivity|]. apply (compact_types_distinct 0xD5).
  - unfold is_byte. lia.
  - reflexivity.
Defined.

(** The compact type of a packet that is not PCTX does not record the
    order-2 delta (the RLE bit next to the DELTA bit): for the LZ77 passthrough,
    the single-region and the 10-bit types it equals the type of the order-1
    packet. *)
Theorem compact_order2_lost (flags alg : Z) :
  (has flags NETC_PKT_FLAG_PASSTHRU = true /\ has flags NETC_PKT_FLAG_LZ77 = true \/
   has flags NETC_PKT_FLAG_PASSTHRU = false /\ Z.land alg 0x0F <> NETC_ALG_TANS_PCTX) ->
  netc_compact_type_encode (Z.lor flags NETC_PKT_FLAG_RLE) alg = netc_compact_type_encode flags alg.
Proof.
  intros Hc. unfold netc_compact_type_encode.
  assert (forall m, Z.land NETC_PKT_FLAG_RLE m = 0 -> has (Z.lor flags NETC_PKT_FLAG_RLE) m = has flags m) as Hm.
  { intros m H0. unfold has. by rewrite Z.land_lor_distr_l, H0, Z.lor_0_r. }
  rewrite (Hm NETC_PKT_FLAG_DELTA), (Hm NETC_PKT_FLAG_BIGRAM), (Hm NETC_PKT_FLAG_X2), (Hm NETC_PKT_FLAG_PASSTHRU),
    (Hm NETC_PKT_FLAG_LZ77), (Hm NETC_PKT_FLAG_MREG) by reflexivity. destruct Hc as [[-> ->]|[-> Ha]]; [done|].
  by destruct (Z.eqb_spec (Z.land alg 0x0F) NETC_ALG_TANS_PCTX).
Qed.

Lemma compact_order2_lost_witness :
  netc_compact_type_encode (Z.lor 0x09 NETC_PKT_FLAG_RLE) 0x21 = netc_compact_type_encode 0x09 0x21.
Proof.
  apply (compact_order2_lost 0x09 0x21).
  right. split; [reflexivity|discriminate].
Defined.
