(* ===== verification/Lz.v ===== *)
(** * Run-length and LZ77 coders
      (src/src/core/netc_compress.c: encoders, src/src/core/netc_decompress.c: decoders)

    [rle_encode]/[rle_decode], within-packet LZ77 ([lz77_encode]/[lz77_decode])
    and cross-packet LZ77 over the history ring ([lz77x_encode]/[lz77x_decode]).
    An output buffer is the list of bytes written so far, and every write is
    checked ([put]) against its capacity: [lz_cap] bytes for the encoders, the
    announced [orig_size] bytes for the decoders.  The stream still to be read is
    the remaining list.  Loops carry fuel and are [Undef] when it runs out; the
    lemmas show that neither happens. *)

From stdpp Require Import prelude.
From Stdlib Require Import ZArith Lia.
From S2P Require Import Prelude Header Lzp.

Local Open Scope Z_scope.

(** ** Run-length coding *)

(** [while (run < 255 && i + run < src_size && src[i + run] == sym) run++],
    where [src] is what follows the first byte of the run. *)
Fixpoint rle_run (sym : Z) (run : Z) (src : list Z) : Z :=
  match src with
  | b :: src' => if (run <? 255) && (b =? sym) then rle_run sym (run + 1) src' else run
  | [] => run
  end.

Fixpoint rle_encode_loop (fuel : nat) (src dst : list Z) (rle_cap : Z) : outcome unit (list Z) :=
  match src with
  | [] => Ok dst
  | sym :: src' =>
      match fuel with
      | O => Undef
      | S fuel' =>
          let run := rle_run sym 1 src' in
          if rle_cap <? zlen dst + 2 then Fail tt
          else dst' ← put rle_cap dst [u8 run; sym]; rle_encode_loop fuel' (drop (Z.to_nat run) src) dst' rle_cap
      end
  end.

Definition rle_encode (src : list Z) (rle_cap : Z) : outcome unit (list Z) :=
  rle_encode_loop (length src) src [] rle_cap.

Fixpoint rle_decode_loop (rle_src dst : list Z) (orig_size : Z) : outcome netc_result_t (list Z) :=
  match rle_src with
  | count :: sym :: rle_src' =>
      if (count =? 0) || (orig_size <? zlen dst + count) then Fail NETC_ERR_CORRUPT
      else dst' ← put orig_size dst (replicate (Z.to_nat count) sym); rle_decode_loop rle_src' dst' orig_size
  | [_] => Fail NETC_ERR_CORRUPT
  | [] => if zlen dst =? orig_size then Ok dst else Fail NETC_ERR_CORRUPT
  end.

Definition rle_decode (rle_src : list Z) (orig_size : Z) : outcome netc_result_t (list Z) :=
  rle_decode_loop rle_src [] orig_size.

(** ** LZ77: pieces shared by the two encoders *)

(** FNV-1a of three bytes, folded by a mask. *)
Definition fnv_hash3 (mask : Z) (src : list Z) (i : Z) : outcome unit Z :=
  p0 ← aget src i;
  p1 ← aget src (i + 1);
  p2 ← aget src (i + 2);
  Ok (Z.land (fnv_round (fnv_round (fnv_round 2166136261 p0) p1) p2) mask).

(** The macros [LZ77_FLUSH_LITS] and [LZ77X_FLUSH_LITS]: literals [ls, le) of
    [src] are appended to [out] in runs of at most 128. *)
Fixpoint lz_flush_lits (fuel : nat) (src : list Z) (ls le : Z) (out : list Z) (lz_cap : Z)
  : outcome unit (list Z) :=
  if ls <? le then
    match fuel with
    | O => Undef
    | S fuel' =>
        let ll := Z.min (le - ls) 128 in
        if lz_cap <? zlen out + 1 + ll then Fail tt
        else lits ← peek src ls ll;
             out' ← put lz_cap out (u8 (ll - 1) :: lits);
             lz_flush_lits fuel' src (ls + ll) le out' lz_cap
    end
  else Ok out.

(** [while (mlen < max_m && ref[mlen] == cur[mlen]) mlen++] *)
Fixpoint match_length (ref cur : Z -> outcome unit Z) (max_m : nat) (mlen : Z) : outcome unit Z :=
  match max_m with
  | O => Ok mlen
  | S max_m' =>
      a ← ref mlen;
      b ← cur mlen;
      if a =? b then match_length ref cur max_m' (mlen + 1) else Ok mlen
  end.

(** Encoder state: hash table, output, position, start of pending literals. *)
Record lz_state := LzState { lz_ht : list Z; lz_out : list Z; lz_i : Z; lz_lit_start : Z }.

(** The main [while (i + 3 <= src_size)] loop around a step. *)
Fixpoint lz_encode_loop (step : lz_state -> outcome unit lz_state) (src_size : Z)
    (fuel : nat) (st : lz_state) : outcome unit lz_state :=
  if lz_i st + 3 <=? src_size then
    match fuel with
    | O => Undef
    | S fuel' => st' ← step st; lz_encode_loop step src_size fuel' st'
    end
  else Ok st.

(** [for (k = 1; k < best_len && i + k + 3 <= src_size; k++) ht[hash(i+k)] = i+k] *)
Definition ht_insert_skipped (mask : Z) (src : list Z) (i best_len : Z) (ht : list Z)
  : outcome unit (list Z) :=
  foldM (fun ht k => h ← fnv_hash3 mask src (i + k); aset ht h (i + k)) ht
        (seqZ 1 (Z.min best_len (zlen src - i - 2) - 1)).

(** ** Within-packet LZ77 *)
Definition LZ77_HT_SIZE : Z := 1024.
Definition LZ77_HT_MASK : Z := LZ77_HT_SIZE - 1.

(** One iteration of the main loop; the empty-slot sentinel [(size_t)-1] is -1. *)
Definition lz77_step (src : list Z) (lz_cap : Z) (st : lz_state) : outcome unit lz_state :=
  let '(LzState ht out i lit_start) := st in
  let src_size := zlen src in
  h ← fnv_hash3 LZ77_HT_MASK src i;
  pos ← aget ht h;
  ht ← aset ht h i;
  best_len ←
    (if negb (pos =? -1) && (i - pos <=? 256) then
       let max_m := Z.min (src_size - i) 130 in
       mlen ← match_length (fun k => aget src (pos + k)) (fun k => aget src (i + k)) (Z.to_nat max_m) 0;
       Ok (if 3 <=? mlen then mlen else 0)
     else Ok 0);
  let best_off := i - pos in
  st' ←
    (if 3 <=? best_len then
       out ← lz_flush_lits (Z.to_nat i) src lit_start i out lz_cap;
       if src_size <=? zlen out then Fail tt else
       if lz_cap <? zlen out + 2 then Fail tt else
       ht ← ht_insert_skipped LZ77_HT_MASK src i best_len ht;
       out ← put lz_cap out [Z.lor 0x80 (u8 (best_len - 3)); u8 (best_off - 1)];
       Ok (LzState ht out (i + best_len) (i + best_len))
     else Ok (LzState ht out (i + 1) lit_start));
  if src_size <=? zlen (lz_out st') then Fail tt else Ok st'.

Definition lz77_encode (src : list Z) (lz_cap : Z) : outcome unit (list Z) :=
  let src_size := zlen src in
  let ht := replicate (Z.to_nat LZ77_HT_SIZE) (-1) in
  st ← lz_encode_loop (lz77_step src lz_cap) src_size (length src) (LzState ht [] 0 0);
  out ← lz_flush_lits (length src) src (lz_lit_start st) src_size (lz_out st) lz_cap;
  if zlen out <? src_size then Ok out else Fail tt.

(** ** LZ77: pieces shared by the two decoders *)

(** [for (k = 0; k < match_len; k++) dst[out + k] = dst[copy_from + k]]: byte by
    byte, so that an overlapping match repeats the bytes it has just written. *)
Fixpoint copy_match (match_len : nat) (dst : list Z) (copy_from orig_size : Z)
  : outcome netc_result_t (list Z) :=
  match match_len with
  | O => Ok dst
  | S n => b ← aget dst copy_from; dst' ← put orig_size dst [b]; copy_match n dst' (copy_from + 1) orig_size
  end.

(** A literal run: [lz_src] starts at its first literal. *)
Definition copy_literals (lit_len : Z) (lz_src dst : list Z) (orig_size : Z)
  : outcome netc_result_t (list Z * list Z) :=
  if zlen lz_src <? lit_len then Fail NETC_ERR_CORRUPT else
  if orig_size <? zlen dst + lit_len then Fail NETC_ERR_CORRUPT else
  lits ← peek lz_src 0 lit_len;
  dst' ← put orig_size dst lits;
  Ok (drop (Z.to_nat lit_len) lz_src, dst').

(** A back-reference into the output: [lz_src] starts at its offset byte. *)
Definition copy_backref (match_len : Z) (lz_src dst : list Z) (orig_size : Z)
  : outcome netc_result_t (list Z * list Z) :=
  match lz_src with
  | [] => Fail NETC_ERR_CORRUPT
  | o :: lz_src' =>
      let offset := o + 1 in
      if zlen dst <? offset then Fail NETC_ERR_CORRUPT else
      if orig_size <? zlen dst + match_len then Fail NETC_ERR_CORRUPT else
      dst' ← copy_match (Z.to_nat match_len) dst (zlen dst - offset) orig_size;
      Ok (lz_src', dst')
  end.

(** The [while (i < lz_size)] loop around the handling of one token. *)
Fixpoint lz_decode_loop (token : Z -> list Z -> list Z -> outcome netc_result_t (list Z * list Z))
    (orig_size : Z) (fuel : nat) (lz_src dst : list Z) : outcome netc_result_t (list Z) :=
  match lz_src with
  | [] => if negb (zlen dst =? orig_size) then Fail NETC_ERR_CORRUPT else Ok dst
  | tok :: lz_src' =>
      match fuel with
      | O => Undef
      | S fuel' =>
          '(rest, dst') ← token tok lz_src' dst;
          lz_decode_loop token orig_size fuel' rest dst'
      end
  end.

Definition lz77_token (orig_size tok : Z) (lz_src dst : list Z)
  : outcome netc_result_t (list Z * list Z) :=
  if has tok 0x80 then copy_backref (Z.land tok 0x7F + 3) lz_src dst orig_size
  else copy_literals (Z.land tok 0x7F + 1) lz_src dst orig_size.

Definition lz77_decode (lz_src : list Z) (orig_size : Z) : outcome netc_result_t (list Z) :=
  lz_decode_loop (lz77_token orig_size) orig_size (length lz_src) lz_src [].

(** ** Cross-packet LZ77 *)
Definition LZ77X_MAX_LONG_OFFSET : Z := 65536.
Definition LZ77X_HT_SIZE : Z := 4096.
Definition LZ77X_HT_MASK : Z := LZ77X_HT_SIZE - 1.
Definition INT32_MIN : Z := - 2 ^ 31.

(** Conversion to [int32_t]. *)
Definition i32 (x : Z) : Z := (x + 2 ^ 31) mod 2 ^ 32 - 2 ^ 31.

(** [(a + ring_size - b) % ring_size] on [uint32_t]. *)
Definition ring_back (ring_size a b : Z) : Z := u32 (a + ring_size - b) mod ring_size.

(** Hash table of the most recent bytes of the ring. *)
Definition build_ring_ht (ring : list Z) (ring_size ring_pos prev_pkt_size : Z)
  : outcome unit (list Z) :=
  let ring_ht := replicate (Z.to_nat LZ77X_HT_SIZE) INT32_MIN in
  let scan_len := if u32 (ring_size - 2) <? prev_pkt_size then u32 (ring_size - 2) else prev_pkt_size in
  let scan_len := if scan_len <? 3 then 0 else scan_len in
  let scan_start := ring_back ring_size ring_pos scan_len in
  foldM (fun ht j =>
           let abs_pos := u32 (scan_start + j) mod ring_size in
           b0 ← aget ring abs_pos;
           b1 ← aget ring (u32 (abs_pos + 1) mod ring_size);
           b2 ← aget ring (u32 (abs_pos + 2) mod ring_size);
           h ← fnv_hash3 LZ77X_HT_MASK [b0; b1; b2] 0;
           aset ht h (i32 abs_pos))
        ring_ht (seqZ 0 (scan_len - 2)).

(** Within-packet candidate: length and offset of the match, length 0 if none. *)
Definition lz77x_src_match (src : list Z) (i src_entry : Z) : outcome unit (Z * Z) :=
  if negb (src_entry =? INT32_MIN) then
    let src_off := u64 (i - u64 src_entry) in
    if (1 <=? src_off) && (src_off <=? 256) then
      let max_m := Z.min (zlen src - i) 66 in
      mlen ← match_length (fun k => aget src (src_entry + k)) (fun k => aget src (i + k)) (Z.to_nat max_m) 0;
      Ok (if 3 <=? mlen then (mlen, src_off) else (0, 0))
    else Ok (0, 0)
  else Ok (0, 0).

(** Ring candidate; [Some] when it beats the length of the within-packet one. *)
Definition lz77x_ring_match (src ring : list Z) (ring_size ring_pos i ring_entry best_len : Z)
  : outcome unit (option (Z * Z)) :=
  if negb (ring_entry =? INT32_MIN) then
    let abs_pos := u32 ring_entry in
    let ring_off := ring_back ring_size ring_pos abs_pos in
    if (1 <=? ring_off) && (ring_off <=? LZ77X_MAX_LONG_OFFSET) then
      let max_m := Z.min (zlen src - i) 66 in
      let rstart := ring_back ring_size ring_pos ring_off in
      mlen ← match_length (fun k => aget ring ((rstart + k) mod ring_size))
                          (fun k => aget src (i + k)) (Z.to_nat max_m) 0;
      Ok (if (3 <=? mlen) && (best_len <? mlen) then Some (mlen, ring_off) else None)
    else Ok None
  else Ok None.

(** One iteration of the main loop. *)
Definition lz77x_step (src ring : list Z) (ring_size ring_pos : Z) (ring_ht : list Z) (lz_cap : Z)
    (st : lz_state) : outcome unit lz_state :=
  let '(LzState src_ht out i lit_start) := st in
  let src_size := zlen src in
  h ← fnv_hash3 LZ77X_HT_MASK src i;
  ring_entry ← aget ring_ht h;
  src_entry ← aget src_ht h;
  src_ht ← aset src_ht h (i32 i);
  '(src_len, src_off) ← lz77x_src_match src i src_entry;
  long ← lz77x_ring_match src ring ring_size ring_pos i ring_entry src_len;
  let best_len := match long with Some (l, _) => l | None => src_len end in
  st' ←
    (if 3 <=? best_len then
       out ← lz_flush_lits (Z.to_nat i) src lit_start i out lz_cap;
       if lz_cap <=? zlen out then Fail tt else
       out ←
         match long with
         | Some (_, best_off) =>
             if lz_cap <? zlen out + 3 then Fail tt else
             let off16 := u16 (best_off - 1) in
             put lz_cap out [Z.lor 0xC0 (u8 (best_len - 3)); Z.land off16 0xFF; Z.shiftr off16 8]
         | None =>
             if lz_cap <? zlen out + 2 then Fail tt else
             put lz_cap out [Z.lor 0x80 (u8 (best_len - 3)); u8 (src_off - 1)]
         end;
       src_ht ← ht_insert_skipped LZ77X_HT_MASK src i best_len src_ht;
       Ok (LzState src_ht out (i + best_len) (i + best_len))
     else Ok (LzState src_ht out (i + 1) lit_start));
  if src_size <=? zlen (lz_out st') then Fail tt else Ok st'.

Definition lz77x_encode (src : list Z) (ring : option (list Z)) (ring_size ring_pos prev_pkt_size lz_cap : Z)
  : outcome unit (list Z) :=
  match ring with
  | None => lz77_encode src lz_cap
  | Some r =>
      if ring_size =? 0 then lz77_encode src lz_cap else
      let src_size := zlen src in
      ring_ht ← build_ring_ht r ring_size ring_pos prev_pkt_size;
      let src_ht := replicate (Z.to_nat LZ77X_HT_SIZE) INT32_MIN in
      st ← lz_encode_loop (lz77x_step src r ring_size ring_pos ring_ht lz_cap) src_size (length src)
                          (LzState src_ht [] 0 0);
      out ← lz_flush_lits (length src) src (lz_lit_start st) src_size (lz_out st) lz_cap;
      if zlen out <? src_size then Ok out else Fail tt
  end.

(** [for (k = 0; k < match_len; k++) dst[out++] = ring[(rstart + k) % ring_size]] *)
Fixpoint copy_ring (match_len : nat) (ring : list Z) (ring_size rstart : Z) (k : Z) (dst : list Z)
    (orig_size : Z) : outcome netc_result_t (list Z) :=
  match match_len with
  | O => Ok dst
  | S n =>
      b ← aget ring ((rstart + k) mod ring_size);
      dst' ← put orig_size dst [b];
      copy_ring n ring ring_size rstart (k + 1) dst' orig_size
  end.

Definition lz77x_token (ring : option (list Z)) (ring_size ring_pos orig_size tok : Z) (lz_src dst : list Z)
  : outcome netc_result_t (list Z * list Z) :=
  if negb (has tok 0x80) then copy_literals (Z.land tok 0x7F + 1) lz_src dst orig_size
  else if negb (has tok 0x40) then copy_backref (Z.land tok 0x3F + 3) lz_src dst orig_size
  else
    match lz_src with
    | lo :: hi :: lz_src' =>
        let match_len := Z.land tok 0x3F + 3 in
        let offset := Z.lor lo (Z.shiftl hi 8) + 1 in
        match ring with
        | None => Fail NETC_ERR_CORRUPT
        | Some r =>
            if ring_size =? 0 then Fail NETC_ERR_CORRUPT else
            if ring_size <? offset then Fail NETC_ERR_CORRUPT else
            if orig_size <? zlen dst + match_len then Fail NETC_ERR_CORRUPT else
            dst' ← copy_ring (Z.to_nat match_len) r ring_size (ring_back ring_size ring_pos offset) 0 dst orig_size;
            Ok (lz_src', dst')
        end
    | _ => Fail NETC_ERR_CORRUPT
    end.

Definition lz77x_decode (lz_src : list Z) (orig_size : Z) (ring : option (list Z)) (ring_size ring_pos : Z)
  : outcome netc_result_t (list Z) :=
  lz_decode_loop (lz77x_token ring ring_size ring_pos orig_size) orig_size (length lz_src) lz_src [].

(** ** Lemmas: run-length coding *)

Lemma rle_run_spec sym run src :
  1 <= run <= 255 ->
  run <= rle_run sym run src <= 255 /\ rle_run sym run src <= run + zlen src /\
  take (Z.to_nat (rle_run sym run src - run)) src =
    replicate (Z.to_nat (rle_run sym run src - run)) sym.
Proof.
  revert run. induction src as [|b src IH]; intros run Hr; simpl.
  { rewrite Z.sub_diag. simpl. repeat split; lia. }
  case_if.
  - destruct (IH (run + 1)) as (H1 & H2 & H3); [lia|]. split; [lia|]. split; [lia|].
    set (r := rle_run sym (run + 1) src) in *.
    replace (Z.to_nat (r - run)) with (S (Z.to_nat (r - (run + 1)))) by lia.
    simpl. rewrite H3. by subst.
  - rewrite Z.sub_diag. simpl. repeat split; lia.
Qed.

(** The decoder inverts the encoder, whatever was decoded before. *)
Lemma rle_loop_inv fuel src dst cap out pre more orig :
  bytes src -> (length src <= fuel)%nat ->
  rle_encode_loop fuel src dst cap = Ok out -> zlen pre + zlen src <= orig ->
  exists new, out = dst ++ new /\ bytes new /\
    rle_decode_loop (new ++ more) pre orig = rle_decode_loop more (pre ++ src) orig.
Proof.
  revert src dst pre. induction fuel as [|fuel IH]; intros src dst pre Hs Hf He Ho.
  { destruct src; simpl in *; [|lia]. injection He as <-. exists []. rewrite !app_nil_r. by split_and!. }
  destruct src as [|sym src]; simpl in He.
  { injection He as <-. exists []. rewrite !app_nil_r. by split_and!. }
  destruct (rle_run_spec sym 1 src) as (H1 & H2 & H3); [lia|].
  set (run := rle_run sym 1 src) in *. case_if_in He; [done|]. rewrite put_ok in He by (simpl; lia).
  rewrite bind_Ok_l in He.
  replace (Z.to_nat run) with (S (Z.to_nat (run - 1))) in He by lia. simpl in He.
  apply Forall_cons in Hs as [Hsym Hs]. simpl length in *.
  destruct (IH (drop (Z.to_nat (run - 1)) src) (dst ++ [u8 run; sym]) (pre ++ replicate (Z.to_nat run) sym))
    as (new & -> & Hb & Hd); [by apply bytes_drop|rewrite length_drop; lia|done|
      rewrite length_app, length_replicate, length_drop; lia|].
  exists ([u8 run; sym] ++ new). rewrite <- app_assoc. split; [done|].
  split; [rewrite bytes_app, !bytes_cons; auto with netc|].
  simpl. rewrite u8_small by (unfold is_byte; lia). if_false.
  rewrite put_ok by (rewrite length_replicate; lia). mstep. rewrite Hd. f_equal.
  rewrite <- app_assoc. f_equal. rewrite <- (take_drop (Z.to_nat (run - 1)) src) at 2. rewrite H3.
  rewrite app_comm_cons. f_equal. replace (Z.to_nat run) with (S (Z.to_nat (run - 1))) by lia. done.
Qed.

Lemma rle_encode_defined fuel src dst cap :
  (length src <= fuel)%nat -> defined (rle_encode_loop fuel src dst cap).
Proof.
  revert src dst. induction fuel as [|fuel IH]; intros [|sym src] dst Hf; simpl in *; try done; [lia|].
  case_if; [done|]. rewrite put_ok by (simpl; lia). mstep. apply IH. destruct (rle_run_spec sym 1 src) as (H1 & _); [lia|].
  set (run := rle_run sym 1 src) in *. replace (Z.to_nat run) with (S (Z.to_nat (run - 1))) by lia.
  simpl. rewrite length_drop. lia.
Qed.

(** ** Lemmas: LZ77 decoders on arbitrary input *)

(** What one token may do: consume input and extend the output within
    [orig_size], or reject the stream. *)
Definition token_ok (orig_size : Z) (token : Z -> list Z -> list Z -> outcome netc_result_t (list Z * list Z)) : Prop :=
  forall tok src dst, is_byte tok -> bytes src -> bytes dst ->
    token tok src dst = Fail NETC_ERR_CORRUPT \/
    exists rest dst', token tok src dst = Ok (rest, dst') /\ (length rest <= length src)%nat /\
      bytes rest /\ bytes dst' /\ zlen dst' <= orig_size.

Lemma copy_match_ok n dst from orig :
  bytes dst -> 0 <= from < zlen dst -> zlen dst + Z.of_nat n <= orig ->
  exists dst', copy_match n dst from orig = Ok dst' /\ zlen dst' = zlen dst + Z.of_nat n /\ bytes dst'.
Proof.
  revert dst from. induction n as [|n IH]; intros dst from Hb Hf Ho; cbn [copy_match].
  { exists dst. split; [done|]. split; [lia|done]. }
  destruct (@aget_total netc_result_t _ dst from Hf) as [b Hg]. rewrite Hg. mstep.
  apply bytes_aget in Hg; [|done]. rewrite put_ok by (simpl; lia). mstep.
  destruct (IH (dst ++ [b]) (from + 1)) as (dst' & He & Hl & Hb');
    [apply bytes_app; split; [done|by constructor]|rewrite length_app; simpl; lia..|].
  exists dst'. split; [done|]. split; [|done]. rewrite length_app in Hl. simpl in Hl. lia.
Qed.

Lemma copy_literals_ok orig n src dst :
  0 <= n -> bytes src -> bytes dst ->
  copy_literals n src dst orig = Fail NETC_ERR_CORRUPT \/
  exists rest dst', copy_literals n src dst orig = Ok (rest, dst') /\ (length rest <= length src)%nat /\
    bytes rest /\ bytes dst' /\ zlen dst' <= orig.
Proof.
  intros Hn Hs Hd. unfold copy_literals. case_if; [by left|]. case_if; [by left|]. right.
  rewrite peek_take by lia. mstep. rewrite put_ok by (rewrite length_take; lia). mstep.
  eexists _, _. split; [done|]. rewrite length_drop, length_app, length_take.
  split; [lia|]. split; [auto with netc|]. split; [apply bytes_app; auto with netc|lia].
Qed.

Lemma copy_backref_ok orig n src dst :
  0 <= n -> bytes src -> bytes dst ->
  copy_backref n src dst orig = Fail NETC_ERR_CORRUPT \/
  exists rest dst', copy_backref n src dst orig = Ok (rest, dst') /\ (length rest <= length src)%nat /\
    bytes rest /\ bytes dst' /\ zlen dst' <= orig.
Proof.
  intros Hn Hs Hd. unfold copy_backref. destruct Hs as [|o src Ho Hs]; [by left|].
  case_if; [by left|]. case_if; [by left|]. right. unfold is_byte in Ho.
  destruct (copy_match_ok (Z.to_nat n) dst (zlen dst - (o + 1)) orig) as (d & -> & Hl & Hb); [done|lia|lia|].
  mstep. eexists _, _. split; [done|]. simpl. split; [lia|]. split; [done|]. split; [done|lia].
Qed.

Lemma land_mask_range x n : 0 <= n -> 0 <= Z.land x (Z.ones n) < 2 ^ n.
Proof. intros. rewrite Z.land_ones by done. apply Z.mod_pos_bound, pow2_pos. done. Qed.

Lemma lz77_token_ok orig : token_ok orig (lz77_token orig).
Proof.
  intros tok src dst _ Hs Hd. unfold lz77_token. pose proof (land_mask_range tok 7 ltac:(lia)) as Hm.
  change (Z.ones 7) with 127 in Hm. case_if; [apply copy_backref_ok|apply copy_literals_ok]; done || lia.
Qed.

(** Every stream decodes to exactly [orig_size] bytes or is rejected. *)
Lemma lz_decode_loop_safe token orig fuel src dst :
  token_ok orig token -> (length src <= fuel)%nat -> bytes src -> bytes dst ->
  lz_decode_loop token orig fuel src dst = Fail NETC_ERR_CORRUPT \/
  exists out, lz_decode_loop token orig fuel src dst = Ok out /\ zlen out = orig /\ bytes out.
Proof.
  intros Ht. revert src dst. induction fuel as [|fuel IH]; intros src dst Hf Hs Hd;
    destruct Hs as [|tok src Htok Hs]; simpl in *; try lia.
  1,2: case_if; [by left|right; by exists dst].
  destruct (Ht tok src dst) as [->|(rest & dst' & -> & Hl & Hr & Hd' & _)]; [done..|by left|].
  mstep. apply IH; [lia|done|done].
Qed.

(** More fuel than input changes nothing. *)
Lemma lz_decode_fuel token orig f1 f2 src dst :
  (forall tok src dst rest dst', token tok src dst = Ok (rest, dst') -> (length rest <= length src)%nat) ->
  (length src <= f1)%nat -> (length src <= f2)%nat ->
  lz_decode_loop token orig f1 src dst = lz_decode_loop token orig f2 src dst.
Proof.
  intros Ht. revert f2 src dst. induction f1 as [|f1 IH]; intros [|f2] [|tok src] dst H1 H2;
    simpl in *; try lia; try done.
  destruct (token tok src dst) as [[rest dst']| |] eqn:He; mstep; [|done..].
  apply Ht in He. apply IH; lia.
Qed.

(** *** Streams as prefixes: [emits token orig out p] says that decoding a stream
    that starts with [out] continues after [out] with output [p]. *)
Definition emits (token : Z -> list Z -> list Z -> outcome netc_result_t (list Z * list Z))
    (orig : Z) (out p : list Z) : Prop :=
  forall more, lz_decode_loop token orig (length (out ++ more)) (out ++ more) [] =
               lz_decode_loop token orig (length more) more p.

Section Emits.
Context (token : Z -> list Z -> list Z -> outcome netc_result_t (list Z * list Z)) (orig : Z).
Hypothesis token_shrinks : forall tok src dst rest dst',
  token tok src dst = Ok (rest, dst') -> (length rest <= length src)%nat.
(** The literal token of the format. *)
Hypothesis token_literals : forall lits more p,
  1 <= zlen lits <= 128 -> zlen p + zlen lits <= orig ->
  token (zlen lits - 1) (lits ++ more) p = Ok (more, p ++ lits).

Lemma emits_nil : emits token orig [] [].
Proof. by intros more. Qed.

Lemma emits_token out p t ts p' :
  emits token orig out p ->
  (forall more, token t (ts ++ more) p = Ok (more, p')) ->
  emits token orig (out ++ t :: ts) p'.
Proof.
  intros He Ht more. rewrite <- app_assoc. rewrite He. simpl. rewrite Ht. mstep.
  apply lz_decode_fuel; [done| |done]. rewrite length_app. lia.
Qed.

Lemma flush_emits fuel src ls le out cap :
  emits token orig out (take (Z.to_nat ls) src) -> bytes out -> bytes src ->
  0 <= ls <= le -> le <= zlen src -> zlen src <= orig -> le - ls <= Z.of_nat fuel ->
  lz_flush_lits fuel src ls le out cap = Fail tt \/
  exists out', lz_flush_lits fuel src ls le out cap = Ok out' /\ bytes out' /\
    emits token orig out' (take (Z.to_nat le) src).
Proof using token_shrinks token_literals.
  revert ls out. induction fuel as [|fuel IH]; intros ls out He Hbo Hbs Hls Hle Hsz Hf; simpl.
  { if_false. right. exists out. replace le with ls by lia. done. }
  case_if; cycle 1. { right. exists out. replace le with ls by lia. done. }
  case_if; [by left|]. set (ll := Z.min (le - ls) 128) in *.
  assert (zlen (slice src ls ll) = ll) as Hsl by (apply length_slice; lia).
  rewrite peek_ok by lia. mstep. rewrite put_ok by (cbn [length]; lia). mstep.
  apply IH; try done; try lia.
  - rewrite u8_small by (unfold is_byte; lia). apply (emits_token _ _ _ (slice src ls ll)) with (1 := He).
    intros more. rewrite <- Hsl at 1. rewrite token_literals by (rewrite ?length_take; lia).
    do 2 f_equal. unfold slice. rewrite Z2Nat.inj_add by lia.
    rewrite take_take_drop. done.
  - rewrite bytes_app, bytes_cons. auto with netc.
Qed.
End Emits.

(** ** Lemmas: LZ77 encoders *)

Lemma match_length_spec ref cur n m0 :
  (forall k, m0 <= k < m0 + Z.of_nat n -> exists a b, ref k = Ok a /\ cur k = Ok b) ->
  exists m, match_length ref cur n m0 = Ok m /\ m0 <= m <= m0 + Z.of_nat n /\
    forall k, m0 <= k < m -> exists b, ref k = Ok b /\ cur k = Ok b.
Proof.
  revert m0. induction n as [|n IH]; intros m0 H; cbn [match_length].
  { exists m0. split; [done|]. split; [lia|]. intros. lia. }
  destruct (H m0) as (a & b & Ha & Hb); [lia|]. rewrite Ha. mstep. rewrite Hb. mstep. case_if.
  - destruct (IH (m0 + 1)) as (m & -> & Hm & Hk). { intros k Hk. apply H. lia. }
    exists m. split; [done|]. split; [lia|]. intros k Hkm.
    destruct (decide (k = m0)) as [->|]; [exists b; by subst|apply Hk; lia].
  - exists m0. split; [done|]. split; [lia|]. intros. lia.
Qed.

Lemma fnv_hash3_ok n src i :
  0 <= n -> 0 <= i -> i + 3 <= zlen src ->
  exists h, fnv_hash3 (Z.ones n) src i = Ok h /\ 0 <= h < 2 ^ n.
Proof.
  intros Hn Hi Hl. unfold fnv_hash3.
  destruct (@aget_total unit _ src i) as [b0 ->]; [lia|].
  destruct (@aget_total unit _ src (i + 1)) as [b1 ->]; [lia|].
  destruct (@aget_total unit _ src (i + 2)) as [b2 ->]; [lia|]. mstep.
  eexists. split; [done|]. by apply land_mask_range.
Qed.

(** A hash table of source positions below [i] ([empty] marks a free slot). *)
Definition ht_ok (size empty i : Z) (ht : list Z) : Prop :=
  zlen ht = size /\ Forall (fun p => p = empty \/ 0 <= p < i) ht.

Lemma ht_ok_aset {E} size empty i i' ht h p :
  ht_ok size empty i ht -> i <= i' -> 0 <= h < size -> 0 <= p < i' ->
  exists ht', @aset E _ ht h p = Ok ht' /\ ht_ok size empty i' ht'.
Proof.
  intros [Hl Hf] Hi Hh Hp. rewrite aset_ok by lia. eexists. split; [done|].
  split; [by rewrite length_insert|]. apply Forall_insert; [|lia].
  eapply Forall_impl; [done|]. simpl. lia.
Qed.

Lemma ht_ok_aget {E} size empty i ht h :
  ht_ok size empty i ht -> 0 <= h < size ->
  exists p, @aget E _ ht h = Ok p /\ (p = empty \/ 0 <= p < i).
Proof.
  intros [Hl Hf] Hh. destruct (@aget_total E _ ht h) as [p Hp]; [lia|]. exists p. split; [done|].
  apply aget_Ok in Hp as [_ Hp]. by eapply Forall_lookup_1 in Hf.
Qed.

Lemma ht_ok_init size empty i : 0 <= size -> ht_ok size empty i (replicate (Z.to_nat size) empty).
Proof.
  intros. split; [rewrite length_replicate; lia|]. apply Forall_replicate. by left.
Qed.

Lemma ht_insert_skipped_ok n empty src i len ht :
  0 <= n -> 0 <= i -> 1 <= len -> i + 3 <= zlen src ->
  ht_ok (2 ^ n) empty (i + 1) ht ->
  exists ht', ht_insert_skipped (Z.ones n) src i len ht = Ok ht' /\ ht_ok (2 ^ n) empty (i + len) ht'.
Proof.
  intros Hn Hi Hlen Hsz Hht. unfold ht_insert_skipped.
  set (m := Z.min len (zlen src - i - 2) - 1).
  assert (forall c, 0 <= c -> c <= m -> exists ht',
    foldM (fun ht k => h ← fnv_hash3 (Z.ones n) src (i + k); aset ht h (i + k)) ht (seqZ 1 c) = Ok ht' /\
    ht_ok (2 ^ n) empty (i + 1 + c) ht') as H.
  { refine (natlike_ind _ _ _).
    - intros _. exists ht. replace (i + 1 + 0) with (i + 1) by lia. done.
    - intros x Hx IHx Hxm. rewrite seqZ_snoc, foldM_snoc by lia.
      destruct IHx as (h1 & -> & Hok1); [lia|]. mstep.
      destruct (fnv_hash3_ok n src (i + (1 + x))) as (h & -> & Hh); [lia..|]. mstep.
      destruct (@ht_ok_aset unit (2 ^ n) empty (i + 1 + x) (i + 1 + Z.succ x) h1 h (i + (1 + x)))
        as (h2 & -> & Hok2); [done|lia..|]. by exists h2. }
  destruct (H m) as (ht' & -> & Hok); [lia..|]. exists ht'. split; [done|].
  destruct Hok as [Hl Hf]. split; [done|]. eapply Forall_impl; [done|]. simpl. lia.
Qed.

Lemma take_snoc_Z {A} (l : list A) i x :
  0 <= i -> l !! Z.to_nat i = Some x -> take (Z.to_nat i) l ++ [x] = take (Z.to_nat (i + 1)) l.
Proof.
  intros Hi Hx. replace (Z.to_nat (i + 1)) with (S (Z.to_nat i)) by lia.
  symmetry. by apply take_S_r.
Qed.

Lemma zlen_take {A} (l : list A) i : 0 <= i <= zlen l -> zlen (take (Z.to_nat i) l) = i.
Proof. intros. rewrite length_take. lia. Qed.

(** Copying a match from the output reproduces the source. *)
Lemma copy_match_src src pos i n j :
  0 <= pos < i -> 0 <= j -> i + j + Z.of_nat n <= zlen src ->
  (forall k, j <= k < j + Z.of_nat n -> exists b, @aget unit _ src (pos + k) = Ok b /\ @aget unit _ src (i + k) = Ok b) ->
  copy_match n (take (Z.to_nat (i + j)) src) (pos + j) (zlen src) = Ok (take (Z.to_nat (i + j + Z.of_nat n)) src).
Proof.
  revert j. induction n as [|n IH]; intros j Hp Hj Hl Hk; cbn [copy_match].
  { do 2 f_equal. lia. }
  destruct (Hk j) as (b & [_ H1]%aget_Ok & [_ H2]%aget_Ok); [lia|].
  rewrite (aget_Some _ _ b); [|lia|rewrite lookup_take_lt by lia; done]. mstep.
  rewrite put_ok by (rewrite zlen_take by lia; simpl; lia). mstep. rewrite take_snoc_Z by (done || lia).
  replace (i + j + 1) with (i + (j + 1)) by lia. replace (pos + j + 1) with (pos + (j + 1)) by lia.
  rewrite IH; [do 2 f_equal; lia|lia..|]. intros k Hkk. apply Hk. lia.
Qed.

Definition lz_inv (token : Z -> list Z -> list Z -> outcome netc_result_t (list Z * list Z))
    (src : list Z) (n empty : Z) (st : lz_state) : Prop :=
  0 <= lz_lit_start st <= lz_i st /\ lz_i st <= zlen src /\ bytes (lz_out st) /\
  emits token (zlen src) (lz_out st) (take (Z.to_nat (lz_lit_start st)) src) /\
  ht_ok (2 ^ n) empty (lz_i st) (lz_ht st).

(** An encoder whose step keeps the invariant and advances produces a stream
    that decodes to the source. *)
Lemma lz_encode_loop_inv token src n empty step fuel st :
  (forall st, lz_inv token src n empty st -> lz_i st + 3 <= zlen src ->
     step st = Fail tt \/ exists st', step st = Ok st' /\ lz_inv token src n empty st' /\ lz_i st < lz_i st') ->
  lz_inv token src n empty st -> zlen src - lz_i st <= Z.of_nat fuel ->
  lz_encode_loop step (zlen src) fuel st = Fail tt \/
  exists st', lz_encode_loop step (zlen src) fuel st = Ok st' /\ lz_inv token src n empty st'.
Proof.
  intros Hstep. revert st. induction fuel as [|fuel IH]; intros st Hinv Hf; simpl.
  { if_false. right. by exists st. }
  case_if; [|right; by exists st].
  destruct (Hstep st Hinv) as [->|(st' & -> & Hinv' & Hlt)]; [lia|by left|]. mstep.
  apply IH; [done|lia].
Qed.

Lemma lz_finish token src n empty cap st :
  (forall tok src dst rest dst', token tok src dst = Ok (rest, dst') -> (length rest <= length src)%nat) ->
  (forall lits more p, 1 <= zlen lits <= 128 -> zlen p + zlen lits <= zlen src ->
     token (zlen lits - 1) (lits ++ more) p = Ok (more, p ++ lits)) ->
  bytes src -> lz_inv token src n empty st ->
  let res := out ← lz_flush_lits (length src) src (lz_lit_start st) (zlen src) (lz_out st) cap;
             if zlen out <? zlen src then Ok out else Fail tt in
  res = Fail tt \/ exists out, res = Ok out /\ bytes out /\ zlen out < zlen src /\
    lz_decode_loop token (zlen src) (length out) out [] = Ok src.
Proof.
  intros Hsh Hlit Hb (Hl & Hi & Ho & He & _). simpl.
  destruct (flush_emits token (zlen src) Hsh Hlit (length src) src (lz_lit_start st) (zlen src) (lz_out st) cap)
    as [->|(out & -> & Hbo & Hemit)]; [done|done|done|lia|lia|lia|lia|by left|].
  mstep. case_if; [|by left]. right. exists out. split; [done|]. split; [done|]. split; [done|].
  specialize (Hemit []). rewrite !app_nil_r in Hemit. rewrite Hemit. simpl.
  rewrite Nat2Z.id, firstn_all. by rewrite Z.eqb_refl.
Qed.

(** *** Token formats *)

Lemma copy_literals_shrinks n src dst orig rest dst' :
  copy_literals n src dst orig = Ok (rest, dst') -> (length rest <= length src)%nat.
Proof.
  unfold copy_literals. case_if; [done|]. case_if; [done|].
  intros (l & _ & (d & _ & [= <- _])%bind_Ok)%bind_Ok. rewrite length_drop. lia.
Qed.

Lemma copy_backref_shrinks n src dst orig rest dst' :
  copy_backref n src dst orig = Ok (rest, dst') -> (length rest <= length src)%nat.
Proof.
  unfold copy_backref. destruct src; [done|]. case_if; [done|]. case_if; [done|].
  intros (d & _ & [= <- _])%bind_Ok. simpl. lia.
Qed.

Lemma lz77_token_shrinks orig tok src dst rest dst' :
  lz77_token orig tok src dst = Ok (rest, dst') -> (length rest <= length src)%nat.
Proof. unfold lz77_token. case_if; [apply copy_backref_shrinks|apply copy_literals_shrinks]. Qed.

Lemma lit_token b : 0 <= b < 128 -> has b 0x80 = false /\ Z.land b 0x7F = b.
Proof.
  intros Hb. split; [rewrite land_80 by (unfold is_byte; lia); lia|].
  change 0x7F with (Z.ones 7). rewrite Z.land_ones by lia. by apply Z.mod_small.
Qed.

Lemma copy_literals_app lits more p orig :
  zlen p + zlen lits <= orig ->
  copy_literals (zlen lits) (lits ++ more) p orig = Ok (more, p ++ lits).
Proof.
  intros Hl. unfold copy_literals. rewrite length_app. if_false. if_false.
  rewrite peek_take by (rewrite length_app; lia). mstep.
  rewrite Nat2Z.id, drop_app_length, take_app_length. by rewrite put_ok by lia.
Qed.

Lemma lz77_token_literals orig lits more p :
  1 <= zlen lits <= 128 -> zlen p + zlen lits <= orig ->
  lz77_token orig (zlen lits - 1) (lits ++ more) p = Ok (more, p ++ lits).
Proof.
  intros Hl Ho. unfold lz77_token. destruct (lit_token (zlen lits - 1)) as [-> ->]; [lia|].
  rewrite Z.sub_add. by apply copy_literals_app.
Qed.

(** A back-reference to position [pos] seen from position [i]. *)
Lemma copy_backref_src src pos i m more :
  0 <= pos < i -> i - pos <= 256 -> 0 <= m -> i + m <= zlen src ->
  (forall k, 0 <= k < m -> exists b, @aget unit _ src (pos + k) = Ok b /\ @aget unit _ src (i + k) = Ok b) ->
  copy_backref m (u8 (i - pos - 1) :: more) (take (Z.to_nat i) src) (zlen src) =
  Ok (more, take (Z.to_nat (i + m)) src).
Proof.
  intros Hp Ho Hm Hl Hk. unfold copy_backref. rewrite u8_small by (unfold is_byte; lia).
  rewrite zlen_take by lia. if_false. if_false.
  pose proof (copy_match_src src pos i (Z.to_nat m) 0) as Hc. rewrite !Z.add_0_r, Z2Nat.id in Hc by lia.
  replace (i - (i - pos - 1 + 1)) with pos by lia. rewrite Hc; [done|lia..|].
  intros k Hkk. apply Hk. lia.
Qed.

Lemma lz77_backref_token m : 3 <= m <= 130 ->
  is_byte (Z.lor 0x80 (u8 (m - 3))) /\
  has (Z.lor 0x80 (u8 (m - 3))) 0x80 = true /\ Z.land (Z.lor 0x80 (u8 (m - 3))) 0x7F + 3 = m.
Proof.
  intros Hm. rewrite u8_small by (unfold is_byte; lia).
  assert (Z.lor 0x80 (m - 3) = 0x80 + (m - 3)) as ->.
  { rewrite Z.lor_comm. change 0x80 with (1 * 2 ^ 7). rewrite lor_disjoint_add; lia. }
  split; [unfold is_byte; lia|].
  split; [rewrite land_80 by (unfold is_byte; lia); lia|].
  change 0x7F with (Z.ones 7). rewrite Z.land_ones by lia.
  change (2 ^ 7) with 128. dlia.
Qed.

(** One step of the within-packet encoder. *)
Lemma lz77_step_inv src cap st :
  bytes src -> lz_inv (lz77_token (zlen src)) src 10 (-1) st -> lz_i st + 3 <= zlen src ->
  lz77_step src cap st = Fail tt \/
  exists st', lz77_step src cap st = Ok st' /\ lz_inv (lz77_token (zlen src)) src 10 (-1) st' /\ lz_i st < lz_i st'.
Proof.
  intros Hb Hinv Hi3. destruct st as [ht out i lit]. destruct Hinv as (Hl & Hi & Ho & He & Hht). simpl in *.
  unfold lz77_step. change LZ77_HT_MASK with (Z.ones 10).
  destruct (fnv_hash3_ok 10 src i) as (h & -> & Hh); [lia..|]. mstep.
  destruct (@ht_ok_aget unit _ _ _ _ h Hht Hh) as (pos & -> & Hpos). mstep.
  destruct (@ht_ok_aset unit _ _ i (i + 1) ht h i Hht) as (ht1 & -> & Hht1); [lia..|]. mstep.
  assert (exists m,
    (if negb (pos =? -1) && (i - pos <=? 256) then
       mlen ← match_length (fun k => aget src (pos + k)) (fun k => aget src (i + k))
                (Z.to_nat (Z.min (zlen src - i) 130)) 0;
       Ok (if 3 <=? mlen then mlen else 0)
     else Ok 0) = Ok m /\
    (m = 0 \/ 3 <= m <= 130 /\ 0 <= pos < i /\ i - pos <= 256 /\ i + m <= zlen src /\
     forall k, 0 <= k < m -> exists b, @aget unit _ src (pos + k) = Ok b /\ @aget unit _ src (i + k) = Ok b))
    as (m & -> & Hm).
  { case_if; [|exists 0; auto].
    destruct (match_length_spec (fun k => aget src (pos + k)) (fun k => aget src (i + k))
                (Z.to_nat (Z.min (zlen src - i) 130)) 0) as (m & -> & Hm & Hk).
    { intros k Hk. destruct (@aget_total unit _ src (pos + k)) as [a Ha]; [lia|].
      destruct (@aget_total unit _ src (i + k)) as [b Hb']; [lia|]. eauto. }
    mstep. eexists. split; [done|]. case_if; [right|by left].
    split; [lia|]. split; [lia|]. split; [lia|]. split; [lia|done]. }
  mstep. case_if; cycle 1.
  { mstep. simpl lz_out. case_if; [by left|]. right. eexists. split; [done|].
    split; [|simpl; lia]. unfold lz_inv. simpl. split; [lia|]. split; [lia|]. done. }
  destruct Hm as [->|(Hm & Hp & Hoff & Him & Hk)]; [lia|].
  destruct (flush_emits (lz77_token (zlen src)) (zlen src) (lz77_token_shrinks _) (lz77_token_literals _)
    (Z.to_nat i) src lit i out cap) as [->|(out1 & -> & Hbo & Hem)]; [done|done|done|lia..|by left|].
  mstep. case_if; [by left|]. case_if; [by left|].
  destruct (ht_insert_skipped_ok 10 (-1) src i m ht1) as (ht2 & -> & Hht2); [lia|lia|lia|lia|done|].
  mstep. rewrite put_ok by (simpl; lia). mstep. simpl lz_out. case_if; [by left|]. right. eexists. split; [done|].
  destruct (lz77_backref_token m Hm) as (Htb & Ht1 & Ht2).
  split; [|simpl; lia]. unfold lz_inv. simpl. split; [lia|]. split; [lia|].
  split; [rewrite bytes_app, !bytes_cons; auto with netc|]. split; [|done].
  apply (emits_token _ _ (lz77_token_shrinks _) _ _ _ [_] _ Hem). intros more.
  unfold lz77_token. rewrite Ht1, Ht2. by apply copy_backref_src; try lia.
Qed.

(** The within-packet encoder: never undefined, and what it emits is shorter
    than the packet and decodes to it. *)
Lemma lz77_encode_spec src cap :
  bytes src ->
  lz77_encode src cap = Fail tt \/
  exists out, lz77_encode src cap = Ok out /\ bytes out /\ zlen out < zlen src /\
    lz77_decode out (zlen src) = Ok src.
Proof.
  intros Hb. unfold lz77_encode.
  destruct (lz_encode_loop_inv (lz77_token (zlen src)) src 10 (-1) (lz77_step src cap) (length src)
    (LzState (replicate (Z.to_nat LZ77_HT_SIZE) (-1)) [] 0 0)) as [->|(st & -> & Hst)].
  - intros st. by apply lz77_step_inv.
  - unfold lz_inv. simpl. split; [lia|]. split; [lia|]. split; [constructor|].
    split; [apply emits_nil|]. by apply (ht_ok_init 1024).
  - simpl. lia.
  - by left.
  - mstep. apply (lz_finish _ src 10 (-1)); [apply lz77_token_shrinks|apply lz77_token_literals|done|done].
Qed.

(** *** The ring as history *)

(** The history buffer has its declared size. *)
Definition ring_ok (ring : list Z) (ring_size : Z) : Prop :=
  0 < ring_size /\ zlen ring = ring_size /\ bytes ring.

Lemma ring_get {E} ring ring_size x :
  ring_ok ring ring_size -> exists b, @aget E _ ring (x mod ring_size) = Ok b /\ is_byte b.
Proof.
  intros (Hs & Hl & Hb). pose proof (Z.mod_pos_bound x ring_size Hs).
  destruct (@aget_total E _ ring (x mod ring_size)) as [b Hg]; [lia|].
  exists b. split; [done|]. by eapply bytes_aget.
Qed.

Lemma build_ring_ht_ok ring ring_size ring_pos prev :
  ring_ok ring ring_size ->
  exists ht, build_ring_ht ring ring_size ring_pos prev = Ok ht /\ zlen ht = LZ77X_HT_SIZE.
Proof.
  intros Hr. unfold build_ring_ht.
  apply (foldM_inv (fun ht => zlen ht = LZ77X_HT_SIZE)); [|by rewrite length_replicate].
  intros ht j Hl _. cbv zeta. set (start := ring_back ring_size ring_pos _).
  destruct (@ring_get unit ring ring_size (u32 (start + j)) Hr) as (b0 & -> & _). mstep.
  destruct (@ring_get unit ring ring_size (u32 (u32 (start + j) mod ring_size + 1)) Hr) as (b1 & -> & _). mstep.
  destruct (@ring_get unit ring ring_size (u32 (u32 (start + j) mod ring_size + 2)) Hr) as (b2 & -> & _). mstep.
  change LZ77X_HT_MASK with (Z.ones 12).
  destruct (fnv_hash3_ok 12 [b0; b1; b2] 0) as (h & -> & Hh); [simpl; lia..|]. mstep.
  rewrite aset_ok by (rewrite Hl; exact Hh). eexists. split; [done|]. by rewrite length_insert.
Qed.

Lemma ring_back_range ring_size a b : 0 < ring_size -> 0 <= ring_back ring_size a b < ring_size.
Proof. intros. by apply Z.mod_pos_bound. Qed.

Lemma copy_ring_ok n ring ring_size rstart k dst orig :
  ring_ok ring ring_size -> bytes dst -> zlen dst + Z.of_nat n <= orig ->
  exists dst', copy_ring n ring ring_size rstart k dst orig = Ok dst' /\ zlen dst' = zlen dst + Z.of_nat n /\ bytes dst'.
Proof.
  intros Hr. revert k dst. induction n as [|n IH]; intros k dst Hb Ho; cbn [copy_ring].
  { exists dst. split; [done|]. split; [lia|done]. }
  destruct (@ring_get netc_result_t ring ring_size (rstart + k) Hr) as (b & -> & Hbb). mstep.
  rewrite put_ok by (simpl; lia). mstep.
  destruct (IH (k + 1) (dst ++ [b])) as (d & He & Hl & Hd);
    [rewrite bytes_app, bytes_cons; auto with netc|rewrite length_app; simpl; lia|].
  exists d. split; [done|]. split; [|done]. rewrite length_app in Hl. simpl in Hl. lia.
Qed.

Lemma copy_ring_src src ring ring_size rstart i n k :
  0 <= i -> 0 <= k -> i + k + Z.of_nat n <= zlen src ->
  (forall q, k <= q < k + Z.of_nat n ->
     exists b, @aget unit _ ring ((rstart + q) mod ring_size) = Ok b /\ @aget unit _ src (i + q) = Ok b) ->
  copy_ring n ring ring_size rstart k (take (Z.to_nat (i + k)) src) (zlen src) = Ok (take (Z.to_nat (i + k + Z.of_nat n)) src).
Proof.
  revert k. induction n as [|n IH]; intros k Hi Hk Hl Hq; cbn [copy_ring].
  { do 2 f_equal. lia. }
  destruct (Hq k) as (b & [H0 H1]%aget_Ok & [_ H2]%aget_Ok); [lia|].
  rewrite (aget_Some _ _ b) by done. mstep. rewrite put_ok by (rewrite zlen_take by lia; simpl; lia). mstep.
  rewrite take_snoc_Z by (done || lia).
  replace (i + k + 1) with (i + (k + 1)) by lia. rewrite IH; [do 2 f_equal; lia|lia..|].
  intros q Hqq. apply Hq. lia.
Qed.

Lemma land_40 b : is_byte b -> has b 0x40 = (64 <=? b mod 128).
Proof.
  intros Hb. pose proof (byte_forall (fun b => Bool.eqb (has b 0x40) (64 <=? b mod 128))) as H.
  specialize (H ltac:(vm_compute; reflexivity) b Hb). by apply eqb_prop in H.
Qed.

Definition ring_opt_ok (ring : option (list Z)) (ring_size : Z) : Prop :=
  match ring with Some r => ring_size = 0 \/ ring_ok r ring_size | None => True end.

(** Arbitrary cross-packet streams. *)
Lemma lz77x_token_ok ring ring_size ring_pos orig :
  ring_opt_ok ring ring_size -> token_ok orig (lz77x_token ring ring_size ring_pos orig).
Proof.
  intros Hr tok src dst _ Hs Hd. unfold lz77x_token.
  pose proof (land_mask_range tok 7 ltac:(lia)) as Hm7. change (Z.ones 7) with 127 in Hm7.
  pose proof (land_mask_range tok 6 ltac:(lia)) as Hm6. change (Z.ones 6) with 63 in Hm6.
  case_if; [apply copy_literals_ok; done || lia|]. case_if; [apply copy_backref_ok; done || lia|].
  destruct src as [|lo [|hi src]]; [by left..|]. destruct ring as [r|]; [|by left].
  case_if; [by left|]. case_if; [by left|]. case_if; [by left|]. destruct Hr as [?|Hr]; [done|].
  destruct (copy_ring_ok (Z.to_nat (Z.land tok 63 + 3)) r ring_size
    (ring_back ring_size ring_pos (Z.lor lo (Z.shiftl hi 8) + 1)) 0 dst orig Hr Hd) as (d & -> & Hl & Hb); [lia|]. mstep.
  right. eexists _, _. split; [done|]. simpl. split; [lia|].
  apply bytes_cons in Hs as [_ [_ Hs]%bytes_cons]. split; [done|]. split; [done|lia].
Qed.

Lemma lz77x_token_shrinks ring ring_size ring_pos orig tok src dst rest dst' :
  lz77x_token ring ring_size ring_pos orig tok src dst = Ok (rest, dst') -> (length rest <= length src)%nat.
Proof.
  unfold lz77x_token. case_if; [apply copy_literals_shrinks|]. case_if; [apply copy_backref_shrinks|].
  destruct src as [|lo [|hi src]]; [done..|]. destruct ring; [|done].
  case_if; [done|]. case_if; [done|]. case_if; [done|]. intros (d & _ & [= <- _])%bind_Ok. simpl. lia.
Qed.

Lemma lz77x_token_literals ring ring_size ring_pos orig lits more p :
  1 <= zlen lits <= 128 -> zlen p + zlen lits <= orig ->
  lz77x_token ring ring_size ring_pos orig (zlen lits - 1) (lits ++ more) p = Ok (more, p ++ lits).
Proof.
  intros Hl Ho. unfold lz77x_token. destruct (lit_token (zlen lits - 1)) as [-> ->]; [lia|].
  simpl negb. cbv iota. rewrite Z.sub_add. by apply copy_literals_app.
Qed.

(** The two back-reference tokens: top bits 10 (short) and 11 (long). *)
Lemma lz77x_backref_token m : 3 <= m <= 66 ->
  let s := Z.lor 0x80 (u8 (m - 3)) in let l := Z.lor 0xC0 (u8 (m - 3)) in
  (is_byte s /\ has s 0x80 = true /\ has s 0x40 = false /\ Z.land s 0x3F + 3 = m) /\
  (is_byte l /\ has l 0x80 = true /\ has l 0x40 = true /\ Z.land l 0x3F + 3 = m).
Proof.
  intros Hm. cbv zeta. rewrite u8_small by (unfold is_byte; lia).
  assert (Z.lor 0x80 (m - 3) = 0x80 + (m - 3)) as ->.
  { rewrite Z.lor_comm. change 0x80 with (2 * 2 ^ 6). rewrite lor_disjoint_add; lia. }
  assert (Z.lor 0xC0 (m - 3) = 0xC0 + (m - 3)) as ->.
  { rewrite Z.lor_comm. change 0xC0 with (3 * 2 ^ 6). rewrite lor_disjoint_add; lia. }
  change 0x3F with (Z.ones 6). rewrite !Z.land_ones by lia. change (2 ^ 6) with 64.
  rewrite !land_80, !land_40 by (unfold is_byte; lia). unfold is_byte.
  repeat split; dlia.
Qed.

(** *** The cross-packet encoder *)

(** A match of length [m] at [i] with the bytes [ref]. *)
Definition matches (src : list Z) (ref : Z -> outcome unit Z) (i m : Z) : Prop :=
  3 <= m <= 66 /\ i + m <= zlen src /\
  forall k, 0 <= k < m -> exists b, ref k = Ok b /\ @aget unit _ src (i + k) = Ok b.

Lemma lz77x_src_match_ok src i e :
  0 <= i < 2 ^ 31 -> i <= zlen src -> e = INT32_MIN \/ 0 <= e < i ->
  exists m off, lz77x_src_match src i e = Ok (m, off) /\
    (m = 0 \/ 0 <= e /\ off = i - e /\ 1 <= off <= 256 /\ matches src (fun k => aget src (e + k)) i m).
Proof.
  intros Hi Hsz He. unfold lz77x_src_match. case_if; [|by eexists 0, _; auto].
  destruct He as [->|He]; [done|]. rewrite (u64_small e), u64_small by lia.
  case_if; [|by eexists 0, _; auto].
  destruct (match_length_spec (fun k => aget src (e + k)) (fun k => aget src (i + k))
              (Z.to_nat (Z.min (zlen src - i) 66)) 0) as (m & -> & Hm & Hk).
  { intros k Hk. destruct (@aget_total unit _ src (e + k)) as [a Ha]; [lia|].
    destruct (@aget_total unit _ src (i + k)) as [b Hb]; [lia|]. eauto. }
  mstep. case_if; [|by eexists 0, _; auto]. eexists m, _. split; [done|]. right.
  split; [lia|]. split; [done|]. split; [lia|]. split; [lia|]. split; [lia|done].
Qed.

Lemma lz77x_ring_match_ok src ring ring_size ring_pos i e best :
  ring_ok ring ring_size -> 0 <= i <= zlen src ->
  lz77x_ring_match src ring ring_size ring_pos i e best = Ok None \/
  exists m off, lz77x_ring_match src ring ring_size ring_pos i e best = Ok (Some (m, off)) /\
    1 <= off <= 65536 /\ off <= ring_size /\
    matches src (fun k => aget ring ((ring_back ring_size ring_pos off + k) mod ring_size)) i m.
Proof.
  intros Hr Hi. unfold lz77x_ring_match. case_if; [|by left]. case_if; [|by left].
  pose proof (ring_back_range ring_size ring_pos (u32 e) (proj1 Hr)).
  set (off := ring_back ring_size ring_pos (u32 e)) in *.
  destruct (match_length_spec (fun k => aget ring ((ring_back ring_size ring_pos off + k) mod ring_size))
              (fun k => aget src (i + k)) (Z.to_nat (Z.min (zlen src - i) 66)) 0) as (m & -> & Hm & Hk).
  { intros k Hk. destruct (@ring_get unit ring ring_size (ring_back ring_size ring_pos off + k) Hr) as (a & Ha & _).
    destruct (@aget_total unit _ src (i + k)) as [b Hb]; [lia|]. eauto. }
  mstep. case_if; [|by left]. right. eexists m, off. split; [done|].
  unfold LZ77X_MAX_LONG_OFFSET in *. split; [lia|]. split; [lia|]. split; [lia|]. split; [lia|done].
Qed.

(** The tokens decode to the matched bytes. *)
Lemma lz77x_short_token ring ring_size ring_pos src e i m more :
  0 <= e -> 1 <= i - e <= 256 -> matches src (fun k => aget src (e + k)) i m ->
  lz77x_token ring ring_size ring_pos (zlen src) (Z.lor 0x80 (u8 (m - 3))) (u8 (i - e - 1) :: more)
    (take (Z.to_nat i) src) = Ok (more, take (Z.to_nat (i + m)) src).
Proof.
  intros He Ho (Hm & Hl & Hk). destruct (lz77x_backref_token m Hm) as [(_ & H1 & H2 & H3) _].
  unfold lz77x_token. rewrite H1, H2, H3. simpl negb. cbv iota. by apply copy_backref_src; try lia.
Qed.

Lemma lz77x_long_token ring ring_size ring_pos src off i m more :
  ring_ok ring ring_size -> 0 <= i -> 1 <= off <= 65536 -> off <= ring_size ->
  matches src (fun k => aget ring ((ring_back ring_size ring_pos off + k) mod ring_size)) i m ->
  lz77x_token (Some ring) ring_size ring_pos (zlen src) (Z.lor 0xC0 (u8 (m - 3)))
    (Z.land (u16 (off - 1)) 0xFF :: Z.shiftr (u16 (off - 1)) 8 :: more)
    (take (Z.to_nat i) src) = Ok (more, take (Z.to_nat (i + m)) src).
Proof.
  intros Hr Hi Ho Hos (Hm & Hl & Hk). destruct (lz77x_backref_token m Hm) as [_ (_ & H1 & H2 & H3)].
  unfold lz77x_token. rewrite H1, H2, H3. simpl negb. cbv iota.
  rewrite u16_small by lia. rewrite u16_join by lia. rewrite Z.sub_add, zlen_take by lia.
  destruct Hr as [Hrs Hr]. if_false. if_false. if_false.
  pose proof (copy_ring_src src ring ring_size (ring_back ring_size ring_pos off) i (Z.to_nat m) 0) as Hc.
  rewrite !Z.add_0_r, Z2Nat.id in Hc by lia. rewrite Hc; [done|lia..|]. intros q Hq. apply Hk. lia.
Qed.

Lemma lz77x_step_inv src ring ring_size ring_pos ring_ht cap st :
  let tok := lz77x_token (Some ring) ring_size ring_pos (zlen src) in
  bytes src -> zlen src < 2 ^ 31 -> ring_ok ring ring_size -> zlen ring_ht = LZ77X_HT_SIZE ->
  lz_inv tok src 12 INT32_MIN st -> lz_i st + 3 <= zlen src ->
  lz77x_step src ring ring_size ring_pos ring_ht cap st = Fail tt \/
  exists st', lz77x_step src ring ring_size ring_pos ring_ht cap st = Ok st' /\
    lz_inv tok src 12 INT32_MIN st' /\ lz_i st < lz_i st'.
Proof.
  intros tok Hb Hsz Hr Hrh Hinv Hi3. destruct st as [ht out i lit].
  destruct Hinv as (Hl & Hi & Ho & He & Hht). simpl in *.
  unfold lz77x_step. change LZ77X_HT_MASK with (Z.ones 12).
  destruct (fnv_hash3_ok 12 src i) as (h & -> & Hh); [lia..|]. mstep.
  destruct (@aget_total unit _ ring_ht h) as [re ->]; [rewrite Hrh; exact Hh|]. mstep.
  destruct (@ht_ok_aget unit _ _ _ _ h Hht Hh) as (se & -> & Hse). mstep.
  replace (i32 i) with i by (unfold i32; rewrite Z.mod_small; lia).
  destruct (@ht_ok_aset unit _ _ i (i + 1) ht h i Hht) as (ht1 & -> & Hht1); [lia..|]. mstep.
  destruct (lz77x_src_match_ok src i se) as (sm & so & -> & Hsm); [lia|lia|done|]. mstep.
  set (long := lz77x_ring_match _ _ _ _ _ _ _).
  assert (exists lo, long = Ok lo /\
    match lo with Some (m, off) => 1 <= off <= 65536 /\ off <= ring_size /\
      matches src (fun k => aget ring ((ring_back ring_size ring_pos off + k) mod ring_size)) i m
    | None => True end) as (lo & -> & Hlo).
  { destruct (lz77x_ring_match_ok src ring ring_size ring_pos i re sm Hr) as [H|(m & off & H & Hx)]; [lia|..];
      fold long in H; rewrite H; [by exists None|by exists (Some (m, off))]. }
  mstep.
  set (best := match lo with Some (l, _) => l | None => sm end).
  case_if; cycle 1.
  { mstep. simpl lz_out. case_if; [by left|]. right. eexists. split; [done|].
    split; [|simpl; lia]. unfold lz_inv. simpl. split; [lia|]. split; [lia|]. done. }
  destruct (flush_emits tok (zlen src) (lz77x_token_shrinks _ _ _ _) (lz77x_token_literals _ _ _ _)
    (Z.to_nat i) src lit i out cap) as [->|(out1 & -> & Hbo & Hem)]; [done|done|done|lia..|by left|].
  mstep. case_if; [by left|].
  set (emit := match lo with Some _ => _ | None => _ end).
  assert (emit = Fail tt \/ exists t ts, emit = Ok (out1 ++ t :: ts) /\ bytes (t :: ts) /\
    (forall more, tok t (ts ++ more) (take (Z.to_nat i) src) = Ok (more, take (Z.to_nat (i + best)) src)) /\
    i + best <= zlen src) as [->|(t & ts & -> & Hbt & Htok & Hlen)]; [|by left|].
  { unfold emit, best. destruct lo as [[m off]|].
    - destruct Hlo as (Hoff & Hors & Hmt). destruct (lz77x_backref_token m (proj1 Hmt)) as [_ (Htb & _)].
      case_if; [by left|]. right. rewrite put_ok by (simpl; lia). eexists _, _. split; [done|].
      split. { rewrite !bytes_cons. split; [done|]. rewrite u16_small by lia.
        split; [apply (land_mask_range _ 8); lia|]. split; [|constructor].
        unfold is_byte. rewrite Z.shiftr_div_pow2 by lia. dlia. }
      split; [|apply Hmt]. intros more. by apply lz77x_long_token; try lia.
    - unfold best in *. destruct Hsm as [->|(He0 & -> & Hso & Hmt)]; [lia|].
      destruct (lz77x_backref_token sm (proj1 Hmt)) as [(Htb & _) _].
      case_if; [by left|]. right. rewrite put_ok by (simpl; lia). eexists _, _. split; [done|].
      split; [rewrite !bytes_cons; auto with netc|].
      split; [|apply Hmt]. intros more. by apply lz77x_short_token; try lia. }
  mstep. destruct (ht_insert_skipped_ok 12 INT32_MIN src i best ht1) as (ht2 & -> & Hht2); [lia|lia|lia|lia|done|].
  mstep. simpl lz_out. case_if; [by left|]. right. eexists. split; [done|].
  split; [|simpl; lia]. unfold lz_inv. simpl. split; [lia|]. split; [lia|].
  split; [by apply bytes_app|]. split; [|done].
  by apply (emits_token _ _ (lz77x_token_shrinks _ _ _ _) _ _ _ _ _ Hem).
Qed.

(** The cross-packet encoder with a history: what it emits decodes to the
    packet when the decoder holds the same ring. *)
Lemma lz77x_encode_spec src ring ring_size ring_pos prev cap :
  bytes src -> zlen src < 2 ^ 31 -> ring_ok ring ring_size ->
  lz77x_encode src (Some ring) ring_size ring_pos prev cap = Fail tt \/
  exists out, lz77x_encode src (Some ring) ring_size ring_pos prev cap = Ok out /\ bytes out /\
    zlen out < zlen src /\ lz77x_decode out (zlen src) (Some ring) ring_size ring_pos = Ok src.
Proof.
  intros Hb Hsz Hr. unfold lz77x_encode. pose proof (proj1 Hr).
  destruct (Z.eqb_spec ring_size 0); [lia|].
  destruct (build_ring_ht_ok ring ring_size ring_pos prev Hr) as (rht & -> & Hrh). mstep.
  destruct (lz_encode_loop_inv (lz77x_token (Some ring) ring_size ring_pos (zlen src)) src 12 INT32_MIN
    (lz77x_step src ring ring_size ring_pos rht cap) (length src)
    (LzState (replicate (Z.to_nat LZ77X_HT_SIZE) INT32_MIN) [] 0 0)) as [->|(st & -> & Hst)].
  - intros st. by apply lz77x_step_inv.
  - unfold lz_inv. simpl. split; [lia|]. split; [lia|]. split; [constructor|].
    split; [apply emits_nil|]. by apply (ht_ok_init 4096).
  - simpl. lia.
  - by left.
  - mstep. apply (lz_finish _ src 12 INT32_MIN);
      [apply lz77x_token_shrinks|apply lz77x_token_literals|done|done].
Qed.

(** ** LZ77 output fits the buffer *)
Lemma flush_lits_fits fuel src ls le out cap out' :
  lz_flush_lits fuel src ls le out cap = Ok out' -> 0 <= ls -> le <= zlen src -> zlen out <= cap -> zlen out' <= cap.
Proof.
  revert ls out. induction fuel as [|fuel IH]; intros ls out H Hls Hle Ho; simpl in H.
  - by case_if_in H; [|injection H as <-].
  - case_if_in H; [|by injection H as <-].
    case_if_in H; [done|]. apply bind_Ok in H as (lits & _ & H).
    apply bind_Ok in H as (o & [-> Hp]%put_Ok & H). apply IH in H; [done|lia|done|]. rewrite length_app. lia.
Qed.

(** The part of the encoder state the output bound depends on. *)
Definition lz_fits (src : list Z) (cap : Z) (st : lz_state) : Prop :=
  zlen (lz_out st) <= cap /\ 0 <= lz_lit_start st <= lz_i st /\ lz_i st <= zlen src.

Lemma lz_loop_fits src cap step fuel st st' :
  (forall st st', lz_fits src cap st -> lz_i st + 3 <= zlen src -> step st = Ok st' -> lz_fits src cap st') ->
  lz_encode_loop step (zlen src) fuel st = Ok st' -> lz_fits src cap st -> lz_fits src cap st'.
Proof.
  intros Hstep. revert st. induction fuel as [|fuel IH]; intros st H Hst; simpl in H.
  - by case_if_in H; [|injection H as <-].
  - case_if_in H; [|by injection H as <-]. apply bind_Ok in H as (st1 & H1 & H). eapply IH; [exact H|]. by eapply Hstep.
Qed.

Lemma match_length_le ref cur n m m' : match_length ref cur n m = Ok m' -> m <= m' <= m + Z.of_nat n.
Proof.
  revert m. induction n as [|n IH]; intros m H; simpl in H; [injection H as <-; lia|].
  apply bind_Ok in H as (a & _ & H). apply bind_Ok in H as (b & _ & H). case_if_in H; [|injection H as <-; lia].
  apply IH in H. lia.
Qed.

Lemma lz77_step_fits src cap st st' :
  lz_fits src cap st -> lz_i st + 3 <= zlen src -> lz77_step src cap st = Ok st' -> lz_fits src cap st'.
Proof.
  destruct st as [ht out i ls]. intros (Ho & Hls & Hi) H3 H. simpl in *. unfold lz77_step in H.
  apply bind_Ok in H as (h & _ & H). apply bind_Ok in H as (pos & _ & H). apply bind_Ok in H as (ht1 & _ & H).
  apply bind_Ok in H as (len & Hlen & H). apply bind_Ok in H as (st1 & H1 & H). case_if_in H; [done|].
  injection H as <-. case_if_in H1; [|injection H1 as <-; unfold lz_fits; simpl; lia].
  assert (i + len <= zlen src).
  { case_if_in Hlen; [|injection Hlen as <-; lia]. apply bind_Ok in Hlen as (m & Hm & [= <-]).
    apply match_length_le in Hm. case_if; lia. }
  apply bind_Ok in H1 as (o & Hfl & H1). apply flush_lits_fits in Hfl; [|lia|lia|done].
  case_if_in H1; [done|]. case_if_in H1; [done|]. apply bind_Ok in H1 as (ht2 & _ & H1).
  apply bind_Ok in H1 as (o2 & [-> Hp]%put_Ok & [= <-]). unfold lz_fits; simpl. rewrite length_app. simpl in *. lia.
Qed.

Lemma lz77_encode_fits src cap out : 0 <= cap -> lz77_encode src cap = Ok out -> zlen out <= cap.
Proof.
  intros Hc H. unfold lz77_encode in H. apply bind_Ok in H as (st & Hst & H). apply bind_Ok in H as (o & Ho & H).
  case_if_in H; [|done]. injection H as <-.
  assert (lz_fits src cap st) as (Hf & Hl & Hi).
  { eapply lz_loop_fits; [|exact Hst|]; [intros; by eapply lz77_step_fits|]. unfold lz_fits; simpl. lia. }
  by eapply flush_lits_fits; [exact Ho|lia|lia|].
Qed.

Lemma lz77x_step_fits src ring rs rp rht cap st st' :
  lz_fits src cap st -> lz_i st + 3 <= zlen src -> lz77x_step src ring rs rp rht cap st = Ok st' -> lz_fits src cap st'.
Proof.
  destruct st as [ht out i ls]. intros (Ho & Hls & Hi) H3 H. simpl in *. unfold lz77x_step in H.
  apply bind_Ok in H as (h & _ & H). apply bind_Ok in H as (re & _ & H). apply bind_Ok in H as (se & _ & H).
  apply bind_Ok in H as (ht1 & _ & H). apply bind_Ok in H as ([sl so] & Hsm & H).
  apply bind_Ok in H as (long & Hlg & H). apply bind_Ok in H as (st1 & H1 & H). case_if_in H; [done|].
  injection H as <-. case_if_in H1; [|injection H1 as <-; unfold lz_fits; simpl; lia].
  assert (i + match long with Some (l, _) => l | None => sl end <= zlen src).
  { destruct long as [[l o]|].
    - unfold lz77x_ring_match in Hlg. case_if_in Hlg; [|done]. destruct (_ && _) in Hlg; [|done].
      apply bind_Ok in Hlg as (m & Hm & [= Hlg]). apply match_length_le in Hm.
      destruct (_ && _) in Hlg; [|done]. injection Hlg as <- <-. lia.
    - unfold lz77x_src_match in Hsm. case_if_in Hsm; [|injection Hsm as <- <-; lia].
      destruct (_ && _) in Hsm; [|injection Hsm as <- <-; lia]. apply bind_Ok in Hsm as (m & Hm & [= Hsm]).
      apply match_length_le in Hm. case_if_in Hsm; injection Hsm as <- <-; lia. }
  apply bind_Ok in H1 as (o & Hfl & H1). apply flush_lits_fits in Hfl; [|lia|lia|done].
  case_if_in H1; [done|]. apply bind_Ok in H1 as (o2 & Ho2 & H1). apply bind_Ok in H1 as (ht2 & _ & [= <-]).
  assert (zlen o2 <= cap).
  { destruct long as [[l off]|]; case_if_in Ho2; [done| |done|]; apply put_Ok in Ho2 as [-> Hp];
      rewrite length_app; lia. }
  unfold lz_fits; simpl. lia.
Qed.

Lemma lz77x_encode_fits src ring rs rp ps cap out :
  0 <= cap -> lz77x_encode src ring rs rp ps cap = Ok out -> zlen out <= cap.
Proof.
  intros Hc H. unfold lz77x_encode in H. destruct ring as [r|]; [|by eapply lz77_encode_fits].
  case_if_in H; [by eapply lz77_encode_fits|]. apply bind_Ok in H as (rht & _ & H).
  apply bind_Ok in H as (st & Hst & H). apply bind_Ok in H as (o & Ho & H). case_if_in H; [|done]. injection H as <-.
  assert (lz_fits src cap st) as (Hf & Hl & Hi).
  { eapply lz_loop_fits; [|exact Hst|]; [intros; by eapply lz77x_step_fits|]. unfold lz_fits; simpl. lia. }
  by eapply flush_lits_fits; [exact Ho|lia|lia|].
Qed.

(** ** Properties *)

(** Run-length coding: [rle_encode] reports that the buffer is too small, or
    its output expands back to the packet. *)
Theorem rle_roundtrip (src : list Z) (cap : Z) :
  bytes src ->
  rle_encode src cap = Fail tt \/
  exists out, rle_encode src cap = Ok out /\ bytes out /\ rle_decode out (zlen src) = Ok src.
Proof.
  intros Hb. pose proof (rle_encode_defined (length src) src [] cap ltac:(lia)) as Hd.
  unfold rle_encode in *. destruct (rle_encode_loop _ _ _ _) as [out|[]|] eqn:E; [right|by left|done].
  destruct (rle_loop_inv (length src) src [] cap out [] [] (zlen src) Hb ltac:(lia) E) as (new & -> & Hnb & Hdec);
    [simpl; lia|]. exists new. split; [done|]. split; [done|]. unfold rle_decode.
  rewrite app_nil_r in Hdec. rewrite Hdec. simpl. by rewrite Z.eqb_refl.
Qed.

Lemma rle_roundtrip_witness :
  rle_encode [7; 7; 7; 9] 64 = Ok [3; 7; 1; 9] /\
  (rle_encode [7; 7; 7; 9] 64 = Fail tt \/
   exists out, rle_encode [7; 7; 7; 9] 64 = Ok out /\ bytes out /\ rle_decode out 4 = Ok [7; 7; 7; 9]).
Proof.
  split; [reflexivity|]. apply (rle_roundtrip [7; 7; 7; 9] 64). repeat constructor; unfold is_byte; lia.
Defined.

(** C24: within-packet LZ77: [lz77_encode] reports that there is no gain or no
    room, or its output is shorter than the packet, fits the buffer, and
    [lz77_decode] returns the packet. *)
Theorem lz77_roundtrip (src : list Z) (cap : Z) :
  bytes src -> 0 <= cap ->
  lz77_encode src cap = Fail tt \/
  exists out, lz77_encode src cap = Ok out /\ bytes out /\ zlen out < zlen src /\ zlen out <= cap /\
    lz77_decode out (zlen src) = Ok src.
Proof.
  intros Hb Hc. destruct (lz77_encode_spec src cap Hb) as [H|(out & H & Ho & Hl & Hd)]; [by left|right].
  exists out. split_and!; [done|done|done|by eapply lz77_encode_fits|done].
Qed.

Lemma lz77_roundtrip_witness :
  lz77_encode [7; 7; 7; 7; 7; 7; 7; 7] 64 = Ok [0; 7; 132; 0] /\
  (lz77_encode [7; 7; 7; 7; 7; 7; 7; 7] 64 = Fail tt \/
   exists out, lz77_encode [7; 7; 7; 7; 7; 7; 7; 7] 64 = Ok out /\ bytes out /\ zlen out < 8 /\ zlen out <= 64 /\
     lz77_decode out 8 = Ok [7; 7; 7; 7; 7; 7; 7; 7]).
Proof.
  split; [reflexivity|]. apply (lz77_roundtrip [7; 7; 7; 7; 7; 7; 7; 7] 64); [|lia].
  repeat constructor; unfold is_byte; lia.
Defined.

(** C25: cross-packet LZ77 with the history ring: the same contract, for an
    encoder and a decoder that hold the same ring. *)
Theorem lz77x_roundtrip (src ring : list Z) (ring_size ring_pos prev_pkt_size cap : Z) :
  bytes src -> zlen src < 2 ^ 31 -> ring_ok ring ring_size -> 0 <= cap ->
  lz77x_encode src (Some ring) ring_size ring_pos prev_pkt_size cap = Fail tt \/
  exists out, lz77x_encode src (Some ring) ring_size ring_pos prev_pkt_size cap = Ok out /\ bytes out /\
    zlen out < zlen src /\ zlen out <= cap /\
    lz77x_decode out (zlen src) (Some ring) ring_size ring_pos = Ok src.
Proof.
  intros Hb Hs Hr Hc.
  destruct (lz77x_encode_spec src ring ring_size ring_pos prev_pkt_size cap Hb Hs Hr) as [H|(out & H & Ho & Hl & Hd)];
    [by left|right]. exists out. split_and!; [done|done|done|by eapply lz77x_encode_fits|done].
Qed.

(** A packet found in the ring, then in itself. *)
Lemma lz77x_roundtrip_witness :
  let src := [1; 2; 3; 4; 5; 6; 1; 2; 3; 4] in
  let ring := [1; 2; 3; 4; 5; 6; 0; 0] in
  lz77x_encode src (Some ring) 8 6 6 64 = Ok [195; 5; 0; 129; 5] /\
  (lz77x_encode src (Some ring) 8 6 6 64 = Fail tt \/
   exists out, lz77x_encode src (Some ring) 8 6 6 64 = Ok out /\ bytes out /\
     zlen out < zlen src /\ zlen out <= 64 /\ lz77x_decode out (zlen src) (Some ring) 8 6 = Ok src).
Proof.
  intros src ring. split; [reflexivity|]. apply (lz77x_roundtrip src ring 8 6 6 64).
  - repeat constructor; unfold is_byte; lia.
  - simpl. lia.
  - split; [lia|]. split; [reflexivity|]. repeat constructor; unfold is_byte; lia.
  - lia.
Defined.

(** The LZ77 decoders on arbitrary input: never undefined; they report
    corruption or return exactly the announced number of bytes. *)
Theorem lz_decoders_safe (lz_src : list Z) (orig_size : Z) (ring : option (list Z)) (ring_size ring_pos : Z) :
  bytes lz_src -> ring_opt_ok ring ring_size ->
  (lz77_decode lz_src orig_size = Fail NETC_ERR_CORRUPT \/
   exists out, lz77_decode lz_src orig_size = Ok out /\ zlen out = orig_size /\ bytes out) /\
  (lz77x_decode lz_src orig_size ring ring_size ring_pos = Fail NETC_ERR_CORRUPT \/
   exists out, lz77x_decode lz_src orig_size ring ring_size ring_pos = Ok out /\ zlen out = orig_size /\ bytes out).
Proof.
  intros Hb Hr. split.
  - apply lz_decode_loop_safe; [apply lz77_token_ok|lia|done|constructor].
  - apply lz_decode_loop_safe; [by apply lz77x_token_ok|lia|done|constructor].
Qed.

Lemma lz_decoders_safe_witness :
  lz77_decode [0xFF; 0xFF] 10 = Fail NETC_ERR_CORRUPT \/
  exists out, lz77_decode [0xFF; 0xFF] 10 = Ok out /\ zlen out = 10 /\ bytes out.
Proof.
  refine (proj1 (lz_decoders_safe [0xFF; 0xFF] 10 None 0 0 _ _)).
  - repeat constructor; unfold is_byte; lia.
  - exact I.
Defined.
