(* ===== verification/Freq.v ===== *)
(** * Frequency normalisation
      (src/src/core/netc_dict.c: freq_normalize; src/src/algo/netc_adaptive.c:
      freq_normalize_adaptive; src/src/algo/netc_tans.c: netc_freq_rescale_12_to_10)

    Raw symbol counts become the 4096-sum tables the coder is built from; the
    10-bit coder rescales such a table to sum 1024. *)

From stdpp Require Import prelude.
From Stdlib Require Import ZArith Lia.
From S2P Require Import Prelude TansTable.

Local Open Scope Z_scope.

Definition NETC_TANS_TABLE_SIZE : Z := 4096.
Definition NETC_TANS_TABLE_SIZE_10 : Z := 1024.

(** ** Normalisation to 4096 *)

(** Loop state: output, running sum, largest symbol and its frequency. *)
Record norm_state := NormState {
  n_out : list Z; n_table_sum : Z; n_max_sym : Z; n_max_val : Z }.

(** Phase 2, one symbol: its share of the 3840 slots above the floor. *)
Definition norm_step (raw : list Z) (total : Z) (st : norm_state) (s : Z) : outcome unit norm_state :=
  let '(NormState out table_sum max_sym max_val) := st in
  let budget := NETC_TANS_TABLE_SIZE - NETC_TANS_SYMBOLS in
  r ← aget raw s;
  if r =? 0 then Ok st else
  let bonus := u64 (r * budget) / total in
  let bonus := if 0xFFFE <? bonus then 0xFFFE else bonus in
  let v := u16 (1 + bonus) in
  out' ← aset out s v;
  let table_sum' := u32 (table_sum + bonus) in
  Ok (if max_val <? v then NormState out' table_sum' s v
      else NormState out' table_sum' max_sym max_val).

(** [for (s = 0; s < 256 && excess > 0; s++) if (out[s] > 1) { out[s]--; excess--; }] *)
Fixpoint trim_excess (out : list Z) (excess : Z) : list Z :=
  match out with
  | [] => []
  | v :: out' =>
      if 0 <? excess then
        if 1 <? v then (v - 1) :: trim_excess out' (excess - 1) else v :: trim_excess out' excess
      else v :: out'
  end.

(** Rounding drift goes to the largest symbol. *)
Definition norm_finish (st : norm_state) : outcome unit (list Z) :=
  let '(NormState out table_sum max_sym _) := st in
  m ← aget out max_sym;
  if table_sum <? NETC_TANS_TABLE_SIZE then
    aset out max_sym (u16 (m + (NETC_TANS_TABLE_SIZE - table_sum)))
  else if NETC_TANS_TABLE_SIZE <? table_sum then
    let excess := table_sum - NETC_TANS_TABLE_SIZE in
    if u16 excess + 1 <? m then aset out max_sym (u16 (m - u16 excess))
    else Ok (trim_excess out excess)
  else Ok out.

Definition freq_normalize (raw : list Z) (total : Z) : outcome unit (list Z) :=
  if total =? 0 then
    Ok (replicate (Z.to_nat NETC_TANS_SYMBOLS) (u16 (NETC_TANS_TABLE_SIZE / NETC_TANS_SYMBOLS)))
  else
    let floor := replicate (Z.to_nat NETC_TANS_SYMBOLS) 1 in
    st ← foldM (norm_step raw total) (NormState floor NETC_TANS_SYMBOLS 0 1) (seqZ 0 NETC_TANS_SYMBOLS);
    norm_finish st.

(** netc_adaptive.c repeats the same function statement by statement. *)
Definition freq_normalize_adaptive (blended : list Z) (total : Z) : outcome unit (list Z) :=
  freq_normalize blended total.

(** ** Rescaling to 1024 *)

(** Loop state of pass 1: scaled frequencies so far, their sum, largest symbol
    ([-1]: none yet) and its 12-bit frequency. *)
Record rescale_state := RescaleState {
  rs_freq : list Z; rs_total : Z; rs_sym : Z; rs_largest : Z }.

Definition rescale_step (st : rescale_state) (f12 : Z) : rescale_state :=
  let '(RescaleState freq total largest_sym largest_freq12) := st in
  let s := zlen freq in
  if f12 =? 0 then RescaleState (freq ++ [0]) total largest_sym largest_freq12 else
  let scaled := u32 ((f12 * NETC_TANS_TABLE_SIZE_10 + NETC_TANS_TABLE_SIZE / 2) / NETC_TANS_TABLE_SIZE) in
  let scaled := if scaled =? 0 then 1 else scaled in
  let freq' := freq ++ [u16 scaled] in
  let total' := u32 (total + scaled) in
  if largest_freq12 <? f12 then RescaleState freq' total' s f12
  else RescaleState freq' total' largest_sym largest_freq12.

(** The redistribution loop from symbol [s] on. *)
Fixpoint redistribute (largest_sym s diff : Z) (freq : list Z) : list Z :=
  match freq with
  | [] => []
  | f :: freq' =>
      if diff =? 0 then f :: freq' else
      if (s =? largest_sym) || (f =? 0) then f :: redistribute largest_sym (s + 1) diff freq' else
      if 0 <? diff then u16 (f + 1) :: redistribute largest_sym (s + 1) (diff - 1) freq' else
      if 1 <? f then (f - 1) :: redistribute largest_sym (s + 1) (diff + 1) freq' else
      f :: redistribute largest_sym (s + 1) diff freq'
  end.

Definition netc_freq_rescale_12_to_10 (freq12 : list Z) : outcome unit (list Z) :=
  if negb (freq_total freq12 =? NETC_TANS_TABLE_SIZE) then Fail tt else
  let '(RescaleState freq10 total10 largest_sym _) :=
    fold_left rescale_step freq12 (RescaleState [] 0 (-1) 0) in
  if largest_sym <? 0 then Fail tt else
  let diff := NETC_TANS_TABLE_SIZE_10 - total10 in
  fl ← aget freq10 largest_sym;
  let new_freq := fl + diff in
  if new_freq <? 1 then
    freq10 ← aset freq10 largest_sym 1;
    let diff := NETC_TANS_TABLE_SIZE_10 - freq_total freq10 in
    Ok (redistribute largest_sym 0 diff freq10)
  else aset freq10 largest_sym (u16 new_freq).

(** ** Lemmas *)

(** A table every symbol can be coded with: normalised, floor of one. *)
Definition freq_full (freq : list Z) : Prop :=
  freq_ok (H := P12) freq /\ Forall (fun f => 1 <= f) freq.

Lemma lsum_insert l i x y : l !! i = Some x -> lsum (<[i := y]> l) = lsum l - x + y.
Proof.
  revert i. induction l as [|a l IH]; intros [|i] H; simpl in *; try done.
  - injection H as ->. lia.
  - rewrite (IH _ H). lia.
Qed.

Lemma lsum_replicate n x : lsum (replicate n x) = Z.of_nat n * x.
Proof. induction n; simpl; lia. Qed.

(** The share of a symbol with count [r] out of [total]. *)
Definition share (total r : Z) : Z := 1 + r * 3840 / total.

Lemma lsum_shares total l :
  0 < total -> Forall (fun r => 0 <= r) l ->
  zlen l <= lsum (share total <$> l) /\
  total * (lsum (share total <$> l) - zlen l) <= 3840 * lsum l.
Proof.
  intros Ht Hl. induction Hl as [|r l Hr Hl IH]; cbn [fmap list_fmap lsum foldr length]; [lia|].
  fold (lsum (share total <$> l)). fold (lsum l).
  pose proof (Z.mul_div_le (r * 3840) total Ht). pose proof (Z.div_pos (r * 3840) total ltac:(lia) Ht).
  set (S := lsum (share total <$> l)) in *. unfold share. set (q := r * 3840 / total) in *. split; [lia|].
  replace (1 + q + S - Z.of_nat (Datatypes.S (length l))) with (q + (S - zlen l)) by lia.
  rewrite Z.mul_add_distr_l. lia.
Qed.

(** State after the first [k] symbols. *)
Lemma norm_loop raw total k :
  zlen raw = 256 -> Forall (fun r => 0 <= r) raw -> total = lsum raw -> 0 < total ->
  total * 3840 < 2 ^ 64 -> (k <= 256)%nat ->
  exists max_sym max_val,
    foldM (norm_step raw total) (NormState (replicate 256 1) 256 0 1) (seqZ 0 (Z.of_nat k)) =
    Ok (NormState ((share total <$> take k raw) ++ replicate (256 - k) 1)
                  (256 + (lsum (share total <$> take k raw) - Z.of_nat k)) max_sym max_val) /\
    0 <= max_sym < 256.
Proof.
  intros Hl Hf Htot Hpos Hov. induction k as [|k IH]; intros Hk.
  { exists 0, 1. simpl. split; [done|lia]. }
  rewrite Nat2Z.inj_succ, seqZ_snoc, foldM_snoc, Z.add_0_l by lia.
  destruct IH as (ms & mv & -> & Hms); [lia|]. mstep.
  destruct (lookup_lt_is_Some_2 raw k) as [r Hr]; [lia|].
  unfold norm_step. rewrite (aget_Some _ _ r) by (rewrite ?Nat2Z.id; done || lia). mstep.
  rewrite (take_S_r _ _ _ Hr), fmap_app, lsum_app.
  change (share total <$> [r]) with [share total r]. change (lsum [share total r]) with (share total r + 0).
  assert (0 <= r <= total) as Hrt by (subst total; by eapply lsum_lookup_le).
  assert (Htk : length (share total <$> take k raw) = k) by (rewrite length_fmap, length_take; lia).
  change (NETC_TANS_TABLE_SIZE - NETC_TANS_SYMBOLS) with 3840.
  assert (Hins : forall v, <[Z.to_nat (Z.of_nat k) := v]> ((share total <$> take k raw) ++ replicate (256 - k) 1)
    = ((share total <$> take k raw) ++ [v]) ++ replicate (256 - S k) 1).
  { intros v. rewrite Nat2Z.id, insert_app_r_alt, Htk, Nat.sub_diag by lia.
    replace (256 - k)%nat with (S (256 - S k)) by lia. simpl. by rewrite <- app_assoc. }
  destruct (Z.eqb_spec r 0) as [->|Hr0].
  { exists ms, mv. split; [|done]. assert (share total 0 = 1) as -> by (unfold share; rewrite Z.mul_0_l, Z.div_0_l; lia).
    do 2 f_equal; [|lia]. rewrite <- app_assoc. f_equal.
    replace (256 - k)%nat with (S (256 - S k)) by lia. done. }
  assert (0 <= r * 3840 / total <= 3840) as Hb.
  { split; [apply Z.div_pos; lia|]. apply Z.div_le_upper_bound; nia. }
  rewrite u64_small by nia. if_false. cbv zeta.
  rewrite aset_ok by (rewrite length_app, length_replicate; lia). mstep. rewrite Hins.
  rewrite u16_small by lia.
  destruct (lsum_shares total (take k raw)) as [Hs1 Hs2]; [done|by apply Forall_take|].
  pose proof (lsum_take_le raw k Hf) as Hst. rewrite length_take in Hs1, Hs2.
  assert (lsum (share total <$> take k raw) - Z.of_nat k <= 3840) as Hbnd.
  { replace (Z.of_nat (k `min` length raw)) with (Z.of_nat k) in * by lia. nia. }
  rewrite u32_small by lia.
  assert (Hsum : 256 + (lsum (share total <$> take k raw) - Z.of_nat k) + r * 3840 / total =
    256 + (lsum (share total <$> take k raw) + (share total r + 0) - Z.succ (Z.of_nat k))) by (unfold share; lia).
  fold (share total r). rewrite Hsum.
  destruct (mv <? share total r); do 2 eexists; (split; [done|lia]).
Qed.

(** Counts whose total does not overflow: the result is a full 4096-sum table. *)
Lemma freq_normalize_ok raw total :
  zlen raw = 256 -> Forall (fun r => 0 <= r) raw -> total = lsum raw -> total * 3840 < 2 ^ 64 ->
  exists out, freq_normalize raw total = Ok out /\ freq_full out.
Proof.
  intros Hl Hf Htot Hov. unfold freq_normalize. pose proof (lsum_nonneg raw Hf).
  destruct (Z.eqb_spec total 0) as [H0|H0].
  { eexists. split; [done|]. change (u16 _) with 16. change (Z.to_nat _) with 256%nat.
    split; [split; [by rewrite length_replicate|split]|].
    - apply Forall_replicate. lia.
    - by rewrite lsum_replicate.
    - apply Forall_replicate. lia. }
  destruct (norm_loop raw total 256) as (ms & mv & He & Hms); [done|done|done|lia|lia|lia|].
  change (Z.to_nat NETC_TANS_SYMBOLS) with 256%nat. change (Z.of_nat 256) with NETC_TANS_SYMBOLS in He.
  change 256 with NETC_TANS_SYMBOLS in He at 1. rewrite He. mstep. clear He.
  rewrite Nat.sub_diag, app_nil_r, take_ge by lia.
  destruct (lsum_shares total raw) as [Hs1 Hs2]; [lia|done|].
  set (out := share total <$> raw) in *.
  assert (Hlo : length out = 256%nat) by (unfold out; rewrite length_fmap; lia).
  assert (Hge : Forall (fun f => 1 <= f) out).
  { unfold out. apply Forall_fmap. eapply Forall_impl; [done|]. intros r Hr. simpl in *. unfold share.
    pose proof (Z.div_pos (r * 3840) total ltac:(lia) ltac:(lia)). lia. }
  rewrite Hl in Hs1, Hs2. rewrite <- Htot in Hs2.
  assert (lsum out - 256 <= 3840) by (apply (Z.mul_le_mono_pos_l _ _ total); lia).
  unfold norm_finish. destruct (lookup_lt_is_Some_2 out (Z.to_nat ms)) as [m Hm]; [lia|].
  rewrite (aget_Some _ _ m) by (done || lia). mstep. unfold NETC_TANS_SYMBOLS, NETC_TANS_TABLE_SIZE.
  assert (1 <= m) by exact (Forall_lookup_1 _ _ _ _ Hge Hm).
  assert (m <= lsum out) by (eapply lsum_lookup_le; [eapply Forall_impl; [done|simpl; lia]|done]).
  assert (Hfin : forall l, length l = 256%nat -> Forall (fun f => 1 <= f) l -> lsum l = 4096 -> freq_full l).
  { intros l ? ? ?. split; [|done]. split; [done|]. split; [|done].
    eapply Forall_impl; [done|simpl; lia]. }
  case_if.
  - rewrite aset_ok by lia. eexists. split; [done|]. rewrite u16_small by lia.
    apply Hfin; [by rewrite length_insert|apply Forall_insert; [done|lia]|].
    rewrite (lsum_insert _ _ _ _ Hm). lia.
  - if_false. eexists. split; [done|]. apply Hfin; [done|done|lia].
Qed.

(** *** Rescaling *)

(** Rounded to the nearest quarter, at least one for a symbol in use. *)
Definition scaled (f : Z) : Z := if f =? 0 then 0 else Z.max 1 ((f + 2) / 4).

Lemma scaled_range f : 0 <= f <= 4096 -> 0 <= scaled f <= 1024 /\ (0 < scaled f <-> 0 < f).
Proof. intros Hf. unfold scaled. case_if; [lia|]. split; dlia. Qed.

Lemma scaled_mono f g : 0 <= f <= g -> scaled f <= scaled g.
Proof. intros H. unfold scaled. case_if; [|case_if; [lia|dlia]]. case_if; lia. Qed.

Lemma scaled_sum_bound l :
  Forall (fun f => 0 <= f <= 4096) l -> 0 <= lsum (scaled <$> l) <= 1024 * zlen l.
Proof.
  induction 1 as [|f l Hf Hl IH]; cbn [fmap list_fmap lsum foldr length]; [lia|].
  fold (lsum (scaled <$> l)). pose proof (scaled_range f Hf). lia.
Qed.

Lemma rescale_loop l :
  Forall (fun f => 0 <= f <= 4096) l -> zlen l <= 256 ->
  exists sym big, fold_left rescale_step l (RescaleState [] 0 (-1) 0) =
    RescaleState (scaled <$> l) (lsum (scaled <$> l)) sym big /\
    Forall (fun f => f <= big) l /\ 0 <= big /\
    (big = 0 -> sym = -1) /\ (0 < big -> 0 <= sym /\ l !! Z.to_nat sym = Some big).
Proof.
  induction l as [|f l IH] using rev_ind; intros Hf Hl.
  { exists (-1), 0. simpl. repeat split; try done; lia. }
  apply Forall_app in Hf as [Hfl Hf1]. rewrite Forall_singleton in Hf1. rewrite length_app in Hl. simpl in Hl.
  destruct IH as (sym & big & He & Hb & Hb0 & Hz & Hp); [done|lia|].
  rewrite fold_left_app, He. simpl fold_left. rewrite fmap_app, lsum_app.
  change (scaled <$> [f]) with [scaled f]. change (lsum [scaled f]) with (scaled f + 0).
  pose proof (scaled_sum_bound l Hfl) as Hs. pose proof (scaled_range f Hf1) as Hsf.
  rewrite length_fmap. assert (Hlast : (l ++ [f]) !! Z.to_nat (zlen l) = Some f)
    by (rewrite Nat2Z.id; by apply list_lookup_middle).
  assert (Hkeep : forall i x, l !! i = Some x -> (l ++ [f]) !! i = Some x)
    by (intros; by apply lookup_app_l_Some).
  destruct (Z.eqb_spec f 0) as [->|Hf0].
  - exists sym, big. change (scaled 0) with 0. rewrite !Z.add_0_r.
    split; [done|]. split; [apply Forall_app; split; [done|by constructor]|].
    split; [done|]. split; [done|]. intros H. destruct (Hp H). auto.
  - assert (Hsc : (let sc := u32 ((f * NETC_TANS_TABLE_SIZE_10 + NETC_TANS_TABLE_SIZE / 2) / NETC_TANS_TABLE_SIZE) in
      if sc =? 0 then 1 else sc) = scaled f).
    { cbv zeta. unfold NETC_TANS_TABLE_SIZE, NETC_TANS_TABLE_SIZE_10, scaled.
      rewrite u32_small by dlia. destruct (Z.eqb_spec f 0); [lia|]. case_if; dlia. }
    cbv zeta in Hsc. rewrite Hsc. rewrite u16_small, u32_small by lia. rewrite Z.add_0_r. case_if.
    + exists (zlen l), f. split; [done|]. split.
      { apply Forall_app. split; [|by repeat constructor]. eapply Forall_impl; [done|]. simpl. lia. }
      split; [lia|]. split; [lia|]. intros _. split; [lia|done].
    + exists sym, big. split; [done|]. split.
      { apply Forall_app. split; [done|]. constructor; [lia|constructor]. }
      split; [lia|]. split; [lia|]. intros Hbp. destruct (Hp Hbp). auto.
Qed.

Lemma redistribute_ok sym s diff l :
  Forall (fun f => 0 <= f < 65536) l ->
  length (redistribute sym s diff l) = length l /\
  Forall (fun f => 0 <= f < 65536) (redistribute sym s diff l) .
Proof.
  intros Hl. revert s diff. induction Hl as [|f l Hf Hl IH]; intros s diff; simpl; [done|].
  destruct (IH (s + 1) diff) as [Ha Hb]. destruct (IH (s + 1) (diff - 1)) as [Hc Hd].
  destruct (IH (s + 1) (diff + 1)) as [He Hg]. unfold u16.
  pose proof (Z.mod_pos_bound (f + 1) (2 ^ 16) ltac:(lia)).
  destruct (diff =? 0); [split; [done|by constructor]|].
  destruct (_ || _); [split; [simpl; lia|by constructor]|].
  case_if; [split; [simpl; lia|by constructor]|].
  case_if; (split; [simpl; lia|constructor; [lia|done]]).
Qed.

(** On a normalised table the rescaling never fails; when the largest symbol
    can absorb the rounding error the result is a normalised 10-bit table. *)
Lemma rescale_spec freq12 :
  freq_ok (H := P12) freq12 ->
  exists freq10, netc_freq_rescale_12_to_10 freq12 = Ok freq10 /\
    length freq10 = 256%nat /\ Forall (fun f => 0 <= f < 65536) freq10 /\
    ((exists f, f ∈ freq12 /\ lsum (scaled <$> freq12) - scaled f <= 1023) ->
     freq_ok (H := P10) freq10).
Proof.
  intros (Hlen & Hf & Hsum). change (TABLE_SIZE (H := P12)) with 4096 in Hsum.
  assert (Hr : Forall (fun f => 0 <= f <= 4096) freq12).
  { apply Forall_lookup_2. intros i f Hi. pose proof (lsum_lookup_le _ _ _ Hf Hi). lia. }
  unfold netc_freq_rescale_12_to_10. rewrite freq_total_lsum by (done || (eapply Forall_impl; [exact Hr|simpl; lia])).
  rewrite Hsum. change (negb (4096 =? NETC_TANS_TABLE_SIZE)) with false. cbv iota.
  destruct (rescale_loop freq12 Hr) as (sym & big & He & Hall & Hb0 & Hz & Hp); [lia|]. rewrite He.
  assert (0 < big) as Hbig.
  { destruct (decide (big = 0)) as [->|]; [|lia]. exfalso.
    pose proof (lsum_le_bound freq12 0) as H0. rewrite Hsum in H0.
    assert (4096 <= 0 * zlen freq12); [|lia]. apply H0. apply Forall_lookup_2. intros i f Hi.
    pose proof (Forall_lookup_1 _ _ _ _ Hall Hi). pose proof (Forall_lookup_1 _ _ _ _ Hf Hi). simpl in *. lia. }
  destruct (Hp Hbig) as [Hs0 Hs]. destruct (Z.ltb_spec sym 0); [lia|].
  pose proof (scaled_sum_bound freq12 Hr) as Hsb. pose proof (Forall_lookup_1 _ _ _ _ Hr Hs) as Hbr. simpl in Hbr.
  assert (Hsl : (scaled <$> freq12) !! Z.to_nat sym = Some (scaled big)) by (by rewrite list_lookup_fmap, Hs).
  rewrite (aget_Some _ _ (scaled big)) by done. mstep.
  pose proof (lookup_lt_Some _ _ _ Hs). pose proof (scaled_range big Hbr) as Hsc.
  assert (Hsr : Forall (fun f => 0 <= f < 65536) (scaled <$> freq12)).
  { apply Forall_fmap. eapply Forall_impl; [exact Hr|]. intros f Hff. simpl. pose proof (scaled_range f Hff). lia. }
  unfold NETC_TANS_TABLE_SIZE_10. case_if.
  - rewrite aset_ok by (rewrite length_fmap; lia). mstep. eexists. split; [done|].
    assert (Hin : Forall (fun f => 0 <= f < 65536) (<[Z.to_nat sym:=1]> (scaled <$> freq12)))
      by (apply Forall_insert; [done|lia]).
    destruct (redistribute_ok sym 0 (1024 - freq_total (<[Z.to_nat sym:=1]> (scaled <$> freq12))) _ Hin) as [Hrl Hrf].
    split; [rewrite Hrl, length_insert, length_fmap; done|]. split; [done|].
    intros (f & Hfin & Hle). exfalso. apply list_elem_of_lookup in Hfin as (i & Hi).
    pose proof (Forall_lookup_1 _ _ _ _ Hall Hi). pose proof (Forall_lookup_1 _ _ _ _ Hf Hi). simpl in *.
    pose proof (scaled_mono f big ltac:(lia)). lia.
  - rewrite aset_ok by (rewrite length_fmap; lia).
    assert (scaled big <= lsum (scaled <$> freq12)).
    { eapply lsum_lookup_le; [|done]. eapply Forall_impl; [done|simpl; lia]. }
    rewrite u16_small by lia. eexists. split; [done|].
    assert (Hin : Forall (fun f => 0 <= f < 65536)
      (<[Z.to_nat sym:=scaled big + (1024 - lsum (scaled <$> freq12))]> (scaled <$> freq12)))
      by (apply Forall_insert; [done|lia]).
    split; [by rewrite length_insert, length_fmap|]. split; [done|]. intros _.
    split; [by rewrite length_insert, length_fmap|]. split; [eapply Forall_impl; [done|simpl; lia]|].
    rewrite (lsum_insert _ _ _ _ Hsl). change (TABLE_SIZE (H := P10)) with 1024. lia.
Qed.

(** ** Properties *)

(** C20: normalisation of any histogram of 256 counts (whose scaled total fits 64
    bits) gives frequencies that sum to 4096, none of them zero, so the table
    builder accepts them and the table codes every byte. *)
Theorem freq_normalize_builds (raw : list Z) :
  zlen raw = 256 -> Forall (fun r => 0 <= r) raw -> lsum raw * 3840 < 2 ^ 64 ->
  exists out tbl, freq_normalize raw (lsum raw) = Ok out /\ freq_normalize_adaptive raw (lsum raw) = Ok out /\
    length out = 256%nat /\ lsum out = NETC_TANS_TABLE_SIZE /\ Forall (fun f => 1 <= f) out /\
    netc_tans_build out = Ok tbl /\ table_ok (H := P12) tbl out.
Proof.
  intros Hl Hf Hs. destruct (freq_normalize_ok raw (lsum raw) Hl Hf eq_refl Hs) as (out & Ho & (Hok & Hge)).
  destruct (tans_build_ok (P := P12) out Hok) as (tbl & Hb & Ht). exists out, tbl. pose proof Hok as (Hlen & _ & Hsum).
  split_and!; done.
Qed.

Lemma freq_normalize_builds_witness :
  exists out tbl, freq_normalize (replicate 256 3) (lsum (replicate 256 3)) = Ok out /\
    freq_normalize_adaptive (replicate 256 3) (lsum (replicate 256 3)) = Ok out /\
    length out = 256%nat /\ lsum out = NETC_TANS_TABLE_SIZE /\ Forall (fun f => 1 <= f) out /\
    netc_tans_build out = Ok tbl /\ table_ok (H := P12) tbl out.
Proof.
  apply (freq_normalize_builds (replicate 256 3)).
  - reflexivity.
  - apply Forall_replicate. lia.
  - rewrite lsum_replicate. lia.
Defined.

(** Rescaling a normalised 12-bit frequency table succeeds with 256 16-bit
    values; they form a table for the 10-bit coder whenever, apart from one
    symbol, the rounded shares leave that symbol at least one slot. *)
Theorem freq_rescale_correct (freq12 : list Z) :
  freq_ok (H := P12) freq12 ->
  exists freq10, netc_freq_rescale_12_to_10 freq12 = Ok freq10 /\
    length freq10 = 256%nat /\ Forall (fun f => 0 <= f < 65536) freq10 /\
    ((exists f, f ∈ freq12 /\ lsum (scaled <$> freq12) - scaled f <= 1023) ->
     exists tbl, netc_tans_build_10 freq10 = Ok tbl /\ table_ok (H := P10) tbl freq10).
Proof.
  intros Hf. destruct (rescale_spec freq12 Hf) as (freq10 & H1 & H2 & H3 & H4). exists freq10.
  split_and!; [done..|]. intros He. by apply (tans_build_ok (P := P10)), H4.
Qed.

Lemma freq_rescale_correct_witness :
  exists freq10, netc_freq_rescale_12_to_10 (replicate 256 16) = Ok freq10 /\
    length freq10 = 256%nat /\ Forall (fun f => 0 <= f < 65536) freq10 /\
    ((exists f, f ∈ replicate 256 16 /\ lsum (scaled <$> replicate 256 16) - scaled f <= 1023) ->
     exists tbl, netc_tans_build_10 freq10 = Ok tbl /\ table_ok (H := P10) tbl freq10).
Proof.
  apply (freq_rescale_correct (replicate 256 16)).
  split; [reflexivity|]. split; [|reflexivity]. apply Forall_replicate. lia.
Defined.

(** Many rare symbols and no dominant one. *)
Definition rare_symbols : list Z := replicate 128 1 ++ replicate 12 2 ++ replicate 116 34.

(** There is a normalised 12-bit table on which [netc_freq_rescale_12_to_10]
    reports success although its result does not sum to 1024, so that
    [netc_tans_build_10] then rejects it. *)
Theorem freq_rescale_incomplete :
  freq_ok (H := P12) rare_symbols /\
  exists freq10, netc_freq_rescale_12_to_10 rare_symbols = Ok freq10 /\ lsum freq10 <> NETC_TANS_TABLE_SIZE_10 /\
    netc_tans_build_10 freq10 = Fail tt.
Proof.
  assert (freq_ok (H := P12) rare_symbols) as Hok.
  { split; [reflexivity|]. split; [|reflexivity]. unfold rare_symbols.
    repeat apply Forall_app_2; apply Forall_replicate; lia. }
  split; [done|]. destruct (rescale_spec rare_symbols Hok) as (freq10 & H1 & H2 & H3 & _). exists freq10.
  assert (lsum freq10 <> NETC_TANS_TABLE_SIZE_10) as Hs.
  { assert (exists l, netc_freq_rescale_12_to_10 rare_symbols = Ok l /\ (lsum l =? NETC_TANS_TABLE_SIZE_10) = false) as (l & Hl & Hn)
      by (eexists; split; [vm_compute; reflexivity|reflexivity]).
    rewrite H1 in Hl. injection Hl as ->. by apply Z.eqb_neq. }
  split; [done|]. split; [done|]. by apply tans_build_reject.
Qed.
