(* ===== verification/Crc32.v ===== *)
(** * CRC-32 (src/src/util/netc_crc32.c)

    The table-driven IEEE 802.3 checksum of dictionary blobs, the bit-by-bit
    definition of the same polynomial as its specification, and what the
    checksum detects. *)

From stdpp Require Import prelude.
From Stdlib Require Import ZArith Lia.
From S2P Require Import Prelude.

Local Open Scope Z_scope.

Definition CRC32_TABLE : list Z :=
  [0x00000000; 0x77073096; 0xEE0E612C; 0x990951BA;
   0x076DC419; 0x706AF48F; 0xE963A535; 0x9E6495A3;
   0x0EDB8832; 0x79DCB8A4; 0xE0D5E91E; 0x97D2D988;
   0x09B64C2B; 0x7EB17CBD; 0xE7B82D07; 0x90BF1D91;
   0x1DB71064; 0x6AB020F2; 0xF3B97148; 0x84BE41DE;
   0x1ADAD47D; 0x6DDDE4EB; 0xF4D4B551; 0x83D385C7;
   0x136C9856; 0x646BA8C0; 0xFD62F97A; 0x8A65C9EC;
   0x14015C4F; 0x63066CD9; 0xFA0F3D63; 0x8D080DF5;
   0x3B6E20C8; 0x4C69105E; 0xD56041E4; 0xA2677172;
   0x3C03E4D1; 0x4B04D447; 0xD20D85FD; 0xA50AB56B;
   0x35B5A8FA; 0x42B2986C; 0xDBBBC9D6; 0xACBCF940;
   0x32D86CE3; 0x45DF5C75; 0xDCD60DCF; 0xABD13D59;
   0x26D930AC; 0x51DE003A; 0xC8D75180; 0xBFD06116;
   0x21B4F4B5; 0x56B3C423; 0xCFBA9599; 0xB8BDA50F;
   0x2802B89E; 0x5F058808; 0xC60CD9B2; 0xB10BE924;
   0x2F6F7C87; 0x58684C11; 0xC1611DAB; 0xB6662D3D;
   0x76DC4190; 0x01DB7106; 0x98D220BC; 0xEFD5102A;
   0x71B18589; 0x06B6B51F; 0x9FBFE4A5; 0xE8B8D433;
   0x7807C9A2; 0x0F00F934; 0x9609A88E; 0xE10E9818;
   0x7F6A0DBB; 0x086D3D2D; 0x91646C97; 0xE6635C01;
   0x6B6B51F4; 0x1C6C6162; 0x856530D8; 0xF262004E;
   0x6C0695ED; 0x1B01A57B; 0x8208F4C1; 0xF50FC457;
   0x65B0D9C6; 0x12B7E950; 0x8BBEB8EA; 0xFCB9887C;
   0x62DD1DDF; 0x15DA2D49; 0x8CD37CF3; 0xFBD44C65;
   0x4DB26158; 0x3AB551CE; 0xA3BC0074; 0xD4BB30E2;
   0x4ADFA541; 0x3DD895D7; 0xA4D1C46D; 0xD3D6F4FB;
   0x4369E96A; 0x346ED9FC; 0xAD678846; 0xDA60B8D0;
   0x44042D73; 0x33031DE5; 0xAA0A4C5F; 0xDD0D7CC9;
   0x5005713C; 0x270241AA; 0xBE0B1010; 0xC90C2086;
   0x5768B525; 0x206F85B3; 0xB966D409; 0xCE61E49F;
   0x5EDEF90E; 0x29D9C998; 0xB0D09822; 0xC7D7A8B4;
   0x59B33D17; 0x2EB40D81; 0xB7BD5C3B; 0xC0BA6CAD;
   0xEDB88320; 0x9ABFB3B6; 0x03B6E20C; 0x74B1D29A;
   0xEAD54739; 0x9DD277AF; 0x04DB2615; 0x73DC1683;
   0xE3630B12; 0x94643B84; 0x0D6D6A3E; 0x7A6A5AA8;
   0xE40ECF0B; 0x9309FF9D; 0x0A00AE27; 0x7D079EB1;
   0xF00F9344; 0x8708A3D2; 0x1E01F268; 0x6906C2FE;
   0xF762575D; 0x806567CB; 0x196C3671; 0x6E6B06E7;
   0xFED41B76; 0x89D32BE0; 0x10DA7A5A; 0x67DD4ACC;
   0xF9B9DF6F; 0x8EBEEFF9; 0x17B7BE43; 0x60B08ED5;
   0xD6D6A3E8; 0xA1D1937E; 0x38D8C2C4; 0x4FDFF252;
   0xD1BB67F1; 0xA6BC5767; 0x3FB506DD; 0x48B2364B;
   0xD80D2BDA; 0xAF0A1B4C; 0x36034AF6; 0x41047A60;
   0xDF60EFC3; 0xA867DF55; 0x316E8EEF; 0x4669BE79;
   0xCB61B38C; 0xBC66831A; 0x256FD2A0; 0x5268E236;
   0xCC0C7795; 0xBB0B4703; 0x220216B9; 0x5505262F;
   0xC5BA3BBE; 0xB2BD0B28; 0x2BB45A92; 0x5CB36A04;
   0xC2D7FFA7; 0xB5D0CF31; 0x2CD99E8B; 0x5BDEAE1D;
   0x9B64C2B0; 0xEC63F226; 0x756AA39C; 0x026D930A;
   0x9C0906A9; 0xEB0E363F; 0x72076785; 0x05005713;
   0x95BF4A82; 0xE2B87A14; 0x7BB12BAE; 0x0CB61B38;
   0x92D28E9B; 0xE5D5BE0D; 0x7CDCEFB7; 0x0BDBDF21;
   0x86D3D2D4; 0xF1D4E242; 0x68DDB3F8; 0x1FDA836E;
   0x81BE16CD; 0xF6B9265B; 0x6FB077E1; 0x18B74777;
   0x88085AE6; 0xFF0F6A70; 0x66063BCA; 0x11010B5C;
   0x8F659EFF; 0xF862AE69; 0x616BFFD3; 0x166CCF45;
   0xA00AE278; 0xD70DD2EE; 0x4E048354; 0x3903B3C2;
   0xA7672661; 0xD06016F7; 0x4969474D; 0x3E6E77DB;
   0xAED16A4A; 0xD9D65ADC; 0x40DF0B66; 0x37D83BF0;
   0xA9BCAE53; 0xDEBB9EC5; 0x47B2CF7F; 0x30B5FFE9;
   0xBDBDF21C; 0xCABAC28A; 0x53B39330; 0x24B4A3A6;
   0xBAD03605; 0xCDD70693; 0x54DE5729; 0x23D967BF;
   0xB3667A2E; 0xC4614AB8; 0x5D681B02; 0x2A6F2B94;
   0xB40BBE37; 0xC30C8EA1; 0x5A05DF1B; 0x2D02EF8D].

(** [crc = CRC32_TABLE[(crc ^ p[i]) & 0xFF] ^ (crc >> 8)] *)
Definition crc_step (crc b : Z) : Z :=
  Z.lxor (default 0 (CRC32_TABLE !! Z.to_nat (Z.land (Z.lxor crc b) 0xFF))) (Z.shiftr crc 8).

Definition netc_crc32 (data : list Z) : Z :=
  Z.lxor (fold_left crc_step data 0xFFFFFFFF) 0xFFFFFFFF.

Definition netc_crc32_continue (prev_crc : Z) (data : list Z) : Z :=
  Z.lxor (fold_left crc_step data (Z.lxor prev_crc 0xFFFFFFFF)) 0xFFFFFFFF.

(** ** Specification: the reflected polynomial, one bit at a time *)
Definition CRC32_POLY : Z := 0xEDB88320.

Definition crc_bit (c : Z) : Z :=
  Z.lxor (Z.shiftr c 1) (if Z.odd c then CRC32_POLY else 0).

Definition crc_bits (c : Z) : Z := Nat.iter 8 crc_bit c.

(** The register after one more byte. *)
Definition crc_byte (c b : Z) : Z := crc_bits (Z.lxor c b).

(** ** Lemmas *)
Lemma odd_lxor a b : Z.odd (Z.lxor a b) = xorb (Z.odd a) (Z.odd b).
Proof. rewrite <- !Z.bit0_odd. apply Z.lxor_spec. Qed.

Lemma crc_bit_lxor a b : crc_bit (Z.lxor a b) = Z.lxor (crc_bit a) (crc_bit b).
Proof.
  unfold crc_bit. rewrite odd_lxor, Z.shiftr_lxor.
  assert (forall p q r s, Z.lxor (Z.lxor p q) (Z.lxor r s) = Z.lxor (Z.lxor p r) (Z.lxor q s)) as Hx.
  { intros. rewrite !Z.lxor_assoc. f_equal. rewrite <- !Z.lxor_assoc. f_equal. apply Z.lxor_comm. }
  rewrite <- Hx. f_equal. destruct (Z.odd a), (Z.odd b); simpl; done.
Qed.

Lemma crc_bit_even c : crc_bit (2 * c) = c.
Proof.
  unfold crc_bit. rewrite Z.odd_mul. simpl. rewrite Z.lxor_0_r, Z.shiftr_div_pow2 by lia.
  change (2 ^ 1) with 2. rewrite Z.mul_comm. by apply Z.div_mul.
Qed.

Lemma crc_iter_lxor n a b :
  Nat.iter n crc_bit (Z.lxor a b) = Z.lxor (Nat.iter n crc_bit a) (Nat.iter n crc_bit b).
Proof. induction n as [|n IH]; simpl; [done|]. by rewrite IH, crc_bit_lxor. Qed.

Lemma crc_bits_lxor a b : crc_bits (Z.lxor a b) = Z.lxor (crc_bits a) (crc_bits b).
Proof. exact (crc_iter_lxor 8 a b). Qed.

Lemma crc_iter_high n h : Nat.iter n crc_bit (h * 2 ^ Z.of_nat n) = h.
Proof.
  induction n as [|n IH]; [simpl; lia|].
  rewrite Nat.iter_succ_r, Nat2Z.inj_succ, Z.pow_succ_r by lia.
  replace (h * (2 * 2 ^ Z.of_nat n)) with (2 * (h * 2 ^ Z.of_nat n)) by ring.
  by rewrite crc_bit_even.
Qed.

Lemma crc_bits_high h : crc_bits (h * 256) = h.
Proof. exact (crc_iter_high 8 h). Qed.

(** The table holds the eight-round remainder of each byte. *)
Lemma crc_table_entry i :
  is_byte i -> CRC32_TABLE !! Z.to_nat i = Some (crc_bits i).
Proof.
  intros Hi. assert (forallb (fun i => match CRC32_TABLE !! Z.to_nat i with
    | Some v => v =? crc_bits i | None => false end) (seqZ 0 256) = true) as H by (vm_compute; reflexivity).
  unfold is_byte in Hi. rewrite forallb_forall in H.
  assert (In i (seqZ 0 256)) as Hin by (apply list_elem_of_In, elem_of_seqZ; lia). specialize (H i Hin).
  destruct (CRC32_TABLE !! Z.to_nat i); [|done]. bool_to_prop. by subst.
Qed.

(** One table step is eight bit steps. *)
Lemma crc_step_bits crc b : 0 <= crc -> is_byte b -> crc_step crc b = crc_bits (Z.lxor crc b).
Proof.
  intros Hc Hb. unfold crc_step. unfold is_byte in Hb.
  assert (0 <= Z.lxor crc b) as Hx by (apply Z.lxor_nonneg; lia).
  set (x := Z.lxor crc b) in *. change 255 with (Z.ones 8). rewrite Z.land_ones by lia.
  assert (is_byte (x mod 2 ^ 8)) as Hm by (apply (Z.mod_pos_bound x 256); lia).
  rewrite crc_table_entry by done. simpl default.
  assert (Z.shiftr crc 8 = x / 2 ^ 8) as ->.
  { unfold x. rewrite <- Z.shiftr_div_pow2 by lia. rewrite Z.shiftr_lxor.
    rewrite (Z.shiftr_div_pow2 b) by lia. rewrite (Z.div_small b) by lia. by rewrite Z.lxor_0_r. }
  assert (x = Z.lxor (x mod 2 ^ 8) (x / 2 ^ 8 * 256)) as Hsplit.
  { rewrite Z.lxor_lor.
    - change 256 with (2 ^ 8). rewrite lor_disjoint_add; [|lia|done].
      rewrite Z.add_comm, Z.mul_comm. apply Z.div_mod. lia.
    - apply Z.bits_inj'. intros n Hn. rewrite Z.land_spec, Z.bits_0. change 256 with (2 ^ 8).
      destruct (decide (n < 8)); [rewrite Z.mul_pow2_bits_low by lia; apply andb_false_r|].
      rewrite Z.mod_pow2_bits_high by lia. done. }
  rewrite Hsplit at 3. rewrite crc_bits_lxor, crc_bits_high. done.
Qed.

Lemma crc_bit_range c : 0 <= c < 2 ^ 32 -> 0 <= crc_bit c < 2 ^ 32.
Proof.
  intros Hc. unfold crc_bit. apply lxor_lt; [lia| |destruct (Z.odd c); unfold CRC32_POLY; lia].
  rewrite Z.shiftr_div_pow2 by lia. change (2 ^ 1) with 2. dlia.
Qed.

Lemma crc_iter_range n c : 0 <= c < 2 ^ 32 -> 0 <= Nat.iter n crc_bit c < 2 ^ 32.
Proof. intros Hc. induction n; simpl; [done|]. by apply crc_bit_range. Qed.

Lemma crc_bits_range c : 0 <= c < 2 ^ 32 -> 0 <= crc_bits c < 2 ^ 32.
Proof. exact (crc_iter_range 8 c). Qed.

Lemma crc_step_range crc b : 0 <= crc < 2 ^ 32 -> is_byte b -> 0 <= crc_step crc b < 2 ^ 32.
Proof.
  intros Hc Hb. rewrite crc_step_bits by (done || lia). apply crc_bits_range, lxor_lt; unfold is_byte in *; lia.
Qed.

Lemma crc_fold_range data crc :
  0 <= crc < 2 ^ 32 -> bytes data -> 0 <= fold_left crc_step data crc < 2 ^ 32.
Proof.
  intros Hc Hd. revert crc Hc. induction Hd as [|b data Hb Hd IH]; intros crc Hc; simpl; [done|].
  apply IH. by apply crc_step_range.
Qed.

(** The bit step is a bijection of 32-bit words: bit 31 of the result is the
    bit shifted out. *)
Lemma crc_bit_inj a b : 0 <= a < 2 ^ 32 -> 0 <= b < 2 ^ 32 -> crc_bit a = crc_bit b -> a = b.
Proof.
  intros Ha Hb H.
  assert (forall c, 0 <= c < 2 ^ 32 -> Z.testbit (crc_bit c) 31 = Z.odd c) as Htop.
  { intros c Hc. unfold crc_bit. rewrite Z.lxor_spec, Z.shiftr_spec by lia.
    rewrite (Z.bits_above_log2 c (31 + 1)); [|lia|apply log2_lt_bound; lia].
    destruct (Z.odd c); done. }
  assert (Z.odd a = Z.odd b) as Ho by (rewrite <- Htop, <- (Htop b), H; done).
  unfold crc_bit in H. rewrite Ho in H.
  assert (Z.shiftr a 1 = Z.shiftr b 1) as Hs.
  { rewrite <- (lxor_cancel (Z.shiftr a 1) (if Z.odd b then CRC32_POLY else 0)), H. apply lxor_cancel. }
  rewrite !Z.shiftr_div_pow2 in Hs by lia. change (2 ^ 1) with 2 in Hs.
  rewrite (Z.div_mod a 2), (Z.div_mod b 2), Hs by lia. f_equal.
  rewrite !Zmod_odd, Ho. done.
Qed.

Lemma crc_iter_inj n a b :
  0 <= a < 2 ^ 32 -> 0 <= b < 2 ^ 32 -> Nat.iter n crc_bit a = Nat.iter n crc_bit b -> a = b.
Proof.
  intros Ha Hb. induction n as [|n IH]; intros H; [done|].
  simpl in H. apply crc_bit_inj in H; [by apply IH|by apply crc_iter_range..].
Qed.

Lemma crc_bits_inj a b : 0 <= a < 2 ^ 32 -> 0 <= b < 2 ^ 32 -> crc_bits a = crc_bits b -> a = b.
Proof. exact (crc_iter_inj 8 a b). Qed.

Lemma crc_step_inj_crc c1 c2 b :
  0 <= c1 < 2 ^ 32 -> 0 <= c2 < 2 ^ 32 -> is_byte b -> crc_step c1 b = crc_step c2 b -> c1 = c2.
Proof.
  intros H1 H2 Hb. rewrite !crc_step_bits by (done || lia). intros H.
  apply crc_bits_inj in H; [|apply lxor_lt; unfold is_byte in *; lia..].
  by rewrite <- (lxor_cancel c1 b), H, lxor_cancel.
Qed.

Lemma crc_step_inj_byte c b1 b2 :
  0 <= c < 2 ^ 32 -> is_byte b1 -> is_byte b2 -> crc_step c b1 = crc_step c b2 -> b1 = b2.
Proof.
  intros Hc H1 H2. rewrite !crc_step_bits by (done || lia). intros H.
  apply crc_bits_inj in H; [|apply lxor_lt; unfold is_byte in *; lia..].
  rewrite <- (lxor_cancel b1 c), <- (lxor_cancel b2 c). by rewrite !(Z.lxor_comm _ c), H.
Qed.

Lemma crc_fold_inj data c1 c2 :
  bytes data -> 0 <= c1 < 2 ^ 32 -> 0 <= c2 < 2 ^ 32 ->
  fold_left crc_step data c1 = fold_left crc_step data c2 -> c1 = c2.
Proof.
  intros Hd. revert c1 c2. induction Hd as [|b data Hb Hd IH]; intros c1 c2 H1 H2 H; simpl in *; [done|].
  apply IH in H; [|by apply crc_step_range..]. by apply crc_step_inj_crc in H.
Qed.

Lemma fold_left_cons {A B} (f : A -> B -> A) b l a : fold_left f (b :: l) a = fold_left f l (f a b).
Proof. done. Qed.

(** The table-driven register and the bitwise one. *)
Lemma crc_fold_bits data c :
  bytes data -> 0 <= c < 2 ^ 32 -> fold_left crc_step data c = fold_left crc_byte data c.
Proof.
  intros Hb. revert c. induction Hb as [|b data Hb _ IH]; intros c Hc; [done|].
  rewrite !fold_left_cons, IH by (by apply crc_step_range). unfold crc_byte at 3.
  by rewrite crc_step_bits by (done || lia).
Qed.

(** ** Properties *)

(** One changed byte changes the checksum. *)
Lemma crc32_byte_neq (pre post : list Z) (b1 b2 : Z) :
  bytes pre -> bytes post -> is_byte b1 -> is_byte b2 -> b1 <> b2 ->
  netc_crc32 (pre ++ b1 :: post) <> netc_crc32 (pre ++ b2 :: post).
Proof.
  intros Hp Hq H1 H2 Hne Heq. unfold netc_crc32 in Heq. apply (f_equal (fun x => Z.lxor x 0xFFFFFFFF)) in Heq.
  rewrite !Z.lxor_assoc, !Z.lxor_nilpotent, !Z.lxor_0_r, !fold_left_app in Heq. cbn [fold_left] in Heq.
  assert (0 <= fold_left crc_step pre 0xFFFFFFFF < 2 ^ 32) as Hc by (apply crc_fold_range; (done || lia)).
  apply crc_fold_inj in Heq; [|done|by apply crc_step_range..]. by apply crc_step_inj_byte in Heq.
Qed.

(** C34: the table-driven CRC-32 is the CRC of the reflected polynomial 0xEDB88320
    computed bit by bit, with initial value and final inversion. *)
Theorem crc32_bitwise (data : list Z) :
  bytes data ->
  netc_crc32 data = Z.lxor (fold_left crc_byte data 0xFFFFFFFF) 0xFFFFFFFF.
Proof.
  intros Hb. unfold netc_crc32. by rewrite crc_fold_bits by (done || lia).
Qed.

(** The standard check value, of the bytes of "123456789". *)
Lemma crc32_bitwise_witness :
  netc_crc32 [49; 50; 51; 52; 53; 54; 55; 56; 57] = 0xCBF43926 /\
  netc_crc32 [49; 50; 51; 52; 53; 54; 55; 56; 57] =
    Z.lxor (fold_left crc_byte [49; 50; 51; 52; 53; 54; 55; 56; 57] 0xFFFFFFFF) 0xFFFFFFFF.
Proof.
  split; [reflexivity|]. apply (crc32_bitwise [49; 50; 51; 52; 53; 54; 55; 56; 57]).
  repeat constructor; unfold is_byte; lia.
Defined.

(** [netc_crc32_continue] extends a checksum: the CRC of a concatenation is
    computed piecewise. *)
Theorem crc32_streaming (a b : list Z) :
  netc_crc32_continue (netc_crc32 a) b = netc_crc32 (a ++ b).
Proof.
  unfold netc_crc32_continue, netc_crc32. rewrite fold_left_app. f_equal. f_equal.
  rewrite Z.lxor_assoc, Z.lxor_nilpotent. apply Z.lxor_0_r.
Qed.

(** Changing one byte of a message always changes its CRC. *)
Theorem crc32_detects_byte (pre post : list Z) (b1 b2 : Z) :
  bytes pre -> bytes post -> is_byte b1 -> is_byte b2 -> b1 <> b2 ->
  netc_crc32 (pre ++ b1 :: post) <> netc_crc32 (pre ++ b2 :: post).
Proof. apply crc32_byte_neq. Qed.

Lemma crc32_detects_byte_witness : netc_crc32 ([1] ++ 2 :: [3]) <> netc_crc32 ([1] ++ 9 :: [3]).
Proof. apply (crc32_detects_byte [1] [3] 2 9); [repeat constructor; unfold is_byte; lia..|unfold is_byte; lia|unfold is_byte; lia|discriminate]. Defined.
