(* ===== verification/Simd.v ===== *)
(** * SIMD dispatch (src/src/simd/: generic, SSE4.2, AVX2 and NEON back ends)

    Each back end walks the four field-class regions with vector loops of one
    or two widths and a scalar tail.  A vector load is a slice of the buffer
    ([Undef] past its end); an XOR instruction works on the whole register as
    one integer, an ADD/SUB instruction on 8-bit lanes.  Which instructions the
    CPU has is a parameter.  [SimdOk] states what the dispatch table promises
    to the packet pipeline; every back end satisfies it. *)

From stdpp Require Import prelude.
From Stdlib Require Import ZArith Lia.
From S2P Require Import Prelude Delta Crc32.

Local Open Scope Z_scope.

(** ** Dispatch table *)
Record netc_simd_ops_t := SimdOps {
  delta_encode : list Z -> list Z -> outcome unit (list Z);
  delta_decode : list Z -> list Z -> outcome unit (list Z);
  freq_count : list Z -> list Z -> outcome unit (list Z);
  crc32_update : Z -> list Z -> Z;
  level : Z
}.

Definition NETC_SIMD_LEVEL_AUTO : Z := 0.
Definition NETC_SIMD_LEVEL_GENERIC : Z := 1.
Definition NETC_SIMD_LEVEL_SSE42 : Z := 2.
Definition NETC_SIMD_LEVEL_AVX2 : Z := 3.
Definition NETC_SIMD_LEVEL_NEON : Z := 4.

(** ** Generic back end *)
Definition netc_delta_encode_generic (prev curr : list Z) : outcome unit (list Z) :=
  delta_loop (fun i p c => if (i <? 16) || ((64 <=? i) && (i <? 256))
                           then Z.lxor c p else u8 (c - p)) 0 prev curr.

Definition netc_delta_decode_generic (prev residual : list Z) : outcome unit (list Z) :=
  delta_loop (fun i p r => if (i <? 16) || ((64 <=? i) && (i <? 256))
                           then Z.lxor r p else u8 (r + p)) 0 prev residual.

(** [freq[b]++] *)
Definition count_byte (freq : list Z) (b : Z) : outcome unit (list Z) :=
  n ← aget freq b;
  aset freq b (u32 (n + 1)).

Definition netc_freq_count_generic (data freq : list Z) : outcome unit (list Z) :=
  foldM count_byte freq data.

Definition netc_crc32_update_generic (crc : Z) (data : list Z) : Z :=
  netc_crc32_continue crc data.

(** ** Vector instructions *)
Definition loadu (width : Z) (p : list Z) (i : Z) : outcome unit (list Z) :=
  if (0 <=? i) && (i + width <=? zlen p) then Ok (slice p i width) else Undef.

(** [_mm_xor_si128], [_mm256_xor_si256], [veorq_u8]: one register-wide XOR. *)
Definition vec_xor (c p : list Z) : list Z := le_bytes (length c) (Z.lxor (le_val c) (le_val p)).
(** [_mm_sub_epi8], [vsubq_u8] and [_mm_add_epi8], [vaddq_u8]: 8-bit lanes. *)
Definition vec_sub (c p : list Z) : list Z := zip_with (fun c p => u8 (c - p)) c p.
Definition vec_add (r p : list Z) : list Z := zip_with (fun r p => u8 (r + p)) r p.

(** [while (i + width <= end) { store(out + i, op(load(data + i), load(prev + i))); i += width; }];
    the bytes written so far are [out], so [i] is its length.  Width 1 is the
    scalar loop. *)
Fixpoint vec_loop (op : list Z -> list Z -> list Z) (width : Z) (prev data : list Z) (end_ : Z)
    (fuel : nat) (out : list Z) : outcome unit (list Z) :=
  let i := zlen out in
  if i + width <=? end_ then
    match fuel with
    | O => Undef
    | S fuel' =>
        p ← loadu width prev i;
        c ← loadu width data i;
        vec_loop op width prev data end_ fuel' (out ++ op c p)
    end
  else Ok out.

Definition scalar (op : Z -> Z -> Z) (c p : list Z) : list Z := zip_with op c p.

(** A region with a vector loop for each width and a scalar tail. *)
Definition region (vop : list Z -> list Z -> list Z) (sop : Z -> Z -> Z) (widths : list Z)
    (prev data : list Z) (end_ : Z) (out : list Z) : outcome unit (list Z) :=
  out ← foldM (fun out width => vec_loop vop width prev data end_ (length data) out) out widths;
  vec_loop (scalar sop) 1 prev data end_ (length data) out.

Definition HDR_END : Z := 16.
Definition SUB_END : Z := 64.
Definition BODY_END : Z := 256.

Definition s_xor (c p : Z) : Z := Z.lxor c p.
Definition s_sub (c p : Z) : Z := u8 (c - p).
Definition s_add (r p : Z) : Z := u8 (r + p).

(** ** SSE4.2 *)
Definition netc_delta_encode_sse42 (prev curr : list Z) : outcome unit (list Z) :=
  let len := zlen curr in
  out ← region vec_xor s_xor [] prev curr (Z.min len HDR_END) [];
  out ← region vec_sub s_sub [16] prev curr (Z.min len SUB_END) out;
  out ← region vec_xor s_xor [16] prev curr (Z.min len BODY_END) out;
  region vec_sub s_sub [16] prev curr len out.

Definition netc_delta_decode_sse42 (prev residual : list Z) : outcome unit (list Z) :=
  let len := zlen residual in
  out ← region vec_xor s_xor [] prev residual (Z.min len HDR_END) [];
  out ← region vec_add s_add [16] prev residual (Z.min len SUB_END) out;
  out ← region vec_xor s_xor [16] prev residual (Z.min len BODY_END) out;
  region vec_add s_add [16] prev residual len out.

(** Blocks of [width] bytes, then the rest byte by byte. *)
Fixpoint count_blocks (width : Z) (fuel : nat) (data : list Z) (i : Z) (freq : list Z)
  : outcome unit (list Z) :=
  if i + width <=? zlen data then
    match fuel with
    | O => Undef
    | S fuel' =>
        b ← loadu width data i;
        freq' ← foldM count_byte freq b;
        count_blocks width fuel' data (i + width) freq'
    end
  else foldM count_byte freq (drop (Z.to_nat i) data).

Definition netc_freq_count_sse42 (data freq : list Z) : outcome unit (list Z) :=
  count_blocks 16 (length data) data 0 freq.

Definition netc_crc32_update_sse42 (crc : Z) (data : list Z) : Z := netc_crc32_update_generic crc data.

(** ** AVX2 *)
Definition netc_delta_encode_avx2 (prev curr : list Z) : outcome unit (list Z) :=
  let len := zlen curr in
  out ← region vec_xor s_xor [] prev curr (Z.min len HDR_END) [];
  out ← region vec_sub s_sub [16] prev curr (Z.min len SUB_END) out;
  out ← region vec_xor s_xor [32; 16] prev curr (Z.min len BODY_END) out;
  region vec_sub s_sub [32; 16] prev curr len out.

Definition netc_delta_decode_avx2 (prev residual : list Z) : outcome unit (list Z) :=
  let len := zlen residual in
  out ← region vec_xor s_xor [] prev residual (Z.min len HDR_END) [];
  out ← region vec_add s_add [16] prev residual (Z.min len SUB_END) out;
  out ← region vec_xor s_xor [32; 16] prev residual (Z.min len BODY_END) out;
  region vec_add s_add [32; 16] prev residual len out.

(** Four partial histograms: byte [k] of a block goes to histogram [k mod 4]. *)
Fixpoint count_ways (b : list Z) (h0 h1 h2 h3 : list Z)
  : outcome unit (list Z * list Z * list Z * list Z) :=
  match b with
  | b0 :: b1 :: b2 :: b3 :: b' =>
      h0 ← count_byte h0 b0;
      h1 ← count_byte h1 b1;
      h2 ← count_byte h2 b2;
      h3 ← count_byte h3 b3;
      count_ways b' h0 h1 h2 h3
  | _ => Ok (h0, h1, h2, h3)
  end.

Fixpoint count_blocks4 (fuel : nat) (data : list Z) (i : Z) (h0 h1 h2 h3 : list Z)
  : outcome unit (list Z * list Z * list Z * list Z) :=
  if i + 32 <=? zlen data then
    match fuel with
    | O => Undef
    | S fuel' =>
        b ← loadu 32 data i;
        '(h0, h1, h2, h3) ← count_ways b h0 h1 h2 h3;
        count_blocks4 fuel' data (i + 32) h0 h1 h2 h3
    end
  else
    h0 ← foldM count_byte h0 (drop (Z.to_nat i) data);
    Ok (h0, h1, h2, h3).

(** [freq[k] += h0[k] + h1[k] + h2[k] + h3[k]] *)
Fixpoint merge4 (freq h0 h1 h2 h3 : list Z) : list Z :=
  match freq, h0, h1, h2, h3 with
  | f :: freq', a :: h0', b :: h1', c :: h2', d :: h3' =>
      u32 (f + u32 (a + b + c + d)) :: merge4 freq' h0' h1' h2' h3'
  | _, _, _, _, _ => []
  end.

Definition netc_freq_count_avx2 (data freq : list Z) : outcome unit (list Z) :=
  let z := replicate 256 0 in
  '(h0, h1, h2, h3) ← count_blocks4 (length data) data 0 z z z z;
  Ok (merge4 freq h0 h1 h2 h3).

(** ** NEON *)
Definition netc_delta_encode_neon (prev curr : list Z) : outcome unit (list Z) :=
  let len := zlen curr in
  out ← region vec_xor s_xor [] prev curr (Z.min len HDR_END) [];
  out ← region vec_sub s_sub [16] prev curr (Z.min len SUB_END) out;
  out ← region vec_xor s_xor [16] prev curr (Z.min len BODY_END) out;
  region vec_sub s_sub [16] prev curr len out.

Definition netc_delta_decode_neon (prev residual : list Z) : outcome unit (list Z) :=
  let len := zlen residual in
  out ← region vec_xor s_xor [] prev residual (Z.min len HDR_END) [];
  out ← region vec_add s_add [16] prev residual (Z.min len SUB_END) out;
  out ← region vec_xor s_xor [16] prev residual (Z.min len BODY_END) out;
  region vec_add s_add [16] prev residual len out.

Definition netc_freq_count_neon (data freq : list Z) : outcome unit (list Z) :=
  count_blocks 16 (length data) data 0 freq.

(** The build without the CRC32 extension delegates to the generic code. *)
(** The ACLE intrinsics [__crc32b], [__crc32w] and [__crc32d]: the reflected
    polynomial 0xEDB88320 over 1, 4 and 8 bytes, without any inversion. *)
Definition acle_crc32b : Z -> Z -> Z := crc_byte.
Definition acle_crc32w (crc v : Z) : Z := fold_left acle_crc32b (le_bytes 4 v) crc.
Definition acle_crc32d (crc v : Z) : Z := fold_left acle_crc32b (le_bytes 8 v) crc.

(** [for (; i + width <= len; i += width) crc = step(crc, load(data + i))] *)
Fixpoint crc_blocks (width : Z) (step : Z -> Z -> Z) (fuel : nat) (data : list Z) (crc : Z) : list Z * Z :=
  match fuel with
  | O => (data, crc)
  | S fuel' =>
      if width <=? zlen data
      then crc_blocks width step fuel' (drop (Z.to_nat width) data) (step crc (le_val (take (Z.to_nat width) data)))
      else (data, crc)
  end.

(** The variant compiled with [__ARM_FEATURE_CRC32]; [aarch64] enables the
    8-byte loop.  [data] shrinks to the part not yet processed. *)
Definition netc_crc32_update_neon_hw (aarch64 : bool) (crc : Z) (data : list Z) : Z :=
  let '(data, crc) := if aarch64 then crc_blocks 8 acle_crc32d (length data) data crc else (data, crc) in
  let '(data, crc) := crc_blocks 4 acle_crc32w (length data) data crc in
  fold_left acle_crc32b data crc.

(** Without the hardware instructions the function delegates. *)
Definition netc_crc32_update_neon (arm_crc32 aarch64 : bool) (crc : Z) (data : list Z) : Z :=
  if arm_crc32 then netc_crc32_update_neon_hw aarch64 crc data else netc_crc32_update_generic crc data.

(** ** Capability detection and dispatch *)

(** The back ends a build contains and the instructions the CPU reports. *)
Record simd_caps := SimdCaps {
  has_avx2 : bool; has_sse42 : bool; has_neon : bool;
  built_avx2 : bool; built_sse42 : bool; built_neon : bool;
  arm_crc32 : bool; aarch64 : bool }.

Definition netc_simd_detect (cpu : simd_caps) : Z :=
  if has_avx2 cpu then NETC_SIMD_LEVEL_AVX2 else
  if has_sse42 cpu then NETC_SIMD_LEVEL_SSE42 else
  if has_neon cpu then NETC_SIMD_LEVEL_NEON else NETC_SIMD_LEVEL_GENERIC.

Definition netc_simd_ops_init (cpu : simd_caps) (level : Z) : netc_simd_ops_t :=
  let level := if level =? NETC_SIMD_LEVEL_AUTO then netc_simd_detect cpu else level in
  if built_avx2 cpu && ((NETC_SIMD_LEVEL_AVX2 <=? level) && has_avx2 cpu) then
    SimdOps netc_delta_encode_avx2 netc_delta_decode_avx2 netc_freq_count_avx2
            netc_crc32_update_sse42 NETC_SIMD_LEVEL_AVX2
  else if built_sse42 cpu && ((NETC_SIMD_LEVEL_SSE42 <=? level) && has_sse42 cpu) then
    SimdOps netc_delta_encode_sse42 netc_delta_decode_sse42 netc_freq_count_sse42
            netc_crc32_update_sse42 NETC_SIMD_LEVEL_SSE42
  else if built_neon cpu && ((NETC_SIMD_LEVEL_NEON <=? level) && has_neon cpu) then
    SimdOps netc_delta_encode_neon netc_delta_decode_neon netc_freq_count_neon
            (netc_crc32_update_neon (arm_crc32 cpu) (aarch64 cpu)) NETC_SIMD_LEVEL_NEON
  else
    SimdOps netc_delta_encode_generic netc_delta_decode_generic netc_freq_count_generic
            netc_crc32_update_generic NETC_SIMD_LEVEL_GENERIC.

(** ** Interface: what the packet pipeline relies on *)
Class SimdOk (ops : netc_simd_ops_t) : Prop := {
  simd_encode : forall prev curr, bytes prev -> bytes curr -> (length curr <= length prev)%nat ->
    delta_encode ops prev curr = netc_delta_encode prev curr;
  simd_decode : forall prev res, bytes prev -> bytes res -> (length res <= length prev)%nat ->
    delta_decode ops prev res = netc_delta_decode prev res;
  simd_freq : forall data freq, bytes data -> length freq = 256%nat ->
    Forall (fun n => 0 <= n < 2 ^ 32) freq ->
    freq_count ops data freq = netc_freq_count_generic data freq
}.

(** ** Lemmas: delta back ends *)

Lemma lookup_slice {A} (l : list A) a n k :
  (k < Z.to_nat n)%nat -> slice l a n !! k = l !! (Z.to_nat a + k)%nat.
Proof. intros Hk. unfold slice. rewrite lookup_take_lt by done. apply lookup_drop. Qed.

Lemma delta_loop_lookup op i prev data res :
  delta_loop op i prev data = Ok res ->
  length res = length data /\ (length data <= length prev)%nat /\
  forall k, (k < length data)%nat -> exists p d, prev !! k = Some p /\ data !! k = Some d /\
    res !! k = Some (op (i + Z.of_nat k) p d).
Proof.
  revert i prev res. induction data as [|d data IH]; intros i prev res H; simpl in H.
  { injection H as <-. simpl. split; [done|]. split; [lia|]. intros. lia. }
  destruct prev as [|p prev]; [done|]. apply bind_Ok in H as (rest & Hr & [= <-]).
  destruct (IH _ _ _ Hr) as (Hl & Hlp & Hk). simpl. split; [lia|]. split; [lia|].
  intros [|k] Hlt; simpl.
  - exists p, d. split; [done|]. split; [done|]. do 2 f_equal. lia.
  - destruct (Hk k) as (p' & d' & ? & ? & Hres); [lia|]. exists p', d'. split; [done|]. split; [done|].
    rewrite Hres. do 2 f_equal. lia.
Qed.

Lemma take_slice {A} (l : list A) i n :
  0 <= i -> 0 <= n -> take (Z.to_nat i) l ++ slice l i n = take (Z.to_nat (i + n)) l.
Proof. intros. unfold slice. rewrite Z2Nat.inj_add by lia. apply take_take_drop. Qed.

(** A register-wide XOR is a bytewise XOR. *)
Lemma le_val_lxor c p :
  bytes c -> bytes p -> length c = length p ->
  le_val (zip_with Z.lxor c p) = Z.lxor (le_val c) (le_val p).
Proof.
  intros Hc. revert p. induction Hc as [|b c Hb Hc IH]; intros [|q p] Hp Hl; try done.
  apply bytes_cons in Hp as [Hq Hp]. simpl in Hl. cbn [zip_with le_val]. rewrite IH by (done || lia).
  assert (Hbit : forall x v, is_byte x -> 0 <= v -> x + 2 ^ 8 * v = Z.lxor x (v * 2 ^ 8)).
  { intros x v Hx Hv. rewrite Z.lxor_lor; [|apply Z.bits_inj'; intros n Hn; rewrite Z.land_spec, Z.bits_0].
    - rewrite lor_disjoint_add by (unfold is_byte in Hx; lia). ring.
    - destruct (decide (n < 8)); [rewrite Z.mul_pow2_bits_low by lia; apply andb_false_r|].
      rewrite (Z.bits_above_log2 x); [done|unfold is_byte in Hx; lia|].
      eapply Z.lt_le_trans; [apply (log2_lt_bound x 8); unfold is_byte in Hx; lia|lia]. }
  pose proof (le_val_bound c Hc). pose proof (le_val_bound p Hp).
  rewrite (Hbit b), (Hbit q), (Hbit (Z.lxor b q)) by (auto with netc; try apply Z.lxor_nonneg; lia).
  rewrite <- !Z.shiftl_mul_pow2, Z.shiftl_lxor by lia.
  rewrite !Z.lxor_assoc. f_equal. rewrite <- !Z.lxor_assoc. f_equal. apply Z.lxor_comm.
Qed.

Lemma vec_xor_lanes c p :
  bytes c -> bytes p -> length c = length p -> vec_xor c p = zip_with s_xor c p.
Proof.
  intros Hc Hp Hl. unfold vec_xor, s_xor. rewrite <- le_val_lxor by done.
  replace (length c) with (length (zip_with Z.lxor c p)) by (rewrite length_zip_with; lia).
  apply le_bytes_val. clear Hl. revert p Hp. induction Hc as [|b c Hb Hc IH]; intros p Hp; [constructor|].
  destruct Hp as [|q p Hq Hp]; [constructor|]. constructor; [by apply lxor_byte|by apply IH].
Qed.

Section Regions.
Context (ref : Z -> Z -> Z -> Z) (prev data res : list Z).
Hypothesis prev_bytes : bytes prev.
Hypothesis data_bytes : bytes data.
Hypothesis is_ref : delta_loop ref 0 prev data = Ok res.

(** The scalar operation of a region is the reference there. *)
Definition agrees (sop : Z -> Z -> Z) (lo hi : Z) : Prop :=
  forall k p d, lo <= k < hi -> ref k p d = sop d p.

Lemma lanes_slice sop lo hi i n :
  agrees sop lo hi -> 0 <= lo -> lo <= i -> i + n <= hi -> 0 <= n -> hi <= zlen data ->
  zip_with sop (slice data i n) (slice prev i n) = slice res i n.
Proof using is_ref.
  intros Ha H0 Hlo Hhi Hn Hlen.
  destruct (delta_loop_lookup _ _ _ _ _ is_ref) as (Hl & Hlp & Hk).
  assert (zlen (slice data i n) = n) by (apply length_slice; lia).
  assert (zlen (slice prev i n) = n) by (apply length_slice; lia).
  assert (zlen (slice res i n) = n) by (apply length_slice; lia).
  apply list_eq_same_length with (Z.to_nat n); [rewrite ?length_zip_with; lia..|].
  intros k x y Hlt Hx Hy. rewrite lookup_zip_with, !lookup_slice in Hx by lia.
  rewrite lookup_slice in Hy by lia.
  destruct (Hk (Z.to_nat i + k)%nat) as (p & d & Hp & Hd & Hr); [lia|].
  rewrite Hd in Hx. simpl in Hx. rewrite Hp in Hx. simpl in Hx. injection Hx as <-.
  rewrite Hr in Hy. injection Hy as <-. symmetry. apply Ha. lia.
Qed.

Lemma loadu_ok w p i : 0 <= i -> i + w <= zlen p -> loadu w p i = Ok (slice p i w).
Proof. intros. unfold loadu. by if_true. Qed.

(** Any loop over a region writes the reference bytes of the region. *)
Lemma vec_loop_ref op w sop lo hi fuel i :
  agrees sop lo hi -> 0 <= lo <= i -> i <= hi -> hi <= zlen data -> 0 < w ->
  hi - i <= Z.of_nat fuel ->
  (forall c p, bytes c -> bytes p -> length c = length p -> op c p = zip_with sop c p) ->
  exists j, vec_loop op w prev data hi fuel (take (Z.to_nat i) res) = Ok (take (Z.to_nat j) res) /\
    i <= j <= hi /\ hi < j + w.
Proof using is_ref prev_bytes data_bytes.
  intros Ha Hlo Hi Hhi Hw Hf Hop. revert i Hlo Hi Hf.
  destruct (delta_loop_lookup _ _ _ _ _ is_ref) as (Hl & Hlp & _).
  induction fuel as [|fuel IH]; intros i Hlo Hi Hf; simpl.
  { rewrite length_take, Nat2Z.inj_min, Z2Nat.id by lia.
    replace (Z.min i (zlen res)) with i by lia. if_false. exists i. split; [done|lia]. }
  rewrite length_take, Nat2Z.inj_min, Z2Nat.id by lia.
  replace (Z.min i (zlen res)) with i by lia. case_if; [|exists i; split; [done|lia]].
  rewrite !loadu_ok by lia. mstep. rewrite Hop; [|auto with netc|auto with netc|].
  2: { pose proof (length_slice data i w ltac:(lia) ltac:(lia) ltac:(lia)).
       pose proof (length_slice prev i w ltac:(lia) ltac:(lia) ltac:(lia)). lia. }
  rewrite (lanes_slice sop lo hi) by (done || lia). rewrite take_slice by lia.
  destruct (IH (i + w)) as (j & -> & Hj & Hjw); [lia..|]. exists j. split; [done|lia].
Qed.

Lemma region_ref vop sop widths lo hi :
  agrees sop lo hi -> 0 <= lo <= hi -> hi <= zlen data -> Forall (fun w => 0 < w) widths ->
  (forall c p, bytes c -> bytes p -> length c = length p -> vop c p = zip_with sop c p) ->
  region vop sop widths prev data hi (take (Z.to_nat lo) res) = Ok (take (Z.to_nat hi) res).
Proof using is_ref prev_bytes data_bytes.
  intros Ha Hlo Hhi Hw Hop. unfold region.
  assert (exists j, foldM (fun out width => vec_loop vop width prev data hi (length data) out)
    (take (Z.to_nat lo) res) widths = Ok (take (Z.to_nat j) res) /\ lo <= j <= hi) as (j & -> & Hj).
  { assert (forall i, lo <= i <= hi -> exists j,
      foldM (fun out width => vec_loop vop width prev data hi (length data) out)
        (take (Z.to_nat i) res) widths = Ok (take (Z.to_nat j) res) /\ lo <= j <= hi) as H; [|apply H; lia].
    induction Hw as [|w ws Hw Hws IH]; intros i Hi; simpl; [exists i; split; [done|lia]|].
    destruct (vec_loop_ref vop w sop lo hi (length data) i) as (j & -> & Hj & _); [done|lia..|done|].
    mstep. apply IH. lia. }
  mstep. destruct (vec_loop_ref (scalar sop) 1 sop lo hi (length data) j) as (j' & -> & Hj' & Hw');
    [done|lia..|done|]. do 3 f_equal. lia.
Qed.
End Regions.

Lemma xor_class_true k : k < 16 \/ 64 <= k < 256 -> xor_class k = true.
Proof.
  unfold xor_class, NETC_DELTA_HEADER_END, NETC_DELTA_SUBHEADER_END, NETC_DELTA_BODY_END.
  rewrite orb_true_iff, andb_true_iff, !Z.ltb_lt, Z.leb_le. lia.
Qed.

Lemma xor_class_false k : 16 <= k < 64 \/ 256 <= k -> xor_class k = false.
Proof.
  unfold xor_class, NETC_DELTA_HEADER_END, NETC_DELTA_SUBHEADER_END, NETC_DELTA_BODY_END.
  rewrite orb_false_iff, andb_false_iff, !Z.ltb_ge, Z.leb_gt. lia.
Qed.

(** The four-region walk of the vector back ends is the reference loop. *)
Lemma four_regions ref vbody vtail sbody stail w1 w2 w3 prev data :
  (forall i p d, ref i p d = if xor_class i then sbody d p else stail d p) ->
  (forall c p, bytes c -> bytes p -> length c = length p -> vbody c p = zip_with sbody c p) ->
  (forall c p, bytes c -> bytes p -> length c = length p -> vtail c p = zip_with stail c p) ->
  Forall (fun w => 0 < w) w1 -> Forall (fun w => 0 < w) w2 -> Forall (fun w => 0 < w) w3 ->
  bytes prev -> bytes data -> (length data <= length prev)%nat ->
  (forall i p d, is_byte p -> is_byte d -> is_byte (ref i p d)) ->
  (let len := zlen data in
   out ← region vbody sbody [] prev data (Z.min len HDR_END) [];
   out ← region vtail stail w1 prev data (Z.min len SUB_END) out;
   out ← region vbody sbody w2 prev data (Z.min len BODY_END) out;
   region vtail stail w3 prev data len out) = delta_loop ref 0 prev data.
Proof.
  intros Href Hvb Hvt H1 H2 H3 Hp Hd Hl Hr.
  destruct (delta_loop_bytes ref 0 prev data Hr Hp Hd Hl) as (res & Hres & Hlr & _). rewrite Hres. cbv zeta.
  assert (forall b lo hi, (forall k, lo <= k < hi -> xor_class k = b) ->
    agrees ref (if b then sbody else stail) lo hi) as Hag.
  { intros b lo hi Hk k p d Hkk. rewrite Href, (Hk k Hkk). by destruct b. }
  set (len := zlen data) in *. unfold HDR_END, SUB_END, BODY_END.
  pose proof (region_ref ref prev data res Hp Hd Hres vbody sbody [] 0 (Z.min len 16)
    (Hag true 0 (Z.min len 16) ltac:(intros; apply xor_class_true; lia)) ltac:(lia) ltac:(lia) ltac:(constructor) Hvb) as E1.
  change (take (Z.to_nat 0) res) with (@nil Z) in E1. rewrite E1. mstep.
  rewrite (region_ref ref prev data res Hp Hd Hres vtail stail w1 (Z.min len 16) (Z.min len 64)
    (Hag false (Z.min len 16) (Z.min len 64) ltac:(intros; apply xor_class_false; lia)) ltac:(lia) ltac:(lia) H1 Hvt). mstep.
  rewrite (region_ref ref prev data res Hp Hd Hres vbody sbody w2 (Z.min len 64) (Z.min len 256)
    (Hag true (Z.min len 64) (Z.min len 256) ltac:(intros; apply xor_class_true; lia)) ltac:(lia) ltac:(lia) H2 Hvb). mstep.
  rewrite (region_ref ref prev data res Hp Hd Hres vtail stail w3 (Z.min len 256) len
    (Hag false (Z.min len 256) len ltac:(intros; apply xor_class_false; lia)) ltac:(lia) ltac:(lia) H3 Hvt).
  f_equal. apply take_ge. lia.
Qed.

(** ** Lemmas: histograms *)

Lemma skip_drop {A} (l : list A) i n :
  0 <= i -> 0 <= n -> i + n <= zlen l ->
  drop (Z.to_nat i) l = slice l i n ++ drop (Z.to_nat (i + n)) l.
Proof.
  intros. unfold slice. rewrite Z2Nat.inj_add by lia.
  rewrite <- (take_drop (Z.to_nat n) (drop (Z.to_nat i) l)) at 1. f_equal. by rewrite drop_drop.
Qed.

Lemma count_blocks_eq w fuel data i freq :
  0 < w -> 0 <= i -> zlen data - i <= Z.of_nat fuel ->
  count_blocks w fuel data i freq = foldM count_byte freq (drop (Z.to_nat i) data).
Proof.
  intros Hw. revert i freq. induction fuel as [|fuel IH]; intros i freq Hi Hf; simpl; [by if_false|].
  case_if; [|done]. rewrite loadu_ok by lia. mstep.
  rewrite (skip_drop data i w), foldM_app by lia.
  destruct (foldM count_byte freq (slice data i w)); mstep; [|done..]. apply IH; lia.
Qed.

(** What a histogram pass does to each counter. *)
Definition occurrences (k : Z) (l : list Z) : Z := zlen (filter (eq k) l).

Definition counted (freq data freq' : list Z) : Prop :=
  length freq' = length freq /\
  forall k f, (k < length freq)%nat -> freq !! k = Some f ->
    freq' !! k = Some (u32 (f + occurrences (Z.of_nat k) data)).

Lemma occurrences_cons k b l : occurrences k (b :: l) = (if k =? b then 1 else 0) + occurrences k l.
Proof.
  unfold occurrences. rewrite filter_cons. destruct (decide (k = b)) as [->|]; simpl.
  - rewrite Z.eqb_refl. lia.
  - by destruct (Z.eqb_spec k b).
Qed.

Lemma occurrences_app k l1 l2 : occurrences k (l1 ++ l2) = occurrences k l1 + occurrences k l2.
Proof. unfold occurrences. rewrite filter_app, length_app. lia. Qed.

Lemma u32_u32_add a b : u32 (u32 a + b) = u32 (a + b).
Proof. unfold u32. apply Zplus_mod_idemp_l. Qed.

Lemma count_bytes_counted freq data :
  bytes data -> length freq = 256%nat -> Forall (fun n => 0 <= n < 2 ^ 32) freq ->
  exists freq', foldM count_byte freq data = Ok freq' /\ counted freq data freq' /\
    Forall (fun n => 0 <= n < 2 ^ 32) freq'.
Proof.
  intros Hd. revert freq. induction Hd as [|b data Hb Hd IH]; intros freq Hl Hf; simpl.
  { exists freq. split; [done|]. split; [|done]. split; [done|]. intros k f Hk Hkf. rewrite Hkf.
    f_equal. unfold occurrences. simpl. rewrite Z.add_0_r. symmetry. apply u32_small.
    exact (Forall_lookup_1 _ _ _ _ Hf Hkf). }
  unfold is_byte in Hb. destruct (lookup_lt_is_Some_2 freq (Z.to_nat b)) as [n Hn]; [lia|].
  assert (count_byte freq b = Ok (<[Z.to_nat b:=u32 (n + 1)]> freq)) as ->.
  { unfold count_byte. rewrite (aget_Some _ _ n) by (done || lia). mstep. by rewrite aset_ok by lia. }
  mstep.
  assert (0 <= u32 (n + 1) < 2 ^ 32) by (by apply Z.mod_pos_bound).
  destruct (IH (<[Z.to_nat b:=u32 (n + 1)]> freq)) as (freq' & He & [Hl' Hk'] & Hf');
    [by rewrite length_insert|by apply Forall_insert|].
  exists freq'. split; [done|]. split; [|done]. rewrite length_insert in Hl', Hk'. split; [lia|].
  intros k f Hk Hkf. rewrite occurrences_cons. destruct (Z.eqb_spec (Z.of_nat k) b) as [<-|Hne].
  - rewrite Nat2Z.id in *. rewrite Hn in Hkf. injection Hkf as ->.
    rewrite (Hk' k (u32 (f + 1))) by (done || (apply list_lookup_insert_eq; lia)).
    by rewrite u32_u32_add, <- Z.add_assoc.
  - rewrite (Hk' k f) by (done || (rewrite list_lookup_insert_ne by lia; done)). done.
Qed.

Lemma counted_unique freq data f1 f2 : counted freq data f1 -> counted freq data f2 -> f1 = f2.
Proof.
  intros [Hl1 H1] [Hl2 H2]. apply list_eq_same_length with (length freq); [lia..|].
  intros k x y Hk Hx Hy. destruct (lookup_lt_is_Some_2 freq k) as [f Hf]; [lia|].
  rewrite (H1 k f) in Hx by (done || lia). rewrite (H2 k f) in Hy by (done || lia). congruence.
Qed.

(** A histogram of 256 counters started from zero. *)
Definition hist (h data : list Z) : Prop :=
  length h = 256%nat /\ Forall (fun n => 0 <= n < 2 ^ 32) h /\
  forall k f, h !! k = Some f -> f = u32 (occurrences (Z.of_nat k) data).

Lemma hist_nil : hist (replicate 256 0) [].
Proof.
  split; [done|]. split; [by apply Forall_replicate|].
  intros k f Hk. apply lookup_replicate in Hk as [-> _]. done.
Qed.

Lemma hist_count h data b :
  hist h data -> is_byte b -> exists h', count_byte h b = Ok h' /\ hist h' (b :: data).
Proof.
  intros (Hl & Hf & Hk) Hb. destruct (count_bytes_counted h [b]) as (h' & He & [Hl' Hk'] & Hf'); [|done..|].
  { constructor; [done|constructor]. }
  exists h'. simpl in He. destruct (count_byte h b); [|done..]. injection He as <-.
  split; [done|]. split; [lia|]. split; [done|]. intros k f Hkf.
  pose proof (lookup_lt_Some _ _ _ Hkf). destruct (lookup_lt_is_Some_2 h k) as [g Hg]; [lia|].
  rewrite (Hk' k g) in Hkf by (done || lia). injection Hkf as <-. rewrite (Hk _ _ Hg), u32_u32_add.
  rewrite !occurrences_cons. unfold occurrences at 2. simpl. f_equal. lia.
Qed.

Lemma hist_counts h data l :
  hist h data -> bytes l -> exists h' data', foldM count_byte h l = Ok h' /\ hist h' data' /\
    forall k, occurrences k data' = occurrences k data + occurrences k l.
Proof.
  intros Hh Hl. revert h data Hh. induction Hl as [|b l Hb Hl IH]; intros h data Hh; simpl.
  { exists h, data. split; [done|]. split; [done|]. intros k. unfold occurrences at 3. simpl. lia. }
  destruct (hist_count h data b Hh Hb) as (h1 & -> & H1). mstep.
  destruct (IH h1 (b :: data) H1) as (h2 & d2 & -> & H2 & Hk). exists h2, d2. split; [done|].
  split; [done|]. intros k. rewrite Hk, !occurrences_cons. lia.
Qed.

(** Four histograms that share the data. *)
Definition hists (h0 h1 h2 h3 data : list Z) : Prop :=
  exists d0 d1 d2 d3, hist h0 d0 /\ hist h1 d1 /\ hist h2 d2 /\ hist h3 d3 /\
  forall k, occurrences k data = occurrences k d0 + occurrences k d1 + occurrences k d2 + occurrences k d3.

Lemma count_ways_hists n b h0 h1 h2 h3 data :
  length b = (4 * n)%nat -> bytes b -> hists h0 h1 h2 h3 data ->
  exists h0' h1' h2' h3', count_ways b h0 h1 h2 h3 = Ok (h0', h1', h2', h3') /\
    hists h0' h1' h2' h3' (data ++ b).
Proof.
  revert b h0 h1 h2 h3 data. induction n as [|n IH]; intros b h0 h1 h2 h3 data Hl Hb Hh.
  { destruct b; [|done]. exists h0, h1, h2, h3. rewrite app_nil_r. done. }
  destruct b as [|b0 [|b1 [|b2 [|b3 b]]]]; simpl in Hl; try lia.
  rewrite !bytes_cons in Hb. destruct Hb as (B0 & B1 & B2 & B3 & Hb).
  destruct Hh as (d0 & d1 & d2 & d3 & H0 & H1 & H2 & H3 & Hk). cbn [count_ways].
  destruct (hist_count h0 d0 b0 H0 B0) as (g0 & -> & G0). mstep.
  destruct (hist_count h1 d1 b1 H1 B1) as (g1 & -> & G1). mstep.
  destruct (hist_count h2 d2 b2 H2 B2) as (g2 & -> & G2). mstep.
  destruct (hist_count h3 d3 b3 H3 B3) as (g3 & -> & G3). mstep.
  destruct (IH b g0 g1 g2 g3 (data ++ [b0; b1; b2; b3])) as (a0 & a1 & a2 & a3 & -> & Ha); [lia|done| |].
  { exists (b0 :: d0), (b1 :: d1), (b2 :: d2), (b3 :: d3). split; [done|]. split; [done|]. split; [done|].
    split; [done|]. intros k. rewrite occurrences_app, Hk, !occurrences_cons. unfold occurrences. simpl. lia. }
  exists a0, a1, a2, a3. split; [done|]. rewrite <- app_assoc in Ha. done.
Qed.

Lemma count_blocks4_hists fuel data i h0 h1 h2 h3 :
  bytes data -> 0 <= i <= zlen data -> zlen data - i <= Z.of_nat fuel ->
  hists h0 h1 h2 h3 (take (Z.to_nat i) data) ->
  exists h0' h1' h2' h3', count_blocks4 fuel data i h0 h1 h2 h3 = Ok (h0', h1', h2', h3') /\
    hists h0' h1' h2' h3' data.
Proof.
  intros Hb. revert i h0 h1 h2 h3. induction fuel as [|fuel IH]; intros i h0 h1 h2 h3 Hi Hf Hh; simpl.
  all: case_if; try lia.
  2: { rewrite loadu_ok by lia. mstep. pose proof (length_slice data i 32 ltac:(lia) ltac:(lia) ltac:(lia)).
    destruct (count_ways_hists 8 (slice data i 32) h0 h1 h2 h3 _ ltac:(lia) ltac:(auto with netc) Hh)
      as (g0 & g1 & g2 & g3 & -> & Hg). mstep. rewrite take_slice in Hg by lia. apply IH; [lia|lia|done]. }
  all: destruct Hh as (d0 & d1 & d2 & d3 & H0 & H1 & H2 & H3 & Hk);
    destruct (hist_counts h0 d0 (drop (Z.to_nat i) data) H0 ltac:(auto with netc)) as (g0 & e0 & -> & G0 & Ge);
    mstep; exists g0, h1, h2, h3; (split; [done|]);
    exists e0, d1, d2, d3; (split; [done|]); (split; [done|]); (split; [done|]); (split; [done|]);
    intros k; rewrite <- (take_drop (Z.to_nat i) data) at 1; rewrite occurrences_app, Hk, Ge; lia.
Qed.

Lemma merge4_lookup freq h0 h1 h2 h3 n :
  length freq = n -> length h0 = n -> length h1 = n -> length h2 = n -> length h3 = n ->
  length (merge4 freq h0 h1 h2 h3) = n /\
  forall k f a b c d, freq !! k = Some f -> h0 !! k = Some a -> h1 !! k = Some b -> h2 !! k = Some c ->
    h3 !! k = Some d -> merge4 freq h0 h1 h2 h3 !! k = Some (u32 (f + u32 (a + b + c + d))).
Proof.
  revert freq h0 h1 h2 h3. induction n as [|n IH]; intros [|f freq] [|a h0] [|b h1] [|c h2] [|d h3] L L0 L1 L2 L3;
    simpl in *; try lia; [split; [done|intros ? ? ? ? ? ? H; done]|].
  destruct (IH freq h0 h1 h2 h3) as [Hl Hk]; [lia..|]. split; [lia|].
  intros [|k] f' a' b' c' d' Hf Ha Hb Hc Hd; simpl in *; [congruence|]. by apply Hk.
Qed.

Lemma freq_count_avx2_eq data freq :
  bytes data -> length freq = 256%nat -> Forall (fun n => 0 <= n < 2 ^ 32) freq ->
  netc_freq_count_avx2 data freq = netc_freq_count_generic data freq.
Proof.
  intros Hb Hl Hf. unfold netc_freq_count_avx2, netc_freq_count_generic. cbv zeta.
  destruct (count_blocks4_hists (length data) data 0 (replicate 256 0) (replicate 256 0) (replicate 256 0)
    (replicate 256 0) Hb) as (h0 & h1 & h2 & h3 & -> & Hh); [lia|lia| |].
  { exists [], [], [], []. pose proof hist_nil. repeat (split; [done|]). done. }
  mstep. destruct (count_bytes_counted freq data Hb Hl Hf) as (freq' & -> & Hc & _).
  f_equal. eapply counted_unique; [|done].
  destruct Hh as (d0 & d1 & d2 & d3 & (L0 & _ & K0) & (L1 & _ & K1) & (L2 & _ & K2) & (L3 & _ & K3) & Hk).
  destruct (merge4_lookup freq h0 h1 h2 h3 256 Hl L0 L1 L2 L3) as [Hml Hmk]. split; [lia|].
  intros k f Hlt Hkf.
  destruct (lookup_lt_is_Some_2 h0 k) as [a Ha]; [lia|]. destruct (lookup_lt_is_Some_2 h1 k) as [b Hb']; [lia|].
  destruct (lookup_lt_is_Some_2 h2 k) as [c Hc']; [lia|]. destruct (lookup_lt_is_Some_2 h3 k) as [d Hd]; [lia|].
  rewrite (Hmk k f a b c d) by done. rewrite (K0 _ _ Ha), (K1 _ _ Hb'), (K2 _ _ Hc'), (K3 _ _ Hd), Hk.
  f_equal. unfold u32. rewrite Zplus_mod_idemp_r.
  set (x := occurrences _ d0). set (y := occurrences _ d1). set (z := occurrences _ d2). set (w := occurrences _ d3).
  set (m := 2 ^ 32).
  pose proof (Z.div_mod x m ltac:(done)). pose proof (Z.div_mod y m ltac:(done)).
  pose proof (Z.div_mod z m ltac:(done)). pose proof (Z.div_mod w m ltac:(done)).
  rewrite <- (Z_mod_plus_full _ (x / m + y / m + z / m + w / m) m). f_equal. lia.
Qed.

Lemma freq_count_blocks_eq data freq :
  count_blocks 16 (length data) data 0 freq = netc_freq_count_generic data freq.
Proof. by rewrite count_blocks_eq by lia. Qed.

(** ** Every back end keeps the promise *)
Ltac delta_backend :=
  intros prev data Hp Hd Hl; eapply (four_regions _ vec_xor _ s_xor); try done;
  first
  [ by intros; apply vec_xor_lanes
  | by repeat (constructor; [lia|]); constructor
  | by intros; auto with netc
  | by intros i p d; unfold delta_enc_byte, delta_dec_byte; destruct (xor_class i) ].

#[export] Instance simd_generic_ok l :
  SimdOk (SimdOps netc_delta_encode_generic netc_delta_decode_generic netc_freq_count_generic
                  netc_crc32_update_generic l).
Proof. split; done. Qed.

#[export] Instance simd_sse42_ok l :
  SimdOk (SimdOps netc_delta_encode_sse42 netc_delta_decode_sse42 netc_freq_count_sse42
                  netc_crc32_update_sse42 l).
Proof.
  split; simpl; [delta_backend|delta_backend|].
  intros data freq _ _ _. apply freq_count_blocks_eq.
Qed.

#[export] Instance simd_avx2_ok l :
  SimdOk (SimdOps netc_delta_encode_avx2 netc_delta_decode_avx2 netc_freq_count_avx2
                  netc_crc32_update_sse42 l).
Proof. split; simpl; [delta_backend|delta_backend|apply freq_count_avx2_eq]. Qed.

#[export] Instance simd_neon_ok crc64 l :
  SimdOk (SimdOps netc_delta_encode_neon netc_delta_decode_neon netc_freq_count_neon
                  crc64 l).
Proof.
  split; simpl; [delta_backend|delta_backend|].
  intros data freq _ _ _. apply freq_count_blocks_eq.
Qed.

#[export] Instance simd_init_ok cpu l : SimdOk (netc_simd_ops_init cpu l).
Proof. unfold netc_simd_ops_init. repeat case_if; apply _. Qed.

(** ** Properties *)

(** C33: whatever CPU and level [netc_simd_ops_init] selects, the delta kernels
    compute the scalar delta of a packet no longer than its predecessor, and the
    histogram kernel adds to each counter the number of occurrences of its byte
    (modulo 2^32); on builds without the ARM CRC instructions the CRC kernel
    continues [netc_crc32].  With those instructions it does not
    ([neon_crc_not_inverted]). *)
Theorem simd_dispatch_equivalent (cpu : simd_caps) (l crc : Z) (prev curr data freq : list Z) :
  bytes prev -> bytes curr -> (length curr <= length prev)%nat ->
  bytes data -> length freq = 256%nat -> Forall (fun n => 0 <= n < 2 ^ 32) freq ->
  let ops := netc_simd_ops_init cpu l in
  delta_encode ops prev curr = netc_delta_encode prev curr /\
  delta_decode ops prev curr = netc_delta_decode prev curr /\
  (arm_crc32 cpu = false -> crc32_update ops crc data = netc_crc32_continue crc data) /\
  exists freq', freq_count ops data freq = Ok freq' /\ length freq' = 256%nat /\
    forall k f, freq !! k = Some f -> freq' !! k = Some (u32 (f + occurrences (Z.of_nat k) data)).
Proof.
  intros Hp Hc Hl Hd Hf Hr ops. split_and!.
  - by apply simd_encode.
  - by apply simd_decode.
  - intros Ha. unfold ops, netc_simd_ops_init. rewrite Ha. by repeat case_if.
  - destruct (count_bytes_counted freq data Hd Hf Hr) as (freq' & He & [Hl' Hk] & _). exists freq'.
    split; [rewrite simd_freq by done; exact He|]. split; [congruence|].
    intros k f Hkf. apply Hk; [by eapply lookup_lt_Some|done].
Qed.

Lemma simd_dispatch_equivalent_witness :
  let ops := netc_simd_ops_init (SimdCaps true true false true true false false false) NETC_SIMD_LEVEL_AUTO in
  delta_encode ops [1; 2; 3] [1; 2; 4] = netc_delta_encode [1; 2; 3] [1; 2; 4] /\
  delta_decode ops [1; 2; 3] [1; 2; 4] = netc_delta_decode [1; 2; 3] [1; 2; 4] /\
  (false = false -> crc32_update ops 5 [9; 9] = netc_crc32_continue 5 [9; 9]) /\
  exists freq', freq_count ops [9; 9] (replicate 256 0) = Ok freq' /\ length freq' = 256%nat /\
    forall k f, replicate 256 0 !! k = Some f -> freq' !! k = Some (u32 (f + occurrences (Z.of_nat k) [9; 9])).
Proof.
  apply (simd_dispatch_equivalent (SimdCaps true true false true true false false false) NETC_SIMD_LEVEL_AUTO 5 [1; 2; 3] [1; 2; 4] [9; 9] (replicate 256 0)).
  - repeat constructor; unfold is_byte; lia.
  - repeat constructor; unfold is_byte; lia.
  - simpl. lia.
  - repeat constructor; unfold is_byte; lia.
  - reflexivity.
  - apply Forall_replicate. lia.
Defined.

Lemma crc_blocks_fold width step fuel data crc :
  0 < width -> bytes data ->
  (forall c block, bytes block -> zlen block = width -> step c (le_val block) = fold_left acle_crc32b block c) ->
  let '(rest, c) := crc_blocks width step fuel data crc in
  bytes rest /\ fold_left acle_crc32b rest c = fold_left acle_crc32b data crc.
Proof.
  intros Hw Hb Hs. revert data crc Hb. induction fuel as [|fuel IH]; intros data crc Hb; simpl; [done|].
  case_if; [|done].
  assert (zlen (take (Z.to_nat width) data) = width) by (rewrite length_take; lia).
  rewrite Hs by (auto with netc).
  pose proof (IH (drop (Z.to_nat width) data) (fold_left acle_crc32b (take (Z.to_nat width) data) crc)
    ltac:(auto with netc)) as Hd. destruct (crc_blocks _ _ _ _ _) as [rest c]. destruct Hd as [Hr ->].
  split; [done|]. by rewrite <- fold_left_app, take_drop.
Qed.

Lemma neon_hw_fold a64 crc data :
  bytes data -> netc_crc32_update_neon_hw a64 crc data = fold_left acle_crc32b data crc.
Proof.
  intros Hb. assert (forall n c block, bytes block -> length block = n ->
    fold_left acle_crc32b (le_bytes n (le_val block)) c = fold_left acle_crc32b block c) as Hle.
  { intros n c block Hbl <-. by rewrite le_bytes_val. }
  unfold netc_crc32_update_neon_hw.
  assert (let '(rest, c) := if a64 then crc_blocks 8 acle_crc32d (length data) data crc else (data, crc) in
    bytes rest /\ fold_left acle_crc32b rest c = fold_left acle_crc32b data crc) as H1.
  { destruct a64; [|done]. apply crc_blocks_fold; [lia|done|]. intros c block Hbl Hl. apply Hle; [done|lia]. }
  destruct (if a64 then _ else _) as [d1 c1]. destruct H1 as [Hb1 <-].
  pose proof (crc_blocks_fold 4 acle_crc32w (length d1) d1 c1 ltac:(lia) Hb1) as H2.
  destruct (crc_blocks 4 _ _ _ _) as [d2 c2]. apply H2. intros c block Hbl Hl. apply Hle; [done|lia].
Qed.

(** The ARM hardware variant computes the CRC register without the inversions
    before and after, so it agrees with the generic kernel only up to
    complementing input and output: on one zero byte from 0 the two differ. *)
Theorem neon_crc_not_inverted (a64 : bool) (crc : Z) (data : list Z) :
  bytes data -> 0 <= crc < 2 ^ 32 ->
  netc_crc32_update_generic crc data =
    Z.lxor (netc_crc32_update_neon_hw a64 (Z.lxor crc 0xFFFFFFFF) data) 0xFFFFFFFF /\
  netc_crc32_update_neon_hw a64 0 [0] <> netc_crc32_update_generic 0 [0].
Proof.
  intros Hb Hc. split; [|destruct a64; discriminate]. rewrite neon_hw_fold by done.
  unfold netc_crc32_update_generic, netc_crc32_continue.
  assert (0 <= Z.lxor crc 0xFFFFFFFF < 2 ^ 32) as H0.
  { split; [apply Z.lxor_nonneg; lia|]. apply (lxor_lt crc 0xFFFFFFFF 32); lia. }
  unfold acle_crc32b. by rewrite crc_fold_bits by done.
Qed.

Lemma neon_crc_not_inverted_witness :
  netc_crc32_update_generic 5 [1; 2; 3; 4; 5] =
    Z.lxor (netc_crc32_update_neon_hw true (Z.lxor 5 0xFFFFFFFF) [1; 2; 3; 4; 5]) 0xFFFFFFFF /\
  netc_crc32_update_neon_hw true 0 [0] <> netc_crc32_update_generic 0 [0].
Proof. apply (neon_crc_not_inverted true 5 [1; 2; 3; 4; 5]); [repeat constructor; unfold is_byte; lia|lia]. Defined.
