(* ===== verification/Platform.v ===== *)
(** * CPU detection and diagnostics

    src/src/simd/netc_simd_generic.c: the capability checks behind the dispatch of
    Simd.v, as functions of what the CPUID and XGETBV instructions return and of
    the build; src/src/core/netc_ctx.c: netc_strerror and netc_version. *)

From Stdlib Require Import String.
From stdpp Require Import prelude.
From Stdlib Require Import ZArith Lia.
From S2P Require Import Prelude Header Simd.

Local Open Scope Z_scope.

(** ** The processor and the build *)

(** The registers CPUID returns for leaf 1 and for leaf 7, sub-leaf 0, the
    highest leaf, and the register XGETBV(0) reads. *)
Record cpu_t : Type := Cpu {
  leaf1_ecx : Z;
  leaf7_ebx : Z;
  max_leaf : Z;
  xcr0 : Z }.

Inductive compiler_t : Type := MSVC | GNU.

(** The compiler, whether it targets x86, whether [__AVX__] is defined, whether
    the target has NEON, and the back ends NETC_SIMD_AVX2, NETC_SIMD_SSE42 and
    NETC_SIMD_NEON of the build. *)
Record build_t : Type := Build {
  b_compiler : compiler_t;
  b_x86 : bool;
  b_avx : bool;
  b_neon : bool;
  b_simd_avx2 : bool;
  b_simd_sse42 : bool;
  b_simd_neon : bool;
  b_arm_crc32 : bool;
  b_aarch64 : bool }.

(** [__get_cpuid] fails above the highest leaf; [__cpuid] of MSVC does not
    look. *)
Definition get_cpuid (cpu : cpu_t) (leaf reg : Z) : option Z := if leaf <=? max_leaf cpu then Some reg else None.
Definition cpuid1 (b : build_t) (cpu : cpu_t) : option Z :=
  match b_compiler b with MSVC => Some (leaf1_ecx cpu) | GNU => get_cpuid cpu 1 (leaf1_ecx cpu) end.
Definition cpuid7 (b : build_t) (cpu : cpu_t) : option Z :=
  match b_compiler b with MSVC => Some (leaf7_ebx cpu) | GNU => get_cpuid cpu 7 (leaf7_ebx cpu) end.

(** ** The checks *)
Definition netc__has_sse42 (b : build_t) (cpu : cpu_t) : bool :=
  if b_x86 b then match cpuid1 b cpu with Some ecx => Z.testbit ecx 20 | None => false end else false.

(** Whether the build asks the operating system about the YMM registers. *)
Definition checks_ymm (b : build_t) : bool := match b_compiler b with MSVC => true | GNU => b_avx b end.

Definition netc__has_avx2 (b : build_t) (cpu : cpu_t) : bool :=
  if negb (b_x86 b) then false else
  match cpuid1 b cpu with
  | None => false
  | Some ecx =>
      if negb (Z.testbit ecx 27) then false else
      if negb (Z.testbit ecx 28) then false else
      if checks_ymm b && negb (Z.land (xcr0 cpu) 0x6 =? 0x6) then false else
      match cpuid7 b cpu with Some ebx => Z.testbit ebx 5 | None => false end
  end.

Definition netc__has_neon (b : build_t) : bool := b_neon b.

(** What the dispatch of Simd.v is given. *)
Definition detected (b : build_t) (cpu : cpu_t) : simd_caps :=
  let msvc := match b_compiler b with MSVC => true | GNU => false end in
  SimdCaps (netc__has_avx2 b cpu) (netc__has_sse42 b cpu) (netc__has_neon b)
    (msvc || b_simd_avx2 b) (msvc || b_simd_sse42 b) (b_neon b || b_simd_neon b) (b_arm_crc32 b) (b_aarch64 b).

(** ** Diagnostics *)

(** Every enumerator has a case; the default is for other integers. *)
Definition netc_strerror (r : option netc_result_t) : string :=
  match r with
  | None => "success"
  | Some NETC_ERR_NOMEM => "memory allocation failure"
  | Some NETC_ERR_TOOBIG => "input exceeds NETC_MAX_PACKET_SIZE"
  | Some NETC_ERR_CORRUPT => "corrupt or truncated compressed data"
  | Some NETC_ERR_DICT_INVALID => "dictionary checksum mismatch or bad format"
  | Some NETC_ERR_BUF_SMALL => "output buffer capacity insufficient"
  | Some NETC_ERR_CTX_NULL => "NULL context pointer"
  | Some NETC_ERR_UNSUPPORTED => "algorithm or feature not supported"
  | Some NETC_ERR_VERSION => "model_id or dictionary format version mismatch"
  | Some NETC_ERR_INVALID_ARG => "invalid argument"
  end.

Definition netc_version : string := "0.2.0".

(** ** Facts *)

Lemma xcr0_bits x : Z.land x 0x6 = 0x6 -> Z.testbit x 1 = true /\ Z.testbit x 2 = true.
Proof.
  intros H. split; [pose proof (Z.land_spec x 6 1) as E|pose proof (Z.land_spec x 6 2) as E]; rewrite H in E; cbn in E;
    by rewrite andb_true_r in E.
Qed.

(** Messages identify the code. *)
Lemma strerror_distinct r r' : netc_strerror r = netc_strerror r' -> r = r'.
Proof. destruct r as [[]|], r' as [[]|]; (reflexivity || discriminate). Qed.

Lemma cpuid1_some b cpu ecx : cpuid1 b cpu = Some ecx -> ecx = leaf1_ecx cpu.
Proof. unfold cpuid1, get_cpuid. destruct (b_compiler b); [|case_if]; by intros [= <-]. Qed.

Lemma cpuid7_some b cpu ebx : cpuid7 b cpu = Some ebx -> ebx = leaf7_ebx cpu.
Proof. unfold cpuid7, get_cpuid. destruct (b_compiler b); [|case_if]; by intros [= <-]. Qed.

Lemma has_avx2_spec b cpu :
  netc__has_avx2 b cpu = true ->
  b_x86 b = true /\ Z.testbit (leaf1_ecx cpu) 27 = true /\ Z.testbit (leaf1_ecx cpu) 28 = true /\ Z.testbit (leaf7_ebx cpu) 5 = true /\
  (checks_ymm b = true -> Z.testbit (xcr0 cpu) 1 = true /\ Z.testbit (xcr0 cpu) 2 = true).
Proof.
  unfold netc__has_avx2. destruct (b_x86 b); [cbn [negb]|done]. destruct (cpuid1 b cpu) as [ecx|] eqn:E1; [|done].
  apply cpuid1_some in E1 as ->. destruct (Z.testbit _ 27); [cbn [negb]|done]. destruct (Z.testbit _ 28); [cbn [negb]|done].
  destruct (checks_ymm b && _) eqn:Ec; [done|]. destruct (cpuid7 b cpu) as [ebx|] eqn:E7; [|done]. apply cpuid7_some in E7 as ->.
  intros ->. split_and!; try done; intros Hc; rewrite Hc in Ec; cbn [andb] in Ec; apply negb_false_iff, Z.eqb_eq in Ec; by apply xcr0_bits.
Qed.

(** The dispatch never selects instructions that cannot be executed.  In a build
    that checks the YMM state (every MSVC build, and a GNU build with AVX code
    generation, which is how the build system enables the AVX2 back end): whatever
    level is asked for, the AVX2 kernels are selected only if the processor
    reports OSXSAVE, AVX and AVX2 and the operating system saves the XMM and YMM
    registers, the SSE4.2 kernels only if it reports SSE4.2, and the NEON kernels
    only for a target with NEON. *)
Theorem dispatch_supported (b : build_t) (cpu : cpu_t) (l : Z) :
  (b_compiler b = GNU -> b_simd_avx2 b = true -> b_avx b = true) ->
  let lvl := level (netc_simd_ops_init (detected b cpu) l) in
  (lvl = NETC_SIMD_LEVEL_AVX2 -> b_x86 b = true /\ Z.testbit (leaf1_ecx cpu) 27 = true /\ Z.testbit (leaf1_ecx cpu) 28 = true /\
     Z.testbit (leaf7_ebx cpu) 5 = true /\ Z.testbit (xcr0 cpu) 1 = true /\ Z.testbit (xcr0 cpu) 2 = true) /\
  (lvl = NETC_SIMD_LEVEL_SSE42 -> b_x86 b = true /\ Z.testbit (leaf1_ecx cpu) 20 = true) /\
  (lvl = NETC_SIMD_LEVEL_NEON -> b_neon b = true).
Proof.
  intros Hg lvl. unfold lvl, netc_simd_ops_init. set (l' := if l =? _ then _ else l). clearbody l'. clear lvl.
  destruct (built_avx2 _ && _) eqn:E1; [|destruct (built_sse42 _ && _) eqn:E2; [|destruct (built_neon _ && _) eqn:E3]]; cbn [level].
  - split; [intros _|by split]. apply andb_prop in E1 as [Hb (_ & Ha)%andb_prop]. cbn [detected built_avx2 has_avx2] in *.
    destruct (has_avx2_spec _ _ Ha) as (H1 & H2 & H3 & H4 & H5). refine (conj H1 (conj H2 (conj H3 (conj H4 _)))). apply H5.
    unfold checks_ymm. destruct (b_compiler b) eqn:Ecc; [done|]. by apply Hg.
  - split; [done|]. split; [intros _|done]. apply andb_prop in E2 as [_ (_ & Ha)%andb_prop]. cbn [detected has_sse42] in Ha.
    unfold netc__has_sse42 in Ha. destruct (b_x86 b); [|done]. destruct (cpuid1 b cpu) as [ecx|] eqn:E; [|done].
    apply cpuid1_some in E as ->. done.
  - split; [done|]. split; [done|intros _]. by apply andb_prop in E3 as [_ (_ & Ha)%andb_prop].
  - done.
Qed.
