(* ===== verification/Ctx.v ===== *)
(** * Contexts
      (src/src/core/netc_ctx.c, netc_internal.h, src/src/algo/netc_adaptive.{c,h};
      the history helpers of netc_compress.c and netc_decompress.c)

    The dictionary and context records, context creation and reset, the delta
    history, the ring buffer and the adaptive model.  A NULL pointer is [None].
    Allocation is a parameter: [mem k] says whether allocation site [k] of
    [netc_ctx_create] succeeds.  The arena is scratch memory that every call
    writes before it reads it, so only its size is state. *)

From stdpp Require Import prelude.
From Stdlib Require Import ZArith Lia.
From S2P Require Import Prelude TansTable Bitstream TansCodec Lzp Freq Delta Crc32 Simd Header Lz.

Local Open Scope Z_scope.

(** ** Records *)
Record netc_dict_t := Dict {
  d_magic : Z;
  d_version : Z;
  d_model_id : Z;
  d_ctx_count : Z;
  d_dict_flags : Z;
  d_tables : list netc_tans_table_t;
  d_bigram_tables : list (list netc_tans_table_t);
  d_bigram_class_map : list Z;
  d_bigram_class_count : Z;
  d_lzp_table : option (list netc_lzp_entry_t);
  d_checksum : Z
}.

Record netc_stats_t := Stats {
  packets_compressed : Z;
  packets_decompressed : Z;
  bytes_in : Z;
  bytes_out : Z;
  passthrough_count : Z
}.

Record netc_cfg_t := Cfg {
  cfg_flags : Z;
  cfg_ring_buffer_size : Z;
  cfg_compression_level : Z;
  cfg_simd_level : Z;
  cfg_arena_size : Z
}.

Record netc_ctx_t := Ctx {
  c_dict : option netc_dict_t;
  c_flags : Z;
  c_compression_level : Z;
  c_simd_level : Z;
  c_ring : option (list Z);
  c_ring_size : Z;
  c_ring_pos : Z;
  c_simd_ops : netc_simd_ops_t;
  c_prev_pkt : option (list Z);
  c_prev_pkt_size : Z;
  c_prev2_pkt : option (list Z);
  c_prev2_pkt_size : Z;
  c_context_seq : Z;
  c_arena_size : Z;
  c_stats : netc_stats_t;
  c_adapt_freq : option (list Z);
  c_adapt_total : list Z;
  c_adapt_tables : option (list netc_tans_table_t);
  c_adapt_lzp : option (list netc_lzp_entry_t);
  c_adapt_pkt_count : Z
}.

Definition set_ring (ctx : netc_ctx_t) (ring : option (list Z)) (pos : Z) : netc_ctx_t :=
  let '(Ctx d f cl sl r rs rp so p ps p2 p2s q a st af at_ ats al ac) := ctx in
  Ctx d f cl sl ring rs pos so p ps p2 p2s q a st af at_ ats al ac.
Definition set_prev (ctx : netc_ctx_t) (prev : option (list Z)) (size : Z) : netc_ctx_t :=
  let '(Ctx d f cl sl r rs rp so p ps p2 p2s q a st af at_ ats al ac) := ctx in
  Ctx d f cl sl r rs rp so prev size p2 p2s q a st af at_ ats al ac.
Definition set_prev2 (ctx : netc_ctx_t) (prev2 : option (list Z)) (size : Z) : netc_ctx_t :=
  let '(Ctx d f cl sl r rs rp so p ps p2 p2s q a st af at_ ats al ac) := ctx in
  Ctx d f cl sl r rs rp so p ps prev2 size q a st af at_ ats al ac.
Definition set_seq (ctx : netc_ctx_t) (seq : Z) : netc_ctx_t :=
  let '(Ctx d f cl sl r rs rp so p ps p2 p2s q a st af at_ ats al ac) := ctx in
  Ctx d f cl sl r rs rp so p ps p2 p2s seq a st af at_ ats al ac.
Definition set_stats (ctx : netc_ctx_t) (stats : netc_stats_t) : netc_ctx_t :=
  let '(Ctx d f cl sl r rs rp so p ps p2 p2s q a st af at_ ats al ac) := ctx in
  Ctx d f cl sl r rs rp so p ps p2 p2s q a stats af at_ ats al ac.
Definition set_adapt (ctx : netc_ctx_t) (freq : option (list Z)) (total : list Z)
    (tables : option (list netc_tans_table_t)) (count : Z) : netc_ctx_t :=
  let '(Ctx d f cl sl r rs rp so p ps p2 p2s q a st af at_ ats al ac) := ctx in
  Ctx d f cl sl r rs rp so p ps p2 p2s q a st freq total tables al count.
Definition set_adapt_lzp (ctx : netc_ctx_t) (lzp : option (list netc_lzp_entry_t)) : netc_ctx_t :=
  let '(Ctx d f cl sl r rs rp so p ps p2 p2s q a st af at_ ats al ac) := ctx in
  Ctx d f cl sl r rs rp so p ps p2 p2s q a st af at_ ats lzp ac.

(** ** Creation, reset, statistics *)
Definition NETC_DEFAULT_RING_SIZE : Z := 64 * 1024.
Definition NETC_DEFAULT_ARENA_SIZE : Z := NETC_MAX_PACKET_SIZE * 2 + 64.
Definition NETC_ADAPTIVE_INTERVAL : Z := 128.
Definition NETC_ADAPTIVE_ALPHA_NUM : Z := 3.
Definition NETC_ADAPTIVE_ALPHA_DEN : Z := 4.

Definition NETC_CFG_DEFAULT : netc_cfg_t := Cfg NETC_CFG_FLAG_STATEFUL 0 5 0 0.

Definition stats_zero : netc_stats_t := Stats 0 0 0 0 0.

Definition zero_bytes (n : Z) : list Z := replicate (Z.to_nat n) 0.

(** An all-zero table, as [calloc] leaves it. *)
Definition zero_table : netc_tans_table_t :=
  TansTable (replicate (Z.to_nat NETC_TANS_TABLE_SIZE) (DecodeEntry 0 0 0))
            (replicate (Z.to_nat NETC_TANS_TABLE_SIZE) 0)
            (replicate 256 (EncodeEntry 0 0 0 0)) (replicate 256 0) false.

(** Dictionary predictions start with confidence 4. *)
Definition boost_lzp (tbl : list netc_lzp_entry_t) : list netc_lzp_entry_t :=
  (fun e => if negb (lzp_valid e =? 0) then LzpEntry (lzp_value e) 4 else e) <$> tbl.

Definition netc_ctx_create (cpu : simd_caps) (mem : nat -> bool)
    (dict : option netc_dict_t) (cfg : option netc_cfg_t) : option netc_ctx_t :=
  let cfg := default NETC_CFG_DEFAULT cfg in
  let stateful := has (cfg_flags cfg) NETC_CFG_FLAG_STATEFUL in
  let adaptive := has (cfg_flags cfg) NETC_CFG_FLAG_ADAPTIVE in
  if negb (mem 0%nat) then None else
  let ring_size := if stateful then
      if 0 <? cfg_ring_buffer_size cfg then u32 (cfg_ring_buffer_size cfg) else NETC_DEFAULT_RING_SIZE
    else 0 in
  if stateful && negb (mem 1%nat) then None else
  let ring := if stateful then Some (zero_bytes ring_size) else None in
  let arena_size := if 0 <? cfg_arena_size cfg then cfg_arena_size cfg else NETC_DEFAULT_ARENA_SIZE in
  if negb (mem 2%nat) then None else
  if stateful && negb (mem 3%nat) then None else
  let prev := if stateful then Some (zero_bytes NETC_MAX_PACKET_SIZE) else None in
  if adaptive && negb stateful then None else
  if adaptive && negb (mem 4%nat && mem 5%nat && mem 6%nat && mem 7%nat) then None else
  let tables := match dict with
    | Some d => d_tables d
    | None => replicate (Z.to_nat NETC_CTX_COUNT) zero_table
    end in
  let lzp := match dict with
    | Some d => match d_lzp_table d with
                | Some t => if mem 8%nat then Some (boost_lzp t) else None
                | None => None
                end
    | None => None
    end in
  Some (Ctx dict (cfg_flags cfg) (cfg_compression_level cfg) (cfg_simd_level cfg)
            ring ring_size 0 (netc_simd_ops_init cpu (cfg_simd_level cfg))
            prev 0 (if adaptive then Some (zero_bytes NETC_MAX_PACKET_SIZE) else None) 0
            0 arena_size stats_zero
            (if adaptive then Some (replicate (Z.to_nat (NETC_CTX_COUNT * 256)) 0) else None)
            (if adaptive then replicate (Z.to_nat NETC_CTX_COUNT) 0 else [])
            (if adaptive then Some tables else None)
            (if adaptive then lzp else None) 0).

Definition netc_ctx_reset (ctx : netc_ctx_t) : netc_ctx_t :=
  let ctx := match c_ring ctx with
    | Some _ => set_ring ctx (Some (zero_bytes (c_ring_size ctx))) 0
    | None => ctx
    end in
  let ctx := set_prev ctx ((fun _ => zero_bytes NETC_MAX_PACKET_SIZE) <$> c_prev_pkt ctx) 0 in
  let ctx := set_seq ctx 0 in
  let ctx := set_stats ctx stats_zero in
  let ctx := match c_prev2_pkt ctx with
    | Some _ => set_prev2 ctx (Some (zero_bytes NETC_MAX_PACKET_SIZE)) 0
    | None => ctx
    end in
  match c_adapt_freq ctx with
  | None => ctx
  | Some _ =>
      let tables := match c_dict ctx with Some d => Some (d_tables d) | None => c_adapt_tables ctx end in
      let lzp := match c_dict ctx with
        | Some d => match c_adapt_lzp ctx, d_lzp_table d with
                    | Some _, Some t => Some (boost_lzp t)
                    | _, _ => c_adapt_lzp ctx
                    end
        | None => c_adapt_lzp ctx
        end in
      set_adapt_lzp
        (set_adapt ctx (Some (replicate (Z.to_nat (NETC_CTX_COUNT * 256)) 0))
                   (replicate (Z.to_nat NETC_CTX_COUNT) 0) tables 0) lzp
  end.

Definition netc_ctx_stats (ctx : option netc_ctx_t) (out_null : bool) : outcome netc_result_t netc_stats_t :=
  match ctx with
  | None => Fail NETC_ERR_CTX_NULL
  | Some ctx =>
      if out_null then Fail NETC_ERR_INVALID_ARG else
      if negb (has (c_flags ctx) NETC_CFG_FLAG_STATS) then Fail NETC_ERR_UNSUPPORTED else
      Ok (c_stats ctx)
  end.

Definition netc_ctx_simd_level (ctx : option netc_ctx_t) : Z :=
  match ctx with None => 0 | Some ctx => level (c_simd_ops ctx) end.

(** ** Tables in use *)
Definition netc_get_tables (ctx : netc_ctx_t) (dict : netc_dict_t) : list netc_tans_table_t :=
  match c_adapt_tables ctx with Some t => t | None => d_tables dict end.

Definition netc_get_lzp_table (ctx : netc_ctx_t) : option (list netc_lzp_entry_t) :=
  match c_adapt_lzp ctx with
  | Some t => Some t
  | None => match c_dict ctx with Some d => d_lzp_table d | None => None end
  end.

(** ** History *)

(** Rotate the previous packets. *)
Definition compress_update_prev {E} (ctx : netc_ctx_t) (src : list Z) : outcome E netc_ctx_t :=
  match c_prev_pkt ctx with
  | None => Ok ctx
  | Some prev =>
      ctx ← match c_prev2_pkt ctx with
            | None => Ok ctx
            | Some prev2 =>
                if zlen prev <? c_prev_pkt_size ctx then Undef else
                prev2' ← blit prev2 0 (take (Z.to_nat (c_prev_pkt_size ctx)) prev);
                Ok (set_prev2 ctx (Some prev2') (c_prev_pkt_size ctx))
            end;
      prev' ← blit prev 0 src;
      Ok (set_prev ctx (Some prev') (zlen src))
  end.

(** netc_decompress.c has its own copy of the function. *)
Definition decomp_update_prev {E} (ctx : netc_ctx_t) (dst : list Z) : outcome E netc_ctx_t :=
  compress_update_prev ctx dst.

Definition ctx_ring_append {E} (ctx : netc_ctx_t) (data : list Z) : outcome E netc_ctx_t :=
  match c_ring ctx with
  | None => Ok ctx
  | Some ring =>
      let rs := c_ring_size ctx in
      if (rs =? 0) || (zlen data =? 0) then Ok ctx else
      let '(data, pos) :=
        if rs <=? zlen data then (drop (Z.to_nat (zlen data - rs)) data, 0)
        else (data, c_ring_pos ctx) in
      let len := zlen data in
      let tail := rs - pos in
      ring' ← (if len <=? tail then blit ring pos data
               else r ← blit ring pos (take (Z.to_nat tail) data);
                    blit r 0 (drop (Z.to_nat tail) data));
      Ok (set_ring ctx (Some ring') (u32 ((pos + len) mod rs)))
  end.

(** netc_decompress.c has its own copy of the function. *)
Definition decomp_ring_append {E} (ctx : netc_ctx_t) (data : list Z) : outcome E netc_ctx_t :=
  ctx_ring_append ctx data.

(** ** Adaptive model *)

(** The blend of one symbol: three quarters observed, one quarter dictionary. *)
Definition blend (bucket_freq bucket_total dict_freq : Z) : Z :=
  if 0 <? bucket_total then
    bucket_freq * NETC_ADAPTIVE_ALPHA_NUM +
    dict_freq * bucket_total / NETC_TANS_TABLE_SIZE * (NETC_ADAPTIVE_ALPHA_DEN - NETC_ADAPTIVE_ALPHA_NUM)
  else dict_freq.

(** One bucket of the rebuild. *)
Definition rebuild_bucket (accum accum_total : list Z) (dict_tables : list netc_tans_table_t) (b : Z)
  : outcome unit netc_tans_table_t :=
  bucket_total ← aget accum_total b;
  dt ← aget dict_tables b;
  let blended := zip_with (fun f d => blend f bucket_total d) (slice accum (b * 256) 256) (t_freq dt) in
  ft ← freq_normalize_adaptive blended (lsum blended);
  r ← attempt (netc_tans_build ft);
  Ok (default dt r).

Definition netc_adaptive_tables_rebuild (ctx : netc_ctx_t) : outcome unit netc_ctx_t :=
  match c_adapt_freq ctx, c_adapt_tables ctx, c_dict ctx with
  | Some accum, Some tables, Some dict =>
      tables' ← foldM (fun ts b =>
                         t ← rebuild_bucket accum (c_adapt_total ctx) (d_tables dict) b;
                         aset ts b t) tables (seqZ 0 NETC_CTX_COUNT);
      Ok (set_adapt ctx (Some accum) (c_adapt_total ctx) (Some tables') (c_adapt_pkt_count ctx))
  | _, _, _ => Ok ctx
  end.

(** [freq[b * 256 + data[i]]++; total[b]++] for all [i]. *)
Fixpoint accumulate (i : Z) (data : list Z) (freq total : list Z) : outcome unit (list Z * list Z) :=
  match data with
  | [] => Ok (freq, total)
  | x :: data' =>
      let b := netc_ctx_bucket i in
      f ← aget freq (b * 256 + x);
      freq' ← aset freq (b * 256 + x) (u32 (f + 1));
      t ← aget total b;
      total' ← aset total b (u32 (t + 1));
      accumulate (i + 1) data' freq' total'
  end.

Definition netc_adaptive_update (ctx : netc_ctx_t) (data : list Z) : outcome unit netc_ctx_t :=
  match c_adapt_freq ctx with
  | None => Ok ctx
  | Some freq =>
      '(freq', total') ← accumulate 0 data freq (c_adapt_total ctx);
      let count := u32 (c_adapt_pkt_count ctx + 1) in
      let ctx := set_adapt ctx (Some freq') total' (c_adapt_tables ctx) count in
      if NETC_ADAPTIVE_INTERVAL <=? count then
        ctx ← netc_adaptive_tables_rebuild ctx;
        Ok (set_adapt ctx (c_adapt_freq ctx) (c_adapt_total ctx) (c_adapt_tables ctx) 0)
      else Ok ctx
  end.

(** ** Well-formedness *)
Definition freq_shape (t : netc_tans_table_t) : Prop :=
  length (t_freq t) = 256%nat /\ Forall (fun f => 0 <= f < 65536) (t_freq t) /\ lsum (t_freq t) <= 4096.

Record dict_ok (d : netc_dict_t) : Prop := {
  dok_tables : tables_ok (d_tables d);
  dok_freqs : Forall freq_shape (d_tables d);
  dok_bigram : bigram_ok (d_bigram_tables d);
  dok_class_map : class_map_ok (Some (d_bigram_class_map d));
  dok_lzp : forall t, d_lzp_table d = Some t -> lzp_table_ok t;
  dok_model : is_byte (d_model_id d)
}.

(** A packet-sized history buffer. *)
Definition hist_ok (buf : list Z) (size : Z) : Prop :=
  zlen buf = NETC_MAX_PACKET_SIZE /\ bytes buf /\ 0 <= size <= NETC_MAX_PACKET_SIZE.

Record ctx_ok (ctx : netc_ctx_t) : Prop := {
  cok_dict : forall d, c_dict ctx = Some d -> dict_ok d;
  cok_simd : SimdOk (c_simd_ops ctx);
  cok_ring : forall r, c_ring ctx = Some r ->
    ring_ok r (c_ring_size ctx) /\ 0 <= c_ring_pos ctx < c_ring_size ctx /\ c_ring_size ctx < 2 ^ 32;
  cok_prev : forall p, c_prev_pkt ctx = Some p -> hist_ok p (c_prev_pkt_size ctx);
  cok_no_prev : c_prev_pkt ctx = None -> c_prev_pkt_size ctx = 0;
  cok_prev2 : forall p, c_prev2_pkt ctx = Some p -> hist_ok p (c_prev2_pkt_size ctx);
  cok_seq : is_byte (c_context_seq ctx);
  cok_freq : forall f, c_adapt_freq ctx = Some f ->
    zlen f = NETC_CTX_COUNT * 256 /\ Forall (fun n => 0 <= n < 2 ^ 32) f /\
    zlen (c_adapt_total ctx) = NETC_CTX_COUNT /\ Forall (fun n => 0 <= n < 2 ^ 32) (c_adapt_total ctx);
  cok_atables : forall t, c_adapt_tables ctx = Some t -> c_dict ctx <> None -> tables_ok t;
  cok_atables_len : forall t, c_adapt_tables ctx = Some t -> zlen t = NETC_CTX_COUNT;
  cok_alzp : forall t, c_adapt_lzp ctx = Some t -> lzp_table_ok t
}.

(** ** Lemmas: history *)
Lemma blit_0 {E} buf data :
  zlen data <= zlen buf -> @blit E buf 0 data = Ok (data ++ drop (length data) buf).
Proof. intros. rewrite blit_ok by lia. by rewrite Z.add_0_l, Nat2Z.id. Qed.

Lemma blit_front {E} buf data :
  zlen data <= zlen buf -> bytes buf -> bytes data ->
  exists buf', @blit E buf 0 data = Ok buf' /\ zlen buf' = zlen buf /\ bytes buf' /\
    take (length data) buf' = data.
Proof.
  intros Hl Hb Hd. rewrite blit_0 by lia. eexists. split; [done|].
  rewrite length_app, length_drop. split; [lia|].
  split; [apply bytes_app; auto with netc|]. apply take_app_length.
Qed.

(** The bytes of the ring from the oldest to the newest. *)
Definition ring_view (ring : list Z) (pos : Z) : list Z := drop (Z.to_nat pos) ring ++ take (Z.to_nat pos) ring.

(** The newest [n] elements. *)
Definition suffix_of (n : nat) (l : list Z) : list Z := drop (length l - n) l.

Lemma blit_length {E} buf pos data buf' :
  @blit E buf pos data = Ok buf' -> length buf' = length buf.
Proof.
  unfold blit. case_if; [|done]. intros [= <-].
  rewrite !length_app, length_take, length_drop. lia.
Qed.

Lemma take_app_pre {A} (a b : list A) n : n = length a -> take n (a ++ b) = a.
Proof. intros ->. apply take_app_length. Qed.
Lemma drop_app_pre {A} (a b : list A) n : n = length a -> drop n (a ++ b) = b.
Proof. intros ->. apply drop_app_length. Qed.

(** Appending refines "push at the end, drop the oldest". *)
Lemma ring_append_view {E} ring rs pos data ring' pos' :
  zlen ring = rs -> 0 < rs < 2 ^ 32 -> 0 <= pos < rs -> data <> [] ->
  (let '(data, pos) := if rs <=? zlen data then (drop (Z.to_nat (zlen data - rs)) data, 0) else (data, pos) in
   r ← (if zlen data <=? rs - pos then @blit E ring pos data
        else r ← blit ring pos (take (Z.to_nat (rs - pos)) data); blit r 0 (drop (Z.to_nat (rs - pos)) data));
   Ok (r, u32 ((pos + zlen data) mod rs))) = Ok (ring', pos') ->
  zlen ring' = rs /\ 0 <= pos' < rs /\
  ring_view ring' pos' = suffix_of (Z.to_nat rs) (ring_view ring pos ++ data).
Proof.
  intros Hl Hrs Hp Hne. unfold suffix_of, ring_view. case_if.
  - (* the packet fills the ring *)
    set (d := drop (Z.to_nat (zlen data - rs)) data).
    assert (zlen d = rs) as Hd by (unfold d; rewrite length_drop; lia). rewrite Hd. if_true.
    rewrite blit_0 by lia. mstep. rewrite Z.add_0_l, Z.mod_same by lia.
    intros [= <- <-]. change (u32 0) with 0. rewrite (drop_ge ring) by lia. rewrite app_nil_r.
    split; [done|]. split; [lia|]. change (Z.to_nat 0) with 0%nat. rewrite take_0, drop_0, app_nil_r.
    unfold d. rewrite length_app. rewrite (drop_app_ge); [f_equal|]; rewrite ?length_app, ?length_drop, ?length_take; lia.
  - destruct (decide (zlen data <= rs - pos)) as [Hfit|Hfit].
    + rewrite (proj2 (Z.leb_le _ _) Hfit). rewrite blit_ok by lia. mstep. intros [= <- <-].
      rewrite u32_small by (pose proof (Z.mod_pos_bound (pos + zlen data) rs ltac:(lia)); lia).
      pose proof (Z.mod_pos_bound (pos + zlen data) rs ltac:(lia)) as Hm.
      split; [rewrite !length_app, length_take, length_drop; lia|]. split; [lia|].
      set (A := take (Z.to_nat pos) ring). set (C := drop (Z.to_nat (pos + zlen data)) ring).
      assert (length A = Z.to_nat pos) as HA by (unfold A; rewrite length_take; lia).
      assert (exists B, drop (Z.to_nat pos) ring = B ++ C /\ zlen B = zlen data) as (B & HB & HBl).
      { exists (take (length data) (drop (Z.to_nat pos) ring)). split.
        - rewrite <- (take_drop (length data) (drop (Z.to_nat pos) ring)) at 1. f_equal. unfold C.
          rewrite drop_drop. f_equal. lia.
        - rewrite length_take, length_drop. lia. }
      assert (zlen C = rs - pos - zlen data) as HC by (unfold C; rewrite length_drop; lia).
      rewrite HB. rewrite !length_app.
      replace (length B + length C + length A + length data - Z.to_nat rs)%nat with (length B) by lia.
      rewrite <- !app_assoc, (drop_app_pre B) by done.
      destruct (decide (pos + zlen data = rs)) as [Heq|Hlt].
      * rewrite Heq, Z.mod_same by lia. change (Z.to_nat 0) with 0%nat. rewrite drop_0, take_0, app_nil_r.
        assert (C = []) as -> by (apply length_zero_iff_nil; lia). by rewrite app_nil_r.
      * rewrite Z.mod_small by lia. rewrite (app_assoc A data C).
        rewrite take_app_pre, drop_app_pre; [done|rewrite length_app; lia..].
    + assert ((zlen data <=? rs - pos) = false) as -> by (apply Z.leb_gt; lia).
      set (t := Z.to_nat (rs - pos)). assert (length (take t data) = t) as Ht by (rewrite length_take; lia).
      rewrite blit_ok by lia. mstep.
      assert (drop (Z.to_nat (pos + zlen (take t data))) ring = []) as -> by (apply drop_ge; lia).
      rewrite app_nil_r. set (A := take (Z.to_nat pos) ring).
      assert (length A = Z.to_nat pos) as HA by (unfold A; rewrite length_take; lia).
      rewrite blit_0 by (rewrite ?length_app, ?length_drop; lia). mstep. intros [= <- <-].
      set (u := drop t data). assert (zlen u = zlen data - (rs - pos)) as Hu by (unfold u; rewrite length_drop; lia).
      replace ((pos + zlen data) mod rs) with (zlen u).
      2: { rewrite Hu. apply Z.mod_unique with 1; lia. }
      rewrite u32_small by lia.
      rewrite (drop_app_le A) by lia. rewrite Nat2Z.id.
      split; [rewrite !length_app, length_drop; lia|]. split; [lia|].
      rewrite !length_app, (length_drop ring). fold A.
      replace (length ring - Z.to_nat pos + length A + length data - Z.to_nat rs)%nat with (length data) by lia.
      rewrite take_app_pre, drop_app_pre by lia.
      rewrite <- (app_assoc (drop (Z.to_nat pos) ring)), (drop_app_ge (drop (Z.to_nat pos) ring))
        by (rewrite length_drop; lia). rewrite (length_drop ring).
      replace (length data - (length ring - Z.to_nat pos))%nat with (length u) by lia.
      rewrite (drop_app_le A data) by lia. rewrite <- app_assoc. f_equal.
      unfold u. apply take_drop.
Qed.

(** *** Each history operation is total on a well-formed context and keeps it so *)

(** Prove [ctx_ok] of an updated record from [ctx_ok] of the original. *)
Ltac ctx_update H :=
  let H1 := fresh in let H2 := fresh in let H3 := fresh in let H4 := fresh in let H5 := fresh in
  let H6 := fresh in let H7 := fresh in let H8 := fresh in let H9 := fresh in let H10 := fresh in
  let H11 := fresh in
  destruct H as [H1 H2 H3 H4 H5 H6 H7 H8 H9 H10 H11]; constructor; simpl in *; try done.

Lemma update_prev_ok {E} ctx src :
  ctx_ok ctx -> bytes src -> zlen src <= NETC_MAX_PACKET_SIZE ->
  exists ctx', @compress_update_prev E ctx src = Ok ctx' /\ ctx_ok ctx'.
Proof.
  intros Hok Hb Hl. unfold compress_update_prev.
  destruct (c_prev_pkt ctx) as [prev|] eqn:Ep; [|by exists ctx].
  destruct (cok_prev _ Hok _ Ep) as (Hpl & Hpb & Hps).
  assert (exists ctx1, match c_prev2_pkt ctx with
            | None => Ok ctx
            | Some prev2 =>
                if zlen prev <? c_prev_pkt_size ctx then Undef else
                prev2' ← @blit E prev2 0 (take (Z.to_nat (c_prev_pkt_size ctx)) prev);
                Ok (set_prev2 ctx (Some prev2') (c_prev_pkt_size ctx))
            end = Ok ctx1 /\ ctx_ok ctx1) as (ctx1 & -> & Hok1).
  { destruct (c_prev2_pkt ctx) as [prev2|] eqn:Ep2; [|by exists ctx].
    destruct (cok_prev2 _ Hok _ Ep2) as (Hp2l & Hp2b & _). if_false.
    destruct (@blit_front E prev2 (take (Z.to_nat (c_prev_pkt_size ctx)) prev)) as (b' & -> & Hbl & Hbb & _);
      [rewrite length_take; lia|done|auto with netc|].
    mstep. eexists. split; [done|]. destruct ctx. ctx_update Hok.
    intros p [= <-]. split; [lia|]. done. }
  mstep. destruct (@blit_front E prev src) as (b' & -> & Hbl & Hbb & _); [lia|done|done|].
  mstep. eexists. split; [done|]. destruct ctx1. ctx_update Hok1.
  intros p [= <-]. split; [lia|]. split; [done|lia].
Qed.

Lemma blit_bytes {E} buf pos data buf' :
  @blit E buf pos data = Ok buf' -> bytes buf -> bytes data -> bytes buf'.
Proof.
  unfold blit. case_if; [|done]. intros [= <-] Hb Hd. rewrite !bytes_app. auto with netc.
Qed.

Lemma ring_append_ok {E} ctx data :
  ctx_ok ctx -> bytes data ->
  exists ctx', @ctx_ring_append E ctx data = Ok ctx' /\ ctx_ok ctx'.
Proof.
  intros Hok Hb. unfold ctx_ring_append. destruct (c_ring ctx) as [ring|] eqn:Er; [|by exists ctx].
  case_if; [by exists ctx|].
  destruct (cok_ring _ Hok _ Er) as ((Hrs & Hrl & Hrb) & Hpos & Hmax). set (rs := c_ring_size ctx) in *.
  set (dp := if rs <=? zlen data then (drop (Z.to_nat (zlen data - rs)) data, 0) else (data, c_ring_pos ctx)).
  assert (bytes dp.1 /\ 0 <= dp.2 < rs /\ zlen dp.1 <= rs) as (Hd1 & Hd2 & Hd3).
  { unfold dp. case_if; simpl; [|split; [done|lia]]. split; [auto with netc|]. rewrite length_drop. lia. }
  destruct dp as [d pos]. simpl in Hd1, Hd2, Hd3.
  assert (exists r, (if zlen d <=? rs - pos then @blit E ring pos d
    else r ← blit ring pos (take (Z.to_nat (rs - pos)) d); blit r 0 (drop (Z.to_nat (rs - pos)) d)) = Ok r /\
    zlen r = rs /\ bytes r) as (r & -> & Hl & Hbr).
  { case_if.
    - rewrite blit_ok by lia. eexists. split; [done|]. rewrite !length_app, length_take, length_drop.
      split; [lia|]. rewrite !bytes_app. auto with netc.
    - rewrite blit_ok by (rewrite ?length_take; lia). mstep. set (r1 := take _ ring ++ _).
      assert (zlen r1 = rs) by (unfold r1; rewrite !length_app, !length_take, length_drop; lia).
      assert (bytes r1) by (unfold r1; rewrite !bytes_app; auto with netc).
      rewrite blit_0 by (rewrite length_drop; lia). eexists. split; [done|].
      rewrite length_app, !length_drop. split; [lia|]. rewrite !bytes_app. auto with netc. }
  mstep. eexists. split; [done|]. pose proof (Z.mod_pos_bound (pos + zlen d) rs ltac:(lia)).
  destruct ctx. simpl in rs. subst rs. ctx_update Hok.
  intros r0 [= <-]. split; [done|]. rewrite u32_small by lia. lia.
Qed.

(** *** Adaptive model *)

Lemma accumulate_ok data i freq total :
  bytes data -> zlen freq = NETC_CTX_COUNT * 256 -> Forall (fun n => 0 <= n < 2 ^ 32) freq ->
  zlen total = NETC_CTX_COUNT -> Forall (fun n => 0 <= n < 2 ^ 32) total ->
  exists freq' total', accumulate i data freq total = Ok (freq', total') /\
    zlen freq' = NETC_CTX_COUNT * 256 /\ Forall (fun n => 0 <= n < 2 ^ 32) freq' /\
    zlen total' = NETC_CTX_COUNT /\ Forall (fun n => 0 <= n < 2 ^ 32) total'.
Proof.
  intros Hb. revert i freq total. induction Hb as [|x data Hx Hb IH]; intros i freq total Hl Hf Htl Htf; simpl.
  { exists freq, total. done. }
  pose proof (ctx_bucket_range i) as Hbk. unfold NETC_CTX_COUNT in *. unfold is_byte in Hx.
  set (b := netc_ctx_bucket i) in *.
  destruct (@aget_total unit _ freq (b * 256 + x)) as [f ->]; [lia|]. mstep. rewrite aset_ok by lia. mstep.
  destruct (@aget_total unit _ total b) as [t ->]; [lia|]. mstep. rewrite aset_ok by lia. mstep.
  apply IH; [by rewrite length_insert| |by rewrite length_insert|];
    (apply Forall_insert; [done|by apply Z.mod_pos_bound]).
Qed.

Lemma lsum_blend accum t dfreq :
  Forall (fun n => 0 <= n < 2 ^ 32) accum -> Forall (fun f => 0 <= f < 65536) dfreq ->
  0 <= t < 2 ^ 32 -> length accum = length dfreq ->
  Forall (fun r => 0 <= r) (zip_with (fun f d => blend f t d) accum dfreq) /\
  lsum (zip_with (fun f d => blend f t d) accum dfreq) <= zlen dfreq * 2 ^ 38.
Proof.
  intros Ha Hd Ht. revert dfreq Hd. induction Ha as [|a accum Ha Hacc IH]; intros [|d dfreq] Hd Hl; try done.
  apply Forall_cons in Hd as [Hd Hds]. simpl in Hl. destruct (IH dfreq Hds) as [H1 H2]; [lia|].
  assert (0 <= blend a t d <= 2 ^ 38) as Hb.
  { unfold blend, NETC_ADAPTIVE_ALPHA_NUM, NETC_ADAPTIVE_ALPHA_DEN, NETC_TANS_TABLE_SIZE. case_if; [|lia].
    assert (0 <= d * t / 4096 <= 2 ^ 37); [|lia].
    split; [apply Z.div_pos; nia|]. apply Z.div_le_upper_bound; nia. }
  cbn [zip_with lsum foldr length]. fold (lsum (zip_with (fun f d => blend f t d) accum dfreq)).
  split; [constructor; [lia|done]|lia].
Qed.

Lemma rebuild_bucket_ok accum totals dict_tables b :
  tables_ok dict_tables -> Forall freq_shape dict_tables ->
  zlen accum = NETC_CTX_COUNT * 256 -> Forall (fun n => 0 <= n < 2 ^ 32) accum ->
  zlen totals = NETC_CTX_COUNT -> Forall (fun n => 0 <= n < 2 ^ 32) totals -> 0 <= b < NETC_CTX_COUNT ->
  exists t, rebuild_bucket accum totals dict_tables b = Ok t /\
    exists freq, table_ok (H := P12) t freq /\ Forall (fun f => 1 <= f) freq.
Proof.
  intros [Htl Htf] Hsh Hal Haf Htotl Htotf Hb. unfold rebuild_bucket, NETC_CTX_COUNT in *.
  destruct (@aget_total unit _ totals b) as [t Ht]; [lia|]. rewrite Ht. mstep.
  apply aget_Ok in Ht as [_ Ht]. assert (0 <= t < 2 ^ 32) by exact (Forall_lookup_1 _ _ _ _ Htotf Ht).
  destruct (@aget_total unit _ dict_tables b) as [dt Hdt]; [lia|]. rewrite Hdt. mstep.
  apply aget_Ok in Hdt as [_ Hdt]. destruct (Forall_lookup_1 _ _ _ _ Hsh Hdt) as (Hfl & Hff & _).
  assert (zlen (slice accum (b * 256) 256) = 256) as Hsl by (apply length_slice; lia).
  destruct (lsum_blend (slice accum (b * 256) 256) t (t_freq dt)) as [Hnn Hsum]; [|done|lia|lia|].
  { unfold slice. by apply Forall_take, Forall_drop. }
  destruct (freq_normalize_ok (zip_with (fun f d => blend f t d) (slice accum (b * 256) 256) (t_freq dt))
    (lsum (zip_with (fun f d => blend f t d) (slice accum (b * 256) 256) (t_freq dt))))
    as (ft & Hft & Hfull & Hge); [rewrite length_zip_with; lia|done|done|rewrite Hfl in Hsum; lia|].
  unfold freq_normalize_adaptive. rewrite Hft. mstep.
  destruct (tans_build_ok (P := P12) ft Hfull) as (tbl & Hbt & Htok).
  unfold netc_tans_build. rewrite Hbt. simpl attempt. mstep. exists tbl. split; [done|]. by exists ft.
Qed.

Lemma rebuild_ok ctx :
  ctx_ok ctx -> exists ctx', netc_adaptive_tables_rebuild ctx = Ok ctx' /\ ctx_ok ctx' /\
    c_adapt_freq ctx' = c_adapt_freq ctx /\ c_adapt_total ctx' = c_adapt_total ctx.
Proof.
  intros Hok. unfold netc_adaptive_tables_rebuild.
  destruct (c_adapt_freq ctx) as [accum|] eqn:Ef; [|by exists ctx].
  destruct (c_adapt_tables ctx) as [tables|] eqn:Et; [|by exists ctx].
  destruct (c_dict ctx) as [dict|] eqn:Ed; [|by exists ctx].
  destruct (cok_freq _ Hok _ Ef) as (Hal & Haf & Htl & Htf).
  pose proof (cok_dict _ Hok _ Ed) as Hdok.
  assert (tables_ok tables) as Htok by (apply (cok_atables _ Hok _ Et); congruence).
  destruct (foldM_inv (E := unit) tables_ok (fun ts b =>
    t ← rebuild_bucket accum (c_adapt_total ctx) (d_tables dict) b; aset ts b t) tables (seqZ 0 NETC_CTX_COUNT))
    as (ts & -> & Hts); [|done|].
  { intros ts b [Hl Hf] Hb%elem_of_seqZ.
    destruct (rebuild_bucket_ok accum (c_adapt_total ctx) (d_tables dict) b) as (t & -> & freq & Hfr & _);
      [apply Hdok|apply Hdok|done|done|done|done|lia|]. mstep. rewrite aset_ok by lia.
    eexists. split; [done|]. split; [by rewrite length_insert|]. apply Forall_insert; [done|].
    intros _. by exists freq. }
  mstep. eexists. split; [done|]. destruct ctx. simpl in *. subst.
  split; [|done]. ctx_update Hok; try (by intros ? [= <-]); intros; simplify_eq; by destruct Hts.
Qed.

Lemma adaptive_update_ok ctx data :
  ctx_ok ctx -> bytes data ->
  exists ctx', netc_adaptive_update ctx data = Ok ctx' /\ ctx_ok ctx'.
Proof.
  intros Hok Hb. unfold netc_adaptive_update.
  destruct (c_adapt_freq ctx) as [freq|] eqn:Ef; [|by exists ctx].
  destruct (cok_freq _ Hok _ Ef) as (Hal & Haf & Htl & Htf).
  destruct (accumulate_ok data 0 freq (c_adapt_total ctx)) as (f' & t' & -> & Hf'); [done..|]. mstep.
  assert (forall n, ctx_ok (set_adapt ctx (Some f') t' (c_adapt_tables ctx) n)) as Hok1.
  { intros n. destruct ctx. ctx_update Hok. by intros ? [= <-]. }
  case_if; [|by eexists].
  destruct (rebuild_ok _ (Hok1 (u32 (c_adapt_pkt_count ctx + 1)))) as (ctx2 & -> & Hok2 & Hf2 & Ht2). mstep.
  eexists. split; [done|]. destruct ctx2. by ctx_update Hok2.
Qed.

(** ** Properties *)

(** C28: the ring buffer refines a bounded queue: read from the oldest to the
    newest byte, the ring after [ctx_ring_append] holds the last [ring_size]
    bytes of what it held before followed by the packet, whether the packet
    fits, wraps around or is larger than the ring. *)
Theorem ring_append_refines {E} (ctx : netc_ctx_t) (ring data : list Z) :
  ctx_ok ctx -> c_ring ctx = Some ring -> bytes data ->
  exists ctx' ring', @ctx_ring_append E ctx data = Ok ctx' /\ c_ring ctx' = Some ring' /\ ctx_ok ctx' /\
    ring_view ring' (c_ring_pos ctx') =
      suffix_of (Z.to_nat (c_ring_size ctx)) (ring_view ring (c_ring_pos ctx) ++ data).
Proof.
  intros Hok Hr Hb. destruct (@ring_append_ok E ctx data Hok Hb) as (ctx' & He & Hok'). exists ctx'.
  destruct (cok_ring _ Hok _ Hr) as ((Hs & Hl & _) & Hp & Hm).
  unfold ctx_ring_append in He. rewrite Hr in He. destruct (Z.eqb_spec (c_ring_size ctx) 0); [lia|].
  destruct (Z.eqb_spec (zlen data) 0) as [Hz|Hz]; simpl orb in He; cbv iota in He.
  - exists ring. assert (ctx' = ctx) as -> by congruence.
    split_and!; [by unfold ctx_ring_append; rewrite Hr, Hz, orb_true_r|done|done|].
    assert (data = []) as -> by (by destruct data). unfold suffix_of. rewrite app_nil_r.
    unfold ring_view. rewrite length_app, length_drop, length_take.
    replace (_ - Z.to_nat (c_ring_size ctx))%nat with 0%nat by lia. by rewrite drop_0.
  - pose proof (@ring_append_view E ring (c_ring_size ctx) (c_ring_pos ctx) data) as Hv.
    destruct (if c_ring_size ctx <=? zlen data then _ else _) as [dt pos] eqn:Ed.
    apply bind_Ok in He as (r' & Hr' & He). exists r'. assert (ctx' = set_ring ctx (Some r') (u32 ((pos + zlen dt) mod c_ring_size ctx)))
      as -> by congruence. split_and!; [|by destruct ctx|done|].
    + unfold ctx_ring_append. rewrite Hr. destruct (Z.eqb_spec (c_ring_size ctx) 0); [lia|].
      destruct (Z.eqb_spec (zlen data) 0); [lia|]. simpl orb. cbv iota. rewrite Ed, Hr'. done.
    + replace (c_ring_pos (set_ring ctx (Some r') (u32 ((pos + zlen dt) mod c_ring_size ctx))))
        with (u32 ((pos + zlen dt) mod c_ring_size ctx)) by (by destruct ctx).
      eapply Hv; [done|lia|lia|by intros ->|]. by rewrite Hr'.
Qed.

(** C30: the adaptive model: every update is defined and keeps the context well
    formed, and a rebuilt bucket table is always a valid table in which every
    byte occurs, whatever was counted. *)
Theorem adaptive_invariant (ctx : netc_ctx_t) (data : list Z) :
  ctx_ok ctx -> bytes data ->
  (exists ctx', netc_adaptive_update ctx data = Ok ctx' /\ ctx_ok ctx') /\
  forall freq dict b, c_adapt_freq ctx = Some freq -> c_dict ctx = Some dict -> 0 <= b < NETC_CTX_COUNT ->
    exists t f, rebuild_bucket freq (c_adapt_total ctx) (d_tables dict) b = Ok t /\
      table_ok (H := P12) t f /\ Forall (fun n => 1 <= n) f.
Proof.
  intros Hok Hb. split; [by apply adaptive_update_ok|]. intros freq dict b Hf Hd Hbr.
  destruct (cok_freq _ Hok _ Hf) as (H1 & H2 & H3 & H4). pose proof (cok_dict _ Hok _ Hd) as Hdok.
  destruct (rebuild_bucket_ok freq (c_adapt_total ctx) (d_tables dict) b) as (t & Ht & f & Hok1 & Hge);
    [apply Hdok|apply Hdok|done..|]. by exists t, f.
Qed.

(** ** Example contexts *)

(** A dictionary without any valid table. *)
Definition blank_dict : netc_dict_t :=
  Dict 0x4E455443 5 7 16 0 (replicate (Z.to_nat NETC_CTX_COUNT) zero_table)
       (replicate (Z.to_nat NETC_CTX_COUNT) (replicate (Z.to_nat NETC_BIGRAM_CTX_COUNT) zero_table))
       (replicate 256 0) 4 None 0.

Lemma blank_dict_ok : dict_ok blank_dict.
Proof.
  assert (tbl_ok zero_table) as Hz by (intros H; exfalso; exact (diff_false_true H)).
  constructor; cbn [d_tables d_bigram_tables d_bigram_class_map d_lzp_table d_model_id blank_dict].
  - split; [by rewrite length_replicate|by apply Forall_replicate].
  - apply Forall_replicate. unfold freq_shape, zero_table. cbn [t_freq]. rewrite length_replicate, lsum_replicate.
    split; [done|]. split; [|lia]. apply Forall_replicate. lia.
  - split; [by rewrite length_replicate|]. apply Forall_replicate.
    split; [by rewrite length_replicate|by apply Forall_replicate].
  - split; [by rewrite length_replicate|]. apply Forall_replicate. unfold NETC_BIGRAM_CTX_COUNT. lia.
  - done.
  - unfold is_byte. lia.
Qed.

Definition generic_ops : netc_simd_ops_t :=
  SimdOps netc_delta_encode_generic netc_delta_decode_generic netc_freq_count_generic
          netc_crc32_update_generic NETC_SIMD_LEVEL_GENERIC.

(** A context with a ring of eight bytes, three of them after the write position. *)
Definition ring_ctx : netc_ctx_t :=
  Ctx None NETC_CFG_FLAG_STATEFUL 5 0 (Some [1; 2; 3; 4; 5; 6; 7; 8]) 8 5 generic_ops
      None 0 None 0 0 0 stats_zero None [] None None 0.

Lemma ring_ctx_ok : ctx_ok ring_ctx.
Proof.
  constructor; cbn [c_dict c_simd_ops c_ring c_ring_size c_ring_pos c_prev_pkt c_prev_pkt_size c_prev2_pkt
    c_prev2_pkt_size c_context_seq c_adapt_freq c_adapt_total c_adapt_tables c_adapt_lzp ring_ctx]; try done.
  - intros r [= <-]. split; [|lia]. split; [lia|]. split; [done|]. repeat constructor; unfold is_byte; lia.
Qed.

Lemma ring_append_refines_witness :
  exists ctx' ring', @ctx_ring_append unit ring_ctx [11; 12; 13; 14] = Ok ctx' /\ c_ring ctx' = Some ring' /\ ctx_ok ctx' /\
    ring_view ring' (c_ring_pos ctx') = [2; 3; 4; 5; 11; 12; 13; 14].
Proof.
  apply (@ring_append_refines unit ring_ctx [1; 2; 3; 4; 5; 6; 7; 8] [11; 12; 13; 14]).
  - apply ring_ctx_ok.
  - reflexivity.
  - repeat constructor; unfold is_byte; lia.
Defined.

(** An adaptive context that has seen nothing. *)
Definition adaptive_ctx : netc_ctx_t :=
  Ctx (Some blank_dict) (Z.lor NETC_CFG_FLAG_STATEFUL NETC_CFG_FLAG_ADAPTIVE) 5 0 None 0 0 generic_ops
      None 0 None 0 0 0 stats_zero (Some (replicate (Z.to_nat (NETC_CTX_COUNT * 256)) 0))
      (replicate (Z.to_nat NETC_CTX_COUNT) 0) (Some (d_tables blank_dict)) None 0.

Lemma adaptive_ctx_ok : ctx_ok adaptive_ctx.
Proof.
  constructor; cbn [c_dict c_simd_ops c_ring c_ring_size c_ring_pos c_prev_pkt c_prev_pkt_size c_prev2_pkt
    c_prev2_pkt_size c_context_seq c_adapt_freq c_adapt_total c_adapt_tables c_adapt_lzp adaptive_ctx]; try done.
  - intros d Hd. apply (inj Some) in Hd. subst d. apply blank_dict_ok.
  - intros f Hf. apply (inj Some) in Hf. subst f. rewrite !length_replicate.
    split_and!; [done| |done|]; apply Forall_replicate; lia.
  - intros t Ht _. apply (inj Some) in Ht. subst t. apply blank_dict_ok.
  - intros t Ht. apply (inj Some) in Ht. subst t. apply blank_dict_ok.
Qed.

Lemma adaptive_invariant_witness :
  (exists ctx', netc_adaptive_update adaptive_ctx [1; 2; 3] = Ok ctx' /\ ctx_ok ctx') /\
  forall freq dict b, c_adapt_freq adaptive_ctx = Some freq -> c_dict adaptive_ctx = Some dict -> 0 <= b < NETC_CTX_COUNT ->
    exists t f, rebuild_bucket freq (c_adapt_total adaptive_ctx) (d_tables dict) b = Ok t /\
      table_ok (H := P12) t f /\ Forall (fun n => 1 <= n) f.
Proof.
  apply (adaptive_invariant adaptive_ctx [1; 2; 3]); [apply adaptive_ctx_ok|].
  repeat constructor; unfold is_byte; lia.
Defined.
