(* ===== verification/Dict.v ===== *)
(** * Dictionary blobs (src/src/core/netc_dict.c: save and load)

    The serialised form of a dictionary: header, class map, frequency tables,
    LZP section, CRC-32.  [netc_dict_save] writes it, [netc_dict_load] checks it
    and rebuilds the tANS tables.  The C code walks the blob with an offset that
    only grows ([b + off]); here the cursor is the rest of the blob.  [mem k]
    says whether allocation site [k] of a function succeeds. *)

From stdpp Require Import prelude.
From Stdlib Require Import ZArith Lia.
From S2P Require Import Prelude TansTable TansCodec Lzp Freq Crc32 Simd Header Lz Ctx.

Local Open Scope Z_scope.

(** ** Layout *)
Definition NETC_DICT_MAGIC : Z := 0x4E455443.
Definition NETC_DICT_VERSION : Z := 5.
Definition NETC_DICT_FLAG_LZP : Z := 0x01.
Definition NETC_BIGRAM_CTX_COUNT_V4 : Z := 4.

Definition DICT_HEADER_SIZE : Z := 8.
Definition DICT_FREQ_BYTES : Z := NETC_CTX_COUNT * NETC_TANS_SYMBOLS * 2.
Definition DICT_LZP_ENTRY_BYTES : Z := 2.
Definition DICT_LZP_SECTION_SIZE : Z := 4 + NETC_LZP_HT_SIZE * DICT_LZP_ENTRY_BYTES.
Definition DICT_V4_BIGRAM_BYTES : Z := NETC_CTX_COUNT * NETC_BIGRAM_CTX_COUNT_V4 * NETC_TANS_SYMBOLS * 2.
Definition DICT_V4_BASE_SIZE : Z := DICT_HEADER_SIZE + DICT_FREQ_BYTES + DICT_V4_BIGRAM_BYTES.
Definition DICT_V3_BLOB_SIZE : Z := DICT_V4_BASE_SIZE + 4.
Definition DICT_V5_CLASSMAP_SIZE : Z := 256.
Definition DICT_V5_BIGRAM_BYTES : Z := NETC_CTX_COUNT * NETC_BIGRAM_CTX_COUNT * NETC_TANS_SYMBOLS * 2.
Definition DICT_V5_BASE_SIZE : Z :=
  DICT_HEADER_SIZE + DICT_V5_CLASSMAP_SIZE + DICT_FREQ_BYTES + DICT_V5_BIGRAM_BYTES.

Definition dict_blob_size_v (version dict_flags : Z) : Z :=
  let sz := if 5 <=? version then DICT_V5_BASE_SIZE else DICT_V4_BASE_SIZE in
  let sz := if has dict_flags NETC_DICT_FLAG_LZP then sz + DICT_LZP_SECTION_SIZE else sz in
  sz + 4.

(** CRC-32 of the blob without its trailing checksum field; the caller has
    checked that the blob has [blob_size] bytes. *)
Definition dict_blob_checksum (blob : list Z) (blob_size : Z) : Z :=
  netc_crc32 (slice blob 0 (blob_size - 4)).

Definition n_bigram_classes (version : Z) : Z :=
  if 5 <=? version then NETC_BIGRAM_CTX_COUNT else NETC_BIGRAM_CTX_COUNT_V4.

(** ** Writing *)

(** The frequencies of one table, 256 little-endian [uint16_t]. *)
Definition put_table (t : netc_tans_table_t) : list Z := concat (netc_write_u16_le <$> t_freq t).

Definition put_row (n : Z) (row : list netc_tans_table_t) : list Z :=
  concat (put_table <$> take (Z.to_nat n) row).

Definition put_entry (e : netc_lzp_entry_t) : list Z := [lzp_value e; lzp_valid e].

Definition put_lzp (t : list netc_lzp_entry_t) : list Z :=
  netc_write_u32_le NETC_LZP_HT_SIZE ++ concat (put_entry <$> t).

Definition put_header (d : netc_dict_t) : list Z :=
  netc_write_u32_le (d_magic d) ++ [d_version d; d_model_id d; d_ctx_count d; d_dict_flags d].

(** Everything before the checksum; the flag promises an LZP table. *)
Definition dict_body (d : netc_dict_t) : result (list Z) :=
  lzp ← (if has (d_dict_flags d) NETC_DICT_FLAG_LZP then
           match d_lzp_table d with
           | Some t => Ok (put_lzp t)
           | None => Undef
           end
         else Ok []);
  Ok (put_header d ++
      (if 5 <=? d_version d then d_bigram_class_map d else []) ++
      concat (put_table <$> d_tables d) ++
      concat (put_row (n_bigram_classes (d_version d)) <$> d_bigram_tables d) ++ lzp).

(** The sections must fill the allocated blob: more would overrun it, less would
    leave bytes uninitialised. *)
Definition netc_dict_save (mem : nat -> bool) (dict : option netc_dict_t) (out_null : bool)
  : result (list Z) :=
  match dict with
  | None => Fail NETC_ERR_INVALID_ARG
  | Some d =>
      if out_null then Fail NETC_ERR_INVALID_ARG else
      if negb (mem 0%nat) then Fail NETC_ERR_NOMEM else
      body ← dict_body d;
      let blob := body ++ netc_write_u32_le (d_checksum d) in
      if zlen blob =? dict_blob_size_v (d_version d) (d_dict_flags d) then Ok blob else Undef
  end.

(** ** Reading *)
Definition get_u16 (b : list Z) : result (Z * list Z) :=
  v ← netc_read_u16_le b 0; Ok (v, drop 2 b).

Definition get_u32 (b : list Z) : result (Z * list Z) :=
  v ← netc_read_u32_le b 0; Ok (v, drop 4 b).

(** [memcpy(dst, b + off, n); off += n] *)
Definition get_bytes (n : Z) (b : list Z) : result (list Z * list Z) :=
  if zlen b <? n then Undef else Ok (take (Z.to_nat n) b, drop (Z.to_nat n) b).

Definition get_entry (b : list Z) : result (netc_lzp_entry_t * list Z) :=
  value ← aget b 0;
  valid ← aget b 1;
  Ok (LzpEntry value valid, drop 2 b).

(** A counted loop of reads. *)
Fixpoint get_many {A} (get : list Z -> result (A * list Z)) (n : nat) (b : list Z) : result (list A * list Z) :=
  match n with
  | O => Ok ([], b)
  | S n' =>
      '(a, b) ← get b;
      '(l, b) ← get_many get n' b;
      Ok (a :: l, b)
  end.

(** One table: its frequencies are read and the table is built. *)
Definition get_table (b : list Z) : result (netc_tans_table_t * list Z) :=
  '(ft, b) ← get_many get_u16 (Z.to_nat NETC_TANS_SYMBOLS) b;
  t ← or_fail NETC_ERR_DICT_INVALID (netc_tans_build ft);
  Ok (t, b).

(** The tables of one bucket; those of absent classes stay zero. *)
Definition get_row (n : Z) (b : list Z) : result (list netc_tans_table_t * list Z) :=
  '(ts, b) ← get_many get_table (Z.to_nat n) b;
  Ok (ts ++ replicate (Z.to_nat (NETC_BIGRAM_CTX_COUNT - n)) zero_table, b).

Definition get_lzp (mem : bool) (b : list Z) : result (list netc_lzp_entry_t) :=
  '(lzp_ht_size, b) ← get_u32 b;
  if NETC_LZP_HT_SIZE <? lzp_ht_size then Fail NETC_ERR_DICT_INVALID else
  if negb mem then Fail NETC_ERR_NOMEM else
  '(es, _) ← get_many get_entry (Z.to_nat lzp_ht_size) b;
  Ok (es ++ replicate (Z.to_nat (NETC_LZP_HT_SIZE - lzp_ht_size)) (LzpEntry 0 0)).

(** [bigram_class_map[i] = i >> 6] *)
Definition default_class_map : list Z := (fun i => u8 (Z.shiftr i 6)) <$> seqZ 0 256.

(** The checks before anything is allocated: version, flags and checksum. *)
Definition load_header (b : list Z) : result (Z * Z * Z) :=
  if zlen b <? DICT_V3_BLOB_SIZE then Fail NETC_ERR_DICT_INVALID else
  magic ← netc_read_u32_le b 0;
  if negb (magic =? NETC_DICT_MAGIC) then Fail NETC_ERR_DICT_INVALID else
  version ← aget b 4;
  if (version <? 3) || (NETC_DICT_VERSION <? version) then Fail NETC_ERR_VERSION else
  stored_ctx_count ← aget b 6;
  if negb (stored_ctx_count =? NETC_CTX_COUNT) then Fail NETC_ERR_VERSION else
  dflags ← aget b 7;
  let expected_sz := dict_blob_size_v version dflags in
  if zlen b <? expected_sz then Fail NETC_ERR_DICT_INVALID else
  stored_cksum ← netc_read_u32_le b (expected_sz - 4);
  if negb (stored_cksum =? dict_blob_checksum b expected_sz) then Fail NETC_ERR_DICT_INVALID else
  Ok (version, dflags, stored_cksum).

Definition load_class_map (version : Z) (b : list Z) : result (list Z * Z * list Z) :=
  if 5 <=? version then '(m, b) ← get_bytes DICT_V5_CLASSMAP_SIZE b; Ok (m, NETC_BIGRAM_CTX_COUNT, b)
  else Ok (default_class_map, NETC_BIGRAM_CTX_COUNT_V4, b).

Definition netc_dict_load (mem : nat -> bool) (data : option (list Z)) (out_null : bool)
  : result netc_dict_t :=
  match data with
  | None => Fail NETC_ERR_INVALID_ARG
  | Some b =>
      if out_null then Fail NETC_ERR_INVALID_ARG else
      '(version, dflags, stored_cksum) ← load_header b;
      if negb (mem 0%nat) then Fail NETC_ERR_NOMEM else
      model_id ← aget b 5;
      '(class_map, class_count, cur) ← load_class_map version (drop 8 b);
      '(tables, cur) ← get_many get_table (Z.to_nat NETC_CTX_COUNT) cur;
      '(bigram, cur) ← get_many (get_row (n_bigram_classes version)) (Z.to_nat NETC_CTX_COUNT) cur;
      lzp ← (if has dflags NETC_DICT_FLAG_LZP then t ← get_lzp (mem 1%nat) cur; Ok (Some t) else Ok None);
      Ok (Dict NETC_DICT_MAGIC version model_id NETC_CTX_COUNT dflags tables bigram class_map class_count lzp
               stored_cksum)
  end.

Definition netc_dict_model_id (dict : option netc_dict_t) : Z :=
  match dict with None => 0 | Some d => d_model_id d end.

(** ** Wire formats

    [Wire put get size ok]: values satisfying [ok] are written as [size] bytes
    and read back; reading [size] bytes reports an error or gives a value
    satisfying [ok], which is written as those bytes. *)
Class Wire {A} (put : A -> list Z) (get : list Z -> result (A * list Z)) (size : Z) (ok : A -> Prop) : Prop := {
  wire_size : forall a, ok a -> zlen (put a) = size;
  wire_bytes : forall a, ok a -> bytes (put a);
  wire_get_put : forall a rest, ok a -> get (put a ++ rest) = Ok (a, rest);
  wire_put_get : forall b, bytes b -> size <= zlen b ->
    (exists e, get b = Fail e) \/
    exists a, get b = Ok (a, drop (Z.to_nat size) b) /\ ok a /\ put a = take (Z.to_nat size) b
}.

(** A table that [netc_tans_build] returns for its own frequencies. *)
Definition built (t : netc_tans_table_t) : Prop :=
  length (t_freq t) = 256%nat /\ Forall (fun f => 0 <= f < 65536) (t_freq t) /\ netc_tans_build (t_freq t) = Ok t.

(** [n] built tables followed by zero tables up to the number of classes. *)
Definition row_ok (n : Z) (row : list netc_tans_table_t) : Prop :=
  exists ts, row = ts ++ replicate (Z.to_nat (NETC_BIGRAM_CTX_COUNT - n)) zero_table /\
    zlen ts = n /\ Forall built ts.

#[export] Instance wire_u16 : Wire netc_write_u16_le get_u16 2 (fun v => 0 <= v < 65536).
Proof.
  constructor.
  - intros v _. unfold netc_write_u16_le. by rewrite le_bytes_length.
  - intros v _. apply le_bytes_bytes.
  - intros v rest Hv. unfold get_u16. rewrite read_u16_front. mstep. rewrite Z.mod_small by lia. done.
  - intros b Hb Hl. right. destruct b as [|b0 [|b1 b]]; simpl in Hl; [lia..|].
    apply bytes_cons in Hb as [H0 Hb]. apply bytes_cons in Hb as [H1 Hb].
    assert (bytes [b0; b1]) as H2 by (repeat (constructor; [done|]); constructor).
    exists (le_val [b0; b1]). split; [reflexivity|]. split; [by apply (le_val_bound [b0; b1])|].
    exact (le_bytes_val [b0; b1] H2).
Qed.

#[export] Instance wire_entry : Wire put_entry get_entry 2 lzp_entry_ok.
Proof.
  constructor.
  - done.
  - intros e [? ?]. unfold put_entry. rewrite !bytes_cons. auto with netc.
  - by intros [v k] rest _.
  - intros b Hb Hl. right. destruct b as [|b0 [|b1 b]]; simpl in Hl; [lia..|].
    apply bytes_cons in Hb as [H0 Hb]. apply bytes_cons in Hb as [H1 Hb].
    exists (LzpEntry b0 b1). done.
Qed.

Section WireMany.
Context {A} (put : A -> list Z) (get : list Z -> result (A * list Z)) (size : Z) (ok : A -> Prop).
Context `{HW : !Wire put get size ok} (size_pos : 0 <= size).

Lemma many_size l : Forall ok l -> zlen (concat (put <$> l)) = zlen l * size.
Proof using HW.
  induction 1 as [|a l Ha _ IH]; [done|]. cbn [fmap list_fmap concat]. rewrite length_app, Nat2Z.inj_add, IH.
  rewrite wire_size by done. cbn [length]. lia.
Qed.

Lemma many_get_put l rest : Forall ok l -> get_many get (length l) (concat (put <$> l) ++ rest) = Ok (l, rest).
Proof using HW.
  induction 1 as [|a l Ha _ IH]; [done|]. cbn [fmap list_fmap concat length get_many]. rewrite <- app_assoc.
  rewrite wire_get_put by done. mstep. rewrite IH. done.
Qed.

Lemma many_put_get n b :
  bytes b -> Z.of_nat n * size <= zlen b ->
  (exists e, get_many get n b = Fail e) \/
  exists l, get_many get n b = Ok (l, drop (Z.to_nat (Z.of_nat n * size)) b) /\ length l = n /\ Forall ok l /\
    concat (put <$> l) = take (Z.to_nat (Z.of_nat n * size)) b.
Proof using HW size_pos.
  revert b. induction n as [|n IH]; intros b Hb Hl; cbn [get_many].
  { right. exists []. by rewrite Z.mul_0_l. }
  assert (Z.of_nat (S n) * size = size + Z.of_nat n * size) as Hs by lia. rewrite Hs in *.
  assert (0 <= Z.of_nat n * size) by (apply Z.mul_nonneg_nonneg; lia).
  destruct (wire_put_get (Wire := HW) b Hb ltac:(lia)) as [[e ->]|(a & -> & Ha & Hp)]; mstep; [left; by eexists|].
  destruct (IH (drop (Z.to_nat size) b) ltac:(auto with netc)) as [[e ->]|(l & -> & Hn & Hf & Hc)]; mstep;
    [rewrite length_drop; lia|left; by eexists|right]. exists (a :: l). rewrite Z2Nat.inj_add by lia.
  rewrite <- drop_drop. split; [done|]. split; [simpl; lia|]. split; [by constructor|].
  cbn [fmap list_fmap concat]. rewrite Hp, Hc. apply take_take_drop.
Qed.

#[export] Instance wire_many (n : Z) (n_nonneg : 0 <= n) :
  Wire (fun l => concat (put <$> l)) (get_many get (Z.to_nat n)) (n * size) (fun l => zlen l = n /\ Forall ok l).
Proof using HW size_pos.
  constructor.
  - intros l [Hn Hf]. rewrite many_size by done. lia.
  - intros l [_ Hf]. induction Hf as [|a l Ha _ IH]; [constructor|]. cbn [fmap list_fmap concat].
    apply bytes_app. split; [by apply wire_bytes|done].
  - intros l rest [Hn Hf]. rewrite <- Hn, Nat2Z.id. by apply many_get_put.
  - intros b Hb Hl. destruct (many_put_get (Z.to_nat n) b Hb) as [?|(l & Hg & Hn & Hf & Hc)]; [lia|by left|right].
    rewrite Z2Nat.id in Hg, Hc by done. exists l. split; [done|]. split; [|done]. split; [lia|done].
Qed.
End WireMany.

#[export] Instance wire_freqs :
  Wire (fun l => concat (netc_write_u16_le <$> l)) (get_many get_u16 (Z.to_nat NETC_TANS_SYMBOLS)) (256 * 2)
       (fun l => zlen l = 256 /\ Forall (fun v => 0 <= v < 65536) l).
Proof. apply (wire_many _ _ 2 _ ltac:(lia) 256 ltac:(lia)). Qed.

Lemma build_built freq t :
  length freq = 256%nat -> Forall (fun f => 0 <= f < 65536) freq -> netc_tans_build freq = Ok t ->
  t_freq t = freq /\ built t /\ table_ok (H := P12) t freq.
Proof.
  intros Hl Hf Hb. destruct (tans_build_inv (P := P12) freq t Hl Hf Hb) as [_ Hok].
  pose proof (tok_freq _ _ Hok) as He. unfold built. by rewrite He.
Qed.

#[export] Instance wire_table : Wire put_table get_table 512 built.
Proof.
  constructor.
  - intros t (Hl & Hf & _). apply (wire_size (Wire := wire_freqs)). split; [lia|done].
  - intros t (Hl & Hf & _). apply (wire_bytes (Wire := wire_freqs)). split; [lia|done].
  - intros t rest (Hl & Hf & Hb). unfold get_table, put_table.
    rewrite (wire_get_put (Wire := wire_freqs)) by (split; [lia|done]). mstep. by rewrite Hb.
  - intros b Hb Hl. unfold get_table.
    destruct (wire_put_get (Wire := wire_freqs) b Hb ltac:(lia)) as [[e ->]|(ft & -> & [Hn Hf] & Hp)]; mstep;
      [left; by eexists|]. destruct (netc_tans_build ft) as [t|e|] eqn:Ht; cbn [or_fail]; mstep; [right|left; by eexists|exfalso].
    + destruct (build_built ft t ltac:(lia) Hf Ht) as (He & Hbt & _). exists t. unfold put_table. by rewrite He.
    + destruct (decide (lsum ft = TABLE_SIZE (H := P12))) as [Hs|Hs].
      * destruct (tans_build_ok (P := P12) ft) as (t & Ht' & _).
        { split; [lia|]. split; [|done]. eapply Forall_impl; [done|]. simpl. lia. }
        unfold netc_tans_build in Ht. congruence.
      * pose proof (tans_build_reject (P := P12) ft ltac:(lia) Hf Hs). unfold netc_tans_build in Ht. congruence.
Qed.

Lemma wire_row (n : Z) : 0 <= n <= NETC_BIGRAM_CTX_COUNT -> Wire (put_row n) (get_row n) (n * 512) (row_ok n).
Proof.
  intros Hn. assert (Wire (fun l => concat (put_table <$> l)) (get_many get_table (Z.to_nat n)) (n * 512)
    (fun l => zlen l = n /\ Forall built l)) as HW by (apply (wire_many _ _ 512 _ ltac:(lia) n); lia).
  assert (forall ts, zlen ts = n ->
    take (Z.to_nat n) (ts ++ replicate (Z.to_nat (NETC_BIGRAM_CTX_COUNT - n)) zero_table) = ts) as Htk.
  { intros ts <-. by rewrite Nat2Z.id, take_app_length. }
  unfold put_row, get_row. constructor.
  - intros row (ts & -> & Hl & Hf). rewrite Htk by done. by apply (wire_size (Wire := HW)).
  - intros row (ts & -> & Hl & Hf). rewrite Htk by done. by apply (wire_bytes (Wire := HW)).
  - intros row rest (ts & -> & Hl & Hf). rewrite Htk by done. by rewrite (wire_get_put (Wire := HW)) by done.
  - intros b Hb Hl. destruct (wire_put_get (Wire := HW) b Hb Hl) as [[e ->]|(ts & -> & [Hz Hf] & Hp)]; mstep;
      [left; by eexists|right]. eexists. split; [done|]. rewrite Htk by done. split; [by exists ts|done].
Qed.

(** ** Dictionaries in memory *)

(** A dictionary as training or loading leaves it, of any supported version. *)
Record dict_wf (d : netc_dict_t) : Prop := {
  dwf_magic : d_magic d = NETC_DICT_MAGIC;
  dwf_version : 3 <= d_version d <= NETC_DICT_VERSION;
  dwf_model : is_byte (d_model_id d);
  dwf_count : d_ctx_count d = NETC_CTX_COUNT;
  dwf_flags : is_byte (d_dict_flags d);
  dwf_tables : zlen (d_tables d) = NETC_CTX_COUNT /\ Forall built (d_tables d);
  dwf_bigram : zlen (d_bigram_tables d) = NETC_CTX_COUNT /\
    Forall (row_ok (n_bigram_classes (d_version d))) (d_bigram_tables d);
  dwf_class : if 5 <=? d_version d
    then zlen (d_bigram_class_map d) = 256 /\ bytes (d_bigram_class_map d) /\ d_bigram_class_count d = NETC_BIGRAM_CTX_COUNT
    else d_bigram_class_map d = default_class_map /\ d_bigram_class_count d = NETC_BIGRAM_CTX_COUNT_V4;
  dwf_lzp : if has (d_dict_flags d) NETC_DICT_FLAG_LZP
    then exists t, d_lzp_table d = Some t /\ lzp_table_ok t else d_lzp_table d = None
}.

(** The checksum field is the CRC of the serialised dictionary. *)
Definition checksummed (d : netc_dict_t) : Prop :=
  exists body, dict_body d = Ok body /\ d_checksum d = netc_crc32 body.

Lemma crc32_range data : bytes data -> 0 <= netc_crc32 data < 2 ^ 32.
Proof.
  intros Hb. unfold netc_crc32. apply (lxor_lt _ 0xFFFFFFFF 32); [lia| |lia]. apply crc_fold_range; [lia|done].
Qed.

Lemma n_classes_range v : 0 <= n_bigram_classes v <= NETC_BIGRAM_CTX_COUNT.
Proof. unfold n_bigram_classes, NETC_BIGRAM_CTX_COUNT, NETC_BIGRAM_CTX_COUNT_V4. case_if; lia. Qed.

Lemma wire_tables :
  Wire (fun l => concat (put_table <$> l)) (get_many get_table (Z.to_nat NETC_CTX_COUNT)) (NETC_CTX_COUNT * 512)
       (fun l => zlen l = NETC_CTX_COUNT /\ Forall built l).
Proof. apply (wire_many _ _ 512 _ ltac:(lia) NETC_CTX_COUNT). unfold NETC_CTX_COUNT. lia. Qed.

Lemma wire_bigram v :
  Wire (fun l => concat (put_row (n_bigram_classes v) <$> l))
       (get_many (get_row (n_bigram_classes v)) (Z.to_nat NETC_CTX_COUNT))
       (NETC_CTX_COUNT * (n_bigram_classes v * 512))
       (fun l => zlen l = NETC_CTX_COUNT /\ Forall (row_ok (n_bigram_classes v)) l).
Proof.
  pose proof (n_classes_range v). pose proof (wire_row _ H).
  apply (wire_many _ _ (n_bigram_classes v * 512) _ ltac:(lia) NETC_CTX_COUNT). unfold NETC_CTX_COUNT. lia.
Qed.

Lemma wire_lzp n :
  0 <= n ->
  Wire (fun l => concat (put_entry <$> l)) (get_many get_entry (Z.to_nat n)) (n * 2)
       (fun l => zlen l = n /\ Forall lzp_entry_ok l).
Proof. intros. by apply (wire_many _ _ 2 _ ltac:(lia) n). Qed.

(** What follows the header. *)
Definition sections (d : netc_dict_t) : list Z :=
  (if 5 <=? d_version d then d_bigram_class_map d else []) ++
  concat (put_table <$> d_tables d) ++
  concat (put_row (n_bigram_classes (d_version d)) <$> d_bigram_tables d) ++
  match d_lzp_table d with Some t => put_lzp t | None => [] end.

Lemma put_lzp_ok t : lzp_table_ok t -> bytes (put_lzp t) /\ zlen (put_lzp t) = DICT_LZP_SECTION_SIZE.
Proof.
  intros Ht. pose proof (wire_lzp NETC_LZP_HT_SIZE ltac:(done)) as HW. unfold put_lzp. split.
  - apply bytes_app. split; [apply le_bytes_bytes|by apply (wire_bytes (Wire := HW))].
  - rewrite length_app, Nat2Z.inj_add, (wire_size (Wire := HW)) by done.
    unfold netc_write_u32_le. by rewrite le_bytes_length.
Qed.

Lemma dict_body_ok d :
  dict_wf d ->
  dict_body d = Ok (put_header d ++ sections d) /\ bytes (put_header d ++ sections d) /\
  8 + zlen (sections d) + 4 = dict_blob_size_v (d_version d) (d_dict_flags d).
Proof.
  intros H. pose proof (dwf_class _ H) as Hc. pose proof (dwf_lzp _ H) as Hz. pose proof (dwf_version _ H) as Hv.
  pose proof (wire_size (Wire := wire_tables) _ (dwf_tables _ H)) as Ht.
  pose proof (wire_size (Wire := wire_bigram _) _ (dwf_bigram _ H)) as Hg.
  pose proof (wire_bytes (Wire := wire_tables) _ (dwf_tables _ H)) as Ht'.
  pose proof (wire_bytes (Wire := wire_bigram _) _ (dwf_bigram _ H)) as Hg'. simpl in Ht, Hg, Ht', Hg'.
  unfold dict_body, sections, put_header, dict_blob_size_v.
  assert (exists lzp, (if has (d_dict_flags d) NETC_DICT_FLAG_LZP
      then match d_lzp_table d with Some t => Ok (put_lzp t) | None => Undef end
      else @Ok netc_result_t _ []) = Ok lzp /\
    match d_lzp_table d with Some t => put_lzp t | None => [] end = lzp /\
    bytes lzp /\ zlen lzp = (if has (d_dict_flags d) NETC_DICT_FLAG_LZP then DICT_LZP_SECTION_SIZE else 0))
    as (lzp & El & -> & Hb & Hl).
  { destruct (has _ _); [destruct Hz as (t & -> & Htok)|rewrite Hz].
    - exists (put_lzp t). destruct (put_lzp_ok t Htok). done.
    - exists []. auto with netc. }
  rewrite El. mstep. split; [done|]. split.
  - rewrite !bytes_app, !bytes_cons. split; [split; [apply le_bytes_bytes|]|].
    + split_and!; [|apply H|rewrite (dwf_count _ H); done|apply H|constructor].
      unfold is_byte, NETC_DICT_VERSION in *. lia.
    + split; [case_if; [apply Hc|constructor]|]. done.
  - rewrite !length_app, !Nat2Z.inj_add, Ht, Hg, Hl. unfold n_bigram_classes.
    destruct (5 <=? d_version d); [rewrite (proj1 Hc)|cbn [length]]; destruct (has _ _); done.
Qed.

(** ** Loading what was saved *)
Lemma blob_size_min v f : DICT_V3_BLOB_SIZE <= dict_blob_size_v v f.
Proof. unfold dict_blob_size_v. destruct (5 <=? v), (has f _); vm_compute; discriminate. Qed.

Lemma put_header_length d : length (put_header d) = 8%nat.
Proof. done. Qed.

(** The header fields of a blob. *)
Lemma header_fields {E} d tail :
  d_magic d = NETC_DICT_MAGIC ->
  @netc_read_u32_le E (put_header d ++ tail) 0 = Ok NETC_DICT_MAGIC /\
  @aget E Z (put_header d ++ tail) 4 = Ok (d_version d) /\ @aget E Z (put_header d ++ tail) 5 = Ok (d_model_id d) /\
  @aget E Z (put_header d ++ tail) 6 = Ok (d_ctx_count d) /\ @aget E Z (put_header d ++ tail) 7 = Ok (d_dict_flags d) /\
  drop 8 (put_header d ++ tail) = tail /\ zlen (put_header d ++ tail) = 8 + zlen tail.
Proof.
  intros Hm. unfold put_header. rewrite Hm, <- app_assoc, read_u32_front. split_and!; try done.
  rewrite !length_app. unfold netc_write_u32_le. rewrite le_bytes_length. cbn [length]. lia.
Qed.

Lemma blob_parts d cks extra :
  dict_wf d -> 0 <= cks < 2 ^ 32 ->
  let b := (put_header d ++ sections d) ++ netc_write_u32_le cks ++ extra in
  let n := dict_blob_size_v (d_version d) (d_dict_flags d) in
  zlen b = n + zlen extra /\ slice b 0 (n - 4) = put_header d ++ sections d /\
  @netc_read_u32_le netc_result_t b (n - 4) = Ok cks.
Proof.
  intros H Hc b n. destruct (dict_body_ok d H) as (_ & Hb & Hs).
  assert (zlen (put_header d ++ sections d) = n - 4) as Hl by (rewrite length_app, put_header_length; lia).
  subst b. split_and!.
  - rewrite length_app, Nat2Z.inj_add, Hl, length_app. unfold netc_write_u32_le. rewrite le_bytes_length. lia.
  - unfold slice. rewrite drop_0, <- Hl, Nat2Z.id. by rewrite take_app_length.
  - rewrite read_u32_at by lia. by rewrite Z.mod_small.
Qed.

Lemma load_header_ok d cks extra :
  dict_wf d -> cks = netc_crc32 (put_header d ++ sections d) ->
  load_header ((put_header d ++ sections d) ++ netc_write_u32_le cks ++ extra) =
    Ok (d_version d, d_dict_flags d, cks).
Proof.
  intros H Hck. destruct (dict_body_ok d H) as (_ & Hb & _).
  assert (0 <= cks < 2 ^ 32) as Hc by (rewrite Hck; by apply crc32_range).
  destruct (blob_parts d cks extra H Hc) as (Hz & Hsl & Hrd).
  pose proof (blob_size_min (d_version d) (d_dict_flags d)) as Hm. pose proof (dwf_version _ H) as Hv.
  unfold load_header, NETC_DICT_VERSION in *. if_false.
  destruct (@header_fields netc_result_t d (sections d ++ netc_write_u32_le cks ++ extra))
    as (H0 & H4 & _ & H6 & H7 & _); [apply H|]. rewrite app_assoc in H0, H4, H6, H7.
  rewrite H0. mstep. rewrite Z.eqb_refl. cbn [negb]. rewrite H4. mstep. if_false.
  rewrite H6. mstep. rewrite (dwf_count _ H), Z.eqb_refl. cbn [negb]. rewrite H7. mstep. if_false.
  rewrite Hrd. mstep. unfold dict_blob_checksum. rewrite Hsl, <- Hck, Z.eqb_refl. done.
Qed.

Lemma load_class_map_ok d tail :
  dict_wf d ->
  load_class_map (d_version d) ((if 5 <=? d_version d then d_bigram_class_map d else []) ++ tail) =
    Ok (d_bigram_class_map d, d_bigram_class_count d, tail).
Proof.
  intros H. pose proof (dwf_class _ H) as Hc. unfold load_class_map. destruct (5 <=? d_version d).
  - destruct Hc as (Hl & _ & ->). unfold get_bytes, DICT_V5_CLASSMAP_SIZE. rewrite <- Hl. rewrite length_app. if_false.
    mstep. by rewrite Nat2Z.id, take_app_length, drop_app_length.
  - by destruct Hc as [-> ->].
Qed.

Lemma get_lzp_ok t tail : lzp_table_ok t -> get_lzp true (put_lzp t ++ tail) = Ok t.
Proof.
  intros Ht. unfold get_lzp, get_u32, put_lzp. rewrite <- app_assoc, read_u32_front. mstep.
  rewrite Z.mod_small by done. rewrite Z.ltb_irrefl. cbn [negb].
  pose proof (wire_lzp NETC_LZP_HT_SIZE ltac:(done)) as HW.
  replace (drop 4 _) with (concat (put_entry <$> t) ++ tail) by reflexivity.
  rewrite (wire_get_put (Wire := HW)) by done. mstep. rewrite Z.sub_diag. by rewrite app_nil_r.
Qed.

Lemma load_saved d extra :
  dict_wf d -> checksummed d ->
  exists blob, (forall mem, mem 0%nat = true -> netc_dict_save mem (Some d) false = Ok blob) /\
    zlen blob = dict_blob_size_v (d_version d) (d_dict_flags d) /\ bytes blob /\
    forall mem, mem 0%nat = true -> mem 1%nat = true -> netc_dict_load mem (Some (blob ++ extra)) false = Ok d.
Proof.
  intros H (body & Hbody & Hck). destruct (dict_body_ok d H) as (Hb & Hbytes & Hs).
  rewrite Hb in Hbody. injection Hbody as <-. exists ((put_header d ++ sections d) ++ netc_write_u32_le (d_checksum d)).
  assert (zlen ((put_header d ++ sections d) ++ netc_write_u32_le (d_checksum d)) =
    dict_blob_size_v (d_version d) (d_dict_flags d)) as Hl.
  { rewrite !length_app. unfold netc_write_u32_le. rewrite le_bytes_length, put_header_length. lia. }
  split_and!; [| |apply bytes_app; split; [done|apply le_bytes_bytes]|].
  - intros mem Hm. unfold netc_dict_save. rewrite Hm. cbn [negb]. rewrite Hb. mstep. rewrite Hl, Z.eqb_refl. done.
  - done.
  - intros mem Hm0 Hm1. unfold netc_dict_load. rewrite <- app_assoc. rewrite load_header_ok by done. mstep. rewrite Hm0. cbn [negb].
    rewrite <- app_assoc. destruct (@header_fields netc_result_t d (sections d ++ netc_write_u32_le (d_checksum d) ++ extra))
      as (_ & _ & -> & _ & _ & -> & _); [apply H|]. mstep. unfold sections. rewrite <- !app_assoc.
    rewrite load_class_map_ok by done. mstep. rewrite (wire_get_put (Wire := wire_tables)) by apply H. mstep.
    rewrite (wire_get_put (Wire := wire_bigram _)) by apply H. mstep. pose proof (dwf_lzp _ H) as Hz.
    destruct (has _ _); [destruct Hz as (t & Hz & Ht); rewrite Hz, Hm1, get_lzp_ok by done|]; mstep;
      rewrite <- (dwf_magic _ H), <- (dwf_count _ H); destruct d; cbn in *; by subst.
Qed.

(** ** Loading arbitrary bytes *)
Lemma take4 {A} (a b c d : A) n l : take (4 + n) (a :: b :: c :: d :: l) = [a; b; c; d] ++ take n (drop 4 (a :: b :: c :: d :: l)).
Proof. done. Qed.

Lemma get_lzp_total mem b :
  bytes b -> DICT_LZP_SECTION_SIZE <= zlen b ->
  (exists e, get_lzp mem b = Fail e) \/
  exists t, get_lzp mem b = Ok t /\ lzp_table_ok t /\
    (@netc_read_u32_le netc_result_t b 0 = Ok NETC_LZP_HT_SIZE -> put_lzp t = take (Z.to_nat DICT_LZP_SECTION_SIZE) b).
Proof.
  intros Hb Hl. assert (NETC_LZP_HT_SIZE = 131072) as HT by done. unfold DICT_LZP_SECTION_SIZE, DICT_LZP_ENTRY_BYTES in *. unfold get_lzp, get_u32.
  destruct (@read_u32_total netc_result_t b 0) as (n & Hn & Hr); [done|lia|lia|].
  rewrite Hn. mstep. case_if; [left; by eexists|]. case_if; [left; by eexists|].
  pose proof (wire_lzp n ltac:(lia)) as HW.
  destruct (wire_put_get (Wire := HW) (drop 4 b)) as [[e ->]|(es & -> & [Hz Hf] & Hp)]; mstep;
    [auto with netc|rewrite length_drop; lia|left; by eexists|right]. eexists. split; [done|]. split.
  - split; [rewrite length_app, length_replicate; lia|]. apply Forall_app. split; [done|].
    apply Forall_replicate. split; unfold is_byte; simpl; lia.
  - intros [= ->]. rewrite Z.sub_diag, app_nil_r. unfold put_lzp. rewrite Hp.
    destruct b as [|b0 [|b1 [|b2 [|b3 b]]]]; simpl in Hl; [lia..|].
    unfold netc_read_u32_le in Hn. injection Hn as Hn. rewrite Z2Nat.inj_add by lia.
    change (Z.to_nat 4) with 4%nat. rewrite take4.
    replace (netc_write_u32_le NETC_LZP_HT_SIZE) with [b0; b1; b2; b3]; [done|]. rewrite <- Hn.
    symmetry. apply (le_bytes_val [b0; b1; b2; b3]). repeat (apply bytes_cons in Hb as [? Hb]; constructor; [done|]). constructor.
Qed.

Lemma load_header_total b :
  bytes b ->
  (exists e, load_header b = Fail e) \/
  exists v m f tail, load_header b = Ok (v, f, netc_crc32 (slice b 0 (dict_blob_size_v v f - 4))) /\
    b = put_header (Dict NETC_DICT_MAGIC v m NETC_CTX_COUNT f [] [] [] 0 None 0) ++ tail /\
    3 <= v <= NETC_DICT_VERSION /\ is_byte m /\ is_byte f /\ dict_blob_size_v v f <= zlen b /\
    @netc_read_u32_le netc_result_t b (dict_blob_size_v v f - 4) = Ok (netc_crc32 (slice b 0 (dict_blob_size_v v f - 4))).
Proof.
  intros Hb. unfold load_header. case_if; [left; by eexists|]. unfold DICT_V3_BLOB_SIZE in *.
  destruct b as [|b0 [|b1 [|b2 [|b3 [|v [|m [|c [|f tail]]]]]]]]; try (exfalso; cbn [length] in *; vm_compute in E; by apply E).
  assert (bytes [b0; b1; b2; b3]) as H4 by (repeat (apply bytes_cons in Hb as [? Hb]; constructor; [done|]); constructor).
  set (b := b0 :: b1 :: b2 :: b3 :: v :: m :: c :: f :: tail) in *.
  assert (@netc_read_u32_le netc_result_t b 0 = Ok (le_val [b0; b1; b2; b3])) as -> by done.
  assert (@aget netc_result_t Z b 4 = Ok v) as -> by done. assert (@aget netc_result_t Z b 6 = Ok c) as -> by done.
  assert (@aget netc_result_t Z b 7 = Ok f) as -> by done. mstep. case_if; [left; by eexists|]. mstep.
  case_if; [left; by eexists|]. mstep. case_if; [left; by eexists|]. mstep. case_if; [left; by eexists|].
  pose proof (blob_size_min v f) as Hm. unfold DICT_V3_BLOB_SIZE in Hm.
  destruct (@read_u32_total netc_result_t b (dict_blob_size_v v f - 4))
    as (ck & Hck & _); [done| |lia|].
  { assert (DICT_V4_BASE_SIZE = 40968) as Hbase by done. lia. }
  rewrite Hck. mstep. case_if; [left; by eexists|right]. exists v, m, f, tail. unfold dict_blob_checksum in *. subst ck.
  split; [done|]. split; [|by repeat (apply bytes_cons in Hb as [? Hb])].
  unfold put_header. cbn [d_magic d_version d_model_id d_ctx_count d_dict_flags].
  replace (netc_write_u32_le NETC_DICT_MAGIC) with [b0; b1; b2; b3]; [by subst c|].
  symmetry. replace NETC_DICT_MAGIC with (le_val [b0; b1; b2; b3]). exact (le_bytes_val _ H4).
Qed.

(** The part of a blob from which its LZP section is read. *)
Definition lzp_offset (version : Z) : Z :=
  if 5 <=? version then DICT_V5_BASE_SIZE else DICT_V4_BASE_SIZE.

Lemma blob_size_eq v f :
  dict_blob_size_v v f = lzp_offset v + (if has f NETC_DICT_FLAG_LZP then DICT_LZP_SECTION_SIZE else 0) + 4.
Proof. unfold dict_blob_size_v, lzp_offset. destruct (has _ _); lia. Qed.

Lemma lzp_offset_eq v :
  lzp_offset v = 8 + (if 5 <=? v then 256 else 0) + NETC_CTX_COUNT * 512 + NETC_CTX_COUNT * (n_bigram_classes v * 512).
Proof. unfold lzp_offset, n_bigram_classes. by destruct (5 <=? v). Qed.

Definition class_map_size (v : Z) : Z := if 5 <=? v then DICT_V5_CLASSMAP_SIZE else 0.

Lemma class_map_total v b :
  bytes b -> class_map_size v <= zlen b ->
  exists m c, load_class_map v b = Ok (m, c, drop (Z.to_nat (class_map_size v)) b) /\
    (if 5 <=? v then zlen m = 256 /\ bytes m /\ c = NETC_BIGRAM_CTX_COUNT
     else m = default_class_map /\ c = NETC_BIGRAM_CTX_COUNT_V4) /\
    (if 5 <=? v then m else []) = take (Z.to_nat (class_map_size v)) b.
Proof.
  intros Hb. unfold load_class_map, class_map_size. destruct (5 <=? v); intros Hl.
  - unfold get_bytes. if_false. mstep. eexists _, _. split; [done|]. unfold DICT_V5_CLASSMAP_SIZE in *.
    rewrite length_take. split_and!; [lia|auto with netc|done|done].
  - eexists _, _. by rewrite drop_0.
Qed.

Lemma read_u32_drop {E} b n : 0 <= n -> @netc_read_u32_le E (drop (Z.to_nat n) b) 0 = netc_read_u32_le b n.
Proof.
  intros Hn. assert (forall i, 0 <= i -> @aget E Z (drop (Z.to_nat n) b) i = aget b (n + i)) as Ha.
  { intros i Hi. unfold aget. if_false. if_false. rewrite lookup_drop. by rewrite Z2Nat.inj_add. }
  unfold netc_read_u32_le. rewrite !Ha by lia. by rewrite Z.add_0_r.
Qed.

(** The optional LZP section. *)
Lemma lzp_section_total mem f b :
  bytes b -> (if has f NETC_DICT_FLAG_LZP then DICT_LZP_SECTION_SIZE else 0) <= zlen b ->
  let r := if has f NETC_DICT_FLAG_LZP then t ← get_lzp mem b; Ok (Some t) else Ok None in
  (exists e, r = Fail e) \/
  exists lzp, r = Ok lzp /\
    (if has f NETC_DICT_FLAG_LZP then exists t, lzp = Some t /\ lzp_table_ok t else lzp = None) /\
    ((has f NETC_DICT_FLAG_LZP = true -> @netc_read_u32_le netc_result_t b 0 = Ok NETC_LZP_HT_SIZE) ->
     match lzp with Some t => put_lzp t | None => [] end =
       take (Z.to_nat (if has f NETC_DICT_FLAG_LZP then DICT_LZP_SECTION_SIZE else 0)) b).
Proof.
  intros Hb Hl. simpl. destruct (has f _); [|right; by exists None].
  destruct (get_lzp_total mem b Hb Hl) as [[e ->]|(t & -> & Ht & Hp)]; mstep; [left; by eexists|right].
  exists (Some t). split; [done|]. split; [by exists t|]. intros H. by apply Hp, H.
Qed.

(** A blob is accepted or rejected; an accepted one gives a well-formed
    dictionary, which serialises to the blob if the LZP section is complete. *)
Lemma load_total mem b :
  bytes b ->
  (exists e, netc_dict_load mem (Some b) false = Fail e) \/
  exists d, netc_dict_load mem (Some b) false = Ok d /\ dict_wf d /\
    dict_blob_size_v (d_version d) (d_dict_flags d) <= zlen b /\
    d_checksum d = netc_crc32 (slice b 0 (dict_blob_size_v (d_version d) (d_dict_flags d) - 4)) /\
    @netc_read_u32_le netc_result_t b (dict_blob_size_v (d_version d) (d_dict_flags d) - 4) = Ok (d_checksum d) /\
    ((has (d_dict_flags d) NETC_DICT_FLAG_LZP = true ->
      @netc_read_u32_le netc_result_t b (lzp_offset (d_version d)) = Ok NETC_LZP_HT_SIZE) ->
     put_header d ++ sections d = slice b 0 (dict_blob_size_v (d_version d) (d_dict_flags d) - 4)).
Proof.
  intros Hb. unfold netc_dict_load.
  destruct (load_header_total b Hb) as [[e ->]|(v & m & f & tail & -> & Eb & Hv & Hm & Hf & Hl & Hck)]; mstep; [left; by eexists|].
  case_if; [left; by eexists|]. set (ck := netc_crc32 _) in *.
  set (h := Dict NETC_DICT_MAGIC v m NETC_CTX_COUNT f [] [] [] 0 None 0) in *.
  destruct (@header_fields netc_result_t h tail eq_refl) as (_ & _ & H5 & _ & _ & H8 & Hz).
  rewrite <- Eb in H5, H8, Hz. rewrite H5, H8. mstep. cbn [d_model_id h].
  assert (bytes tail) as Hbt by (rewrite Eb in Hb; by apply bytes_app in Hb as [_ ?]).
  pose proof Hl as Hl'. rewrite blob_size_eq, lzp_offset_eq in Hl'. pose proof (n_classes_range v) as Hn.
  assert (0 <= class_map_size v <= 256 /\ (if 5 <=? v then 256 else 0) = class_map_size v) as [Hk Ek]
    by (unfold class_map_size, DICT_V5_CLASSMAP_SIZE; case_if; lia). rewrite Ek in Hl'.
  set (sz := if has f _ then _ else _) in *. assert (0 <= sz) by (subst sz; by case_if). unfold NETC_CTX_COUNT in Hl'.
  destruct (class_map_total v tail Hbt ltac:(lia)) as (cm & cc & -> & Hcm & Ecm). mstep.
  set (cur := drop _ tail). assert (bytes cur /\ zlen cur = zlen tail - class_map_size v) as [Hb1 Hl1]
    by (subst cur; rewrite length_drop; split; [auto with netc|lia]).
  destruct (wire_put_get (Wire := wire_tables) cur Hb1) as [[e ->]|(ts & -> & Hts & Ets)]; mstep;
    [unfold NETC_CTX_COUNT; lia|left; by eexists|].
  set (cur2 := drop _ cur). assert (bytes cur2 /\ zlen cur2 = zlen cur - 8192) as [Hb2 Hl2]
    by (subst cur2; unfold NETC_CTX_COUNT; rewrite length_drop; split; [auto with netc|lia]).
  destruct (wire_put_get (Wire := wire_bigram v) cur2 Hb2) as [[e ->]|(bg & -> & Hbg & Ebg)]; mstep;
    [unfold NETC_CTX_COUNT; lia|left; by eexists|].
  set (cur3 := drop _ cur2). assert (bytes cur3 /\ zlen cur3 = zlen cur2 - 16 * (n_bigram_classes v * 512)) as [Hb3 Hl3]
    by (subst cur3; unfold NETC_CTX_COUNT; rewrite length_drop; split; [auto with netc|lia]).
  destruct (lzp_section_total (mem 1%nat) f cur3 Hb3 ltac:(fold sz; lia)) as [[e ->]|(lzp & -> & Hlz & Elz)]; mstep;
    [left; by eexists|right]. eexists. split; [done|]. cbn [d_version d_dict_flags d_checksum].
  split; [by constructor|]. split; [done|]. split; [done|]. split; [done|]. intros Hfull. fold sz in Elz.
  unfold sections. cbn [d_version d_tables d_bigram_tables d_bigram_class_map d_lzp_table].
  rewrite Ecm, Ets, Ebg, Elz.
  - change (put_header _) with (put_header h). unfold slice. rewrite drop_0, Eb, blob_size_eq, lzp_offset_eq, Ek. fold sz.
    replace (Z.to_nat (_ - 4)) with (length (put_header h) + (Z.to_nat (class_map_size v) +
      (Z.to_nat (NETC_CTX_COUNT * 512) + (Z.to_nat (NETC_CTX_COUNT * (n_bigram_classes v * 512)) + Z.to_nat sz))))%nat
      by (rewrite put_header_length; unfold NETC_CTX_COUNT; lia).
    rewrite take_app_add. by rewrite <- !take_take_drop.
  - intros Hx. rewrite <- (Hfull Hx). rewrite lzp_offset_eq, Ek.
    rewrite <- (read_u32_drop b) by (unfold NETC_CTX_COUNT; lia). f_equal. subst cur3 cur2 cur.
    rewrite !drop_drop, <- H8, drop_drop. f_equal. unfold NETC_CTX_COUNT. lia.
Qed.

(** ** What the rest of the library relies on *)
Lemma built_tbl t : built t -> tbl_ok t /\ freq_shape t.
Proof.
  intros (Hl & Hf & Hb). destruct (tans_build_inv (P := P12) _ _ Hl Hf Hb) as [Hok Ht].
  split; [intros _; by eexists|]. split_and!; [done|done|]. destruct Hok as (_ & _ & ->). done.
Qed.

Lemma zero_tbl_ok : tbl_ok zero_table.
Proof. intros H. exfalso. exact (diff_false_true H). Qed.

Lemma row_tables n row :
  0 <= n <= NETC_BIGRAM_CTX_COUNT -> row_ok n row -> zlen row = NETC_BIGRAM_CTX_COUNT /\ Forall tbl_ok row.
Proof.
  intros Hn (ts & -> & Hl & Hf). rewrite length_app, length_replicate. split; [lia|]. apply Forall_app. split.
  - eapply Forall_impl; [done|]. intros t Ht. by apply built_tbl.
  - apply Forall_replicate, zero_tbl_ok.
Qed.

(** The classes of the class map exist. *)
Definition classes_ok (d : netc_dict_t) : Prop :=
  Forall (fun c => 0 <= c < NETC_BIGRAM_CTX_COUNT) (d_bigram_class_map d).

Lemma default_class_map_ok : zlen default_class_map = 256 /\ Forall (fun c => 0 <= c < NETC_BIGRAM_CTX_COUNT) default_class_map.
Proof.
  split; [done|]. apply Forall_fmap, Forall_forall. intros i Hi%elem_of_seqZ. unfold compose, NETC_BIGRAM_CTX_COUNT.
  rewrite Z.shiftr_div_pow2 by lia. rewrite u8_small; unfold is_byte; change (2 ^ 6) with 64; dlia.
Qed.

Lemma wf_dict_ok d : dict_wf d -> (d_version d = NETC_DICT_VERSION -> classes_ok d) -> dict_ok d.
Proof.
  intros H Hc. constructor.
  - split; [apply H|]. eapply Forall_impl; [apply (dwf_tables _ H)|]. intros t Ht. by apply built_tbl.
  - eapply Forall_impl; [apply (dwf_tables _ H)|]. intros t Ht. by apply built_tbl.
  - split; [apply H|]. eapply Forall_impl; [apply (dwf_bigram _ H)|]. intros row Hr.
    by eapply row_tables; [apply n_classes_range|].
  - pose proof (dwf_class _ H) as Hm. pose proof (dwf_version _ H). unfold NETC_DICT_VERSION, classes_ok in *. case_if_in Hm.
    + split; [apply Hm|]. apply Hc. lia.
    + destruct Hm as [-> _]. apply default_class_map_ok.
  - intros t Ht. pose proof (dwf_lzp _ H) as Hz. case_if_in Hz; [|congruence].
    destruct Hz as (t' & Ht' & ?). by simplify_eq.
  - apply H.
Qed.

(** ** Damaged blobs *)
Lemma aget_insert_ne {E A} (l : list A) i j x : Z.of_nat i <> j -> @aget E A (<[i := x]> l) j = aget l j.
Proof. intros Hne. unfold aget. case_if; [done|]. by rewrite list_lookup_insert_ne by lia. Qed.

Lemma read_u32_slice {E} b off :
  0 <= off -> off + 4 <= zlen b -> @netc_read_u32_le E b off = Ok (le_val (slice b off 4)).
Proof.
  intros H0 Hl. rewrite <- read_u32_drop by done. unfold slice. change (Z.to_nat 4) with 4%nat.
  assert (4 <= length (drop (Z.to_nat off) b))%nat by (rewrite length_drop; lia).
  destruct (drop (Z.to_nat off) b) as [|b0 [|b1 [|b2 [|b3 l]]]]; simpl in *; try lia. done.
Qed.

Lemma le_val_inj l k : bytes l -> bytes k -> length l = length k -> le_val l = le_val k -> l = k.
Proof. intros Hl Hk Hn H. rewrite <- (le_bytes_val l), <- (le_bytes_val k) by done. congruence. Qed.

(** Writing inside a word changes its value, outside it does not. *)
Lemma slice_insert_out {A} (l : list A) i x off n :
  0 <= off -> 0 <= n -> (Z.of_nat i < off \/ off + n <= Z.of_nat i) -> slice (<[i := x]> l) off n = slice l off n.
Proof.
  intros H0 Hn Hi. unfold slice. destruct (decide (Z.of_nat i < off)).
  - by rewrite drop_insert_lt by lia.
  - rewrite drop_insert_ge by lia. by rewrite take_insert_ge by lia.
Qed.

Lemma slice_insert_in (l : list Z) i x y off n :
  l !! i = Some y -> x <> y -> 0 <= off -> off <= Z.of_nat i < off + n -> slice (<[i := x]> l) off n <> slice l off n.
Proof.
  intros Hy Hxy H0 Hi Heq. apply (f_equal (.!! (i - Z.to_nat off)%nat)) in Heq. unfold slice in Heq.
  rewrite !lookup_take_lt, !lookup_drop in Heq by lia. replace (Z.to_nat off + (i - Z.to_nat off))%nat with i in Heq by lia.
  rewrite list_lookup_insert_eq in Heq by (by eapply lookup_lt_Some). congruence.
Qed.

Lemma crc_insert_neq (b : list Z) i x y n :
  bytes b -> is_byte x -> b !! i = Some y -> x <> y -> Z.of_nat i < n ->
  netc_crc32 (slice (<[i := x]> b) 0 n) <> netc_crc32 (slice b 0 n).
Proof.
  intros Hb Hx Hy Hne Hn. unfold slice. rewrite !drop_0, take_insert_lt by lia. set (l := take (Z.to_nat n) b).
  assert (l !! i = Some y) as Hl by (subst l; by rewrite lookup_take_lt by lia).
  assert (bytes l) as Hbl by (subst l; auto with netc). pose proof (lookup_lt_Some _ _ _ Hl).
  rewrite insert_take_drop by done. rewrite <- (take_drop_middle l i y Hl) at 3.
  apply crc32_byte_neq; [auto with netc..|done|by eapply bytes_lookup|done].
Qed.

Lemma load_header_damaged d extra i x y :
  dict_wf d -> d_checksum d = netc_crc32 (put_header d ++ sections d) -> bytes extra ->
  let b := (put_header d ++ sections d) ++ netc_write_u32_le (d_checksum d) ++ extra in
  b !! i = Some y -> is_byte x -> x <> y -> i <> 4%nat -> i <> 7%nat ->
  Z.of_nat i < dict_blob_size_v (d_version d) (d_dict_flags d) ->
  load_header (<[i := x]> b) = Fail (if decide (i = 6%nat) then NETC_ERR_VERSION else NETC_ERR_DICT_INVALID).
Proof.
  intros H Hck He b Hy Hx Hne H4 H7 Hi. destruct (dict_body_ok d H) as (_ & Hb & _).
  assert (0 <= d_checksum d < 2 ^ 32) as Hc by (rewrite Hck; by apply crc32_range).
  assert (bytes b) as Hbb
    by (apply bytes_app; split; [done|apply bytes_app; split; [apply le_bytes_bytes|done]]).
  destruct (blob_parts d (d_checksum d) extra H Hc) as (Hz & Hsl & Hrd). fold b in Hz, Hsl, Hrd.
  pose proof (blob_size_min (d_version d) (d_dict_flags d)) as Hm. pose proof (dwf_version _ H) as Hv.
  destruct (@header_fields netc_result_t d (sections d ++ netc_write_u32_le (d_checksum d) ++ extra))
    as (F0 & F4 & _ & F6 & F7 & _); [apply H|]. rewrite app_assoc in F0, F4, F6, F7. fold b in F0, F4, F6, F7.
  set (n := dict_blob_size_v _ _) in *. unfold load_header, NETC_DICT_VERSION, DICT_V3_BLOB_SIZE in *.
  assert (DICT_V4_BASE_SIZE = 40968) as Hbase by done.
  rewrite length_insert. if_false. rewrite read_u32_slice in F0, Hrd by lia.
  rewrite !read_u32_slice by (rewrite ?length_insert; lia). mstep.
  assert (forall off k, 0 <= off -> off <= Z.of_nat i < off + 4 -> le_val (slice b off 4) = k ->
    off + 4 <= zlen b -> (le_val (slice (<[i := x]> b) off 4) =? k) = false) as Hdiff.
  { intros off k H0 Hin <- Hl. apply Z.eqb_neq. intros Heq. apply le_val_inj in Heq.
    - by eapply slice_insert_in.
    - apply bytes_slice. by apply Forall_insert.
    - auto with netc.
    - unfold slice. by rewrite !length_take, !length_drop, length_insert. }
  apply Ok_inj in F0, Hrd. destruct (decide (Z.of_nat i < 4)).
  { rewrite (Hdiff 0 _ ltac:(lia) ltac:(lia) F0) by lia. mstep. by rewrite decide_False by lia. }
  rewrite (slice_insert_out b i x 0 4), F0, Z.eqb_refl by lia. cbn [negb].
  rewrite (aget_insert_ne b i 4 x), F4 by lia. mstep. if_false. case_decide as H6.
  { subst i. rewrite (aget_Some _ 6 x) by (try lia; apply list_lookup_insert_eq; eapply lookup_lt_Some; eassumption). mstep.
    apply aget_Ok in F6 as [_ F6]. change (Z.to_nat 6) with 6%nat in F6. rewrite (dwf_count _ H) in F6.
    by rewrite (proj2 (Z.eqb_neq x NETC_CTX_COUNT)) by congruence. }
  rewrite (aget_insert_ne b i 6 x), F6 by lia. mstep. rewrite (dwf_count _ H), Z.eqb_refl. cbn [negb].
  rewrite (aget_insert_ne b i 7 x), F7 by lia. mstep. fold n. if_false.
  rewrite read_u32_slice by (rewrite ?length_insert; lia). mstep. unfold dict_blob_checksum.
  destruct (decide (Z.of_nat i < n - 4)).
  - rewrite slice_insert_out, Hrd by lia. pose proof (crc_insert_neq b i x y (n - 4) Hbb Hx Hy Hne ltac:(lia)) as Hcrc.
    rewrite Hsl, <- Hck in Hcrc. by rewrite (proj2 (Z.eqb_neq _ _) (not_eq_sym Hcrc)).
  - rewrite (slice_insert_out b i x 0 (n - 4)), Hsl, <- Hck by lia. by rewrite (Hdiff (n - 4) _ ltac:(lia) ltac:(lia) Hrd) by lia.
Qed.

Lemma slice_last4 (b : list Z) n :
  4 <= n -> n <= zlen b -> slice b 0 (n - 4) ++ slice b (n - 4) 4 = slice b 0 n.
Proof.
  intros H4 Hn. unfold slice. rewrite !drop_0. change (Z.to_nat 4) with 4%nat.
  rewrite take_take_drop. f_equal. lia.
Qed.

(** Saving a loaded dictionary gives the blob back. *)
Lemma save_loaded b d :
  bytes b -> dict_wf d -> dict_blob_size_v (d_version d) (d_dict_flags d) <= zlen b ->
  d_checksum d = netc_crc32 (slice b 0 (dict_blob_size_v (d_version d) (d_dict_flags d) - 4)) ->
  @netc_read_u32_le netc_result_t b (dict_blob_size_v (d_version d) (d_dict_flags d) - 4) = Ok (d_checksum d) ->
  put_header d ++ sections d = slice b 0 (dict_blob_size_v (d_version d) (d_dict_flags d) - 4) ->
  checksummed d /\ forall mem, mem 0%nat = true ->
    netc_dict_save mem (Some d) false = Ok (slice b 0 (dict_blob_size_v (d_version d) (d_dict_flags d))).
Proof.
  intros Hb H Hl Hck Hrd Hs. destruct (dict_body_ok d H) as (Hbody & _ & Hz).
  pose proof (blob_size_min (d_version d) (d_dict_flags d)) as Hm. unfold DICT_V3_BLOB_SIZE in Hm.
  assert (DICT_V4_BASE_SIZE = 40968) as Hbase by done. set (n := dict_blob_size_v _ _) in *. split.
  { eexists. split; [done|]. by rewrite Hs. }
  intros mem Hmem. unfold netc_dict_save. rewrite Hmem. cbn [negb]. rewrite Hbody. mstep. fold n.
  rewrite read_u32_slice in Hrd by lia. apply Ok_inj in Hrd.
  assert (netc_write_u32_le (d_checksum d) = slice b (n - 4) 4) as ->.
  { rewrite <- Hrd. unfold netc_write_u32_le. assert (length (slice b (n - 4) 4) = 4%nat) as H4
      by (pose proof (length_slice b (n - 4) 4); lia). rewrite <- H4 at 1. apply le_bytes_val. auto with netc. }
  rewrite Hs, slice_last4 by lia. rewrite length_slice, Z.eqb_refl by lia. done.
Qed.

(** ** Properties *)

(** A dictionary whose tables are all uniform, without LZP table. *)
Definition uniform_freq : list Z := replicate 256 16.

Definition plain_dict (version : Z) (t : netc_tans_table_t) (class_map : list Z) : netc_dict_t :=
  Dict NETC_DICT_MAGIC version 7 NETC_CTX_COUNT 0 (replicate 16 t) (replicate 16 (replicate 8 t)) class_map 8 None 0.

(** Set the checksum of a dictionary. *)
Definition seal (d : netc_dict_t) : netc_dict_t :=
  Dict (d_magic d) (d_version d) (d_model_id d) (d_ctx_count d) (d_dict_flags d) (d_tables d) (d_bigram_tables d)
       (d_bigram_class_map d) (d_bigram_class_count d) (d_lzp_table d) (netc_crc32 (put_header d ++ sections d)).

Lemma seal_ok d : dict_wf d -> dict_wf (seal d) /\ checksummed (seal d).
Proof.
  intros H. assert (dict_wf (seal d)) as Hs by (constructor; apply H). split; [done|].
  destruct (dict_body_ok (seal d) Hs) as (Hb & _). eexists. split; [exact Hb|]. done.
Qed.

Lemma uniform_built : exists t, netc_tans_build uniform_freq = Ok t /\ built t.
Proof.
  destruct (tans_build_ok (P := P12) uniform_freq) as (t & Ht & _).
  { split; [done|]. split; [apply Forall_replicate; lia|done]. }
  exists t. split; [done|]. apply (build_built uniform_freq t); [done|apply Forall_replicate; lia|done].
Qed.

Lemma plain_dict_wf t class_map :
  built t -> zlen class_map = 256 -> bytes class_map -> dict_wf (plain_dict 5 t class_map).
Proof.
  intros Ht Hl Hb. constructor; cbn [plain_dict d_magic d_version d_model_id d_ctx_count d_dict_flags d_tables
    d_bigram_tables d_bigram_class_map d_bigram_class_count d_lzp_table d_checksum]; try done; try (unfold is_byte; lia).
  - split; [done|]. by apply Forall_replicate.
  - split; [done|]. apply Forall_replicate. exists (replicate 8 t). split; [by rewrite app_nil_r|]. split; [done|].
    by apply Forall_replicate.
Qed.

(** C8: a dictionary survives serialisation: [netc_dict_save] fills a blob of
    exactly the size that [dict_blob_size_v] announces, and [netc_dict_load],
    given the blob (and anything after it), rebuilds the same dictionary, for
    every supported format version, with and without LZP table. *)
Theorem dict_save_load (d : netc_dict_t) (extra : list Z) :
  dict_wf d -> checksummed d ->
  exists blob, (forall mem, mem 0%nat = true -> netc_dict_save mem (Some d) false = Ok blob) /\
    zlen blob = dict_blob_size_v (d_version d) (d_dict_flags d) /\ bytes blob /\
    forall mem, mem 0%nat = true -> mem 1%nat = true -> netc_dict_load mem (Some (blob ++ extra)) false = Ok d.
Proof. apply load_saved. Qed.

Lemma dict_save_load_witness :
  exists d blob, d_model_id d = 7 /\ netc_dict_save (fun _ => true) (Some d) false = Ok blob /\
    zlen blob = 73996 /\ netc_dict_load (fun _ => true) (Some (blob ++ [1; 2; 3])) false = Ok d.
Proof.
  destruct uniform_built as (t & _ & Ht).
  destruct (seal_ok _ (plain_dict_wf t (replicate 256 3) Ht eq_refl ltac:(apply Forall_replicate; unfold is_byte; lia))) as [Hw Hc].
  destruct (dict_save_load _ [1; 2; 3] Hw Hc) as (blob & Hs & Hl & _ & Hd).
  eexists _, blob. split; [|split; [by apply Hs|split; [exact Hl|by apply Hd]]]. reflexivity.
Defined.

(** C7: loading arbitrary bytes never leaves defined behaviour.  The blob is
    rejected with an error code, or the dictionary is well formed (the tables
    were built from frequencies that sum to 4096, the LZP table has its full
    size) and, if its version 5 class map names only existing classes, fit for
    use by the codec.  If it has no LZP section, or one that announces the full
    2^17 entries, then saving the dictionary gives back the first bytes of the
    blob, as many as its version and flags announce; bytes behind them are not
    looked at, and a smaller LZP table is loaded into a full one and so saved
    differently. *)
Theorem dict_load_safe (mem : nat -> bool) (b : list Z) :
  bytes b ->
  (exists e, netc_dict_load mem (Some b) false = Fail e) \/
  exists d, netc_dict_load mem (Some b) false = Ok d /\ dict_wf d /\
    ((d_version d = NETC_DICT_VERSION -> classes_ok d) -> dict_ok d) /\
    ((has (d_dict_flags d) NETC_DICT_FLAG_LZP = true ->
      @netc_read_u32_le netc_result_t b (lzp_offset (d_version d)) = Ok NETC_LZP_HT_SIZE) ->
     checksummed d /\ forall mem', mem' 0%nat = true ->
       netc_dict_save mem' (Some d) false = Ok (slice b 0 (dict_blob_size_v (d_version d) (d_dict_flags d)))).
Proof.
  intros Hb. destruct (load_total mem b Hb) as [?|(d & Hd & Hw & Hl & Hck & Hrd & Hs)]; [by left|right].
  exists d. split; [done|]. split; [done|]. split; [by apply wf_dict_ok|]. intros Hx.
  apply save_loaded; auto.
Qed.

(** A blob that is accepted. *)
Lemma dict_load_safe_witness :
  exists b d, netc_dict_load (fun _ => true) (Some b) false = Ok d /\ dict_wf d /\
    netc_dict_save (fun _ => true) (Some d) false = Ok (slice b 0 73996).
Proof.
  destruct uniform_built as (t & _ & Ht).
  destruct (seal_ok _ (plain_dict_wf t (replicate 256 3) Ht eq_refl ltac:(apply Forall_replicate; unfold is_byte; lia))) as [Hw Hc].
  destruct (load_saved _ [] Hw Hc) as (blob & _ & _ & Hb & Hd). specialize (Hd (fun _ => true) eq_refl eq_refl).
  rewrite app_nil_r in Hd. destruct (dict_load_safe (fun _ => true) blob Hb) as [[e He]|(d & He & Hwd & _ & Hs)].
  { exfalso. rewrite Hd in He. discriminate He. }
  rewrite Hd in He. apply Ok_inj in He. subst d. exists blob. eexists. split; [exact Hd|]. split; [exact Hw|].
  apply Hs; [discriminate|reflexivity].
Defined.

(** C40: a damaged blob is rejected: any change of one byte of a saved dictionary,
    other than the version and the flags (which select the layout that the
    checksum is looked up in), makes [netc_dict_load] report an error. *)
Theorem dict_corruption_detected (mem mem' : nat -> bool) (d : netc_dict_t) (blob extra : list Z) (i : nat) (x y : Z) :
  dict_wf d -> checksummed d -> netc_dict_save mem (Some d) false = Ok blob -> bytes extra ->
  blob !! i = Some y -> is_byte x -> x <> y -> i <> 4%nat -> i <> 7%nat ->
  netc_dict_load mem' (Some (<[i := x]> blob ++ extra)) false =
    Fail (if decide (i = 6%nat) then NETC_ERR_VERSION else NETC_ERR_DICT_INVALID).
Proof.
  intros Hw (body & Hbd & Hck) Hs He Hy Hx Hne H4 H7. destruct (dict_body_ok d Hw) as (Hb & _ & Hz). rewrite Hb in Hbd.
  apply Ok_inj in Hbd. subst body. unfold netc_dict_save in Hs. destruct (mem 0%nat); [|discriminate]. cbn [negb] in Hs.
  rewrite Hb in Hs. rewrite bind_Ok_l in Hs. cbv zeta in Hs. case_if_in Hs; [|discriminate]. apply Ok_inj in Hs. subst blob.
  pose proof (lookup_lt_Some _ _ _ Hy). unfold netc_dict_load. rewrite <- insert_app_l by done. rewrite <- app_assoc.
  rewrite (load_header_damaged d extra i x y); [done|done|done|done| |done|done|done|done|lia].
  rewrite app_assoc. by apply lookup_app_l_Some.
Qed.

Lemma dict_corruption_detected_witness :
  exists d blob, netc_dict_save (fun _ => true) (Some d) false = Ok blob /\ blob !! 5%nat = Some 7 /\
    netc_dict_load (fun _ => true) (Some (<[5%nat := 8]> blob ++ [])) false = Fail NETC_ERR_DICT_INVALID.
Proof.
  destruct uniform_built as (t & _ & Ht).
  destruct (seal_ok _ (plain_dict_wf t (replicate 256 3) Ht eq_refl ltac:(apply Forall_replicate; unfold is_byte; lia))) as [Hw Hc].
  destruct (load_saved _ [] Hw Hc) as (blob & Hs & Hl & _). specialize (Hs (fun _ => true) eq_refl).
  eexists _, blob. split; [exact Hs|]. assert (blob !! 5%nat = Some 7) as Hy.
  { pose proof Hs as Hs'. unfold netc_dict_save in Hs'. cbn [negb] in Hs'. destruct (dict_body_ok _ Hw) as (Hb & _).
    rewrite Hb in Hs'. rewrite bind_Ok_l in Hs'. cbv zeta in Hs'. case_if_in Hs'; [|discriminate]. apply Ok_inj in Hs'. by subst blob. }
  split; [exact Hy|].
  apply (dict_corruption_detected (fun _ => true) (fun _ => true) _ blob [] 5 8 7 Hw Hc Hs bytes_nil Hy);
    [unfold is_byte; lia|lia|lia|lia].
Defined.
