(* ===== verification/Train.v ===== *)
(** * Dictionary training (src/src/core/netc_dict.c: netc_dict_train)

    The statistics gathered from sample packets: byte frequencies per position
    bucket, the clustering of previous bytes into bigram classes, bigram
    frequencies, and the majority vote that fills the LZP table; then the
    retraining on LZP-filtered packets and the checksum.  The packets are
    walked once per statistic.  [mem k] says whether allocation site [k]
    succeeds; the CPU decides which histogram kernel is used. *)

From stdpp Require Import prelude sorting.
From Stdlib Require Import ZArith Lia.
From S2P Require Import Prelude TansTable TansCodec Lzp Freq Delta Crc32 Simd Header Lz Ctx Dict.

Local Open Scope Z_scope.

(** ** Walking the packets *)

(** A NULL or empty packet is skipped, a long one cut. *)
Definition usable (p : option (list Z)) : option (list Z) :=
  match p with
  | None => None
  | Some pkt => if zlen pkt =? 0 then None else Some (take (Z.to_nat (Z.min (zlen pkt) NETC_MAX_PACKET_SIZE)) pkt)
  end.

(** [for (p = 0; p < count; p++)] *)
Definition for_packets {S} (f : S -> list Z -> outcome unit S) (s : S) (packets : list (option (list Z))) : outcome unit S :=
  foldM (fun s p => match usable p with None => Ok s | Some pkt => f s pkt end) s packets.

(** [for (i = 0; i < pkt_size; i++)], with the byte before position [i]. *)
Fixpoint for_bytes {S} (f : S -> Z -> Z -> Z -> outcome unit S) (i prev : Z) (pkt : list Z) (s : S) : outcome unit S :=
  match pkt with
  | [] => Ok s
  | b :: pkt' => s ← f s i prev b; for_bytes f (i + 1) b pkt' s
  end.

(** [a[i] = f(a[i])] *)
Definition at_index {E A} (l : list A) (i : Z) (f : A -> outcome E A) : outcome E (list A) :=
  x ← aget l i; y ← f x; aset l i y.

(** [for (c = 0; c < n; c++) a[c] = f(c)], an array filled from the front. *)
Definition collect {A} (n : Z) (f : Z -> outcome unit A) : outcome unit (list A) :=
  foldM (fun l c => x ← f c; Ok (l ++ [x])) [] (seqZ 0 n).

(** [for (c = 0; c < n; c++) a[c] = f(c, a[c])] *)
Definition update_all {A} (n : Z) (f : Z -> A -> outcome unit A) (l : list A) : outcome unit (list A) :=
  foldM (fun l c => at_index l c (f c)) l (seqZ 0 n).

(** [a[i]++] on [uint64_t]. *)
Definition bump (l : list Z) (i : Z) : outcome unit (list Z) := at_index l i (fun n => Ok (u64 (n + 1))).

(** ** Unigram frequencies *)
Definition zero_hist : list Z := replicate (Z.to_nat NETC_TANS_SYMBOLS) 0.

Record tally := Tally { raw : list (list Z); totals : list Z }.

Definition zero_tally : tally :=
  Tally (replicate (Z.to_nat NETC_CTX_COUNT) zero_hist) (replicate (Z.to_nat NETC_CTX_COUNT) 0).

Definition bucket_end : list Z :=
  [8; 16; 24; 32; 48; 64; 96; 128; 192; 256; 384; 512; 1024; 4096; 16384; 65536].

(** One bucket of one packet, counted by the histogram kernel. *)
Definition count_segment (ops : netc_simd_ops_t) (pkt : list Z) (st : tally * Z) (b : Z) : outcome unit (tally * Z) :=
  let '(t, seg_start) := st in
  if zlen pkt <=? seg_start then Ok st else
  e ← aget bucket_end b;
  let seg_end := if zlen pkt <? e then zlen pkt else e in
  let seg_len := seg_end - seg_start in
  tmp_freq ← freq_count ops (slice pkt seg_start seg_len) zero_hist;
  raw' ← at_index (raw t) b (fun row => Ok (zip_with (fun r n => u64 (r + n)) row tmp_freq));
  totals' ← at_index (totals t) b (fun n => Ok (u64 (n + seg_len)));
  Ok (Tally raw' totals', seg_end).

Definition count_packet (ops : netc_simd_ops_t) (t : tally) (pkt : list Z) : outcome unit tally :=
  '(t, _) ← foldM (count_segment ops pkt) (t, 0) (seqZ 0 NETC_CTX_COUNT);
  Ok t.

Definition count_unigrams (ops : netc_simd_ops_t) (packets : list (option (list Z))) : outcome unit tally :=
  for_packets (count_packet ops) zero_tally packets.

(** ** Bigram classes *)

(** [cond_counts[prev * 256 + sym]++] *)
Definition cond_counts (packets : list (option (list Z))) : outcome unit (list Z) :=
  for_packets (fun cc pkt => for_bytes (fun cc _ prev b => bump cc (prev * 256 + b)) 0 0 pkt cc)
    (replicate (Z.to_nat 65536) 0) packets.

(** The symbol seen most often after [prev], the smallest one on a tie. *)
Definition peak_symbol (cc : list Z) (prev : Z) : outcome unit Z :=
  '(_, best_sym) ← foldM (fun '(best, best_sym) s =>
      c ← aget cc (prev * 256 + s);
      Ok (if best <? c then (c, u16 s) else (best, best_sym))) (0, 0) (seqZ 0 256);
  Ok best_sym.

Definition cond_peak (cc : list Z) : outcome unit (list Z) :=
  collect 256 (peak_symbol cc).

(** The inner loop of the insertion sort: [j] is the number of elements still
    to compare with, the C variable plus one. *)
Fixpoint insert_key (peaks : list Z) (key key_peak : Z) (j : nat) (sorted_prev : list Z) : outcome unit (list Z) :=
  match j with
  | O => aset sorted_prev 0 key
  | S j' =>
      p ← aget sorted_prev (Z.of_nat j');
      pk ← aget peaks p;
      if key_peak <? pk
      then sorted_prev ← aset sorted_prev (Z.of_nat j' + 1) p; insert_key peaks key key_peak j' sorted_prev
      else aset sorted_prev (Z.of_nat j' + 1) key
  end.

Definition sort_by_peak (peaks : list Z) : outcome unit (list Z) :=
  foldM (fun sorted_prev i =>
      key ← aget sorted_prev i;
      key_peak ← aget peaks key;
      insert_key peaks key key_peak (Z.to_nat i) sorted_prev) (seqZ 0 256) (seqZ 1 255).

(** Eight groups of 32 in sorted order. *)
Definition assign_classes (sorted_prev : list Z) : outcome unit (list Z) :=
  foldM (fun class_map g =>
      foldM (fun class_map k =>
          prev_idx ← aget sorted_prev (g * 32 + k);
          aset class_map prev_idx (u8 g)) class_map (seqZ 0 32))
    (replicate 256 0) (seqZ 0 NETC_BIGRAM_CTX_COUNT).

Definition train_class_map (packets : list (option (list Z))) : outcome unit (list Z) :=
  cc ← cond_counts packets;
  peaks ← cond_peak cc;
  sorted_prev ← sort_by_peak peaks;
  assign_classes sorted_prev.

(** ** Bigram frequencies *)
Record bigram_tally := BTally { bgram_raw : list (list (list Z)); bgram_totals : list (list Z) }.

Definition zero_bigram_tally : bigram_tally :=
  BTally (replicate (Z.to_nat NETC_CTX_COUNT) (replicate (Z.to_nat NETC_BIGRAM_CTX_COUNT) zero_hist))
         (replicate (Z.to_nat NETC_CTX_COUNT) (replicate (Z.to_nat NETC_BIGRAM_CTX_COUNT) 0)).

Definition count_bigram (class_map : list Z) (t : bigram_tally) (i prev sym : Z) : outcome unit bigram_tally :=
  let bucket := netc_ctx_bucket i in
  bclass ← netc_bigram_class prev (Some class_map);
  r ← at_index (bgram_raw t) bucket (fun rows => at_index rows bclass (fun row => bump row sym));
  n ← at_index (bgram_totals t) bucket (fun row => bump row bclass);
  Ok (BTally r n).

Definition count_bigrams (class_map : list Z) (packets : list (option (list Z))) : outcome unit bigram_tally :=
  for_packets (fun t pkt => for_bytes (count_bigram class_map) 0 0 pkt t) zero_bigram_tally packets.

(** ** tANS tables *)
Definition build_table (row : list Z) (total : Z) : outcome unit netc_tans_table_t :=
  ft ← freq_normalize row total;
  netc_tans_build ft.

(** [for (c = 0; c < n; c++) build(&tables[c], raw[c], totals[c])] *)
Definition build_row (n : Z) (rows : list (list Z)) (ns : list Z) : outcome unit (list netc_tans_table_t) :=
  collect n (fun c => row ← aget rows c; total ← aget ns c; build_table row total).

Definition build_tables (t : tally) : outcome unit (list netc_tans_table_t) :=
  build_row NETC_CTX_COUNT (raw t) (totals t).

Definition build_bigram_tables (t : bigram_tally) : outcome unit (list (list netc_tans_table_t)) :=
  collect NETC_CTX_COUNT (fun b =>
      rs ← aget (bgram_raw t) b;
      ns ← aget (bgram_totals t) b;
      build_row NETC_BIGRAM_CTX_COUNT rs ns).

(** ** LZP table: majority vote per hash slot *)
Record lzp_vote_t := Vote { candidate : Z; count : Z }.

(** [if (n < 0xFFFF) n++] on [uint16_t]. *)
Definition sat_incr (n : Z) : Z := if n <? 0xFFFF then u16 (n + 1) else n.

Definition INT16_MAX : Z := 32767.

Definition cast_vote (v : lzp_vote_t) (b : Z) : lzp_vote_t :=
  if count v =? 0 then Vote b 1
  else if candidate v =? b then if count v <? INT16_MAX then Vote (candidate v) (count v + 1) else v
  else Vote (candidate v) (count v - 1).

Definition zero_slots : list Z := replicate (Z.to_nat NETC_LZP_HT_SIZE) 0.

(** Pass 1; the slot totals are counted but not used. *)
Definition cast_votes (packets : list (option (list Z))) : outcome unit (list lzp_vote_t * list Z) :=
  for_packets (fun st pkt =>
      for_bytes (fun '(votes, slot_total) i prev b =>
          let h := netc_lzp_hash prev i in
          slot_total ← at_index slot_total h (fun n => Ok (sat_incr n));
          votes ← at_index votes h (fun v => Ok (cast_vote v b));
          Ok (votes, slot_total)) 0 0 pkt st)
    (replicate (Z.to_nat NETC_LZP_HT_SIZE) (Vote 0 0), zero_slots) packets.

(** Pass 2: how often a slot is used and how often its candidate is right. *)
Definition verify_votes (votes : list lzp_vote_t) (packets : list (option (list Z))) : outcome unit (list Z * list Z) :=
  for_packets (fun st pkt =>
      for_bytes (fun '(total_count, hit_count) i prev b =>
          let h := netc_lzp_hash prev i in
          total_count ← at_index total_count h (fun n => Ok (sat_incr n));
          v ← aget votes h;
          hit_count ← (if b =? candidate v then at_index hit_count h (fun n => Ok (sat_incr n)) else Ok hit_count);
          Ok (total_count, hit_count)) 0 0 pkt st)
    (zero_slots, zero_slots) packets.

(** A slot predicts its candidate when it was used twice or more and the
    candidate was right in at least 40% of the cases. *)
Definition lzp_slot (v : lzp_vote_t) (total hit : Z) : netc_lzp_entry_t :=
  if (2 <=? total) && (total * 4 <=? hit * 10) then LzpEntry (candidate v) 1 else LzpEntry 0 0.

Definition populate_lzp (votes : list lzp_vote_t) (total_count hit_count : list Z) : list netc_lzp_entry_t :=
  zip_with (fun v n => lzp_slot v n.1 n.2) votes (zip total_count hit_count).

(** ** Retraining on filtered packets *)
Definition count_filtered (class_map : list Z) (st : tally * bigram_tally) (i prev sym : Z)
  : outcome unit (tally * bigram_tally) :=
  let '(t, bt) := st in
  let bucket := netc_ctx_bucket i in
  r ← at_index (raw t) bucket (fun row => bump row sym);
  n ← bump (totals t) bucket;
  bt ← count_bigram class_map bt i prev sym;
  Ok (Tally r n, bt).

Definition retrain_counts (lzp : list netc_lzp_entry_t) (class_map : list Z) (packets : list (option (list Z)))
  : outcome unit (tally * bigram_tally) :=
  for_packets (fun st pkt =>
      filt_buf ← netc_lzp_xor_filter lzp pkt;
      for_bytes (count_filtered class_map) 0 0 filt_buf st) (zero_tally, zero_bigram_tally) packets.

(** A table that cannot be rebuilt keeps its contents. *)
Definition rebuild_table (old : netc_tans_table_t) (row : list Z) (total : Z) : outcome unit netc_tans_table_t :=
  ft ← freq_normalize row total;
  r ← attempt (netc_tans_build ft);
  Ok (default old r).

Definition rebuild_row (n : Z) (ts : list netc_tans_table_t) (rows : list (list Z)) (ns : list Z)
  : outcome unit (list netc_tans_table_t) :=
  update_all n (fun c t => row ← aget rows c; total ← aget ns c; rebuild_table t row total) ts.

Definition rebuild_bigram_tables (bg : list (list netc_tans_table_t)) (t : bigram_tally)
  : outcome unit (list (list netc_tans_table_t)) :=
  update_all NETC_CTX_COUNT (fun b ts =>
      rs ← aget (bgram_raw t) b;
      ns ← aget (bgram_totals t) b;
      rebuild_row NETC_BIGRAM_CTX_COUNT ts rs ns) bg.

(** ** [netc_dict_train] *)

(** Phases 2 to 5: tables, bigram tables, class map and LZP table. *)
Definition train_model (ops : netc_simd_ops_t) (mem : nat -> bool) (packets : list (option (list Z)))
  : result (list netc_tans_table_t * list (list netc_tans_table_t) * list Z * list netc_lzp_entry_t) :=
  unigrams ← or_fail NETC_ERR_NOMEM (count_unigrams ops packets);
  if negb (mem 1%nat) then Fail NETC_ERR_NOMEM else
  class_map ← or_fail NETC_ERR_NOMEM (train_class_map packets);
  if negb (mem 2%nat) then Fail NETC_ERR_NOMEM else
  bigrams ← or_fail NETC_ERR_NOMEM (count_bigrams class_map packets);
  tables ← or_fail NETC_ERR_NOMEM (build_tables unigrams);
  bigram_tables ← or_fail NETC_ERR_NOMEM (build_bigram_tables bigrams);
  if negb (mem 3%nat && mem 4%nat) then Fail NETC_ERR_NOMEM else
  '(votes, _) ← or_fail NETC_ERR_NOMEM (cast_votes packets);
  if negb (mem 5%nat) then Fail NETC_ERR_NOMEM else
  '(total_count, hit_count) ← or_fail NETC_ERR_NOMEM (verify_votes votes packets);
  if negb (mem 6%nat) then Fail NETC_ERR_NOMEM else
  let lzp := populate_lzp votes total_count hit_count in
  if negb (mem 7%nat) then Fail NETC_ERR_NOMEM else
  if negb (mem 8%nat) then Fail NETC_ERR_NOMEM else
  '(unigrams, bigrams) ← or_fail NETC_ERR_NOMEM (retrain_counts lzp class_map packets);
  tables ← or_fail NETC_ERR_NOMEM (rebuild_row NETC_CTX_COUNT tables (raw unigrams) (totals unigrams));
  bigram_tables ← or_fail NETC_ERR_NOMEM (rebuild_bigram_tables bigram_tables bigrams);
  Ok (tables, bigram_tables, class_map, lzp).

(** [packets] lists the samples, a NULL entry is [None]; the arrays themselves
    may be NULL. *)
Definition netc_dict_train (cpu : simd_caps) (mem : nat -> bool) (packets_null sizes_null : bool)
    (packets : list (option (list Z))) (model_id : Z) (out_null : bool) : result netc_dict_t :=
  if out_null then Fail NETC_ERR_INVALID_ARG else
  if (model_id =? 0) || (model_id =? 255) then Fail NETC_ERR_INVALID_ARG else
  if (0 <? zlen packets) && (packets_null || sizes_null) then Fail NETC_ERR_INVALID_ARG else
  if negb (mem 0%nat) then Fail NETC_ERR_NOMEM else
  '(tables, bigram_tables, class_map, lzp) ←
    train_model (netc_simd_ops_init cpu NETC_SIMD_LEVEL_AUTO) mem packets;
  let d := Dict NETC_DICT_MAGIC NETC_DICT_VERSION model_id NETC_CTX_COUNT NETC_DICT_FLAG_LZP tables bigram_tables
             class_map NETC_BIGRAM_CTX_COUNT (Some lzp) 0 in
  if negb (mem 9%nat) then Fail NETC_ERR_NOMEM else
  body ← dict_body d;
  if negb (zlen body =? dict_blob_size_v (d_version d) (d_dict_flags d) - 4) then Undef else
  Ok (Dict NETC_DICT_MAGIC NETC_DICT_VERSION model_id NETC_CTX_COUNT NETC_DICT_FLAG_LZP tables bigram_tables
        class_map NETC_BIGRAM_CTX_COUNT (Some lzp) (netc_crc32 body)).

(** ** Loops *)
Lemma at_index_ok {E A} (l : list A) i (f : A -> outcome E A) x y :
  0 <= i -> l !! Z.to_nat i = Some x -> f x = Ok y -> at_index l i f = Ok (<[Z.to_nat i := y]> l).
Proof.
  intros Hi Hx Hf. unfold at_index. rewrite (aget_Some l i x) by done. mstep. rewrite Hf. mstep.
  apply aset_ok. apply lookup_lt_Some in Hx. lia.
Qed.

(** A counted loop with an invariant on the loop variable. *)
Lemma foldM_seqZ {E S} (P : Z -> S -> Prop) a n (f : S -> Z -> outcome E S) s :
  0 <= n -> P a s -> (forall k s, a <= k < a + n -> P k s -> exists s', f s k = Ok s' /\ P (k + 1) s') ->
  exists s', foldM f s (seqZ a n) = Ok s' /\ P (a + n) s'.
Proof.
  intros Hn H0. revert n Hn. apply (natlike_ind (fun n => _ -> _)); [intros _; exists s; by rewrite Z.add_0_r|].
  intros n Hn IH Hf. destruct IH as (s1 & He & H1); [intros k s2 Hk; apply Hf; lia|].
  rewrite seqZ_snoc, foldM_snoc, He, Z.add_succ_r by done. mstep. by apply Hf; [lia|].
Qed.

Lemma collect_ok {A} (P : A -> Prop) n f :
  0 <= n -> (forall c, 0 <= c < n -> exists x, f c = Ok x /\ P x) ->
  exists l, collect n f = Ok l /\ zlen l = n /\ Forall P l /\
    forall c x, 0 <= c -> l !! Z.to_nat c = Some x -> f c = Ok x.
Proof.
  intros Hn Hf. apply (foldM_seqZ (fun n l => zlen l = n /\ Forall P l /\
    forall c x, 0 <= c -> l !! Z.to_nat c = Some x -> f c = Ok x)); [done| |].
  { split; [done|]. split; [constructor|]. intros c x _ Hx. by rewrite lookup_nil in Hx. }
  intros k l Hk (Hz & HP & Hc). destruct (Hf k ltac:(lia)) as (x & Hx & Px). rewrite Hx. mstep.
  exists (l ++ [x]). split; [done|]. rewrite length_app. split; [simpl; lia|]. split; [by apply Forall_app; split; [|constructor]|].
  intros c y H0 Hy. destruct (decide (c = k)) as [->|].
  - rewrite lookup_app_r in Hy by lia. replace (Z.to_nat k - length l)%nat with 0%nat in Hy by lia. by simplify_eq/=.
  - pose proof (lookup_lt_Some _ _ _ Hy) as Hlt. rewrite length_app in Hlt. simpl in Hlt.
    rewrite lookup_app_l in Hy by lia. by apply Hc.
Qed.

Lemma update_all_ok {A} (P : A -> Prop) n f (l : list A) :
  zlen l = n -> (forall c x, 0 <= c < n -> l !! Z.to_nat c = Some x -> exists y, f c x = Ok y /\ P y) ->
  exists l', update_all n f l = Ok l' /\ zlen l' = n /\ Forall P l'.
Proof.
  intros Hl Hf. destruct (foldM_seqZ (fun k l' => zlen l' = n /\ Forall P (take (Z.to_nat k) l') /\
    drop (Z.to_nat k) l' = drop (Z.to_nat k) l) 0 n (fun l c => at_index l c (f c)) l) as (l' & He & Hz & HP & _); [lia|done| |].
  - intros k l1 Hk (Hz & HP & Hd). destruct (lookup_lt_is_Some_2 l1 (Z.to_nat k)) as [x Hx]; [lia|].
    assert (l !! Z.to_nat k = Some x) as Hx'.
    { apply (f_equal (lookup 0%nat)) in Hd. rewrite !lookup_drop, Nat.add_0_r in Hd. by rewrite <- Hd. }
    destruct (Hf k x ltac:(lia) Hx') as (y & Hy & Py).
    rewrite (at_index_ok l1 k (f k) x y) by (done || lia). eexists. split; [done|]. rewrite length_insert. split; [done|].
    replace (Z.to_nat (k + 1)) with (S (Z.to_nat k)) by lia. split.
    + rewrite (take_S_r _ _ y) by (apply list_lookup_insert_eq; lia). rewrite take_insert_ge by lia.
      apply Forall_app; split; [done|by constructor].
    + rewrite drop_insert_lt by lia. apply (f_equal (drop 1)) in Hd. by rewrite !drop_drop, !Nat.add_1_r in Hd.
  - exists l'. split; [done|]. split; [done|]. by rewrite take_ge in HP by lia.
Qed.

(** ** Events: one per byte of a usable packet *)
Fixpoint positions (i prev : Z) (pkt : list Z) : list (Z * Z * Z) :=
  match pkt with
  | [] => []
  | b :: pkt' => (i, prev, b) :: positions (i + 1) b pkt'
  end.

Definition events (pkts : list (list Z)) : list (Z * Z * Z) := concat (positions 0 0 <$> pkts).

Definition samples (packets : list (option (list Z))) : list (list Z) := omap usable packets.

Lemma for_packets_samples {S} (f : S -> list Z -> outcome unit S) s packets :
  for_packets f s packets = foldM f s (samples packets).
Proof.
  unfold for_packets. revert s. induction packets as [|p packets IH]; intros s; [done|].
  unfold samples in *. cbn [foldM omap list_omap]. destruct (usable p) as [pkt|]; mstep; [|apply IH].
  cbn [foldM]. destruct (f s pkt); mstep; [apply IH|done..].
Qed.

Lemma for_bytes_positions {S} (f : S -> Z -> Z -> Z -> outcome unit S) i prev pkt s :
  for_bytes f i prev pkt s = foldM (fun s '(i, prev, b) => f s i prev b) s (positions i prev pkt).
Proof.
  revert i prev s. induction pkt as [|b pkt IH]; intros i prev s; [done|]. cbn [for_bytes positions foldM].
  destruct (f s i prev b); mstep; [apply IH|done..].
Qed.

Lemma foldM_concat {E S A} (f : S -> A -> outcome E S) s (ls : list (list A)) :
  foldM (fun s l => foldM f s l) s ls = foldM f s (concat ls).
Proof.
  revert s. induction ls as [|l ls IH]; intros s; [done|]. cbn [foldM concat]. rewrite foldM_app.
  destruct (foldM f s l); mstep; [apply IH|done..].
Qed.

Lemma foldM_map {E S A B} (g : A -> B) (f : S -> B -> outcome E S) s l :
  foldM f s (g <$> l) = foldM (fun s a => f s (g a)) s l.
Proof.
  revert s. induction l as [|a l IH]; intros s; [done|]. cbn [foldM fmap list_fmap].
  destruct (f s (g a)); mstep; [apply IH|done..].
Qed.

(** A pass over all bytes of all packets. *)
Lemma pass_events {S} (f : S -> Z -> Z -> Z -> outcome unit S) s packets :
  for_packets (fun s pkt => for_bytes f 0 0 pkt s) s packets =
    foldM (fun s '(i, prev, b) => f s i prev b) s (events (samples packets)).
Proof.
  rewrite for_packets_samples. unfold events. rewrite <- foldM_concat, foldM_map.
  apply foldM_ext. intros s' pkt _. apply for_bytes_positions.
Qed.

(** A fold whose invariant speaks about the elements seen so far. *)
Lemma foldM_prefix {E S A} (P : list A -> S -> Prop) (f : S -> A -> outcome E S) s l :
  (forall pre a s, zlen pre < zlen l -> a ∈ l -> P pre s -> exists s', f s a = Ok s' /\ P (pre ++ [a]) s') ->
  P [] s -> exists s', foldM f s l = Ok s' /\ P l s'.
Proof.
  induction l as [|a l IH] using rev_ind; intros Hf H0; [by exists s|]. rewrite foldM_snoc.
  rewrite length_app in Hf. simpl in Hf.
  destruct IH as (s1 & -> & H1); [|done|].
  - intros pre b s2 Hp Hb. apply Hf; [lia|set_solver].
  - mstep. apply Hf; [lia|set_solver|done].
Qed.

(** What a sample list is: byte strings, fewer than 2^32 of them. *)
Definition samples_ok (pkts : list (list Z)) : Prop :=
  zlen pkts < 2 ^ 32 /\ Forall (fun pkt => bytes pkt /\ zlen pkt <= NETC_MAX_PACKET_SIZE) pkts.

Definition packets_ok (packets : list (option (list Z))) : Prop :=
  zlen packets < 2 ^ 32 /\ forall pkt, Some pkt ∈ packets -> bytes pkt.

(** The same as a computation, for concrete samples. *)
Definition packets_okb (packets : list (option (list Z))) : bool :=
  (zlen packets <? 2 ^ 32) && forallb (fun p => forallb (fun b => (0 <=? b) && (b <? 256)) (default [] p)) packets.

Lemma packets_ok_check packets : packets_okb packets = true -> packets_ok packets.
Proof.
  unfold packets_okb. intros [Hn Hb]%andb_true_iff. split; [lia|]. intros pkt Hin. rewrite forallb_forall in Hb.
  specialize (Hb (Some pkt)). simpl in Hb. rewrite forallb_forall in Hb. apply Forall_forall. intros b Hbin.
  apply list_elem_of_In in Hin. apply list_elem_of_In in Hbin. specialize (Hb Hin b Hbin). bool_to_prop. unfold is_byte. lia.
Qed.

Lemma samples_packets packets : packets_ok packets -> samples_ok (samples packets).
Proof.
  intros [Hn Hb]. split.
  - assert (length (samples packets) <= length packets)%nat; [|lia]. clear. unfold samples.
    induction packets as [|p packets IH]; cbn [omap list_omap length]; [lia|]. destruct (usable p); cbn [length]; lia.
  - apply Forall_forall. intros pkt (p & Hp & He)%list_elem_of_omap. destruct p as [l|]; [|done].
    simpl in He. case_if_in He; [done|]. injection He as <-. split; [by apply bytes_take, Hb|].
    rewrite length_take. unfold NETC_MAX_PACKET_SIZE. lia.
Qed.

Definition event_ok (e : Z * Z * Z) : Prop := 0 <= e.1.1 < 65535 /\ is_byte e.1.2 /\ is_byte e.2.

Lemma positions_ok i prev pkt :
  0 <= i -> i + zlen pkt <= 65535 -> is_byte prev -> bytes pkt ->
  Forall event_ok (positions i prev pkt) /\ length (positions i prev pkt) = length pkt.
Proof.
  revert i prev. induction pkt as [|b pkt IH]; intros i prev Hi Hl Hp Hb; [by split; [constructor|]|].
  apply bytes_cons in Hb as [Hb Hbs]. simpl in *. destruct (IH (i + 1) b) as [Hf Hn]; [lia|lia|done|done|].
  split; [|lia]. constructor; [|done]. by split; [simpl; lia|].
Qed.

Lemma events_ok pkts : samples_ok pkts -> Forall event_ok (events pkts) /\ zlen (events pkts) < 2 ^ 48.
Proof.
  intros [Hn Hp]. assert (Forall event_ok (events pkts) /\ zlen (events pkts) <= 65535 * zlen pkts) as [Hf Hl].
  - clear Hn. unfold events. induction Hp as [|pkt pkts [Hb Hl] _ [IHf IHl]]; [by split; [constructor|]|].
    cbn [fmap list_fmap concat]. rewrite length_app. unfold NETC_MAX_PACKET_SIZE in Hl.
    destruct (positions_ok 0 0 pkt) as [Hf He]; [lia|lia|unfold is_byte; lia|done|].
    split; [by apply Forall_app|]. simpl. lia.
  - split; [done|]. change (2 ^ 48) with (65536 * 2 ^ 32). lia.
Qed.

(** A pass with an invariant on the bytes seen so far. *)
Lemma pass_inv {S} (P : list (Z * Z * Z) -> S -> Prop) (f : S -> Z -> Z -> Z -> outcome unit S) s packets :
  packets_ok packets ->
  (forall pre i prev b s, zlen pre < 2 ^ 48 -> event_ok (i, prev, b) -> P pre s ->
     exists s', f s i prev b = Ok s' /\ P (pre ++ [(i, prev, b)]) s') ->
  P [] s ->
  exists s', for_packets (fun s pkt => for_bytes f 0 0 pkt s) s packets = Ok s' /\ P (events (samples packets)) s'.
Proof.
  intros Hp Hf H0. rewrite pass_events. destruct (events_ok _ (samples_packets _ Hp)) as [Hv Hn].
  apply foldM_prefix; [|done]. intros pre [[i prev] b] s' Hl He HP. rewrite Forall_forall in Hv.
  apply Hf; [lia|by apply Hv|done].
Qed.

(** ** Histograms *)

(** Two parallel arrays updated at the same index. *)
Lemma at_index2 {E A B} (P Q : A -> B -> Prop) (f : A -> outcome E A) (g : B -> outcome E B) ls ks i :
  Forall2 P ls ks -> 0 <= i < zlen ls -> (forall x y, P x y -> Q x y) ->
  (forall x y, P x y -> exists x' y', f x = Ok x' /\ g y = Ok y' /\ Q x' y') ->
  exists ls' ks', at_index ls i f = Ok ls' /\ at_index ks i g = Ok ks' /\ Forall2 Q ls' ks' /\ zlen ls' = zlen ls.
Proof.
  intros H Hi HQ Hf. destruct (lookup_lt_is_Some_2 ls (Z.to_nat i)) as [x Hx]; [lia|].
  destruct (Forall2_lookup_l _ _ _ _ _ H Hx) as (y & Hy & Hxy). destruct (Hf x y Hxy) as (x' & y' & Hfx & Hgy & Hq).
  rewrite (at_index_ok ls i f x x'), (at_index_ok ks i g y y') by (done || lia). do 2 eexists. split; [done|]. split; [done|].
  rewrite length_insert. split; [|done]. apply Forall2_insert; [|done]. by eapply Forall2_impl.
Qed.

(** 256 counters that sum to [total], at most [n]. *)
Definition hist_row (n : Z) (row : list Z) (total : Z) : Prop :=
  zlen row = 256 /\ Forall (fun r => 0 <= r) row /\ total = lsum row /\ total <= n.

Definition grid (k n : Z) (rows : list (list Z)) (ns : list Z) : Prop :=
  zlen rows = k /\ Forall2 (hist_row n) rows ns.

Lemma hist_row_mono n m row total : n <= m -> hist_row n row total -> hist_row m row total.
Proof. intros Hn (?&?&?&?). split_and!; try done. lia. Qed.

Lemma hist_row_zero n : 0 <= n -> hist_row n zero_hist 0.
Proof. intros Hn. split_and!; [done| |done|done]. apply Forall_replicate. lia. Qed.

Lemma bump_row n row total s :
  hist_row n row total -> 0 <= s < 256 -> n + 1 < 2 ^ 64 ->
  exists row', bump row s = Ok row' /\ hist_row (n + 1) row' (u64 (total + 1)).
Proof.
  intros (Hl & Hf & -> & Hn) Hs Hov. destruct (lookup_lt_is_Some_2 row (Z.to_nat s)) as [r Hr]; [lia|].
  pose proof (lsum_nonneg row Hf). pose proof (lsum_lookup_le _ _ _ Hf Hr).
  unfold bump. rewrite (at_index_ok row s _ r (r + 1)) by (done || (rewrite u64_small by lia; done) || lia).
  eexists. split; [done|]. rewrite u64_small by lia. split_and!.
  - by rewrite length_insert.
  - apply Forall_insert; [done|lia].
  - rewrite (lsum_insert row _ r) by done. lia.
  - lia.
Qed.

Lemma grid_bump k n rows ns c s :
  grid k n rows ns -> 0 <= c < k -> 0 <= s < 256 -> n + 1 < 2 ^ 64 ->
  exists rows' ns', at_index rows c (fun row => bump row s) = Ok rows' /\ bump ns c = Ok ns' /\ grid k (n + 1) rows' ns'.
Proof.
  intros [Hk Hg] Hc Hs Hn.
  destruct (at_index2 (E := unit) (hist_row n) (hist_row (n + 1)) (fun row => bump row s) (fun t => Ok (u64 (t + 1))) rows ns c)
    as (rows' & ns' & Hr & Ht & H2 & Hz); [done|lia| | |].
  - intros x y. apply hist_row_mono. lia.
  - intros x y Hxy. destruct (bump_row n x y s) as (row' & Hb & Hh); [done..|]. eauto.
  - exists rows', ns'. split; [done|]. split; [done|]. by split; [lia|].
Qed.

Definition grid2 (n : Z) (t : bigram_tally) : Prop :=
  zlen (bgram_raw t) = NETC_CTX_COUNT /\ Forall2 (grid NETC_BIGRAM_CTX_COUNT n) (bgram_raw t) (bgram_totals t).

Lemma grid_mono k n m rows ns : n <= m -> grid k n rows ns -> grid k m rows ns.
Proof. intros Hn [Hk Hg]. split; [done|]. eapply Forall2_impl; [exact Hg|]. intros x y. by apply hist_row_mono. Qed.

Lemma grid_zero k : 0 <= k -> grid k 0 (replicate (Z.to_nat k) zero_hist) (replicate (Z.to_nat k) 0).
Proof.
  intros Hk. split; [rewrite length_replicate; lia|]. apply Forall2_replicate. by apply hist_row_zero.
Qed.

Lemma grid2_zero : grid2 0 zero_bigram_tally.
Proof. split; [done|]. apply Forall2_replicate. by apply (grid_zero NETC_BIGRAM_CTX_COUNT). Qed.

Lemma count_bigram_ok m n t i prev sym :
  class_map_ok (Some m) -> grid2 n t -> event_ok (i, prev, sym) -> n + 1 < 2 ^ 64 ->
  exists t', count_bigram m t i prev sym = Ok t' /\ grid2 (n + 1) t'.
Proof.
  intros Hm [Hz H2] (_ & Hp & Hs) Hn. unfold count_bigram. destruct (bigram_class_ok prev (Some m) Hm Hp) as (c & -> & Hc). mstep.
  destruct (at_index2 (E := unit) (grid 8 n) (grid 8 (n + 1)) (fun rows => at_index rows c (fun row => bump row sym))
    (fun row => bump row c) (bgram_raw t) (bgram_totals t) (netc_ctx_bucket i)) as (r & ns & -> & -> & H2' & Hz'); [done| | | |].
  - rewrite Hz. apply ctx_bucket_range.
  - intros x y. apply grid_mono. lia.
  - intros x y Hxy. eapply grid_bump; [done..|lia].
  - eexists. split; [done|]. split; [simpl; lia|done].
Qed.

(** ** Tables from histograms *)

(** A table the code can build, with every symbol encodable. *)
Definition trained (t : netc_tans_table_t) : Prop := built t /\ Forall (fun f => 1 <= f) (t_freq t).

Lemma build_table_ok n row total :
  hist_row n row total -> n <= 2 ^ 50 ->
  exists ft t, freq_normalize row total = Ok ft /\ netc_tans_build ft = Ok t /\ trained t.
Proof.
  intros (Hl & Hf & Ht & Hle) Hn. destruct (freq_normalize_ok row total) as (ft & Hft & Hok & H1); [done..|lia|].
  pose proof Hok as (Hlen & Hrng & _). destruct (tans_build_ok (P := P12) ft Hok) as (t & Hb & _).
  exists ft, t. split; [done|]. split; [exact Hb|].
  assert (Forall (fun f => 0 <= f < 65536) ft) as Hr.
  { apply Forall_lookup. intros i f Hi. pose proof (lsum_lookup_le _ _ _ Hrng Hi).
    destruct Hok as (_ & _ & Hs). change TABLE_SIZE with 4096 in Hs. simpl in *. lia. }
  destruct (build_built ft t) as (He & Hbt & _); [done..|]. split; [done|]. by rewrite He.
Qed.

Lemma grid_get {E} k n rows ns c :
  grid k n rows ns -> 0 <= c < k ->
  exists row total, @aget E _ rows c = Ok row /\ @aget E _ ns c = Ok total /\ hist_row n row total.
Proof.
  intros [Hk Hg] Hc. destruct (@aget_total E _ rows c) as [row Hr]; [lia|]. pose proof Hr as [_ Hr']%aget_Ok.
  destruct (Forall2_lookup_l _ _ _ _ _ Hg Hr') as (total & Ht & Hh). exists row, total.
  split; [done|]. split; [by apply aget_Some; [lia|]|done].
Qed.

Lemma build_row_ok k n rows ns :
  grid k n rows ns -> 0 <= k -> n <= 2 ^ 50 ->
  exists ts, build_row k rows ns = Ok ts /\ zlen ts = k /\ Forall trained ts.
Proof.
  intros Hg Hk Hn. destruct (collect_ok trained k (fun c => row ← aget rows c; total ← aget ns c; build_table row total))
    as (ts & Hts & Hz & HP & _); [done| |by exists ts].
  intros c Hc. destruct (@grid_get unit k n rows ns c Hg Hc) as (row & total & -> & -> & Hh). mstep.
  destruct (build_table_ok n row total Hh Hn) as (ft & t & Hft & Hb & Ht). exists t. split; [|done].
  unfold build_table. by rewrite Hft.
Qed.

Lemma rebuild_row_ok k n ts rows ns :
  grid k n rows ns -> zlen ts = k -> n <= 2 ^ 50 ->
  exists ts', rebuild_row k ts rows ns = Ok ts' /\ zlen ts' = k /\ Forall trained ts'.
Proof.
  intros Hg Hk Hn. apply (update_all_ok trained); [done|]. intros c t0 Hc _.
  destruct (@grid_get unit k n rows ns c Hg Hc) as (row & total & -> & -> & Hh). mstep.
  destruct (build_table_ok n row total Hh Hn) as (ft & t & Hft & Hb & Ht). exists t. split; [|done].
  unfold rebuild_table. rewrite Hft. mstep. rewrite Hb. done.
Qed.

Lemma grid2_get {E} n t b :
  grid2 n t -> 0 <= b < NETC_CTX_COUNT ->
  exists rs ns, @aget E _ (bgram_raw t) b = Ok rs /\ @aget E _ (bgram_totals t) b = Ok ns /\ grid NETC_BIGRAM_CTX_COUNT n rs ns.
Proof.
  intros [Hk Hg] Hc. destruct (@aget_total E _ (bgram_raw t) b) as [row Hr]; [lia|]. pose proof Hr as [_ Hr']%aget_Ok.
  destruct (Forall2_lookup_l _ _ _ _ _ Hg Hr') as (total & Ht & Hh). exists row, total.
  split; [done|]. split; [by apply aget_Some; [lia|]|done].
Qed.

Definition trained_row (ts : list netc_tans_table_t) : Prop := zlen ts = NETC_BIGRAM_CTX_COUNT /\ Forall trained ts.

Lemma build_bigram_tables_ok n t :
  grid2 n t -> n <= 2 ^ 50 ->
  exists bg, build_bigram_tables t = Ok bg /\ zlen bg = NETC_CTX_COUNT /\ Forall trained_row bg.
Proof.
  intros Hg Hn. destruct (collect_ok trained_row NETC_CTX_COUNT (fun b => rs ← aget (bgram_raw t) b; ns ← aget (bgram_totals t) b;
    build_row NETC_BIGRAM_CTX_COUNT rs ns)) as (bg & He & Hz & HP & _); [done| |by exists bg].
  intros b Hb. destruct (@grid2_get unit n t b Hg Hb) as (rs & ns & -> & -> & Hr). mstep.
  destruct (build_row_ok _ n rs ns Hr) as (ts & Hts & ?); [done..|]. by exists ts.
Qed.

Lemma rebuild_bigram_tables_ok n bg t :
  grid2 n t -> n <= 2 ^ 50 -> zlen bg = NETC_CTX_COUNT -> Forall trained_row bg ->
  exists bg', rebuild_bigram_tables bg t = Ok bg' /\ zlen bg' = NETC_CTX_COUNT /\ Forall trained_row bg'.
Proof.
  intros Hg Hn Hz HF. apply (update_all_ok trained_row); [done|]. intros b ts Hb Hts.
  destruct (@grid2_get unit n t b Hg Hb) as (rs & ns & -> & -> & Hr). mstep.
  destruct (Forall_lookup_1 _ _ _ _ HF Hts) as [Hl _].
  destruct (rebuild_row_ok _ n ts rs ns Hr) as (ts' & Hts' & ?); [done..|]. by exists ts'.
Qed.
