(* ===== verification/UnigramCount.v ===== *)
(** * Unigram counting by segments (src/src/core/netc_dict.c: netc_dict_train, phase 2a)

    Training splits every packet at the bucket boundaries and counts each
    segment with the SIMD histogram kernel.  The reference counts byte by byte
    in the bucket [netc_ctx_bucket] gives; both tallies are the same. *)

From stdpp Require Import prelude.
From Stdlib Require Import ZArith Lia.
From S2P Require Import Prelude TansTable TansCodec Freq Simd Header Dict Train.

Local Open Scope Z_scope.

(** ** Reference: one byte at a time *)
Definition count_byte_at (t : tally) (i prev b : Z) : outcome unit tally :=
  let bucket := netc_ctx_bucket i in
  r ← at_index (raw t) bucket (fun row => bump row b);
  n ← bump (totals t) bucket;
  Ok (Tally r n).

Definition count_unigrams_ref (packets : list (option (list Z))) : outcome unit tally :=
  for_packets (fun t pkt => for_bytes count_byte_at 0 0 pkt t) zero_tally packets.

Definition tally_ok (n : Z) (t : tally) : Prop := grid NETC_CTX_COUNT n (raw t) (totals t).

Lemma tally_zero : tally_ok 0 zero_tally.
Proof. by apply (grid_zero NETC_CTX_COUNT). Qed.

Lemma count_byte_at_ok n t i prev b :
  tally_ok n t -> event_ok (i, prev, b) -> n + 1 < 2 ^ 64 ->
  exists t', count_byte_at t i prev b = Ok t' /\ tally_ok (n + 1) t'.
Proof.
  intros Hg (_ & _ & Hb) Hn. unfold count_byte_at.
  destruct (grid_bump _ n _ _ (netc_ctx_bucket i) b Hg (ctx_bucket_range i)) as (rows & ns & -> & -> & Hg'); [done..|].
  mstep. by eexists.
Qed.

Lemma count_run_ok n t es :
  tally_ok n t -> Forall event_ok es -> n + zlen es < 2 ^ 64 ->
  exists t', foldM (fun t '(i, prev, b) => count_byte_at t i prev b) t es = Ok t' /\ tally_ok (n + zlen es) t'.
Proof.
  intros Hg He Hn. apply (foldM_prefix (fun pre t => tally_ok (n + zlen pre) t)); [|by rewrite Z.add_0_r].
  intros pre [[i prev] b] t' Hl Ha Hp. rewrite Forall_forall in He. rewrite length_app, Nat2Z.inj_add, Z.add_assoc.
  apply count_byte_at_ok; [done|by apply He|lia].
Qed.

(** ** One row *)
Lemma bump_counts row data :
  bytes data -> zlen row = 256 -> Forall (fun r => 0 <= r) row -> lsum row + zlen data < 2 ^ 64 ->
  exists row', foldM bump row data = Ok row' /\ zlen row' = 256 /\ Forall (fun r => 0 <= r) row' /\
    lsum row' = lsum row + zlen data /\
    forall k r, row !! k = Some r -> row' !! k = Some (r + occurrences (Z.of_nat k) data).
Proof.
  intros Hb Hl Hf Hn. apply (foldM_prefix (fun pre row' => zlen row' = 256 /\ Forall (fun r => 0 <= r) row' /\
    lsum row' = lsum row + zlen pre /\ forall k r, row !! k = Some r -> row' !! k = Some (r + occurrences (Z.of_nat k) pre))).
  - intros pre b row1 Hp Hin (Hl1 & Hf1 & Hs1 & Hk1). assert (is_byte b) as Hbb by (by eapply Forall_forall in Hb).
    unfold is_byte in Hbb. destruct (lookup_lt_is_Some_2 row1 (Z.to_nat b)) as [r Hr]; [lia|].
    pose proof (lsum_lookup_le _ _ _ Hf1 Hr). unfold bump. rewrite (at_index_ok row1 b _ r (r + 1)) by (done || lia || (rewrite u64_small by lia; done)).
    eexists. split; [done|]. rewrite length_insert, length_app, (lsum_insert _ _ r) by done. simpl.
    split_and!; [done|by apply Forall_insert; [done|lia]|lia|].
    intros k q Hq. rewrite occurrences_app, occurrences_cons. unfold occurrences at 2. simpl.
    destruct (Z.eqb_spec (Z.of_nat k) b) as [<-|Hne].
    + rewrite Nat2Z.id in *. rewrite list_lookup_insert_eq by lia. specialize (Hk1 _ _ Hq). simplify_eq. f_equal. lia.
    + rewrite list_lookup_insert_ne by lia. rewrite (Hk1 _ _ Hq). f_equal. lia.
  - split_and!; [done..|simpl; lia|]. intros k r Hr. rewrite Hr. unfold occurrences. simpl. f_equal. lia.
Qed.

(** The kernel's counts, added to the row, are the bytes counted one by one. *)
Lemma segment_counts ops `{SimdOk ops} row data :
  bytes data -> zlen row = 256 -> Forall (fun r => 0 <= r) row -> lsum row + zlen data < 2 ^ 64 -> zlen data < 2 ^ 32 ->
  exists tmp, freq_count ops data zero_hist = Ok tmp /\
    foldM bump row data = Ok (zip_with (fun r n => u64 (r + n)) row tmp).
Proof.
  intros Hb Hl Hf Hn Hd. assert (Forall (fun n => 0 <= n < 2 ^ 32) zero_hist) as Hz by (apply Forall_replicate; lia).
  rewrite simd_freq by done. unfold netc_freq_count_generic.
  destruct (count_bytes_counted zero_hist data) as (tmp & Ht & [Htl Htk] & _); [done..|]. exists tmp. split; [done|].
  destruct (bump_counts row data) as (row' & -> & Hl' & Hf' & Hs' & Hk'); [done..|]. f_equal. apply list_eq_lookup_Z.
  - rewrite length_zip_with, Htl. change (length zero_hist) with 256%nat. lia.
  - intros k Hk. destruct (lookup_lt_is_Some_2 row (Z.to_nat k)) as [r Hr]; [lia|].
    rewrite lookup_zip_with, (Hk' _ _ Hr), Hr. simpl. rewrite (Htk _ 0); [|change (length zero_hist) with 256%nat; lia|by apply lookup_replicate_2; change (Z.to_nat NETC_TANS_SYMBOLS) with 256%nat; lia].
    simpl. assert (0 <= occurrences (Z.of_nat (Z.to_nat k)) data <= zlen data) as Ho.
    { unfold occurrences. pose proof (length_filter (eq (Z.of_nat (Z.to_nat k))) data). lia. }
    pose proof (lsum_lookup_le _ _ _ Hf Hr). by rewrite u32_small, u64_small by lia.
Qed.

(** ** One bucket *)

(** A run of bytes that all fall into bucket [b]. *)
Lemma count_run b es : forall t row total,
  0 <= b -> raw t !! Z.to_nat b = Some row -> totals t !! Z.to_nat b = Some total ->
  Forall (fun e => netc_ctx_bucket e.1.1 = b) es -> 0 <= total -> total + zlen es < 2 ^ 64 ->
  foldM (fun t '(i, prev, b) => count_byte_at t i prev b) t es =
    (row' ← foldM bump row (snd <$> es);
     Ok (Tally (<[Z.to_nat b := row']> (raw t)) (<[Z.to_nat b := u64 (total + zlen es)]> (totals t)))).
Proof.
  induction es as [|[[i prev] s] es IH]; intros t row total Hb Hr Ht He H0 Hn; simpl in *.
  { mstep. rewrite Z.add_0_r, u64_small by lia. rewrite !list_insert_id by done. by destruct t. }
  apply Forall_cons in He as [Hi He]. simpl in Hi.
  assert (count_byte_at t i prev s = row1 ← bump row s; Ok (Tally (<[Z.to_nat b:=row1]> (raw t)) (<[Z.to_nat b:=total + 1]> (totals t)))) as ->.
  { unfold count_byte_at. rewrite Hi. unfold at_index at 1. rewrite (aget_Some _ _ row) by done. mstep.
    destruct (bump row s); mstep; [|done..]. rewrite aset_ok by (apply lookup_lt_Some in Hr; lia). mstep. unfold bump.
    rewrite (at_index_ok _ b _ total (u64 (total + 1))) by done. mstep. by rewrite u64_small by lia. }
  destruct (bump row s) as [row1| |]; mstep; [|done..].
  rewrite (IH _ row1 (total + 1)); [|done| | |done|lia|lia]; simpl.
  - change (list_fmap _ _ snd es) with (snd <$> es). destruct (foldM bump row1 (snd <$> es)); mstep; [|done..]. rewrite !list_insert_insert_eq. do 4 f_equal. lia.
  - apply list_lookup_insert_eq. by eapply lookup_lt_Some.
  - apply list_lookup_insert_eq. by eapply lookup_lt_Some.
Qed.

Lemma positions_lookup pkt : forall i prev k e,
  positions i prev pkt !! k = Some e -> e.1.1 = i + Z.of_nat k.
Proof.
  induction pkt as [|b pkt IH]; intros i prev [|k] e H; simpl in *; simplify_eq/=; [lia|]. apply IH in H. lia.
Qed.

Lemma positions_bytes pkt i prev : snd <$> positions i prev pkt = pkt.
Proof. revert i prev. induction pkt as [|b pkt IH]; intros i prev; [done|]. cbn [positions fmap list_fmap]. f_equal. apply IH. Qed.

(** The boundaries of [netc_dict_train] are those of [netc_ctx_bucket]. *)
Definition bucket_start (b : Z) : Z := if b =? 0 then 0 else default 65536 (bucket_end !! Z.to_nat (b - 1)).

Lemma bucket_bounds k :
  0 <= k < 65536 -> bucket_start (netc_ctx_bucket k) <= k < bucket_start (netc_ctx_bucket k + 1).
Proof.
  intros Hk. destruct (Z.ltb_spec k 256) as [Hs|Hs].
  - assert (forallb (fun k => (bucket_start (netc_ctx_bucket k) <=? k) && (k <? bucket_start (netc_ctx_bucket k + 1))) (seqZ 0 256) = true)
      as Hc by (vm_compute; done).
    rewrite forallb_forall in Hc. assert (In k (seqZ 0 256)) as Hin by (apply list_elem_of_In, elem_of_seqZ; lia).
    specialize (Hc k Hin). simpl in Hc. bool_to_prop. lia.
  - unfold netc_ctx_bucket. rewrite (proj2 (Z.ltb_ge k 256)) by done. repeat case_if; unfold bucket_start; simpl; lia.
Qed.

Lemma bucket_start_mono a b : 0 <= a < b -> b <= 16 -> bucket_start (a + 1) <= bucket_start b.
Proof.
  intros Ha Hb. assert (forallb (fun a => forallb (fun b => (b <=? a) || (bucket_start (a + 1) <=? bucket_start b)) (seqZ 0 17)) (seqZ 0 16) = true)
    as Hc by (vm_compute; done).
  rewrite forallb_forall in Hc. specialize (Hc a). rewrite forallb_forall in Hc.
  assert (In a (seqZ 0 16)) as Hia by (apply list_elem_of_In, elem_of_seqZ; lia).
  assert (In b (seqZ 0 17)) as Hib by (apply list_elem_of_In, elem_of_seqZ; lia).
  specialize (Hc Hia b Hib). bool_to_prop. lia.
Qed.

Lemma bucket_start_nonneg b : 0 <= b < 16 -> 0 <= bucket_start b < bucket_start (b + 1).
Proof.
  intros Hb. assert (In b (seqZ 0 16)) as Hin by (apply list_elem_of_In, elem_of_seqZ; lia).
  simpl in Hin. by repeat destruct Hin as [<-|Hin].
Qed.

Lemma bucket_of b k : 0 <= b < 16 -> 0 <= k < 65536 -> bucket_start b <= k < bucket_start (b + 1) -> netc_ctx_bucket k = b.
Proof.
  intros Hb Hk Hr. pose proof (bucket_bounds k Hk). pose proof (ctx_bucket_range k) as Hc. unfold NETC_CTX_COUNT in Hc.
  destruct (Z.lt_trichotomy (netc_ctx_bucket k) b) as [Hl|[He|Hl]]; [|done|].
  - pose proof (bucket_start_mono (netc_ctx_bucket k) b). lia.
  - pose proof (bucket_start_mono b (netc_ctx_bucket k)). lia.
Qed.

Lemma bucket_end_start b : 0 <= b < 16 -> @aget unit _ bucket_end b = Ok (bucket_start (b + 1)).
Proof.
  intros Hb. assert (In b (seqZ 0 16)) as Hin by (apply list_elem_of_In, elem_of_seqZ; lia).
  simpl in Hin. by repeat destruct Hin as [<-|Hin].
Qed.

(** ** A packet *)

(** The state after some buckets: all bytes before [q] are counted. *)
Definition counted_to (pkt : list Z) (t0 : tally) (n : Z) (st : tally * Z) (b : Z) : Prop :=
  st.2 = Z.min (zlen pkt) (bucket_start b) /\ tally_ok (n + st.2) st.1 /\
  foldM (fun t '(i, prev, b) => count_byte_at t i prev b) t0 (take (Z.to_nat st.2) (positions 0 0 pkt)) = Ok st.1.

Lemma positions_take_app {A} (l : list A) q r :
  0 <= q <= r -> r <= zlen l -> take (Z.to_nat r) l = take (Z.to_nat q) l ++ slice l q (r - q).
Proof.
  intros Hq Hr. unfold slice. rewrite take_drop_commute. rewrite <- (take_drop (Z.to_nat q) (take (Z.to_nat r) l)) at 1.
  rewrite take_take. f_equal; [f_equal; lia|]. do 2 f_equal. lia.
Qed.

Lemma count_segment_ok ops `{SimdOk ops} pkt t0 n st b :
  bytes pkt -> zlen pkt <= 65535 -> 0 <= n < 2 ^ 48 -> 0 <= b < 16 -> counted_to pkt t0 n st b ->
  exists st', count_segment ops pkt st b = Ok st' /\ counted_to pkt t0 n st' (b + 1).
Proof.
  intros Hb Hl Hn Hbr. destruct st as [t q]. intros (Hq & Hg & Hf). simpl in *. unfold count_segment.
  pose proof (bucket_bounds 0 ltac:(lia)) as H00. assert (0 <= bucket_start b < bucket_start (b + 1)) as Hbs.
  { pose proof (bucket_start_nonneg b Hbr). lia. }
  case_if; [exists (t, q); split; [done|]; split_and!; [simpl; lia|done|done]|].
  rewrite bucket_end_start by done. mstep. set (r := if zlen pkt <? bucket_start (b + 1) then _ else _).
  assert (r = Z.min (zlen pkt) (bucket_start (b + 1))) as Hr by (unfold r; case_if; lia).
  destruct (positions_ok 0 0 pkt) as [Hev Hpl]; [lia|lia|unfold is_byte; lia|done|].
  destruct (@grid_get unit _ _ _ _ b Hg Hbr) as (row & total & Hrow & Htot & Hh).
  apply aget_Ok in Hrow as [_ Hrow]. apply aget_Ok in Htot as [_ Htot]. destruct Hh as (Hrl & Hrf & Hrs & Hrn).
  pose proof (lsum_nonneg row Hrf). set (es := slice (positions 0 0 pkt) q (r - q)).
  assert (zlen es = r - q) as Hes by (apply length_slice; lia).
  assert (snd <$> es = slice pkt q (r - q)) as Hbs'
    by (unfold es, slice; by rewrite fmap_take, fmap_drop, positions_bytes).
  assert (zlen (slice pkt q (r - q)) = r - q) as Hsl by (apply length_slice; lia).
  destruct (segment_counts ops row (slice pkt q (r - q))) as (tmp & -> & Hbump); [by apply bytes_slice|done|done|lia|lia|].
  mstep. erewrite (at_index_ok (raw t) b _ row) by (done || lia). mstep.
  erewrite (at_index_ok (totals t) b _ total) by (done || lia). mstep. eexists. split; [done|].
  assert (Forall (fun e => netc_ctx_bucket e.1.1 = b) es) as Hbk.
  { apply Forall_lookup. intros k e Hk. pose proof (lookup_lt_Some _ _ _ Hk). unfold es in Hk. rewrite lookup_slice in Hk by lia.
    apply positions_lookup in Hk. apply bucket_of; [done|lia|lia]. }
  pose proof (count_run b es t row total ltac:(lia) Hrow Htot Hbk ltac:(lia) ltac:(lia)) as Hrun.
  rewrite Hbs', Hbump in Hrun. mstep. rewrite Hes in Hrun.
  destruct (count_run_ok (n + q) t es Hg) as (t' & Ht' & Hg'); [by apply Forall_take, Forall_drop|lia|].
  rewrite Hrun in Ht'. apply Ok_inj in Ht'. split_and!; simpl; [done| |].
  - rewrite Ht'. replace (n + r) with (n + q + zlen es) by lia. done.
  - rewrite (positions_take_app _ q r), foldM_app, Hf by lia. exact Hrun.
Qed.

Lemma count_packet_eq ops `{SimdOk ops} t n pkt :
  bytes pkt -> zlen pkt <= 65535 -> 0 <= n < 2 ^ 48 -> tally_ok n t ->
  count_packet ops t pkt = for_bytes count_byte_at 0 0 pkt t.
Proof.
  intros Hb Hl Hn Hg. rewrite for_bytes_positions. unfold count_packet.
  destruct (foldM_seqZ (fun k st => counted_to pkt t n st k) 0 NETC_CTX_COUNT (count_segment ops pkt) (t, 0))
    as ([t' q] & -> & Hq & _ & Hf); [done| | |].
  { split_and!; [cbn; lia|by rewrite Z.add_0_r|done]. }
  { intros k st Hk Hc. by apply (count_segment_ok ops). }
  mstep. simpl in *. change (0 + NETC_CTX_COUNT) with 16 in Hq.
  destruct (positions_ok 0 0 pkt) as [_ Hpl]; [lia|lia|unfold is_byte; lia|done|].
  change (bucket_start 16) with 65536 in Hq. by rewrite take_ge in Hf by lia.
Qed.

Lemma count_packets_eq ops `{SimdOk ops} pkts : forall t n,
  Forall (fun pkt => bytes pkt /\ zlen pkt <= NETC_MAX_PACKET_SIZE) pkts -> 0 <= n -> n + 65535 * zlen pkts < 2 ^ 48 -> tally_ok n t ->
  foldM (count_packet ops) t pkts = foldM (fun t pkt => for_bytes count_byte_at 0 0 pkt t) t pkts.
Proof.
  induction pkts as [|pkt pkts IH]; intros t n Hp H0 Hn Hg; [done|]. apply Forall_cons in Hp as [[Hb Hl] Hp]. cbn [foldM length] in *.
  unfold NETC_MAX_PACKET_SIZE in Hl. rewrite (count_packet_eq ops t n) by (done || lia).
  destruct (positions_ok 0 0 pkt) as [Hev Hpl]; [lia|lia|unfold is_byte; lia|done|].
  rewrite for_bytes_positions. destruct (count_run_ok n t (positions 0 0 pkt)) as (t' & -> & Hg'); [done..|lia|]. mstep.
  apply (IH t' (n + zlen (positions 0 0 pkt))); [done|lia|lia|done].
Qed.

Lemma unigrams_ok packets :
  packets_ok packets ->
  exists t n, count_unigrams_ref packets = Ok t /\ tally_ok n t /\ n <= 2 ^ 50.
Proof.
  intros Hp. destruct (pass_inv (fun pre t => tally_ok (zlen pre) t) count_byte_at zero_tally packets Hp) as (t & Ht & Hg).
  - intros pre i prev b t Hl He Hg. rewrite length_app, Nat2Z.inj_add. apply count_byte_at_ok; [done..|lia].
  - apply tally_zero.
  - destruct (events_ok _ (samples_packets _ Hp)). exists t. eexists. split; [exact Ht|]. split; [exact Hg|]. lia.
Qed.

Lemma unigrams_eq ops `{SimdOk ops} packets :
  packets_ok packets -> count_unigrams ops packets = count_unigrams_ref packets.
Proof.
  intros Hp. unfold count_unigrams, count_unigrams_ref. rewrite !for_packets_samples. destruct (samples_packets _ Hp) as [Hn Hs].
  apply (count_packets_eq _ _ _ 0); [done|lia| |apply tally_zero]. change (2 ^ 48) with (65536 * 2 ^ 32). lia.
Qed.

(** ** Properties *)

(** C23: whatever histogram kernel the CPU selects, counting each packet
    segment by segment at the bucket boundaries gives the tally of counting
    every byte on its own in the bucket [netc_ctx_bucket] assigns to its
    offset, and no access is out of bounds. *)
Theorem unigram_count_equivalent (cpu : simd_caps) (l : Z) (packets : list (option (list Z))) :
  packets_ok packets ->
  count_unigrams (netc_simd_ops_init cpu l) packets = count_unigrams_ref packets /\
  exists t, count_unigrams_ref packets = Ok t.
Proof.
  intros Hp. split; [by apply unigrams_eq; [apply _|]|]. destruct (unigrams_ok packets Hp) as (t & _ & Ht & _). by exists t.
Qed.

Lemma unigram_count_equivalent_witness :
  count_unigrams (netc_simd_ops_init (SimdCaps true true false true true false false false) NETC_SIMD_LEVEL_AUTO) [Some [1; 2; 3; 1; 2; 3; 1; 2; 9; 9]; None] =
    count_unigrams_ref [Some [1; 2; 3; 1; 2; 3; 1; 2; 9; 9]; None].
Proof.
  apply (unigram_count_equivalent (SimdCaps true true false true true false false false) NETC_SIMD_LEVEL_AUTO). apply packets_ok_check. done.
Defined.
