(* ===== verification/ClassMap.v ===== *)
(** * Bigram class map (src/src/core/netc_dict.c: netc_dict_train, phase 2b)

    Previous bytes are clustered by the symbol that most often follows them:
    the peak of each conditional histogram, an insertion sort of the 256 byte
    values by peak, and eight groups of 32 in sorted order. *)

From stdpp Require Import prelude sorting.
From Stdlib Require Import ZArith Lia.
From S2P Require Import Prelude TansTable TansCodec Simd Header Train.

Local Open Scope Z_scope.

(** ** Specification *)

(** How often [s] follows [prev] in the samples. *)
Definition follows (es : list (Z * Z * Z)) (prev s : Z) : Z := zlen (filter (fun e => e.1.2 = prev /\ e.2 = s) es).

(** The smallest symbol with the largest count. *)
Definition is_peak (f : Z -> Z) (s : Z) : Prop :=
  0 <= s < 256 /\ (forall s', 0 <= s' < 256 -> f s' <= f s) /\ (forall s', 0 <= s' < s -> f s' < f s).

Lemma is_peak_unique f s1 s2 : is_peak f s1 -> is_peak f s2 -> s1 = s2.
Proof.
  intros (H1 & M1 & L1) (H2 & M2 & L2). destruct (Z.lt_trichotomy s1 s2) as [H|[H|H]]; [|done|].
  - pose proof (L2 s1). pose proof (M1 s2). lia.
  - pose proof (L1 s2). pose proof (M2 s1). lia.
Qed.

(** ** Conditional counts *)
Lemma follows_snoc es i p b prev s :
  follows (es ++ [(i, p, b)]) prev s = follows es prev s + (if decide (p = prev /\ b = s) then 1 else 0).
Proof.
  unfold follows. rewrite filter_app, length_app, filter_cons. simpl. case_decide; simpl; lia.
Qed.

Lemma follows_bounds es prev s : 0 <= follows es prev s <= zlen es.
Proof. unfold follows. pose proof (length_filter (fun e : Z * Z * Z => e.1.2 = prev /\ e.2 = s) es). lia. Qed.

(** [cond_counts] as a table indexed by previous byte and symbol. *)
Definition counts_follow (es : list (Z * Z * Z)) (cc : list Z) : Prop :=
  zlen cc = 65536 /\ forall prev s, is_byte prev -> is_byte s -> cc !! Z.to_nat (prev * 256 + s) = Some (follows es prev s).

Lemma cond_counts_ok packets :
  packets_ok packets -> exists cc, cond_counts packets = Ok cc /\ counts_follow (events (samples packets)) cc.
Proof.
  intros Hp. apply (pass_inv counts_follow); [done| |].
  - intros pre i prev b cc Hn (_ & Hpr & Hb) [Hl Hc]. simpl in Hpr, Hb. unfold bump.
    rewrite (at_index_ok cc _ _ (follows pre prev b) (follows pre prev b + 1)).
    + eexists. split; [done|]. split; [by rewrite length_insert|]. intros p s Hp' Hs. rewrite follows_snoc.
      unfold is_byte in *. case_decide as Hd.
      * destruct Hd as [-> ->]. apply list_lookup_insert_eq. lia.
      * rewrite list_lookup_insert_ne, Z.add_0_r by lia. by apply Hc.
    + unfold is_byte in *. lia.
    + by apply Hc.
    + pose proof (follows_bounds pre prev b). by rewrite u64_small by lia.
  - split; [by rewrite length_replicate|]. intros prev s Hpr Hs. unfold is_byte in *.
    apply lookup_replicate_2. lia.
Qed.

Lemma peak_symbol_ok es cc prev :
  counts_follow es cc -> is_byte prev -> exists s, peak_symbol cc prev = Ok s /\ is_peak (follows es prev) s.
Proof.
  intros [Hl Hc] Hp. unfold peak_symbol.
  destruct (foldM_seqZ (fun k '(best, best_sym) => 0 <= best_sym /\ (best_sym < k \/ best_sym = 0) /\
      (best = follows es prev best_sym \/ best = 0 /\ best_sym = 0) /\
      (forall s, 0 <= s < k -> follows es prev s <= best) /\ (forall s, 0 <= s < best_sym -> follows es prev s < best))
    0 256 (fun '(best, best_sym) s => c ← @aget unit Z cc (prev * 256 + s); Ok (if best <? c then (c, u16 s) else (best, best_sym))) (0, 0))
    as ([best sym] & -> & H0 & Hlt & Hb & Hm & Hs); [done| | |].
  - split_and!; [done|by right|by right|lia|lia].
  - intros k [best sym] Hk (H0 & Hlt & Hb & Hm & Hs). rewrite (aget_Some _ _ (follows es prev k));
      [|unfold is_byte in *; lia|apply Hc; [done|unfold is_byte; lia]].
    mstep. eexists. split; [done|]. case_if.
    + rewrite u16_small by lia. split_and!; [lia|lia|by left| |].
      * intros s Hs'. destruct (decide (s = k)) as [->|]; [lia|]. pose proof (Hm s). lia.
      * intros s Hs'. pose proof (Hm s). lia.
    + split_and!; [lia|lia|done| |done]. intros s Hs'. destruct (decide (s = k)) as [->|]; [lia|]. pose proof (Hm s). lia.
  - mstep. exists sym. split; [done|]. change (0 + 256) with 256 in *.
    destruct Hb as [->|[-> ->]]; [split_and!; [lia|lia|done|done]|].
    split_and!; [lia|lia| |lia]. intros s Hs'. pose proof (Hm s Hs'). pose proof (follows_bounds es prev 0). lia.
Qed.

(** ** Insertion sort by peak *)
Lemma perm_bytes l : l ≡ₚ seqZ 0 256 -> bytes l.
Proof. intros Hp. apply Forall_forall. intros x Hx. rewrite Hp in Hx. apply elem_of_seqZ in Hx. unfold is_byte. lia. Qed.

Section sort.
Context (peaks : list Z) (peaks_len : zlen peaks = 256).

Definition peak_of (a : Z) : Z := default 0 (peaks !! Z.to_nat a).
Definition by_peak (a b : Z) : Prop := peak_of a <= peak_of b.

Lemma peak_get a : is_byte a -> @aget unit _ peaks a = Ok (peak_of a).
Proof.
  intros Ha. unfold is_byte in Ha. destruct (lookup_lt_is_Some_2 peaks (Z.to_nat a)) as [p Hp]; [lia|].
  unfold peak_of. rewrite Hp. by apply aget_Some; [lia|].
Qed.

Lemma sorted_snoc l a : StronglySorted by_peak l -> Forall (fun b => by_peak b a) l -> StronglySorted by_peak (l ++ [a]).
Proof.
  induction 1 as [|b l Hs IH Hb]; intros Hf; simpl; [repeat constructor|]. apply Forall_cons in Hf as [H1 Hf].
  constructor; [by apply IH|]. apply Forall_app. split; [done|by constructor].
Qed.

Lemma sorted_snoc_inv l a : StronglySorted by_peak (l ++ [a]) -> StronglySorted by_peak l /\ Forall (fun b => by_peak b a) l.
Proof.
  induction l as [|b l IH]; simpl; [split; constructor|]. intros [Hs Hb]%StronglySorted_inv.
  apply IH in Hs as [Hs Hf]. apply Forall_app in Hb as [Hb Ha]. apply Forall_cons in Ha as [Ha _]. split; by constructor.
Qed.

Lemma insert_key_ok key : forall j pre x post,
  length pre = j -> bytes pre -> 
  exists q, insert_key peaks key (peak_of key) j (pre ++ x :: post) = Ok (q ++ post) /\ q ≡ₚ key :: pre /\
    (StronglySorted by_peak pre -> StronglySorted by_peak q).
Proof.
  induction j as [|j IH]; intros pre x post Hj Hb.
  { destruct pre; [|done]. exists [key]. split; [simpl; by rewrite aset_ok by (simpl; lia)|]. split; [done|]. intros _. repeat constructor. }
  destruct pre as [|p pre _] using rev_ind; [done|]. rewrite length_app in Hj. simpl in Hj.
  apply bytes_app in Hb as [Hb [Hp _]%bytes_cons]. simpl. rewrite <- app_assoc. simpl.
  rewrite (aget_Some _ _ p) by (lia || (rewrite Nat2Z.id, lookup_app_r by lia; by replace (j - length pre)%nat with 0%nat by lia)).
  mstep. rewrite (peak_get p Hp). mstep. assert (Z.to_nat (Z.of_nat j + 1) = length pre + 1)%nat as Hi by lia.
  case_if; rewrite aset_ok by (rewrite length_app; simpl; lia); rewrite Hi, insert_app_r; simpl.
  - mstep. destruct (IH pre p (p :: post)) as (q & -> & Hq & Hs); [lia|done|]. exists (q ++ [p]).
    rewrite <- app_assoc. split; [done|]. split; [by rewrite Hq|].
    intros [Hs' Hf]%sorted_snoc_inv. apply sorted_snoc; [by apply Hs|]. rewrite Hq. constructor; [unfold by_peak; lia|done].
  - exists (pre ++ [p; key]). rewrite <- app_assoc. split; [done|]. split.
    + rewrite (Permutation_cons_append (pre ++ [p]) key), <- app_assoc. done.
    + intros Hs. replace (pre ++ [p; key]) with ((pre ++ [p]) ++ [key]) by by rewrite <- app_assoc. apply sorted_snoc; [done|].
      apply sorted_snoc_inv in Hs as [_ Hf]. apply Forall_app. split; [|constructor; [unfold by_peak; lia|constructor]].
      eapply Forall_impl; [exact Hf|]. unfold by_peak. intros b. lia.
Qed.

Lemma sort_by_peak_ok :
  exists l, sort_by_peak peaks = Ok l /\ l ≡ₚ seqZ 0 256 /\ StronglySorted by_peak l.
Proof.
  unfold sort_by_peak. destruct (foldM_seqZ (fun i l => l ≡ₚ seqZ 0 256 /\ StronglySorted by_peak (take (Z.to_nat i) l))
    1 255 (fun l i => key ← aget l i; key_peak ← aget peaks key; insert_key peaks key key_peak (Z.to_nat i) l) (seqZ 0 256))
    as (l & He & Hp & Hs); [done|split; [done|by repeat constructor]| |].
  - intros i l Hi [Hp Hs]. assert (length l = 256%nat) as Hl by (by rewrite Hp).
    pose proof (perm_bytes l Hp) as Hb.
    destruct (lookup_lt_is_Some_2 l (Z.to_nat i)) as [key Hk]; [lia|]. rewrite (aget_Some _ _ key) by (done || lia). mstep.
    rewrite peak_get by (by eapply bytes_lookup). mstep.
    destruct (insert_key_ok key (Z.to_nat i) (take (Z.to_nat i) l) key (drop (S (Z.to_nat i)) l)) as (q & He & Hq & Hqs);
      [rewrite length_take; lia|by apply bytes_take|].
    rewrite (take_drop_middle _ _ _ Hk) in He. rewrite He. eexists. split; [done|]. split.
    + rewrite Hq, <- Hp. simpl. rewrite Permutation_middle. by rewrite (take_drop_middle _ _ _ Hk).
    + assert (length q = Z.to_nat (i + 1)) as Hql by (rewrite Hq; simpl; rewrite length_take; lia).
      rewrite take_app_length' by done. by apply Hqs.
  - exists l. split; [done|]. split; [done|]. rewrite take_ge in Hs; [done|]. rewrite Hp. done.
Qed.

Lemma sorted_lookup l i j a b :
  StronglySorted by_peak l -> (i < j)%nat -> l !! i = Some a -> l !! j = Some b -> by_peak a b.
Proof.
  intros Hs. revert i j. induction Hs as [|c l Hs IH Hc]; intros [|i] [|j] Hij Hi Hj; simplify_eq/=; try lia.
  - by eapply Forall_lookup_1 in Hc.
  - by apply (IH i j); [lia|..].
Qed.
End sort.

(** ** Groups of 32 *)

(** The first [r] sorted bytes have the class of their rank. *)
Definition ranked (l : list Z) (r : Z) (m : list Z) : Prop :=
  zlen m = 256 /\ forall k a, 0 <= k < r -> l !! Z.to_nat k = Some a -> m !! Z.to_nat a = Some (k / 32).

Lemma assign_classes_ok l : l ≡ₚ seqZ 0 256 -> exists m, assign_classes l = Ok m /\ ranked l 256 m.
Proof.
  intros Hp. assert (length l = 256%nat) as Hl by (by rewrite Hp).
  assert (NoDup l) as Hnd by (rewrite Hp; apply NoDup_seqZ).
  pose proof (perm_bytes l Hp) as Hb.
  apply (foldM_seqZ (fun g m => ranked l (g * 32) m) 0 8); [done| |].
  { split; [done|]. intros k a Hk. lia. }
  intros g m Hg Hm. replace ((g + 1) * 32) with (g * 32 + (0 + 32)) by lia.
  apply (foldM_seqZ (fun k m => ranked l (g * 32 + k) m) 0 32); [done|by rewrite Z.add_0_r|].
  intros k m' Hk [Hz Hr]. destruct (lookup_lt_is_Some_2 l (Z.to_nat (g * 32 + k))) as [a Ha]; [lia|].
  pose proof (bytes_lookup _ _ _ Hb Ha) as Hab. unfold is_byte in Hab.
  rewrite (aget_Some _ _ a) by (done || lia). mstep. rewrite aset_ok by lia. eexists. split; [done|].
  split; [by rewrite length_insert|]. intros j c Hj Hc. destruct (decide (j = g * 32 + k)) as [->|Hne].
  - simplify_eq. rewrite list_lookup_insert_eq by lia. f_equal. rewrite u8_small by (unfold is_byte; lia). dlia.
  - pose proof (bytes_lookup _ _ _ Hb Hc) as Hcb. unfold is_byte in Hcb. rewrite list_lookup_insert_ne.
    + apply Hr; [lia|done].
    + intros He%Z2Nat.inj; [|lia..]. subst c. apply Hne. pose proof (NoDup_lookup _ _ _ _ Hnd Ha Hc). lia.
Qed.

Lemma ranked_perm l m : l ≡ₚ seqZ 0 256 -> ranked l 256 m -> m ≡ₚ (fun k => k / 32) <$> seqZ 0 256.
Proof.
  intros Hp [Hz Hr]. set (g a := default 0 (m !! Z.to_nat a)).
  assert (g <$> l = (fun k => k / 32) <$> seqZ 0 256) as Hgl.
  { apply list_eq. intros i. rewrite !list_lookup_fmap. assert (length l = 256%nat) as Hl by (by rewrite Hp).
    destruct (l !! i) as [a|] eqn:Ei; simpl.
    - pose proof (lookup_lt_Some _ _ _ Ei). rewrite lookup_seqZ_lt by lia. simpl. unfold g.
      rewrite (Hr (Z.of_nat i) a) by (lia || by rewrite Nat2Z.id). done.
    - apply lookup_ge_None in Ei. rewrite lookup_seqZ_ge by lia. done. }
  assert (g <$> seqZ 0 256 = m) as Hgm.
  { apply list_eq. intros i. rewrite list_lookup_fmap. destruct (decide (i < 256)%nat).
    - rewrite lookup_seqZ_lt by lia. simpl. unfold g. destruct (lookup_lt_is_Some_2 m i) as [x Hx]; [lia|].
      replace (Z.to_nat (0 + Z.of_nat i)) with i by lia. by rewrite Hx.
    - rewrite lookup_seqZ_ge, lookup_ge_None_2 by lia. done. }
  rewrite <- Hgl, <- Hgm. symmetry. by apply fmap_Permutation.
Qed.

Lemma occurrences_perm k l1 l2 : l1 ≡ₚ l2 -> occurrences k l1 = occurrences k l2.
Proof. intros H. unfold occurrences. by rewrite H. Qed.

(** The class map is the ranking of the bytes by their peaks. *)
Lemma train_class_map_ranked packets :
  packets_ok packets ->
  exists m peaks l, train_class_map packets = Ok m /\ l ≡ₚ seqZ 0 256 /\ StronglySorted (by_peak peaks) l /\ ranked l 256 m /\
    forall p, is_byte p -> is_peak (follows (events (samples packets)) p) (peak_of peaks p).
Proof.
  intros Hok. unfold train_class_map. destruct (cond_counts_ok packets Hok) as (cc & -> & Hcc). mstep.
  destruct (collect_ok (fun _ => True) 256 (peak_symbol cc)) as (peaks & Hpk & Hz & _ & Hv); [done| |].
  { intros c Hc. destruct (peak_symbol_ok _ _ c Hcc) as (s & Hs & _); [done|]. by exists s. }
  unfold cond_peak. rewrite Hpk. mstep. destruct (sort_by_peak_ok peaks Hz) as (l & -> & Hp & Hs). mstep.
  destruct (assign_classes_ok l Hp) as (m & -> & Hm). exists m, peaks, l. split_and!; [done..|].
  intros p Hpb. pose proof Hpb as Hpb'. unfold is_byte in Hpb. destruct (lookup_lt_is_Some_2 peaks (Z.to_nat p)) as [s Hsp]; [lia|].
  unfold peak_of. rewrite Hsp. simpl. destruct (peak_symbol_ok _ _ p Hcc Hpb') as (s' & Hs' & Hpeak).
  rewrite (Hv p s) in Hs' by (done || lia). by apply Ok_inj in Hs' as ->.
Qed.

Lemma class_map_trained packets : packets_ok packets -> exists m, train_class_map packets = Ok m /\ class_map_ok (Some m).
Proof.
  intros Hok. destruct (train_class_map_ranked packets Hok) as (m & peaks & l & He & Hp & _ & Hm & _). exists m. split; [done|].
  split; [apply Hm|]. apply Forall_forall. intros c Hc. rewrite (ranked_perm _ _ Hp Hm) in Hc.
  apply list_elem_of_fmap in Hc as (k & -> & Hk%elem_of_seqZ). unfold NETC_BIGRAM_CTX_COUNT. dlia.
Qed.

Lemma rank_of l a : l ≡ₚ seqZ 0 256 -> is_byte a -> exists k, 0 <= k < 256 /\ l !! Z.to_nat k = Some a.
Proof.
  intros Hp Ha. unfold is_byte in Ha. assert (a ∈ l) as [k Hk]%list_elem_of_lookup by (rewrite Hp; apply elem_of_seqZ; lia).
  pose proof (lookup_lt_Some _ _ _ Hk) as Hkl. rewrite Hp in Hkl. change (length (seqZ 0 256)) with 256%nat in Hkl.
  exists (Z.of_nat k). rewrite Nat2Z.id. split; [lia|done].
Qed.

(** ** Properties *)

(** C22: training always produces a class map; it is balanced, 32 of the 256
    previous bytes in each of the eight classes, and ordered by the symbol
    that most often follows a byte (the smallest on a tie): a byte with a
    smaller peak symbol never lies in a larger class. *)
Theorem class_map_clusters (packets : list (option (list Z))) :
  packets_ok packets ->
  exists m (peak : Z -> Z), train_class_map packets = Ok m /\ zlen m = 256 /\
    (forall g, 0 <= g < NETC_BIGRAM_CTX_COUNT -> occurrences g m = 32) /\
    (forall p, is_byte p -> is_peak (follows (events (samples packets)) p) (peak p)) /\
    (forall p q cp cq, is_byte p -> is_byte q -> peak p < peak q ->
       m !! Z.to_nat p = Some cp -> m !! Z.to_nat q = Some cq -> cp <= cq).
Proof.
  intros Hok. destruct (train_class_map_ranked packets Hok) as (m & peaks & l & He & Hp & Hs & Hm & Hpk).
  exists m, (peak_of peaks). split; [done|]. split; [apply Hm|]. split_and!; [|done|].
  - intros g Hg. rewrite (occurrences_perm g _ _ (ranked_perm _ _ Hp Hm)).
    assert (In g (seqZ 0 8)) as Hin by (apply list_elem_of_In, elem_of_seqZ; unfold NETC_BIGRAM_CTX_COUNT in Hg; lia).
    simpl in Hin. by repeat destruct Hin as [<-|Hin].
  - intros p q cp cq Hpb Hqb Hlt Hcp Hcq.
    destruct (rank_of l p Hp Hpb) as (k & Hk & Hlk). destruct (rank_of l q Hp Hqb) as (j & Hj & Hlj).
    rewrite (proj2 Hm k p Hk Hlk) in Hcp. rewrite (proj2 Hm j q Hj Hlj) in Hcq. simplify_eq.
    destruct (Z.lt_trichotomy k j) as [H|[H|H]]; [apply Z.div_le_mono; lia|subst; simplify_eq; lia|].
    pose proof (sorted_lookup peaks l (Z.to_nat j) (Z.to_nat k) q p Hs ltac:(lia) Hlj Hlk) as Hby. unfold by_peak in Hby. lia.
Qed.

Lemma class_map_clusters_witness :
  exists m, train_class_map [Some [65; 66; 65; 66; 67]; None] = Ok m /\ zlen m = 256.
Proof.
  destruct (class_map_clusters [Some [65; 66; 65; 66; 67]; None]) as (m & _ & He & Hz & _); [|exists m; exact (conj He Hz)].
  apply packets_ok_check. done.
Defined.
