(* ===== verification/LzpVote.v ===== *)
(** * LZP table training (src/src/core/netc_dict.c: netc_dict_train, phase 4)

    Two passes over the samples fill the prediction table: a Boyer-Moore
    majority vote picks a candidate per hash slot, a second pass counts how
    often it is right.  The specification speaks about the list of bytes that
    were seen in a slot. *)

From stdpp Require Import prelude.
From Stdlib Require Import ZArith Lia.
From S2P Require Import Prelude TansTable TansCodec Lzp Simd Header Train.

Local Open Scope Z_scope.

(** ** Specification *)

(** The bytes seen in slot [h], in order. *)
Definition slot_bytes (es : list (Z * Z * Z)) (h : Z) : list Z :=
  snd <$> filter (fun e => netc_lzp_hash e.1.2 e.1.1 = h) es.

Definition winner (bs : list Z) : lzp_vote_t := fold_left cast_vote bs (Vote 0 0).

Definition saturated (n : Z) : Z := Z.min n 0xFFFF.

Lemma slot_bytes_snoc es i prev b h :
  slot_bytes (es ++ [(i, prev, b)]) h = slot_bytes es h ++ (if decide (netc_lzp_hash prev i = h) then [b] else []).
Proof. unfold slot_bytes. rewrite filter_app, fmap_app, filter_cons. simpl. by case_decide. Qed.

Lemma winner_snoc bs b : winner (bs ++ [b]) = cast_vote (winner bs) b.
Proof. unfold winner. by rewrite fold_left_app. Qed.

(** ** The majority vote *)

(** The vote count is what is left of the candidate's votes: it bounds the
    lead any byte can have. *)
Definition lead (v : lzp_vote_t) (x : Z) : Z := if candidate v =? x then count v else - count v.

Lemma winner_lead bs x :
  zlen bs <= INT16_MAX ->
  0 <= count (winner bs) <= zlen bs /\ 2 * occurrences x bs - zlen bs <= lead (winner bs) x.
Proof.
  induction bs as [|b bs IH] using rev_ind; intros Hn; [unfold lead; simpl; case_if; done|].
  rewrite length_app in *. simpl in *. destruct IH as [Hc Hl]; [lia|].
  rewrite winner_snoc, occurrences_app, occurrences_cons. unfold occurrences at 2. simpl.
  unfold cast_vote, lead in *. destruct (winner bs) as [cand cnt]; simpl in *.
  destruct (Z.eqb_spec cnt 0), (Z.eqb_spec cand b), (Z.eqb_spec cand x), (Z.eqb_spec x b), (Z.ltb_spec cnt INT16_MAX); subst;
    simpl in *; repeat case_if; unfold INT16_MAX in *; simpl in *; lia.
Qed.

Lemma winner_seen bs : bs <> [] -> candidate (winner bs) ∈ bs.
Proof.
  induction bs as [|b bs IH] using rev_ind; [done|]. intros _. rewrite winner_snoc, elem_of_app, list_elem_of_singleton.
  destruct bs as [|c bs]; [by right|]. specialize (IH ltac:(done)). unfold cast_vote. repeat case_if; simpl; tauto.
Qed.

(** A strict majority wins the vote. *)
Lemma winner_majority bs x :
  zlen bs <= INT16_MAX -> zlen bs < 2 * occurrences x bs -> candidate (winner bs) = x.
Proof.
  intros Hn Hm. destruct (winner_lead bs x Hn) as [Hc Hl]. unfold lead in Hl. case_if_in Hl; [done|lia].
Qed.

(** ** The passes *)
Lemma sat_incr_ok n : 0 <= n -> sat_incr (saturated n) = saturated (n + 1).
Proof.
  intros Hn. unfold sat_incr, saturated. case_if; [rewrite u16_small by lia|]; lia.
Qed.

Lemma replicate_slot {A} (x : A) h : 0 <= h < NETC_LZP_HT_SIZE -> replicate (Z.to_nat NETC_LZP_HT_SIZE) x !! Z.to_nat h = Some x.
Proof. intros Hh. apply lookup_replicate_2. lia. Qed.

(** Every slot holds [f] of the bytes seen in it. *)
Definition slots {A} (f : list Z -> A) (es : list (Z * Z * Z)) (l : list A) : Prop :=
  zlen l = NETC_LZP_HT_SIZE /\ forall h, 0 <= h < NETC_LZP_HT_SIZE -> l !! Z.to_nat h = Some (f (slot_bytes es h)).

Lemma slots_init {A} (f : list Z -> A) : slots f [] (replicate (Z.to_nat NETC_LZP_HT_SIZE) (f [])).
Proof. split; [rewrite length_replicate; by rewrite Z2Nat.id|]. intros h Hh. by apply replicate_slot. Qed.

Lemma slots_step {A} (f : list Z -> A) es l i prev b :
  slots f es l -> let h := netc_lzp_hash prev i in
  @aget unit _ l h = Ok (f (slot_bytes es h)) /\
  slots f (es ++ [(i, prev, b)]) (<[Z.to_nat h := f (slot_bytes es h ++ [b])]> l).
Proof.
  intros [Hl Hf] h. pose proof (lzp_hash_range prev i) as Hh. fold h in Hh. split; [apply aget_Some; [lia|by apply Hf]|].
  split; [by rewrite length_insert|]. intros k Hk. rewrite slot_bytes_snoc. fold h. case_decide as Hd.
  - rewrite <- Hd. apply list_lookup_insert_eq. lia.
  - rewrite list_lookup_insert_ne, app_nil_r by lia. by apply Hf.
Qed.

Lemma slots_update {A} (f : list Z -> A) (g : A -> A) es l i prev b :
  slots f es l -> f (slot_bytes es (netc_lzp_hash prev i) ++ [b]) = g (f (slot_bytes es (netc_lzp_hash prev i))) ->
  exists l', @at_index unit _ l (netc_lzp_hash prev i) (fun x => Ok (g x)) = Ok l' /\ slots f (es ++ [(i, prev, b)]) l'.
Proof.
  intros Hs Hg. destruct (slots_step f es l i prev b Hs) as [Ha Hs']. unfold at_index. rewrite Ha. mstep.
  pose proof (lzp_hash_range prev i). rewrite aset_ok by (destruct Hs as [-> _]; done).
  eexists. split; [done|]. by rewrite <- Hg.
Qed.

(** Pass 1 runs the vote of every slot. *)
Lemma cast_votes_ok packets :
  packets_ok packets ->
  exists votes totals, cast_votes packets = Ok (votes, totals) /\ slots winner (events (samples packets)) votes.
Proof.
  intros Hp. destruct (pass_inv (fun pre '(votes, st) => slots winner pre votes /\ slots (fun bs => saturated (zlen bs)) pre st)
    (fun '(votes, slot_total) i prev b => let h := netc_lzp_hash prev i in
          slot_total ← at_index slot_total h (fun n => Ok (sat_incr n));
          votes ← at_index votes h (fun v => Ok (cast_vote v b));
          Ok (votes, slot_total)) (replicate (Z.to_nat NETC_LZP_HT_SIZE) (Vote 0 0), zero_slots) packets Hp) as ([votes st] & He & Hs & _).
  - intros pre i prev b [votes st] _ _ [Hv Ht]. cbv zeta.
    destruct (slots_update _ sat_incr pre st i prev b Ht) as (st' & -> & Hst).
    { simpl. rewrite length_app, sat_incr_ok by lia. f_equal. simpl. lia. }
    mstep. destruct (slots_update _ (fun v => cast_vote v b) pre votes i prev b Hv) as (votes' & -> & Hvs); [apply winner_snoc|].
    mstep. eexists. split; [done|]. done.
  - split; [exact (slots_init winner)|exact (slots_init (fun bs => saturated (zlen bs)))].
  - exists votes, st. split; [exact He|exact Hs].
Qed.

(** Pass 2 counts, up to saturation, how often a slot is used and how often
    [cand] of the slot is seen. *)
Lemma verify_votes_ok packets votes :
  packets_ok packets -> slots winner (events (samples packets)) votes ->
  exists tc hc, verify_votes votes packets = Ok (tc, hc) /\
    let es := events (samples packets) in
    slots (fun bs => saturated (zlen bs)) es tc /\ zlen hc = NETC_LZP_HT_SIZE /\
    forall h, 0 <= h < NETC_LZP_HT_SIZE ->
      hc !! Z.to_nat h = Some (saturated (occurrences (candidate (winner (slot_bytes es h))) (slot_bytes es h))).
Proof.
  intros Hp Hv. set (es := events (samples packets)) in *. set (cand h := candidate (winner (slot_bytes es h))).
  destruct (pass_inv (fun pre '(tc, hc) => slots (fun bs => saturated (zlen bs)) pre tc /\ zlen hc = NETC_LZP_HT_SIZE /\
      forall h, 0 <= h < NETC_LZP_HT_SIZE -> hc !! Z.to_nat h = Some (saturated (occurrences (cand h) (slot_bytes pre h))))
    (fun '(total_count, hit_count) i prev b => let h := netc_lzp_hash prev i in
          total_count ← at_index total_count h (fun n => Ok (sat_incr n));
          v ← aget votes h;
          hit_count ← (if b =? candidate v then at_index hit_count h (fun n => Ok (sat_incr n)) else Ok hit_count);
          Ok (total_count, hit_count)) (zero_slots, zero_slots) packets Hp) as ([tc hc] & He & Ht & Hh).
  - intros pre i prev b [tc hc] _ _ (Ht & Hz & Hc). cbv zeta. pose proof (lzp_hash_range prev i) as Hr.
    destruct (slots_update _ sat_incr pre tc i prev b Ht) as (tc' & -> & Hts).
    { simpl. rewrite length_app, sat_incr_ok by lia. f_equal. simpl. lia. }
    mstep. rewrite (aget_Some _ _ (winner (slot_bytes es (netc_lzp_hash prev i)))) by (lia || by apply Hv). mstep.
    set (h := netc_lzp_hash prev i) in *. fold (cand h).
    assert (forall k, occurrences (cand k) (slot_bytes (pre ++ [(i, prev, b)]) k) = occurrences (cand k) (slot_bytes pre k) +
      (if decide (h = k) then if cand k =? b then 1 else 0 else 0)) as Ho.
    { intros k. rewrite slot_bytes_snoc, occurrences_app. fold h. case_decide; [rewrite occurrences_cons|]; unfold occurrences; simpl; lia. }
    case_if.
    + rewrite (at_index_ok hc h _ _ (saturated (occurrences (cand h) (slot_bytes pre h) + 1)) ltac:(lia) (Hc h Hr)) by
        (rewrite sat_incr_ok by (unfold occurrences; lia); done).
      mstep. eexists. split; [done|]. split; [done|]. split; [by rewrite length_insert|]. intros k Hk. rewrite Ho. case_decide as Hd.
      * rewrite <- Hd, list_lookup_insert_eq by lia. by if_true.
      * rewrite list_lookup_insert_ne, Z.add_0_r by lia. by apply Hc.
    + mstep. eexists. split; [done|]. split; [done|]. split; [done|]. intros k Hk. rewrite Ho, Hc by done. do 2 f_equal.
      case_decide as Hd; [rewrite <- Hd; if_false|]; lia.
  - split; [exact (slots_init (fun bs => saturated (zlen bs)))|]. split; [unfold zero_slots; by rewrite length_replicate, Z2Nat.id|].
    intros h Hh. apply (replicate_slot 0 h Hh).
  - exists tc, hc. split; [exact He|]. split; [exact Ht|exact Hh].
Qed.

(** ** The table *)
Lemma populate_lookup votes tc hc h v n m :
  votes !! h = Some v -> tc !! h = Some n -> hc !! h = Some m -> populate_lzp votes tc hc !! h = Some (lzp_slot v n m).
Proof. intros Hv Hn Hm. unfold populate_lzp. by rewrite lookup_zip_with, Hv, lookup_zip_with, Hn, Hm. Qed.

(** The trained entry of a slot in which the bytes [bs] were seen. *)
Definition learned (bs : list Z) : netc_lzp_entry_t :=
  lzp_slot (winner bs) (saturated (zlen bs)) (saturated (occurrences (candidate (winner bs)) bs)).

Lemma train_lzp packets :
  packets_ok packets ->
  exists votes totals tc hc, cast_votes packets = Ok (votes, totals) /\ verify_votes votes packets = Ok (tc, hc) /\
    slots learned (events (samples packets)) (populate_lzp votes tc hc).
Proof.
  intros Hp. destruct (cast_votes_ok packets Hp) as (votes & st & Hc & Hv).
  destruct (verify_votes_ok packets votes Hp Hv) as (tc & hc & He & Ht & Hz & Hh).
  exists votes, st, tc, hc. split; [done|]. split; [done|]. split.
  - unfold populate_lzp. rewrite length_zip_with, length_zip. destruct Hv as [Hv _], Ht as [Ht _]. lia.
  - intros h Hr. eapply populate_lookup; [by apply Hv|by apply Ht|by apply Hh].
Qed.

Lemma slot_bytes_bytes es h : Forall event_ok es -> bytes (slot_bytes es h).
Proof.
  intros Hf. apply Forall_fmap, Forall_forall. intros e [_ He]%list_elem_of_filter. rewrite Forall_forall in Hf. apply (Hf e He).
Qed.

Lemma learned_ok bs : bytes bs -> lzp_entry_ok (learned bs).
Proof.
  intros Hb. unfold learned, lzp_slot. case_if; (split; simpl; [|unfold is_byte; lia]); [|unfold is_byte; lia].
  destruct bs as [|b bs]; [unfold saturated in *; simpl in *; lia|]. eapply Forall_forall in Hb; [done|by apply winner_seen].
Qed.

Lemma slots_table_ok es l : Forall event_ok es -> slots learned es l -> lzp_table_ok l.
Proof.
  intros He [Hl Hs]. split; [done|]. apply Forall_lookup. intros i e Hi. pose proof (lookup_lt_Some _ _ _ Hi).
  specialize (Hs (Z.of_nat i)). rewrite Nat2Z.id, Hi in Hs. specialize (Hs ltac:(lia)). simplify_eq.
  by apply learned_ok, slot_bytes_bytes.
Qed.

(** ** Properties *)

(** C21: the trained LZP table.  A slot predicts only if it was used at least
    twice, it then predicts a byte seen in it that was right in 40% of
    the uses, both counts saturating at 65535; and if one byte is a strict
    majority of a slot used 2 to 32767 times, the slot predicts that byte. *)
Theorem lzp_majority_learned (packets : list (option (list Z))) :
  packets_ok packets ->
  exists votes totals total_count hit_count,
    cast_votes packets = Ok (votes, totals) /\ verify_votes votes packets = Ok (total_count, hit_count) /\
    let lzp := populate_lzp votes total_count hit_count in
    lzp_table_ok lzp /\
    forall h, 0 <= h < NETC_LZP_HT_SIZE ->
      let bs := slot_bytes (events (samples packets)) h in
      exists e, lzp !! Z.to_nat h = Some e /\
        (lzp_valid e <> 0 -> 2 <= zlen bs /\ lzp_value e ∈ bs /\
           saturated (zlen bs) * 4 <= saturated (occurrences (lzp_value e) bs) * 10) /\
        (forall x, 2 <= zlen bs <= INT16_MAX -> zlen bs < 2 * occurrences x bs -> e = LzpEntry x 1).
Proof.
  intros Hp. destruct (train_lzp packets Hp) as (votes & st & tc & hc & Hc & Hv & Hs). exists votes, st, tc, hc.
  split; [done|]. split; [done|]. destruct (events_ok _ (samples_packets _ Hp)) as [Hev _]. cbv zeta.
  split; [by eapply slots_table_ok|]. intros h Hh. set (bs := slot_bytes _ h). exists (learned bs). split; [by apply Hs|].
  unfold learned, lzp_slot. split.
  - case_if; [|done]. intros _. simpl. assert (2 <= zlen bs) by (unfold saturated in *; lia). split; [done|]. split; [|lia].
    apply winner_seen. intros ->. simpl in *. lia.
  - intros x Hn Hm. rewrite (winner_majority bs x) by lia.
    assert (occurrences x bs <= zlen bs) by (unfold occurrences; pose proof (length_filter (eq x) bs); lia).
    unfold saturated, INT16_MAX in *. by if_true.
Qed.

(** Byte 7 follows 0 at offset 0 in both samples. *)
Lemma lzp_majority_learned_witness :
  exists votes totals total_count hit_count,
    cast_votes [Some [7]; Some [7; 8]] = Ok (votes, totals) /\
    verify_votes votes [Some [7]; Some [7; 8]] = Ok (total_count, hit_count) /\
    populate_lzp votes total_count hit_count !! Z.to_nat (netc_lzp_hash 0 0) = Some (LzpEntry 7 1).
Proof.
  destruct (lzp_majority_learned [Some [7]; Some [7; 8]]) as (votes & totals & tc & hc & Hc & Hv & _ & Hs);
    [apply packets_ok_check; done|].
  destruct (Hs (netc_lzp_hash 0 0) (lzp_hash_range 0 0)) as (e & He & _ & Hm).
  exists votes, totals, tc, hc. refine (conj Hc (conj Hv _)). rewrite He. f_equal.
  apply Hm; vm_compute; [split; discriminate|reflexivity].
Defined.
