(* ===== verification/Training.v ===== *)
(** * Dictionary training as a whole (src/src/core/netc_dict.c: netc_dict_train)

    Composes the statistics: whatever the samples, training either runs out of
    memory or produces a well-formed, checksummed dictionary that the coders
    accept and in which every symbol can be coded. *)

From stdpp Require Import prelude.
From Stdlib Require Import ZArith Lia.
From S2P Require Import Prelude TansTable TansCodec Lzp Freq Crc32 Simd Header Ctx Dict Train UnigramCount ClassMap LzpVote.

Local Open Scope Z_scope.

(** ** Retraining on filtered packets *)
Lemma foldM_through {E S A B} (g : A -> outcome E B) (h : S -> B -> outcome E S) ps qs :
  Forall2 (fun p q => g p = Ok q) ps qs -> forall s, foldM (fun s p => q ← g p; h s q) s ps = foldM h s qs.
Proof.
  induction 1 as [|p q ps qs Hp _ IH]; intros s; [done|]. cbn [foldM]. rewrite Hp. mstep.
  destruct (h s q); mstep; [apply IH|done..].
Qed.

Lemma filtered_samples lzp pkts :
  lzp_table_ok lzp -> samples_ok pkts ->
  exists qs, Forall2 (fun p q => netc_lzp_xor_filter lzp p = Ok q) pkts qs /\ samples_ok qs.
Proof.
  intros Hz [Hn Hp]. assert (exists qs, Forall2 (fun p q => netc_lzp_xor_filter lzp p = Ok q) pkts qs /\
    Forall (fun pkt => bytes pkt /\ zlen pkt <= NETC_MAX_PACKET_SIZE) qs) as (qs & H2 & Hq).
  - clear Hn. induction Hp as [|p pkts [Hb Hl] _ (qs & H2 & Hq)]; [by exists []|].
    destruct (lzp_filter_inv lzp 0 0 p Hz Hb) as (q & Hf & Hql & Hqb & _). exists (q :: qs). split; [by constructor|].
    constructor; [|done]. split; [done|]. lia.
  - exists qs. split; [done|]. split; [|done]. apply Forall2_length in H2. lia.
Qed.

Lemma count_filtered_ok m n st i prev sym :
  class_map_ok (Some m) -> tally_ok n st.1 -> grid2 n st.2 -> event_ok (i, prev, sym) -> n + 1 < 2 ^ 64 ->
  exists st', count_filtered m st i prev sym = Ok st' /\ tally_ok (n + 1) st'.1 /\ grid2 (n + 1) st'.2.
Proof.
  destruct st as [t bt]. simpl. intros Hm Ht Hb He Hn. unfold count_filtered.
  destruct (grid_bump _ n _ _ (netc_ctx_bucket i) sym Ht (ctx_bucket_range i)) as (r & ns & -> & -> & Hg); [apply He|done|]. mstep.
  destruct (count_bigram_ok m n bt i prev sym) as (bt' & -> & Hb'); [done..|]. mstep. by eexists.
Qed.

Lemma retrain_counts_ok lzp m packets :
  lzp_table_ok lzp -> class_map_ok (Some m) -> packets_ok packets ->
  exists t bt n, retrain_counts lzp m packets = Ok (t, bt) /\ tally_ok n t /\ grid2 n bt /\ n <= 2 ^ 50.
Proof.
  intros Hz Hm Hp. unfold retrain_counts. rewrite for_packets_samples.
  destruct (filtered_samples lzp _ Hz (samples_packets _ Hp)) as (qs & H2 & Hq).
  rewrite (foldM_through _ (fun st q => for_bytes (count_filtered m) 0 0 q st) _ _ H2).
  rewrite (foldM_ext _ (fun st q => foldM (fun st '(i, prev, b) => count_filtered m st i prev b) st (positions 0 0 q)))
    by (intros; apply for_bytes_positions).
  rewrite <- (foldM_map (positions 0 0) (fun st l => foldM (fun st '(i, prev, b) => count_filtered m st i prev b) st l)), foldM_concat.
  fold (events qs). destruct (events_ok qs Hq) as [Hev Hn].
  destruct (foldM_prefix (fun pre st => tally_ok (zlen pre) st.1 /\ grid2 (zlen pre) st.2)
    (fun st '(i, prev, b) => count_filtered m st i prev b) (zero_tally, zero_bigram_tally) (events qs)) as ([t bt] & -> & Ht & Hb).
  - intros pre [[i prev] b] st Hl Hin [Ht Hb]. rewrite Forall_forall in Hev. rewrite length_app, Nat2Z.inj_add.
    apply count_filtered_ok; [done..|by apply Hev|lia].
  - split; [apply tally_zero|apply grid2_zero].
  - exists t, bt, (zlen (events qs)). split_and!; [done..|]. lia.
Qed.

Lemma count_bigrams_ok m packets :
  class_map_ok (Some m) -> packets_ok packets ->
  exists bt n, count_bigrams m packets = Ok bt /\ grid2 n bt /\ n <= 2 ^ 50.
Proof.
  intros Hm Hp. destruct (pass_inv (fun pre bt => grid2 (zlen pre) bt) (count_bigram m) zero_bigram_tally packets Hp) as (bt & Hb & Hg).
  - intros pre i prev b bt Hl He Hg. rewrite length_app, Nat2Z.inj_add. apply count_bigram_ok; [done..|lia].
  - apply grid2_zero.
  - destruct (events_ok _ (samples_packets _ Hp)). exists bt. eexists. split; [exact Hb|]. split; [exact Hg|]. lia.
Qed.

Lemma count_unigrams_ok ops `{SimdOk ops} packets :
  packets_ok packets -> exists t n, count_unigrams ops packets = Ok t /\ tally_ok n t /\ n <= 2 ^ 50.
Proof.
  intros Hp. destruct (unigrams_ok packets Hp) as (t & n & Ht & Hg & Hn). exists t, n. split; [|done]. rewrite <- Ht.
  by apply unigrams_eq.
Qed.

(** ** All phases *)
Definition model_ok (tables : list netc_tans_table_t) (bigram_tables : list (list netc_tans_table_t)) (class_map : list Z)
    (lzp : list netc_lzp_entry_t) : Prop :=
  (zlen tables = NETC_CTX_COUNT /\ Forall trained tables) /\ (zlen bigram_tables = NETC_CTX_COUNT /\ Forall trained_row bigram_tables) /\
  class_map_ok (Some class_map) /\ lzp_table_ok lzp.

(** The results of the phases, in the order of the code. *)
Record phases_ok (ops : netc_simd_ops_t) (packets : list (option (list Z))) t m bt ts bg votes totals tc hc t' bt' ts' bg' : Prop := {
  ph_unigrams : count_unigrams ops packets = Ok t;
  ph_classes : train_class_map packets = Ok m;
  ph_bigrams : count_bigrams m packets = Ok bt;
  ph_tables : build_tables t = Ok ts;
  ph_bigram_tables : build_bigram_tables bt = Ok bg;
  ph_votes : cast_votes packets = Ok (votes, totals);
  ph_verified : verify_votes votes packets = Ok (tc, hc);
  ph_filtered : retrain_counts (populate_lzp votes tc hc) m packets = Ok (t', bt');
  ph_rebuilt : rebuild_row NETC_CTX_COUNT ts (raw t') (Train.totals t') = Ok ts';
  ph_bigram_rebuilt : rebuild_bigram_tables bg bt' = Ok bg';
  ph_model : model_ok ts' bg' m (populate_lzp votes tc hc)
}.

Lemma phases ops `{SimdOk ops} packets :
  packets_ok packets ->
  exists t m bt ts bg votes st tc hc t' bt' ts' bg', phases_ok ops packets t m bt ts bg votes st tc hc t' bt' ts' bg'.
Proof.
  intros Hp. destruct (count_unigrams_ok ops packets Hp) as (t & n & Et & Ht & Hn).
  destruct (class_map_trained packets Hp) as (m & Em & Hm).
  destruct (count_bigrams_ok m packets Hm Hp) as (bt & n2 & Ebt & Hbt & Hn2).
  destruct (build_row_ok _ n _ _ Ht) as (ts & Ets & Htl & Htr); [done..|].
  destruct (build_bigram_tables_ok n2 bt Hbt Hn2) as (bg & Ebg & Hbgl & Hbg).
  destruct (train_lzp packets Hp) as (votes & st & tc & hc & Ev & Ec & Hs).
  assert (lzp_table_ok (populate_lzp votes tc hc)) as Hz.
  { destruct (events_ok _ (samples_packets _ Hp)) as [Hev _]. by eapply slots_table_ok. }
  destruct (retrain_counts_ok _ m packets Hz Hm Hp) as (t' & bt' & n' & Er & Ht' & Hbt' & Hn').
  destruct (rebuild_row_ok _ n' ts _ _ Ht') as (ts' & Ets' & Hts'); [done..|].
  destruct (rebuild_bigram_tables_ok n' bg bt' Hbt') as (bg' & Ebg' & Hbg'); [done..|].
  exists t, m, bt, ts, bg, votes, st, tc, hc, t', bt', ts', bg'. by constructor.
Qed.

(** One phase of training that is known to succeed; one allocation. *)
Local Ltac phase H := rewrite H; cbn [or_fail]; mstep.
Local Ltac alloc b := destruct b; [cbn [negb andb]|done].

(** Training succeeds exactly when the allocations do. *)
Lemma train_model_eq ops mem packets t m bt ts bg votes st tc hc t' bt' ts' bg' :
  phases_ok ops packets t m bt ts bg votes st tc hc t' bt' ts' bg' ->
  train_model ops mem packets =
    if forallb mem (seq 1 8) then Ok (ts', bg', m, populate_lzp votes tc hc) else Fail NETC_ERR_NOMEM.
Proof.
  intros [Et Em Ebt Ets Ebg Ev Ec Er Ets' Ebg' _]. unfold train_model. cbn [seq forallb].
  phase Et. alloc (mem 1%nat). phase Em. alloc (mem 2%nat). phase Ebt. phase Ets. phase Ebg.
  alloc (mem 3%nat). alloc (mem 4%nat). phase Ev. alloc (mem 5%nat). phase Ec.
  alloc (mem 6%nat). alloc (mem 7%nat). alloc (mem 8%nat). phase Er. phase Ets'. by phase Ebg'.
Qed.

(** The dictionary record the phases fill in. *)
Definition trained_dict (model_id : Z) tables bigram_tables class_map lzp checksum : netc_dict_t :=
  Dict NETC_DICT_MAGIC NETC_DICT_VERSION model_id NETC_CTX_COUNT NETC_DICT_FLAG_LZP tables bigram_tables
    class_map NETC_BIGRAM_CTX_COUNT (Some lzp) checksum.

Lemma trained_row_ok ts : trained_row ts -> row_ok (n_bigram_classes NETC_DICT_VERSION) ts.
Proof.
  intros [Hl Ht]. exists ts. change (n_bigram_classes NETC_DICT_VERSION) with NETC_BIGRAM_CTX_COUNT. rewrite Z.sub_diag, app_nil_r.
  split; [done|]. split; [done|]. eapply Forall_impl; [exact Ht|]. by intros t [].
Qed.

Lemma trained_dict_wf id tables bg m lzp ck : model_ok tables bg m lzp -> is_byte id -> dict_wf (trained_dict id tables bg m lzp ck).
Proof.
  intros ((Htl & Ht) & (Hbl & Hb) & [Hml Hm] & Hz) Hid. constructor; simpl; try done.
  - split; [done|]. eapply Forall_impl; [exact Ht|]. by intros t [].
  - split; [done|]. eapply Forall_impl; [exact Hb|]. apply trained_row_ok.
  - split; [done|]. split; [|done]. eapply Forall_impl; [exact Hm|]. unfold NETC_BIGRAM_CTX_COUNT, is_byte. intros; simpl in *; lia.
  - by exists lzp.
Qed.

(** Every symbol has a slot in every table. *)
Definition dict_trained (d : netc_dict_t) : Prop :=
  Forall trained (d_tables d) /\ Forall (Forall trained) (d_bigram_tables d).

(** What the caller of [netc_dict_train] gets. *)
Definition usable_dict (model_id : Z) (d : netc_dict_t) : Prop :=
  d_model_id d = model_id /\ dict_wf d /\ checksummed d /\ classes_ok d /\ dict_ok d /\ dict_trained d.

Lemma trained_usable id tables bg m lzp body :
  model_ok tables bg m lzp -> is_byte id -> dict_body (trained_dict id tables bg m lzp 0) = Ok body ->
  usable_dict id (trained_dict id tables bg m lzp (netc_crc32 body)).
Proof.
  intros Hm Hid Hb. pose proof (trained_dict_wf id tables bg m lzp (netc_crc32 body) Hm Hid) as Hwf.
  assert (classes_ok (trained_dict id tables bg m lzp (netc_crc32 body))) as Hc by apply Hm.
  split; [done|]. split; [done|]. split; [|split; [done|split; [by apply wf_dict_ok|]]].
  - exists body. split; [|done]. rewrite <- Hb. done.
  - destruct Hm as ((_ & Ht) & (_ & Hbg) & _). split; [done|]. eapply Forall_impl; [exact Hbg|]. by intros ts [].
Qed.

Lemma dict_train_eq cpu mem packets id t m bt ts bg votes st tc hc t' bt' ts' bg' :
  phases_ok (netc_simd_ops_init cpu NETC_SIMD_LEVEL_AUTO) packets t m bt ts bg votes st tc hc t' bt' ts' bg' -> 0 < id < 255 ->
  let lzp := populate_lzp votes tc hc in
  exists body, dict_body (trained_dict id ts' bg' m lzp 0) = Ok body /\
    netc_dict_train cpu mem false false packets id false =
      if forallb mem (seq 0 10) then Ok (trained_dict id ts' bg' m lzp (netc_crc32 body)) else Fail NETC_ERR_NOMEM.
Proof.
  intros Hph Hid lzp. assert (is_byte id) as Hidb by (unfold is_byte; lia). pose proof (ph_model _ _ _ _ _ _ _ _ _ _ _ _ _ _ _ Hph) as Hm.
  destruct (dict_body_ok _ (trained_dict_wf id ts' bg' m lzp 0 Hm Hidb)) as (Hb & _ & Hz).
  eexists. split; [exact Hb|]. unfold netc_dict_train. if_false. rewrite andb_false_r, (train_model_eq _ _ _ _ _ _ _ _ _ _ _ _ _ _ _ _ Hph).
  change (seq 0 10) with ([0%nat] ++ seq 1 8 ++ [9%nat]). rewrite !forallb_app. cbn [forallb]. rewrite !andb_true_r.
  alloc (mem 0%nat). destruct (forallb mem (seq 1 8)); [|done]. mstep. cbv zeta. fold lzp.
  fold (trained_dict id ts' bg' m lzp 0). alloc (mem 9%nat). rewrite Hb. mstep.
  change (dict_blob_size_v _ _) with (dict_blob_size_v NETC_DICT_VERSION NETC_DICT_FLAG_LZP) in Hz |- *.
  rewrite length_app. change (length (put_header _)) with 8%nat. by rewrite (proj2 (Z.eqb_eq _ _)) by lia.
Qed.

Lemma dict_train_usable cpu mem packets id :
  packets_ok packets -> 0 < id < 255 ->
  exists d, usable_dict id d /\
    netc_dict_train cpu mem false false packets id false = if forallb mem (seq 0 10) then Ok d else Fail NETC_ERR_NOMEM.
Proof.
  intros Hp Hid. destruct (phases (netc_simd_ops_init cpu NETC_SIMD_LEVEL_AUTO) packets Hp)
    as (t & m & bt & ts & bg & votes & st & tc & hc & t' & bt' & ts' & bg' & Hph).
  destruct (dict_train_eq cpu mem packets id _ _ _ _ _ _ _ _ _ _ _ _ _ Hph Hid) as (body & Hb & He). eexists. split; [|exact He].
  apply trained_usable; [apply Hph|unfold is_byte; lia|done].
Qed.

(** ** Properties *)

(** C9: whatever the samples and the CPU, [netc_dict_train] with a valid model
    id fails exactly when an allocation fails; otherwise the dictionary is
    well formed, its checksum is the CRC of its serialisation, every class is
    below 8, every table can be rebuilt from its frequencies and gives every
    symbol a slot.  The reserved model ids and missing arguments are rejected. *)
Theorem dict_train_correct (cpu : simd_caps) (mem : nat -> bool) (packets : list (option (list Z))) (id : Z) :
  packets_ok packets -> 0 <= id < 256 ->
  (0 < id < 255 -> exists d, usable_dict id d /\
     netc_dict_train cpu mem false false packets id false = if forallb mem (seq 0 10) then Ok d else Fail NETC_ERR_NOMEM) /\
  (id = 0 \/ id = 255 -> netc_dict_train cpu mem false false packets id false = Fail NETC_ERR_INVALID_ARG) /\
  (forall pn sn, netc_dict_train cpu mem pn sn packets id true = Fail NETC_ERR_INVALID_ARG) /\
  (forall pn sn, pn || sn = true -> packets <> [] -> netc_dict_train cpu mem pn sn packets id false = Fail NETC_ERR_INVALID_ARG).
Proof.
  intros Hp Hid. split_and!.
  - by apply dict_train_usable.
  - by intros [-> | ->].
  - done.
  - intros pn sn Hn Hne. unfold netc_dict_train. case_if; [done|]. rewrite Hn. destruct packets; done.
Qed.

Lemma dict_train_correct_witness :
  exists d, usable_dict 7 d /\
    netc_dict_train (SimdCaps false false false false false false false false) (fun _ => true) false false
      [Some [1; 2; 3]; None; Some [1; 2; 4]] 7 false = Ok d.
Proof.
  destruct (dict_train_correct (SimdCaps false false false false false false false false) (fun _ => true) [Some [1; 2; 3]; None; Some [1; 2; 4]] 7)
    as [H _]; [apply packets_ok_check; reflexivity|split; [discriminate|reflexivity]|].
  apply H. split; reflexivity.
Defined.
