(* ===== verification/Heap.v ===== *)
(** * Ownership of memory
      (src/src/core/netc_ctx.c: netc_ctx_create, netc_ctx_destroy;
      src/src/core/netc_dict.c: netc_dict_train, netc_dict_load, netc_dict_free)

    The functional models say what the API computes; here the same control
    flow is followed with its allocations and releases.  A heap is the set of
    live blocks; [free] of a pointer that is not live is undefined.  [mem k]
    says whether allocation site [k] succeeds, with the numbering of the
    functional models, and every program below returns what its functional
    model returns. *)

From stdpp Require Import prelude gmap.
From Stdlib Require Import ZArith Lia.
From S2P Require Import Prelude TansTable TansCodec Lzp Freq Crc32 Simd Header Ctx Dict Train UnigramCount ClassMap LzpVote Training.

Local Open Scope Z_scope.

(** ** Heaps *)
Record heap := HeapState { live : gset nat; next : nat }.

Definition heapM (A : Type) : Type := heap -> outcome unit (A * heap).

#[export] Instance heapM_ret : MRet heapM := fun A a h => Ok (a, h).
#[export] Instance heapM_bind : MBind heapM := fun A B f m h =>
  match m h with Ok (a, h') => f a h' | Fail e => Fail e | Undef => Undef end.

(** A pointer; [None] is NULL. *)
Abbreviation ptr := (option nat).

Definition malloc (ok : bool) : heapM ptr := fun h =>
  if ok then Ok (Some (next h), HeapState ({[next h]} ∪ live h) (S (next h))) else Ok (None, h).

Definition free (p : ptr) : heapM unit := fun h =>
  match p with
  | None => Ok (tt, h)
  | Some b => if decide (b ∈ live h) then Ok (tt, HeapState (live h ∖ {[b]}) (next h)) else Undef
  end.

Fixpoint frees (ps : list ptr) : heapM unit :=
  match ps with [] => mret tt | p :: ps => free p;; frees ps end.

(** A computation that does not touch the heap. *)
Definition run {E A} (m : outcome E A) : heapM A := fun h =>
  match m with Ok a => Ok (a, h) | _ => Undef end.

Definition null (p : ptr) : bool := bool_decide (p = None).

Definition alloc_if (b : bool) (ok : bool) : heapM ptr := if b then malloc ok else mret None.

(** ** Contexts *)
Record ctx_ptrs := CtxPtrs {
  p_ctx : ptr; p_ring : ptr; p_arena : ptr; p_prev : ptr; p_prev2 : ptr;
  p_freq : ptr; p_total : ptr; p_tables : ptr; p_lzp : ptr }.

Definition ctx_create_mem (mem : nat -> bool) (dict : option netc_dict_t) (cfg : option netc_cfg_t) : heapM (option ctx_ptrs) :=
  let cfg := default NETC_CFG_DEFAULT cfg in
  let stateful := has (cfg_flags cfg) NETC_CFG_FLAG_STATEFUL in
  let adaptive := has (cfg_flags cfg) NETC_CFG_FLAG_ADAPTIVE in
  ctx ← malloc (mem 0%nat);
  if null ctx then mret None else
  ring ← alloc_if stateful (mem 1%nat);
  if stateful && null ring then frees [ctx];; mret None else
  arena ← malloc (mem 2%nat);
  if null arena then frees [ring; ctx];; mret None else
  prev ← alloc_if stateful (mem 3%nat);
  if stateful && null prev then frees [arena; ring; ctx];; mret None else
  if adaptive then
    if negb stateful then frees [prev; arena; ring; ctx];; mret None else
    freq ← malloc (mem 4%nat);
    total ← malloc (mem 5%nat);
    tables ← malloc (mem 6%nat);
    prev2 ← malloc (mem 7%nat);
    if null freq || null total || null tables || null prev2
    then frees [prev2; tables; total; freq; prev; arena; ring; ctx];; mret None else
    lzp ← alloc_if (match dict with Some d => match d_lzp_table d with Some _ => true | None => false end | None => false end) (mem 8%nat);
    mret (Some (CtxPtrs ctx ring arena prev prev2 freq total tables lzp))
  else mret (Some (CtxPtrs ctx ring arena prev None None None None None)).

Definition netc_ctx_destroy (ctx : option ctx_ptrs) : heapM unit :=
  match ctx with
  | None => mret tt
  | Some p => frees [p_prev2 p; p_lzp p; p_tables p; p_total p; p_freq p; p_prev p; p_ring p; p_arena p; p_ctx p]
  end.

(** ** Dictionaries *)
Record dict_ptrs := DictPtrs { p_dict : ptr; p_lzp_table : ptr }.

Definition netc_dict_free (dict : option dict_ptrs) : heapM unit :=
  match dict with
  | None => mret tt
  | Some p => frees [p_lzp_table p; p_dict p]
  end.

Definition netc_dict_free_blob (blob : ptr) : heapM unit := free blob.

(** The parts of a blob between the header and the LZP section. *)
Definition load_tables (version : Z) (b : list Z)
  : result (Z * list Z * Z * list netc_tans_table_t * list (list netc_tans_table_t) * list Z) :=
  model_id ← aget b 5;
  '(class_map, class_count, cur) ← load_class_map version (drop 8 b);
  '(tables, cur) ← get_many get_table (Z.to_nat NETC_CTX_COUNT) cur;
  '(bigram, cur) ← get_many (get_row (n_bigram_classes version)) (Z.to_nat NETC_CTX_COUNT) cur;
  Ok (model_id, class_map, class_count, tables, bigram, cur).

Definition dict_load_mem (mem : nat -> bool) (b : list Z) : heapM (result (netc_dict_t * dict_ptrs)) :=
  match load_header b with
  | Undef => fun _ => Undef
  | Fail e => mret (Fail e)
  | Ok (version, dflags, cksum) =>
      d ← malloc (mem 0%nat);
      if null d then mret (Fail NETC_ERR_NOMEM) else
      match load_tables version b with
      | Undef => fun _ => Undef
      | Fail e => frees [d];; mret (Fail e)
      | Ok (model_id, class_map, class_count, tables, bigram, cur) =>
          let dict := Dict NETC_DICT_MAGIC version model_id NETC_CTX_COUNT dflags tables bigram class_map class_count in
          if has dflags NETC_DICT_FLAG_LZP then
            match get_lzp (mem 1%nat) cur with
            | Undef => fun _ => Undef
            | Fail e => frees [d];; mret (Fail e)
            | Ok t => lzp ← malloc true; mret (Ok (dict (Some t) cksum, DictPtrs d lzp))
            end
          else mret (Ok (dict None cksum, DictPtrs d None))
      end
  end.

(** Training with valid arguments.  The checks of the C code come first, the
    statistics are the functions of Train.v. *)
Definition dict_train_mem (cpu : simd_caps) (mem : nat -> bool) (packets : list (option (list Z))) (model_id : Z)
  : heapM (result (netc_dict_t * dict_ptrs)) :=
  d ← malloc (mem 0%nat);
  if null d then mret (Fail NETC_ERR_NOMEM) else
  unigrams ← run (count_unigrams (netc_simd_ops_init cpu NETC_SIMD_LEVEL_AUTO) packets);
  cond_counts ← malloc (mem 1%nat);
  if null cond_counts then frees [d];; mret (Fail NETC_ERR_NOMEM) else
  class_map ← run (train_class_map packets);
  frees [cond_counts];;
  bgram_raw ← malloc (mem 2%nat);
  if null bgram_raw then frees [d];; mret (Fail NETC_ERR_NOMEM) else
  bigrams ← run (count_bigrams class_map packets);
  r ← run (@attempt netc_result_t _ (build_tables unigrams));
  match r with None => frees [bgram_raw; d];; mret (Fail NETC_ERR_NOMEM) | Some tables =>
  r ← run (@attempt netc_result_t _ (build_bigram_tables bigrams));
  match r with None => frees [bgram_raw; d];; mret (Fail NETC_ERR_NOMEM) | Some bigram_tables =>
  frees [bgram_raw];;
  votes ← malloc (mem 3%nat);
  slot_total ← malloc (mem 4%nat);
  if null votes || null slot_total then frees [votes; slot_total; d];; mret (Fail NETC_ERR_NOMEM) else
  '(v, _) ← run (cast_votes packets);
  total_count ← malloc (mem 5%nat);
  if null total_count then frees [votes; slot_total; d];; mret (Fail NETC_ERR_NOMEM) else
  '(tc, hc) ← run (verify_votes v packets);
  lzp_table ← malloc (mem 6%nat);
  if null lzp_table then frees [total_count; votes; d];; mret (Fail NETC_ERR_NOMEM) else
  let lzp := populate_lzp v tc hc in
  frees [total_count; votes];;
  bgram_raw2 ← malloc (mem 7%nat);
  if null bgram_raw2 then frees [lzp_table; d];; mret (Fail NETC_ERR_NOMEM) else
  filt_buf ← malloc (mem 8%nat);
  if null filt_buf then frees [bgram_raw2; lzp_table; d];; mret (Fail NETC_ERR_NOMEM) else
  '(unigrams, bigrams) ← run (retrain_counts lzp class_map packets);
  frees [filt_buf];;
  tables ← run (rebuild_row NETC_CTX_COUNT tables (raw unigrams) (totals unigrams));
  bigram_tables ← run (rebuild_bigram_tables bigram_tables bigrams);
  frees [bgram_raw2];;
  tmp_blob ← malloc (mem 9%nat);
  if null tmp_blob then frees [lzp_table; d];; mret (Fail NETC_ERR_NOMEM) else
  body ← run (dict_body (trained_dict model_id tables bigram_tables class_map lzp 0));
  frees [tmp_blob];;
  mret (Ok (trained_dict model_id tables bigram_tables class_map lzp (netc_crc32 body), DictPtrs d lzp_table))
  end end.

(** ** Ownership

    [owns ps L h]: the non-NULL pointers of [ps] are distinct live blocks that
    belong to the running code; the other live blocks are [L]. *)
Definition blocks (ps : list ptr) : list nat := omap id ps.

Record owns (ps : list ptr) (L : gset nat) (h : heap) : Prop := {
  own_bound : forall b, b ∈ live h -> (b < next h)%nat;
  own_nodup : NoDup (blocks ps);
  own_apart : forall b, b ∈ blocks ps -> b ∉ L;
  own_live : live h = list_to_set (blocks ps) ∪ L
}.

#[export] Instance owns_perm : Proper ((≡ₚ) ==> (=) ==> (=) ==> iff) owns.
Proof.
  assert (forall ps qs L h, ps ≡ₚ qs -> owns ps L h -> owns qs L h) as H.
  { intros ps qs L h Hp [Hb Hn Ha Hl]. assert (blocks ps ≡ₚ blocks qs) as Hbp by (unfold blocks; by rewrite Hp).
    constructor; [done|by rewrite <- Hbp| |].
    - intros b Hin. apply Ha. by rewrite Hbp.
    - rewrite Hl. f_equal. apply leibniz_equiv. by rewrite Hbp. }
  intros ps qs Hp L ? <- h ? <-. split; apply H; [done|by symmetry].
Qed.

Lemma owns_null ps L h : owns (None :: ps) L h <-> owns ps L h.
Proof. split; intros [Hb Hn Ha Hl]; by constructor. Qed.

Lemma owns_eq ps qs L h : owns ps L h -> qs ≡ₚ ps -> owns qs L h.
Proof. intros Ho Hp. by rewrite Hp. Qed.

(** With nothing allocated the heap is what it was. *)
Lemma owns_nil L h : owns [] L h -> live h = L.
Proof. intros [_ _ _ Hl]. rewrite Hl. apply leibniz_equiv. simpl. set_solver. Qed.

Lemma malloc_owns ok ps L h :
  owns ps L h -> exists p h', malloc ok h = Ok (p, h') /\ owns (p :: ps) L h' /\ null p = negb ok.
Proof.
  intros Ho. destruct ok; simpl; [|exists None, h; split; [done|]; split; [by apply owns_null|done]].
  destruct Ho as [Hb Hn Ha Hl]. exists (Some (next h)). eexists. split; [done|]. split; [|done].
  assert (next h ∉ live h) as Hf by (intros Hin; apply Hb in Hin; lia). rewrite Hl in Hf.
  constructor; cbn [live next blocks omap list_omap id].
  - intros b Hin. apply elem_of_union in Hin as [->%elem_of_singleton|Hin]; [lia|]. apply Hb in Hin. lia.
  - constructor; [|done]. fold (blocks ps). set_solver.
  - fold (blocks ps). intros b [->|Hin]%elem_of_cons; [set_solver|by apply Ha].
  - fold (blocks ps). rewrite Hl. apply leibniz_equiv. cbn [list_to_set]. set_solver.
Qed.

Lemma free_owns p ps L h : owns (p :: ps) L h -> exists h', free p h = Ok (tt, h') /\ owns ps L h'.
Proof.
  destruct p as [b|]; [|intros Ho; exists h; split; [done|exact (proj1 (owns_null _ _ _) Ho)]]. intros [Hb Hn Ha Hl]. unfold blocks in *. cbn [omap list_omap id] in *.
  fold (blocks ps) in *. apply NoDup_cons in Hn as [Hni Hn]. simpl. rewrite decide_True by (rewrite Hl; cbn [list_to_set]; set_solver).
  eexists. split; [done|]. constructor; cbn [live next].
  - intros c Hc. apply Hb. set_solver.
  - done.
  - intros c Hc. apply Ha. by right.
  - rewrite Hl. apply leibniz_equiv. cbn [list_to_set]. specialize (Ha b ltac:(by left)). fold (blocks ps). set_solver.
Qed.

Lemma frees_owns qs ps L h : owns (qs ++ ps) L h -> exists h', frees qs h = Ok (tt, h') /\ owns ps L h'.
Proof.
  revert h. induction qs as [|q qs IH]; intros h Ho; [by exists h|]. destruct (free_owns q (qs ++ ps) L h Ho) as (h1 & Hf & Ho1).
  destruct (IH h1 Ho1) as (h2 & Hf2 & Ho2). exists h2. split; [|done]. cbn [frees]. unfold mbind, heapM_bind. by rewrite Hf.
Qed.

(** ** Symbolic execution *)
Lemma bind_run {A B} (m : heapM A) (f : A -> heapM B) h a h' : m h = Ok (a, h') -> (m ≫= f) h = f a h'.
Proof. intros H. unfold mbind, heapM_bind. by rewrite H. Qed.

(** [runs m h Q]: [m] runs from [h] to a result that satisfies [Q]. *)
Definition runs {A} (m : heapM A) (h : heap) (Q : A -> heap -> Prop) : Prop := exists a h', m h = Ok (a, h') /\ Q a h'.

Lemma runs_ret {A} (a : A) h (Q : A -> heap -> Prop) : Q a h -> runs (mret a) h Q.
Proof. intros H. by exists a, h. Qed.

Lemma runs_bind {A B} (m : heapM A) (f : A -> heapM B) h Q : runs m h (fun a h' => runs (f a) h' Q) -> runs (m ≫= f) h Q.
Proof. intros (a & h1 & Hm & b & h2 & Hf & HQ). exists b, h2. by rewrite (bind_run _ _ _ _ _ Hm). Qed.

Lemma runs_malloc ok ps L h Q :
  owns ps L h -> (forall p h', owns (p :: ps) L h' -> null p = negb ok -> Q p h') -> runs (malloc ok) h Q.
Proof. intros Ho HQ. destruct (malloc_owns ok ps L h Ho) as (p & h' & Hm & Ho' & Hn). exists p, h'. eauto. Qed.

Lemma runs_frees qs rs ps L h Q :
  owns ps L h -> ps ≡ₚ qs ++ rs -> (forall h', owns rs L h' -> Q tt h') -> runs (frees qs) h Q.
Proof. intros Ho Hp HQ. rewrite Hp in Ho. destruct (frees_owns qs rs L h Ho) as (h' & Hf & Ho'). exists tt, h'. eauto. Qed.

Lemma runs_run {E A} (m : outcome E A) a h Q : m = Ok a -> Q a h -> runs (run m) h Q.
Proof. intros -> HQ. by exists a, h. Qed.

Lemma runs_alloc_if b ok ps L h Q :
  owns ps L h -> (forall p h', owns (p :: ps) L h' -> null p = negb (b && ok) -> Q p h') -> runs (alloc_if b ok) h Q.
Proof.
  intros Ho HQ. destruct b; [by apply (runs_malloc ok ps L)|]. apply runs_ret, HQ; [by apply owns_null|done].
Qed.

Lemma null_Some p b : null p = negb b -> (is_Some p <-> b = true).
Proof. unfold null. destruct p, b; simpl; intros ?; try done; split; try done; by intros []. Qed.

Lemma null_None p : null p = true -> p = None.
Proof. unfold null. by destruct p. Qed.

Local Ltac h_alloc p H := apply runs_bind; (eapply runs_malloc || eapply runs_alloc_if); [eassumption|]; let h := fresh "h" in let Ho := fresh "Ho" in intros p h Ho H.
Local Ltac h_keep rs := apply runs_bind; eapply (runs_frees _ rs); [eassumption|simpl; solve_Permutation|]; let h := fresh "h" in let Ho := fresh "Ho" in intros h Ho.
Local Ltac h_frees := h_keep (@nil ptr).
Local Ltac h_drop H := apply null_None in H; subst; rewrite owns_null in *.
Local Ltac h_fail rs Hk := h_keep rs; apply runs_ret; split; [done|by apply Hk].
Local Ltac h_site p H b rs Hk := h_alloc p H; rewrite H; destruct b; cbn [negb andb]; [|h_drop H; h_fail rs Hk].
Local Ltac h_run H := apply runs_bind; eapply runs_run; [exact H|].

(** ** Contexts *)
Definition ctx_created (mem : nat -> bool) (stateful adaptive : bool) : bool :=
  mem 0%nat && (negb stateful || mem 1%nat) && mem 2%nat && (negb stateful || mem 3%nat) &&
  (negb adaptive || stateful && (mem 4%nat && mem 5%nat && mem 6%nat && mem 7%nat)).

Definition ptrs (p : ctx_ptrs) : list ptr :=
  [p_prev2 p; p_lzp p; p_tables p; p_total p; p_freq p; p_prev p; p_ring p; p_arena p; p_ctx p].

Lemma ctx_create_runs mem dict cfg L h :
  owns [] L h ->
  let stateful := has (cfg_flags (default NETC_CFG_DEFAULT cfg)) NETC_CFG_FLAG_STATEFUL in
  let adaptive := has (cfg_flags (default NETC_CFG_DEFAULT cfg)) NETC_CFG_FLAG_ADAPTIVE in
  runs (ctx_create_mem mem dict cfg) h (fun r h' =>
    match r with
    | None => ctx_created mem stateful adaptive = false /\ owns [] L h'
    | Some p => ctx_created mem stateful adaptive = true /\ owns (ptrs p) L h' /\
        (is_Some (p_ctx p) /\ is_Some (p_arena p)) /\
        (is_Some (p_ring p) <-> stateful = true) /\ (is_Some (p_prev p) <-> stateful = true) /\
        (is_Some (p_prev2 p) <-> adaptive = true) /\ (is_Some (p_freq p) <-> adaptive = true) /\
        (is_Some (p_total p) <-> adaptive = true) /\ (is_Some (p_tables p) <-> adaptive = true) /\
        (is_Some (p_lzp p) <-> adaptive = true /\ is_Some (dict ≫= d_lzp_table) /\ mem 8%nat = true)
    end).
Proof.
  intros Ho. cbv zeta. unfold ctx_create_mem, ctx_created. set (stateful := has _ NETC_CFG_FLAG_STATEFUL).
  set (adaptive := has _ NETC_CFG_FLAG_ADAPTIVE). clearbody stateful adaptive.
  h_alloc ctx H0. rewrite H0. destruct (mem 0%nat); [cbn [negb andb]|h_drop H0; by apply runs_ret].
  h_alloc ring H1. destruct (stateful && null ring) eqn:E1.
  { apply andb_true_iff in E1 as [-> E1]. h_drop E1. h_frees. apply runs_ret. split; [|done]. by destruct (mem 1%nat). }
  h_alloc arena H2. rewrite H2. destruct (mem 2%nat); [cbn [negb andb]|].
  2: { h_drop H2. h_frees. apply runs_ret. split; [by rewrite !andb_false_r|done]. }
  h_alloc prev H3. destruct (stateful && null prev) eqn:E3.
  { apply andb_true_iff in E3 as [-> E3]. h_drop E3. h_frees. apply runs_ret. split; [|done]. destruct (mem 3%nat); [done|]. by rewrite !andb_false_r. }
  rewrite H1 in E1. rewrite H3 in E3.
  assert ((negb stateful || mem 1%nat) && true && (negb stateful || mem 3%nat) = true) as Hc by (by destruct stateful, (mem 1%nat), (mem 3%nat)).
  rewrite Hc. cbn [andb]. destruct adaptive; cbn [negb orb andb].
  2: { apply runs_ret. split; [done|]. split; [|cbn [p_prev2 p_lzp p_tables p_total p_freq p_prev p_ring p_arena p_ctx];
      refine (conj (conj _ _) (conj _ (conj _ (conj _ (conj _ (conj _ (conj _ _))))))); try (by apply (null_Some _ true)); try (by apply null_Some)].
    - unfold ptrs. cbn [p_prev2 p_lzp p_tables p_total p_freq p_prev p_ring p_arena p_ctx]. rewrite !owns_null.
      eapply owns_eq; [eassumption|solve_Permutation].
    - rewrite (null_Some _ _ H1). by destruct stateful, (mem 1%nat).
    - rewrite (null_Some _ _ H3). by destruct stateful, (mem 3%nat).
    - split; [by intros []|]. by intros [? _]. }
  destruct stateful; cbn [negb andb]; [|h_frees; apply runs_ret; done].
  h_alloc freq H4. h_alloc ttl H5. h_alloc tbls H6. h_alloc prev2 H7. rewrite H4, H5, H6, H7, <- !negb_andb.
  destruct (mem 4%nat && mem 5%nat && mem 6%nat && mem 7%nat) eqn:E4; cbn [negb].
  2: { h_frees. apply runs_ret. done. }
  h_alloc lzp H8. apply runs_ret. apply andb_true_iff in E4 as [[[E4 E5]%andb_true_iff E6]%andb_true_iff E7].
  rewrite E4, E5, E6, E7 in *. split; [done|]. split; [|cbn [p_prev2 p_lzp p_tables p_total p_freq p_prev p_ring p_arena p_ctx];
    refine (conj (conj _ _) (conj _ (conj _ (conj _ (conj _ (conj _ (conj _ _))))))); try (by apply (null_Some _ true)); try (by apply null_Some)].
  - eapply owns_eq; [eassumption|solve_Permutation].
  - rewrite (null_Some _ _ H1). by destruct (mem 1%nat).
  - rewrite (null_Some _ _ H3). by destruct (mem 3%nat).
  - rewrite (null_Some _ _ H8). destruct dict as [d|]; simpl; [|split; [done|by intros (_ & [] & _)]].
    destruct (d_lzp_table d); simpl; split; try done; [|by intros (_ & [] & _)]. by intros (_ & _ & ?).
Qed.

(** The functional model creates a context in the same cases. *)
Lemma create_shape cpu mem dict cfg :
  let stateful := has (cfg_flags (default NETC_CFG_DEFAULT cfg)) NETC_CFG_FLAG_STATEFUL in
  let adaptive := has (cfg_flags (default NETC_CFG_DEFAULT cfg)) NETC_CFG_FLAG_ADAPTIVE in
  match netc_ctx_create cpu mem dict cfg with
  | None => ctx_created mem stateful adaptive = false
  | Some c => ctx_created mem stateful adaptive = true /\
      (is_Some (c_ring c) <-> stateful = true) /\ (is_Some (c_prev_pkt c) <-> stateful = true) /\
      (is_Some (c_prev2_pkt c) <-> adaptive = true) /\ (is_Some (c_adapt_freq c) <-> adaptive = true) /\
      (is_Some (c_adapt_tables c) <-> adaptive = true) /\
      (is_Some (c_adapt_lzp c) <-> adaptive = true /\ is_Some (dict ≫= d_lzp_table) /\ mem 8%nat = true)
  end.
Proof.
  assert (forall A (b : bool) (x : A), is_Some (if b then Some x else None) <-> b = true) as Hif.
  { intros A b x. destruct b; split; try done; by intros []. }
  cbv zeta. unfold netc_ctx_create, ctx_created. cbv zeta. set (stateful := has _ NETC_CFG_FLAG_STATEFUL).
  set (adaptive := has _ NETC_CFG_FLAG_ADAPTIVE). clearbody stateful adaptive.
  destruct (mem 0%nat); [cbn [negb andb]|done]. destruct (stateful && negb (mem 1%nat)) eqn:E1; [by destruct stateful, (mem 1%nat)|].
  destruct (mem 2%nat); [cbn [negb andb]|by rewrite !andb_false_r].
  destruct (stateful && negb (mem 3%nat)) eqn:E3; [destruct stateful, (mem 3%nat); by rewrite ?andb_false_r|].
  destruct (adaptive && negb stateful) eqn:E4; [destruct adaptive, stateful; by rewrite ?andb_false_r|].
  destruct (adaptive && negb (mem 4%nat && mem 5%nat && mem 6%nat && mem 7%nat)) eqn:E5.
  { destruct adaptive; [|done]. cbn [andb negb orb] in *. apply negb_true_iff in E5. by rewrite E5, !andb_false_r. }
  refine (conj _ (conj (Hif _ _ _) (conj (Hif _ _ _) (conj (Hif _ _ _) (conj (Hif _ _ _) (conj (Hif _ _ _) _)))))).
  - destruct adaptive, stateful, (mem 1%nat), (mem 3%nat); try done; cbn [andb negb orb] in *; by apply negb_false_iff in E5.
  - cbn [c_adapt_lzp]. destruct adaptive; [|split; [by intros []|by intros [? _]]].
    destruct dict as [d|]; [|split; [by intros []|by intros (_ & [] & _)]]. cbn [mbind option_bind].
    destruct (d_lzp_table d); [|split; [by intros []|by intros (_ & [] & _)]].
    rewrite Hif. split; [by intros|]. by intros (_ & _ & ?).
Qed.

(** The pointers of a context are NULL where the record has no buffer. *)
Definition ctx_shape (p : ctx_ptrs) (c : netc_ctx_t) : Prop :=
  (is_Some (p_ctx p) /\ is_Some (p_arena p)) /\
  (is_Some (p_ring p) <-> is_Some (c_ring c)) /\ (is_Some (p_prev p) <-> is_Some (c_prev_pkt c)) /\
  (is_Some (p_prev2 p) <-> is_Some (c_prev2_pkt c)) /\ (is_Some (p_freq p) <-> is_Some (c_adapt_freq c)) /\
  (is_Some (p_total p) <-> is_Some (c_adapt_freq c)) /\ (is_Some (p_tables p) <-> is_Some (c_adapt_tables c)) /\
  (is_Some (p_lzp p) <-> is_Some (c_adapt_lzp c)).

Lemma owns_start h : (forall b, b ∈ live h -> (b < next h)%nat) -> owns [] (live h) h.
Proof. intros Hb. constructor; [done|constructor|by intros b ?%elem_of_nil|]. apply leibniz_equiv. simpl. set_solver. Qed.

(** ** Dictionaries *)

(** The result without the pointers. *)
Definition outcome_of (r : result (netc_dict_t * dict_ptrs)) : result netc_dict_t := '(d, _) ← r; Ok d.

Definition dict_owned (r : result (netc_dict_t * dict_ptrs)) : list ptr :=
  match r with Ok (_, p) => [p_lzp_table p; p_dict p] | _ => [] end.

(** A returned dictionary is not NULL. *)
Definition dict_nonnull (r : result (netc_dict_t * dict_ptrs)) : Prop :=
  match r with Ok (_, p) => is_Some (p_dict p) | _ => True end.

Lemma load_split mem b :
  netc_dict_load mem (Some b) false =
    ('(version, dflags, cksum) ← load_header b;
     if negb (mem 0%nat) then Fail NETC_ERR_NOMEM else
     '(model_id, class_map, class_count, tables, bigram, cur) ← load_tables version b;
     lzp ← (if has dflags NETC_DICT_FLAG_LZP then t ← get_lzp (mem 1%nat) cur; Ok (Some t) else Ok None);
     Ok (Dict NETC_DICT_MAGIC version model_id NETC_CTX_COUNT dflags tables bigram class_map class_count lzp cksum)).
Proof.
  unfold netc_dict_load, load_tables. destruct (load_header b) as [[[v f] ck]| |]; mstep; [|done..]. destruct (mem 0%nat); [cbn [negb]|done].
  destruct (aget b 5) as [id| |]; mstep; [|done..]. destruct (load_class_map v (drop 8 b)) as [[[m c] cur]| |]; mstep; [|done..].
  destruct (get_many get_table _ cur) as [[ts cur1]| |]; mstep; [|done..].
  by destruct (get_many (get_row _) _ cur1) as [[bg cur2]| |]; mstep.
Qed.

Lemma dict_load_runs mem b L h :
  owns [] L h -> netc_dict_load mem (Some b) false <> Undef ->
  runs (dict_load_mem mem b) h (fun r h' =>
    (outcome_of r = netc_dict_load mem (Some b) false /\ dict_nonnull r) /\ owns (dict_owned r) L h').
Proof.
  intros Ho. rewrite load_split. unfold dict_load_mem. destruct (load_header b) as [[[v f] ck]|e|]; mstep; [|intros _; by apply runs_ret|done].
  intros Hd. h_alloc d H0. rewrite H0. destruct (mem 0%nat); cbn [negb] in *; [|h_drop H0; by apply runs_ret].
  destruct (load_tables v b) as [[[[[[id m] c] ts] bg] cur]|e|]; rewrite ?bind_Ok_l, ?bind_Fail_l in Hd |- *; [|h_frees; by apply runs_ret|done].
  destruct (has f NETC_DICT_FLAG_LZP).
  - destruct (get_lzp (mem 1%nat) cur) as [t|e|]; rewrite ?bind_Ok_l, ?bind_Fail_l in Hd |- *; [|h_frees; by apply runs_ret|done].
    h_alloc lzp H1. apply runs_ret. split; [split; [done|by apply (null_Some d true)]|]. done.
  - apply runs_ret. split; [split; [by mstep|by apply (null_Some d true)]|]. by apply owns_null.
Qed.

(** Training: the blocks at the end are those of the dictionary and, once the
    first six allocations have succeeded, the vote counters. *)
Definition leak (mem : nat -> bool) (p : ptr) : list ptr := if forallb mem (seq 0 6) then [p] else [].

Lemma dict_train_runs cpu mem packets id L h :
  packets_ok packets -> 0 < id < 255 -> owns [] L h ->
  runs (dict_train_mem cpu mem packets id) h (fun r h' =>
    (outcome_of r = netc_dict_train cpu mem false false packets id false /\ dict_nonnull r) /\
    exists slot_total, is_Some slot_total /\ owns (leak mem slot_total ++ dict_owned r) L h').
Proof.
  intros Hp Hid Ho. destruct (phases (netc_simd_ops_init cpu NETC_SIMD_LEVEL_AUTO) packets Hp)
    as (t & m & bt & ts & bg & votes & st & tc & hc & t' & bt' & ts' & bg' & Hph).
  destruct (dict_train_eq cpu mem packets id _ _ _ _ _ _ _ _ _ _ _ _ _ Hph Hid) as (body & Hb & ->).
  destruct Hph as [Et Em Ebt Ets Ebg Ev Ec Er Ets' Ebg' _]. unfold dict_train_mem, leak. cbn [seq forallb].
  assert (forall h1, owns [] L h1 -> exists p : ptr, is_Some p /\ owns ([] ++ []) L h1) as Hnone by (intros; by exists (Some 0%nat)).
  assert (@attempt netc_result_t _ (build_tables t) = Ok (Some ts)) as Ats by (by rewrite Ets).
  assert (@attempt netc_result_t _ (build_bigram_tables bt) = Ok (Some bg)) as Abg by (by rewrite Ebg).
  h_alloc d H0. rewrite H0. destruct (mem 0%nat); cbn [negb andb]; [|h_drop H0; apply runs_ret; split; [done|by apply Hnone]].
  h_run Et.
  h_site cc H1 (mem 1%nat) (@nil ptr) Hnone. h_run Em. h_keep [d].
  h_site bgr H2 (mem 2%nat) (@nil ptr) Hnone. h_run Ebt. h_run Ats. h_run Abg. h_keep [d].
  h_alloc vs H3. h_alloc slot H4. rewrite H3, H4, <- negb_andb.
  destruct (mem 3%nat), (mem 4%nat); cbn [negb andb]; [|h_fail (@nil ptr) Hnone..].
  h_run Ev. h_site tcp H5 (mem 5%nat) (@nil ptr) Hnone.
  assert (is_Some slot) as Hslot by (by apply (null_Some slot true)).
  assert (forall h1, owns [slot] L h1 -> exists p : ptr, is_Some p /\ owns ([p] ++ []) L h1) as Hleak by (intros; by exists slot).
  h_run Ec. h_site lz H6 (mem 6%nat) [slot] Hleak. h_keep [slot; lz; d].
  h_site bg2 H7 (mem 7%nat) [slot] Hleak. h_site filt H8 (mem 8%nat) [slot] Hleak.
  h_run Er. h_keep [slot; bg2; lz; d]. h_run Ets'. h_run Ebg'. h_keep [slot; lz; d].
  h_site tmp H9 (mem 9%nat) [slot] Hleak. h_run Hb. h_keep [slot; lz; d]. apply runs_ret. split; [split; [done|by apply (null_Some d true)]|]. by exists slot.
Qed.

(** ** Properties *)


(** C32: memory of a loaded dictionary.  On every blob [netc_dict_load] returns
    what its functional model returns, frees no block twice and leaves no
    block behind when it fails; [netc_dict_free] releases what a successful
    call allocated. *)
Theorem dict_load_memory_safe (mem : nat -> bool) (b : list Z) (h : heap) :
  bytes b -> (forall x, x ∈ live h -> (x < next h)%nat) ->
  exists r h1, dict_load_mem mem b h = Ok (r, h1) /\ outcome_of r = netc_dict_load mem (Some b) false /\
    match r with
    | Ok (_, p) => exists h2, netc_dict_free (Some p) h1 = Ok (tt, h2) /\ live h2 = live h
    | _ => live h1 = live h
    end.
Proof.
  intros Hb Hh. destruct (dict_load_runs mem b _ h (owns_start h Hh)) as (r & h1 & Hr & [He _] & Ho).
  - destruct (load_total mem b Hb) as [[e ->]|(d & -> & _)]; done.
  - exists r, h1. split; [done|]. split; [done|]. destruct r as [[d p]|e|]; [|by apply owns_nil..].
    destruct (frees_owns (dict_owned (Ok (d, p))) [] (live h) h1) as (h2 & Hf & Ho2); [by rewrite app_nil_r|].
    exists h2. split; [exact Hf|by apply owns_nil].
Qed.

(** Memory of a trained dictionary.  Training returns what its functional
    model returns and frees no block twice, but it never frees the vote
    counters of pass 1: once the first six allocations have succeeded, one
    block that was not live before stays allocated, on success (after
    [netc_dict_free]) and on every later failure; before that nothing is lost. *)
Theorem dict_train_leaks (cpu : simd_caps) (mem : nat -> bool) (packets : list (option (list Z))) (id : Z) (h : heap) :
  packets_ok packets -> 0 < id < 255 -> (forall x, x ∈ live h -> (x < next h)%nat) ->
  exists r h1 h2 b, dict_train_mem cpu mem packets id h = Ok (r, h1) /\
    outcome_of r = netc_dict_train cpu mem false false packets id false /\
    match r with Ok (_, p) => netc_dict_free (Some p) h1 = Ok (tt, h2) | _ => h2 = h1 end /\
    b ∉ live h /\ live h2 = if forallb mem (seq 0 6) then {[b]} ∪ live h else live h.
Proof.
  intros Hp Hid Hh. destruct (dict_train_runs cpu mem packets id _ h Hp Hid (owns_start h Hh)) as (r & h1 & Hr & [He _] & slot & [b ->] & Ho).
  assert (exists h2, match r with Ok (_, p) => netc_dict_free (Some p) h1 = Ok (tt, h2) | _ => h2 = h1 end /\ owns (leak mem (Some b)) (live h) h2)
    as (h2 & Hf & Ho2).
  { rewrite Permutation_app_comm in Ho. destruct (frees_owns _ _ _ _ Ho) as (h2 & Hf & Ho2). destruct r as [[d p]|e|]; [by exists h2|by exists h1..]. }
  unfold leak in Ho2. destruct (forallb mem (seq 0 6)).
  - exists r, h1, h2, b. split_and!; try done; [apply (own_apart _ _ _ Ho2); by left|].
    rewrite (own_live _ _ _ Ho2). apply leibniz_equiv. simpl. set_solver.
  - exists r, h1, h2, (next h). split_and!; try done; [intros Hin; apply Hh in Hin; lia|by apply owns_nil].
Qed.

Definition fresh_heap : heap := HeapState ∅ 0.


Lemma dict_load_memory_safe_witness :
  exists r h1, dict_load_mem (fun _ => true) [1; 2; 3] fresh_heap = Ok (r, h1) /\
    outcome_of r = netc_dict_load (fun _ => true) (Some [1; 2; 3]) false.
Proof.
  destruct (dict_load_memory_safe (fun _ => true) [1; 2; 3] fresh_heap) as (r & h1 & Hr & He & _).
  - repeat constructor; unfold is_byte; lia.
  - intros b Hb. exfalso. by apply elem_of_empty in Hb.
  - exists r, h1. exact (conj Hr He).
Defined.

Lemma dict_train_leaks_witness :
  exists r h1 h2 b,
    dict_train_mem (SimdCaps false false false false false false false false) (fun _ => true) [Some [1; 2; 3]] 7 fresh_heap = Ok (r, h1) /\
    match r with Ok (_, p) => netc_dict_free (Some p) h1 = Ok (tt, h2) | _ => h2 = h1 end /\ live h2 = {[b]} ∪ ∅.
Proof.
  destruct (dict_train_leaks (SimdCaps false false false false false false false false) (fun _ => true) [Some [1; 2; 3]] 7 fresh_heap)
    as (r & h1 & h2 & b & Hr & _ & Hf & _ & Hl).
  - apply packets_ok_check. reflexivity.
  - split; reflexivity.
  - intros b Hb. exfalso. by apply elem_of_empty in Hb.
  - exists r, h1, h2, b. exact (conj Hr (conj Hf Hl)).
Defined.
