(* ===== verification/Decompress.v ===== *)
(** * Decompression (src/src/core/netc_decompress.c)

    [dst] is the caller's output buffer with the bytes it holds on entry; a
    successful call returns its first [original_size] bytes after decoding (a
    multi-region packet may leave bytes of it untouched).  The payload is the
    [compressed_size] bytes after the header; it is cut out of the packet by a
    checked read ([peek]), so that a header that announces more than the packet
    holds would show as [Undef]. *)

From stdpp Require Import prelude.
From Stdlib Require Import ZArith Lia.
From S2P Require Import Prelude TansTable Bitstream TansCodec Lzp Freq Delta Crc32 Simd Header Lz Ctx.

Local Open Scope Z_scope.

(** Code that cannot return an error: only undefined behaviour is passed on. *)
Definition lift {A} (m : outcome unit A) : result A := or_fail NETC_ERR_CORRUPT m.

(** ** Delta post-pass *)
Definition decomp_delta_postpass (ctx : netc_ctx_t) (flags : Z) (dst : list Z) : result (list Z) :=
  if negb (has flags NETC_PKT_FLAG_DELTA) then Ok dst else
  match c_prev_pkt ctx with
  | None => Ok dst
  | Some prev =>
      if negb (c_prev_pkt_size ctx =? zlen dst) then Ok dst else
      match c_prev2_pkt ctx with
      | Some prev2 =>
          if has flags NETC_PKT_FLAG_RLE && (c_prev2_pkt_size ctx =? zlen dst)
          then lift (netc_delta_decode_order2 prev2 prev dst)
          else lift (delta_decode (c_simd_ops ctx) prev dst)
      | None => lift (delta_decode (c_simd_ops ctx) prev dst)
      end
  end.

(** ** Header validation *)
Definition validate_header (src : list Z) (dst_cap : Z) (compact : bool)
  : result (netc_pkt_header_t * Z) :=
  let src_size := zlen src in
  '(hdr, hdr_sz) ←
    (if compact then
       r ← netc_hdr_read_compact src src_size;
       match r with
       | None => Fail NETC_ERR_CORRUPT
       | Some (n, (osz, fl, al)) => Ok (PktHeader osz (u16 (src_size - n)) fl al 0 0, n)
       end
     else
       if src_size <? NETC_HEADER_SIZE then Fail NETC_ERR_CORRUPT else
       h ← netc_hdr_read src;
       Ok (h, NETC_HEADER_SIZE));
  if NETC_MAX_PACKET_SIZE <? original_size hdr then Fail NETC_ERR_CORRUPT else
  if dst_cap <? original_size hdr then Fail NETC_ERR_BUF_SMALL else
  if negb compact && (src_size <? hdr_sz + compressed_size hdr) then Fail NETC_ERR_CORRUPT else
  Ok (hdr, hdr_sz).

(** ** tANS payloads *)
Definition bucket_starts : list Z :=
  [0; 8; 16; 24; 32; 48; 64; 96; 128; 192; 256; 384; 512; 1024; 4096; 16384].

Definition decomp_bucket_start (b : Z) : Z :=
  if b <? NETC_CTX_COUNT then default 65536 (bucket_starts !! Z.to_nat b) else 65536.

Definition decomp_select_tbl (dict : netc_dict_t) (tables : list netc_tans_table_t)
    (bucket prev_byte pkt_flags : Z) : outcome unit netc_tans_table_t :=
  if has pkt_flags NETC_PKT_FLAG_BIGRAM then
    bclass ← netc_bigram_class prev_byte (Some (d_bigram_class_map dict));
    row ← aget (d_bigram_tables dict) bucket;
    tbl ← aget row bclass;
    if t_valid tbl then Ok tbl else aget tables bucket
  else aget tables bucket.

(** The positions of the packet that region [r] codes. *)
Definition region_span (orig r : Z) : Z * Z :=
  let bucket := netc_ctx_bucket 0 + r in
  let rstart := decomp_bucket_start bucket in
  let rend_bound := decomp_bucket_start (bucket + 1) in
  (if rstart <? orig then rstart else orig, if rend_bound <? orig then rend_bound else orig).

(** Multi-region packets.  State: output buffer, offset in the bitstreams, last
    byte of the previous region. *)
Definition decode_region (dict : netc_dict_t) (tables : list netc_tans_table_t) (flags orig : Z)
    (payload bits_base : list Z) (st : list Z * Z * Z) (r : Z) : result (list Z * Z * Z) :=
  let '(dst, bits_offset, region_prev_byte) := st in
  state ← netc_read_u32_le payload (1 + r * 8);
  bs_bytes ← netc_read_u32_le payload (1 + r * 8 + 4);
  if (state =? 0) && (bs_bytes =? 0) then Ok st else
  let bucket := netc_ctx_bucket 0 + r in
  let '(region_start, region_end) := region_span orig r in
  let region_len := region_end - region_start in
  if region_len =? 0 then Ok st else
  if (state <? NETC_TANS_TABLE_SIZE) || (2 * NETC_TANS_TABLE_SIZE <=? state) then Fail NETC_ERR_CORRUPT else
  if zlen bits_base <? bits_offset + bs_bytes then Fail NETC_ERR_CORRUPT else
  tbl ← lift (decomp_select_tbl dict tables bucket region_prev_byte flags);
  if negb (t_valid tbl) then Fail NETC_ERR_DICT_INVALID else
  bits ← peek bits_base bits_offset bs_bytes;
  bsr ← lift (netc_bsr_init bits);
  out ← or_fail NETC_ERR_CORRUPT (netc_tans_decode tbl bsr (Z.to_nat region_len) state);
  dst' ← blit dst region_start out;
  last ← aget dst' (region_end - 1);
  Ok (dst', bits_offset + bs_bytes, last).

Definition decode_mreg (dict : netc_dict_t) (tables : list netc_tans_table_t) (hdr : netc_pkt_header_t)
    (payload dst : list Z) : result (list Z) :=
  let payload_size := zlen payload in
  if payload_size <? 1 then Fail NETC_ERR_CORRUPT else
  n_regions ← aget payload 0;
  if (n_regions =? 0) || (NETC_CTX_COUNT <? n_regions) then Fail NETC_ERR_CORRUPT else
  let hdr_bytes := 1 + n_regions * 8 in
  if payload_size <? hdr_bytes then Fail NETC_ERR_CORRUPT else
  let bits_base := drop (Z.to_nat hdr_bytes) payload in
  '(dst', _, _) ← foldM (decode_region dict tables (hdr_flags hdr) (original_size hdr) payload bits_base)
                        (dst, 0, 0) (seqZ 0 n_regions);
  Ok (take (Z.to_nat (original_size hdr)) dst').

(** The ANS state takes 2 bytes in compact mode, 4 otherwise. *)
Definition read_state (payload : list Z) (off : Z) (compact : bool) : result Z :=
  if compact then netc_read_u16_le payload off else netc_read_u32_le payload off.

(** Single-region packets: one state, or two when X2 is set. *)
Definition decode_with_table (tbl : netc_tans_table_t) (flags : Z) (orig : nat) (payload : list Z)
    (compact : bool) : result (list Z) :=
  let payload_size := zlen payload in
  let state1_sz := if compact then 2 else 4 in
  let state2_sz := if compact then 4 else 8 in
  if has flags NETC_PKT_FLAG_X2 then
    if payload_size <? state2_sz then Fail NETC_ERR_CORRUPT else
    state0 ← read_state payload 0 compact;
    state1 ← read_state payload state1_sz compact;
    bsr ← lift (netc_bsr_init (drop (Z.to_nat state2_sz) payload));
    or_fail NETC_ERR_CORRUPT (netc_tans_decode_x2 tbl bsr orig state0 state1)
  else
    if payload_size <? state1_sz then Fail NETC_ERR_CORRUPT else
    initial_state ← read_state payload 0 compact;
    if (initial_state <? NETC_TANS_TABLE_SIZE) || (2 * NETC_TANS_TABLE_SIZE <=? initial_state)
    then Fail NETC_ERR_CORRUPT else
    bsr ← lift (netc_bsr_init (drop (Z.to_nat state1_sz) payload));
    or_fail NETC_ERR_CORRUPT (netc_tans_decode tbl bsr orig initial_state).

Definition decode_single (dict : netc_dict_t) (tables : list netc_tans_table_t) (hdr : netc_pkt_header_t)
    (payload : list Z) (compact : bool) : result (list Z) :=
  let bucket := Z.shiftr (algorithm hdr) 4 in
  let bucket := if NETC_CTX_COUNT <=? bucket then 0 else bucket in
  tbl ← lift (decomp_select_tbl dict tables bucket 0x00 (hdr_flags hdr));
  if negb (t_valid tbl) then Fail NETC_ERR_DICT_INVALID else
  decode_with_table tbl (hdr_flags hdr) (Z.to_nat (original_size hdr)) payload compact.

Definition decode_tans (dict : option netc_dict_t) (tables : list netc_tans_table_t)
    (hdr : netc_pkt_header_t) (payload dst : list Z) (compact : bool) : result (list Z) :=
  match dict with
  | None => Fail NETC_ERR_DICT_INVALID
  | Some dict =>
      if has (hdr_flags hdr) NETC_PKT_FLAG_MREG then decode_mreg dict tables hdr payload dst
      else decode_single dict tables hdr payload compact
  end.

(** PCTX payloads. *)
Definition decode_pctx (dict : netc_dict_t) (tables : list netc_tans_table_t) (hdr : netc_pkt_header_t)
    (payload : list Z) (compact : bool) : result (list Z) :=
  let state_sz := if compact then 2 else 4 in
  if zlen payload <? state_sz then Fail NETC_ERR_CORRUPT else
  initial_state ← read_state payload 0 compact;
  if (initial_state <? NETC_TANS_TABLE_SIZE) || (2 * NETC_TANS_TABLE_SIZE <=? initial_state)
  then Fail NETC_ERR_CORRUPT else
  bsr ← lift (netc_bsr_init (drop (Z.to_nat state_sz) payload));
  row0 ← aget (d_bigram_tables dict) 0;
  b00 ← aget row0 0;
  let orig := Z.to_nat (original_size hdr) in
  or_fail NETC_ERR_CORRUPT
    (if has (hdr_flags hdr) NETC_PKT_FLAG_BIGRAM && t_valid b00
     then netc_tans_decode_pctx_bigram (d_bigram_tables dict) tables (Some (d_bigram_class_map dict))
            bsr orig initial_state
     else netc_tans_decode_pctx tables bsr orig initial_state).

(** 10-bit payloads: the table is rescaled and rebuilt on the fly. *)
Definition decode_tans10 (tables : list netc_tans_table_t) (hdr : netc_pkt_header_t) (payload : list Z)
  : result (list Z) :=
  let bucket := Z.shiftr (algorithm hdr) 4 in
  let bucket := if NETC_CTX_COUNT <=? bucket then 0 else bucket in
  tbl12 ← aget tables bucket;
  if negb (t_valid tbl12) then Fail NETC_ERR_DICT_INVALID else
  if zlen payload <? 2 then Fail NETC_ERR_CORRUPT else
  initial_state ← netc_read_u16_le payload 0;
  if (initial_state <? NETC_TANS_TABLE_SIZE_10) || (2 * NETC_TANS_TABLE_SIZE_10 <=? initial_state)
  then Fail NETC_ERR_CORRUPT else
  freq10 ← or_fail NETC_ERR_DICT_INVALID (netc_freq_rescale_12_to_10 (t_freq tbl12));
  tbl10 ← or_fail NETC_ERR_DICT_INVALID (netc_tans_build_10 freq10);
  bsr ← lift (netc_bsr_init (drop 2 payload));
  or_fail NETC_ERR_CORRUPT (netc_tans_decode_10 tbl10 bsr (Z.to_nat (original_size hdr)) initial_state).

(** Raw, LZ77 and RLE payloads. *)
Definition decode_passthru (hdr : netc_pkt_header_t) (payload : list Z) : result (list Z) :=
  if has (hdr_flags hdr) NETC_PKT_FLAG_LZ77 then lz77_decode payload (original_size hdr)
  else if has (hdr_flags hdr) NETC_PKT_FLAG_RLE then rle_decode payload (original_size hdr)
  else if negb (compressed_size hdr =? original_size hdr) then Fail NETC_ERR_CORRUPT
  else peek payload 0 (original_size hdr).

(** ** The common tail: history, statistics, sequence number, learning *)
Definition stats_decompressed (ctx : netc_ctx_t) (src_size dst_size passthru : Z) : netc_ctx_t :=
  if has (c_flags ctx) NETC_CFG_FLAG_STATS then
    let '(Stats pc pd bi bo pt) := c_stats ctx in
    set_stats ctx (Stats pc (u64 (pd + 1)) (u64 (bi + src_size)) (u64 (bo + dst_size)) (u64 (pt + passthru)))
  else ctx.

(** The two learning steps every successful call ends with. *)
Definition ctx_learn (ctx : netc_ctx_t) (data : list Z) : result netc_ctx_t :=
  ctx ← lift (netc_adaptive_update ctx data);
  lzp ← lift (netc_lzp_adaptive_update (c_adapt_lzp ctx) data);
  Ok (set_adapt_lzp ctx lzp).

Definition decomp_finish (ctx : netc_ctx_t) (hdr : netc_pkt_header_t) (dst : list Z) (src_size passthru : Z)
  : result (netc_ctx_t * list Z) :=
  ctx ← decomp_update_prev ctx dst;
  ctx ← decomp_ring_append ctx dst;
  let ctx := stats_decompressed ctx src_size (zlen dst) passthru in
  let ctx := set_seq ctx (u8 (context_seq hdr + 1)) in
  ctx ← ctx_learn ctx dst;
  Ok (ctx, dst).

(** ** The algorithm cases of [netc_decompress] *)
Definition decompress_passthru (ctx : netc_ctx_t) (hdr : netc_pkt_header_t) (payload : list Z) (src_size : Z)
  : result (netc_ctx_t * list Z) :=
  dst ← decode_passthru hdr payload;
  dst ← (if has (hdr_flags hdr) NETC_PKT_FLAG_LZ77
         then decomp_delta_postpass ctx (hdr_flags hdr) dst else Ok dst);
  decomp_finish ctx hdr dst src_size 1.

Definition decompress_tans (ctx : netc_ctx_t) (tables : list netc_tans_table_t) (hdr : netc_pkt_header_t)
    (payload dst : list Z) (src_size : Z) (compact : bool) : result (netc_ctx_t * list Z) :=
  dst ← decode_tans (c_dict ctx) tables hdr payload dst compact;
  dst ← decomp_delta_postpass ctx (hdr_flags hdr) dst;
  decomp_finish ctx hdr dst src_size 0.

(** [if ((algorithm & 0xF0) != 0 && lzp_table != NULL) netc_lzp_xor_unfilter(...)] *)
Definition unfilter_if_lzp (alg : Z) (lzp_table : option (list netc_lzp_entry_t)) (dst : list Z)
  : result (list Z) :=
  match lzp_table with
  | Some t => if negb (Z.land alg 0xF0 =? 0) then lift (netc_lzp_xor_unfilter t dst) else Ok dst
  | None => Ok dst
  end.

Definition decompress_pctx (ctx : netc_ctx_t) (tables : list netc_tans_table_t)
    (lzp_table : option (list netc_lzp_entry_t)) (hdr : netc_pkt_header_t) (payload : list Z)
    (src_size : Z) (compact : bool) : result (netc_ctx_t * list Z) :=
  match c_dict ctx with
  | None => Fail NETC_ERR_DICT_INVALID
  | Some dict =>
      dst ← decode_pctx dict tables hdr payload compact;
      dst ← unfilter_if_lzp (algorithm hdr) lzp_table dst;
      dst ← decomp_delta_postpass ctx (hdr_flags hdr) dst;
      decomp_finish ctx hdr dst src_size 0
  end.

Definition decompress_lz77x (ctx : netc_ctx_t) (hdr : netc_pkt_header_t) (payload : list Z) (src_size : Z)
  : result (netc_ctx_t * list Z) :=
  match c_ring ctx with
  | None => Fail NETC_ERR_UNSUPPORTED
  | Some ring =>
      if c_ring_size ctx =? 0 then Fail NETC_ERR_UNSUPPORTED else
      dst ← lz77x_decode payload (original_size hdr) (Some ring) (c_ring_size ctx) (c_ring_pos ctx);
      decomp_finish ctx hdr dst src_size 0
  end.

Definition decompress_lzp (ctx : netc_ctx_t) (tables : list netc_tans_table_t)
    (lzp_table : option (list netc_lzp_entry_t)) (hdr : netc_pkt_header_t) (payload dst : list Z)
    (src_size : Z) (compact : bool) : result (netc_ctx_t * list Z) :=
  match c_dict ctx, lzp_table with
  | Some dict, Some lzp =>
      dst ← decode_tans (Some dict) tables hdr payload dst compact;
      dst ← lift (netc_lzp_xor_unfilter lzp dst);
      dst ← decomp_delta_postpass ctx (hdr_flags hdr) dst;
      decomp_finish ctx hdr dst src_size 0
  | _, _ => Fail NETC_ERR_DICT_INVALID
  end.

Definition decompress_tans10 (ctx : netc_ctx_t) (tables : list netc_tans_table_t) (hdr : netc_pkt_header_t)
    (payload : list Z) (src_size : Z) : result (netc_ctx_t * list Z) :=
  match c_dict ctx with
  | None => Fail NETC_ERR_DICT_INVALID
  | Some _ =>
      dst ← decode_tans10 tables hdr payload;
      dst ← decomp_delta_postpass ctx (hdr_flags hdr) dst;
      decomp_finish ctx hdr dst src_size 0
  end.

(** The bucket bits are masked out of the algorithm byte. *)
Definition normalize_alg (alg : Z) : Z :=
  let alg := if Z.land alg 0x0F =? NETC_ALG_TANS then NETC_ALG_TANS else alg in
  let alg := if Z.land alg 0x0F =? NETC_ALG_LZP then NETC_ALG_LZP else alg in
  let alg := if Z.land alg 0x0F =? NETC_ALG_TANS_PCTX then NETC_ALG_TANS_PCTX else alg in
  if Z.land alg 0x0F =? NETC_ALG_TANS_10 then NETC_ALG_TANS_10 else alg.

(** The [switch] on the algorithm. *)
Definition decompress_dispatch (ctx : netc_ctx_t) (hdr : netc_pkt_header_t) (payload dst : list Z)
    (src_size : Z) (compact_mode : bool) : result (netc_ctx_t * list Z) :=
  let tables := match c_dict ctx with Some d => netc_get_tables ctx d | None => [] end in
  let lzp_table := netc_get_lzp_table ctx in
  let alg_id := normalize_alg (algorithm hdr) in
  if alg_id =? NETC_ALG_PASSTHRU then decompress_passthru ctx hdr payload src_size else
  if alg_id =? NETC_ALG_TANS then decompress_tans ctx tables hdr payload dst src_size compact_mode else
  if alg_id =? NETC_ALG_TANS_PCTX then
    decompress_pctx ctx tables lzp_table hdr payload src_size compact_mode else
  if alg_id =? NETC_ALG_LZ77X then decompress_lz77x ctx hdr payload src_size else
  if alg_id =? NETC_ALG_LZP then
    decompress_lzp ctx tables lzp_table hdr payload dst src_size compact_mode else
  if alg_id =? NETC_ALG_TANS_10 then decompress_tans10 ctx tables hdr payload src_size else
  if alg_id =? NETC_ALG_RANS then Fail NETC_ERR_UNSUPPORTED else
  Fail NETC_ERR_CORRUPT.

(** In compact mode the decoder supplies the model and the sequence number. *)
Definition complete_header (ctx : netc_ctx_t) (compact_mode : bool) (hdr : netc_pkt_header_t)
  : netc_pkt_header_t :=
  if compact_mode then
    PktHeader (original_size hdr) (compressed_size hdr) (hdr_flags hdr) (algorithm hdr)
              (match c_dict ctx with Some d => d_model_id d | None => 0 end) (c_context_seq ctx)
  else hdr.

(** The packet was coded with another dictionary. *)
Definition wrong_model (ctx : netc_ctx_t) (hdr : netc_pkt_header_t) : bool :=
  match c_dict ctx with
  | Some d => negb (has (hdr_flags hdr) NETC_PKT_FLAG_PASSTHRU) &&
              (negb (algorithm hdr =? NETC_ALG_LZ77X) && negb (model_id hdr =? d_model_id d))
  | None => false
  end.

Definition netc_decompress_ctx (ctx : netc_ctx_t) (src dst : list Z) : result (netc_ctx_t * list Z) :=
  let compact_mode := has (c_flags ctx) NETC_CFG_FLAG_COMPACT_HDR in
  '(hdr, pkt_hdr_sz) ← validate_header src (zlen dst) compact_mode;
  let hdr := complete_header ctx compact_mode hdr in
  if wrong_model ctx hdr then Fail NETC_ERR_VERSION else
  payload ← peek src pkt_hdr_sz (compressed_size hdr);
  decompress_dispatch ctx hdr payload dst (zlen src) compact_mode.

(** Argument checks; [None] is a NULL pointer. *)
Definition netc_decompress (ctx : option netc_ctx_t) (src dst : option (list Z)) (dst_size_null : bool)
  : result (netc_ctx_t * list Z) :=
  match ctx with
  | None => Fail NETC_ERR_CTX_NULL
  | Some ctx =>
      match src, dst with
      | Some src, Some dst =>
          if dst_size_null then Fail NETC_ERR_INVALID_ARG else netc_decompress_ctx ctx src dst
      | _, _ => Fail NETC_ERR_INVALID_ARG
      end
  end.

(** ** Stateless decompression *)
Definition stateless_dispatch (dict : netc_dict_t) (hdr : netc_pkt_header_t) (payload dst : list Z)
  : result (list Z) :=
  let alg_id := normalize_alg (algorithm hdr) in
  if alg_id =? NETC_ALG_PASSTHRU then decode_passthru hdr payload else
  if alg_id =? NETC_ALG_TANS then decode_tans (Some dict) (d_tables dict) hdr payload dst false else
  if alg_id =? NETC_ALG_TANS_PCTX then
    out ← decode_pctx dict (d_tables dict) hdr payload false;
    unfilter_if_lzp (algorithm hdr) (d_lzp_table dict) out
  else if alg_id =? NETC_ALG_LZP then
    match d_lzp_table dict with
    | None => Fail NETC_ERR_DICT_INVALID
    | Some lzp =>
        out ← decode_tans (Some dict) (d_tables dict) hdr payload dst false;
        lift (netc_lzp_xor_unfilter lzp out)
    end
  else if alg_id =? NETC_ALG_TANS_10 then decode_tans10 (d_tables dict) hdr payload
  else if alg_id =? NETC_ALG_RANS then Fail NETC_ERR_UNSUPPORTED
  else Fail NETC_ERR_CORRUPT.

Definition netc_decompress_stateless (dict : option netc_dict_t) (src dst : option (list Z))
    (dst_size_null : bool) : result (list Z) :=
  match dict, src, dst with
  | Some dict, Some src, Some dst =>
      if dst_size_null then Fail NETC_ERR_INVALID_ARG else
      '(hdr, pkt_hdr_sz) ← validate_header src (zlen dst) false;
      if negb (has (hdr_flags hdr) NETC_PKT_FLAG_PASSTHRU) && negb (model_id hdr =? d_model_id dict)
      then Fail NETC_ERR_VERSION else
      if has (hdr_flags hdr) NETC_PKT_FLAG_DELTA then Fail NETC_ERR_CORRUPT else
      payload ← peek src pkt_hdr_sz (compressed_size hdr);
      stateless_dispatch dict hdr payload dst
  | _, _, _ => Fail NETC_ERR_INVALID_ARG
  end.
