(* ===== verification/Compress.v ===== *)
(** * Compression (src/src/core/netc_compress.c)

    Buffers are described by their capacity and every write to one is checked
    ([store], [put]): the output buffer of [dst_cap] bytes, of which a successful
    call yields the bytes written, the arena of [c_arena_size] bytes, and the stack
    buffers of the trials, with their sizes.  The payload is written at
    [dst + hdr_sz]: forming that address when [dst_cap < hdr_sz] is undefined.

    [netc_compress] may fail after it changed the context, so its result is
    the new context together with the outcome of the call.

    The arena is scratch memory.  [pf_in_arena] records that [compress_src]
    points into it and [arena_dirty] that it was overwritten since: reading
    [compress_src] then would not give the bytes that were encoded, which the
    model turns into [Undef]. *)

From stdpp Require Import prelude.
From Stdlib Require Import ZArith Lia.
From S2P Require Import Prelude TansTable Bitstream TansCodec Lzp Freq Delta Crc32 Simd Header Lz Ctx Decompress.

Local Open Scope Z_scope.

Definition NETC_INTERNAL_NO_X2 : Z := 2 ^ 31.
Definition NETC_INTERNAL_SKIP_SR : Z := 2 ^ 30.

(** ** tANS payloads *)

Definition select_tans_table (dict : netc_dict_t) (tables : list netc_tans_table_t)
    (bucket prev_byte ctx_flags : Z) : outcome unit netc_tans_table_t :=
  if has ctx_flags NETC_CFG_FLAG_BIGRAM then
    bclass ← netc_bigram_class prev_byte (Some (d_bigram_class_map dict));
    row ← aget (d_bigram_tables dict) bucket;
    tbl ← aget row bclass;
    if t_valid tbl then Ok tbl else aget tables bucket
  else aget tables bucket.

(** The ANS state at the start of a payload: 2 bytes in compact mode, else 4. *)
Definition write_state (compact : bool) (state : Z) : list Z :=
  if compact then netc_write_u16_le (u16 state) else netc_write_u32_le state.

Definition state_size (compact : bool) : Z := if compact then 2 else 4.

(** Payload and the X2 flag. *)
Definition try_tans_single_with_table (tbl : netc_tans_table_t) (src : list Z) (dst_payload_cap : Z)
    (ctx_flags : Z) (compact : bool) : outcome unit (list Z * bool) :=
  if negb (t_valid tbl) then Fail tt else
  let state1_sz := if compact then 2 else 4 in
  let state2_sz := if compact then 4 else 8 in
  x2 ← (if negb (has ctx_flags NETC_CFG_FLAG_BIGRAM) && negb (has ctx_flags NETC_INTERNAL_NO_X2) &&
           (256 <=? zlen src) && (state2_sz <=? dst_payload_cap)
        then attempt ('(state0, state1, bsw) ←
               netc_tans_encode_x2 tbl src (netc_bsw_init (dst_payload_cap - state2_sz));
             bs ← netc_bsw_flush bsw;
             store dst_payload_cap (write_state compact state0 ++ write_state compact state1 ++ bs))
        else Ok None);
  match x2 with
  | Some payload => Ok (payload, true)
  | None =>
      if dst_payload_cap <? state1_sz then Fail tt else
      '(final_state, bsw) ← netc_tans_encode tbl src (netc_bsw_init (dst_payload_cap - state1_sz))
                              NETC_TANS_TABLE_SIZE;
      bs ← netc_bsw_flush bsw;
      payload ← store dst_payload_cap (write_state compact final_state ++ bs);
      Ok (payload, false)
  end.

Definition try_tans_10bit_with_table (tbl : netc_tans_table_t) (src : list Z) (dst_payload_cap : Z)
  : outcome unit (list Z) :=
  if negb (t_valid tbl) then Fail tt else
  if dst_payload_cap <? 2 then Fail tt else
  '(final_state, bsw) ← netc_tans_encode_10 tbl src (netc_bsw_init (dst_payload_cap - 2))
                          NETC_TANS_TABLE_SIZE_10;
  bs ← netc_bsw_flush bsw;
  store dst_payload_cap (netc_write_u16_le (u16 final_state) ++ bs).

(** What [try_tans_compress] reports: payload, [used_mreg] (0 single region,
    2 PCTX, 3 PCTX with bigrams), [used_x2], table index. *)
Record tans_result := TansResult {
  tr_payload : list Z;
  tr_mreg : Z;
  tr_x2 : bool;
  tr_tbl : Z
}.

(** A trial encode into a stack buffer of [size] bytes whose capacity is given as
    [cap]: what it wrote must lie in the buffer. *)
Definition trial {A} (size : Z) (out : A -> list Z) (m : outcome unit A) : outcome unit (option A) :=
  r ← attempt m;
  match r with
  | Some a => _ ← store size (out a); Ok (Some a)
  | None => Ok None
  end.

(** The trial loop over the buckets the packet spans, into [trial_buf[520]]. *)
Definition best_bucket (tables : list netc_tans_table_t) (src : list Z) (ctx_flags : Z) (compact : bool)
    (best : option (Z * Z)) (b : Z) : outcome unit (option (Z * Z)) :=
  tbl ← aget tables b;
  if negb (t_valid tbl) then Ok best else
  r ← trial 520 fst (try_tans_single_with_table tbl src 520 ctx_flags compact);
  Ok match r with
     | None => best
     | Some (payload, _) =>
         match best with
         | Some (best_cp, _) => if zlen payload <? best_cp then Some (zlen payload, b) else best
         | None => Some (zlen payload, b)
         end
     end.

Definition try_tans_single_region (dict : netc_dict_t) (tables : list netc_tans_table_t) (src : list Z)
    (dst_payload_cap ctx_flags : Z) (compact : bool) : outcome unit tans_result :=
  let src_size := zlen src in
  let first_bucket := netc_ctx_bucket 0 in
  let last_bucket := netc_ctx_bucket (if 0 <? src_size then src_size - 1 else 0) in
  if negb (has ctx_flags NETC_CFG_FLAG_BIGRAM) && (src_size <=? 512) && (first_bucket <? last_bucket) then
    best ← foldM (best_bucket tables src ctx_flags compact) None
                 (seqZ first_bucket (last_bucket - first_bucket + 1));
    match best with
    | None => Fail tt
    | Some (_, b) =>
        tbl ← aget tables b;
        '(payload, x2) ← try_tans_single_with_table tbl src dst_payload_cap ctx_flags compact;
        Ok (TansResult payload 0 x2 b)
    end
  else
    tbl ← select_tans_table dict tables first_bucket 0x00 ctx_flags;
    '(payload, x2) ← try_tans_single_with_table tbl src dst_payload_cap ctx_flags compact;
    Ok (TansResult payload 0 x2 first_bucket).

(** The PCTX trial: final state and bitstream. *)
Definition pctx_trial (tables : list netc_tans_table_t) (src : list Z) (cap : Z) : outcome unit (Z * list Z) :=
  '(state, bsw) ← netc_tans_encode_pctx tables src (netc_bsw_init cap) NETC_TANS_TABLE_SIZE;
  bs ← netc_bsw_flush bsw;
  Ok (state, bs).

(** The bigram trial, into [bg_trial[NETC_MAX_PACKET_SIZE + 64]]. *)
Definition bigram_trial (dict : netc_dict_t) (tables : list netc_tans_table_t) (src : list Z) (cap : Z)
  : outcome unit (Z * list Z) :=
  '(state, bsw) ← netc_tans_encode_pctx_bigram (d_bigram_tables dict) tables (Some (d_bigram_class_map dict))
                    src (netc_bsw_init (Z.min cap (NETC_MAX_PACKET_SIZE + 64))) NETC_TANS_TABLE_SIZE;
  bs ← netc_bsw_flush bsw;
  Ok (state, bs).

(** The better of the PCTX trials: state, bitstream, bigram. *)
Definition pctx_choose (dict : netc_dict_t) (tables : list netc_tans_table_t) (src : list Z)
    (cap ctx_flags : Z) : outcome unit (Z * list Z * bool) :=
  '(state, bs) ← pctx_trial tables src cap;
  row0 ← aget (d_bigram_tables dict) 0;
  b00 ← aget row0 0;
  bg ← (if has ctx_flags NETC_CFG_FLAG_BIGRAM && t_valid b00
        then trial (NETC_MAX_PACKET_SIZE + 64) snd (bigram_trial dict tables src cap) else Ok None);
  match bg with
  | Some (bg_state, bg_bs) =>
      if zlen bg_bs <? zlen bs then bs' ← store cap bg_bs; Ok (bg_state, bs', true) else Ok (state, bs, false)
  | None => Ok (state, bs, false)
  end.

Definition all_valid (tables : list netc_tans_table_t) (first last : Z) : outcome unit unit :=
  foldM (fun _ b => tbl ← aget tables b; if t_valid tbl then Ok tt else Fail tt) tt
        (seqZ first (last - first + 1)).

Definition try_tans_compress (dict : netc_dict_t) (tables : list netc_tans_table_t) (src : list Z)
    (dst_payload_cap ctx_flags : Z) (compact : bool) : outcome unit tans_result :=
  let src_size := zlen src in
  if src_size =? 0 then Fail tt else
  let first_bucket := netc_ctx_bucket 0 in
  let last_bucket := netc_ctx_bucket (src_size - 1) in
  let state_sz := state_size compact in
  if last_bucket - first_bucket + 1 =? 1 then
    try_tans_single_region dict tables src dst_payload_cap ctx_flags compact
  else
  _ ← all_valid tables first_bucket last_bucket;
  pctx ← (if state_sz <=? dst_payload_cap
          then attempt (pctx_choose dict tables src (dst_payload_cap - state_sz) ctx_flags) else Ok None);
  match pctx with
  | Some (state, bs, is_bigram) =>
      let pctx_total := state_sz + zlen bs in
      sr ← (if (src_size <=? 512) && negb (has ctx_flags NETC_INTERNAL_SKIP_SR)
            then trial 520 tr_payload (try_tans_single_region dict tables src 520 ctx_flags compact)
            else Ok None);
      let pctx_res := TansResult (write_state compact state ++ bs) (if is_bigram : bool then 3 else 2) false 0 in
      let res := match sr with
        | Some r => if zlen (tr_payload r) <? pctx_total then r else pctx_res
        | None => pctx_res
        end in
      _ ← store dst_payload_cap (tr_payload res);
      Ok res
  | None =>
      if has ctx_flags NETC_INTERNAL_SKIP_SR then Fail tt else
      try_tans_single_region dict tables src dst_payload_cap ctx_flags compact
  end.

(** The 10-bit competition: the winning table rescaled to 1024 entries, the
    payload in [trial10[136]]. *)
Definition try_tans_10 (tables : list netc_tans_table_t) (tbl_idx : Z) (src : list Z)
  : outcome unit (list Z) :=
  tbl12 ← aget tables tbl_idx;
  freq10 ← netc_freq_rescale_12_to_10 (t_freq tbl12);
  tbl10 ← netc_tans_build_10 freq10;
  payload ← try_tans_10bit_with_table tbl10 src 136;
  store 136 payload.

(** ** The common tail of a successful call *)
Definition stats_compressed (ctx : netc_ctx_t) (src_size out_size passthru : Z) : netc_ctx_t :=
  if has (c_flags ctx) NETC_CFG_FLAG_STATS then
    let '(Stats pc pd bi bo pt) := c_stats ctx in
    set_stats ctx (Stats (u64 (pc + 1)) pd (u64 (bi + src_size)) (u64 (bo + out_size)) (u64 (pt + passthru)))
  else ctx.

(** The packet in the output buffer: header, then payload. *)
Definition compress_finish (ctx : netc_ctx_t) (src : list Z) (hdr : netc_pkt_header_t) (payload : list Z)
    (dst_cap : Z) (compact : bool) (passthru : Z) : result (netc_ctx_t * list Z) :=
  packet ← put dst_cap (netc_hdr_emit hdr compact) payload;
  ctx ← ctx_ring_append ctx src;
  ctx ← compress_update_prev ctx src;
  let ctx := stats_compressed ctx (zlen src) (zlen packet) passthru in
  ctx ← ctx_learn ctx src;
  Ok (ctx, packet).

(** [emit_passthrough]: the header is written before the capacity is checked. *)
Definition emit_passthrough (ctx : option netc_ctx_t) (dict : option netc_dict_t) (src : list Z)
    (dst_cap context_seq : Z) (compact : bool) : result (option netc_ctx_t * list Z) :=
  let hdr := PktHeader (u16 (zlen src)) (u16 (zlen src))
               (Z.lor NETC_PKT_FLAG_PASSTHRU NETC_PKT_FLAG_DICT_ID) NETC_ALG_PASSTHRU
               (match dict with Some d => d_model_id d | None => 0 end) context_seq in
  let out := netc_hdr_emit hdr compact in
  out ← store dst_cap out;
  let out_size := zlen out + zlen src in
  if dst_cap <? out_size then Fail NETC_ERR_BUF_SMALL else
  packet ← put dst_cap out src;
  Ok ((fun c => stats_compressed c (zlen src) out_size 1) <$> ctx, packet).

(** ** Pre-filters *)

Definition count_zeros (l : list Z) : Z := zlen (filter (fun b => b = 0) l).

(** [compress_src], whether it lies in the arena, packet flags, [did_delta], [did_lzp]. *)
Record prefilter := Prefilter {
  pf_src : list Z;
  pf_in_arena : bool;
  pf_flags : Z;
  pf_delta : bool;
  pf_lzp : bool
}.

Definition prev_bytes (p : option (list Z)) : outcome unit (list Z) :=
  match p with Some p => Ok p | None => Undef end.

Definition delta_prepass (ctx : netc_ctx_t) (src : list Z) : outcome unit prefilter :=
  let src_size := zlen src in
  if has (c_flags ctx) NETC_CFG_FLAG_DELTA && (c_prev_pkt_size ctx =? src_size) &&
     (NETC_DELTA_MIN_SIZE <=? src_size) && (src_size <=? c_arena_size ctx) then
    prev ← prev_bytes (c_prev_pkt ctx);
    residuals ← delta_encode (c_simd_ops ctx) prev src;
    arena ← store (c_arena_size ctx) residuals;
    let flags := Z.lor NETC_PKT_FLAG_DICT_ID NETC_PKT_FLAG_DELTA in
    match c_prev2_pkt ctx with
    | Some prev2 =>
        if c_prev2_pkt_size ctx =? src_size then
          residuals2 ← netc_delta_encode_order2 prev2 prev src;
          o2_trial ← store NETC_MAX_PACKET_SIZE residuals2;
          if count_zeros arena <? count_zeros o2_trial
          then arena ← store (c_arena_size ctx) o2_trial;
               Ok (Prefilter arena true (Z.lor flags NETC_PKT_FLAG_RLE) true false)
          else Ok (Prefilter arena true flags true false)
        else Ok (Prefilter arena true flags true false)
    | None => Ok (Prefilter arena true flags true false)
    end
  else Ok (Prefilter src false NETC_PKT_FLAG_DICT_ID false false).

Definition lzp_prefilter (ctx : netc_ctx_t) (lzp_table : option (list netc_lzp_entry_t)) (src : list Z)
    (pf : prefilter) : outcome unit prefilter :=
  match c_dict ctx, lzp_table with
  | Some _, Some lzp =>
      if negb (pf_delta pf) && (zlen src <=? c_arena_size ctx) then
        filtered ← netc_lzp_xor_filter lzp src;
        arena ← store (c_arena_size ctx) filtered;
        Ok (Prefilter arena true (pf_flags pf) false true)
      else Ok pf
  | _, _ => Ok pf
  end.

(** ** The competitions *)

(** More than 4 distinct values among the scanned bytes. *)
Fixpoint too_diverse (seen l : list Z) : bool :=
  match l with
  | [] => false
  | b :: l' =>
      if decide (b ∈ seen) then too_diverse seen l'
      else if 4 <=? zlen seen then true else too_diverse (seen ++ [b]) l'
  end.

Definition count_matches (l k : list Z) : Z := zlen (filter (fun p => p.1 = p.2) (zip l k)).

(** The pre-check of the cross-packet LZ77 competition. *)
Definition try_lzx (ctx : netc_ctx_t) (src : list Z) (payload_size : Z) : bool :=
  (zlen src <? payload_size * 2) ||
  (match c_prev_pkt ctx with
   | Some prev => (c_prev_pkt_size ctx =? zlen src) &&
                  (Z.min (zlen src) 32 <=? 2 * count_matches (take 32 src) (take 32 prev))
   | None => false
   end) ||
  negb (too_diverse [] (take 32 src)).

(** Cross-packet LZ77 into the arena: was the arena written, and the winning
    payload if any. *)
Definition lzx_compete (ctx : netc_ctx_t) (src : list Z) (payload_size hdr_sz dst_cap : Z)
  : outcome unit (bool * option (list Z)) :=
  match c_ring ctx with
  | Some ring =>
      if (0 <? c_ring_size ctx) && (0 <? c_prev_pkt_size ctx) && (64 <=? zlen src) &&
         (zlen src <=? c_arena_size ctx) && try_lzx ctx src payload_size then
        r ← trial (c_arena_size ctx) id
              (lz77x_encode src (Some ring) (c_ring_size ctx) (c_ring_pos ctx)
                 (u32 (c_prev_pkt_size ctx)) (c_arena_size ctx));
        Ok (true, match r with
                  | Some out => if (zlen out <? payload_size) && (zlen out <? zlen src) &&
                                   (hdr_sz + zlen out <=? dst_cap) then Some out else None
                  | None => None
                  end)
      else Ok (false, None)
  | None => Ok (false, None)
  end.

(** Delta versus LZP: the payload, its filter state and the coding flags.  The
    trial runs in [lzp_trial_src[512]] and [lzp_trial_dst[520]]; a winner is copied
    to the payload area of [payload_cap] bytes. *)
Definition lzp_compete (ctx : netc_ctx_t) (dict : netc_dict_t) (tables : list netc_tans_table_t)
    (lzp_table : option (list netc_lzp_entry_t)) (src : list Z) (compact : bool)
    (pf : prefilter) (t : tans_result) (tans_ctx_flags payload_cap : Z)
  : outcome unit (prefilter * tans_result * Z) :=
  let keep := (pf, t, tans_ctx_flags) in
  match lzp_table with
  | None => Ok keep
  | Some lzp =>
      if pf_delta pf && (zlen src <=? 512) && negb (has (c_flags ctx) NETC_CFG_FLAG_FAST_COMPRESS) &&
         ((zlen src <=? 256) || (Z.shiftr (zlen src) 1 <=? zlen (tr_payload t))) then
        filtered ← netc_lzp_xor_filter lzp src;
        trial_src ← store 512 filtered;
        let lzp_ctx := Z.lor (Z.lor (Z.ldiff (c_flags ctx) NETC_CFG_FLAG_DELTA)
                                    (if compact then NETC_INTERNAL_NO_X2 else 0)) NETC_INTERNAL_SKIP_SR in
        r ← trial 520 tr_payload (try_tans_compress dict tables trial_src 520 lzp_ctx compact);
        match r with
        | Some t' =>
            if zlen (tr_payload t') <? zlen (tr_payload t) then
              _ ← store payload_cap (tr_payload t');
              Ok (Prefilter (pf_src pf) (pf_in_arena pf)
                    (Z.ldiff (pf_flags pf) (Z.lor NETC_PKT_FLAG_DELTA NETC_PKT_FLAG_RLE)) false true,
                  t', lzp_ctx)
            else Ok keep
        | None => Ok keep
        end
      else Ok keep
  end.

(** Within-packet LZ77 against tANS.  Case A (no delta) encodes the raw bytes
    into the arena, case B the residuals into the payload area, after the tANS
    payload was saved in [tans_save[1024]]. *)
Definition lz77_compete (ctx : netc_ctx_t) (src : list Z) (pf : prefilter) (t : tans_result)
    (hdr_sz dst_cap : Z) : outcome unit (bool * option (list Z)) :=
  let src_size := zlen src in
  let cp := zlen (tr_payload t) in
  let wins r := match r with
    | Some out => if (zlen out <? cp) && (zlen out <? src_size) && (hdr_sz + zlen out <=? dst_cap)
                  then Some out else None
    | None => None
    end in
  let lz77_min := if has (c_flags ctx) NETC_CFG_FLAG_FAST_COMPRESS then 512 else 256 in
  if (lz77_min <=? src_size) && (src_size <? cp * 2) then
    if negb (pf_delta pf) && (src_size <=? c_arena_size ctx) then
      r ← trial (c_arena_size ctx) id (lz77_encode src (c_arena_size ctx));
      Ok (true, wins r)
    else if pf_delta pf && (src_size <=? 1024) && negb (has (pf_flags pf) NETC_PKT_FLAG_RLE) then
      if too_diverse [] (take 32 (pf_src pf)) then Ok (false, None) else
      _ ← store 1024 (tr_payload t);
      r ← attempt (lz77_encode (pf_src pf) (dst_cap - hdr_sz));
      Ok (false, wins r)
    else Ok (false, None)
  else Ok (false, None).

(** [compress_src], unless the arena it points to was overwritten. *)
Definition read_compress_src (pf : prefilter) (arena_dirty : bool) : outcome unit (list Z) :=
  if pf_in_arena pf && arena_dirty then Undef else Ok (pf_src pf).

(** The algorithm byte of a tANS packet. *)
Definition tans_algorithm (used_tans_10 did_lzp : bool) (used_mreg tbl_idx : Z) : Z :=
  let idx := if used_mreg =? 0 then tbl_idx else 0 in
  let pctx := (used_mreg =? 2) || (used_mreg =? 3) in
  if used_tans_10 then u8 (Z.lor NETC_ALG_TANS_10 (Z.shiftl tbl_idx 4)) else
  if did_lzp then
    if pctx then Z.lor NETC_ALG_TANS_PCTX 0x10 else u8 (Z.lor NETC_ALG_LZP (Z.shiftl idx 4))
  else if pctx then NETC_ALG_TANS_PCTX
  else u8 (Z.lor NETC_ALG_TANS (Z.shiftl idx 4)).

Definition extra_flags (used_mreg : Z) (used_x2 : bool) (ctx_flags : Z) : Z :=
  let bigram_active := (used_mreg =? 3) || ((used_mreg <=? 1) && has ctx_flags NETC_CFG_FLAG_BIGRAM) in
  Z.lor (Z.lor (if used_mreg =? 1 then NETC_PKT_FLAG_MREG else 0) (if used_x2 then NETC_PKT_FLAG_X2 else 0))
        (if bigram_active then NETC_PKT_FLAG_BIGRAM else 0).

Definition lz77_header (src : list Z) (lz_len pkt_flags model_id seq : Z) : netc_pkt_header_t :=
  PktHeader (u16 (zlen src)) (u16 lz_len) (Z.lor (Z.lor pkt_flags NETC_PKT_FLAG_LZ77) NETC_PKT_FLAG_PASSTHRU)
            NETC_ALG_PASSTHRU model_id seq.

Definition lz77x_header (src : list Z) (lz_len model_id seq : Z) : netc_pkt_header_t :=
  PktHeader (u16 (zlen src)) (u16 lz_len) NETC_PKT_FLAG_DICT_ID NETC_ALG_LZ77X model_id seq.

(** The 10-bit trial and the header of the winning tANS payload: the end of
    both tANS blocks. *)
Definition finish_tans (ctx : netc_ctx_t) (dict : netc_dict_t) (tables : list netc_tans_table_t)
    (src : list Z) (seq : Z) (compact : bool) (trial_src : outcome unit (list Z))
    (t : tans_result) (did_lzp : bool) (pkt_flags ctx_flags dst_cap : Z) : result (netc_ctx_t * list Z) :=
  ten ← lift (if (zlen src <=? 128) && (tr_mreg t =? 0) && negb did_lzp &&
                 negb (has ctx_flags NETC_CFG_FLAG_BIGRAM) && compact
              then s ← trial_src; attempt (try_tans_10 tables (tr_tbl t) s) else Ok None);
  let '(payload, used_tans_10) := match ten with
    | Some p => if zlen p <? zlen (tr_payload t) then (p, true) else (tr_payload t, false)
    | None => (tr_payload t, false)
    end in
  let used_x2 := negb used_tans_10 && tr_x2 t in
  let hdr := PktHeader (u16 (zlen src)) (u16 (zlen payload))
               (Z.lor pkt_flags (extra_flags (tr_mreg t) used_x2 ctx_flags))
               (tans_algorithm used_tans_10 did_lzp (tr_mreg t) (tr_tbl t)) (d_model_id dict) seq in
  compress_finish ctx src hdr payload dst_cap compact 0.

(** ** The tANS blocks of [netc_compress]; [None]: fall through to the next stage *)

(** tANS on [compress_src]. *)
Definition tans_block (ctx : netc_ctx_t) (dict : netc_dict_t) (tables : list netc_tans_table_t)
    (lzp_table : option (list netc_lzp_entry_t)) (src : list Z) (dst_cap hdr_sz seq : Z) (compact : bool)
    (pf : prefilter) : result (option (netc_ctx_t * list Z)) :=
  if dst_cap <? hdr_sz then Undef else
  let payload_cap := dst_cap - hdr_sz in
  let flags := if pf_lzp pf && compact then Z.lor (c_flags ctx) NETC_INTERNAL_NO_X2 else c_flags ctx in
  let flags := if pf_delta pf || pf_lzp pf || has (c_flags ctx) NETC_CFG_FLAG_FAST_COMPRESS
               then Z.lor flags NETC_INTERNAL_SKIP_SR else flags in
  r ← attempt (try_tans_compress dict tables (pf_src pf) payload_cap flags compact);
  match r with
  | None => Ok None
  | Some t =>
      if negb (zlen (tr_payload t) <? zlen src) then Ok None else
      '(pf, t, flags) ← lift (lzp_compete ctx dict tables lzp_table src compact pf t flags payload_cap);
      '(dirty, lz) ← lift (lz77_compete ctx src pf t hdr_sz dst_cap);
      match lz with
      | Some payload =>
          r ← compress_finish ctx src (lz77_header src (zlen payload) (pf_flags pf) (d_model_id dict) seq)
                payload dst_cap compact 1;
          Ok (Some r)
      | None =>
          '(dirty', lzx) ← lift (lzx_compete ctx src (zlen (tr_payload t)) hdr_sz dst_cap);
          match lzx with
          | Some payload =>
              r ← compress_finish ctx src (lz77x_header src (zlen payload) (d_model_id dict) seq)
                    payload dst_cap compact 0;
              Ok (Some r)
          | None =>
              r ← finish_tans ctx dict tables src seq compact (read_compress_src pf (dirty || dirty'))
                    t (pf_lzp pf) (pf_flags pf) flags dst_cap;
              Ok (Some r)
          end
      end
  end.

(** tANS on the raw bytes when the residuals did not compress. *)
Definition raw_block (ctx : netc_ctx_t) (dict : netc_dict_t) (tables : list netc_tans_table_t)
    (lzp_table : option (list netc_lzp_entry_t)) (src : list Z) (dst_cap hdr_sz seq : Z) (compact : bool)
  : result (option (netc_ctx_t * list Z)) :=
  if dst_cap <? hdr_sz then Undef else
  let flags := Z.ldiff (c_flags ctx) NETC_CFG_FLAG_DELTA in
  '(raw_src, fallback_lzp, flags) ← lift
    (match lzp_table with
     | Some lzp =>
         if zlen src <=? c_arena_size ctx then
           filtered ← netc_lzp_xor_filter lzp src;
           arena ← store (c_arena_size ctx) filtered;
           Ok (arena, true, if compact then Z.lor flags NETC_INTERNAL_NO_X2 else flags)
         else Ok (src, false, flags)
     | None => Ok (src, false, flags)
     end);
  r ← attempt (try_tans_compress dict tables raw_src (dst_cap - hdr_sz) flags compact);
  match r with
  | None => Ok None
  | Some t =>
      if negb (zlen (tr_payload t) <? zlen src) then Ok None else
      '(dirty, lzx) ← lift (lzx_compete ctx src (zlen (tr_payload t)) hdr_sz dst_cap);
      match lzx with
      | Some payload =>
          r ← compress_finish ctx src (lz77x_header src (zlen payload) (d_model_id dict) seq) payload dst_cap compact 0;
          Ok (Some r)
      | None =>
          let raw := if fallback_lzp && dirty : bool then Undef else Ok raw_src in
          r ← finish_tans ctx dict tables src seq compact raw t fallback_lzp NETC_PKT_FLAG_DICT_ID flags dst_cap;
          Ok (Some r)
      end
  end.

(** [if (lz_len != (size_t)-1 && lz_len < src_size)] *)
Definition shorter (src : list Z) (r : option (list Z)) : option (list Z) :=
  match r with Some out => if zlen out <? zlen src then Some out else None | None => None end.

(** LZ77 without tANS: within the packet, else across packets. *)
Definition lz77_block (ctx : netc_ctx_t) (src lz77_src : list Z) (dst_cap hdr_sz seq pkt_flags : Z)
    (compact : bool) : result (option (netc_ctx_t * list Z)) :=
  let model_id := match c_dict ctx with Some d => d_model_id d | None => 0 end in
  if (zlen src =? 0) || (dst_cap <=? hdr_sz) then Ok None else
  let out_cap := dst_cap - hdr_sz in
  lz ← attempt (lz77_encode lz77_src out_cap);
  match shorter src lz with
  | Some payload =>
      r ← compress_finish ctx src (lz77_header src (zlen payload) pkt_flags model_id seq) payload dst_cap compact 1;
      Ok (Some r)
  | None =>
      match c_ring ctx with
      | Some ring =>
          if (64 <=? zlen src) && (0 <? c_ring_size ctx) && (0 <? c_prev_pkt_size ctx) then
            lzx ← attempt (lz77x_encode src (Some ring) (c_ring_size ctx) (c_ring_pos ctx)
                             (u32 (c_prev_pkt_size ctx)) out_cap);
            match shorter src lzx with
            | Some payload =>
                r ← compress_finish ctx src (lz77x_header src (zlen payload) model_id seq) payload dst_cap compact 1;
                Ok (Some r)
            | None => Ok None
            end
          else Ok None
      | None => Ok None
      end
  end.

(** Passthrough: the history is updated before the packet is emitted. *)
Definition passthrough_block (ctx : netc_ctx_t) (src : list Z) (dst_cap seq : Z) (compact : bool)
  : result (netc_ctx_t * result (list Z)) :=
  ctx ← compress_update_prev ctx src;
  ctx ← ctx_ring_append ctx src;
  match emit_passthrough (Some ctx) (c_dict ctx) src dst_cap seq compact with
  | Ok (ctx', packet) =>
      ctx' ← ctx_learn (default ctx ctx') src;
      Ok (ctx', Ok packet)
  | Fail e => Ok (ctx, Fail e)
  | Undef => Undef
  end.

(** ** [netc_compress] *)
Definition compress_hdr_size (src_size : Z) (compact : bool) : Z :=
  if compact then if src_size <=? 127 then NETC_COMPACT_HDR_MIN else NETC_COMPACT_HDR_MAX
  else NETC_HEADER_SIZE.

(** The stages after the argument checks; the context has its sequence number
    already advanced. *)
Definition compress_stages (ctx : netc_ctx_t) (src : list Z) (dst_cap seq : Z)
  : result (netc_ctx_t * result (list Z)) :=
  let src_size := zlen src in
  let tables := match c_dict ctx with Some d => netc_get_tables ctx d | None => [] end in
  let lzp_table := netc_get_lzp_table ctx in
  let compact := has (c_flags ctx) NETC_CFG_FLAG_COMPACT_HDR in
  let hdr_sz := compress_hdr_size src_size compact in
  pf ← lift (delta_prepass ctx src);
  pf ← lift (lzp_prefilter ctx lzp_table src pf);
  r1 ← match c_dict ctx with
       | Some dict => if 0 <? src_size
                      then tans_block ctx dict tables lzp_table src dst_cap hdr_sz seq compact pf
                      else Ok None
       | None => Ok None
       end;
  match r1 with
  | Some (ctx', packet) => Ok (ctx', Ok packet)
  | None =>
      r2 ← match c_dict ctx with
           | Some dict => if pf_delta pf && (0 <? src_size)
                          then raw_block ctx dict tables lzp_table src dst_cap hdr_sz seq compact
                          else Ok None
           | None => Ok None
           end;
      match r2 with
      | Some (ctx', packet) => Ok (ctx', Ok packet)
      | None =>
          let overwritten := match c_dict ctx, lzp_table with
            | Some _, Some _ => pf_delta pf && (src_size <=? c_arena_size ctx)
            | _, _ => false
            end in
          let '(lz77_src, pkt_flags) :=
            if overwritten then (src, Z.ldiff (pf_flags pf) (Z.lor NETC_PKT_FLAG_DELTA NETC_PKT_FLAG_RLE))
            else (if pf_lzp pf then src else pf_src pf, pf_flags pf) in
          r3 ← lz77_block ctx src lz77_src dst_cap hdr_sz seq pkt_flags compact;
          match r3 with
          | Some (ctx', packet) => Ok (ctx', Ok packet)
          | None => passthrough_block ctx src dst_cap seq compact
          end
      end
  end.

Definition netc_compress_ctx (ctx : netc_ctx_t) (src : list Z) (dst_cap : Z)
  : result (netc_ctx_t * result (list Z)) :=
  if NETC_MAX_PACKET_SIZE <? zlen src then Fail NETC_ERR_TOOBIG else
  if dst_cap <? NETC_COMPACT_HDR_MIN then Fail NETC_ERR_BUF_SMALL else
  let seq := c_context_seq ctx in
  compress_stages (set_seq ctx (u8 (seq + 1))) src dst_cap seq.

(** Argument checks; [None] is a NULL pointer ([dst]: its capacity). *)
Definition netc_compress (ctx : option netc_ctx_t) (src : option (list Z)) (dst : option Z)
    (dst_size_null : bool) : result (netc_ctx_t * result (list Z)) :=
  match ctx with
  | None => Fail NETC_ERR_CTX_NULL
  | Some ctx =>
      match src, dst with
      | Some src, Some dst_cap =>
          if dst_size_null then Fail NETC_ERR_INVALID_ARG else netc_compress_ctx ctx src dst_cap
      | _, _ => Fail NETC_ERR_INVALID_ARG
      end
  end.

(** ** [netc_compress_stateless] *)

(** LZ77 into [lz_buf[1024]] against the tANS payload. *)
Definition stateless_lz77 (src : list Z) (cp dst_cap : Z) : outcome unit (option (list Z)) :=
  if (zlen src <? cp * 2) && (zlen src <=? 1024) then
    r ← trial 1024 id (lz77_encode src 1024);
    Ok match r with
       | Some out => if (zlen out <? cp) && (zlen out <? zlen src) && (NETC_HEADER_SIZE + zlen out <=? dst_cap)
                     then Some out else None
       | None => None
       end
  else Ok None.

Definition stateless_packet (hdr : netc_pkt_header_t) (payload : list Z) (dst_cap : Z) : outcome unit (list Z) :=
  put dst_cap (netc_hdr_write hdr) payload.

(** tANS, after the LZP pre-filter into [lzp_filt_buf[1024]] for packets of at most
    1024 bytes. *)
Definition stateless_tans (dict : netc_dict_t) (src : list Z) (dst_cap : Z) : outcome unit (option (list Z)) :=
  '(tans_src, did_lzp) ←
    match d_lzp_table dict with
    | Some lzp => if zlen src <=? 1024
                  then f ← netc_lzp_xor_filter lzp src; buf ← store 1024 f; Ok (buf, true) else Ok (src, false)
    | None => Ok (src, false)
    end;
  r ← attempt (try_tans_compress dict (d_tables dict) tans_src (dst_cap - NETC_HEADER_SIZE) 0 false);
  match r with
  | None => Ok None
  | Some t =>
      let cp := zlen (tr_payload t) in
      if negb (cp <? zlen src) then Ok None else
      lz ← stateless_lz77 src cp dst_cap;
      packet ← match lz with
        | Some payload =>
            stateless_packet (lz77_header src (zlen payload) NETC_PKT_FLAG_DICT_ID (d_model_id dict) 0)
              payload dst_cap
        | None =>
            stateless_packet
              (PktHeader (u16 (zlen src)) (u16 cp)
                 (Z.lor NETC_PKT_FLAG_DICT_ID
                    (Z.lor (if tr_mreg t =? 1 then NETC_PKT_FLAG_MREG else 0)
                           (if tr_x2 t then NETC_PKT_FLAG_X2 else 0)))
                 (let idx := if tr_mreg t =? 0 then tr_tbl t else 0 in
                  if did_lzp : bool then
                    if tr_mreg t =? 2 then Z.lor NETC_ALG_TANS_PCTX 0x10
                    else u8 (Z.lor NETC_ALG_LZP (Z.shiftl idx 4))
                  else if tr_mreg t =? 2 then NETC_ALG_TANS_PCTX
                  else u8 (Z.lor NETC_ALG_TANS (Z.shiftl idx 4)))
                 (d_model_id dict) 0)
              (tr_payload t) dst_cap
        end;
      Ok (Some packet)
  end.

Definition stateless_lz77_only (dict : netc_dict_t) (src : list Z) (dst_cap : Z)
  : outcome unit (option (list Z)) :=
  r ← attempt (lz77_encode src (dst_cap - NETC_HEADER_SIZE));
  match r with
  | Some out =>
      if (zlen out <? zlen src) && (NETC_HEADER_SIZE + zlen out <=? dst_cap)
      then p ← stateless_packet (lz77_header src (zlen out) NETC_PKT_FLAG_DICT_ID (d_model_id dict) 0) out dst_cap;
           Ok (Some p)
      else Ok None
  | None => Ok None
  end.

Definition netc_compress_stateless (dict : option netc_dict_t) (src : option (list Z)) (dst : option Z)
    (dst_size_null : bool) : result (list Z) :=
  match dict, src, dst with
  | Some dict, Some src, Some dst_cap =>
      if dst_size_null then Fail NETC_ERR_INVALID_ARG else
      if NETC_MAX_PACKET_SIZE <? zlen src then Fail NETC_ERR_TOOBIG else
      if dst_cap <? NETC_HEADER_SIZE then Fail NETC_ERR_BUF_SMALL else
      r ← lift (if 0 <? zlen src then
                  t ← stateless_tans dict src dst_cap;
                  match t with
                  | Some p => Ok (Some p)
                  | None => stateless_lz77_only dict src dst_cap
                  end
                else Ok None);
      match r with
      | Some packet => Ok packet
      | None => '(_, packet) ← emit_passthrough None (Some dict) src dst_cap 0 false; Ok packet
      end
  | _, _, _ => Fail NETC_ERR_INVALID_ARG
  end.

(** ** Trials *)

(** A trial that stays in its buffer is the encode itself. *)
Lemma trial_fits {A} size (out : A -> list Z) m :
  (forall a, m = Ok a -> zlen (out a) <= size) -> trial size out m = attempt m.
Proof.
  intros H. unfold trial. destruct m as [a|[]|]; simpl; [|done..]. by rewrite store_ok by (by apply H).
Qed.

Lemma trial_Some {A} size (out : A -> list Z) m a :
  trial size out m = Ok (Some a) -> m = Ok a /\ zlen (out a) <= size.
Proof.
  unfold trial. destruct m as [b|[]|]; simpl; [|done..]. intros (x & [_ Hs]%store_Ok & [= ->])%bind_Ok. done.
Qed.
