(* ===== verification/Payload.v ===== *)
(** * tANS payloads decode to what was encoded

    The encoder side is [try_tans_single_with_table], [try_tans_10bit_with_table],
    [try_tans_single_region] and [try_tans_compress] of netc_compress.c, the
    decoder side the payload readers of netc_decompress.c. *)

From stdpp Require Import prelude.
From Stdlib Require Import ZArith Lia.
From S2P Require Import Prelude TansTable Bitstream TansCodec Lzp Freq Delta Crc32 Simd Header Lz Ctx.
From S2P Require Import Decompress Compress.

Local Open Scope Z_scope.

(** ** The ANS state on the wire *)
Lemma write_state_length compact s : zlen (write_state compact s) = state_size compact.
Proof. by destruct compact. Qed.

Lemma read_write_state compact pre s rest off :
  0 <= s < 65536 -> off = zlen pre ->
  read_state (pre ++ write_state compact s ++ rest) off compact = Ok s.
Proof.
  intros Hs ->. unfold read_state, write_state. destruct compact.
  - rewrite read_u16_at by done. rewrite u16_small by lia. f_equal. apply Z.mod_small. lia.
  - rewrite read_u32_at by done. f_equal. apply Z.mod_small. lia.
Qed.

Lemma read_write_state_front compact s rest :
  0 <= s < 65536 -> read_state (write_state compact s ++ rest) 0 compact = Ok s.
Proof. intros. by apply (read_write_state compact []). Qed.

Lemma drop_state compact s rest n :
  n = state_size compact -> drop (Z.to_nat n) (write_state compact s ++ rest) = rest.
Proof. intros ->. rewrite <- (write_state_length compact s), Nat2Z.id. apply drop_app_length. Qed.

Lemma attempt_Some {E A} (m : outcome unit A) a : @attempt E A m = Ok (Some a) -> m = Ok a.
Proof. destruct m; simpl; congruence. Qed.

Lemma attempt_ok {E A} (m : outcome unit A) a : m = Ok a -> @attempt E A m = Ok (Some a).
Proof. by intros ->. Qed.

Lemma P12_size : @TABLE_SIZE P12 = NETC_TANS_TABLE_SIZE.
Proof. done. Qed.
Lemma P10_size : @TABLE_SIZE P10 = NETC_TANS_TABLE_SIZE_10.
Proof. done. Qed.

Lemma state_ok12 X : state_ok (P := P12) X -> 4096 <= X < 8192.
Proof. unfold state_ok. rewrite P12_size. unfold NETC_TANS_TABLE_SIZE. lia. Qed.
Lemma state_ok10 X : state_ok (P := P10) X -> 1024 <= X < 2048.
Proof. unfold state_ok. rewrite P10_size. unfold NETC_TANS_TABLE_SIZE_10. lia. Qed.

(** ** One table *)

(** Payloads of [try_tans_single_with_table] decode with the same table; two
    states need an even size. *)
Lemma single_with_table_decodes tbl src cap fl compact payload x2 pkt_flags :
  tbl_ok tbl -> bytes src ->
  try_tans_single_with_table tbl src cap fl compact = Ok (payload, x2) ->
  has pkt_flags NETC_PKT_FLAG_X2 = x2 -> (x2 = true -> Z.odd (zlen src) = false) ->
  t_valid tbl = true /\
  (x2 = true -> has fl NETC_CFG_FLAG_BIGRAM = false /\ has fl NETC_INTERNAL_NO_X2 = false /\ 256 <= zlen src) /\
  decode_with_table tbl pkt_flags (length src) payload compact = Ok src.
Proof.
  intros Htok Hb H Hx2 Hodd. unfold try_tans_single_with_table in H.
  destruct (t_valid tbl) eqn:Hv; [|done]. split; [done|]. destruct (Htok Hv) as [freq Hok].
  simpl negb in H. cbv iota in H. apply bind_Ok in H as (r & Hr & H).
  unfold decode_with_table. rewrite Hx2. destruct r as [p|].
  - injection H as -> <-.
    destruct (_ && _) eqn:E in Hr; [|done]. apply andb_prop in E as [E Ecap]. apply andb_prop in E as [E Elen].
    apply andb_prop in E as [Ebi Eno]. apply negb_true_iff in Ebi, Eno. apply Z.leb_le in Elen, Ecap.
    split; [done|]. apply attempt_Some in Hr. apply bind_Ok in Hr as ([[X0 X1] w] & He & Hr).
    apply bind_Ok in Hr as (bs & Hbs & [-> _]%store_Ok).
    assert (0 <= cap - (if compact then 4 else 8)) as Hc by lia.
    destruct (x2_roundtrip_even (P := P12) tbl freq src _ X0 X1 w bs Hok Hb Hc (Hodd eq_refl) He Hbs)
      as (H0%state_ok12 & H1%state_ok12 & rd & Hrd & Hdec).
    pose proof (write_state_length compact X0) as L0. pose proof (write_state_length compact X1) as L1.
    destruct (Z.ltb_spec (zlen (write_state compact X0 ++ write_state compact X1 ++ bs)) (if compact then 4 else 8)) as [Hlt|_].
    { rewrite !length_app in Hlt. destruct compact; simpl in *; lia. }
    rewrite read_write_state_front by lia. mstep.
    rewrite (read_write_state compact (write_state compact X0)); [|lia|rewrite L0; by destruct compact].
    mstep. rewrite app_assoc, drop_app_pre.
    2: { rewrite length_app. destruct compact; simpl in *; lia. }
    unfold lift. rewrite Hrd. simpl or_fail. mstep. unfold netc_tans_decode_x2. by rewrite Hdec.
  - case_if_in H; [done|]. apply bind_Ok in H as ([X w] & He & H). apply bind_Ok in H as (bs & Hbs & H).
    apply bind_Ok in H as (p & [-> _]%store_Ok & [= <- <-]). split; [done|].
    assert (0 <= cap - (if compact then 2 else 4)) as Hc by lia.
    destruct (tans_roundtrip (P := P12) false tbl freq src _ X w bs Hok Hb Hc He Hbs)
      as (HX%state_ok12 & _ & rd & Hrd & Hdec).
    pose proof (write_state_length compact X) as L0.
    destruct (Z.ltb_spec (zlen (write_state compact X ++ bs)) (if compact then 2 else 4)) as [Hlt|_].
    { rewrite !length_app in Hlt. destruct compact; simpl in *; lia. }
    rewrite read_write_state_front by lia. mstep. unfold NETC_TANS_TABLE_SIZE. if_false.
    rewrite drop_state by (by destruct compact).
    unfold lift. rewrite Hrd. simpl or_fail. mstep. unfold netc_tans_decode. by rewrite Hdec.
Qed.

(** 10-bit payloads. *)
Lemma tans_10_decodes tables idx src payload tbl12 hdr :
  tables_ok tables -> bytes src -> 0 <= idx < NETC_CTX_COUNT ->
  @aget unit _ tables idx = Ok tbl12 -> t_valid tbl12 = true ->
  try_tans_10 tables idx src = Ok payload ->
  original_size hdr = zlen src -> Z.shiftr (algorithm hdr) 4 = idx ->
  decode_tans10 tables hdr payload = Ok src.
Proof.
  intros Ht Hb Hidx Hg Hv H Hos Halg. unfold try_tans_10 in H. rewrite Hg, bind_Ok_l in H.
  unfold decode_tans10. rewrite Halg, Hos. destruct (Z.leb_spec NETC_CTX_COUNT idx); [lia|].
  rewrite (aget_Some tables idx tbl12) by (apply aget_Ok in Hg; tauto). mstep. rewrite Hv. simpl negb. cbv iota.
  apply bind_Ok in H as (f10 & Hr & H). apply bind_Ok in H as (tbl10 & Hbld & H).
  apply bind_Ok in H as (p & H & [-> _]%store_Ok).
  assert (tbl_ok tbl12) as Htok.
  { destruct (@tables_get unit tables idx Ht Hidx) as (t & Hg' & Hok). rewrite Hg in Hg'. by injection Hg' as <-. }
  destruct (Htok Hv) as [freq Hok]. pose proof (tok_freq_ok _ _ Hok) as Hfok.
  rewrite (tok_freq _ _ Hok) in Hr |- *. destruct (rescale_spec freq Hfok) as (f10' & Hr' & Hl & Hf & _).
  rewrite Hr in Hr'. injection Hr' as <-.
  destruct (tans_build_inv (P := P10) f10 tbl10 Hl Hf Hbld) as [_ Hok10].
  unfold try_tans_10bit_with_table in H. rewrite (tok_valid _ _ Hok10) in H.
  change (136 <? 2) with false in H. cbn [negb] in H. cbv iota in H.
  apply bind_Ok in H as ([X w] & He & H). apply bind_Ok in H as (bs & Hbs & H).
  apply store_Ok in H as [-> _].
  assert (0 <= 136 - 2) as Hc by lia.
  destruct (tans_roundtrip (P := P10) true tbl10 f10 src _ X w bs Hok10 Hb Hc He Hbs)
    as (HX%state_ok10 & _ & rd & Hrd & Hdec).
  destruct (Z.ltb_spec (zlen (netc_write_u16_le (u16 X) ++ bs)) 2) as [Hlt|_];
    [rewrite length_app in Hlt; simpl in Hlt; lia|].
  rewrite read_u16_front. mstep. rewrite u16_small, Z.mod_small by lia. unfold NETC_TANS_TABLE_SIZE_10. if_false.
  rewrite Hr. simpl or_fail. mstep. rewrite Hbld. simpl or_fail. mstep.
  change (drop 2 (netc_write_u16_le X ++ bs)) with bs. unfold lift. rewrite Hrd. simpl or_fail. mstep.
  rewrite Nat2Z.id. unfold netc_tans_decode_10. by rewrite Hdec.
Qed.

(** Only the first 8 offsets are in bucket 0. *)
Lemma bucket_zero i : 0 <= i -> netc_ctx_bucket i = 0 -> i < 8.
Proof.
  intros Hi H. unfold netc_ctx_bucket in H. destruct (Z.ltb_spec i 256); [|repeat case_if_in H; lia].
  assert ((i <? 8) || negb (default 0 (bucket_lut !! Z.to_nat i) =? 0) = true) as Hb.
  { apply (byte_forall (fun i => (i <? 8) || negb (default 0 (bucket_lut !! Z.to_nat i) =? 0))); [reflexivity|].
    split; lia. }
  rewrite H in Hb. apply orb_true_iff in Hb as [Hb|Hb]; [by apply Z.ltb_lt|done].
Qed.

(** ** What [try_tans_compress] guarantees *)
Section Spec.
Context (dict : netc_dict_t) (tables : list netc_tans_table_t) (src : list Z) (fl : Z) (compact : bool).

Definition decodes_single (t : tans_result) : Prop :=
  (tr_x2 t = true -> Z.odd (zlen src) = false) ->
  forall hdr dst, original_size hdr = zlen src -> has (hdr_flags hdr) NETC_PKT_FLAG_X2 = tr_x2 t ->
    has (hdr_flags hdr) NETC_PKT_FLAG_BIGRAM = has fl NETC_CFG_FLAG_BIGRAM ->
    has (hdr_flags hdr) NETC_PKT_FLAG_MREG = false -> Z.shiftr (algorithm hdr) 4 = tr_tbl t ->
    decode_tans (Some dict) tables hdr (tr_payload t) dst compact = Ok src.

Definition decodes_pctx (t : tans_result) : Prop :=
  forall hdr, original_size hdr = zlen src ->
    has (hdr_flags hdr) NETC_PKT_FLAG_BIGRAM = (tr_mreg t =? 3) ->
    decode_pctx dict tables hdr (tr_payload t) compact = Ok src.

Record single_spec (t : tans_result) : Prop := {
  ss_mreg : tr_mreg t = 0;
  ss_tbl : 0 <= tr_tbl t < NETC_CTX_COUNT;
  ss_x2 : tr_x2 t = true -> has fl NETC_CFG_FLAG_BIGRAM = false /\ has fl NETC_INTERNAL_NO_X2 = false /\ 256 <= zlen src;
  ss_valid : has fl NETC_CFG_FLAG_BIGRAM = false ->
    exists tbl, @aget unit _ tables (tr_tbl t) = Ok tbl /\ t_valid tbl = true;
  ss_decodes : decodes_single t
}.

Record pctx_spec (t : tans_result) : Prop := {
  ps_mreg : tr_mreg t = 2 \/ tr_mreg t = 3 /\ has fl NETC_CFG_FLAG_BIGRAM = true;
  ps_tbl : tr_tbl t = 0;
  ps_x2 : tr_x2 t = false;
  ps_decodes : decodes_pctx t
}.

Hypothesis dict_wf : dict_ok dict.
Hypothesis tables_wf : tables_ok tables.
Hypothesis src_bytes : bytes src.

Lemma select_table_eq bucket pkt_flags :
  has pkt_flags NETC_PKT_FLAG_BIGRAM = has fl NETC_CFG_FLAG_BIGRAM ->
  decomp_select_tbl dict tables bucket 0 pkt_flags = select_tans_table dict tables bucket 0 fl.
Proof. unfold decomp_select_tbl, select_tans_table. by intros ->. Qed.

Lemma select_table_ok bucket :
  0 <= bucket < NETC_CTX_COUNT ->
  exists tbl, select_tans_table dict tables bucket 0 fl = Ok tbl /\ tbl_ok tbl.
Proof.
  intros Hb. unfold select_tans_table.
  destruct (@tables_get unit tables bucket tables_wf Hb) as (u & Hu & Huok). case_if; [|by exists u].
  destruct (bigram_class_ok 0 _ (dok_class_map _ dict_wf)) as (c & -> & Hc); [done|]. mstep.
  destruct (@bigram_get unit _ bucket c (dok_bigram _ dict_wf) Hb Hc) as (row & t & -> & Hr & Htok).
  mstep. rewrite Hr. mstep. case_if; eauto.
Qed.

(** A payload coded with the table both ends select for [b]. *)
Lemma single_spec_intro tbl cap payload x2 b :
  tbl_ok tbl -> 0 <= b < NETC_CTX_COUNT -> select_tans_table dict tables b 0 fl = Ok tbl ->
  try_tans_single_with_table tbl src cap fl compact = Ok (payload, x2) ->
  single_spec (TansResult payload 0 x2 b).
Proof.
  intros Htok Hb Hsel H.
  assert (x2 = true -> has fl NETC_CFG_FLAG_BIGRAM = false /\ has fl NETC_INTERNAL_NO_X2 = false /\ 256 <= zlen src) as Hx2.
  { unfold try_tans_single_with_table in H. case_if_in H; [done|]. apply bind_Ok in H as ([p|] & Hr & H).
    - destruct (_ && _) eqn:Ex in Hr; [|done]. intros _. apply andb_prop in Ex as [[[??]%andb_prop ?]%andb_prop ?].
      bool_to_prop. done.
    - case_if_in H; [done|]. inv_ok. destruct a. by inv_ok. }
  constructor; simpl; [done|done|done| |].
  - intros Hnb. exists tbl. unfold select_tans_table in Hsel. rewrite Hnb in Hsel. split; [done|].
    unfold try_tans_single_with_table in H. by destruct (t_valid tbl).
  - intros Hodd hdr dst Hos Hfx Hfb Hfm Halg. unfold decode_tans. rewrite Hfm. unfold decode_single.
    rewrite Halg. simpl tr_tbl. destruct (Z.leb_spec NETC_CTX_COUNT b); [lia|].
    rewrite select_table_eq by done. rewrite Hsel. simpl. rewrite Hos, Nat2Z.id.
    destruct (single_with_table_decodes tbl src cap fl compact payload x2 (hdr_flags hdr))
      as (Hv & _ & Hd); [done..|]. rewrite Hv. simpl. done.
Qed.

(** The trial loop picks one of the buckets. *)
Lemma best_bucket_range l best0 b0 :
  foldM (best_bucket tables src fl compact) best0 l = Ok b0 ->
  (forall b, b ∈ l -> 0 <= b < NETC_CTX_COUNT) ->
  (forall cp b, best0 = Some (cp, b) -> 0 <= b < NETC_CTX_COUNT) ->
  forall cp b, b0 = Some (cp, b) -> 0 <= b < NETC_CTX_COUNT.
Proof.
  revert best0. induction l as [|b l IH]; intros best0 H Hl H0; simpl in H; [injection H as <-; done|].
  apply bind_Ok in H as (best1 & H1 & H). eapply IH; [exact H|intros; apply Hl; by right|].
  unfold best_bucket in H1. apply bind_Ok in H1 as (tbl & _ & H1). case_if_in H1; [by injection H1 as <-|].
  apply bind_Ok in H1 as (r & _ & [= <-]). intros cp b' Hb'.
  assert (0 <= b < NETC_CTX_COUNT) by (apply Hl; by left).
  destruct r as [[p x]|]; [|by eapply H0]. destruct best0 as [[c0 b1]|]; [|by simplify_eq].
  case_if_in Hb'; simplify_eq; [done|by eapply H0].
Qed.

Lemma single_region_spec cap t :
  try_tans_single_region dict tables src cap fl compact = Ok t -> single_spec t.
Proof.
  intros H. unfold try_tans_single_region in H. destruct (_ && _) eqn:E in H.
  - apply andb_prop in E as [[Enb _]%andb_prop _]. apply negb_true_iff in Enb.
    apply bind_Ok in H as (best & Hbest & H). destruct best as [[cp b]|]; [|done].
    apply bind_Ok in H as (tbl & Htbl & H). apply bind_Ok in H as ([p x2] & H & [= <-]).
    assert (0 <= b < NETC_CTX_COUNT) as Hb.
    { eapply best_bucket_range; [exact Hbest| |done|done]. intros b' Hb'%elem_of_seqZ.
      pose proof (ctx_bucket_range 0).
      pose proof (ctx_bucket_range (if 0 <? zlen src then zlen src - 1 else 0)). lia. }
    destruct (@tables_get unit tables b tables_wf Hb) as (t' & Ht' & Hok). rewrite Htbl in Ht'. injection Ht' as <-.
    eapply single_spec_intro; [done|done| |exact H]. unfold select_tans_table. by rewrite Enb.
  - apply bind_Ok in H as (tbl & Hsel & H). apply bind_Ok in H as ([p x2] & H & [= <-]).
    destruct (select_table_ok (netc_ctx_bucket 0) (ctx_bucket_range 0)) as (t' & Ht' & Hok).
    rewrite Hsel in Ht'. injection Ht' as <-. eapply single_spec_intro; [done|apply ctx_bucket_range|done|exact H].
Qed.

(** The PCTX bitstreams. *)
Lemma pctx_choose_spec cap state bs bg :
  0 <= cap -> pctx_choose dict tables src cap fl = Ok (state, bs, bg) ->
  pctx_spec (TansResult (write_state compact state ++ bs) (if bg then 3 else 2) false 0).
Proof.
  intros Hcap H. unfold pctx_choose in H. apply bind_Ok in H as ([s0 bs0] & Hu & H).
  unfold pctx_trial in Hu. apply bind_Ok in Hu as ([s1 w1] & He & Hu). apply bind_Ok in Hu as (b1 & Hbs & Hu).
  injection Hu as -> ->.
  destruct (@bigram_get unit _ 0 0 (dok_bigram _ dict_wf)) as (row0 & b00 & Hr0 & Hb00 & _); [done|done|].
  rewrite Hr0, bind_Ok_l, Hb00, bind_Ok_l in H. apply bind_Ok in H as (bgr & Hbg & H).
  assert (forall X out (g : bool), state_ok (P := P12) X ->
    (g = true -> has fl NETC_CFG_FLAG_BIGRAM = true /\ t_valid b00 = true) ->
    (exists rd, netc_bsr_init out = Ok rd /\
       (if g then netc_tans_decode_pctx_bigram (d_bigram_tables dict) tables (Some (d_bigram_class_map dict))
                    rd (length src) X
        else netc_tans_decode_pctx tables rd (length src) X) = Ok src) ->
    pctx_spec (TansResult (write_state compact X ++ out) (if g then 3 else 2) false 0)) as Hintro.
  { intros X out g HX%state_ok12 Hg (rd & Hrd & Hdec). constructor; simpl; [|done|done|].
    { destruct g; [|by left]. right. split; [done|]. by apply Hg. }
    intros hdr Hos Hfb. unfold decode_pctx. simpl tr_payload. fold (state_size compact).
    pose proof (write_state_length compact X) as L0.
    destruct (Z.ltb_spec (zlen (write_state compact X ++ out)) (state_size compact)) as [Hlt|_];
      [rewrite length_app in Hlt; lia|].
    rewrite read_write_state_front by lia. mstep. unfold NETC_TANS_TABLE_SIZE. if_false.
    rewrite drop_state by done. unfold lift. rewrite Hrd. simpl or_fail. mstep.
    destruct (@bigram_get netc_result_t _ 0 0 (dok_bigram _ dict_wf)) as (row1 & b01 & Hr1 & Hb01 & _); [done|done|].
    rewrite Hr1, bind_Ok_l, Hb01, bind_Ok_l.
    assert (row1 = row0) as -> by (apply aget_Ok in Hr0 as [_ Hr0], Hr1 as [_ Hr1]; congruence).
    assert (b01 = b00) as -> by (apply aget_Ok in Hb00 as [_ Hb00], Hb01 as [_ Hb01]; congruence).
    rewrite Hfb, Hos, Nat2Z.id. simpl tr_mreg. destruct g; simpl.
    - destruct (Hg eq_refl) as [_ ->]. by rewrite Hdec.
    - by rewrite Hdec. }
  destruct (switching_roundtrip (P := P12) (pctx_table tables) src cap s0 w1 bs0) as (HX & _ & Hd);
    [by apply byte_sel_pctx|done..|].
  pose proof (Hintro s0 bs0 false HX ltac:(done) Hd) as Huni.
  destruct bgr as [[bs_st bg_bs]|]; [|by injection H as <- <- <-].
  case_if_in H; [|by injection H as <- <- <-]. apply bind_Ok in H as (bs' & [-> _]%store_Ok & [= <- <- <-]).
  case_if_in Hbg; [|done]. apply trial_Some in Hbg as [Hbg _]. unfold bigram_trial in Hbg.
  apply bind_Ok in Hbg as ([s2 w2] & He2 & Hbg). apply bind_Ok in Hbg as (b2 & Hbs2 & Hbg). injection Hbg as -> ->.
  assert (0 <= Z.min cap (NETC_MAX_PACKET_SIZE + 64)) as Hc2 by (unfold NETC_MAX_PACKET_SIZE; lia).
  destruct (switching_roundtrip (P := P12) _ src _ bs_st w2 bg_bs
    (byte_sel_bigram _ _ _ (dok_bigram _ dict_wf) tables_wf (dok_class_map _ dict_wf)) src_bytes Hc2 He2 Hbs2)
    as (HX2 & _ & Hd2).
  by apply (Hintro bs_st bg_bs true).
Qed.

(** Either a single table, or a position-dependent one; pre-filtered packets of
    more than one bucket are never coded with a single table. *)
Lemma tans_compress_spec cap t :
  0 <= cap -> try_tans_compress dict tables src cap fl compact = Ok t ->
  (single_spec t \/ pctx_spec t) /\
  (has fl NETC_INTERNAL_SKIP_SR = true -> tr_mreg t = 0 -> zlen src <= 8).
Proof.
  intros Hcap H. unfold try_tans_compress in H. destruct (Z.eqb_spec (zlen src) 0) as [|Hne]; [done|].
  destruct (Z.eqb_spec (netc_ctx_bucket (zlen src - 1) - netc_ctx_bucket 0 + 1) 1) as [H1|Hn1].
  { apply single_region_spec in H. split; [by left|]. intros _ _.
    enough (zlen src - 1 < 8) by lia.
    apply bucket_zero; [lia|]. change (netc_ctx_bucket 0) with 0 in H1. lia. }
  apply bind_Ok in H as (u & _ & H). apply bind_Ok in H as (p & Hp & H). destruct p as [[[state bs] bg]|].
  - case_if_in Hp; [|done]. apply attempt_Some in Hp.
    apply pctx_choose_spec in Hp as Hps; [|lia]. apply bind_Ok in H as (sr & Hsr & H).
    assert (tr_mreg (TansResult (write_state compact state ++ bs) (if bg then 3 else 2) false 0) <> 0)
      by (by destruct bg).
    apply bind_Ok in H as (x & _ & H).
    destruct sr as [r|]; [|injection H as <-; split; [by right|done]].
    case_if_in H; injection H as <-; [|split; [by right|done]].
    destruct (_ && _) eqn:E1 in Hsr; [|done]. apply andb_prop in E1 as [_ E1]. apply negb_true_iff in E1.
    apply trial_Some in Hsr as [Hsr%single_region_spec _]. split; [by left|congruence].
  - case_if_in H; [done|]. apply single_region_spec in H. split; [by left|congruence].
Qed.
End Spec.
