(* ===== verification/Packets.v ===== *)
(** * Packets: headers and filters as both ends see them *)

From stdpp Require Import prelude.
From Stdlib Require Import ZArith Lia.
From S2P Require Import Prelude TansTable Bitstream TansCodec Lzp Freq Delta Crc32 Simd Header Lz Ctx.
From S2P Require Import Decompress Compress Payload.

Local Open Scope Z_scope.

(** ** Headers *)
Lemma validate_emit h compact payload cap :
  hdr_ok h -> compressed_size h = zlen payload -> original_size h <= cap ->
  (compact = true -> representable (hdr_flags h) (algorithm h)) ->
  validate_header (netc_hdr_emit h compact ++ payload) cap compact =
  Ok (if compact then PktHeader (original_size h) (compressed_size h) (hdr_flags h) (algorithm h) 0 0 else h,
      zlen (netc_hdr_emit h compact)).
Proof.
  intros Hok Hcs Hcap Hrep. pose proof Hok as (Hos & Hc & _). unfold validate_header, NETC_MAX_PACKET_SIZE.
  destruct compact; simpl netc_hdr_emit.
  - destruct (Hrep eq_refl) as [Hv Ht]. rewrite hdr_read_compact_write by done. mstep. rewrite Ht. cbn [fst snd].
    mstep. cbn [original_size hdr_flags algorithm compressed_size negb andb]. if_false. if_false. cbv iota.
    do 3 f_equal. rewrite Hcs. rewrite length_app.
    replace (Z.of_nat _ - zlen _) with (zlen payload) by lia. apply u16_small. lia.
  - rewrite hdr_write_length, length_app. unfold NETC_HEADER_SIZE. pose proof (hdr_write_length h).
    if_false. rewrite hdr_read_write by done. mstep. if_false. if_false. simpl andb. if_false. done.
Qed.

Lemma peek_payload {E} (hb payload : list Z) n :
  n = zlen payload -> @peek E (hb ++ payload) (zlen hb) n = Ok payload.
Proof. intros ->. rewrite peek_ok by (rewrite ?length_app; lia). f_equal. apply slice_app_end; lia. Qed.

Definition dict_model (d : option netc_dict_t) : Z := match d with Some d => d_model_id d | None => 0 end.

(** A decoder reads back the header an encoder with the same dictionary and
    sequence number wrote. *)
Lemma decompress_emit d h payload dst :
  let compact := has (c_flags d) NETC_CFG_FLAG_COMPACT_HDR in
  hdr_ok h -> compressed_size h = zlen payload -> original_size h <= zlen dst ->
  (compact = true -> representable (hdr_flags h) (algorithm h)) ->
  model_id h = dict_model (c_dict d) -> context_seq h = c_context_seq d ->
  netc_decompress_ctx d (netc_hdr_emit h compact ++ payload) dst =
  decompress_dispatch d h payload dst (zlen (netc_hdr_emit h compact ++ payload)) compact.
Proof.
  intros compact Hok Hcs Hcap Hrep Hm Hq. unfold netc_decompress_ctx. fold compact.
  rewrite validate_emit by done. mstep.
  assert (complete_header d compact (if compact then PktHeader (original_size h) (compressed_size h) (hdr_flags h)
    (algorithm h) 0 0 else h) = h) as ->.
  { unfold complete_header. destruct compact; [|done]. simpl. destruct h; simpl in *. by rewrite Hm, Hq. }
  assert (wrong_model d h = false) as ->.
  { unfold wrong_model. unfold dict_model in Hm. destruct (c_dict d); [|done]. rewrite Hm, Z.eqb_refl. simpl.
    by rewrite !andb_false_r. }
  by rewrite peek_payload.
Qed.

Lemma has_lor a b m : has (Z.lor a b) m = has a m || has b m.
Proof.
  unfold has. rewrite Z.land_lor_distr_l.
  destruct (Z.eqb_spec (Z.land a m) 0) as [Ha|Ha], (Z.eqb_spec (Z.land b m) 0) as [Hb|Hb]; simpl;
    [by rewrite Ha, Hb|..]; apply negb_true_iff, Z.eqb_neq; rewrite Z.lor_eq_0_iff; tauto.
Qed.

(** ** Finite checks of flag and algorithm bytes *)
Lemma nibble_forall (P : Z -> bool) :
  forallb P (seqZ 0 16) = true -> forall b, 0 <= b < NETC_CTX_COUNT -> P b = true.
Proof.
  intros H b Hb. rewrite forallb_forall in H. apply H. apply list_elem_of_In, elem_of_seqZ.
  unfold NETC_CTX_COUNT in Hb. lia.
Qed.

(** An algorithm byte with the bucket in its high nibble. *)
Definition alg_byte (base idx : Z) : Z := u8 (Z.lor base (Z.shiftl idx 4)).

Lemma alg_byte_spec base idx :
  base = NETC_ALG_TANS \/ base = NETC_ALG_LZP \/ base = NETC_ALG_TANS_10 -> 0 <= idx < NETC_CTX_COUNT ->
  is_byte (alg_byte base idx) /\ normalize_alg (alg_byte base idx) = base /\
  Z.shiftr (alg_byte base idx) 4 = idx.
Proof.
  intros Hb Hi. split; [apply u8_range|].
  assert ((normalize_alg (alg_byte base idx) =? base) && (Z.shiftr (alg_byte base idx) 4 =? idx) = true) as H.
  { apply (nibble_forall (fun idx => (normalize_alg (alg_byte base idx) =? base) &&
      (Z.shiftr (alg_byte base idx) 4 =? idx))); [|done].
    by destruct Hb as [->|[->| ->]]. }
  by bool_to_prop.
Qed.

(** Close [hdr_ok] of a header built from sizes, constants and known bytes. *)
Ltac solve_hdr_ok :=
  unfold hdr_ok; cbn [original_size compressed_size hdr_flags algorithm model_id context_seq];
  repeat match goal with |- _ /\ _ => split end; first [assumption|lia|by vm_compute].

(** Evaluate the tests of an algorithm constant. *)
Ltac alg_tests :=
  repeat match goal with
  | |- context [?a =? ?b] =>
      let r := eval vm_compute in (a =? b) in
      match r with true => idtac | false => idtac end;
      change (a =? b) with r
  end; cbv iota.

(** Packet-sized lengths fit the header fields. *)
Lemma u16_len {A} (l : list A) : zlen l <= NETC_MAX_PACKET_SIZE -> u16 (zlen l) = zlen l.
Proof. unfold NETC_MAX_PACKET_SIZE. intros. apply u16_small. lia. Qed.

(** The LZP filter as both ends use it. *)
Lemma lzp_filter_bytes lzp src out :
  lzp_table_ok lzp -> bytes src -> netc_lzp_xor_filter lzp src = Ok out ->
  zlen out = zlen src /\ bytes out /\ netc_lzp_xor_unfilter lzp out = Ok src.
Proof.
  intros Hl Hb H. destruct (lzp_filter_inv lzp 0 0 src Hl Hb) as (o & Ho & Hlen & Hob & Hinv).
  unfold netc_lzp_xor_filter in H. rewrite H in Ho. injection Ho as <-. split; [lia|]. done.
Qed.

(** What a tANS packet was coded from: the bytes, or their LZP filtering. *)
Definition filtered (lzp_table : option (list netc_lzp_entry_t)) (did_lzp : bool) (src tans_src : list Z) : Prop :=
  if did_lzp then exists lzp, lzp_table = Some lzp /\ lzp_table_ok lzp /\ netc_lzp_xor_filter lzp src = Ok tans_src
  else tans_src = src.

Lemma filtered_bytes lzp_table did_lzp src tans_src :
  filtered lzp_table did_lzp src tans_src -> bytes src -> bytes tans_src /\ zlen tans_src = zlen src.
Proof.
  unfold filtered. destruct did_lzp; [|by intros ->]. intros (lzp & _ & Hl & Hf) Hb.
  destruct (lzp_filter_bytes lzp src tans_src) as (? & ? & _); done.
Qed.

Lemma filtered_pctx lzp_table did_lzp src tans_src :
  filtered lzp_table did_lzp src tans_src -> bytes src ->
  unfilter_if_lzp (if did_lzp then Z.lor NETC_ALG_TANS_PCTX 0x10 else NETC_ALG_TANS_PCTX) lzp_table tans_src = Ok src.
Proof.
  unfold filtered. destruct did_lzp.
  - intros (lzp & -> & Hl & Hf) Hb. destruct (lzp_filter_bytes lzp src tans_src) as (_ & _ & Hu); [done..|].
    unfold unfilter_if_lzp, lift. change (negb (Z.land (Z.lor NETC_ALG_TANS_PCTX 0x10) 0xF0 =? 0)) with true.
    cbv iota. by rewrite Hu.
  - intros -> _. unfold unfilter_if_lzp. destruct lzp_table; done.
Qed.

Lemma lift_Ok {A} (m : outcome unit A) a : lift m = Ok a -> m = Ok a.
Proof. destruct m; simpl; congruence. Qed.

Lemma lz77_encode_Ok src cap out :
  bytes src -> lz77_encode src cap = Ok out ->
  zlen out < zlen src /\ lz77_decode out (zlen src) = Ok src.
Proof.
  intros Hb H. destruct (lz77_encode_spec src cap Hb) as [H'|(o & H' & _ & Hl & Hd)]; [congruence|].
  rewrite H in H'. by injection H' as <-.
Qed.
