(* ===== verification/Sync.v ===== *)
(** * Synchronised contexts

    An encoder and a decoder keep the same history: dictionary, ring buffer,
    previous packets and adaptive model.  The other fields of a context
    (configuration, SIMD table, arena size, statistics, sequence number) are
    its frame: the history operations of both ends neither read nor write
    them.  [advance] is the step both ends make on a packet. *)

From stdpp Require Import prelude.
From Stdlib Require Import ZArith Lia.
From S2P Require Import Prelude TansTable Bitstream TansCodec Lzp Freq Delta Crc32 Simd Header Lz Ctx.
From S2P Require Import Decompress Compress.

Local Open Scope Z_scope.

(** [reframe c s]: the history of [s] in the frame of [c]. *)
Definition reframe (c s : netc_ctx_t) : netc_ctx_t :=
  let '(Ctx _ f cl sl _ _ _ so _ _ _ _ q a st _ _ _ _ _) := c in
  let '(Ctx d _ _ _ r rs rp _ p ps p2 p2s _ _ _ af at_ ats al ac) := s in
  Ctx d f cl sl r rs rp so p ps p2 p2s q a st af at_ ats al ac.

Definition blank : netc_ctx_t :=
  Ctx None 0 0 0 None 0 0
      (SimdOps netc_delta_encode_generic netc_delta_decode_generic netc_freq_count_generic
               netc_crc32_update_generic NETC_SIMD_LEVEL_GENERIC) None 0 None 0 0 0 stats_zero None [] None None 0.

Definition shared (c : netc_ctx_t) : netc_ctx_t := reframe blank c.

Lemma reframe_shared c : reframe c (shared c) = c.
Proof. by destruct c. Qed.
Lemma shared_reframe c s : shared (reframe c s) = shared s.
Proof. by destruct c, s. Qed.
Lemma shared_shared c : shared (shared c) = shared c.
Proof. by destruct c. Qed.

(** An operation that only sees the history. *)
Class Framed {E} (op : netc_ctx_t -> outcome E netc_ctx_t) : Prop :=
  framed : forall c s, op (reframe c s) = (s' ← op s; Ok (reframe c s')).

#[export] Instance framed_bind {E} (op1 op2 : netc_ctx_t -> outcome E netc_ctx_t) :
  Framed op1 -> Framed op2 -> Framed (fun c => c' ← op1 c; op2 c').
Proof.
  intros H1 H2 c s. rewrite H1. destruct (op1 s) as [s'| |]; [|done..]. mstep. by rewrite H2.
Qed.

(** The two history updates as functions of the fields they use. *)
Definition prev_step {E} (prev : option (list Z)) (size : Z) (prev2 : option (list Z)) (size2 : Z) (data : list Z)
  : outcome E (option (list Z) * Z * (option (list Z) * Z)) :=
  match prev with
  | None => Ok (prev, size, (prev2, size2))
  | Some p =>
      h2 ← match prev2 with
           | None => Ok (None, size2)
           | Some p2 => if zlen p <? size then Undef else
                        p2' ← blit p2 0 (take (Z.to_nat size) p); Ok (Some p2', size)
           end;
      p' ← blit p 0 data;
      Ok (Some p', zlen data, h2)
  end.

Definition ring_step {E} (ring : option (list Z)) (rs pos : Z) (data : list Z) : outcome E (option (list Z) * Z) :=
  match ring with
  | None => Ok (None, pos)
  | Some ring =>
      if (rs =? 0) || (zlen data =? 0) then Ok (Some ring, pos) else
      let '(data, pos) :=
        if rs <=? zlen data then (drop (Z.to_nat (zlen data - rs)) data, 0) else (data, pos) in
      ring' ← (if zlen data <=? rs - pos then blit ring pos data
               else r ← blit ring pos (take (Z.to_nat (rs - pos)) data);
                    blit r 0 (drop (Z.to_nat (rs - pos)) data));
      Ok (Some ring', u32 ((pos + zlen data) mod rs))
  end.

Lemma update_prev_step {E} c data :
  @compress_update_prev E c data =
  (h ← prev_step (c_prev_pkt c) (c_prev_pkt_size c) (c_prev2_pkt c) (c_prev2_pkt_size c) data;
   Ok (set_prev2 (set_prev c h.1.1 h.1.2) h.2.1 h.2.2)).
Proof.
  destruct c as [d f cl sl r rs rp so p ps p2 p2s q a st af at_ ats al ac].
  unfold compress_update_prev, prev_step. simpl. destruct p as [p|]; [|done]. destruct p2 as [p2|]; simpl.
  - case_if; [done|]. destruct (blit p2 0 _) as [p2'| |]; [|done..]. mstep. by destruct (blit p 0 data).
  - by destruct (blit p 0 data).
Qed.

Lemma ring_append_step {E} c data :
  @ctx_ring_append E c data =
  (h ← ring_step (c_ring c) (c_ring_size c) (c_ring_pos c) data; Ok (set_ring c h.1 h.2)).
Proof.
  destruct c as [d f cl sl r rs rp so p ps p2 p2s q a st af at_ ats al ac].
  unfold ctx_ring_append, ring_step. simpl. destruct r as [r|]; [|done]. destruct (_ || _); [done|].
  destruct (if rs <=? zlen data then _ else _) as [dt pos].
  by destruct (if zlen dt <=? rs - pos then _ else _).
Qed.

#[export] Instance framed_update_prev {E} data : Framed (fun c => @compress_update_prev E c data).
Proof. intros [] []. rewrite !update_prev_step. simpl. by destruct (prev_step _ _ _ _ _). Qed.

#[export] Instance framed_ring_append {E} data : Framed (fun c => @ctx_ring_append E c data).
Proof. intros [] []. rewrite !ring_append_step. simpl. by destruct (ring_step _ _ _ _). Qed.

#[export] Instance framed_rebuild : Framed netc_adaptive_tables_rebuild.
Proof.
  intros c [d ? ? ? ? ? ? ? ? ? ? ? ? ? ? af at_ ats ? ?]. unfold netc_adaptive_tables_rebuild. destruct c.
  cbn [reframe Ctx.c_adapt_freq Ctx.c_adapt_tables Ctx.c_dict Ctx.c_adapt_total Ctx.c_adapt_pkt_count].
  destruct af as [af|], ats as [ats|], d as [d|]; try done.
  match goal with |- context [foldM ?f ?s ?l] => by destruct (foldM f s l) end.
Qed.

#[export] Instance framed_adaptive data : Framed (fun c => netc_adaptive_update c data).
Proof.
  intros c s. unfold netc_adaptive_update.
  assert (c_adapt_freq (reframe c s) = c_adapt_freq s) as -> by (by destruct c, s).
  destruct (c_adapt_freq s) as [freq|]; [|done].
  assert (c_adapt_total (reframe c s) = c_adapt_total s) as -> by (by destruct c, s).
  destruct (accumulate 0 data freq (c_adapt_total s)) as [[f t]| |]; [|done..]. mstep.
  assert (c_adapt_pkt_count (reframe c s) = c_adapt_pkt_count s) as -> by (by destruct c, s).
  assert (c_adapt_tables (reframe c s) = c_adapt_tables s) as -> by (by destruct c, s).
  assert (forall f t ts n, set_adapt (reframe c s) f t ts n = reframe c (set_adapt s f t ts n)) as ->
    by (by destruct c, s).
  case_if; [|done]. rewrite framed.
  destruct (netc_adaptive_tables_rebuild _) as [s'| |]; [|done..]. mstep. by destruct c, s'.
Qed.

#[export] Instance framed_learn data : Framed (fun c => ctx_learn c data).
Proof.
  intros c s. unfold ctx_learn, lift. rewrite (framed (op := fun c => netc_adaptive_update c data)).
  destruct (netc_adaptive_update s data) as [s'| |]; [|done..]. mstep. cbn [or_fail]. mstep.
  assert (c_adapt_lzp (reframe c s') = c_adapt_lzp s') as -> by (by destruct c, s').
  destruct (netc_lzp_adaptive_update _ _) as [l| |]; [|done..]. cbn [or_fail]. mstep. by destruct c, s'.
Qed.

(** The history step of a packet. *)
Definition advance (data : list Z) (c : netc_ctx_t) : result netc_ctx_t :=
  c ← (c ← compress_update_prev c data; ctx_ring_append c data);
  ctx_learn c data.

#[export] Instance framed_advance data : Framed (advance data).
Proof. unfold advance. apply _. Qed.

(** Ring and previous packets are separate: the two updates commute. *)
Lemma ring_prev_commute {E} c data c' :
  (c1 ← @ctx_ring_append E c data; compress_update_prev c1 data) = Ok c' ->
  (c1 ← @compress_update_prev E c data; ctx_ring_append c1 data) = Ok c'.
Proof.
  intros H. apply bind_Ok in H as (c1 & Hr & Hp). rewrite ring_append_step in Hr. rewrite update_prev_step in Hp.
  apply bind_Ok in Hr as (hr & Hr & [= <-]). apply bind_Ok in Hp as (hp & Hp & [= <-]).
  rewrite update_prev_step. destruct c. simpl in *. rewrite Hp. mstep.
  rewrite ring_append_step. simpl. by rewrite Hr.
Qed.

(** ** Both ends make the same step *)

(** The encoder [e] and the decoder [d] agree on what a packet means. *)
Definition sync (e d : netc_ctx_t) : Prop :=
  shared e = shared d /\ c_context_seq e = c_context_seq d /\
  has (c_flags e) NETC_CFG_FLAG_COMPACT_HDR = has (c_flags d) NETC_CFG_FLAG_COMPACT_HDR.

Lemma framed_shared {E} (op : netc_ctx_t -> outcome E netc_ctx_t) `{!Framed op} c :
  op c = (s' ← op (shared c); Ok (reframe c s')).
Proof. rewrite <- (reframe_shared c) at 1. apply framed. Qed.

(** Frame-only updates. *)
Lemma shared_set_seq c q : shared (set_seq c q) = shared c.
Proof. by destruct c. Qed.
Lemma shared_stats c st : shared (set_stats c st) = shared c.
Proof. by destruct c. Qed.

(** The frame a history operation leaves alone. *)
Definition same_frame (c c' : netc_ctx_t) : Prop :=
  c_flags c' = c_flags c /\ c_simd_ops c' = c_simd_ops c /\ c_context_seq c' = c_context_seq c.

Lemma same_frame_reframe c s : same_frame c (reframe c s).
Proof. by destruct c, s. Qed.

Lemma stats_compressed_frame c a b p :
  shared (stats_compressed c a b p) = shared c /\ same_frame c (stats_compressed c a b p).
Proof. unfold stats_compressed. case_if; [|done]. destruct (c_stats c). by destruct c. Qed.

Lemma stats_decompressed_frame c a b p :
  shared (stats_decompressed c a b p) = shared c /\ same_frame c (stats_decompressed c a b p).
Proof. unfold stats_decompressed. case_if; [|done]. destruct (c_stats c). by destruct c. Qed.

Lemma framed_Ok {E} (op : netc_ctx_t -> outcome E netc_ctx_t) `{!Framed op} c c' :
  op c = Ok c' -> op (shared c) = Ok (shared c') /\ same_frame c c'.
Proof.
  rewrite (framed_shared op). intros (s' & Hs & [= <-])%bind_Ok. rewrite shared_reframe.
  split; [|apply same_frame_reframe]. rewrite Hs. f_equal. unfold shared in Hs.
  rewrite (framed (op := op) blank c) in Hs. apply bind_Ok in Hs as (s & _ & [= <-]). symmetry. apply shared_shared.
Qed.

(** History steps leave the statistics alone. *)
Lemma framed_stats {E} (op : netc_ctx_t -> outcome E netc_ctx_t) `{!Framed op} c c' : op c = Ok c' -> c_stats c' = c_stats c.
Proof. rewrite (framed_shared op). intros (s' & _ & [= <-])%bind_Ok. by destruct c, s'. Qed.

Lemma stats_compressed_ext c c' a b p :
  c_flags c' = c_flags c -> c_stats c' = c_stats c -> c_stats (stats_compressed c' a b p) = c_stats (stats_compressed c a b p).
Proof. intros Hf Hs. unfold stats_compressed. rewrite Hf, Hs. case_if; [|done]. by destruct (c_stats c), c, c'. Qed.

Lemma framed_shared_Ok {E} (op : netc_ctx_t -> outcome E netc_ctx_t) `{!Framed op} c c1 s :
  op c1 = Ok s -> shared c1 = shared c -> exists c', op c = Ok c' /\ shared c' = shared s /\ same_frame c c'.
Proof.
  intros (Hs & _)%framed_Ok Heq; [|done]. rewrite Heq in Hs. rewrite (framed_shared op c), Hs. mstep.
  eexists. split; [done|]. rewrite shared_reframe, shared_shared. split; [done|]. apply same_frame_reframe.
Qed.

Lemma same_frame_trans c1 c2 c3 : same_frame c1 c2 -> same_frame c2 c3 -> same_frame c1 c3.
Proof. intros (?&?&?) (?&?&?). repeat split; congruence. Qed.

(** A successful encoder tail makes the history step. *)
Lemma compress_finish_advance e src hdr payload cap compact p e' pkt :
  compress_finish e src hdr payload cap compact p = Ok (e', pkt) ->
  pkt = netc_hdr_emit hdr compact ++ payload /\ zlen pkt <= cap /\
  advance src (shared e) = Ok (shared e') /\ same_frame e e'.
Proof.
  unfold compress_finish. intros H. apply bind_Ok in H as (pk & [-> Hcap]%put_Ok & H). apply bind_Ok in H as (c1 & H1 & H).
  apply bind_Ok in H as (c2 & H2 & H). apply bind_Ok in H as (c3 & H3 & H). injection H as <- <-.
  split; [done|]. split; [rewrite length_app; lia|].
  assert ((c1 ← @compress_update_prev netc_result_t e src; ctx_ring_append c1 src) = Ok c2) as H12
    by (apply ring_prev_commute; rewrite H1; exact H2).
  destruct (stats_compressed_frame c2 (zlen src) (zlen (netc_hdr_emit hdr compact ++ payload)) p) as [Hs Hf].
  apply (framed_Ok (fun c => c1 ← compress_update_prev c src; ctx_ring_append c1 src)) in H12 as [H12 Hf12].
  apply (framed_Ok (fun c => ctx_learn c src)) in H3 as [H3 Hf3].
  split; [|by eapply same_frame_trans; [|eapply same_frame_trans]].
  unfold advance. rewrite H12. mstep. by rewrite <- Hs.
Qed.

(** It counts the packet once. *)
Lemma compress_finish_stats e src hdr payload cap compact p e' pkt :
  compress_finish e src hdr payload cap compact p = Ok (e', pkt) ->
  c_stats e' = c_stats (stats_compressed e (zlen src) (zlen pkt) p).
Proof.
  unfold compress_finish. intros H. apply bind_Ok in H as (pk & [-> Hcap]%put_Ok & H). apply bind_Ok in H as (c1 & H1 & H).
  apply bind_Ok in H as (c2 & H2 & H). apply bind_Ok in H as (c3 & H3 & H). injection H as <- <-.
  rewrite (framed_stats (fun c => ctx_learn c src) _ _ H3).
  pose proof (framed_Ok (fun c => ctx_ring_append c src) _ _ H1) as (_ & F1 & _).
  pose proof (framed_Ok (fun c => compress_update_prev c src) _ _ H2) as (_ & F2 & _).
  apply stats_compressed_ext; [congruence|].
  by rewrite (framed_stats (fun c => compress_update_prev c src) _ _ H2), (framed_stats (fun c => ctx_ring_append c src) _ _ H1).
Qed.

(** The decoder tail makes it too, in its own frame. *)
Lemma decomp_finish_advance d hdr dst n p s :
  advance dst (shared d) = Ok s ->
  exists d', decomp_finish d hdr dst n p = Ok (d', dst) /\ shared d' = shared s /\
    c_context_seq d' = u8 (context_seq hdr + 1) /\ c_flags d' = c_flags d /\ c_simd_ops d' = c_simd_ops d.
Proof.
  intros H. unfold advance in H. apply bind_Ok in H as (c1 & H1 & H2).
  destruct (framed_shared_Ok (fun c => c1 ← compress_update_prev c dst; ctx_ring_append c1 dst) d _ _ H1)
    as (d1 & Hd1 & Hs1 & Hf1); [apply shared_shared|].
  apply bind_Ok in Hd1 as (d0 & Hd0 & Hd1). unfold decomp_finish, decomp_update_prev, decomp_ring_append.
  rewrite Hd0. mstep. rewrite Hd1. mstep.
  destruct (stats_decompressed_frame d1 n (zlen dst) p) as [Hs Hf].
  destruct (framed_shared_Ok (fun c => ctx_learn c dst)
    (set_seq (stats_decompressed d1 n (zlen dst) p) (u8 (context_seq hdr + 1))) _ _ H2)
    as (d2 & Hd2 & Hs2 & Hf2); [by rewrite shared_set_seq, Hs, Hs1|].
  rewrite Hd2. mstep. exists d2. split; [done|]. split; [done|].
  destruct Hf1 as (F1 & F2 & _), Hf as (G1 & G2 & _), Hf2 as (K1 & K2 & K3).
  assert (forall c q, c_flags (set_seq c q) = c_flags c /\ c_simd_ops (set_seq c q) = c_simd_ops c /\
    c_context_seq (set_seq c q) = q) as Hset by (intros [] ?; done).
  destruct (Hset (stats_decompressed d1 n (zlen dst) p) (u8 (context_seq hdr + 1))) as (S1 & S2 & S3).
  rewrite K1, K2, K3, S1, S2, S3, G1, G2, F1, F2. done.
Qed.

(** Together: the ends stay synchronised. *)
Lemma finish_sync e d q src hdr payload cap compact p e' pkt n p' :
  compress_finish (set_seq e q) src hdr payload cap compact p = Ok (e', pkt) ->
  sync e d -> q = u8 (context_seq hdr + 1) ->
  exists d', decomp_finish d hdr src n p' = Ok (d', src) /\ sync e' d'.
Proof.
  intros (_ & _ & Ha & Hf)%compress_finish_advance (Hs & Hq & Hc) ->.
  rewrite shared_set_seq, Hs in Ha.
  destruct (decomp_finish_advance d hdr src n p' _ Ha) as (d' & Hd & Hs' & Hq' & Hf' & _).
  exists d'. split; [done|]. destruct Hf as (F1 & _ & F3).
  split; [by rewrite Hs', shared_shared|]. rewrite Hq', F3, Hf', F1, <- Hc. by destruct e.
Qed.

Lemma decomp_finish_stats d hdr dst n p d' m :
  decomp_finish d hdr dst n p = Ok (d', m) -> m = dst /\ c_flags d' = c_flags d /\
  c_stats d' = c_stats (stats_decompressed d n (zlen dst) p).
Proof.
  unfold decomp_finish, decomp_update_prev, decomp_ring_append. intros H. apply bind_Ok in H as (c1 & H1 & H).
  apply bind_Ok in H as (c2 & H2 & H). apply bind_Ok in H as (c3 & H3 & H). injection H as <- <-. split; [done|].
  pose proof (framed_stats (fun c => ctx_learn c dst) _ _ H3) as S3.
  pose proof (framed_Ok (fun c => ctx_learn c dst) _ _ H3) as (_ & F3 & _).
  pose proof (framed_Ok (fun c => compress_update_prev c dst) _ _ H1) as (_ & F1 & _).
  pose proof (framed_Ok (fun c => ctx_ring_append c dst) _ _ H2) as (_ & F2 & _).
  pose proof (framed_stats (fun c => compress_update_prev c dst) _ _ H1) as S1.
  pose proof (framed_stats (fun c => ctx_ring_append c dst) _ _ H2) as S2.
  rewrite S3, F3. unfold stats_decompressed. rewrite F2, F1, S2, S1. split.
  - case_if; [destruct (c_stats d)|]; destruct c2; simpl in *; congruence.
  - case_if; [by destruct (c_stats d), c2, d|]. rewrite <- S1, <- S2. by destruct c2.
Qed.

(** ** The invariant *)

Lemma learn_ok ctx data :
  ctx_ok ctx -> bytes data -> exists ctx', ctx_learn ctx data = Ok ctx' /\ ctx_ok ctx'.
Proof.
  intros Hok Hb. unfold ctx_learn, lift. destruct (adaptive_update_ok ctx data Hok Hb) as (c1 & -> & Hok1).
  cbn [or_fail]. mstep. unfold netc_lzp_adaptive_update. destruct (c_adapt_lzp c1) as [t|] eqn:El.
  - destruct (lzp_update_ok t 0 0 data) as (t' & -> & Ht'); [by apply (cok_alzp _ Hok1)|done|].
    mstep. cbn [or_fail]. mstep. eexists. split; [done|]. destruct c1. ctx_update Hok1. by intros ? [= <-].
  - cbn [or_fail]. mstep. eexists. split; [done|]. destruct c1. by ctx_update Hok1.
Qed.

(** The history step is total on a well-formed context and keeps it so. *)
Lemma advance_ok ctx data :
  ctx_ok ctx -> bytes data -> zlen data <= NETC_MAX_PACKET_SIZE ->
  exists ctx', advance data ctx = Ok ctx' /\ ctx_ok ctx'.
Proof.
  intros Hok Hb Hl. unfold advance.
  destruct (@update_prev_ok netc_result_t ctx data Hok Hb Hl) as (c1 & -> & Hok1). mstep.
  destruct (@ring_append_ok netc_result_t c1 data Hok1 Hb) as (c2 & -> & Hok2). mstep.
  by apply learn_ok.
Qed.

(** The invariant does not depend on the frame, its SIMD table and sequence
    number apart. *)
Lemma ctx_ok_shared c c' :
  ctx_ok c -> shared c = shared c' -> SimdOk (c_simd_ops c') -> is_byte (c_context_seq c') -> ctx_ok c'.
Proof.
  intros Hok Hsh Hs Hq. destruct c, c'. unfold shared in Hsh. simpl in *. injection Hsh. intros. subst.
  by ctx_update Hok.
Qed.
