(* ===== verification/Stateless.v ===== *)
(** * Stateless round trip

    [netc_decompress_stateless] inverts [netc_compress_stateless]. *)

From stdpp Require Import prelude.
From Stdlib Require Import ZArith Lia.
From S2P Require Import Prelude TansTable Bitstream TansCodec Lzp Freq Delta Crc32 Simd Header Lz Ctx.
From S2P Require Import Decompress Compress Payload Packets.

Local Open Scope Z_scope.

(** ** Stateless *)
Lemma stateless_emit dict h payload dst :
  hdr_ok h -> compressed_size h = zlen payload -> original_size h <= zlen dst ->
  model_id h = d_model_id dict -> has (hdr_flags h) NETC_PKT_FLAG_DELTA = false ->
  netc_decompress_stateless (Some dict) (Some (netc_hdr_write h ++ payload)) (Some dst) false =
  stateless_dispatch dict h payload dst.
Proof.
  intros Hok Hcs Hcap Hm Hd. unfold netc_decompress_stateless.
  rewrite (validate_emit h false payload) by done. mstep. rewrite Hm, Z.eqb_refl, andb_false_r, Hd.
  by rewrite peek_payload.
Qed.

Lemma stateless_lz77_decodes dict src payload dst flags :
  dict_ok dict -> zlen src <= NETC_MAX_PACKET_SIZE -> zlen payload < zlen src -> zlen src <= zlen dst ->
  flags = NETC_PKT_FLAG_DICT_ID -> lz77_decode payload (zlen src) = Ok src ->
  netc_decompress_stateless (Some dict)
    (Some (netc_hdr_write (lz77_header src (zlen payload) flags (d_model_id dict) 0) ++ payload)) (Some dst) false = Ok src.
Proof.
  intros Hd Hs Hp Hdst -> Hdec. unfold lz77_header. rewrite !u16_len by lia.
  assert (is_byte (d_model_id dict)) by apply Hd. unfold NETC_MAX_PACKET_SIZE in Hs.
  rewrite stateless_emit; [exact Hdec|solve_hdr_ok|done..].
Qed.

Lemma stateless_raw_decodes dict src dst :
  dict_ok dict -> zlen src <= NETC_MAX_PACKET_SIZE -> zlen src <= zlen dst ->
  netc_decompress_stateless (Some dict)
    (Some (netc_hdr_write (PktHeader (u16 (zlen src)) (u16 (zlen src))
      (Z.lor NETC_PKT_FLAG_PASSTHRU NETC_PKT_FLAG_DICT_ID) NETC_ALG_PASSTHRU (d_model_id dict) 0) ++ src))
    (Some dst) false = Ok src.
Proof.
  intros Hd Hs Hdst. rewrite !u16_len by lia. assert (is_byte (d_model_id dict)) by apply Hd.
  unfold NETC_MAX_PACKET_SIZE in Hs. rewrite stateless_emit; [|solve_hdr_ok|done..].
  unfold stateless_dispatch. cbn [algorithm]. change (normalize_alg NETC_ALG_PASSTHRU =? NETC_ALG_PASSTHRU) with true.
  cbv iota. unfold decode_passthru. cbn [hdr_flags original_size compressed_size].
  change (has _ NETC_PKT_FLAG_LZ77) with false. change (has _ NETC_PKT_FLAG_RLE) with false. cbv iota.
  rewrite Z.eqb_refl. simpl negb. cbv iota. by rewrite peek_take, Nat2Z.id, firstn_all by lia.
Qed.

Lemma stateless_tans_decodes dict src tans_src did_lzp t dst :
  dict_ok dict -> bytes src -> zlen src <= NETC_MAX_PACKET_SIZE -> zlen src <= zlen dst ->
  filtered (d_lzp_table dict) did_lzp src tans_src -> zlen (tr_payload t) < zlen src ->
  (zlen src < 256 \/ Z.odd (zlen src) = false) ->
  single_spec dict (d_tables dict) tans_src 0 false t \/ pctx_spec dict (d_tables dict) tans_src 0 false t ->
  netc_decompress_stateless (Some dict)
    (Some (netc_hdr_write
      (PktHeader (u16 (zlen src)) (u16 (zlen (tr_payload t)))
         (Z.lor NETC_PKT_FLAG_DICT_ID
            (Z.lor (if tr_mreg t =? 1 then NETC_PKT_FLAG_MREG else 0)
                   (if tr_x2 t then NETC_PKT_FLAG_X2 else 0)))
         (let idx := if tr_mreg t =? 0 then tr_tbl t else 0 in
          if did_lzp : bool then
            if tr_mreg t =? 2 then Z.lor NETC_ALG_TANS_PCTX 0x10
            else u8 (Z.lor NETC_ALG_LZP (Z.shiftl idx 4))
          else if tr_mreg t =? 2 then NETC_ALG_TANS_PCTX
          else u8 (Z.lor NETC_ALG_TANS (Z.shiftl idx 4)))
         (d_model_id dict) 0) ++ tr_payload t)) (Some dst) false = Ok src.
Proof.
  intros Hd Hb Hs Hdst Hfil Hp Hodd Hspec. destruct (filtered_bytes _ _ _ _ Hfil Hb) as [Hfb Hfl].
  rewrite !u16_len by lia. assert (is_byte (d_model_id dict)) by apply Hd. unfold NETC_MAX_PACKET_SIZE in Hs.
  destruct Hspec as [[Hm Hi Hx Hv Hdec]|[Hm Hi Hx Hdec]].
  - rewrite Hm. cbn [Z.eqb]. set (base := if did_lzp then NETC_ALG_LZP else NETC_ALG_TANS).
    replace (if did_lzp then _ else _) with (alg_byte base (tr_tbl t)) by (by destruct did_lzp).
    destruct (alg_byte_spec base (tr_tbl t)) as (Hab & Han & Has); [destruct did_lzp; auto|done|].
    rewrite stateless_emit; [|destruct (tr_x2 t); solve_hdr_ok|done..|by destruct (tr_x2 t)].
    unfold stateless_dispatch. cbn [algorithm]. rewrite Han.
    assert (forall h, original_size h = zlen src -> hdr_flags h = Z.lor NETC_PKT_FLAG_DICT_ID
      (Z.lor 0 (if tr_x2 t then NETC_PKT_FLAG_X2 else 0)) -> algorithm h = alg_byte base (tr_tbl t) ->
      decode_tans (Some dict) (d_tables dict) h (tr_payload t) dst false = Ok tans_src) as Hdt.
    { intros h Ho Hf Ha. apply Hdec; [|lia|..].
      - rewrite Hfl. intros Hx2. destruct (Hx Hx2) as (_ & _ & ?). destruct Hodd; [lia|done].
      - rewrite Hf. by destruct (tr_x2 t).
      - rewrite Hf. by destruct (tr_x2 t).
      - rewrite Hf. by destruct (tr_x2 t).
      - by rewrite Ha. }
    unfold filtered in Hfil. destruct did_lzp; subst base.
    + destruct Hfil as (lzp & -> & Hlo & Hf). alg_tests.
      rewrite Hdt by done. mstep. destruct (lzp_filter_bytes lzp src tans_src) as (_ & _ & Hu); [done..|].
      unfold lift. by rewrite Hu.
    + subst tans_src. alg_tests. by rewrite Hdt.
  - assert (tr_mreg t = 2) as Hm2 by (destruct Hm as [?|[_ ?]]; done). rewrite Hm2, Hx. alg_tests.
    cbv zeta iota. set (alg := if did_lzp then Z.lor NETC_ALG_TANS_PCTX 0x10 else NETC_ALG_TANS_PCTX).
    assert (is_byte alg) by (by destruct did_lzp).
    rewrite stateless_emit; [|solve_hdr_ok|done..]. unfold stateless_dispatch. cbn [algorithm].
    assert (normalize_alg alg = NETC_ALG_TANS_PCTX) as -> by (by destruct did_lzp). alg_tests.
    rewrite Hdec; [|simpl; lia|by rewrite Hm2]. mstep. by apply filtered_pctx.
Qed.

(** What [netc_compress_stateless] emits, [netc_decompress_stateless] with
    the same dictionary gives back, for every packet below 256 bytes and every
    packet of even size (odd sizes from 256 on can take the two-state coder,
    which does not round-trip). *)
Lemma stateless_roundtrip dict src cap pkt dst :
  dict_ok dict -> bytes src -> zlen src <= zlen dst ->
  (zlen src < 256 \/ Z.odd (zlen src) = false) ->
  netc_compress_stateless (Some dict) (Some src) (Some cap) false = Ok pkt ->
  netc_decompress_stateless (Some dict) (Some pkt) (Some dst) false = Ok src.
Proof.
  intros Hd Hb Hdst Hodd H. unfold netc_compress_stateless in H.
  destruct (Z.ltb_spec NETC_MAX_PACKET_SIZE (zlen src)) as [|Hs]; [done|].
  destruct (Z.ltb_spec cap NETC_HEADER_SIZE) as [|Hcap]; [done|].
  apply bind_Ok in H as (r & Hr & H). apply lift_Ok in Hr. destruct r as [p|].
  2: { apply bind_Ok in H as ([c p] & H & [= ->]). unfold emit_passthrough in H.
       apply bind_Ok in H as (o & [-> _]%store_Ok & H). case_if_in H; [done|].
       apply bind_Ok in H as (o & [-> _]%put_Ok & [= _ <-]). by apply stateless_raw_decodes. }
  injection H as ->. case_if_in Hr; [|done]. apply bind_Ok in Hr as (t & Ht & Hr). destruct t as [p|].
  2: { unfold stateless_lz77_only in Hr. apply bind_Ok in Hr as (lz & Hlz & Hr).
       destruct lz as [out|]; [|done]. case_if_in Hr; [|done].
       apply bind_Ok in Hr as (o & [-> _]%put_Ok & [= <-]).
       apply attempt_Some, lz77_encode_Ok in Hlz as [Hl Hdec]; [|done]. by apply stateless_lz77_decodes. }
  injection Hr as ->. unfold stateless_tans in Ht. apply bind_Ok in Ht as ([tans_src did_lzp] & Hf & Ht).
  assert (filtered (d_lzp_table dict) did_lzp src tans_src) as Hfil.
  { unfold filtered. destruct (d_lzp_table dict) as [lzp|] eqn:El; [|by injection Hf as <- <-].
    case_if_in Hf; [|by injection Hf as <- <-]. apply bind_Ok in Hf as (f & Hf & (o & [-> _]%store_Ok & [= <- <-])%bind_Ok).
    exists lzp. split; [done|]. split; [by eapply dok_lzp|done]. }
  apply bind_Ok in Ht as (r & Hr & Ht). destruct r as [t|]; [|done]. apply attempt_Some in Hr.
  case_if_in Ht; [done|]. apply bind_Ok in Ht as (lz & Hlz & Ht). apply bind_Ok in Ht as (o & Hpkt & [= <-]).
  destruct lz as [out|]; apply put_Ok in Hpkt as [-> _].
  - unfold stateless_lz77 in Hlz. case_if_in Hlz; [|done]. apply bind_Ok in Hlz as (r' & Hr' & Hlz).
    injection Hlz as Hlz. destruct r' as [o|]; [|done]. case_if_in Hlz; [|done]. injection Hlz as ->.
    apply trial_Some in Hr' as [[Hl Hdec]%lz77_encode_Ok _]; [|done]. by apply stateless_lz77_decodes.
  - destruct (filtered_bytes _ _ _ _ Hfil Hb) as [Hfb Hfl].
    destruct (tans_compress_spec dict (d_tables dict) tans_src 0 false) with (cap := cap - NETC_HEADER_SIZE) (t := t)
      as [Hspec _]; [done|apply Hd|done|unfold NETC_HEADER_SIZE in *; lia|done|].
    by apply (stateless_tans_decodes dict src tans_src did_lzp t dst).
Qed.
