(* ===== verification/Stages.v ===== *)
(** * The stages of [netc_compress] and the packets they emit

    Every path through [netc_compress] ends in the history step and a packet
    that a synchronised decoder takes back to the original bytes. *)

From stdpp Require Import prelude.
From Stdlib Require Import ZArith Lia.
From S2P Require Import Prelude TansTable Bitstream TansCodec Lzp Freq Delta Crc32 Simd Header Lz Ctx.
From S2P Require Import Decompress Compress Payload Packets Sync.

Local Open Scope Z_scope.

(** The encoder [c], its sequence number advanced, and the decoder [d] before
    the packet with number [q]. *)
Record tracks (c d : netc_ctx_t) (q : Z) : Prop := {
  tr_shared : shared c = shared d;
  tr_enc_seq : c_context_seq c = u8 (q + 1);
  tr_dec_seq : c_context_seq d = q;
  tr_byte : is_byte q;
  tr_compact : has (c_flags c) NETC_CFG_FLAG_COMPACT_HDR = has (c_flags d) NETC_CFG_FLAG_COMPACT_HDR;
  tr_ok : ctx_ok c;
  tr_simd : SimdOk (c_simd_ops d)
}.

(** The history fields of the two ends. *)
Lemma shared_fields c d :
  shared c = shared d ->
  c_dict c = c_dict d /\ c_ring c = c_ring d /\ c_ring_size c = c_ring_size d /\ c_ring_pos c = c_ring_pos d /\
  c_prev_pkt c = c_prev_pkt d /\ c_prev_pkt_size c = c_prev_pkt_size d /\
  c_prev2_pkt c = c_prev2_pkt d /\ c_prev2_pkt_size c = c_prev2_pkt_size d /\
  c_adapt_tables c = c_adapt_tables d /\ c_adapt_lzp c = c_adapt_lzp d.
Proof. destruct c, d. unfold shared. simpl. intros [=]. subst. repeat split; done. Qed.

(** ** Delta *)

(** The post-pass looks at two flags only. *)
Lemma postpass_ext d f f' dst :
  has f' NETC_PKT_FLAG_DELTA = has f NETC_PKT_FLAG_DELTA ->
  has f' NETC_PKT_FLAG_RLE = has f NETC_PKT_FLAG_RLE ->
  decomp_delta_postpass d f' dst = decomp_delta_postpass d f dst.
Proof. unfold decomp_delta_postpass. by intros -> ->. Qed.

(** The flags a pre-filter can leave. *)
Definition base_flags (f : Z) : Prop :=
  f = NETC_PKT_FLAG_DICT_ID \/ f = Z.lor NETC_PKT_FLAG_DICT_ID NETC_PKT_FLAG_DELTA \/
  f = Z.lor (Z.lor NETC_PKT_FLAG_DICT_ID NETC_PKT_FLAG_DELTA) NETC_PKT_FLAG_RLE.

(** A pre-filtered packet: the decoder's post-pass restores [src]. *)
Record delta_of (d : netc_ctx_t) (src : list Z) (f : Z) (csrc : list Z) : Prop := {
  do_flags : base_flags f;
  do_bytes : bytes csrc;
  do_len : zlen csrc = zlen src;
  do_undo : decomp_delta_postpass d f csrc = Ok src;
  do_rle : has f NETC_PKT_FLAG_RLE = true -> c_prev2_pkt d <> None /\ c_prev2_pkt_size d = zlen src
}.

Lemma delta_of_raw d src f :
  f = NETC_PKT_FLAG_DICT_ID -> bytes src -> delta_of d src f src.
Proof. intros -> Hb. constructor; [by left|done..]. Qed.

Lemma delta_prepass_spec c d q src pf :
  tracks c d q -> bytes src -> zlen src <= NETC_MAX_PACKET_SIZE -> delta_prepass c src = Ok pf ->
  delta_of d src (pf_flags pf) (pf_src pf) /\ pf_delta pf = has (pf_flags pf) NETC_PKT_FLAG_DELTA /\
  pf_in_arena pf = pf_delta pf /\ pf_lzp pf = false /\
  (pf_delta pf = true -> NETC_DELTA_MIN_SIZE <= zlen src <= c_arena_size c).
Proof.
  intros [Hsh _ _ _ _ Hok Hsd] Hb Hlen H.
  destruct (shared_fields c d Hsh) as (_ & _ & _ & _ & Hp & Hps & Hp2 & Hp2s & _).
  unfold delta_prepass in H. destruct (_ && _) eqn:E in H.
  2: { injection H as <-. cbn [pf_src pf_flags pf_delta pf_in_arena pf_lzp].
       split; [by apply delta_of_raw|]. done. }
  apply andb_prop in E as [[[_ Esz]%andb_prop Emin]%andb_prop Ear].
  apply Z.eqb_eq in Esz. apply Z.leb_le in Emin, Ear.
  apply bind_Ok in H as (prev & Hprev & H). destruct (c_prev_pkt c) as [prev'|] eqn:Ep; [|done].
  injection Hprev as ->. destruct (cok_prev _ Hok _ Ep) as (Hpl & Hpb & _).
  apply bind_Ok in H as (arena & Harena & H). apply bind_Ok in H as (o & [-> _]%store_Ok & H).
  pose proof (cok_simd _ Hok) as Hsc.
  rewrite simd_encode in Harena by (done || lia).
  destruct (delta_loop_inv 0 prev src Hpb Hb) as (res & He & Hrl & Hrb & Hdec); [lia|].
  unfold netc_delta_encode in Harena. rewrite Harena in He. injection He as <-.
  set (f1 := Z.lor NETC_PKT_FLAG_DICT_ID NETC_PKT_FLAG_DELTA) in *.
  assert (delta_of d src f1 arena) as H1.
  { constructor; [by right; left|done|lia| |done].
    unfold decomp_delta_postpass. change (negb (has f1 NETC_PKT_FLAG_DELTA)) with false.
    change (has f1 NETC_PKT_FLAG_RLE) with false. cbv iota. rewrite <- Hp, <- Hps.
    destruct (Z.eqb_spec (c_prev_pkt_size c) (zlen arena)); [|lia]. simpl negb. simpl andb. cbv iota.
    assert (lift (delta_decode (c_simd_ops d) prev arena) = Ok src) as Hl.
    { rewrite simd_decode by (done || lia). unfold netc_delta_decode. by rewrite Hdec. }
    by destruct (c_prev2_pkt d). }
  assert (forall pf', pf' = Prefilter arena true f1 true false ->
    delta_of d src (pf_flags pf') (pf_src pf') /\ pf_delta pf' = has (pf_flags pf') NETC_PKT_FLAG_DELTA /\
    pf_in_arena pf' = pf_delta pf' /\ pf_lzp pf' = false /\
    (pf_delta pf' = true -> NETC_DELTA_MIN_SIZE <= zlen src <= c_arena_size c)) as Hdone
    by (intros pf' ->; done).
  destruct (c_prev2_pkt c) as [prev2|] eqn:Ep2; [|injection H as <-; by apply Hdone].
  case_if_in H; [|injection H as <-; by apply Hdone].
  apply bind_Ok in H as (o2 & Ho2 & H). apply bind_Ok in H as (o & [-> _]%store_Ok & H).
  destruct (cok_prev2 _ Hok _ Ep2) as (Hp2l & Hp2b & _).
  destruct (delta_loop2_inv 0 prev2 prev src) as (res2 & He2 & Hr2l & Hr2b & Hdec2); [lia|done|lia|].
  unfold netc_delta_encode_order2 in Ho2. rewrite Ho2 in He2. injection He2 as <-.
  case_if_in H; [|injection H as <-; by apply Hdone].
  apply bind_Ok in H as (o & [-> _]%store_Ok & [= <-]). cbn [pf_src pf_flags pf_delta pf_in_arena pf_lzp].
  split; [|done]. constructor; [by right; right|done|lia| |].
  - unfold decomp_delta_postpass. set (f2 := Z.lor f1 NETC_PKT_FLAG_RLE).
    change (negb (has f2 NETC_PKT_FLAG_DELTA)) with false.
    change (has f2 NETC_PKT_FLAG_RLE) with true. cbv iota. rewrite <- Hp, <- Hps, <- Hp2, <- Hp2s.
    destruct (Z.eqb_spec (c_prev_pkt_size c) (zlen o2)); [|lia]. simpl negb. cbv iota.
    destruct (Z.eqb_spec (c_prev2_pkt_size c) (zlen o2)); [|lia]. simpl andb. cbv iota.
    unfold netc_delta_decode_order2. by rewrite Hdec2.
  - intros _. split; congruence.
Qed.

(** ** Every kind of packet decodes *)
Section Decode.
Context (d : netc_ctx_t) (src : list Z).

Definition decodes_to (h : netc_pkt_header_t) (payload : list Z) : Prop :=
  forall dst n, zlen src <= zlen dst ->
    exists p, decompress_dispatch d h payload dst n (has (c_flags d) NETC_CFG_FLAG_COMPACT_HDR) =
              decomp_finish d h src n p.

Lemma lz77_decodes_to f csrc payload m q :
  zlen src <= NETC_MAX_PACKET_SIZE -> delta_of d src f csrc -> lz77_decode payload (zlen csrc) = Ok csrc ->
  decodes_to (lz77_header src (zlen payload) f m q) payload.
Proof.
  intros Hs [Hf _ Hl Hu _] Hdec dst n _. exists 1. unfold decompress_dispatch, lz77_header. cbn [algorithm].
  change (normalize_alg NETC_ALG_PASSTHRU =? NETC_ALG_PASSTHRU) with true. cbv iota.
  unfold decompress_passthru, decode_passthru. cbn [hdr_flags original_size]. rewrite u16_len by done.
  rewrite <- Hl. set (f' := Z.lor (Z.lor f NETC_PKT_FLAG_LZ77) NETC_PKT_FLAG_PASSTHRU).
  assert (has f' NETC_PKT_FLAG_LZ77 = true /\ has f' NETC_PKT_FLAG_DELTA = has f NETC_PKT_FLAG_DELTA /\
    has f' NETC_PKT_FLAG_RLE = has f NETC_PKT_FLAG_RLE) as (-> & Hd & Hr)
    by (destruct Hf as [->|[->| ->]]; done).
  rewrite Hdec. mstep. rewrite (postpass_ext _ f) by done. by rewrite Hu.
Qed.

Lemma raw_decodes_to m q :
  zlen src <= NETC_MAX_PACKET_SIZE ->
  decodes_to (PktHeader (u16 (zlen src)) (u16 (zlen src)) (Z.lor NETC_PKT_FLAG_PASSTHRU NETC_PKT_FLAG_DICT_ID)
                NETC_ALG_PASSTHRU m q) src.
Proof.
  intros Hs dst n _. exists 1. unfold decompress_dispatch. cbn [algorithm].
  change (normalize_alg NETC_ALG_PASSTHRU =? NETC_ALG_PASSTHRU) with true. cbv iota.
  unfold decompress_passthru, decode_passthru. cbn [hdr_flags original_size compressed_size].
  rewrite u16_len by done. change (has _ NETC_PKT_FLAG_LZ77) with false. change (has _ NETC_PKT_FLAG_RLE) with false.
  cbv iota. rewrite Z.eqb_refl. simpl negb. cbv iota. by rewrite peek_take, Nat2Z.id, firstn_all by lia.
Qed.

Lemma lz77x_decodes_to ring payload m q :
  zlen src <= NETC_MAX_PACKET_SIZE -> c_ring d = Some ring -> 0 < c_ring_size d ->
  lz77x_decode payload (zlen src) (Some ring) (c_ring_size d) (c_ring_pos d) = Ok src ->
  decodes_to (lz77x_header src (zlen payload) m q) payload.
Proof.
  intros Hs Hr Hrs Hdec dst n _. exists 0. unfold decompress_dispatch, lz77x_header. cbn [algorithm].
  change (normalize_alg NETC_ALG_LZ77X) with NETC_ALG_LZ77X. alg_tests.
  unfold decompress_lz77x. rewrite Hr. destruct (Z.eqb_spec (c_ring_size d) 0); [lia|].
  cbn [original_size]. rewrite u16_len by done. by rewrite Hdec.
Qed.

(** The flags of a tANS packet. *)
Lemma tans_flags_spec f mreg x2 fl :
  base_flags f -> mreg = 0 \/ mreg = 2 \/ mreg = 3 ->
  let f' := Z.lor f (extra_flags mreg x2 fl) in
  is_byte f' /\ has f' NETC_PKT_FLAG_X2 = x2 /\ has f' NETC_PKT_FLAG_MREG = false /\
  has f' NETC_PKT_FLAG_DELTA = has f NETC_PKT_FLAG_DELTA /\ has f' NETC_PKT_FLAG_RLE = has f NETC_PKT_FLAG_RLE /\
  has f' NETC_PKT_FLAG_BIGRAM = (mreg =? 3) || (mreg =? 0) && has fl NETC_CFG_FLAG_BIGRAM /\
  has f' NETC_PKT_FLAG_PASSTHRU = false.
Proof.
  intros Hf Hm. unfold extra_flags.
  destruct (has fl NETC_CFG_FLAG_BIGRAM), x2, Hf as [->|[->| ->]], Hm as [->|[->| ->]]; by vm_compute.
Qed.

Context (dict : netc_dict_t) (fl : Z) (f : Z) (csrc tans_src : list Z) (did_lzp : bool).
Let tables := netc_get_tables d dict.
Let compact := has (c_flags d) NETC_CFG_FLAG_COMPACT_HDR.
Hypothesis dict_eq : c_dict d = Some dict.
Hypothesis src_len : zlen src <= NETC_MAX_PACKET_SIZE.
Hypothesis csrc_ok : delta_of d src f csrc.
Hypothesis filt_ok : filtered (netc_get_lzp_table d) did_lzp csrc tans_src.

Lemma single_decodes_to t m q :
  single_spec dict tables tans_src fl compact t -> (tr_x2 t = true -> Z.odd (zlen src) = false) ->
  decodes_to (PktHeader (u16 (zlen src)) (u16 (zlen (tr_payload t))) (Z.lor f (extra_flags (tr_mreg t) (tr_x2 t) fl))
                (tans_algorithm false did_lzp (tr_mreg t) (tr_tbl t)) m q) (tr_payload t).
Proof.
  intros [Hm Hi Hx Hv Hdec] Hodd dst n Hdst. exists 0.
  destruct csrc_ok as [Hf Hb Hl Hu _]. destruct (filtered_bytes _ _ _ _ filt_ok Hb) as [Htb Htl].
  destruct (tans_flags_spec f (tr_mreg t) (tr_x2 t) fl) as (_ & Fx & Fm & Fd & Fr & Fb & _); [done|by left|].
  set (f' := Z.lor f _) in *. rewrite u16_len by done. rewrite Hm in Fb |- *.
  set (base := if did_lzp then NETC_ALG_LZP else NETC_ALG_TANS).
  assert (tans_algorithm false did_lzp 0 (tr_tbl t) = alg_byte base (tr_tbl t)) as -> by (by destruct did_lzp).
  destruct (alg_byte_spec base (tr_tbl t)) as (Hab & Han & Has); [destruct did_lzp; auto|done|].
  unfold decompress_dispatch. cbn [algorithm]. rewrite Han, dict_eq. fold tables compact.
  set (h := PktHeader _ _ _ _ _ _).
  assert (decode_tans (Some dict) tables h (tr_payload t) dst compact = Ok tans_src) as Hdt.
  { apply Hdec; unfold h; cbn [hdr_flags original_size algorithm]; [|lia|done| |done|done].
    - rewrite Htl, Hl. done.
    - rewrite Fb. done. }
  unfold filtered in filt_ok. destruct did_lzp; subst base; alg_tests.
  - unfold decompress_lzp. destruct filt_ok as (lzp & -> & Hlo & Hfl). rewrite dict_eq, Hdt. mstep.
    destruct (lzp_filter_bytes lzp csrc tans_src) as (_ & _ & Hun); [done..|].
    rewrite Hun. simpl lift. mstep.
    change (hdr_flags h) with f'. rewrite (postpass_ext _ f) by done. by rewrite Hu.
  - unfold decompress_tans. rewrite dict_eq, Hdt. mstep. rewrite filt_ok.
    change (hdr_flags h) with f'. rewrite (postpass_ext _ f) by done. by rewrite Hu.
Qed.

Lemma pctx_decodes_to t m q :
  pctx_spec dict tables tans_src fl compact t ->
  decodes_to (PktHeader (u16 (zlen src)) (u16 (zlen (tr_payload t))) (Z.lor f (extra_flags (tr_mreg t) (tr_x2 t) fl))
                (tans_algorithm false did_lzp (tr_mreg t) (tr_tbl t)) m q) (tr_payload t).
Proof.
  intros [Hm Hi Hx Hdec] dst n Hdst. exists 0.
  destruct csrc_ok as [Hf Hb Hl Hu _]. destruct (filtered_bytes _ _ _ _ filt_ok Hb) as [Htb Htl].
  destruct (tans_flags_spec f (tr_mreg t) (tr_x2 t) fl) as (_ & _ & _ & Fd & Fr & Fb & _); [done|tauto|].
  set (f' := Z.lor f _) in *. rewrite u16_len by done.
  set (alg := if did_lzp then Z.lor NETC_ALG_TANS_PCTX 0x10 else NETC_ALG_TANS_PCTX).
  assert (tans_algorithm false did_lzp (tr_mreg t) (tr_tbl t) = alg) as ->
    by (destruct Hm as [->|[-> _]]; by destruct did_lzp).
  unfold decompress_dispatch. cbn [algorithm]. rewrite dict_eq. fold tables compact.
  assert (normalize_alg alg = NETC_ALG_TANS_PCTX) as -> by (by destruct did_lzp). alg_tests.
  unfold decompress_pctx. rewrite dict_eq. cbn [algorithm hdr_flags].
  rewrite Hdec; [|cbn [original_size]; lia|].
  2: { cbn [hdr_flags]. rewrite Fb. destruct Hm as [->|[-> _]]; done. }
  mstep. unfold alg. rewrite (filtered_pctx _ _ csrc) by done. mstep.
  rewrite (postpass_ext _ f) by done. by rewrite Hu.
Qed.

Lemma tans10_decodes_to t payload m q :
  did_lzp = false -> tables_ok tables -> has fl NETC_CFG_FLAG_BIGRAM = false ->
  single_spec dict tables tans_src fl compact t -> try_tans_10 tables (tr_tbl t) tans_src = Ok payload ->
  decodes_to (PktHeader (u16 (zlen src)) (u16 (zlen payload)) (Z.lor f (extra_flags (tr_mreg t) false fl))
                (tans_algorithm true did_lzp (tr_mreg t) (tr_tbl t)) m q) payload.
Proof.
  intros -> Htok Hbg [Hm Hi Hx Hv Hdec] Hten dst n Hdst. exists 0. unfold filtered in filt_ok.
  destruct csrc_ok as [Hf Hb Hl Hu _]. destruct (Hv Hbg) as (tbl & Hg & Hvt).
  destruct (tans_flags_spec f (tr_mreg t) false fl) as (_ & _ & _ & Fd & Fr & _ & _); [done|by left|].
  set (f' := Z.lor f _) in *. rewrite u16_len by done.
  change (tans_algorithm true false (tr_mreg t) (tr_tbl t)) with (alg_byte NETC_ALG_TANS_10 (tr_tbl t)).
  destruct (alg_byte_spec NETC_ALG_TANS_10 (tr_tbl t)) as (Hab & Han & Has); [auto|done|].
  unfold decompress_dispatch. cbn [algorithm]. rewrite Han, dict_eq. fold tables compact. alg_tests.
  unfold decompress_tans10. rewrite dict_eq. rewrite filt_ok in Hten.
  rewrite (tans_10_decodes tables (tr_tbl t) csrc payload tbl) by (done || (cbn [original_size]; lia)).
  mstep. cbn [hdr_flags]. rewrite (postpass_ext _ f) by done. by rewrite Hu.
Qed.
End Decode.

Lemma tans_alg_byte ten lzp mreg idx : is_byte (tans_algorithm ten lzp mreg idx).
Proof. unfold tans_algorithm. repeat case_if; first [apply u8_range|done]. Qed.

(** ** The compact header represents what the encoder emits *)
Definition representableb (f a : Z) : bool :=
  let t := netc_compact_type_encode f a in
  type_valid t && ((netc_pkt_type_table t).1 =? f) && ((netc_pkt_type_table t).2 =? a).

Lemma representableb_spec f a : representableb f a = true -> representable f a.
Proof.
  unfold representableb, representable. intros [[? H1]%andb_prop H2]%andb_prop. split; [done|].
  apply Z.eqb_eq in H1, H2. destruct (netc_pkt_type_table _). simpl in *. by subst.
Qed.

Lemma rep_single f x2 fl idx ten lzp :
  base_flags f -> has f NETC_PKT_FLAG_RLE = false -> 0 <= idx < NETC_CTX_COUNT ->
  (x2 = true -> has fl NETC_CFG_FLAG_BIGRAM = false) -> (lzp = true -> x2 = false) ->
  (ten = true -> x2 = false /\ lzp = false /\ has fl NETC_CFG_FLAG_BIGRAM = false) ->
  representable (Z.lor f (extra_flags 0 x2 fl)) (tans_algorithm ten lzp 0 idx).
Proof.
  intros Hf Hr Hi Hxb Hlx Ht. apply representableb_spec. unfold extra_flags.
  apply (nibble_forall (fun idx => representableb _ (tans_algorithm ten lzp 0 idx))); [|done].
  destruct Hf as [->|[->| ->]]; [| |done];
    destruct (has fl NETC_CFG_FLAG_BIGRAM), x2, lzp, ten;
    try (by specialize (Hxb eq_refl)); try (by specialize (Hlx eq_refl));
    try (by destruct (Ht eq_refl) as (? & ? & ?)); by vm_compute.
Qed.

Lemma rep_pctx f fl idx lzp mreg :
  base_flags f -> mreg = 2 \/ mreg = 3 ->
  representable (Z.lor f (extra_flags mreg false fl)) (tans_algorithm false lzp mreg idx).
Proof.
  intros Hf Hm. apply representableb_spec. unfold extra_flags, tans_algorithm.
  destruct Hm as [-> | ->], Hf as [->|[->| ->]], (has fl NETC_CFG_FLAG_BIGRAM), lzp; by vm_compute.
Qed.

(** ** Emitted packets *)

(** The compact header loses the order-2 signal of LZ77 packets and of
    single-bucket (8-byte) tANS packets.  Neither is emitted when there is no
    second previous packet of this size, or when the packet is longer and an
    LZP table is in use. *)
Definition order2_safe (d : netc_ctx_t) (src : list Z) : Prop :=
  c_prev2_pkt d = None \/ c_prev2_pkt_size d <> zlen src \/
  8 < zlen src /\ c_dict d <> None /\ netc_get_lzp_table d <> None.

Lemma order2_safe_flags d src f csrc :
  delta_of d src f csrc -> order2_safe d src ->
  (8 < zlen src -> c_dict d <> None -> netc_get_lzp_table d <> None -> has f NETC_PKT_FLAG_RLE = false) ->
  has f NETC_PKT_FLAG_RLE = false.
Proof.
  intros [_ _ _ _ Hr] [Hs|[Hs|(Hs1 & Hs2 & Hs3)]] H; [| |by apply H];
    (destruct (has f NETC_PKT_FLAG_RLE); [|done]; by destruct (Hr eq_refl)).
Qed.

Record good_packet (d : netc_ctx_t) (q : Z) (src : list Z) (h : netc_pkt_header_t) (payload : list Z) : Prop := {
  gp_hdr : hdr_ok h;
  gp_size : compressed_size h = zlen payload;
  gp_orig : original_size h = zlen src;
  gp_le : zlen payload <= zlen src;
  gp_model : model_id h = dict_model (c_dict d);
  gp_seq : context_seq h = q;
  gp_dec : decodes_to d src h payload;
  gp_rep : has (c_flags d) NETC_CFG_FLAG_COMPACT_HDR = true -> order2_safe d src ->
           representable (hdr_flags h) (algorithm h)
}.

Definition emitted (c d : netc_ctx_t) (q : Z) (src : list Z) (r : netc_ctx_t * list Z) : Prop :=
  exists h payload k p,
    compress_finish c src h payload k (has (c_flags d) NETC_CFG_FLAG_COMPACT_HDR) p = Ok r /\
    good_packet d q src h payload.

Lemma tracks_model c d q : tracks c d q -> is_byte (dict_model (c_dict d)).
Proof.
  intros [Hsh _ Hq _ _ Hok _]. destruct (shared_fields c d Hsh) as (<- & _). unfold dict_model.
  destruct (c_dict c) as [x|] eqn:E; [|done]. by apply (cok_dict _ Hok _ E).
Qed.

Section Emit.
Context (c d : netc_ctx_t) (q : Z) (src : list Z).
Hypothesis Htr : tracks c d q.
Hypothesis src_len : zlen src <= NETC_MAX_PACKET_SIZE.
Let compact := has (c_flags d) NETC_CFG_FLAG_COMPACT_HDR.

Lemma lz77_emitted f csrc payload k p r :
  delta_of d src f csrc -> zlen payload < zlen src -> lz77_decode payload (zlen csrc) = Ok csrc ->
  (order2_safe d src -> has f NETC_PKT_FLAG_RLE = false) ->
  compress_finish c src (lz77_header src (zlen payload) f (dict_model (c_dict d)) q) payload k compact p = Ok r ->
  emitted c d q src r.
Proof.
  intros Hcs Hl Hdec Hrle H. exists (lz77_header src (zlen payload) f (dict_model (c_dict d)) q), payload, k, p.
  split; [done|]. pose proof (tracks_model _ _ _ Htr) as Hm. pose proof (tr_byte _ _ _ Htr) as Hq.
  pose proof (do_flags _ _ _ _ Hcs) as Hf. unfold lz77_header. rewrite !u16_len by lia.
  assert (zlen src < 65536) by (unfold NETC_MAX_PACKET_SIZE in src_len; lia).
  constructor; cbn [original_size compressed_size model_id context_seq hdr_flags algorithm]; try done; try lia.
  - destruct Hf as [->|[->| ->]]; solve_hdr_ok.
  - pose proof (lz77_decodes_to d src f csrc payload (dict_model (c_dict d)) q src_len Hcs Hdec) as Hd.
    unfold lz77_header in Hd. by rewrite !u16_len in Hd by lia.
  - intros _ Hs. specialize (Hrle Hs). apply representableb_spec. destruct Hf as [->|[->| ->]]; by vm_compute.
Qed.

Lemma lz77x_emitted ring payload k p r :
  c_ring d = Some ring -> 0 < c_ring_size d -> zlen payload < zlen src ->
  lz77x_decode payload (zlen src) (Some ring) (c_ring_size d) (c_ring_pos d) = Ok src ->
  compress_finish c src (lz77x_header src (zlen payload) (dict_model (c_dict d)) q) payload k compact p = Ok r ->
  emitted c d q src r.
Proof.
  intros Hr Hrs Hl Hdec H. exists (lz77x_header src (zlen payload) (dict_model (c_dict d)) q), payload, k, p.
  split; [done|]. pose proof (tracks_model _ _ _ Htr) as Hm. pose proof (tr_byte _ _ _ Htr) as Hq.
  pose proof (lz77x_decodes_to d src ring payload (dict_model (c_dict d)) q src_len Hr Hrs Hdec) as Hd.
  unfold lz77x_header in *. rewrite !u16_len in Hd by lia. rewrite !u16_len by lia.
  assert (zlen src < 65536) by (unfold NETC_MAX_PACKET_SIZE in src_len; lia).
  constructor; cbn [original_size compressed_size model_id context_seq hdr_flags algorithm]; try done; try lia.
  solve_hdr_ok.
Qed.

(** The tANS packets. *)
Context (dict : netc_dict_t) (fl f : Z) (csrc tans_src : list Z) (did_lzp : bool).
Let tables := netc_get_tables c dict.
Hypothesis dict_eq : c_dict c = Some dict.
Hypothesis csrc_ok : delta_of d src f csrc.
Hypothesis filt_ok : filtered (netc_get_lzp_table d) did_lzp csrc tans_src.
Hypothesis size_ok : zlen src < 256 \/ Z.odd (zlen src) = false.

Lemma finish_tans_emitted trial t cap r :
  single_spec dict tables tans_src fl compact t \/ pctx_spec dict tables tans_src fl compact t ->
  zlen (tr_payload t) < zlen src ->
  (forall s, trial = Ok s -> did_lzp = false -> s = tans_src) ->
  (compact = true -> did_lzp = true -> has fl NETC_INTERNAL_NO_X2 = true) ->
  (has f NETC_PKT_FLAG_RLE = true -> tr_mreg t = 0 -> zlen src <= 8) ->
  finish_tans c dict tables src q compact trial t did_lzp f fl cap = Ok r ->
  emitted c d q src r.
Proof.
  intros Hspec Hl Htrial Hnox Hskip H.
  pose proof Htr as [Hsh _ _ Hq _ Hok _]. destruct (shared_fields c d Hsh) as (Hd & _ & _ & _ & _ & _ & _ & _ & Hat & _).
  assert (netc_get_tables d dict = tables) as Htab by (unfold tables, netc_get_tables; by rewrite Hat).
  assert (tables_ok tables) as Htok.
  { unfold tables, netc_get_tables. destruct (c_adapt_tables c) eqn:E.
    - apply (cok_atables _ Hok _ E). congruence.
    - by apply (cok_dict _ Hok _ dict_eq). }
  pose proof (tracks_model _ _ _ Htr) as Hm. assert (d_model_id dict = dict_model (c_dict d)) as Hmod
    by (by rewrite <- Hd, dict_eq).
  assert (c_dict d = Some dict) as Hdd by congruence. pose proof (do_flags _ _ _ _ csrc_ok) as Hf.
  assert (zlen src < 65536) as H65 by (unfold NETC_MAX_PACKET_SIZE in src_len; lia).
  unfold finish_tans in H. rewrite Hmod in H. apply bind_Ok in H as (ten & Hten & H). apply lift_Ok in Hten.
  destruct (match ten with Some p => _ | None => _ end) as [payload u10] eqn:Epay.
  eexists _, payload, cap, 0. split; [exact H|]. clear H.
  (* the 10-bit payload, or the one of [try_tans_compress] *)
  assert (u10 = true /\ zlen payload < zlen (tr_payload t) /\ did_lzp = false /\ tr_mreg t = 0 /\
            has fl NETC_CFG_FLAG_BIGRAM = false /\ try_tans_10 tables (tr_tbl t) tans_src = Ok payload \/
          u10 = false /\ payload = tr_payload t) as Hcase.
  { destruct ten as [p|]; [|injection Epay as <- <-; by right].
    destruct (Z.ltb_spec (zlen p) (zlen (tr_payload t))); injection Epay as <- <-; [left|by right].
    destruct (_ && _) eqn:E in Hten; [|done]. apply andb_prop in E as [[[[_ E2]%andb_prop E3]%andb_prop E4]%andb_prop _].
    apply Z.eqb_eq in E2. apply negb_true_iff in E3, E4. apply bind_Ok in Hten as (s & Hs & Hten).
    rewrite (Htrial s Hs E3) in Hten. apply attempt_Some in Hten. done. }
  assert (zlen payload < zlen src) as Hpl by (destruct Hcase as [(_ & ? & _)|[_ ->]]; lia).
  assert (tr_mreg t = 0 \/ tr_mreg t = 2 \/ tr_mreg t = 3) as Hmr
    by (destruct Hspec as [[]|[]]; tauto).
  assert (0 <= tr_tbl t < NETC_CTX_COUNT) as Hidx
    by (destruct Hspec as [[]|[_ -> _ _]]; [done|unfold NETC_CTX_COUNT; lia]).
  rewrite !u16_len by lia.
  constructor; cbn [original_size compressed_size model_id context_seq hdr_flags algorithm]; try done; try lia.
  - destruct (tans_flags_spec f (tr_mreg t) (negb u10 && tr_x2 t) fl Hf Hmr) as (Hfb & _).
    pose proof (tans_alg_byte u10 did_lzp (tr_mreg t) (tr_tbl t)). solve_hdr_ok.
  - rewrite <- (u16_len src), <- (u16_len payload) by lia.
    destruct Hcase as [(-> & _ & Hnl & Hm0 & Hbg & Hp10)|[-> ->]].
    + destruct Hspec as [Hsp|[[?|[? _]] _ _ _]]; [|lia..]. simpl andb.
      apply (tans10_decodes_to d src dict fl f csrc tans_src did_lzp); rewrite ?Htab; done.
    + simpl andb. destruct Hspec as [Hsp|Hsp].
      * apply (single_decodes_to d src dict fl f csrc tans_src did_lzp); rewrite ?Htab; try done.
        intros Hx. destruct (ss_x2 _ _ _ _ _ _ Hsp Hx) as (_ & _ & Hge).
        destruct (filtered_bytes _ _ _ _ filt_ok (do_bytes _ _ _ _ csrc_ok)) as [_ Htl].
        rewrite (do_len _ _ _ _ csrc_ok) in Htl. destruct size_ok; [lia|done].
      * apply (pctx_decodes_to d src dict fl f csrc tans_src did_lzp); rewrite ?Htab; done.
  - intros Hcm Hsafe. destruct Hspec as [Hsp|Hsp].
    + rewrite (ss_mreg _ _ _ _ _ _ Hsp) in *.
      assert (has f NETC_PKT_FLAG_RLE = false) as Hrle.
      { eapply order2_safe_flags; [exact csrc_ok|exact Hsafe|]. intros H8 _ _.
        destruct (has f NETC_PKT_FLAG_RLE); [|done]. specialize (Hskip eq_refl eq_refl). lia. }
      pose proof (ss_x2 _ _ _ _ _ _ Hsp) as Hx.
      apply rep_single; [done|done|done| | |].
      * intros [_ Hx2]%andb_prop. by apply Hx.
      * intros Hlz. destruct (tr_x2 t); [|by rewrite andb_false_r]. destruct (Hx eq_refl) as (_ & Hn & _).
        rewrite (Hnox Hcm Hlz) in Hn. done.
      * intros ->. destruct Hcase as [(_ & _ & ? & _ & ? & _)|[? _]]; done.
    + destruct Hsp as [Hm2 _ Hx _]. destruct Hcase as [(_ & _ & _ & ? & _)|[-> ->]]; [lia|].
      rewrite Hx. apply rep_pctx; [done|tauto].
Qed.
End Emit.

(** ** The stages of [netc_compress] *)
Section Stages.
Context (c d : netc_ctx_t) (q : Z) (src : list Z).
Hypothesis Htr : tracks c d q.
Hypothesis src_len : zlen src <= NETC_MAX_PACKET_SIZE.
Hypothesis src_bytes : bytes src.
Hypothesis size_ok : zlen src < 256 \/ Z.odd (zlen src) = false.
Let compact := has (c_flags d) NETC_CFG_FLAG_COMPACT_HDR.
Let lzp_table := netc_get_lzp_table c.

Lemma lzp_table_shared : netc_get_lzp_table d = lzp_table.
Proof.
  destruct (shared_fields c d (tr_shared _ _ _ Htr)) as (Hd & _ & _ & _ & _ & _ & _ & _ & _ & Hl).
  unfold lzp_table, netc_get_lzp_table. by rewrite Hd, Hl.
Qed.

Lemma lzp_table_wf lzp : lzp_table = Some lzp -> lzp_table_ok lzp.
Proof.
  unfold lzp_table, netc_get_lzp_table. pose proof (tr_ok _ _ _ Htr) as Hok.
  destruct (c_adapt_lzp c) eqn:E; [intros [= <-]; by apply (cok_alzp _ Hok)|].
  destruct (c_dict c) eqn:Ed; [|done]. intros H. by eapply dok_lzp; [apply (cok_dict _ Hok)|].
Qed.

(** The state of the pre-filters. *)
Record prefiltered (pf : prefilter) (csrc : list Z) : Prop := {
  pf_undo : delta_of d src (pf_flags pf) csrc;
  pf_filt : filtered lzp_table (pf_lzp pf) csrc (pf_src pf);
  pf_dflag : pf_delta pf = has (pf_flags pf) NETC_PKT_FLAG_DELTA;
  pf_excl : pf_delta pf = true -> pf_lzp pf = false;
  pf_arena : pf_delta pf = true -> zlen src <= c_arena_size c;
  pf_where : pf_lzp pf = false -> pf_in_arena pf = pf_delta pf
}.

Lemma no_delta_flags f : base_flags f -> has f NETC_PKT_FLAG_DELTA = false -> f = NETC_PKT_FLAG_DICT_ID.
Proof. by intros [->|[->| ->]]. Qed.

Lemma clear_delta_flags f :
  base_flags f -> Z.ldiff f (Z.lor NETC_PKT_FLAG_DELTA NETC_PKT_FLAG_RLE) = NETC_PKT_FLAG_DICT_ID.
Proof. by intros [->|[->| ->]]. Qed.

Lemma prefilters_spec pf0 pf :
  delta_prepass c src = Ok pf0 -> lzp_prefilter c lzp_table src pf0 = Ok pf -> exists csrc, prefiltered pf csrc.
Proof.
  intros H0 H. destruct (delta_prepass_spec c d q src pf0 Htr src_bytes src_len H0) as (Hd & Hf & Hw & Hl & Har).
  assert (prefiltered pf0 (pf_src pf0)) as Hkeep
    by (constructor; [done|by rewrite Hl|done|done|by intros ?; apply Har|done]).
  unfold lzp_prefilter in H. destruct (c_dict c); [|injection H as <-; eauto].
  destruct lzp_table as [lzp|] eqn:El; [|injection H as <-; eauto].
  case_if_in H; [|injection H as <-; eauto].
  apply bind_Ok in H as (arena & Ha & H). apply bind_Ok in H as (o & [-> _]%store_Ok & [= <-]). exists src.
  assert (pf_flags pf0 = NETC_PKT_FLAG_DICT_ID) as Hfl.
  { apply no_delta_flags; [by apply Hd|congruence]. }
  constructor; cbn [pf_flags pf_lzp pf_src pf_delta]; [|rewrite El|by rewrite Hfl|done|done|done].
  - rewrite Hfl. by apply delta_of_raw.
  - exists lzp. split; [done|]. split; [by apply lzp_table_wf|done].
Qed.

Context (dict : netc_dict_t).
Let tables := netc_get_tables c dict.
Hypothesis dict_eq : c_dict c = Some dict.

Lemma dict_wf : dict_ok dict.
Proof. by apply (cok_dict _ (tr_ok _ _ _ Htr)). Qed.

Lemma tables_wf : tables_ok tables.
Proof.
  pose proof (tr_ok _ _ _ Htr) as Hok. unfold tables, netc_get_tables. destruct (c_adapt_tables c) eqn:E.
  - apply (cok_atables _ Hok _ E). congruence.
  - apply dict_wf.
Qed.

(** A tANS payload in the running. *)
Record candidate (pf : prefilter) (t : tans_result) (fl : Z) (csrc tans_src : list Z) : Prop := {
  cd_undo : delta_of d src (pf_flags pf) csrc;
  cd_filt : filtered lzp_table (pf_lzp pf) csrc tans_src;
  cd_src : pf_lzp pf = false -> pf_src pf = tans_src;
  cd_spec : single_spec dict tables tans_src fl compact t \/ pctx_spec dict tables tans_src fl compact t;
  cd_len : zlen (tr_payload t) < zlen src;
  cd_dflag : pf_delta pf = has (pf_flags pf) NETC_PKT_FLAG_DELTA;
  cd_excl : pf_delta pf = true -> pf_lzp pf = false;
  cd_skip : pf_delta pf = true -> tr_mreg t = 0 -> zlen src <= 8;
  cd_where : pf_lzp pf = false -> pf_in_arena pf = pf_delta pf;
  cd_nox : compact = true -> pf_lzp pf = true -> has fl NETC_INTERNAL_NO_X2 = true
}.

Lemma lzp_compete_spec pf t fl cap csrc tans_src pf' t' fl' :
  candidate pf t fl csrc tans_src ->
  lzp_compete c dict tables lzp_table src compact pf t fl cap = Ok (pf', t', fl') ->
  exists csrc' tans_src', candidate pf' t' fl' csrc' tans_src'.
Proof.
  intros Hc H. unfold lzp_compete in H. destruct lzp_table as [lzp|] eqn:El; [|injection H as <- <- <-; eauto].
  case_if_in H; [|injection H as <- <- <-; eauto].
  apply bind_Ok in H as (trial & Htrial & H). apply bind_Ok in H as (o & [-> _]%store_Ok & H).
  apply bind_Ok in H as (r & Hr & H).
  destruct r as [t2|]; [|simplify_eq; eauto]. case_if_in H; [|simplify_eq; eauto].
  apply bind_Ok in H as (o & _ & [= <- <- <-]). apply trial_Some in Hr as [Hr _]. exists src, trial.
  pose proof (lzp_table_wf lzp El) as Hlz. destruct (lzp_filter_bytes lzp src trial Hlz src_bytes Htrial) as (Hl & Hb & _).
  destruct Hc as [Hu _ _ _ Hlen Hdf _ _ _ _].
  set (lzp_ctx := Z.lor (Z.lor _ _) _) in *.
  destruct (tans_compress_spec dict tables trial lzp_ctx compact dict_wf tables_wf Hb 520 t2) as [Hspec _];
    [lia|done|].
  constructor; cbn [pf_flags pf_lzp pf_src pf_delta]; try done; try lia.
  - rewrite clear_delta_flags by apply Hu. by apply delta_of_raw.
  - rewrite El. by exists lzp.
  - rewrite clear_delta_flags by apply Hu. done.
  - intros Hcm _. unfold lzp_ctx. rewrite Hcm, !has_lor. by rewrite orb_true_r.
Qed.

(** A payload of the within-packet LZ77 competition. *)
Lemma lz77_compete_spec pf t fl csrc tans_src hdr_sz cap dirty payload :
  candidate pf t fl csrc tans_src -> lz77_compete c src pf t hdr_sz cap = Ok (dirty, Some payload) ->
  zlen payload < zlen src /\ lz77_decode payload (zlen csrc) = Ok csrc /\ has (pf_flags pf) NETC_PKT_FLAG_RLE = false.
Proof.
  intros Hc H. destruct Hc as [Hu Hf Hs _ _ Hdf Hex _ _ _]. unfold lz77_compete in H.
  destruct (_ && _) in H; [|done].
  destruct (negb (pf_delta pf) && (zlen src <=? c_arena_size c)) eqn:EA.
  - apply andb_prop in EA as [EA _]. apply negb_true_iff in EA.
    assert (csrc = src /\ has (pf_flags pf) NETC_PKT_FLAG_RLE = false) as [-> Hr].
    { rewrite EA in Hdf. pose proof (do_undo _ _ _ _ Hu) as Hd.
      rewrite (no_delta_flags _ (do_flags _ _ _ _ Hu)) in * by done. by injection Hd. }
    apply bind_Ok in H as (r & Hr' & H). injection H as _ H. destruct r as [out|]; [|done].
    case_if_in H; [|done]. injection H as ->. by apply trial_Some in Hr' as [[? ?]%lz77_encode_Ok _].
  - destruct (pf_delta pf && (zlen src <=? 1024) && negb (has (pf_flags pf) NETC_PKT_FLAG_RLE)) eqn:EB; [|done].
    apply andb_prop in EB as [[EB _]%andb_prop ER]. apply negb_true_iff in ER.
    assert (pf_src pf = csrc) as Hps.
    { specialize (Hex EB). rewrite Hs by done. unfold filtered in Hf. by rewrite Hex in Hf. }
    rewrite Hps in H. case_if_in H; [done|]. apply bind_Ok in H as (o & _ & H).
    apply bind_Ok in H as (r & Hr' & H). injection H as _ H.
    destruct r as [out|]; [|done]. case_if_in H; [|done]. injection H as ->.
    apply attempt_Some, lz77_encode_Ok in Hr' as [Hl ?]; [|by apply Hu].
    split; [|done]. pose proof (do_len _ _ _ _ Hu). lia.
Qed.

Lemma lz77x_encode_Ok ring pos prev cap out :
  c_ring c = Some ring ->
  lz77x_encode src (Some ring) (c_ring_size c) pos prev cap = Ok out ->
  zlen out < zlen src /\ lz77x_decode out (zlen src) (Some ring) (c_ring_size c) pos = Ok src.
Proof.
  intros Hr H. destruct (cok_ring _ (tr_ok _ _ _ Htr) _ Hr) as (Hrok & _ & _).
  destruct (lz77x_encode_spec src ring (c_ring_size c) pos prev cap) as [H'|(o & H' & _ & Hl & Hd)];
    [done|unfold NETC_MAX_PACKET_SIZE in src_len; lia|done|congruence|].
  rewrite H in H'. by injection H' as <-.
Qed.

(** A payload of the cross-packet competition, and what it is emitted as. *)
Lemma lzx_emitted ring cap payload k p r :
  c_ring c = Some ring -> 0 < c_ring_size c ->
  lz77x_encode src (Some ring) (c_ring_size c) (c_ring_pos c) (u32 (c_prev_pkt_size c)) cap = Ok payload ->
  compress_finish c src (lz77x_header src (zlen payload) (dict_model (c_dict d)) q) payload k compact p = Ok r ->
  emitted c d q src r.
Proof.
  intros Hr Hrs Henc H. apply (lz77x_encode_Ok ring) in Henc as [Hl Hdec]; [|done].
  destruct (shared_fields c d (tr_shared _ _ _ Htr)) as (_ & Hring & Hrsz & Hrp & _).
  rewrite Hrsz, Hrp in Hdec. eapply (lz77x_emitted c d q src Htr src_len ring); [congruence|lia|done|done|exact H].
Qed.

Lemma lzx_compete_spec psize hdr_sz cap dirty payload :
  lzx_compete c src psize hdr_sz cap = Ok (dirty, Some payload) ->
  exists ring, c_ring c = Some ring /\ 0 < c_ring_size c /\
    lz77x_encode src (Some ring) (c_ring_size c) (c_ring_pos c) (u32 (c_prev_pkt_size c)) (c_arena_size c) = Ok payload.
Proof.
  unfold lzx_compete. destruct (c_ring c) as [ring|]; [|done]. destruct (_ && _) eqn:E; [|done].
  apply andb_prop in E as [[[[E _]%andb_prop _]%andb_prop _]%andb_prop _]. apply Z.ltb_lt in E.
  intros (r & Hr & H)%bind_Ok. injection H as _ H. destruct r as [out|]; [|done].
  case_if_in H; [|done]. injection H as ->. apply trial_Some in Hr as [Hr _]. by exists ring.
Qed.

Lemma model_eq : d_model_id dict = dict_model (c_dict d).
Proof. destruct (shared_fields c d (tr_shared _ _ _ Htr)) as (<- & _). by rewrite dict_eq. Qed.

(** The coding flags of the first trial. *)
Definition tans_flags (pf : prefilter) : Z :=
  let flags := if pf_lzp pf && compact then Z.lor (c_flags c) NETC_INTERNAL_NO_X2 else c_flags c in
  if pf_delta pf || pf_lzp pf || has (c_flags c) NETC_CFG_FLAG_FAST_COMPRESS
  then Z.lor flags NETC_INTERNAL_SKIP_SR else flags.

Lemma candidate_intro pf csrc t cap :
  prefiltered pf csrc -> 0 <= cap ->
  try_tans_compress dict tables (pf_src pf) cap (tans_flags pf) compact = Ok t ->
  zlen (tr_payload t) < zlen src -> candidate pf t (tans_flags pf) csrc (pf_src pf).
Proof.
  intros [Hu Hf Hdf Hex _ Hw] Hcap Ht Hl.
  destruct (filtered_bytes _ _ _ _ Hf (do_bytes _ _ _ _ Hu)) as [Hpb Hpl].
  destruct (tans_compress_spec dict tables (pf_src pf) (tans_flags pf) compact dict_wf tables_wf Hpb cap t)
    as [Hspec Hskip]; [done|done|].
  constructor; try done.
  - intros Hd Hm. rewrite <- (do_len _ _ _ _ Hu), <- Hpl. apply Hskip; [|done]. unfold tans_flags.
    rewrite Hd. simpl orb. cbv iota. rewrite has_lor. by rewrite orb_true_r.
  - intros Hcm Hl'. unfold tans_flags. rewrite Hl', Hcm, orb_true_r. simpl andb. simpl orb. cbv iota. rewrite !has_lor.
    change (has NETC_INTERNAL_NO_X2 NETC_INTERNAL_NO_X2) with true. by rewrite orb_true_r.
Qed.

Lemma tans_block_emitted pf csrc cap hdr_sz r :
  prefiltered pf csrc ->
  tans_block c dict tables lzp_table src cap hdr_sz q compact pf = Ok (Some r) -> emitted c d q src r.
Proof.
  intros Hpre H. pose proof Hpre as [Hu Hf Hdf Hex _ Hw]. unfold tans_block in H. destruct (Z.ltb_spec cap hdr_sz); [done|].
  fold (tans_flags pf) in H. set (fl0 := tans_flags pf) in *.
  apply bind_Ok in H as (r0 & Hr0 & H). destruct r0 as [t|]; [|done]. apply attempt_Some in Hr0.
  destruct (negb (zlen (tr_payload t) <? zlen src)) eqn:El; [done|]. apply negb_false_iff, Z.ltb_lt in El.
  apply bind_Ok in H as ([[pf1 t1] fl1] & Hcomp & H). apply lift_Ok in Hcomp.
  pose proof (candidate_intro pf csrc t (cap - hdr_sz) Hpre ltac:(lia) Hr0 El) as Hcand.
  destruct (lzp_compete_spec _ _ _ _ _ _ _ _ _ Hcand Hcomp) as (csrc1 & tans1 & Hc1). clear Hcand Hcomp Hr0.
  apply bind_Ok in H as ([dirty lz] & Hlz & H). apply lift_Ok in Hlz. rewrite model_eq in H.
  destruct lz as [payload|].
  - apply bind_Ok in H as (r' & H & [= ->]).
    destruct (lz77_compete_spec _ _ _ _ _ _ _ _ _ Hc1 Hlz) as (Hl & Hdec & Hr).
    eapply lz77_emitted; [done|done|apply Hc1|done|done|done|exact H].
  - apply bind_Ok in H as ([dirty' lzx] & Hlzx & H). apply lift_Ok in Hlzx. destruct lzx as [payload|].
    + apply bind_Ok in H as (r' & H & [= ->]).
      destruct (lzx_compete_spec _ _ _ _ _ Hlzx) as (ring & Hring & Hrs & Henc). by eapply lzx_emitted.
    + apply bind_Ok in H as (r' & H & [= ->]). destruct Hc1.
      eapply (finish_tans_emitted c d q src Htr src_len dict fl1 (pf_flags pf1) csrc1 tans1 (pf_lzp pf1));
        [done|done|by rewrite lzp_table_shared|done|done|done| |done| |exact H].
      2: { intros Hr. apply cd_skip0. rewrite cd_dflag0.
           destruct (do_flags _ _ _ _ cd_undo0) as [E|[E|E]]; rewrite E in Hr |- *; done. }
      intros s Hs Hnl. unfold read_compress_src in Hs. case_if_in Hs; [done|]. injection Hs as <-. auto.
Qed.

Lemma raw_block_emitted cap hdr_sz r :
  raw_block c dict tables lzp_table src cap hdr_sz q compact = Ok (Some r) -> emitted c d q src r.
Proof.
  intros H. unfold raw_block in H. destruct (Z.ltb_spec cap hdr_sz); [done|].
  apply bind_Ok in H as ([[raw_src flz] fl] & Hraw & H). apply lift_Ok in Hraw.
  assert (filtered lzp_table flz src raw_src /\
          (compact = true -> flz = true -> has fl NETC_INTERNAL_NO_X2 = true)) as [Hf Hnx].
  { destruct lzp_table as [lzp|] eqn:El; [|by injection Hraw as <- <- <-].
    case_if_in Hraw; [|by injection Hraw as <- <- <-]. apply bind_Ok in Hraw as (arena & Ha & (o & [-> _]%store_Ok & [= <- <- <-])%bind_Ok).
    split; [exists lzp; split; [done|]; split; [by apply lzp_table_wf|done]|].
    intros -> _. rewrite has_lor. change (has NETC_INTERNAL_NO_X2 NETC_INTERNAL_NO_X2) with true.
    by rewrite orb_true_r. }
  apply bind_Ok in H as (r0 & Hr0 & H). destruct r0 as [t|]; [|done]. apply attempt_Some in Hr0.
  destruct (filtered_bytes _ _ _ _ Hf src_bytes) as [Hpb Hpl].
  destruct (tans_compress_spec dict tables raw_src fl compact dict_wf tables_wf Hpb (cap - hdr_sz) t)
    as [Hspec _]; [lia|done|].
  destruct (negb (zlen (tr_payload t) <? zlen src)) eqn:El; [done|]. apply negb_false_iff, Z.ltb_lt in El.
  apply bind_Ok in H as ([dirty lzx] & Hlzx & H). apply lift_Ok in Hlzx. rewrite model_eq in H.
  destruct lzx as [payload|].
  - apply bind_Ok in H as (r' & H & [= ->]).
    destruct (lzx_compete_spec _ _ _ _ _ Hlzx) as (ring & Hring & Hrs & Henc). by eapply lzx_emitted.
  - apply bind_Ok in H as (r' & H & [= ->]).
    eapply (finish_tans_emitted c d q src Htr src_len dict fl NETC_PKT_FLAG_DICT_ID src raw_src flz);
      [done|by apply delta_of_raw|by rewrite lzp_table_shared|done|done|done| |done|done|exact H].
    intros s Hs ->. by injection Hs as <-.
Qed.
End Stages.

Section Tail.
Context (c d : netc_ctx_t) (q : Z) (src : list Z).
Hypothesis Htr : tracks c d q.
Hypothesis src_len : zlen src <= NETC_MAX_PACKET_SIZE.
Hypothesis src_bytes : bytes src.
Let compact := has (c_flags d) NETC_CFG_FLAG_COMPACT_HDR.

Lemma lz77_block_emitted f csrc cap hdr_sz r :
  delta_of d src f csrc -> (order2_safe d src -> has f NETC_PKT_FLAG_RLE = false) ->
  lz77_block c src csrc cap hdr_sz q f compact = Ok (Some r) -> emitted c d q src r.
Proof.
  intros Hu Hsafe H. unfold lz77_block in H. case_if_in H; [done|].
  assert (match c_dict c with Some d0 => d_model_id d0 | None => 0 end = dict_model (c_dict d)) as Hm.
  { destruct (shared_fields c d (tr_shared _ _ _ Htr)) as (<- & _). done. }
  rewrite Hm in H. apply bind_Ok in H as (lz & Hlz & H).
  destruct (shorter src lz) as [payload|] eqn:Es.
  - unfold shorter in Es. destruct lz as [out|]; [|done]. case_if_in Es; [|done]. injection Es as ->.
    apply attempt_Some, lz77_encode_Ok in Hlz as [_ Hdec]; [|by apply Hu].
    apply bind_Ok in H as (r' & H & [= ->]).
    by eapply (lz77_emitted c d q src Htr src_len f csrc).
  - destruct (c_ring c) as [ring|] eqn:Er; [|done]. destruct (_ && _) eqn:E2 in H; [|done].
    apply andb_prop in E2 as [[_ E2]%andb_prop _]. apply Z.ltb_lt in E2.
    apply bind_Ok in H as (lzx & Hlzx & H). destruct (shorter src lzx) as [payload|] eqn:Ex; [|done].
    unfold shorter in Ex. destruct lzx as [out|]; [|done]. case_if_in Ex; [|done]. injection Ex as ->.
    apply attempt_Some in Hlzx. apply bind_Ok in H as (r' & H & [= ->]).
    by eapply (lzx_emitted c d q src Htr src_len src_bytes ring).
Qed.

(** The passthrough stage ends like the others, in another order. *)
Lemma passthrough_emitted cap e' pkt :
  passthrough_block c src cap q compact = Ok (e', Ok pkt) ->
  advance src (shared c) = Ok (shared e') /\ same_frame c e' /\
  (exists p, c_stats e' = c_stats (stats_compressed c (zlen src) (zlen pkt) p)) /\
  exists h, pkt = netc_hdr_emit h compact ++ src /\ good_packet d q src h src.
Proof.
  intros H. unfold passthrough_block in H. apply bind_Ok in H as (c1 & H1 & H).
  apply bind_Ok in H as (c2 & H2 & H).
  destruct (emit_passthrough (Some c2) (c_dict c2) src cap q compact) as [[c3 packet]| |] eqn:Ee; [|done..].
  apply bind_Ok in H as (c4 & H4 & [= <- <-]). unfold emit_passthrough in Ee.
  apply bind_Ok in Ee as (o & [-> _]%store_Ok & Ee). case_if_in Ee; [done|].
  apply bind_Ok in Ee as (o & [-> _]%put_Ok & [= <- <-]). simpl default in H4.
  set (h := PktHeader _ _ _ _ _ _) in *. set (n := zlen _ + zlen src) in *.
  assert ((c' ← @compress_update_prev netc_result_t c src; ctx_ring_append c' src) = Ok c2) as H12
    by (by rewrite H1).
  destruct (stats_compressed_frame c2 (zlen src) n 1) as [Hs Hf].
  pose proof (framed_stats (fun c => ctx_learn c src) _ _ H4) as St4.
  pose proof (framed_stats (fun c => c1 ← compress_update_prev c src; ctx_ring_append c1 src) _ _ H12) as St12.
  apply (framed_Ok (fun c => c1 ← compress_update_prev c src; ctx_ring_append c1 src)) in H12 as [H12 Hf12].
  apply (framed_Ok (fun c => ctx_learn c src)) in H4 as [H4 Hf4].
  split; [unfold advance; rewrite H12; mstep; by rewrite <- Hs|].
  split; [by eapply same_frame_trans; [|eapply same_frame_trans]|].
  split; [exists 1; rewrite St4, length_app, Nat2Z.inj_add; apply stats_compressed_ext; [apply Hf12|done]|]. exists h. split; [done|].
  assert (c_dict c2 = c_dict d) as Hcd.
  { destruct (shared_fields c d (tr_shared _ _ _ Htr)) as (<- & _).
    rewrite update_prev_step in H1. apply bind_Ok in H1 as (hp & _ & [= <-]).
    rewrite ring_append_step in H2. apply bind_Ok in H2 as (hr & _ & [= <-]). by destruct c. }
  pose proof (tracks_model _ _ _ Htr) as Hm. pose proof (tr_byte _ _ _ Htr) as Hq.
  pose proof (raw_decodes_to d src (dict_model (c_dict d)) q src_len) as Hd.
  assert (zlen src < 65536) by (unfold NETC_MAX_PACKET_SIZE in src_len; lia).
  assert (h = PktHeader (zlen src) (zlen src) (Z.lor NETC_PKT_FLAG_PASSTHRU NETC_PKT_FLAG_DICT_ID)
                NETC_ALG_PASSTHRU (dict_model (c_dict d)) q) as -> by (unfold h; rewrite u16_len, Hcd by done; done).
  rewrite u16_len in Hd by done.
  constructor; cbn [original_size compressed_size model_id context_seq hdr_flags algorithm]; try done; try lia.
  solve_hdr_ok.
Qed.
End Tail.

(** ** One packet *)

(** A good packet decodes, and the decoder follows. *)
Lemma good_packet_decodes c d q src h payload dst e' :
  tracks c d q -> good_packet d q src h payload -> zlen src <= zlen dst ->
  (has (c_flags d) NETC_CFG_FLAG_COMPACT_HDR = true -> order2_safe d src) ->
  advance src (shared c) = Ok (shared e') -> same_frame c e' ->
  exists d', netc_decompress_ctx d
      (netc_hdr_emit h (has (c_flags d) NETC_CFG_FLAG_COMPACT_HDR) ++ payload) dst = Ok (d', src) /\
    sync e' d' /\ c_simd_ops d' = c_simd_ops d.
Proof.
  intros Htr [Hh Hsz Ho _ Hm Hq Hdec Hrep] Hdst Hsafe Ha (F1 & _ & F3).
  rewrite decompress_emit; [|done|done|lia|by auto|done|by rewrite (tr_dec_seq _ _ _ Htr)].
  destruct (Hdec dst (zlen (netc_hdr_emit h (has (c_flags d) NETC_CFG_FLAG_COMPACT_HDR) ++ payload)) Hdst) as [p ->].
  rewrite (tr_shared _ _ _ Htr) in Ha.
  destruct (decomp_finish_advance d h src
    (zlen (netc_hdr_emit h (has (c_flags d) NETC_CFG_FLAG_COMPACT_HDR) ++ payload)) p _ Ha)
    as (d' & Hd' & Hs' & Hq' & Hf' & Hops).
  exists d'. split; [exact Hd'|]. split; [|done]. split; [by rewrite Hs', shared_shared|].
  rewrite Hq', F3, Hf', F1, (tr_enc_seq _ _ _ Htr), Hq. split; [done|]. apply (tr_compact _ _ _ Htr).
Qed.

(** What a successful call did: the history step, and a good packet. *)
Definition compressed (c d : netc_ctx_t) (q : Z) (src : list Z) (e' : netc_ctx_t) (pkt : list Z) : Prop :=
  advance src (shared c) = Ok (shared e') /\ same_frame c e' /\
  (exists p, c_stats e' = c_stats (stats_compressed c (zlen src) (zlen pkt) p)) /\
  exists h payload, pkt = netc_hdr_emit h (has (c_flags d) NETC_CFG_FLAG_COMPACT_HDR) ++ payload /\
    good_packet d q src h payload.

Lemma emitted_compressed c d q src e' pkt : emitted c d q src (e', pkt) -> compressed c d q src e' pkt.
Proof.
  intros (h & payload & k & p & Hfin & Hgood).
  destruct (compress_finish_advance _ _ _ _ _ _ _ _ _ Hfin) as (-> & _ & Ha & Hfr).
  split; [done|]. split; [done|]. split; [exists p; by eapply compress_finish_stats|]. by exists h, payload.
Qed.

Lemma stages_compressed c d q src cap e' pkt :
  tracks c d q -> bytes src -> zlen src <= NETC_MAX_PACKET_SIZE ->
  (zlen src < 256 \/ Z.odd (zlen src) = false) ->
  compress_stages c src cap q = Ok (e', Ok pkt) -> compressed c d q src e' pkt.
Proof.
  intros Htr Hb Hs Hodd H. unfold compress_stages in H. rewrite (tr_compact _ _ _ Htr) in H.
  apply bind_Ok in H as (pf0 & H0 & H). apply lift_Ok in H0.
  apply bind_Ok in H as (pf & Hpf & H). apply lift_Ok in Hpf.
  destruct (prefilters_spec c d q src Htr Hs Hb pf0 pf H0 Hpf) as (csrc & Hpre).
  apply bind_Ok in H as (r1 & H1 & H). destruct r1 as [[c1 p1]|].
  { injection H as <- <-. destruct (c_dict c) as [dict|] eqn:Ed; [|done]. case_if_in H1; [|done].
    apply emitted_compressed.
    eapply (tans_block_emitted c d q src Htr Hs Hb Hodd dict Ed); [exact Hpre|exact H1]. }
  apply bind_Ok in H as (r2 & H2 & H). destruct r2 as [[c2 p2]|].
  { injection H as <- <-. destruct (c_dict c) as [dict|] eqn:Ed; [|done]. case_if_in H2; [|done].
    apply emitted_compressed.
    eapply (raw_block_emitted c d q src Htr Hs Hb Hodd dict Ed). exact H2. }
  clear H1 H2. destruct Hpre as [Hu Hf Hdf Hex Har _].
  destruct (match c_dict c, _ with Some _, Some _ => _ | _, _ => false end) eqn:Eov; cbv beta iota zeta in H.
  - rewrite clear_delta_flags in H by apply Hu. apply bind_Ok in H as (r3 & H3 & H). destruct r3 as [[c3 p3]|].
    + injection H as <- <-. apply emitted_compressed.
      by eapply (lz77_block_emitted c d q src Htr Hs Hb _ src); [by apply delta_of_raw|done|].
    + destruct (passthrough_emitted c d q src Htr Hs cap e' pkt H) as (Ha & Hfr & Hst & h & -> & Hg).
      split; [done|]. split; [done|]. split; [done|]. by exists h, src.
  - apply bind_Ok in H as (r3 & H3 & H). destruct r3 as [[c3 p3]|].
    + injection H as <- <-. apply emitted_compressed.
      assert ((if pf_lzp pf then src else pf_src pf) = csrc) as Hsrc.
      { unfold filtered in Hf. destruct (pf_lzp pf) eqn:El; [|done].
        assert (pf_delta pf = false) as Hpd by (destruct (pf_delta pf); [by specialize (Hex eq_refl)|done]).
        rewrite Hpd in Hdf. pose proof (do_undo _ _ _ _ Hu) as Hd.
        rewrite (no_delta_flags _ (do_flags _ _ _ _ Hu)) in Hd by done. by injection Hd. }
      rewrite Hsrc in H3. eapply (lz77_block_emitted c d q src Htr Hs Hb _ csrc); [done| |exact H3].
      intros Hsf. eapply order2_safe_flags; [done|done|]. intros _ Hd Hl.
      destruct (has (pf_flags pf) NETC_PKT_FLAG_RLE) eqn:Er; [|done]. exfalso.
      rewrite (lzp_table_shared c d q Htr) in Hl.
      destruct (shared_fields c d (tr_shared _ _ _ Htr)) as (Hcd & _). rewrite <- Hcd in Hd.
      destruct (c_dict c); [|done]. destruct (netc_get_lzp_table c); [|done].
      assert (pf_delta pf = true) as Hpd.
      { rewrite Hdf. destruct (do_flags _ _ _ _ Hu) as [E|[E|E]]; rewrite E in Er |- *; done. }
      rewrite Hpd in Eov. simpl andb in Eov. apply Z.leb_gt in Eov. specialize (Har Hpd). lia.
    + destruct (passthrough_emitted c d q src Htr Hs cap e' pkt H) as (Ha & Hfr & Hst & h & -> & Hg).
      split; [done|]. split; [done|]. split; [done|]. by exists h, src.
Qed.
