(* ===== verification/Session.v ===== *)
(** * Sessions

    Freshly created contexts are synchronised and well formed; packets and whole
    sessions round-trip. *)

From stdpp Require Import prelude.
From Stdlib Require Import ZArith Lia.
From S2P Require Import Prelude TansTable Bitstream TansCodec Lzp Freq Delta Crc32 Simd Header Lz Ctx.
From S2P Require Import Decompress Compress Payload Packets Sync Stages.

Local Open Scope Z_scope.

(** ** The API *)

Lemma sync_tracks e d :
  sync e d -> ctx_ok e -> ctx_ok d -> tracks (set_seq e (u8 (c_context_seq e + 1))) d (c_context_seq e).
Proof.
  intros (Hs & Hq & Hc) He Hd. constructor.
  - by rewrite shared_set_seq.
  - by destruct e.
  - done.
  - apply (cok_seq _ He).
  - rewrite <- Hc. by destruct e.
  - apply (ctx_ok_shared e); [done|by rewrite shared_set_seq|destruct e; apply He|].
    destruct e. simpl. apply u8_range.
  - apply (cok_simd _ Hd).
Qed.

Lemma compress_inv e src cap r :
  netc_compress (Some e) (Some src) (Some cap) false = Ok r ->
  zlen src <= NETC_MAX_PACKET_SIZE /\
  compress_stages (set_seq e (u8 (c_context_seq e + 1))) src cap (c_context_seq e) = Ok r.
Proof.
  unfold netc_compress, netc_compress_ctx. cbv iota.
  destruct (Z.ltb_spec NETC_MAX_PACKET_SIZE (zlen src)); [done|]. by destruct (cap <? _).
Qed.

Lemma order2_safe_sync e d src : sync e d -> order2_safe e src -> order2_safe d src.
Proof.
  intros (Hs & _). destruct (shared_fields e d Hs) as (Hd & _ & _ & _ & _ & _ & Hp2 & Hp2s & _ & Hal).
  unfold order2_safe, netc_get_lzp_table. by rewrite Hd, Hp2, Hp2s, Hal.
Qed.

(** One packet: it decodes, the ends stay synchronised and well formed. *)
Lemma packet_roundtrip e d src cap e' pkt dst :
  sync e d -> ctx_ok e -> ctx_ok d -> bytes src -> zlen src <= zlen dst ->
  (zlen src < 256 \/ Z.odd (zlen src) = false) ->
  (has (c_flags e) NETC_CFG_FLAG_COMPACT_HDR = true -> order2_safe e src) ->
  netc_compress (Some e) (Some src) (Some cap) false = Ok (e', Ok pkt) ->
  exists d', netc_decompress (Some d) (Some pkt) (Some dst) false = Ok (d', src) /\
    sync e' d' /\ ctx_ok e' /\ ctx_ok d' /\ advance src (shared e) = Ok (shared e') /\
    has (c_flags e') NETC_CFG_FLAG_COMPACT_HDR = has (c_flags e) NETC_CFG_FLAG_COMPACT_HDR.
Proof.
  intros Hsync He Hd Hb Hdst Hodd Hsafe H. apply compress_inv in H as [Hs H].
  pose proof (sync_tracks e d Hsync He Hd) as Htr.
  destruct (stages_compressed _ d _ src cap e' pkt Htr Hb Hs Hodd H) as (Ha & Hfr & _ & h & payload & -> & Hg).
  destruct (good_packet_decodes _ d _ src h payload dst e' Htr Hg Hdst) as (d' & Hdec & Hsync' & Hops); [|done|done|].
  { intros Hc. apply (order2_safe_sync e); [done|]. apply Hsafe. by destruct Hsync as (_ & _ & ->). }
  exists d'. split; [exact Hdec|]. split; [done|].
  rewrite shared_set_seq in Ha.
  destruct (advance_ok (shared e) src) as (s & Hs' & Hsok); [|done|done|].
  { apply (ctx_ok_shared e); [done|by rewrite shared_shared|by destruct e; apply _|by destruct e]. }
  rewrite Ha in Hs'. injection Hs' as <-. destruct Hfr as (F1 & F2 & F3), Hsync' as (S1 & S2 & S3).
  assert (ctx_ok e') as He'.
  { apply (ctx_ok_shared (shared e')); [done|by rewrite shared_shared| |].
    - rewrite F2. destruct e. apply He.
    - rewrite F3. destruct e. apply u8_range. }
  split; [done|]. split; [|split; [done|rewrite F1; by destruct e]].
  apply (ctx_ok_shared e'); [done|done|rewrite Hops; apply Hd|rewrite <- S2; apply He'].
Qed.

(** A session: the packets of a sequence of messages. *)
Fixpoint compress_all (e : netc_ctx_t) (cap : Z) (msgs : list (list Z)) : result (netc_ctx_t * list (list Z)) :=
  match msgs with
  | [] => Ok (e, [])
  | m :: msgs' =>
      '(e1, r) ← netc_compress (Some e) (Some m) (Some cap) false;
      pkt ← r;
      '(e2, pkts) ← compress_all e1 cap msgs';
      Ok (e2, pkt :: pkts)
  end.

(** [dst] is the receive buffer of every call. *)
Fixpoint decompress_all (d : netc_ctx_t) (dst : list Z) (pkts : list (list Z)) : result (netc_ctx_t * list (list Z)) :=
  match pkts with
  | [] => Ok (d, [])
  | p :: pkts' =>
      '(d1, m) ← netc_decompress (Some d) (Some p) (Some dst) false;
      '(d2, msgs) ← decompress_all d1 dst pkts';
      Ok (d2, m :: msgs)
  end.

(** Messages whose packets round-trip at any point of a session. *)
Definition message_ok (dst m : list Z) : Prop :=
  bytes m /\ zlen m <= zlen dst /\ (zlen m < 256 \/ Z.odd (zlen m) = false).

Lemma advance_no_prev2 s s' data : advance data s = Ok s' -> c_prev2_pkt s = None -> c_prev2_pkt s' = None.
Proof.
  intros H Hn. unfold advance in H. apply bind_Ok in H as (c2 & H12 & H3). apply bind_Ok in H12 as (c1 & H1 & H2).
  assert (c_prev2_pkt c2 = None) as Hn2.
  { rewrite update_prev_step in H1. apply bind_Ok in H1 as (hp & Hhp & [= <-]).
    rewrite ring_append_step in H2. apply bind_Ok in H2 as (hr & _ & [= <-]).
    destruct s. simpl in *. subst. unfold prev_step in Hhp. destruct c_prev_pkt; [|by injection Hhp as <-].
    mstep. simpl in Hhp. apply bind_Ok in Hhp as (p' & _ & [= <-]). done. }
  unfold ctx_learn in H3. apply bind_Ok in H3 as (c3 & H3 & H4). apply lift_Ok in H3.
  apply bind_Ok in H4 as (l & _ & [= <-]).
  assert (c_prev2_pkt c3 = None); [|by destruct c3].
  unfold netc_adaptive_update in H3. destruct (c_adapt_freq c2); [|by injection H3 as <-].
  apply bind_Ok in H3 as ([f t] & _ & H3). case_if_in H3; [|injection H3 as <-; by destruct c2].
  apply bind_Ok in H3 as (c4 & H4 & [= <-]). assert (c_prev2_pkt c4 = None); [|by destruct c4].
  unfold netc_adaptive_tables_rebuild in H4. destruct c2. simpl in *.
  destruct c_adapt_tables; [|by injection H4 as <-]. destruct c_dict; [|by injection H4 as <-].
  apply bind_Ok in H4 as (ts & _ & [= <-]). done.
Qed.

Lemma session_roundtrip_gen e d cap dst msgs e' pkts :
  sync e d -> ctx_ok e -> ctx_ok d -> Forall (message_ok dst) msgs ->
  (has (c_flags e) NETC_CFG_FLAG_COMPACT_HDR = false \/ c_prev2_pkt e = None) ->
  compress_all e cap msgs = Ok (e', pkts) ->
  exists d', decompress_all d dst pkts = Ok (d', msgs) /\ sync e' d'.
Proof.
  intros Hsync He Hd Hmsgs. revert e d e' pkts Hsync He Hd.
  induction Hmsgs as [|m msgs (Hb & Hl & Hodd) Hmsgs IH]; intros e d e' pkts Hsync He Hd Hp2 H; simpl in H.
  { injection H as <- <-. by exists d. }
  apply bind_Ok in H as ([e1 r] & H1 & H). apply bind_Ok in H as (pkt & -> & H).
  apply bind_Ok in H as ([e2 ps] & H2 & [= <- <-]).
  destruct (packet_roundtrip e d m cap e1 pkt dst) as (d1 & Hdec & Hsync1 & He1 & Hd1 & Ha & Hc); try done.
  { intros Hc. left. destruct Hp2; congruence. }
  destruct (IH e1 d1 e2 ps) as (d2 & Hall & Hsync2); try done.
  { rewrite Hc. destruct Hp2 as [?|Hp2]; [by left|right].
    assert (forall c, c_prev2_pkt (shared c) = c_prev2_pkt c) as Hsh by (by intros []).
    rewrite <- Hsh. eapply advance_no_prev2; [exact Ha|]. by rewrite Hsh. }
  exists d2. split; [|done]. cbn [decompress_all]. rewrite Hdec. mstep. rewrite Hall. done.
Qed.

(** ** Freshly created contexts *)

(** Two configurations that agree on what the packets depend on. *)
Definition cfg_compatible (a b : netc_cfg_t) : Prop :=
  has (cfg_flags a) NETC_CFG_FLAG_STATEFUL = has (cfg_flags b) NETC_CFG_FLAG_STATEFUL /\
  has (cfg_flags a) NETC_CFG_FLAG_ADAPTIVE = has (cfg_flags b) NETC_CFG_FLAG_ADAPTIVE /\
  has (cfg_flags a) NETC_CFG_FLAG_COMPACT_HDR = has (cfg_flags b) NETC_CFG_FLAG_COMPACT_HDR /\
  cfg_ring_buffer_size a = cfg_ring_buffer_size b.

(** Every allocation succeeds. *)
Definition mem_ok (k : nat) : bool := true.

Lemma create_sync cpu1 cpu2 dict cfg1 cfg2 e d :
  cfg_compatible cfg1 cfg2 ->
  netc_ctx_create cpu1 mem_ok dict (Some cfg1) = Some e ->
  netc_ctx_create cpu2 mem_ok dict (Some cfg2) = Some d -> sync e d.
Proof.
  intros (Hs & Ha & Hc & Hr) He Hd. unfold netc_ctx_create in *. simpl default in *. rewrite Hs, Ha, Hr in He.
  unfold mem_ok in *.
  destruct (has (cfg_flags cfg2) NETC_CFG_FLAG_STATEFUL), (has (cfg_flags cfg2) NETC_CFG_FLAG_ADAPTIVE);
    cbn [negb andb] in *; cbv iota in *; try done;
    apply (inj Some) in He, Hd; subst e d; (split; [done|]; split; [done|exact Hc]).
Qed.

Lemma boost_ok t : lzp_table_ok t -> lzp_table_ok (boost_lzp t).
Proof.
  intros [Hl Hf]. split; [unfold boost_lzp; by rewrite length_fmap|]. unfold boost_lzp. apply Forall_fmap.
  eapply Forall_impl; [exact Hf|]. intros [v c] Hok. unfold compose. simpl. case_if; [|done].
  unfold lzp_entry_ok in *. simpl in *. unfold is_byte in *. lia.
Qed.

Lemma zero_bytes_ok n : 0 <= n -> zlen (zero_bytes n) = n /\ bytes (zero_bytes n).
Proof.
  intros Hn. unfold zero_bytes. rewrite length_replicate. split; [lia|].
  apply Forall_replicate. done.
Qed.

Lemma Forall_zeros n : Forall (fun x => 0 <= x < 2 ^ 32) (replicate n 0).
Proof. apply Forall_replicate. lia. Qed.

(** A created context satisfies the invariant. *)
Lemma create_ok cpu mem dict cfg c :
  (forall d, dict = Some d -> dict_ok d) ->
  0 <= cfg_ring_buffer_size (default NETC_CFG_DEFAULT cfg) < 2 ^ 32 ->
  netc_ctx_create cpu mem dict cfg = Some c -> ctx_ok c.
Proof.
  intros Hdict Hring H. unfold netc_ctx_create in H. set (cf := default NETC_CFG_DEFAULT cfg) in *.
  set (stateful := has (cfg_flags cf) NETC_CFG_FLAG_STATEFUL) in *.
  set (adaptive := has (cfg_flags cf) NETC_CFG_FLAG_ADAPTIVE) in *.
  set (rs := if stateful then if 0 <? cfg_ring_buffer_size cf then u32 (cfg_ring_buffer_size cf)
             else NETC_DEFAULT_RING_SIZE else 0) in *.
  assert (stateful = true -> 0 < rs < 2 ^ 32) as Hrs.
  { unfold rs. intros ->. destruct (Z.ltb_spec 0 (cfg_ring_buffer_size cf));
      [rewrite u32_small; lia|unfold NETC_DEFAULT_RING_SIZE; lia]. }
  repeat (destruct (_ : bool) eqn:? in H at 1; [done|]).
  apply (inj Some) in H. subst c. destruct (zero_bytes_ok NETC_MAX_PACKET_SIZE) as [Hz Hzb]; [done|].
  constructor; cbn [c_dict c_simd_ops c_ring c_ring_size c_ring_pos c_prev_pkt c_prev_pkt_size c_prev2_pkt
    c_prev2_pkt_size c_context_seq c_adapt_freq c_adapt_total c_adapt_tables c_adapt_lzp].
  - exact Hdict.
  - apply _.
  - intros r Hr. destruct stateful; [|done]. apply (inj Some) in Hr. subst r. specialize (Hrs eq_refl).
    destruct (zero_bytes_ok rs) as [Hrl Hrb]; [lia|]. split; [|lia]. split; [lia|]. split; [exact Hrl|exact Hrb].
  - intros p Hp. destruct stateful; [|done]. apply (inj Some) in Hp. subst p. split; [exact Hz|]. split; [exact Hzb|].
    unfold NETC_MAX_PACKET_SIZE. lia.
  - intros _. reflexivity.
  - intros p Hp. destruct adaptive; [|done]. apply (inj Some) in Hp. subst p. split; [exact Hz|]. split; [exact Hzb|].
    unfold NETC_MAX_PACKET_SIZE. lia.
  - unfold is_byte. lia.
  - intros f Hf. destruct adaptive; [|done]. apply (inj Some) in Hf. subst f. rewrite !length_replicate.
    split; [unfold NETC_CTX_COUNT; lia|]. split; [apply Forall_zeros|].
    split; [unfold NETC_CTX_COUNT; lia|]. apply Forall_zeros.
  - intros t Ht Hne. destruct adaptive; [|done]. destruct dict as [d|]; [|by destruct Hne].
    apply (inj Some) in Ht. subst t. apply (dok_tables d), Hdict. reflexivity.
  - intros t Ht. destruct adaptive; [|done]. apply (inj Some) in Ht. subst t. destruct dict as [d|].
    + apply (dok_tables d), Hdict. reflexivity.
    + rewrite length_replicate. unfold NETC_CTX_COUNT. lia.
  - intros t Ht. destruct adaptive; [|done]. destruct dict as [d|]; [|done].
    destruct (d_lzp_table d) as [l|] eqn:El; [|done]. destruct (mem 8%nat); [|done]. injection Ht as <-.
    apply boost_ok. by eapply dok_lzp; [apply Hdict|].
Qed.
