(* ===== verification/Safety.v ===== *)
(** * The decoder on arbitrary input

    Whatever bytes arrive, decompression returns an error or a packet of the
    announced size, and leaves the context well formed, provided that no
    bitstream it opens that is longer than the reader's 8-byte window ends in a
    zero byte (see [bsr_init_safe]: the reader then shifts by more than the word
    width).  [packet_streams] lists the bitstreams a packet makes the decoder open;
    packets without entropy coding have none and are always [readable]. *)

From stdpp Require Import prelude.
From Stdlib Require Import ZArith Lia.
From S2P Require Import Prelude TansTable Bitstream TansCodec Lzp Freq Delta Crc32 Simd Header Lz Ctx.
From S2P Require Import Decompress Compress Payload Packets Sync.

Local Open Scope Z_scope.

(** An error, or [n] bytes. *)
Definition safe_out (n : Z) (r : result (list Z)) : Prop :=
  (exists e, r = Fail e) \/ exists out, r = Ok out /\ zlen out = n /\ bytes out.

Lemma safe_fail n e : safe_out n (Fail e).
Proof. left. by exists e. Qed.

Lemma safe_ok n out : zlen out = n -> bytes out -> safe_out n (Ok out).
Proof. intros. right. by exists out. Qed.

Lemma safe_bind n m k r :
  safe_out n r -> (forall out, zlen out = n -> bytes out -> safe_out m (k out)) -> safe_out m (r ≫= k).
Proof. intros [[e ->]|(out & -> & Hl & Hb)] Hk; [apply safe_fail|]. by apply Hk. Qed.

Lemma safe_or_fail (n : nat) e (m : outcome unit (list Z)) :
  m = Fail tt \/ (exists dst, m = Ok dst /\ length dst = n /\ bytes dst) -> safe_out (Z.of_nat n) (or_fail e m).
Proof. intros [->|(dst & -> & Hl & Hb)]; [apply safe_fail|]. apply safe_ok; [lia|done]. Qed.
#[export] Hint Resolve safe_fail : netc.

(** A bitstream that is safe to read. *)
Definition stream_ok (buf : list Z) : Prop := zlen buf <= 8 \/ last buf <> Some 0.

#[export] Instance stream_ok_dec buf : Decision (stream_ok buf).
Proof. unfold stream_ok. apply _. Defined.

(** The bitstreams of the regions [rs] of a multi-region payload, the first of
    them at [bits_offset]: up to the region at which the decoder gives up. *)
Fixpoint region_streams (orig : Z) (payload bits_base : list Z) (bits_offset : Z) (rs : list Z) : list (list Z) :=
  match rs with
  | [] => []
  | r :: rs' =>
      match (state ← netc_read_u32_le payload (1 + r * 8);
             bs_bytes ← netc_read_u32_le payload (1 + r * 8 + 4);
             Ok (state, bs_bytes)) : result (Z * Z) with
      | Ok (state, bs_bytes) =>
          let '(region_start, region_end) := region_span orig r in
          if (state =? 0) && (bs_bytes =? 0) || (region_end - region_start =? 0)
          then region_streams orig payload bits_base bits_offset rs'
          else if (state <? NETC_TANS_TABLE_SIZE) || (2 * NETC_TANS_TABLE_SIZE <=? state) ||
                  (zlen bits_base <? bits_offset + bs_bytes) then []
          else slice bits_base bits_offset bs_bytes ::
               region_streams orig payload bits_base (bits_offset + bs_bytes) rs'
      | _ => []
      end
  end.

(** The bitstreams of the payload of a tANS or LZP packet. *)
Definition tans_streams (hdr : netc_pkt_header_t) (payload : list Z) (compact : bool) : list (list Z) :=
  if has (hdr_flags hdr) NETC_PKT_FLAG_MREG then
    match aget payload 0 : result Z with
    | Ok n =>
        if NETC_CTX_COUNT <? n then []
        else region_streams (original_size hdr) payload (drop (Z.to_nat (1 + n * 8)) payload) 0 (seqZ 0 n)
    | _ => []
    end
  else [drop (Z.to_nat (if has (hdr_flags hdr) NETC_PKT_FLAG_X2 then 2 * state_size compact
                        else state_size compact)) payload].

(** The bitstreams a packet makes the decoder open. *)
Definition packet_streams (hdr : netc_pkt_header_t) (payload : list Z) (compact : bool) : list (list Z) :=
  let alg := normalize_alg (algorithm hdr) in
  if (alg =? NETC_ALG_TANS) || (alg =? NETC_ALG_LZP) then tans_streams hdr payload compact
  else if alg =? NETC_ALG_TANS_PCTX then [drop (Z.to_nat (state_size compact)) payload]
  else if alg =? NETC_ALG_TANS_10 then [drop 2 payload]
  else [].

(** Packets whose bitstreams are safe to read, or whose header is rejected. *)
Definition readable (src : list Z) (cap : Z) (compact : bool) : Prop :=
  match validate_header src cap compact with
  | Ok (h, n) => Forall stream_ok (packet_streams h (slice src n (compressed_size h)) compact)
  | _ => True
  end.

#[export] Instance readable_dec src cap compact : Decision (readable src cap compact).
Proof. unfold readable. destruct (validate_header _ _ _) as [[h n]| |]; apply _. Defined.

Lemma open_stream buf :
  bytes buf -> stream_ok buf -> exists r, @lift netc_bsr_t (netc_bsr_init buf) = Ok r /\ bsr_safe r.
Proof. intros Hb Hs. destruct (bsr_init_safe buf Hb) as (r & -> & Hr). exists r. split; [done|]. by apply Hr. Qed.

Lemma read_state_total payload off compact :
  bytes payload -> 0 <= off -> off + state_size compact <= zlen payload ->
  exists v, read_state payload off compact = Ok v.
Proof.
  intros Hb Ho Hl. unfold read_state, state_size in *. destruct compact.
  - destruct (@read_u16_total netc_result_t payload off Hb Ho Hl) as (v & -> & _). eauto.
  - destruct (@read_u32_total netc_result_t payload off Hb Ho Hl) as (v & -> & _). eauto.
Qed.

(** ** Payloads *)

Lemma tans_decode_safe tbl r (n : nat) X :
  tbl_ok tbl -> bsr_safe r -> safe_out (Z.of_nat n) (or_fail NETC_ERR_CORRUPT (netc_tans_decode tbl r n X)).
Proof.
  intros Ht Hr. apply safe_or_fail. unfold netc_tans_decode, tans_decode.
  destruct (t_valid tbl) eqn:Ev; [|by left]. simpl orb. case_if; [by left|].
  destruct (state_in_range X) eqn:Es; [|by left]. apply state_in_range_ok in Es. simpl negb. cbv iota.
  destruct (Ht Ev) as [freq Hok]. apply decode_loop_safe; [|lia|done|done|done]. intros. right. eauto.
Qed.

Lemma decode_with_table_safe tbl flags (n : nat) payload compact :
  tbl_ok tbl -> t_valid tbl = true -> bytes payload ->
  stream_ok (drop (Z.to_nat (if has flags NETC_PKT_FLAG_X2 then 2 * state_size compact
                             else state_size compact)) payload) ->
  safe_out (Z.of_nat n) (decode_with_table tbl flags n payload compact).
Proof.
  intros Ht Hv Hb Hs. unfold decode_with_table. destruct (Ht Hv) as [freq Hok].
  destruct (has flags NETC_PKT_FLAG_X2).
  - destruct (Z.ltb_spec (zlen payload) (if compact then 4 else 8)); [auto with netc|].
    destruct (read_state_total payload 0 compact) as [s0 ->]; [done|lia|destruct compact; simpl; lia|]. mstep.
    destruct (read_state_total payload (if compact then 2 else 4) compact) as [s1 ->];
      [done|destruct compact; lia|destruct compact; simpl; lia|]. mstep.
    destruct (open_stream (drop (Z.to_nat (if compact then 4 else 8)) payload)) as (r & -> & Hr);
      [auto with netc|by destruct compact|]. mstep.
    apply safe_or_fail. by apply (decode_x2_safe tbl freq).
  - destruct (Z.ltb_spec (zlen payload) (if compact then 2 else 4)); [auto with netc|].
    destruct (read_state_total payload 0 compact) as [s0 ->]; [done|lia|destruct compact; simpl; lia|]. mstep.
    case_if; [auto with netc|].
    destruct (open_stream (drop (Z.to_nat (if compact then 2 else 4)) payload)) as (r & -> & Hr);
      [auto with netc|by destruct compact|]. mstep. by apply tans_decode_safe.
Qed.

Section Payloads.
Context (dict : netc_dict_t) (tables : list netc_tans_table_t) (hdr : netc_pkt_header_t) (payload : list Z).
Hypothesis dict_wf : dict_ok dict.
Hypothesis tables_wf : tables_ok tables.
Hypothesis hdr_wf : hdr_ok hdr.
Hypothesis payload_bytes : bytes payload.

Lemma bucket_of_alg :
  0 <= (if NETC_CTX_COUNT <=? Z.shiftr (algorithm hdr) 4 then 0 else Z.shiftr (algorithm hdr) 4) < NETC_CTX_COUNT.
Proof.
  destruct hdr_wf as (_ & _ & _ & Ha & _). unfold is_byte in Ha. unfold NETC_CTX_COUNT.
  assert (0 <= Z.shiftr (algorithm hdr) 4) by (apply Z.shiftr_nonneg; lia). case_if; lia.
Qed.

Lemma select_tbl_ok bucket prev flags :
  0 <= bucket < NETC_CTX_COUNT -> is_byte prev ->
  exists tbl, decomp_select_tbl dict tables bucket prev flags = Ok tbl /\ tbl_ok tbl.
Proof.
  intros Hb Hp. unfold decomp_select_tbl.
  destruct (@tables_get unit tables bucket tables_wf Hb) as (u & Hu & Huok). case_if; [|by exists u].
  destruct (bigram_class_ok prev _ (dok_class_map _ dict_wf)) as (c & -> & Hc); [done|]. mstep.
  destruct (@bigram_get unit _ bucket c (dok_bigram _ dict_wf) Hb Hc) as (row & t & -> & Hr & Htok).
  mstep. rewrite Hr. mstep. case_if; eauto.
Qed.

Lemma decode_single_safe compact :
  stream_ok (drop (Z.to_nat (if has (hdr_flags hdr) NETC_PKT_FLAG_X2 then 2 * state_size compact
                             else state_size compact)) payload) ->
  safe_out (original_size hdr) (decode_single dict tables hdr payload compact).
Proof.
  intros Hs. unfold decode_single.
  destruct (select_tbl_ok _ 0 (hdr_flags hdr) bucket_of_alg) as (tbl & -> & Ht); [done|].
  simpl lift. mstep. destruct (t_valid tbl) eqn:Ev; [|apply safe_fail]. simpl negb. cbv iota.
  replace (original_size hdr) with (Z.of_nat (Z.to_nat (original_size hdr))) by (destruct hdr_wf; lia).
  rewrite Nat2Z.id. by apply decode_with_table_safe.
Qed.

Lemma decode_pctx_safe compact :
  stream_ok (drop (Z.to_nat (state_size compact)) payload) ->
  safe_out (original_size hdr) (decode_pctx dict tables hdr payload compact).
Proof.
  intros Hs. unfold decode_pctx. fold (state_size compact).
  destruct (Z.ltb_spec (zlen payload) (state_size compact)); [auto with netc|].
  destruct (read_state_total payload 0 compact) as [s0 ->]; [done|lia|lia|]. mstep.
  destruct (_ || _) eqn:E; [auto with netc|].
  destruct (open_stream (drop (Z.to_nat (state_size compact)) payload)) as (r & -> & Hr);
    [auto with netc|done|]. mstep.
  destruct (@bigram_get netc_result_t _ 0 0 (dok_bigram _ dict_wf)) as (row & b & Hrow & Hbt & _); [done|done|].
  rewrite Hrow. mstep. rewrite Hbt. mstep.
  replace (original_size hdr) with (Z.of_nat (Z.to_nat (original_size hdr))) by (destruct hdr_wf; lia).
  rewrite Nat2Z.id. apply safe_or_fail.
  assert (forall sel, (forall i prev, 0 <= i -> is_byte prev ->
     sel i prev = Fail tt \/ exists tbl freq, sel i prev = Ok tbl /\ table_ok (H := P12) tbl freq) ->
     decode_switching (P := P12) sel r (Z.to_nat (original_size hdr)) s0 = Fail tt \/
     exists dst, decode_switching (P := P12) sel r (Z.to_nat (original_size hdr)) s0 = Ok dst /\
       length dst = Z.to_nat (original_size hdr) /\ bytes dst) as Hsw.
  { intros sel Hsel. unfold decode_switching. case_if; [by left|].
    destruct (state_in_range (P := P12) s0) eqn:Es; [|by left]. apply state_in_range_ok in Es. simpl negb. cbv iota.
    by apply decode_loop_safe. }
  case_if; apply Hsw; intros i prev Hi Hp.
  - destruct (bigram_sel_spec _ tables _ i prev (dok_bigram _ dict_wf) tables_wf (dok_class_map _ dict_wf) Hp)
      as [?|(tbl & ? & Hv & Htok)]; [by left|]. right. destruct (Htok Hv) as [freq ?]. eauto.
  - pose proof (pctx_sel_defined tables i prev tables_wf). destruct (pctx_table tables i prev) as [tbl|[]|] eqn:Et;
      [|by left|done]. right. destruct (pctx_sel_ok tables tables_wf i prev tbl Et) as [freq ?]. eauto.
Qed.

Lemma decode_tans10_safe :
  stream_ok (drop 2 payload) -> safe_out (original_size hdr) (decode_tans10 tables hdr payload).
Proof.
  intros Hs. unfold decode_tans10.
  destruct (@tables_get netc_result_t tables _ tables_wf bucket_of_alg) as (tbl & -> & Ht). mstep.
  destruct (t_valid tbl) eqn:Ev; [|apply safe_fail]. simpl negb. cbv iota.
  destruct (Z.ltb_spec (zlen payload) 2); [auto with netc|].
  destruct (@read_u16_total netc_result_t payload 0) as (v & -> & Hv); [done|lia|lia|]. mstep.
  destruct (_ || _); [auto with netc|]. destruct (Ht Ev) as [freq Hok]. rewrite (tok_freq _ _ Hok).
  destruct (rescale_spec freq (tok_freq_ok _ _ Hok)) as (f10 & -> & Hfl & Hff & _). cbn [or_fail]. mstep.
  destruct (netc_tans_build_10 f10) as [t10| |] eqn:Eb; [|apply safe_fail|].
  2: { exfalso. unfold netc_tans_build_10 in Eb. destruct (decide (lsum f10 = @TABLE_SIZE P10)) as [He|He].
       - destruct (tans_build_ok (P := P10) f10) as (t & Ht' & _); [|congruence].
         split; [done|]. split; [eapply Forall_impl; [exact Hff|simpl; lia]|done].
       - rewrite (tans_build_reject (P := P10) f10) in Eb; done. }
  cbn [or_fail]. mstep. destruct (tans_build_inv (P := P10) f10 t10 Hfl Hff Eb) as [_ Hok10].
  destruct (open_stream (drop 2 payload)) as (r & -> & Hr); [auto with netc|done|]. mstep.
  replace (original_size hdr) with (Z.of_nat (Z.to_nat (original_size hdr))) by (destruct hdr_wf; lia).
  rewrite Nat2Z.id. apply safe_or_fail. unfold netc_tans_decode_10, tans_decode. destruct (_ || _); [by left|].
  destruct (state_in_range (P := P10) v) eqn:Es; [|by left]. apply state_in_range_ok in Es. simpl negb. cbv iota.
  apply decode_loop_safe; [|lia|done|done|done]. intros. right. eauto.
Qed.
End Payloads.

(** ** Multi-region packets *)
Section Mreg.
Context (dict : netc_dict_t) (tables : list netc_tans_table_t) (hdr : netc_pkt_header_t) (payload dst : list Z).
Hypothesis dict_wf : dict_ok dict.
Hypothesis tables_wf : tables_ok tables.
Hypothesis hdr_wf : hdr_ok hdr.
Hypothesis payload_bytes : bytes payload.
Hypothesis dst_bytes : bytes dst.
Hypothesis dst_len : original_size hdr <= zlen dst.

Definition region_inv (st : list Z * Z * Z) : Prop :=
  zlen st.1.1 = zlen dst /\ bytes st.1.1 /\ 0 <= st.1.2 /\ is_byte st.2.

Lemma bucket_start_range b : 0 <= b -> 0 <= decomp_bucket_start b /\
  decomp_bucket_start b <= decomp_bucket_start (b + 1).
Proof.
  intros Hb. unfold decomp_bucket_start, NETC_CTX_COUNT. destruct (Z.ltb_spec b 16).
  - assert (b = 0 \/ b = 1 \/ b = 2 \/ b = 3 \/ b = 4 \/ b = 5 \/ b = 6 \/ b = 7 \/ b = 8 \/ b = 9 \/ b = 10 \/
      b = 11 \/ b = 12 \/ b = 13 \/ b = 14 \/ b = 15) as Hc by lia.
    repeat destruct Hc as [->|Hc]; try subst b; by vm_compute.
  - destruct (Z.ltb_spec (b + 1) 16); lia.
Qed.

Lemma region_span_range r :
  0 <= r -> exists lo hi, region_span (original_size hdr) r = (lo, hi) /\ 0 <= lo <= hi /\ hi <= original_size hdr.
Proof.
  intros Hr. destruct (bucket_start_range r Hr) as [Hb0 Hb1]. destruct hdr_wf as (? & _).
  eexists _, _. split; [reflexivity|]. change (netc_ctx_bucket 0) with 0. rewrite Z.add_0_l. repeat case_if; lia.
Qed.

(** One region: it consumes its bitstream and leaves those of the regions after it. *)
Lemma decode_region_safe n st r rs :
  let bits := drop (Z.to_nat (1 + n * 8)) payload in
  0 <= r < n -> n <= NETC_CTX_COUNT -> 1 + n * 8 <= zlen payload -> region_inv st ->
  Forall stream_ok (region_streams (original_size hdr) payload bits st.1.2 (r :: rs)) ->
  let res := decode_region dict tables (hdr_flags hdr) (original_size hdr) payload bits st r in
  (exists e, res = Fail e) \/ exists st', res = Ok st' /\ region_inv st' /\
    Forall stream_ok (region_streams (original_size hdr) payload bits st'.1.2 rs).
Proof.
  intros bits Hr Hn Hl Hinv Hst res. subst res. destruct st as [[buf off] prev].
  pose proof Hinv as (Hdl & Hdb & Hoff & Hprev). cbn [fst snd] in Hdl, Hdb, Hoff, Hprev, Hst.
  unfold decode_region. cbn [region_streams] in Hst.
  destruct (@read_u32_total netc_result_t payload (1 + r * 8)) as (s & Es & Hs); [done|lia|lia|].
  destruct (@read_u32_total netc_result_t payload (1 + r * 8 + 4)) as (bsz & Eb & Hbsz); [done|lia|lia|].
  rewrite Es, Eb in Hst |- *. mstep. rewrite !bind_Ok_l in Hst. destruct (region_span_range r) as (lo & hi & Hsp & Hlo & Hhi); [lia|].
  rewrite Hsp in Hst |- *. destruct ((s =? 0) && (bsz =? 0)); [right; eexists; by split_and!|]. cbn [orb] in Hst.
  replace (netc_ctx_bucket 0 + r) with r by (change (netc_ctx_bucket 0) with 0; lia).
  destruct (hi - lo =? 0) eqn:E; [right; eexists; by split_and!|]. apply Z.eqb_neq in E.
  destruct ((s <? _) || _); [left; by eexists|]. cbn [orb] in Hst.
  destruct (zlen bits <? off + bsz) eqn:Eo; [left; by eexists|]. apply Z.ltb_ge in Eo.
  apply Forall_cons in Hst as [Hok Hst].
  destruct (select_tbl_ok dict tables dict_wf tables_wf r prev (hdr_flags hdr)) as (tbl & -> & Htok); [lia|done|].
  simpl lift. mstep. destruct (t_valid tbl); [|left; by eexists]. simpl negb. cbv iota.
  rewrite peek_ok by lia. mstep.
  destruct (open_stream (slice bits off bsz)) as (rd & -> & Hrd); [unfold bits; auto with netc|done|]. mstep.
  destruct (tans_decode_safe tbl rd (Z.to_nat (hi - lo)) s Htok Hrd) as [[e ->]|(out & -> & Hol & Hob)];
    [left; by eexists|]. mstep.
  rewrite blit_ok by lia. mstep. set (buf' := take _ buf ++ _).
  assert (zlen buf' = zlen dst) as Hl' by (unfold buf'; rewrite !length_app, length_take, length_drop; lia).
  assert (bytes buf') as Hb' by (unfold buf'; rewrite !bytes_app; auto with netc).
  destruct (@aget_total netc_result_t _ buf' (hi - 1)) as [lst Hlst]; [lia|]. rewrite Hlst. mstep.
  right. eexists. split; [done|]. split; [|done]. split; [done|]. split; [done|]. simpl. split; [lia|]. by eapply bytes_aget.
Qed.

Lemma regions_safe n rs st :
  let bits := drop (Z.to_nat (1 + n * 8)) payload in
  n <= NETC_CTX_COUNT -> 1 + n * 8 <= zlen payload -> Forall (fun r => 0 <= r < n) rs -> region_inv st ->
  Forall stream_ok (region_streams (original_size hdr) payload bits st.1.2 rs) ->
  let res := foldM (decode_region dict tables (hdr_flags hdr) (original_size hdr) payload bits) st rs in
  (exists e, res = Fail e) \/ exists st', res = Ok st' /\ region_inv st'.
Proof.
  intros bits Hn Hl Hrs. revert st. induction Hrs as [|r rs Hr _ IH]; intros st Hinv Hst; [right; by exists st|].
  cbn [foldM]. destruct (decode_region_safe n st r rs Hr Hn Hl Hinv Hst) as [[e He]|(st' & He & Hinv' & Hst')];
    fold bits in He; rewrite He; [left; by exists e|]. mstep. by apply IH.
Qed.

Lemma decode_mreg_safe compact :
  has (hdr_flags hdr) NETC_PKT_FLAG_MREG = true -> Forall stream_ok (tans_streams hdr payload compact) ->
  safe_out (original_size hdr) (decode_mreg dict tables hdr payload dst).
Proof.
  intros Hm Hst. unfold tans_streams in Hst. rewrite Hm in Hst. unfold decode_mreg.
  destruct (Z.ltb_spec (zlen payload) 1); [apply safe_fail|].
  destruct (@aget_total netc_result_t _ payload 0) as [n Hn]; [lia|]. rewrite Hn in Hst |- *. mstep.
  pose proof (bytes_aget payload 0 n payload_bytes Hn) as Hnb. unfold is_byte in Hnb. destruct (NETC_CTX_COUNT <? n) eqn:En; [rewrite orb_true_r; apply safe_fail|].
  apply Z.ltb_ge in En. destruct (n =? 0); [apply safe_fail|]. cbn [orb].
  destruct (Z.ltb_spec (zlen payload) (1 + n * 8)); [apply safe_fail|].
  destruct (regions_safe n (seqZ 0 n) (dst, 0, 0)) as [[e ->]|([[buf o] p] & -> & Hinv)]; try done.
  - apply Forall_forall. intros r Hr%elem_of_seqZ. lia.
  - apply safe_fail.
  - mstep. destruct Hinv as (Hl & Hb & _). simpl in *. destruct hdr_wf as (? & _).
    apply safe_ok; [rewrite length_take; lia|auto with netc].
Qed.
End Mreg.

(** ** Raw, RLE and LZ77 payloads *)
Lemma rle_decode_safe src dst orig :
  bytes src -> bytes dst -> safe_out orig (rle_decode_loop src dst orig).
Proof.
  intros Hb. remember (length src) as n eqn:En. assert (length src <= n)%nat as Hn by lia. clear En. revert src dst Hb Hn.
  induction n as [|n IH]; intros src dst Hb Hn Hd; destruct src as [|a [|b src]]; simpl in *; try lia;
    try apply safe_fail.
  - destruct (Z.eqb_spec (zlen dst) orig); [by apply safe_ok|apply safe_fail].
  - destruct (Z.eqb_spec (zlen dst) orig); [by apply safe_ok|apply safe_fail].
  - apply bytes_cons in Hb as [Hb0 Hb]. apply bytes_cons in Hb as [Hb1 Hb]. case_if; [apply safe_fail|].
    unfold is_byte in Hb0.
    rewrite put_ok by (rewrite length_replicate; lia). mstep.
    apply IH; [done|lia|]. apply bytes_app. split; [done|]. by apply Forall_replicate.
Qed.

Lemma lz_safe (r : result (list Z)) orig :
  r = Fail NETC_ERR_CORRUPT \/ (exists out, r = Ok out /\ zlen out = orig /\ bytes out) -> safe_out orig r.
Proof. intros [->|H]; [apply safe_fail|by right]. Qed.

Lemma decode_passthru_safe hdr payload :
  hdr_ok hdr -> bytes payload -> zlen payload = compressed_size hdr ->
  safe_out (original_size hdr) (decode_passthru hdr payload).
Proof.
  intros (Ho & _) Hb Hl. unfold decode_passthru. repeat case_if.
  - apply lz_safe. apply lz_decode_loop_safe; [apply lz77_token_ok|done|done|apply bytes_nil].
  - apply rle_decode_safe; [done|apply bytes_nil].
  - apply safe_fail.
  - rewrite peek_take by lia. apply safe_ok; [rewrite length_take; lia|auto with netc].
Qed.

(** ** Post-passes and the common tail *)
Lemma postpass_safe ctx flags dst n :
  ctx_ok ctx -> bytes dst -> zlen dst = n -> safe_out n (decomp_delta_postpass ctx flags dst).
Proof.
  intros Hok Hb Hl. unfold decomp_delta_postpass. case_if; [by apply safe_ok|].
  destruct (c_prev_pkt ctx) as [prev|] eqn:Ep; [|by apply safe_ok].
  destruct (cok_prev _ Hok _ Ep) as (Hpl & Hpb & Hps). case_if; [by apply safe_ok|].
  assert (safe_out n (lift (delta_decode (c_simd_ops ctx) prev dst))) as Hdec.
  { pose proof (cok_simd _ Hok) as Hsimd. rewrite simd_decode by (done || lia). unfold netc_delta_decode.
    destruct (delta_loop_bytes delta_dec_byte 0 prev dst) as (out & -> & Hol & Hob);
      [apply delta_dec_byte_range|done|done|lia|]. apply safe_ok; [lia|done]. }
  destruct (c_prev2_pkt ctx) as [prev2|] eqn:Ep2; [|done]. case_if; [|done].
  destruct (cok_prev2 _ Hok _ Ep2) as (Hp2l & Hp2b & _). unfold netc_delta_decode_order2.
  rewrite delta_loop2_eq by lia.
  destruct (delta_loop_bytes delta_dec_byte 0 (zip_with order2_predict prev2 prev) dst) as (out & -> & Hol & Hob);
    [apply delta_dec_byte_range|apply order2_bytes|done|rewrite length_zip_with; lia|].
  apply safe_ok; [lia|done].
Qed.

Lemma unfilter_safe alg lzp_table dst n :
  (forall t, lzp_table = Some t -> lzp_table_ok t) -> bytes dst -> zlen dst = n ->
  safe_out n (unfilter_if_lzp alg lzp_table dst).
Proof.
  intros Ht Hb Hl. unfold unfilter_if_lzp. destruct lzp_table as [t|]; [|by apply safe_ok].
  case_if; [|by apply safe_ok]. unfold netc_lzp_xor_unfilter.
  destruct (lzp_unfilter_total t 0 0 dst (Ht t eq_refl) Hb) as (out & -> & Hol & Hob). apply safe_ok; [lia|done].
Qed.

(** An error, or a packet of the announced size and a well-formed context. *)
Definition safe_packet (n : Z) (r : result (netc_ctx_t * list Z)) : Prop :=
  (exists e, r = Fail e) \/ exists ctx' out, r = Ok (ctx', out) /\ zlen out = n /\ bytes out /\ ctx_ok ctx'.

Lemma finish_safe ctx hdr dst n p m :
  ctx_ok ctx -> bytes dst -> zlen dst = m -> m <= NETC_MAX_PACKET_SIZE ->
  safe_packet m (decomp_finish ctx hdr dst n p).
Proof.
  intros Hok Hb Hl Hm.
  assert (ctx_ok (shared ctx)) as Hsok.
  { apply (ctx_ok_shared ctx); [done|by rewrite shared_shared|destruct ctx; apply _|by destruct ctx]. }
  destruct (advance_ok (shared ctx) dst) as (s & Ha & Hs); [done|done|lia|].
  destruct (decomp_finish_advance ctx hdr dst n p s Ha) as (d' & -> & Hsh & Hq & _ & Hops).
  right. exists d', dst. split; [done|]. split; [done|]. split; [done|].
  apply (ctx_ok_shared s); [done|done|rewrite Hops; apply Hok|rewrite Hq; apply u8_range].
Qed.

Lemma safe_packet_bind n r k :
  safe_out n r -> (forall out, zlen out = n -> bytes out -> safe_packet n (k out)) -> safe_packet n (r ≫= k).
Proof. intros [[e ->]|(out & -> & Hl & Hb)] Hk; [left; by exists e|]. by apply Hk. Qed.

(** ** Dispatch *)
Section Dispatch.
Context (ctx : netc_ctx_t) (hdr : netc_pkt_header_t) (payload dst : list Z) (n : Z) (compact : bool).
Hypothesis ctx_wf : ctx_ok ctx.
Hypothesis hdr_wf : hdr_ok hdr.
Hypothesis payload_bytes : bytes payload.
Hypothesis payload_len : zlen payload = compressed_size hdr.
Hypothesis dst_bytes : bytes dst.
Hypothesis dst_len : original_size hdr <= zlen dst.
Hypothesis streams : Forall stream_ok (packet_streams hdr payload compact).

Lemma orig_max : original_size hdr <= NETC_MAX_PACKET_SIZE.
Proof. destruct hdr_wf as (? & _). unfold NETC_MAX_PACKET_SIZE. lia. Qed.

Lemma ctx_tables_ok dict : c_dict ctx = Some dict -> dict_ok dict /\ tables_ok (netc_get_tables ctx dict).
Proof.
  intros Hd. pose proof (cok_dict _ ctx_wf _ Hd) as Hdok. split; [done|]. unfold netc_get_tables.
  destruct (c_adapt_tables ctx) eqn:Et; [|apply Hdok]. apply (cok_atables _ ctx_wf _ Et). congruence.
Qed.

Lemma ctx_lzp_ok t : netc_get_lzp_table ctx = Some t -> lzp_table_ok t.
Proof.
  unfold netc_get_lzp_table. destruct (c_adapt_lzp ctx) eqn:E; [intros [= <-]; by apply (cok_alzp _ ctx_wf)|].
  destruct (c_dict ctx) eqn:Ed; [|done]. intros H. by eapply dok_lzp; [apply (cok_dict _ ctx_wf)|].
Qed.

Lemma decode_tans_safe dict :
  c_dict ctx = Some dict ->
  (normalize_alg (algorithm hdr) =? NETC_ALG_TANS) || (normalize_alg (algorithm hdr) =? NETC_ALG_LZP) = true ->
  safe_out (original_size hdr) (decode_tans (Some dict) (netc_get_tables ctx dict) hdr payload dst compact).
Proof.
  intros Hd Ha. destruct (ctx_tables_ok dict Hd) as [Hdok Htok].
  pose proof streams as Hst. unfold packet_streams in Hst. rewrite Ha in Hst.
  unfold decode_tans. destruct (has (hdr_flags hdr) NETC_PKT_FLAG_MREG) eqn:Em.
  - by apply (decode_mreg_safe _ _ _ _ _ Hdok Htok hdr_wf payload_bytes dst_bytes dst_len compact).
  - unfold tans_streams in Hst. rewrite Em in Hst. apply decode_single_safe; try done. by inversion Hst.
Qed.

(** The post-pass and tail every case ends with. *)
Lemma tail_safe flags out p :
  zlen out = original_size hdr -> bytes out ->
  safe_packet (original_size hdr) (dst ← decomp_delta_postpass ctx flags out; decomp_finish ctx hdr dst n p).
Proof.
  intros Hl Hb. eapply safe_packet_bind; [by apply postpass_safe|]. intros o Hol Hob.
  apply finish_safe; [done|done|done|apply orig_max].
Qed.

Lemma dispatch_safe : safe_packet (original_size hdr) (decompress_dispatch ctx hdr payload dst n compact).
Proof.
  unfold decompress_dispatch. repeat case_if; try (left; by eexists).
  - unfold decompress_passthru. eapply safe_packet_bind; [by apply decode_passthru_safe|]. intros out Hl Hb.
    case_if; [by apply tail_safe|]. mstep. apply finish_safe; [done|done|done|apply orig_max].
  - unfold decompress_tans. destruct (c_dict ctx) as [dict|] eqn:Ed; [|left; by eexists].
    eapply safe_packet_bind; [apply decode_tans_safe; [done|by apply orb_true_iff; left; apply Z.eqb_eq]|].
    intros. by apply tail_safe.
  - unfold decompress_pctx. destruct (c_dict ctx) as [dict|] eqn:Ed; [|left; by eexists].
    destruct (ctx_tables_ok dict Ed) as [Hdok Htok].
    pose proof streams as Hst. unfold packet_streams in Hst. rewrite E1 in Hst. simpl in Hst.
    eapply safe_packet_bind; [apply decode_pctx_safe; [done..|by inversion Hst]|]. intros out Hl Hb.
    eapply safe_packet_bind; [by apply unfilter_safe; [apply ctx_lzp_ok|..]|]. intros. by apply tail_safe.
  - unfold decompress_lz77x. destruct (c_ring ctx) as [ring|] eqn:Er; [|left; by eexists].
    case_if; [left; by eexists|]. destruct (cok_ring _ ctx_wf _ Er) as (Hrok & _ & _).
    eapply safe_packet_bind; [|intros; apply finish_safe; [done|done|done|apply orig_max]].
    apply lz_safe. apply lz_decode_loop_safe; [apply lz77x_token_ok; by right|done|done|apply bytes_nil].
  - unfold decompress_lzp. destruct (c_dict ctx) as [dict|] eqn:Ed; [|left; by eexists].
    destruct (netc_get_lzp_table ctx) as [lzp|] eqn:El; [|left; by eexists].
    eapply safe_packet_bind; [apply decode_tans_safe; [done|by apply orb_true_iff; right; apply Z.eqb_eq]|].
    intros out Hl Hb. eapply safe_packet_bind; [|intros; by apply tail_safe]. unfold netc_lzp_xor_unfilter.
    destruct (lzp_unfilter_total lzp 0 0 out (ctx_lzp_ok _ El) Hb) as (o & -> & Hol & Hob). apply safe_ok; [lia|done].
  - unfold decompress_tans10. destruct (c_dict ctx) as [dict|] eqn:Ed; [|left; by eexists].
    destruct (ctx_tables_ok dict Ed) as [Hdok Htok].
    pose proof streams as Hst. unfold packet_streams in Hst. rewrite E4 in Hst. simpl in Hst.
    eapply safe_packet_bind; [apply decode_tans10_safe; [done..|by inversion Hst]|]. intros. by apply tail_safe.
Qed.
End Dispatch.

(** ** The API *)

(** The header check: the announced sizes fit the buffers. *)
Lemma validate_safe src cap compact :
  bytes src ->
  (exists e, validate_header src cap compact = Fail e) \/
  exists h n, validate_header src cap compact = Ok (h, n) /\ hdr_ok h /\ original_size h <= cap /\
    0 <= n /\ n + compressed_size h <= zlen src.
Proof.
  intros Hb. unfold validate_header. destruct compact.
  - destruct (@hdr_read_compact_total netc_result_t src Hb) as [->|(n & osz & f & a & -> & Hn & Hle & Ho & Hf & Ha)].
    { mstep. left. by eexists. }
    mstep. cbn [original_size]. case_if; [left; by eexists|]. case_if; [left; by eexists|]. cbn [negb andb]. cbv iota.
    right. do 2 eexists. split; [done|]. pose proof (Z.mod_pos_bound (zlen src - n) (2 ^ 16) ltac:(lia)) as Hu.
    fold (u16 (zlen src - n)) in Hu. change (2 ^ 16) with 65536 in Hu.
    split; [unfold hdr_ok; cbn; unfold is_byte in *; lia|]. split; [cbn; lia|]. cbn [compressed_size].
    split; [lia|]. unfold u16 in *. pose proof (Z.mod_le (zlen src - n) (2 ^ 16) ltac:(lia) ltac:(lia)). lia.
  - destruct (Z.ltb_spec (zlen src) NETC_HEADER_SIZE); [left; by eexists|]. unfold NETC_HEADER_SIZE in *.
    destruct (@hdr_read_total netc_result_t src Hb) as (h & -> & Hh); [lia|]. mstep.
    case_if; [left; by eexists|]. case_if; [left; by eexists|]. cbn [negb andb].
    destruct (Z.ltb_spec (zlen src) (8 + compressed_size h)); [left; by eexists|].
    right. do 2 eexists. split; [done|]. split; [done|]. lia.
Qed.

Lemma decompress_safe_gen ctx src dst :
  ctx_ok ctx -> bytes src -> bytes dst ->
  readable src (zlen dst) (has (c_flags ctx) NETC_CFG_FLAG_COMPACT_HDR) ->
  (exists e, netc_decompress_ctx ctx src dst = Fail e) \/
  exists ctx' out, netc_decompress_ctx ctx src dst = Ok (ctx', out) /\ zlen out <= zlen dst /\ bytes out /\ ctx_ok ctx'.
Proof.
  intros Hok Hb Hdst Hs. unfold netc_decompress_ctx. unfold readable in Hs.
  set (compact := has (c_flags ctx) NETC_CFG_FLAG_COMPACT_HDR) in *.
  destruct (validate_safe src (zlen dst) compact Hb) as [[e He]|(h & n & He & Hh & Ho & Hn & Hl)]; rewrite He in *;
    mstep; [left; by eexists|]. pose proof Hh as (_ & Hcs & _).
  set (hdr := complete_header ctx compact h).
  assert (original_size hdr = original_size h /\ compressed_size hdr = compressed_size h /\
    packet_streams hdr = packet_streams h /\ hdr_ok hdr) as (Ho' & Hc' & Hf' & Hh').
  { unfold hdr, complete_header. destruct compact; [|done]. split; [done|]. split; [done|]. split; [done|].
    destruct Hh as (H1 & H2 & H3 & H4 & _). pose proof (cok_seq _ Hok).
    assert (is_byte (match c_dict ctx with Some d => d_model_id d | None => 0 end)).
    { destruct (c_dict ctx) eqn:E; [apply (dok_model _ (cok_dict _ Hok _ E))|done]. }
    solve_hdr_ok. }
  case_if; [left; by eexists|]. rewrite Hc', peek_ok by lia. mstep.
  destruct (dispatch_safe ctx hdr (slice src n (compressed_size h)) dst (zlen src) compact)
    as [[e ->]|(ctx' & out & -> & Hol & Hob & Hok')]; try done.
  - auto with netc.
  - rewrite length_slice by lia. done.
  - congruence.
  - by rewrite Hf'.
  - left. by eexists.
  - right. do 2 eexists. split; [done|]. rewrite Hol, Ho'. done.
Qed.

(** ** Stateless decompression *)

(** A context that has only the dictionary. *)
Definition dict_ctx (dict : netc_dict_t) : netc_ctx_t :=
  Ctx (Some dict) 0 0 0 None 0 0 generic_ops None 0 None 0 0 0 stats_zero None [] None None 0.

Lemma dict_ctx_ok dict : dict_ok dict -> ctx_ok (dict_ctx dict).
Proof.
  intros Hd. constructor; cbn [c_dict c_simd_ops c_ring c_ring_size c_ring_pos c_prev_pkt c_prev_pkt_size c_prev2_pkt
    c_prev2_pkt_size c_context_seq c_adapt_freq c_adapt_total c_adapt_tables c_adapt_lzp dict_ctx]; try done.
  by intros d [= <-].
Qed.

Lemma stateless_dispatch_safe dict hdr payload dst :
  dict_ok dict -> hdr_ok hdr -> bytes payload -> zlen payload = compressed_size hdr -> bytes dst ->
  original_size hdr <= zlen dst -> Forall stream_ok (packet_streams hdr payload false) ->
  safe_out (original_size hdr) (stateless_dispatch dict hdr payload dst).
Proof.
  intros Hd Hh Hb Hl Hdb Hdl Hs. unfold stateless_dispatch.
  pose proof (decode_tans_safe (dict_ctx dict) hdr payload dst false (dict_ctx_ok dict Hd) Hh Hb Hdb Hdl Hs dict eq_refl)
    as Ht. rewrite orb_true_iff, !Z.eqb_eq in Ht.
  change (netc_get_tables (dict_ctx dict) dict) with (d_tables dict) in Ht. unfold packet_streams in Hs.
  case_if; [by apply decode_passthru_safe|]. case_if; [auto|]. case_if.
  { rewrite E1 in Hs. simpl in Hs.
    eapply safe_bind; [apply decode_pctx_safe; [done|apply Hd|done|done|by inversion Hs]|]. intros out Hlo Hbo.
    apply unfilter_safe; [|done|done]. intros t Hlz. by eapply dok_lzp. }
  case_if.
  { destruct (d_lzp_table dict) as [t|] eqn:El; [|apply safe_fail]. eapply safe_bind; [by auto|]. intros out Hlo Hbo.
    unfold netc_lzp_xor_unfilter. destruct (lzp_unfilter_total t 0 0 out) as (o & -> & Hol & Hob); [by eapply dok_lzp|done|].
    apply safe_ok; [lia|done]. }
  case_if.
  { simpl in Hs. apply decode_tans10_safe; [apply Hd|done|done|by inversion Hs]. }
  case_if; apply safe_fail.
Qed.

(** ** Properties *)

(** C6: the decoder is safe on hostile input: for any packet of which no bitstream
    that the decoder opens is longer than 8 bytes and ends in a zero byte
    ([readable]), [netc_decompress] never leaves defined behaviour: it reads
    nothing outside the packet and writes nothing outside the destination.  It
    reports an error, or returns at most as many bytes as the destination holds
    and a well-formed context.  Packets without entropy coding (raw, LZ77, LZ77X)
    and packets whose header is rejected are [readable] whatever their bytes. *)
Theorem decompress_safe (ctx : netc_ctx_t) (src dst : list Z) :
  ctx_ok ctx -> bytes src -> bytes dst ->
  readable src (zlen dst) (has (c_flags ctx) NETC_CFG_FLAG_COMPACT_HDR) ->
  (exists e, netc_decompress (Some ctx) (Some src) (Some dst) false = Fail e) \/
  exists ctx' out, netc_decompress (Some ctx) (Some src) (Some dst) false = Ok (ctx', out) /\
    zlen out <= zlen dst /\ bytes out /\ ctx_ok ctx'.
Proof. apply decompress_safe_gen. Qed.

(** A raw packet of 10 bytes that ends in a zero byte. *)
Lemma decompress_safe_witness :
  let src := [10; 0; 10; 0; 4; 0xFF; 0; 0; 1; 2; 3; 4; 5; 6; 7; 8; 9; 0] in
  let dst := [0; 0; 0; 0; 0; 0; 0; 0; 0; 0; 0; 0] in
  (exists e, netc_decompress (Some ring_ctx) (Some src) (Some dst) false = Fail e) \/
  exists ctx' out, netc_decompress (Some ring_ctx) (Some src) (Some dst) false = Ok (ctx', out) /\
    zlen out <= 12 /\ bytes out /\ ctx_ok ctx'.
Proof.
  intros src dst. apply (decompress_safe ring_ctx src dst).
  - apply ring_ctx_ok.
  - repeat constructor; unfold is_byte; lia.
  - repeat constructor; unfold is_byte; lia.
  - constructor.
Defined.

(** A packet of two regions, of 8 and 2 bytes, coded with the uniform table: it is
    readable, and its streams, one of them of 9 bytes, are decoded. *)
Definition regions_packet : list Z :=
  [10; 0; 29; 0; 16; 1; 7; 0; 2; 5; 23; 0; 0; 9; 0; 0; 0; 143; 23; 0; 0; 3; 0; 0; 0;
   0; 64; 22; 242; 215; 137; 125; 53; 1; 0; 176; 1].

Definition even_freq : list Z := replicate 256 16.
Definition result_or {E A} (a : A) (m : outcome E A) : A := match m with Ok x => x | _ => a end.
Definition uniform_table : netc_tans_table_t := result_or zero_table (netc_tans_build even_freq).
Definition uniform_ctx : netc_ctx_t :=
  Ctx (Some (Dict 0x4E455443 5 7 16 0 (replicate 16 uniform_table) (replicate 16 (replicate 8 uniform_table)) (replicate 256 3) 8 None 0))
    0 5 0 None 0 0 generic_ops None 0 None 0 0 0 stats_zero None [] None None 0.

Example regions_readable : readable regions_packet 16 false.
Proof. apply (bool_decide_eq_true_1 _). vm_compute. reflexivity. Qed.

Example regions_decode :
  snd (result_or (uniform_ctx, []) (netc_decompress (Some uniform_ctx) (Some regions_packet) (Some (replicate 16 0)) false)) =
  [5; 6; 7; 8; 9; 10; 11; 12; 200; 201].
Proof. vm_compute. reflexivity. Qed.

(** The same for [netc_decompress_stateless]: an error, or at most as many bytes
    as the destination holds. *)
Theorem decompress_stateless_safe (dict : netc_dict_t) (src dst : list Z) :
  dict_ok dict -> bytes src -> bytes dst -> readable src (zlen dst) false ->
  (exists e, netc_decompress_stateless (Some dict) (Some src) (Some dst) false = Fail e) \/
  exists out, netc_decompress_stateless (Some dict) (Some src) (Some dst) false = Ok out /\
    zlen out <= zlen dst /\ bytes out.
Proof.
  intros Hd Hb Hdb Hs. unfold netc_decompress_stateless. unfold readable in Hs.
  destruct (validate_safe src (zlen dst) false Hb) as [[e He]|(h & n & He & Hh & Ho & Hn & Hl)]; rewrite He in *;
    mstep; [left; by eexists|]. case_if; [left; by eexists|]. case_if; [left; by eexists|].
  pose proof Hh as (_ & Hcs & _). rewrite peek_ok by lia. mstep.
  destruct (stateless_dispatch_safe dict h (slice src n (compressed_size h)) dst) as [[e ->]|(out & -> & Hlo & Hbo)];
    [done|done|auto with netc|by apply length_slice; lia|done|done|done|left; by eexists|].
  right. exists out. split; [done|]. split; [lia|done].
Qed.

Lemma decompress_stateless_safe_witness :
  let src := [10; 0; 10; 0; 4; 0xFF; 0; 0; 1; 2; 3; 4; 5; 6; 7; 8; 9; 0] in
  let dst := [0; 0; 0; 0; 0; 0; 0; 0; 0; 0; 0; 0] in
  (exists e, netc_decompress_stateless (Some blank_dict) (Some src) (Some dst) false = Fail e) \/
  exists out, netc_decompress_stateless (Some blank_dict) (Some src) (Some dst) false = Ok out /\
    zlen out <= 12 /\ bytes out.
Proof.
  intros src dst. apply (decompress_stateless_safe blank_dict src dst).
  - apply blank_dict_ok.
  - repeat constructor; unfold is_byte; lia.
  - repeat constructor; unfold is_byte; lia.
  - constructor.
Defined.
