(* ===== verification/Progress.v ===== *)
(** * The encoder is total and stays within its buffer

    When every valid table of the dictionary codes every byte (as the tables
    of a trained dictionary do), no path of [netc_compress] is undefined, the
    packet never exceeds the output buffer, and the passthrough fallback makes
    every call with room for header and data succeed. *)

From stdpp Require Import prelude.
From Stdlib Require Import ZArith Lia.
From S2P Require Import Prelude TansTable Bitstream TansCodec Lzp Freq Delta Crc32 Simd Header Lz Ctx.
From S2P Require Import Decompress Compress Payload Packets Sync Stages Session.

Local Open Scope Z_scope.

(** ** Bitstreams fit the buffer *)
Lemma flush_loop_fits fuel w out :
  bsw_flush_loop fuel w = Ok out -> zlen (w_buf w) <= w_cap w -> zlen out <= w_cap w.
Proof.
  revert w. induction fuel as [|fuel IH]; intros w H Hw; simpl in H; [done|].
  case_if_in H; [|by injection H as <-]. case_if_in H; [done|].
  apply bind_Ok in H as (b & [-> Hb]%put_Ok & H). apply IH in H; [done|]. simpl.
  rewrite length_app. simpl in *. lia.
Qed.

(** Finishing a stream: an error, or at most [w_cap] bytes. *)
Lemma flush_total w W N :
  bsw_rep w W N -> netc_bsw_flush w = Fail tt \/ exists out, netc_bsw_flush w = Ok out /\ zlen out <= w_cap w.
Proof.
  intros Hw. destruct (bsw_flush_spec w W N Hw) as [(out & Hf & _)|[Hf _]]; [right|by left].
  exists out. split; [done|]. unfold netc_bsw_flush in Hf. apply bind_Ok in Hf as (sh & _ & Hf).
  apply flush_loop_fits in Hf; [done|]. simpl. apply Hw.
Qed.

(** ** Tables that code every byte *)
Section Full.
Context `{P : TansParams}.

Definition table_full (tbl : netc_tans_table_t) : Prop :=
  exists freq, table_ok tbl freq /\ Forall (fun f => 1 <= f) freq.

Lemma full_freq freq sym : length freq = 256%nat -> Forall (fun f => 1 <= f) freq -> is_byte sym -> 0 < freq_of freq sym.
Proof.
  intros Hl Hf Hs. unfold freq_of, is_byte in *. destruct (lookup_lt_is_Some_2 freq (Z.to_nat sym)) as [f Hk]; [lia|].
  rewrite Hk. simpl. pose proof (Forall_lookup_1 _ _ _ _ Hf Hk). simpl in *. lia.
Qed.

(** The writer at some point of an encoding into [cap] bytes. *)
Definition writing (cap X : Z) (w : netc_bsw_t) : Prop :=
  state_ok X /\ w_cap w = cap /\ exists W N, bsw_rep w W N.

Lemma step_total tbl cap X sym w :
  table_full tbl -> is_byte sym -> writing cap X w ->
  tans_encode_step tbl X sym w = Fail tt \/
  exists X' w', tans_encode_step tbl X sym w = Ok (X', w') /\ writing cap X' w'.
Proof.
  intros (freq & Hok & Hf) Hs (HX & Hc & W & N & Hw).
  destruct (encode_step_spec tbl freq X sym w W N Hok Hs HX Hw) as (nb & _ & [(X' & w' & He & HX' & Hc' & Hw' & _)|[He _]]).
  - apply full_freq; [by apply (tok_freq_ok _ _ Hok)|done|done].
  - right. exists X', w'. split; [done|]. split; [done|]. split; [congruence|eauto].
  - by left.
Qed.

(** A selector whose tables code every byte, unless the coder tests for absent
    symbols ([chk]). *)
Definition sel_codes (chk : bool) (sel : Z -> Z -> outcome unit netc_tans_table_t) : Prop :=
  forall i prev, is_byte prev -> sel i prev = Fail tt \/
    exists tbl freq, sel i prev = Ok tbl /\ table_ok tbl freq /\ (chk = false -> Forall (fun f => 1 <= f) freq).

Lemma checked_step_total tbl freq cap X sym w :
  table_ok tbl freq -> is_byte sym -> writing cap X w ->
  tans_encode_step_checked tbl X sym w = Fail tt \/
  exists X' w', tans_encode_step_checked tbl X sym w = Ok (X', w') /\ writing cap X' w'.
Proof.
  intros Hok Hs Hw. pose proof Hw as (HX & Hc & W & N & Hrep).
  destruct (decide (freq_of freq sym = 0)) as [Hz|Hz].
  - left. by eapply encode_step_absent.
  - assert (0 < freq_of freq sym) as Hpos.
    { destruct (tok_freq_ok _ _ Hok) as (_ & Hnn & _). unfold freq_of in *.
      destruct (freq !! Z.to_nat sym) eqn:E; simpl in *; [|lia].
      pose proof (Forall_lookup_1 _ _ _ _ Hnn E). simpl in *. lia. }
    rewrite (encode_step_checked_eq tbl freq) by done.
    destruct (encode_step_spec tbl freq X sym w W N Hok Hs HX Hrep Hpos)
      as (nb & _ & [(X' & w' & He & HX' & Hc' & Hw' & _)|[He _]]); [right|by left].
    exists X', w'. split; [done|]. split; [done|]. split; [congruence|eauto].
Qed.

Lemma loop_total chk sel src i prev cap X w :
  sel_codes chk sel -> bytes src -> is_byte prev -> writing cap X w ->
  encode_loop (sel_step chk sel) i prev src (X, w) = Fail tt \/
  exists X' w', encode_loop (sel_step chk sel) i prev src (X, w) = Ok (X', w') /\ writing cap X' w'.
Proof.
  intros Hsel Hb Hp Hw. revert i prev Hp. induction Hb as [|a src Ha Hb IH]; intros i prev Hp; simpl; [right; eauto|].
  destruct (IH (i + 1) a Ha) as [->|(X1 & w1 & -> & Hw1)]; [by left|]. mstep. unfold sel_step.
  destruct (Hsel i prev Hp) as [->|(tbl & freq & -> & Hok & Hfull)]; [by left|]. mstep.
  destruct chk; [by eapply checked_step_total|]. apply step_total; [|done|done]. exists freq. auto.
Qed.

Lemma pairs_total tbl src cap X0 X1 w :
  table_full tbl -> bytes src -> writing cap X0 w -> state_ok X1 ->
  encode_pairs tbl src (X0, X1, w) = Fail tt \/
  exists X0' X1' w', encode_pairs tbl src (X0, X1, w) = Ok (X0', X1', w') /\ writing cap X0' w' /\ state_ok X1'.
Proof.
  intros Hfull Hb. revert Hb. induction src as [|a|a b src IH] using list_pair_ind; intros Hb Hw H1.
  - right. do 3 eexists. split; [done|]. done.
  - right. do 3 eexists. split; [done|]. done.
  - apply bytes_cons in Hb as [Ha Hb]. apply bytes_cons in Hb as [Hb1 Hb]. cbn [encode_pairs].
    destruct (IH Hb Hw H1) as [->|(Y0 & Y1 & w1 & -> & (HY0 & Hc & HW) & HY1)]; [by left|]. mstep.
    destruct (step_total tbl cap Y1 b w1) as [->|(Y1' & w2 & -> & (HY1' & Hc2 & HW2))]; [done|done|done|by left|]. mstep.
    destruct (step_total tbl cap Y0 a w2) as [->|(Y0' & w3 & -> & Hw3)]; [done|done|done|by left|]. mstep.
    right. do 3 eexists. split; [done|]. done.
Qed.

Lemma writing_init cap : 0 <= cap -> writing cap TABLE_SIZE (netc_bsw_init cap).
Proof.
  intros Hc. pose proof TABLE_SIZE_range. split; [unfold state_ok; lia|]. split; [done|].
  exists 0, 0. by apply bsw_init_rep.
Qed.

(** An encoder run followed by the flush: an error, or a state and at most [cap] bytes. *)
Definition encodes (cap : Z) (m : outcome unit (Z * netc_bsw_t)) : Prop :=
  m = Fail tt \/ exists X w, m = Ok (X, w) /\ writing cap X w.

Lemma encode_total step chk sel src cap :
  sel_codes chk sel -> bytes src -> 0 <= cap ->
  (forall i prev sym st, step i prev sym st = sel_step chk sel i prev sym st) ->
  encodes cap (r ← encode_loop step 0 0 src (clamp_state TABLE_SIZE, netc_bsw_init cap); final_state r).
Proof.
  intros Hsel Hb Hc Hstep. rewrite clamp_init, (encode_loop_ext _ _ _ _ _ _ Hstep).
  destruct (loop_total chk sel src 0 0 cap TABLE_SIZE (netc_bsw_init cap) Hsel Hb) as [->|(X & w & -> & Hw)];
    [done|by apply writing_init|by left|]. mstep. unfold final_state. simpl. case_if; [by left|]. right. eauto.
Qed.

Lemma x2_total tbl src cap :
  table_full tbl -> bytes src -> 0 <= cap ->
  tans_encode_x2 tbl src (netc_bsw_init cap) = Fail tt \/
  exists X0 X1 w, tans_encode_x2 tbl src (netc_bsw_init cap) = Ok (X0, X1, w) /\ writing cap X0 w.
Proof.
  intros Hfull Hb Hc. pose proof (writing_init cap Hc) as Hw. unfold tans_encode_x2.
  destruct (_ || _) eqn:E; [by left|]. apply orb_false_iff in E as [_ E]. apply Z.ltb_ge in E.
  assert (state_ok TABLE_SIZE) as HT by apply Hw. case_if.
  - destruct (@aget_total unit _ src (zlen src - 1)) as [sym Hsym]; [lia|]. rewrite Hsym. mstep.
    assert (is_byte sym) by (by eapply bytes_aget).
    destruct (step_total tbl cap TABLE_SIZE sym (netc_bsw_init cap)) as [->|(X' & w' & -> & Hw')];
      [done|done|done|by left|]. mstep.
    destruct (pairs_total tbl (take (length src - 1) src) cap X' TABLE_SIZE w') as [->|(? & ? & ? & -> & ? & _)];
      [done|auto with netc|done|done|by left|]. right. eauto 10.
  - destruct (pairs_total tbl src cap TABLE_SIZE TABLE_SIZE (netc_bsw_init cap)) as [->|(? & ? & ? & -> & ? & _)];
      [done|done|done|done|by left|]. right. eauto 10.
Qed.
End Full.

(** ** Payload encoders *)

(** An error, or a value that satisfies [Q]: never undefined. *)
Definition yields {E A} (Q : A -> Prop) (m : outcome E A) : Prop :=
  (exists e, m = Fail e) \/ exists a, m = Ok a /\ Q a.

Lemma yields_fail {E A} (Q : A -> Prop) (e : E) : yields Q (Fail e).
Proof. left. by exists e. Qed.
Lemma yields_ok {E A} (Q : A -> Prop) (a : A) : Q a -> @yields E A Q (Ok a).
Proof. right. eauto. Qed.
#[export] Hint Resolve yields_fail yields_ok : netc.

Lemma yields_bind {E A B} (Q : A -> Prop) (R : B -> Prop) (m : outcome E A) k :
  yields Q m -> (forall a, Q a -> yields R (k a)) -> yields R (m ≫= k).
Proof. intros [[e ->]|(a & -> & Ha)] Hk; [apply yields_fail|]. by apply Hk. Qed.

Lemma yields_attempt {E A} (Q : A -> Prop) (m : outcome unit A) :
  yields Q m -> exists r, @attempt E A m = Ok r /\ match r with Some a => Q a | None => True end.
Proof. intros [[e ->]|(a & -> & Ha)]; [by exists None|by exists (Some a)]. Qed.

Lemma yields_trial {A} (Q : A -> Prop) size (out : A -> list Z) m :
  yields Q m -> (forall a, Q a -> zlen (out a) <= size) ->
  exists r, trial size out m = Ok r /\ match r with Some a => Q a | None => True end.
Proof.
  intros H Hs. rewrite trial_fits; [by apply yields_attempt|]. intros a Ha. apply Hs.
  destruct H as [[e He]|(b & Hb & HQ)]; congruence.
Qed.

Lemma yields_store {E} (Q : list Z -> Prop) cap l :
  zlen l <= cap -> Q l -> @yields E _ Q (store cap l).
Proof. intros. rewrite store_ok by done. by apply yields_ok. Qed.

Definition tbl_full (t : netc_tans_table_t) : Prop := t_valid t = true -> table_full (P := P12) t.

(** The tables of a dictionary (or of the adaptive model) that are valid code
    every byte. *)
Record dict_full (d : netc_dict_t) : Prop := {
  df_tables : Forall tbl_full (d_tables d);
  df_bigram : Forall (Forall tbl_full) (d_bigram_tables d)
}.

Lemma single_with_table_total tbl src cap fl compact :
  tbl_full tbl -> bytes src ->
  yields (fun r => zlen r.1 <= cap) (try_tans_single_with_table tbl src cap fl compact).
Proof.
  intros Ht Hb. unfold try_tans_single_with_table. destruct (t_valid tbl) eqn:Hv; [|apply yields_fail].
  specialize (Ht Hv). simpl negb. cbv iota.
  assert (exists r, (if negb (has fl NETC_CFG_FLAG_BIGRAM) && negb (has fl NETC_INTERNAL_NO_X2) &&
           (256 <=? zlen src) && ((if compact then 4 else 8) <=? cap)
        then @attempt unit _ ('(state0, state1, bsw) ←
               netc_tans_encode_x2 tbl src (netc_bsw_init (cap - (if compact then 4 else 8)));
             bs ← netc_bsw_flush bsw;
             store cap (write_state compact state0 ++ write_state compact state1 ++ bs))
        else Ok None) = Ok r /\ match r with Some p => zlen p <= cap | None => True end) as (r & -> & Hr).
  { destruct (_ && _) eqn:E; [|by exists None]. apply andb_prop in E as [_ E]. apply Z.leb_le in E.
    apply yields_attempt. unfold netc_tans_encode_x2.
    destruct (x2_total (P := P12) tbl src (cap - (if compact then 4 else 8)) Ht Hb) as [->|(X0 & X1 & w & -> & (_ & Hc & W & N & Hw))];
      [destruct compact; lia|apply yields_fail|]. mstep.
    destruct (flush_total w W N Hw) as [->|(out & -> & Hl)]; [apply yields_fail|]. mstep.
    assert (zlen (write_state compact X0 ++ write_state compact X1 ++ out) <= cap); [|by apply yields_store].
    rewrite !length_app. pose proof (write_state_length compact X0). pose proof (write_state_length compact X1).
    destruct compact; simpl in *; lia. }
  mstep. destruct r as [p|]; [by apply yields_ok|].
  destruct (Z.ltb_spec cap (if compact then 2 else 4)); [apply yields_fail|].
  unfold netc_tans_encode, tans_encode. rewrite Hv. simpl orb. case_if; [apply yields_fail|].
  destruct (encode_total (P := P12) (fun _ _ sym '(X, w) => tans_encode_step tbl X sym w) false (fun _ _ => Ok tbl)
    src (cap - (if compact then 2 else 4))) as [He|(X & w & He & (_ & Hc & W & N & Hw))].
  - intros ? ? _. right. destruct Ht as (freq & ? & ?). eauto.
  - done.
  - destruct compact; lia.
  - by intros ? ? ? [? ?].
  - rewrite P12_size in He. rewrite He. apply yields_fail.
  - rewrite P12_size in He. rewrite He. mstep. destruct (flush_total w W N Hw) as [->|(out & -> & Hl)]; [apply yields_fail|].
    mstep. assert (zlen (write_state compact X ++ out) <= cap) as Hp; [|rewrite store_ok by done; by apply yields_ok].
    rewrite length_app. pose proof (write_state_length compact X). destruct compact; simpl in *; lia.
Qed.

Section TansTotal.
Context (dict : netc_dict_t) (tables : list netc_tans_table_t).
Hypothesis dict_wf : dict_ok dict.
Hypothesis dict_fl : dict_full dict.
Hypothesis tables_wf : tables_ok tables.
Hypothesis tables_fl : Forall tbl_full tables.

Lemma table_get_full {E} b :
  0 <= b < NETC_CTX_COUNT -> exists tbl, @aget E _ tables b = Ok tbl /\ tbl_full tbl.
Proof.
  intros Hb. destruct (@tables_get E tables b tables_wf Hb) as (tbl & Hg & _). exists tbl. split; [done|].
  apply aget_Ok in Hg as [_ Hg]. by eapply Forall_lookup_1 in tables_fl.
Qed.

Lemma bigram_get_full b c :
  0 <= b < NETC_CTX_COUNT -> 0 <= c < NETC_BIGRAM_CTX_COUNT ->
  exists row tbl, @aget unit _ (d_bigram_tables dict) b = Ok row /\ @aget unit _ row c = Ok tbl /\ tbl_full tbl.
Proof.
  intros Hb Hc. destruct (@bigram_get unit _ b c (dok_bigram _ dict_wf) Hb Hc) as (row & tbl & Hr & Ht & _).
  exists row, tbl. split; [done|]. split; [done|]. apply aget_Ok in Hr as [_ Hr], Ht as [_ Ht].
  pose proof (Forall_lookup_1 _ _ _ _ (df_bigram _ dict_fl) Hr) as Hrow. by eapply Forall_lookup_1 in Hrow.
Qed.

Lemma select_full bucket fl :
  0 <= bucket < NETC_CTX_COUNT ->
  exists tbl, select_tans_table dict tables bucket 0 fl = Ok tbl /\ tbl_full tbl.
Proof.
  intros Hb. unfold select_tans_table. destruct (@table_get_full unit bucket Hb) as (u & Hu & Huf).
  case_if; [|by exists u].
  destruct (bigram_class_ok 0 _ (dok_class_map _ dict_wf)) as (c & -> & Hc); [done|]. mstep.
  destruct (bigram_get_full bucket c Hb Hc) as (row & t & -> & Hr & Htf). mstep. rewrite Hr. mstep. case_if; eauto.
Qed.

Lemma best_total src fl compact l best :
  bytes src -> (forall b, b ∈ l -> 0 <= b < NETC_CTX_COUNT) ->
  (forall cp b, best = Some (cp, b) -> 0 <= b < NETC_CTX_COUNT) ->
  exists r, foldM (best_bucket tables src fl compact) best l = Ok r /\
    forall cp b, r = Some (cp, b) -> 0 <= b < NETC_CTX_COUNT.
Proof.
  intros Hb. revert best. induction l as [|b l IH]; intros best Hl Hbest; simpl; [eauto|].
  assert (exists r, best_bucket tables src fl compact best b = Ok r /\
    forall cp b, r = Some (cp, b) -> 0 <= b < NETC_CTX_COUNT) as (r & -> & Hr).
  { assert (0 <= b < NETC_CTX_COUNT) as Hbr by (apply Hl; by left). unfold best_bucket.
    destruct (@table_get_full unit b Hbr) as (tbl & -> & Htf). mstep. case_if; [eauto|].
    destruct (yields_trial _ 520 fst _ (single_with_table_total tbl src 520 fl compact Htf Hb)) as (r & -> & _); [done|].
    mstep. eexists. split; [done|]. intros cp b' H. destruct r as [[p x]|]; [|by eapply Hbest].
    destruct best as [[c0 b0]|]; [|by simplify_eq]. case_if_in H; simplify_eq; [done|by eapply Hbest]. }
  mstep. apply IH; [|done]. intros. apply Hl. by right.
Qed.

Lemma single_region_total src cap fl compact :
  bytes src -> yields (fun t => zlen (tr_payload t) <= cap) (try_tans_single_region dict tables src cap fl compact).
Proof.
  intros Hb. unfold try_tans_single_region. pose proof (ctx_bucket_range 0) as H0. destruct (_ && _).
  - destruct (best_total src fl compact (seqZ (netc_ctx_bucket 0)
      (netc_ctx_bucket (if 0 <? zlen src then zlen src - 1 else 0) - netc_ctx_bucket 0 + 1)) None)
      as (r & -> & Hr); [done| |done|].
    { intros b Hbk%elem_of_seqZ. pose proof (ctx_bucket_range (if 0 <? zlen src then zlen src - 1 else 0)). lia. }
    mstep. destruct r as [[cp b]|]; [|apply yields_fail].
    destruct (@table_get_full unit b (Hr cp b eq_refl)) as (tbl & -> & Htf). mstep.
    eapply yields_bind; [by apply single_with_table_total|]. intros [p x] Hp. by apply yields_ok.
  - destruct (select_full (netc_ctx_bucket 0) fl H0) as (tbl & -> & Htf). mstep.
    eapply yields_bind; [by apply single_with_table_total|]. intros [p x] Hp. by apply yields_ok.
Qed.

Lemma switching_yields sel src cap :
  sel_codes (P := P12) true sel -> bytes src -> 0 <= cap ->
  yields (fun r => zlen r.2 <= cap)
    ('(state, bsw) ← encode_switching (P := P12) sel src (netc_bsw_init cap) NETC_TANS_TABLE_SIZE;
     bs ← netc_bsw_flush bsw; Ok (state, bs)).
Proof.
  intros Hsel Hb Hc. unfold encode_switching. case_if; [apply yields_fail|].
  destruct (encode_total (P := P12) (fun i prev sym '(X, w) => tbl ← sel i prev; tans_encode_step_checked tbl X sym w)
    true sel src cap Hsel Hb Hc) as [He|(X & w & He & (_ & Hcap & W & N & Hw))];
    [by intros ? ? ? [? ?]|rewrite P12_size in He; rewrite He..]; [apply yields_fail|]. mstep.
  destruct (flush_total w W N Hw) as [->|(out & -> & Hl)]; [apply yields_fail|]. mstep. apply yields_ok. simpl. lia.
Qed.

Lemma pctx_codes : sel_codes (P := P12) true (pctx_table tables).
Proof.
  intros i prev _. pose proof (pctx_sel_defined tables i prev tables_wf) as Hd.
  destruct (pctx_table tables i prev) as [tbl|[]|] eqn:Et; [|by left|done]. right.
  destruct (pctx_sel_ok tables tables_wf i prev tbl Et) as [freq ?]. by exists tbl, freq.
Qed.

Lemma bigram_codes :
  sel_codes (P := P12) true (bigram_table (d_bigram_tables dict) tables (Some (d_bigram_class_map dict))).
Proof.
  intros i prev Hp.
  destruct (bigram_sel_spec _ tables _ i prev (dok_bigram _ dict_wf) tables_wf (dok_class_map _ dict_wf) Hp)
    as [?|(tbl & ? & Hv & Htok)]; [by left|]. right. destruct (Htok Hv) as [freq ?]. by exists tbl, freq.
Qed.

Lemma pctx_choose_total src cap fl :
  bytes src -> 0 <= cap -> yields (fun r => zlen r.1.2 <= cap) (pctx_choose dict tables src cap fl).
Proof.
  intros Hb Hc. unfold pctx_choose.
  eapply yields_bind; [apply (switching_yields _ src cap pctx_codes Hb Hc)|]. intros [st bs] Hbs. simpl in Hbs.
  destruct (bigram_get_full 0 0) as (row & b00 & -> & Hr & _); [done|done|]. mstep. rewrite Hr. mstep.
  assert (exists r, (if has fl NETC_CFG_FLAG_BIGRAM && t_valid b00
    then trial (NETC_MAX_PACKET_SIZE + 64) snd (bigram_trial dict tables src cap) else Ok None) = Ok r) as [r ->].
  { case_if; [|eauto]. assert (0 <= Z.min cap (NETC_MAX_PACKET_SIZE + 64)) as Hm by (unfold NETC_MAX_PACKET_SIZE; lia).
    destruct (yields_trial _ (NETC_MAX_PACKET_SIZE + 64) snd _ (switching_yields _ src _ bigram_codes Hb Hm))
      as (r & Hr' & _); [simpl; lia|]. exists r. exact Hr'. }
  mstep. destruct r as [[bst bbs]|]; [|by apply yields_ok].
  destruct (Z.ltb_spec (zlen bbs) (zlen bs)); [rewrite store_ok by lia; mstep|]; apply yields_ok; simpl; lia.
Qed.

Lemma all_valid_total a b :
  0 <= a -> b < NETC_CTX_COUNT -> all_valid tables a b = Ok tt \/ all_valid tables a b = Fail tt.
Proof.
  intros Ha Hb. unfold all_valid.
  assert (forall x, x ∈ seqZ a (b - a + 1) -> 0 <= x < NETC_CTX_COUNT) as Hl
    by (intros x Hx%elem_of_seqZ; unfold NETC_CTX_COUNT in *; lia).
  induction (seqZ a (b - a + 1)) as [|x l IH]; simpl; [by left|].
  destruct (@table_get_full unit x) as (tbl & -> & _); [apply Hl; by left|]. mstep.
  destruct (t_valid tbl); [|by right]. mstep. apply IH. intros. apply Hl. by right.
Qed.

Lemma tans_compress_total src cap fl compact :
  bytes src -> yields (fun t => zlen (tr_payload t) <= cap) (try_tans_compress dict tables src cap fl compact).
Proof.
  intros Hb. unfold try_tans_compress. case_if; [apply yields_fail|].
  pose proof (ctx_bucket_range 0) as H0. pose proof (ctx_bucket_range (zlen src - 1)) as H1.
  case_if; [by apply single_region_total|].
  destruct (all_valid_total (netc_ctx_bucket 0) (netc_ctx_bucket (zlen src - 1))) as [->| ->];
    [lia|lia| |apply yields_fail]. mstep.
  assert (exists r, (if state_size compact <=? cap
      then @attempt unit _ (pctx_choose dict tables src (cap - state_size compact) fl) else Ok None) = Ok r /\
    match r with Some p => state_size compact + zlen p.1.2 <= cap | None => True end) as (r & -> & Hr).
  { destruct (Z.leb_spec (state_size compact) cap); [|by exists None].
    destruct (yields_attempt (E := unit) _ _ (pctx_choose_total src (cap - state_size compact) fl Hb ltac:(lia)))
      as (r & -> & Hr). exists r. split; [done|]. destruct r; [lia|done]. }
  mstep. destruct r as [[[st bs] bg]|].
  - assert (exists sr, (if (zlen src <=? 512) && negb (has fl NETC_INTERNAL_SKIP_SR)
      then trial 520 tr_payload (try_tans_single_region dict tables src 520 fl compact) else Ok None) = Ok sr) as [sr ->].
    { destruct (_ && _); [|eauto].
      destruct (yields_trial _ 520 tr_payload _ (single_region_total src 520 fl compact Hb)) as (sr & -> & _); eauto. }
    mstep. simpl in Hr. pose proof (write_state_length compact st). set (res := match sr with Some _ => _ | None => _ end).
    assert (zlen (tr_payload res) <= cap) as Hres; [|rewrite store_ok by done; mstep; by apply yields_ok].
    assert (zlen (write_state compact st ++ bs) <= cap) by (rewrite length_app; lia). unfold res.
    destruct sr as [t|]; [|done]. destruct (Z.ltb_spec (zlen (tr_payload t)) (state_size compact + zlen bs)); [lia|done].
  - case_if; [apply yields_fail|]. by apply single_region_total.
Qed.
End TansTotal.

(** The 10-bit trial tests for absent symbols: any valid table will do. *)
Lemma tans_10_total tables idx src tbl :
  tables_ok tables -> 0 <= idx < NETC_CTX_COUNT -> bytes src ->
  @aget unit _ tables idx = Ok tbl -> t_valid tbl = true ->
  yields (fun _ => True) (try_tans_10 tables idx src).
Proof.
  intros Ht Hi Hb Hg Hv. unfold try_tans_10. rewrite Hg. mstep.
  destruct (@tables_get unit tables idx Ht Hi) as (t & Hg' & Htok). rewrite Hg in Hg'. injection Hg' as <-.
  destruct (Htok Hv) as [freq Hok]. rewrite (tok_freq _ _ Hok).
  destruct (rescale_spec freq (tok_freq_ok _ _ Hok)) as (f10 & -> & Hfl & Hff & _). mstep.
  destruct (decide (lsum f10 = @TABLE_SIZE P10)) as [He|He].
  2: { unfold netc_tans_build_10. rewrite (tans_build_reject (P := P10) f10) by done. apply yields_fail. }
  destruct (tans_build_ok (P := P10) f10) as (t10 & Hb10 & Hok10).
  { split; [done|]. split; [eapply Forall_impl; [exact Hff|simpl; lia]|done]. }
  unfold netc_tans_build_10. rewrite Hb10. mstep. unfold try_tans_10bit_with_table. rewrite (tok_valid _ _ Hok10).
  change (136 <? 2) with false. cbn [negb]. cbv iota. unfold netc_tans_encode_10, tans_encode.
  rewrite (tok_valid _ _ Hok10). cbn [negb orb]. case_if; [apply yields_fail|].
  destruct (encode_total (P := P10) (fun _ _ sym '(X, w) => tans_encode_step_checked t10 X sym w) true
    (fun _ _ => Ok t10) src (136 - 2)) as [Hn|(X & w & Hn & (_ & Hc & W & N & Hw))];
    [intros ? ? _; right; by exists t10, f10|done|lia|by intros ? ? ? [? ?]|rewrite P10_size in Hn; rewrite Hn..];
    [apply yields_fail|]. mstep.
  destruct (flush_total w W N Hw) as [->|(out & -> & Hl)]; [apply yields_fail|]. mstep.
  assert (zlen (netc_write_u16_le (u16 X) ++ out) <= 136) by (rewrite length_app; simpl; lia).
  rewrite store_ok by done. mstep. by apply yields_store.
Qed.

(** ** The stages *)

(** The tables in use code every byte. *)
Definition ctx_full (ctx : netc_ctx_t) : Prop :=
  forall dict, c_dict ctx = Some dict -> dict_full dict /\ Forall tbl_full (netc_get_tables ctx dict).

Lemma emit_length h compact (src : list Z) :
  original_size h = zlen src -> zlen (netc_hdr_emit h compact) = compress_hdr_size (zlen src) compact.
Proof.
  intros Ho. unfold netc_hdr_emit, compress_hdr_size. destruct compact; [|apply hdr_write_length].
  rewrite compact_hdr_length, Ho. done.
Qed.

(** The tail of a successful call. *)
Lemma compress_finish_total c src h payload compact p cap :
  ctx_ok c -> bytes src -> zlen src <= NETC_MAX_PACKET_SIZE -> original_size h = zlen src ->
  compress_hdr_size (zlen src) compact + zlen payload <= cap ->
  exists e' pkt, compress_finish c src h payload cap compact p = Ok (e', pkt) /\ zlen pkt <= cap /\ ctx_ok e'.
Proof.
  intros Hok Hb Hl Ho Hcap. unfold compress_finish.
  rewrite put_ok by (rewrite (emit_length h compact src Ho); lia). mstep.
  destruct (@ring_append_ok netc_result_t c src Hok Hb) as (c1 & -> & Hok1). mstep.
  destruct (@update_prev_ok netc_result_t c1 src Hok1 Hb Hl) as (c2 & -> & Hok2). mstep.
  set (pk := netc_hdr_emit h compact ++ payload).
  destruct (stats_compressed_frame c2 (zlen src) (zlen pk) p) as (Hs & _ & Hops & Hseq).
  destruct (learn_ok (stats_compressed c2 (zlen src) (zlen pk) p) src) as (c3 & -> & Hok3); [|done|].
  { apply (ctx_ok_shared c2); [done|done|rewrite Hops; apply Hok2|rewrite Hseq; apply Hok2]. }
  mstep. do 2 eexists. split; [done|]. split; [|done]. unfold pk. rewrite length_app.
  rewrite Nat2Z.inj_add, (emit_length h compact src Ho). lia.
Qed.

(** A stage: it falls through, or emits a packet that fits. *)
Definition stage_ok (cap : Z) (r : result (option (netc_ctx_t * list Z))) : Prop :=
  exists o, r = Ok o /\ match o with Some (e', pkt) => zlen pkt <= cap /\ ctx_ok e' | None => True end.

Lemma stage_none cap : stage_ok cap (Ok None).
Proof. by exists None. Qed.

Lemma stage_finish c src h payload compact p cap :
  ctx_ok c -> bytes src -> zlen src <= NETC_MAX_PACKET_SIZE -> original_size h = zlen src ->
  compress_hdr_size (zlen src) compact + zlen payload <= cap ->
  stage_ok cap (r ← compress_finish c src h payload cap compact p; Ok (Some r)).
Proof.
  intros. destruct (compress_finish_total c src h payload compact p cap) as (e' & pkt & -> & Hl & Hok); [done..|].
  mstep. by exists (Some (e', pkt)).
Qed.

Lemma lz77_attempt {E} src cap :
  bytes src -> 0 <= cap ->
  exists r, @attempt E _ (lz77_encode src cap) = Ok r /\ match r with Some out => zlen out <= cap | None => True end.
Proof.
  intros Hb Hc. destruct (lz77_encode_spec src cap Hb) as [->|(out & He & _)]; [by exists None|].
  exists (Some out). rewrite He. split; [done|]. by apply lz77_encode_fits in He.
Qed.

Lemma lz77x_attempt {E} src ring rs rp ps cap :
  bytes src -> zlen src <= NETC_MAX_PACKET_SIZE -> ring_ok ring rs -> 0 <= cap ->
  exists r, @attempt E _ (lz77x_encode src (Some ring) rs rp ps cap) = Ok r /\
    match r with Some out => zlen out <= cap | None => True end.
Proof.
  intros Hb Hl Hr Hc. destruct (lz77x_encode_spec src ring rs rp ps cap Hb) as [->|(out & He & _)];
    [unfold NETC_MAX_PACKET_SIZE in *; lia|done|by exists None|].
  exists (Some out). rewrite He. split; [done|]. by apply lz77x_encode_fits in He.
Qed.

(** The encoders stay within the buffer they are told of. *)
Lemma lz77_trial src cap : 0 <= cap -> trial cap id (lz77_encode src cap) = attempt (lz77_encode src cap).
Proof. intros Hc. apply trial_fits. intros out H. by apply lz77_encode_fits in H. Qed.

Lemma lz77x_trial src ring rs rp ps cap :
  0 <= cap -> trial cap id (lz77x_encode src (Some ring) rs rp ps cap) = attempt (lz77x_encode src (Some ring) rs rp ps cap).
Proof. intros Hc. apply trial_fits. intros out H. by apply lz77x_encode_fits in H. Qed.

Section StagesTotal.
Context (c d : netc_ctx_t) (q : Z) (src : list Z) (cap : Z).
Hypothesis Htr : tracks c d q.
Hypothesis src_len : zlen src <= NETC_MAX_PACKET_SIZE.
Hypothesis src_bytes : bytes src.
Let compact := has (c_flags d) NETC_CFG_FLAG_COMPACT_HDR.
Let hdr_sz := compress_hdr_size (zlen src) compact.
Let lzp_table := netc_get_lzp_table c.
Hypothesis cap_ok : hdr_sz <= cap.

Lemma c_ok : ctx_ok c.
Proof. apply (tr_ok _ _ _ Htr). Qed.

Lemma lzx_compete_total psize :
  exists dirty r, lzx_compete c src psize hdr_sz cap = Ok (dirty, r) /\
    (dirty = true -> 64 <= zlen src) /\
    match r with Some out => hdr_sz + zlen out <= cap | None => True end.
Proof.
  unfold lzx_compete. destruct (c_ring c) as [ring|] eqn:Er; [|by exists false, None].
  destruct (_ && _) eqn:E; [|by exists false, None].
  apply andb_prop in E as [[[[E1 _]%andb_prop E3]%andb_prop E4]%andb_prop _]. apply Z.leb_le in E3, E4.
  destruct (cok_ring _ c_ok _ Er) as (Hrok & _ & _). rewrite lz77x_trial by lia.
  destruct (@lz77x_attempt unit src ring (c_ring_size c) (c_ring_pos c) (u32 (c_prev_pkt_size c)) (c_arena_size c))
    as (r & -> & _); [done|done|done|lia|]. mstep. do 2 eexists. split; [done|]. split; [done|].
  destruct r as [out|]; [|done]. case_if; [|done]. lia.
Qed.

Lemma prefilters_total : exists pf0 pf, delta_prepass c src = Ok pf0 /\ lzp_prefilter c lzp_table src pf0 = Ok pf.
Proof.
  assert (exists pf0, delta_prepass c src = Ok pf0) as [pf0 H0].
  { unfold delta_prepass. destruct (_ && _) eqn:E; [|eauto].
    apply andb_prop in E as [[[_ Esz]%andb_prop Emin]%andb_prop Ear]. apply Z.eqb_eq in Esz. apply Z.leb_le in Emin, Ear.
    unfold NETC_DELTA_MIN_SIZE in Emin.
    destruct (c_prev_pkt c) as [prev|] eqn:Ep; [|pose proof (cok_no_prev _ c_ok Ep); lia].
    destruct (cok_prev _ c_ok _ Ep) as (Hpl & Hpb & _). cbn [prev_bytes]. mstep. pose proof (cok_simd _ c_ok) as Hs.
    rewrite simd_encode by (done || lia).
    destruct (delta_loop_inv 0 prev src Hpb src_bytes) as (res & He & Hrl & _); [lia|].
    unfold netc_delta_encode. rewrite He. mstep. rewrite store_ok by lia. mstep. destruct (c_prev2_pkt c) as [prev2|] eqn:Ep2; [|eauto].
    case_if; [|eauto]. destruct (cok_prev2 _ c_ok _ Ep2) as (Hp2l & Hp2b & _).
    destruct (delta_loop2_inv 0 prev2 prev src) as (res2 & He2 & Hrl2 & _); [lia|done|lia|].
    unfold netc_delta_encode_order2. rewrite He2. mstep. rewrite store_ok by lia. mstep.
    case_if; [rewrite store_ok by lia; mstep|]; eauto. }
  exists pf0. unfold lzp_prefilter. destruct (c_dict c); [|eauto]. destruct lzp_table as [lzp|] eqn:El; [|eauto].
  destruct (_ && _) eqn:E; [|eauto]. apply andb_prop in E as [_ E]. apply Z.leb_le in E.
  destruct (lzp_filter_inv lzp 0 0 src) as (o & Ho & Hol & _);
    [by eapply (lzp_table_wf c d q)|done|]. unfold netc_lzp_xor_filter. rewrite Ho. mstep.
  rewrite store_ok by lia. mstep. eauto.
Qed.

Context (dict : netc_dict_t).
Let tables := netc_get_tables c dict.
Hypothesis dict_eq : c_dict c = Some dict.
Hypothesis full : ctx_full c.

Lemma tans_yields s cp fl :
  bytes s -> yields (fun t => zlen (tr_payload t) <= cp) (try_tans_compress dict tables s cp fl compact).
Proof.
  intros Hb. destruct (full dict dict_eq) as [Hf1 Hf2].
  apply tans_compress_total; [by eapply (dict_wf c d q)|done|by eapply (tables_wf c d q)|done|done].
Qed.

Lemma tans_total s cp fl :
  bytes s -> exists r, @attempt netc_result_t _ (try_tans_compress dict tables s cp fl compact) = Ok r /\
    match r with Some t => zlen (tr_payload t) <= cp | None => True end.
Proof. intros Hb. by apply yields_attempt, tans_yields. Qed.

Lemma finish_tans_total trial t did_lzp f fl tans_src :
  single_spec dict tables tans_src fl compact t \/ pctx_spec dict tables tans_src fl compact t ->
  hdr_sz + zlen (tr_payload t) <= cap ->
  (zlen src <= 128 -> tr_mreg t = 0 -> did_lzp = false -> exists s, trial = Ok s /\ bytes s) ->
  stage_ok cap (r ← finish_tans c dict tables src q compact trial t did_lzp f fl cap; Ok (Some r)).
Proof.
  intros Hspec Hl Htrial. unfold finish_tans.
  assert (exists ten, (if (zlen src <=? 128) && (tr_mreg t =? 0) && negb did_lzp &&
      negb (has fl NETC_CFG_FLAG_BIGRAM) && compact
    then s ← trial; @attempt unit _ (try_tans_10 tables (tr_tbl t) s) else Ok None) = Ok ten) as [ten ->].
  { destruct (_ && _) eqn:E; [|eauto].
    apply andb_prop in E as [[[[E1 E2]%andb_prop E3]%andb_prop E4]%andb_prop _].
    apply Z.leb_le in E1. apply Z.eqb_eq in E2. apply negb_true_iff in E3, E4.
    destruct (Htrial E1 E2 E3) as (s & -> & Hs). mstep.
    destruct Hspec as [[_ Hi _ Hv _]|[Hm _ _ _]]; [|destruct Hm as [?|[? _]]; lia].
    destruct (Hv E4) as (tbl & Hg & Hvt).
    destruct (yields_attempt (E := unit) _ _ (tans_10_total tables (tr_tbl t) s tbl ltac:(by eapply (tables_wf c d q))
      Hi Hs Hg Hvt)) as (r & -> & _). eauto. }
  cbn [lift or_fail]. mstep.
  destruct (match ten with Some p => _ | None => _ end) as [payload u10] eqn:Ep. cbv beta iota zeta.
  apply stage_finish; [apply c_ok|done|done|cbn [original_size]; by apply u16_len|].
  destruct ten as [p|]; [|injection Ep as <- _; done].
  destruct (Z.ltb_spec (zlen p) (zlen (tr_payload t))); injection Ep as <- _; fold hdr_sz; lia.
Qed.

Lemma lzp_compete_total pf t fl pcap :
  zlen (tr_payload t) <= pcap ->
  exists r, lzp_compete c dict tables lzp_table src compact pf t fl pcap = Ok r /\
    zlen (tr_payload r.1.2) <= zlen (tr_payload t).
Proof.
  intros Hpc. unfold lzp_compete. destruct lzp_table as [lzp|] eqn:El; [|by eexists; split; [done|simpl; lia]].
  destruct (_ && _) eqn:E; [|by eexists; split; [done|simpl; lia]].
  apply andb_prop in E as [[[_ E]%andb_prop _]%andb_prop _]. apply Z.leb_le in E.
  destruct (lzp_filter_inv lzp 0 0 src) as (o & Ho & Hol & Hob & _); [by eapply (lzp_table_wf c d q)|done|].
  unfold netc_lzp_xor_filter. rewrite Ho. mstep. rewrite store_ok by lia. mstep. set (lzp_ctx := Z.lor (Z.lor _ _) _).
  destruct (yields_trial _ 520 tr_payload _ (tans_yields o 520 lzp_ctx Hob)) as (r & -> & _); [done|].
  mstep. destruct r as [t'|]; [|eexists; split; [done|simpl; lia]].
  destruct (Z.ltb_spec (zlen (tr_payload t')) (zlen (tr_payload t)));
    [rewrite store_ok by lia; mstep|]; (eexists; split; [done|simpl; lia]).
Qed.

Lemma lz77_compete_total pf t :
  bytes (pf_src pf) -> zlen (tr_payload t) < zlen src ->
  exists dirty r, lz77_compete c src pf t hdr_sz cap = Ok (dirty, r) /\ (dirty = true -> 256 <= zlen src) /\
    match r with Some out => hdr_sz + zlen out <= cap | None => True end.
Proof.
  intros Hb Htl. unfold lz77_compete.
  set (lmin := if has (c_flags c) NETC_CFG_FLAG_FAST_COMPRESS then 512 else 256).
  assert (256 <= lmin) by (unfold lmin; case_if; lia).
  destruct ((lmin <=? zlen src) && _) eqn:E; [|by exists false, None].
  apply andb_prop in E as [E _]. apply Z.leb_le in E. case_if.
  - rewrite lz77_trial by lia. destruct (@lz77_attempt unit src (c_arena_size c)) as (r & -> & _); [done|lia|]. mstep.
    do 2 eexists. split; [done|]. split; [lia|]. destruct r as [out|]; [|done]. case_if; [|done]. lia.
  - destruct (_ && _) eqn:EB; [|by exists false, None]. apply andb_prop in EB as [[_ EB]%andb_prop _].
    apply Z.leb_le in EB. case_if; [by exists false, None|]. rewrite store_ok by lia. mstep.
    destruct (@lz77_attempt unit (pf_src pf) (cap - hdr_sz)) as (r & -> & _); [done|lia|]. mstep.
    do 2 eexists. split; [done|]. split; [lia|]. destruct r as [out|]; [|done]. case_if; [|done]. lia.
Qed.

Lemma tans_block_total pf csrc :
  prefiltered c d src pf csrc -> stage_ok cap (tans_block c dict tables lzp_table src cap hdr_sz q compact pf).
Proof.
  intros Hpre. pose proof Hpre as [Hu Hf Hdf Hex _ Hw]. unfold tans_block.
  destruct (Z.ltb_spec cap hdr_sz); [lia|].
  destruct (filtered_bytes _ _ _ _ Hf (do_bytes _ _ _ _ Hu)) as [Hpb Hpl].
  match goal with |- context [try_tans_compress dict tables (pf_src pf) (cap - hdr_sz) ?f compact] =>
    change f with (tans_flags c d pf) end.
  destruct (tans_total (pf_src pf) (cap - hdr_sz) (tans_flags c d pf) Hpb) as (r & Hr & Hrl).
  rewrite Hr. mstep. destruct r as [t|]; [|apply stage_none]. apply attempt_Some in Hr.
  destruct (negb (zlen (tr_payload t) <? zlen src)) eqn:El; [apply stage_none|]. apply negb_false_iff, Z.ltb_lt in El.
  pose proof (candidate_intro c d q src Htr dict dict_eq pf csrc t (cap - hdr_sz) Hpre ltac:(lia) Hr El) as Hcand.
  destruct (lzp_compete_total pf t (tans_flags c d pf) (cap - hdr_sz) Hrl) as ([[pf1 t1] fl1] & Hc1 & Hl1). rewrite Hc1.
  cbn [lift or_fail]. mstep. simpl in Hl1.
  destruct (lzp_compete_spec c d q src Htr src_bytes dict dict_eq _ _ _ _ _ _ _ _ _ Hcand Hc1) as (csrc1 & tans1 & Hcd).
  assert (bytes (pf_src pf1)) as Hpb1.
  { unfold lzp_compete in Hc1. destruct lzp_table; [|by simplify_eq]. case_if_in Hc1; [|by simplify_eq].
    apply bind_Ok in Hc1 as (? & _ & Hc1). apply bind_Ok in Hc1 as (? & _ & Hc1). apply bind_Ok in Hc1 as (r' & _ & Hc1).
    destruct r' as [t'|]; [|by simplify_eq]. case_if_in Hc1; [|by simplify_eq].
    by apply bind_Ok in Hc1 as (? & _ & [= <- _ _]). }
  destruct (lz77_compete_total pf1 t1 Hpb1 (cd_len _ _ _ _ _ _ _ _ _ Hcd)) as (dirty & lz & -> & Hd1 & Hlz). cbn [lift or_fail]. mstep.
  destruct lz as [payload|]; [apply stage_finish; [apply c_ok|done|done|by apply u16_len|done]|].
  destruct (lzx_compete_total (zlen (tr_payload t1))) as (dirty' & lzx & -> & Hd2 & Hlzx). cbn [lift or_fail]. mstep.
  destruct lzx as [payload|]; [apply stage_finish; [apply c_ok|done|done|by apply u16_len|done]|].
  destruct Hcd as [_ Hcf Hcs Hsp _ Hcdf _ Hsk Hcw _].
  apply (finish_tans_total _ _ _ _ _ tans1); [done|lia|]. intros H128 Hm Hnl.
  exists (pf_src pf1). split; [|done]. unfold read_compress_src. rewrite (Hcw Hnl).
  destruct (pf_delta pf1) eqn:Epd; [|done]. specialize (Hsk eq_refl Hm).
  destruct dirty; [specialize (Hd1 eq_refl); lia|]. destruct dirty'; [specialize (Hd2 eq_refl); lia|done].
Qed.

Lemma raw_block_total : stage_ok cap (raw_block c dict tables lzp_table src cap hdr_sz q compact).
Proof.
  unfold raw_block. destruct (Z.ltb_spec cap hdr_sz); [lia|].
  set (fl0 := Z.ldiff (c_flags c) NETC_CFG_FLAG_DELTA).
  assert (exists raw flz fl, lift (match lzp_table with
     | Some lzp => if zlen src <=? c_arena_size c then
           filtered ← netc_lzp_xor_filter lzp src;
           arena ← store (c_arena_size c) filtered;
           Ok (arena, true, if compact then Z.lor fl0 NETC_INTERNAL_NO_X2 else fl0)
         else Ok (src, false, fl0)
     | None => Ok (src, false, fl0)
     end) = Ok (raw, flz, fl) /\ bytes raw) as (raw & flz & fl & -> & Hrb).
  { destruct lzp_table as [lzp|] eqn:El; [|by do 3 eexists]. case_if; [|by do 3 eexists].
    destruct (lzp_filter_inv lzp 0 0 src) as (o & Ho & Hol & Hob & _); [by eapply (lzp_table_wf c d q)|done|].
    unfold netc_lzp_xor_filter. rewrite Ho. mstep. rewrite store_ok by lia. mstep. by do 3 eexists. }
  mstep. destruct (tans_total raw (cap - hdr_sz) fl Hrb) as (r & Hr & Hrl). rewrite Hr. mstep.
  destruct r as [t|]; [|apply stage_none]. apply attempt_Some in Hr.
  destruct (negb (zlen (tr_payload t) <? zlen src)) eqn:El; [apply stage_none|].
  destruct (tans_compress_spec dict tables raw fl compact ltac:(by eapply (dict_wf c d q))
    ltac:(by eapply (tables_wf c d q)) Hrb (cap - hdr_sz) t) as [Hspec _]; [lia|done|].
  destruct (lzx_compete_total (zlen (tr_payload t))) as (dirty & lzx & -> & _ & Hlzx). cbn [lift or_fail]. mstep.
  destruct lzx as [payload|]; [apply stage_finish; [apply c_ok|done|done|by apply u16_len|done]|].
  apply (finish_tans_total _ _ _ _ _ raw); [done|lia|]. intros _ _ ->. by exists raw.
Qed.
End StagesTotal.

Section TailTotal.
Context (c d : netc_ctx_t) (q : Z) (src : list Z) (cap : Z).
Hypothesis Htr : tracks c d q.
Hypothesis src_len : zlen src <= NETC_MAX_PACKET_SIZE.
Hypothesis src_bytes : bytes src.
Let compact := has (c_flags d) NETC_CFG_FLAG_COMPACT_HDR.
Let hdr_sz := compress_hdr_size (zlen src) compact.

Lemma lz77_block_total s f : bytes s -> stage_ok cap (lz77_block c src s cap hdr_sz q f compact).
Proof.
  intros Hb. unfold lz77_block. destruct ((zlen src =? 0) || (cap <=? hdr_sz)) eqn:E; [apply stage_none|].
  apply orb_false_iff in E as [_ E]. apply Z.leb_gt in E.
  destruct (@lz77_attempt netc_result_t s (cap - hdr_sz)) as (r & -> & Hr); [done|lia|]. mstep.
  destruct (shorter src r) as [payload|] eqn:Es.
  { unfold shorter in Es. destruct r as [out|]; [|done]. case_if_in Es; [|done]. injection Es as ->.
    apply stage_finish; [apply (tr_ok _ _ _ Htr)|done|done|by apply u16_len|]. fold hdr_sz. lia. }
  destruct (c_ring c) as [ring|] eqn:Er; [|apply stage_none]. case_if; [|apply stage_none].
  destruct (cok_ring _ (tr_ok _ _ _ Htr) _ Er) as (Hrok & _ & _).
  destruct (@lz77x_attempt netc_result_t src ring (c_ring_size c) (c_ring_pos c) (u32 (c_prev_pkt_size c)) (cap - hdr_sz))
    as (x & -> & Hx); [done|done|done|lia|]. mstep.
  destruct (shorter src x) as [payload|] eqn:Ex; [|apply stage_none].
  unfold shorter in Ex. destruct x as [out|]; [|done]. case_if_in Ex; [|done]. injection Ex as ->.
  apply stage_finish; [apply (tr_ok _ _ _ Htr)|done|done|by apply u16_len|]. fold hdr_sz. lia.
Qed.

(** The outcome of a call: a packet that fits, or too small a buffer. *)
Definition call_ok (r : result (netc_ctx_t * result (list Z))) : Prop :=
  exists e' o, r = Ok (e', o) /\ ctx_ok e' /\
    ((exists pkt, o = Ok pkt /\ zlen pkt <= cap) \/ o = Fail NETC_ERR_BUF_SMALL /\ cap < hdr_sz + zlen src).

Lemma passthrough_total : hdr_sz <= cap -> call_ok (passthrough_block c src cap q compact).
Proof.
  intros Hcap. unfold passthrough_block. pose proof (tr_ok _ _ _ Htr) as Hok.
  destruct (@update_prev_ok netc_result_t c src Hok src_bytes src_len) as (c1 & -> & Hok1). mstep.
  destruct (@ring_append_ok netc_result_t c1 src Hok1 src_bytes) as (c2 & -> & Hok2). mstep.
  unfold emit_passthrough. set (h := PktHeader _ _ _ _ _ _).
  assert (zlen (netc_hdr_emit h compact) = hdr_sz) as Hh by (apply emit_length; by apply u16_len).
  rewrite store_ok by lia. mstep.
  destruct (Z.ltb_spec cap (zlen (netc_hdr_emit h compact) + zlen src)).
  - do 2 eexists. split; [done|]. split; [done|]. right. split; [done|lia].
  - rewrite put_ok by lia. mstep. set (n := zlen (netc_hdr_emit h compact) + zlen src) in *.
    match goal with |- context [ctx_learn ?x src] => change x with (stats_compressed c2 (zlen src) n 1) end.
    destruct (stats_compressed_frame c2 (zlen src) n 1) as (Hs & _ & Hops & Hseq).
    destruct (learn_ok (stats_compressed c2 (zlen src) n 1) src) as (c3 & -> & Hok3); [|done|].
    { apply (ctx_ok_shared c2); [done|done|rewrite Hops; apply Hok2|rewrite Hseq; apply Hok2]. }
    mstep. do 2 eexists. split; [done|]. split; [done|]. left. eexists. split; [done|]. rewrite length_app. lia.
Qed.
End TailTotal.

(** Every stage is defined, and the last one always answers. *)
Lemma stages_total c d q src cap :
  tracks c d q -> ctx_full c -> bytes src -> zlen src <= NETC_MAX_PACKET_SIZE ->
  compress_hdr_size (zlen src) (has (c_flags d) NETC_CFG_FLAG_COMPACT_HDR) <= cap ->
  call_ok d src cap (compress_stages c src cap q).
Proof.
  intros Htr Hfull Hb Hl Hcap. unfold compress_stages. rewrite (tr_compact _ _ _ Htr).
  set (compact := has (c_flags d) NETC_CFG_FLAG_COMPACT_HDR) in *.
  destruct (prefilters_total c d q src Htr Hl Hb) as (pf0 & pf & H0 & Hpf).
  destruct (prefilters_spec c d q src Htr Hl Hb pf0 pf H0 Hpf) as (csrc & Hpre).
  rewrite H0. cbn [lift or_fail]. mstep. rewrite Hpf. cbn [lift or_fail]. mstep.
  assert (forall e' pkt, zlen pkt <= cap -> ctx_ok e' -> call_ok d src cap (Ok (e', Ok pkt))) as Hok.
  { intros e' pkt Hlen He. exists e', (Ok pkt). split; [done|]. split; [done|]. left. eauto. }
  assert (stage_ok cap match c_dict c with
       | Some dict => if 0 <? zlen src
                      then tans_block c dict (match c_dict c with Some d => netc_get_tables c d | None => [] end)
                             (netc_get_lzp_table c) src cap (compress_hdr_size (zlen src) compact) q compact pf
                      else Ok None
       | None => Ok None end) as (r1 & -> & Hr1).
  { destruct (c_dict c) as [dict|] eqn:Ed; [|apply stage_none]. case_if; [|apply stage_none].
    by eapply (tans_block_total c d q). }
  mstep. destruct r1 as [[e1 p1]|]; [destruct Hr1; by apply Hok|].
  assert (stage_ok cap match c_dict c with
       | Some dict => if pf_delta pf && (0 <? zlen src)
                      then raw_block c dict (match c_dict c with Some d => netc_get_tables c d | None => [] end)
                             (netc_get_lzp_table c) src cap (compress_hdr_size (zlen src) compact) q compact
                      else Ok None
       | None => Ok None end) as (r2 & -> & Hr2).
  { destruct (c_dict c) as [dict|] eqn:Ed; [|apply stage_none]. destruct (_ && _); [|apply stage_none].
    by eapply (raw_block_total c d q). }
  mstep. destruct r2 as [[e2 p2]|]; [destruct Hr2; by apply Hok|].
  destruct (filtered_bytes _ _ _ _ (pf_filt _ _ _ _ _ Hpre) (do_bytes _ _ _ _ (pf_undo _ _ _ _ _ Hpre))) as [Hpb _].
  destruct (if match c_dict c with Some _ => _ | None => false end then _ else _) as [s f] eqn:Es.
  assert (bytes s) as Hsb by (repeat case_if_in Es; by injection Es as <- <-).
  destruct (lz77_block_total c d q src cap Htr Hl Hb s f Hsb) as (r3 & Hr3 & Hr3'). fold compact in Hr3. rewrite Hr3.
  mstep. destruct r3 as [[e3 p3]|]; [destruct Hr3'; by apply Hok|]. by apply (passthrough_total c d q).
Qed.

(** ** Fullness is an invariant *)
Lemma rebuild_full ctx ctx' :
  ctx_ok ctx -> ctx_full ctx -> netc_adaptive_tables_rebuild ctx = Ok ctx' -> ctx_full ctx' /\ c_dict ctx' = c_dict ctx.
Proof.
  intros Hok Hfull H. unfold netc_adaptive_tables_rebuild in H.
  destruct (c_adapt_freq ctx) as [accum|] eqn:Ef; [|by injection H as <-].
  destruct (c_adapt_tables ctx) as [tables|] eqn:Et; [|by injection H as <-].
  destruct (c_dict ctx) as [dict|] eqn:Ed; [|by injection H as <-].
  apply bind_Ok in H as (ts & Hts & H). apply Ok_inj in H. subst ctx'.
  destruct (cok_freq _ Hok _ Ef) as (Hal & Haf & Htl & Htf). pose proof (cok_dict _ Hok _ Ed) as Hdok.
  destruct (Hfull dict Ed) as [Hdf Htf']. unfold netc_get_tables in Htf'. rewrite Et in Htf'.
  destruct (foldM_inv (E := unit) (fun ts => zlen ts = NETC_CTX_COUNT /\ Forall tbl_full ts) (fun ts b =>
    t ← rebuild_bucket accum (c_adapt_total ctx) (d_tables dict) b; aset ts b t) tables (seqZ 0 NETC_CTX_COUNT))
    as (ts' & Hts' & _ & Hall).
  { intros l b [Hl Hf] Hb%elem_of_seqZ.
    destruct (rebuild_bucket_ok accum (c_adapt_total ctx) (d_tables dict) b) as (t & -> & freq & Hfr & Hge);
      [apply Hdok|apply Hdok|done|done|done|done|lia|]. mstep. rewrite aset_ok by lia.
    eexists. split; [done|]. split; [by rewrite length_insert|]. apply Forall_insert; [done|].
    intros _. by exists freq. }
  { split; [|done]. apply (cok_atables_len _ Hok _ Et). }
  rewrite Hts in Hts'. injection Hts' as <-. split; [|by destruct ctx].
  intros d' Hd'. assert (d' = dict) as -> by (destruct ctx; simpl in *; congruence).
  split; [done|]. by destruct ctx.
Qed.

Lemma adaptive_full ctx data ctx' :
  ctx_ok ctx -> bytes data -> ctx_full ctx -> netc_adaptive_update ctx data = Ok ctx' ->
  ctx_full ctx' /\ c_dict ctx' = c_dict ctx.
Proof.
  intros Hok Hb Hfull H. unfold netc_adaptive_update in H.
  destruct (c_adapt_freq ctx) as [freq|] eqn:Ef; [|by injection H as <-].
  destruct (cok_freq _ Hok _ Ef) as (Hal & Haf & Htl & Htf).
  destruct (accumulate_ok data 0 freq (c_adapt_total ctx)) as (f' & t' & Ha & Hf'); [done..|]. rewrite Ha in H.
  rewrite bind_Ok_l in H.
  assert (forall n, let c1 := set_adapt ctx (Some f') t' (c_adapt_tables ctx) n in
    ctx_ok c1 /\ ctx_full c1 /\ c_dict c1 = c_dict ctx) as Hset.
  { intros n. split; [destruct ctx; ctx_update Hok; by intros ? [= <-]|]. split; [|by destruct ctx].
    by destruct ctx. }
  case_if_in H; [|injection H as <-; by destruct (Hset (u32 (c_adapt_pkt_count ctx + 1))) as (_ & ? & ?)].
  apply bind_Ok in H as (c2 & H2 & H). destruct (Hset (u32 (c_adapt_pkt_count ctx + 1))) as (K1 & K2 & K3).
  destruct (rebuild_full _ _ K1 K2 H2) as [K4 K5]. apply Ok_inj in H. subst ctx'.
  split; [by destruct c2|]. rewrite <- K3, <- K5. by destruct c2.
Qed.

Lemma advance_full s s' data :
  ctx_ok s -> bytes data -> zlen data <= NETC_MAX_PACKET_SIZE -> ctx_full s -> advance data s = Ok s' -> ctx_full s'.
Proof.
  intros Hok Hb Hl Hfull H. unfold advance in H.
  destruct (@update_prev_ok netc_result_t s data Hok Hb Hl) as (c1 & H1 & Hok1). rewrite H1, bind_Ok_l in H.
  destruct (@ring_append_ok netc_result_t c1 data Hok1 Hb) as (c2 & H2 & Hok2). rewrite H2, bind_Ok_l in H.
  assert (ctx_full c2) as Hf2.
  { rewrite update_prev_step in H1. apply bind_Ok in H1 as (hp & _ & [= <-]).
    rewrite ring_append_step in H2. apply bind_Ok in H2 as (hr & _ & [= <-]). by destruct s. }
  unfold ctx_learn in H. apply bind_Ok in H as (c3 & H3 & H). apply lift_Ok in H3.
  destruct (adaptive_full c2 data c3 Hok2 Hb Hf2 H3) as [Hf3 _].
  apply bind_Ok in H as (l & _ & H). apply Ok_inj in H. subst s'. by destruct c3.
Qed.

Lemma ctx_full_shared c c' : shared c = shared c' -> ctx_full c -> ctx_full c'.
Proof. intros Hsh Hf. destruct c, c'. unfold shared in Hsh. simpl in Hsh. injection Hsh. intros. subst. done. Qed.

(** ** The API *)
Lemma sync_refl e : sync e e.
Proof. done. Qed.

Lemma hdr_size_range n compact : 2 <= compress_hdr_size n compact <= 8.
Proof.
  unfold compress_hdr_size, NETC_COMPACT_HDR_MIN, NETC_COMPACT_HDR_MAX, NETC_HEADER_SIZE.
  repeat case_if; lia.
Qed.

Lemma compress_total_gen e src cap :
  ctx_ok e -> ctx_full e -> bytes src -> zlen src <= NETC_MAX_PACKET_SIZE ->
  compress_hdr_size (zlen src) (has (c_flags e) NETC_CFG_FLAG_COMPACT_HDR) <= cap ->
  call_ok e src cap (netc_compress (Some e) (Some src) (Some cap) false).
Proof.
  intros He Hf Hb Hl Hcap. unfold netc_compress, netc_compress_ctx.
  destruct (Z.ltb_spec NETC_MAX_PACKET_SIZE (zlen src)); [lia|].
  pose proof (hdr_size_range (zlen src) (has (c_flags e) NETC_CFG_FLAG_COMPACT_HDR)).
  destruct (Z.ltb_spec cap NETC_COMPACT_HDR_MIN); [unfold NETC_COMPACT_HDR_MIN in *; lia|].
  apply stages_total; [by apply sync_tracks|by destruct e|done|done|done].
Qed.
