(* ===== verification/Transport.v ===== *)
(** * Whole sessions over a pair of contexts

    The end-to-end contract of the library: contexts created from the same
    dictionary and compatible configurations carry every sequence of messages,
    each packet is at most eight bytes longer than its message, and
    [netc_ctx_reset] brings both ends back to where they started. *)

From stdpp Require Import prelude.
From Stdlib Require Import ZArith Lia.
From S2P Require Import Prelude TansTable Bitstream TansCodec Lzp Freq Delta Crc32 Simd Header Lz Ctx.
From S2P Require Import Decompress Compress Payload Packets Sync Stateless Stages Session Safety Progress.

Local Open Scope Z_scope.

(** ** Reset *)

(** The adaptive LZP table is a clone of the dictionary's one. *)
Definition lzp_cloned (c : netc_ctx_t) : Prop :=
  c_adapt_lzp c <> None ->
  c_adapt_freq c <> None /\ exists d t, c_dict c = Some d /\ d_lzp_table d = Some t.

(** What a reset leaves. *)
Definition origin (s : netc_ctx_t) : netc_ctx_t := shared (netc_ctx_reset s).

Lemma origin_prev {E} s s' data : @compress_update_prev E s data = Ok s' -> origin s' = origin s.
Proof.
  rewrite update_prev_step. intros H. apply bind_Ok in H as (h & Hh & H). apply Ok_inj in H. subst s'.
  destruct s as [d f cl sl r rs rp so p ps p2 p2s q a st af at_ ats al ac]. unfold prev_step in Hh. simpl in Hh.
  destruct p as [p|]; [|injection Hh as <-; destruct r, p2, af; reflexivity].
  apply bind_Ok in Hh as (h2 & H2 & Hh). apply bind_Ok in Hh as (p' & _ & Hh). apply Ok_inj in Hh. subst h.
  destruct p2 as [p2|]; [|injection H2 as <-; destruct r, af; reflexivity]. case_if_in H2; [done|].
  apply bind_Ok in H2 as (p2' & _ & H2). apply Ok_inj in H2. subst h2. destruct r, af; reflexivity.
Qed.

Lemma origin_ring {E} s s' data : @ctx_ring_append E s data = Ok s' -> origin s' = origin s.
Proof.
  rewrite ring_append_step. intros H. apply bind_Ok in H as (h & Hh & H). apply Ok_inj in H. subst s'.
  destruct s as [d f cl sl r rs rp so p ps p2 p2s q a st af at_ ats al ac]. unfold ring_step in Hh. simpl in Hh.
  destruct r as [r|]; [|injection Hh as <-; destruct p2, af; reflexivity]. case_if_in Hh; [by injection Hh as <-|].
  destruct (if rs <=? zlen data then _ else _) as [dt pos]. apply bind_Ok in Hh as (r' & _ & Hh).
  apply Ok_inj in Hh. subst h. destruct p2, af; reflexivity.
Qed.

(** An adaptive context with a dictionary forgets its counters and tables. *)
Lemma origin_adapt s f t ts n :
  c_adapt_freq s <> None -> (c_dict s = None -> ts = c_adapt_tables s) ->
  origin (set_adapt s (Some f) t ts n) = origin s.
Proof.
  destruct s as [[d|] f0 cl sl r rs rp so p ps p2 p2s q a st [af|] at_ ats al ac]; simpl; intros Hf Ht; try done.
  - by destruct r, p2.
  - rewrite Ht by done. by destruct r, p2.
Qed.

Lemma rebuild_shape s s' :
  netc_adaptive_tables_rebuild s = Ok s' -> exists ts, s' = set_adapt s (c_adapt_freq s) (c_adapt_total s) ts (c_adapt_pkt_count s)
    /\ (c_dict s = None -> ts = c_adapt_tables s).
Proof.
  unfold netc_adaptive_tables_rebuild. intros H.
  destruct (c_adapt_freq s) as [f|] eqn:Ef; [|exists (c_adapt_tables s); injection H as <-; destruct s; simpl in *; by subst].
  destruct (c_adapt_tables s) as [t|] eqn:Et; [|exists None; injection H as <-; destruct s; simpl in *; by subst].
  destruct (c_dict s) as [d|] eqn:Ed; [|exists (Some t); injection H as <-; destruct s; simpl in *; by subst].
  apply bind_Ok in H as (ts & _ & H). apply Ok_inj in H. subst s'. by exists (Some ts).
Qed.

Lemma adaptive_shape s s' data :
  netc_adaptive_update s data = Ok s' -> s' = s \/ c_adapt_freq s <> None /\
    exists f t ts n, s' = set_adapt s (Some f) t ts n /\ (c_dict s = None -> ts = c_adapt_tables s).
Proof.
  unfold netc_adaptive_update. intros H. destruct (c_adapt_freq s) as [fr|]; [right|left; by injection H as <-].
  split; [done|]. apply bind_Ok in H as ([f t] & _ & H). case_if_in H.
  - apply bind_Ok in H as (c2 & H2 & H). apply Ok_inj in H. subst s'.
    apply rebuild_shape in H2 as (ts & -> & Hts). exists f, t, ts, 0. destruct s. by split.
  - apply Ok_inj in H. subst s'. by exists f, t, (c_adapt_tables s), (u32 (c_adapt_pkt_count s + 1)).
Qed.

(** Where the LZP table is a clone, a reset restores it. *)
Lemma origin_lzp s l : lzp_cloned s -> (is_Some l <-> is_Some (c_adapt_lzp s)) -> origin (set_adapt_lzp s l) = origin s.
Proof.
  destruct s as [d f0 cl sl r rs rp so p ps p2 p2s q a st af at_ ats al ac]. unfold lzp_cloned. simpl.
  intros Hc Hl. destruct al as [al|].
  - destruct Hl as [_ Hl]. destruct Hl as [l' ->]; [by eexists|]. destruct Hc as (Hf & d' & t & -> & Ht); [done|].
    destruct af as [af|]; [|done]. unfold origin, netc_ctx_reset. destruct r, p2; simpl; by rewrite Ht.
  - destruct l as [l|]; [|done]. destruct Hl as [Hl _]. destruct Hl; [by eexists|done].
Qed.

Lemma advance_origin s s' data : lzp_cloned s -> advance data s = Ok s' -> origin s' = origin s /\ lzp_cloned s'.
Proof.
  intros Hc H. unfold advance in H. apply bind_Ok in H as (c2 & H12 & H3). apply bind_Ok in H12 as (c1 & H1 & H2).
  assert (lzp_cloned c2) as Hc2.
  { rewrite update_prev_step in H1. apply bind_Ok in H1 as (hp & _ & H1). apply Ok_inj in H1. subst c1.
    rewrite ring_append_step in H2. apply bind_Ok in H2 as (hr & _ & H2). apply Ok_inj in H2. subst c2.
    by destruct s. }
  apply origin_prev in H1. apply origin_ring in H2. rewrite <- H1, <- H2. clear H1 H2 Hc.
  unfold ctx_learn in H3. apply bind_Ok in H3 as (c3 & H3 & H4). apply lift_Ok in H3.
  apply bind_Ok in H4 as (l & H4 & H5). apply lift_Ok in H4. apply Ok_inj in H5. subst s'.
  assert (origin c3 = origin c2 /\ lzp_cloned c3) as [<- Hc3].
  { apply adaptive_shape in H3 as [->|(Hf & f & t & ts & n & -> & Hts)]; [done|].
    split; [by apply origin_adapt|]. intros Hl. destruct c2. simpl in *. by destruct Hc2. }
  assert (is_Some l <-> is_Some (c_adapt_lzp c3)) as Hl.
  { unfold netc_lzp_adaptive_update in H4. destruct (c_adapt_lzp c3); [|by injection H4 as <-].
    apply bind_Ok in H4 as (? & _ & H4). apply Ok_inj in H4. by subst l. }
  split; [by apply origin_lzp|]. intros Hn. destruct c3. simpl in *. apply Hc3.
  destruct l as [l|]; [|done]. destruct Hl as [Hl _]. destruct Hl as [? ->]; [by eexists|done].
Qed.

Lemma origin_shared c : origin (shared c) = origin c.
Proof. destruct c as [d f cl sl [r|] rs rp so p ps [p2|] p2s q a st [af|] at_ ats al ac]; reflexivity. Qed.

(** ** Linked ends *)
Record link (e d : netc_ctx_t) : Prop := {
  lk_sync : sync e d;
  lk_enc : ctx_ok e;
  lk_dec : ctx_ok d;
  lk_full : ctx_full e;
  lk_lzp : lzp_cloned e;
  (** The compact header cannot tell every order-2 packet from an order-1 one. *)
  lk_order : has (c_flags e) NETC_CFG_FLAG_COMPACT_HDR = false \/ c_prev2_pkt e = None
}.

(** Messages a link carries with packets of [cap] bytes and the receive buffer [dst]. *)
Definition carried (cap : Z) (dst m : list Z) : Prop :=
  message_ok dst m /\ zlen m <= NETC_MAX_PACKET_SIZE /\ netc_compress_bound (zlen m) <= cap.

Lemma compress_bound_eq n : 0 <= n <= NETC_MAX_PACKET_SIZE -> netc_compress_bound n = NETC_HEADER_SIZE + n.
Proof.
  unfold NETC_MAX_PACKET_SIZE, netc_compress_bound, NETC_MAX_OVERHEAD, NETC_HEADER_SIZE, u64. intros Hn.
  rewrite Z.mod_small by lia. lia.
Qed.

Lemma compress_succeeds e src cap :
  ctx_ok e -> ctx_full e -> bytes src -> zlen src <= NETC_MAX_PACKET_SIZE -> NETC_HEADER_SIZE + zlen src <= cap ->
  exists e' pkt, netc_compress (Some e) (Some src) (Some cap) false = Ok (e', Ok pkt).
Proof.
  intros He Hf Hb Hl Hcap. pose proof (hdr_size_range (zlen src) (has (c_flags e) NETC_CFG_FLAG_COMPACT_HDR)) as Hh.
  unfold NETC_HEADER_SIZE in Hcap.
  destruct (compress_total_gen e src cap He Hf Hb Hl) as (e' & o & -> & _ & [(pkt & -> & _)|[_ Ho]]); [lia| |lia].
  by exists e', pkt.
Qed.

(** A packet is its message, or something shorter, behind a header. *)
Lemma packet_length e d src cap e' pkt :
  sync e d -> ctx_ok e -> ctx_ok d -> bytes src -> (zlen src < 256 \/ Z.odd (zlen src) = false) ->
  netc_compress (Some e) (Some src) (Some cap) false = Ok (e', Ok pkt) ->
  zlen pkt <= compress_hdr_size (zlen src) (has (c_flags e) NETC_CFG_FLAG_COMPACT_HDR) + zlen src.
Proof.
  intros Hsync He Hd Hb Hodd H. apply compress_inv in H as [Hs H].
  pose proof (sync_tracks e d Hsync He Hd) as Htr.
  destruct (stages_compressed _ d _ src cap e' pkt Htr Hb Hs Hodd H) as (_ & _ & _ & h & payload & -> & Hg).
  rewrite length_app, Nat2Z.inj_add, (emit_length h _ src (gp_orig _ _ _ _ _ Hg)).
  destruct Hsync as (_ & _ & <-). pose proof (gp_le _ _ _ _ _ Hg). lia.
Qed.

Lemma prev2_shared c : c_prev2_pkt (shared c) = c_prev2_pkt c.
Proof. by destruct c. Qed.

Lemma link_step e d m cap dst :
  link e d -> carried cap dst m ->
  exists e' pkt d', netc_compress (Some e) (Some m) (Some cap) false = Ok (e', Ok pkt) /\
    netc_decompress (Some d) (Some pkt) (Some dst) false = Ok (d', m) /\
    zlen pkt <= netc_compress_bound (zlen m) /\ link e' d' /\ origin e' = origin e /\
    has (c_flags e') NETC_CFG_FLAG_COMPACT_HDR = has (c_flags e) NETC_CFG_FLAG_COMPACT_HDR.
Proof.
  intros [Hsync He Hd Hf Hz Ho] ((Hb & Hdst & Hodd) & Hl & Hcap).
  rewrite compress_bound_eq in * by lia.
  destruct (compress_succeeds e m cap He Hf Hb Hl Hcap) as (e' & pkt & Hc).
  pose proof (packet_length e d m cap e' pkt Hsync He Hd Hb Hodd Hc) as Hp.
  destruct (packet_roundtrip e d m cap e' pkt dst) as (d' & Hdec & Hsync' & He' & Hd' & Ha & Hfl); try done.
  { intros Hc'. left. destruct Ho; congruence. }
  exists e', pkt, d'. split; [done|]. split; [done|].
  split. { pose proof (hdr_size_range (zlen m) (has (c_flags e) NETC_CFG_FLAG_COMPACT_HDR)). unfold NETC_HEADER_SIZE. lia. }
  assert (lzp_cloned (shared e)) as Hzs by (by destruct e).
  destruct (advance_origin _ _ _ Hzs Ha) as [Hor Hz']. rewrite !origin_shared in Hor.
  split; [|done]. constructor; try done.
  - apply (ctx_full_shared (shared e')); [apply shared_shared|]. eapply (advance_full (shared e)); [|exact Hb|exact Hl| |exact Ha].
    + apply (ctx_ok_shared e); [done|by rewrite shared_shared|by destruct e; apply _|by destruct e].
    + apply (ctx_full_shared e); [by rewrite shared_shared|done].
  - by destruct e'.
  - rewrite Hfl. destruct Ho as [?|Ho]; [by left|right]. rewrite <- prev2_shared in *.
    by eapply advance_no_prev2.
Qed.

Lemma link_session e d cap dst msgs :
  link e d -> Forall (carried cap dst) msgs ->
  exists e' pkts d', compress_all e cap msgs = Ok (e', pkts) /\ decompress_all d dst pkts = Ok (d', msgs) /\
    Forall2 (fun m pkt => zlen pkt <= netc_compress_bound (zlen m)) msgs pkts /\ link e' d' /\ origin e' = origin e /\
    has (c_flags e') NETC_CFG_FLAG_COMPACT_HDR = has (c_flags e) NETC_CFG_FLAG_COMPACT_HDR.
Proof.
  intros Hlink Hm. revert e d Hlink. induction Hm as [|m msgs Hm _ IH]; intros e d Hlink.
  { exists e, [], d. split; [done|]. split; [done|]. split; [constructor|]. done. }
  destruct (link_step e d m cap dst Hlink Hm) as (e1 & pkt & d1 & H1 & H2 & H3 & H4 & H5 & H6).
  destruct (IH e1 d1 H4) as (e2 & pkts & d2 & K1 & K2 & K3 & K4 & K5 & K6).
  exists e2, (pkt :: pkts), d2. cbn [compress_all decompress_all]. rewrite H1, H2. mstep. rewrite K1, K2. mstep.
  split; [done|]. split; [done|]. split; [by constructor|]. split; [done|]. by rewrite K5, K6.
Qed.

(** A reset forgets the session. *)
Lemma reset_sync a b :
  origin a = origin b -> has (c_flags a) NETC_CFG_FLAG_COMPACT_HDR = has (c_flags b) NETC_CFG_FLAG_COMPACT_HDR ->
  sync (netc_ctx_reset a) (netc_ctx_reset b).
Proof.
  intros Ho Hf. assert (forall c, c_flags (netc_ctx_reset c) = c_flags c /\ c_context_seq (netc_ctx_reset c) = 0) as Hk.
  { intros [d f cl sl [r|] rs rp so p ps [p2|] p2s q a' st [af|] at_ ats al ac]; by split. }
  split; [exact Ho|]. destruct (Hk a) as [-> ->], (Hk b) as [-> ->]. by split.
Qed.

Lemma zero_hist : hist_ok (zero_bytes NETC_MAX_PACKET_SIZE) 0.
Proof.
  destruct (zero_bytes_ok NETC_MAX_PACKET_SIZE) as [Hz Hb]; [done|]. split; [exact Hz|]. split; [exact Hb|].
  unfold NETC_MAX_PACKET_SIZE. lia.
Qed.

(** What a reset does to each field the invariants speak about. *)
Lemma reset_fields c :
  let c' := netc_ctx_reset c in
  (c_dict c' = c_dict c /\ c_flags c' = c_flags c /\ c_simd_ops c' = c_simd_ops c /\ c_ring_size c' = c_ring_size c /\ c_context_seq c' = 0) /\
  (c_ring c' = (fun _ => zero_bytes (c_ring_size c)) <$> c_ring c /\ (c_ring c <> None -> c_ring_pos c' = 0)) /\
  (c_prev_pkt c' = (fun _ => zero_bytes NETC_MAX_PACKET_SIZE) <$> c_prev_pkt c /\ c_prev_pkt_size c' = 0) /\
  (c_prev2_pkt c' = (fun _ => zero_bytes NETC_MAX_PACKET_SIZE) <$> c_prev2_pkt c /\ (c_prev2_pkt c <> None -> c_prev2_pkt_size c' = 0)) /\
  (c_adapt_freq c' = (fun _ => replicate (Z.to_nat (NETC_CTX_COUNT * 256)) 0) <$> c_adapt_freq c /\
   (c_adapt_freq c <> None -> c_adapt_total c' = replicate (Z.to_nat NETC_CTX_COUNT) 0)) /\
  (c_adapt_tables c' = c_adapt_tables c \/ exists d, c_dict c = Some d /\ c_adapt_tables c' = Some (d_tables d)) /\
  (c_adapt_lzp c' = c_adapt_lzp c \/
   exists d t, c_dict c = Some d /\ c_adapt_lzp c <> None /\ d_lzp_table d = Some t /\ c_adapt_lzp c' = Some (boost_lzp t)).
Proof.
  destruct c as [d f cl sl [r|] rs rp so p ps [p2|] p2s q a st [af|] at_ ats al ac]; cbv zeta; unfold netc_ctx_reset;
    cbn [c_ring c_prev_pkt c_prev2_pkt c_adapt_freq c_dict c_adapt_tables c_adapt_lzp c_ring_size c_ring_pos c_flags c_simd_ops
      c_context_seq c_prev_pkt_size c_prev2_pkt_size c_adapt_total set_ring set_prev set_seq set_stats set_prev2 set_adapt set_adapt_lzp
      fmap option_fmap option_map]; (split_and!; try done);
    (destruct d as [d|]; [|by left]); try (by right; exists d); try (by left);
    (destruct al as [al|]; [|by left]); (destruct (d_lzp_table d) as [t|] eqn:El; [|by left]); right; by exists d, t.
Qed.

(** A reset context is well formed. *)
Lemma reset_ok c : ctx_ok c -> ctx_ok (netc_ctx_reset c).
Proof.
  intros [Hd Hs Hr Hp Hnp Hp2 Hq Hf Ht Htl Hl]. destruct (reset_fields c) as
    ((Ed & _ & Es & Ers & Eq) & (Er & Erp) & (Ep & Eps) & (Ep2 & Ep2s) & (Ef & Eft) & Et & El).
  constructor; rewrite ?Ed, ?Es, ?Ers, ?Eq, ?Er, ?Ep, ?Eps, ?Ep2, ?Ef.
  - exact Hd.
  - exact Hs.
  - intros r Hr'. destruct (c_ring c) as [r0|] eqn:E0; [|done]. apply (inj Some) in Hr'. subst r.
    destruct (Hr r0 eq_refl) as ((Hpos & _) & _ & Hlt). rewrite Erp by done.
    destruct (zero_bytes_ok (c_ring_size c)) as [Hz Hb]; [lia|]. split; [by split_and!|lia].
  - intros p Hp'. destruct (c_prev_pkt c); [|done]. apply (inj Some) in Hp'. subst p. apply zero_hist.
  - done.
  - intros p Hp'. destruct (c_prev2_pkt c); [|done]. apply (inj Some) in Hp'. subst p. rewrite Ep2s by done. apply zero_hist.
  - unfold is_byte. lia.
  - intros f Hf'. destruct (c_adapt_freq c); [|done]. apply (inj Some) in Hf'. subst f. rewrite Eft by done.
    rewrite !length_replicate. split_and!; [done|apply Forall_zeros|done|apply Forall_zeros].
  - intros t Ht' Hne. destruct Et as [Et|(d & Hd' & Et)]; rewrite Et in Ht'; [by apply Ht|].
    apply (inj Some) in Ht'. subst t. by apply (dok_tables d), Hd.
  - intros t Ht'. destruct Et as [Et|(d & Hd' & Et)]; rewrite Et in Ht'; [by apply Htl|].
    apply (inj Some) in Ht'. subst t. by apply (dok_tables d), Hd.
  - intros t Ht'. destruct El as [El|(d & l & Hd' & _ & Hdl & El)]; rewrite El in Ht'; [by apply Hl|].
    apply (inj Some) in Ht'. subst t. apply boost_ok. by eapply dok_lzp; [apply Hd|].
Qed.

(** Resetting both ends keeps them linked. *)
Lemma link_reset e d : link e d -> link (netc_ctx_reset e) (netc_ctx_reset d).
Proof.
  intros [Hs He Hd Hf Hz Ho]. destruct (reset_fields e) as ((Ed & Efl & _) & _ & _ & (Ep2 & _) & (Ef & _) & Et & El). constructor.
  - destruct Hs as (S1 & _ & S3). apply reset_sync; [|done]. by rewrite <- origin_shared, S1, origin_shared.
  - by apply reset_ok.
  - by apply reset_ok.
  - intros t Ht. rewrite Ed in Ht. destruct (Hf t Ht) as [F1 F2]. split; [done|]. unfold netc_get_tables in *.
    destruct Et as [->|(t' & Ht' & ->)]; [exact F2|]. replace t' with t by congruence. apply F1.
  - unfold lzp_cloned. rewrite Ed, Ef. intros Hn. assert (c_adapt_lzp e <> None) as Hn'.
    { destruct El as [<-|(? & ? & _ & ? & _)]; done. }
    destruct (Hz Hn') as [Hfr Hx]. split; [|done]. by destruct (c_adapt_freq e).
  - rewrite Efl, Ep2. destruct Ho as [?|Ho]; [by left|right]. by rewrite Ho.
Qed.

(** ** Created contexts are linked *)
Lemma create_reset cpu mem dict cfg c :
  netc_ctx_create cpu mem dict cfg = Some c -> netc_ctx_reset c = c.
Proof.
  intros H. unfold netc_ctx_create in H. repeat (destruct (_ : bool) eqn:? in H at 1; [done|]).
  apply (inj Some) in H. subst c. destruct (has _ NETC_CFG_FLAG_STATEFUL), (has _ NETC_CFG_FLAG_ADAPTIVE), dict as [d|];
    try reflexivity; destruct (d_lzp_table d) eqn:El, (mem 8%nat); unfold netc_ctx_reset; cbn -[zero_bytes Z.to_nat replicate zero_table];
    rewrite ?El; reflexivity.
Qed.

Lemma create_fields cpu mem dict cfg c :
  netc_ctx_create cpu mem dict cfg = Some c ->
  c_dict c = dict /\ lzp_cloned c /\ c_flags c = cfg_flags (default NETC_CFG_DEFAULT cfg) /\
  (c_prev2_pkt c <> None -> has (c_flags c) NETC_CFG_FLAG_ADAPTIVE = true) /\
  (forall t, c_adapt_tables c = Some t -> forall d, dict = Some d -> t = d_tables d).
Proof.
  intros H. unfold netc_ctx_create in H. repeat (destruct (_ : bool) eqn:? in H at 1; [done|]).
  apply (inj Some) in H. subst c. unfold lzp_cloned.
  cbn [c_dict c_flags c_adapt_lzp c_adapt_freq c_prev2_pkt c_adapt_tables].
  destruct (has _ NETC_CFG_FLAG_ADAPTIVE), dict as [d|]; try (by repeat split; intros; simplify_eq);
    (split; [done|]; split; [|by repeat split; intros; simplify_eq]; intros Hl; split; [done|]; exists d;
     destruct (d_lzp_table d) as [t|] eqn:El; [by exists t|done]).
Qed.

Lemma create_full cpu mem dict cfg c :
  netc_ctx_create cpu mem dict cfg = Some c -> (forall d, dict = Some d -> dict_full d) -> ctx_full c.
Proof.
  intros H Hd dict' Hdict'. destruct (create_fields _ _ _ _ _ H) as (Hcd & _ & _ & _ & Ht). rewrite Hcd in Hdict'.
  split; [by apply Hd|]. unfold netc_get_tables. destruct (c_adapt_tables c) as [t|] eqn:Et.
  - rewrite (Ht t eq_refl dict' Hdict'). apply Hd. done.
  - apply Hd. done.
Qed.

(** ** Stateless calls *)
Lemma stateless_lz77_total src cp cap :
  bytes src -> exists r, stateless_lz77 src cp cap = Ok r /\
    match r with Some out => zlen out < zlen src /\ NETC_HEADER_SIZE + zlen out <= cap | None => True end.
Proof.
  intros Hb. unfold stateless_lz77. destruct (_ && _); [|by exists None].
  rewrite lz77_trial by lia. destruct (@lz77_attempt unit src 1024 Hb) as (r & -> & _); [lia|]. mstep. eexists. split; [done|].
  destruct r as [out|]; [|done]. destruct (_ && _) eqn:E; [|done]. bool_to_prop. lia.
Qed.

Lemma stateless_packet_ok h payload cap :
  NETC_HEADER_SIZE + zlen payload <= cap -> stateless_packet h payload cap = Ok (netc_hdr_write h ++ payload).
Proof. intros. apply put_ok. by rewrite hdr_write_length. Qed.

Lemma stateless_tans_total dict src cap :
  dict_ok dict -> dict_full dict -> bytes src -> NETC_HEADER_SIZE <= cap ->
  exists r, stateless_tans dict src cap = Ok r /\
    match r with Some pkt => zlen pkt <= NETC_HEADER_SIZE + zlen src /\ zlen pkt <= cap | None => True end.
Proof.
  intros Hd Hf Hb Hc. unfold stateless_tans.
  assert (exists ts l, match d_lzp_table dict with
    | Some lzp => if zlen src <=? 1024 then f ← netc_lzp_xor_filter lzp src; buf ← store 1024 f; Ok (buf, true)
                  else Ok (src, false)
    | None => Ok (src, false) end = Ok (ts, l) /\ bytes ts) as (ts & l & -> & Hts).
  { destruct (d_lzp_table dict) as [t|] eqn:El; [|eauto]. case_if; [|eauto].
    destruct (lzp_filter_inv t 0 0 src (dok_lzp _ Hd _ El) Hb) as (f & Hfl & Hfn & Hfb & _).
    unfold netc_lzp_xor_filter. rewrite Hfl. mstep. rewrite store_ok by lia. mstep. eauto. }
  mstep. destruct (@yields_attempt unit _ _ _ (tans_compress_total dict (d_tables dict) Hd Hf (dok_tables _ Hd) (df_tables _ Hf)
    ts (cap - NETC_HEADER_SIZE) 0 false Hts)) as (r & -> & Hr). mstep.
  destruct r as [t|]; [|by exists None]. destruct (Z.ltb_spec (zlen (tr_payload t)) (zlen src)); [|by exists None].
  cbn [negb]. cbv iota. destruct (stateless_lz77_total src (zlen (tr_payload t)) cap Hb) as (lz & -> & Hlz). mstep.
  destruct lz as [out|]; rewrite stateless_packet_ok by lia; mstep; (eexists; split; [done|]); cbv iota;
    rewrite length_app, Nat2Z.inj_add, hdr_write_length; unfold NETC_HEADER_SIZE in *; lia.
Qed.

(** With room for header and data the stateless encoder always succeeds. *)
Lemma stateless_total dict src cap :
  dict_ok dict -> dict_full dict -> bytes src -> zlen src <= NETC_MAX_PACKET_SIZE ->
  NETC_HEADER_SIZE + zlen src <= cap ->
  exists pkt, netc_compress_stateless (Some dict) (Some src) (Some cap) false = Ok pkt /\
    zlen pkt <= NETC_HEADER_SIZE + zlen src.
Proof.
  intros Hd Hf Hb Hl Hc. unfold netc_compress_stateless.
  destruct (Z.ltb_spec NETC_MAX_PACKET_SIZE (zlen src)); [lia|].
  destruct (Z.ltb_spec cap NETC_HEADER_SIZE); [lia|].
  assert (exists r, (if 0 <? zlen src then t ← stateless_tans dict src cap;
                  match t with Some p => Ok (Some p) | None => stateless_lz77_only dict src cap end else Ok None) = Ok r /\
    match r with Some pkt => zlen pkt <= NETC_HEADER_SIZE + zlen src | None => True end) as (r & -> & Hr).
  { case_if; [|by exists None]. destruct (stateless_tans_total dict src cap Hd Hf Hb) as (t & -> & Ht); [lia|]. mstep.
    destruct t as [p|]; [exists (Some p); split; [done|apply Ht]|]. unfold stateless_lz77_only.
    destruct (@lz77_attempt unit src (cap - NETC_HEADER_SIZE) Hb) as (r & -> & _); [lia|]. mstep.
    destruct r as [out|]; [|by eexists]. destruct (_ && _) eqn:E1; [|by eexists]. bool_to_prop.
    rewrite stateless_packet_ok by lia. mstep. eexists. split; [done|]. cbv iota.
    rewrite length_app, Nat2Z.inj_add, hdr_write_length. unfold NETC_HEADER_SIZE in *. lia. }
  unfold lift. cbn [or_fail]. mstep. destruct r as [p|]; [by exists p|]. unfold emit_passthrough. cbn [netc_hdr_emit].
  unfold NETC_HEADER_SIZE in *. rewrite store_ok by (rewrite hdr_write_length; lia). mstep. rewrite hdr_write_length.
  destruct (Z.ltb_spec cap (8 + zlen src)); [lia|].
  rewrite put_ok by (rewrite hdr_write_length; lia). mstep. eexists. split; [done|].
  rewrite length_app, Nat2Z.inj_add, hdr_write_length. done.
Qed.

(** ** Examples for the properties *)
Lemma blank_dict_full : dict_full blank_dict.
Proof.
  assert (tbl_full zero_table) as Hz by (intros H; exfalso; exact (diff_false_true H)).
  split; cbn [d_tables d_bigram_tables blank_dict]; [|apply Forall_replicate]; by apply Forall_replicate.
Qed.

Lemma ring_ctx_full : ctx_full ring_ctx.
Proof. by intros d [=]. Qed.

(** An allocation that succeeds and a configuration the library accepts. *)
Lemma create_some cpu dict cfg :
  (has (cfg_flags cfg) NETC_CFG_FLAG_ADAPTIVE = true -> has (cfg_flags cfg) NETC_CFG_FLAG_STATEFUL = true) ->
  exists c, netc_ctx_create cpu mem_ok dict (Some cfg) = Some c.
Proof.
  intros H. unfold netc_ctx_create, mem_ok. cbn [default from_option id].
  destruct (has (cfg_flags cfg) NETC_CFG_FLAG_ADAPTIVE), (has (cfg_flags cfg) NETC_CFG_FLAG_STATEFUL);
    cbn [negb andb]; cbv iota; eauto. by specialize (H eq_refl).
Qed.

Definition no_simd : simd_caps := SimdCaps false false false false false false false false.

(** Two contexts created from the same dictionary and compatible
    configurations are linked. *)
Lemma create_link cpu1 cpu2 dict cfg1 cfg2 e d :
  (forall t, dict = Some t -> dict_ok t /\ dict_full t) ->
  cfg_compatible cfg1 cfg2 -> 0 <= cfg_ring_buffer_size cfg1 < 2 ^ 32 ->
  (has (cfg_flags cfg1) NETC_CFG_FLAG_COMPACT_HDR = false \/ has (cfg_flags cfg1) NETC_CFG_FLAG_ADAPTIVE = false) ->
  netc_ctx_create cpu1 mem_ok dict (Some cfg1) = Some e ->
  netc_ctx_create cpu2 mem_ok dict (Some cfg2) = Some d ->
  link e d.
Proof.
  intros Hdict Hcfg Hring Hmode He Hd. destruct (create_fields _ _ _ _ _ He) as (Hed & Hel & Hef & Hep & _). constructor.
  - by eapply create_sync.
  - apply (create_ok cpu1 mem_ok dict (Some cfg1)); [|exact Hring|exact He]. intros t Ht. by apply Hdict.
  - apply (create_ok cpu2 mem_ok dict (Some cfg2)); [|destruct Hcfg as (_ & _ & _ & Hr); simpl in *; rewrite <- Hr; exact Hring|exact Hd].
    intros t Ht. by apply Hdict.
  - eapply create_full; [exact He|]. intros t Ht. by apply Hdict.
  - done.
  - rewrite Hef. destruct Hmode as [?|Ha]; [by left|right]. destruct (c_prev2_pkt e); [|done].
    rewrite Hef in Hep. simpl in Hep. specialize (Hep ltac:(done)). congruence.
Qed.

(** ** Properties *)

(** C1: end-to-end transport.  Two contexts created from the same dictionary
    (whose tables are well formed and code every byte) and compatible
    configurations carry any sequence of messages (at most 65535 bytes, below
    256 bytes or of even size, with room in the packet and receive buffers):
    every [netc_compress] succeeds with a packet within [netc_compress_bound] of
    its message, the matching [netc_decompress] returns the message, the ends
    stay synchronised, and [netc_ctx_reset] brings both back to their initial
    state.  With compact headers the adaptive mode must be off. *)
Theorem session_transport (cpu1 cpu2 : simd_caps) (dict : option netc_dict_t) (cfg1 cfg2 : netc_cfg_t)
    (e d : netc_ctx_t) (cap : Z) (dst : list Z) (msgs : list (list Z)) :
  (forall t, dict = Some t -> dict_ok t /\ dict_full t) ->
  cfg_compatible cfg1 cfg2 -> 0 <= cfg_ring_buffer_size cfg1 < 2 ^ 32 ->
  (has (cfg_flags cfg1) NETC_CFG_FLAG_COMPACT_HDR = false \/ has (cfg_flags cfg1) NETC_CFG_FLAG_ADAPTIVE = false) ->
  netc_ctx_create cpu1 mem_ok dict (Some cfg1) = Some e ->
  netc_ctx_create cpu2 mem_ok dict (Some cfg2) = Some d ->
  Forall (carried cap dst) msgs ->
  exists e' pkts d', compress_all e cap msgs = Ok (e', pkts) /\ decompress_all d dst pkts = Ok (d', msgs) /\
    Forall2 (fun m pkt => zlen pkt <= netc_compress_bound (zlen m)) msgs pkts /\ sync e' d' /\
    sync (netc_ctx_reset e') e /\ sync (netc_ctx_reset d') d.
Proof.
  intros Hdict Hcfg Hring Hmode He Hd Hm.
  pose proof (create_link _ _ _ _ _ _ _ Hdict Hcfg Hring Hmode He Hd) as Hlink.
  destruct (link_session e d cap dst msgs Hlink Hm) as (e' & pkts & d' & H1 & H2 & H3 & [Hs _ _ _ _ _] & Ho & Hf).
  exists e', pkts, d'. pose proof (lk_sync _ _ Hlink) as Hs0. split_and!; try done.
  - rewrite <- (create_reset _ _ _ _ _ He). by apply reset_sync.
  - rewrite <- (create_reset _ _ _ _ _ Hd). destruct Hs as (S1 & _ & S3), Hs0 as (T1 & _ & T3).
    apply reset_sync; [|congruence]. rewrite <- origin_shared, <- S1, origin_shared, Ho.
    by rewrite <- origin_shared, T1, origin_shared.
Qed.

Lemma session_transport_witness :
  exists e d e' pkts d',
    netc_ctx_create no_simd mem_ok (Some blank_dict) (Some (Cfg 0x25 0 5 0 0)) = Some e /\
    netc_ctx_create no_simd mem_ok (Some blank_dict) (Some (Cfg 0x25 0 5 0 0)) = Some d /\
    compress_all e 64 [[1; 2; 3]; [1; 2; 4]] = Ok (e', pkts) /\
    decompress_all d (replicate 16 0) pkts = Ok (d', [[1; 2; 3]; [1; 2; 4]]) /\ sync e' d'.
Proof.
  destruct (create_some no_simd (Some blank_dict) (Cfg 0x25 0 5 0 0)) as [e He]; [discriminate|].
  destruct (session_transport no_simd no_simd (Some blank_dict) (Cfg 0x25 0 5 0 0) (Cfg 0x25 0 5 0 0) e e 64
    (replicate 16 0) [[1; 2; 3]; [1; 2; 4]]) as (e' & pkts & d' & H1 & H2 & _ & H3 & _).
  - intros t Ht. apply (inj Some) in Ht. subst t. split; [apply blank_dict_ok|apply blank_dict_full].
  - split_and!; reflexivity.
  - simpl. lia.
  - right. reflexivity.
  - exact He.
  - exact He.
  - repeat constructor; try (unfold is_byte, NETC_MAX_PACKET_SIZE; simpl; lia); vm_compute; discriminate.
  - exists e, e, e', pkts, d'. split_and!; assumption.
Defined.

(** C3: one packet between any two synchronised, well-formed contexts, in every
    mode, whatever stage of the encoder wins: it is emitted within header plus
    data, decoded to the input, and the contexts stay synchronised and well
    formed.  The conditions: the encoder's tables code every byte ([ctx_full]);
    the message has at most 65535 bytes and is shorter than 256 bytes or of even
    size (a longer odd one that the two-state coder takes does not come back,
    [tans_x2_odd_wrong]); the packet buffer has [netc_compress_bound] bytes and
    the receive buffer room for the message; and with compact headers the order-2
    delta does not meet a packet type that cannot record it ([order2_safe]). *)
Theorem packet_transport (e d : netc_ctx_t) (src dst : list Z) (cap : Z) :
  sync e d -> ctx_ok e -> ctx_ok d -> ctx_full e -> bytes src ->
  zlen src <= NETC_MAX_PACKET_SIZE -> zlen src <= zlen dst -> netc_compress_bound (zlen src) <= cap ->
  (zlen src < 256 \/ Z.odd (zlen src) = false) ->
  (has (c_flags e) NETC_CFG_FLAG_COMPACT_HDR = true -> order2_safe e src) ->
  exists e' pkt d', netc_compress (Some e) (Some src) (Some cap) false = Ok (e', Ok pkt) /\
    zlen pkt <= compress_hdr_size (zlen src) (has (c_flags e) NETC_CFG_FLAG_COMPACT_HDR) + zlen src /\
    netc_decompress (Some d) (Some pkt) (Some dst) false = Ok (d', src) /\
    sync e' d' /\ ctx_ok e' /\ ctx_ok d'.
Proof.
  intros Hs He Hd Hf Hb Hm Hl Hc Ho Hsafe. rewrite compress_bound_eq in Hc by lia. destruct (compress_succeeds e src cap He Hf Hb Hm Hc) as (e' & pkt & Hcomp).
  destruct (packet_roundtrip e d src cap e' pkt dst) as (d' & Hdec & Hs' & He' & Hd' & _); try done.
  exists e', pkt, d'. split_and!; try done. by eapply packet_length.
Qed.

Lemma packet_transport_witness :
  exists e' pkt d', netc_compress (Some ring_ctx) (Some [5; 5; 5; 5]) (Some 20) false = Ok (e', Ok pkt) /\
    zlen pkt <= 12 /\
    netc_decompress (Some ring_ctx) (Some pkt) (Some [0; 0; 0; 0]) false = Ok (d', [5; 5; 5; 5]) /\
    sync e' d' /\ ctx_ok e' /\ ctx_ok d'.
Proof.
  apply (packet_transport ring_ctx ring_ctx [5; 5; 5; 5] [0; 0; 0; 0] 20).
  - apply sync_refl.
  - apply ring_ctx_ok.
  - apply ring_ctx_ok.
  - apply ring_ctx_full.
  - repeat constructor; unfold is_byte; lia.
  - unfold NETC_MAX_PACKET_SIZE. simpl. lia.
  - simpl. lia.
  - vm_compute. discriminate.
  - right. reflexivity.
  - discriminate.
Defined.

(** C10: the encoder with any buffer that holds at least the header, on a context
    whose tables code every byte and a message of at most 65535 bytes: no
    undefined behaviour on any path - every store is within the buffer it goes
    to, be it the caller's, the context's arena or one of the trial buffers on the
    stack, and every read within what was written -, the packet never exceeds the
    caller's buffer, the context stays well formed, and the only failure is a
    buffer too small for header and data. *)
Theorem compress_bounded (e : netc_ctx_t) (src : list Z) (cap : Z) :
  ctx_ok e -> ctx_full e -> bytes src -> zlen src <= NETC_MAX_PACKET_SIZE ->
  compress_hdr_size (zlen src) (has (c_flags e) NETC_CFG_FLAG_COMPACT_HDR) <= cap ->
  exists e' r, netc_compress (Some e) (Some src) (Some cap) false = Ok (e', r) /\ ctx_ok e' /\
    ((exists pkt, r = Ok pkt /\ zlen pkt <= cap) \/
     r = Fail NETC_ERR_BUF_SMALL /\
     cap < compress_hdr_size (zlen src) (has (c_flags e) NETC_CFG_FLAG_COMPACT_HDR) + zlen src).
Proof. apply compress_total_gen. Qed.

Lemma compress_bounded_witness :
  exists e' r, netc_compress (Some ring_ctx) (Some [1; 2; 3; 4]) (Some 9) false = Ok (e', r) /\ ctx_ok e' /\
    ((exists pkt, r = Ok pkt /\ zlen pkt <= 9) \/ r = Fail NETC_ERR_BUF_SMALL /\ 9 < 12).
Proof.
  apply (compress_bounded ring_ctx [1; 2; 3; 4] 9).
  - apply ring_ctx_ok.
  - apply ring_ctx_full.
  - repeat constructor; unfold is_byte; lia.
  - unfold NETC_MAX_PACKET_SIZE. simpl. lia.
  - vm_compute. discriminate.
Defined.

(** A context that [netc_ctx_create] returns is well formed, whichever
    allocation of the optional LZP table fails, and resetting it changes
    nothing. *)
Theorem create_wellformed (cpu : simd_caps) (mem : nat -> bool) (dict : option netc_dict_t) (cfg : option netc_cfg_t)
    (c : netc_ctx_t) :
  (forall d, dict = Some d -> dict_ok d) ->
  0 <= cfg_ring_buffer_size (default NETC_CFG_DEFAULT cfg) < 2 ^ 32 ->
  netc_ctx_create cpu mem dict cfg = Some c ->
  ctx_ok c /\ netc_ctx_reset c = c /\ c_dict c = dict.
Proof.
  intros Hd Hr H. split; [by eapply create_ok|]. split; [by eapply create_reset|]. by apply create_fields in H as (? & _).
Qed.

Lemma create_wellformed_witness :
  exists c, netc_ctx_create no_simd mem_ok (Some blank_dict) (Some (Cfg 0x201 4096 5 0 0)) = Some c /\
    ctx_ok c /\ netc_ctx_reset c = c /\ c_dict c = Some blank_dict.
Proof.
  destruct (create_some no_simd (Some blank_dict) (Cfg 0x201 4096 5 0 0)) as [c Hc]; [reflexivity|].
  exists c. split; [exact Hc|].
  apply (create_wellformed no_simd mem_ok (Some blank_dict) (Some (Cfg 0x201 4096 5 0 0)) c).
  - intros d Hd. apply (inj Some) in Hd. subst d. apply blank_dict_ok.
  - simpl. lia.
  - exact Hc.
Defined.

(** A context keeps its shape: after any number of messages sent through it,
    a reset context is synchronised with the reset of the original one, so a
    connection can be restarted without recreating contexts. *)
Theorem reset_restarts (e d : netc_ctx_t) (cap : Z) (dst : list Z) (msgs : list (list Z)) :
  link e d -> Forall (carried cap dst) msgs ->
  exists e' pkts, compress_all e cap msgs = Ok (e', pkts) /\ sync (netc_ctx_reset e') (netc_ctx_reset e).
Proof.
  intros Hl Hm. destruct (link_session e d cap dst msgs Hl Hm) as (e' & pkts & d' & H1 & _ & _ & _ & Ho & Hf).
  exists e', pkts. split; [done|]. by apply reset_sync.
Qed.

Lemma reset_restarts_witness :
  exists e' pkts, compress_all ring_ctx 64 [[9; 9]; [8]] = Ok (e', pkts) /\
    sync (netc_ctx_reset e') (netc_ctx_reset ring_ctx).
Proof.
  apply (reset_restarts ring_ctx ring_ctx 64 (replicate 16 0) [[9; 9]; [8]]).
  - constructor; [apply sync_refl|apply ring_ctx_ok|apply ring_ctx_ok|apply ring_ctx_full|by intros []|by left].
  - repeat constructor; try (unfold is_byte, NETC_MAX_PACKET_SIZE; simpl; lia); vm_compute; discriminate.
Defined.

(** C5: the stateless calls: for an input of at most 65535 bytes that is shorter
    than 256 bytes or of even size (longer odd ones can meet the two-state coder,
    which does not restore them), with a dictionary whose tables are well formed
    and code every byte, a packet buffer of [netc_compress_bound] bytes and a
    receive buffer with room for the input, [netc_compress_stateless] succeeds
    with a packet within [netc_compress_bound] of the input and
    [netc_decompress_stateless] with the same dictionary returns the input. *)
Theorem stateless_transport (dict : netc_dict_t) (src dst : list Z) (cap : Z) :
  dict_ok dict -> dict_full dict -> bytes src -> zlen src <= NETC_MAX_PACKET_SIZE ->
  netc_compress_bound (zlen src) <= cap -> zlen src <= zlen dst ->
  (zlen src < 256 \/ Z.odd (zlen src) = false) ->
  exists pkt, netc_compress_stateless (Some dict) (Some src) (Some cap) false = Ok pkt /\
    zlen pkt <= netc_compress_bound (zlen src) /\
    netc_decompress_stateless (Some dict) (Some pkt) (Some dst) false = Ok src.
Proof.
  intros Hd Hf Hb Hm Hc Hl Ho. rewrite compress_bound_eq in * by lia. destruct (stateless_total dict src cap Hd Hf Hb Hm Hc) as (pkt & Hp & Hlen).
  exists pkt. split_and!; [done|done|]. by eapply stateless_roundtrip.
Qed.

Lemma stateless_transport_witness :
  exists pkt, netc_compress_stateless (Some blank_dict) (Some [1; 1; 1; 1; 1]) (Some 32) false = Ok pkt /\
    zlen pkt <= netc_compress_bound 5 /\
    netc_decompress_stateless (Some blank_dict) (Some pkt) (Some (replicate 8 0)) false = Ok [1; 1; 1; 1; 1].
Proof.
  apply (stateless_transport blank_dict [1; 1; 1; 1; 1] (replicate 8 0) 32).
  - apply blank_dict_ok.
  - apply blank_dict_full.
  - repeat constructor; unfold is_byte; lia.
  - unfold NETC_MAX_PACKET_SIZE. simpl. lia.
  - vm_compute. discriminate.
  - simpl. lia.
  - left. simpl. lia.
Defined.

(** C39: a packet that lost its tail is rejected: with the 8-byte header every
    strict prefix of a packet makes [netc_decompress] and
    [netc_decompress_stateless] report an error. *)
Theorem truncated_rejected (ctx : netc_ctx_t) (dict : netc_dict_t) (h : netc_pkt_header_t) (payload dst : list Z) (n : nat) :
  hdr_ok h -> compressed_size h = zlen payload -> has (c_flags ctx) NETC_CFG_FLAG_COMPACT_HDR = false ->
  Z.of_nat n < NETC_HEADER_SIZE + zlen payload ->
  let pkt := take n (netc_hdr_write h ++ payload) in
  (exists e, netc_decompress (Some ctx) (Some pkt) (Some dst) false = Fail e) /\
  (exists e, netc_decompress_stateless (Some dict) (Some pkt) (Some dst) false = Fail e).
Proof.
  intros Hh Hc Hm Hn pkt.
  assert (exists e, validate_header pkt (zlen dst) false = Fail e) as [e He].
  { pose proof (hdr_write_length h) as Hl. unfold validate_header, NETC_HEADER_SIZE in *. cbv zeta.
    destruct (Z.ltb_spec (zlen pkt) 8) as [|Hge]; [by eexists|].
    assert (pkt = netc_hdr_write h ++ take (n - 8) payload) as Hpkt.
    { unfold pkt. rewrite take_app_ge by (unfold pkt in Hge; rewrite length_take in Hge; lia). do 2 f_equal; lia. }
    rewrite Hpkt, hdr_read_write by done. mstep. case_if; [by eexists|]. case_if; [by eexists|]. cbn [negb andb].
    unfold pkt in Hge. rewrite length_take in Hge.
    destruct (Z.ltb_spec (zlen (netc_hdr_write h ++ take (n - 8) payload)) (8 + compressed_size h)) as [|Hlt];
      [by eexists|]. rewrite length_app, length_take in Hlt. lia. }
  split; exists e.
  - unfold netc_decompress, netc_decompress_ctx. by rewrite Hm, He.
  - unfold netc_decompress_stateless. by rewrite He.
Qed.

Lemma truncated_rejected_witness :
  (exists e, netc_decompress (Some ring_ctx) (Some [3; 0; 3; 0; 4; 0xFF; 0; 0; 1; 2]) (Some [0; 0; 0; 0]) false = Fail e) /\
  (exists e, netc_decompress_stateless (Some blank_dict) (Some [3; 0; 3; 0; 4; 0xFF; 0; 0; 1; 2]) (Some [0; 0; 0; 0]) false = Fail e).
Proof.
  apply (truncated_rejected ring_ctx blank_dict (PktHeader 3 3 4 0xFF 0 0) [1; 2; 3] [0; 0; 0; 0] 10).
  - unfold hdr_ok, is_byte; simpl; lia.
  - reflexivity.
  - reflexivity.
  - unfold NETC_HEADER_SIZE. simpl. lia.
Defined.

(** A packet coded with another dictionary is refused with [NETC_ERR_VERSION]
    (unless it is raw or cross-packet LZ77 data, which use no dictionary). *)
Theorem foreign_dictionary_rejected (ctx : netc_ctx_t) (dict : netc_dict_t) (h : netc_pkt_header_t) (payload dst : list Z) :
  hdr_ok h -> compressed_size h = zlen payload -> original_size h <= zlen dst ->
  has (c_flags ctx) NETC_CFG_FLAG_COMPACT_HDR = false -> c_dict ctx = Some dict ->
  has (hdr_flags h) NETC_PKT_FLAG_PASSTHRU = false -> algorithm h <> NETC_ALG_LZ77X -> model_id h <> d_model_id dict ->
  netc_decompress (Some ctx) (Some (netc_hdr_write h ++ payload)) (Some dst) false = Fail NETC_ERR_VERSION /\
  netc_decompress_stateless (Some dict) (Some (netc_hdr_write h ++ payload)) (Some dst) false = Fail NETC_ERR_VERSION.
Proof.
  intros Hh Hc Ho Hm Hd Hp Ha Hne.
  pose proof (validate_emit h false payload (zlen dst) Hh Hc Ho ltac:(discriminate)) as Hv. cbn [netc_hdr_emit] in Hv.
  apply Z.eqb_neq in Ha, Hne. split.
  - unfold netc_decompress, netc_decompress_ctx. rewrite Hm, Hv. mstep. unfold wrong_model. cbn [complete_header].
    by rewrite Hd, Hp, Ha, Hne.
  - unfold netc_decompress_stateless. rewrite Hv. mstep. by rewrite Hp, Hne.
Qed.

Lemma foreign_dictionary_rejected_witness :
  netc_decompress (Some (dict_ctx blank_dict)) (Some (netc_hdr_write (PktHeader 3 2 8 1 9 0) ++ [1; 2])) (Some [0; 0; 0; 0]) false
    = Fail NETC_ERR_VERSION /\
  netc_decompress_stateless (Some blank_dict) (Some (netc_hdr_write (PktHeader 3 2 8 1 9 0) ++ [1; 2])) (Some [0; 0; 0; 0]) false
    = Fail NETC_ERR_VERSION.
Proof.
  apply (foreign_dictionary_rejected (dict_ctx blank_dict) blank_dict (PktHeader 3 2 8 1 9 0) [1; 2] [0; 0; 0; 0]);
    [unfold hdr_ok, is_byte; simpl; lia|reflexivity|simpl; lia|reflexivity|reflexivity|reflexivity|discriminate|discriminate].
Defined.

(** A failed call is not neutral: when the passthrough packet does not fit,
    [netc_compress] has already taken a sequence number and appended the data
    to the history, which the decoder never sees. *)
Theorem failed_call_advances :
  exists e', netc_compress (Some ring_ctx) (Some [1; 2; 3; 4]) (Some 9) false = Ok (e', Fail NETC_ERR_BUF_SMALL) /\
    c_context_seq e' = 1 /\ c_ring e' = Some [4; 2; 3; 4; 5; 1; 2; 3] /\ ~ sync e' ring_ctx.
Proof.
  assert (match netc_compress (Some ring_ctx) (Some [1; 2; 3; 4]) (Some 9) false with
    | Ok (e', Fail NETC_ERR_BUF_SMALL) => Some (c_context_seq e', c_ring e')
    | _ => None
    end = Some (1, Some [4; 2; 3; 4; 5; 1; 2; 3])) as H by (vm_compute; reflexivity).
  destruct (netc_compress _ _ _ _) as [[e' [p|[]|]]|x|]; try discriminate. injection H as Hq Hr.
  exists e'. split_and!; try done. intros (_ & Hs & _). rewrite Hq in Hs. discriminate.
Qed.

(** [netc_compress] accepts a buffer of two bytes and then writes an 8-byte
    header: with the long header a capacity of 2 to 7 leads out of bounds. *)
Theorem small_buffer_overrun (cap : Z) :
  2 <= cap < NETC_HEADER_SIZE -> netc_compress (Some ring_ctx) (Some [1]) (Some cap) false = Undef.
Proof.
  unfold NETC_HEADER_SIZE. intros Hc.
  assert (cap = 2 \/ cap = 3 \/ cap = 4 \/ cap = 5 \/ cap = 6 \/ cap = 7) as Hcases by lia.
  repeat (destruct Hcases as [->|Hcases]; [vm_compute; reflexivity|]). subst cap. vm_compute. reflexivity.
Qed.

Lemma small_buffer_overrun_witness : netc_compress (Some ring_ctx) (Some [1]) (Some 4) false = Undef.
Proof. apply (small_buffer_overrun 4). unfold NETC_HEADER_SIZE. lia. Defined.
