(* ===== verification/Metering.v ===== *)
(** * Statistics of a session
      (src/include/netc.h: netc_stats_t; src/src/core/netc_ctx.c: netc_ctx_stats)

    Every successful call counts its packet once, whichever stage or algorithm
    produced it, so after a session both ends report the number of messages
    and the bytes before and after compression. *)

From stdpp Require Import prelude.
From Stdlib Require Import ZArith Lia.
From S2P Require Import Prelude TansTable Bitstream TansCodec Lzp Freq Delta Crc32 Simd Header Lz Ctx.
From S2P Require Import Decompress Compress Payload Packets Sync Stages Session Safety Progress Transport.

Local Open Scope Z_scope.

(** Total length of a list of byte strings. *)
Definition total_length (ls : list (list Z)) : Z := foldr (fun l n => zlen l + n) 0 ls.

(** Counters of [uint64_t]. *)
Definition stats_ok (s : netc_stats_t) : Prop :=
  0 <= packets_compressed s < 2 ^ 64 /\ 0 <= packets_decompressed s < 2 ^ 64 /\
  0 <= bytes_in s < 2 ^ 64 /\ 0 <= bytes_out s < 2 ^ 64.

(** [s'] after [n] compressed and [m] decompressed packets, [i] bytes in, [o] bytes out. *)
Definition counts (s s' : netc_stats_t) (n m i o : Z) : Prop :=
  packets_compressed s' = u64 (packets_compressed s + n) /\ packets_decompressed s' = u64 (packets_decompressed s + m) /\
  bytes_in s' = u64 (bytes_in s + i) /\ bytes_out s' = u64 (bytes_out s + o).

Lemma counts_zero s : stats_ok s -> counts s s 0 0 0 0.
Proof. intros (?&?&?&?). unfold counts. rewrite !Z.add_0_r, !u64_small by lia. done. Qed.

Lemma counts_ok s s' n m i o : counts s s' n m i o -> stats_ok s'.
Proof. unfold stats_ok. intros (-> & -> & -> & ->). split_and!; apply u64_range. Qed.

Lemma u64_u64_add a b : u64 (u64 a + b) = u64 (a + b).
Proof. unfold u64. apply Zplus_mod_idemp_l. Qed.

Lemma counts_trans s1 s2 s3 n m i o n' m' i' o' :
  counts s1 s2 n m i o -> counts s2 s3 n' m' i' o' -> counts s1 s3 (n + n') (m + m') (i + i') (o + o').
Proof. unfold counts. intros (H1 & H2 & H3 & H4) (-> & -> & -> & ->). rewrite H1, H2, H3, H4, !u64_u64_add, !Z.add_assoc. done. Qed.

Lemma stats_compressed_counts c a b p :
  has (c_flags c) NETC_CFG_FLAG_STATS = true -> stats_ok (c_stats c) ->
  counts (c_stats c) (c_stats (stats_compressed c a b p)) 1 0 a b.
Proof.
  intros Hf (_ & H2 & _). unfold stats_compressed. rewrite Hf. destruct (c_stats c) as [pc pd bi bo pt] eqn:E. unfold counts.
  destruct c. simpl in *. split_and!; try done. by rewrite Z.add_0_r, u64_small.
Qed.

Lemma stats_decompressed_counts c a b p :
  has (c_flags c) NETC_CFG_FLAG_STATS = true -> stats_ok (c_stats c) ->
  counts (c_stats c) (c_stats (stats_decompressed c a b p)) 0 1 a b.
Proof.
  intros Hf (H1 & _). unfold stats_decompressed. rewrite Hf. destruct (c_stats c) as [pc pd bi bo pt] eqn:E. unfold counts.
  destruct c. simpl in *. split_and!; try done. by rewrite Z.add_0_r, u64_small.
Qed.

(** ** One call *)
Lemma compress_metered e d src cap e' pkt :
  sync e d -> ctx_ok e -> ctx_ok d -> bytes src -> (zlen src < 256 \/ Z.odd (zlen src) = false) ->
  netc_compress (Some e) (Some src) (Some cap) false = Ok (e', Ok pkt) ->
  c_flags e' = c_flags e /\ exists p, c_stats e' = c_stats (stats_compressed e (zlen src) (zlen pkt) p).
Proof.
  intros Hsync He Hd Hb Hodd H. apply compress_inv in H as [Hs H].
  destruct (stages_compressed _ d _ src cap e' pkt (sync_tracks e d Hsync He Hd) Hb Hs Hodd H) as (_ & (Hf & _) & [p Hp] & _).
  split; [rewrite Hf; by destruct e|]. exists p. rewrite Hp. apply stats_compressed_ext; by destruct e.
Qed.

(** Every decoder ends in [decomp_finish]. *)
Lemma decompress_finished d pkt dst d' m :
  netc_decompress (Some d) (Some pkt) (Some dst) false = Ok (d', m) ->
  exists hdr out p, decomp_finish d hdr out (zlen pkt) p = Ok (d', m).
Proof.
  intros H. simpl in H. unfold netc_decompress_ctx in H. apply bind_Ok in H as ([hdr sz] & _ & H). case_if_in H; [done|].
  apply bind_Ok in H as (payload & _ & H). exists (complete_header d (has (c_flags d) NETC_CFG_FLAG_COMPACT_HDR) hdr).
  unfold decompress_dispatch, decompress_passthru, decompress_tans, decompress_pctx, decompress_lz77x, decompress_lzp, decompress_tans10 in H.
  repeat case_if_in H; try discriminate H; repeat (match type of H with context [match ?x with _ => _ end] => destruct x; try discriminate H end);
  repeat lazymatch type of H with decomp_finish _ _ _ _ _ = _ => fail | _ => apply bind_Ok in H as (? & _ & H) end; by do 2 eexists.
Qed.

Lemma decompress_metered d pkt dst d' m :
  netc_decompress (Some d) (Some pkt) (Some dst) false = Ok (d', m) ->
  c_flags d' = c_flags d /\ exists p, c_stats d' = c_stats (stats_decompressed d (zlen pkt) (zlen m) p).
Proof.
  intros H. apply decompress_finished in H as (hdr & out & p & Hf).
  destruct (decomp_finish_stats _ _ _ _ _ _ _ Hf) as (-> & Hfl & Hst). split; [done|]. by exists p.
Qed.

(** A new context has counted nothing. *)
Lemma create_stats cpu mem dict cfg c :
  netc_ctx_create cpu mem dict cfg = Some c -> c_flags c = cfg_flags (default NETC_CFG_DEFAULT cfg) /\ c_stats c = stats_zero.
Proof. intros H. unfold netc_ctx_create in H. repeat case_if_in H; try done; injection H as <-; done. Qed.

(** ** A session *)
Lemma compress_all_counts msgs : forall e d cap dst e' pkts,
  link e d -> Forall (carried cap dst) msgs -> has (c_flags e) NETC_CFG_FLAG_STATS = true -> stats_ok (c_stats e) ->
  compress_all e cap msgs = Ok (e', pkts) ->
  c_flags e' = c_flags e /\ counts (c_stats e) (c_stats e') (zlen msgs) 0 (total_length msgs) (total_length pkts).
Proof.
  induction msgs as [|m msgs IH]; intros e d cap dst e' pkts Hlink Hm Hf Hs H; cbn [compress_all] in H.
  { injection H as <- <-. split; [done|]. by apply counts_zero. }
  apply Forall_cons in Hm as [Hm Hms]. destruct (link_step e d m cap dst Hlink Hm) as (e1 & pkt & d1 & H1 & _ & _ & Hlink1 & _).
  rewrite H1 in H. rewrite bind_Ok_l in H. cbv beta iota in H. rewrite bind_Ok_l in H. apply bind_Ok in H as ([e2 ps] & H2 & [= <- <-]).
  destruct Hlink as [Hsync He Hd _ _ _], Hm as ((Hb & _ & Hodd) & _).
  destruct (compress_metered e d m cap e1 pkt Hsync He Hd Hb Hodd H1) as (Hf1 & p & Hp).
  pose proof (stats_compressed_counts e (zlen m) (zlen pkt) p Hf Hs) as Hc. rewrite <- Hp in Hc.
  destruct (IH e1 d1 cap dst e2 ps Hlink1 Hms) as [Hf2 Hc2]; [by rewrite Hf1|by eapply counts_ok|done|].
  split; [congruence|]. replace (zlen (m :: msgs)) with (1 + zlen msgs) by (simpl length; lia). by apply (counts_trans _ (c_stats e1) _ 1 0 _ _ (zlen msgs) 0).
Qed.

Lemma decompress_all_counts pkts : forall d dst d' msgs,
  has (c_flags d) NETC_CFG_FLAG_STATS = true -> stats_ok (c_stats d) -> decompress_all d dst pkts = Ok (d', msgs) ->
  c_flags d' = c_flags d /\ counts (c_stats d) (c_stats d') 0 (zlen msgs) (total_length pkts) (total_length msgs).
Proof.
  induction pkts as [|pkt pkts IH]; intros d dst d' msgs Hf Hs H; cbn [decompress_all] in H.
  { injection H as <- <-. split; [done|]. by apply counts_zero. }
  apply bind_Ok in H as ([d1 m] & H1 & H). apply bind_Ok in H as ([d2 ms] & H2 & [= <- <-]).
  destruct (decompress_metered d pkt dst d1 m H1) as (Hf1 & p & Hp).
  pose proof (stats_decompressed_counts d (zlen pkt) (zlen m) p Hf Hs) as Hc. rewrite <- Hp in Hc.
  destruct (IH d1 dst d2 ms) as [Hf2 Hc2]; [by rewrite Hf1|by eapply counts_ok|done|].
  split; [congruence|]. replace (zlen (m :: ms)) with (1 + zlen ms) by (simpl length; lia). by apply (counts_trans _ (c_stats d1) _ 0 1 _ _ 0 (zlen ms)).
Qed.

(** ** Properties *)

(** C29: after a session between two contexts that collect statistics,
    [netc_ctx_stats] reports at the sender the number of messages, their bytes
    in and the bytes of their packets out, and at the receiver the same number
    of packets with the bytes in and out exchanged, all modulo 2^64. *)
Theorem session_statistics (cpu1 cpu2 : simd_caps) (dict : option netc_dict_t) (cfg1 cfg2 : netc_cfg_t)
    (e d : netc_ctx_t) (cap : Z) (dst : list Z) (msgs : list (list Z)) :
  (forall t, dict = Some t -> dict_ok t /\ dict_full t) ->
  cfg_compatible cfg1 cfg2 -> 0 <= cfg_ring_buffer_size cfg1 < 2 ^ 32 ->
  (has (cfg_flags cfg1) NETC_CFG_FLAG_COMPACT_HDR = false \/ has (cfg_flags cfg1) NETC_CFG_FLAG_ADAPTIVE = false) ->
  has (cfg_flags cfg1) NETC_CFG_FLAG_STATS = true -> has (cfg_flags cfg2) NETC_CFG_FLAG_STATS = true ->
  netc_ctx_create cpu1 mem_ok dict (Some cfg1) = Some e ->
  netc_ctx_create cpu2 mem_ok dict (Some cfg2) = Some d ->
  Forall (carried cap dst) msgs ->
  exists e' pkts d' s r, compress_all e cap msgs = Ok (e', pkts) /\ decompress_all d dst pkts = Ok (d', msgs) /\
    netc_ctx_stats (Some e') false = Ok s /\ netc_ctx_stats (Some d') false = Ok r /\
    packets_compressed s = u64 (zlen msgs) /\ packets_decompressed r = u64 (zlen msgs) /\
    bytes_in s = u64 (total_length msgs) /\ bytes_out s = u64 (total_length pkts) /\
    bytes_in r = u64 (total_length pkts) /\ bytes_out r = u64 (total_length msgs).
Proof.
  intros Hdict Hcfg Hring Hmode Hf1 Hf2 He Hd Hm.
  pose proof (create_link _ _ _ _ _ _ _ Hdict Hcfg Hring Hmode He Hd) as Hlink.
  destruct (link_session e d cap dst msgs Hlink Hm) as (e' & pkts & d' & H1 & H2 & _).
  destruct (create_stats _ _ _ _ _ He) as [Fe Se]. destruct (create_stats _ _ _ _ _ Hd) as [Fd Sd]. simpl in Fe, Fd.
  assert (stats_ok stats_zero) as Hz by done.
  destruct (compress_all_counts msgs e d cap dst e' pkts) as [Fe' (C1 & _ & C3 & C4)]; try done; [congruence|by rewrite Se|].
  destruct (decompress_all_counts pkts d dst d' msgs) as [Fd' (_ & D2 & D3 & D4)]; try done; [congruence|by rewrite Sd|].
  exists e', pkts, d', (c_stats e'), (c_stats d'). split; [done|]. split; [done|]. rewrite Se in *. rewrite Sd in *.
  unfold netc_ctx_stats. rewrite Fe', Fd', Fe, Fd, Hf1, Hf2. simpl in *. by rewrite !Z.add_0_l in *.
Qed.

Lemma session_statistics_witness :
  exists e d e' pkts d' s r,
    netc_ctx_create no_simd mem_ok (Some blank_dict) (Some (Cfg 0x35 0 5 0 0)) = Some e /\
    netc_ctx_create no_simd mem_ok (Some blank_dict) (Some (Cfg 0x35 0 5 0 0)) = Some d /\
    compress_all e 64 [[1; 2; 3]; [1; 2; 4]] = Ok (e', pkts) /\
    decompress_all d (replicate 16 0) pkts = Ok (d', [[1; 2; 3]; [1; 2; 4]]) /\
    netc_ctx_stats (Some e') false = Ok s /\ netc_ctx_stats (Some d') false = Ok r /\
    packets_compressed s = 2 /\ packets_decompressed r = 2 /\ bytes_in s = 6 /\ bytes_out r = 6.
Proof.
  destruct (create_some no_simd (Some blank_dict) (Cfg 0x35 0 5 0 0)) as [e He]; [discriminate|].
  destruct (session_statistics no_simd no_simd (Some blank_dict) (Cfg 0x35 0 5 0 0) (Cfg 0x35 0 5 0 0) e e 64
    (replicate 16 0) [[1; 2; 3]; [1; 2; 4]]) as (e' & pkts & d' & s & r & H1 & H2 & H3 & H4 & H5 & H6 & H7 & _ & _ & H8).
  - intros t Ht. apply (inj Some) in Ht. subst t. split; [apply blank_dict_ok|apply blank_dict_full].
  - split_and!; reflexivity.
  - simpl. lia.
  - right. reflexivity.
  - reflexivity.
  - reflexivity.
  - exact He.
  - exact He.
  - repeat constructor; try (unfold is_byte, NETC_MAX_PACKET_SIZE; simpl; lia); vm_compute; discriminate.
  - exists e, e, e', pkts, d', s, r. exact (conj He (conj He (conj H1 (conj H2 (conj H3 (conj H4 (conj H5 (conj H6 (conj H7 H8))))))))).
Defined.
