(* ===== verification/Datagram.v ===== *)
(** * Contexts without memory

    A context created without the stateful flag keeps no history: its packets can
    be lost, repeated and reordered on the way (src/src/core/netc_ctx.c,
    netc_compress.c, netc_decompress.c).  The sequence number of such a context
    does not matter to what a packet means. *)

From stdpp Require Import prelude.
From Stdlib Require Import ZArith Lia.
From S2P Require Import Prelude TansTable Lzp Simd Header Lz Ctx Dict Decompress Compress Sync Stages Session Safety Progress Transport.

Local Open Scope Z_scope.

(** ** The sequence number of a decoder *)
Definition hdr_seq (h : netc_pkt_header_t) (q : Z) : netc_pkt_header_t :=
  PktHeader (original_size h) (compressed_size h) (hdr_flags h) (algorithm h) (model_id h) q.

Lemma bind_same {E A B} (m m' : outcome E A) (k : A -> outcome E B) x r : m = Ok x -> m' = m -> k x = r -> (y ← m'; k y) = r.
Proof. intros Hm -> Hk. by rewrite Hm. Qed.

(** The bytes do not depend on sequence numbers; only the tail sees them. *)
Lemma dispatch_seq c h payload dst n compact c' m q q' :
  decompress_dispatch c h payload dst n compact = Ok (c', m) ->
  exists p, decomp_finish c h m n p = Ok (c', m) /\
    decompress_dispatch (set_seq c q) (hdr_seq h q') payload dst n compact = decomp_finish (set_seq c q) (hdr_seq h q') m n p.
Proof.
  assert (forall out p, decomp_finish c h out n p = Ok (c', m) -> m = out) as Hm by (intros out p H; by eapply decomp_finish_stats).
  intros H. unfold decompress_dispatch in H |- *. cbv zeta in H |- *. cbn [hdr_seq algorithm].
  destruct c as [d f cl sl r rs rp so pv ps p2 p2s cq a st af at_ ats al ac]. cbn [set_seq c_dict] in H |- *.
  repeat case_if_in H; try done;
    unfold decompress_passthru, decompress_tans, decompress_pctx, decompress_lz77x, decompress_lzp, decompress_tans10 in H |- *;
    cbn [c_dict c_ring c_ring_size c_ring_pos] in H |- *.
  - apply bind_Ok in H as (o1 & R1 & H). apply bind_Ok in H as (o2 & R2 & H). pose proof (Hm _ _ H) as ->. exists 1. split; [done|].
    eapply bind_same; [exact R1|done|]. by eapply bind_same; [exact R2|..].
  - apply bind_Ok in H as (o1 & R1 & H). apply bind_Ok in H as (o2 & R2 & H). pose proof (Hm _ _ H) as ->. exists 0. split; [done|].
    eapply bind_same; [exact R1|done|]. by eapply bind_same; [exact R2|..].
  - destruct d as [d|]; [|done]. apply bind_Ok in H as (o1 & R1 & H). apply bind_Ok in H as (o2 & R2 & H). apply bind_Ok in H as (o3 & R3 & H).
    pose proof (Hm _ _ H) as ->. exists 0. split; [done|]. eapply bind_same; [exact R1|done|]. eapply bind_same; [exact R2|done|].
    by eapply bind_same; [exact R3|..].
  - destruct r as [r|]; [|done]. case_if_in H; [done|]. apply bind_Ok in H as (o1 & R1 & H). pose proof (Hm _ _ H) as ->. exists 0. split; [done|].
    by eapply bind_same; [exact R1|..].
  - destruct d as [d|]; [|done].
    assert (netc_get_lzp_table (Ctx (Some d) f cl sl r rs rp so pv ps p2 p2s q a st af at_ ats al ac) =
      netc_get_lzp_table (Ctx (Some d) f cl sl r rs rp so pv ps p2 p2s cq a st af at_ ats al ac)) as -> by done.
    destruct (netc_get_lzp_table _) as [t|]; [|done]. apply bind_Ok in H as (o1 & R1 & H). apply bind_Ok in H as (o2 & R2 & H).
    apply bind_Ok in H as (o3 & R3 & H). pose proof (Hm _ _ H) as ->. exists 0. split; [done|]. eapply bind_same; [exact R1|done|].
    eapply bind_same; [exact R2|done|]. by eapply bind_same; [exact R3|..].
  - destruct d as [d|]; [|done]. apply bind_Ok in H as (o1 & R1 & H). apply bind_Ok in H as (o2 & R2 & H). pose proof (Hm _ _ H) as ->.
    exists 0. split; [done|]. eapply bind_same; [exact R1|done|]. by eapply bind_same; [exact R2|..].
Qed.

(** Two contexts with the same history, and the same header format. *)
Definition alike (c c' : netc_ctx_t) : Prop :=
  shared c = shared c' /\ has (c_flags c) NETC_CFG_FLAG_COMPACT_HDR = has (c_flags c') NETC_CFG_FLAG_COMPACT_HDR.

(** A packet decodes to the same message with any sequence number. *)
Lemma decompress_any_seq c pkt dst c' m q :
  netc_decompress (Some (set_seq c q)) (Some pkt) (Some dst) false = Ok (c', m) -> ctx_ok c -> bytes m -> zlen m <= NETC_MAX_PACKET_SIZE ->
  exists d', netc_decompress (Some c) (Some pkt) (Some dst) false = Ok (d', m) /\ shared d' = shared c' /\ c_flags d' = c_flags c /\ ctx_ok d'.
Proof.
  intros H Hok Hb Hl. unfold netc_decompress, netc_decompress_ctx in H |- *.
  assert (c_flags (set_seq c q) = c_flags c) as Ef by (by destruct c). rewrite Ef in H.
  set (compact := has (c_flags c) NETC_CFG_FLAG_COMPACT_HDR) in *. apply bind_Ok in H as ([h k] & -> & H). mstep. cbv zeta in H |- *.
  assert (exists q', complete_header (set_seq c q) compact h = hdr_seq (complete_header c compact h) q') as [q' Eh].
  { destruct compact; [exists q; by destruct c|]. exists (context_seq h). by destruct h. }
  rewrite Eh in H. set (h' := complete_header c compact h) in *.
  assert (wrong_model (set_seq c q) (hdr_seq h' q') = wrong_model c h') as Ew by (by destruct c). rewrite Ew in H. case_if; [done|].
  replace (compressed_size (hdr_seq h' q')) with (compressed_size h') in H by done.
  apply bind_Ok in H as (payload & -> & H). mstep.
  apply (dispatch_seq _ _ _ _ _ _ _ _ (c_context_seq c) (context_seq h')) in H as (p & Hf & H).
  assert (set_seq (set_seq c q) (c_context_seq c) = c) as Ec by (by destruct c).
  assert (hdr_seq (hdr_seq h' q') (context_seq h') = h') as Eh' by (by destruct h'). rewrite Ec, Eh' in H.
  rewrite H.
  destruct (advance_ok (shared c) m) as (s & Ha & Hsok); [|done|done|].
  { apply (ctx_ok_shared c); [done|by rewrite shared_shared|by destruct c; apply _|by destruct c]. }
  destruct (decomp_finish_advance c h' m (zlen pkt) p s Ha) as (d' & -> & Hs & Hq & Hfl & Hops). exists d'. split; [done|].
  destruct (decomp_finish_advance (set_seq c q) (hdr_seq h' q') m (zlen pkt) p s) as (c2 & Hf2 & Hs2 & _); [by rewrite shared_set_seq|].
  rewrite Hf in Hf2. injection Hf2 as <-. split; [congruence|]. split; [done|].
  apply (ctx_ok_shared s); [done|done|rewrite Hops; apply Hok|rewrite Hq; apply u8_range].
Qed.

(** ** Memory *)

(** No ring buffer, no previous packets, no adaptive model. *)
Definition memoryless (c : netc_ctx_t) : Prop :=
  c_ring c = None /\ c_prev_pkt c = None /\ c_prev2_pkt c = None /\ c_adapt_freq c = None /\ c_adapt_lzp c = None.

Lemma create_memoryless cpu mem dict cfg c :
  netc_ctx_create cpu mem dict (Some cfg) = Some c -> has (cfg_flags cfg) NETC_CFG_FLAG_STATEFUL = false ->
  memoryless c.
Proof.
  intros H Hs. unfold netc_ctx_create in H. cbn [default from_option id] in H. rewrite Hs in H.
  repeat (destruct (_ : bool) eqn:? in H at 1; [done|]). apply (inj Some) in H. subst c.
  destruct (has (cfg_flags cfg) NETC_CFG_FLAG_ADAPTIVE); [done|]. done.
Qed.

Lemma memoryless_shared c c' : shared c = shared c' -> memoryless c -> memoryless c'.
Proof. intros H. destruct c, c'. unfold shared in H. injection H. intros. by subst. Qed.

(** Such a context learns nothing from a packet. *)
Lemma memoryless_advance c data : memoryless c -> advance data c = Ok c.
Proof.
  intros (Hr & Hp & Hp2 & Hf & Hl). destruct c. cbn in Hr, Hp, Hp2, Hf, Hl. subst. reflexivity.
Qed.

(** What it sends can be received by any context with its dictionary. *)
Lemma datagram e m cap dst :
  ctx_ok e -> ctx_full e -> memoryless e -> carried cap dst m ->
  exists e' pkt, netc_compress (Some e) (Some m) (Some cap) false = Ok (e', Ok pkt) /\ zlen pkt <= netc_compress_bound (zlen m) /\
    alike e e' /\ ctx_ok e' /\ ctx_full e' /\
    forall d, alike e d -> ctx_ok d ->
      exists d', netc_decompress (Some d) (Some pkt) (Some dst) false = Ok (d', m) /\ alike e d' /\ ctx_ok d'.
Proof.
  intros He Hf Hmem ((Hb & Hdst & Hodd) & Hl & Hcap). rewrite compress_bound_eq in * by lia.
  destruct (compress_succeeds e m cap He Hf Hb Hl Hcap) as (e' & pkt & Hc). pose proof (sync_refl e) as Hsync.
  assert (has (c_flags e) NETC_CFG_FLAG_COMPACT_HDR = true -> order2_safe e m) as Hsafe by (intros _; left; apply Hmem).
  assert (forall d, sync e d -> ctx_ok d -> exists d', netc_decompress (Some d) (Some pkt) (Some dst) false = Ok (d', m) /\ shared d' = shared e' /\
    shared e' = shared e /\ ctx_ok e' /\ has (c_flags e') NETC_CFG_FLAG_COMPACT_HDR = has (c_flags e) NETC_CFG_FLAG_COMPACT_HDR) as Hrt.
  { intros d Hs Hd. destruct (packet_roundtrip e d m cap e' pkt dst) as (d' & Hdec & (Hs' & _) & He' & Hd' & Ha & Hfl); try done.
    exists d'. split; [done|]. split; [done|]. split; [|done]. rewrite memoryless_advance in Ha; [by injection Ha as ->|].
    apply (memoryless_shared e); [by rewrite shared_shared|done]. }
  destruct (Hrt e Hsync He) as (_ & _ & _ & Hse & He' & Hfl). exists e', pkt. split; [done|].
  pose proof (packet_length e e m cap e' pkt Hsync He He Hb Hodd Hc) as Hlen.
  split. { pose proof (hdr_size_range (zlen m) (has (c_flags e) NETC_CFG_FLAG_COMPACT_HDR)). unfold NETC_HEADER_SIZE. lia. }
  split; [by split|]. split; [done|]. split; [by apply (ctx_full_shared e)|]. intros d [Hsd Hfd] Hd.
  destruct (Hrt (set_seq d (c_context_seq e))) as (d1 & Hdec & Hs1 & _).
  - split; [by rewrite shared_set_seq|]. split; [by destruct d|]. by destruct d.
  - apply (ctx_ok_shared d); [done|by rewrite shared_set_seq|destruct d; apply Hd|]. destruct d. apply He.
  - destruct (decompress_any_seq d pkt dst d1 m _ Hdec Hd Hb Hl) as (d' & Hd1 & Hs' & Hf' & Hok'). exists d'. split; [done|].
    split; [|done]. split; [congruence|]. by rewrite Hf'.
Qed.

(** ** Many packets *)

(** Any context like [e] decodes the packet to the message and stays like [e]. *)
Definition receivable (e : netc_ctx_t) (dst : list Z) (mp : list Z * list Z) : Prop :=
  forall d, alike e d -> ctx_ok d ->
    exists d', netc_decompress (Some d) (Some (snd mp)) (Some dst) false = Ok (d', fst mp) /\ alike e d' /\ ctx_ok d'.

Lemma alike_sym a b : alike a b -> alike b a.
Proof. intros [H1 H2]. by split. Qed.
Lemma alike_trans a b c : alike a b -> alike b c -> alike a c.
Proof. intros [H1 H2] [H3 H4]. split; congruence. Qed.

Lemma receivable_alike e e' dst mp : alike e e' -> receivable e' dst mp -> receivable e dst mp.
Proof.
  intros Ha H d Hd Hok. destruct (H d) as (d' & Hdec & Ha' & Hok'); [by eapply alike_trans; [apply alike_sym|]|done|].
  exists d'. split; [done|]. split; [exact (alike_trans _ _ _ Ha Ha')|done].
Qed.

Lemma send_all e cap dst msgs :
  ctx_ok e -> ctx_full e -> memoryless e -> Forall (carried cap dst) msgs ->
  exists e' pkts, compress_all e cap msgs = Ok (e', pkts) /\ Forall2 (fun m pkt => zlen pkt <= netc_compress_bound (zlen m)) msgs pkts /\
    Forall (receivable e dst) (zip msgs pkts).
Proof.
  intros He Hf Hmem Hm. revert e He Hf Hmem. induction Hm as [|m msgs Hm _ IH]; intros e He Hf Hmem; [exists e, []; by repeat constructor|].
  destruct (datagram e m cap dst He Hf Hmem Hm) as (e1 & pkt & Hc & Hl & Ha & He1 & Hf1 & Hr).
  destruct (IH e1 He1 Hf1 (memoryless_shared _ _ (proj1 Ha) Hmem)) as (e2 & pkts & Hcs & Hls & Hrs). exists e2, (pkt :: pkts).
  cbn [compress_all]. rewrite Hc. mstep. rewrite Hcs. mstep. split; [done|]. split; [by constructor|]. constructor; [exact Hr|].
  eapply Forall_impl; [exact Hrs|]. intros mp. by apply receivable_alike.
Qed.

Lemma receive_all e d dst arrivals :
  Forall (receivable e dst) arrivals -> alike e d -> ctx_ok d ->
  exists d', decompress_all d dst (map snd arrivals) = Ok (d', map fst arrivals).
Proof.
  intros Ha. revert d. induction Ha as [|mp arrivals Hr _ IH]; intros d Hd Hok; [by exists d|].
  destruct (Hr d Hd Hok) as (d1 & Hdec & Hd1 & Hok1). destruct (IH d1 Hd1 Hok1) as (d2 & Hdecs). exists d2.
  cbn [map decompress_all]. rewrite Hdec. mstep. rewrite Hdecs. by mstep.
Qed.

(** ** Properties *)

(** C4: a context without the stateful flag speaks in datagrams.  Two
    contexts created from one dictionary whose tables code every byte, without the
    stateful flag and with the same header format, and messages of at most 65535
    bytes that are shorter than 256 bytes or of even size (longer odd ones can
    meet the two-state coder, which does not restore them), with packet buffers of
    [netc_compress_bound] bytes and a receive buffer with room for each
    ([carried]): every message is compressed within [netc_compress_bound], and
    whatever packets then arrive, in whatever order, however many times and with
    however many lost, each is decoded to its message. *)
Theorem datagrams_any_order (cpu1 cpu2 : simd_caps) (dict : option netc_dict_t) (cfg1 cfg2 : netc_cfg_t)
    (e d : netc_ctx_t) (cap : Z) (dst : list Z) (msgs : list (list Z)) :
  (forall t, dict = Some t -> dict_ok t /\ dict_full t) ->
  cfg_compatible cfg1 cfg2 -> 0 <= cfg_ring_buffer_size cfg1 < 2 ^ 32 ->
  has (cfg_flags cfg1) NETC_CFG_FLAG_STATEFUL = false ->
  netc_ctx_create cpu1 mem_ok dict (Some cfg1) = Some e ->
  netc_ctx_create cpu2 mem_ok dict (Some cfg2) = Some d ->
  Forall (carried cap dst) msgs ->
  exists e' pkts, compress_all e cap msgs = Ok (e', pkts) /\ Forall2 (fun m pkt => zlen pkt <= netc_compress_bound (zlen m)) msgs pkts /\
    forall arrivals, arrivals ⊆ zip msgs pkts -> exists d', decompress_all d dst (map snd arrivals) = Ok (d', map fst arrivals).
Proof.
  intros Hdict Hcfg Hring Hst He Hd Hm. destruct (create_sync _ _ _ _ _ _ _ Hcfg He Hd) as (Hs & _ & Hf).
  assert (ctx_ok e) as Heok. { apply (create_ok cpu1 mem_ok dict (Some cfg1)); [|exact Hring|exact He]. intros t Ht. by apply Hdict. }
  assert (ctx_ok d) as Hdok.
  { apply (create_ok cpu2 mem_ok dict (Some cfg2)); [intros t Ht; by apply Hdict| |exact Hd]. destruct Hcfg as (_ & _ & _ & Hr). simpl. by rewrite <- Hr. }
  assert (ctx_full e) as Hfull. { eapply create_full; [exact He|]. intros t Ht. by apply Hdict. }
  destruct (send_all e cap dst msgs Heok Hfull (create_memoryless _ _ _ _ _ He Hst) Hm) as (e' & pkts & Hc & Hl & Hr).
  exists e', pkts. split; [done|]. split; [done|]. intros arrivals Hsub. apply (receive_all e); [|by split|done].
  apply Forall_forall. intros mp Hin. by apply (proj1 (Forall_forall _ _) Hr), Hsub.
Qed.

Lemma datagrams_any_order_witness :
  exists e d e' pkts,
    netc_ctx_create no_simd mem_ok (Some blank_dict) (Some (Cfg 0x12 0 5 0 0)) = Some e /\
    netc_ctx_create no_simd mem_ok (Some blank_dict) (Some (Cfg 0x12 0 5 0 0)) = Some d /\
    compress_all e 64 [[1; 2; 3]; [1; 2; 4]] = Ok (e', pkts) /\
    forall arrivals, arrivals ⊆ zip [[1; 2; 3]; [1; 2; 4]] pkts ->
      exists d', decompress_all d (replicate 16 0) (map snd arrivals) = Ok (d', map fst arrivals).
Proof.
  destruct (create_some no_simd (Some blank_dict) (Cfg 0x12 0 5 0 0)) as [e He]; [discriminate|].
  destruct (datagrams_any_order no_simd no_simd (Some blank_dict) (Cfg 0x12 0 5 0 0) (Cfg 0x12 0 5 0 0) e e 64
    (replicate 16 0) [[1; 2; 3]; [1; 2; 4]]) as (e' & pkts & H1 & _ & H2).
  - intros t Ht. apply (inj Some) in Ht. subst t. split; [apply blank_dict_ok|apply blank_dict_full].
  - split_and!; reflexivity.
  - simpl. lia.
  - reflexivity.
  - exact He.
  - exact He.
  - repeat constructor; try (unfold is_byte, NETC_MAX_PACKET_SIZE; simpl; lia); vm_compute; discriminate.
  - exists e, e, e', pkts. split_and!; assumption.
Defined.
