(* ===== verification/Persist.v ===== *)
(** * What API calls leave alone

    A successful or failed call of netc_compress or netc_decompress
    (src/src/core/netc_compress.c, netc_decompress.c) changes the history of a
    context, never its dictionary or its flags, and keeps its tables able to code
    every byte.  The wrappers of the C++ binding rely on this. *)

From stdpp Require Import prelude.
From Stdlib Require Import ZArith Lia.
From S2P Require Import Prelude TansTable TansCodec Lzp Simd Header Ctx Dict Decompress Compress Payload Packets Sync Stages Session Safety Progress Transport Metering.

Local Open Scope Z_scope.

Definition kept_by (c c' : netc_ctx_t) : Prop :=
  c_dict c' = c_dict c /\ c_flags c' = c_flags c /\ (ctx_full c -> ctx_full c').

Lemma kept_by_trans a b c : kept_by a b -> kept_by b c -> kept_by a c.
Proof. intros (D1 & F1 & T1) (D2 & F2 & T2). split_and!; [congruence|congruence|by auto]. Qed.

Lemma kept_by_same_tables c c' :
  c_dict c' = c_dict c -> c_flags c' = c_flags c -> c_adapt_tables c' = c_adapt_tables c -> kept_by c c'.
Proof. intros D F T. split_and!; [done..|]. intros H d Hd. unfold netc_get_tables. rewrite T. apply H. congruence. Qed.

Lemma kept_set_seq c q : kept_by c (set_seq c q).
Proof. by destruct c; apply kept_by_same_tables. Qed.

Lemma kept_stats_compressed c a b p : kept_by c (stats_compressed c a b p).
Proof. unfold stats_compressed. case_if; [|by apply kept_by_same_tables]. destruct (c_stats c). by destruct c; apply kept_by_same_tables. Qed.

Lemma kept_stats_decompressed c a b p : kept_by c (stats_decompressed c a b p).
Proof. unfold stats_decompressed. case_if; [|by apply kept_by_same_tables]. destruct (c_stats c). by destruct c; apply kept_by_same_tables. Qed.

Lemma kept_update_prev {E} c data c' : @compress_update_prev E c data = Ok c' -> kept_by c c'.
Proof.
  rewrite update_prev_step. intros H. apply bind_Ok in H as (h & _ & [= <-]). by destruct c; apply kept_by_same_tables.
Qed.

Lemma kept_ring_append {E} c data c' : @ctx_ring_append E c data = Ok c' -> kept_by c c'.
Proof.
  rewrite ring_append_step. intros H. apply bind_Ok in H as (h & _ & [= <-]). by destruct c; apply kept_by_same_tables.
Qed.

Lemma kept_learn c data c' : ctx_ok c -> bytes data -> ctx_learn c data = Ok c' -> kept_by c c'.
Proof.
  intros Hok Hb H. pose proof (framed_Ok (fun c => ctx_learn c data) _ _ H) as (_ & Hf & _).
  unfold ctx_learn in H. apply bind_Ok in H as (c3 & H3 & H). apply lift_Ok in H3. apply bind_Ok in H as (l & _ & H). apply Ok_inj in H. subst c'.
  assert (forall c3, c_dict (set_adapt_lzp c3 l) = c_dict c3) as Hd by (by intros []).
  assert (c_dict c3 = c_dict c) as Hdict.
  { unfold netc_adaptive_update in H3. destruct (c_adapt_freq c); [|by injection H3 as <-]. apply bind_Ok in H3 as ([f t] & _ & H3).
    case_if_in H3; [|injection H3 as <-; by destruct c]. apply bind_Ok in H3 as (c2 & H2 & H3). apply Ok_inj in H3. subst c3.
    unfold netc_adaptive_tables_rebuild in H2. destruct c; simpl in *. destruct c_adapt_tables; [|by injection H2 as <-].
    destruct c_dict; [|by injection H2 as <-]. apply bind_Ok in H2 as (ts & _ & [= <-]). done. }
  split_and!; [congruence|done|]. intros Hfull. destruct (adaptive_full c data c3 Hok Hb Hfull H3) as [Hf3 _]. by destruct c3.
Qed.

(** ** Compression *)
Lemma finish_keeps c src h payload k compact p e' pkt :
  ctx_ok c -> bytes src -> zlen src <= NETC_MAX_PACKET_SIZE -> compress_finish c src h payload k compact p = Ok (e', pkt) -> kept_by c e'.
Proof.
  intros Hok Hb Hl H. unfold compress_finish in H.
  apply bind_Ok in H as (pk & [-> _]%put_Ok & H).
  destruct (@ring_append_ok netc_result_t c src Hok Hb) as (c1 & E1 & Hok1). rewrite E1, bind_Ok_l in H.
  destruct (@update_prev_ok netc_result_t c1 src Hok1 Hb Hl) as (c2 & E2 & Hok2). rewrite E2, bind_Ok_l in H.
  apply bind_Ok in H as (c3 & H3 & [= <- <-]). set (pk := netc_hdr_emit h compact ++ payload) in *.
  destruct (stats_compressed_frame c2 (zlen src) (zlen pk) p) as (Hs & _ & Hops & Hseq).
  eapply kept_by_trans; [by eapply kept_ring_append|]. eapply kept_by_trans; [by eapply kept_update_prev|].
  eapply kept_by_trans; [apply kept_stats_compressed|]. eapply kept_learn; [|done|exact H3].
  apply (ctx_ok_shared c2); [done|done|rewrite Hops; apply Hok2|rewrite Hseq; apply Hok2].
Qed.

(** A stage that emits a packet ends in [compress_finish]. *)
Definition finishes (c : netc_ctx_t) (src : list Z) (r : result (option (netc_ctx_t * list Z))) : Prop :=
  forall e' pkt, r = Ok (Some (e', pkt)) -> exists h payload k compact p, compress_finish c src h payload k compact p = Ok (e', pkt).

Lemma finishes_none c src : finishes c src (Ok None).
Proof. by intros ? ?. Qed.
Lemma finishes_undef c src : finishes c src Undef.
Proof. by intros ? ?. Qed.
Lemma finishes_finish c src h payload k compact p : finishes c src (r ← compress_finish c src h payload k compact p; Ok (Some r)).
Proof. intros e' pkt H. apply bind_Ok in H as ([e1 p1] & H & [= <- <-]). by eexists _, _, _, _, _. Qed.
Lemma finishes_tans c dict tables src seq compact trial t did_lzp f fl cap :
  finishes c src (r ← finish_tans c dict tables src seq compact trial t did_lzp f fl cap; Ok (Some r)).
Proof.
  intros e' pkt H. apply bind_Ok in H as ([e1 p1] & H & [= <- <-]). unfold finish_tans in H. apply bind_Ok in H as (ten & _ & H).
  destruct (match ten with Some _ => _ | None => _ end) as [payload u]. by eexists _, _, _, _, _.
Qed.
Lemma finishes_bind {A} c src (m : result A) f : (forall a, finishes c src (f a)) -> finishes c src (a ← m; f a).
Proof. intros Hf e' pkt H. apply bind_Ok in H as (a & _ & H). by apply (Hf a). Qed.

Create HintDb finishes.
#[local] Hint Resolve finishes_none finishes_undef finishes_finish finishes_tans : finishes.

Local Ltac finishes :=
  repeat first [ by auto with finishes | apply finishes_bind; intros | progress cbv zeta
               | match goal with |- finishes _ _ (match ?x with _ => _ end) => destruct x end ].

Lemma tans_block_finishes c dict tables lzp src cap hdr_sz seq compact pf :
  finishes c src (tans_block c dict tables lzp src cap hdr_sz seq compact pf).
Proof. unfold tans_block. finishes. Qed.

Lemma raw_block_finishes c dict tables lzp src cap hdr_sz seq compact :
  finishes c src (raw_block c dict tables lzp src cap hdr_sz seq compact).
Proof. unfold raw_block. finishes. Qed.

Lemma lz77_block_finishes c src s cap hdr_sz seq f compact : finishes c src (lz77_block c src s cap hdr_sz seq f compact).
Proof. unfold lz77_block. finishes. Qed.

Lemma passthrough_keeps c src cap seq compact e' r :
  ctx_ok c -> bytes src -> zlen src <= NETC_MAX_PACKET_SIZE -> passthrough_block c src cap seq compact = Ok (e', r) -> kept_by c e'.
Proof.
  intros Hok Hb Hl H. unfold passthrough_block in H.
  destruct (@update_prev_ok netc_result_t c src Hok Hb Hl) as (c1 & E1 & Hok1). rewrite E1, bind_Ok_l in H.
  destruct (@ring_append_ok netc_result_t c1 src Hok1 Hb) as (c2 & E2 & Hok2). rewrite E2, bind_Ok_l in H.
  assert (kept_by c c2) as K by (eapply kept_by_trans; [by eapply kept_update_prev|by eapply kept_ring_append]).
  destruct (emit_passthrough (Some c2) (c_dict c2) src cap seq compact) as [[ctx' packet]|e|] eqn:Ee; [|by injection H as <- _|done].
  unfold emit_passthrough in Ee. apply bind_Ok in Ee as (o & [-> _]%store_Ok & Ee). case_if_in Ee; [done|].
  apply bind_Ok in Ee as (o & _ & [= <- _]). cbn [fmap option_fmap option_map default from_option id] in H.
  apply bind_Ok in H as (c3 & H3 & [= <- _]). eapply kept_by_trans; [exact K|]. eapply kept_by_trans; [apply kept_stats_compressed|].
  eapply kept_learn; [|done|exact H3]. destruct (stats_compressed_frame c2 (zlen src) (zlen (netc_hdr_emit
    (PktHeader (u16 (zlen src)) (u16 (zlen src)) (Z.lor NETC_PKT_FLAG_PASSTHRU NETC_PKT_FLAG_DICT_ID) NETC_ALG_PASSTHRU
       (match c_dict c2 with Some d => d_model_id d | None => 0 end) seq) compact) + zlen src) 1) as (Hs & _ & Hops & Hseq).
  apply (ctx_ok_shared c2); [done|done|rewrite Hops; apply Hok2|rewrite Hseq; apply Hok2].
Qed.

Lemma compress_keeps e src cap e' r :
  ctx_ok e -> bytes src -> netc_compress (Some e) (Some src) (Some cap) false = Ok (e', r) -> kept_by e e'.
Proof.
  intros He Hb H. unfold netc_compress, netc_compress_ctx in H. repeat case_if_in H; try done. rename H into Hs.
  eapply kept_by_trans; [apply (kept_set_seq e (u8 (c_context_seq e + 1)))|]. set (c := set_seq e (u8 (c_context_seq e + 1))) in *.
  assert (ctx_ok c) as Hok. { apply (tr_ok _ _ _ (sync_tracks e e (sync_refl e) He He)). }
  assert (zlen src <= NETC_MAX_PACKET_SIZE) as Hl by lia.
  assert (forall h payload k compact p e2 pkt, compress_finish c src h payload k compact p = Ok (e2, pkt) -> kept_by c e2) as Hfin.
  { intros. by eapply finish_keeps. }
  unfold compress_stages in Hs. apply bind_Ok in Hs as (pf1 & _ & Hs). apply bind_Ok in Hs as (pf & _ & Hs).
  apply bind_Ok in Hs as (r1 & H1 & Hs). destruct r1 as [[e1 p1]|].
  { injection Hs as <- _. destruct (c_dict c); [|done]. case_if_in H1; [|done].
    destruct (tans_block_finishes _ _ _ _ _ _ _ _ _ _ _ _ H1) as (h & pl & k & co & p & Hf). by eapply Hfin. }
  apply bind_Ok in Hs as (r2 & H2 & Hs). destruct r2 as [[e2 p2]|].
  { injection Hs as <- _. destruct (c_dict c); [|done]. case_if_in H2; [|done].
    destruct (raw_block_finishes _ _ _ _ _ _ _ _ _ _ _ H2) as (h & pl & k & co & p & Hf). by eapply Hfin. }
  destruct (if match c_dict c with Some _ => _ | None => false end then _ else _) as [s f].
  apply bind_Ok in Hs as (r3 & H3 & Hs). destruct r3 as [[e3 p3]|].
  - injection Hs as <- _. destruct (lz77_block_finishes _ _ _ _ _ _ _ _ _ _ H3) as (h & pl & k & co & p & Hf). by eapply Hfin.
  - by eapply passthrough_keeps.
Qed.

(** ** Decompression *)
Lemma update_prev_fits c data c' :
  ctx_ok c -> bytes data -> @compress_update_prev netc_result_t c data = Ok c' -> ctx_ok c'.
Proof.
  intros Hok Hb H. destruct (c_prev_pkt c) as [p|] eqn:Ep.
  - assert (zlen data <= NETC_MAX_PACKET_SIZE) as Hl.
    { destruct (cok_prev _ Hok _ Ep) as (Hpl & _). unfold compress_update_prev in H. rewrite Ep in H.
      apply bind_Ok in H as (c1 & _ & H). apply bind_Ok in H as (p' & Hp & _). unfold blit in Hp. case_if_in Hp; [lia|done]. }
    destruct (@update_prev_ok netc_result_t c data Hok Hb Hl) as (c1 & E & Hok1). rewrite E in H. by injection H as <-.
  - unfold compress_update_prev in H. rewrite Ep in H. by injection H as <-.
Qed.

Lemma decompress_keeps d pkt dst d' m :
  ctx_ok d -> bytes m -> netc_decompress (Some d) (Some pkt) (Some dst) false = Ok (d', m) -> kept_by d d'.
Proof.
  intros Hok Hb H. apply decompress_finished in H as (hdr & out & p & H). destruct (decomp_finish_stats _ _ _ _ _ _ _ H) as (-> & _ & _).
  unfold decomp_finish, decomp_update_prev, decomp_ring_append in H. apply bind_Ok in H as (c1 & H1 & H). apply bind_Ok in H as (c2 & H2 & H).
  apply bind_Ok in H as (c3 & H3 & [= <-]). pose proof (update_prev_fits d out c1 Hok Hb H1) as Hok1.
  assert (ctx_ok c2) as Hok2. { destruct (@ring_append_ok netc_result_t c1 out Hok1 Hb) as (c2' & E & Hok2). rewrite E in H2. by injection H2 as <-. }
  set (c2s := stats_decompressed c2 (zlen pkt) (zlen out) p) in *. destruct (stats_decompressed_frame c2 (zlen pkt) (zlen out) p) as (Hs & Hfr).
  eapply kept_by_trans; [by eapply kept_update_prev|]. eapply kept_by_trans; [by eapply kept_ring_append|].
  eapply kept_by_trans; [apply (kept_stats_decompressed c2 (zlen pkt) (zlen out) p)|]. fold c2s in Hs, Hfr |- *.
  eapply kept_by_trans; [apply (kept_set_seq c2s (u8 (context_seq hdr + 1)))|]. eapply kept_learn; [|done|exact H3].
  apply (ctx_ok_shared c2); [done|by rewrite shared_set_seq| |].
  - destruct Hfr as (_ & Hops & _). assert (c_simd_ops (set_seq c2s (u8 (context_seq hdr + 1))) = c_simd_ops c2s) as -> by (by destruct c2s).
    rewrite Hops. apply Hok2.
  - assert (c_context_seq (set_seq c2s (u8 (context_seq hdr + 1))) = u8 (context_seq hdr + 1)) as -> by (by destruct c2s). apply u8_range.
Qed.

(** ** Reset *)
Lemma reset_keeps c : kept_by c (netc_ctx_reset c).
Proof.
  destruct (reset_fields c) as ((Ed & Ef & _) & _ & _ & _ & _ & Et & _). split_and!; [done|done|]. intros H d Hd. rewrite Ed in Hd.
  destruct (H d Hd) as [F1 F2]. split; [done|]. unfold netc_get_tables in *. destruct Et as [-> |(t & Ht & ->)]; [done|].
  replace t with d by congruence. apply F1.
Qed.
