(* ===== verification/Deploy.v ===== *)
(** * From samples to a running session

    The life of a dictionary: trained on sample packets, serialised, loaded by
    two peers that each create a context and exchange messages
    (src/src/core/netc_dict.c, netc_ctx.c, netc_compress.c, netc_decompress.c). *)

From stdpp Require Import prelude.
From Stdlib Require Import ZArith Lia.
From S2P Require Import Prelude TansTable TansCodec Lzp Freq Simd Header Ctx Dict Train Training Decompress Compress Payload Packets Sync Stateless Stages Session Safety Progress Transport.

Local Open Scope Z_scope.

(** A trained table codes every byte. *)
Lemma trained_full t : trained t -> tbl_full t.
Proof.
  intros [(Hl & Hf & Hb) H1] _. destruct (build_built _ _ Hl Hf Hb) as (_ & _ & Hok). by exists (t_freq t).
Qed.

Lemma trained_dict_full d : dict_trained d -> dict_full d.
Proof.
  intros [Ht Hb]. constructor; [eapply Forall_impl; [exact Ht|apply trained_full]|].
  eapply Forall_impl; [exact Hb|]. intros ts Hts. eapply Forall_impl; [exact Hts|apply trained_full].
Qed.

(** ** Properties *)

(** C2: the whole life cycle.  A dictionary trained on any samples can be
    saved and loaded; a peer that keeps the trained dictionary and a peer that
    loads the blob create contexts between which every sequence of messages
    (under the conditions of a session) is carried without loss and within
    [netc_compress_bound]. *)
Theorem deployed_transport (cpu0 cpu1 cpu2 : simd_caps) (packets : list (option (list Z))) (id : Z)
    (cfg1 cfg2 : netc_cfg_t) (cap : Z) (dst : list Z) (msgs : list (list Z)) :
  packets_ok packets -> 0 < id < 255 ->
  cfg_compatible cfg1 cfg2 -> 0 <= cfg_ring_buffer_size cfg1 < 2 ^ 32 ->
  (forall cfg, cfg = cfg1 \/ cfg = cfg2 ->
     has (cfg_flags cfg) NETC_CFG_FLAG_ADAPTIVE = true -> has (cfg_flags cfg) NETC_CFG_FLAG_STATEFUL = true) ->
  (has (cfg_flags cfg1) NETC_CFG_FLAG_COMPACT_HDR = false \/ has (cfg_flags cfg1) NETC_CFG_FLAG_ADAPTIVE = false) ->
  Forall (carried cap dst) msgs ->
  exists trained_d blob loaded_d e d e' pkts d',
    netc_dict_train cpu0 mem_ok false false packets id false = Ok trained_d /\
    netc_dict_save mem_ok (Some trained_d) false = Ok blob /\
    netc_dict_load mem_ok (Some blob) false = Ok loaded_d /\
    netc_ctx_create cpu1 mem_ok (Some trained_d) (Some cfg1) = Some e /\
    netc_ctx_create cpu2 mem_ok (Some loaded_d) (Some cfg2) = Some d /\
    compress_all e cap msgs = Ok (e', pkts) /\ decompress_all d dst pkts = Ok (d', msgs) /\
    Forall2 (fun m pkt => zlen pkt <= netc_compress_bound (zlen m)) msgs pkts.
Proof.
  intros Hp Hid Hcfg Hring Hst Hmode Hm.
  destruct (dict_train_usable cpu0 mem_ok packets id Hp Hid) as (t & (_ & Hwf & Hck & _ & Hok & Htr) & Ht).
  destruct (load_saved t [] Hwf Hck) as (blob & Hs & _ & _ & Hl). rewrite app_nil_r in Hl.
  destruct (create_some cpu1 (Some t) cfg1) as [e He]; [by apply Hst; left|].
  destruct (create_some cpu2 (Some t) cfg2) as [d Hd]; [by apply Hst; right|].
  assert (link e d) as Hlink.
  { apply (create_link cpu1 cpu2 (Some t) cfg1 cfg2); try assumption. intros t' Ht'. apply (inj Some) in Ht' as <-.
    split; [done|by apply trained_dict_full]. }
  destruct (link_session e d cap dst msgs Hlink Hm) as (e' & pkts & d' & H1 & H2 & H3 & _).
  exists t, blob, t, e, d, e', pkts, d'. refine (conj Ht (conj _ (conj _ (conj He (conj Hd (conj H1 (conj H2 H3))))))).
  - by apply Hs.
  - by apply Hl.
Qed.

Lemma deployed_transport_witness :
  exists trained_d blob loaded_d e d e' pkts d',
    netc_dict_train no_simd mem_ok false false [Some [1; 2; 3]; None] 7 false = Ok trained_d /\
    netc_dict_save mem_ok (Some trained_d) false = Ok blob /\
    netc_dict_load mem_ok (Some blob) false = Ok loaded_d /\
    netc_ctx_create no_simd mem_ok (Some trained_d) (Some (Cfg 0x25 0 5 0 0)) = Some e /\
    netc_ctx_create no_simd mem_ok (Some loaded_d) (Some (Cfg 0x25 0 5 0 0)) = Some d /\
    compress_all e 64 [[1; 2; 3]; [1; 2; 4]] = Ok (e', pkts) /\
    decompress_all d (replicate 16 0) pkts = Ok (d', [[1; 2; 3]; [1; 2; 4]]) /\
    Forall2 (fun m pkt => zlen pkt <= netc_compress_bound (zlen m)) [[1; 2; 3]; [1; 2; 4]] pkts.
Proof.
  apply (deployed_transport no_simd no_simd no_simd [Some [1; 2; 3]; None] 7 (Cfg 0x25 0 5 0 0) (Cfg 0x25 0 5 0 0) 64
    (replicate 16 0) [[1; 2; 3]; [1; 2; 4]]).
  - apply packets_ok_check. reflexivity.
  - split; reflexivity.
  - split_and!; reflexivity.
  - simpl. lia.
  - intros cfg [-> | ->] H; discriminate H.
  - right. reflexivity.
  - repeat constructor; try (unfold is_byte, NETC_MAX_PACKET_SIZE; simpl; lia); vm_compute; discriminate.
Defined.

(** A class map whose entry for byte 0 names no class. *)
Definition stray_class_map : list Z := 255 :: replicate 255 0.

(** [netc_dict_load] does not check the entries of a version 5 class map:
    it accepts a blob (with a correct checksum) whose map names class 255, and
    decoding a bigram packet with that dictionary reads outside the table
    array. *)
Theorem class_map_unchecked :
  exists blob d, bytes blob /\ netc_dict_load mem_ok (Some blob) false = Ok d /\
    netc_decompress_stateless (Some d) (Some [1; 0; 0; 0; NETC_PKT_FLAG_BIGRAM; NETC_ALG_TANS; 7; 0]) (Some [0]) false = Undef.
Proof.
  destruct uniform_built as (t & _ & Ht).
  assert (bytes stray_class_map) as Hb by (constructor; [unfold is_byte; lia|apply Forall_replicate; unfold is_byte; lia]).
  destruct (seal_ok _ (plain_dict_wf t stray_class_map Ht eq_refl Hb)) as [Hw Hc].
  destruct (load_saved _ [] Hw Hc) as (blob & _ & _ & Hbb & Hd). rewrite app_nil_r in Hd.
  exists blob. eexists. refine (conj Hbb (conj (Hd mem_ok eq_refl eq_refl) _)). reflexivity.
Qed.
