(* ===== verification/Double.v ===== *)
(** * IEEE 754 arithmetic of the benchmark harness

    The C types double and float, as the code of src/bench uses them: the
    arithmetic is the standard library's executable specification of IEEE 754
    ([SpecFloat]) at the two formats, rounding to nearest even; conversions from
    and to integers, between the formats and to the bytes in memory.  The lemmas
    bound a rounded product, so that a conversion back to an integer is in
    range. *)

From stdpp Require Import prelude.
From Stdlib Require Import ZArith Lia SpecFloat.
From S2P Require Import Prelude.

Local Open Scope Z_scope.

(** ** Operations *)
Definition f64_mul : spec_float -> spec_float -> spec_float := SFmul 53 1024.
Definition f64_add : spec_float -> spec_float -> spec_float := SFadd 53 1024.
Definition f64_sub : spec_float -> spec_float -> spec_float := SFsub 53 1024.
Definition f64_div : spec_float -> spec_float -> spec_float := SFdiv 53 1024.
Definition f64_sqrt : spec_float -> spec_float := SFsqrt 53 1024.

(** [(double)n] *)
Definition f64_of_Z (n : Z) : spec_float := binary_normalize 53 1024 n 0 false.

(** The decimal literal [p / q]: both are exact doubles, so the quotient is the
    double nearest to the rational number. *)
Definition f64_lit (p q : Z) : spec_float := f64_div (f64_of_Z p) (f64_of_Z q).

(** [(float)x] *)
Definition f32_of_f64 (x : spec_float) : spec_float :=
  match x with
  | S754_finite s m e => binary_normalize 24 128 (cond_Zopp s (Zpos m)) e s
  | _ => x
  end.

(** [(double)x] of a float is exact: the wider mantissa is normalised. *)
Definition f64_of_f32 (x : spec_float) : spec_float :=
  match x with
  | S754_finite s m e => binary_normalize 53 1024 (cond_Zopp s (Zpos m)) e s
  | _ => x
  end.

(** The value truncated towards zero; none for infinities and NaN. *)
Definition f64_trunc (x : spec_float) : option Z :=
  match x with
  | S754_zero _ => Some 0
  | S754_finite s m e => Some (cond_Zopp s (Z.shiftl (Zpos m) e))
  | _ => None
  end.

(** Conversion to an unsigned integer of [w] bits: undefined unless the
    truncated value fits. *)
Definition f64_to_uint {E} (w : Z) (x : spec_float) : outcome E Z :=
  match f64_trunc x with
  | Some n => if (0 <=? n) && (n <? 2 ^ w) then Ok n else Undef
  | None => Undef
  end.

(** The object representation as an integer: sign, biased exponent, fraction;
    NaN as the default quiet NaN. *)
Definition float_bits (prec ebits : Z) (x : spec_float) : Z :=
  let bias := 2 ^ (ebits - 1) - 1 in
  let pack (s : bool) (ex fr : Z) := (if s then 2 ^ (ebits + prec - 1) else 0) + ex * 2 ^ (prec - 1) + fr in
  match x with
  | S754_zero s => pack s 0 0
  | S754_infinity s => pack s (2 ^ ebits - 1) 0
  | S754_nan => pack false (2 ^ ebits - 1) (2 ^ (prec - 2))
  | S754_finite s m e =>
      if 2 ^ (prec - 1) <=? Zpos m then pack s (e + bias + prec - 1) (Zpos m - 2 ^ (prec - 1))
      else pack s 0 (Zpos m)
  end.
Definition f64_bits : spec_float -> Z := float_bits 53 11.
Definition f32_bits : spec_float -> Z := float_bits 24 8.

Definition is_nan (x : spec_float) : bool := match x with S754_nan => true | _ => false end.

(** The largest and most common constants. *)
Definition f64_zero : spec_float := S754_zero false.
Definition f64_one : spec_float := f64_of_Z 1.

(** Samples: 0.1, 200, 1/3 and -0.05f as their bytes in memory. *)
Example f64_bits_tenth : f64_bits (f64_lit 1 10) = 0x3FB999999999999A.
Proof. reflexivity. Qed.
Example f64_bits_200 : f64_bits (f64_of_Z 200) = 0x4069000000000000.
Proof. reflexivity. Qed.
Example f64_bits_third : f64_bits (f64_div f64_one (f64_of_Z 3)) = 0x3FD5555555555555.
Proof. reflexivity. Qed.
Example f32_bits_twentieth : f32_bits (f32_of_f64 (f64_sub f64_zero (f64_lit 5 100))) = 0xBD4CCCCD.
Proof. reflexivity. Qed.
Example f64_trunc_999 : f64_trunc (f64_mul (f64_lit 999 1000) (f64_of_Z 100000)) = Some 99900.
Proof. reflexivity. Qed.

(** ** Rounding *)

(** [rne m p]: [m / 2^p] rounded to nearest, ties to even. *)
Definition rne (m p : Z) : Z :=
  let q := m / 2 ^ p in
  let r := m mod 2 ^ p in
  if (2 ^ (p - 1) <? r) || ((r =? 2 ^ (p - 1)) && Z.odd q) then q + 1 else q.

(** An exact product with [53] significant bits kept. *)
Definition rnd53 (m : Z) : Z :=
  let p := Zdigits2 m - 53 in
  if p <=? 0 then m else rne m p * 2 ^ p.

Lemma iter_pos_nat {A} (f : A -> A) p : forall x, iter_pos f p x = Nat.iter (Pos.to_nat p) f x.
Proof.
  induction p as [p IH|p IH|]; intros x; cbn [iter_pos]; [| |done].
  - rewrite !IH, Pos2Nat.inj_xI, Nat.iter_succ_r, <- Nat.iter_add. f_equal. lia.
  - rewrite !IH, Pos2Nat.inj_xO, <- Nat.iter_add. f_equal. lia.
Qed.

(** Shifting right by one keeps the bit shifted out and whether any earlier one
    was set. *)
Lemma shr_1_spec m r s :
  0 <= m -> shr_1 {| shr_m := m; shr_r := r; shr_s := s |} = {| shr_m := m / 2; shr_r := Z.odd m; shr_s := r || s |}.
Proof.
  intros Hm. destruct m as [|[p|p|]|]; try done; unfold shr_1; f_equal; try done; simpl.
  - rewrite Pos2Z.inj_xI. dlia.
  - rewrite Pos2Z.inj_xO. dlia.
Qed.

Lemma shr_iter m n :
  0 <= m -> (0 < n)%nat ->
  Nat.iter n shr_1 {| shr_m := m; shr_r := false; shr_s := false |} =
  {| shr_m := m / 2 ^ Z.of_nat n; shr_r := Z.testbit m (Z.of_nat n - 1);
     shr_s := negb (m mod 2 ^ (Z.of_nat n - 1) =? 0) |}.
Proof.
  intros Hm Hn. induction n as [|n IH]; [lia|]. destruct (decide (n = 0)%nat) as [->|Hn0].
  { rewrite Nat.iter_succ. cbn [Nat.iter nat_rect]. rewrite shr_1_spec by done. rewrite Z.bit0_odd, Z.mod_1_r. done. }
  rewrite Nat.iter_succ, IH by lia. rewrite shr_1_spec by (apply Z.div_pos; [done|apply pow2_pos; lia]).
  replace (Z.of_nat (S n) - 1) with (Z.of_nat n) by lia. f_equal.
  - rewrite Z.div_div by (try apply Z.pow_nonzero; lia). f_equal. rewrite Nat2Z.inj_succ, Z.pow_succ_r by lia. lia.
  - rewrite <- Z.bit0_odd, Z.div_pow2_bits by lia. f_equal.
  - replace (Z.of_nat n) with (Z.succ (Z.of_nat n - 1)) at 3 by lia.
    rewrite Z.pow_succ_r by lia.
    rewrite (Z.mul_comm 2), Z.rem_mul_r by (first [lia|apply Z.pow_nonzero; lia]).
    rewrite Z.testbit_odd, Z.shiftr_div_pow2 by lia.
    pose proof (pow2_pos (Z.of_nat n - 1) ltac:(lia)) as Hp.
    pose proof (Z.mod_pos_bound m _ Hp) as Hb.
    rewrite Zmod_odd. destruct (Z.odd _); simpl; destruct (Z.eqb_spec (m mod 2 ^ (Z.of_nat n - 1)) 0); simpl.
    all: symmetry; first [apply negb_true_iff, Z.eqb_neq; lia|apply negb_false_iff, Z.eqb_eq; lia].
Qed.

Lemma digits2_spec m : 0 < m -> 2 ^ (Zdigits2 m - 1) <= m < 2 ^ Zdigits2 m.
Proof.
  destruct m as [|p|]; try lia. intros _. unfold Zdigits2.
  induction p as [p IH|p IH|]; cbn [digits2_pos]; [| |done];
    rewrite Pos2Z.inj_succ, Z.sub_1_r, Z.pred_succ; rewrite Z.pow_succ_r by lia;
    replace (2 ^ Z.pos (digits2_pos p)) with (2 * 2 ^ (Z.pos (digits2_pos p) - 1)) in * by
      (rewrite <- Z.pow_succ_r by lia; f_equal; lia); lia.
Qed.

Lemma digits2_unique m d : 0 < m -> 0 < d -> 2 ^ (d - 1) <= m < 2 ^ d -> Zdigits2 m = d.
Proof.
  intros Hm Hd [H1 H2]. pose proof (digits2_spec m Hm) as [H3 H4].
  assert (0 < Zdigits2 m) by (destruct m; try lia; done).
  destruct (Z.lt_trichotomy (Zdigits2 m) d) as [Hc|[Hc|Hc]]; [|done|].
  - pose proof (Z.pow_le_mono_r 2 (Zdigits2 m) (d - 1) ltac:(lia) ltac:(lia)). lia.
  - pose proof (Z.pow_le_mono_r 2 d (Zdigits2 m - 1) ltac:(lia) ltac:(lia)). lia.
Qed.

Lemma Zdigits2_pos m : 0 < m -> 0 < Zdigits2 m.
Proof. by destruct m. Qed.

(** One rounding step of [SpecFloat] is [rne]. *)
Lemma round_step m p :
  0 <= m -> (0 < p)%nat ->
  let mrs := Nat.iter p shr_1 {| shr_m := m; shr_r := false; shr_s := false |} in
  round_nearest_even (shr_m mrs) (loc_of_shr_record mrs) = rne m (Z.of_nat p).
Proof.
  intros Hm Hp. rewrite shr_iter by done. cbn [shr_m]. unfold rne.
  set (q := m / 2 ^ Z.of_nat p). set (b := m mod 2 ^ (Z.of_nat p - 1)).
  pose proof (pow2_pos (Z.of_nat p - 1) ltac:(lia)) as Hp1.
  assert (0 <= b < 2 ^ (Z.of_nat p - 1)) as Hb by by apply Z.mod_pos_bound.
  assert (m mod 2 ^ Z.of_nat p = b + 2 ^ (Z.of_nat p - 1) * Z.b2z (Z.testbit m (Z.of_nat p - 1))) as ->.
  { replace (Z.of_nat p) with (Z.succ (Z.of_nat p - 1)) at 1 by lia.
    rewrite Z.pow_succ_r, (Z.mul_comm 2), Z.rem_mul_r by lia.
    by rewrite Z.testbit_odd, Z.shiftr_div_pow2, Zmod_odd by lia. }
  destruct (Z.testbit m (Z.of_nat p - 1)); cbn [Z.b2z negb].
  - destruct (Z.eqb_spec b 0) as [E|E]; cbn [negb loc_of_shr_record round_nearest_even].
    + rewrite <- Z.negb_even. destruct (Z.even q); case_if; bool_to_prop; try done.
      * apply orb_true_iff in E0 as [E0|E0]; [bool_to_prop; lia|]. by rewrite andb_false_r in E0.
      * destruct H0; [lia|done].
    + case_if; [done|]. bool_to_prop. lia.
  - destruct (Z.eqb_spec b 0) as [E|E]; cbn [negb loc_of_shr_record round_nearest_even]; (case_if; [|done]);
      apply orb_true_iff in E0 as [E0|E0]; bool_to_prop; lia.
Qed.

Lemma rne_bounds m p : 0 <= m -> 0 < p -> m / 2 ^ p <= rne m p <= m / 2 ^ p + 1.
Proof. intros Hm Hp. unfold rne. case_if; lia. Qed.

(** Rounding up happens only past the middle. *)
Lemma rne_upper m p : 0 <= m -> 0 < p -> rne m p * 2 ^ p <= m + 2 ^ (p - 1).
Proof.
  intros Hm Hp. pose proof (pow2_pos p ltac:(lia)) as Hpp. pose proof (pow2_pos (p - 1) ltac:(lia)) as Hp1.
  assert (2 ^ p = 2 * 2 ^ (p - 1)) as Hs by (rewrite <- Z.pow_succ_r by lia; f_equal; lia).
  pose proof (Z.div_mod m (2 ^ p) ltac:(lia)) as Hdm. pose proof (Z.mod_pos_bound m (2 ^ p) Hpp) as Hr.
  unfold rne. case_if; [|nia].
  assert (2 ^ (p - 1) <= m mod 2 ^ p); [|nia].
  apply orb_true_iff in E as [E|E]; bool_to_prop; lia.
Qed.

Lemma rnd53_upper m : 0 < m -> rnd53 m <= m + 2 ^ (Zdigits2 m - 54) \/ (Zdigits2 m <= 53 /\ rnd53 m = m).
Proof.
  intros Hm. unfold rnd53. case_if; [right; lia|left].
  replace (Zdigits2 m - 54) with (Zdigits2 m - 53 - 1) by lia. apply rne_upper; lia.
Qed.

(** [rne] at the position that keeps 53 bits: the result has 53 bits, or is
    the next power of two. *)
Lemma rne_53 m : 0 < m -> 53 < Zdigits2 m -> 2 ^ 52 <= rne m (Zdigits2 m - 53) <= 2 ^ 53.
Proof.
  intros Hm Hd. pose proof (digits2_spec m Hm) as [H1 H2]. set (p := Zdigits2 m - 53) in *.
  pose proof (rne_bounds m p ltac:(lia) ltac:(lia)) as Hb. pose proof (pow2_pos p ltac:(lia)) as Hp.
  assert (2 ^ 52 <= m / 2 ^ p < 2 ^ 53); [|lia]. split.
  - apply Z.div_le_lower_bound; [done|]. rewrite <- Z.pow_add_r by lia. by replace (p + 52) with (Zdigits2 m - 1) by lia.
  - apply Z.div_lt_upper_bound; [done|]. rewrite <- Z.pow_add_r by lia. by replace (p + 53) with (Zdigits2 m) by lia.
Qed.

Lemma shr_keep m e n : n <= 0 -> shr {| shr_m := m; shr_r := false; shr_s := false |} e n =
  ({| shr_m := m; shr_r := false; shr_s := false |}, e).
Proof. by destruct n. Qed.

Lemma shr_move m e n :
  0 < n -> shr {| shr_m := m; shr_r := false; shr_s := false |} e n =
  (Nat.iter (Z.to_nat n) shr_1 {| shr_m := m; shr_r := false; shr_s := false |}, e + n).
Proof. destruct n as [|n|]; try done. intros _. unfold shr. by rewrite iter_pos_nat. Qed.

(** A positive exact value in the range of normal numbers is rounded to 53
    bits. *)
Lemma round_aux_spec m e :
  0 < m -> -1074 <= e <= 800 -> Zdigits2 m <= 120 ->
  exists m' k, 0 <= k /\ binary_round_aux 53 1024 false m e loc_Exact = S754_finite false m' (e + k) /\
    Zpos m' * 2 ^ k = rnd53 m /\ Zdigits2 (Zpos m') <= 53.
Proof.
  intros Hm He Hd. unfold binary_round_aux, shr_fexp, rnd53. cbn [shr_record_of_loc].
  change (emin 53 1024) with (-1074). unfold fexp. change (emin 53 1024) with (-1074).
  change (1024 - 53) with 971.
  pose proof (Zdigits2_pos m Hm) as Hd0. destruct (Z.leb_spec (Zdigits2 m - 53) 0) as [Hs|Hl].
  - rewrite shr_keep by lia. cbn [shr_m loc_of_shr_record round_nearest_even]. rewrite shr_keep by lia. cbn [shr_m].
    destruct m as [|m|]; try lia. exists m, 0. rewrite Z.add_0_r. rewrite (proj2 (Z.leb_le _ _)) by lia. split_and!; [lia|done|lia|lia].
  - set (p := Zdigits2 m - 53) in *. replace (Z.max (Zdigits2 m + e - 53) (-1074) - e) with p by lia.
    rewrite shr_move by lia. pose proof (round_step m (Z.to_nat p) ltac:(lia) ltac:(lia)) as Hr. cbv zeta in Hr. rewrite Hr.
    rewrite Z2Nat.id by lia. pose proof (rne_53 m Hm ltac:(lia)) as Hb. fold p in Hb.
    destruct (Z.eq_dec (rne m p) (2 ^ 53)) as [Eq|Hne].
    + rewrite Eq. change (Zdigits2 (2 ^ 53)) with 54. rewrite shr_move by lia.
      replace (Z.max (54 + (e + p) - 53) (-1074) - (e + p)) with 1 by lia. cbn [Z.to_nat Pos.to_nat Pos.iter_op Nat.iter nat_rect].
      change (shr_m (shr_1 _)) with (2 ^ 52). exists (2 ^ 52)%positive, (p + 1).
      change (2 ^ 52) with (Zpos (2 ^ 52)). rewrite (proj2 (Z.leb_le _ _)) by lia.
      split; [lia|]. split; [f_equal; lia|]. split; [|done].
      rewrite Z.pow_add_r by lia. change (Zpos (2 ^ 52)) with (2 ^ 52). lia.
    + rewrite (digits2_unique (rne m p) 53) by lia. rewrite shr_keep by lia. cbn [shr_m].
      destruct (rne m p) as [|m'|] eqn:Em; try lia. exists m', p. rewrite (proj2 (Z.leb_le _ _)) by lia.
      split_and!; [lia|done|done|]. rewrite (digits2_unique _ 53); lia.
Qed.

(** A value with at most 53 bits is kept. *)
Lemma round_aux_exact m e :
  -1074 <= e <= 800 -> Zdigits2 (Zpos m) <= 53 -> binary_round_aux 53 1024 false (Zpos m) e loc_Exact = S754_finite false m e.
Proof.
  intros He Hd. unfold binary_round_aux, shr_fexp, fexp. cbn [shr_record_of_loc]. change (emin 53 1024) with (-1074).
  rewrite shr_keep by lia. cbn [shr_m loc_of_shr_record round_nearest_even]. rewrite shr_keep by lia. cbn [shr_m].
  by rewrite (proj2 (Z.leb_le _ _)) by lia.
Qed.

Lemma pos_iter_xO m k : Zpos (Pos.iter xO m k) = Zpos m * 2 ^ Zpos k.
Proof.
  induction k using Pos.peano_ind; [simpl; lia|].
  rewrite Pos.iter_succ, Pos2Z.inj_xO, IHk, Pos2Z.inj_succ, Z.pow_succ_r by lia. lia.
Qed.

(** Integers below 2^53 are exact, with a full mantissa. *)
Lemma f64_of_Z_spec n :
  0 < n < 2 ^ 53 -> exists m k, 0 <= k <= 52 /\ f64_of_Z n = S754_finite false m (- k) /\
    Zpos m = n * 2 ^ k /\ Zdigits2 (Zpos m) = 53.
Proof.
  intros [Hn Hn53]. destruct n as [|p|]; try lia. pose proof (digits2_spec (Zpos p) Hn) as [H1 H2].
  set (d := Zdigits2 (Zpos p)) in *. assert (0 < d <= 53) as Hd.
  { split; [by apply Zdigits2_pos|]. apply Z.nlt_ge. intros Hd.
    pose proof (Z.pow_le_mono_r 2 53 (d - 1) ltac:(lia) ltac:(lia)). lia. }
  assert (exists m, shl_align p 0 (fexp 53 1024 (d + 0)) = (m, d - 53) /\ Zpos m = Zpos p * 2 ^ (53 - d)) as (m & Ha & Hm).
  { unfold shl_align, fexp. change (emin 53 1024) with (-1074). replace (Z.max (d + 0 - 53) (-1074) - 0) with (d - 53) by lia.
    destruct (d - 53) as [|k|k] eqn:Ek; [| lia |].
    - exists p. split; [done|]. replace (53 - d) with 0 by lia. lia.
    - exists (Pos.iter xO p k). split; [f_equal; lia|]. rewrite pos_iter_xO. do 2 f_equal. lia. }
  assert (Zdigits2 (Zpos m) = 53) as Hdm.
  { rewrite Hm. apply digits2_unique; [|lia|].
    - pose proof (pow2_pos (53 - d) ltac:(lia)). lia.
    - assert (2 ^ (53 - 1) = 2 ^ (d - 1) * 2 ^ (53 - d)) as -> by (rewrite <- Z.pow_add_r by lia; f_equal; lia).
      rewrite (pow2_split 53 d) by lia. pose proof (pow2_pos (53 - d) ltac:(lia)). nia. }
  exists m, (53 - d). split; [lia|]. split; [|done]. unfold f64_of_Z, binary_normalize, binary_round.
  change (Z.pos (digits2_pos p)) with d. rewrite Ha. rewrite round_aux_exact by lia. f_equal. lia.
Qed.

Lemma digits2_mul a b : 0 < a -> 0 < b -> Zdigits2 (a * b) <= Zdigits2 a + Zdigits2 b.
Proof.
  intros Ha Hb. pose proof (digits2_spec a Ha). pose proof (digits2_spec b Hb). pose proof (digits2_spec (a * b) ltac:(lia)) as [H1 _].
  pose proof (Zdigits2_pos a Ha). pose proof (Zdigits2_pos b Hb).
  apply Z.nlt_ge. intros Hlt.
  pose proof (Z.pow_le_mono_r 2 (Zdigits2 a + Zdigits2 b) (Zdigits2 (a * b) - 1) ltac:(lia) ltac:(lia)) as Hm.
  rewrite Z.pow_add_r in Hm by lia. nia.
Qed.

(** The product of positive doubles is the exact product rounded to 53 bits. *)
Lemma f64_mul_spec m1 e1 m2 e2 :
  Zdigits2 (Zpos m1) <= 53 -> Zdigits2 (Zpos m2) <= 53 -> -1074 <= e1 + e2 <= 800 ->
  exists m' k, 0 <= k /\ f64_mul (S754_finite false m1 e1) (S754_finite false m2 e2) = S754_finite false m' (e1 + e2 + k) /\
    Zpos m' * 2 ^ k = rnd53 (Zpos m1 * Zpos m2) /\ Zdigits2 (Zpos m') <= 53.
Proof.
  intros H1 H2 He. unfold f64_mul, SFmul. cbn [xorb]. rewrite Pos2Z.inj_mul. apply round_aux_spec; [lia|done|].
  pose proof (digits2_mul (Zpos m1) (Zpos m2) ltac:(lia) ltac:(lia)). lia.
Qed.

(** A value with at most 53 bits times a power of two is exact. *)
Lemma rnd53_shift m j : 0 < m -> Zdigits2 m <= 53 -> 0 <= j -> rnd53 (m * 2 ^ j) = m * 2 ^ j.
Proof.
  intros Hm Hd Hj. pose proof (pow2_pos j Hj) as Hpj. unfold rnd53. case_if; [done|].
  pose proof (digits2_spec m Hm) as [H1 H2]. pose proof (Zdigits2_pos m Hm).
  assert (Zdigits2 (m * 2 ^ j) = Zdigits2 m + j) as Hdj.
  { apply digits2_unique; [lia|lia|]. replace (Zdigits2 m + j - 1) with (Zdigits2 m - 1 + j) by lia.
    rewrite !Z.pow_add_r by lia. nia. }
  rewrite Hdj in *. set (p := Zdigits2 m + j - 53) in *. rewrite (pow2_split j p) by lia.
  pose proof (pow2_pos p ltac:(lia)). pose proof (pow2_pos (p - 1) ltac:(lia)).
  unfold rne. replace (m * (2 ^ p * 2 ^ (j - p))) with (m * 2 ^ (j - p) * 2 ^ p) by lia.
  rewrite Z.mod_mul, Z.div_mul by lia. case_if; [|done].
  apply orb_true_iff in E0 as [E0|E0]; bool_to_prop; lia.
Qed.

Lemma f64_trunc_spec m e k r :
  0 <= k -> e <= 0 -> Zpos m * 2 ^ k = r -> f64_trunc (S754_finite false m (e + k)) = Some (r / 2 ^ (- e)).
Proof.
  intros Hk He <-. unfold f64_trunc. cbn [cond_Zopp]. f_equal. destruct (Z.le_ge_cases 0 (e + k)) as [Hp|Hn].
  - rewrite Z.shiftl_mul_pow2 by done.
    assert (2 ^ k = 2 ^ (e + k) * 2 ^ (- e)) as -> by (rewrite <- Z.pow_add_r by lia; f_equal; lia).
    by rewrite Z.mul_assoc, Z.div_mul by (apply Z.pow_nonzero; lia).
  - rewrite Z.shiftl_div_pow2 by done. replace (- e) with (- (e + k) + k) by lia. rewrite Z.pow_add_r by lia.
    rewrite Z.div_mul_cancel_r by (apply Z.pow_nonzero; lia). done.
Qed.

(** Rounding is monotone. *)
Lemma rne_mono a b p : 0 <= a <= b -> 0 < p -> rne a p <= rne b p.
Proof.
  intros Hab Hp. pose proof (pow2_pos p ltac:(lia)) as Hpp.
  pose proof (Z.div_le_mono a b (2 ^ p) Hpp ltac:(lia)) as Hq.
  destruct (Z.eq_dec (a / 2 ^ p) (b / 2 ^ p)) as [E|Hne].
  - pose proof (Z.div_mod a (2 ^ p) ltac:(lia)). pose proof (Z.div_mod b (2 ^ p) ltac:(lia)).
    assert (a mod 2 ^ p <= b mod 2 ^ p) by nia. unfold rne. rewrite E.
    destruct (Z.odd (b / 2 ^ p)); rewrite ?andb_true_r, ?andb_false_r;
      repeat case_if; rewrite ?orb_true_iff, ?orb_false_iff in *; bool_to_prop; rewrite ?Z.ltb_lt, ?Z.eqb_eq in *; lia.
  - pose proof (rne_bounds a p ltac:(lia) Hp). pose proof (rne_bounds b p ltac:(lia) Hp). lia.
Qed.

Lemma rnd53_range m : 0 < m -> 2 ^ (Zdigits2 m - 1) <= rnd53 m <= 2 ^ Zdigits2 m.
Proof.
  intros Hm. pose proof (digits2_spec m Hm). unfold rnd53. case_if; [lia|].
  pose proof (rne_53 m Hm ltac:(lia)) as [H1 H2]. pose proof (pow2_pos (Zdigits2 m - 53) ltac:(lia)).
  rewrite (pow2_split (Zdigits2 m) 53) by lia.
  assert (2 ^ (Zdigits2 m - 1) = 2 ^ 52 * 2 ^ (Zdigits2 m - 53)) as -> by (rewrite <- Z.pow_add_r by lia; f_equal; lia).
  nia.
Qed.

Lemma rnd53_mono a b : 0 < a <= b -> rnd53 a <= rnd53 b.
Proof.
  intros Hab. pose proof (rnd53_range a ltac:(lia)) as [_ Ha]. pose proof (rnd53_range b ltac:(lia)) as [Hb _].
  pose proof (digits2_spec a ltac:(lia)) as [Ha1 _]. pose proof (digits2_spec b ltac:(lia)) as [_ Hb2].
  pose proof (Zdigits2_pos a ltac:(lia)). pose proof (Zdigits2_pos b ltac:(lia)).
  destruct (Z.lt_trichotomy (Zdigits2 a) (Zdigits2 b)) as [Hd|[Hd|Hd]].
  - pose proof (Z.pow_le_mono_r 2 (Zdigits2 a) (Zdigits2 b - 1) ltac:(lia) ltac:(lia)). lia.
  - unfold rnd53. rewrite Hd. case_if; [lia|]. pose proof (rne_mono a b (Zdigits2 b - 53) ltac:(lia) ltac:(lia)).
    pose proof (pow2_pos (Zdigits2 b - 53) ltac:(lia)). nia.
  - pose proof (Z.pow_le_mono_r 2 (Zdigits2 b) (Zdigits2 a - 1) ltac:(lia) ltac:(lia)). lia.
Qed.

(** ** Results that are numbers *)
Lemma shr_1_nonneg mrs : 0 <= shr_m mrs -> 0 <= shr_m (shr_1 mrs).
Proof. destruct mrs as [[|[p|p|]|p] r s]; simpl; lia. Qed.

Lemma shr_nonneg mrs e n : 0 <= shr_m mrs -> 0 <= shr_m (fst (shr mrs e n)).
Proof.
  intros H. destruct n as [|p|]; [done| |done]. unfold shr. cbn [fst]. rewrite iter_pos_nat.
  induction (Pos.to_nat p) as [|k IH]; [done|]. rewrite Nat.iter_succ. by apply shr_1_nonneg.
Qed.

Lemma round_aux_number s m e l : 0 <= m -> is_nan (binary_round_aux 53 1024 s m e l) = false.
Proof.
  intros Hm. unfold binary_round_aux, shr_fexp.
  assert (forall m l, 0 <= m -> 0 <= shr_m (shr_record_of_loc m l)) as Hl by (by intros ? [|[]]).
  destruct (shr _ e _) as [mrs e1] eqn:E1.
  assert (0 <= shr_m mrs) as H1.
  { change mrs with (fst (mrs, e1)). rewrite <- E1. apply shr_nonneg. auto. }
  destruct (shr _ e1 _) as [mrs2 e2] eqn:E2. assert (0 <= shr_m mrs2) as H2.
  { change mrs2 with (fst (mrs2, e2)). rewrite <- E2. apply shr_nonneg. cbn [shr_record_of_loc shr_m].
    destruct mrs as [m1 [] []]; cbn in *; try case_if; lia. }
  destruct (shr_m mrs2); [done| |lia]. by case_if.
Qed.

Lemma normalize_number m e s : is_nan (binary_normalize 53 1024 m e s) = false.
Proof.
  destruct m; [done| |]; unfold binary_normalize, binary_round; destruct (shl_align _ _ _); apply round_aux_number; lia.
Qed.

Definition is_finite (x : spec_float) : bool :=
  match x with S754_zero _ | S754_finite _ _ _ => true | _ => false end.

Lemma f64_mul_number x y : is_finite x = true -> is_finite y = true -> is_nan (f64_mul x y) = false.
Proof. destruct x, y; try done; intros _ _. apply round_aux_number. lia. Qed.

Lemma f64_add_number x y : is_nan x = false -> is_finite y = true -> is_nan (f64_add x y) = false.
Proof. destruct x as [[]|[]| |], y as [[]|[]| |]; try done; intros _ _; apply normalize_number. Qed.

(** ** Exact results *)
Lemma rne_exact a p : 0 < p -> rne (a * 2 ^ p) p = a.
Proof.
  intros Hp. pose proof (pow2_pos p ltac:(lia)). pose proof (pow2_pos (p - 1) ltac:(lia)).
  unfold rne. rewrite Z.mod_mul, Z.div_mul by lia. case_if; [|done].
  apply orb_true_iff in E as [E|E]; bool_to_prop; lia.
Qed.

(** One bit too many, but a zero. *)
Lemma round_aux_even m e :
  -1074 <= e <= 800 -> Zdigits2 (Zpos m) = 53 -> binary_round_aux 53 1024 false (Zpos m~0) e loc_Exact = S754_finite false m (e + 1).
Proof.
  intros He Hd. assert (Zdigits2 (Zpos m~0) = 54) as Hd2.
  { apply digits2_unique; [lia|lia|]. pose proof (digits2_spec (Zpos m) ltac:(lia)) as Hs. rewrite Hd in Hs. lia. }
  unfold binary_round_aux, shr_fexp, fexp. cbn [shr_record_of_loc]. change (emin 53 1024) with (-1074).
  rewrite Hd2, shr_move by lia. replace (Z.max (54 + e - 53) (-1074) - e) with 1 by lia.
  change (Nat.iter (Z.to_nat 1) shr_1 ?x) with (shr_1 x). cbn [shr_1 shr_m shr_r shr_s orb].
  cbn [shr_m loc_of_shr_record round_nearest_even]. rewrite Hd, shr_keep by lia. cbn [shr_m].
  by rewrite (proj2 (Z.leb_le _ _)) by lia.
Qed.

(** A number of tenths that is a whole number below 2^53. *)
Lemma f64_div_tenths n :
  0 < n < 2 ^ 53 -> f64_div (S754_finite false (10 * Z.to_pos n) 0) (S754_finite false 10 0) = f64_of_Z n.
Proof.
  intros Hn. destruct (f64_of_Z_spec n Hn) as (m & k & Hk & -> & Hm & Hdm). destruct n as [|n|]; try lia. cbn [Z.to_pos].
  pose proof (digits2_spec (Zpos n) ltac:(lia)) as Hs. set (d := Zdigits2 (Zpos n)) in *.
  assert (d = 53 - k) as Hd.
  { apply digits2_unique; [lia| |]; [lia|]. pose proof (digits2_spec (Zpos m) ltac:(lia)) as Hsm. rewrite Hdm, Hm in Hsm.
    pose proof (pow2_pos k ltac:(lia)). rewrite (pow2_split 53 k), (pow2_split (53 - 1) k) in Hsm by lia.
    replace (53 - 1 - k) with (53 - k - 1) in Hsm by lia. nia. }
  set (d10 := Zdigits2 (Zpos (10 * n))). assert (d10 = d + 3 \/ d10 = d + 4) as Hd10.
  { pose proof (digits2_spec (Zpos (10 * n)) ltac:(lia)) as Ht. fold d10 in Ht. rewrite Pos2Z.inj_mul in Ht.
    pose proof (Zdigits2_pos (Zpos (10 * n)) ltac:(lia)). fold d10 in H.
    destruct (Z.le_gt_cases d10 (d + 2)) as [Hl|Hl].
    - pose proof (Z.pow_le_mono_r 2 d10 (d + 2) ltac:(lia) Hl) as Hp. replace (d + 2) with (d - 1 + 3) in Hp by lia.
      rewrite Z.pow_add_r in Hp by lia. lia.
    - destruct (Z.le_gt_cases d10 (d + 4)) as [Hu|Hu]; [lia|].
      pose proof (Z.pow_le_mono_r 2 (d + 4) (d10 - 1) ltac:(lia) ltac:(lia)) as Hp. rewrite Z.pow_add_r in Hp by lia. lia. }
  unfold f64_div, SFdiv, SFdiv_core_binary. fold d10. change (Zdigits2 10) with 4. unfold fexp. change (emin 53 1024) with (-1074).
  replace (Z.min (Z.max (d10 + 0 - (4 + 0) - 53) (-1074)) (0 - 0)) with (d10 - 57) by lia.
  replace (0 - 0 - (d10 - 57)) with (57 - d10) by lia. cbv zeta.
  assert (match 57 - d10 with Z0 => Zpos (10 * n) | Zpos _ => Z.shiftl (Zpos (10 * n)) (57 - d10) | Zneg _ => 0 end = 10 * (Zpos n * 2 ^ (57 - d10))) as ->.
  { destruct (57 - d10) eqn:E; [rewrite Z.pow_0_r; lia| |lia]. rewrite Z.shiftl_mul_pow2 by lia. lia. }
  pose proof (Z.mod_mul (Zpos n * 2 ^ (57 - d10)) 10 ltac:(lia)) as Hr. pose proof (Z.div_mul (Zpos n * 2 ^ (57 - d10)) 10 ltac:(lia)) as Hq.
  rewrite Z.mul_comm in Hr, Hq. unfold Z.modulo in Hr. unfold Z.div in Hq.
  destruct (Z.div_eucl _ 10) as [q r]. subst q r. change (new_location 10 0) with loc_Exact. cbn [xorb].
  destruct Hd10 as [E|E].
  - replace (57 - d10) with (k + 1) by lia. rewrite Z.pow_add_r, Z.mul_assoc, <- Hm by lia.
    change (Zpos m * 2 ^ 1) with (Zpos m * 2). rewrite Z.mul_comm. change (2 * Zpos m) with (Zpos m~0).
    rewrite round_aux_even by lia. f_equal. lia.
  - replace (57 - d10) with k by lia. rewrite <- Hm, round_aux_exact by lia. f_equal. lia.
Qed.
