(* ===== verification/CText.v ===== *)
(** * Text of the C library

    What the benchmark harness uses of stdio and stdlib: decimal output of
    integers and doubles, [snprintf], [atoi], [atol], [strtod] and [strstr], in
    the C locale.  C strings are [string]s. *)

From Stdlib Require Import String Ascii.
From stdpp Require Import prelude.
From Stdlib Require Import ZArith Lia SpecFloat.
From S2P Require Import Prelude Double.

Local Open Scope Z_scope.

(** ** Characters *)
Definition is_space (c : ascii) : bool :=
  let n := N_of_ascii c in ((9 <=? n) && (n <=? 13) || (n =? 32))%N.
Definition is_digit (c : ascii) : bool :=
  let n := N_of_ascii c in ((48 <=? n) && (n <=? 57))%N.
Definition digit_value (c : ascii) : Z := Z.of_N (N_of_ascii c) - 48.
Definition lower (c : ascii) : ascii :=
  let n := N_of_ascii c in if ((65 <=? n) && (n <=? 90))%N then ascii_of_N (n + 32) else c.
Definition hex_value (c : ascii) : option Z :=
  let n := Z.of_N (N_of_ascii (lower c)) in
  if is_digit c then Some (digit_value c) else if (97 <=? n) && (n <=? 102) then Some (n - 87) else None.

(** The newline and the double quote. *)
Definition NL : string := String "010" EmptyString.
Definition QUOTE : ascii := "034".
Definition quoted (s : string) : string := String QUOTE (s ++ String QUOTE EmptyString).

(** ** Output *)

(** [snprintf(buf, n, ...)]: at most [n - 1] characters are kept. *)
Definition snprintf (n : nat) (s : string) : string := substring 0 (n - 1) s.

(** The decimal digits of a non-negative number, in front of [acc].  A number has
    no more decimal digits than binary ones. *)
Definition digit (n : Z) : ascii := ascii_of_N (Z.to_N (48 + n)).
Fixpoint dec_loop (fuel : nat) (n : Z) (acc : string) : string :=
  match fuel with
  | O => acc
  | S fuel => let acc := String (digit (n mod 10)) acc in if n <? 10 then acc else dec_loop fuel (n / 10) acc
  end.
Definition dec (n : Z) : string := dec_loop (Z.to_nat (Z.log2 n + 1)) n EmptyString.
(** Exactly [k] digits. *)
Fixpoint dec_fixed (k : nat) (n : Z) (acc : string) : string :=
  match k with O => acc | S k => dec_fixed k (n / 10) (String (digit (n mod 10)) acc) end.

(** [%d] and [%zu] *)
Definition fmt_d (n : Z) : string := if n <? 0 then ("-" ++ dec (- n))%string else dec n.

(** A finite double times a power of ten, rounded to an integer with ties to
    even. *)
Definition scale10 (p : nat) (m : positive) (e : Z) : Z :=
  let n := Zpos m * 10 ^ Z.of_nat p in if e <? 0 then rne n (- e) else n * 2 ^ e.

(** [%.pf] for a [p] above 0; the sign of a NaN is not kept. *)
Definition fmt_f (p : nat) (x : spec_float) : string :=
  let sign (s : bool) := if s then "-"%string else EmptyString in
  let number n := (dec (n / 10 ^ Z.of_nat p) ++ "." ++ dec_fixed p (n mod 10 ^ Z.of_nat p) EmptyString)%string in
  match x with
  | S754_nan => "nan"
  | S754_infinity s => sign s ++ "inf"
  | S754_zero s => sign s ++ number 0
  | S754_finite s m e => sign s ++ number (scale10 p m e)
  end%string.

(** [%-ns] and [%ns] *)
Fixpoint spaces (n : nat) : string := match n with O => EmptyString | S n => String " " (spaces n) end.
Definition pad_right (n : nat) (s : string) : string := (s ++ spaces (n - String.length s))%string.
Definition pad_left (n : nat) (s : string) : string := (spaces (n - String.length s) ++ s)%string.

(** ** Input *)
Fixpoint skip_spaces (s : string) : string :=
  match s with String c s' => if is_space c then skip_spaces s' else s | EmptyString => s end.

(** The leading digits: their value after [acc], their number and the rest. *)
Fixpoint digits (s : string) (acc : Z) (k : Z) : Z * Z * string :=
  match s with
  | String c s' => if is_digit c then digits s' (acc * 10 + digit_value c) (k + 1) else (acc, k, s)
  | EmptyString => (acc, k, s)
  end.
Fixpoint hex_digits (s : string) (acc : Z) (k : Z) : Z * Z * string :=
  match s with
  | String c s' => match hex_value c with Some v => hex_digits s' (acc * 16 + v) (k + 1) | None => (acc, k, s) end
  | EmptyString => (acc, k, s)
  end.
Definition sign_of (s : string) : bool * string :=
  match s with String "-" s' => (true, s') | String "+" s' => (false, s') | _ => (false, s) end.

Definition parse_number (s : string) : Z :=
  let '(neg, s) := sign_of (skip_spaces s) in
  let '(n, _, _) := digits s 0 0 in if (neg : bool) then - n else n.

(** [atoi] on a 32-bit int, [atol] and [atoll] on 64 bits. *)
Definition atoi (s : string) : outcome unit Z :=
  let n := parse_number s in if (- 2 ^ 31 <=? n) && (n <? 2 ^ 31) then Ok n else Undef.
Definition atol (s : string) : outcome unit Z :=
  let n := parse_number s in if (- 2 ^ 63 <=? n) && (n <? 2 ^ 63) then Ok n else Undef.

(** The text after the first occurrence of [pat]: [strstr], moved past it. *)
Definition drop_str (n : nat) (s : string) : string := substring n (String.length s - n) s.
Fixpoint strstr_after (pat s : string) : option string :=
  if String.prefix pat s then Some (drop_str (String.length pat) s) else
  match s with EmptyString => None | String _ s' => strstr_after pat s' end.

(** The double nearest to [n / d]. *)
Definition f64_ratio (neg : bool) (n d : Z) : spec_float :=
  match n, d with
  | Zpos n, Zpos d => f64_div (S754_finite neg n 0) (S754_finite false d 0)
  | _, _ => S754_zero neg
  end.
Definition f64_decimal (neg : bool) (n e : Z) : spec_float :=
  if e <? 0 then f64_ratio neg n (10 ^ (- e)) else f64_ratio neg (n * 10 ^ e) 1.

(** An exponent part introduced by [mark]; without digits it is not one. *)
Definition exponent (mark : ascii) (s : string) : Z :=
  match s with
  | String c s' =>
      if Ascii.eqb (lower c) mark then
        let '(neg, s'') := sign_of s' in
        let '(n, k, _) := digits s'' 0 0 in if k =? 0 then 0 else if (neg : bool) then - n else n
      else 0
  | EmptyString => 0
  end.

Definition prefix_ci (pat s : string) : bool := String.prefix pat (string_of_list_ascii (map lower (list_ascii_of_string s))).

Definition after_point (s : string) : option string := match s with String "." s' => Some s' | _ => None end.

(** [strtod]: the value, or none when there is no number. *)
Definition strtod (s : string) : option spec_float :=
  let '(neg, s) := sign_of (skip_spaces s) in
  if prefix_ci "inf" s then Some (S754_infinity neg)
  else if prefix_ci "nan" s then Some S754_nan
  else
    let '(hm, hk, hr) := if prefix_ci "0x" s then hex_digits (drop_str 2 s) 0 0 else (0, 0, s) in
    let '(hm, hf, hr) := match (if prefix_ci "0x" s then after_point hr else None) with Some r => hex_digits r hm 0 | None => (hm, 0, hr) end in
    if 0 <? hk + hf then
      Some (binary_normalize 53 1024 (if neg then - hm else hm) (exponent "p" hr - 4 * hf) neg)
    else
      let '(m, k, r) := digits s 0 0 in
      let '(m, f, r) := match after_point r with Some r' => digits r' m 0 | None => (m, 0, r) end in
      if k + f =? 0 then None else Some (f64_decimal neg m (exponent "e" r - f)).

Example fmt_f_two_thirds : fmt_f 6 (f64_lit 2 3) = "0.666667"%string.
Proof. reflexivity. Qed.
Example fmt_f_tie : fmt_f 1 (f64_lit 25 100) = "0.2"%string.
Proof. reflexivity. Qed.
Example strtod_exponent : strtod " -12.5e1xyz" = Some (f64_of_Z (-125)).
Proof. reflexivity. Qed.
Example strtod_hex : strtod "0x1.8p3" = Some (f64_of_Z 12).
Proof. vm_compute. reflexivity. Qed.
Example strtod_bare_hex : strtod "0xg" = Some (S754_zero false).
Proof. reflexivity. Qed.

(** ** Printing and reading *)
Lemma string_app_assoc (a b c : string) : ((a ++ b) ++ c = a ++ (b ++ c))%string.
Proof. induction a as [|x a IH]; [done|]. cbn. by rewrite IH. Qed.

Lemma dec_fixed_app k n a r : (dec_fixed k n a ++ r)%string = dec_fixed k n (a ++ r).
Proof. revert n a. induction k as [|k IH]; intros n a; [done|]. cbn [dec_fixed]. by rewrite IH. Qed.

Lemma digit_spec n : 0 <= n < 10 -> is_digit (digit n) = true /\ digit_value (digit n) = n.
Proof.
  intros Hn. assert (n ∈ seqZ 0 10) as H by (apply elem_of_seqZ; lia). revert H.
  change (seqZ 0 10) with [0; 1; 2; 3; 4; 5; 6; 7; 8; 9]. rewrite !elem_of_cons, elem_of_nil.
  intros Hc. repeat destruct Hc as [->|Hc]; done.
Qed.

(** Reading digits back. *)
Lemma digits_fixed k n a acc j :
  0 <= n < 10 ^ Z.of_nat k -> digits (dec_fixed k n a) acc j = digits a (acc * 10 ^ Z.of_nat k + n) (j + Z.of_nat k).
Proof.
  revert n a. induction k as [|k IH]; intros n a Hn; cbn [dec_fixed].
  { change (10 ^ Z.of_nat 0) with 1 in *. do 2 f_equal; lia. }
  rewrite Nat2Z.inj_succ, Z.pow_succ_r in * by lia. pose proof (Z.div_mod n 10 ltac:(lia)) as Hdm.
  pose proof (Z.mod_pos_bound n 10 ltac:(lia)) as Hb. rewrite IH.
  - destruct (digit_spec (n mod 10) Hb) as [H1 H2]. cbn [digits]. rewrite H1, H2. f_equal; lia.
  - split; [apply Z.div_pos; lia|]. apply Z.div_lt_upper_bound; lia.
Qed.

Lemma dec_loop_fixed fuel n acc :
  0 <= n < 2 ^ Z.of_nat fuel -> (0 < fuel)%nat ->
  exists k, (k < fuel)%nat /\ dec_loop fuel n acc = dec_fixed (S k) n acc /\ n < 10 ^ Z.of_nat (S k).
Proof.
  revert n acc. induction fuel as [|fuel IH]; intros n acc Hn Hf; [lia|]. cbn [dec_loop].
  destruct (Z.ltb_spec n 10) as [Hl|Hl]. { exists 0%nat. split_and!; [lia|done|done]. }
  rewrite Nat2Z.inj_succ, Z.pow_succ_r in Hn by lia. pose proof (Z.div_mod n 10 ltac:(lia)). pose proof (Z.mod_pos_bound n 10 ltac:(lia)).
  destruct fuel as [|fuel]; [change (2 ^ Z.of_nat 0) with 1 in Hn; lia|].
  destruct (IH (n / 10) (String (digit (n mod 10)) acc)) as (k & Hk & -> & Hb); [|lia|].
  { split; [apply Z.div_pos; lia|]. apply Z.div_lt_upper_bound; lia. }
  exists (S k). split; [lia|]. split; [done|]. rewrite Nat2Z.inj_succ, Z.pow_succ_r by lia. lia.
Qed.

Lemma dec_as_fixed n :
  0 <= n -> exists k, (k <= Z.to_nat (Z.log2 n))%nat /\ dec n = dec_fixed (S k) n EmptyString /\ n < 10 ^ Z.of_nat (S k).
Proof.
  intros Hn. pose proof (Z.log2_nonneg n). destruct (dec_loop_fixed (Z.to_nat (Z.log2 n + 1)) n EmptyString) as (k & Hk & E & Hb); [|lia|].
  - split; [done|]. rewrite Z2Nat.id by lia. destruct (Z.eq_dec n 0) as [->|]; [done|]. apply Z.log2_spec. lia.
  - exists k. split; [lia|done].
Qed.

Lemma digits_dec n a acc j : 0 <= n -> exists k, digits (dec n ++ a) acc j = digits a (acc * 10 ^ Z.of_nat (S k) + n) (j + Z.of_nat (S k)).
Proof.
  intros Hn. destruct (dec_as_fixed n Hn) as (k & _ & -> & Hb). exists k. rewrite dec_fixed_app. by apply digits_fixed.
Qed.

(** What begins a printed number. *)
Lemma dec_fixed_head k n a :
  exists c s, dec_fixed (S k) n a = String c s /\ is_digit c = true /\ (s = a \/ exists c' s', s = String c' s' /\ is_digit c' = true).
Proof.
  revert n a. induction k as [|k IH]; intros n a.
  - exists (digit (n mod 10)), a. split; [done|]. split; [|by left]. apply digit_spec. apply Z.mod_pos_bound. lia.
  - change (dec_fixed (S (S k)) n a) with (dec_fixed (S k) (n / 10) (String (digit (n mod 10)) a)).
    destruct (IH (n / 10) (String (digit (n mod 10)) a)) as (c & s & -> & Hc & Hs). exists c, s. split; [done|]. split; [done|]. right.
    destruct Hs as [->|Hs]; [|done]. exists (digit (n mod 10)), a. split; [done|]. apply digit_spec. apply Z.mod_pos_bound. lia.
Qed.

Lemma digit_char c : is_digit c = true ->
  is_space c = false /\ lower c = c /\ c <> "-"%char /\ c <> "+"%char /\ c <> "."%char /\ c <> QUOTE /\ c <> "i"%char /\ c <> "n"%char /\ c <> "x"%char.
Proof. destruct c as [[] [] [] [] [] [] [] []]; try discriminate; intros _; split_and!; try reflexivity; discriminate. Qed.

(** The text [%.pf] writes for the magnitude of a number. *)
Definition point_text (p : nat) (n : Z) : string :=
  (dec (n / 10 ^ Z.of_nat p) ++ "." ++ dec_fixed p (n mod 10 ^ Z.of_nat p) EmptyString)%string.

(** A text that ends a number. *)
Definition ends_number (r : string) : Prop :=
  match r with String c _ => is_digit c = false /\ Ascii.eqb (lower c) "e" = false | EmptyString => True end.

Lemma ends_digits r acc j : ends_number r -> digits r acc j = (acc, j, r).
Proof. destruct r as [|c r]; [done|]. intros [H _]. cbn. by rewrite H. Qed.

Lemma ends_exponent r : ends_number r -> exponent "e" r = 0.
Proof. destruct r as [|c r]; [done|]. intros [_ H]. cbn [exponent]. by rewrite H. Qed.

Lemma prefix_ci_head (p : ascii) (pat : string) c s : lower c <> p -> prefix_ci (String p pat) (String c s) = false.
Proof.
  intros H. unfold prefix_ci. cbn [list_ascii_of_string map string_of_list_ascii String.prefix].
  destruct (ascii_dec p (lower c)); [congruence|done].
Qed.

(** [strtod] on a printed magnitude. *)
Lemma point_text_digits p n r acc j :
  0 <= n -> ends_number r -> exists k, 0 < k /\
    let '(m, d, r1) := digits (point_text p n ++ r) acc j in
    exists r2, after_point r1 = Some r2 /\ digits r2 m 0 = (acc * 10 ^ (k + Z.of_nat p) + n, Z.of_nat p, r) /\ d = j + k.
Proof.
  intros Hn Hr. unfold point_text. pose proof (pow10 := Z.pow_pos_nonneg 10 (Z.of_nat p) ltac:(lia) ltac:(lia)).
  destruct (digits_dec (n / 10 ^ Z.of_nat p) ("." ++ dec_fixed p (n mod 10 ^ Z.of_nat p) EmptyString ++ r) acc j) as [k E].
  { apply Z.div_pos; lia. }
  exists (Z.of_nat (S k)). split; [lia|]. rewrite !string_app_assoc. rewrite E. cbn [String.append digits].
  change (is_digit ".") with false. cbv iota. eexists. split; [reflexivity|]. split; [|done].
  rewrite dec_fixed_app, digits_fixed by (by apply Z.mod_pos_bound). cbn [String.append]. rewrite ends_digits by done.
  rewrite Z.add_0_l. do 2 f_equal. pose proof (Z.div_mod n (10 ^ Z.of_nat p) ltac:(lia)). rewrite Z.pow_add_r by lia. nia.
Qed.

Lemma point_text_head p n r :
  0 <= n -> exists c s, (point_text p n ++ r)%string = String c s /\ is_digit c = true /\
    exists c' s', s = String c' s' /\ (is_digit c' = true \/ c' = "."%char).
Proof.
  intros Hn. unfold point_text. pose proof (pow10 := Z.pow_pos_nonneg 10 (Z.of_nat p) ltac:(lia) ltac:(lia)).
  destruct (dec_as_fixed (n / 10 ^ Z.of_nat p)) as (k & _ & -> & _); [apply Z.div_pos; lia|].
  rewrite !string_app_assoc, dec_fixed_app. cbn [String.append].
  destruct (dec_fixed_head k (n / 10 ^ Z.of_nat p) (String "." (dec_fixed p (n mod 10 ^ Z.of_nat p) EmptyString ++ r))) as (c & s & -> & Hc & Hs).
  exists c, s. split; [done|]. split; [done|]. destruct Hs as [->|(c' & s' & -> & Hc')]; [|by exists c', s'; split; [|left]].
  eexists _, _. split; [done|by right].
Qed.

Lemma strtod_point p n r :
  0 <= n -> ends_number r -> strtod (point_text p n ++ r) = Some (f64_decimal false n (- Z.of_nat p)).
Proof.
  intros Hn Hr. destruct (point_text_head p n r Hn) as (c & s & E & Hc & c' & s' & -> & Hc').
  destruct (point_text_digits p n r 0 0 Hn Hr) as (k & Hk & Hd). rewrite E in *. unfold strtod.
  destruct (digit_char c Hc) as (H1 & H2 & H3 & H4 & H5 & H6 & H7 & H8 & H9). cbn [skip_spaces]. rewrite H1.
  assert (sign_of (String c (String c' s')) = (false, String c (String c' s'))) as ->.
  { revert Hc. clear. by destruct c as [[] [] [] [] [] [] [] []]. }
  assert (prefix_ci "0x" (String c (String c' s')) = false) as Hx.
  { unfold prefix_ci. cbn [list_ascii_of_string map string_of_list_ascii String.prefix]. destruct (ascii_dec "0" (lower c)); [|done].
    destruct (ascii_dec "x" (lower c')) as [Ex|]; [|done]. destruct Hc' as [Hc'| ->]; [|discriminate Ex].
    destruct (digit_char c' Hc') as (_ & Hl & Hrest). rewrite Hl in Ex. symmetry in Ex. tauto. }
  rewrite !prefix_ci_head by congruence. rewrite Hx. cbn [Z.add Z.ltb Z.compare].
  destruct (digits (String c (String c' s')) 0 0) as [[m d] r1]. destruct Hd as (r2 & -> & -> & ->).
  rewrite ends_exponent by done. rewrite (proj2 (Z.eqb_neq _ _)) by lia. do 2 f_equal; lia.
Qed.
