(* ===== verification/Corpus.v ===== *)
(** * Benchmark corpus

    src/bench/bench_corpus.{h,c}: the seeded generators of the eight workloads.
    A generator is a computation on the corpus record and on the two function
    static objects of the file (the clock of the financial ticks and the
    counters of the telemetry packets); it draws numbers from the splitmix64
    state and writes the packet buffer, whose accesses are bounds checked. *)

From Stdlib Require Import String Ascii.
From stdpp Require Import prelude.
From Stdlib Require Import ZArith Lia SpecFloat.
From S2P Require Import Prelude Double.

Local Open Scope Z_scope.

(** ** Data *)
Inductive bench_workload_t : Type :=
| BENCH_WL_001 | BENCH_WL_002 | BENCH_WL_003 | BENCH_WL_004
| BENCH_WL_005 | BENCH_WL_006 | BENCH_WL_007 | BENCH_WL_008
| BENCH_WL_ALL.

#[export] Instance bench_workload_eq_dec : EqDecision bench_workload_t.
Proof. solve_decision. Defined.

Definition BENCH_CORPUS_MAX_PKT : Z := 512.
Definition BENCH_CORPUS_TRAIN_N : Z := 50000.

Record bench_corpus_t : Type := Corpus {
  k_workload : bench_workload_t;
  k_rng : Z;
  k_seed : Z;
  k_packet : list Z;
  k_pkt_len : Z;
  k_wl007_phase : Z;
  k_wl004_price : spec_float }.

(** The objects with static storage inside gen_financial_tick and
    gen_telemetry: shared by every corpus of the process. *)
Record corpus_statics : Type := Statics {
  tick_ns : Z;
  base_ctrs : list Z;
  ctrs_init : bool }.

(** Their values when the process starts. *)
Definition statics0 : corpus_statics := Statics 0 (replicate 32 0) false.

Definition set_rng (c : bench_corpus_t) (r : Z) : bench_corpus_t :=
  Corpus (k_workload c) r (k_seed c) (k_packet c) (k_pkt_len c) (k_wl007_phase c) (k_wl004_price c).
Definition set_packet (c : bench_corpus_t) (p : list Z) : bench_corpus_t :=
  Corpus (k_workload c) (k_rng c) (k_seed c) p (k_pkt_len c) (k_wl007_phase c) (k_wl004_price c).
Definition set_len (c : bench_corpus_t) (n : Z) : bench_corpus_t :=
  Corpus (k_workload c) (k_rng c) (k_seed c) (k_packet c) n (k_wl007_phase c) (k_wl004_price c).
Definition set_phase (c : bench_corpus_t) (n : Z) : bench_corpus_t :=
  Corpus (k_workload c) (k_rng c) (k_seed c) (k_packet c) (k_pkt_len c) n (k_wl004_price c).
Definition set_price (c : bench_corpus_t) (x : spec_float) : bench_corpus_t :=
  Corpus (k_workload c) (k_rng c) (k_seed c) (k_packet c) (k_pkt_len c) (k_wl007_phase c) x.

(** ** splitmix64 *)
Definition sm64_next (state : Z) : Z * Z :=
  let state := u64 (state + 0x9e3779b97f4a7c15) in
  let z := state in
  let z := u64 (Z.lxor z (Z.shiftr z 30) * 0xbf58476d1ce4e5b9) in
  let z := u64 (Z.lxor z (Z.shiftr z 27) * 0x94d049bb133111eb) in
  (Z.lxor z (Z.shiftr z 31), state).

Definition sm64_f64 (s : Z) : spec_float * Z :=
  let '(z, s) := sm64_next s in
  (f64_mul (f64_of_Z (Z.shiftr z 11)) (f64_div f64_one (f64_of_Z (2 ^ 53))), s).

Definition sm64_range (s lo hi : Z) : outcome unit (Z * Z) :=
  let '(f, s) := sm64_f64 s in
  n ← f64_to_uint 32 (f64_mul f (f64_of_Z (u32 (hi - lo + 1))));
  Ok (u32 (lo + n), s).

(** ** Generator computations *)
Definition gen (A : Type) : Type :=
  bench_corpus_t * corpus_statics -> outcome unit (A * (bench_corpus_t * corpus_statics)).
#[export] Instance gen_ret : MRet gen := fun A a w => Ok (a, w).
#[export] Instance gen_bind : MBind gen := fun A B f m w => '(a, w') ← m w; f a w'.

Definition next : gen Z := fun '(c, st) => let '(z, r) := sm64_next (k_rng c) in Ok (z, (set_rng c r, st)).
Definition f64 : gen spec_float := fun '(c, st) => let '(f, r) := sm64_f64 (k_rng c) in Ok (f, (set_rng c r, st)).
Definition range (lo hi : Z) : gen Z := fun '(c, st) =>
  '(n, r) ← sm64_range (k_rng c) lo hi; Ok (n, (set_rng c r, st)).

(** A step that cannot be done, and [1u << n]. *)
Definition glift {A} (m : outcome unit A) : gen A := fun w => a ← m; Ok (a, w).
Definition shl1 (n : Z) : gen Z := glift (if (0 <=? n) && (n <? 32) then Ok (2 ^ n) else Undef).

(** [p[i] = b], [memcpy(p + off, bs, n)], [memset(p + off, b, n)] on the packet. *)
Definition poke (i b : Z) : gen unit := fun '(c, st) =>
  p ← aset (k_packet c) i (u8 b); Ok (tt, (set_packet c p, st)).
Fixpoint memcpy (off : Z) (bs : list Z) : gen unit :=
  match bs with
  | [] => mret tt
  | b :: bs' => poke off b;; memcpy (off + 1) bs'
  end.
Definition memset (off b n : Z) : gen unit := memcpy off (replicate (Z.to_nat n) b).

Definition set_pkt_len (n : Z) : gen unit := fun '(c, st) => Ok (tt, (set_len c n, st)).

(** [for] loops, with and without a value per iteration. *)
Fixpoint gfor {A} (l : list A) (body : A -> gen unit) : gen unit :=
  match l with
  | [] => mret tt
  | a :: l' => body a;; gfor l' body
  end.
Fixpoint gcollect {A B} (l : list A) (body : A -> gen B) : gen (list B) :=
  match l with
  | [] => mret []
  | a :: l' => b ← body a; bs ← gcollect l' body; mret (b :: bs)
  end.

(** The bytes of a float array. *)
Definition floats_bytes (fs : list spec_float) : list Z := flat_map (fun f => le_bytes 4 (f32_bits f)) fs.

(** ** WL-001 to WL-003: game state *)

(** A coordinate: [(float)((sm64_f64(&c->rng) - 0.5) * scale)]. *)
Definition coordinate (scale : Z) : gen spec_float :=
  f ← f64; mret (f32_of_f64 (f64_mul (f64_sub f (f64_lit 1 2)) (f64_of_Z scale))).
(** [(float)(sm64_f64(&c->rng) * 0.1 - 0.05)] *)
Definition small_angle : gen spec_float :=
  f ← f64; mret (f32_of_f64 (f64_sub (f64_mul f (f64_lit 1 10)) (f64_lit 5 100))).

Definition gen_inventory (i : Z) : gen unit :=
  r ← range 0 10;
  item ← (if r =? 0 then range 1 1000 else mret 0);
  memcpy (68 + i * 2) (le_bytes 2 (u16 item)).

Definition gen_extended : gen unit :=
  anim ← range 0 500;
  memcpy 64 (le_bytes 2 (u16 anim));;
  h ← range 0 200;
  memcpy 66 (le_bytes 2 (u16 (u32 (10000 - h))));;
  gfor (seqZ 0 20) gen_inventory;;
  rot0 ← small_angle;
  rot1 ← small_angle;
  rot2 ← small_angle;
  let sq r := f64_mul (f64_of_f32 r) (f64_of_f32 r) in
  let w2 := f64_sub (f64_sub (f64_sub f64_one (sq rot0)) (sq rot1)) (sq rot2) in
  let rot3 := if SFltb f64_zero w2 then f32_of_f64 (f64_sqrt w2) else S754_zero false in
  memcpy 108 (floats_bytes [rot0; rot1; rot2; rot3]).

Definition gen_status (i : Z) : gen unit :=
  r ← range 0 15;
  b ← (if r =? 0 then range 1 255 else mret 0);
  poke (128 + i) b.

Definition gen_chat : gen unit :=
  r ← range 0 9;
  if r =? 0 then
    chat_len ← range 1 60;
    gfor (seqZ 0 chat_len) (fun i => ch ← range 32 126; poke (144 + i) ch)
  else mret tt.

Definition gen_scores : gen unit :=
  gfor (seqZ 0 16) gen_status;;
  gen_chat;;
  score ← range 0 9999;
  memcpy 208 (le_bytes 4 score);;
  kills ← range 0 200;
  memcpy 212 (le_bytes 2 (u16 kills));;
  deaths ← range 0 100;
  memcpy 214 (le_bytes 2 (u16 deaths)).

Definition gen_game_state (pkt_size : Z) : gen unit :=
  memset 0 0 pkt_size;;
  player_id ← range 1 1000;
  memcpy 0 (le_bytes 4 player_id);;
  seq ← next;
  memcpy 4 (le_bytes 4 (u32 (Z.land seq 0x00FFFFFF)));;
  tick ← next;
  memcpy 8 (le_bytes 8 (Z.land tick 0x0000FFFFFFFFFFFF));;
  r ← range 0 7;
  flags ← shl1 r;
  memcpy 16 (le_bytes 2 (u16 flags));;
  pos ← gcollect (seqZ 0 3) (fun _ => coordinate 200);
  memcpy 32 (floats_bytes pos);;
  vel ← gcollect (seqZ 0 3) (fun _ => coordinate 20);
  memcpy 44 (floats_bytes vel);;
  gfor (seqZ 0 8) (fun i => b ← range 0 255; poke (56 + i) b);;
  (if 128 <=? pkt_size then gen_extended else mret tt);;
  (if 256 <=? pkt_size then gen_scores else mret tt);;
  set_pkt_len pkt_size.

(** ** WL-004: financial ticks *)
Definition chars (s : string) : list Z := map (fun ch => Z.of_N (N_of_ascii ch)) (list_ascii_of_string s).
Definition s_symbols : list (list Z) := map chars
  ["AAPL    "; "MSFT    "; "GOOGL   "; "AMZN    "; "TSLA    ";
   "NVDA    "; "META    "; "BRK.B   "; "JPM     "; "UNH     "]%string.
Definition NUM_SYMBOLS : Z := 10.

Definition get_price : gen spec_float := fun '(c, st) => Ok (k_wl004_price c, (c, st)).
Definition put_price (x : spec_float) : gen unit := fun '(c, st) => Ok (tt, (set_price c x, st)).
Definition get_statics : gen corpus_statics := fun '(c, st) => Ok (st, (c, st)).
Definition put_statics (st : corpus_statics) : gen unit := fun '(c, _) => Ok (tt, (c, st)).

(** The price walk, clamped to [1, 10000]. *)
Definition walk_price (price delta : spec_float) : spec_float :=
  let x := f64_mul price (f64_add f64_one delta) in
  let x := if SFltb x f64_one then f64_one else x in
  if SFltb (f64_of_Z 10000) x then f64_of_Z 10000 else x.

(** The clamp of the volume. *)
Definition clamp_volume (vol_f : spec_float) : spec_float :=
  if SFltb vol_f f64_one then f64_one else if SFltb (f64_of_Z 100000) vol_f then f64_of_Z 100000 else vol_f.

(** [tick_ns += dt], started at 2024-01-01 when it is 0. *)
Definition advance_tick (dt : Z) (st : corpus_statics) : corpus_statics :=
  let t := if tick_ns st =? 0 then 1704067200000000000 else tick_ns st in
  Statics (u64 (t + dt)) (base_ctrs st) (ctrs_init st).

Section Financial.
(** libm's [exp]. *)
Context (c_exp : spec_float -> spec_float).

Definition gen_financial_tick : gen unit :=
  memset 0 0 32;;
  sym_idx ← range 0 (NUM_SYMBOLS - 1);
  sym ← glift (aget s_symbols sym_idx);
  memcpy 0 sym;;
  f ← f64;
  price ← get_price;
  put_price (walk_price price (f64_mul (f64_sub f (f64_lit 1 2)) (f64_lit 2 100)));;
  price ← get_price;
  memcpy 8 (le_bytes 8 (f64_bits price));;
  f ← f64;
  let vol_f := c_exp (f64_add (f64_mul f (f64_of_Z 4)) (f64_of_Z 3)) in
  volume ← glift (f64_to_uint 32 (clamp_volume vol_f));
  memcpy 16 (le_bytes 4 volume);;
  st ← get_statics;
  dt ← range 100 10000;
  put_statics (advance_tick dt st);;
  st ← get_statics;
  memcpy 20 (le_bytes 8 (tick_ns st));;
  r ← range 0 7;
  flags ← (if r =? 0 then b ← range 0 3; shl1 b else mret 0);
  memcpy 28 (le_bytes 4 flags);;
  set_pkt_len 32.

(** ** WL-005: telemetry *)
Definition gen_reading (n_sensors i : Z) : gen unit :=
  sid ← (if i <? n_sensors then range 1 100 else mret 0);
  val ← (if i <? n_sensors then coordinate 100 else mret (S754_zero false));
  memcpy (16 + i * 8 + 0) (le_bytes 4 sid);;
  memcpy (16 + i * 8 + 4) (floats_bytes [val]).

(** First use: the flag is set and the counters cleared. *)
Definition init_ctrs : gen unit :=
  st ← get_statics;
  if ctrs_init st then mret tt else put_statics (Statics (tick_ns st) (replicate 32 0) true).

Definition gen_counter (i : Z) : gen unit :=
  d ← range 0 10;
  st ← get_statics;
  ctr ← glift (aget (base_ctrs st) i);
  ctrs ← glift (aset (base_ctrs st) i (u32 (ctr + d)));
  put_statics (Statics (tick_ns st) ctrs (ctrs_init st));;
  memcpy (272 + i * 4) (le_bytes 4 (u32 (ctr + d))).

Definition gen_enum (i : Z) : gen unit :=
  r ← range 0 4;
  b ← (if r =? 0 then range 1 15 else mret 0);
  poke (400 + i) b.

Definition gen_telemetry : gen unit :=
  memset 0 0 512;;
  dev_id ← range 1 500;
  memcpy 0 (le_bytes 8 dev_id);;
  n_sensors ← range 8 32;
  memcpy 8 (le_bytes 4 n_sensors);;
  flags ← range 0 15;
  memcpy 12 (le_bytes 4 flags);;
  gfor (seqZ 0 32) (gen_reading n_sensors);;
  init_ctrs;;
  gfor (seqZ 0 32) gen_counter;;
  gfor (seqZ 0 64) gen_enum;;
  set_pkt_len 512.

(** ** WL-006: random bytes; WL-007: repetitive patterns; WL-008: the mix *)
Definition gen_random : gen unit :=
  gfor (map (Z.mul 8) (seqZ 0 16)) (fun i => v ← next; memcpy i (le_bytes 8 v));;
  gfor (seqZ 128 (128 - 128)) (fun i => v ← next; poke i (u8 v));;
  set_pkt_len 128.

Definition get_phase : gen Z := fun '(c, st) => Ok (k_wl007_phase c, (c, st)).
(** [c->wl007_phase++] on an int. *)
Definition incr_phase : gen unit := fun '(c, st) =>
  if k_wl007_phase c <? 2 ^ 31 - 1 then Ok (tt, (set_phase c (k_wl007_phase c + 1), st)) else Undef.

Definition repetitive_pattern (phase : Z) : gen unit :=
  match Z.land phase 3 with
  | 0 => memset 0 0x00 128
  | 1 => memset 0 0xFF 128
  | 2 => memset 0 0x00 64;; memset 64 0xFF 64
  | 3 => gfor (seqZ 0 128) (fun i => poke i (if Z.odd i then 0x55 else 0xAA))
  | _ => mret tt
  end.

Definition gen_repetitive : gen unit :=
  phase ← get_phase;
  repetitive_pattern phase;;
  incr_phase;;
  set_pkt_len 128.

Definition gen_mixed : gen unit :=
  r ← range 0 99;
  if r <? 60 then gen_game_state 64
  else if r <? 80 then gen_game_state 128
  else if r <? 90 then gen_telemetry
  else gen_random.

(** ** Public interface *)
Definition bench_corpus_init (wl : bench_workload_t) (seed : Z) : bench_corpus_t :=
  Corpus wl seed seed (replicate 512 0) 0 0 (f64_of_Z 100).

Definition bench_corpus_reset (c : bench_corpus_t) : bench_corpus_t :=
  bench_corpus_init (k_workload c) (k_seed c).

Definition gen_packet (wl : bench_workload_t) : gen unit :=
  match wl with
  | BENCH_WL_001 => gen_game_state 64
  | BENCH_WL_002 => gen_game_state 128
  | BENCH_WL_003 => gen_game_state 256
  | BENCH_WL_004 => gen_financial_tick
  | BENCH_WL_005 => gen_telemetry
  | BENCH_WL_006 => gen_random
  | BENCH_WL_007 => gen_repetitive
  | BENCH_WL_008 => gen_mixed
  | BENCH_WL_ALL => set_pkt_len 0
  end.

Definition bench_corpus_next : gen Z := fun '(c, st) =>
  '(_, (c, st)) ← gen_packet (k_workload c) (c, st); Ok (k_pkt_len c, (c, st)).

(** [bufs] as offsets into [storage]. *)
Definition train_step (s : list Z * list Z * list Z * (bench_corpus_t * corpus_statics)) (i : Z)
  : outcome unit (list Z * list Z * list Z * (bench_corpus_t * corpus_statics)) :=
  let '(bufs, lens, storage, w) := s in
  let buf := i * BENCH_CORPUS_MAX_PKT in
  '(len, w) ← bench_corpus_next w;
  pkt ← peek (k_packet (fst w)) 0 len;
  storage ← blit storage buf pkt;
  Ok (bufs ++ [buf], lens ++ [len], storage, w).

Definition bench_corpus_train (wl : bench_workload_t) (seed n : Z) (storage : list Z) (st : corpus_statics)
  : outcome unit (list Z * list Z * list Z * corpus_statics) :=
  '(bufs, lens, storage, w) ← foldM train_step ([], [], storage, (bench_corpus_init wl seed, st)) (seqZ 0 n);
  Ok (bufs, lens, storage, snd w).
End Financial.

Definition bench_workload_name (wl : bench_workload_t) : string :=
  match wl with
  | BENCH_WL_001 => "WL-001 Game State 64B"
  | BENCH_WL_002 => "WL-002 Game State 128B"
  | BENCH_WL_003 => "WL-003 Game State 256B"
  | BENCH_WL_004 => "WL-004 Financial Tick 32B"
  | BENCH_WL_005 => "WL-005 Telemetry 512B"
  | BENCH_WL_006 => "WL-006 Random 128B"
  | BENCH_WL_007 => "WL-007 Repetitive 128B"
  | BENCH_WL_008 => "WL-008 Mixed Traffic"
  | BENCH_WL_ALL => "WL-??? Unknown"
  end.

Definition bench_workload_pkt_size (wl : bench_workload_t) : Z :=
  match wl with
  | BENCH_WL_001 => 64
  | BENCH_WL_002 => 128
  | BENCH_WL_003 => 256
  | BENCH_WL_004 => 32
  | BENCH_WL_005 => 512
  | BENCH_WL_006 => 128
  | BENCH_WL_007 => 128
  | BENCH_WL_008 => 0
  | BENCH_WL_ALL => 0
  end.

(** The first outputs of splitmix64 for the seeds 0 and 42. *)
Example sm64_first : fst (sm64_next 0) = 0xE220A8397B1DCDAF /\ fst (sm64_next 42) = 0xBDD732262FEB6E95.
Proof. split; reflexivity. Qed.

(** ** The pseudo-random numbers *)
Lemma sm64_next_spec s : 0 <= fst (sm64_next s) < 2 ^ 64 /\ 0 <= snd (sm64_next s) < 2 ^ 64.
Proof.
  unfold sm64_next. cbn [fst snd].
  assert (forall x, 0 <= u64 x < 2 ^ 64) as Hu by (intros; by apply Z.mod_pos_bound).
  split; [|apply Hu]. set (z := u64 _). pose proof (Hu _ : 0 <= z < _). clearbody z.
  apply lxor_lt; [lia|done|]. rewrite Z.shiftr_div_pow2 by lia. dlia.
Qed.

(** A uniform double: [n / 2^53] for the upper 53 bits [n] of the draw. *)
Lemma sm64_f64_spec s :
  fst (sm64_f64 s) = S754_zero false \/ exists m e n, fst (sm64_f64 s) = S754_finite false m e /\ -157 <= e <= 0 /\
    Zdigits2 (Zpos m) <= 53 /\ 0 < n < 2 ^ 53 /\ Zpos m * 2 ^ 53 = n * 2 ^ (- e).
Proof.
  unfold sm64_f64. pose proof (sm64_next_spec s) as [Hz _]. destruct (sm64_next s) as [z r]. cbn [fst] in *.
  change (f64_div f64_one (f64_of_Z (2 ^ 53))) with (S754_finite false (2 ^ 52) (-105)).
  set (n := Z.shiftr z 11). assert (0 <= n < 2 ^ 53) as Hn.
  { unfold n. rewrite Z.shiftr_div_pow2 by lia. dlia. }
  destruct (Z.eq_dec n 0) as [->|Hne]; [by left|right].
  destruct (f64_of_Z_spec n) as (m & k & Hk & -> & Hm & Hd); [lia|].
  destruct (f64_mul_spec m (- k) (2 ^ 52) (-105)) as (m' & k' & Hk' & -> & Hm' & Hd'); [lia|done|lia|].
  change (Zpos (2 ^ 52)) with (2 ^ 52) in Hm'. rewrite rnd53_shift in Hm' by lia. rewrite Hm in Hm'.
  assert (k' < 105 + k) as Hk2.
  { apply Z.nle_gt. intros Hge. pose proof (Z.pow_le_mono_r 2 (105 + k) k' ltac:(lia) Hge) as Hle.
    replace (105 + k) with (53 + 52 + k) in Hle by lia. rewrite !Z.pow_add_r in Hle by lia.
    pose proof (pow2_pos k ltac:(lia)). nia. }
  exists m', (- k + -105 + k'), n. split; [done|]. split_and!; try lia.
  replace (- (- k + -105 + k')) with (53 + k + 52 - k') by lia.
  apply (Z.mul_cancel_r _ _ (2 ^ k')); [apply Z.pow_nonzero; lia|].
  rewrite <- !Z.mul_assoc, <- (Z.pow_add_r 2 (53 + k + 52 - k') k') by lia.
  replace (53 + k + 52 - k' + k') with (53 + k + 52) by lia. rewrite !Z.pow_add_r by lia. nia.
Qed.

(** [sm64_range] is uniform in [lo, hi]: in particular the product of a draw below
    1 with the size of the range never rounds up to that size. *)
Lemma sm64_range_spec s lo hi :
  0 <= lo <= hi -> hi < 2 ^ 31 ->
  exists n r, sm64_range s lo hi = Ok (n, r) /\ lo <= n <= hi.
Proof.
  intros Hlo Hhi. unfold sm64_range. pose proof (sm64_f64_spec s) as Hf. destruct (sm64_f64 s) as [f r]. cbn [fst] in Hf.
  set (w := hi - lo + 1). assert (0 < w < 2 ^ 32) as Hw by lia. rewrite (u32_small w) by lia.
  destruct (f64_of_Z_spec w) as (m2 & k2 & Hk2 & -> & Hm2 & Hd2); [lia|].
  assert (exists n, @f64_to_uint unit 32 (f64_mul f (S754_finite false m2 (- k2))) = Ok n /\ 0 <= n < w) as (n & -> & Hn).
  { destruct Hf as [->|(m & e & n & -> & He & Hd & Hn & Hmn)]; [exists 0; split; [done|lia]|].
    destruct (f64_mul_spec m e m2 (- k2)) as (m' & k & Hk & -> & Hm' & _); [done|lia|lia|].
    unfold f64_to_uint. rewrite (f64_trunc_spec m' (e + - k2) k _ Hk ltac:(lia) Hm').
    set (x := Zpos m * Zpos m2) in *. replace (- (e + - k2)) with (- e + k2) by lia.
    pose proof (pow2_pos (- e + k2) ltac:(lia)) as Hpe.
    assert (0 < x) as Hx by lia. pose proof (rnd53_range x Hx) as [Hr0 _].
    assert (x * 2 ^ 53 = n * w * 2 ^ (- e + k2)) as Hxw.
    { unfold x. rewrite Hm2, Z.pow_add_r by lia. nia. }
    assert (rnd53 x < w * 2 ^ (- e + k2)) as Hr.
    { destruct (rnd53_upper x Hx) as [Hu|[_ ->]]; [|nia].
      destruct (Z.le_gt_cases (Zdigits2 x) 53) as [Hs|Hs].
      { unfold rnd53. rewrite (proj2 (Z.leb_le _ _)) by lia. nia. }
      pose proof (digits2_spec x Hx) as [Hl _].
      replace (Zdigits2 x - 1) with (Zdigits2 x - 54 + 53) in Hl by lia. rewrite Z.pow_add_r in Hl by lia.
      pose proof (pow2_pos (Zdigits2 x - 54) ltac:(lia)). nia. }
    pose proof (pow2_pos (Zdigits2 x - 1) ltac:(pose proof (Zdigits2_pos x Hx); lia)).
    assert (0 <= rnd53 x / 2 ^ (- e + k2) < w) as Hq by (split; [apply Z.div_pos; lia|apply Z.div_lt_upper_bound; lia]).
    eexists. if_true. split; [done|lia]. }
  mstep. eexists _, _. split; [done|]. rewrite u32_small; lia.
Qed.

(** ** Generators stay within their buffers *)

(** The objects have the sizes of their declarations. *)
Definition winv (c : bench_corpus_t) (st : corpus_statics) : Prop :=
  zlen (k_packet c) = 512 /\ bytes (k_packet c) /\ zlen (base_ctrs st) = 32.

(** What the generators other than gen_repetitive leave alone. *)
Definition kept (c c' : bench_corpus_t) : Prop :=
  k_workload c' = k_workload c /\ k_seed c' = k_seed c /\ k_wl007_phase c' = k_wl007_phase c.

(** [m] returns a value in [Q], without an access out of bounds. *)
Definition safe {A} (m : gen A) (Q : A -> Prop) : Prop :=
  forall c st, winv c st -> exists a c' st', m (c, st) = Ok (a, (c', st')) /\ winv c' st' /\ kept c c' /\ Q a.

Lemma kept_refl c : kept c c.
Proof. done. Qed.
Lemma kept_trans a b c : kept a b -> kept b c -> kept a c.
Proof. intros (? & ? & ?) (? & ? & ?). split_and!; congruence. Qed.

Lemma safe_ret {A} (a : A) (Q : A -> Prop) : Q a -> safe (mret a) Q.
Proof. intros H c st Hw. exists a, c, st. by split_and!. Qed.

Lemma safe_gbind {A B} (m : gen A) (f : A -> gen B) Q R :
  safe m Q -> (forall a, Q a -> safe (f a) R) -> safe (m ≫= f) R.
Proof.
  intros Hm Hf c st Hw. destruct (Hm c st Hw) as (a & c1 & st1 & E1 & Hw1 & Hk1 & Ha).
  destruct (Hf a Ha c1 st1 Hw1) as (b & c2 & st2 & E2 & Hw2 & Hk2 & Hb).
  exists b, c2, st2. refine (conj _ (conj Hw2 (conj (kept_trans _ _ _ Hk1 Hk2) Hb))).
  unfold mbind, gen_bind. by rewrite E1.
Qed.

Lemma safe_true {A} (m : gen A) (Q : A -> Prop) : safe m Q -> safe m (fun _ => True).
Proof. intros H c st Hw. destruct (H c st Hw) as (a & c' & st' & ? & ? & ? & ?). by exists a, c', st'. Qed.

Lemma safe_glift {A} (m : outcome unit A) (Q : A -> Prop) a : m = Ok a -> Q a -> safe (glift m) Q.
Proof. intros -> H c st Hw. by exists a, c, st. Qed.

Lemma safe_next : safe next (fun _ => True).
Proof. intros c st Hw. unfold next. destruct (sm64_next _) as [z r]. by exists z, (set_rng c r), st. Qed.

Lemma safe_f64 : safe f64 (fun f => is_finite f = true).
Proof.
  intros c st Hw. unfold f64. pose proof (sm64_f64_spec (k_rng c)) as Hf. destruct (sm64_f64 _) as [f r]. cbn [fst] in Hf.
  exists f, (set_rng c r), st. split_and!; try done. by destruct Hf as [->|(? & ? & ? & -> & _)].
Qed.

Lemma safe_range lo hi : 0 <= lo <= hi -> hi < 2 ^ 31 -> safe (range lo hi) (fun n => lo <= n <= hi).
Proof.
  intros Hlo Hhi c st Hw. unfold range. destruct (sm64_range_spec (k_rng c) lo hi Hlo Hhi) as (n & r & -> & Hn).
  by exists n, (set_rng c r), st.
Qed.

Lemma safe_shl1 n : 0 <= n < 32 -> safe (shl1 n) (fun _ => True).
Proof. intros. unfold shl1. if_true. by eapply safe_glift. Qed.

Lemma safe_poke i b : 0 <= i < 512 -> safe (poke i b) (fun _ => True).
Proof.
  intros Hi c st (Hl & Hb & Hc). unfold poke. rewrite aset_ok by lia. mstep.
  eexists _, _, _. split; [done|]. split; [|by split_and!]. unfold winv. destruct c. cbn [set_packet k_packet] in *.
  rewrite length_insert. split_and!; [done| |done]. apply Forall_insert; [done|apply u8_range].
Qed.

Lemma safe_memcpy bs : forall off, 0 <= off -> off + zlen bs <= 512 -> safe (memcpy off bs) (fun _ => True).
Proof.
  induction bs as [|b bs IH]; intros off Ho Hl; cbn [memcpy]; [by apply safe_ret|]. cbn [length] in Hl.
  eapply safe_gbind; [apply safe_poke; lia|]. intros _ _. apply IH; lia.
Qed.

Lemma safe_memset off b n : 0 <= off -> 0 <= n -> off + n <= 512 -> safe (memset off b n) (fun _ => True).
Proof. intros. apply safe_memcpy; [done|]. rewrite length_replicate. lia. Qed.

Lemma safe_set_len n : safe (set_pkt_len n) (fun _ => True).
Proof. intros c st Hw. by exists tt, (set_len c n), st. Qed.

Lemma safe_for {A} (l : list A) body :
  (forall a, a ∈ l -> safe (body a) (fun _ => True)) -> safe (gfor l body) (fun _ => True).
Proof.
  induction l as [|a l IH]; intros H; cbn [gfor]; [by apply safe_ret|].
  eapply safe_gbind; [apply H; set_solver|]. intros _ _. apply IH. set_solver.
Qed.

Lemma safe_collect {A B} (l : list A) (body : A -> gen B) Q :
  (forall a, a ∈ l -> safe (body a) Q) -> safe (gcollect l body) (fun bs => length bs = length l).
Proof.
  induction l as [|a l IH]; intros H; cbn [gcollect]; [by apply safe_ret|].
  eapply safe_gbind; [apply H; set_solver|]. intros b _. eapply safe_gbind; [apply IH; set_solver|].
  intros bs Hbs. apply safe_ret. cbn [length]. by rewrite Hbs.
Qed.

Lemma safe_price x : safe (put_price x) (fun _ => True).
Proof. intros c st Hw. by exists tt, (set_price c x), st. Qed.
Lemma safe_get_price : safe get_price (fun _ => True).
Proof. intros c st Hw. by exists (k_wl004_price c), c, st. Qed.
Lemma safe_get_phase : safe get_phase (fun _ => True).
Proof. intros c st Hw. by exists (k_wl007_phase c), c, st. Qed.
Lemma safe_get_statics : safe get_statics (fun st => zlen (base_ctrs st) = 32).
Proof. intros c st Hw. exists st, c, st. split_and!; try done; apply Hw. Qed.
Lemma safe_put_statics st : zlen (base_ctrs st) = 32 -> safe (put_statics st) (fun _ => True).
Proof. intros H c st' (? & ? & ?). by exists tt, c, st. Qed.

Lemma floats_bytes_length fs : zlen (floats_bytes fs) = 4 * zlen fs.
Proof.
  induction fs as [|f fs IH]; [done|]. unfold floats_bytes in *. cbn [flat_map]. rewrite length_app, le_bytes_length.
  cbn [length]. lia.
Qed.

(** Side conditions of the rules: sizes of byte strings and loop indices. *)
Ltac gside :=
  rewrite ?floats_bytes_length, ?le_bytes_length;
  repeat match goal with H : _ ∈ seqZ _ _ |- _ => apply elem_of_seqZ in H end;
  repeat match goal with H : length ?x = length (seqZ _ _) |- _ => rewrite length_seqZ in H end;
  cbn [length] in *; lia.

Create HintDb gen.
#[export] Hint Extern 1 (_ <= _ < _) => gside : gen.
#[export] Hint Extern 1 (_ <= _ <= _) => gside : gen.

(** One rule of the generator logic. *)
Ltac grule :=
  first
    [ apply safe_next | apply safe_f64 | apply safe_range; lia | apply safe_shl1; lia
    | apply safe_poke; gside | apply safe_memcpy; gside | apply safe_memset; lia | apply safe_set_len
    | apply safe_price | apply safe_get_price | apply safe_get_statics | apply safe_get_phase
    | solve [auto with gen] ].
Ltac gstep :=
  match goal with
  | |- safe (mret _) _ => apply safe_ret; exact I
  | |- safe (if ?b then _ else _) _ => destruct b eqn:?; bool_to_prop
  | |- safe ((if _ then _ else _) ≫= _) _ => eapply (safe_gbind _ _ (fun _ => True)); [|intros ? _]
  | |- safe (gfor _ _) _ => apply safe_for; intros ? ?
  | |- safe (gcollect _ _) _ => eapply safe_collect; intros ? ?
  | |- safe (_ ≫= _) _ => eapply safe_gbind; [|intros ? ?]
  | |- safe (let _ := _ in _) _ => cbv zeta
  | |- safe _ _ => cbv beta in *; first [grule | eapply safe_true; grule]
  end.
Ltac gsafe := repeat gstep.

Lemma safe_coordinate scale : safe (coordinate scale) (fun _ => True).
Proof. unfold coordinate. gsafe. Qed.
Lemma safe_small_angle : safe small_angle (fun _ => True).
Proof. unfold small_angle. gsafe. Qed.
Lemma safe_inventory i : 0 <= i < 20 -> safe (gen_inventory i) (fun _ => True).
Proof. intros. unfold gen_inventory. gsafe. Qed.
Lemma safe_status i : 0 <= i < 16 -> safe (gen_status i) (fun _ => True).
Proof. intros. unfold gen_status. gsafe. Qed.
Lemma safe_chat : safe gen_chat (fun _ => True).
Proof. unfold gen_chat. gsafe. Qed.
Lemma safe_reading n i : 0 <= i < 32 -> safe (gen_reading n i) (fun _ => True).
Proof. intros. pose proof safe_coordinate. unfold gen_reading. gsafe; auto. Qed.
Lemma safe_enum i : 0 <= i < 64 -> safe (gen_enum i) (fun _ => True).
Proof. intros. unfold gen_enum. gsafe. Qed.
#[export] Hint Resolve safe_coordinate safe_small_angle safe_inventory safe_status safe_chat safe_reading safe_enum : gen.

Lemma safe_extended : safe gen_extended (fun _ => True).
Proof. unfold gen_extended. gsafe. Qed.
Lemma safe_scores : safe gen_scores (fun _ => True).
Proof. unfold gen_scores. gsafe. Qed.
#[export] Hint Resolve safe_extended safe_scores : gen.

Lemma safe_game_state n : 64 <= n <= 512 -> safe (gen_game_state n) (fun _ => True).
Proof. intros. unfold gen_game_state. gsafe. Qed.

Lemma safe_counter i : 0 <= i < 32 -> safe (gen_counter i) (fun _ => True).
Proof.
  intros Hi. unfold gen_counter. gstep; [gstep|]. gstep; [gstep|]. cbv beta in *.
  destruct (aget_total (E := unit) (base_ctrs a0) i) as [x Hx]; [lia|].
  eapply safe_gbind; [by eapply (safe_glift _ (eq x))|]. intros _ <-.
  eapply safe_gbind; [eapply (safe_glift _ (fun l => zlen l = 32)); [apply aset_ok; lia|]|].
  { by rewrite length_insert. }
  intros l Hl. eapply safe_gbind; [by apply safe_put_statics|]. intros _ _. gsafe.
Qed.

Lemma safe_init_ctrs : safe init_ctrs (fun _ => True).
Proof. unfold init_ctrs. gsafe. by apply safe_put_statics. Qed.
#[export] Hint Resolve safe_counter safe_init_ctrs safe_game_state : gen.

Lemma safe_telemetry : safe gen_telemetry (fun _ => True).
Proof. unfold gen_telemetry. gsafe. Qed.

Lemma safe_random : safe gen_random (fun _ => True).
Proof.
  unfold gen_random. gsafe.
  match goal with H : _ ∈ map _ _ |- _ => apply list_elem_of_fmap in H as (j & -> & [? ?]%elem_of_seqZ) end.
  gsafe.
Qed.
#[export] Hint Resolve safe_telemetry safe_random : gen.

Lemma safe_mixed : safe gen_mixed (fun _ => True).
Proof. unfold gen_mixed. gsafe. Qed.

(** The clamp makes every number convertible: NaN is the only double it lets
    through outside [1, 100000]. *)
Lemma clamp_volume_ok x :
  is_nan x = false -> valid_binary 53 1024 x = true -> exists n, @f64_to_uint unit 32 (clamp_volume x) = Ok n.
Proof.
  intros Hn Hv. unfold clamp_volume. destruct (SFltb x f64_one) eqn:E1; [by eexists|].
  destruct (SFltb (f64_of_Z 100000) x) eqn:E2; [by eexists|].
  change f64_one with (S754_finite false (2 ^ 52) (-52)) in E1.
  change (f64_of_Z 100000) with (S754_finite false (100000 * 2 ^ 36) (-36)) in E2.
  destruct x as [|[]| |[] m e]; try done. unfold SFltb, SFcompare in E1, E2.
  assert (-52 <= e) as He1 by (destruct (Z.compare_spec e (-52)); [lia|done|lia]).
  assert (e <= -36) as He2 by (destruct (Z.compare_spec (-36) e); [lia|done|lia]).
  assert (Zdigits2 (Zpos m) <= 53) as Hd.
  { unfold valid_binary, bounded, canonical_mantissa in Hv. apply andb_true_iff in Hv as [Hv _]. apply Z.eqb_eq in Hv.
    unfold fexp in Hv. change (Z.pos (digits2_pos m)) with (Zdigits2 (Zpos m)) in Hv. lia. }
  pose proof (digits2_spec (Zpos m) ltac:(lia)) as [_ Hm].
  pose proof (Z.pow_le_mono_r 2 _ _ ltac:(lia) Hd) as Hp. unfold f64_to_uint. cbn [f64_trunc cond_Zopp].
  rewrite Z.shiftl_div_pow2 by lia. pose proof (Z.pow_le_mono_r 2 36 (- e) ltac:(lia) ltac:(lia)) as Hp2.
  pose proof (pow2_pos (- e) ltac:(lia)) as Hp3.
  assert (0 <= Z.pos m / 2 ^ (- e) < 2 ^ 32) as Hr by (split; [apply Z.div_pos; lia|apply Z.div_lt_upper_bound; nia]).
  eexists. by if_true.
Qed.

(** libm's contract: [exp] of a number is a double and a number. *)
Class ExpOk (c_exp : spec_float -> spec_float) : Prop := {
  exp_number : forall x, is_nan x = false -> is_nan (c_exp x) = false;
  exp_valid : forall x, valid_binary 53 1024 (c_exp x) = true }.

Section Safety.
Context (c_exp : spec_float -> spec_float) `{!ExpOk c_exp}.

Lemma symbols_ok i : 0 <= i <= NUM_SYMBOLS - 1 -> exists sym, @aget unit _ s_symbols i = Ok sym /\ zlen sym = 8.
Proof.
  intros Hi. destruct (aget_total (E := unit) s_symbols i) as [sym H]; [change (zlen s_symbols) with 10; unfold NUM_SYMBOLS in *; lia|].
  exists sym. split; [done|]. apply aget_Ok in H as [_ H].
  assert (Forall (fun l => zlen l = 8) s_symbols) as Hf by (by repeat constructor).
  exact (Forall_lookup_1 _ _ _ _ Hf H).
Qed.

Lemma safe_financial_tick : safe (gen_financial_tick c_exp) (fun _ => True).
Proof.
  unfold gen_financial_tick. gstep; [gsafe|]. gstep; [unfold NUM_SYMBOLS; gsafe|]. cbv beta in *.
  destruct (symbols_ok a0) as (sym & Hs & Hl); [done|].
  eapply safe_gbind; [by eapply (safe_glift _ (eq sym))|]. intros _ <-.
  do 7 (gstep; [gsafe|]). cbv beta in *.
  match goal with |- context [clamp_volume ?x] => destruct (clamp_volume_ok x) as [n Hn] end.
  { apply exp_number, f64_add_number; [|done]. apply f64_mul_number; [done|done]. }
  { apply exp_valid. }
  eapply safe_gbind; [by eapply (safe_glift _ (fun _ => True))|]. intros ? _.
  do 3 (gstep; [gsafe|]). cbv beta in *. eapply safe_gbind; [by apply safe_put_statics|]. intros _ _. gsafe.
Qed.

(** The packet length a generator leaves. *)
Definition ends (n : Z) (m : gen unit) : Prop :=
  forall w u c' st', m w = Ok (u, (c', st')) -> k_pkt_len c' = n.

Lemma ends_set n : ends n (set_pkt_len n).
Proof. intros [c st] u c' st' [= <- <- <-]. done. Qed.

Lemma ends_bind {A} n (m : gen A) f : (forall a, ends n (f a)) -> ends n (m ≫= f).
Proof. intros H w u c' st' E. unfold mbind, gen_bind in E. apply bind_Ok in E as ([a w1] & _ & E). exact (H a w1 _ _ _ E). Qed.

Ltac gends := repeat (apply ends_bind; intros ?); apply ends_set.

Lemma ends_game_state n : ends n (gen_game_state n).
Proof. unfold gen_game_state. gends. Qed.
Lemma ends_financial : ends 32 (gen_financial_tick c_exp).
Proof. unfold gen_financial_tick. gends. Qed.
Lemma ends_telemetry : ends 512 gen_telemetry.
Proof. unfold gen_telemetry. gends. Qed.
Lemma ends_random : ends 128 gen_random.
Proof. unfold gen_random. gends. Qed.
Lemma ends_repetitive : ends 128 gen_repetitive.
Proof. unfold gen_repetitive. gends. Qed.

(** The sizes a workload promises. *)
Definition packet_size_ok (wl : bench_workload_t) (n : Z) : Prop :=
  match wl with
  | BENCH_WL_008 => n = 64 \/ n = 128 \/ n = 512
  | _ => n = bench_workload_pkt_size wl
  end.

(** One packet of a workload: within the buffers, of the promised size; only
    WL-007 moves its phase. *)
Definition packet_step (wl : bench_workload_t) (c c' : bench_corpus_t) (st' : corpus_statics) : Prop :=
  winv c' st' /\ k_workload c' = k_workload c /\ k_seed c' = k_seed c /\
  k_wl007_phase c <= k_wl007_phase c' <= k_wl007_phase c + 1 /\ packet_size_ok wl (k_pkt_len c').

Lemma packet_step_safe wl m n c st :
  safe m (fun _ => True) -> ends n m -> packet_size_ok wl n -> winv c st ->
  exists u c' st', m (c, st) = Ok (u, (c', st')) /\ packet_step wl c c' st'.
Proof.
  intros Hs He Hn Hw. destruct (Hs c st Hw) as (u & c' & st' & E & Hw' & (K1 & K2 & K3) & _).
  exists u, c', st'. split; [done|]. unfold packet_step. rewrite (He _ _ _ _ E). split; [done|]. by rewrite K3; split_and!; try lia.
Qed.

Lemma safe_pattern phase : safe (repetitive_pattern phase) (fun _ => True).
Proof. unfold repetitive_pattern. destruct (Z.land phase 3) as [|[[]|[]|]|]; gsafe. Qed.

Lemma repetitive_step c st :
  winv c st -> 0 <= k_wl007_phase c < 2 ^ 31 - 1 ->
  exists u c' st', gen_repetitive (c, st) = Ok (u, (c', st')) /\ packet_step BENCH_WL_007 c c' st'.
Proof.
  intros Hw Hp. destruct (safe_pattern (k_wl007_phase c) c st Hw) as (u & c' & st' & E & Hw' & (K1 & K2 & K3) & _).
  exists tt, (set_len (set_phase c' (k_wl007_phase c' + 1)) 128), st'. split.
  - unfold gen_repetitive, mbind, gen_bind, get_phase. mstep. rewrite E. mstep. unfold incr_phase.
    rewrite K3. if_true. done.
  - unfold packet_step. rewrite <- K1, <- K2, <- K3. split; [exact Hw'|]. destruct c'. cbn. split_and!; try done; lia.
Qed.

Lemma mixed_step c st :
  winv c st -> exists u c' st', gen_mixed (c, st) = Ok (u, (c', st')) /\ packet_step BENCH_WL_008 c c' st'.
Proof.
  intros Hw. destruct (safe_mixed c st Hw) as (u & c' & st' & E & Hw' & (K1 & K2 & K3) & _).
  exists u, c', st'. split; [done|]. unfold packet_step. rewrite K3. split; [done|]. split_and!; try done; try lia.
  unfold gen_mixed, mbind, gen_bind in E. apply bind_Ok in E as ([r w] & _ & E).
  repeat case_if_in E; [apply ends_game_state in E|apply ends_game_state in E|apply ends_telemetry in E|apply ends_random in E];
    rewrite E; cbn; lia.
Qed.

Lemma gen_packet_step c st :
  winv c st -> 0 <= k_wl007_phase c < 2 ^ 31 - 1 -> k_workload c <> BENCH_WL_ALL ->
  exists u c' st', gen_packet c_exp (k_workload c) (c, st) = Ok (u, (c', st')) /\ packet_step (k_workload c) c c' st'.
Proof.
  intros Hw Hp Hne. destruct (k_workload c); cbn [gen_packet];
    [..|by apply repetitive_step|by apply mixed_step|by destruct Hne].
  - exact (packet_step_safe BENCH_WL_001 _ 64 _ _ (safe_game_state 64 ltac:(lia)) (ends_game_state 64) eq_refl Hw).
  - exact (packet_step_safe BENCH_WL_002 _ 128 _ _ (safe_game_state 128 ltac:(lia)) (ends_game_state 128) eq_refl Hw).
  - exact (packet_step_safe BENCH_WL_003 _ 256 _ _ (safe_game_state 256 ltac:(lia)) (ends_game_state 256) eq_refl Hw).
  - exact (packet_step_safe BENCH_WL_004 _ 32 _ _ safe_financial_tick ends_financial eq_refl Hw).
  - exact (packet_step_safe BENCH_WL_005 _ 512 _ _ safe_telemetry ends_telemetry eq_refl Hw).
  - exact (packet_step_safe BENCH_WL_006 _ 128 _ _ safe_random ends_random eq_refl Hw).
Qed.

Lemma corpus_next_ok c st :
  winv c st -> 0 <= k_wl007_phase c < 2 ^ 31 - 1 -> k_workload c <> BENCH_WL_ALL ->
  exists c' st', bench_corpus_next c_exp (c, st) = Ok (k_pkt_len c', (c', st')) /\ packet_step (k_workload c) c c' st'.
Proof.
  intros Hw Hp Hne. destruct (gen_packet_step c st Hw Hp Hne) as (u & c' & st' & E & H).
  exists c', st'. split; [|done]. unfold bench_corpus_next. by rewrite E.
Qed.
End Safety.

(** ** Sequences of packets *)
Section Runs.
Context (c_exp : spec_float -> spec_float).

(** The next [n] packets of a corpus. *)
Fixpoint corpus_run (n : nat) (w : bench_corpus_t * corpus_statics)
  : outcome unit (list (list Z) * (bench_corpus_t * corpus_statics)) :=
  match n with
  | O => Ok ([], w)
  | S n' =>
      '(len, w1) ← bench_corpus_next c_exp w;
      '(pkts, w2) ← corpus_run n' w1;
      pkt ← peek (k_packet (fst w1)) 0 len;
      Ok (pkt :: pkts, w2)
  end.

(** What the packets of a workload look like. *)
Definition packet_ok (wl : bench_workload_t) (p : list Z) : Prop := bytes p /\ packet_size_ok wl (zlen p).

Lemma packet_size_bound wl n : wl <> BENCH_WL_ALL -> packet_size_ok wl n -> 0 < n <= 512 /\ Z.odd n = false.
Proof. destruct wl; simpl; intros ? H; try done; [..|destruct H as [->|[->| ->]]]; subst; (split; [lia|done]). Qed.

(** The current packet. *)
Definition packet (c : bench_corpus_t) : list Z := slice (k_packet c) 0 (k_pkt_len c).

Lemma step_packet_ok wl c c' st' :
  wl <> BENCH_WL_ALL -> packet_step wl c c' st' ->
  @peek unit (k_packet c') 0 (k_pkt_len c') = Ok (packet c') /\ zlen (packet c') = k_pkt_len c' /\ packet_ok wl (packet c').
Proof.
  intros Hne ((Hl & Hb & _) & _ & _ & _ & Hs). destruct (packet_size_bound _ _ Hne Hs) as [Hn _].
  assert (zlen (packet c') = k_pkt_len c') as Hp by (apply length_slice; lia). unfold peek. if_true.
  split; [done|]. split; [done|]. split; [by apply bytes_slice|by rewrite Hp].
Qed.

Lemma corpus_run_ok `{!ExpOk c_exp} n : forall c st,
  winv c st -> 0 <= k_wl007_phase c -> k_wl007_phase c + Z.of_nat n < 2 ^ 31 -> k_workload c <> BENCH_WL_ALL ->
  exists pkts c' st', corpus_run n (c, st) = Ok (pkts, (c', st')) /\ length pkts = n /\
    Forall (packet_ok (k_workload c)) pkts /\ winv c' st' /\ k_workload c' = k_workload c /\ k_seed c' = k_seed c.
Proof.
  induction n as [|n IH]; intros c st Hw H0 Hn Hne; [by eexists [], c, st|].
  destruct (corpus_next_ok c_exp c st Hw ltac:(lia) Hne) as (c1 & st1 & E & Hs).
  pose proof Hs as (Hw1 & Hk1 & Hk2 & Hp & _).
  destruct (IH c1 st1 Hw1) as (pkts & c2 & st2 & E2 & Hl & Hf & Hw2 & Hk3 & Hk4); [lia|lia|by rewrite Hk1|].
  destruct (step_packet_ok _ _ _ _ Hne Hs) as (Hpk & _ & Hok).
  eexists _, c2, st2. cbn [corpus_run]. rewrite E. mstep. rewrite E2. mstep. cbn [fst]. rewrite Hpk. mstep. split; [done|].
  split; [cbn [length]; by rewrite Hl|]. rewrite Hk1 in *. split; [by constructor|split_and!; congruence || done].
Qed.

Lemma init_winv wl seed st : zlen (base_ctrs st) = 32 -> winv (bench_corpus_init wl seed) st.
Proof.
  intros H. unfold winv, bench_corpus_init. cbn [k_packet]. split_and!; [done| |done]. apply Forall_replicate. done.
Qed.

Lemma blit_row (dst : list Z) off bs :
  0 <= off -> off + zlen bs <= zlen dst ->
  exists d, @blit unit dst off bs = Ok d /\ zlen d = zlen dst /\ slice d off (zlen bs) = bs /\
    forall a n, 0 <= a -> 0 <= n -> a + n <= off -> slice d a n = slice dst a n.
Proof.
  intros Ho Hl. rewrite blit_ok by lia. eexists. split; [done|].
  assert (zlen (take (Z.to_nat off) dst) = off) as Ht by (rewrite length_take; lia). split_and!.
  - rewrite !length_app, length_take, length_drop. lia.
  - by apply slice_app_mid.
  - intros a n Ha Hn Han. unfold slice. rewrite !take_drop_commute. f_equal.
    rewrite take_app_le by lia. rewrite take_take. f_equal. lia.
Qed.

(** The training buffers: one row of the storage per packet. *)
Lemma train_steps `{!ExpOk c_exp} n : forall i bufs lens storage c st,
  winv c st -> 0 <= k_wl007_phase c -> k_wl007_phase c + Z.of_nat n < 2 ^ 31 -> k_workload c <> BENCH_WL_ALL ->
  0 <= i -> (i + Z.of_nat n) * 512 <= zlen storage ->
  exists pkts storage' w', corpus_run n (c, st) = Ok (pkts, w') /\ Forall (packet_ok (k_workload c)) pkts /\ length pkts = n /\
    foldM (train_step c_exp) (bufs, lens, storage, (c, st)) (seqZ i (Z.of_nat n)) =
      Ok (bufs ++ map (fun j => j * 512) (seqZ i (Z.of_nat n)), lens ++ map (fun p => zlen p) pkts, storage', w') /\
    zlen storage' = zlen storage /\
    (forall a m, 0 <= a -> 0 <= m -> a + m <= i * 512 -> slice storage' a m = slice storage a m) /\
    (forall k p, pkts !! k = Some p -> slice storage' ((i + Z.of_nat k) * 512) (zlen p) = p).
Proof.
  induction n as [|n IH]; intros i bufs lens storage c st Hw H0 Hn Hne Hi Hs.
  { exists [], storage, (c, st). rewrite !app_nil_r. split_and!; try done. }
  destruct (corpus_next_ok c_exp c st Hw ltac:(lia) Hne) as (c1 & st1 & E & Hst).
  pose proof Hst as (Hw1 & Hk1 & Hk2 & Hp & Hsz). destruct (step_packet_ok _ _ _ _ Hne Hst) as (Hpk & Hpl & Hok).
  destruct (packet_size_bound _ _ Hne Hsz) as [Hb _].
  destruct (blit_row storage (i * 512) (packet c1)) as (s1 & Hbl & Hl1 & Hsl & Hpre); [lia|lia|].
  destruct (IH (i + 1) (bufs ++ [i * 512]) (lens ++ [k_pkt_len c1]) s1 c1 st1) as (pkts & s2 & w2 & E2 & Hf & Hlen & Hrun & Hl2 & Hpre2 & Hrows);
    [done|lia|lia|by rewrite Hk1|lia|lia|].
  exists (packet c1 :: pkts), s2, w2. rewrite Hk1 in Hf. split_and!.
  - cbn [corpus_run]. rewrite E. mstep. rewrite E2. mstep. cbn [fst]. by rewrite Hpk.
  - by constructor.
  - cbn [length]. by rewrite Hlen.
  - rewrite seqZ_cons by lia. replace (Z.pred (Z.of_nat (S n))) with (Z.of_nat n) by lia. cbn [foldM map].
    replace (train_step c_exp (bufs, lens, storage, (c, st)) i)
      with (@Ok unit _ (bufs ++ [i * 512], lens ++ [k_pkt_len c1], s1, (c1, st1))).
    + mstep. replace (Z.succ i) with (i + 1) by lia. rewrite Hrun, <- !app_assoc, Hpl. done.
    + unfold train_step. rewrite E. mstep. cbn [fst]. rewrite Hpk. mstep. unfold BENCH_CORPUS_MAX_PKT. by rewrite Hbl.
  - lia.
  - intros a m Ha Hm Ham. rewrite Hpre2 by lia. apply Hpre; lia.
  - intros [|k] p Hkp; cbn [lookup list_lookup] in Hkp.
    + injection Hkp as <-. rewrite Z.add_0_r. rewrite Hpre2 by lia. by rewrite Hpl in *.
    + rewrite <- (Hrows k p Hkp) at 2. f_equal. lia.
Qed.
End Runs.
