(* ===== verification/Replay.v ===== *)
(** * Determinism of the benchmark corpus

    Properties of src/bench/bench_corpus.c: every workload produces packets of
    its size and nothing is accessed out of bounds; the training buffers hold
    the packets of the workload; resetting a corpus replays it, except for the
    workloads that use the function static objects. *)

From stdpp Require Import prelude.
From Stdlib Require Import ZArith Lia SpecFloat.
From S2P Require Import Prelude Double Corpus.

Local Open Scope Z_scope.

(** ** Generators that do not touch the static objects *)

(** The result of [m] does not depend on the static objects, which it leaves
    unchanged. *)
Class Closed {A} (m : gen A) : Prop :=
  closed : forall c st st', m (c, st') =
    match m (c, st) with
    | Ok (a, (c', _)) => Ok (a, (c', st'))
    | Fail e => Fail e
    | Undef => Undef
    end.

#[export] Instance closed_ret {A} (a : A) : Closed (mret a).
Proof. done. Qed.

#[export] Instance closed_bind {A B} (m : gen A) (f : A -> gen B) : Closed m -> (forall a, Closed (f a)) -> Closed (m ≫= f).
Proof.
  intros Hm Hf c st st'. unfold mbind, gen_bind. rewrite (Hm c st st'). pose proof (Hm c st st) as Hs.
  destruct (m (c, st)) as [[a [c1 st1]]| |]; [|done|done]. injection Hs as ->. mstep. apply Hf.
Qed.

#[export] Instance closed_next : Closed next.
Proof. intros c st st'. unfold next. by destruct (sm64_next _). Qed.
#[export] Instance closed_f64 : Closed f64.
Proof. intros c st st'. unfold f64. by destruct (sm64_f64 _). Qed.
#[export] Instance closed_range lo hi : Closed (range lo hi).
Proof. intros c st st'. unfold range. by destruct (sm64_range _ _ _) as [[]| |]. Qed.
#[export] Instance closed_glift {A} (m : outcome unit A) : Closed (glift m).
Proof. intros c st st'. unfold glift. by destruct m. Qed.
#[export] Instance closed_shl1 n : Closed (shl1 n).
Proof. apply closed_glift. Qed.
#[export] Instance closed_poke i b : Closed (poke i b).
Proof. intros c st st'. unfold poke. by destruct (aset _ _ _). Qed.
#[export] Instance closed_set_len n : Closed (set_pkt_len n).
Proof. done. Qed.
#[export] Instance closed_get_phase : Closed get_phase.
Proof. done. Qed.
#[export] Instance closed_incr_phase : Closed incr_phase.
Proof. intros c st st'. unfold incr_phase. by case_if. Qed.
#[export] Instance closed_memcpy bs : forall off, Closed (memcpy off bs).
Proof. induction bs; intros off; cbn [memcpy]; apply _. Qed.
#[export] Instance closed_memset off b n : Closed (memset off b n).
Proof. apply closed_memcpy. Qed.
#[export] Instance closed_for {A} (l : list A) body : (forall a, Closed (body a)) -> Closed (gfor l body).
Proof. intros H. induction l; cbn [gfor]; apply _. Qed.
#[export] Instance closed_collect {A B} (l : list A) (body : A -> gen B) : (forall a, Closed (body a)) -> Closed (gcollect l body).
Proof. intros H. induction l; cbn [gcollect]; apply _. Qed.
#[export] Instance closed_if {A} (b : bool) (m n : gen A) : Closed m -> Closed n -> Closed (if b then m else n).
Proof. by destruct b. Qed.
#[export] Instance closed_coordinate s : Closed (coordinate s).
Proof. unfold coordinate. apply _. Qed.
#[export] Instance closed_small_angle : Closed small_angle.
Proof. unfold small_angle. apply _. Qed.
#[export] Instance closed_inventory i : Closed (gen_inventory i).
Proof. unfold gen_inventory. apply _. Qed.
#[export] Instance closed_status i : Closed (gen_status i).
Proof. unfold gen_status. apply _. Qed.
#[export] Instance closed_chat : Closed gen_chat.
Proof. unfold gen_chat. apply _. Qed.
#[export] Instance closed_extended : Closed gen_extended.
Proof. unfold gen_extended. apply _. Qed.
#[export] Instance closed_scores : Closed gen_scores.
Proof. unfold gen_scores. apply _. Qed.
#[export] Instance closed_game_state n : Closed (gen_game_state n).
Proof. unfold gen_game_state. apply _. Qed.
#[export] Instance closed_random : Closed gen_random.
Proof. unfold gen_random. apply _. Qed.
#[export] Instance closed_pattern phase : Closed (repetitive_pattern phase).
Proof. unfold repetitive_pattern. destruct (Z.land phase 3) as [|[[]|[]|]|]; apply _. Qed.
#[export] Instance closed_repetitive : Closed gen_repetitive.
Proof. unfold gen_repetitive. apply _. Qed.

(** The workloads whose generators use a static object. *)
Definition uses_statics (wl : bench_workload_t) : bool :=
  match wl with BENCH_WL_004 | BENCH_WL_005 | BENCH_WL_008 => true | _ => false end.

Section Replay.
Context (c_exp : spec_float -> spec_float).

Lemma closed_packet wl : uses_statics wl = false -> Closed (gen_packet c_exp wl).
Proof. destruct wl; try done; intros _; cbn [gen_packet]; apply _. Qed.

Lemma next_closed c st st' :
  uses_statics (k_workload c) = false ->
  bench_corpus_next c_exp (c, st') =
    match bench_corpus_next c_exp (c, st) with
    | Ok (a, (c', _)) => Ok (a, (c', st'))
    | Fail e => Fail e
    | Undef => Undef
    end.
Proof.
  intros H. unfold bench_corpus_next. rewrite (closed_packet _ H c st st').
  by destruct (gen_packet _ _ _) as [[? [? ?]]| |].
Qed.

Lemma run_closed `{!ExpOk c_exp} n : forall c st st' pkts c' st1,
  uses_statics (k_workload c) = false -> k_workload c <> BENCH_WL_ALL -> winv c st ->
  0 <= k_wl007_phase c -> k_wl007_phase c + Z.of_nat n < 2 ^ 31 ->
  corpus_run c_exp n (c, st) = Ok (pkts, (c', st1)) -> corpus_run c_exp n (c, st') = Ok (pkts, (c', st')).
Proof.
  induction n as [|n IH]; intros c st st' pkts c' st1 Hu Hne Hw H0 Hn E.
  { cbn [corpus_run] in *. by injection E as <- <- <-. }
  cbn [corpus_run] in *. destruct (corpus_next_ok c_exp c st Hw ltac:(lia) Hne) as (c1 & s1 & E1 & Hw1 & Hk & _ & Hp & _).
  rewrite (next_closed c st st' Hu). rewrite E1 in *. rewrite bind_Ok_l in *.
  apply bind_Ok in E as ([ps [c2 s2]] & E2 & E). pose proof (IH c1 s1 st' ps c2 s2) as IH1. rewrite Hk in IH1.
  rewrite IH1 by (done || lia). mstep. apply bind_Ok in E as (pkt & Hpk & [= <- <- <-]). cbn [fst] in *. by rewrite Hpk.
Qed.
End Replay.

(** The rows of the training storage. *)
Lemma train_rows c_exp wl seed n storage st :
  ExpOk c_exp -> wl <> BENCH_WL_ALL -> zlen (base_ctrs st) = 32 -> Z.of_nat n < 2 ^ 31 ->
  Z.of_nat n * BENCH_CORPUS_MAX_PKT <= zlen storage ->
  exists bufs lens storage' st' pkts w,
    bench_corpus_train c_exp wl seed (Z.of_nat n) storage st = Ok (bufs, lens, storage', st') /\
    corpus_run c_exp n (bench_corpus_init wl seed, st) = Ok (pkts, w) /\
    length bufs = n /\ length lens = n /\
    zip_with (slice storage') bufs lens = pkts /\ Forall (packet_ok wl) pkts /\ zlen (base_ctrs st') = 32.
Proof.
  intros He Hne Hst Hn Hs. unfold BENCH_CORPUS_MAX_PKT in *.
  destruct (train_steps c_exp n 0 [] [] storage (bench_corpus_init wl seed) st) as
    (pkts & s' & w & Er & Hf & Hl & Et & _ & _ & Hrows); [by apply init_winv|done|done|done|lia|lia|].
  assert (zlen (base_ctrs (snd w)) = 32) as Hw.
  { destruct (corpus_run_ok c_exp n (bench_corpus_init wl seed) st) as (? & c' & st' & E & _ & _ & (_ & _ & Hc) & _);
      [by apply init_winv|done|done|done|]. rewrite Er in E. injection E as _ ->. exact Hc. }
  eexists _, _, s', (snd w), pkts, w. unfold bench_corpus_train. rewrite Et. mstep.
  split; [reflexivity|]. split; [done|]. rewrite !app_nil_l, !length_map, length_seqZ, Hl. split; [lia|]. split; [done|].
  split; [|done]. apply list_eq. intros i. rewrite lookup_zip_with. destruct (pkts !! i) as [p|] eqn:Ei.
  - pose proof (lookup_lt_Some _ _ _ Ei). rewrite !list_lookup_fmap, Ei, lookup_seqZ_lt by lia. cbn. f_equal. by apply Hrows.
  - apply lookup_ge_None in Ei. rewrite (lookup_ge_None_2 (map _ (seqZ _ _))); [done|]. rewrite length_map, length_seqZ. lia.
Qed.

(** The offsets and lengths of a training corpus. *)
Lemma train_shape c_exp wl seed n storage st :
  ExpOk c_exp -> wl <> BENCH_WL_ALL -> zlen (base_ctrs st) = 32 -> 0 <= n < 2 ^ 31 -> n * BENCH_CORPUS_MAX_PKT <= zlen storage ->
  exists lens storage' st', bench_corpus_train c_exp wl seed n storage st = Ok (map (fun j => j * 512) (seqZ 0 n), lens, storage', st') /\
    zlen lens = n /\ Forall (fun l => 0 < l <= 512) lens /\ zlen storage' = zlen storage /\ zlen (base_ctrs st') = 32.
Proof.
  intros He Hne Hst Hn Hs. unfold BENCH_CORPUS_MAX_PKT in *. rewrite <- (Z2Nat.id n) in * by lia. set (k := Z.to_nat n) in *.
  destruct (train_steps c_exp k 0 [] [] storage (bench_corpus_init wl seed) st) as
    (pkts & s' & w & Er & Hf & Hl & Et & Hsl & _); [by apply init_winv|done|cbn; lia|done|lia|lia|].
  assert (zlen (base_ctrs (snd w)) = 32) as Hw.
  { destruct (corpus_run_ok c_exp k (bench_corpus_init wl seed) st) as (? & c' & st' & E & _ & _ & (_ & _ & Hc) & _);
      [by apply init_winv|done|cbn; lia|done|]. rewrite Er in E. injection E as _ ->. exact Hc. }
  eexists (map (fun p => zlen p) pkts), s', (snd w). unfold bench_corpus_train. rewrite Et. mstep. split; [reflexivity|].
  rewrite length_map, Hl. split; [done|]. split; [|done]. apply Forall_map. eapply Forall_impl; [exact Hf|].
  intros p [_ Hp]. by apply (packet_size_bound wl).
Qed.

(** ** Properties *)

(** A concrete [exp]: the contract can be met. *)
#[export] Instance exp_const_ok : ExpOk (fun _ => f64_of_Z 20).
Proof. by split. Qed.

(** C35: every workload, from every seed: the generators run without undefined
    behaviour (indices, shifts, conversions between doubles and integers) for up
    to 2^31 - 1 packets, and each packet is a byte string of the size that
    [bench_workload_pkt_size] announces (64, 128 or 512 bytes for the mix). *)
Theorem corpus_packets_wellformed (c_exp : spec_float -> spec_float) (wl : bench_workload_t) (seed : Z) (st : corpus_statics) (n : nat) :
  ExpOk c_exp -> wl <> BENCH_WL_ALL -> zlen (base_ctrs st) = 32 -> Z.of_nat n < 2 ^ 31 ->
  exists pkts w, corpus_run c_exp n (bench_corpus_init wl seed, st) = Ok (pkts, w) /\ length pkts = n /\
    Forall (fun p => bytes p /\ packet_size_ok wl (zlen p)) pkts.
Proof.
  intros He Hne Hst Hn.
  destruct (corpus_run_ok c_exp n (bench_corpus_init wl seed) st) as (pkts & c' & st' & E & Hl & Hf & _);
    [by apply init_winv|done|done|done|]. exists pkts, (c', st'). split_and!; done.
Qed.

Lemma corpus_packets_wellformed_witness :
  exists pkts w, corpus_run (fun _ => f64_of_Z 20) 3 (bench_corpus_init BENCH_WL_004 42, statics0) = Ok (pkts, w) /\ length pkts = 3%nat /\
    Forall (fun p => bytes p /\ packet_size_ok BENCH_WL_004 (zlen p)) pkts.
Proof.
  apply (corpus_packets_wellformed (fun _ => f64_of_Z 20) BENCH_WL_004 42 statics0 3); [apply exp_const_ok|discriminate|reflexivity|reflexivity].
Defined.

(** [bench_corpus_train] fills row [i] of the storage with the [i]-th packet
    of the workload: pointer and length arrays of [n] entries whose rows are the
    packets a corpus with this seed produces. *)
Theorem corpus_train_rows (c_exp : spec_float -> spec_float) (wl : bench_workload_t) (seed : Z) (n : nat) (storage : list Z)
    (st : corpus_statics) :
  ExpOk c_exp -> wl <> BENCH_WL_ALL -> zlen (base_ctrs st) = 32 -> Z.of_nat n < 2 ^ 31 ->
  Z.of_nat n * BENCH_CORPUS_MAX_PKT <= zlen storage ->
  exists bufs lens storage' st' pkts w,
    bench_corpus_train c_exp wl seed (Z.of_nat n) storage st = Ok (bufs, lens, storage', st') /\
    corpus_run c_exp n (bench_corpus_init wl seed, st) = Ok (pkts, w) /\
    length bufs = n /\ length lens = n /\
    zip_with (slice storage') bufs lens = pkts.
Proof.
  intros He Hne Hst Hn Hs.
  destruct (train_rows c_exp wl seed n storage st He Hne Hst Hn Hs) as (bufs & lens & s' & st' & pkts & w & H1 & H2 & H3 & H4 & H5 & _).
  exists bufs, lens, s', st', pkts, w. by split_and!.
Qed.

Lemma corpus_train_rows_witness :
  exists bufs lens storage' st' pkts w,
    bench_corpus_train (fun _ => f64_of_Z 20) BENCH_WL_008 42 (Z.of_nat 2) (replicate (Z.to_nat 1024) 0) statics0 = Ok (bufs, lens, storage', st') /\
    corpus_run (fun _ => f64_of_Z 20) 2 (bench_corpus_init BENCH_WL_008 42, statics0) = Ok (pkts, w) /\
    length bufs = 2%nat /\ length lens = 2%nat /\ zip_with (slice storage') bufs lens = pkts.
Proof.
  apply (corpus_train_rows (fun _ => f64_of_Z 20) BENCH_WL_008 42 2 (replicate (Z.to_nat 1024) 0) statics0);
    [apply exp_const_ok|discriminate|reflexivity|reflexivity|vm_compute; discriminate].
Defined.

(** Replay.  For the workloads without static objects, resetting a corpus at
    any point restarts exactly the same sequence of packets, whatever the rest
    of the process generated in between. *)
Theorem corpus_replay (c_exp : spec_float -> spec_float) (wl : bench_workload_t) (seed : Z) (st st' : corpus_statics) (m n : nat) :
  ExpOk c_exp -> wl <> BENCH_WL_ALL -> uses_statics wl = false ->
  zlen (base_ctrs st) = 32 -> Z.of_nat m < 2 ^ 31 -> Z.of_nat n < 2 ^ 31 ->
  exists used c st1 pkts c1 c2 st2,
    corpus_run c_exp m (bench_corpus_init wl seed, st) = Ok (used, (c, st1)) /\
    corpus_run c_exp n (bench_corpus_init wl seed, st) = Ok (pkts, (c1, st2)) /\
    corpus_run c_exp n (bench_corpus_reset c, st') = Ok (pkts, (c2, st')) /\ c1 = c2.
Proof.
  intros He Hne Hu Hst Hm Hn. pose proof (init_winv wl seed st Hst) as Hw.
  destruct (corpus_run_ok c_exp m (bench_corpus_init wl seed) st) as (used & c & st1 & E1 & _ & _ & _ & Hk & Hs); try done.
  destruct (corpus_run_ok c_exp n (bench_corpus_init wl seed) st) as (pkts & c1 & st2 & E2 & _); try done.
  exists used, c, st1, pkts, c1, c1, st2. split_and!; try done.
  unfold bench_corpus_reset. rewrite Hk, Hs. cbn [bench_corpus_init k_workload k_seed].
  by apply (run_closed c_exp n _ st st' pkts c1 st2).
Qed.

Lemma corpus_replay_witness :
  exists used c st1 pkts c1 c2 st2,
    corpus_run (fun _ => f64_of_Z 20) 2 (bench_corpus_init BENCH_WL_001 42, statics0) = Ok (used, (c, st1)) /\
    corpus_run (fun _ => f64_of_Z 20) 3 (bench_corpus_init BENCH_WL_001 42, statics0) = Ok (pkts, (c1, st2)) /\
    corpus_run (fun _ => f64_of_Z 20) 3 (bench_corpus_reset c, Statics 7 [] true) = Ok (pkts, (c2, Statics 7 [] true)) /\ c1 = c2.
Proof.
  apply (corpus_replay (fun _ => f64_of_Z 20) BENCH_WL_001 42 statics0 (Statics 7 [] true) 2 3);
    [apply exp_const_ok|discriminate|reflexivity..].
Defined.

(** The telemetry workload is not replayed: its counters are static, so a
    reset corpus produces another first packet than the first time, although
    the interface promises the same sequence for the same seed. *)
Theorem telemetry_not_replayed (c_exp : spec_float -> spec_float) :
  exists p1 c st1 p2 w,
    corpus_run c_exp 1 (bench_corpus_init BENCH_WL_005 42, statics0) = Ok ([p1], (c, st1)) /\
    corpus_run c_exp 1 (bench_corpus_reset c, st1) = Ok ([p2], w) /\ p1 <> p2.
Proof.
  eexists _, _, _, _, _. split; [vm_compute; reflexivity|]. split; [vm_compute; reflexivity|]. discriminate.
Qed.
