(* ===== verification/BenchStats.v ===== *)
(** * Statistics of the benchmark harness

    src/bench/bench_stats.{h,c}: percentiles, mean and standard deviation of
    timing samples, and the derived metrics. *)

From stdpp Require Import prelude sorting.
From Stdlib Require Import ZArith Lia SpecFloat.
From S2P Require Import Prelude Double.

Local Open Scope Z_scope.

Record bench_stats_t : Type := Stats {
  p50_ns : Z;
  p90_ns : Z;
  p99_ns : Z;
  p999_ns : Z;
  min_ns : Z;
  max_ns : Z;
  mean_ns : spec_float;
  stddev_ns : spec_float;
  count_ns : Z }.

(** A zeroed structure. *)
Definition bstats_zero : bench_stats_t := Stats 0 0 0 0 0 0 f64_zero f64_zero 0.

(** ** Percentiles *)
Definition cmp_u64 (x y : Z) : Z := if x <? y then -1 else if y <? x then 1 else 0.

(** [qsort(samples, n, sizeof(uint64_t), cmp_u64)]: the array rearranged so that no
    element compares greater than its successor. *)
Definition cmp_le (x y : Z) : Prop := cmp_u64 x y <= 0.
#[export] Instance cmp_le_dec : RelDecision cmp_le.
Proof. unfold RelDecision, cmp_le. apply _. Defined.
Definition qsort_u64 (samples : list Z) : list Z := merge_sort cmp_le samples.

(** [PCT_IDX(p)] *)
Definition pct_idx (p : spec_float) (n : Z) : outcome unit Z :=
  let x := f64_mul (f64_div p (f64_of_Z 100)) (f64_of_Z n) in
  i ← f64_to_uint 64 x;
  if i <? n then f64_to_uint 64 x else Ok (n - 1).

Definition bench_stats_compute (st : option bench_stats_t) (samples : option (list Z)) (n : Z)
  : outcome unit (option bench_stats_t * option (list Z)) :=
  match st, samples with
  | Some _, Some samples =>
      if n =? 0 then Ok (st, Some samples) else
      let samples := qsort_u64 samples in
      i50 ← pct_idx (f64_of_Z 50) n;
      p50 ← aget samples i50;
      i90 ← pct_idx (f64_of_Z 90) n;
      p90 ← aget samples i90;
      i99 ← pct_idx (f64_of_Z 99) n;
      p99 ← aget samples i99;
      i999 ← pct_idx (f64_lit 999 10) n;
      p999 ← aget samples i999;
      mn ← aget samples 0;
      mx ← aget samples (n - 1);
      let sum := fold_left (fun sum x => f64_add sum (f64_of_Z x)) samples f64_zero in
      let mean := f64_div sum (f64_of_Z n) in
      let var_sum := fold_left (fun v x => let diff := f64_sub (f64_of_Z x) mean in f64_add v (f64_mul diff diff)) samples f64_zero in
      Ok (Some (Stats p50 p90 p99 p999 mn mx mean (f64_sqrt (f64_div var_sum (f64_of_Z n))) n), Some samples)
  | _, _ => Ok (st, samples)
  end.

(** ** Derived metrics *)
Definition bench_stats_throughput_mbs (bytes_per_pkt : Z) (mean : spec_float) : spec_float :=
  if SFleb mean f64_zero then f64_zero
  else f64_div (f64_mul (f64_of_Z bytes_per_pkt) (f64_of_Z 1000)) mean.

Definition bench_stats_mpps (mean : spec_float) : spec_float :=
  if SFleb mean f64_zero then f64_zero else f64_div (f64_of_Z 1000) mean.

Definition bench_stats_ratio (original_bytes compressed_bytes : Z) : spec_float :=
  if original_bytes =? 0 then f64_zero else f64_div (f64_of_Z compressed_bytes) (f64_of_Z original_bytes).

(** The ranks of the interface's comment: of 100,000 samples p99 is number
    99,000. *)
Example pct_idx_ranks :
  pct_idx (f64_of_Z 50) 100000 = Ok 50000 /\ pct_idx (f64_of_Z 90) 100000 = Ok 90000 /\
  pct_idx (f64_of_Z 99) 100000 = Ok 99000 /\ pct_idx (f64_lit 999 10) 100000 = Ok 99900 /\
  pct_idx (f64_lit 999 10) 1 = Ok 0.
Proof. split_and!; reflexivity. Qed.

(** ** The sort *)
Lemma cmp_le_Z x y : cmp_le x y <-> x <= y.
Proof. unfold cmp_le, cmp_u64. repeat case_if; lia. Qed.

#[export] Instance cmp_le_trans : Transitive cmp_le.
Proof. intros x y z. rewrite !cmp_le_Z. lia. Qed.
#[export] Instance cmp_le_total : Total cmp_le.
Proof. intros x y. rewrite !cmp_le_Z. lia. Qed.
#[export] Instance cmp_le_antisymm : AntiSymm (=) cmp_le.
Proof. intros x y. rewrite !cmp_le_Z. lia. Qed.

Lemma qsort_perm l : qsort_u64 l ≡ₚ l.
Proof. apply merge_sort_Permutation. Qed.

Lemma qsort_sorted l i j x y :
  (i <= j)%nat -> qsort_u64 l !! i = Some x -> qsort_u64 l !! j = Some y -> x <= y.
Proof.
  intros Hij Hx Hy. pose proof (StronglySorted_merge_sort cmp_le l) as Hs. fold (qsort_u64 l) in Hs.
  destruct (decide (i = j)) as [->|Hne]; [assert (x = y) by congruence; lia|].
  apply cmp_le_Z. revert Hx Hy. generalize dependent j. revert i. induction Hs as [|a s Hs IH Hf]; intros i j Hij Hne Hx Hy; [done|].
  destruct j as [|j]; [lia|]. destruct i as [|i]; cbn in Hx, Hy.
  - injection Hx as ->. exact (Forall_lookup_1 _ _ _ _ Hf Hy).
  - apply (IH i j); [lia|lia|done|done].
Qed.

(** Equal multisets of samples give the same array. *)
Lemma qsort_perm_eq l k : l ≡ₚ k -> qsort_u64 l = qsort_u64 k.
Proof.
  intros H. unfold qsort_u64. apply (StronglySorted_unique cmp_le); [apply (StronglySorted_merge_sort _ _)..|].
  by rewrite !merge_sort_Permutation.
Qed.

(** ** The ranks *)

(** The rank of a percentile whose fraction is [m / 2^53]. *)
Definition rank (m n : Z) : Z :=
  match f64_of_Z n with
  | S754_finite _ m2 e => Z.min (rnd53 (m * Zpos m2) / 2 ^ (53 - e)) (n - 1)
  | _ => 0
  end.

Lemma pct_idx_rank p m n :
  f64_div p (f64_of_Z 100) = S754_finite false m (-53) -> Zdigits2 (Zpos m) = 53 -> 0 < n < 2 ^ 53 ->
  pct_idx p n = Ok (rank (Zpos m) n) /\ 0 <= rank (Zpos m) n < n.
Proof.
  intros Hp Hd Hn. unfold pct_idx, rank. rewrite Hp. destruct (f64_of_Z_spec n Hn) as (m2 & k & Hk & -> & Hm2 & Hd2).
  destruct (f64_mul_spec m (-53) m2 (- k)) as (m' & k' & Hk' & -> & Hm' & _); [lia|lia|lia|].
  unfold f64_to_uint. rewrite (f64_trunc_spec m' (-53 + - k) k' _ Hk' ltac:(lia) Hm').
  replace (- (-53 + - k)) with (53 - - k) by lia. set (x := Zpos m * Zpos m2) in *. set (i := rnd53 x / 2 ^ (53 - - k)).
  pose proof (pow2_pos (53 - - k) ltac:(lia)) as Hpp. assert (0 < x) as Hx by lia.
  pose proof (rnd53_range x Hx) as [H1 H2]. pose proof (digits2_spec x Hx) as [H3 _]. pose proof (Zdigits2_pos x Hx).
  pose proof (pow2_pos (Zdigits2 x - 1) ltac:(lia)).
  assert (2 ^ Zdigits2 x = 2 * 2 ^ (Zdigits2 x - 1)) as H4 by (rewrite <- Z.pow_succ_r by lia; f_equal; lia).
  assert (0 <= i < 2 ^ 64) as Hi.
  { split; [apply Z.div_pos; lia|]. apply Z.div_lt_upper_bound; [done|]. pose proof (digits2_spec (Zpos m) ltac:(lia)) as [_ Hm].
    rewrite Hd in Hm. replace (53 - - k) with (53 + k) in * by lia. rewrite Z.pow_add_r by lia. unfold x in *. rewrite Hm2 in *.
    pose proof (pow2_pos k ltac:(lia)). assert (rnd53 (Zpos m * (n * 2 ^ k)) <= 2 * (Zpos m * (n * 2 ^ k))) by lia.
    assert (Zpos m * (n * 2 ^ k) < 2 ^ 53 * (n * 2 ^ k)) by nia. nia. }
  replace ((0 <=? i) && (i <? 2 ^ 64)) with true by (symmetry; apply andb_true_iff; lia). mstep.
  destruct (Z.ltb_spec i n); (split; [f_equal; lia|lia]).
Qed.

Lemma rank_mono a b n : 0 < a <= b -> rank a n <= rank b n.
Proof.
  intros Hab. unfold rank. destruct (f64_of_Z n) as [| | |s m2 e]; try lia.
  apply Z.min_le_compat_r. destruct (Z.le_gt_cases 0 (53 - e)) as [He|He].
  - apply Z.div_le_mono; [by apply pow2_pos|]. apply rnd53_mono. nia.
  - rewrite Z.pow_neg_r, !Z.div_0_r by lia. done.
Qed.

(** The four fractions, as doubles. *)
Lemma fractions :
  exists m50 m90 m99 m999,
    (f64_div (f64_of_Z 50) (f64_of_Z 100) = S754_finite false m50 (-53) /\ Zdigits2 (Zpos m50) = 53) /\
    (f64_div (f64_of_Z 90) (f64_of_Z 100) = S754_finite false m90 (-53) /\ Zdigits2 (Zpos m90) = 53) /\
    (f64_div (f64_of_Z 99) (f64_of_Z 100) = S754_finite false m99 (-53) /\ Zdigits2 (Zpos m99) = 53) /\
    (f64_div (f64_lit 999 10) (f64_of_Z 100) = S754_finite false m999 (-53) /\ Zdigits2 (Zpos m999) = 53) /\
    Zpos m50 <= Zpos m90 /\ Zpos m90 <= Zpos m99 /\ Zpos m99 <= Zpos m999.
Proof. do 4 eexists. split_and!; first [vm_compute; reflexivity|vm_compute; discriminate]. Qed.

(** The statistics of a non-empty array, spelled out: the samples at four
    increasing ranks and at the two ends of the sorted array. *)
Lemma stats_compute_spec st samples :
  0 < zlen samples < 2 ^ 53 ->
  exists i50 i90 i99 i999 s, 0 <= i50 <= i90 /\ i90 <= i99 <= i999 /\ i999 < zlen samples /\
    bench_stats_compute (Some st) (Some samples) (zlen samples) = Ok (Some s, Some (qsort_u64 samples)) /\
    qsort_u64 samples !! Z.to_nat i50 = Some (p50_ns s) /\ qsort_u64 samples !! Z.to_nat i90 = Some (p90_ns s) /\
    qsort_u64 samples !! Z.to_nat i99 = Some (p99_ns s) /\ qsort_u64 samples !! Z.to_nat i999 = Some (p999_ns s) /\
    qsort_u64 samples !! 0%nat = Some (min_ns s) /\ qsort_u64 samples !! Z.to_nat (zlen samples - 1) = Some (max_ns s) /\
    count_ns s = zlen samples.
Proof.
  intros Hn. destruct fractions as (m50 & m90 & m99 & m999 & [F1 D1] & [F2 D2] & [F3 D3] & [F4 D4] & L1 & L2 & L3).
  set (n := zlen samples) in *.
  destruct (pct_idx_rank _ _ n F1 D1 Hn) as [E1 B1]. destruct (pct_idx_rank _ _ n F2 D2 Hn) as [E2 B2].
  destruct (pct_idx_rank _ _ n F3 D3 Hn) as [E3 B3]. destruct (pct_idx_rank _ _ n F4 D4 Hn) as [E4 B4].
  pose proof (rank_mono (Zpos m50) (Zpos m90) n ltac:(lia)). pose proof (rank_mono (Zpos m90) (Zpos m99) n ltac:(lia)).
  pose proof (rank_mono (Zpos m99) (Zpos m999) n ltac:(lia)).
  assert (zlen (qsort_u64 samples) = n) as Hq by (by rewrite (qsort_perm samples)).
  assert (forall i, 0 <= i < n -> exists x, @aget unit Z (qsort_u64 samples) i = Ok x /\ qsort_u64 samples !! Z.to_nat i = Some x) as Hget.
  { intros i Hi. destruct (aget_total (E := unit) (qsort_u64 samples) i) as [x Hx]; [lia|]. exists x. split; [done|].
    by apply aget_Ok in Hx as [_ Hx]. }
  destruct (Hget _ B1) as (x1 & G1 & X1). destruct (Hget _ B2) as (x2 & G2 & X2). destruct (Hget _ B3) as (x3 & G3 & X3).
  destruct (Hget _ B4) as (x4 & G4 & X4). destruct (Hget 0 ltac:(lia)) as (x5 & G5 & X5). destruct (Hget (n - 1) ltac:(lia)) as (x6 & G6 & X6).
  do 5 eexists. split; [|split; [|split; [|split]]]; cycle 3.
  - unfold bench_stats_compute. rewrite (proj2 (Z.eqb_neq n 0)) by lia. cbv zeta.
    rewrite E1. mstep. rewrite G1. mstep. rewrite E2. mstep. rewrite G2. mstep. rewrite E3. mstep. rewrite G3. mstep.
    rewrite E4. mstep. rewrite G4. mstep. rewrite G5. mstep. rewrite G6. mstep. reflexivity.
  - cbn [p50_ns p90_ns p99_ns p999_ns min_ns max_ns count_ns]. split_and!; [exact X1|exact X2|exact X3|exact X4|exact X5|exact X6|done].
  - lia.
  - lia.
  - lia.
Qed.

(** ** Properties *)

(** The statistics of any non-empty sample array: the percentiles are
    samples, in increasing order between the minimum and the maximum, which are
    the extremes of the samples; the array is left sorted, a permutation of the
    samples; the order in which the samples were taken does not matter. *)
Theorem stats_percentiles (st : bench_stats_t) (samples : list Z) :
  0 < zlen samples < 2 ^ 53 ->
  exists s sorted, bench_stats_compute (Some st) (Some samples) (zlen samples) = Ok (Some s, Some sorted) /\
    sorted ≡ₚ samples /\ (forall i j x y, (i <= j)%nat -> sorted !! i = Some x -> sorted !! j = Some y -> x <= y) /\
    min_ns s <= p50_ns s /\ p50_ns s <= p90_ns s /\ p90_ns s <= p99_ns s /\ p99_ns s <= p999_ns s /\ p999_ns s <= max_ns s /\
    Forall (fun x => x ∈ samples) [min_ns s; p50_ns s; p90_ns s; p99_ns s; p999_ns s; max_ns s] /\
    (forall x, x ∈ samples -> min_ns s <= x <= max_ns s) /\ count_ns s = zlen samples /\
    (forall samples', samples' ≡ₚ samples ->
       bench_stats_compute (Some st) (Some samples') (zlen samples') = Ok (Some s, Some sorted)).
Proof.
  intros Hn. destruct (stats_compute_spec st samples Hn) as
    (i50 & i90 & i99 & i999 & s & O1 & O2 & O3 & E & X1 & X2 & X3 & X4 & X5 & X6 & Hc).
  exists s, (qsort_u64 samples). pose proof (qsort_sorted samples) as Hs.
  assert (forall i x, qsort_u64 samples !! i = Some x -> x ∈ samples) as Hin.
  { intros i x Hx. rewrite <- (qsort_perm samples). by eapply list_elem_of_lookup_2. }
  refine (conj E (conj (qsort_perm samples) (conj Hs _))). split_and!; try done.
  - by apply (Hs 0%nat (Z.to_nat i50)); [lia| |].
  - by apply (Hs (Z.to_nat i50) (Z.to_nat i90)); [lia| |].
  - by apply (Hs (Z.to_nat i90) (Z.to_nat i99)); [lia| |].
  - by apply (Hs (Z.to_nat i99) (Z.to_nat i999)); [lia| |].
  - by apply (Hs (Z.to_nat i999) (Z.to_nat (zlen samples - 1))); [lia| |].
  - repeat constructor; by eapply Hin.
  - intros x Hx. rewrite <- (qsort_perm samples) in Hx. apply list_elem_of_lookup_1 in Hx as [i Hi].
    pose proof (lookup_lt_Some _ _ _ Hi) as Hlt. rewrite (qsort_perm samples) in Hlt. split.
    + by apply (Hs 0%nat i); [lia| |].
    + by apply (Hs i (Z.to_nat (zlen samples - 1))); [lia| |].
  - intros l Hl. rewrite <- E. rewrite Hl at 2. unfold bench_stats_compute.
    rewrite (proj2 (Z.eqb_neq (zlen samples) 0)) by lia. by rewrite (qsort_perm_eq _ _ Hl).
Qed.

Lemma stats_percentiles_witness :
  0 < zlen [30; 10; 20] < 2 ^ 53 /\
  exists s sorted, bench_stats_compute (Some bstats_zero) (Some [30; 10; 20]) (zlen [30; 10; 20]) = Ok (Some s, Some sorted) /\
    sorted ≡ₚ [30; 10; 20] /\ min_ns s <= p50_ns s.
Proof.
  split; [split; reflexivity|].
  destruct (stats_percentiles bstats_zero [30; 10; 20]) as (s & sorted & E & Hp & _ & H & _); [split; reflexivity|].
  exists s, sorted. exact (conj E (conj Hp H)).
Defined.
