(* ===== verification/BenchRun.v ===== *)
(** * The generic benchmark loop

    src/bench/bench_compressor.{h,c}: the vtable every compressor adapter fills
    in, and [bench_run_generic], the warmup and measurement loop with its
    round-trip check; src/bench/bench_throughput.{h,c}: the bulk loop.  The
    adapter's promise to the loop is the class [BcOk]; the theorem about the loop
    is proved against it. *)

From Stdlib Require Import String.
From stdpp Require Import prelude.
From Stdlib Require Import ZArith Lia SpecFloat.
From S2P Require Import Prelude Double Corpus Replay BenchStats Train Metering.

Local Open Scope Z_scope.

(** ** Data *)
Record bench_result_t : Type := Result {
  r_compressor : string;
  r_compressor_cfg : string;
  r_workload : bench_workload_t;
  r_pkt_size : Z;
  r_count : Z;
  r_seed : Z;
  r_compress : bench_stats_t;
  r_decompress : bench_stats_t;
  r_ratio : spec_float;
  r_original_bytes : Z;
  r_compressed_bytes : Z;
  r_compress_mbs : spec_float;
  r_compress_mpps : spec_float;
  r_decompress_mbs : spec_float;
  r_decompress_mpps : spec_float }.

(** The vtable, over the adapter's private state [S].  A compress or decompress
    call returns the bytes it wrote to the output buffer of the given capacity;
    none is the return value 0, an error. *)
Record bench_compressor_t (S : Type) : Type := Compressor {
  bc_name : S -> string;
  bc_cfg : S -> option string;
  bc_train : option (S -> bench_workload_t -> Z -> Z -> corpus_statics -> outcome unit (Z * S * corpus_statics));
  bc_reset : option (S -> outcome unit S);
  bc_compress : S -> list Z -> Z -> outcome unit (S * list Z);
  bc_decompress : S -> list Z -> Z -> outcome unit (S * list Z);
  bc_destroy : S -> outcome unit unit }.
Arguments Compressor {S}.
Arguments bc_name {S}.
Arguments bc_cfg {S}.
Arguments bc_train {S}.
Arguments bc_reset {S}.
Arguments bc_compress {S}.
Arguments bc_decompress {S}.
Arguments bc_destroy {S}.

Record bench_generic_cfg_t : Type := RunCfg {
  g_warmup : Z;
  g_count : Z;
  g_seed : Z }.

Definition BENCH_DEFAULT_WARMUP : Z := 1000.
Definition BENCH_DEFAULT_COUNT : Z := 100000.
Definition BENCH_DEFAULT_SEED : Z := 42.
Definition BENCH_EVAL_SEED_OFFSET : Z := 0x1000001.

(** Output capacities of the loops. *)
Definition COMP_CAP : Z := BENCH_CORPUS_MAX_PKT + 64.
Definition SCRATCH_CAP : Z := BENCH_CORPUS_MAX_PKT * 2 + 256.

(** The variables of the measurement loop; the sample arrays hold what has been
    written so far. *)
Record measurement (S : Type) : Type := Measure {
  m_state : S;
  m_world : bench_corpus_t * corpus_statics;
  m_calls : nat;
  m_c_samples : list Z;
  m_d_samples : list Z;
  m_total_orig : Z;
  m_total_comp : Z;
  m_safety_ok : bool }.
Arguments Measure {S}.
Arguments m_state {S}.
Arguments m_world {S}.
Arguments m_calls {S}.
Arguments m_c_samples {S}.
Arguments m_d_samples {S}.
Arguments m_total_orig {S}.
Arguments m_total_comp {S}.
Arguments m_safety_ok {S}.

Section Loops.
(** libm's [exp], and [bench_now_ns]: the reading of the [k]-th call. *)
Context (c_exp : spec_float -> spec_float) (now : nat -> Z).

(** [(t1 >= t0) ? (t1 - t0) : 0] *)
Definition elapsed (t0 t1 : Z) : Z := if t0 <=? t1 then t1 - t0 else 0.

(** The next packet, copied to [orig_buf]; a corpus that yields nothing is reset
    once. *)
Definition next_packet (w : bench_corpus_t * corpus_statics) : outcome unit (list Z * (bench_corpus_t * corpus_statics)) :=
  '(plen, w) ← bench_corpus_next c_exp w;
  '(plen, w) ← (if plen =? 0 then bench_corpus_next c_exp (bench_corpus_reset (fst w), snd w) else Ok (plen, w));
  pkt ← peek (k_packet (fst w)) 0 plen;
  Ok (pkt, w).

Section Generic.
Context {S : Type} (c : bench_compressor_t S).

Definition call_reset (s : S) : outcome unit S := match bc_reset c with Some f => f s | None => Ok s end.

Definition warmup_step (x : S * (bench_corpus_t * corpus_statics)) (i : Z) : outcome unit (S * (bench_corpus_t * corpus_statics)) :=
  let '(s, w) := x in
  '(pkt, w) ← next_packet w;
  '(s, out) ← bc_compress c s pkt COMP_CAP;
  s ← (if 0 <? zlen out then '(s, _) ← bc_decompress c s out BENCH_CORPUS_MAX_PKT; Ok s else Ok s);
  Ok (s, w).

Definition generic_step (m : measurement S) (i : Z) : outcome unit (measurement S) :=
  let '(Measure s w k cs ds to tc ok) := m in
  '(pkt, w) ← next_packet w;
  '(s, out) ← bc_compress c s pkt COMP_CAP;
  let cs := cs ++ [elapsed (now k) (now (k + 1)%nat)] in
  if zlen out =? 0 then
    (* incompressible: counted as stored raw, the round trip is skipped *)
    Ok (Measure s w (k + 2) cs (ds ++ [0]) (u64 (to + zlen pkt)) (u64 (tc + zlen pkt)) ok)
  else
    '(s, dec) ← bc_decompress c s out BENCH_CORPUS_MAX_PKT;
    Ok (Measure s w (k + 4) cs (ds ++ [elapsed (now (k + 2)%nat) (now (k + 3)%nat)])
          (u64 (to + zlen pkt)) (u64 (tc + zlen out)) (ok && bool_decide (dec = pkt))).

(** The result structure of a finished run. *)
Definition finish_result (name cfg : string) (wl : bench_workload_t) (count seed : Z) (m : measurement S)
  : outcome unit bench_result_t :=
  '(cst, _) ← bench_stats_compute (Some bstats_zero) (Some (m_c_samples m)) count;
  '(dst, _) ← bench_stats_compute (Some bstats_zero) (Some (m_d_samples m)) count;
  let cst := default bstats_zero cst in
  let dst := default bstats_zero dst in
  let pkt_size := bench_workload_pkt_size wl in
  let bpp := if (pkt_size =? 0) && (0 <? count) then m_total_orig m / count else pkt_size in
  Ok (Result name cfg wl pkt_size count seed cst dst (bench_stats_ratio (m_total_orig m) (m_total_comp m))
        (m_total_orig m) (m_total_comp m)
        (bench_stats_throughput_mbs bpp (mean_ns cst)) (bench_stats_mpps (mean_ns cst))
        (bench_stats_throughput_mbs bpp (mean_ns dst)) (bench_stats_mpps (mean_ns dst))).

(** Returns the C return value, the result if one was written, and the state.
    [mem] says which of the five buffers could be allocated. *)
Definition bench_run_generic (mem : nat -> bool) (cfg : bench_generic_cfg_t) (wl : bench_workload_t) (s : S) (st : corpus_statics)
  : outcome unit (Z * option bench_result_t * S * corpus_statics) :=
  let count := if g_count cfg =? 0 then 100000 else g_count cfg in
  if negb (forallb mem (seq 0 5)) then Ok (-1, None, s, st) else
  (* the sizes of the sample arrays wrap around *)
  if 2 ^ 64 <=? count * 8 then Undef else
  let eval_seed := u64 (g_seed cfg + BENCH_EVAL_SEED_OFFSET) in
  let corpus := bench_corpus_init wl eval_seed in
  s ← call_reset s;
  '(s, w) ← foldM warmup_step (s, (corpus, st)) (seqZ 0 (g_warmup cfg));
  let w := (bench_corpus_reset (fst w), snd w) in
  s ← call_reset s;
  m ← foldM generic_step (Measure s w 0 [] [] 0 0 true) (seqZ 0 count);
  res ← finish_result (bc_name c (m_state m)) (default EmptyString (bc_cfg c (m_state m))) wl count (g_seed cfg) m;
  Ok ((if m_safety_ok m then 0 else -1), Some res, m_state m, snd (m_world m)).
End Generic.

(** ** The bulk loop: throughput and packet rate *)
Record bench_throughput_result_t : Type := Throughput {
  t_compressor : string;
  t_compressor_cfg : option string;
  t_workload : bench_workload_t;
  t_packets : Z;
  t_original_bytes : Z;
  t_compressed_bytes : Z;
  t_ratio : spec_float;
  t_compress_mbs : spec_float;
  t_decompress_mbs : spec_float;
  t_compress_mpps : spec_float;
  t_decompress_mpps : spec_float;
  t_compress_elapsed_s : spec_float;
  t_decompress_elapsed_s : spec_float }.

Section Bulk.
Context {S : Type} (c : bench_compressor_t S).

(** The untimed pass: compress only; it ends early when the corpus yields
    nothing (the flag). *)
Definition bulk_warmup_step (x : S * (bench_corpus_t * corpus_statics) * bool) (i : Z)
  : outcome unit (S * (bench_corpus_t * corpus_statics) * bool) :=
  let '(s, w, stopped) := x in
  if (stopped : bool) then Ok (s, w, true) else
  '(plen, w) ← bench_corpus_next c_exp w;
  if plen =? 0 then Ok (s, w, true) else
  pkt ← peek (k_packet (fst w)) 0 plen;
  '(s, _) ← bc_compress c s pkt SCRATCH_CAP;
  Ok (s, w, false).

(** Packets are generated ahead; an empty one is retried once. *)
Definition bulk_generate_step (x : list (list Z) * (bench_corpus_t * corpus_statics)) (i : Z)
  : outcome unit (list (list Z) * (bench_corpus_t * corpus_statics)) :=
  let '(pkts, w) := x in
  '(plen, w) ← bench_corpus_next c_exp w;
  '(plen, w) ← (if plen =? 0 then bench_corpus_next c_exp w else Ok (plen, w));
  pkt ← peek (k_packet (fst w)) 0 plen;
  Ok (pkts ++ [pkt], w).

(** A packet the adapter cannot compress is stored raw. *)
Definition bulk_compress_step (x : S * list (list Z) * Z * Z * Z) (pkt : list Z) : outcome unit (S * list (list Z) * Z * Z * Z) :=
  let '(s, outs, to, tc, packets) := x in
  '(s, out) ← bc_compress c s pkt SCRATCH_CAP;
  let out := if zlen out =? 0 then pkt else out in
  Ok (s, outs ++ [out], u64 (to + zlen pkt), u64 (tc + zlen out), packets + 1).

(** The return value of decompress is not looked at. *)
Definition bulk_decompress_step (s : S) (out : list Z) : outcome unit S :=
  '(s, _) ← bc_decompress c s out BENCH_CORPUS_MAX_PKT; Ok s.

Definition throughput_run_internal (mem : nat -> bool) (cfg : bench_generic_cfg_t) (wl : bench_workload_t) (s : S) (st : corpus_statics)
  : outcome unit (Z * option bench_throughput_result_t * S * corpus_statics) :=
  let corpus := bench_corpus_init wl (u64 (g_seed cfg + BENCH_EVAL_SEED_OFFSET)) in
  '(s, w, _) ← foldM bulk_warmup_step (s, (corpus, st), false) (seqZ 0 (g_warmup cfg));
  let w := (bench_corpus_reset (fst w), snd w) in
  if negb (forallb mem (seq 0 4)) then Ok (-1, None, s, snd w) else
  (* the size of the largest buffer wraps around *)
  if 2 ^ 64 <=? g_count cfg * SCRATCH_CAP then Undef else
  '(pkts, w) ← foldM bulk_generate_step ([], w) (seqZ 0 (g_count cfg));
  '(s, outs, total_orig, total_cmp, packets) ← foldM bulk_compress_step (s, [], 0, 0, 0) pkts;
  let compress_elapsed := f64_mul (f64_of_Z (u64 (now 1%nat - now 0%nat))) (f64_lit 1 1000000000) in
  s ← foldM bulk_decompress_step s outs;
  let decompress_elapsed := f64_mul (f64_of_Z (u64 (now 3%nat - now 2%nat))) (f64_lit 1 1000000000) in
  let orig_mb := f64_div (f64_of_Z total_orig) (f64_mul (f64_of_Z 1024) (f64_of_Z 1024)) in
  let pkt_m := f64_div (f64_of_Z packets) (f64_of_Z 1000000) in
  let rate x e := if SFltb f64_zero e then f64_div x e else f64_zero in
  Ok (0, Some (Throughput (bc_name c s) (bc_cfg c s) wl packets total_orig total_cmp
        (if 0 <? total_orig then f64_div (f64_of_Z total_cmp) (f64_of_Z total_orig) else f64_one)
        (rate orig_mb compress_elapsed) (rate orig_mb decompress_elapsed) (rate pkt_m compress_elapsed) (rate pkt_m decompress_elapsed)
        compress_elapsed decompress_elapsed), s, snd w).

Definition bench_throughput_run := throughput_run_internal.

(** One million packets after ten thousand untimed ones. *)
Definition bench_mpps_run (mem : nat -> bool) (wl : bench_workload_t) (seed : Z) (s : S) (st : corpus_statics)
  : outcome unit (Z * option bench_throughput_result_t * S * corpus_statics) :=
  throughput_run_internal mem (RunCfg 10000 1000000 seed) wl s st.
End Bulk.
End Loops.

(** ** What an adapter promises *)

(** [I] holds of the adapter between packets: a call on a packet of the corpus
    stays within the output buffer, and either reports the packet as
    incompressible or writes bytes from which the next decompress call restores
    it. *)
Class BcOk {S} (c : bench_compressor_t S) (I : S -> Prop) : Prop := {
  bc_reset_ok : forall s, I s -> exists s', call_reset c s = Ok s' /\ I s';
  bc_step_ok : forall s m cap, I s -> bytes m -> 0 < zlen m <= BENCH_CORPUS_MAX_PKT -> Z.odd (zlen m) = false -> COMP_CAP <= cap <= SCRATCH_CAP ->
    exists s1 out, bc_compress c s m cap = Ok (s1, out) /\ zlen out <= cap /\
      (out = [] /\ I s1 \/
       out <> [] /\ exists s2, bc_decompress c s1 out BENCH_CORPUS_MAX_PKT = Ok (s2, m) /\ I s2) }.

(** The name of an adapter does not change while it runs. *)
Class KeepsName {S} (c : bench_compressor_t S) : Prop := {
  reset_name : forall s s', call_reset c s = Ok s' -> bc_name c s' = bc_name c s;
  compress_name : forall s m cap s' out, bc_compress c s m cap = Ok (s', out) -> bc_name c s' = bc_name c s;
  decompress_name : forall s m cap s' out, bc_decompress c s m cap = Ok (s', out) -> bc_name c s' = bc_name c s }.

Lemma named_ok {S} (c : bench_compressor_t S) I name : BcOk c I -> KeepsName c -> BcOk c (fun s => I s /\ bc_name c s = name).
Proof.
  intros Hc Hk. split.
  - intros s [Hs Hn]. destruct (bc_reset_ok s Hs) as (s' & E & Hs'). exists s'. split; [done|]. split; [done|]. by rewrite (reset_name s s' E).
  - intros s m cap [Hs Hn] Hb Hl Ho Hcap. destruct (bc_step_ok s m cap Hs Hb Hl Ho Hcap) as (s1 & out & E & Hf & Hcase).
    exists s1, out. split; [done|]. split; [done|]. pose proof (compress_name _ _ _ _ _ E) as Hn1.
    destruct Hcase as [[-> H1]|(Hne & s2 & Hd & H2)]; [left; split_and!; [done|done|congruence]|right]. split; [done|]. exists s2.
    split; [done|]. split; [done|]. pose proof (decompress_name _ _ _ _ _ Hd). congruence.
Qed.

Lemma comp_cap_range : COMP_CAP <= COMP_CAP <= SCRATCH_CAP.
Proof. done. Qed.

(** ** The traffic of a run *)

(** [call s p o s']: sending the packet [p] in state [s] puts the bytes [o] on
    the wire and leaves [s'].  [exchange s0 ps os s]: the packets [ps] in order. *)
Inductive exchange {S : Type} (call : S -> list Z -> list Z -> S -> Prop) (s0 : S) : list (list Z) -> list (list Z) -> S -> Prop :=
  | exchange_nil : exchange call s0 [] [] s0
  | exchange_snoc ps os s p o s' :
      exchange call s0 ps os s -> call s p o s' -> exchange call s0 (ps ++ [p]) (os ++ [o]) s'.

(** A run: [warmup] packets of the corpus, then, after a reset of the adapter and
    of the corpus, the measured ones [pkts], for which [outs] went over the wire. *)
Definition traffic {S : Type} (c_exp : spec_float -> spec_float) (reset : S -> outcome unit S) (call : S -> list Z -> list Z -> S -> Prop)
    (wl : bench_workload_t) (cfg : bench_generic_cfg_t) (s : S) (st : corpus_statics) (pkts outs : list (list Z)) (s' : S)
    (st' : corpus_statics) : Prop :=
  let corpus := bench_corpus_init wl (u64 (g_seed cfg + BENCH_EVAL_SEED_OFFSET)) in
  exists s1 wpkts wouts s2 w2 s3 w3,
    reset s = Ok s1 /\ corpus_run c_exp (Z.to_nat (g_warmup cfg)) (corpus, st) = Ok (wpkts, w2) /\ exchange call s1 wpkts wouts s2 /\
    reset s2 = Ok s3 /\ corpus_run c_exp (Z.to_nat (g_count cfg)) (corpus, snd w2) = Ok (pkts, w3) /\ exchange call s3 pkts outs s' /\
    st' = snd w3.

(** One packet through an adapter of the vtable: the bytes [bc_compress] wrote,
    from which [bc_decompress] gave the packet back, or the packet itself if it
    wrote none. *)
Definition generic_call {S} (c : bench_compressor_t S) (s : S) (p o : list Z) (s' : S) : Prop :=
  exists s1 out, bc_compress c s p COMP_CAP = Ok (s1, out) /\
    (out = [] /\ o = p /\ s' = s1 \/ out <> [] /\ o = out /\ bc_decompress c s1 out BENCH_CORPUS_MAX_PKT = Ok (s', p)).

(** One more packet of a run. *)
Lemma corpus_run_snoc c_exp n : forall w pkts w1 len w2 pkt,
  corpus_run c_exp n w = Ok (pkts, w1) -> bench_corpus_next c_exp w1 = Ok (len, w2) -> peek (k_packet (fst w2)) 0 len = (Ok pkt : outcome unit (list Z)) ->
  corpus_run c_exp (Datatypes.S n) w = Ok (pkts ++ [pkt], w2).
Proof.
  induction n as [|n IH]; intros w pkts w1 len w2 pkt E1 E2 E3.
  { injection E1 as <- <-. cbn [corpus_run]. rewrite E2. mstep. rewrite E3. by mstep. }
  cbn [corpus_run] in E1. apply bind_Ok in E1 as ([l0 w0] & E0 & E1). apply bind_Ok in E1 as ([ps w3] & Er & E1).
  apply bind_Ok in E1 as (p0 & Ep & E1). injection E1 as <- <-. pose proof (IH _ _ _ _ _ _ Er E2 E3) as E4.
  cbn [corpus_run] in E4 |- *. rewrite E0. mstep. rewrite E4. mstep. rewrite Ep. by mstep.
Qed.

Section Correct.
Context (c_exp : spec_float -> spec_float) `{!ExpOk c_exp} (now : nat -> Z) (wl : bench_workload_t) (Hwl : wl <> BENCH_WL_ALL).

(** A corpus of the workload with at most [n] packets drawn since its reset. *)
Definition corpus_at (n : Z) (w : bench_corpus_t * corpus_statics) : Prop :=
  winv (fst w) (snd w) /\ k_workload (fst w) = wl /\ 0 <= k_wl007_phase (fst w) <= n.

Lemma corpus_at_reset n w : corpus_at n w -> corpus_at 0 (bench_corpus_reset (fst w), snd w).
Proof.
  intros ((_ & _ & Hc) & Hk & _). unfold bench_corpus_reset. rewrite Hk. split; [by apply init_winv|]. split; [done|]. cbn. lia.
Qed.

Lemma corpus_at_init seed st : zlen (base_ctrs st) = 32 -> corpus_at 0 (bench_corpus_init wl seed, st).
Proof. intros H. split; [by apply init_winv|]. split; [done|]. cbn. lia. Qed.

(** The corpus yields [pkt]. *)
Definition drawn (w : bench_corpus_t * corpus_statics) (pkt : list Z) (w' : bench_corpus_t * corpus_statics) : Prop :=
  bench_corpus_next c_exp w = Ok (zlen pkt, w') /\ @peek unit (k_packet (fst w')) 0 (zlen pkt) = Ok pkt.

Lemma next_packet_ok n w :
  corpus_at n w -> n < 2 ^ 31 - 1 ->
  exists pkt w', next_packet c_exp w = Ok (pkt, w') /\ corpus_at (n + 1) w' /\ packet_ok wl pkt /\
    0 < zlen pkt <= BENCH_CORPUS_MAX_PKT /\ Z.odd (zlen pkt) = false /\ drawn w pkt w'.
Proof.
  destruct w as [c st]. intros (Hw & Hk & Hp) Hn. cbn [fst snd] in *.
  destruct (corpus_next_ok c_exp c st Hw ltac:(lia)) as (c1 & st1 & E & Hs); [by rewrite Hk|]. rewrite Hk in Hs.
  destruct (step_packet_ok _ _ _ _ Hwl Hs) as (Hpk & Hpl & Hok). destruct Hs as (Hw1 & Hk1 & _ & Hp1 & Hsz).
  destruct (packet_size_bound _ _ Hwl Hsz) as [Hb Ho].
  exists (packet c1), (c1, st1). split.
  { unfold next_packet. rewrite E. mstep. rewrite (proj2 (Z.eqb_neq _ 0)) by lia. mstep. cbn [fst]. by rewrite Hpk. }
  rewrite Hpl. split; [split; [done|]; cbn [fst]; split; [congruence|lia]|]. split; [done|]. split; [done|]. split; [done|].
  unfold drawn. cbn [fst]. by rewrite Hpl.
Qed.

Lemma corpus_run_seed n seed st ps w :
  corpus_run c_exp n (bench_corpus_init wl seed, st) = Ok (ps, w) -> zlen (base_ctrs st) = 32 -> Z.of_nat n < 2 ^ 31 ->
  bench_corpus_reset (fst w) = bench_corpus_init wl seed.
Proof.
  intros H Hst Hn. destruct (corpus_run_ok c_exp n (bench_corpus_init wl seed) st) as (ps' & c' & st' & E & _ & _ & _ & Hk & Hs);
    [by apply init_winv|done|cbn; lia|done|]. rewrite E in H. injection H as <- <-. cbn [fst]. unfold bench_corpus_reset. by rewrite Hk, Hs.
Qed.

Lemma total_length_snoc ls l : total_length (ls ++ [l]) = total_length ls + zlen l.
Proof. unfold total_length. induction ls as [|x ls IH]; cbn [app foldr length]; [cbn; lia|]. rewrite IH. lia. Qed.

Lemma total_length_bound n ls : Forall (fun l => zlen l <= n) ls -> 0 <= total_length ls <= n * zlen ls.
Proof. induction 1 as [|x ls Hx _ IH]; cbn [total_length foldr length]; [lia|]. fold (total_length ls). lia. Qed.

Lemma packets_small pkts : Forall (packet_ok wl) pkts -> Forall (fun l => zlen l <= 576) pkts.
Proof. intros H. eapply Forall_impl; [exact H|]. intros p [_ Hp]. apply packet_size_bound in Hp; [lia|done]. Qed.

(** A loop over the packets of the corpus [w0], by an adapter that starts in [s0]
    and whose calls are [call]; [I] holds of it between packets. *)
Section Progress.
Context {S : Type} (call : S -> list Z -> list Z -> S -> Prop) (I : S -> Prop) (w0 : bench_corpus_t * corpus_statics) (s0 : S).

(** After [k] packets. *)
Definition progress (k : Z) (s : S) (w : bench_corpus_t * corpus_statics) (pkts outs : list (list Z)) : Prop :=
  I s /\ corpus_at k w /\ corpus_run c_exp (Z.to_nat k) w0 = Ok (pkts, w) /\ exchange call s0 pkts outs s /\
  zlen pkts = k /\ zlen outs = k /\ Forall (packet_ok wl) pkts /\ Forall (fun o => zlen o <= 576) outs.

Lemma progress_start : I s0 -> corpus_at 0 w0 -> progress 0 s0 w0 [] [].
Proof. intros Hi Hw. split_and!; try done. constructor. Qed.

Lemma progress_next k s w pkts outs pkt w' o s' :
  0 <= k -> progress k s w pkts outs -> corpus_at (k + 1) w' -> drawn w pkt w' -> packet_ok wl pkt -> call s pkt o s' -> I s' ->
  zlen o <= COMP_CAP -> progress (k + 1) s' w' (pkts ++ [pkt]) (outs ++ [o]).
Proof.
  intros Hk (_ & _ & Hr & He & Hl1 & Hl2 & Hf1 & Hf2) Hw' Hd Hp Hc Hi Ho. unfold progress. rewrite !length_app, Z2Nat.inj_add, Nat.add_1_r by lia.
  destruct Hd as [Hn Hpk].
  refine (conj Hi (conj Hw' (conj _ (conj _ _)))); [by eapply corpus_run_snoc|by econstructor|]. cbn [length].
  split_and!; [lia|lia|apply Forall_app; by split; [|constructor]..].
Qed.

(** The measurement loop after [k] packets: its totals are those of the packets
    and of what was written for them. *)
Definition measured (k : Z) (m : measurement S) : Prop :=
  zlen (m_c_samples m) = k /\ zlen (m_d_samples m) = k /\ m_safety_ok m = true /\
  exists pkts outs, progress k (m_state m) (m_world m) pkts outs /\ m_total_orig m = total_length pkts /\ m_total_comp m = total_length outs.

(** One more packet in the totals. *)
Lemma measured_next k m s' w' calls x y pkt out :
  0 <= k < 2 ^ 31 -> measured k m -> corpus_at (k + 1) w' -> drawn (m_world m) pkt w' -> packet_ok wl pkt -> call (m_state m) pkt out s' -> I s' ->
  zlen out <= COMP_CAP ->
  measured (k + 1) (Measure s' w' calls (m_c_samples m ++ [x]) (m_d_samples m ++ [y])
    (u64 (m_total_orig m + zlen pkt)) (u64 (m_total_comp m + zlen out)) true).
Proof.
  intros Hk (Hc & Hd & _ & pkts & outs & Hp & -> & ->) Hw Hdr Hpk Hcall Hi Hout.
  assert (progress (k + 1) s' w' (pkts ++ [pkt]) (outs ++ [out])) as Hp' by (eapply progress_next; eauto; lia).
  pose proof Hp' as (_ & _ & _ & _ & Hl1 & Hl2 & Hfp & Hfo). apply packets_small in Hfp.
  pose proof (total_length_bound _ _ Hfp) as Hb1. pose proof (total_length_bound _ _ Hfo) as Hb2.
  rewrite Hl1, total_length_snoc in Hb1. rewrite Hl2, total_length_snoc in Hb2.
  unfold measured. cbn [m_state m_world m_c_samples m_d_samples m_total_orig m_total_comp m_safety_ok]. rewrite !length_app. cbn [length].
  split_and!; try done; try lia.
  exists (pkts ++ [pkt]), (outs ++ [out]). split; [done|]. rewrite !total_length_snoc, !u64_small by lia. done.
Qed.

Lemma measured_start : I s0 -> corpus_at 0 w0 -> measured 0 (Measure s0 w0 0 [] [] 0 0 true).
Proof. intros Hi Hw. split_and!; try done. exists [], []. split; [by apply progress_start|done]. Qed.

(** The statistics and the result of a finished measurement. *)
Lemma finish_ok name cfg count seed m :
  0 < count < 2 ^ 31 -> measured count m ->
  exists res, finish_result name cfg wl count seed m = Ok res /\ r_workload res = wl /\ r_count res = count /\
    r_compressor res = name /\ r_original_bytes res = m_total_orig m /\ r_compressed_bytes res = m_total_comp m /\
    r_ratio res = bench_stats_ratio (m_total_orig m) (m_total_comp m) /\ r_pkt_size res = bench_workload_pkt_size wl /\
    count_ns (r_compress res) = count /\ count_ns (r_decompress res) = count.
Proof.
  intros Hn (Hc & Hd & _). unfold finish_result.
  destruct (stats_compute_spec bstats_zero (m_c_samples m)) as (? & ? & ? & ? & cst & _ & _ & _ & E1 & _ & _ & _ & _ & _ & _ & C1); [lia|].
  destruct (stats_compute_spec bstats_zero (m_d_samples m)) as (? & ? & ? & ? & dst & _ & _ & _ & E2 & _ & _ & _ & _ & _ & _ & C2); [lia|].
  rewrite Hc in E1, C1. rewrite Hd in E2, C2. rewrite E1. mstep. rewrite E2. mstep. eexists. split; [reflexivity|].
  cbn [default from_option id r_workload r_count r_compressor r_original_bytes r_compressed_bytes r_ratio r_pkt_size r_compress r_decompress].
  by split_and!.
Qed.
End Progress.

Section Adapter.
Context {S : Type} (c : bench_compressor_t S) (I : S -> Prop) `{!BcOk c I}.

Lemma zlen_pos {A} (l : list A) : l <> [] -> 0 < zlen l.
Proof. destruct l; [done|]. cbn [length]. lia. Qed.

(** What a call of an adapter that keeps its promise does. *)
Lemma bc_call_ok s pkt :
  I s -> packet_ok wl pkt -> 0 < zlen pkt <= BENCH_CORPUS_MAX_PKT -> Z.odd (zlen pkt) = false ->
  exists s1 out, bc_compress c s pkt COMP_CAP = Ok (s1, out) /\ zlen out <= COMP_CAP /\
    (out = [] /\ I s1 /\ generic_call c s pkt pkt s1 \/
     0 < zlen out /\ exists s2, bc_decompress c s1 out BENCH_CORPUS_MAX_PKT = Ok (s2, pkt) /\ I s2 /\ generic_call c s pkt out s2).
Proof.
  intros Hi [Hb _] Hl Ho. destruct (bc_step_ok s pkt COMP_CAP Hi Hb Hl Ho comp_cap_range) as (s1 & out & E & Hcap & Hcase).
  exists s1, out. split; [done|]. split; [done|]. destruct Hcase as [[-> Hi1]|(Hne & s2 & Hd & Hi2)].
  - left. split; [done|]. split; [done|]. exists s1, []. split; [done|]. by left.
  - right. split; [by apply zlen_pos|]. exists s2. split; [done|]. split; [done|]. exists s1, out. split; [done|]. by right.
Qed.

Lemma warmup_ok n s0 st seed :
  0 <= n < 2 ^ 31 -> I s0 -> zlen (base_ctrs st) = 32 ->
  exists s' w' ps os, foldM (warmup_step c_exp c) (s0, (bench_corpus_init wl seed, st)) (seqZ 0 n) = Ok (s', w') /\
    progress (generic_call c) I (bench_corpus_init wl seed, st) s0 n s' w' ps os.
Proof.
  intros Hn Hs Hst. set (w0 := (bench_corpus_init wl seed, st)).
  destruct (foldM_seqZ (fun k x => exists ps os, progress (generic_call c) I w0 s0 k (fst x) (snd x) ps os) 0 n (warmup_step c_exp c) (s0, w0))
    as ([s' w'] & E & ps & os & H); [lia|exists [], []; apply progress_start; [done|by apply corpus_at_init]| |by exists s', w', ps, os].
  intros k [s1 w1] Hk (ps & os & Hp). cbn [fst snd] in *. pose proof Hp as (H1 & H2 & _). unfold warmup_step.
  destruct (next_packet_ok k w1 H2 ltac:(lia)) as (pkt & w2 & -> & Hw2 & Hok & Hl & Ho & Hdr). mstep.
  destruct (bc_call_ok s1 pkt H1 Hok Hl Ho) as (s2 & out & -> & Hcap & [(-> & Hi & Hcall)|(Hpos & s3 & Hd & Hi & Hcall)]); mstep.
  - cbn [length]. mstep. eexists. split; [reflexivity|]. do 2 eexists. eapply progress_next; eauto; unfold COMP_CAP; lia.
  - if_true. rewrite Hd. mstep. eexists. split; [reflexivity|]. do 2 eexists. eapply progress_next; eauto; lia.
Qed.

Lemma generic_step_ok w0 s0 k m :
  0 <= k < 2 ^ 31 - 1 -> measured (generic_call c) I w0 s0 k m ->
  exists m', generic_step c_exp now c m k = Ok m' /\ measured (generic_call c) I w0 s0 (k + 1) m'.
Proof.
  intros Hk Hm. pose proof Hm as (_ & _ & Hok & pkts & outs & (Hi & Hw & _) & _).
  pose proof (fun s' w' calls x y pkt out => measured_next _ _ _ _ k m s' w' calls x y pkt out ltac:(lia) Hm) as Hnext.
  destruct m as [s w calls cs ds to tc ok]. cbn [m_state m_world m_c_samples m_d_samples m_total_orig m_total_comp m_safety_ok] in *.
  subst ok. unfold generic_step.
  destruct (next_packet_ok k w Hw ltac:(lia)) as (pkt & w' & -> & Hw' & Hpk & Hl & Ho & Hdr). mstep.
  destruct (bc_call_ok s pkt Hi Hpk Hl Ho) as (s1 & out & -> & Hcap & [(-> & Hi1 & Hcall)|(Hpos & s2 & Hd & Hi1 & Hcall)]); mstep.
  - cbn [length Z.of_nat Z.eqb]. eexists. split; [reflexivity|]. apply Hnext; try done. unfold COMP_CAP. lia.
  - rewrite (proj2 (Z.eqb_neq (zlen out) 0)) by lia. rewrite Hd. mstep.
    eexists. split; [reflexivity|]. rewrite (bool_decide_eq_true_2 _ eq_refl). by apply Hnext.
Qed.
End Adapter.
End Correct.

(** ** Properties *)

(** The generic benchmark never reports a failure for an adapter that keeps
    its promise: for every workload, seed, clock and iteration counts below
    2^31, it runs to the end without undefined behaviour and returns 0; the
    result counts exactly the bytes of the measured packets and of what was
    written for them, and its statistics are over all samples. *)
Lemma run_generic_verified (c_exp : spec_float -> spec_float) (now : nat -> Z) (S : Type) (c : bench_compressor_t S) (I : S -> Prop)
    (cfg : bench_generic_cfg_t) (wl : bench_workload_t) (s : S) (st : corpus_statics) :
  ExpOk c_exp -> BcOk c I -> I s -> wl <> BENCH_WL_ALL -> zlen (base_ctrs st) = 32 ->
  0 <= g_warmup cfg < 2 ^ 31 -> 0 < g_count cfg < 2 ^ 31 ->
  exists res s' st' pkts outs, bench_run_generic c_exp now c (fun _ => true) cfg wl s st = Ok (0, Some res, s', st') /\ I s' /\
    zlen (base_ctrs st') = 32 /\ r_workload res = wl /\ r_compressor res = bc_name c s' /\ r_count res = g_count cfg /\
    traffic c_exp (call_reset c) (generic_call c) wl cfg s st pkts outs s' st' /\
    r_original_bytes res = total_length pkts /\ r_compressed_bytes res = total_length outs /\
    count_ns (r_compress res) = g_count cfg /\ count_ns (r_decompress res) = g_count cfg.
Proof.
  intros He Hc Hi Hwl Hst Hwu Hn. unfold bench_run_generic, traffic. rewrite (proj2 (Z.eqb_neq (g_count cfg) 0)) by lia.
  cbn [forallb seq andb negb]. rewrite (proj2 (Z.leb_gt (2 ^ 64) (g_count cfg * 8))) by lia.
  destruct (bc_reset_ok s Hi) as (s1 & Er1 & Hi1). rewrite Er1. mstep. cbv zeta. set (seed := u64 (g_seed cfg + BENCH_EVAL_SEED_OFFSET)).
  destruct (warmup_ok c_exp wl Hwl c I (g_warmup cfg) s1 st seed Hwu Hi1 Hst) as (s2 & w2 & wps & wos & -> & Hi2 & Hw2 & Hrun2 & Hex2 & _).
  mstep. destruct (bc_reset_ok s2 Hi2) as (s3 & Er3 & Hi3). rewrite Er3. mstep. rewrite (corpus_run_seed c_exp wl Hwl _ _ _ _ _ Hrun2 Hst ltac:(lia)).
  destruct (foldM_seqZ (measured c_exp wl (generic_call c) I (bench_corpus_init wl seed, snd w2) s3) 0 (g_count cfg) (generic_step c_exp now c)
    (Measure s3 (bench_corpus_init wl seed, snd w2) 0 [] [] 0 0 true)) as (m & -> & Hm); [lia| | |].
  { apply measured_start; [done|]. apply corpus_at_init. apply Hw2. }
  { intros k m Hk Hm. apply (generic_step_ok c_exp now wl Hwl c I); [lia|done]. }
  mstep. rewrite Z.add_0_l in Hm.
  destruct (finish_ok c_exp wl _ _ _ _ (bc_name c (m_state m)) (default EmptyString (bc_cfg c (m_state m))) (g_count cfg) (g_seed cfg) m Hn Hm)
    as (res & -> & R0 & R1 & Rn & R2 & R3 & _ & _ & R4 & R5). mstep.
  destruct Hm as (_ & _ & -> & pkts & outs & (Hi4 & ((_ & _ & Hct) & _) & Hr & Hx & _) & T1 & T2).
  exists res, (m_state m), (snd (m_world m)), pkts, outs. split; [reflexivity|]. split_and!; try done; try congruence.
  by exists s1, wps, wos, s2, w2, s3, (m_world m).
Qed.

(** An adapter that stores packets: the promise can be kept. *)
Definition store_compressor : bench_compressor_t unit :=
  Compressor (fun _ => "store"%string) (fun _ => None) None None (fun s m _ => Ok (s, m)) (fun s m _ => Ok (s, m)) (fun _ => Ok tt).

#[export] Instance store_ok : BcOk store_compressor (fun _ => True).
Proof.
  split; [by intros [] _; exists tt|]. intros [] m cap _ Hb Hl _ Hc. exists tt, m. unfold COMP_CAP in Hc.
  split; [done|]. split; [lia|]. right. split; [intros ->; cbn in Hl; lia|]. by exists tt.
Qed.
