(* ===== verification/BenchNetc.v ===== *)
(** * The benchmark of netc itself

    src/bench/bench_netc.{h,c}: the adapter with its encoder and decoder
    contexts and its dictionary; src/bench/bench_runner.{h,c}: [bench_run], the
    timing loop with the round-trip check SAFETY-01.  The theorems connect the
    harness with the library: training on a workload succeeds, and the check
    never fails. *)

From Stdlib Require Import String.
From stdpp Require Import prelude.
From Stdlib Require Import ZArith Lia SpecFloat.
From S2P Require Import Prelude Simd Header Ctx Dict Train Training Decompress Compress Stateless Session Progress Transport Deploy.
From S2P Require Import Double CText Corpus Replay BenchStats Metering BenchRun.

Local Open Scope Z_scope.

(** ** The adapter *)

(** [n_stale]: the contexts point to a dictionary that has been freed. *)
Record bench_netc_t : Type := NetcAdapter {
  n_enc_ctx : option netc_ctx_t;
  n_dec_ctx : option netc_ctx_t;
  n_dict : option netc_dict_t;
  n_stateless : bool;
  n_flags : Z;
  n_simd_level : Z;
  n_name : string;
  n_comp_buf_cap : option Z;
  n_stale : bool }.

Definition set_ctxs (n : bench_netc_t) (e d : option netc_ctx_t) (stale : bool) : bench_netc_t :=
  NetcAdapter e d (n_dict n) (n_stateless n) (n_flags n) (n_simd_level n) (n_name n) (n_comp_buf_cap n) stale.
Definition set_dict (n : bench_netc_t) (d : option netc_dict_t) (stale : bool) : bench_netc_t :=
  NetcAdapter (n_enc_ctx n) (n_dec_ctx n) d (n_stateless n) (n_flags n) (n_simd_level n) (n_name n) (n_comp_buf_cap n) stale.
Definition set_name (n : bench_netc_t) (s : string) : bench_netc_t :=
  NetcAdapter (n_enc_ctx n) (n_dec_ctx n) (n_dict n) (n_stateless n) (n_flags n) (n_simd_level n) s (n_comp_buf_cap n) (n_stale n).

Definition netc_simd_level_name (level : Z) : string :=
  if level =? NETC_SIMD_LEVEL_GENERIC then "generic"%string
  else if level =? NETC_SIMD_LEVEL_SSE42 then "sse42"%string
  else if level =? NETC_SIMD_LEVEL_AVX2 then "avx2"%string
  else if level =? NETC_SIMD_LEVEL_NEON then "neon"%string
  else "auto"%string.

(** The configuration string; [dct] is "+dict" or empty. *)
Definition adapter_name (n : bench_netc_t) (dct : string) : string :=
  let mode := (if n_stateless n then "stateless" else "stateful")%string in
  let delta := (if has (n_flags n) NETC_CFG_FLAG_DELTA then "+delta" else EmptyString)%string in
  let fast := (if has (n_flags n) NETC_CFG_FLAG_FAST_COMPRESS then " fast=1" else EmptyString)%string in
  let adapt := (if has (n_flags n) NETC_CFG_FLAG_ADAPTIVE then "+adaptive" else EmptyString)%string in
  let det := match n_enc_ctx n with Some e => netc_ctx_simd_level (Some e) | None => n_simd_level n end in
  snprintf 64 ("netc/" ++ mode ++ delta ++ dct ++ adapt ++ " simd=" ++ netc_simd_level_name det ++ fast)%string.

Section Adapter.
Context (c_exp : spec_float -> spec_float) (cpu : simd_caps).

(** The same text, from the settings of a stateful adapter. *)
Definition adapter_label (flags simd_level : Z) (dct : string) : string :=
  snprintf 64 ("netc/stateful" ++ (if has flags NETC_CFG_FLAG_DELTA then "+delta" else EmptyString) ++ dct
    ++ (if has flags NETC_CFG_FLAG_ADAPTIVE then "+adaptive" else EmptyString) ++ " simd="
    ++ netc_simd_level_name (level (netc_simd_ops_init cpu simd_level))
    ++ (if has flags NETC_CFG_FLAG_FAST_COMPRESS then " fast=1" else EmptyString))%string.

(** [mem1], [mem2]: the allocations of the two contexts. *)
Definition create_ctx_pair (mem1 mem2 : nat -> bool) (n : bench_netc_t) : Z * bench_netc_t :=
  let cfg := Cfg (n_flags n) 0 0 (n_simd_level n) 0 in
  match netc_ctx_create cpu mem1 (n_dict n) (Some cfg), netc_ctx_create cpu mem2 (n_dict n) (Some cfg) with
  | Some e, Some d => (0, set_ctxs n (Some e) (Some d) false)
  | _, _ => (-1, set_ctxs n None None false)
  end.

(** [buf_ok]: the scratch buffer could be allocated. *)
Definition bench_netc_init (buf_ok : bool) (mem1 mem2 : nat -> bool) (dict : option netc_dict_t) (flags simd_level max_pkt_size : Z)
  : Z * bench_netc_t :=
  let stateless := has flags NETC_CFG_FLAG_STATELESS in
  let cap := u64 (max_pkt_size + NETC_MAX_OVERHEAD + 64) in
  let n := NetcAdapter None None dict stateless flags simd_level EmptyString None false in
  if negb buf_ok then (-1, n) else
  let n := NetcAdapter None None dict stateless flags simd_level EmptyString (Some cap) false in
  let '(rc, n) := if stateless then (0, n) else create_ctx_pair mem1 mem2 n in
  if negb (rc =? 0) then
    (-1, NetcAdapter (n_enc_ctx n) (n_dec_ctx n) (n_dict n) stateless flags simd_level EmptyString None false)
  else
    (0, set_name n (adapter_name n (if dict is Some _ then "+dict"%string else EmptyString))).

(** Does a context point to the adapter's dictionary? *)
Definition uses_dict (c : option netc_ctx_t) : bool :=
  match c with Some c => match c_dict c with Some _ => true | None => false end | None => false end.

(** [mem] covers the three corpus buffers, [dmem] the allocations of
    netc_dict_train; [storage] are the bytes malloc returned. *)
Definition bench_netc_train (mem : nat -> bool) (dmem mem1 mem2 : nat -> bool) (storage : list Z)
    (n : bench_netc_t) (wl : bench_workload_t) (seed train_count : Z) (st : corpus_statics)
  : outcome unit (Z * bench_netc_t * corpus_statics) :=
  (* the old dictionary is freed; existing contexts keep pointing to it *)
  let n := match n_dict n with
    | Some _ => set_dict n None (n_stale n || uses_dict (n_enc_ctx n) || uses_dict (n_dec_ctx n))
    | None => n
    end in
  if negb (forallb mem (seq 0 3)) then Ok (-1, n, st) else
  '(bufs, lens, storage, st) ← bench_corpus_train c_exp wl seed train_count storage st;
  let packets := zip_with (fun b l => Some (slice storage b l)) bufs lens in
  match netc_dict_train cpu dmem false false packets 1 false with
  | Undef => Undef
  | Fail _ => Ok (-1, n, st)
  | Ok dict =>
      let n := set_dict n (Some dict) (n_stale n) in
      let '(rc, n) := if n_stateless n then (0, n) else create_ctx_pair mem1 mem2 (set_ctxs n None None false) in
      if negb (rc =? 0) then Ok (-1, n, st) else
      Ok (0, set_name n (adapter_name n "+dict"%string), st)
  end.

(** No output stands for the return value 0. *)
Definition bench_netc_compress (n : bench_netc_t) (src : list Z) (dst_cap : Z) : outcome unit (bench_netc_t * list Z) :=
  if n_stateless n then
    match n_dict n with
    | None => Ok (n, [])
    | Some dict =>
        match netc_compress_stateless (Some dict) (Some src) (Some dst_cap) false with
        | Ok pkt => Ok (n, pkt)
        | Fail _ => Ok (n, [])
        | Undef => Undef
        end
    end
  else
    match n_enc_ctx n with
    | None => Ok (n, [])
    | Some e =>
        if n_stale n then Undef else
        match netc_compress (Some e) (Some src) (Some dst_cap) false with
        | Ok (e', Ok pkt) => Ok (set_ctxs n (Some e') (n_dec_ctx n) false, pkt)
        | Ok (e', Fail _) => Ok (set_ctxs n (Some e') (n_dec_ctx n) false, [])
        | Ok (_, Undef) => Undef
        | Fail _ => Ok (n, [])
        | Undef => Undef
        end
    end.

(** [dst]: the receive buffer. *)
Definition bench_netc_decompress (n : bench_netc_t) (src dst : list Z) : outcome unit (bench_netc_t * list Z) :=
  if n_stateless n then
    match n_dict n with
    | None => Ok (n, [])
    | Some dict =>
        match netc_decompress_stateless (Some dict) (Some src) (Some dst) false with
        | Ok m => Ok (n, m)
        | Fail _ => Ok (n, [])
        | Undef => Undef
        end
    end
  else
    match n_dec_ctx n with
    | None => Ok (n, [])
    | Some d =>
        if n_stale n then Undef else
        match netc_decompress (Some d) (Some src) (Some dst) false with
        | Ok (d', m) => Ok (set_ctxs n (n_enc_ctx n) (Some d') false, m)
        | Fail _ => Ok (n, [])
        | Undef => Undef
        end
    end.

(** netc_ctx_reset reads the dictionary of an adaptive context. *)
Definition bench_netc_reset (n : bench_netc_t) : outcome unit bench_netc_t :=
  match n_enc_ctx n, n_dec_ctx n with
  | None, None => Ok n
  | e, d => if n_stale n && has (n_flags n) NETC_CFG_FLAG_ADAPTIVE then Undef
            else Ok (set_ctxs n (netc_ctx_reset <$> e) (netc_ctx_reset <$> d) (n_stale n))
  end.

Definition bench_netc_destroy (n : bench_netc_t) : bench_netc_t :=
  NetcAdapter None None None (n_stateless n) (n_flags n) (n_simd_level n) (n_name n) None (n_stale n).

(** ** [bench_run] *)
Definition decomp_buf : list Z := replicate (Z.to_nat BENCH_CORPUS_MAX_PKT) 0.

Definition run_warmup_step (x : bench_netc_t * (bench_corpus_t * corpus_statics)) (i : Z)
  : outcome unit (bench_netc_t * (bench_corpus_t * corpus_statics)) :=
  let '(n, w) := x in
  '(pkt, w) ← next_packet c_exp w;
  '(n, out) ← bench_netc_compress n pkt COMP_CAP;
  n ← (if 0 <? zlen out then '(n, _) ← bench_netc_decompress n out decomp_buf; Ok n else Ok n);
  Ok (n, w).

(** [UINT64_MAX / 2] *)
Definition SAMPLE_ERROR : Z := (2 ^ 64 - 1) / 2.

Definition run_step (now : nat -> Z) (m : measurement bench_netc_t) (i : Z) : outcome unit (measurement bench_netc_t) :=
  let '(Measure n w k cs ds to tc ok) := m in
  '(pkt, w) ← next_packet c_exp w;
  '(n, out) ← bench_netc_compress n pkt COMP_CAP;
  if zlen out =? 0 then
    Ok (Measure n w (k + 2) (cs ++ [SAMPLE_ERROR]) (ds ++ [SAMPLE_ERROR]) to tc false)
  else
    '(n, dec) ← bench_netc_decompress n out decomp_buf;
    Ok (Measure n w (k + 4) (cs ++ [elapsed (now k) (now (k + 1)%nat)]) (ds ++ [elapsed (now (k + 2)%nat) (now (k + 3)%nat)])
          (u64 (to + zlen pkt)) (u64 (tc + zlen out)) (ok && bool_decide (dec = pkt))).

Definition bench_run (now : nat -> Z) (mem : nat -> bool) (cfg : bench_generic_cfg_t) (wl : bench_workload_t)
    (n : bench_netc_t) (st : corpus_statics)
  : outcome unit (Z * option bench_result_t * bench_netc_t * corpus_statics) :=
  let count := if g_count cfg =? 0 then BENCH_DEFAULT_COUNT else g_count cfg in
  if negb (forallb mem (seq 0 5)) then Ok (-1, None, n, st) else
  (* the sizes of the sample arrays wrap around *)
  if 2 ^ 64 <=? count * 8 then Undef else
  let eval_seed := u64 (g_seed cfg + BENCH_EVAL_SEED_OFFSET) in
  let corpus := bench_corpus_init wl eval_seed in
  n ← bench_netc_reset n;
  '(n, w) ← foldM run_warmup_step (n, (corpus, st)) (seqZ 0 (g_warmup cfg));
  let w := (bench_corpus_reset (fst w), snd w) in
  n ← bench_netc_reset n;
  m ← foldM (run_step now) (Measure n w 0 [] [] 0 0 true) (seqZ 0 count);
  res ← finish_result (n_name (m_state m)) EmptyString wl count (g_seed cfg) m;
  Ok ((if m_safety_ok m then 0 else -1), Some res, m_state m, snd (m_world m)).
End Adapter.

(** ** An adapter that is ready to run *)
Definition ready (n : bench_netc_t) : Prop :=
  n_stale n = false /\
  if n_stateless n then exists t, n_dict n = Some t /\ dict_ok t /\ dict_full t
  else exists e d, n_enc_ctx n = Some e /\ n_dec_ctx n = Some d /\ link e d.

Lemma decompress_empty d dst r : netc_decompress (Some d) (Some []) (Some dst) false <> Ok r.
Proof.
  unfold netc_decompress, netc_decompress_ctx, validate_header.
  by destruct (has (c_flags d) NETC_CFG_FLAG_COMPACT_HDR).
Qed.

Lemma decompress_stateless_empty t dst r : netc_decompress_stateless (Some t) (Some []) (Some dst) false <> Ok r.
Proof. done. Qed.

Lemma corpus_carried m : bytes m -> 0 < zlen m <= BENCH_CORPUS_MAX_PKT -> Z.odd (zlen m) = false -> carried COMP_CAP decomp_buf m.
Proof.
  unfold BENCH_CORPUS_MAX_PKT. intros Hb Hl Ho. unfold carried, message_ok, NETC_MAX_PACKET_SIZE. rewrite compress_bound_eq by (unfold NETC_MAX_PACKET_SIZE; lia).
  change (zlen decomp_buf) with 512. change COMP_CAP with 576. unfold NETC_HEADER_SIZE. split_and!; try done; try lia. by right.
Qed.

(** One packet through an adapter: the bytes the encoder wrote, from which the
    decoder gave the packet back. *)
Definition netc_call (n : bench_netc_t) (p o : list Z) (n' : bench_netc_t) : Prop :=
  exists n1, bench_netc_compress n p COMP_CAP = Ok (n1, o) /\ o <> [] /\ bench_netc_decompress n1 o decomp_buf = Ok (n', p).

(** One packet through a ready adapter. *)
Lemma ready_step n m :
  ready n -> bytes m -> 0 < zlen m <= BENCH_CORPUS_MAX_PKT -> Z.odd (zlen m) = false ->
  exists n1 out n2, bench_netc_compress n m COMP_CAP = Ok (n1, out) /\ out <> [] /\ zlen out <= COMP_CAP /\
    bench_netc_decompress n1 out decomp_buf = Ok (n2, m) /\ ready n2 /\ n_name n2 = n_name n.
Proof.
  intros [Hst Hr] Hb Hl Ho. pose proof (corpus_carried m Hb Hl Ho) as Hc. pose proof Hc as ((_ & Hd & Hodd) & Hmax & Hcap).
  pose proof (compress_bound_eq (zlen m) ltac:(lia)) as Heq.
  unfold bench_netc_compress, bench_netc_decompress. destruct (n_stateless n) eqn:Es.
  - destruct Hr as (t & Hdict & Hok & Hfull). rewrite Heq in Hcap.
    destruct (stateless_total t m COMP_CAP Hok Hfull Hb Hmax Hcap) as (pkt & Hp & Hlen).
    assert (netc_decompress_stateless (Some t) (Some pkt) (Some decomp_buf) false = Ok m) as Hdec by (by eapply stateless_roundtrip).
    exists n, pkt, n. rewrite Hdict, Hp. split; [done|]. split; [by intros ->; apply (decompress_stateless_empty t decomp_buf m)|].
    split; [lia|]. rewrite Es, Hdec. split; [done|]. split; [|done]. split; [done|]. rewrite Es. by exists t.
  - destruct Hr as (e & d & He & Hdc & Hlink).
    destruct (link_step e d m COMP_CAP decomp_buf Hlink Hc) as (e' & pkt & d' & H1 & H2 & H3 & H4 & _).
    exists (set_ctxs n (Some e') (n_dec_ctx n) false), pkt, (set_ctxs n (Some e') (Some d') false).
    rewrite He, Hst, H1. split; [done|]. split; [by intros ->; apply (decompress_empty d decomp_buf (d', m))|].
    split; [lia|]. destruct n. cbn [set_ctxs n_enc_ctx n_dec_ctx n_stale n_stateless n_name n_dict n_flags n_simd_level n_comp_buf_cap] in *.
    rewrite Es, Hdc, H2. split; [done|]. split; [|done]. split; [done|]. cbn. by exists e', d'.
Qed.

Lemma ready_reset n : ready n -> exists n', bench_netc_reset n = Ok n' /\ ready n' /\ n_name n' = n_name n.
Proof.
  intros [Hst Hr]. unfold bench_netc_reset. rewrite Hst. cbn [andb]. destruct (n_stateless n) eqn:Es.
  - destruct (n_enc_ctx n), (n_dec_ctx n); (eexists; split; [reflexivity|]; split; [split; cbn; [done|]; by rewrite Es|done]).
  - destruct Hr as (e & d & He & Hd & Hl). rewrite He, Hd. eexists. split; [reflexivity|]. split; [|done].
    split; [done|]. cbn. rewrite Es. exists (netc_ctx_reset e), (netc_ctx_reset d). split_and!; [done|done|by apply link_reset].
Qed.

Section Runs.
Context (c_exp : spec_float -> spec_float) `{!ExpOk c_exp} (wl : bench_workload_t) (Hwl : wl <> BENCH_WL_ALL) (name : string).

(** Ready, under the same name. *)
Definition running (n : bench_netc_t) : Prop := ready n /\ n_name n = name.

(** A call of a running adapter. *)
Lemma netc_call_ok n m :
  running n -> packet_ok wl m -> 0 < zlen m <= BENCH_CORPUS_MAX_PKT -> Z.odd (zlen m) = false ->
  exists n1 out n2, bench_netc_compress n m COMP_CAP = Ok (n1, out) /\ 0 < zlen out <= COMP_CAP /\
    bench_netc_decompress n1 out decomp_buf = Ok (n2, m) /\ running n2 /\ netc_call n m out n2.
Proof.
  intros [Hr Hn] [Hb _] Hl Ho. destruct (ready_step n m Hr Hb Hl Ho) as (n1 & out & n2 & Hc & Hne & Hcap & Hd & Hr2 & Hn2).
  exists n1, out, n2. split; [done|]. split; [split; [by apply zlen_pos|done]|]. split; [done|]. split; [split; [done|congruence]|]. by exists n1.
Qed.

Lemma run_warmup_ok k n st seed :
  0 <= k < 2 ^ 31 -> running n -> zlen (base_ctrs st) = 32 ->
  exists n' w' ps os, foldM (run_warmup_step c_exp) (n, (bench_corpus_init wl seed, st)) (seqZ 0 k) = Ok (n', w') /\
    progress c_exp wl netc_call running (bench_corpus_init wl seed, st) n k n' w' ps os.
Proof.
  intros Hk Hn Hst. set (w0 := (bench_corpus_init wl seed, st)).
  destruct (foldM_seqZ (fun i x => exists ps os, progress c_exp wl netc_call running w0 n i (fst x) (snd x) ps os) 0 k (run_warmup_step c_exp) (n, w0))
    as ([n' w'] & E & ps & os & H); [lia|exists [], []; apply progress_start; [done|by apply corpus_at_init]| |by exists n', w', ps, os].
  intros i [n1 w1] Hi (ps & os & Hp). cbn [fst snd] in *. pose proof Hp as (H1 & H2 & _). unfold run_warmup_step.
  destruct (next_packet_ok c_exp wl Hwl i w1 H2 ltac:(lia)) as (pkt & w2 & -> & Hw2 & Hok & Hl & Ho & Hdr). mstep.
  destruct (netc_call_ok n1 pkt H1 Hok Hl Ho) as (n2 & out & n3 & -> & Hcap & Hd & Hr & Hcall). mstep. if_true. rewrite Hd. mstep.
  eexists. split; [reflexivity|]. do 2 eexists. eapply progress_next; eauto; lia.
Qed.

Lemma run_step_ok now w0 n0 k m :
  0 <= k < 2 ^ 31 - 1 -> measured c_exp wl netc_call running w0 n0 k m ->
  exists m', run_step c_exp now m k = Ok m' /\ measured c_exp wl netc_call running w0 n0 (k + 1) m'.
Proof.
  intros Hk Hm. pose proof Hm as (_ & _ & Hok & pkts & outs & (Hi & Hw & _) & _).
  pose proof (fun s' w' calls x y pkt out => measured_next c_exp wl Hwl netc_call running w0 n0 k m s' w' calls x y pkt out ltac:(lia) Hm) as Hnext.
  destruct m as [s w calls cs ds to tc ok]. cbn [m_state m_world m_c_samples m_d_samples m_total_orig m_total_comp m_safety_ok] in *.
  subst ok. unfold run_step.
  destruct (next_packet_ok c_exp wl Hwl k w Hw ltac:(lia)) as (pkt & w' & -> & Hw' & Hpk & Hl & Ho & Hdr). mstep.
  destruct (netc_call_ok s pkt Hi Hpk Hl Ho) as (n2 & out & n3 & -> & Hcap & Hd & Hr & Hcall). mstep.
  rewrite (proj2 (Z.eqb_neq (zlen out) 0)) by lia. rewrite Hd. mstep.
  eexists. split; [reflexivity|]. rewrite (bool_decide_eq_true_2 _ eq_refl). apply Hnext; try done. lia.
Qed.
End Runs.

(** A run of a ready adapter: it succeeds, every packet of the corpus was
    restored from what the encoder wrote for it, and the reported totals are the
    sizes of exactly these packets and of exactly these bytes. *)
Definition passes (c_exp : spec_float -> spec_float) (now : nat -> Z) (cfg : bench_generic_cfg_t) (wl : bench_workload_t) (n : bench_netc_t)
    (st : corpus_statics) : Prop :=
  exists res n' st' pkts outs, bench_run c_exp now (fun _ => true) cfg wl n st = Ok (0, Some res, n', st') /\ ready n' /\
    zlen (base_ctrs st') = 32 /\ traffic c_exp bench_netc_reset netc_call wl cfg n st pkts outs n' st' /\
    r_workload res = wl /\ r_count res = g_count cfg /\ r_compressor res = n_name n /\
    r_original_bytes res = total_length pkts /\ r_compressed_bytes res = total_length outs.

Lemma run_passes c_exp now cfg wl n st :
  ExpOk c_exp -> wl <> BENCH_WL_ALL -> ready n -> zlen (base_ctrs st) = 32 ->
  0 <= g_warmup cfg < 2 ^ 31 -> 0 < g_count cfg < 2 ^ 31 -> passes c_exp now cfg wl n st.
Proof.
  intros He Hwl Hr Hst Hwu Hn. unfold passes, bench_run, traffic. rewrite (proj2 (Z.eqb_neq (g_count cfg) 0)) by lia.
  cbn [forallb seq andb negb]. rewrite (proj2 (Z.leb_gt (2 ^ 64) (g_count cfg * 8))) by lia.
  destruct (ready_reset n Hr) as (n1 & Er1 & Hr1 & Hn1). rewrite Er1. mstep. cbv zeta. set (seed := u64 (g_seed cfg + BENCH_EVAL_SEED_OFFSET)).
  destruct (run_warmup_ok c_exp wl Hwl (n_name n) (g_warmup cfg) n1 st seed Hwu (conj Hr1 Hn1) Hst)
    as (n2 & w2 & wps & wos & -> & [Hr2 Hn2] & Hw2 & Hrun2 & Hex2 & _). mstep.
  destruct (ready_reset n2 Hr2) as (n3 & Er3 & Hr3 & Hn3). rewrite Er3. mstep. rewrite (corpus_run_seed c_exp wl Hwl _ _ _ _ _ Hrun2 Hst ltac:(lia)).
  destruct (foldM_seqZ (measured c_exp wl netc_call (running (n_name n)) (bench_corpus_init wl seed, snd w2) n3) 0 (g_count cfg) (run_step c_exp now)
    (Measure n3 (bench_corpus_init wl seed, snd w2) 0 [] [] 0 0 true)) as (m & -> & Hm); [lia| | |].
  { apply measured_start; [split; [done|congruence]|]. apply corpus_at_init. apply Hw2. }
  { intros k m Hk Hm. apply run_step_ok; [done|done|lia|done]. }
  mstep. rewrite Z.add_0_l in Hm.
  destruct (finish_ok c_exp wl _ _ _ _ (n_name (m_state m)) EmptyString (g_count cfg) (g_seed cfg) m Hn Hm)
    as (res & -> & R0 & R1 & R2 & R3 & R4 & _). mstep.
  destruct Hm as (_ & _ & -> & pkts & outs & ([Hr4 Hn4] & ((_ & _ & Hc) & _) & Hrun & Hex & _) & T1 & T2).
  exists res, (m_state m), (snd (m_world m)), pkts, outs. split; [reflexivity|]. split; [done|]. split_and!; try done; try congruence.
  by exists n1, wps, wos, n2, w2, n3, (m_world m).
Qed.

(** Flags of a stateful adapter whose packets can be told apart. *)
Definition bench_flags_ok (flags : Z) : Prop :=
  has flags NETC_CFG_FLAG_STATELESS = false /\
  (has flags NETC_CFG_FLAG_ADAPTIVE = true -> has flags NETC_CFG_FLAG_STATEFUL = true) /\
  (has flags NETC_CFG_FLAG_COMPACT_HDR = false \/ has flags NETC_CFG_FLAG_ADAPTIVE = false).

Lemma create_simd cpu mem dict cfg c : netc_ctx_create cpu mem dict (Some cfg) = Some c -> c_simd_ops c = netc_simd_ops_init cpu (cfg_simd_level cfg).
Proof.
  intros H. unfold netc_ctx_create in H. repeat (destruct (_ : bool) eqn:? in H at 1; [done|]). apply (inj Some) in H. by subst c.
Qed.

Lemma create_pair_ready cpu n :
  n_stateless n = false -> bench_flags_ok (n_flags n) -> (forall t, n_dict n = Some t -> dict_ok t /\ dict_full t) ->
  exists n', create_ctx_pair cpu mem_ok mem_ok n = (0, n') /\ ready n' /\ n_flags n' = n_flags n /\ n_stateless n' = n_stateless n /\
    forall dct, adapter_name n' dct = adapter_label cpu (n_flags n) (n_simd_level n) dct.
Proof.
  intros Hs (_ & Ha & Hc) Hd. unfold create_ctx_pair. set (cfg := Cfg (n_flags n) 0 0 (n_simd_level n) 0).
  destruct (create_some cpu (n_dict n) cfg Ha) as [e He]. rewrite He. eexists. split; [reflexivity|]. split; [|split; [done|split; [done|]]].
  2: { intros dct. unfold adapter_name, adapter_label. cbn. by rewrite Hs, (create_simd _ _ _ _ _ He). }
  split; [done|]. cbn. rewrite Hs. exists e, e. split_and!; [done|done|].
  apply (create_link cpu cpu (n_dict n) cfg cfg); try assumption; [by split_and!|cbn; lia].
Qed.

Lemma ready_named n s : ready n -> ready (set_name n s).
Proof. by destruct n. Qed.

Lemma init_ready cpu flags simd max_pkt :
  bench_flags_ok flags ->
  exists n, bench_netc_init cpu true mem_ok mem_ok None flags simd max_pkt = (0, n) /\ ready n /\ n_flags n = flags /\
    n_stateless n = false /\ n_dict n = None /\ n_simd_level n = simd /\ n_name n = adapter_label cpu flags simd EmptyString.
Proof.
  intros Hf. pose proof Hf as (Hs & _). unfold bench_netc_init. rewrite Hs. cbn [negb].
  set (n := NetcAdapter _ _ _ _ _ _ _ _ _).
  destruct (create_pair_ready cpu n eq_refl Hf) as (n' & E & Hr & Hfl & Hst & Hlab); [by intros t|].
  rewrite E. cbn [Z.eqb negb]. eexists. split; [reflexivity|]. split; [by apply ready_named|].
  unfold create_ctx_pair in E. cbn [n_dict n] in E. repeat case_match; try discriminate E. injection E as <-.
  split_and!; try done. cbn [set_name n_name]. by rewrite Hlab.
Qed.

Lemma train_ready c_exp cpu storage n wl seed count st :
  ExpOk c_exp -> wl <> BENCH_WL_ALL -> zlen (base_ctrs st) = 32 -> 0 <= count < 2 ^ 31 -> count * BENCH_CORPUS_MAX_PKT <= zlen storage ->
  bench_flags_ok (n_flags n) -> n_stateless n = false ->
  exists n' st', bench_netc_train c_exp cpu mem_ok mem_ok mem_ok mem_ok storage n wl seed count st = Ok (0, n', st') /\ ready n' /\
    n_dict n' <> None /\ zlen (base_ctrs st') = 32 /\ n_name n' = adapter_label cpu (n_flags n) (n_simd_level n) "+dict".
Proof.
  intros He Hwl Hst Hc Hstore Hf Hs. unfold bench_netc_train.
  destruct (train_rows c_exp wl seed (Z.to_nat count) storage st He Hwl Hst) as (bufs & lens & s' & st' & pkts & w & E & _ & Hl1 & Hl2 & Hz & Hok & Hst');
    [lia|by rewrite Z2Nat.id by lia|]. rewrite Z2Nat.id in E by lia.
  set (n0 := match n_dict n with Some _ => _ | None => n end).
  assert (n_stateless n0 = false /\ n_flags n0 = n_flags n /\ n_simd_level n0 = n_simd_level n) as (Hs0 & Hf0 & Hl0) by (unfold n0; by destruct (n_dict n)).
  clearbody n0. replace (forallb mem_ok (seq 0 3)) with true by reflexivity. cbn [negb]. rewrite E. mstep.
  set (packets := zip_with _ bufs lens).
  assert (packets = Some <$> pkts) as Hpk.
  { unfold packets. rewrite <- Hz. clear. revert lens. induction bufs as [|b bufs IH]; intros [|l lens]; try done. cbn. by rewrite <- IH. }
  assert (packets_ok packets) as Hpok.
  { rewrite Hpk. split.
    - rewrite length_fmap. rewrite <- Hz, length_zip_with, Hl1, Hl2. lia.
    - intros p Hp. apply list_elem_of_fmap in Hp as (q & [= ->] & Hq). rewrite Forall_forall in Hok. by apply Hok. }
  destruct (dict_train_usable cpu mem_ok packets 1 Hpok ltac:(lia)) as (t & (_ & _ & _ & _ & Hdok & Htr) & Ht).
  replace (forallb mem_ok (seq 0 10)) with true in Ht by reflexivity. rewrite Ht. cbv beta iota zeta.
  change (n_stateless (set_dict n0 (Some t) (n_stale n0))) with (n_stateless n0). rewrite Hs0.
  destruct (create_pair_ready cpu (set_ctxs (set_dict n0 (Some t) (n_stale n0)) None None false)) as (n' & En & Hr & Hfl & Hsl & Hlab).
  { done. }
  { cbn. by rewrite Hf0. }
  { intros t' [= <-]. split; [done|]. by apply trained_dict_full. }
  rewrite En. cbn [Z.eqb negb]. eexists _, st'. split; [reflexivity|]. split; [by apply ready_named|]. split.
  { unfold create_ctx_pair in En. repeat case_match; try discriminate En. injection En as <-. done. }
  split; [done|]. cbn [set_name n_name]. rewrite Hlab. cbn [set_ctxs set_dict n_flags n_simd_level]. by rewrite Hf0, Hl0.
Qed.

(** ** Properties *)

(** C18: the SAFETY-01 check of the harness cannot fail.  For every workload,
    seed, clock, CPU, sample count and iteration counts (below 2^31), and for
    every stateful flag combination that does not join compact headers with
    adaptive mode: the adapter initialises, its training on the workload's
    packets succeeds, and the benchmark returns 0 both with and without the
    trained dictionary.  In such a run the corpus yields the warmup packets and
    then, from its beginning, the measured ones, every one is restored from what
    the encoder wrote for it, and the reported byte totals are the sizes of these
    packets and of these encoder outputs. *)
Theorem netc_benchmark_passes (c_exp : spec_float -> spec_float) (now : nat -> Z) (cpu : simd_caps) (flags simd_level : Z)
    (wl : bench_workload_t) (seed train_count : Z) (storage : list Z) (cfg : bench_generic_cfg_t) (st : corpus_statics) :
  ExpOk c_exp -> wl <> BENCH_WL_ALL -> zlen (base_ctrs st) = 32 -> bench_flags_ok flags ->
  0 <= train_count < 2 ^ 31 -> train_count * BENCH_CORPUS_MAX_PKT <= zlen storage ->
  0 <= g_warmup cfg < 2 ^ 31 -> 0 < g_count cfg < 2 ^ 31 ->
  exists n, bench_netc_init cpu true mem_ok mem_ok None flags simd_level BENCH_CORPUS_MAX_PKT = (0, n) /\
    passes c_exp now cfg wl n st /\
    exists n' st', bench_netc_train c_exp cpu mem_ok mem_ok mem_ok mem_ok storage n wl seed train_count st = Ok (0, n', st') /\
      n_dict n' <> None /\ passes c_exp now cfg wl n' st'.
Proof.
  intros He Hwl Hst Hf Ht Hs Hwu Hn. destruct (init_ready cpu flags simd_level BENCH_CORPUS_MAX_PKT Hf) as (n & Hi & Hr & Hfl & Hsl & _).
  exists n. split; [done|]. split; [by apply run_passes|].
  destruct (train_ready c_exp cpu storage n wl seed train_count st) as (n' & st' & E & Hr' & Hd & Hst' & _); try done; [by rewrite Hfl|].
  exists n', st'. split; [done|]. split; [done|]. by apply run_passes.
Qed.

Lemma netc_benchmark_passes_witness :
  exists n, bench_netc_init no_simd true mem_ok mem_ok None 0x0D 0 BENCH_CORPUS_MAX_PKT = (0, n) /\
    passes (fun _ => f64_of_Z 20) (fun k => Z.of_nat k) (RunCfg 1 2 42) BENCH_WL_001 n statics0 /\
    exists n' st', bench_netc_train (fun _ => f64_of_Z 20) no_simd mem_ok mem_ok mem_ok mem_ok (replicate (Z.to_nat 1024) 0) n BENCH_WL_001 42 2
        statics0 = Ok (0, n', st') /\ n_dict n' <> None /\
      passes (fun _ => f64_of_Z 20) (fun k => Z.of_nat k) (RunCfg 1 2 42) BENCH_WL_001 n' st'.
Proof.
  apply (netc_benchmark_passes (fun _ => f64_of_Z 20) (fun k => Z.of_nat k) no_simd 0x0D 0 BENCH_WL_001 42 2 (replicate (Z.to_nat 1024) 0)
    (RunCfg 1 2 42) statics0).
  - apply exp_const_ok.
  - discriminate.
  - reflexivity.
  - split; [reflexivity|]. split; [discriminate|by left].
  - lia.
  - vm_compute. discriminate.
  - cbn. lia.
  - cbn. lia.
Defined.

(** A training call whose buffers cannot be allocated leaves the contexts
    of the adapter pointing to the dictionary it has already freed: the next
    compress call uses freed memory. *)
Theorem failed_train_dangles (c_exp : spec_float -> spec_float) (cpu : simd_caps) (n : bench_netc_t) (t : netc_dict_t) (e : netc_ctx_t)
    (wl : bench_workload_t) (seed train_count : Z) (storage src : list Z) (st : corpus_statics) :
  n_stateless n = false -> n_dict n = Some t -> n_enc_ctx n = Some e -> c_dict e = Some t ->
  exists n', bench_netc_train c_exp cpu (fun _ => false) mem_ok mem_ok mem_ok storage n wl seed train_count st = Ok (-1, n', st) /\
    n_enc_ctx n' = Some e /\ bench_netc_compress n' src COMP_CAP = Undef.
Proof.
  intros Hs Hd He Hde. unfold bench_netc_train. rewrite Hd. cbn [forallb seq andb negb]. eexists. split; [reflexivity|].
  split; [done|]. unfold bench_netc_compress. cbn [set_dict n_stateless n_enc_ctx n_stale]. rewrite Hs, He. cbn [uses_dict].
  by rewrite Hde, orb_true_r.
Qed.

Lemma failed_train_dangles_witness :
  exists n e n', n_enc_ctx n = Some e /\
    bench_netc_train (fun x => x) no_simd (fun _ => false) mem_ok mem_ok mem_ok [] n BENCH_WL_001 42 10 statics0 = Ok (-1, n', statics0) /\
    n_enc_ctx n' = Some e /\ bench_netc_compress n' [1; 2] COMP_CAP = Undef.
Proof.
  destruct (create_some no_simd (Some blank_dict) (Cfg 1 0 0 0 0)) as [e He]; [discriminate|].
  destruct (create_fields _ _ _ _ _ He) as [Hd _].
  destruct (failed_train_dangles (fun x => x) no_simd (NetcAdapter (Some e) (Some e) (Some blank_dict) false 1 0 EmptyString None false)
    blank_dict e BENCH_WL_001 42 10 [] [1; 2] statics0 eq_refl eq_refl eq_refl Hd) as (n' & H1 & H2 & H3).
  exists (NetcAdapter (Some e) (Some e) (Some blank_dict) false 1 0 EmptyString None false), e, n'.
  exact (conj eq_refl (conj H1 (conj H2 H3))).
Defined.
