(* ===== verification/BenchGates.v ===== *)
(** * Gates and baselines of the benchmark harness

    src/bench/bench_runner.c: the absolute performance gates of [bench_ci_check];
    src/bench/bench_oodle.c: the gates against Oodle; src/bench/bench_baseline.c:
    the comparison of a result with a stored baseline. *)

From Stdlib Require Import String.
From stdpp Require Import prelude.
From Stdlib Require Import ZArith Lia SpecFloat.
From S2P Require Import Prelude Double Corpus BenchStats BenchRun.

Local Open Scope Z_scope.

(** ** Absolute gates *)
Record bench_gate_result_t : Type := Gate {
  gate_id : string;
  gate_description : string;
  gate_actual : spec_float;
  gate_threshold : spec_float;
  gate_passed : bool }.

Definition BENCH_MAX_GATES : Z := 32.

(** The gates written so far; [n_gates] is their number. *)
Record bench_ci_report_t : Type := Report {
  ci_gates : list bench_gate_result_t;
  ci_all_passed : bool }.

Definition add_gate (r : bench_ci_report_t) (id desc : string) (actual threshold : spec_float) (pass_if_above : bool) : bench_ci_report_t :=
  if BENCH_MAX_GATES <=? zlen (ci_gates r) then r else
  let passed := if pass_if_above then SFleb threshold actual else SFleb actual threshold in
  Report (ci_gates r ++ [Gate id desc actual threshold passed]) (if passed then ci_all_passed r else false).

Fixpoint find_result (rs : list bench_result_t) (wl : bench_workload_t) : option bench_result_t :=
  match rs with
  | [] => None
  | r :: rs' => if decide (r_workload r = wl) then Some r else find_result rs' wl
  end.

(** [if (res) add_gate(...)] *)
Definition gate_if (res : option bench_result_t) (r : bench_ci_report_t) (id desc : string) (metric : bench_result_t -> spec_float)
    (threshold : spec_float) (above : bool) : bench_ci_report_t :=
  match res with Some res => add_gate r id desc (metric res) threshold above | None => r end.

Definition bench_ci_check (results : list bench_result_t) : Z * bench_ci_report_t :=
  let r := Report [] true in
  let wl001 := find_result results BENCH_WL_001 in
  let wl002 := find_result results BENCH_WL_002 in
  let wl006 := find_result results BENCH_WL_006 in
  let r := gate_if wl001 r "PERF-01" "compress throughput >= 2000 MB/s (WL-001)" r_compress_mbs (f64_of_Z 2000) true in
  let r := gate_if wl001 r "PERF-02" "decompress throughput >= 4000 MB/s (WL-001)" r_decompress_mbs (f64_of_Z 4000) true in
  let r := gate_if wl002 r "PERF-03" "compress p99 latency <= 1000 ns (WL-002 128B)"
             (fun res => f64_of_Z (p99_ns (r_compress res))) (f64_of_Z 1000) false in
  let r := gate_if wl002 r "PERF-04" "decompress p99 latency <= 500 ns (WL-002 128B)"
             (fun res => f64_of_Z (p99_ns (r_decompress res))) (f64_of_Z 500) false in
  let r := gate_if wl001 r "PERF-05" "compress Mpps >= 5 (WL-001 64B)" r_compress_mpps (f64_of_Z 5) true in
  let r := gate_if wl001 r "PERF-06" "decompress Mpps >= 10 (WL-001 64B)" r_decompress_mpps (f64_of_Z 10) true in
  let r := gate_if wl001 r "RATIO-01" "compression ratio <= 0.55 (WL-001 trained dict)" r_ratio (f64_lit 55 100) false in
  let r := gate_if wl006 r "RATIO-02" "random data passthrough ratio <= 1.01 (WL-006)" r_ratio (f64_lit 101 100) false in
  let r := add_gate r "MEM-01" "context memory <= 512 KB (structural guarantee)" (f64_of_Z 512) (f64_of_Z 512) false in
  ((if ci_all_passed r then 0 else 1), r).

(** ** Gates against Oodle *)
Definition push_gate (r : bench_ci_report_t) (g : bench_gate_result_t) : bench_ci_report_t :=
  Report (ci_gates r ++ [g]) (if gate_passed g then ci_all_passed r else false).

Definition bench_oodle_ci_gates (netc oodle : option bench_result_t) (report : option bench_ci_report_t) : option bench_ci_report_t :=
  match netc, oodle, report with
  | Some netc, Some oodle, Some r =>
      if BENCH_MAX_GATES <? zlen (ci_gates r) + 3 then Some r else
      let r := push_gate r (Gate "OODLE-01" "netc ratio <= oodle ratio (WL-001)" (r_ratio netc) (r_ratio oodle)
                 (SFleb (r_ratio netc) (r_ratio oodle))) in
      let r := push_gate r (Gate "OODLE-02" "netc compress MB/s >= oodle compress MB/s (WL-001)" (r_compress_mbs netc) (r_compress_mbs oodle)
                 (SFleb (r_compress_mbs oodle) (r_compress_mbs netc))) in
      let r := push_gate r (Gate "OODLE-03" "netc decompress MB/s >= oodle decompress MB/s (WL-001)" (r_decompress_mbs netc)
                 (r_decompress_mbs oodle) (SFleb (r_decompress_mbs oodle) (r_decompress_mbs netc))) in
      Some r
  | _, _, report => report
  end.

(** ** Regression against a baseline *)
Record bench_baseline_t : Type := Baseline {
  b_compressor : string;
  b_workload : string;
  b_compress_mbs : spec_float;
  b_decompress_mbs : spec_float;
  b_ratio : spec_float;
  b_compress_p50_ns : spec_float;
  b_decompress_p50_ns : spec_float }.

Inductive bench_reg_status_t : Type := BENCH_REG_OK | BENCH_REG_WARN | BENCH_REG_FAIL.
#[export] Instance bench_reg_status_eq_dec : EqDecision bench_reg_status_t.
Proof. solve_decision. Defined.

Record bench_reg_check_t : Type := RegCheck {
  chk_metric : string;
  chk_baseline : spec_float;
  chk_actual : spec_float;
  chk_pct_change : spec_float;
  chk_status : bench_reg_status_t }.

Record bench_reg_report_t : Type := RegReport {
  reg_compressor : string;
  reg_workload : string;
  reg_checks : list bench_reg_check_t;
  reg_any_fail : bool;
  reg_any_warn : bool }.

Definition check_metric (name : string) (baseline actual : spec_float) : bench_reg_check_t :=
  if SFeqb baseline f64_zero then RegCheck name baseline actual f64_zero BENCH_REG_OK else
  let pct := f64_mul (f64_div (f64_sub actual baseline) baseline) (f64_of_Z 100) in
  let abs_pct := if SFltb pct f64_zero then SFopp pct else pct in
  RegCheck name baseline actual pct
    (if SFleb (f64_of_Z 15) abs_pct then BENCH_REG_FAIL
     else if SFleb (f64_of_Z 5) abs_pct then BENCH_REG_WARN else BENCH_REG_OK).

(** [strncpy] into a zeroed array of [n] characters, with room for the final
    zero. *)
Definition strncpy (n : nat) (s : string) : string := substring 0 (n - 1) s.

Definition bench_baseline_check (b : bench_baseline_t) (res : bench_result_t) : Z * bench_reg_report_t :=
  let checks :=
    [ check_metric "compress_mbs" (b_compress_mbs b) (r_compress_mbs res);
      check_metric "decompress_mbs" (b_decompress_mbs b) (r_decompress_mbs res);
      check_metric "ratio" (b_ratio b) (r_ratio res);
      check_metric "compress_p50_ns" (b_compress_p50_ns b) (f64_of_Z (p50_ns (r_compress res)));
      check_metric "decompress_p50_ns" (b_decompress_p50_ns b) (f64_of_Z (p50_ns (r_decompress res))) ] in
  let any st := existsb (fun c => bool_decide (chk_status c = st)) checks in
  let report := RegReport (strncpy 64 (b_compressor b)) (strncpy 16 (b_workload b)) checks (any BENCH_REG_FAIL) (any BENCH_REG_WARN) in
  ((if reg_any_fail report then 1 else 0), report).

(** ** The verdict of a report *)

(** The flag of a report says whether every gate in it passed. *)
Definition report_ok (r : bench_ci_report_t) : Prop := ci_all_passed r = forallb gate_passed (ci_gates r).

Lemma add_gate_spec r id desc actual threshold above :
  report_ok r -> zlen (ci_gates r) < BENCH_MAX_GATES ->
  let r' := add_gate r id desc actual threshold above in
  report_ok r' /\ zlen (ci_gates r') = zlen (ci_gates r) + 1 /\
  ci_all_passed r' = ci_all_passed r && (if above then SFleb threshold actual else SFleb actual threshold).
Proof.
  intros Hr Hl r'. unfold r', add_gate. rewrite (proj2 (Z.leb_gt _ _)) by lia. unfold report_ok. cbn [ci_gates ci_all_passed].
  rewrite forallb_app, length_app, Hr. cbn [forallb length gate_passed]. split_and!.
  - by destruct (if above then _ else _), (forallb _ _).
  - lia.
  - by destruct (if above then _ else _), (forallb _ _).
Qed.

(** [r] has at most [n] gates and passes exactly when [P] holds. *)
Definition verdict (n : Z) (r : bench_ci_report_t) (P : Prop) : Prop :=
  report_ok r /\ zlen (ci_gates r) <= n /\ (ci_all_passed r = true <-> P).

Lemma verdict_start : verdict 0 (Report [] true) True.
Proof. by split_and!. Qed.

(** A gate adds its condition to the verdict, a conditional one only if there is
    a result to look at. *)
Lemma verdict_add n r P id desc actual threshold above :
  verdict n r P -> n < BENCH_MAX_GATES ->
  verdict (n + 1) (add_gate r id desc actual threshold above)
    (P /\ (if above then SFleb threshold actual else SFleb actual threshold) = true).
Proof.
  intros (Hr & Hl & Hp) Hn. destruct (add_gate_spec r id desc actual threshold above Hr ltac:(lia)) as (H1 & H2 & H3).
  split; [done|]. split; [lia|]. by rewrite H3, andb_true_iff, Hp.
Qed.

Lemma verdict_if n r P res id desc metric threshold above :
  verdict n r P -> n < BENCH_MAX_GATES ->
  verdict (n + 1) (gate_if res r id desc metric threshold above)
    (P /\ forall x, res = Some x -> (if above then SFleb threshold (metric x) else SFleb (metric x) threshold) = true).
Proof.
  intros Hv Hn. destruct res as [x|]; cbn [gate_if].
  - destruct (verdict_add n r P id desc (metric x) threshold above Hv Hn) as (H1 & H2 & H3). split; [done|]. split; [done|].
    rewrite H3. split; [intros [? ?]; split; [done|]; by intros ? [= <-]|intros [? H]; split; [done|by apply H]].
  - destruct Hv as (H1 & H2 & H3). split; [done|]. split; [lia|]. rewrite H3. split; [by intros|by intros []].
Qed.

(** ** Properties *)

(** The verdict of [bench_ci_check]: it returns 0 exactly when the first
    results for WL-001, WL-002 and WL-006, as far as there are any, meet every
    threshold; its report holds at most nine gates, and its flag is the
    conjunction of their outcomes. *)
Theorem ci_check_verdict (results : list bench_result_t) :
  let '(rc, report) := bench_ci_check results in
  report_ok report /\ zlen (ci_gates report) <= 9 /\
  (rc = 0 <->
    (forall r, find_result results BENCH_WL_001 = Some r ->
       SFleb (f64_of_Z 2000) (r_compress_mbs r) = true /\ SFleb (f64_of_Z 4000) (r_decompress_mbs r) = true /\
       SFleb (f64_of_Z 5) (r_compress_mpps r) = true /\ SFleb (f64_of_Z 10) (r_decompress_mpps r) = true /\
       SFleb (r_ratio r) (f64_lit 55 100) = true) /\
    (forall r, find_result results BENCH_WL_002 = Some r ->
       SFleb (f64_of_Z (p99_ns (r_compress r))) (f64_of_Z 1000) = true /\
       SFleb (f64_of_Z (p99_ns (r_decompress r))) (f64_of_Z 500) = true) /\
    (forall r, find_result results BENCH_WL_006 = Some r -> SFleb (r_ratio r) (f64_lit 101 100) = true)).
Proof.
  unfold bench_ci_check. set (w1 := find_result results BENCH_WL_001). set (w2 := find_result results BENCH_WL_002).
  set (w6 := find_result results BENCH_WL_006). cbv zeta.
  match goal with |- context [(if ci_all_passed ?r then 0 else 1)] => eassert (verdict (0 + 1 + 1 + 1 + 1 + 1 + 1 + 1 + 1 + 1) r _) as (H1 & H2 & H3) end.
  { apply verdict_add; [|done]. repeat (apply verdict_if; [|done]). apply verdict_start. }
  split; [exact H1|]. split; [exact H2|]. match type of H3 with ci_all_passed ?r = true <-> _ => destruct (ci_all_passed r) end.
  - split; [intros _|done]. destruct (proj1 H3 eq_refl) as ((((((((( _ & A) & B) & C) & D) & E) & F) & G) & K) & _).
    split; [|split; [|exact K]]; intros r Hr; [|by split; [apply C|apply D]]. by split_and!; [apply A|apply B|apply E|apply F|apply G].
  - split; [done|]. intros (A & B & C). discriminate (proj2 H3). split; [|reflexivity].
    split_and!; try done; intros x Hx; first [apply (A x Hx)|apply (B x Hx)|apply (C x Hx)].
Qed.

(** A run in which every benchmark failed passes the gates: the results
    that are missing are not missed, and no SAFETY gate exists. *)
Theorem ci_check_vacuous :
  bench_ci_check [] = (0, Report [Gate "MEM-01" "context memory <= 512 KB (structural guarantee)" (f64_of_Z 512) (f64_of_Z 512) true] true).
Proof. reflexivity. Qed.

(** The checks of one metric against itself: no change. *)
Lemma check_metric_same name x : is_finite x = true -> chk_status (check_metric name x x) = BENCH_REG_OK.
Proof.
  intros H. unfold check_metric. destruct x as [s| | |s m e]; try done.
  assert (f64_sub (S754_finite s m e) (S754_finite s m e) = S754_zero false) as ->.
  { unfold f64_sub, SFsub. rewrite Z.sub_diag. done. }
  by destruct s.
Qed.

(** Comparing a result with a baseline of the same values reports no
    regression and no warning. *)
Theorem baseline_check_reflexive (name wl : string) (res : bench_result_t) :
  is_finite (r_compress_mbs res) = true -> is_finite (r_decompress_mbs res) = true -> is_finite (r_ratio res) = true ->
  0 <= p50_ns (r_compress res) < 2 ^ 53 -> 0 <= p50_ns (r_decompress res) < 2 ^ 53 ->
  let '(rc, report) := bench_baseline_check
    (Baseline name wl (r_compress_mbs res) (r_decompress_mbs res) (r_ratio res) (f64_of_Z (p50_ns (r_compress res)))
       (f64_of_Z (p50_ns (r_decompress res)))) res in
  rc = 0 /\ reg_any_fail report = false /\ reg_any_warn report = false.
Proof.
  intros H1 H2 H3 H4 H5. unfold bench_baseline_check. cbv zeta.
  cbn [b_compress_mbs b_decompress_mbs b_ratio b_compress_p50_ns b_decompress_p50_ns existsb reg_any_fail reg_any_warn].
  assert (forall n, 0 <= n < 2 ^ 53 -> is_finite (f64_of_Z n) = true) as Hf.
  { intros n Hn. destruct (Z.eq_dec n 0) as [->|Hne]; [done|]. by destruct (f64_of_Z_spec n ltac:(lia)) as (? & ? & _ & -> & _). }
  rewrite !check_metric_same by auto. done.
Qed.

Lemma baseline_check_reflexive_witness :
  let res := Result "netc" EmptyString BENCH_WL_001 64 2 42 bstats_zero bstats_zero f64_one 128 128 f64_one f64_one f64_one f64_one in
  let '(rc, report) := bench_baseline_check (Baseline "netc" "WL-001" f64_one f64_one f64_one (f64_of_Z 0) (f64_of_Z 0)) res in
  rc = 0 /\ reg_any_fail report = false /\ reg_any_warn report = false.
Proof.
  apply (baseline_check_reflexive "netc" "WL-001"
    (Result "netc" EmptyString BENCH_WL_001 64 2 42 bstats_zero bstats_zero f64_one 128 128 f64_one f64_one f64_one f64_one));
    try reflexivity; cbn; lia.
Defined.
