(* ===== verification/BenchArgs.v ===== *)
(** * Command line of the benchmark harness

    src/bench/bench_main.c: the option values, [parse_args] and the helpers it
    uses, and [bench_format_parse] of bench_reporter.c.  C strings are [string]s;
    the number parsers are those of the C library, undefined when the value does
    not fit. *)

From Stdlib Require Import String Ascii.
From stdpp Require Import prelude.
From Stdlib Require Import ZArith Lia.
From S2P Require Import Prelude CText Corpus BenchRun.

Local Open Scope Z_scope.

(** ** Option values *)
Definition BENCH_COMP_NETC : Z := 2 ^ 0.
Definition BENCH_COMP_ZLIB1 : Z := 2 ^ 1.
Definition BENCH_COMP_ZLIB6 : Z := 2 ^ 2.
Definition BENCH_COMP_LZ4 : Z := 2 ^ 3.
Definition BENCH_COMP_LZ4HC : Z := 2 ^ 4.
Definition BENCH_COMP_ZSTD1 : Z := 2 ^ 5.
Definition BENCH_COMP_ZSTD3 : Z := 2 ^ 6.
Definition BENCH_COMP_ZSTD1D : Z := 2 ^ 7.
Definition BENCH_COMP_HUFFMAN : Z := 2 ^ 8.
Definition BENCH_COMP_SNAPPY : Z := 2 ^ 9.
Definition BENCH_COMP_OODLE_UDP : Z := 2 ^ 10.
Definition BENCH_COMP_OODLE_TCP : Z := 2 ^ 11.
Definition BENCH_COMP_ALL : Z := 0xFFFF.

Inductive bench_mode_t : Type := BENCH_MODE_LATENCY | BENCH_MODE_THROUGHPUT | BENCH_MODE_MPPS | BENCH_MODE_SCALING.
Inductive bench_format_t : Type := BENCH_FMT_TABLE | BENCH_FMT_CSV | BENCH_FMT_JSON.

Definition workload_of_int (n : Z) : bench_workload_t :=
  match n with
  | 1 => BENCH_WL_001 | 2 => BENCH_WL_002 | 3 => BENCH_WL_003 | 4 => BENCH_WL_004
  | 5 => BENCH_WL_005 | 6 => BENCH_WL_006 | 7 => BENCH_WL_007 | 8 => BENCH_WL_008
  | _ => BENCH_WL_ALL
  end.
Definition workload_to_int (wl : bench_workload_t) : Z :=
  match wl with
  | BENCH_WL_001 => 1 | BENCH_WL_002 => 2 | BENCH_WL_003 => 3 | BENCH_WL_004 => 4
  | BENCH_WL_005 => 5 | BENCH_WL_006 => 6 | BENCH_WL_007 => 7 | BENCH_WL_008 => 8
  | BENCH_WL_ALL => 0
  end.

(** [if (strncmp(p, pre, strlen(pre)) == 0) p += strlen(pre)] *)
Definition strip_prefix (pre s : string) : string :=
  if String.prefix pre s then substring (String.length pre) (String.length s - String.length pre) s else s.

Definition parse_workload (s : string) : outcome unit bench_workload_t :=
  n ← atoi (strip_prefix "WL-" s);
  Ok (if (1 <=? n) && (n <=? 8) then workload_of_int n else BENCH_WL_ALL).

Definition parse_simd (s : string) : Z :=
  if String.eqb s "auto" then 0 else if String.eqb s "generic" then 1
  else if String.eqb s "sse42" then 2 else if String.eqb s "avx2" then 3 else 0.

Definition parse_mode (s : string) : bench_mode_t :=
  if String.eqb s "latency" then BENCH_MODE_LATENCY else if String.eqb s "throughput" then BENCH_MODE_THROUGHPUT
  else if String.eqb s "mpps" then BENCH_MODE_MPPS else if String.eqb s "scaling" then BENCH_MODE_SCALING else BENCH_MODE_LATENCY.

Definition parse_compressor (s : string) : Z :=
  if String.eqb s "all" then BENCH_COMP_ALL
  else if String.eqb s "netc" then BENCH_COMP_NETC
  else if String.eqb s "zlib-1" then BENCH_COMP_ZLIB1
  else if String.eqb s "zlib-6" then BENCH_COMP_ZLIB6
  else if String.eqb s "lz4" then BENCH_COMP_LZ4
  else if String.eqb s "lz4-hc" then BENCH_COMP_LZ4HC
  else if String.eqb s "zstd-1" then BENCH_COMP_ZSTD1
  else if String.eqb s "zstd-3" then BENCH_COMP_ZSTD3
  else if String.eqb s "zstd-1-dict" then BENCH_COMP_ZSTD1D
  else if String.eqb s "huffman" then BENCH_COMP_HUFFMAN
  else if String.eqb s "snappy" then BENCH_COMP_SNAPPY
  else if String.eqb s "oodle-udp" then BENCH_COMP_OODLE_UDP
  else if String.eqb s "oodle-tcp" then BENCH_COMP_OODLE_TCP
  else 0.

Definition bench_format_parse (s : string) : bench_format_t :=
  if String.eqb s "csv" then BENCH_FMT_CSV else if String.eqb s "json" then BENCH_FMT_JSON else BENCH_FMT_TABLE.

(** ** The arguments *)
Record bench_args_t : Type := Args {
  a_workload_mask : Z;
  a_compressor_mask : Z;
  a_mode : bench_mode_t;
  a_count : Z;
  a_warmup : Z;
  a_seed : Z;
  a_train_count : Z;
  a_format : bench_format_t;
  a_output_file : option string;
  a_ci_check : bool;
  a_no_dict : bool;
  a_no_delta : bool;
  a_compact_hdr : bool;
  a_fast_compress : bool;
  a_adaptive : bool;
  a_simd_level : Z;
  a_baseline_dir : option string;
  a_save_baseline : bool;
  a_check_baseline : bool;
  a_with_oodle : bool;
  a_oodle_sdk : option string;
  a_oodle_htbits : Z;
  a_oodle_gates : bool }.

(** The structure before the first option is read. *)
Definition args_init : bench_args_t :=
  Args 0 0 BENCH_MODE_LATENCY BENCH_DEFAULT_COUNT BENCH_DEFAULT_WARMUP BENCH_DEFAULT_SEED BENCH_CORPUS_TRAIN_N BENCH_FMT_TABLE None
    false false false false false false 0 None false false false None 17 false.

(** [a->field = v], one per field. *)
Definition with_workload_mask (v : Z) (a : bench_args_t) : bench_args_t :=
    Args v (a_compressor_mask a) (a_mode a) (a_count a) (a_warmup a) (a_seed a) (a_train_count a) (a_format a) (a_output_file a)
    (a_ci_check a) (a_no_dict a) (a_no_delta a) (a_compact_hdr a) (a_fast_compress a) (a_adaptive a) (a_simd_level a) (a_baseline_dir a)
    (a_save_baseline a) (a_check_baseline a) (a_with_oodle a) (a_oodle_sdk a) (a_oodle_htbits a) (a_oodle_gates a).
Definition with_compressor_mask (v : Z) (a : bench_args_t) : bench_args_t :=
    Args (a_workload_mask a) v (a_mode a) (a_count a) (a_warmup a) (a_seed a) (a_train_count a) (a_format a) (a_output_file a)
    (a_ci_check a) (a_no_dict a) (a_no_delta a) (a_compact_hdr a) (a_fast_compress a) (a_adaptive a) (a_simd_level a) (a_baseline_dir a)
    (a_save_baseline a) (a_check_baseline a) (a_with_oodle a) (a_oodle_sdk a) (a_oodle_htbits a) (a_oodle_gates a).
Definition with_mode (v : bench_mode_t) (a : bench_args_t) : bench_args_t :=
    Args (a_workload_mask a) (a_compressor_mask a) v (a_count a) (a_warmup a) (a_seed a) (a_train_count a) (a_format a) (a_output_file
    a) (a_ci_check a) (a_no_dict a) (a_no_delta a) (a_compact_hdr a) (a_fast_compress a) (a_adaptive a) (a_simd_level a) (a_baseline_dir
    a) (a_save_baseline a) (a_check_baseline a) (a_with_oodle a) (a_oodle_sdk a) (a_oodle_htbits a) (a_oodle_gates a).
Definition with_count (v : Z) (a : bench_args_t) : bench_args_t :=
    Args (a_workload_mask a) (a_compressor_mask a) (a_mode a) v (a_warmup a) (a_seed a) (a_train_count a) (a_format a) (a_output_file a)
    (a_ci_check a) (a_no_dict a) (a_no_delta a) (a_compact_hdr a) (a_fast_compress a) (a_adaptive a) (a_simd_level a) (a_baseline_dir a)
    (a_save_baseline a) (a_check_baseline a) (a_with_oodle a) (a_oodle_sdk a) (a_oodle_htbits a) (a_oodle_gates a).
Definition with_warmup (v : Z) (a : bench_args_t) : bench_args_t :=
    Args (a_workload_mask a) (a_compressor_mask a) (a_mode a) (a_count a) v (a_seed a) (a_train_count a) (a_format a) (a_output_file a)
    (a_ci_check a) (a_no_dict a) (a_no_delta a) (a_compact_hdr a) (a_fast_compress a) (a_adaptive a) (a_simd_level a) (a_baseline_dir a)
    (a_save_baseline a) (a_check_baseline a) (a_with_oodle a) (a_oodle_sdk a) (a_oodle_htbits a) (a_oodle_gates a).
Definition with_seed (v : Z) (a : bench_args_t) : bench_args_t :=
    Args (a_workload_mask a) (a_compressor_mask a) (a_mode a) (a_count a) (a_warmup a) v (a_train_count a) (a_format a) (a_output_file
    a) (a_ci_check a) (a_no_dict a) (a_no_delta a) (a_compact_hdr a) (a_fast_compress a) (a_adaptive a) (a_simd_level a) (a_baseline_dir
    a) (a_save_baseline a) (a_check_baseline a) (a_with_oodle a) (a_oodle_sdk a) (a_oodle_htbits a) (a_oodle_gates a).
Definition with_train_count (v : Z) (a : bench_args_t) : bench_args_t :=
    Args (a_workload_mask a) (a_compressor_mask a) (a_mode a) (a_count a) (a_warmup a) (a_seed a) v (a_format a) (a_output_file a)
    (a_ci_check a) (a_no_dict a) (a_no_delta a) (a_compact_hdr a) (a_fast_compress a) (a_adaptive a) (a_simd_level a) (a_baseline_dir a)
    (a_save_baseline a) (a_check_baseline a) (a_with_oodle a) (a_oodle_sdk a) (a_oodle_htbits a) (a_oodle_gates a).
Definition with_format (v : bench_format_t) (a : bench_args_t) : bench_args_t :=
    Args (a_workload_mask a) (a_compressor_mask a) (a_mode a) (a_count a) (a_warmup a) (a_seed a) (a_train_count a) v (a_output_file a)
    (a_ci_check a) (a_no_dict a) (a_no_delta a) (a_compact_hdr a) (a_fast_compress a) (a_adaptive a) (a_simd_level a) (a_baseline_dir a)
    (a_save_baseline a) (a_check_baseline a) (a_with_oodle a) (a_oodle_sdk a) (a_oodle_htbits a) (a_oodle_gates a).
Definition with_output_file (v : option string) (a : bench_args_t) : bench_args_t :=
    Args (a_workload_mask a) (a_compressor_mask a) (a_mode a) (a_count a) (a_warmup a) (a_seed a) (a_train_count a) (a_format a) v
    (a_ci_check a) (a_no_dict a) (a_no_delta a) (a_compact_hdr a) (a_fast_compress a) (a_adaptive a) (a_simd_level a) (a_baseline_dir a)
    (a_save_baseline a) (a_check_baseline a) (a_with_oodle a) (a_oodle_sdk a) (a_oodle_htbits a) (a_oodle_gates a).
Definition with_ci_check (v : bool) (a : bench_args_t) : bench_args_t :=
    Args (a_workload_mask a) (a_compressor_mask a) (a_mode a) (a_count a) (a_warmup a) (a_seed a) (a_train_count a) (a_format a)
    (a_output_file a) v (a_no_dict a) (a_no_delta a) (a_compact_hdr a) (a_fast_compress a) (a_adaptive a) (a_simd_level a)
    (a_baseline_dir a) (a_save_baseline a) (a_check_baseline a) (a_with_oodle a) (a_oodle_sdk a) (a_oodle_htbits a) (a_oodle_gates a).
Definition with_no_dict (v : bool) (a : bench_args_t) : bench_args_t :=
    Args (a_workload_mask a) (a_compressor_mask a) (a_mode a) (a_count a) (a_warmup a) (a_seed a) (a_train_count a) (a_format a)
    (a_output_file a) (a_ci_check a) v (a_no_delta a) (a_compact_hdr a) (a_fast_compress a) (a_adaptive a) (a_simd_level a)
    (a_baseline_dir a) (a_save_baseline a) (a_check_baseline a) (a_with_oodle a) (a_oodle_sdk a) (a_oodle_htbits a) (a_oodle_gates a).
Definition with_no_delta (v : bool) (a : bench_args_t) : bench_args_t :=
    Args (a_workload_mask a) (a_compressor_mask a) (a_mode a) (a_count a) (a_warmup a) (a_seed a) (a_train_count a) (a_format a)
    (a_output_file a) (a_ci_check a) (a_no_dict a) v (a_compact_hdr a) (a_fast_compress a) (a_adaptive a) (a_simd_level a)
    (a_baseline_dir a) (a_save_baseline a) (a_check_baseline a) (a_with_oodle a) (a_oodle_sdk a) (a_oodle_htbits a) (a_oodle_gates a).
Definition with_compact_hdr (v : bool) (a : bench_args_t) : bench_args_t :=
    Args (a_workload_mask a) (a_compressor_mask a) (a_mode a) (a_count a) (a_warmup a) (a_seed a) (a_train_count a) (a_format a)
    (a_output_file a) (a_ci_check a) (a_no_dict a) (a_no_delta a) v (a_fast_compress a) (a_adaptive a) (a_simd_level a) (a_baseline_dir
    a) (a_save_baseline a) (a_check_baseline a) (a_with_oodle a) (a_oodle_sdk a) (a_oodle_htbits a) (a_oodle_gates a).
Definition with_fast_compress (v : bool) (a : bench_args_t) : bench_args_t :=
    Args (a_workload_mask a) (a_compressor_mask a) (a_mode a) (a_count a) (a_warmup a) (a_seed a) (a_train_count a) (a_format a)
    (a_output_file a) (a_ci_check a) (a_no_dict a) (a_no_delta a) (a_compact_hdr a) v (a_adaptive a) (a_simd_level a) (a_baseline_dir a)
    (a_save_baseline a) (a_check_baseline a) (a_with_oodle a) (a_oodle_sdk a) (a_oodle_htbits a) (a_oodle_gates a).
Definition with_adaptive (v : bool) (a : bench_args_t) : bench_args_t :=
    Args (a_workload_mask a) (a_compressor_mask a) (a_mode a) (a_count a) (a_warmup a) (a_seed a) (a_train_count a) (a_format a)
    (a_output_file a) (a_ci_check a) (a_no_dict a) (a_no_delta a) (a_compact_hdr a) (a_fast_compress a) v (a_simd_level a)
    (a_baseline_dir a) (a_save_baseline a) (a_check_baseline a) (a_with_oodle a) (a_oodle_sdk a) (a_oodle_htbits a) (a_oodle_gates a).
Definition with_simd_level (v : Z) (a : bench_args_t) : bench_args_t :=
    Args (a_workload_mask a) (a_compressor_mask a) (a_mode a) (a_count a) (a_warmup a) (a_seed a) (a_train_count a) (a_format a)
    (a_output_file a) (a_ci_check a) (a_no_dict a) (a_no_delta a) (a_compact_hdr a) (a_fast_compress a) (a_adaptive a) v (a_baseline_dir
    a) (a_save_baseline a) (a_check_baseline a) (a_with_oodle a) (a_oodle_sdk a) (a_oodle_htbits a) (a_oodle_gates a).
Definition with_baseline_dir (v : option string) (a : bench_args_t) : bench_args_t :=
    Args (a_workload_mask a) (a_compressor_mask a) (a_mode a) (a_count a) (a_warmup a) (a_seed a) (a_train_count a) (a_format a)
    (a_output_file a) (a_ci_check a) (a_no_dict a) (a_no_delta a) (a_compact_hdr a) (a_fast_compress a) (a_adaptive a) (a_simd_level a)
    v (a_save_baseline a) (a_check_baseline a) (a_with_oodle a) (a_oodle_sdk a) (a_oodle_htbits a) (a_oodle_gates a).
Definition with_save_baseline (v : bool) (a : bench_args_t) : bench_args_t :=
    Args (a_workload_mask a) (a_compressor_mask a) (a_mode a) (a_count a) (a_warmup a) (a_seed a) (a_train_count a) (a_format a)
    (a_output_file a) (a_ci_check a) (a_no_dict a) (a_no_delta a) (a_compact_hdr a) (a_fast_compress a) (a_adaptive a) (a_simd_level a)
    (a_baseline_dir a) v (a_check_baseline a) (a_with_oodle a) (a_oodle_sdk a) (a_oodle_htbits a) (a_oodle_gates a).
Definition with_check_baseline (v : bool) (a : bench_args_t) : bench_args_t :=
    Args (a_workload_mask a) (a_compressor_mask a) (a_mode a) (a_count a) (a_warmup a) (a_seed a) (a_train_count a) (a_format a)
    (a_output_file a) (a_ci_check a) (a_no_dict a) (a_no_delta a) (a_compact_hdr a) (a_fast_compress a) (a_adaptive a) (a_simd_level a)
    (a_baseline_dir a) (a_save_baseline a) v (a_with_oodle a) (a_oodle_sdk a) (a_oodle_htbits a) (a_oodle_gates a).
Definition with_with_oodle (v : bool) (a : bench_args_t) : bench_args_t :=
    Args (a_workload_mask a) (a_compressor_mask a) (a_mode a) (a_count a) (a_warmup a) (a_seed a) (a_train_count a) (a_format a)
    (a_output_file a) (a_ci_check a) (a_no_dict a) (a_no_delta a) (a_compact_hdr a) (a_fast_compress a) (a_adaptive a) (a_simd_level a)
    (a_baseline_dir a) (a_save_baseline a) (a_check_baseline a) v (a_oodle_sdk a) (a_oodle_htbits a) (a_oodle_gates a).
Definition with_oodle_sdk (v : option string) (a : bench_args_t) : bench_args_t :=
    Args (a_workload_mask a) (a_compressor_mask a) (a_mode a) (a_count a) (a_warmup a) (a_seed a) (a_train_count a) (a_format a)
    (a_output_file a) (a_ci_check a) (a_no_dict a) (a_no_delta a) (a_compact_hdr a) (a_fast_compress a) (a_adaptive a) (a_simd_level a)
    (a_baseline_dir a) (a_save_baseline a) (a_check_baseline a) (a_with_oodle a) v (a_oodle_htbits a) (a_oodle_gates a).
Definition with_oodle_htbits (v : Z) (a : bench_args_t) : bench_args_t :=
    Args (a_workload_mask a) (a_compressor_mask a) (a_mode a) (a_count a) (a_warmup a) (a_seed a) (a_train_count a) (a_format a)
    (a_output_file a) (a_ci_check a) (a_no_dict a) (a_no_delta a) (a_compact_hdr a) (a_fast_compress a) (a_adaptive a) (a_simd_level a)
    (a_baseline_dir a) (a_save_baseline a) (a_check_baseline a) (a_with_oodle a) (a_oodle_sdk a) v (a_oodle_gates a).
Definition with_oodle_gates (v : bool) (a : bench_args_t) : bench_args_t :=
    Args (a_workload_mask a) (a_compressor_mask a) (a_mode a) (a_count a) (a_warmup a) (a_seed a) (a_train_count a) (a_format a)
    (a_output_file a) (a_ci_check a) (a_no_dict a) (a_no_delta a) (a_compact_hdr a) (a_fast_compress a) (a_adaptive a) (a_simd_level a)
    (a_baseline_dir a) (a_save_baseline a) (a_check_baseline a) (a_with_oodle a) (a_oodle_sdk a) (a_oodle_htbits a) v.

(** ** [parse_args] *)

(** The options without a value. *)
Definition parse_flag (arg : string) (a : bench_args_t) : option bench_args_t :=
  if String.eqb arg "--ci-check" then Some (with_ci_check true a)
  else if String.eqb arg "--no-dict" then Some (with_no_dict true a)
  else if String.eqb arg "--no-delta" then Some (with_no_delta true a)
  else if String.eqb arg "--compact-hdr" then Some (with_compact_hdr true a)
  else if String.eqb arg "--fast" then Some (with_fast_compress true a)
  else if String.eqb arg "--adaptive" then Some (with_adaptive true a)
  else if String.eqb arg "--save-baseline" then Some (with_save_baseline true a)
  else if String.eqb arg "--check-baseline" then Some (with_check_baseline true a)
  else if String.eqb arg "--with-oodle" then Some (with_with_oodle true a)
  else if String.eqb arg "--oodle-gates" then Some (with_oodle_gates true a)
  else None.

(** [strchr(arg, '=')]: the text before and after the first '='. *)
Fixpoint split_eq (s : string) : option (string * string) :=
  match s with
  | EmptyString => None
  | String "=" s' => Some (EmptyString, s')
  | String c s' => '(k, v) ← split_eq s'; Some (String c k, v)
  end.

(** An option with a value: the updated arguments, or none for an error. *)
Definition parse_key (key val : string) (a : bench_args_t) : outcome unit (option bench_args_t) :=
  if String.eqb key "--workload" then
    wl ← parse_workload val;
    Ok (if decide (wl = BENCH_WL_ALL) then None
        else Some (with_workload_mask (Z.lor (a_workload_mask a) (2 ^ workload_to_int wl)) a))
  else if String.eqb key "--compressor" then
    let mask := parse_compressor val in
    Ok (if mask =? 0 then None else Some (with_compressor_mask (Z.lor (a_compressor_mask a) mask) a))
  else if String.eqb key "--mode" then Ok (Some (with_mode (parse_mode val) a))
  else if String.eqb key "--count" then n ← atol val; Ok (Some (with_count (u64 n) a))
  else if String.eqb key "--warmup" then n ← atol val; Ok (Some (with_warmup (u64 n) a))
  else if String.eqb key "--seed" then n ← atol val; Ok (Some (with_seed (u64 n) a))
  else if String.eqb key "--train" then n ← atol val; Ok (Some (with_train_count (u64 n) a))
  else if String.eqb key "--format" then Ok (Some (with_format (bench_format_parse val) a))
  else if String.eqb key "--output" then Ok (Some (with_output_file (Some val) a))
  else if String.eqb key "--simd" then Ok (Some (with_simd_level (parse_simd val) a))
  else if String.eqb key "--baseline-dir" then Ok (Some (with_baseline_dir (Some val) a))
  else if String.eqb key "--oodle-sdk" then Ok (Some (with_oodle_sdk (Some val) a))
  else if String.eqb key "--oodle-htbits" then n ← atoi val; Ok (Some (with_oodle_htbits n a))
  else Ok None.

(** The defaults filled in at the end. *)
Definition args_defaults (a : bench_args_t) : bench_args_t :=
  let a := if a_workload_mask a =? 0
           then with_workload_mask (fold_left (fun m w => Z.lor m (2 ^ w)) (seqZ 1 8) (a_workload_mask a)) a else a in
  let a := if a_compressor_mask a =? 0 then with_compressor_mask BENCH_COMP_NETC a else a in
  match a_baseline_dir a with None => with_baseline_dir (Some "bench/baselines"%string) a | Some _ => a end.

(** [argv] without the program name.  Returns the C value: 0, 1 for the help
    text, -1 for an error. *)
Fixpoint parse_loop (argv : list string) (a : bench_args_t) : outcome unit (Z * bench_args_t) :=
  match argv with
  | [] => Ok (0, args_defaults a)
  | arg :: argv' =>
      if String.eqb arg "--help" || String.eqb arg "-h" then Ok (1, a) else
      match parse_flag arg a with
      | Some a' => parse_loop argv' a'
      | None =>
          match split_eq arg with
          | None => Ok (-1, a)
          | Some (key, val) =>
              r ← parse_key (substring 0 63 key) val a;
              match r with Some a' => parse_loop argv' a' | None => Ok (-1, a) end
          end
      end
  end.

Definition parse_args (argv : list string) : outcome unit (Z * bench_args_t) := parse_loop argv args_init.

(** ** Properties of the parsed arguments *)

(** Only workloads 1 to 8 can be selected, and only known compressors. *)
Definition masks_ok (a : bench_args_t) : Prop :=
  (forall i, Z.testbit (a_workload_mask a) i = true -> 1 <= i <= 8) /\ 0 <= a_workload_mask a /\
  (forall i, Z.testbit (a_compressor_mask a) i = true -> 0 <= i <= 15) /\ 0 <= a_compressor_mask a.

Lemma mask_lor a b lo hi :
  (forall i, Z.testbit a i = true -> lo <= i <= hi) -> (forall i, Z.testbit b i = true -> lo <= i <= hi) ->
  forall i, Z.testbit (Z.lor a b) i = true -> lo <= i <= hi.
Proof. intros Ha Hb i. rewrite Z.lor_spec, orb_true_iff. intros [?|?]; auto. Qed.

Lemma workload_bit wl i : wl <> BENCH_WL_ALL -> Z.testbit (2 ^ workload_to_int wl) i = true -> 1 <= i <= 8.
Proof.
  intros Hne Hb. assert (0 <= workload_to_int wl /\ 1 <= workload_to_int wl <= 8) as [H0 H1] by (destruct wl; try done; cbn; lia).
  destruct (Z.eq_dec i (workload_to_int wl)) as [->|Hi]; [done|]. rewrite Z.pow2_bits_false in Hb by congruence. done.
Qed.

Lemma compressor_bits s i : Z.testbit (parse_compressor s) i = true -> 0 <= i <= 15.
Proof.
  assert (0 <= parse_compressor s < 2 ^ 16) as Hr by (unfold parse_compressor; repeat case_if; done).
  intros Hb. destruct (Z.lt_ge_cases i 0) as [Hi|Hi]; [by rewrite Z.testbit_neg_r in Hb|]. split; [done|].
  apply Z.nlt_ge. intros Hlt. rewrite Z.bits_above_log2 in Hb; [done|lia|].
  apply Z.lt_le_trans with 16; [|lia]. apply log2_lt_bound; [lia|done].
Qed.

(** Each option keeps the masks within range. *)
Lemma flag_masks arg a a' : parse_flag arg a = Some a' -> masks_ok a -> masks_ok a'.
Proof. unfold parse_flag. repeat case_if; intros [= <-] H; exact H. Qed.

Lemma key_masks key val a a' : parse_key key val a = Ok (Some a') -> masks_ok a -> masks_ok a'.
Proof.
  unfold parse_key. intros Hk (Hw & Hw0 & Hc & Hc0).
  repeat case_if_in Hk;
    try (apply bind_Ok in Hk as (n & _ & Hk)); try discriminate Hk;
    try (apply Ok_inj in Hk; injection Hk as <-; exact (conj Hw (conj Hw0 (conj Hc Hc0)))).
  - destruct (decide (n = BENCH_WL_ALL)) as [|Hne]; [discriminate Hk|]. apply Ok_inj in Hk. injection Hk as <-.
    unfold masks_ok. cbn [a_workload_mask a_compressor_mask with_workload_mask]. split_and!; try done.
    + apply mask_lor; [done|]. intros i. by apply workload_bit.
    + apply Z.lor_nonneg. split; [done|]. apply Z.pow_nonneg; lia.
  - apply Ok_inj in Hk. injection Hk as <-.
    unfold masks_ok. cbn [a_workload_mask a_compressor_mask with_compressor_mask]. split_and!; try done.
    + apply mask_lor; [done|]. intros i. by apply compressor_bits.
    + apply Z.lor_nonneg. split; [done|]. unfold parse_compressor. repeat case_if; done.
Qed.

(** What the rest of the program relies on. *)
Definition args_ok (a : bench_args_t) : Prop :=
  masks_ok a /\ a_workload_mask a <> 0 /\ a_compressor_mask a <> 0 /\ a_baseline_dir a <> None.

Lemma all_workloads_bits i : Z.testbit (fold_left (fun m w => Z.lor m (2 ^ w)) (seqZ 1 8) 0) i = true -> 1 <= i <= 8.
Proof.
  change (fold_left _ _ 0) with 510. intros Hb.
  destruct (Z.lt_ge_cases i 0) as [?|Hi]; [by rewrite Z.testbit_neg_r in Hb|].
  destruct (Z.lt_ge_cases 8 i) as [?|?]; [by rewrite Z.bits_above_log2 in Hb by (cbn; lia)|].
  split; [|done]. destruct (Z.eq_dec i 0) as [->|]; [done|lia].
Qed.

Lemma defaults_ok a : masks_ok a -> args_ok (args_defaults a).
Proof.
  intros (Hw & Hw0 & Hc & Hc0). unfold args_defaults. cbv zeta.
  assert (args_ok' : forall b, masks_ok b -> a_workload_mask b <> 0 -> a_compressor_mask b <> 0 ->
    args_ok match a_baseline_dir b with None => with_baseline_dir (Some "bench/baselines"%string) b | Some _ => b end).
  { intros b Hm H1 H2. destruct (a_baseline_dir b) eqn:Hd; unfold args_ok; [rewrite Hd; done|].
    cbn [a_workload_mask a_compressor_mask a_baseline_dir with_baseline_dir]. split_and!; try done; apply Hm. }
  assert (Hnetc : forall i, Z.testbit BENCH_COMP_NETC i = true -> 0 <= i <= 15).
  { intros i Hi. destruct (Z.eq_dec i 0) as [->|]; [lia|]. unfold BENCH_COMP_NETC in Hi. by rewrite Z.pow2_bits_false in Hi by lia. }
  destruct (Z.eqb_spec (a_workload_mask a) 0) as [Hz|Hz]; destruct (Z.eqb_spec (a_compressor_mask a) 0) as [Hz'|Hz'];
    cbn [a_workload_mask a_compressor_mask with_compressor_mask with_workload_mask];
    rewrite ?Hz, ?(proj2 (Z.eqb_eq _ 0) Hz'), ?(proj2 (Z.eqb_neq _ 0) Hz');
    apply args_ok'; cbn [a_workload_mask a_compressor_mask with_compressor_mask with_workload_mask]; try done;
    unfold masks_ok; cbn [a_workload_mask a_compressor_mask with_compressor_mask with_workload_mask]; split_and!; try done;
    intros i Hi; by apply all_workloads_bits.
Qed.

Lemma parse_loop_ok argv a r : masks_ok a -> parse_loop argv a = Ok r -> r.1 = 0 -> args_ok r.2.
Proof.
  revert a. induction argv as [|arg argv IH]; intros a Ha H Hr; cbn [parse_loop] in H.
  { apply Ok_inj in H as <-. by apply defaults_ok. }
  case_if_in H. { apply Ok_inj in H as <-. discriminate Hr. }
  destruct (parse_flag arg a) as [a'|] eqn:Hf; [exact (IH a' (flag_masks _ _ _ Hf Ha) H Hr)|].
  destruct (split_eq arg) as [[k v]|]; [|apply Ok_inj in H as <-; discriminate Hr].
  apply bind_Ok in H as ([a'|] & Hk & H); [exact (IH a' (key_masks _ _ _ _ Hk Ha) H Hr)|apply Ok_inj in H as <-; discriminate Hr].
Qed.

(** A command line that [parse_args] accepts gives arguments the main loop
    can run on: at least one workload is selected and only workloads 1 to 8, at
    least one compressor and only the 16 known bits, and the baseline directory
    is set. *)
Theorem parse_args_selects argv a :
  parse_args argv = Ok (0, a) -> args_ok a.
Proof.
  intros H. refine (parse_loop_ok argv args_init (0, a) _ H eq_refl).
  unfold masks_ok, args_init. cbn [a_workload_mask a_compressor_mask].
  split_and!; try done; intros i; by rewrite Z.testbit_0_l.
Qed.

Lemma parse_args_selects_witness :
  exists a, parse_args ["--workload=WL-003"; "--compressor=lz4"; "--count=1000"; "--ci-check"]%string = Ok (0, a) /\
    a_workload_mask a = 8 /\ a_compressor_mask a = 8 /\ a_count a = 1000 /\ args_ok a.
Proof.
  eexists. split; [vm_compute; reflexivity|]. split_and!; [reflexivity..|].
  apply (parse_args_selects ["--workload=WL-003"; "--compressor=lz4"; "--count=1000"; "--ci-check"]%string).
  vm_compute. reflexivity.
Defined.
