(* ===== verification/BenchBaseline.v ===== *)
(** * Baseline files

    src/bench/bench_baseline.c: a result is saved as a small JSON file and read
    back with a reader that looks for the key's text.  The file system is a map
    from paths to contents; [disk] says of a path whether it can be opened for
    writing, and how many characters then reach the file before a write fails:
    neither [fprintf] nor [fclose] is looked at. *)

From Stdlib Require Import String Ascii.
From stdpp Require Import prelude.
From Stdlib Require Import ZArith Lia SpecFloat.
From S2P Require Import Prelude Double CText Corpus BenchStats BenchRun BenchGates.

Local Open Scope Z_scope.

(** ** The file system *)
Definition fs_t : Type := string -> option string.
Definition fs_write (fs : fs_t) (path text : string) : fs_t := fun p => if String.eqb p path then Some text else fs p.

(** ** Saving *)
Definition bench_baseline_filename (dir compressor workload : string) (buf_size : nat) : string :=
  snprintf buf_size (dir ++ "/" ++ compressor ++ "_" ++ workload ++ ".json").

Definition baseline_wl_name (wl : bench_workload_t) : string :=
  match wl with
  | BENCH_WL_001 => "WL-001" | BENCH_WL_002 => "WL-002" | BENCH_WL_003 => "WL-003" | BENCH_WL_004 => "WL-004"
  | BENCH_WL_005 => "WL-005" | BENCH_WL_006 => "WL-006" | BENCH_WL_007 => "WL-007" | BENCH_WL_008 => "WL-008"
  | BENCH_WL_ALL => "WL-???"
  end.

(** One line of the file. *)
Definition json_field (key val sep : string) : string := ("  " ++ quoted key ++ ": " ++ val ++ sep)%string.
Definition COMMA : string := ("," ++ NL)%string.

Definition baseline_text (wl_name : string) (res : bench_result_t) : string :=
  ("{" ++ NL ++
   json_field "version" "1" COMMA ++
   json_field "compressor" (quoted (r_compressor res)) COMMA ++
   json_field "workload" (quoted wl_name) COMMA ++
   json_field "compress_mbs" (fmt_f 6 (r_compress_mbs res)) COMMA ++
   json_field "decompress_mbs" (fmt_f 6 (r_decompress_mbs res)) COMMA ++
   json_field "ratio" (fmt_f 6 (r_ratio res)) COMMA ++
   json_field "compress_p50_ns" (fmt_f 1 (f64_of_Z (p50_ns (r_compress res)))) COMMA ++
   json_field "decompress_p50_ns" (fmt_f 1 (f64_of_Z (p50_ns (r_decompress res)))) NL ++
   "}" ++ NL)%string.

Definition baseline_path (dir : string) (res : bench_result_t) : string :=
  bench_baseline_filename dir (r_compressor res) (baseline_wl_name (r_workload res)) 512.

Definition bench_baseline_save (disk : string -> option nat) (dir : option string) (result : option bench_result_t) (fs : fs_t) : Z * fs_t :=
  match dir, result with
  | Some dir, Some res =>
      let path := baseline_path dir res in
      match disk path with
      | None => (-1, fs)
      | Some room => (0, fs_write fs path (substring 0 room (baseline_text (baseline_wl_name (r_workload res)) res)))
      end
  | _, _ => (-1, fs)
  end.

(** ** Loading *)
Definition json_blank (c : ascii) : bool := existsb (Ascii.eqb c) [" "%char; "009"%char; "010"%char; "013"%char].
Fixpoint skip_blank (blank : ascii -> bool) (s : string) : string :=
  match s with String c s' => if blank c then skip_blank blank s' else s | EmptyString => s end.

Definition search_text (key : string) : string := snprintf 128 (quoted key ++ ":").

Definition json_read_double (json key : string) : option spec_float :=
  p ← strstr_after (search_text key) json;
  strtod (skip_blank json_blank p).

(** The characters up to the closing quote, as far as [room] allows. *)
Fixpoint read_quoted (room : nat) (s : string) : string :=
  match room, s with
  | S room, String c s' => if Ascii.eqb c QUOTE then EmptyString else String c (read_quoted room s')
  | _, _ => EmptyString
  end.

Definition json_read_string (json key : string) (out_size : nat) : option string :=
  p ← strstr_after (search_text key) json;
  match skip_blank (fun c => existsb (Ascii.eqb c) [" "%char; "009"%char]) p with
  | String c p' => if Ascii.eqb c QUOTE then Some (read_quoted (out_size - 1) p') else None
  | EmptyString => None
  end.

(** Returns -1 without a baseline, or 0 with one.  [mem]: the buffer could be
    allocated, and so many characters are then read before [fread] fails, which
    is not looked at either.  A missing metric stays 0. *)
Definition bench_baseline_load (mem : option nat) (dir compressor workload : option string) (fs : fs_t) : Z * option bench_baseline_t :=
  match dir, compressor, workload with
  | Some dir, Some compressor, Some workload =>
      match fs (bench_baseline_filename dir compressor workload 512) with
      | None => (-1, None)
      | Some buf =>
          let fsize := Z.of_nat (String.length buf) in
          if (fsize <=? 0) || (65536 <? fsize) then (-1, None) else
          match mem with
          | None => (-1, None)
          | Some nread =>
              let buf := substring 0 nread buf in
              match json_read_string buf "compressor" 64, json_read_string buf "workload" 16 with
              | Some c, Some w =>
                  let field key := default f64_zero (json_read_double buf key) in
                  (0, Some (Baseline c w (field "compress_mbs"%string) (field "decompress_mbs"%string) (field "ratio"%string)
                              (field "compress_p50_ns"%string) (field "decompress_p50_ns"%string)))
              | _, _ => (-1, None)
              end
          end
      end
  | _, _, _ => (-1, None)
  end.

(** ** Finding a key *)
Definition no_quote (s : string) : Prop := Forall (fun c => c <> QUOTE) (list_ascii_of_string s).

Lemma no_quote_app a b : no_quote (a ++ b) <-> no_quote a /\ no_quote b.
Proof. unfold no_quote. rewrite <- Forall_app. by replace (list_ascii_of_string (a ++ b)) with (list_ascii_of_string a ++ list_ascii_of_string b)%list by (induction a; cbn; congruence). Qed.

Lemma no_quote_cons c s : no_quote (String c s) <-> c <> QUOTE /\ no_quote s.
Proof. unfold no_quote. cbn. by rewrite Forall_cons. Qed.

Lemma strstr_skip p a s : no_quote a -> strstr_after (String QUOTE p) (a ++ s) = strstr_after (String QUOTE p) s.
Proof.
  induction a as [|c a IH]; [done|]. rewrite no_quote_cons. intros [Hc Ha]. cbn [String.append strstr_after String.prefix].
  destruct (ascii_dec QUOTE c); [congruence|]. by apply IH.
Qed.

Lemma prefix_cons c a s : String.prefix (String c a) (String c s) = String.prefix a s.
Proof. cbn. by destruct (ascii_dec c c). Qed.

(** A quoted text is found only where it is the whole content of a string. *)
Lemma prefix_quoted key k s :
  no_quote key -> no_quote k -> (k = key -> String.prefix ":" s = false) ->
  String.prefix (key ++ String QUOTE ":") (k ++ String QUOTE s) = false.
Proof.
  revert k. induction key as [|c key IH]; intros k Hkey Hk Hs; destruct k as [|c' k]; cbn [String.append].
  - rewrite prefix_cons. by apply Hs.
  - apply no_quote_cons in Hk as [Hc _]. cbn [String.prefix]. destruct (ascii_dec QUOTE c'); [congruence|done].
  - apply no_quote_cons in Hkey as [Hc _]. cbn [String.prefix]. destruct (ascii_dec c QUOTE); [congruence|done].
  - apply no_quote_cons in Hk as [_ Hk], Hkey as [_ Hkey]. cbn [String.prefix]. destruct (ascii_dec c c') as [->|]; [|done].
    apply IH; try done. intros ->. by apply Hs.
Qed.

Definition pattern (key : string) : string := String QUOTE (key ++ String QUOTE ":").

Lemma pattern_skip key a s : no_quote a -> strstr_after (pattern key) (a ++ s) = strstr_after (pattern key) s.
Proof. apply strstr_skip. Qed.

Lemma strstr_quoted key k s :
  no_quote key -> no_quote k -> (k = key -> String.prefix ":" s = false) -> String.prefix (key ++ String QUOTE ":") s = false ->
  strstr_after (pattern key) (quoted k ++ s) = strstr_after (pattern key) s.
Proof.
  intros Hkey Hk Hs Hp. unfold quoted, pattern. cbn [String.append strstr_after]. rewrite prefix_cons, string_app_assoc. cbn [String.append].
  rewrite prefix_quoted by done. rewrite strstr_skip by done. cbn [strstr_after]. by rewrite prefix_cons, Hp.
Qed.

Lemma drop_app a s : drop_str (String.length a) (a ++ s) = s.
Proof.
  unfold drop_str. assert (String.length (a ++ s) = String.length a + String.length s)%nat as -> by (induction a; cbn; congruence).
  replace (String.length a + String.length s - String.length a)%nat with (String.length s) by lia.
  induction a as [|c a IH]; cbn; [|done]. induction s as [|c s IH]; cbn; [done|]. by rewrite IH.
Qed.

Lemma strstr_here pat s : strstr_after pat (pat ++ s) = Some s.
Proof.
  assert (String.prefix pat (pat ++ s) = true) as Hp.
  { induction pat as [|c pat IH]; [by destruct s|]. cbn [String.append]. by rewrite prefix_cons. }
  destruct (pat ++ s)%string eqn:E; cbn [strstr_after]; rewrite Hp, <- E, drop_app; done.
Qed.

(** ** Reading back what was written *)

(** A line with another key is passed over, whether its value is a number or a
    string; the line with the key is found. *)
Lemma field_skip key k v s :
  no_quote key -> no_quote k -> k <> key -> String.prefix (key ++ String QUOTE ":") (": " ++ v ++ COMMA ++ s) = false -> no_quote v ->
  strstr_after (pattern key) (json_field k v COMMA ++ s) = strstr_after (pattern key) s.
Proof.
  intros Hkey Hk Hne Hp Hv. unfold json_field. rewrite !string_app_assoc. rewrite pattern_skip by (by repeat constructor).
  rewrite strstr_quoted; [|done|done|done|done]. rewrite pattern_skip by (by repeat constructor).
  rewrite pattern_skip by done. by rewrite pattern_skip by (by repeat constructor).
Qed.

Lemma field_skip_string key k v s :
  no_quote key -> no_quote k -> k <> key -> no_quote v ->
  String.prefix (key ++ String QUOTE ":") (": " ++ quoted v ++ COMMA ++ s) = false -> String.prefix (key ++ String QUOTE ":") (COMMA ++ s) = false ->
  strstr_after (pattern key) (json_field k (quoted v) COMMA ++ s) = strstr_after (pattern key) s.
Proof.
  intros Hkey Hk Hne Hv Hp Hp'. unfold json_field. rewrite !string_app_assoc. rewrite pattern_skip by (by repeat constructor).
  rewrite strstr_quoted; [|done|done|done|done]. rewrite pattern_skip by (by repeat constructor).
  rewrite strstr_quoted; [|done|done|done|done]. by rewrite pattern_skip by (by repeat constructor).
Qed.

Lemma field_hit key v sep s :
  no_quote key -> strstr_after (pattern key) (json_field key v sep ++ s) = Some (" " ++ v ++ sep ++ s)%string.
Proof.
  intros Hkey. unfold json_field. rewrite !string_app_assoc. rewrite pattern_skip by (by repeat constructor).
  replace (quoted key ++ ": " ++ v ++ sep ++ s)%string with (pattern key ++ (" " ++ v ++ sep ++ s))%string; [apply strstr_here|].
  unfold pattern, quoted. cbn [String.append]. by rewrite !string_app_assoc.
Qed.

(** A printed number holds no quote. *)
Lemma dec_fixed_no_quote k n a : no_quote a -> no_quote (dec_fixed k n a).
Proof.
  revert n a. induction k as [|k IH]; intros n a Ha; [done|]. cbn [dec_fixed]. apply IH. apply no_quote_cons. split; [|done].
  assert (is_digit (digit (n mod 10)) = true) as Hd by (apply digit_spec, Z.mod_pos_bound; lia).
  destruct (digit_char _ Hd) as (_ & _ & _ & _ & _ & Hq & _). exact Hq.
Qed.

Lemma point_no_quote p n : 0 <= n -> no_quote (point_text p n).
Proof.
  intros Hn. unfold point_text. destruct (dec_as_fixed (n / 10 ^ Z.of_nat p)) as (k & _ & -> & _).
  { apply Z.div_pos; [done|]. apply Z.pow_pos_nonneg; lia. }
  apply no_quote_app. split; [apply dec_fixed_no_quote; constructor|]. apply no_quote_app. split; [by repeat constructor|apply dec_fixed_no_quote; constructor].
Qed.

(** The number that [%.pf] prints for a non-negative double. *)
Definition decimal (p : nat) (x : spec_float) : Z := match x with S754_finite _ m e => scale10 p m e | _ => 0 end.
(** A double that a measurement can be: not negative, not a NaN, in range. *)
Definition measure_ok (x : spec_float) : Prop :=
  match x with S754_zero false => True | S754_finite false m e => Zpos m < 2 ^ 53 /\ -1074 <= e <= 971 | _ => False end.

Lemma scale10_bound p m e : Zpos m < 2 ^ 53 -> e <= 971 -> 0 <= scale10 p m e <= 10 ^ Z.of_nat p * 2 ^ 1024.
Proof.
  intros Hm He. pose proof (Z.pow_pos_nonneg 10 (Z.of_nat p) ltac:(lia) ltac:(lia)) as Hp. unfold scale10. cbv zeta.
  set (P := 10 ^ Z.of_nat p) in *. assert (Zpos m * P <= (2 ^ 53 - 1) * P) as Hm' by (apply Z.mul_le_mono_nonneg_r; lia).
  destruct (Z.ltb_spec e 0) as [Hn|Hn].
  - pose proof (rne_bounds (Zpos m * P) (- e) ltac:(lia) ltac:(lia)) as Hr.
    pose proof (pow2_pos (- e) ltac:(lia)). pose proof (Z.div_pos (Zpos m * P) (2 ^ (- e)) ltac:(lia) ltac:(lia)).
    assert (Zpos m * P / 2 ^ (- e) <= Zpos m * P) by (apply Z.div_le_upper_bound; nia).
    split; [lia|]. transitivity (P * 2 ^ 53); [lia|]. apply Z.mul_le_mono_nonneg_l; [lia|]. apply Z.pow_le_mono_r; lia.
  - pose proof (pow2_pos e Hn). split; [lia|]. change 1024 with (53 + 971). rewrite Z.pow_add_r, Z.mul_assoc by lia.
    apply Z.mul_le_mono_nonneg; [lia|lia|lia|]. apply Z.pow_le_mono_r; lia.
Qed.

Lemma decimal_bound p x : measure_ok x -> 0 <= decimal p x <= 10 ^ Z.of_nat p * 2 ^ 1024.
Proof.
  destruct x as [[]| | |[] m e]; try done; cbn [measure_ok decimal]; intros H; [|apply scale10_bound; lia].
  pose proof (Z.pow_pos_nonneg 10 (Z.of_nat p) ltac:(lia) ltac:(lia)). lia.
Qed.

Lemma fmt_measure p x : measure_ok x -> fmt_f p x = point_text p (decimal p x).
Proof. by destruct x as [[]| | |[] m e]. Qed.

(** The double that is read back for one printed with [p] decimals: the one
    nearest to the decimal number. *)
Definition reread (p : nat) (x : spec_float) : spec_float := f64_decimal false (decimal p x) (- Z.of_nat p).

Lemma strtod_measure p x r : measure_ok x -> ends_number r -> strtod (fmt_f p x ++ r) = Some (reread p x).
Proof. intros Hx Hr. rewrite fmt_measure by done. apply strtod_point; [|done]. by apply decimal_bound. Qed.

Lemma count_measure n : 0 <= n < 2 ^ 53 -> measure_ok (f64_of_Z n).
Proof.
  intros Hn. destruct (Z.eq_dec n 0) as [->|Hne]; [done|]. destruct (f64_of_Z_spec n ltac:(lia)) as (m & k & Hk & -> & _ & Hd).
  cbn [measure_ok]. split; [|lia]. pose proof (digits2_spec (Zpos m) ltac:(lia)) as Hs. rewrite Hd in Hs. lia.
Qed.

(** Counts are kept exactly. *)
Lemma reread_count n : 0 <= n < 2 ^ 53 -> reread 1 (f64_of_Z n) = f64_of_Z n.
Proof.
  intros Hn. destruct (Z.eq_dec n 0) as [->|Hne]; [done|].
  assert (decimal 1 (f64_of_Z n) = 10 * n) as Hd.
  { destruct (f64_of_Z_spec n ltac:(lia)) as (m & k & Hk & -> & Hm & _). cbn [decimal]. unfold scale10. cbv zeta. rewrite Hm.
    change (10 ^ Z.of_nat 1) with 10. destruct (Z.ltb_spec (- k) 0) as [Hl|Hl].
    - rewrite Z.opp_involutive. replace (n * 2 ^ k * 10) with (10 * n * 2 ^ k) by lia. apply rne_exact. lia.
    - replace k with 0 by lia. change (2 ^ 0) with 1. change (2 ^ (- 0)) with 1. lia. }
  unfold reread, f64_decimal. rewrite Hd. change (- Z.of_nat 1 <? 0) with true. cbv iota. change (10 ^ (- - Z.of_nat 1)) with 10.
  rewrite <- f64_div_tenths by lia. destruct n as [|n|]; try lia. done.
Qed.

(** Reading one number at the position the search found. *)
Lemma read_measure p x sep s :
  measure_ok x -> ends_number (sep ++ s) -> strtod (skip_blank json_blank (" " ++ fmt_f p x ++ sep ++ s)) = Some (reread p x).
Proof.
  intros Hx Hr. assert (0 <= decimal p x) as Hd by (by apply decimal_bound). rewrite fmt_measure by done.
  destruct (point_text_head p (decimal p x) (sep ++ s) Hd) as (c & s' & E & Hc & _). pose proof (strtod_point p _ _ Hd Hr) as Hs.
  change (" " ++ point_text p (decimal p x) ++ sep ++ s)%string with (String " " (point_text p (decimal p x) ++ sep ++ s)).
  rewrite E in *. cbn [skip_blank]. change (json_blank " ") with true. cbv iota.
  assert (json_blank c = false) as -> by (revert Hc; clear; by destruct c as [[] [] [] [] [] [] [] []]). exact Hs.
Qed.

Lemma read_quoted_app room n s : no_quote n -> (String.length n <= room)%nat -> read_quoted room (n ++ String QUOTE s) = n.
Proof.
  revert n. induction room as [|room IH]; intros n Hn Hl; [by destruct n; [|cbn in Hl; lia]|]. destruct n as [|c n]; [done|].
  apply no_quote_cons in Hn as [Hc Hn]. cbn [String.append read_quoted String.length] in *.
  rewrite (proj2 (Ascii.eqb_neq _ _)) by done. rewrite IH by (done || lia). done.
Qed.

(** A printed measurement has at most 1034 characters. *)
Lemma length_app_str a b : String.length (a ++ b) = (String.length a + String.length b)%nat.
Proof. induction a; cbn; congruence. Qed.

Lemma length_dec_fixed k n a : String.length (dec_fixed k n a) = (k + String.length a)%nat.
Proof. revert n a. induction k as [|k IH]; intros n a; [done|]. cbn [dec_fixed]. rewrite IH. cbn. lia. Qed.

Lemma length_measure p x : measure_ok x -> (p <= 6)%nat -> (String.length (fmt_f p x) <= 1034)%nat.
Proof.
  intros Hx Hp. rewrite fmt_measure by done. destruct (decimal_bound p x Hx) as [H0 H1]. unfold point_text.
  pose proof (Z.pow_pos_nonneg 10 (Z.of_nat p) ltac:(lia) ltac:(lia)) as HP.
  assert (0 <= decimal p x / 10 ^ Z.of_nat p <= 2 ^ 1024) as [Ha Hb].
  { split; [apply Z.div_pos; lia|]. by apply Z.div_le_upper_bound. }
  destruct (dec_as_fixed _ Ha) as (k & Hk & -> & _). rewrite !length_app_str, !length_dec_fixed. cbn [String.length].
  pose proof (Z.log2_le_mono _ _ Hb) as Hl. rewrite Z.log2_pow2 in Hl by lia. lia.
Qed.

(** What a result must be for its file to be read back. *)
Definition savable (res : bench_result_t) : Prop :=
  no_quote (r_compressor res) /\ (String.length (r_compressor res) < 64)%nat /\
  measure_ok (r_compress_mbs res) /\ measure_ok (r_decompress_mbs res) /\ measure_ok (r_ratio res) /\
  0 <= p50_ns (r_compress res) < 2 ^ 53 /\ 0 <= p50_ns (r_decompress res) < 2 ^ 53.

Lemma text_length res : savable res -> 0 < Z.of_nat (String.length (baseline_text (baseline_wl_name (r_workload res)) res)) <= 65536.
Proof.
  intros (_ & Hn & H1 & H2 & H3 & H4 & H5). pose proof (length_measure 6 _ H1). pose proof (length_measure 6 _ H2).
  pose proof (length_measure 6 _ H3). pose proof (length_measure 1 _ (count_measure _ H4)). pose proof (length_measure 1 _ (count_measure _ H5)).
  unfold baseline_text, json_field, quoted, COMMA, NL. rewrite !length_app_str. cbn [String.length]. rewrite !length_app_str. cbn [String.length].
  assert (String.length (baseline_wl_name (r_workload res)) = 6%nat) as -> by (by destruct (r_workload res)). lia.
Qed.

(** The lines a search passes over. *)
Lemma measure_text_no_quote p x : measure_ok x -> no_quote (fmt_f p x).
Proof. intros Hx. rewrite fmt_measure by done. apply point_no_quote. by apply decimal_bound. Qed.

Lemma wl_name_no_quote wl : no_quote (baseline_wl_name wl).
Proof. destruct wl; by repeat constructor. Qed.

Ltac skip_fields :=
  unfold baseline_text; rewrite !pattern_skip by (by repeat constructor);
  repeat first
    [ rewrite field_skip by (first [done | by apply measure_text_no_quote | by repeat constructor])
    | rewrite field_skip_string by (first [done | apply wl_name_no_quote | by repeat constructor]) ].

Section Saved.
Context (res : bench_result_t) (Hres : savable res).
Let text : string := baseline_text (baseline_wl_name (r_workload res)) res.

Lemma read_string_field key v sep s n :
  no_quote key -> no_quote v -> (String.length v <= n - 1)%nat -> search_text key = pattern key ->
  strstr_after (pattern key) text = strstr_after (pattern key) (json_field key (quoted v) sep ++ s) ->
  json_read_string text key n = Some v.
Proof.
  intros Hk Hv Hl Hs Ht. unfold json_read_string. rewrite Hs, Ht, field_hit by done.
  cbn [mbind option_bind String.append quoted]. rewrite string_app_assoc. cbn [String.append].
  match goal with |- context [skip_blank ?f (String " " (String QUOTE ?x))] => change (skip_blank f _) with (String QUOTE x) end.
  cbv beta iota. change (Ascii.eqb QUOTE QUOTE) with true. cbv iota. by rewrite read_quoted_app.
Qed.

Lemma read_number_field key p x sep s :
  no_quote key -> measure_ok x -> ends_number (sep ++ s) -> search_text key = pattern key ->
  strstr_after (pattern key) text = strstr_after (pattern key) (json_field key (fmt_f p x) sep ++ s) ->
  json_read_double text key = Some (reread p x).
Proof.
  intros Hk Hx He Hs Ht. unfold json_read_double. rewrite Hs, Ht, field_hit by done. by apply read_measure.
Qed.

Lemma saved_strings : json_read_string text "compressor" 64 = Some (r_compressor res) /\
  json_read_string text "workload" 16 = Some (baseline_wl_name (r_workload res)).
Proof.
  destruct Hres as (Hq & Hl & _). split.
  - eapply read_string_field; [by repeat constructor|done|cbn; lia|reflexivity|]. unfold text. skip_fields. reflexivity.
  - eapply read_string_field; [by repeat constructor|apply wl_name_no_quote|by destruct (r_workload res); cbn; lia|reflexivity|].
    unfold text. skip_fields. reflexivity.
Qed.

Lemma saved_numbers :
  json_read_double text "compress_mbs" = Some (reread 6 (r_compress_mbs res)) /\
  json_read_double text "decompress_mbs" = Some (reread 6 (r_decompress_mbs res)) /\
  json_read_double text "ratio" = Some (reread 6 (r_ratio res)) /\
  json_read_double text "compress_p50_ns" = Some (reread 1 (f64_of_Z (p50_ns (r_compress res)))) /\
  json_read_double text "decompress_p50_ns" = Some (reread 1 (f64_of_Z (p50_ns (r_decompress res)))).
Proof.
  destruct Hres as (Hq & Hl & H1 & H2 & H3 & H4 & H5). apply count_measure in H4, H5.
  split_and!; (eapply read_number_field; [by repeat constructor|done| |reflexivity|unfold text; skip_fields; reflexivity]); by split.
Qed.
End Saved.

(** The disk takes the whole file. *)
Definition takes_all (disk : string -> option nat) (dir : string) (res : bench_result_t) : Prop :=
  exists room, disk (baseline_path dir res) = Some room /\
    (String.length (baseline_text (baseline_wl_name (r_workload res)) res) <= room)%nat.

Lemma substring_all n t : (String.length t <= n)%nat -> substring 0 n t = t.
Proof. revert n. induction t as [|c t IH]; intros [|n] H; cbn in *; try done; try lia. by rewrite IH by lia. Qed.

(** C37: a saved baseline is read back.  For a result whose name is shorter than
    64 characters and holds no quote, whose throughputs and ratio are finite and
    not negative and whose latencies are below 2^53 ([savable]), and a file that
    can be opened, is written completely ([takes_all]) and read completely: [bench_baseline_save]
    returns 0, and [bench_baseline_load] for the same directory, compressor and
    workload then returns 0 with the same names, the latencies exactly, and each
    throughput and the ratio as the double nearest to its value at six decimals. *)
Theorem baseline_save_load (disk : string -> option nat) (nread : nat) (dir : string) (res : bench_result_t) (fs : fs_t) :
  savable res -> takes_all disk dir res -> 65536 <= Z.of_nat nread ->
  exists fs', bench_baseline_save disk (Some dir) (Some res) fs = (0, fs') /\
  bench_baseline_load (Some nread) (Some dir) (Some (r_compressor res)) (Some (baseline_wl_name (r_workload res))) fs' =
    (0, Some (Baseline (r_compressor res) (baseline_wl_name (r_workload res)) (reread 6 (r_compress_mbs res)) (reread 6 (r_decompress_mbs res))
                (reread 6 (r_ratio res)) (f64_of_Z (p50_ns (r_compress res))) (f64_of_Z (p50_ns (r_decompress res))))).
Proof.
  intros Hres (room & Hd & Hroom) Hread. unfold bench_baseline_save. cbv zeta. rewrite Hd, substring_all by done. eexists. split; [reflexivity|].
  unfold bench_baseline_load, fs_write. fold (baseline_path dir res). rewrite String.eqb_refl. cbv zeta. pose proof (text_length res Hres) as Hl.
  rewrite (proj2 (Z.leb_gt _ _)), (proj2 (Z.ltb_ge _ _)) by lia. cbn [orb]. rewrite substring_all by lia.
  destruct (saved_strings res Hres) as [-> ->]. destruct (saved_numbers res Hres) as (-> & -> & -> & -> & ->). cbn [default].
  destruct Hres as (_ & _ & _ & _ & _ & H4 & H5). by rewrite !reread_count by done.
Qed.

Lemma baseline_save_load_witness :
  let res := Result "zlib-1" "level=1" BENCH_WL_001 64 2 42 (Stats 100 110 120 130 90 140 f64_one f64_zero 2) bstats_zero
               (f64_lit 1 3) 128 128 (f64_lit 5 2) f64_one f64_one f64_one in
  exists fs' b, bench_baseline_save (fun _ => Some 4096%nat) (Some "bench/baselines"%string) (Some res) (fun _ => None) = (0, fs') /\
    bench_baseline_load (Some (Z.to_nat 65536)) (Some "bench/baselines"%string) (Some "zlib-1"%string) (Some "WL-001"%string) fs' = (0, Some b) /\
    b_compress_p50_ns b = f64_of_Z 100 /\ b_compress_mbs b = f64_lit 5 2 /\ b_ratio b = f64_lit 333333 1000000.
Proof.
  cbv zeta. set (res := Result _ _ _ _ _ _ _ _ _ _ _ _ _ _ _).
  assert (savable res) as Hs.
  { unfold savable. cbn [r_compressor r_compress_mbs r_decompress_mbs r_ratio r_compress r_decompress p50_ns res String.length bstats_zero].
    split_and!; try lia; try (vm_compute; split_and!; congruence). by repeat constructor. }
  assert (takes_all (fun _ => Some 4096%nat) "bench/baselines" res) as Ht.
  { exists 4096%nat. split; [done|]. apply Nat.leb_le. vm_compute. reflexivity. }
  destruct (baseline_save_load (fun _ => Some 4096%nat) (Z.to_nat 65536) "bench/baselines" res (fun _ => None) Hs Ht ltac:(lia)) as (fs' & E & El).
  exists fs'. eexists. split; [exact E|]. split; [exact El|]. split_and!; vm_compute; reflexivity.
Defined.

(** A full disk is not noticed: the call still returns 0, whatever reached the
    file; if nothing did, the baseline cannot be loaded. *)
Lemma truncated_save_reports_success (mem : option nat) (dir : string) (res : bench_result_t) (fs : fs_t) :
  exists fs', bench_baseline_save (fun _ => Some 0%nat) (Some dir) (Some res) fs = (0, fs') /\
    bench_baseline_load mem (Some dir) (Some (r_compressor res)) (Some (baseline_wl_name (r_workload res))) fs' = (-1, None).
Proof.
  eexists. split; [reflexivity|]. unfold bench_baseline_load, fs_write. fold (baseline_path dir res). rewrite String.eqb_refl.
  by destruct (baseline_text _ _).
Qed.

(** The short name the main program looks a baseline up with is the one it was
    saved under. *)
Lemma short_name wl : wl <> BENCH_WL_ALL -> snprintf 8 (substring 0 6 (bench_workload_name wl)) = baseline_wl_name wl.
Proof. by destruct wl. Qed.
