(* ===== verification/BenchReport.v ===== *)
(** * The reporter

    src/bench/bench_reporter.c: results written as a table, as CSV or as JSON.
    The output stream is the text written so far; the date that [iso8601_now]
    reads from the system clock is a parameter. *)

From Stdlib Require Import String Ascii.
From stdpp Require Import prelude.
From Stdlib Require Import ZArith Lia SpecFloat.
From S2P Require Import Prelude Double CText Corpus BenchStats BenchRun BenchArgs.

Local Open Scope Z_scope.

(** ** State *)
Record bench_reporter_t : Type := Reporter {
  rp_fmt : bench_format_t;
  rp_out : string;
  rp_first_row : bool }.

(** [fprintf(r->fp, ...)] *)
Definition emit (r : bench_reporter_t) (s : string) : bench_reporter_t := Reporter (rp_fmt r) (rp_out r ++ s) (rp_first_row r).

(** Metrics left at 0.0 are computed from the others. *)
Definition fill_derived (r : bench_result_t) : bench_result_t :=
  let '(Result comp cfg wl pkt count seed c d ratio orig cmp cmbs cmpps dmbs dmpps) := r in
  let zero x := SFeqb x f64_zero in
  let cmbs := if zero cmbs && (0 <? pkt) then bench_stats_throughput_mbs pkt (mean_ns c) else cmbs in
  let cmpps := if zero cmpps then bench_stats_mpps (mean_ns c) else cmpps in
  let dmbs := if zero dmbs && (0 <? pkt) then bench_stats_throughput_mbs pkt (mean_ns d) else dmbs in
  let dmpps := if zero dmpps then bench_stats_mpps (mean_ns d) else dmpps in
  let ratio := if zero ratio && (0 <? orig) then bench_stats_ratio orig cmp else ratio in
  Result comp cfg wl pkt count seed c d ratio orig cmp cmbs cmpps dmbs dmpps.

(** [mem]: the reporter could be allocated. *)
Definition bench_reporter_open (mem : bool) (fmt : bench_format_t) : option bench_reporter_t :=
  if mem then Some (Reporter fmt EmptyString true) else None.

Section Output.
(** The text of [iso8601_now]. *)
Context (now_text : string).

Definition table_header : string :=
  (pad_right 12 "Compressor" ++ " " ++ pad_right 24 "Workload" ++ " " ++ pad_right 8 "Size" ++ " " ++
   pad_left 9 "c.p50ns" ++ " " ++ pad_left 9 "c.p99ns" ++ " " ++ pad_left 9 "d.p50ns" ++ " " ++ pad_left 9 "d.p99ns" ++ " " ++
   pad_left 9 "c.MB/s" ++ " " ++ pad_left 9 "d.MB/s" ++ " " ++ pad_left 8 "Ratio" ++ " " ++ pad_left 8 "Mpps-c" ++ NL ++
   "-------------------------------------------------------------" ++
   "------------------------------------------------------------------" ++ NL)%string.

Definition csv_header : string :=
  ("date,version,compressor,compressor_cfg,workload,packet_size,"
   ++ "count,seed,"
   ++ "compress_p50_ns,compress_p90_ns,compress_p99_ns,compress_p999_ns,"
   ++ "compress_mean_ns,compress_stddev_ns,compress_mbs,compress_mpps,"
   ++ "decompress_p50_ns,decompress_p90_ns,decompress_p99_ns,decompress_p999_ns,"
   ++ "decompress_mean_ns,decompress_stddev_ns,decompress_mbs,decompress_mpps,"
   ++ "ratio,original_bytes,compressed_bytes" ++ NL)%string.

Definition json_pair (key val : string) : string := (quoted key ++ ": " ++ val)%string.

Definition json_header (version cpu : option string) : string :=
  ("{" ++ NL ++
   "  " ++ json_pair "date" (quoted now_text) ++ "," ++ NL ++
   "  " ++ json_pair "version" (quoted (default "unknown" version)) ++ "," ++ NL ++
   "  " ++ quoted "system" ++ ": { " ++ json_pair "cpu" (quoted (default EmptyString cpu)) ++ " }," ++ NL ++
   "  " ++ quoted "results" ++ ": [" ++ NL)%string.

Definition bench_reporter_begin (r : option bench_reporter_t) (version cpu : option string) : option bench_reporter_t :=
  match r with
  | None => None
  | Some r => Some
      match rp_fmt r with
      | BENCH_FMT_TABLE => emit r table_header
      | BENCH_FMT_CSV => emit r csv_header
      | BENCH_FMT_JSON => let r := emit r (json_header version cpu) in Reporter (rp_fmt r) (rp_out r) true
      end
  end.

Definition json_footer : string := (NL ++ "  ]" ++ NL ++ "}" ++ NL)%string.

Definition bench_reporter_end (r : option bench_reporter_t) : option bench_reporter_t :=
  match r with
  | None => None
  | Some r => Some match rp_fmt r with BENCH_FMT_JSON => emit r json_footer | _ => r end
  end.

Definition table_row (res : bench_result_t) : string :=
  (pad_right 12 (r_compressor res) ++ " " ++ pad_right 24 (bench_workload_name (r_workload res)) ++ " " ++
   pad_left 8 (fmt_d (r_pkt_size res)) ++ " " ++
   pad_left 9 (fmt_d (p50_ns (r_compress res))) ++ " " ++ pad_left 9 (fmt_d (p99_ns (r_compress res))) ++ " " ++
   pad_left 9 (fmt_d (p50_ns (r_decompress res))) ++ " " ++ pad_left 9 (fmt_d (p99_ns (r_decompress res))) ++ " " ++
   pad_left 9 (fmt_f 1 (r_compress_mbs res)) ++ " " ++ pad_left 9 (fmt_f 1 (r_decompress_mbs res)) ++ " " ++
   pad_left 8 (fmt_f 4 (r_ratio res)) ++ " " ++ pad_left 8 (fmt_f 3 (r_compress_mpps res)) ++ NL)%string.

Definition csv_stats (st : bench_stats_t) (mbs mpps : spec_float) : list string :=
  [fmt_d (p50_ns st); fmt_d (p90_ns st); fmt_d (p99_ns st); fmt_d (p999_ns st);
   fmt_f 2 (mean_ns st); fmt_f 2 (stddev_ns st); fmt_f 2 mbs; fmt_f 4 mpps].

Definition csv_row (res : bench_result_t) : string :=
  (String.concat ","
    ([now_text; "unknown"; r_compressor res; r_compressor_cfg res; bench_workload_name (r_workload res);
      fmt_d (r_pkt_size res); fmt_d (r_count res); fmt_d (r_seed res)]
     ++ csv_stats (r_compress res) (r_compress_mbs res) (r_compress_mpps res)
     ++ csv_stats (r_decompress res) (r_decompress_mbs res) (r_decompress_mpps res)
     ++ [fmt_f 6 (r_ratio res); fmt_d (r_original_bytes res); fmt_d (r_compressed_bytes res)])%list
   ++ NL)%string.

Definition json_stats (name : string) (st : bench_stats_t) (mbs mpps : spec_float) : string :=
  ("      " ++ quoted name ++ ": {" ++ NL ++
   "        " ++ json_pair "p50_ns" (fmt_d (p50_ns st)) ++ ", " ++ json_pair "p90_ns" (fmt_d (p90_ns st)) ++ "," ++ NL ++
   "        " ++ json_pair "p99_ns" (fmt_d (p99_ns st)) ++ ", " ++ json_pair "p999_ns" (fmt_d (p999_ns st)) ++ "," ++ NL ++
   "        " ++ json_pair "mean_ns" (fmt_f 2 (mean_ns st)) ++ ", " ++ json_pair "stddev_ns" (fmt_f 2 (stddev_ns st)) ++ "," ++ NL ++
   "        " ++ json_pair "throughput_mbs" (fmt_f 1 mbs) ++ ", " ++ json_pair "mpps" (fmt_f 4 mpps) ++ NL ++
   "      }," ++ NL)%string.

Definition json_row (res : bench_result_t) : string :=
  ("    {" ++ NL ++
   "      " ++ json_pair "compressor" (quoted (r_compressor res)) ++ "," ++ NL ++
   "      " ++ json_pair "compressor_cfg" (quoted (r_compressor_cfg res)) ++ "," ++ NL ++
   "      " ++ json_pair "workload" (quoted (bench_workload_name (r_workload res))) ++ "," ++ NL ++
   "      " ++ json_pair "packet_size" (fmt_d (r_pkt_size res)) ++ "," ++ NL ++
   "      " ++ json_pair "count" (fmt_d (r_count res)) ++ "," ++ NL ++
   "      " ++ json_pair "seed" (fmt_d (r_seed res)) ++ "," ++ NL ++
   json_stats "compress" (r_compress res) (r_compress_mbs res) (r_compress_mpps res) ++
   json_stats "decompress" (r_decompress res) (r_decompress_mbs res) (r_decompress_mpps res) ++
   "      " ++ json_pair "ratio" (fmt_f 6 (r_ratio res)) ++ "," ++ NL ++
   "      " ++ json_pair "original_bytes" (fmt_d (r_original_bytes res)) ++ "," ++ NL ++
   "      " ++ json_pair "compressed_bytes" (fmt_d (r_compressed_bytes res)) ++ NL ++
   "    }")%string.

(** Writes one result, whose derived metrics are filled in. *)
Definition bench_reporter_write (r : option bench_reporter_t) (res : option bench_result_t) : option bench_reporter_t * option bench_result_t :=
  match r, res with
  | Some r, Some res =>
      let res := fill_derived res in
      let r := match rp_fmt r with
        | BENCH_FMT_TABLE => emit r (table_row res)
        | BENCH_FMT_CSV => emit r (csv_row res)
        | BENCH_FMT_JSON =>
            let r := if rp_first_row r then r else emit r ("," ++ NL) in
            emit (Reporter (rp_fmt r) (rp_out r) false) (json_row res)
        end in
      (Some r, Some res)
  | r, res => (r, res)
  end.

(** A whole report. *)
Definition report (fmt : bench_format_t) (version : string) (results : list bench_result_t) : option bench_reporter_t :=
  let r := bench_reporter_begin (bench_reporter_open true fmt) (Some version) (Some EmptyString) in
  bench_reporter_end (foldl (fun r res => (bench_reporter_write r (Some res)).1) r results).

(** ** What a report holds *)
Lemma string_app_nil_r s : (s ++ EmptyString)%string = s.
Proof. induction s as [|c s IH]; [done|]. cbn. by rewrite IH. Qed.

(** The rows after the first are preceded by the separator. *)
Definition row (fmt : bench_format_t) (res : bench_result_t) : string :=
  match fmt with BENCH_FMT_TABLE => table_row (fill_derived res) | BENCH_FMT_CSV => csv_row (fill_derived res) | BENCH_FMT_JSON => json_row (fill_derived res) end.
Definition separator (fmt : bench_format_t) : string := match fmt with BENCH_FMT_JSON => ("," ++ NL)%string | _ => EmptyString end.

Lemma write_rows fmt out first results :
  (fmt <> BENCH_FMT_JSON -> first = true) ->
  exists first', foldl (fun r res => (bench_reporter_write r (Some res)).1) (Some (Reporter fmt out first)) results =
    Some (Reporter fmt (out ++ (if (first || match results with [] => true | _ => false end) then EmptyString else separator fmt)
                            ++ String.concat (separator fmt) (map (row fmt) results)) first') /\ (fmt <> BENCH_FMT_JSON -> first' = true).
Proof.
  revert out first. induction results as [|res results IH]; intros out first Hf.
  { cbn [foldl map String.concat]. rewrite orb_true_r. exists first. by rewrite !string_app_nil_r. }
  cbn [foldl map]. set (first1 := match fmt with BENCH_FMT_JSON => false | _ => first end).
  set (out1 := (out ++ (if first then EmptyString else separator fmt) ++ row fmt res)%string).
  assert ((bench_reporter_write (Some (Reporter fmt out first)) (Some res)).1 = Some (Reporter fmt out1 first1)) as ->.
  { unfold bench_reporter_write, emit, out1, first1. destruct fmt; cbn [rp_fmt rp_out rp_first_row fst row separator];
      [by rewrite Hf by done|by rewrite Hf by done|]. destruct first; cbn [rp_fmt rp_out rp_first_row]; by rewrite ?string_app_assoc. }
  destruct (IH out1 first1) as (f' & -> & Hf'); [unfold first1; destruct fmt; [done|done|congruence]|]. exists f'. split; [|done]. do 2 f_equal.
  unfold out1. rewrite orb_false_r, !string_app_assoc. do 2 f_equal. destruct results as [|res2 results].
  - rewrite orb_true_r. cbn [map String.concat]. by rewrite !string_app_nil_r.
  - rewrite orb_false_r. change (String.concat (separator fmt) (row fmt res :: map (row fmt) (res2 :: results)))
      with (row fmt res ++ separator fmt ++ String.concat (separator fmt) (map (row fmt) (res2 :: results)))%string.
    f_equal. unfold first1. destruct fmt; [by rewrite Hf by done|by rewrite Hf by done|done].
Qed.

(** What [bench_reporter_begin] and [bench_reporter_end] write. *)
Definition header (fmt : bench_format_t) (version : string) : string :=
  match fmt with BENCH_FMT_TABLE => table_header | BENCH_FMT_CSV => csv_header | BENCH_FMT_JSON => json_header (Some version) (Some EmptyString) end.
Definition footer (fmt : bench_format_t) : string := match fmt with BENCH_FMT_JSON => json_footer | _ => EmptyString end.

Lemma begin_text fmt version :
  bench_reporter_begin (bench_reporter_open true fmt) (Some version) (Some EmptyString) = Some (Reporter fmt (header fmt version) true).
Proof. by destruct fmt. Qed.

Lemma report_text fmt version results :
  rp_out <$> report fmt version results =
    Some (header fmt version ++ String.concat (separator fmt) (map (row fmt) results) ++ footer fmt)%string.
Proof.
  unfold report. rewrite begin_text. destruct (write_rows fmt (header fmt version) true results) as (f' & -> & _); [done|].
  cbn [orb String.append bench_reporter_end rp_fmt]. destruct fmt; cbn [emit rp_out rp_fmt rp_first_row fmap option_fmap option_map footer];
    by rewrite ?string_app_nil_r, ?string_app_assoc.
Qed.
End Output.

(** ** Columns of the CSV format *)
Fixpoint commas (s : string) : Z := match s with EmptyString => 0 | String c s' => (if Ascii.eqb c "," then 1 else 0) + commas s' end.

Lemma commas_app a b : commas (a ++ b) = commas a + commas b.
Proof. induction a as [|c a IH]; cbn; [done|]. rewrite IH. lia. Qed.

Lemma commas_concat ls : Forall (fun s => commas s = 0) ls -> ls <> [] -> commas (String.concat "," ls) = zlen ls - 1.
Proof.
  induction ls as [|s ls IH]; [done|]. intros [Hs Hls]%Forall_cons _. destruct ls as [|s' ls]; [done|].
  change (String.concat "," (s :: s' :: ls)) with (s ++ "," ++ String.concat "," (s' :: ls))%string.
  rewrite !commas_app, IH, Hs by done. cbn [length commas]. change (Ascii.eqb "," ",") with true. cbn. lia.
Qed.

Lemma commas_dec_fixed k n a : commas (dec_fixed k n a) = commas a.
Proof.
  revert n a. induction k as [|k IH]; intros n a; [done|]. cbn [dec_fixed]. rewrite IH. cbn [commas].
  assert (is_digit (digit (n mod 10)) = true) as Hd by (apply digit_spec, Z.mod_pos_bound; lia).
  destruct (Ascii.eqb_spec (digit (n mod 10)) ","%char) as [E|]; [by rewrite E in Hd|done].
Qed.

Lemma commas_dec n : 0 <= n -> commas (dec n) = 0.
Proof. intros Hn. destruct (dec_as_fixed n Hn) as (k & _ & -> & _). apply commas_dec_fixed. Qed.

Lemma commas_fmt_d n : commas (fmt_d n) = 0.
Proof. unfold fmt_d. case_if; [rewrite commas_app, commas_dec by lia; done|apply commas_dec; lia]. Qed.

Lemma scale10_nonneg p m e : 0 <= scale10 p m e.
Proof.
  unfold scale10. cbv zeta. pose proof (Z.pow_pos_nonneg 10 (Z.of_nat p) ltac:(lia) ltac:(lia)). case_if.
  - pose proof (rne_bounds (Zpos m * 10 ^ Z.of_nat p) (- e) ltac:(lia) ltac:(lia)) as [Hb _].
    pose proof (Z.div_pos (Zpos m * 10 ^ Z.of_nat p) (2 ^ (- e)) ltac:(lia) (pow2_pos (- e) ltac:(lia))). lia.
  - pose proof (pow2_pos e ltac:(lia)). nia.
Qed.

Lemma commas_fmt_f p x : commas (fmt_f p x) = 0.
Proof.
  pose proof (Z.pow_pos_nonneg 10 (Z.of_nat p) ltac:(lia) ltac:(lia)).
  assert (forall n, 0 <= n -> commas (dec (n / 10 ^ Z.of_nat p) ++ "." ++ dec_fixed p (n mod 10 ^ Z.of_nat p) EmptyString) = 0) as Hn.
  { intros n Hn. rewrite !commas_app, commas_dec, commas_dec_fixed; [done|]. by apply Z.div_pos. }
  unfold fmt_f. destruct x as [[]|[]| |[] m e]; first [reflexivity | rewrite commas_app, Hn by (done || apply scale10_nonneg); done].
Qed.

Lemma commas_workload wl : commas (bench_workload_name wl) = 0.
Proof. by destruct wl. Qed.

Lemma csv_row_columns now_text res :
  commas now_text = 0 -> commas (r_compressor res) = 0 -> commas (r_compressor_cfg res) = 0 -> commas (csv_row now_text res) = 26.
Proof.
  intros H1 H2 H3. unfold csv_row, csv_stats. rewrite commas_app, commas_concat; [reflexivity| |done].
  repeat constructor; auto using commas_fmt_d, commas_fmt_f, commas_workload.
Qed.

Lemma fill_derived_names res : r_compressor (fill_derived res) = r_compressor res /\ r_compressor_cfg (fill_derived res) = r_compressor_cfg res.
Proof. by destruct res. Qed.

(** A report holds every result once, in order: its text is the header of
    the format, the row of each result (separated by a comma and a newline in
    JSON, by nothing otherwise) and the footer; in a CSV report the header and
    every row have 27 columns, as long as the names hold no comma. *)
Theorem report_complete (now_text version : string) (fmt : bench_format_t) (results : list bench_result_t) :
  commas now_text = 0 ->
  Forall (fun res => commas (r_compressor res) = 0 /\ commas (r_compressor_cfg res) = 0) results ->
  rp_out <$> report now_text fmt version results =
    Some (header now_text fmt version ++ String.concat (separator fmt) (map (row now_text fmt) results) ++ footer fmt)%string /\
  (fmt = BENCH_FMT_CSV ->
    commas (header now_text fmt version) = 26 /\ Forall (fun l => commas l = 26) (map (row now_text fmt) results)).
Proof.
  intros Hn Hr. split; [apply report_text|]. intros ->. split; [reflexivity|]. apply Forall_map. eapply Forall_impl; [exact Hr|].
  intros res [H1 H2]. destruct (fill_derived_names res) as [H3 H4]. cbn [row]. apply csv_row_columns; congruence.
Qed.

Lemma report_complete_witness :
  let res := Result "zlib-1" "level=1" BENCH_WL_001 64 2 42 bstats_zero bstats_zero f64_one 128 128 f64_one f64_one f64_one f64_one in
  exists text, rp_out <$> report "2026-01-01T00:00:00Z" BENCH_FMT_CSV "0.1.0" [res; res] = Some text /\ commas text = 3 * 26.
Proof.
  cbv zeta. set (res := Result _ _ _ _ _ _ _ _ _ _ _ _ _ _ _).
  destruct (report_complete "2026-01-01T00:00:00Z" "0.1.0" BENCH_FMT_CSV [res; res] eq_refl) as [E Hc].
  { by repeat constructor. }
  destruct (Hc eq_refl) as [H1 H2]. eexists. split; [exact E|]. apply Forall_cons in H2 as [H2 [H3 _]%Forall_cons].
  rewrite !commas_app, H1. cbn [map String.concat]. rewrite !commas_app. unfold separator, footer. cbn [commas].
  cbn [map] in *. lia.
Defined.
