(* ===== verification/BenchAdapters.v ===== *)
(** * Adapters of the reference compressors

    src/bench/bench_zlib.c, bench_lz4.c, bench_snappy.c, bench_huffman.c and
    bench_zstd.c: the vtables the generic loop runs.  The compression libraries
    are parameters; what their documentation promises is a class for each, under
    which the adapter meets the loop's interface [BcOk].  Every section models
    the build with its library; [bench_stub] is the build without. *)

From Stdlib Require Import String.
From stdpp Require Import prelude.
From Stdlib Require Import ZArith Lia SpecFloat.
From S2P Require Import Prelude Double CText Corpus Replay Train BenchStats Metering BenchRun.

Local Open Scope Z_scope.

(** A conversion to a 32-bit int. *)
Definition int_cast (x : Z) : Z := let y := x mod 2 ^ 32 in if y <? 2 ^ 31 then y else y - 2 ^ 32.

Lemma int_cast_small x : 0 <= x < 2 ^ 31 -> int_cast x = x.
Proof. intros Hx. unfold int_cast. cbv zeta. rewrite Z.mod_small by lia. by rewrite (proj2 (Z.ltb_lt _ _)) by lia. Qed.

(** An adapter without changing state that restores what it compressed. *)
Lemma stateless_ok {S} (c : bench_compressor_t S) (I : S -> Prop) (f : S -> list Z -> Z -> list Z) (g : S -> list Z -> Z -> list Z) :
  (forall s, I s -> call_reset c s = Ok s) ->
  (forall s m cap, bc_compress c s m cap = Ok (s, f s m cap)) -> (forall s m cap, bc_decompress c s m cap = Ok (s, g s m cap)) ->
  (forall s m cap, I s -> bytes m -> 0 < zlen m <= BENCH_CORPUS_MAX_PKT -> COMP_CAP <= cap <= SCRATCH_CAP -> zlen (f s m cap) <= cap /\
     (f s m cap <> [] -> g s (f s m cap) BENCH_CORPUS_MAX_PKT = m)) ->
  BcOk c I.
Proof.
  intros Hr Hc Hd Hrt. split.
  - intros s Hs. exists s. by rewrite Hr.
  - intros s m cap Hs Hb Hl _ Hcap. destruct (Hrt s m cap Hs Hb Hl Hcap) as [H1 H2]. exists s, (f s m cap). split; [apply Hc|]. split; [done|].
    destruct (f s m cap) as [|x out] eqn:E; [left; done|right]. split; [done|]. exists s. rewrite Hd, H2; done.
Qed.

(** ** zlib *)
Module Zlib.
Section Zlib.
(** [compress2] and [uncompress]: the output, or none when the return value is
    not Z_OK. *)
Context (compress2 : list Z -> Z -> Z -> option (list Z)) (uncompress : list Z -> Z -> option (list Z)).

Record zlib_adapter_t : Type := Adapter { level : Z; name_buf : string; cfg_buf : string }.

Definition zlib_reset (a : zlib_adapter_t) : outcome unit zlib_adapter_t := Ok a.
Definition zlib_compress (a : zlib_adapter_t) (src : list Z) (dst_cap : Z) : outcome unit (zlib_adapter_t * list Z) :=
  Ok (a, default [] (compress2 src dst_cap (level a))).
Definition zlib_decompress (a : zlib_adapter_t) (src : list Z) (dst_cap : Z) : outcome unit (zlib_adapter_t * list Z) :=
  Ok (a, default [] (uncompress src dst_cap)).
Definition zlib_destroy (a : zlib_adapter_t) : outcome unit unit := Ok tt.

Definition zlib_vtable : bench_compressor_t zlib_adapter_t :=
  Compressor name_buf (fun a => Some (cfg_buf a)) None (Some zlib_reset) zlib_compress zlib_decompress zlib_destroy.

(** [mem]: the adapter could be allocated. *)
Definition bench_zlib_create (mem : bool) (lvl : Z) : option zlib_adapter_t :=
  if mem then Some (Adapter lvl (snprintf 32 ("zlib-" ++ fmt_d lvl)) (snprintf 32 ("level=" ++ fmt_d lvl))) else None.

(** zlib's manual: [compress2] stays within the destination, and [uncompress]
    with room for the data restores it. *)
Class ZlibOk : Prop := {
  compress2_fits : forall m cap lvl out, compress2 m cap lvl = Some out -> zlen out <= cap;
  uncompress_compress2 : forall m cap lvl out cap', bytes m -> compress2 m cap lvl = Some out -> zlen m <= cap' -> uncompress out cap' = Some m }.

#[export] Instance zlib_ok : ZlibOk -> BcOk zlib_vtable (fun _ => True).
Proof.
  intros Hz. apply (stateless_ok zlib_vtable _ (fun a m cap => default [] (compress2 m cap (level a))) (fun _ m cap => default [] (uncompress m cap)));
    [done|done|done|]. intros a m cap _ Hb Hl Hc. destruct (compress2 m cap (level a)) as [out|] eqn:E; cbn [from_option id].
  - split; [by eapply compress2_fits|]. intros _. by rewrite (uncompress_compress2 _ _ _ _ BENCH_CORPUS_MAX_PKT Hb E) by lia.
  - unfold COMP_CAP, BENCH_CORPUS_MAX_PKT in Hc. cbn. split; [lia|done].
Qed.
#[export] Instance zlib_name : KeepsName zlib_vtable.
Proof. split; [by intros s s' [= <-]|by intros s m cap s' out [= <- _]..]. Qed.
End Zlib.
End Zlib.

(** ** LZ4 *)
Module Lz4.
Section Lz4.
(** The library's functions on ints; an output of none stands for a return value
    that is not positive. *)
Context (LZ4_compressBound : Z -> Z) (LZ4_compress_HC : list Z -> Z -> Z -> Z -> list Z) (LZ4_compress_default : list Z -> Z -> Z -> list Z)
  (LZ4_decompress_safe : list Z -> Z -> Z -> list Z) (LZ4HC_CLEVEL_MAX : Z).

Record lz4_adapter_t : Type := Adapter { hc : bool; name_buf : string; cfg_buf : string }.

Definition lz4_reset (a : lz4_adapter_t) : outcome unit lz4_adapter_t := Ok a.
Definition lz4_out (a : lz4_adapter_t) (src : list Z) (dst_cap : Z) : list Z :=
  let bound := LZ4_compressBound (int_cast (zlen src)) in
  if (bound <=? 0) || (dst_cap <? bound) then []
  else if hc a then LZ4_compress_HC src (int_cast (zlen src)) (int_cast dst_cap) LZ4HC_CLEVEL_MAX
  else LZ4_compress_default src (int_cast (zlen src)) (int_cast dst_cap).
Definition lz4_compress (a : lz4_adapter_t) (src : list Z) (dst_cap : Z) : outcome unit (lz4_adapter_t * list Z) :=
  Ok (a, lz4_out a src dst_cap).
Definition lz4_decompress (a : lz4_adapter_t) (src : list Z) (dst_cap : Z) : outcome unit (lz4_adapter_t * list Z) :=
  Ok (a, LZ4_decompress_safe src (int_cast (zlen src)) (int_cast dst_cap)).
Definition lz4_destroy (a : lz4_adapter_t) : outcome unit unit := Ok tt.

Definition lz4_vtable : bench_compressor_t lz4_adapter_t :=
  Compressor name_buf (fun a => Some (cfg_buf a)) None (Some lz4_reset) lz4_compress lz4_decompress lz4_destroy.

Definition bench_lz4_create (mem : bool) (hc : bool) : option lz4_adapter_t :=
  if negb mem then None
  else if hc then Some (Adapter true (snprintf 32 "lz4-hc") (snprintf 32 ("level=" ++ fmt_d LZ4HC_CLEVEL_MAX)))
  else Some (Adapter false (snprintf 32 "lz4-fast") (snprintf 32 "default")).

(** lz4.h: a compressor given at least the bound of room writes a block that fits
    and that [LZ4_decompress_safe] restores. *)
Class Lz4Ok : Prop := {
  lz4_fits : forall m cap lvl, LZ4_compressBound (zlen m) <= cap ->
    zlen (LZ4_compress_HC m (zlen m) cap lvl) <= cap /\ zlen (LZ4_compress_default m (zlen m) cap) <= cap;
  lz4_restores : forall m cap lvl cap' out, bytes m -> LZ4_compressBound (zlen m) <= cap -> zlen m <= cap' -> out <> [] ->
    out = LZ4_compress_HC m (zlen m) cap lvl \/ out = LZ4_compress_default m (zlen m) cap ->
    LZ4_decompress_safe out (zlen out) cap' = m }.

(** Buffers have int size. *)
Lemma lz4_out_ok a m cap :
  Lz4Ok -> bytes m -> 0 < zlen m <= BENCH_CORPUS_MAX_PKT -> COMP_CAP <= cap <= SCRATCH_CAP ->
  zlen (lz4_out a m cap) <= cap /\ (lz4_out a m cap <> [] ->
    LZ4_decompress_safe (lz4_out a m cap) (int_cast (zlen (lz4_out a m cap))) (int_cast BENCH_CORPUS_MAX_PKT) = m).
Proof.
  unfold BENCH_CORPUS_MAX_PKT, COMP_CAP, SCRATCH_CAP, BENCH_CORPUS_MAX_PKT. intros Hz Hb Hl Hc. unfold lz4_out. cbv zeta.
  rewrite !(int_cast_small (zlen m)), !(int_cast_small cap), (int_cast_small 512) by lia. case_if; [split; [cbn; lia|done]|].
  destruct (lz4_fits m cap LZ4HC_CLEVEL_MAX ltac:(lia)) as [F1 F2]. destruct (hc a).
  - split; [done|]. intros Hne. rewrite int_cast_small by lia. apply (lz4_restores m cap LZ4HC_CLEVEL_MAX); try done; [lia|by left].
  - split; [done|]. intros Hne. rewrite int_cast_small by lia. apply (lz4_restores m cap LZ4HC_CLEVEL_MAX); try done; [lia|by right].
Qed.

#[export] Instance lz4_ok : Lz4Ok -> BcOk lz4_vtable (fun _ => True).
Proof.
  intros Hz. apply (stateless_ok lz4_vtable _ lz4_out (fun _ m cap => LZ4_decompress_safe m (int_cast (zlen m)) (int_cast cap))); [done|done|done|].
  intros a m cap _ Hb Hl Hc. by apply lz4_out_ok.
Qed.
#[export] Instance lz4_name : KeepsName lz4_vtable.
Proof. split; [by intros s s' [= <-]|by intros s m cap s' out [= <- _]..]. Qed.
End Lz4.
End Lz4.

(** ** Snappy *)
Module Snappy.
Section Snappy.
(** The output, or none when the status is not SNAPPY_OK. *)
Context (snappy_compress : list Z -> Z -> option (list Z)) (snappy_uncompress : list Z -> Z -> option (list Z)).

(** The adapter has no state of its own. *)
Definition snappy_train (s : unit) (wl : bench_workload_t) (seed n : Z) (st : corpus_statics) : outcome unit (Z * unit * corpus_statics) := Ok (0, s, st).
Definition snappy_reset (s : unit) : outcome unit unit := Ok s.
Definition snappy_compress_fn (s : unit) (src : list Z) (dst_cap : Z) : outcome unit (unit * list Z) :=
  Ok (s, default [] (snappy_compress src dst_cap)).
Definition snappy_decompress_fn (s : unit) (src : list Z) (dst_cap : Z) : outcome unit (unit * list Z) :=
  Ok (s, default [] (snappy_uncompress src dst_cap)).
Definition snappy_destroy (s : unit) : outcome unit unit := Ok tt.

Definition snappy_vtable : bench_compressor_t unit :=
  Compressor (fun _ => "snappy"%string) (fun _ => Some "snappy default"%string) (Some snappy_train) (Some snappy_reset)
    snappy_compress_fn snappy_decompress_fn snappy_destroy.
Definition bench_snappy_create (mem : bool) : option unit := if mem then Some tt else None.

(** snappy-c.h: the output fits, and uncompressing restores the input. *)
Class SnappyOk : Prop := {
  snappy_fits : forall m cap out, snappy_compress m cap = Some out -> zlen out <= cap;
  snappy_restores : forall m cap out cap', bytes m -> snappy_compress m cap = Some out -> zlen m <= cap' -> snappy_uncompress out cap' = Some m }.

#[export] Instance snappy_ok : SnappyOk -> BcOk snappy_vtable (fun _ => True).
Proof.
  intros Hz. apply (stateless_ok snappy_vtable _ (fun _ m cap => default [] (snappy_compress m cap)) (fun _ m cap => default [] (snappy_uncompress m cap)));
    [done|done|done|]. intros s m cap _ Hb Hl Hc. destruct (snappy_compress m cap) as [out|] eqn:E; cbn [from_option id].
  - split; [by eapply snappy_fits|]. intros _. by rewrite (snappy_restores _ _ _ BENCH_CORPUS_MAX_PKT Hb E) by lia.
  - unfold COMP_CAP, BENCH_CORPUS_MAX_PKT in Hc. cbn. split; [lia|done].
Qed.
#[export] Instance snappy_name : KeepsName snappy_vtable.
Proof. split; [by intros s s' [= <-]|by intros s m cap s' out [= <- _]..]. Qed.
End Snappy.
End Snappy.

(** ** Static Huffman, through zlib *)
Module Huffman.
Section Huffman.
(** [deflateInit2] with Z_HUFFMAN_ONLY succeeds or not; [deflate] with Z_FINISH
    gives its return value and what it wrote. *)
Context (deflateInit2 : bool) (deflate : list Z -> Z -> Z * list Z) (uncompress : list Z -> Z -> option (list Z)).

Definition Z_STREAM_END : Z := 1.

Definition huf_train (s : unit) (wl : bench_workload_t) (seed n : Z) (st : corpus_statics) : outcome unit (Z * unit * corpus_statics) := Ok (0, s, st).
Definition huf_reset (s : unit) : outcome unit unit := Ok s.
(** The sizes are converted to [uInt]. *)
Definition huf_out (src : list Z) (dst_cap : Z) : list Z :=
  if negb deflateInit2 then [] else
  let '(rc, out) := deflate (take (Z.to_nat (u32 (zlen src))) src) (u32 dst_cap) in
  if rc =? Z_STREAM_END then out else [].
Definition huf_compress_fn (s : unit) (src : list Z) (dst_cap : Z) : outcome unit (unit * list Z) := Ok (s, huf_out src dst_cap).
Definition huf_decompress_fn (s : unit) (src : list Z) (dst_cap : Z) : outcome unit (unit * list Z) :=
  Ok (s, default [] (uncompress src dst_cap)).
Definition huf_destroy (s : unit) : outcome unit unit := Ok tt.

Definition huf_vtable : bench_compressor_t unit :=
  Compressor (fun _ => "huffman-static"%string) (fun _ => Some "zlib Z_HUFFMAN_ONLY"%string) (Some huf_train) (Some huf_reset)
    huf_compress_fn huf_decompress_fn huf_destroy.
Definition bench_huffman_create (mem : bool) : option unit := if mem then Some tt else None.

(** zlib's manual: a finished stream fits and is what [uncompress] reads. *)
Class DeflateOk : Prop := {
  deflate_fits : forall m cap rc out, 0 <= cap -> deflate m cap = (rc, out) -> zlen out <= cap;
  deflate_restores : forall m cap out cap', bytes m -> deflate m cap = (Z_STREAM_END, out) -> zlen m <= cap' -> uncompress out cap' = Some m }.

#[export] Instance huf_ok : DeflateOk -> BcOk huf_vtable (fun _ => True).
Proof.
  intros Hz. apply (stateless_ok huf_vtable _ (fun _ => huf_out) (fun _ m cap => default [] (uncompress m cap))); [done|done|done|].
  unfold SCRATCH_CAP, COMP_CAP, BENCH_CORPUS_MAX_PKT. intros s m cap _ Hb Hl Hc. unfold huf_out.
  assert (forall x, 0 <= x <= 4096 -> u32 x = x) as Hu by (intros x Hx; apply Z.mod_small; lia). rewrite !Hu by lia.
  rewrite take_ge by lia. destruct deflateInit2; cbn [negb]; [|split; [cbn; lia|done]].
  destruct (deflate m cap) as [rc out] eqn:E. destruct (Z.eqb_spec rc Z_STREAM_END) as [->|]; [|split; [cbn; lia|done]].
  split; [eapply deflate_fits; [lia|exact E]|]. intros _. by rewrite (deflate_restores _ _ _ 512 Hb E) by lia.
Qed.
#[export] Instance huf_name : KeepsName huf_vtable.
Proof. split; [by intros s s' [= <-]|by intros s m cap s' out [= <- _]..]. Qed.
End Huffman.
End Huffman.

(** ** Zstandard *)
Module Zstd.
Section Zstd.
(** The library's contexts and dictionaries; an output of none stands for a
    return value that [ZSTD_isError] recognises. *)
Context {CCtx DCtx CDict DDict : Type}
  (ZSTD_compressCCtx : CCtx -> list Z -> Z -> Z -> CCtx * option (list Z))
  (ZSTD_compress_usingCDict : CCtx -> list Z -> Z -> CDict -> CCtx * option (list Z))
  (ZSTD_decompressDCtx : DCtx -> list Z -> Z -> DCtx * option (list Z))
  (ZSTD_decompress_usingDDict : DCtx -> list Z -> Z -> DDict -> DCtx * option (list Z))
  (ZDICT_trainFromBuffer : Z -> list Z -> list Z -> Z -> option (list Z))
  (ZSTD_createCDict : list Z -> Z -> option CDict) (ZSTD_createDDict : list Z -> option DDict)
  (c_exp : spec_float -> spec_float).

Record zstd_adapter_t : Type := Adapter {
  level : Z;
  use_dict : bool;
  name_buf : string;
  cfg_buf : string;
  cctx : CCtx;
  dctx : DCtx;
  cdict : option CDict;
  ddict : option DDict;
  dict_buf : option (list Z);
  dict_size : Z }.

Definition set_ctx (a : zstd_adapter_t) (c : CCtx) (d : DCtx) : zstd_adapter_t :=
  Adapter (level a) (use_dict a) (name_buf a) (cfg_buf a) c d (cdict a) (ddict a) (dict_buf a) (dict_size a).
Definition set_use_dict (a : zstd_adapter_t) (u : bool) : zstd_adapter_t :=
  Adapter (level a) u (name_buf a) (cfg_buf a) (cctx a) (dctx a) (cdict a) (ddict a) (dict_buf a) (dict_size a).

Definition zstd_reset (a : zstd_adapter_t) : outcome unit zstd_adapter_t := Ok a.

(** One sample: [buf] holds the [total] bytes copied so far, [sizes] the sizes
    written to an array with room for [sizes_cap] of them. *)
Definition sample_step (buf_cap sizes_cap : Z) (x : (bench_corpus_t * corpus_statics) * list Z * list Z) (i : Z)
  : outcome unit ((bench_corpus_t * corpus_statics) * list Z * list Z) :=
  let '(w, buf, sizes) := x in
  '(pkt, w) ← next_packet c_exp w;
  if sizes_cap <=? i then Undef else
  if (zlen pkt =? 0) || (buf_cap <? u64 (zlen buf + zlen pkt)) then Ok (w, buf, sizes ++ [0])
  else Ok (w, buf ++ pkt, sizes ++ [zlen pkt]).

(** [mem]: the three buffers that are allocated. *)
Definition zstd_train (mem : nat -> bool) (a : zstd_adapter_t) (wl : bench_workload_t) (seed n : Z) (st : corpus_statics)
  : outcome unit (Z * zstd_adapter_t * corpus_statics) :=
  if negb (use_dict a) then Ok (0, a, st) else
  let buf_cap := u64 (n * BENCH_CORPUS_MAX_PKT) in
  if negb (mem 0%nat && mem 1%nat) then Ok (-1, a, st) else
  '(w, sample_buf, sample_sizes) ← foldM (sample_step buf_cap (u64 (n * 8) / 8)) (bench_corpus_init wl seed, st, [], []) (seqZ 0 n);
  let st := snd w in
  if negb (mem 2%nat) then Ok (-1, a, st) else
  match ZDICT_trainFromBuffer (112 * 1024) sample_buf sample_sizes (u32 n) with
  | None => Ok (0, set_use_dict a false, st)
  | Some dict =>
      let cd := ZSTD_createCDict dict (level a) in
      let dd := ZSTD_createDDict dict in
      let ok := match cd, dd with Some _, Some _ => true | _, _ => false end in
      let name := snprintf 48 ("zstd-" ++ fmt_d (level a) ++ "-dict") in
      let cfg := snprintf 48 ("level=" ++ fmt_d (level a) ++ "+dict(" ++ fmt_d (zlen dict) ++ " B)") in
      Ok (0, (if ok then Adapter (level a) (use_dict a) name cfg (cctx a) (dctx a) cd dd (Some dict) (zlen dict)
              else Adapter (level a) false name cfg (cctx a) (dctx a) None None None (zlen dict)), st)
  end.

Definition zstd_compress (a : zstd_adapter_t) (src : list Z) (dst_cap : Z) : outcome unit (zstd_adapter_t * list Z) :=
  let '(c, out) := match cdict a with
    | Some cd => ZSTD_compress_usingCDict (cctx a) src dst_cap cd
    | None => ZSTD_compressCCtx (cctx a) src dst_cap (level a)
    end in
  Ok (set_ctx a c (dctx a), default [] out).

Definition zstd_decompress (a : zstd_adapter_t) (src : list Z) (dst_cap : Z) : outcome unit (zstd_adapter_t * list Z) :=
  let '(d, out) := match ddict a with
    | Some dd => ZSTD_decompress_usingDDict (dctx a) src dst_cap dd
    | None => ZSTD_decompressDCtx (dctx a) src dst_cap
    end in
  Ok (set_ctx a (cctx a) d, default [] out).

Definition zstd_destroy (a : zstd_adapter_t) : outcome unit unit := Ok tt.

(** The vtable of an adapter created with [dict] has a train entry only if it is
    to use a dictionary. *)
Definition zstd_vtable (mem : nat -> bool) (dict : bool) : bench_compressor_t zstd_adapter_t :=
  Compressor name_buf (fun a => Some (cfg_buf a)) (if dict then Some (zstd_train mem) else None) (Some zstd_reset)
    zstd_compress zstd_decompress zstd_destroy.

(** [c], [d]: what ZSTD_createCCtx and ZSTD_createDCtx return. *)
Definition bench_zstd_create (mem : bool) (c : option CCtx) (d : option DCtx) (lvl : Z) (use_dict : bool) : option zstd_adapter_t :=
  if negb mem then None else
  match c, d with
  | Some c, Some d =>
      Some (Adapter lvl use_dict
              (snprintf 48 (if use_dict then "zstd-" ++ fmt_d lvl ++ "-dict" else "zstd-" ++ fmt_d lvl))
              (snprintf 48 (if use_dict then "level=" ++ fmt_d lvl ++ "+dict(pending)" else "level=" ++ fmt_d lvl))
              c d None None None 0)
  | _, _ => None
  end.

(** zstd.h: a frame fits the destination, and any decompression context restores
    it, with the dictionary it was made with. *)
Class ZstdOk : Prop := {
  zstd_fits : forall c m cap lvl c' out, ZSTD_compressCCtx c m cap lvl = (c', Some out) -> zlen out <= cap;
  zstd_dict_fits : forall c m cap cd c' out, ZSTD_compress_usingCDict c m cap cd = (c', Some out) -> zlen out <= cap;
  zstd_restores : forall c d m cap lvl c' out cap', bytes m -> ZSTD_compressCCtx c m cap lvl = (c', Some out) -> zlen m <= cap' ->
    exists d', ZSTD_decompressDCtx d out cap' = (d', Some m);
  zstd_dict_restores : forall c d m cap dict lvl cd dd c' out cap', bytes m -> ZSTD_createCDict dict lvl = Some cd ->
    ZSTD_createDDict dict = Some dd -> ZSTD_compress_usingCDict c m cap cd = (c', Some out) -> zlen m <= cap' ->
    exists d', ZSTD_decompress_usingDDict d out cap' dd = (d', Some m) }.

(** The two dictionaries are both absent or made from the same data. *)
Definition paired (a : zstd_adapter_t) : Prop :=
  cdict a = None /\ ddict a = None \/
  exists dict lvl cd dd, cdict a = Some cd /\ ddict a = Some dd /\ ZSTD_createCDict dict lvl = Some cd /\ ZSTD_createDDict dict = Some dd.

#[export] Instance zstd_ok mem dict : ZstdOk -> BcOk (zstd_vtable mem dict) paired.
Proof.
  intros Hz. split; [intros a Ha; by exists a|]. intros a m cap Ha Hb Hl _ Hc.
  assert (0 <= cap) as Hcap by (unfold COMP_CAP, BENCH_CORPUS_MAX_PKT in Hc; lia).
  cbn [bc_compress bc_decompress zstd_vtable]. unfold zstd_compress.
  destruct Ha as [[Hc1 Hd1]|(dt & lvl & cd & dd & Hc1 & Hd1 & Hcd & Hdd)]; rewrite Hc1.
  - destruct (ZSTD_compressCCtx (cctx a) m cap (level a)) as [c' [out|]] eqn:E; cbn [from_option id]; eexists _, _; (split; [reflexivity|]).
    2: { split; [cbn; lia|]. left. split; [done|]. by left. }
    split; [by eapply zstd_fits|]. destruct out as [|x out]; [left; split; [done|by left]|]. right. split; [done|].
    unfold zstd_decompress. cbn [ddict dctx set_ctx]. rewrite Hd1.
    destruct (zstd_restores _ (dctx a) _ _ _ _ _ BENCH_CORPUS_MAX_PKT Hb E ltac:(lia)) as [d' ->]. eexists. split; [reflexivity|]. by left.
  - destruct (ZSTD_compress_usingCDict (cctx a) m cap cd) as [c' [out|]] eqn:E; cbn [from_option id]; eexists _, _; (split; [reflexivity|]).
    2: { split; [cbn; lia|]. left. split; [done|]. right. by exists dt, lvl, cd, dd. }
    split; [by eapply zstd_dict_fits|]. destruct out as [|x out]; [left; split; [done|]; right; by exists dt, lvl, cd, dd|]. right. split; [done|].
    unfold zstd_decompress. cbn [ddict dctx set_ctx]. rewrite Hd1.
    destruct (zstd_dict_restores _ (dctx a) _ _ _ _ _ _ _ _ BENCH_CORPUS_MAX_PKT Hb Hcd Hdd E ltac:(lia)) as [d' ->].
    eexists. split; [reflexivity|]. right. by exists dt, lvl, cd, dd.
Qed.

(** Training never runs out of the sample buffers and leaves the pair intact. *)
Lemma zstd_train_ok mem a wl seed n st :
  ExpOk c_exp -> wl <> BENCH_WL_ALL -> zlen (base_ctrs st) = 32 -> 0 <= n < 2 ^ 31 -> paired a ->
  exists rc a' st', zstd_train mem a wl seed n st = Ok (rc, a', st') /\ paired a' /\ zlen (base_ctrs st') = 32.
Proof.
  intros He Hwl Hst Hn Ha. unfold zstd_train. destruct (use_dict a); cbn [negb]; [|by exists 0, a, st].
  destruct (mem 0%nat && mem 1%nat); cbn [negb]; [|by exists (-1), a, st].
  assert (u64 (n * 8) / 8 = n) as ->. { unfold u64. rewrite Z.mod_small by lia. apply Z.div_mul. lia. }
  destruct (foldM_seqZ (fun k x => corpus_at wl k x.1.1) 0 n (sample_step (u64 (n * BENCH_CORPUS_MAX_PKT)) n)
    (bench_corpus_init wl seed, st, [], [])) as ([[w buf] sizes] & E & Hw); [lia|by apply corpus_at_init| |].
  { intros k [[w buf] sizes] Hk Hw. cbn [fst] in Hw. unfold sample_step.
    destruct (next_packet_ok c_exp wl Hwl k w Hw ltac:(lia)) as (pkt & w' & -> & Hw' & _). mstep. if_false.
    destruct (_ || _); eexists; (split; [reflexivity|done]). }
  rewrite E. mstep. destruct Hw as ((_ & _ & Hct) & _). cbn [fst snd] in Hct.
  destruct (mem 2%nat); cbn [negb]; [|by exists (-1), a, (snd w)].
  destruct (ZDICT_trainFromBuffer _ buf sizes _) as [dict|]; [|by exists 0, (set_use_dict a false), (snd w)].
  eexists _, _, (snd w). split; [reflexivity|]. split; [|done].
  destruct (ZSTD_createCDict dict (level a)) as [cd|] eqn:Hcd, (ZSTD_createDDict dict) as [dd|] eqn:Hdd; try by left.
  right. by exists dict, (level a), cd, dd.
Qed.

#[export] Instance zstd_name mem dict : KeepsName (zstd_vtable mem dict).
Proof.
  split.
  - by intros s s' [= <-].
  - intros s m cap s' out H. cbn [bc_compress bc_name zstd_vtable] in *. unfold zstd_compress in H.
    repeat case_match; injection H as H _; by rewrite <- H.
  - intros s m cap s' out H. cbn [bc_decompress bc_name zstd_vtable] in *. unfold zstd_decompress in H.
    repeat case_match; injection H as H _; by rewrite <- H.
Qed.

(** Training leaves the name as it is. *)
Lemma zstd_train_name mem a wl seed n st rc a' st' :
  name_buf a = snprintf 48 ("zstd-" ++ fmt_d (level a) ++ "-dict") -> zstd_train mem a wl seed n st = Ok (rc, a', st') -> name_buf a' = name_buf a.
Proof.
  intros Hn H. unfold zstd_train in H. repeat (case_if_in H; [by injection H as _ <- _|]).
  apply bind_Ok in H as ([[w buf] sizes] & _ & H). case_if_in H; [by injection H as _ <- _|].
  destruct (ZDICT_trainFromBuffer _ _ _ _) as [dict|]; [|by injection H as _ <- _]. injection H as _ H _.
  rewrite Hn, <- H. by destruct (ZSTD_createCDict dict (level a)), (ZSTD_createDDict dict).
Qed.

(** The benchmark of Zstandard with a trained dictionary: for every workload,
    seed and clock, with training and iteration counts below 2^31, an adapter
    from [bench_zstd_create] is trained without running out of its sample buffers
    - whether or not the library then yields a dictionary - and
    [bench_run_generic] returns 0: every packet it measured was restored. *)
Theorem zstd_benchmark_passes (now : nat -> Z) (mem : nat -> bool) (c : CCtx) (d : DCtx) (lvl : Z) (wl : bench_workload_t)
    (cfg : bench_generic_cfg_t) (train_count : Z) (st : corpus_statics) :
  ZstdOk -> ExpOk c_exp -> wl <> BENCH_WL_ALL -> zlen (base_ctrs st) = 32 -> 0 <= train_count < 2 ^ 31 ->
  0 <= g_warmup cfg < 2 ^ 31 -> 0 < g_count cfg < 2 ^ 31 ->
  exists a rc a1 st1 res a2 st2, bench_zstd_create true (Some c) (Some d) lvl true = Some a /\
    zstd_train mem a wl (g_seed cfg) train_count st = Ok (rc, a1, st1) /\
    bench_run_generic c_exp now (zstd_vtable mem true) (fun _ => true) cfg wl a1 st1 = Ok (0, Some res, a2, st2) /\
    r_count res = g_count cfg.
Proof.
  intros Hz He Hwl Hst Hn Hwu Hc. eexists. cbn [bench_zstd_create negb].
  match goal with |- context [Some ?x = Some _] => set (a := x) end.
  destruct (zstd_train_ok mem a wl (g_seed cfg) train_count st He Hwl Hst Hn) as (rc & a1 & st1 & Ht & Hp & Hs1); [by left|].
  destruct (run_generic_verified c_exp now _ (zstd_vtable mem true) paired cfg wl a1 st1 He (zstd_ok mem true Hz) Hp Hwl Hs1 Hwu Hc)
    as (res & a2 & st2 & pkts & outs & Hr & _ & _ & _ & _ & Hcount & _).
  exists rc, a1, st1, res, a2, st2. split; [reflexivity|]. exact (conj Ht (conj Hr Hcount)).
Qed.
End Zstd.
End Zstd.

(** A library that stores: the promise can be kept. *)
Lemma stored_zstd_ok : Zstd.ZstdOk (CCtx := unit) (DCtx := unit) (CDict := unit) (DDict := unit)
  (fun c m cap _ => (c, if zlen m <=? cap then Some m else None)) (fun c m cap _ => (c, if zlen m <=? cap then Some m else None))
  (fun d m cap => (d, if zlen m <=? cap then Some m else None)) (fun d m cap _ => (d, if zlen m <=? cap then Some m else None))
  (fun _ _ => Some tt) (fun _ => Some tt).
Proof.
  split.
  - intros c m cap lvl c' out [= <- E]. case_if_in E; [|done]. by injection E as <-.
  - intros c m cap cd c' out [= <- E]. case_if_in E; [|done]. by injection E as <-.
  - intros c d m cap lvl c' out cap' _ [= <- E] Hl. case_if_in E; [|done]. injection E as <-. exists d. by rewrite (proj2 (Z.leb_le _ _)).
  - intros c d m cap dict lvl cd dd c' out cap' _ _ _ [= <- E] Hl. case_if_in E; [|done]. injection E as <-. exists d. by rewrite (proj2 (Z.leb_le _ _)).
Qed.

Lemma zstd_benchmark_passes_witness :
  let store := fun (c : unit) (m : list Z) (cap : Z) => (c, if zlen m <=? cap then Some m else None) in
  exists a rc a1 st1 res a2 st2,
    Zstd.bench_zstd_create (CDict := unit) (DDict := unit) true (Some tt) (Some tt) 1 true = Some a /\
    Zstd.zstd_train (fun _ _ _ _ => Some [1; 2; 3]) (fun _ _ => Some tt) (fun _ => Some tt) (fun _ => f64_of_Z 20)
      (fun _ => true) a BENCH_WL_004 42 3 statics0 = Ok (rc, a1, st1) /\
    bench_run_generic (fun _ => f64_of_Z 20) (fun k => Z.of_nat k)
      (Zstd.zstd_vtable (fun c m cap _ => store c m cap) (fun c m cap _ => store c m cap) store (fun d m cap _ => store d m cap)
         (fun _ _ _ _ => Some [1; 2; 3]) (fun _ _ => Some tt) (fun _ => Some tt) (fun _ => f64_of_Z 20) (fun _ => true) true)
      (fun _ => true) (RunCfg 1 2 42) BENCH_WL_004 a1 st1 = Ok (0, Some res, a2, st2) /\ r_count res = 2.
Proof.
  cbv zeta.
  apply (Zstd.zstd_benchmark_passes (fun c m cap _ => (c, if zlen m <=? cap then Some m else None))
    (fun c m cap _ => (c, if zlen m <=? cap then Some m else None)) (fun d m cap => (d, if zlen m <=? cap then Some m else None))
    (fun d m cap _ => (d, if zlen m <=? cap then Some m else None)) (fun _ _ _ _ => Some [1; 2; 3]) (fun _ _ => Some tt) (fun _ => Some tt)
    (fun _ => f64_of_Z 20) (fun k => Z.of_nat k) (fun _ => true) tt tt 1 BENCH_WL_004 (RunCfg 1 2 42) 3 statics0 stored_zstd_ok);
    [apply exp_const_ok|discriminate|reflexivity|lia|cbn; lia|cbn; lia].
Defined.
