(* ===== verification/BenchOodle.v ===== *)
(** * The Oodle adapter

    src/bench/bench_oodle.c, the build with the SDK: training of the shared
    window and of the coder states, the packets with their length header, the
    snapshot that [reset] restores, and the lifetime of the window.  The SDK is a
    parameter; the class [OodleOk] states what its manual promises. *)

From Stdlib Require Import String.
From stdpp Require Import prelude.
From Stdlib Require Import ZArith Lia SpecFloat.
From S2P Require Import Prelude Double Corpus Replay Train BenchStats Metering BenchRun.

Local Open Scope Z_scope.

Inductive oodle_mode_t : Type := OODLE_UDP | OODLE_TCP.
(** A pointer to memory the adapter owns. *)
Inductive owned : Type := Null | Live | Freed.

Definition OODLE_HDR_SIZE : Z := 4.

Section Oodle.
(** The SDK's states.  [UDP_Encode] and [TCP_Encode] give the bytes written, none
    for a return value that is not positive; a decoder that fails gives none. *)
Context {Shared UDP TCP : Type}
  (Shared_SetWindow : Z -> list Z -> Shared)
  (UDP_Train : Shared -> list (list Z) -> UDP)
  (UDP_Encode : UDP -> Shared -> list Z -> list Z)
  (UDP_Decode : UDP -> Shared -> list Z -> Z -> option (list Z))
  (TCP_Train : Shared -> list (list Z) -> TCP)
  (TCP_Encode : TCP -> Shared -> list Z -> TCP * list Z)
  (TCP_Decode : TCP -> Shared -> list Z -> Z -> TCP * option (list Z))
  (c_exp : spec_float -> spec_float).

(** A state block that may be missing or allocated but not yet filled. *)
Inductive block (A : Type) : Type := Missing | Unfilled | Filled (x : A).
Arguments Missing {A}.
Arguments Unfilled {A}.
Arguments Filled {A}.

Record oodle_state_t : Type := Oodle {
  mode : oodle_mode_t;
  htbits : Z;
  shared : option Shared;
  window : owned;
  window_size : Z;
  udp_state : option UDP;
  tcp_enc : block TCP;
  tcp_dec : block TCP;
  tcp_trained : block TCP }.

Definition set_shared (s : oodle_state_t) (sh : option Shared) (w : owned) (size : Z) : oodle_state_t :=
  Oodle (mode s) (htbits s) sh w size (udp_state s) (tcp_enc s) (tcp_dec s) (tcp_trained s).
Definition set_udp (s : oodle_state_t) (u : option UDP) : oodle_state_t :=
  Oodle (mode s) (htbits s) (shared s) (window s) (window_size s) u (tcp_enc s) (tcp_dec s) (tcp_trained s).
Definition set_tcp (s : oodle_state_t) (e d t : block TCP) : oodle_state_t :=
  Oodle (mode s) (htbits s) (shared s) (window s) (window_size s) (udp_state s) e d t.

(** One packet appended to the window: the bytes at [ptr] of the window corpus,
    as many as [len] says, into a buffer of [cap] bytes.  The size is a signed
    32-bit number. *)
Definition window_step (cap : Z) (window_buf : list Z) (acc : list Z) (p : Z * Z) : outcome unit (list Z) :=
  let '(ptr, len) := p in
  pkt ← peek window_buf ptr len;
  if cap <? zlen acc + len then Undef else
  if 2 ^ 31 <=? zlen acc + len then Undef else
  Ok (acc ++ pkt).

(** [mem]: the allocations in order; [window_buf], [train_buf]: the bytes of the
    two corpus buffers.  The old states of an adapter trained before are lost,
    not freed. *)
Definition oodle_train (mem : nat -> bool) (window_buf train_buf : list Z) (s : oodle_state_t) (wl : bench_workload_t) (seed n : Z)
    (st : corpus_statics) : outcome unit (Z * oodle_state_t * corpus_statics) :=
  if negb (forallb mem (seq 0 6)) then Ok (-1, s, st) else
  '(window_ptrs, lens, window_buf, st) ← bench_corpus_train c_exp wl seed n window_buf st;
  '(train_ptrs, lens, train_buf, st) ← bench_corpus_train c_exp wl (Z.lxor seed 1) n train_buf st;
  if negb (mem 6%nat) then Ok (-1, s, st) else
  window ← foldM (window_step (u64 (n * BENCH_CORPUS_MAX_PKT)) window_buf) [] (zip window_ptrs lens);
  let train_packets := zip_with (slice train_buf) train_ptrs lens in
  if negb (mem 7%nat) then Ok (-1, set_shared s None Freed (zlen window), st) else
  let sh := Shared_SetWindow (htbits s) window in
  let s1 := set_shared s (Some sh) Live (zlen window) in
  let failed s := set_shared s (shared s) Freed (window_size s) in
  match mode s with
  | OODLE_UDP =>
      if negb (mem 8%nat) then Ok (-1, failed (set_udp s1 None), st) else
      Ok (0, set_udp s1 (Some (UDP_Train sh train_packets)), st)
  | OODLE_TCP =>
      let slot k := if mem k then Unfilled else Missing in
      if negb (mem 8%nat && mem 9%nat && mem 10%nat) then
        Ok (-1, failed (set_tcp s1 (slot 8%nat) (slot 9%nat) (slot 10%nat)), st)
      else
        let t := TCP_Train sh train_packets in
        Ok (0, set_tcp s1 (Filled t) (Filled t) (Filled t), st)
  end.

Definition oodle_reset (s : oodle_state_t) : outcome unit oodle_state_t :=
  match mode s, tcp_trained s, tcp_enc s, tcp_dec s with
  | OODLE_UDP, _, _, _ | _, Missing, _, _ | _, _, Missing, _ | _, _, _, Missing => Ok s
  | _, t, _, _ => Ok (set_tcp s t t t)
  end.

(** The header and the payload; the encoder is not told the capacity. *)
Definition oodle_compress (s : oodle_state_t) (src : list Z) (dst_cap : Z) : outcome unit (oodle_state_t * list Z) :=
  if dst_cap <? OODLE_HDR_SIZE then Ok (s, []) else
  let hdr := le_bytes 4 (u32 (zlen src)) in
  '(s, out) ← match mode s with
    | OODLE_UDP => match udp_state s, shared s with
        | Some u, Some sh => Ok (s, UDP_Encode u sh src)
        | _, _ => Undef
        end
    | OODLE_TCP => match tcp_enc s, shared s with
        | Filled e, Some sh => let '(e', out) := TCP_Encode e sh src in Ok (set_tcp s (Filled e') (tcp_dec s) (tcp_trained s), out)
        | _, _ => Undef
        end
    end;
  if dst_cap <? zlen out + OODLE_HDR_SIZE then Undef else
  Ok (s, if 0 <? zlen out then hdr ++ out else []).

Definition oodle_decompress (s : oodle_state_t) (src : list Z) (dst_cap : Z) : outcome unit (oodle_state_t * list Z) :=
  if zlen src <=? OODLE_HDR_SIZE then Ok (s, []) else
  let raw_len := le_val (take 4 src) in
  let comp := drop 4 src in
  if dst_cap <? raw_len then Ok (s, []) else
  match mode s with
  | OODLE_UDP => match udp_state s, shared s with
      | Some u, Some sh => Ok (s, default [] (UDP_Decode u sh comp raw_len))
      | _, _ => Undef
      end
  | OODLE_TCP => match tcp_dec s, shared s with
      | Filled d, Some sh =>
          let '(d', out) := TCP_Decode d sh comp raw_len in Ok (set_tcp s (tcp_enc s) (Filled d') (tcp_trained s), default [] out)
      | _, _ => Undef
      end
  end.

(** Freeing the window twice is undefined. *)
Definition oodle_destroy (s : oodle_state_t) : outcome unit unit := match window s with Freed => Undef | _ => Ok tt end.

(** [window_buf n], [train_buf n]: the memory given for [n] packets. *)
Definition oodle_vtable (mem : nat -> bool) (window_buf train_buf : Z -> list Z) : bench_compressor_t oodle_state_t :=
  Compressor (fun s => match mode s with OODLE_UDP => "oodle-udp"%string | OODLE_TCP => "oodle-tcp"%string end)
    (fun s => Some match mode s with OODLE_UDP => "OodleNetwork1UDP htbits=17"%string | OODLE_TCP => "OodleNetwork1TCP htbits=17"%string end)
    (Some (fun s wl seed n => oodle_train mem (window_buf n) (train_buf n) s wl seed n)) (Some oodle_reset) oodle_compress oodle_decompress oodle_destroy.

Definition oodle_create (mem : bool) (m : oodle_mode_t) (htbits : Z) : option oodle_state_t :=
  if mem then Some (Oodle m htbits None Null 0 None Missing Missing Missing) else None.
Definition bench_oodle_udp_create (mem : bool) (htbits : Z) : option oodle_state_t := oodle_create mem OODLE_UDP htbits.
Definition bench_oodle_tcp_create (mem : bool) (htbits : Z) : option oodle_state_t := oodle_create mem OODLE_TCP htbits.

(** ** What the SDK promises *)

(** The encoders need at most [CompressedBufferSizeNeeded] bytes; a decoder in
    the state the encoder had restores the packet.  [in_step] relates the states
    of a channel's two ends. *)
Class OodleOk (in_step : TCP -> TCP -> Prop) (CompressedBufferSizeNeeded : Z -> Z) : Prop := {
  udp_fits : forall u sh m, zlen (UDP_Encode u sh m) <= CompressedBufferSizeNeeded (zlen m);
  udp_restores : forall u sh m, bytes m -> UDP_Encode u sh m <> [] -> UDP_Decode u sh (UDP_Encode u sh m) (zlen m) = Some m;
  tcp_fits : forall e sh m, zlen (TCP_Encode e sh m).2 <= CompressedBufferSizeNeeded (zlen m);
  tcp_trained_in_step : forall t, in_step t t;
  tcp_writes : forall e sh m, m <> [] -> (TCP_Encode e sh m).2 <> [];
  tcp_restores : forall e d sh m, bytes m -> in_step e d ->
    exists d', TCP_Decode d sh (TCP_Encode e sh m).2 (zlen m) = (d', Some m) /\ in_step (TCP_Encode e sh m).1 d' }.

(** The manual does not say that what an encoder needs for a packet fits the
    loop's buffer, and the adapter does not see to it: it never tells the encoder
    the capacity.  Where it is needed it is a hypothesis of its own. *)
Definition buffer_suffices (CompressedBufferSizeNeeded : Z -> Z) : Prop :=
  forall n, 0 < n <= BENCH_CORPUS_MAX_PKT -> OODLE_HDR_SIZE + CompressedBufferSizeNeeded n <= COMP_CAP.

Section Adapter.
Context (in_step : TCP -> TCP -> Prop) (CompressedBufferSizeNeeded : Z -> Z) `{!OodleOk in_step CompressedBufferSizeNeeded}.

(** A trained adapter between packets. *)
Definition oodle_ready (s : oodle_state_t) : Prop :=
  window s = Live /\ exists sh, shared s = Some sh /\
  match mode s with
  | OODLE_UDP => exists u, udp_state s = Some u
  | OODLE_TCP => exists e d t, tcp_enc s = Filled e /\ tcp_dec s = Filled d /\ tcp_trained s = Filled t /\ in_step e d
  end.

Lemma raw_len_header (m out : list Z) : zlen m < 2 ^ 32 -> le_val (take 4 (le_bytes 4 (u32 (zlen m)) ++ out)) = zlen m /\ drop 4 (le_bytes 4 (u32 (zlen m)) ++ out) = out.
Proof.
  intros Hm. rewrite take_app_le, drop_app_ge by (rewrite le_bytes_length; lia). rewrite le_bytes_length, take_ge by (by rewrite le_bytes_length).
  rewrite le_val_bytes. unfold u32. change (8 * Z.of_nat 4) with 32. rewrite Zmod_mod, Z.mod_small by lia. split; [done|]. by rewrite drop_0.
Qed.

Lemma decompress_frame s (m out : list Z) :
  0 < zlen m <= BENCH_CORPUS_MAX_PKT -> out <> [] ->
  oodle_decompress s (le_bytes 4 (u32 (zlen m)) ++ out) BENCH_CORPUS_MAX_PKT =
    match mode s with
    | OODLE_UDP => match udp_state s, shared s with Some u, Some sh => Ok (s, default [] (UDP_Decode u sh out (zlen m))) | _, _ => Undef end
    | OODLE_TCP => match tcp_dec s, shared s with
        | Filled d, Some sh => let '(d', x) := TCP_Decode d sh out (zlen m) in Ok (set_tcp s (tcp_enc s) (Filled d') (tcp_trained s), default [] x)
        | _, _ => Undef
        end
    end.
Proof.
  unfold BENCH_CORPUS_MAX_PKT. intros Hm Ho. unfold oodle_decompress. destruct (raw_len_header m out) as [H1 H2]; [lia|].
  cbv zeta. rewrite H1, H2. rewrite length_app, le_bytes_length. unfold OODLE_HDR_SIZE.
  destruct out as [|x out]; [done|]. cbn [length]. rewrite (proj2 (Z.leb_gt _ _)), (proj2 (Z.ltb_ge _ _)) by lia. done.
Qed.

Lemma oodle_ok mem wb tb : buffer_suffices CompressedBufferSizeNeeded -> BcOk (oodle_vtable mem wb tb) oodle_ready.
Proof.
  intros Hfits. split.
  - intros s (Hw & sh & Hsh & Hm). cbn [call_reset bc_reset oodle_vtable]. unfold call_reset, oodle_reset. cbn [bc_reset oodle_vtable].
    destruct (mode s) eqn:Em; [exists s; split; [done|]; split; [done|]; exists sh; by rewrite Em|].
    destruct Hm as (e & d & t & He & Hd & Ht & Hs). rewrite Ht, He, Hd. eexists. split; [reflexivity|]. split; [done|].
    exists sh. split; [done|]. cbn [mode set_tcp]. rewrite Em. exists t, t, t. split_and!; try done. by eapply tcp_trained_in_step.
  - intros s m cap (Hw & sh & Hsh & Hm) Hb Hl _ Hc. cbn [bc_compress bc_decompress oodle_vtable]. pose proof (Hfits (zlen m) Hl) as Hroom.
    assert (OODLE_HDR_SIZE <= cap) as Hcap by (unfold OODLE_HDR_SIZE, COMP_CAP, BENCH_CORPUS_MAX_PKT in *; lia).
    assert (forall out : list Z, zlen out <= CompressedBufferSizeNeeded (zlen m) -> zlen out + OODLE_HDR_SIZE <= cap) as Hfit by (intros; lia).
    assert (m <> []) as Hne by (intros ->; cbn in Hl; lia).
    unfold oodle_compress. rewrite (proj2 (Z.ltb_ge _ _)) by lia. cbv zeta. destruct (mode s) eqn:Em.
    + destruct Hm as [u Hu]. rewrite Hu, Hsh. mstep. rewrite (proj2 (Z.ltb_ge _ _)) by (apply Hfit, udp_fits).
      destruct (UDP_Encode u sh m) as [|x out] eqn:E; cbn [length]; [eexists s, []; split; [reflexivity|]; split; [unfold OODLE_HDR_SIZE in *; cbn; lia|];
        left; split; [done|]; split; [done|]; exists sh; rewrite Em; eauto|].
      rewrite (proj2 (Z.ltb_lt _ _)) by lia. eexists s, _. split; [reflexivity|]. split.
      { rewrite length_app, le_bytes_length, <- E. pose proof (Hfit _ (udp_fits u sh m)). unfold OODLE_HDR_SIZE in *. lia. }
      right. split; [by destruct (le_bytes 4 _)|]. exists s. rewrite decompress_frame, Em, Hu, Hsh by done. rewrite <- E.
      rewrite udp_restores by (rewrite ?E; done). split; [done|]. split; [done|]. exists sh. rewrite Em. eauto.
    + destruct Hm as (e & d & t & He & Hd & Ht & Hs). rewrite He, Hsh. destruct (tcp_restores e d sh m Hb Hs) as (d' & Hdec & Hs').
      pose proof (Hfit _ (tcp_fits e sh m)) as Hf. pose proof (tcp_writes e sh m Hne) as Hwr.
      destruct (TCP_Encode e sh m) as [e' out]. cbn [fst snd] in *. mstep. rewrite (proj2 (Z.ltb_ge _ _)) by done.
      rewrite (proj2 (Z.ltb_lt _ _)) by (destruct out; [done|cbn [length]; lia]). eexists _, _. split; [reflexivity|]. split.
      { rewrite length_app, le_bytes_length. unfold OODLE_HDR_SIZE in *. lia. }
      right. split; [by destruct (le_bytes 4 _), out|]. rewrite decompress_frame by done. cbn [mode set_tcp shared tcp_dec tcp_enc tcp_trained].
      rewrite Em, Hd, Hsh, Hdec. eexists. split; [reflexivity|]. split; [done|]. exists sh. split; [done|]. cbn [mode set_tcp]. rewrite Em.
      by exists e', d', t.
Qed.

#[export] Instance oodle_name mem wb tb : KeepsName (oodle_vtable mem wb tb).
Proof.
  split; cbn [bc_compress bc_decompress bc_name oodle_vtable].
  - intros s s' H. unfold call_reset in H. cbn [bc_reset oodle_vtable] in H. unfold oodle_reset in H.
    repeat case_match; injection H as <-; cbn [mode set_tcp] in *; congruence.
  - intros s m cap s' out H. assert (mode s' = mode s) as ->; [|done]. unfold oodle_compress in H. case_if_in H; [by injection H as <- _|].
    apply bind_Ok in H as ([s1 o] & H1 & H). case_if_in H; [done|]. injection H as <- _.
    repeat case_match; try done; injection H1 as <- _; done.
  - intros s m cap s' out H. assert (mode s' = mode s) as ->; [|done]. unfold oodle_decompress in H.
    repeat (case_if_in H; [by injection H as <- _|]). repeat case_match; try done; injection H as <- _; done.
Qed.

(** The window is built within its buffer. *)
Lemma window_ok cap wb lens : forall i acc,
  Forall (fun l => 0 < l <= 512) lens -> 0 <= i -> zlen acc <= i * 512 -> (i + zlen lens) * 512 <= zlen wb ->
  (i + zlen lens) * 512 <= cap -> (i + zlen lens) * 512 < 2 ^ 31 ->
  exists w, foldM (window_step cap wb) acc (zip (map (fun j => j * 512) (seqZ i (zlen lens))) lens) = Ok w.
Proof.
  induction lens as [|l lens IH]; intros i acc Hf Hi Ha Hwb Hcap Hlt; [by exists acc|].
  apply Forall_cons in Hf as [Hl Hf]. cbn [length] in *. rewrite seqZ_cons by lia.
  replace (Z.pred (Z.of_nat (S (length lens)))) with (zlen lens) by lia. cbn [map zip zip_with foldM]. unfold window_step at 2. cbv beta iota.
  unfold peek. if_true. mstep. if_false. if_false. mstep. apply IH; try done; try lia. rewrite length_app.
  assert (zlen (slice wb (i * 512) l) = l) by (apply length_slice; lia). lia.
Qed.

(** Training with enough memory gives an adapter that is ready. *)
Lemma oodle_train_ok window_buf train_buf s wl seed n st :
  ExpOk c_exp -> wl <> BENCH_WL_ALL -> zlen (base_ctrs st) = 32 -> 0 <= n < 2 ^ 22 ->
  zlen window_buf = n * BENCH_CORPUS_MAX_PKT -> zlen train_buf = n * BENCH_CORPUS_MAX_PKT ->
  exists s' st', oodle_train (fun _ => true) window_buf train_buf s wl seed n st = Ok (0, s', st') /\ oodle_ready s' /\ mode s' = mode s /\
    zlen (base_ctrs st') = 32.
Proof.
  intros He Hwl Hst Hn Hwb Htb. unfold oodle_train. cbn [forallb seq andb negb].
  destruct (train_shape c_exp wl seed n window_buf st He Hwl Hst ltac:(lia) ltac:(lia)) as (l1 & wb & st1 & -> & _ & _ & Hwb' & Hst1). mstep.
  destruct (train_shape c_exp wl (Z.lxor seed 1) n train_buf st1 He Hwl Hst1 ltac:(lia) ltac:(lia)) as (lens & tb & st2 & -> & Hl & Hf & _ & Hst2). mstep.
  unfold BENCH_CORPUS_MAX_PKT in *. destruct (window_ok (u64 (n * 512)) wb lens 0 [] Hf) as [w Hw]; [lia|cbn; lia|lia| |lia|].
  { unfold u64. rewrite Z.mod_small by lia. lia. }
  rewrite Hl in Hw. rewrite Hw. mstep. destruct (mode s) eqn:Em.
  - eexists _, st2. split; [reflexivity|]. split; [|done]. split; [done|]. eexists. split; [reflexivity|]. cbn [mode set_udp set_shared]. rewrite Em. eauto.
  - eexists _, st2. split; [reflexivity|]. split; [|done]. split; [done|]. eexists. split; [reflexivity|]. cbn [mode set_tcp set_shared]. rewrite Em.
    eexists _, _, _. split_and!; [reflexivity..|]. by eapply tcp_trained_in_step.
Qed.

(** C36: the Oodle benchmark: for an SDK whose buffer bound for every packet of
    at most 512 bytes fits the 576 bytes of the loop's buffer with the 4-byte
    header ([buffer_suffices]: the adapter does not check it, and an encoder that
    writes more overflows the buffer), for UDP and TCP, an adapter trained with
    enough memory on fewer than 2^22 packets passes: [bench_run_generic] returns
    0, every measured packet comes back from what was written for it, the totals
    are the sizes of these packets and of their frames, and destroying the adapter
    frees the window once. *)
Theorem oodle_benchmark_passes (now : nat -> Z) (m : oodle_mode_t) (bits : Z) (window_buf train_buf : list Z) (wl : bench_workload_t)
    (cfg : bench_generic_cfg_t) (n : Z) (st : corpus_statics) :
  buffer_suffices CompressedBufferSizeNeeded ->
  ExpOk c_exp -> wl <> BENCH_WL_ALL -> zlen (base_ctrs st) = 32 -> 0 <= n < 2 ^ 22 ->
  zlen window_buf = n * BENCH_CORPUS_MAX_PKT -> zlen train_buf = n * BENCH_CORPUS_MAX_PKT ->
  0 <= g_warmup cfg < 2 ^ 31 -> 0 < g_count cfg < 2 ^ 31 ->
  let c := oodle_vtable (fun _ => true) (fun _ => window_buf) (fun _ => train_buf) in
  exists s s1 st1 res s2 st2 pkts outs, oodle_create true m bits = Some s /\
    oodle_train (fun _ => true) window_buf train_buf s wl (g_seed cfg) n st = Ok (0, s1, st1) /\
    bench_run_generic c_exp now c (fun _ => true) cfg wl s1 st1 = Ok (0, Some res, s2, st2) /\
    traffic c_exp oodle_reset (generic_call c) wl cfg s1 st1 pkts outs s2 st2 /\
    r_count res = g_count cfg /\ r_original_bytes res = total_length pkts /\ r_compressed_bytes res = total_length outs /\
    oodle_destroy s2 = Ok tt.
Proof.
  intros Hfits He Hwl Hst Hn Hwb Htb Hwu Hc c. eexists. set (s := Oodle m bits None Null 0 None Missing Missing Missing).
  destruct (oodle_train_ok window_buf train_buf s wl (g_seed cfg) n st He Hwl Hst Hn Hwb Htb) as (s1 & st1 & Ht & Hr & _ & Hst1).
  destruct (run_generic_verified c_exp now _ c oodle_ready cfg wl s1 st1 He (oodle_ok _ _ _ Hfits) Hr Hwl Hst1 Hwu Hc)
    as (res & s2 & st2 & pkts & outs & Hrun & [Hw _] & _ & _ & _ & Hcount & Htr & Ho & Hcmp & _).
  exists s1, st1, res, s2, st2, pkts, outs. split; [reflexivity|]. split_and!; try done. unfold oodle_destroy. by rewrite Hw.
Qed.

(** Without that room the next packet overflows the buffer: an encoder is free
    to write as many bytes as it says it needs. *)
Theorem oodle_encoder_overflows (s : oodle_state_t) (u : UDP) (sh : Shared) (m : list Z) :
  mode s = OODLE_UDP -> udp_state s = Some u -> shared s = Some sh -> COMP_CAP < OODLE_HDR_SIZE + zlen (UDP_Encode u sh m) ->
  oodle_compress s m COMP_CAP = Undef.
Proof.
  intros Hm Hu Hs Hl. unfold oodle_compress. change (COMP_CAP <? OODLE_HDR_SIZE) with false. cbv zeta iota. rewrite Hm, Hu, Hs. mstep.
  by rewrite (proj2 (Z.ltb_lt _ _)) by lia.
Qed.
End Adapter.

(** When the shared dictionary cannot be allocated, training frees the window
    but leaves the adapter pointing to it: destroying the adapter, as the main
    program does after every training, frees it again. *)
Theorem oodle_failed_train_double_free (window_buf train_buf : list Z) (s : oodle_state_t) (wl : bench_workload_t) (seed n : Z)
    (st : corpus_statics) :
  ExpOk c_exp -> wl <> BENCH_WL_ALL -> zlen (base_ctrs st) = 32 -> 0 <= n < 2 ^ 22 ->
  zlen window_buf = n * BENCH_CORPUS_MAX_PKT -> zlen train_buf = n * BENCH_CORPUS_MAX_PKT ->
  exists s' st', oodle_train (fun k => negb (k =? 7)%nat) window_buf train_buf s wl seed n st = Ok (-1, s', st') /\ oodle_destroy s' = Undef.
Proof.
  intros He Hwl Hst Hn Hwb Htb. unfold oodle_train. cbn [forallb seq andb negb Nat.eqb].
  destruct (train_shape c_exp wl seed n window_buf st He Hwl Hst ltac:(lia) ltac:(lia)) as (l1 & wb & st1 & -> & _ & _ & Hwb' & Hst1). mstep.
  destruct (train_shape c_exp wl (Z.lxor seed 1) n train_buf st1 He Hwl Hst1 ltac:(lia) ltac:(lia)) as (lens & tb & st2 & -> & Hl & Hf & _ & _). mstep.
  unfold BENCH_CORPUS_MAX_PKT in *. destruct (window_ok (u64 (n * 512)) wb lens 0 [] Hf) as [w Hw]; [lia|cbn; lia|lia| |lia|].
  { unfold u64. rewrite Z.mod_small by lia. lia. }
  rewrite Hl in Hw. rewrite Hw. mstep. eexists _, st2. by split.
Qed.
End Oodle.

(** An SDK that stores packets and whose shared dictionary is the window itself:
    the promise can be kept. *)
Definition window_only (bits : Z) (w : list Z) : list Z := w.
Definition stored_train (sh : list Z) (pkts : list (list Z)) : unit := tt.
Definition stored_udp (u : unit) (sh m : list Z) : list Z := m.
Definition stored_udp_decode (u : unit) (sh m : list Z) (n : Z) : option (list Z) := Some m.
Definition stored_tcp (t : unit) (sh m : list Z) : unit * list Z := (t, m).
Definition stored_tcp_decode (t : unit) (sh m : list Z) (n : Z) : unit * option (list Z) := (t, Some m).

Lemma stored_oodle_ok : OodleOk stored_udp stored_udp_decode stored_tcp stored_tcp_decode (fun _ _ => True) (fun n => n).
Proof.
  split; unfold stored_udp, stored_tcp, stored_tcp_decode; cbn [fst snd]; try done.
  - intros e d sh m _ _. by exists d.
Qed.

Lemma stored_suffices : buffer_suffices (fun n => n).
Proof. intros n. unfold BENCH_CORPUS_MAX_PKT, COMP_CAP, OODLE_HDR_SIZE, BENCH_CORPUS_MAX_PKT. lia. Qed.

(** An SDK may also pad every packet by the 256 bytes of OODLE_CMP_EXTRA: its
    promise is kept, and a packet of 512 bytes is written past the buffer. *)
Definition padded_udp (u : unit) (sh m : list Z) : list Z := m ++ replicate 256 0.
Definition padded_udp_decode (u : unit) (sh m : list Z) (n : Z) : option (list Z) := Some (take (Z.to_nat n) m).

Lemma padded_oodle_ok : OodleOk padded_udp padded_udp_decode stored_tcp stored_tcp_decode (fun _ _ => True) (fun n => n + 256).
Proof.
  split; unfold stored_tcp, stored_tcp_decode, padded_udp, padded_udp_decode; cbn [fst snd]; try done.
  - intros u sh m. rewrite length_app, length_replicate. lia.
  - intros u sh m _ _. rewrite Nat2Z.id. by rewrite take_app_length.
  - intros e sh m. lia.
  - intros e d sh m _ _. by exists d.
Qed.

Lemma oodle_encoder_overflows_witness :
  let s := Oodle OODLE_UDP 17 (Some [1]) Live 1 (Some tt) (Missing unit) (Missing unit) (Missing unit) in
  let m := replicate 512 7 in oodle_compress padded_udp stored_tcp s m COMP_CAP = Undef.
Proof. cbv zeta. apply (oodle_encoder_overflows _ _ _ tt [1]); [reflexivity..|]. vm_compute. reflexivity. Defined.

Lemma oodle_benchmark_passes_witness :
  let buf := replicate (Z.to_nat 1024) 0 in
  let c := oodle_vtable window_only stored_train stored_udp stored_udp_decode stored_train stored_tcp stored_tcp_decode (fun _ => f64_of_Z 20)
         (fun _ => true) (fun _ => buf) (fun _ => buf) in
  exists s s1 st1 res s2 st2 pkts outs, oodle_create true OODLE_TCP 17 = Some s /\
    oodle_train window_only stored_train stored_train (fun _ => f64_of_Z 20) (fun _ => true) buf buf s BENCH_WL_008 42 2 statics0 = Ok (0, s1, st1) /\
    bench_run_generic (fun _ => f64_of_Z 20) (fun k => Z.of_nat k) c (fun _ => true) (RunCfg 1 2 42) BENCH_WL_008 s1 st1 = Ok (0, Some res, s2, st2) /\
    traffic (fun _ => f64_of_Z 20) oodle_reset (generic_call c) BENCH_WL_008 (RunCfg 1 2 42) s1 st1 pkts outs s2 st2 /\
    r_count res = 2 /\ r_original_bytes res = total_length pkts /\ r_compressed_bytes res = total_length outs /\ oodle_destroy s2 = Ok tt.
Proof.
  cbv zeta.
  apply (oodle_benchmark_passes window_only stored_train stored_udp stored_udp_decode stored_train stored_tcp stored_tcp_decode (fun _ => f64_of_Z 20)
    (fun _ _ => True) (fun n => n) (OodleOk0 := stored_oodle_ok) (fun k => Z.of_nat k) OODLE_TCP 17 (replicate (Z.to_nat 1024) 0)
    (replicate (Z.to_nat 1024) 0) BENCH_WL_008 (RunCfg 1 2 42) 2 statics0);
    [apply stored_suffices|apply exp_const_ok|discriminate|reflexivity|lia|reflexivity|reflexivity|cbn; lia|cbn; lia].
Defined.

Lemma oodle_failed_train_double_free_witness :
  let buf := replicate (Z.to_nat 512) 0 in
  let s := Oodle OODLE_UDP 17 None Null 0 None (Missing unit) (Missing unit) (Missing unit) in
  exists s' st', oodle_train window_only stored_train stored_train (fun _ => f64_of_Z 20) (fun k => negb (k =? 7)%nat) buf buf s
      BENCH_WL_001 42 1 statics0 = Ok (-1, s', st') /\ oodle_destroy s' = Undef.
Proof.
  cbv zeta.
  apply (oodle_failed_train_double_free window_only stored_train stored_train (fun _ => f64_of_Z 20) (replicate (Z.to_nat 512) 0)
    (replicate (Z.to_nat 512) 0) (Oodle OODLE_UDP 17 None Null 0 None (Missing unit) (Missing unit) (Missing unit)) BENCH_WL_001 42 1 statics0);
    [apply exp_const_ok|discriminate|reflexivity|lia|reflexivity|reflexivity].
Defined.

(** The window is cut with the lengths of the other corpus, which
    [bench_corpus_train] wrote to the same array last: on mixed traffic it holds
    bytes that no packet was copied to.  Training on one packet with seed 1 gives
    two different windows for two different contents of the fresh memory. *)
Theorem oodle_window_reads_garbage (c_exp : spec_float -> spec_float) :
  let s := Oodle (UDP := unit) OODLE_UDP 17 None Null 0 None (Missing unit) (Missing unit) (Missing unit) in
  let train g := oodle_train window_only stored_train stored_train c_exp (fun _ => true) (replicate (Z.to_nat 512) g) (replicate (Z.to_nat 512) g)
    s BENCH_WL_008 1 1 statics0 in
  exists s0 s1 st, train 0 = Ok (0, s0, st) /\ train 255 = Ok (0, s1, st) /\ shared s0 <> shared s1 /\ window_size s0 = 512.
Proof.
  cbv zeta. eexists _, _, _. split; [vm_compute; reflexivity|]. split; [vm_compute; reflexivity|]. split; [discriminate|reflexivity].
Qed.
