(* ===== verification/BenchMain.v ===== *)
(** * The main program of the benchmark harness

    src/bench/bench_main.c: [run_compressor] and [main].  A result keeps a pointer
    to the name in its adapter; [dead] records that the adapter is gone.  The
    adapters of the reference compressors come from [create], which stands for the
    factories of BenchAdapters.v and BenchOodle.v in the build at hand; progress
    messages are left out, and what is printed besides the report is collected. *)

From Stdlib Require Import String.
From stdpp Require Import prelude.
From Stdlib Require Import ZArith Lia SpecFloat.
From S2P Require Import Prelude Simd Header Ctx Train Session Transport Double CText Corpus Replay BenchStats Metering BenchRun BenchNetc.
From S2P Require Import BenchGates BenchBaseline BenchArgs BenchReport.

Local Open Scope Z_scope.

(** ** State *)

(** An adapter; [ad_static]: its name is a string literal. *)
Record adapter : Type := Pack {
  ad_state : Type;
  ad_vtable : bench_compressor_t ad_state;
  ad_init : ad_state;
  ad_static : bool }.

Record stored_result : Type := Stored {
  sr_result : bench_result_t;
  sr_dead : bool }.

Record main_state : Type := Main {
  ms_results : list stored_result;
  ms_netc_wl001 : option bench_result_t;
  ms_reporter : option bench_reporter_t;
  ms_statics : corpus_statics;
  ms_fs : fs_t;
  ms_throughput : list bench_throughput_result_t;
  ms_regressions : list bench_reg_report_t;
  ms_gates : list bench_ci_report_t }.

Definition BENCH_MAX_RESULTS : Z := 128.

Definition with_statics (ms : main_state) (st : corpus_statics) : main_state :=
  Main (ms_results ms) (ms_netc_wl001 ms) (ms_reporter ms) st (ms_fs ms) (ms_throughput ms) (ms_regressions ms) (ms_gates ms).
Definition with_netc (ms : main_state) (res : bench_result_t) : main_state :=
  Main (ms_results ms) (Some res) (ms_reporter ms) (ms_statics ms) (ms_fs ms) (ms_throughput ms) (ms_regressions ms) (ms_gates ms).
Definition with_results (ms : main_state) (rs : list stored_result) : main_state :=
  Main rs (ms_netc_wl001 ms) (ms_reporter ms) (ms_statics ms) (ms_fs ms) (ms_throughput ms) (ms_regressions ms) (ms_gates ms).
Definition with_fs (ms : main_state) (fs : fs_t) : main_state :=
  Main (ms_results ms) (ms_netc_wl001 ms) (ms_reporter ms) (ms_statics ms) fs (ms_throughput ms) (ms_regressions ms) (ms_gates ms).
Definition print_throughput (ms : main_state) (t : bench_throughput_result_t) : main_state :=
  Main (ms_results ms) (ms_netc_wl001 ms) (ms_reporter ms) (ms_statics ms) (ms_fs ms) (ms_throughput ms ++ [t]) (ms_regressions ms) (ms_gates ms).
Definition print_regression (ms : main_state) (r : bench_reg_report_t) : main_state :=
  Main (ms_results ms) (ms_netc_wl001 ms) (ms_reporter ms) (ms_statics ms) (ms_fs ms) (ms_throughput ms) (ms_regressions ms ++ [r]) (ms_gates ms).
Definition print_gates (ms : main_state) (g : bench_ci_report_t) : main_state :=
  Main (ms_results ms) (ms_netc_wl001 ms) (ms_reporter ms) (ms_statics ms) (ms_fs ms) (ms_throughput ms) (ms_regressions ms) (ms_gates ms ++ [g]).

(** The results from index [k] on point into an adapter that is destroyed. *)
Definition name_dies (k : nat) (ms : main_state) : main_state :=
  with_results ms (take k (ms_results ms) ++ map (fun r => Stored (sr_result r) true) (drop k (ms_results ms))).

(** [results[i].compressor], read. *)
Definition read_name (r : stored_result) : outcome unit string := if sr_dead r then Undef else Ok (r_compressor (sr_result r)).

(** ** The environment *)

(** What the system gives to a run: clock readings and which allocations
    succeed. *)
Record run_env : Type := RunEnv {
  re_now : nat -> Z;
  re_mem : nat -> bool }.

(** The allocations of netc's adapter, and the memory its training gets. *)
Record netc_env : Type := NetcEnv {
  ne_buf : bool;
  ne_mem : nat -> nat -> bool;
  ne_storage : list Z }.

Section Program.
Context (c_exp : spec_float -> spec_float) (cpu : simd_caps) (now_text : string) (disk : string -> option nat) (baseline_mem : option nat)
  (env : bench_workload_t -> Z -> run_env) (netc_mem : bench_workload_t -> netc_env) (create : bench_args_t -> Z -> bench_workload_t -> option adapter).

(** [bench_reporter_write] and the storing of the result. *)
Definition record_result (ms : main_state) (res : bench_result_t) : main_state * bench_result_t :=
  let '(rp, res') := bench_reporter_write now_text (ms_reporter ms) (Some res) in
  let res := default res res' in
  (Main (if zlen (ms_results ms) <? BENCH_MAX_RESULTS then ms_results ms ++ [Stored res false] else ms_results ms)
     (ms_netc_wl001 ms) rp (ms_statics ms) (ms_fs ms) (ms_throughput ms) (ms_regressions ms) (ms_gates ms), res).

(** Save the result as a baseline, and compare it with the stored one. *)
Definition baselines (args : bench_args_t) (wl : bench_workload_t) (name : string) (res : bench_result_t) (ms : main_state) : main_state :=
  let ms := if a_save_baseline args
            then with_fs ms (bench_baseline_save disk (a_baseline_dir args) (Some res) (ms_fs ms)).2 else ms in
  if a_check_baseline args then
    let wl_short := snprintf 8 (substring 0 6 (bench_workload_name wl)) in
    match bench_baseline_load baseline_mem (a_baseline_dir args) (Some name) (Some wl_short) (ms_fs ms) with
    | (0, Some base) => print_regression ms (bench_baseline_check base res).2
    | _ => ms
    end
  else ms.

Definition run_compressor {S} (c : bench_compressor_t S) (e : run_env) (wl : bench_workload_t) (args : bench_args_t) (s : S) (ms : main_state)
  : outcome unit (S * main_state) :=
  let cfg := RunCfg (a_warmup args) (a_count args) (a_seed args) in
  match a_mode args with
  | BENCH_MODE_THROUGHPUT | BENCH_MODE_MPPS =>
      '(rc, tr, s, st) ← (match a_mode args with
        | BENCH_MODE_MPPS => bench_mpps_run c_exp (re_now e) c (re_mem e) wl (a_seed args) s (ms_statics ms)
        | _ => bench_throughput_run c_exp (re_now e) c (re_mem e) cfg wl s (ms_statics ms)
        end);
      let ms := with_statics ms st in
      Ok (s, match rc, tr with 0, Some tr => print_throughput ms tr | _, _ => ms end)
  | BENCH_MODE_SCALING => Ok (s, ms)
  | BENCH_MODE_LATENCY =>
      '(rc, res, s, st) ← bench_run_generic c_exp (re_now e) c (re_mem e) cfg wl s (ms_statics ms);
      let ms := with_statics ms st in
      Ok (s, match rc, res with
        | 0, Some res => let '(ms, res) := record_result ms res in baselines args wl (bc_name c s) res ms
        | _, _ => ms
        end)
  end.

(** ** One workload *)
Definition netc_flags (args : bench_args_t) : Z :=
  let flags := Z.lor NETC_CFG_FLAG_STATEFUL NETC_CFG_FLAG_BIGRAM in
  let flags := if a_no_delta args then flags else Z.lor flags NETC_CFG_FLAG_DELTA in
  let flags := if a_compact_hdr args then Z.lor flags NETC_CFG_FLAG_COMPACT_HDR else flags in
  let flags := if a_fast_compress args then Z.lor flags NETC_CFG_FLAG_FAST_COMPRESS else flags in
  if a_adaptive args then Z.lor flags NETC_CFG_FLAG_ADAPTIVE else flags.

(** netc itself: its adapter is a local variable of the block. *)
Definition run_netc (args : bench_args_t) (wl : bench_workload_t) (ms : main_state) : outcome unit main_state :=
  let ne := netc_mem wl in
  let e := env wl BENCH_COMP_NETC in
  match bench_netc_init cpu (ne_buf ne) (ne_mem ne 0) (ne_mem ne 1) None (netc_flags args) (a_simd_level args) BENCH_CORPUS_MAX_PKT with
  | (0, n) =>
      '(n, st) ← (if a_no_dict args then Ok (n, ms_statics ms) else
        '(_, n, st) ← bench_netc_train c_exp cpu (ne_mem ne 2) (ne_mem ne 3) (ne_mem ne 4) (ne_mem ne 5) (ne_storage ne) n wl (a_seed args)
                        (a_train_count args) (ms_statics ms);
        Ok (n, st));
      '(rc, res, n, st) ← bench_run c_exp (re_now e) (re_mem e) (RunCfg (a_warmup args) (a_count args) (a_seed args)) wl n st;
      let ms := with_statics ms st in
      let k := length (ms_results ms) in
      let ms := match rc, res with
        | 0, Some res =>
            let '(ms, res) := record_result ms res in
            if decide (wl = BENCH_WL_001) then with_netc ms res else ms
        | _, _ => ms
        end in
      let _ := bench_netc_destroy n in
      Ok (name_dies k ms)
  | _ => Ok ms
  end.

(** The first result of WL-001 that is called "oodle-udp". *)
Fixpoint find_oodle (rs : list stored_result) : outcome unit (option bench_result_t) :=
  match rs with
  | [] => Ok None
  | r :: rs' =>
      if decide (r_workload (sr_result r) = BENCH_WL_001) then
        name ← read_name r;
        if String.eqb name "oodle-udp" then Ok (Some (sr_result r)) else find_oodle rs'
      else find_oodle rs'
  end.

(** The gates against Oodle that follow its UDP run. *)
Definition oodle_udp_gates (args : bench_args_t) (wl : bench_workload_t) (ms : main_state) : outcome unit main_state :=
  match ms_netc_wl001 ms with
  | Some netc =>
      if a_oodle_gates args && bool_decide (wl = BENCH_WL_001) then
        r ← find_oodle (ms_results ms);
        Ok match r with
           | Some oodle => print_gates ms (default (Report [] true) (bench_oodle_ci_gates (Some netc) (Some oodle) (Some (Report [] true))))
           | None => ms
           end
      else Ok ms
  | None => Ok ms
  end.

(** One reference compressor: create, train if the block does so, run, destroy. *)
Definition run_adapter (args : bench_args_t) (wl : bench_workload_t) (ms : main_state) (b : Z * bool) : outcome unit main_state :=
  let '(bit, trains) := b in
  if Z.land (a_compressor_mask args) bit =? 0 then Ok ms else
  match create args bit wl with
  | None => Ok ms
  | Some (Pack _ c s static) =>
      '(s, st) ← (match (if (trains : bool) then bc_train c else None) with
        | Some f => '(_, s, st) ← f s wl (a_seed args) (a_train_count args) (ms_statics ms); Ok (s, st)
        | None => Ok (s, ms_statics ms)
        end);
      let ms := with_statics ms st in
      let k := length (ms_results ms) in
      '(s, ms) ← run_compressor c (env wl bit) wl args s ms;
      ms ← (if bit =? BENCH_COMP_OODLE_UDP then oodle_udp_gates args wl ms else Ok ms);
      _ ← bc_destroy c s;
      Ok (if (static : bool) then ms else name_dies k ms)
  end.

(** The blocks of the loop, in order, with whether they train. *)
Definition reference_blocks : list (Z * bool) :=
  [(BENCH_COMP_ZLIB1, false); (BENCH_COMP_ZLIB6, false); (BENCH_COMP_LZ4, false); (BENCH_COMP_LZ4HC, false); (BENCH_COMP_ZSTD1, false);
   (BENCH_COMP_ZSTD3, false); (BENCH_COMP_ZSTD1D, true); (BENCH_COMP_HUFFMAN, true); (BENCH_COMP_SNAPPY, false); (BENCH_COMP_OODLE_UDP, true);
   (BENCH_COMP_OODLE_TCP, true)].

Definition run_workload (args : bench_args_t) (ms : main_state) (wl_id : Z) : outcome unit main_state :=
  if Z.land (a_workload_mask args) (2 ^ wl_id) =? 0 then Ok ms else
  let wl := workload_of_int wl_id in
  ms ← (if Z.land (a_compressor_mask args) BENCH_COMP_NETC =? 0 then Ok ms else run_netc args wl ms);
  foldM (run_adapter args wl) ms reference_blocks.

(** ** Gates *)

(** netc against one other result of WL-001. *)
Definition comp_gate (netc : bench_result_t) (ci : bench_ci_report_t) (r : stored_result) : outcome unit bench_ci_report_t :=
  if decide (r_workload (sr_result r) <> BENCH_WL_001) then Ok ci else
  name ← read_name r;
  if String.eqb name "netc" then Ok ci else
  if String.prefix "oodle" name then Ok ci else
  let desc := snprintf 128 ("netc compress_mbs (" ++ fmt_f 1 (r_compress_mbs netc) ++ ") > " ++ name ++ " compress_mbs ("
                            ++ fmt_f 1 (r_compress_mbs (sr_result r)) ++ ")") in
  Ok (if zlen (ci_gates ci) <? BENCH_MAX_GATES
      then push_gate ci (Gate name desc (r_compress_mbs netc) (r_compress_mbs (sr_result r)) (SFltb (r_compress_mbs (sr_result r)) (r_compress_mbs netc)))
      else ci).

Definition oodle_gate (netc : bench_result_t) (ci : bench_ci_report_t) (r : stored_result) : outcome unit bench_ci_report_t :=
  if decide (r_workload (sr_result r) <> BENCH_WL_001) then Ok ci else
  name ← read_name r;
  Ok (if String.prefix "oodle" name then default ci (bench_oodle_ci_gates (Some netc) (Some (sr_result r)) (Some ci)) else ci).

(** The verdict of [--ci-check]. *)
Definition ci_verdict (args : bench_args_t) (ms : main_state) : outcome unit (Z * bench_ci_report_t) :=
  let '(ci_rc, ci) := bench_ci_check (map sr_result (ms_results ms)) in
  match ms_netc_wl001 ms with
  | None => Ok (ci_rc, ci)
  | Some netc =>
      ci ← foldM (comp_gate netc) ci (ms_results ms);
      ci ← (if a_oodle_gates args then foldM (oodle_gate netc) ci (ms_results ms) else Ok ci);
      Ok ((if ci_all_passed ci then 0 else 1), ci)
  end.

(** ** [main] *)

(** [out_ok]: the output file could be opened; [rep_mem], [res_mem]: the
    allocations.  Returns the exit status. *)
Definition bench_main (out_ok rep_mem res_mem : bool) (st : corpus_statics) (fs : fs_t) (argv : list string)
  : outcome unit (Z * option main_state) :=
  '(rc, args) ← parse_args argv;
  if negb (rc =? 0) then Ok (if 0 <? rc then 0 else 2, None) else
  if negb (match a_output_file args with Some _ => out_ok | None => true end) then Ok (2, None) else
  match bench_reporter_open rep_mem (a_format args) with
  | None => Ok (2, None)
  | Some r =>
      let reporter := bench_reporter_begin now_text (Some r) (Some "0.2.0"%string) (Some EmptyString) in
      if negb res_mem then Ok (2, None) else
      ms ← foldM (run_workload args) (Main [] None reporter st fs [] [] []) (seqZ 1 8);
      let ms := Main (ms_results ms) (ms_netc_wl001 ms) (bench_reporter_end (ms_reporter ms)) (ms_statics ms) (ms_fs ms) (ms_throughput ms)
                  (ms_regressions ms) (ms_gates ms) in
      if a_ci_check args then
        '(ci_rc, ci) ← ci_verdict args ms; Ok (ci_rc, Some (print_gates ms ci))
      else Ok (0, Some ms)
  end.
End Program.

(** ** Runs that succeed *)

(** What the main loop needs of an adapter: after its training, if the block
    trains it, the adapter keeps the promise of the generic loop under the name
    [name], and it can be destroyed. *)
Definition adapter_ok (trains : bool) (name : string) (ad : adapter) : Prop :=
  exists I : ad_state ad -> Prop, BcOk (ad_vtable ad) I /\ (forall s, I s -> bc_name (ad_vtable ad) s = name) /\
    (forall s, I s -> bc_destroy (ad_vtable ad) s = Ok tt) /\
    match (if trains then bc_train (ad_vtable ad) else None) with
    | None => I (ad_init ad)
    | Some f => forall wl seed n st, wl <> BENCH_WL_ALL -> zlen (base_ctrs st) = 32 -> 0 <= n < 2 ^ 22 ->
        exists rc s' st', f (ad_init ad) wl seed n st = Ok (rc, s', st') /\ I s' /\ zlen (base_ctrs st') = 32
    end.

(** What is to be reported for a workload: netc first, then the reference
    compressors in this order, each under its name. *)
Definition report_order : list (Z * string) :=
  [(BENCH_COMP_ZLIB1, "zlib-1"); (BENCH_COMP_ZLIB6, "zlib-6"); (BENCH_COMP_LZ4, "lz4-fast"); (BENCH_COMP_LZ4HC, "lz4-hc");
   (BENCH_COMP_ZSTD1, "zstd-1"); (BENCH_COMP_ZSTD3, "zstd-3"); (BENCH_COMP_ZSTD1D, "zstd-1-dict"); (BENCH_COMP_HUFFMAN, "huffman-static");
   (BENCH_COMP_SNAPPY, "snappy"); (BENCH_COMP_OODLE_UDP, "oodle-udp"); (BENCH_COMP_OODLE_TCP, "oodle-tcp")]%string.

(** The name of netc's own result. *)
Definition netc_label (cpu : simd_caps) (args : bench_args_t) : string :=
  snprintf 64 ("netc/stateful" ++ (if a_no_delta args then EmptyString else "+delta") ++ (if a_no_dict args then EmptyString else "+dict")
    ++ (if a_adaptive args then "+adaptive" else EmptyString) ++ " simd="
    ++ netc_simd_level_name (level (netc_simd_ops_init cpu (a_simd_level args)))
    ++ (if a_fast_compress args then " fast=1" else EmptyString))%string.

(** The labels of the results: [avail] says which reference compressors can be
    created. *)
Section Expected.
Context (cpu : simd_caps) (avail : Z -> bench_workload_t -> bool) (args : bench_args_t).

Definition selected (bit : Z) : bool := negb (Z.land (a_compressor_mask args) bit =? 0).
Definition reported (wl : bench_workload_t) (b : Z * string) : bool := selected b.1 && avail b.1 wl.
Definition names_of (wl : bench_workload_t) (bs : list (Z * string)) : list string := map snd (List.filter (reported wl) bs).
Definition names_on (wl : bench_workload_t) : list string :=
  (if selected BENCH_COMP_NETC then [netc_label cpu args] else []) ++ names_of wl report_order.
Definition expected_on (k : Z) : list (bench_workload_t * string) :=
  if Z.land (a_workload_mask args) (2 ^ k) =? 0 then [] else map (pair (workload_of_int k)) (names_on (workload_of_int k)).
Definition expected : list (bench_workload_t * string) := concat (map expected_on (seqZ 1 8)).

Lemma names_of_bound wl bs : (length (names_of wl bs) <= length bs)%nat.
Proof. unfold names_of. rewrite length_map. apply List.filter_length_le. Qed.

Lemma names_on_bound wl : (length (names_on wl) <= 12)%nat.
Proof.
  unfold names_on. rewrite length_app. pose proof (names_of_bound wl report_order) as H. change (length report_order) with 11%nat in H.
  destruct (selected _); cbn [length]; lia.
Qed.

Lemma expected_bound : (length expected <= 96)%nat.
Proof.
  unfold expected. assert (forall l, length (concat (map expected_on l)) <= 12 * length l)%nat as H; [|apply (H (seqZ 1 8))].
  induction l as [|k l IH]; [done|]. cbn [map concat length]. rewrite length_app. pose proof (names_on_bound (workload_of_int k)).
  unfold expected_on at 1. case_if; rewrite ?length_map; cbn [length]; lia.
Qed.
End Expected.

Lemma expected_ext cpu avail avail' args :
  (forall bit name wl, (bit, name) ∈ report_order -> avail bit wl = avail' bit wl) -> expected cpu avail args = expected cpu avail' args.
Proof.
  intros H. unfold expected. f_equal. apply map_ext. intros k. unfold expected_on, names_on. case_if; [done|]. do 2 f_equal. unfold names_of. f_equal.
  apply List.filter_ext_in. intros [bit name] Hin. unfold reported. cbn [fst]. rewrite (H bit name); [done|]. by apply list_elem_of_In.
Qed.

(** Arguments with which every run can finish. *)
Definition runnable (args : bench_args_t) (storage : list Z) : Prop :=
  a_mode args = BENCH_MODE_LATENCY /\ a_oodle_gates args = false /\ 0 <= a_warmup args < 2 ^ 31 /\ 0 < a_count args < 2 ^ 31 /\
  0 <= a_train_count args < 2 ^ 22 /\ a_train_count args * BENCH_CORPUS_MAX_PKT <= zlen storage /\
  a_compact_hdr args && a_adaptive args = false.

Lemma netc_flags_ok args : a_compact_hdr args && a_adaptive args = false -> bench_flags_ok (netc_flags args).
Proof.
  unfold bench_flags_ok, netc_flags. intros H.
  destruct (a_no_delta args), (a_compact_hdr args), (a_fast_compress args), (a_adaptive args); try discriminate H;
    (split; [reflexivity|]; split; [intros _; reflexivity|]); first [by left | by right].
Qed.

(** The label of an adapter with the flags of a command line. *)
Lemma netc_flags_label cpu args dct :
  a_compact_hdr args && a_adaptive args = false -> dct = (if a_no_dict args then EmptyString else "+dict"%string) ->
  adapter_label cpu (netc_flags args) (a_simd_level args) dct = netc_label cpu args.
Proof.
  intros H ->. unfold adapter_label, netc_label, netc_flags. f_equal.
  by destruct (a_no_delta args), (a_compact_hdr args), (a_fast_compress args), (a_adaptive args).
Qed.

Section Correct.
Context (c_exp : spec_float -> spec_float) `{!ExpOk c_exp} (cpu : simd_caps) (now_text : string) (disk : string -> option nat) (baseline_mem : option nat)
  (now : bench_workload_t -> Z -> nat -> Z) (storage : list Z) (create : bench_args_t -> Z -> bench_workload_t -> option adapter)
  (args : bench_args_t) (Hargs : runnable args storage)
  (Hcreate : forall bit trains name wl ad, (bit, trains) ∈ reference_blocks -> (bit, name) ∈ report_order -> create args bit wl = Some ad ->
     adapter_ok trains name ad).

(** The compressors that can be created. *)
Definition created (bit : Z) (wl : bench_workload_t) : bool := if create args bit wl is Some _ then true else false.

(** Enough memory everywhere. *)
Definition plenty (wl : bench_workload_t) (bit : Z) : run_env := RunEnv (now wl bit) (fun _ => true).
Definition netc_plenty (wl : bench_workload_t) : netc_env := NetcEnv true (fun _ => mem_ok) storage.

(** The workload and the compressor of each stored result. *)
Definition labels (rs : list stored_result) : list (bench_workload_t * string) :=
  map (fun r => (r_workload (sr_result r), r_compressor (sr_result r))) rs.

Lemma length_labels rs : length (labels rs) = length rs.
Proof. apply length_map. Qed.

(** [ms'] is [ms] with the results [new] added. *)
Definition grows (ms ms' : main_state) (new : list stored_result) : Prop :=
  ms_results ms' = ms_results ms ++ new /\ ms_netc_wl001 ms' = ms_netc_wl001 ms /\ zlen (base_ctrs (ms_statics ms')) = 32.

Lemma record_ok ms res :
  zlen (ms_results ms) < BENCH_MAX_RESULTS -> zlen (base_ctrs (ms_statics ms)) = 32 ->
  exists res', record_result now_text ms res = (Main (ms_results ms ++ [Stored res' false]) (ms_netc_wl001 ms)
      (bench_reporter_write now_text (ms_reporter ms) (Some res)).1 (ms_statics ms) (ms_fs ms) (ms_throughput ms) (ms_regressions ms) (ms_gates ms), res') /\
    r_workload res' = r_workload res /\ r_compressor res' = r_compressor res.
Proof.
  intros Hl Hst. unfold record_result. rewrite (proj2 (Z.ltb_lt _ _)) by done.
  destruct (ms_reporter ms) as [r|]; cbn [bench_reporter_write]; eexists; (split; [reflexivity|]); [|done]. by destruct res.
Qed.

Lemma baselines_grow wl name res ms ms' new :
  grows ms ms' new -> grows ms (baselines disk baseline_mem args wl name res ms') new.
Proof. intros H. unfold baselines. destruct (a_save_baseline args), (a_check_baseline args); try done; repeat case_match; exact H. Qed.

Lemma die_grows ms ms' new :
  grows ms ms' new -> grows ms (name_dies (length (ms_results ms)) ms') (map (fun r => Stored (sr_result r) true) new).
Proof.
  intros (H1 & H2 & H3). split; [|done]. unfold name_dies, with_results. cbn [ms_results]. rewrite H1.
  by rewrite take_app_length, drop_app_length.
Qed.

Lemma labels_dead new : labels (map (fun r => Stored (sr_result r) true) new) = labels new.
Proof. unfold labels. rewrite map_map. done. Qed.

(** The generic run of one adapter adds one result. *)
Lemma run_compressor_ok {S} (c : bench_compressor_t S) (I : S -> Prop) name wl bit s ms :
  BcOk c I -> (forall s, I s -> bc_name c s = name) -> I s -> wl <> BENCH_WL_ALL -> zlen (base_ctrs (ms_statics ms)) = 32 -> zlen (ms_results ms) < BENCH_MAX_RESULTS ->
  exists s' ms' new, run_compressor c_exp now_text disk baseline_mem c (plenty wl bit) wl args s ms = Ok (s', ms') /\ I s' /\
    grows ms ms' new /\ labels new = [(wl, name)].
Proof.
  intros Hc Hname Hi Hwl Hst Hl. destruct Hargs as (Hm & _ & Hwu & Hn & _). unfold run_compressor. rewrite Hm.
  destruct (run_generic_verified c_exp (now wl bit) S c I (RunCfg (a_warmup args) (a_count args) (a_seed args)) wl s (ms_statics ms) _ Hc Hi Hwl Hst Hwu Hn)
    as (res & s' & st' & pkts & outs & Hr & Hi' & Hst' & Hrw & Hrc & _). cbn [plenty re_now re_mem]. rewrite Hr. mstep.
  destruct (record_ok (with_statics ms st') res Hl Hst') as (res' & -> & Hw & Hc'). eexists s', _, [Stored res' false]. split; [reflexivity|].
  split; [done|]. split; [apply baselines_grow; by split_and!|]. unfold labels. cbn [map sr_result].
  by rewrite Hw, Hrw, Hc', Hrc, Hname.
Qed.

Lemma run_adapter_ok wl ms b (b' : Z * string) :
  b ∈ reference_blocks -> b' ∈ report_order -> b.1 = b'.1 -> wl <> BENCH_WL_ALL -> zlen (base_ctrs (ms_statics ms)) = 32 -> zlen (ms_results ms) < BENCH_MAX_RESULTS ->
  exists ms' new, run_adapter c_exp now_text disk baseline_mem plenty create args wl ms b = Ok ms' /\ grows ms ms' new /\
    labels new = map (pair wl) (names_of created args wl [b']).
Proof.
  intros Hb Hb' Heq Hwl Hst Hl. destruct b as [bit trains], b' as [bit' name]. cbn [fst] in Heq. subst bit'.
  unfold run_adapter, names_of, reported, selected, created. cbn [List.filter fst].
  assert (grows ms ms []) as Hsame by (split; [by rewrite app_nil_r|done]).
  destruct (Z.land (a_compressor_mask args) bit =? 0) eqn:Em; cbn [negb andb]; [exists ms, []; done|].
  destruct (create args bit wl) as [[T c s static]|] eqn:Ec; [|exists ms, []; done].
  destruct (Hcreate _ _ _ _ _ Hb Hb' Ec) as (I & Hc & Hname & Hdes & Htr). cbn [ad_vtable ad_init ad_state] in *.
  assert (exists s1 st1, (match (if trains then bc_train c else None) with
        | Some f => '(_, s, st) ← f s wl (a_seed args) (a_train_count args) (ms_statics ms); Ok (s, st)
        | None => Ok (s, ms_statics ms) end) = Ok (s1, st1) /\ I s1 /\ zlen (base_ctrs st1) = 32) as (s1 & st1 & E & Hi & Hst1).
  { destruct (if trains then bc_train c else None) as [f|]; [|by exists s, (ms_statics ms)].
    destruct Hargs as (_ & _ & _ & _ & Ht & _). destruct (Htr wl (a_seed args) (a_train_count args) (ms_statics ms) Hwl Hst Ht) as (rc & s1 & st1 & E & Hi & Hs1).
    exists s1, st1. rewrite E. by mstep. }
  rewrite E. mstep. cbv zeta.
  destruct (run_compressor_ok c I name wl bit s1 (with_statics ms st1) Hc Hname Hi Hwl Hst1 Hl) as (s2 & ms2 & new & -> & Hi2 & Hg & Hw). mstep.
  assert ((if bit =? BENCH_COMP_OODLE_UDP then oodle_udp_gates args wl ms2 else Ok ms2) = Ok ms2) as ->.
  { destruct Hargs as (_ & Ho & _). unfold oodle_udp_gates. rewrite Ho. cbn [andb]. by destruct (bit =? _), (ms_netc_wl001 ms2). }
  mstep. rewrite Hdes by done. mstep. cbn [with_statics ms_results]. destruct static.
  - by exists ms2, new.
  - eexists _, _. split; [reflexivity|]. split; [by apply (die_grows (with_statics ms st1))|]. by rewrite labels_dead.
Qed.

Lemma grows_trans ms ms1 ms2 l1 l2 : grows ms ms1 l1 -> grows ms1 ms2 l2 -> grows ms ms2 (l1 ++ l2).
Proof. intros (H1 & H2 & H3) (H4 & H5 & H6). split; [by rewrite H4, H1, app_assoc|]. split; [congruence|done]. Qed.

Lemma run_adapters_ok wl bs bs' :
  Forall2 (fun (b : Z * bool) (b' : Z * string) => b.1 = b'.1) bs bs' -> forall ms,
  bs ⊆ reference_blocks -> bs' ⊆ report_order -> wl <> BENCH_WL_ALL -> zlen (base_ctrs (ms_statics ms)) = 32 ->
  zlen (ms_results ms) + zlen bs <= BENCH_MAX_RESULTS ->
  exists ms' new, foldM (run_adapter c_exp now_text disk baseline_mem plenty create args wl) ms bs = Ok ms' /\ grows ms ms' new /\
    labels new = map (pair wl) (names_of created args wl bs').
Proof.
  induction 1 as [|b b' bs bs' Hbb _ IH]; intros ms Hsub Hsub' Hwl Hst Hl.
  { exists ms, []. split; [done|]. split; [split; [by rewrite app_nil_r|done]|done]. }
  cbn [length] in Hl. destruct (run_adapter_ok wl ms b b') as (ms1 & n1 & E1 & Hg1 & Hw1);
    [apply Hsub; left|apply Hsub'; left|done|done|done|lia|].
  cbn [foldM]. rewrite E1. mstep. pose proof Hg1 as (Hr1 & _ & Hst1).
  assert (length n1 <= 1)%nat as Hn1. { rewrite <- length_labels, Hw1, length_map. apply (names_of_bound created args wl [b']). }
  destruct (IH ms1) as (ms2 & n2 & E2 & Hg2 & Hw2); [intros x Hx; apply Hsub; by right|intros x Hx; apply Hsub'; by right|done|done| |].
  { rewrite Hr1, length_app. lia. }
  exists ms2, (n1 ++ n2). split; [done|]. split; [by eapply grows_trans|]. unfold labels in *. rewrite map_app, Hw1, Hw2.
  unfold names_of. cbn [List.filter]. by destruct (reported created args wl b').
Qed.

(** netc's own run adds one result, whose name is gone afterwards. *)
Lemma run_netc_ok wl ms :
  wl <> BENCH_WL_ALL -> zlen (base_ctrs (ms_statics ms)) = 32 -> zlen (ms_results ms) < BENCH_MAX_RESULTS ->
  exists ms' r, run_netc c_exp cpu now_text plenty netc_plenty args wl ms = Ok ms' /\ ms_results ms' = ms_results ms ++ [r] /\
    sr_dead r = true /\ labels [r] = [(wl, netc_label cpu args)] /\ zlen (base_ctrs (ms_statics ms')) = 32 /\
    (ms_netc_wl001 ms' = if decide (wl = BENCH_WL_001) then Some (sr_result r) else ms_netc_wl001 ms).
Proof.
  intros Hwl Hst Hl. destruct Hargs as (_ & _ & Hwu & Hn & Ht & Hs & Hca). pose proof (netc_flags_ok _ Hca) as Hf.
  unfold run_netc. cbn [netc_plenty ne_buf ne_mem ne_storage plenty re_now re_mem].
  destruct (init_ready cpu (netc_flags args) (a_simd_level args) BENCH_CORPUS_MAX_PKT Hf) as (n & -> & Hr & Hfl & Hsl & _ & Hlv & Hnm).
  assert (exists n1 st1, (if a_no_dict args then Ok (n, ms_statics ms) else
      '(_, n, st) ← bench_netc_train c_exp cpu mem_ok mem_ok mem_ok mem_ok storage n wl (a_seed args) (a_train_count args) (ms_statics ms);
      Ok (n, st)) = Ok (n1, st1) /\ ready n1 /\ zlen (base_ctrs st1) = 32 /\ n_name n1 = netc_label cpu args) as (n1 & st1 & E & Hr1 & Hst1 & Hn1).
  { destruct (a_no_dict args) eqn:Ed; [exists n, (ms_statics ms); rewrite Hnm, netc_flags_label; [done|done|by rewrite Ed]|].
    destruct (train_ready c_exp cpu storage n wl (a_seed args) (a_train_count args) (ms_statics ms)) as (n1 & st1 & E & Hr1 & _ & Hst1 & Hlab);
      try done; [lia|by rewrite Hfl|]. exists n1, st1. rewrite E. mstep. split_and!; try done.
    rewrite Hlab, Hfl, Hlv. apply netc_flags_label; [done|by rewrite Ed]. }
  rewrite E. mstep.
  destruct (run_passes c_exp (now wl BENCH_COMP_NETC) (RunCfg (a_warmup args) (a_count args) (a_seed args)) wl n1 st1 _ Hwl Hr1 Hst1 Hwu Hn)
    as (res & n2 & st2 & pkts & outs & -> & _ & Hst2 & _ & Hrw & _ & Hrc & _). mstep. cbv zeta.
  destruct (record_ok (with_statics ms st2) res Hl Hst2) as (res' & -> & Hw & Hc'). cbn [with_statics ms_results ms_netc_wl001 ms_statics].
  eexists _, (Stored res' true). split; [reflexivity|].
  destruct (decide (wl = BENCH_WL_001)); unfold name_dies, with_results, with_netc; cbn [ms_results ms_netc_wl001 ms_statics sr_dead sr_result];
    rewrite take_app_length, drop_app_length; split_and!; try done; unfold labels; cbn [map sr_result]; by rewrite Hw, Hrw, Hc', Hrc, Hn1.
Qed.

(** Progress of the workload loop: the results so far, of which the first is
    netc's on WL-001 with a dead name if that run was selected. *)
Definition first_is_netc (ms : main_state) : Prop :=
  ms_netc_wl001 ms <> None /\ exists r rs, ms_results ms = r :: rs /\ sr_dead r = true /\ r_workload (sr_result r) = BENCH_WL_001.

Lemma grows_first ms ms' new : grows ms ms' new -> first_is_netc ms -> first_is_netc ms'.
Proof. intros (H1 & H2 & _) (Hn & r & rs & Hr & Hd). split; [by rewrite H2|]. exists r, (rs ++ new). by rewrite H1, Hr. Qed.

Lemma wl_of_int_ne k : 1 <= k <= 8 -> workload_of_int k <> BENCH_WL_ALL.
Proof.
  intros Hk. assert (k ∈ seqZ 1 8) as H by (apply elem_of_seqZ; lia). revert H.
  change (seqZ 1 8) with [1; 2; 3; 4; 5; 6; 7; 8]. rewrite !elem_of_cons, elem_of_nil. intros H. by repeat destruct H as [->|H].
Qed.

Lemma blocks_reported : Forall2 (fun (b : Z * bool) (b' : Z * string) => b.1 = b'.1) reference_blocks report_order.
Proof. by repeat constructor. Qed.

Abbreviation expect_on := (expected_on cpu created args).
Abbreviation netc_selected := (selected args BENCH_COMP_NETC).

Lemma run_workload_ok k ms :
  1 <= k <= 8 -> zlen (base_ctrs (ms_statics ms)) = 32 -> zlen (ms_results ms) <= 12 * (k - 1) ->
  exists ms', run_workload c_exp cpu now_text disk baseline_mem plenty netc_plenty create args ms k = Ok ms' /\
    labels (ms_results ms') = labels (ms_results ms) ++ expect_on k /\ zlen (base_ctrs (ms_statics ms')) = 32 /\
    zlen (ms_results ms') <= 12 * k /\ (first_is_netc ms -> k <> 1 -> first_is_netc ms') /\
    (k = 1 -> ms_results ms = [] -> netc_selected = true -> Z.land (a_workload_mask args) 2 <> 0 -> first_is_netc ms').
Proof.
  intros Hk Hst Hl. unfold run_workload, expected_on. destruct (Z.land (a_workload_mask args) (2 ^ k) =? 0) eqn:Em.
  { exists ms. split; [done|]. rewrite app_nil_r. split_and!; try done; [lia|]. intros -> _ _ Hne. apply Z.eqb_eq in Em. done. }
  pose proof (wl_of_int_ne k Hk) as Hwl. pose proof (names_on_bound cpu created args (workload_of_int k)) as Hb. set (wl := workload_of_int k) in *.
  assert (exists ms1 new1, (if Z.land (a_compressor_mask args) BENCH_COMP_NETC =? 0 then Ok ms else run_netc c_exp cpu now_text plenty netc_plenty args wl ms) = Ok ms1 /\
    ms_results ms1 = ms_results ms ++ new1 /\ labels new1 = map (pair wl) (if netc_selected then [netc_label cpu args] else []) /\
    zlen (base_ctrs (ms_statics ms1)) = 32 /\
    (first_is_netc ms -> k <> 1 -> first_is_netc ms1) /\ (k = 1 -> ms_results ms = [] -> netc_selected = true -> first_is_netc ms1))
    as (ms1 & new1 & E1 & Hr1 & Hw1 & Hst1 & Hf1 & Hf2).
  { unfold selected. destruct (Z.land (a_compressor_mask args) BENCH_COMP_NETC =? 0) eqn:En; cbn [negb].
    - exists ms, []. rewrite app_nil_r. by split_and!.
    - destruct (run_netc_ok wl ms Hwl Hst ltac:(unfold BENCH_MAX_RESULTS; lia)) as (ms1 & r & E & Hr & Hd & Hw & Hs & Hn). exists ms1, [r].
      split; [done|]. split; [done|]. split; [done|]. split; [done|]. split.
      + intros (Hne & r0 & rs & Hr0 & Hd0) Hk1. split; [rewrite Hn; by destruct (decide _)|]. exists r0, (rs ++ [r]). by rewrite Hr, Hr0.
      + intros -> He _. split; [by rewrite Hn|]. exists r, []. injection Hw as Hw _. by rewrite Hr, He. }
  rewrite E1. mstep.
  assert (length new1 <= 1)%nat as Hn1. { rewrite <- length_labels, Hw1. destruct netc_selected; cbn [map length]; lia. }
  destruct (run_adapters_ok wl _ _ blocks_reported ms1) as (ms2 & new2 & -> & Hg & Hw2); [done|done|done|done| |].
  { rewrite Hr1, length_app. change (zlen reference_blocks) with 11. unfold BENCH_MAX_RESULTS. lia. }
  pose proof Hg as (Hr2 & _ & Hst2). exists ms2. split; [done|].
  assert (labels (ms_results ms2) = labels (ms_results ms) ++ map (pair wl) (names_on cpu created args wl)) as Hall.
  { rewrite Hr2, Hr1. unfold labels in *. rewrite !map_app, Hw1, Hw2. unfold names_on. by rewrite map_app, app_assoc. }
  split; [done|]. split; [done|]. split.
  { rewrite <- length_labels, Hall, length_app, length_labels, length_map. lia. }
  split; intros; eapply grows_first; eauto.
Qed.

(** The whole loop. *)
Lemma main_loop_ok ms0 :
  zlen (base_ctrs (ms_statics ms0)) = 32 -> ms_results ms0 = [] ->
  exists ms, foldM (run_workload c_exp cpu now_text disk baseline_mem plenty netc_plenty create args) ms0 (seqZ 1 8) = Ok ms /\
    labels (ms_results ms) = expected cpu created args /\ (netc_selected = true -> Z.land (a_workload_mask args) 2 <> 0 -> first_is_netc ms).
Proof.
  intros Hst Hr.
  destruct (foldM_seqZ (fun k ms => zlen (base_ctrs (ms_statics ms)) = 32 /\ zlen (ms_results ms) <= 12 * (k - 1) /\
      labels (ms_results ms) = concat (map expect_on (seqZ 1 (k - 1))) /\ (k = 1 -> ms_results ms = []) /\
      (1 < k -> netc_selected = true -> Z.land (a_workload_mask args) 2 <> 0 -> first_is_netc ms)) 1 8
      (run_workload c_exp cpu now_text disk baseline_mem plenty netc_plenty create args) ms0) as (ms & E & _ & _ & Hw & _ & Hf); [lia| | |].
  { rewrite Hr. split_and!; try done. }
  { intros k ms Hk (H1 & H2 & H3 & H4 & H5). destruct (run_workload_ok k ms ltac:(lia) H1 H2) as (ms' & E & Hw & Hs & Hl & Hf1 & Hf2).
    exists ms'. split; [done|]. split; [done|]. split; [lia|]. split; [|split; [lia|]].
    - replace (k + 1 - 1) with (Z.succ (k - 1)) by lia. rewrite seqZ_snoc by lia. rewrite map_app, concat_app, <- H3, Hw. cbn [map concat].
      rewrite app_nil_r. do 2 f_equal. lia.
    - intros _ Hn Hm. destruct (Z.eq_dec k 1) as [->|Hne]; [by apply Hf2; [|apply H4|..]|]. apply Hf1; [|done]. apply H5; [lia|done|done]. }
  exists ms. split; [done|]. split; [exact Hw|]. intros. apply Hf; [lia|done|done].
Qed.
End Correct.

(** ** Properties *)

(** The arguments of a command line that is accepted. *)
Definition parsed (argv : list string) : bench_args_t := match parse_args argv with Ok (_, a) => a | _ => args_init end.

(** Without gates every run finishes and is stored. *)
Lemma main_completes (c_exp : spec_float -> spec_float) (cpu : simd_caps) (now_text : string) (disk : string -> option nat) (baseline_mem : option nat)
    (now : bench_workload_t -> Z -> nat -> Z) (storage : list Z) (create : bench_args_t -> Z -> bench_workload_t -> option adapter)
    (argv : list string) (args : bench_args_t) (st : corpus_statics) (fs : fs_t) :
  ExpOk c_exp -> parse_args argv = Ok (0, args) -> runnable args storage -> a_ci_check args = false -> zlen (base_ctrs st) = 32 ->
  (forall bit trains name wl ad, (bit, trains) ∈ reference_blocks -> (bit, name) ∈ report_order -> create args bit wl = Some ad ->
     adapter_ok trains name ad) ->
  exists ms, bench_main c_exp cpu now_text disk baseline_mem (plenty now) (netc_plenty storage) create true true true st fs argv = Ok (0, Some ms) /\
    labels (ms_results ms) = expected cpu (created create args) args.
Proof.
  intros He Hp Ha Hci Hst Hc. unfold bench_main. rewrite Hp. mstep. cbn [Z.eqb negb bench_reporter_open].
  replace (match a_output_file args with Some _ => true | None => true end) with true by (by destruct (a_output_file args)). cbn [negb].
  match goal with |- context [foldM _ ?m0 _] => destruct (main_loop_ok c_exp cpu now_text disk baseline_mem now storage create args Ha Hc m0 Hst eq_refl)
    as (ms & -> & Hw & _) end. mstep. rewrite Hci. eexists. split; [reflexivity|]. exact Hw.
Qed.

(** [--ci-check] reads names that are gone: whenever netc's run on WL-001 is
    selected (as it is by default), the comparison of its throughput with the other
    results starts with its own result, whose name lay in a local variable of the
    workload loop, so the behaviour is undefined. *)
Theorem ci_check_undefined (c_exp : spec_float -> spec_float) (cpu : simd_caps) (now_text : string) (disk : string -> option nat) (baseline_mem : option nat)
    (now : bench_workload_t -> Z -> nat -> Z) (storage : list Z) (create : bench_args_t -> Z -> bench_workload_t -> option adapter)
    (argv : list string) (args : bench_args_t) (st : corpus_statics) (fs : fs_t) :
  ExpOk c_exp -> parse_args argv = Ok (0, args) -> runnable args storage -> a_ci_check args = true -> zlen (base_ctrs st) = 32 ->
  selected args BENCH_COMP_NETC = true -> Z.land (a_workload_mask args) 2 <> 0 ->
  (forall bit trains name wl ad, (bit, trains) ∈ reference_blocks -> (bit, name) ∈ report_order -> create args bit wl = Some ad ->
     adapter_ok trains name ad) ->
  bench_main c_exp cpu now_text disk baseline_mem (plenty now) (netc_plenty storage) create true true true st fs argv = Undef.
Proof.
  intros He Hp Ha Hci Hst Hn Hm Hc. unfold bench_main. rewrite Hp. mstep. cbn [Z.eqb negb bench_reporter_open].
  replace (match a_output_file args with Some _ => true | None => true end) with true by (by destruct (a_output_file args)). cbn [negb].
  match goal with |- context [foldM _ ?m0 _] => destruct (main_loop_ok c_exp cpu now_text disk baseline_mem now storage create args Ha Hc m0 Hst eq_refl)
    as (ms & -> & _ & Hf) end. mstep. rewrite Hci. destruct (Hf Hn Hm) as (Hne & r & rs & Hr & Hd & Hw).
  unfold ci_verdict. cbn [ms_results ms_netc_wl001]. destruct (bench_ci_check _) as [rc ci]. destruct (ms_netc_wl001 ms) as [netc|]; [|done].
  assert (comp_gate netc ci r = Undef) as Hu.
  { unfold comp_gate. rewrite Hw. cbn [decide]. unfold read_name. by rewrite Hd. }
  rewrite Hr. cbn [foldM]. by rewrite Hu.
Qed.

Lemma ci_check_undefined_witness :
  bench_main (fun _ => f64_of_Z 20) no_simd "2026-01-01T00:00:00Z" (fun _ => Some 4096%nat) (Some 4096%nat) (plenty (fun _ _ k => Z.of_nat k))
      (netc_plenty (replicate (Z.to_nat 1024) 0)) (fun _ _ _ => None) true true true statics0 (fun _ => None)
      ["--ci-check"; "--count=2"; "--warmup=1"; "--train=2"]%string = Undef.
Proof.
  apply (ci_check_undefined (fun _ => f64_of_Z 20) no_simd "2026-01-01T00:00:00Z" (fun _ => Some 4096%nat) (Some 4096%nat) (fun _ _ k => Z.of_nat k)
    (replicate (Z.to_nat 1024) 0) (fun _ _ _ => None) ["--ci-check"; "--count=2"; "--warmup=1"; "--train=2"]%string
    (parsed ["--ci-check"; "--count=2"; "--warmup=1"; "--train=2"]%string));
    [apply exp_const_ok|vm_compute; reflexivity| |reflexivity|reflexivity|reflexivity|vm_compute; congruence|discriminate].
  repeat split; vm_compute; congruence.
Defined.

(** A number is not greater than itself. *)
Lemma SFltb_irrefl x : SFltb x x = false.
Proof. unfold SFltb, SFcompare. destruct x as [[]|[]| |[] m e]; try done; by rewrite Z.compare_refl, Pos.compare_cont_refl. Qed.

(** Even with the names kept, netc would be measured against itself, and fail:
    its adapter is never called "netc". *)
Theorem netc_gated_against_itself (n : bench_netc_t) (dct : string) (netc : bench_result_t) (ci : bench_ci_report_t) :
  r_compressor netc = adapter_name n dct -> r_workload netc = BENCH_WL_001 -> zlen (ci_gates ci) < BENCH_MAX_GATES ->
  exists ci', comp_gate netc ci (Stored netc false) = Ok ci' /\ ci_all_passed ci' = false.
Proof.
  intros Hn Hw Hl. unfold comp_gate. rewrite decide_False by (cbn; by rewrite Hw; intros Hx; apply Hx). cbn [read_name sr_dead sr_result].
  mstep. rewrite Hn. unfold adapter_name, snprintf. rewrite (proj2 (Z.ltb_lt _ _)) by done.
  cbn [String.append substring Nat.sub String.eqb Ascii.eqb Bool.eqb]. cbv iota. cbn [String.prefix].
  rewrite SFltb_irrefl. eexists. by split.
Qed.
