(* ===== verification/BenchFactories.v ===== *)
(** * The factories of the main program

    The adapters that src/bench/bench_main.c creates for each compressor, with
    the build options of src/bench/CMakeLists.txt, and the proof that they keep
    the promise the main loop relies on. *)

From Stdlib Require Import String.
From stdpp Require Import prelude.
From Stdlib Require Import ZArith Lia SpecFloat.
From S2P Require Import Prelude Simd Session Transport Double CText Corpus Replay BenchRun BenchNetc BenchArgs BenchBaseline BenchAdapters BenchOodle BenchMain.

Local Open Scope Z_scope.

(** The compression libraries of a build.  A library that is left out is one that
    compresses nothing: the adapters of Snappy and Huffman exist without it, the
    others are created only if it is there. *)
Record libraries : Type := Libraries {
  with_zlib : bool;
  compress2 : list Z -> Z -> Z -> option (list Z);
  uncompress : list Z -> Z -> option (list Z);
  deflateInit2 : bool;
  deflate : list Z -> Z -> Z * list Z;
  with_lz4 : bool;
  LZ4_compressBound : Z -> Z;
  LZ4_compress_HC : list Z -> Z -> Z -> Z -> list Z;
  LZ4_compress_default : list Z -> Z -> Z -> list Z;
  LZ4_decompress_safe : list Z -> Z -> Z -> list Z;
  LZ4HC_CLEVEL_MAX : Z;
  snappy_compress : list Z -> Z -> option (list Z);
  snappy_uncompress : list Z -> Z -> option (list Z);
  with_zstd : bool;
  CCtx : Type;
  DCtx : Type;
  CDict : Type;
  DDict : Type;
  ZSTD_createCCtx : option CCtx;
  ZSTD_createDCtx : option DCtx;
  ZSTD_compressCCtx : CCtx -> list Z -> Z -> Z -> CCtx * option (list Z);
  ZSTD_compress_usingCDict : CCtx -> list Z -> Z -> CDict -> CCtx * option (list Z);
  ZSTD_decompressDCtx : DCtx -> list Z -> Z -> DCtx * option (list Z);
  ZSTD_decompress_usingDDict : DCtx -> list Z -> Z -> DDict -> DCtx * option (list Z);
  ZDICT_trainFromBuffer : Z -> list Z -> list Z -> Z -> option (list Z);
  ZSTD_createCDict : list Z -> Z -> option CDict;
  ZSTD_createDDict : list Z -> option DDict;
  with_oodle : bool;
  Shared : Type;
  UDP : Type;
  TCP : Type;
  Shared_SetWindow : Z -> list Z -> Shared;
  UDP_Train : Shared -> list (list Z) -> UDP;
  UDP_Encode : UDP -> Shared -> list Z -> list Z;
  UDP_Decode : UDP -> Shared -> list Z -> Z -> option (list Z);
  TCP_Train : Shared -> list (list Z) -> TCP;
  TCP_Encode : TCP -> Shared -> list Z -> TCP * list Z;
  TCP_Decode : TCP -> Shared -> list Z -> Z -> TCP * option (list Z) }.

Section Factories.
Context (L : libraries) (c_exp : spec_float -> spec_float) (window_buf train_buf : Z -> list Z).

Definition zlib_adapter (lvl : Z) : option adapter :=
  if with_zlib L then
    a ← Zlib.bench_zlib_create true lvl; Some (Pack _ (Zlib.zlib_vtable (compress2 L) (uncompress L)) a false)
  else None.
Definition lz4_adapter (hc : bool) : option adapter :=
  if with_lz4 L then
    a ← Lz4.bench_lz4_create (LZ4HC_CLEVEL_MAX L) true hc;
    Some (Pack _ (Lz4.lz4_vtable (LZ4_compressBound L) (LZ4_compress_HC L) (LZ4_compress_default L) (LZ4_decompress_safe L) (LZ4HC_CLEVEL_MAX L)) a false)
  else None.
Definition zstd_adapter (lvl : Z) (dict : bool) : option adapter :=
  if with_zstd L then
    a ← Zstd.bench_zstd_create (CDict := CDict L) (DDict := DDict L) true (ZSTD_createCCtx L) (ZSTD_createDCtx L) lvl dict;
    Some (Pack _ (Zstd.zstd_vtable (ZSTD_compressCCtx L) (ZSTD_compress_usingCDict L) (ZSTD_decompressDCtx L) (ZSTD_decompress_usingDDict L)
                    (ZDICT_trainFromBuffer L) (ZSTD_createCDict L) (ZSTD_createDDict L) c_exp (fun _ => true) dict) a false)
  else None.
Definition huffman_adapter : option adapter :=
  s ← Huffman.bench_huffman_create true; Some (Pack _ (Huffman.huf_vtable (deflateInit2 L) (deflate L) (uncompress L)) s true).
Definition snappy_adapter : option adapter :=
  s ← Snappy.bench_snappy_create true; Some (Pack _ (Snappy.snappy_vtable (snappy_compress L) (snappy_uncompress L)) s true).
Definition oodle_adapter (s : option (@oodle_state_t (Shared L) (UDP L) (TCP L))) : option adapter :=
  if with_oodle L then
    s ← s; Some (Pack _ (oodle_vtable (Shared_SetWindow L) (UDP_Train L) (UDP_Encode L) (UDP_Decode L) (TCP_Train L) (TCP_Encode L) (TCP_Decode L) c_exp
                           (fun _ => true) window_buf train_buf) s true)
  else None.

(** The adapter of each block of the main loop. *)
Definition create_adapter (args : bench_args_t) (bit : Z) (wl : bench_workload_t) : option adapter :=
  if bit =? BENCH_COMP_ZLIB1 then zlib_adapter 1
  else if bit =? BENCH_COMP_ZLIB6 then zlib_adapter 6
  else if bit =? BENCH_COMP_LZ4 then lz4_adapter false
  else if bit =? BENCH_COMP_LZ4HC then lz4_adapter true
  else if bit =? BENCH_COMP_ZSTD1 then zstd_adapter 1 false
  else if bit =? BENCH_COMP_ZSTD3 then zstd_adapter 3 false
  else if bit =? BENCH_COMP_ZSTD1D then zstd_adapter 1 true
  else if bit =? BENCH_COMP_HUFFMAN then huffman_adapter
  else if bit =? BENCH_COMP_SNAPPY then snappy_adapter
  else if bit =? BENCH_COMP_OODLE_UDP then oodle_adapter (bench_oodle_udp_create true (a_oodle_htbits args))
  else if bit =? BENCH_COMP_OODLE_TCP then oodle_adapter (bench_oodle_tcp_create true (a_oodle_htbits args))
  else None.

(** What the libraries' manuals promise, and the memory Oodle's training gets.
    That Oodle's packets fit the loop's buffer is not among it. *)
Class LibrariesOk (in_step : TCP L -> TCP L -> Prop) (needed : Z -> Z) : Prop := {
  lib_zlib : Zlib.ZlibOk (compress2 L) (uncompress L);
  lib_deflate : Huffman.DeflateOk (deflate L) (uncompress L);
  lib_lz4 : Lz4.Lz4Ok (LZ4_compressBound L) (LZ4_compress_HC L) (LZ4_compress_default L) (LZ4_decompress_safe L);
  lib_snappy : Snappy.SnappyOk (snappy_compress L) (snappy_uncompress L);
  lib_zstd : Zstd.ZstdOk (ZSTD_compressCCtx L) (ZSTD_compress_usingCDict L) (ZSTD_decompressDCtx L) (ZSTD_decompress_usingDDict L)
               (ZSTD_createCDict L) (ZSTD_createDDict L);
  lib_oodle : OodleOk (UDP_Encode L) (UDP_Decode L) (TCP_Encode L) (TCP_Decode L) in_step needed;
  lib_room : forall n, 0 <= n < 2 ^ 22 -> zlen (window_buf n) = n * BENCH_CORPUS_MAX_PKT /\ zlen (train_buf n) = n * BENCH_CORPUS_MAX_PKT }.

(** The compressors of the build: the reference compressors that can be created
    when memory suffices. *)
Definition available (bit : Z) : bool :=
  if (bit =? BENCH_COMP_ZLIB1) || (bit =? BENCH_COMP_ZLIB6) then with_zlib L
  else if (bit =? BENCH_COMP_LZ4) || (bit =? BENCH_COMP_LZ4HC) then with_lz4 L
  else if (bit =? BENCH_COMP_ZSTD1) || (bit =? BENCH_COMP_ZSTD3) || (bit =? BENCH_COMP_ZSTD1D) then
    with_zstd L && bool_decide (is_Some (ZSTD_createCCtx L)) && bool_decide (is_Some (ZSTD_createDCtx L))
  else if (bit =? BENCH_COMP_HUFFMAN) || (bit =? BENCH_COMP_SNAPPY) then true
  else if (bit =? BENCH_COMP_OODLE_UDP) || (bit =? BENCH_COMP_OODLE_TCP) then with_oodle L
  else false.

Lemma created_available args bit name wl :
  (bit, name) ∈ report_order -> created (create_adapter) args bit wl = available bit.
Proof.
  unfold report_order. rewrite !elem_of_cons, elem_of_nil. intros H. unfold created, create_adapter, available.
  repeat destruct H as [[= -> ->]|H]; [..|done]; cbn -[zlib_adapter lz4_adapter zstd_adapter oodle_adapter];
    unfold zlib_adapter, lz4_adapter, zstd_adapter, oodle_adapter, Zstd.bench_zstd_create.
  1-4, 8-9: by destruct (with_zlib L), (with_lz4 L).
  all: cbn [negb mbind option_bind].
  1-3: destruct (with_zstd L); [|done]; destruct (ZSTD_createCCtx L) as [c|] eqn:Ec, (ZSTD_createDCtx L) as [d|] eqn:Ed; cbn [mbind option_bind andb];
    repeat rewrite ?bool_decide_true, ?bool_decide_false by (by (eexists || intros [? ?])); done.
  all: by destruct (with_oodle L).
Qed.

Context (in_step : TCP L -> TCP L -> Prop) (needed : Z -> Z) `{!LibrariesOk in_step needed} `{!ExpOk c_exp}
  (oodle_fits : with_oodle L = true -> buffer_suffices needed).

(** An adapter that keeps its promise keeps it under its name. *)
Lemma named_adapter {S} (c : bench_compressor_t S) (I : S -> Prop) (s : S) (static : bool) (name : string) :
  BcOk c I -> KeepsName c -> (forall s, bc_destroy c s = Ok tt) -> I s -> bc_name c s = name -> adapter_ok false name (Pack _ c s static).
Proof.
  intros Hc Hk Hd Hs Hn. exists (fun s => I s /\ bc_name c s = name). split; [by apply named_ok|]. split; [by intros ? [_ ?]|].
  split; [by intros; apply Hd|]. done.
Qed.

Lemma zlib_adapter_ok lvl name ad : snprintf 32 ("zlib-" ++ fmt_d lvl) = name -> zlib_adapter lvl = Some ad -> adapter_ok false name ad.
Proof. unfold zlib_adapter. case_if; [|done]. intros Hn [= <-]. by eapply named_adapter; [apply Zlib.zlib_ok, lib_zlib|apply Zlib.zlib_name|..]. Qed.

Lemma lz4_adapter_ok hc ad : lz4_adapter hc = Some ad -> adapter_ok false (if hc then "lz4-hc" else "lz4-fast") ad.
Proof.
  unfold lz4_adapter. case_if; [|done]. intros H. apply bind_Some in H as (a & Ha & [= <-]).
  eapply named_adapter; [apply Lz4.lz4_ok, lib_lz4|apply Lz4.lz4_name|done|done|]. by destruct hc; injection Ha as <-.
Qed.

Lemma zstd_adapter_ok lvl dict ad :
  zstd_adapter lvl dict = Some ad -> adapter_ok dict (snprintf 48 (if dict then "zstd-" ++ fmt_d lvl ++ "-dict" else "zstd-" ++ fmt_d lvl)) ad.
Proof.
  unfold zstd_adapter. case_if; [|done]. intros H. apply bind_Some in H as (a & Ha & [= <-]).
  set (name := snprintf 48 _).
  assert (Zstd.paired (ZSTD_createCDict L) (ZSTD_createDDict L) a /\ Zstd.name_buf a = name /\ Zstd.level a = lvl) as (Hp & Hn & Hl).
  { unfold Zstd.bench_zstd_create in Ha. cbn [negb] in Ha. repeat case_match; try done; injection Ha as <-; (split; [by left|done]). }
  set (I := Zstd.paired (ZSTD_createCDict L) (ZSTD_createDDict L)) in *.
  set (c := Zstd.zstd_vtable _ _ _ _ _ _ _ _ _ _). exists (fun s => I s /\ bc_name c s = name).
  split; [apply named_ok; [apply Zstd.zstd_ok, lib_zstd|apply Zstd.zstd_name]|]. split; [by intros ? [_ ?]|]. split; [done|].
  cbn [ad_vtable ad_init]. unfold c at 1. destruct dict; [|done]. cbn [bc_train Zstd.zstd_vtable]. intros wl seed n st Hwl Hst Hcnt.
  assert (exists rc s' st', Zstd.zstd_train (ZDICT_trainFromBuffer L) (ZSTD_createCDict L) (ZSTD_createDDict L) c_exp (fun _ => true) a wl seed n st
    = Ok (rc, s', st') /\ I s' /\ zlen (base_ctrs st') = 32) as (rc & s' & st' & Et & Hp' & Hst').
  { apply Zstd.zstd_train_ok; [done|done|done|lia|done]. }
  exists rc, s', st'. split; [exact Et|]. split; [|done]. split; [done|]. change (bc_name c s') with (Zstd.name_buf s').
  eapply Zstd.zstd_train_name in Et; [congruence|]. by rewrite Hl.
Qed.

Lemma huffman_adapter_ok ad : huffman_adapter = Some ad -> adapter_ok true "huffman-static" ad.
Proof.
  intros [= <-]. exists (fun _ => True). split; [apply Huffman.huf_ok, lib_deflate|]. split; [done|]. split; [done|].
  intros wl seed n st _ Hst _. by exists 0, tt, st.
Qed.

Lemma snappy_adapter_ok ad : snappy_adapter = Some ad -> adapter_ok false "snappy" ad.
Proof. intros [= <-]. by eapply named_adapter; [apply Snappy.snappy_ok, lib_snappy|apply Snappy.snappy_name|..]. Qed.

Lemma oodle_adapter_ok m bits ad :
  oodle_adapter (oodle_create true m bits) = Some ad -> adapter_ok true (match m with OODLE_UDP => "oodle-udp" | OODLE_TCP => "oodle-tcp" end) ad.
Proof.
  unfold oodle_adapter. case_if; [|done]. intros [= <-]. set (name := match m with OODLE_UDP => _ | _ => _ end).
  set (c := oodle_vtable _ _ _ _ _ _ _ _ _ _ _). exists (fun s => oodle_ready in_step s /\ bc_name c s = name).
  split; [apply named_ok; [eapply oodle_ok; [apply lib_oodle|by apply oodle_fits]|apply oodle_name]|]. split; [by intros ? [_ ?]|].
  split; [intros s1 [[Hw _] _]; cbn; unfold oodle_destroy; by rewrite Hw|].
  cbn [ad_vtable ad_init]. unfold c at 1. cbn [bc_train oodle_vtable]. intros wl seed n st Hwl Hst Hn. destruct (lib_room n Hn) as [H1 H2].
  destruct (oodle_train_ok (Shared_SetWindow L) (UDP_Train L) (UDP_Encode L) (UDP_Decode L) (TCP_Train L) (TCP_Encode L) (TCP_Decode L) c_exp in_step needed
    (OodleOk0 := lib_oodle) (window_buf n) (train_buf n) (Oodle m bits None Null 0 None (Missing _) (Missing _) (Missing _)) wl seed n st _ Hwl Hst Hn H1 H2)
    as (s1 & st1 & Et & Hr & Hm & Hs1).
  exists 0, s1, st1. split; [done|]. split; [|done]. split; [done|]. unfold c, name. cbn [bc_name oodle_vtable]. by rewrite Hm.
Qed.

(** Each block has one name. *)
Lemma report_name bit name : (bit, name) ∈ report_order -> snd <$> List.find (fun b => b.1 =? bit) report_order = Some name.
Proof. unfold report_order. rewrite !elem_of_cons, elem_of_nil. intros H. by repeat destruct H as [[= -> ->]|H]. Qed.

(** Every block gets an adapter that keeps its promise under its name. *)
Lemma create_adapter_ok args bit trains name wl ad :
  (bit, trains) ∈ reference_blocks -> (bit, name) ∈ report_order -> create_adapter args bit wl = Some ad -> adapter_ok trains name ad.
Proof.
  unfold reference_blocks. rewrite !elem_of_cons, !elem_of_nil. intros H Hn%report_name Hc.
  repeat destruct H as [[= -> ->]|H]; [..|done]; vm_compute in Hn; injection Hn as <-.
  - exact (zlib_adapter_ok 1 "zlib-1" ad eq_refl Hc).
  - exact (zlib_adapter_ok 6 "zlib-6" ad eq_refl Hc).
  - exact (lz4_adapter_ok false ad Hc).
  - exact (lz4_adapter_ok true ad Hc).
  - exact (zstd_adapter_ok 1 false ad Hc).
  - exact (zstd_adapter_ok 3 false ad Hc).
  - exact (zstd_adapter_ok 1 true ad Hc).
  - exact (huffman_adapter_ok ad Hc).
  - exact (snappy_adapter_ok ad Hc).
  - exact (oodle_adapter_ok OODLE_UDP _ ad Hc).
  - exact (oodle_adapter_ok OODLE_TCP _ ad Hc).
Qed.
End Factories.

(** ** Properties *)


(** Libraries that store what they are given: the promises can be kept. *)
Definition fits (m : list Z) (cap : Z) : option (list Z) := if zlen m <=? cap then Some m else None.
Definition stored_libraries : libraries :=
  Libraries true (fun m cap _ => fits m cap) fits true (fun m cap => if zlen m <=? cap then (1, m) else (0, []))
    true (fun n => n) (fun m _ _ _ => m) (fun m _ _ => m) (fun m _ _ => m) 12
    fits fits
    true unit unit unit unit (Some tt) (Some tt)
    (fun c m cap _ => (c, if zlen m <=? cap then Some m else None)) (fun c m cap _ => (c, if zlen m <=? cap then Some m else None))
    (fun d m cap => (d, if zlen m <=? cap then Some m else None)) (fun d m cap _ => (d, if zlen m <=? cap then Some m else None))
    (fun _ _ _ _ => Some [1; 2; 3]) (fun _ _ => Some tt) (fun _ => Some tt)
    true (list Z) unit unit window_only stored_train stored_udp stored_udp_decode stored_train stored_tcp stored_tcp_decode.

Definition zeros (n : Z) : list Z := replicate (Z.to_nat (n * 512)) 0.

Lemma fits_some m cap out : fits m cap = Some out -> out = m /\ zlen m <= cap.
Proof. unfold fits. case_if; [|done]. by intros [= <-]. Qed.

Lemma fits_ok m cap : zlen m <= cap -> fits m cap = Some m.
Proof. intros H. unfold fits. by rewrite (proj2 (Z.leb_le _ _)). Qed.

#[export] Instance stored_libraries_ok : LibrariesOk stored_libraries zeros zeros (fun _ _ => True) (fun n => n).
Proof.
  split.
  - split; [intros m cap lvl out H; by apply fits_some in H as [-> ?]|]. intros m cap lvl out cap' _ H Hl. apply fits_some in H as [-> _]. by apply fits_ok.
  - split; cbn [deflate uncompress stored_libraries].
    + intros m cap rc out Hc H. case_if_in H; injection H as <- <-; [done|]. cbn. lia.
    + intros m cap out cap' _ H Hl. case_if_in H; [|done]. injection H as <-. by apply fits_ok.
  - split; cbn; [done|]. intros m cap lvl cap' out _ _ _ _ [->| ->]; done.
  - split; [intros m cap out H; by apply fits_some in H as [-> ?]|]. intros m cap out cap' _ H Hl. apply fits_some in H as [-> _]. by apply fits_ok.
  - apply stored_zstd_ok.
  - apply stored_oodle_ok.
  - intros n Hn. unfold zeros, BENCH_CORPUS_MAX_PKT. rewrite length_replicate. lia.
Qed.

