(* ===== verification/BenchMulticore.v ===== *)
(** * The multi-core benchmark

    src/bench/bench_multicore.{h,c}: threads that each create a compressor and
    feed it a corpus of their own, and the aggregation of what they report.  A
    thread is a machine [thread_step] whose steps are the calls of [thread_fn];
    a pool runs threads in the order of a schedule, and joining a thread runs it
    to its end.  The threads share the function static objects of the corpus
    generators: entering a generator that uses them while another thread is
    inside is a data race, hence [Undef]. *)

From Stdlib Require Import String.
From stdpp Require Import prelude.
From Stdlib Require Import ZArith Lia SpecFloat.
From S2P Require Import Prelude Double CText Corpus Replay Train BenchStats Metering BenchRun BenchAdapters.

Local Open Scope Z_scope.

(** ** Data *)
Record bench_scaling_point_t : Type := Point {
  sp_nthreads : Z;
  sp_packets : Z;
  sp_original_bytes : Z;
  sp_compress_mbs : spec_float;
  sp_compress_mpps : spec_float;
  sp_scaling_efficiency : spec_float }.

Definition BENCH_SCALING_MAX_POINTS : Z := 8.

(** The points written so far; [n_points] is their number. *)
Record bench_scaling_report_t : Type := Scaling {
  sc_compressor : option string;
  sc_workload : bench_workload_t;
  sc_points : list bench_scaling_point_t }.

Record bench_multicore_cfg_t : Type := MultiCfg {
  mc_warmup : Z;
  mc_count : Z;
  mc_seed : Z;
  mc_train_n : Z;
  mc_thread_counts : list Z;
  mc_n_thread_counts : Z }.

(** The work item of a thread; the factory is a parameter of the model. *)
Record bench_thread_work_t : Type := Work {
  w_wl : bench_workload_t;
  w_seed : Z;
  w_train_n : Z;
  w_warmup : Z;
  w_count : Z;
  w_thread_id : Z;
  w_packets : Z;
  w_original_bytes : Z;
  w_compress_elapsed_s : spec_float }.

(** The local variables of [thread_fn] once the compressor exists. *)
Record frame (S : Type) : Type := Frame {
  f_state : S;
  f_corpus : bench_corpus_t;
  f_i : Z;
  f_t0 : Z;
  f_total_orig : Z;
  f_packets : Z }.
Arguments Frame {S}.
Arguments f_state {S}.
Arguments f_corpus {S}.
Arguments f_i {S}.
Arguments f_t0 {S}.
Arguments f_total_orig {S}.
Arguments f_packets {S}.

(** Where a thread is: before and inside the factory call; at the head of a
    loop, inside the corpus generator, before the compress call; returned. *)
Inductive loop_t : Type := Warmup | Measurement.
Inductive thread_pc (S : Type) : Type :=
| AtFactory | InFactory
| AtLoop (l : loop_t) (f : frame S)
| InCorpus (l : loop_t) (f : frame S)
| AtCompress (l : loop_t) (f : frame S) (pkt : list Z)
| Returned.
Arguments AtFactory {S}.
Arguments InFactory {S}.
Arguments AtLoop {S}.
Arguments InCorpus {S}.
Arguments AtCompress {S}.
Arguments Returned {S}.

(** The threads of a tier, the shared static objects, and the number of steps
    taken, which indexes the readings of the clock. *)
Record pool_t (S : Type) : Type := Pool {
  p_threads : list (bench_thread_work_t * thread_pc S);
  p_statics : corpus_statics;
  p_time : nat }.
Arguments Pool {S}.
Arguments p_threads {S}.
Arguments p_statics {S}.
Arguments p_time {S}.

Section Multicore.
(** The factory creates and trains a compressor, [trains] if it draws packets
    from a corpus to do so. *)
Context (c_exp : spec_float -> spec_float) (now : nat -> Z) {S : Type} (c : bench_compressor_t S)
  (factory : bench_workload_t -> Z -> Z -> corpus_statics -> outcome unit (option S * corpus_statics)) (trains : bool).

Definition set_corpus (f : frame S) (k : bench_corpus_t) : frame S :=
  Frame (f_state f) k (f_i f) (f_t0 f) (f_total_orig f) (f_packets f).

(** ** [thread_fn] *)
Definition thread_begin (w : bench_thread_work_t) (s : S) : thread_pc S :=
  AtLoop Warmup (Frame s (bench_corpus_init (w_wl w) (Z.lxor (w_seed w) (w_thread_id w))) 0 0 0 0).

(** The head of a loop: enter the body, or leave the loop at time [t]. *)
Definition loop_head (t : Z) (w : bench_thread_work_t) (l : loop_t) (f : frame S) : outcome unit (bench_thread_work_t * thread_pc S) :=
  match l with
  | Warmup =>
      if f_i f <? w_warmup w then Ok (w, InCorpus Warmup f)
      else Ok (w, AtLoop Measurement (Frame (f_state f) (f_corpus f) 0 t 0 0))
  | Measurement =>
      if f_i f <? w_count w then Ok (w, InCorpus Measurement f)
      else
        _ ← bc_destroy c (f_state f);
        Ok (Work (w_wl w) (w_seed w) (w_train_n w) (w_warmup w) (w_count w) (w_thread_id w) (f_packets f) (f_total_orig f)
              (f64_mul (f64_of_Z (u64 (t - f_t0 f))) (f64_lit 1 1000000000)), Returned)
  end.

(** The corpus calls of an iteration: the warm-up stops at an empty packet, the
    measurement resets the corpus and tries once more. *)
Definition loop_corpus (w : bench_thread_work_t) (l : loop_t) (f : frame S) (st : corpus_statics)
  : outcome unit (thread_pc S * corpus_statics) :=
  match l with
  | Warmup =>
      '(plen, x) ← bench_corpus_next c_exp (f_corpus f, st);
      let f := set_corpus f (fst x) in
      if plen =? 0 then Ok (AtLoop Warmup (Frame (f_state f) (f_corpus f) (w_warmup w) (f_t0 f) (f_total_orig f) (f_packets f)), snd x)
      else pkt ← peek (k_packet (fst x)) 0 plen; Ok (AtCompress Warmup f pkt, snd x)
  | Measurement =>
      '(pkt, x) ← next_packet c_exp (f_corpus f, st);
      Ok (AtCompress Measurement (set_corpus f (fst x)) pkt, snd x)
  end.

Definition loop_compress (l : loop_t) (f : frame S) (pkt : list Z) : outcome unit (thread_pc S) :=
  '(s, _) ← bc_compress c (f_state f) pkt SCRATCH_CAP;
  match l with
  | Warmup => Ok (AtLoop Warmup (Frame s (f_corpus f) (f_i f + 1) (f_t0 f) (f_total_orig f) (f_packets f)))
  | Measurement =>
      Ok (AtLoop Measurement (Frame s (f_corpus f) (f_i f + 1) (f_t0 f) (u64 (f_total_orig f + zlen pkt)) (u64 (f_packets f + 1))))
  end.

Definition thread_step (t : Z) (th : bench_thread_work_t * thread_pc S) (st : corpus_statics)
  : outcome unit (bench_thread_work_t * thread_pc S * corpus_statics) :=
  let '(w, pc) := th in
  match pc with
  | AtFactory => Ok (w, InFactory, st)
  | InFactory =>
      '(s, st) ← factory (w_wl w) (u64 (w_seed w + w_thread_id w * 1000003)) (w_train_n w) st;
      Ok (w, match s with Some s => thread_begin w s | None => Returned end, st)
  | AtLoop l f => '(w, pc) ← loop_head t w l f; Ok (w, pc, st)
  | InCorpus l f => '(pc, st) ← loop_corpus w l f st; Ok (w, pc, st)
  | AtCompress l f pkt => pc ← loop_compress l f pkt; Ok (w, pc, st)
  | Returned => Ok (w, Returned, st)
  end.

(** ** Threads running together *)

(** Inside code that accesses the static objects. *)
Definition in_statics (th : bench_thread_work_t * thread_pc S) : bool :=
  uses_statics (w_wl (fst th)) && match snd th with InFactory => trains | InCorpus _ _ => true | _ => false end.

Definition returned (th : bench_thread_work_t * thread_pc S) : bool := match snd th with Returned => true | _ => false end.

(** Two threads access the same objects, at least one to change them. *)
Definition racing (ths : list (bench_thread_work_t * thread_pc S)) : bool := (1 <? length (List.filter in_statics ths))%nat.

(** Thread [i] takes its next step; there is none if it has returned. *)
Definition pool_step (p : pool_t S) (i : nat) : outcome unit (pool_t S) :=
  match p_threads p !! i with
  | None => Ok p
  | Some th =>
      if returned th then Ok p else
      '(th, st) ← thread_step (now (p_time p)) th (p_statics p);
      let ths := <[i := th]> (p_threads p) in
      if racing ths then Undef else Ok (Pool ths st (p_time p + 1))
  end.

(** [bench_thread_join]: thread [i] runs to its end. *)
Fixpoint join (fuel : nat) (p : pool_t S) (i : nat) : outcome unit (pool_t S) :=
  match fuel with
  | O => Undef
  | Datatypes.S fuel =>
      if match p_threads p !! i with Some th => returned th | None => true end then Ok p
      else p ← pool_step p i; join fuel p i
  end.

(** Three steps for every packet, and those outside the loops. *)
Definition thread_steps (warmup count : Z) : nat := Z.to_nat (3 * (warmup + count) + 6).

(** ** [run_tier] *)
Definition work_item (cfg : bench_multicore_cfg_t) (wl : bench_workload_t) (i : Z) : bench_thread_work_t :=
  Work wl (mc_seed cfg) (mc_train_n cfg) (mc_warmup cfg) (mc_count cfg) i 0 0 f64_zero.

Definition aggregate (nthreads : Z) (work : list bench_thread_work_t) : bench_scaling_point_t :=
  let total_packets := foldl (fun a w => u64 (a + w_packets w)) 0 work in
  let total_bytes := foldl (fun a w => u64 (a + w_original_bytes w)) 0 work in
  let max_elapsed := foldl (fun m w => if SFltb m (w_compress_elapsed_s w) then w_compress_elapsed_s w else m) f64_zero work in
  Point nthreads total_packets total_bytes
    (if SFltb f64_zero max_elapsed
     then f64_div (f64_div (f64_of_Z total_bytes) (f64_mul (f64_of_Z 1024) (f64_of_Z 1024))) max_elapsed else f64_zero)
    (if SFltb f64_zero max_elapsed then f64_div (f64_div (f64_of_Z total_packets) (f64_of_Z 1000000)) max_elapsed else f64_zero)
    f64_zero.

(** How a tier is executed: whether its arrays could be allocated, how many
    threads could be created, and the order in which the threads take steps
    before the first one is joined. *)
Record execution : Type := Exec {
  ex_mem : bool;
  ex_created : nat;
  ex_schedule : list nat }.

(** The threads run in the order of the schedule, then are joined in turn. *)
Definition run_threads (cfg : bench_multicore_cfg_t) (work : list bench_thread_work_t) (sched : list nat) (st : corpus_statics) (t : nat)
  : outcome unit (pool_t S) :=
  p ← foldM pool_step (Pool (map (fun w => (w, AtFactory)) work) st t) sched;
  foldM (join (thread_steps (mc_warmup cfg) (mc_count cfg))) p (seq 0 (length work)).

Definition run_tier (e : execution) (cfg : bench_multicore_cfg_t) (wl : bench_workload_t) (nthreads : Z) (st : corpus_statics) (t : nat)
  : outcome unit (Z * option bench_scaling_point_t * corpus_statics * nat) :=
  if negb (ex_mem e) then Ok (-1, None, st, t) else
  let work := map (work_item cfg wl) (seqZ 0 nthreads) in
  p ← run_threads cfg (take (ex_created e) work) (ex_schedule e) st t;
  if (ex_created e <? length work)%nat then Ok (-1, None, p_statics p, p_time p)
  else Ok (0, Some (aggregate nthreads (map fst (p_threads p))), p_statics p, p_time p).

(** ** [bench_multicore_run] *)
Definition tier_step (execs : Z -> execution) (cfg : bench_multicore_cfg_t) (wl : bench_workload_t)
    (x : list bench_scaling_point_t * corpus_statics * nat) (i : Z) : outcome unit (list bench_scaling_point_t * corpus_statics * nat) :=
  let '(pts, st, t) := x in
  nthreads ← aget (mc_thread_counts cfg) i;
  let nthreads := if nthreads <=? 0 then 1 else nthreads in
  '(rc, pt, st, t) ← run_tier (execs i) cfg wl nthreads st t;
  Ok (match pt with Some pt => if rc =? 0 then pts ++ [pt] else pts | None => pts end, st, t).

(** The throughput of the first point with one thread. *)
Fixpoint single_mbs (pts : list bench_scaling_point_t) : spec_float :=
  match pts with
  | [] => f64_zero
  | pt :: pts' => if sp_nthreads pt =? 1 then sp_compress_mbs pt else single_mbs pts'
  end.

Definition with_efficiency (single : spec_float) (pt : bench_scaling_point_t) : bench_scaling_point_t :=
  Point (sp_nthreads pt) (sp_packets pt) (sp_original_bytes pt) (sp_compress_mbs pt) (sp_compress_mpps pt)
    (f64_div (sp_compress_mbs pt) (f64_mul (f64_of_Z (sp_nthreads pt)) single)).

Definition bench_multicore_run (execs : Z -> execution) (cfg : bench_multicore_cfg_t) (wl : bench_workload_t) (st : corpus_statics)
  : outcome unit (Z * bench_scaling_report_t * corpus_statics) :=
  let n := if BENCH_SCALING_MAX_POINTS <? mc_n_thread_counts cfg then BENCH_SCALING_MAX_POINTS else mc_n_thread_counts cfg in
  '(pts, st, _) ← foldM (tier_step execs cfg wl) ([], st, O) (seqZ 0 n);
  let single := single_mbs pts in
  let pts := if SFltb f64_zero single then map (with_efficiency single) pts else pts in
  Ok ((if 0 <? zlen pts then 0 else -1), Scaling None wl pts, st).
End Multicore.

(** ** [bench_scaling_report_print]: the text on the standard output *)
Definition scaling_line (a b c d : string) : string :=
  ("  " ++ pad_right 8 a ++ "  " ++ pad_right 12 b ++ "  " ++ pad_right 12 c ++ "  " ++ d ++ NL)%string.

Definition scaling_row (p : bench_scaling_point_t) : string :=
  scaling_line (fmt_d (sp_nthreads p)) (fmt_f 1 (sp_compress_mbs p)) (fmt_f 3 (sp_compress_mpps p))
    (fmt_f 1 (f64_mul (sp_scaling_efficiency p) (f64_of_Z 100)) ++ "%").

Definition scaling_report_text (r : bench_scaling_report_t) : string :=
  ("Multi-core scaling — " ++ default "?" (sc_compressor r) ++ NL ++
   scaling_line "Threads" "Compress MB/s" "Mpps" "Efficiency" ++
   scaling_line "-------" "-------------" "----" "----------" ++
   String.concat EmptyString (map scaling_row (sc_points r)))%string.

(** ** What the threads rely on *)

(** A compressor that can be fed packets without undefined behaviour for as long
    as [J] holds, and destroyed. *)
Class Encodes {S} (c : bench_compressor_t S) (J : S -> Prop) : Prop := {
  enc_step : forall s m, J s -> bytes m -> 0 < zlen m <= BENCH_CORPUS_MAX_PKT -> Z.odd (zlen m) = false ->
    exists s' out, bc_compress c s m SCRATCH_CAP = Ok (s', out) /\ J s';
  enc_destroy : forall s, J s -> bc_destroy c s = Ok tt }.

(** The factory creates such a compressor; on a workload without static objects
    it neither reads nor changes them. *)
Class FactoryOk {S} (factory : bench_workload_t -> Z -> Z -> corpus_statics -> outcome unit (option S * corpus_statics)) (J : S -> Prop) : Prop :=
  factory_ok : forall wl seed n, wl <> BENCH_WL_ALL -> uses_statics wl = false -> exists s, J s /\ forall st, factory wl seed n st = Ok (Some s, st).

Section Correct.
Context (c_exp : spec_float -> spec_float) `{!ExpOk c_exp} (now : nat -> Z) {S : Type} (c : bench_compressor_t S) (J : S -> Prop) `{!Encodes c J}
  (factory : bench_workload_t -> Z -> Z -> corpus_statics -> outcome unit (option S * corpus_statics)) `{!FactoryOk factory J} (trains : bool)
  (cfg : bench_multicore_cfg_t) (wl : bench_workload_t) (Hwl : wl <> BENCH_WL_ALL) (Hst : uses_statics wl = false)
  (Hw : 0 <= mc_warmup cfg) (Hc : 0 <= mc_count cfg) (Hn : mc_warmup cfg + mc_count cfg < 2 ^ 31).

Local Abbreviation warmup := (mc_warmup cfg).
Local Abbreviation count := (mc_count cfg).

(** The corpus of thread [i] after [n] packets. *)
Definition drawn (i n : Z) (k : bench_corpus_t) (pkts : list (list Z)) : Prop :=
  corpus_run c_exp (Z.to_nat n) (bench_corpus_init wl (Z.lxor (mc_seed cfg) i), statics0) = Ok (pkts, (k, statics0)) /\
  corpus_at wl n (k, statics0) /\ Forall (packet_ok wl) pkts /\ zlen pkts = n.

Lemma drawn_start i : drawn i 0 (bench_corpus_init wl (Z.lxor (mc_seed cfg) i)) [].
Proof. split; [done|]. split; [by apply corpus_at_init|done]. Qed.

Lemma drawn_next i n k pkts st :
  0 <= n < 2 ^ 31 - 1 -> drawn i n k pkts ->
  exists k' pkt, bench_corpus_next c_exp (k, st) = Ok (zlen pkt, (k', st)) /\ peek (k_packet k') 0 (zlen pkt) = (Ok pkt : outcome unit (list Z)) /\
    drawn i (n + 1) k' (pkts ++ [pkt]) /\ bytes pkt /\ 0 < zlen pkt <= BENCH_CORPUS_MAX_PKT /\ Z.odd (zlen pkt) = false.
Proof.
  intros Hr (E & Hat & Hf & Hl). pose proof Hat as (Hv & Hk & Hp). cbn [fst snd] in *.
  destruct (corpus_next_ok c_exp k statics0 Hv ltac:(lia)) as (k' & st1 & En & Hs); [by rewrite Hk|]. rewrite Hk in Hs.
  pose proof (next_closed c_exp k statics0 statics0) as Hsame. pose proof (next_closed c_exp k statics0 st) as Hst'.
  rewrite Hk, En in Hsame, Hst'. specialize (Hsame Hst). specialize (Hst' Hst). injection Hsame as ->.
  destruct (step_packet_ok _ _ _ _ Hwl Hs) as (Hpk & Hpl & Hok). destruct Hs as (Hv1 & Hk1 & _ & Hp1 & Hsz).
  destruct (packet_size_bound _ _ Hwl Hsz) as [Hb Ho]. exists k', (packet k'). rewrite Hpl. split; [done|]. split; [done|].
  split; [|split; [exact (proj1 Hok)|done]]. split.
  { rewrite Z.add_1_r, Z2Nat.inj_succ by lia. by apply (corpus_run_snoc c_exp _ _ _ _ _ _ _ E En). }
  split; [split; [done|]; cbn [fst]; split; [congruence|lia]|]. rewrite length_app. cbn [length]. split; [|lia].
  apply Forall_app. by split; [|constructor].
Qed.

(** What a thread knows at each point, and how many steps it still takes. *)
Definition loop_bound (l : loop_t) : Z := match l with Warmup => warmup | Measurement => count end.

Definition tallied (l : loop_t) (f : frame S) (pkts : list (list Z)) : Prop :=
  match l with
  | Warmup => zlen pkts = f_i f
  | Measurement => zlen pkts = warmup + f_i f /\ f_packets f = f_i f /\ f_total_orig f = total_length (drop (Z.to_nat warmup) pkts)
  end.

Definition frame_ok (i : Z) (l : loop_t) (f : frame S) (pkts : list (list Z)) : Prop :=
  J (f_state f) /\ drawn i (zlen pkts) (f_corpus f) pkts /\ 0 <= f_i f <= loop_bound l /\ tallied l f pkts.

Definition thread_ok (i : Z) (th : bench_thread_work_t * thread_pc S) : Prop :=
  match snd th with
  | AtFactory | InFactory => fst th = work_item cfg wl i
  | AtLoop l f => fst th = work_item cfg wl i /\ exists pkts, frame_ok i l f pkts
  | InCorpus l f => fst th = work_item cfg wl i /\ f_i f < loop_bound l /\ exists pkts, frame_ok i l f pkts
  | AtCompress l f pkt => fst th = work_item cfg wl i /\ f_i f < loop_bound l /\ bytes pkt /\ 0 < zlen pkt <= BENCH_CORPUS_MAX_PKT /\
      Z.odd (zlen pkt) = false /\ 0 <= f_i f /\ J (f_state f) /\
      exists pkts, tallied l f pkts /\ drawn i (zlen pkts + 1) (f_corpus f) (pkts ++ [pkt])
  | Returned => w_wl (fst th) = wl /\ w_packets (fst th) = count /\
      exists k pkts, drawn i (warmup + count) k pkts /\ w_original_bytes (fst th) = total_length (drop (Z.to_nat warmup) pkts)
  end.

Definition steps_left (th : bench_thread_work_t * thread_pc S) : Z :=
  match snd th with
  | AtFactory => 3 * (warmup + count) + 4
  | InFactory => 3 * (warmup + count) + 3
  | AtLoop Warmup f => 3 * (warmup - f_i f + count) + 2
  | InCorpus Warmup f => 3 * (warmup - f_i f + count) + 1
  | AtCompress Warmup f _ => 3 * (warmup - f_i f + count)
  | AtLoop Measurement f => 3 * (count - f_i f) + 1
  | InCorpus Measurement f => 3 * (count - f_i f)
  | AtCompress Measurement f _ => 3 * (count - f_i f) - 1
  | Returned => 0
  end.

Lemma steps_left_bound i th : thread_ok i th -> 0 <= steps_left th <= 3 * (warmup + count) + 4.
Proof.
  destruct th as [w [| |l f|l f|l f pkt|]]; cbn [thread_ok steps_left snd fst]; try lia; destruct l.
  all: try (intros (_ & pkts & _ & _ & Hi & _); cbn [loop_bound] in Hi; lia).
  all: try (intros (_ & Hb & pkts & _ & _ & Hi & _); cbn [loop_bound] in Hi, Hb; lia).
  all: intros (_ & Hb & _ & _ & _ & Hi & _); cbn [loop_bound] in Hb; lia.
Qed.

Lemma pkts_bounded (l : loop_t) f i pkts : frame_ok i l f pkts -> f_i f < loop_bound l -> zlen pkts < 2 ^ 31 - 1.
Proof. intros (_ & _ & Hi & Hk) Hb. destruct l; cbn [loop_bound tallied] in *; [|destruct Hk as (Hk & _)]; lia. Qed.

Lemma drop_snoc_total pkts (pkt : list Z) :
  warmup <= zlen pkts -> total_length (drop (Z.to_nat warmup) (pkts ++ [pkt])) = total_length (drop (Z.to_nat warmup) pkts) + zlen pkt.
Proof. intros Hl. rewrite drop_app_le by lia. apply total_length_snoc. Qed.

Lemma drawn_total i n k pkts : drawn i n k pkts -> 0 <= total_length (drop (Z.to_nat warmup) pkts) <= 576 * n.
Proof.
  intros (_ & _ & Hf & Hl). pose proof (total_length_bound 576 (drop (Z.to_nat warmup) pkts)) as Hb.
  rewrite length_drop in Hb. destruct Hb; [|lia]. apply Forall_drop. by apply (packets_small wl).
Qed.

Lemma head_ok t i w l f :
  thread_ok i (w, AtLoop l f) ->
  exists th', loop_head c t w l f = Ok th' /\ thread_ok i th' /\ steps_left th' < steps_left (w, AtLoop l f).
Proof.
  intros Hok. cbn [thread_ok fst snd] in Hok. destruct Hok as (-> & pkts & Hf). pose proof Hf as (HJ & Hd & Hi & Hk). destruct l; cbn [loop_head work_item w_warmup w_count]; case_if; eexists.
  - split; [reflexivity|]. split; [|cbn; lia]. split; [done|]. split; [done|by exists pkts].
  - split; [reflexivity|]. cbn [loop_bound] in Hi. assert (f_i f = warmup) as Hlast by lia. split; [|cbn; lia].
    split; [done|]. exists pkts. split; [done|]. split; [done|]. cbn [f_i loop_bound tallied f_packets f_total_orig] in *.
    split; [lia|]. split; [lia|]. split; [done|]. rewrite drop_ge by lia. done.
  - split; [reflexivity|]. split; [|cbn; lia]. split; [done|]. split; [done|by exists pkts].
  - rewrite enc_destroy by done. mstep. split; [reflexivity|]. cbn [loop_bound] in Hi. destruct Hk as (Hl & Hp & Ht).
    assert (f_i f = count) as Hlast by lia. rewrite Hlast in *. split; [|cbn; lia]. split; [done|]. split; [done|].
    exists (f_corpus f), pkts. split; [by rewrite <- Hl|done].
Qed.

Lemma corpus_ok i w l f st :
  thread_ok i (w, InCorpus l f) ->
  exists pc, loop_corpus c_exp w l f st = Ok (pc, st) /\ thread_ok i (w, pc) /\ steps_left (w, pc) < steps_left (w, InCorpus l f).
Proof.
  intros Hok. cbn [thread_ok fst snd] in Hok. destruct Hok as (-> & Hb & pkts & Hf). pose proof (pkts_bounded _ _ _ _ Hf Hb) as Hn'. destruct Hf as (HJ & Hd & Hi & Hk).
  destruct (drawn_next i (zlen pkts) (f_corpus f) pkts st ltac:(lia) Hd) as (k' & pkt & E & Ep & Hd' & Hby & Hl & Ho).
  exists (AtCompress l (set_corpus f k') pkt). split; [|split; [|destruct l; cbn; lia]].
  - destruct l; cbn [loop_corpus]; unfold next_packet; rewrite E; mstep; rewrite (proj2 (Z.eqb_neq (zlen pkt) 0)) by lia; mstep;
      cbn [fst snd]; rewrite Ep; by mstep.
  - split; [done|]. cbn [set_corpus f_i f_state]. split_and!; try done; try lia. exists pkts. split; [|done]. by destruct l.
Qed.

Lemma compress_ok i w l f pkt :
  thread_ok i (w, AtCompress l f pkt) ->
  exists pc, loop_compress c l f pkt = Ok pc /\ thread_ok i (w, pc) /\ steps_left (w, pc) < steps_left (w, AtCompress l f pkt).
Proof.
  intros Hok. cbn [thread_ok fst snd] in Hok. destruct Hok as (-> & Hb & Hby & Hl & Ho & Hi & HJ & pkts & Hk & Hd). unfold loop_compress.
  destruct (enc_step (f_state f) pkt HJ Hby Hl Ho) as (s' & out & -> & HJ'). mstep.
  pose proof Hd as (_ & _ & _ & Hlen). pose proof (drawn_total _ _ _ _ Hd) as Ht. rewrite <- Hlen in Hd.
  destruct l; eexists; (split; [reflexivity|]); (split; [|cbn; lia]); (split; [done|]); exists (pkts ++ [pkt]);
    cbn [loop_bound tallied] in *; (split; [done|]); (split; [done|]); cbn [f_i f_packets f_total_orig loop_bound tallied].
  - split; [lia|]. lia.
  - destruct Hk as (Hl' & Hp & Htot). rewrite drop_snoc_total, <- Htot in Ht by lia. rewrite drop_snoc_total, <- Htot by lia.
    split; [lia|]. split; [lia|]. rewrite !u64_small by lia. lia.
Qed.

Lemma thread_step_ok t i th st :
  thread_ok i th -> returned th = false ->
  exists th', thread_step c_exp c factory t th st = Ok (th', st) /\ thread_ok i th' /\ steps_left th' < steps_left th.
Proof.
  destruct th as [w [| |l f|l f|l f pkt|]]; intros Hok Hr; try discriminate Hr; cbn [thread_step].
  - eexists. split; [reflexivity|]. split; [exact Hok|cbn; lia].
  - cbn [thread_ok snd fst] in Hok. subst w.
    destruct (factory_ok wl (u64 (mc_seed cfg + i * 1000003)) (mc_train_n cfg) Hwl Hst) as (s & HJ & Hfac).
    cbn [work_item w_wl w_seed w_thread_id w_train_n]. rewrite Hfac. mstep. eexists. split; [reflexivity|]. split; [|cbn; lia].
    split; [done|]. exists []. split; [done|]. split; [apply drawn_start|]. cbn. lia.
  - destruct (head_ok t i w l f Hok) as ([w' pc] & -> & H). mstep. by eexists.
  - destruct (corpus_ok i w l f st Hok) as (pc & -> & H). mstep. by eexists.
  - destruct (compress_ok i w l f pkt Hok) as (pc & -> & H). mstep. by eexists.
Qed.

Lemma thread_workload i th : thread_ok i th -> w_wl (fst th) = wl.
Proof. destruct th as [w [| |l f|l f|l f pkt|]]; cbn [thread_ok snd fst]; [intros ->; done..| | | |]; by intros (-> & _). Qed.

(** ** Pools *)
Definition pool_ok (st : corpus_statics) (p : pool_t S) : Prop :=
  p_statics p = st /\ forall i th, p_threads p !! i = Some th -> thread_ok (Z.of_nat i) th.

Lemma no_race ths : (forall i th, ths !! i = Some th -> thread_ok (Z.of_nat i) th) -> racing trains ths = false.
Proof.
  intros H. unfold racing. assert (List.filter (in_statics trains) ths = []) as ->; [|done].
  assert (Forall (fun th => in_statics trains th = false) ths) as Hf.
  { apply Forall_lookup. intros i th E. unfold in_statics. by rewrite (thread_workload _ _ (H i th E)), Hst. }
  clear H. induction Hf as [|th ths E _ IH]; [done|]. cbn [List.filter]. by rewrite E.
Qed.

(** Whatever thread is picked: it takes a step towards its end, the others are
    left alone. *)
Lemma pool_step_ok st p i :
  pool_ok st p ->
  exists p', pool_step c_exp now c factory trains p i = Ok p' /\ pool_ok st p' /\ length (p_threads p') = length (p_threads p) /\
    (forall j, j <> i -> p_threads p' !! j = p_threads p !! j) /\
    forall th, p_threads p !! i = Some th ->
      if returned th then p' = p else exists th', p_threads p' !! i = Some th' /\ steps_left th' < steps_left th.
Proof.
  intros [Hs Hp]. unfold pool_step. destruct (p_threads p !! i) as [th|] eqn:E; [|by exists p]. destruct (returned th) eqn:Er.
  { exists p. do 4 (split; [done|]). intros ? [= <-]. by rewrite Er. }
  destruct (thread_step_ok (now (p_time p)) _ th (p_statics p) (Hp i th E) Er) as (th' & -> & Hth & Hdec). mstep.
  assert (forall j x, <[i := th']> (p_threads p) !! j = Some x -> thread_ok (Z.of_nat j) x) as Hp'.
  { intros j x. destruct (decide (j = i)) as [-> |Hne].
    - rewrite list_lookup_insert_eq by (by eapply lookup_lt_Some). by intros [= <-].
    - rewrite list_lookup_insert_ne by done. apply Hp. }
  rewrite no_race by done. eexists. split; [reflexivity|]. cbn [p_threads p_statics]. split; [done|]. rewrite length_insert. split; [done|].
  split; [intros j Hne; by rewrite list_lookup_insert_ne|]. intros ? [= <-]. rewrite Er. exists th'. split; [|done].
  rewrite list_lookup_insert_eq by (by eapply lookup_lt_Some). done.
Qed.

Lemma schedule_ok st sched : forall p,
  pool_ok st p ->
  exists p', foldM (pool_step c_exp now c factory trains) p sched = Ok p' /\ pool_ok st p' /\ length (p_threads p') = length (p_threads p).
Proof.
  induction sched as [|i sched IH]; intros p Hp; [by exists p|]. destruct (pool_step_ok st p i Hp) as (p1 & E & Hp1 & Hl1 & _).
  destruct (IH p1 Hp1) as (p2 & E2 & Hp2 & Hl2). exists p2. cbn [foldM]. rewrite E. mstep. rewrite Hl2, Hl1 in *. done.
Qed.

Lemma join_ok st i fuel : forall p th,
  pool_ok st p -> p_threads p !! i = Some th -> steps_left th < Z.of_nat fuel ->
  exists p' th', join c_exp now c factory trains fuel p i = Ok p' /\ pool_ok st p' /\ length (p_threads p') = length (p_threads p) /\
    (forall j, j <> i -> p_threads p' !! j = p_threads p !! j) /\ p_threads p' !! i = Some th' /\ returned th' = true.
Proof.
  induction fuel as [|fuel IH]; intros p th Hp E Hf; pose proof (steps_left_bound _ _ (proj2 Hp i th E)) as Hb; [lia|]. cbn [join]. rewrite E.
  destruct (returned th) eqn:Er; [by exists p, th|].
  destruct (pool_step_ok st p i Hp) as (p1 & -> & Hp1 & Hl1 & Ho1 & Hi1). mstep. specialize (Hi1 th E). rewrite Er in Hi1.
  destruct Hi1 as (th1 & E1 & Hd). destruct (IH p1 th1 Hp1 E1 ltac:(lia)) as (p2 & th2 & -> & Hp2 & Hl2 & Ho2 & E2 & Hr).
  exists p2, th2. split; [done|]. split; [done|]. split; [congruence|]. split; [|done]. intros j Hj. by rewrite Ho2, Ho1.
Qed.

(** Joining the threads in turn leaves all of them returned. *)
Lemma joins_ok st p :
  pool_ok st p ->
  exists p', foldM (join c_exp now c factory trains (thread_steps warmup count)) p (seq 0 (length (p_threads p))) = Ok p' /\ pool_ok st p' /\
    length (p_threads p') = length (p_threads p) /\ Forall (fun th => returned th = true) (p_threads p').
Proof.
  intros Hp. set (N := length (p_threads p)).
  assert (forall n, (n <= N)%nat -> exists p', foldM (join c_exp now c factory trains (thread_steps warmup count)) p (seq 0 n) = Ok p' /\
    pool_ok st p' /\ length (p_threads p') = N /\ forall j th, (j < n)%nat -> p_threads p' !! j = Some th -> returned th = true) as H.
  { induction n as [|n IH]; intros Hle; [exists p; do 3 (split; [done|]); intros; lia|]. destruct IH as (p1 & E1 & Hp1 & Hl1 & Hr1); [lia|].
    destruct (lookup_lt_is_Some_2 (p_threads p1) n) as [th Eth]; [lia|]. pose proof (steps_left_bound _ _ (proj2 Hp1 n th Eth)) as Hb.
    destruct (join_ok st n (thread_steps warmup count) p1 th Hp1 Eth) as (p2 & th2 & E2 & Hp2 & Hl2 & Ho2 & Eth2 & Hr2).
    { unfold thread_steps. lia. }
    exists p2. rewrite seq_S, foldM_snoc, E1. mstep. split; [done|]. split; [done|]. split; [congruence|]. intros j x Hj Ex.
    destruct (decide (j = n)) as [-> |Hne]; [congruence|]. rewrite Ho2 in Ex by done. apply (Hr1 j x); [lia|done]. }
  destruct (H N ltac:(lia)) as (p' & E & Hp' & Hl & Hr). exists p'. do 3 (split; [done|]).
  apply Forall_lookup. intros j th Ej. pose proof (lookup_lt_Some _ _ _ Ej). by apply (Hr j th); [lia|].
Qed.

(** The bytes thread [i] measures: those of the packets [warmup] to
    [warmup + count] of its own corpus. *)
Definition thread_bytes (i : Z) : Z :=
  match corpus_run c_exp (Z.to_nat (warmup + count)) (bench_corpus_init wl (Z.lxor (mc_seed cfg) i), statics0) with
  | Ok (pkts, _) => total_length (drop (Z.to_nat warmup) pkts)
  | _ => 0
  end.

Lemma returned_work i th : thread_ok i th -> returned th = true -> w_packets (fst th) = count /\ w_original_bytes (fst th) = thread_bytes i.
Proof.
  destruct th as [w [| |l f|l f|l f pkt|]]; try discriminate. cbn [thread_ok fst snd]. intros (_ & Hp & k & pkts & (E & _) & Hb) _.
  split; [done|]. unfold thread_bytes. by rewrite E.
Qed.

Lemma run_threads_ok n sched st t :
  let work := map (work_item cfg wl) (seqZ 0 n) in
  exists p, run_threads c_exp now c factory trains cfg work sched st t = Ok p /\ p_statics p = st /\
    map w_packets (map fst (p_threads p)) = map (fun _ => count) (seqZ 0 n) /\
    map w_original_bytes (map fst (p_threads p)) = map thread_bytes (seqZ 0 n).
Proof.
  intros work. unfold run_threads.
  assert (pool_ok st (Pool (map (fun w => (w, AtFactory)) work) st t)) as Hp.
  { split; [done|]. intros i th. cbn [p_threads]. unfold work. rewrite map_map, list_lookup_fmap.
    destruct (seqZ 0 n !! i) as [x|] eqn:E; [|done]. apply lookup_seqZ in E as [-> _]. intros [= <-]. by rewrite Z.add_0_l. }
  destruct (schedule_ok st sched _ Hp) as (p1 & -> & Hp1 & Hl1). mstep. cbn [p_threads] in Hl1. rewrite length_map in Hl1. rewrite <- Hl1.
  destruct (joins_ok st p1 Hp1) as (p2 & -> & (Hs2 & Hp2) & Hl2 & Hr2). exists p2. do 2 (split; [done|]).
  assert (length (p_threads p2) = length (seqZ 0 n)) as Hl by (rewrite Hl2, Hl1; apply length_map).
  rewrite Forall_lookup in Hr2.
  split; apply list_eq; intros i; rewrite map_map, !list_lookup_fmap; destruct (p_threads p2 !! i) as [th|] eqn:E;
    pose proof E as E'; rewrite ?(proj2 (lookup_ge_None _ _)) by (apply lookup_ge_None in E; lia); try done.
  all: destruct (lookup_lt_is_Some_2 (seqZ 0 n) i) as [x Ex]; [rewrite <- Hl; by eapply lookup_lt_Some|]; rewrite Ex;
    apply lookup_seqZ in Ex as [-> _]; destruct (returned_work _ _ (Hp2 i th E) (Hr2 i th E)) as [H1 H2]; cbn; rewrite ?Z.add_0_l; congruence.
Qed.

(** What a tier that could be set up measures. *)
Definition tier_point (nthreads : Z) (pt : bench_scaling_point_t) : Prop :=
  sp_nthreads pt = nthreads /\ sp_packets pt = nthreads * count /\
  sp_original_bytes pt = u64 (foldr Z.add 0 (map thread_bytes (seqZ 0 nthreads))).

Definition set_up (e : execution) (nthreads : Z) : bool := ex_mem e && (Z.to_nat nthreads <=? ex_created e)%nat.

Lemma sum_u64 {A} (g : A -> Z) l : forall a, foldl (fun a x => u64 (a + g x)) (u64 a) l = u64 (a + foldr Z.add 0 (map g l)).
Proof.
  induction l as [|x l IH]; intros a; cbn [foldl map foldr]; [by rewrite Z.add_0_r|]. rewrite u64_u64_add, IH. f_equal. lia.
Qed.

Lemma sum_const n : 0 <= n -> foldr Z.add 0 (map (fun _ => count) (seqZ 0 n)) = n * count.
Proof.
  intros H. assert (forall l : list Z, foldr Z.add 0 (map (fun _ => count) l) = zlen l * count) as Hs.
  { induction l as [|x l IH]; cbn [map foldr length]; lia. }
  rewrite Hs, length_seqZ. lia.
Qed.

Lemma take_work k n : 0 <= n -> take k (map (work_item cfg wl) (seqZ 0 n)) = map (work_item cfg wl) (seqZ 0 (Z.min (Z.of_nat k) n)).
Proof.
  intros H. apply list_eq. intros i. destruct (decide (i < k)%nat) as [Hi|Hi].
  - rewrite lookup_take_lt by lia. rewrite !list_lookup_fmap. destruct (decide (Z.of_nat i < n)).
    + by rewrite !lookup_seqZ_lt by lia.
    + by rewrite !lookup_seqZ_ge by lia.
  - rewrite lookup_take_ge by lia. rewrite list_lookup_fmap, lookup_seqZ_ge by lia. done.
Qed.

Lemma run_tier_ok e n st t :
  0 < n < 2 ^ 31 ->
  exists pt t', run_tier c_exp now c factory trains e cfg wl n st t = Ok ((if set_up e n then 0 else -1), pt, st, t') /\
    if set_up e n then exists x, pt = Some x /\ tier_point n x /\ sp_scaling_efficiency x = f64_zero else pt = None.
Proof.
  intros Hnt. unfold run_tier, set_up. destruct (ex_mem e); cbn [negb andb]; [|by eexists _, _].
  rewrite take_work by lia. destruct (run_threads_ok (Z.min (Z.of_nat (ex_created e)) n) (ex_schedule e) st t) as (p & E & Hs & H1 & H2).
  rewrite E. mstep. rewrite length_map, length_seqZ, Hs. destruct (Z.to_nat n <=? ex_created e)%nat eqn:Ec.
  - apply Nat.leb_le in Ec. rewrite (proj2 (Nat.ltb_ge _ _)) by lia. eexists _, _. split; [reflexivity|]. eexists. split; [reflexivity|]. split; [|done].
    rewrite Z.min_r in H1, H2 by lia. split; [done|]. unfold aggregate. cbn [sp_packets sp_original_bytes].
    rewrite <- (u64_small 0) by lia. rewrite !sum_u64, H1, H2, sum_const, !Z.add_0_l by lia. split; [|done]. apply u64_small. nia.
  - apply Nat.leb_gt in Ec. rewrite (proj2 (Nat.ltb_lt _ _)) by lia. by eexists _, _.
Qed.

(** The thread counts of the first [n] tiers that could be set up. *)
Definition tier_threads (i : Z) : Z :=
  let x := default 0 (mc_thread_counts cfg !! Z.to_nat i) in if x <=? 0 then 1 else x.
Definition tiers (execs : Z -> execution) (n : Z) : list Z :=
  map tier_threads (List.filter (fun i => set_up (execs i) (tier_threads i)) (seqZ 0 n)).

Lemma tiers_snoc execs n : 0 <= n ->
  tiers execs (n + 1) = tiers execs n ++ if set_up (execs n) (tier_threads n) then [tier_threads n] else [].
Proof. intros H. unfold tiers. rewrite Z.add_1_r, seqZ_snoc, List.filter_app, map_app, Z.add_0_l by done. cbn [List.filter]. by case_if. Qed.

Lemma tiers_run execs n st :
  0 <= n <= 8 -> zlen (mc_thread_counts cfg) = 8 -> Forall (fun x => x < 2 ^ 31) (mc_thread_counts cfg) ->
  exists pts t, foldM (tier_step c_exp now c factory trains execs cfg wl) ([], st, O) (seqZ 0 n) = Ok (pts, st, t) /\
    Forall2 tier_point (tiers execs n) pts /\ Forall (fun pt => sp_scaling_efficiency pt = f64_zero) pts.
Proof.
  intros Hn8 Hl Hb.
  destruct (foldM_seqZ (fun k x => snd (fst x) = st /\ Forall2 tier_point (tiers execs k) (fst (fst x)) /\
      Forall (fun pt => sp_scaling_efficiency pt = f64_zero) (fst (fst x)))
    0 n (tier_step c_exp now c factory trains execs cfg wl) ([], st, O)) as ([[pts st'] t] & E & H1 & H2 & H3); [lia|by split_and!; try constructor| |].
  2:{ cbn [fst snd] in *. subst st'. by exists pts, t. }
  intros k [[pts st'] t] Hk (H1 & H2 & H3). cbn [fst snd] in *. subst st'. unfold tier_step.
  destruct (lookup_lt_is_Some_2 (mc_thread_counts cfg) (Z.to_nat k)) as [x Ex]; [lia|]. rewrite (aget_lookup _ _ x) by (done || lia). mstep.
  assert (tier_threads k = if x <=? 0 then 1 else x) as Htt by (unfold tier_threads; by rewrite Ex). rewrite <- Htt.
  destruct (run_tier_ok (execs k) (tier_threads k) st t) as (pt & t' & -> & Hpt).
  { rewrite Forall_lookup in Hb. pose proof (Hb _ _ Ex) as Hx. cbv beta in Hx. rewrite Htt. case_if; lia. }
  mstep. eexists. split; [reflexivity|]. cbn [fst snd]. rewrite tiers_snoc by lia. split; [done|].
  destruct (set_up (execs k) (tier_threads k)); [destruct Hpt as (y & -> & Hy & He)|subst pt; by rewrite app_nil_r].
  cbn [Z.eqb]. split; [apply Forall2_app; [done|constructor; [done|constructor]]|]. apply Forall_app. split; [done|]. by constructor.
Qed.

Lemma single_efficiency x pts : single_mbs (map (with_efficiency x) pts) = single_mbs pts.
Proof. induction pts as [|pt pts IH]; [done|]. cbn [map single_mbs with_efficiency sp_nthreads sp_compress_mbs]. by rewrite IH. Qed.

Lemma multicore_ok execs st :
  zlen (mc_thread_counts cfg) = 8 -> Forall (fun x => x < 2 ^ 31) (mc_thread_counts cfg) ->
  let n := Z.max 0 (Z.min 8 (mc_n_thread_counts cfg)) in
  exists rep, bench_multicore_run c_exp now c factory trains execs cfg wl st = Ok ((if 0 <? zlen (tiers execs n) then 0 else -1), rep, st) /\
    sc_workload rep = wl /\ Forall2 tier_point (tiers execs n) (sc_points rep) /\
    Forall (fun pt => sp_scaling_efficiency pt =
      if SFltb f64_zero (single_mbs (sc_points rep))
      then f64_div (sp_compress_mbs pt) (f64_mul (f64_of_Z (sp_nthreads pt)) (single_mbs (sc_points rep))) else f64_zero) (sc_points rep).
Proof.
  intros Hl Hb n. unfold bench_multicore_run.
  assert (seqZ 0 (if BENCH_SCALING_MAX_POINTS <? mc_n_thread_counts cfg then BENCH_SCALING_MAX_POINTS else mc_n_thread_counts cfg) = seqZ 0 n) as ->.
  { unfold BENCH_SCALING_MAX_POINTS, n. case_if; [by rewrite Z.min_l, Z.max_r by lia|]. rewrite Z.min_r by lia.
    destruct (Z_le_gt_dec 0 (mc_n_thread_counts cfg)); [by rewrite Z.max_r by lia|]. rewrite Z.max_l by lia. by rewrite seqZ_nil by lia. }
  destruct (tiers_run execs n st ltac:(unfold n; lia) Hl Hb) as (pts & t & -> & Hp & He). mstep.
  assert (zlen (if SFltb f64_zero (single_mbs pts) then map (with_efficiency (single_mbs pts)) pts else pts) = zlen (tiers execs n)) as ->.
  { rewrite (Forall2_length _ _ _ Hp). case_if; [by rewrite length_map|done]. }
  eexists. split; [reflexivity|]. cbn [sc_workload sc_points]. split; [done|].
  destruct (SFltb f64_zero (single_mbs pts)) eqn:Es; [|by rewrite Es]. rewrite single_efficiency, Es. split.
  - apply Forall2_fmap_r. eapply Forall2_impl; [exact Hp|]. by intros.
  - apply Forall_fmap. apply Forall_true. done.
Qed.
End Correct.

(** zlib, which the main program names as its stand-in for scaling runs: one
    adapter for each thread. *)
#[export] Instance zlib_encodes compress2 uncompress : Encodes (Zlib.zlib_vtable compress2 uncompress) (fun _ => True).
Proof. split; [|done]. intros a m _ _ _ _. by eexists _, _. Qed.

Definition zlib_factory (lvl : Z) (wl : bench_workload_t) (seed n : Z) (st : corpus_statics)
  : outcome unit (option Zlib.zlib_adapter_t * corpus_statics) := Ok (Zlib.bench_zlib_create true lvl, st).

#[export] Instance zlib_factory_ok lvl : FactoryOk (zlib_factory lvl) (fun _ => True).
Proof. intros wl seed n _ _. by eexists. Qed.

(** ** Races *)
Section Races.
Context (c_exp : spec_float -> spec_float) (now : nat -> Z) {S : Type} (c : bench_compressor_t S)
  (factory : bench_workload_t -> Z -> Z -> corpus_statics -> outcome unit (option S * corpus_statics)) (trains : bool)
  (cfg : bench_multicore_cfg_t) (wl : bench_workload_t)
  (Hfactory : forall seed n st, exists s st', factory wl seed n st = Ok (Some s, st')).

Local Abbreviation run_pool := (foldM (pool_step c_exp now c factory trains)).

Lemma pool_step_one ths st t i th th' st' l (Q : list (bench_thread_work_t * thread_pc S) -> Prop) :
  ths !! i = Some th -> returned th = false -> thread_step c_exp c factory (now t) th st = Ok (th', st') ->
  (racing trains (<[i := th']> ths) = false -> run_pool (Pool (<[i := th']> ths) st' (t + 1)) l = Undef \/
     exists ths2 st2 t2, run_pool (Pool (<[i := th']> ths) st' (t + 1)) l = Ok (Pool ths2 st2 t2) /\ Q ths2) ->
  run_pool (Pool ths st t) (i :: l) = Undef \/ exists ths2 st2 t2, run_pool (Pool ths st t) (i :: l) = Ok (Pool ths2 st2 t2) /\ Q ths2.
Proof.
  intros Hi Hr Hs Hl. cbn [foldM].
  assert (pool_step c_exp now c factory trains (Pool ths st t) i =
    if racing trains (<[i := th']> ths) then Undef else Ok (Pool (<[i := th']> ths) st' (t + 1))) as ->.
  { unfold pool_step. cbn [p_threads p_time p_statics]. rewrite Hi, Hr, Hs. by mstep. }
  destruct (racing trains (<[i := th']> ths)); [by left|]. rewrite bind_Ok_l. by apply Hl.
Qed.

(** Left alone, a thread gets inside the generator, or there was a race
    before. *)
Definition entry_steps : nat := if 0 <? mc_warmup cfg then 3 else 4.

Lemma enters ths st t i id :
  ths !! i = Some (work_item cfg wl id, AtFactory) -> 0 < mc_warmup cfg \/ mc_warmup cfg = 0 /\ 0 < mc_count cfg ->
  run_pool (Pool ths st t) (replicate entry_steps i) = Undef \/
  exists ths2 st2 t2, run_pool (Pool ths st t) (replicate entry_steps i) = Ok (Pool ths2 st2 t2) /\
    exists l f, ths2 = <[i := (work_item cfg wl id, InCorpus l f)]> ths /\ racing trains ths2 = false.
Proof.
  intros Hi Hn. pose proof (lookup_lt_Some _ _ _ Hi) as Hlt.
  assert (forall th, <[i := th]> ths !! i = Some th) as Hat by (intros; by apply list_lookup_insert_eq).
  destruct (Hfactory (u64 (mc_seed cfg + id * 1000003)) (mc_train_n cfg) st) as (s & st' & Hf). unfold entry_steps.
  assert (replicate (if 0 <? mc_warmup cfg then 3 else 4) i = i :: i :: replicate (if 0 <? mc_warmup cfg then 1 else 2) i) as -> by (by case_if).
  eapply pool_step_one; [done..|]. intros _. eapply pool_step_one; [apply Hat|done| |].
  { cbn [thread_step work_item w_wl w_seed w_thread_id w_train_n]. rewrite Hf. by mstep. }
  intros _. rewrite list_insert_insert_eq. unfold thread_begin. destruct Hn as [Hn|[Hw Hn]].
  - rewrite (proj2 (Z.ltb_lt _ _)) by lia. eapply pool_step_one; [apply Hat|done| |].
    { cbn [thread_step loop_head f_i work_item w_warmup]. rewrite (proj2 (Z.ltb_lt _ _)) by lia. by mstep. }
    intros Hr. right. rewrite list_insert_insert_eq in *. by eexists _, _, _; split; [|eexists _, _].
  - rewrite (proj2 (Z.ltb_ge _ _)) by lia. eapply pool_step_one; [apply Hat|done| |].
    { cbn [thread_step loop_head f_i work_item w_warmup]. rewrite (proj2 (Z.ltb_ge _ _)) by lia. by mstep. }
    intros _. eapply pool_step_one; [rewrite list_insert_insert_eq; apply Hat|done| |].
    { cbn [thread_step loop_head f_i work_item w_count]. rewrite (proj2 (Z.ltb_lt _ _)) by lia. by mstep. }
    intros Hr. right. rewrite !list_insert_insert_eq in *. by eexists _, _, _; split; [|eexists _, _].
Qed.
End Races.

(** ** Properties *)

(** C38: the multi-core benchmark is deterministic, apart from time.  On the
    workloads whose generators keep no static objects, with compressors that can
    be fed packets: for every interleaving of the threads' steps in every tier,
    every clock, and whichever tiers cannot be set up (memory or a thread that
    cannot be created), there is no data race, every thread runs to its end within
    the step bound, and the call returns 0 unless no tier was measured.  The report
    has one point for each tier that was set up, in order: its packet count is the
    thread count times [count], its byte count (modulo 2^64) that of the packets
    [warmup] to [warmup + count] of each thread's own corpus, and its efficiency
    relates its throughput to that of the first point with one thread. *)
Theorem multicore_deterministic (c_exp : spec_float -> spec_float) (now : nat -> Z) (S : Type) (c : bench_compressor_t S) (J : S -> Prop)
    (factory : bench_workload_t -> Z -> Z -> corpus_statics -> outcome unit (option S * corpus_statics)) (trains : bool)
    (execs : Z -> execution) (cfg : bench_multicore_cfg_t) (wl : bench_workload_t) (st : corpus_statics) :
  ExpOk c_exp -> Encodes c J -> FactoryOk factory J -> wl <> BENCH_WL_ALL -> uses_statics wl = false ->
  0 <= mc_warmup cfg -> 0 <= mc_count cfg -> mc_warmup cfg + mc_count cfg < 2 ^ 31 ->
  zlen (mc_thread_counts cfg) = 8 -> Forall (fun x => x < 2 ^ 31) (mc_thread_counts cfg) ->
  let ts := tiers cfg execs (Z.max 0 (Z.min 8 (mc_n_thread_counts cfg))) in
  exists rep, bench_multicore_run c_exp now c factory trains execs cfg wl st = Ok ((if 0 <? zlen ts then 0 else -1), rep, st) /\
    sc_workload rep = wl /\ Forall2 (tier_point c_exp cfg wl) ts (sc_points rep) /\
    Forall (fun pt => sp_scaling_efficiency pt =
      if SFltb f64_zero (single_mbs (sc_points rep))
      then f64_div (sp_compress_mbs pt) (f64_mul (f64_of_Z (sp_nthreads pt)) (single_mbs (sc_points rep))) else f64_zero) (sc_points rep).
Proof. intros He Hc Hf Hwl Hst Hw Hn Hs Hl Hb. by apply (multicore_ok c_exp now c J factory trains cfg wl). Qed.

(** Tiers of 1, 2 and 4 threads, of which the second cannot create its threads,
    with the threads of the third interleaved. *)
Lemma multicore_deterministic_witness :
  let cfg := MultiCfg 1 2 42 10 [1; 2; 4; 0; 0; 0; 0; 0] 3 in
  let execs i := Exec true (if i =? 1 then 1 else 4) [0; 1; 0; 1; 2; 3; 3; 0]%nat in
  exists rep, bench_multicore_run (fun _ => f64_of_Z 20) Z.of_nat (Zlib.zlib_vtable (fun m _ _ => Some m) (fun m _ => Some m)) (zlib_factory 1) false
      execs cfg BENCH_WL_001 statics0 = Ok (0, rep, statics0) /\
    sc_workload rep = BENCH_WL_001 /\ Forall2 (tier_point (fun _ => f64_of_Z 20) cfg BENCH_WL_001) [1; 4] (sc_points rep) /\
    Forall (fun pt => sp_scaling_efficiency pt =
      if SFltb f64_zero (single_mbs (sc_points rep))
      then f64_div (sp_compress_mbs pt) (f64_mul (f64_of_Z (sp_nthreads pt)) (single_mbs (sc_points rep))) else f64_zero) (sc_points rep).
Proof.
  intros cfg execs.
  apply (multicore_deterministic (fun _ => f64_of_Z 20) Z.of_nat Zlib.zlib_adapter_t (Zlib.zlib_vtable (fun m _ _ => Some m) (fun m _ => Some m))
    (fun _ => True) (zlib_factory 1) false execs cfg BENCH_WL_001 statics0); try typeclasses eauto; try done.
  apply Forall_forall. intros x Hx. repeat (apply elem_of_cons in Hx as [-> |Hx]; [done|]). by apply elem_of_nil in Hx.
Defined.

(** The other workloads race: two threads can be inside the generator, and in
    its static objects, at the same time, although each thread is documented to
    have an independent corpus generator. *)
Theorem multicore_races (c_exp : spec_float -> spec_float) (now : nat -> Z) (S : Type) (c : bench_compressor_t S)
    (factory : bench_workload_t -> Z -> Z -> corpus_statics -> outcome unit (option S * corpus_statics)) (trains : bool)
    (cfg : bench_multicore_cfg_t) (wl : bench_workload_t) (st : corpus_statics) :
  uses_statics wl = true -> (forall seed n st, exists s st', factory wl seed n st = Ok (Some s, st')) ->
  0 < mc_warmup cfg \/ mc_warmup cfg = 0 /\ 0 < mc_count cfg ->
  exists sched, run_tier c_exp now c factory trains (Exec true 2 sched) cfg wl 2 st 0 = Undef.
Proof.
  intros Hu Hf Hn. set (sched (i : nat) := replicate (entry_steps cfg) i). exists (sched 0%nat ++ sched 1%nat).
  unfold run_tier, run_threads. cbn [ex_mem ex_created ex_schedule negb]. rewrite foldM_app.
  change (take 2 (map (work_item cfg wl) (seqZ 0 2))) with [work_item cfg wl 0; work_item cfg wl 1]. cbn [map].
  destruct (enters c_exp now c factory trains cfg wl Hf [(work_item cfg wl 0, AtFactory); (work_item cfg wl 1, AtFactory)] st 0 0 0 eq_refl Hn)
    as [E|(ths & st0 & t0 & E & l & f & -> & _)]; unfold sched; rewrite E; [done|]. mstep.
  destruct (enters c_exp now c factory trains cfg wl Hf [(work_item cfg wl 0, InCorpus l f); (work_item cfg wl 1, AtFactory)] st0 t0 1 1 eq_refl Hn)
    as [E1|(ths & st1 & t1 & E1 & l1 & f1 & -> & Hr)]; cbn [insert list_insert] in *; [by rewrite E1|].
  exfalso. unfold racing, in_statics in Hr. cbn [List.filter fst snd work_item w_wl] in Hr. by rewrite Hu in Hr.
Qed.

Lemma multicore_races_witness :
  exists sched, run_tier (fun _ => f64_of_Z 20) Z.of_nat (Zlib.zlib_vtable (fun m _ _ => Some m) (fun m _ => Some m)) (zlib_factory 1) false
    (Exec true 2 sched) (MultiCfg 0 2 42 10 [1; 2; 0; 0; 0; 0; 0; 0] 2) BENCH_WL_005 2 statics0 0 = Undef.
Proof.
  apply (multicore_races (fun _ => f64_of_Z 20) Z.of_nat Zlib.zlib_adapter_t (Zlib.zlib_vtable (fun m _ _ => Some m) (fun m _ => Some m))
    (zlib_factory 1) false (MultiCfg 0 2 42 10 [1; 2; 0; 0; 0; 0; 0; 0] 2) BENCH_WL_005 statics0); [done| |by right].
  intros seed n st. by eexists _, _.
Defined.
