(* ===== verification/Sdk.v ===== *)
(** * The C++ binding

    src/sdk/cpp: netc::Result, netc::Dict, netc::Trainer and netc::Context, move-only
    owners of native handles.  A world holds the C++ objects in scope, by name,
    the native structures behind their handles, by address, and the heap of blocks
    of Heap.v.  Using or freeing a handle whose structure is gone is undefined.
    A method is a computation on worlds that returns or throws std::bad_alloc;
    the effects before the throw persist.  Output vectors are passed in and
    returned; an input range does not overlap the output vector. *)

From Stdlib Require Import String.
From stdpp Require Import prelude gmap strings.
From Stdlib Require Import ZArith Lia SpecFloat.
From S2P Require Import Prelude Simd Header Ctx Dict Train Heap Decompress Compress Double Platform.

Local Open Scope Z_scope.

(** ** Result *)
Inductive Result : Type :=
| R_OK | R_NoMem | R_TooBig | R_Corrupt | R_DictInvalid | R_BufSmall | R_CtxNull | R_Unsupported | R_Version | R_InvalidArg.

#[export] Instance Result_eq_dec : EqDecision Result.
Proof. solve_decision. Defined.

(** The values of the two enumerations. *)
Definition Result_value (r : Result) : Z :=
  match r with
  | R_OK => 0 | R_NoMem => -1 | R_TooBig => -2 | R_Corrupt => -3 | R_DictInvalid => -4 | R_BufSmall => -5
  | R_CtxNull => -6 | R_Unsupported => -7 | R_Version => -8 | R_InvalidArg => -9
  end.
Definition netc_result_value (r : option netc_result_t) : Z :=
  match r with
  | None => 0
  | Some NETC_ERR_NOMEM => -1 | Some NETC_ERR_TOOBIG => -2 | Some NETC_ERR_CORRUPT => -3 | Some NETC_ERR_DICT_INVALID => -4
  | Some NETC_ERR_BUF_SMALL => -5 | Some NETC_ERR_CTX_NULL => -6 | Some NETC_ERR_UNSUPPORTED => -7 | Some NETC_ERR_VERSION => -8
  | Some NETC_ERR_INVALID_ARG => -9
  end.

(** [static_cast<Result>(r)] of an error, and the cast back of ResultToString. *)
Definition to_Result (e : netc_result_t) : Result :=
  match e with
  | NETC_ERR_NOMEM => R_NoMem | NETC_ERR_TOOBIG => R_TooBig | NETC_ERR_CORRUPT => R_Corrupt | NETC_ERR_DICT_INVALID => R_DictInvalid
  | NETC_ERR_BUF_SMALL => R_BufSmall | NETC_ERR_CTX_NULL => R_CtxNull | NETC_ERR_UNSUPPORTED => R_Unsupported | NETC_ERR_VERSION => R_Version
  | NETC_ERR_INVALID_ARG => R_InvalidArg
  end.
Definition of_Result (r : Result) : option netc_result_t :=
  match r with
  | R_OK => None
  | R_NoMem => Some NETC_ERR_NOMEM | R_TooBig => Some NETC_ERR_TOOBIG | R_Corrupt => Some NETC_ERR_CORRUPT
  | R_DictInvalid => Some NETC_ERR_DICT_INVALID | R_BufSmall => Some NETC_ERR_BUF_SMALL | R_CtxNull => Some NETC_ERR_CTX_NULL
  | R_Unsupported => Some NETC_ERR_UNSUPPORTED | R_Version => Some NETC_ERR_VERSION | R_InvalidArg => Some NETC_ERR_INVALID_ARG
  end.

Definition ResultToString (r : Result) : string := netc_strerror (of_Result r).

(** ** Worlds *)
Record world : Type := World {
  w_heap : heap;
  w_dict_at : gmap nat (dict_ptrs * netc_dict_t);
  w_ctx_at : gmap nat (ctx_ptrs * nat * netc_ctx_t);
  w_files : gmap string (list Z);
  w_open : nat;
  w_dicts : gmap nat ptr;
  w_ctxs : gmap nat ptr;
  w_trainers : gmap nat (list (list Z)) }.

(** Before the first object exists. *)
Definition world0 (files : gmap string (list Z)) : world := World fresh_heap ∅ ∅ files 0 ∅ ∅ ∅.

Definition sdk (A : Type) : Type := world -> outcome unit (option A * world).
#[export] Instance sdk_ret : MRet sdk := fun A a w => Ok (Some a, w).
#[export] Instance sdk_bind : MBind sdk := fun A B f m w =>
  match m w with
  | Ok (Some a, w') => f a w'
  | Ok (None, w') => Ok (None, w')
  | Fail e => Fail e
  | Undef => Undef
  end.

Definition undef {A} : sdk A := fun _ => Undef.

(** A vector allocation that throws when it fails. *)
Definition allocate (ok : bool) : sdk unit := fun w => Ok ((if ok then Some tt else None), w).

Definition native {A} (m : heapM A) : sdk A := fun w =>
  match m (w_heap w) with
  | Ok (a, h) => Ok (Some a, World h (w_dict_at w) (w_ctx_at w) (w_files w) (w_open w) (w_dicts w) (w_ctxs w) (w_trainers w))
  | _ => Undef
  end.

Definition with_dict_at (w : world) (m : gmap nat (dict_ptrs * netc_dict_t)) : world :=
  World (w_heap w) m (w_ctx_at w) (w_files w) (w_open w) (w_dicts w) (w_ctxs w) (w_trainers w).
Definition with_ctx_at (w : world) (m : gmap nat (ctx_ptrs * nat * netc_ctx_t)) : world :=
  World (w_heap w) (w_dict_at w) m (w_files w) (w_open w) (w_dicts w) (w_ctxs w) (w_trainers w).
Definition with_files (w : world) (m : gmap string (list Z)) : world :=
  World (w_heap w) (w_dict_at w) (w_ctx_at w) m (w_open w) (w_dicts w) (w_ctxs w) (w_trainers w).
Definition with_open (w : world) (n : nat) : world :=
  World (w_heap w) (w_dict_at w) (w_ctx_at w) (w_files w) n (w_dicts w) (w_ctxs w) (w_trainers w).
Definition with_dicts (w : world) (m : gmap nat ptr) : world :=
  World (w_heap w) (w_dict_at w) (w_ctx_at w) (w_files w) (w_open w) m (w_ctxs w) (w_trainers w).
Definition with_ctxs (w : world) (m : gmap nat ptr) : world :=
  World (w_heap w) (w_dict_at w) (w_ctx_at w) (w_files w) (w_open w) (w_dicts w) m (w_trainers w).
Definition with_trainers (w : world) (m : gmap nat (list (list Z))) : world :=
  World (w_heap w) (w_dict_at w) (w_ctx_at w) (w_files w) (w_open w) (w_dicts w) (w_ctxs w) m.

Definition modify (f : world -> world) : sdk unit := fun w => Ok (Some tt, f w).

(** The member [native_] of an object in scope, and the corpus of a trainer. *)
Definition dict_native (x : nat) : sdk ptr := fun w => match w_dicts w !! x with Some p => Ok (Some p, w) | None => Undef end.
Definition ctx_native (k : nat) : sdk ptr := fun w => match w_ctxs w !! k with Some p => Ok (Some p, w) | None => Undef end.
Definition corpus_ (t : nat) : sdk (list (list Z)) := fun w => match w_trainers w !! t with Some c => Ok (Some c, w) | None => Undef end.
Definition set_dict_native (x : nat) (p : ptr) : sdk unit := modify (fun w => with_dicts w (<[x := p]> (w_dicts w))).
Definition set_ctx_native (k : nat) (p : ptr) : sdk unit := modify (fun w => with_ctxs w (<[k := p]> (w_ctxs w))).
Definition set_corpus_ (t : nat) (c : list (list Z)) : sdk unit := modify (fun w => with_trainers w (<[t := c]> (w_trainers w))).

(** A new object under a name that is not in scope. *)
Definition declare_dict (x : nat) (p : ptr) : sdk unit := fun w =>
  match w_dicts w !! x with None => set_dict_native x p w | Some _ => Undef end.
Definition declare_ctx (k : nat) (p : ptr) : sdk unit := fun w =>
  match w_ctxs w !! k with None => set_ctx_native k p w | Some _ => Undef end.
Definition declare_trainer (t : nat) : sdk unit := fun w =>
  match w_trainers w !! t with None => set_corpus_ t [] w | Some _ => Undef end.

(** ** The native library, through handles *)

(** The structures behind handles; the library follows [ctx->dict]. *)
Definition dict_at (a : nat) : sdk netc_dict_t := fun w =>
  match w_dict_at w !! a with Some (_, d) => Ok (Some d, w) | None => Undef end.
Definition ctx_at (a : nat) : sdk netc_ctx_t := fun w =>
  match w_ctx_at w !! a with Some (_, _, c) => Ok (Some c, w) | None => Undef end.
Definition ctx_with_dict (a : nat) : sdk netc_ctx_t := fun w =>
  match w_ctx_at w !! a with
  | Some (_, da, c) => match w_dict_at w !! da with Some _ => Ok (Some c, w) | None => Undef end
  | None => Undef
  end.
Definition put_ctx (a : nat) (c : netc_ctx_t) : sdk unit := fun w =>
  match w_ctx_at w !! a with
  | Some (ps, da, _) => modify (fun w => with_ctx_at w (<[a := (ps, da, c)]> (w_ctx_at w))) w
  | None => Undef
  end.

Definition handle_free (p : ptr) : sdk unit :=
  match p with
  | None => mret tt
  | Some a => fun w =>
      match w_dict_at w !! a with
      | Some (ps, _) => (native (netc_dict_free (Some ps));; modify (fun w => with_dict_at w (delete a (w_dict_at w)))) w
      | None => Undef
      end
  end.

Definition handle_destroy (p : ptr) : sdk unit :=
  match p with
  | None => mret tt
  | Some a => fun w =>
      match w_ctx_at w !! a with
      | Some (ps, _, _) => (native (netc_ctx_destroy (Some ps));; modify (fun w => with_ctx_at w (delete a (w_ctx_at w)))) w
      | None => Undef
      end
  end.

(** A dictionary the library returned, stored at its address. *)
Definition store_dict (r : result (netc_dict_t * dict_ptrs)) : sdk (result nat) :=
  match r with
  | Ok (d, ps) => match p_dict ps with
      | Some a => modify (fun w => with_dict_at w (<[a := (ps, d)]> (w_dict_at w)));; mret (Ok a)
      | None => undef
      end
  | Fail e => mret (Fail e)
  | Undef => undef
  end.

Definition handle_load (mem : nat -> bool) (data : list Z) : sdk (result nat) :=
  r ← native (dict_load_mem mem data); store_dict r.

Definition handle_train (cpu : simd_caps) (mem : nat -> bool) (packets : list (option (list Z))) (model_id : Z) : sdk (result nat) :=
  if (model_id =? 0) || (model_id =? 255) then mret (Fail NETC_ERR_INVALID_ARG) else
  r ← native (dict_train_mem cpu mem packets model_id); store_dict r.

(** The blob is a block of its own. *)
Definition handle_save (mem : nat -> bool) (a : nat) : sdk (result (list Z * ptr)) :=
  d ← dict_at a;
  match netc_dict_save mem (Some d) false with
  | Ok blob => p ← native (malloc true); mret (Ok (blob, p))
  | Fail e => mret (Fail e)
  | Undef => undef
  end.

Definition handle_create (cpu : simd_caps) (mem : nat -> bool) (a : nat) (cfg : netc_cfg_t) : sdk ptr :=
  d ← dict_at a;
  ps ← native (ctx_create_mem mem (Some d) (Some cfg));
  match ps, netc_ctx_create cpu mem (Some d) (Some cfg) with
  | Some ps, Some c => match p_ctx ps with
      | Some b => modify (fun w => with_ctx_at w (<[b := (ps, a, c)]> (w_ctx_at w)));; mret (Some b)
      | None => undef
      end
  | None, None => mret None
  | _, _ => undef
  end.

(** ** What the environment decides during a call *)

(** The CPU, which native and vector allocations succeed, which files can be
    opened, and how many of [n] bytes a read or a write transfers and a close
    leaves on the disk. *)
Record sdk_env : Type := Env {
  e_cpu : simd_caps;
  e_mem : nat -> bool;
  e_vec : nat -> bool;
  e_open : string -> bool;
  e_read : Z -> Z;
  e_write : Z -> Z;
  e_flush : Z -> Z }.

(** A pointer and a size: NULL with any size, or a range of bytes. *)
Inductive span : Type := Null (size : Z) | Range (bs : list Z).
Definition span_ptr (s : span) : option (list Z) := match s with Null _ => None | Range bs => Some bs end.
Definition span_size (s : span) : Z := match s with Null n => n | Range bs => zlen bs end.

(** [std::vector<uint8_t>::resize] *)
Definition resize (v : list Z) (n : Z) : list Z := take (Z.to_nat n) v ++ replicate (Z.to_nat n - length v) 0.
(** [if (dst.size() < n) dst.resize(n)]: only growing allocates. *)
Definition grow (ok : bool) (v : list Z) (n : Z) : sdk (list Z) :=
  if zlen v <? n then allocate ok;; mret (resize v n) else mret v.

(** ** Dict *)
Definition Dict_new (x : nat) : sdk unit := declare_dict x None.

Definition Dict_move_new (x y : nat) : sdk unit :=
  p ← dict_native y;
  declare_dict x p;;
  set_dict_native y None.

Definition Dict_move_assign (x y : nat) : sdk unit :=
  if decide (x = y) then p ← dict_native x; mret tt else
  p ← dict_native x;
  q ← dict_native y;
  handle_free p;;
  set_dict_native x q;;
  set_dict_native y None.

Definition Dict_delete (x : nat) : sdk unit :=
  p ← dict_native x;
  handle_free p;;
  modify (fun w => with_dicts w (delete x (w_dicts w))).

Definition Dict_LoadFromBytes (e : sdk_env) (data : span) (out_dict : nat) : sdk Result :=
  match data with
  | Null _ => mret R_InvalidArg
  | Range bs =>
      if zlen bs =? 0 then mret R_InvalidArg else
      r ← handle_load (e_mem e) bs;
      match r with
      | Ok a =>
          p ← dict_native out_dict;
          handle_free p;;
          set_dict_native out_dict (Some a);;
          mret R_OK
      | Fail err => mret (to_Result err)
      | Undef => undef
      end
  end.

Definition fopen : sdk unit := modify (fun w => with_open w (S (w_open w))).
Definition fclose : sdk unit := modify (fun w => with_open w (pred (w_open w))).
Definition file_contents (path : string) : sdk (option (list Z)) := fun w => Ok (Some (w_files w !! path), w).

Definition Dict_LoadFromFile (e : sdk_env) (file_path : string) (out_dict : nat) : sdk Result :=
  f ← file_contents file_path;
  match (if e_open e file_path then f else None) with
  | None => mret R_InvalidArg
  | Some contents =>
      fopen;;
      let file_size := zlen contents in
      if file_size <=? 0 then fclose;; mret R_InvalidArg else
      (* the constructor of buf throws with the file open *)
      allocate (e_vec e 0%nat);;
      let read := e_read e file_size in
      let buf := resize (take (Z.to_nat read) contents) file_size in
      fclose;;
      if negb (read =? file_size) then mret R_InvalidArg else
      Dict_LoadFromBytes e (Range buf) out_dict
  end.

Definition Dict_SaveToBytes (e : sdk_env) (x : nat) (out_bytes : list Z) : sdk (Result * list Z) :=
  p ← dict_native x;
  match p with
  | None => mret (R_InvalidArg, out_bytes)
  | Some a =>
      r ← handle_save (e_mem e) a;
      match r with
      | Ok (blob, b) =>
          (* a throw here loses the blob *)
          allocate (e_vec e 0%nat || (zlen blob <=? zlen out_bytes));;
          native (netc_dict_free_blob b);;
          mret (R_OK, blob)
      | Fail err => mret (to_Result err, out_bytes)
      | Undef => undef
      end
  end.

(** The result of fclose is not looked at. *)
Definition Dict_SaveToFile (e : sdk_env) (x : nat) (file_path : string) : sdk Result :=
  '(r, blob) ← Dict_SaveToBytes e x [];
  if negb (bool_decide (r = R_OK)) then mret r else
  if negb (e_open e file_path) then mret R_InvalidArg else
  fopen;;
  let written := e_write e (zlen blob) in
  modify (fun w => with_files w (<[file_path := take (Z.to_nat (Z.min written (e_flush e written))) blob]> (w_files w)));;
  fclose;;
  if negb (written =? zlen blob) then mret R_InvalidArg else mret R_OK.

Definition Dict_IsValid (x : nat) : sdk bool := p ← dict_native x; mret (negb (null p)).

Definition Dict_GetModelId (x : nat) : sdk Z :=
  p ← dict_native x;
  match p with None => mret 0 | Some a => d ← dict_at a; mret (netc_dict_model_id (Some d)) end.

(** ** Trainer *)
Definition Trainer_new (t : nat) : sdk unit := declare_trainer t.

Definition Trainer_AddPacket (e : sdk_env) (t : nat) (data : span) : sdk unit :=
  match data with
  | Null _ => mret tt
  | Range bs =>
      if 0 <? zlen bs then
        c ← corpus_ t;
        allocate (e_vec e 0%nat);;
        set_corpus_ t (c ++ [bs])
      else mret tt
  end.

(** The packets before one that cannot be copied have been added. *)
Fixpoint add_packets (e : sdk_env) (t i : nat) (packets : list (list Z)) : sdk unit :=
  match packets with
  | [] => mret tt
  | pkt :: packets' =>
      (if zlen pkt =? 0 then mret tt else
       c ← corpus_ t;
       allocate (e_vec e i);;
       set_corpus_ t (c ++ [pkt]));;
      add_packets e t (S i) packets'
  end.
Definition Trainer_AddPackets (e : sdk_env) (t : nat) (packets : list (list Z)) : sdk unit := add_packets e t 0 packets.

Definition Trainer_GetCorpusCount (t : nat) : sdk Z := c ← corpus_ t; mret (zlen c).

Definition Trainer_Train (e : sdk_env) (t : nat) (model_id : Z) (out_dict : nat) : sdk Result :=
  c ← corpus_ t;
  if zlen c =? 0 then mret R_InvalidArg else
  allocate (e_vec e 0%nat);;
  allocate (e_vec e 1%nat);;
  r ← handle_train (e_cpu e) (e_mem e) (map Some c) model_id;
  match r with
  | Ok a =>
      p ← dict_native out_dict;
      handle_free p;;
      set_dict_native out_dict (Some a);;
      mret R_OK
  | Fail err => mret (to_Result err)
  | Undef => undef
  end.

Definition Trainer_Reset (t : nat) : sdk unit := c ← corpus_ t; set_corpus_ t [].
Definition Trainer_delete (t : nat) : sdk unit :=
  c ← corpus_ t; modify (fun w => with_trainers w (delete t (w_trainers w))).

(** ** Context *)
Inductive Mode : Type := TCP | UDP.
Inductive SimdLevel : Type := Simd_Generic | Simd_SSE42 | Simd_AVX2 | Simd_NEON.

Definition context_cfg (mode : Mode) (lvl extra_flags : Z) : netc_cfg_t :=
  let flags := Z.lor extra_flags NETC_CFG_FLAG_STATS in
  Cfg (match mode with TCP => Z.lor flags NETC_CFG_FLAG_STATEFUL | UDP => Z.lor flags NETC_CFG_FLAG_STATELESS end) 0 lvl 0 0.

Definition Context_new (e : sdk_env) (k x : nat) (mode : Mode) (lvl extra_flags : Z) : sdk unit :=
  p ← dict_native x;
  match p with
  | None => declare_ctx k None
  | Some a =>
      c ← handle_create (e_cpu e) (e_mem e) a (context_cfg mode lvl extra_flags);
      declare_ctx k c
  end.

Definition Context_move_new (k j : nat) : sdk unit :=
  p ← ctx_native j;
  declare_ctx k p;;
  set_ctx_native j None.

Definition Context_move_assign (k j : nat) : sdk unit :=
  if decide (k = j) then p ← ctx_native k; mret tt else
  p ← ctx_native k;
  q ← ctx_native j;
  handle_destroy p;;
  set_ctx_native k q;;
  set_ctx_native j None.

Definition Context_delete (k : nat) : sdk unit :=
  p ← ctx_native k;
  handle_destroy p;;
  modify (fun w => with_ctxs w (delete k (w_ctxs w))).

Definition Context_Compress (e : sdk_env) (k : nat) (src : span) (dst : list Z) : sdk (Result * list Z) :=
  p ← ctx_native k;
  match p with
  | None => mret (R_CtxNull, dst)
  | Some a =>
      dst ← grow (e_vec e 0%nat) dst (netc_compress_bound (span_size src));
      c ← ctx_with_dict a;
      match netc_compress (Some c) (span_ptr src) (Some (zlen dst)) false with
      | Ok (c', Ok pkt) => put_ctx a c';; mret (R_OK, pkt)
      | Ok (c', Fail err) => put_ctx a c';; mret (to_Result err, [])
      | Fail err => mret (to_Result err, [])
      | _ => undef
      end
  end.

Definition Context_Decompress (e : sdk_env) (k : nat) (src : span) (dst : list Z) : sdk (Result * list Z) :=
  p ← ctx_native k;
  match p with
  | None => mret (R_CtxNull, dst)
  | Some a =>
      dst ← grow (e_vec e 0%nat) dst NETC_MAX_PACKET_SIZE;
      c ← ctx_with_dict a;
      match netc_decompress (Some c) (span_ptr src) (Some dst) false with
      | Ok (c', out) => put_ctx a c';; mret (R_OK, out)
      | Fail err => mret (to_Result err, [])
      | Undef => undef
      end
  end.

Definition Context_CompressStateless (e : sdk_env) (x : nat) (src : span) (dst : list Z) : sdk (Result * list Z) :=
  p ← dict_native x;
  match p with
  | None => mret (R_InvalidArg, dst)
  | Some a =>
      dst ← grow (e_vec e 0%nat) dst (netc_compress_bound (span_size src));
      d ← dict_at a;
      match netc_compress_stateless (Some d) (span_ptr src) (Some (zlen dst)) false with
      | Ok pkt => mret (R_OK, pkt)
      | Fail err => mret (to_Result err, [])
      | Undef => undef
      end
  end.

Definition Context_DecompressStateless (e : sdk_env) (x : nat) (src : span) (dst : list Z) : sdk (Result * list Z) :=
  p ← dict_native x;
  match p with
  | None => mret (R_InvalidArg, dst)
  | Some a =>
      dst ← grow (e_vec e 0%nat) dst NETC_MAX_PACKET_SIZE;
      d ← dict_at a;
      match netc_decompress_stateless (Some d) (span_ptr src) (Some dst) false with
      | Ok out => mret (R_OK, out)
      | Fail err => mret (to_Result err, [])
      | Undef => undef
      end
  end.

Definition Context_MaxCompressedSize (src_size : Z) : Z := netc_compress_bound src_size.

(** The library follows [ctx->dict] for an adaptive context only. *)
Definition Context_Reset (k : nat) : sdk unit :=
  p ← ctx_native k;
  match p with
  | None => mret tt
  | Some a =>
      c ← ctx_at a;
      c ← (match c_adapt_freq c with Some _ => ctx_with_dict a | None => mret c end);
      put_ctx a (netc_ctx_reset c)
  end.

Definition Context_GetSimdLevel (k : nat) : sdk SimdLevel :=
  p ← ctx_native k;
  match p with
  | None => mret Simd_Generic
  | Some a =>
      c ← ctx_at a;
      mret (match netc_ctx_simd_level (Some c) with 2 => Simd_SSE42 | 3 => Simd_AVX2 | 4 => Simd_NEON | _ => Simd_Generic end)
  end.

(** The five counters are copied one by one. *)
Definition Context_GetStats (k : nat) (out : netc_stats_t) : sdk (Result * netc_stats_t) :=
  p ← ctx_native k;
  match p with
  | None => mret (R_CtxNull, out)
  | Some a =>
      c ← ctx_at a;
      match netc_ctx_stats (Some c) false with
      | Ok raw => mret (R_OK, Stats (packets_compressed raw) (packets_decompressed raw) (bytes_in raw) (bytes_out raw) (passthrough_count raw))
      | Fail err => mret (to_Result err, out)
      | Undef => undef
      end
  end.

Definition Stats_AverageRatio (s : netc_stats_t) : spec_float :=
  if bytes_in s =? 0 then f64_zero else f64_div (f64_of_Z (bytes_out s)) (f64_of_Z (bytes_in s)).

Definition Context_IsValid (k : nat) : sdk bool := p ← ctx_native k; mret (negb (null p)).
