(* ===== verification/SdkOwners.v ===== *)
(** * Ownership of native handles by C++ objects

    The invariant of the C++ binding (src/sdk/cpp): every native structure is
    owned by exactly one object in scope, its blocks are live and nobody else's,
    and a context's dictionary is alive.  The view of a world replaces handles by
    the structures behind them.  Lemmas for the primitive steps of the methods of
    Sdk.v say what they do to the invariant and to the view. *)

From Stdlib Require Import String.
From stdpp Require Import prelude gmap strings.
From Stdlib Require Import ZArith Lia.
From S2P Require Import Prelude Simd Header Ctx Dict Train Training Heap Decompress Compress Session Safety Progress Transport Persist Deploy Platform Sdk.

Local Open Scope Z_scope.

(** ** Objects and handles *)
Section Owners.
Context {V : Type}.
Implicit Types (objs : gmap nat ptr) (store : gmap nat V) (x y a : nat).

Record owners objs store : Prop := {
  ow_alive : forall x a, objs !! x = Some (Some a) -> is_Some (store !! a);
  ow_owned : forall a v, store !! a = Some v -> exists x, objs !! x = Some (Some a);
  ow_unique : forall x y a, objs !! x = Some (Some a) -> objs !! y = Some (Some a) -> x = y }.

Lemma owners_empty : owners ∅ ∅.
Proof. split; [intros ? ?|intros ? ?|intros ? ? ?]; by rewrite lookup_empty. Qed.

(** An object that owns nothing comes or goes. *)
Lemma owners_null objs store x : objs !! x = None \/ objs !! x = Some None -> owners objs store -> owners (<[x := None]> objs) store.
Proof.
  intros Hx [H1 H2 H3]. split.
  - intros y a [[_ ?]|[? ?]]%lookup_insert_Some; [done|by eapply H1].
  - intros a v Ha. destruct (H2 a v Ha) as [y Hy]. exists y. rewrite lookup_insert_ne; [done|]. intros ->. by destruct Hx; simplify_eq.
  - intros y z a [[_ ?]|[? ?]]%lookup_insert_Some; [done|]. intros [[_ ?]|[? ?]]%lookup_insert_Some; [done|by eapply H3].
Qed.

Lemma owners_gone objs store x : objs !! x = Some None -> owners objs store -> owners (delete x objs) store.
Proof.
  intros Hx [H1 H2 H3]. split.
  - intros y a [? ?]%lookup_delete_Some. by eapply H1.
  - intros a v Ha. destruct (H2 a v Ha) as [y Hy]. exists y. rewrite lookup_delete_ne; [done|]. intros ->. by simplify_eq.
  - intros y z a [? ?]%lookup_delete_Some [? ?]%lookup_delete_Some. by eapply H3.
Qed.

(** Ownership moves from [y] to [x], which owned nothing. *)
Lemma owners_move objs store x y p :
  x <> y -> objs !! x = None \/ objs !! x = Some None -> objs !! y = Some p -> owners objs store ->
  owners (<[y := None]> (<[x := p]> objs)) store.
Proof.
  intros Hne Hx Hy [H1 H2 H3].
  assert (forall z a, <[y := None]> (<[x := p]> objs) !! z = Some (Some a) ->
    z = x /\ objs !! y = Some (Some a) \/ z <> x /\ z <> y /\ objs !! z = Some (Some a)) as Hz.
  { intros z a [[_ ?]|[? [[<- ->]|[? ?]]%lookup_insert_Some]]%lookup_insert_Some; [done|by left|by right]. }
  split.
  - intros z a [[_ ?]|(_ & _ & ?)]%Hz; by eapply H1.
  - intros a v Ha. destruct (H2 a v Ha) as [z Hz']. destruct (decide (z = y)) as [-> |Hzy].
    + exists x. rewrite lookup_insert_ne, lookup_insert_eq by done. congruence.
    + exists z. rewrite !lookup_insert_ne; [done| |done]. intros ->. by destruct Hx; simplify_eq.
  - intros z z' a [[-> E]|(N1 & N2 & E)]%Hz [[-> E']|(N1' & N2' & E')]%Hz; [done| | |by eapply H3].
    + destruct N2'. symmetry. by eapply H3.
    + destruct N2. by eapply H3.
Qed.

(** The structure [x] owns is released. *)
Lemma owners_release objs store x a :
  objs !! x = Some (Some a) -> owners objs store -> owners (<[x := None]> objs) (delete a store).
Proof.
  intros Hx [H1 H2 H3]. split.
  - intros y b [[_ ?]|[Hne Hy]]%lookup_insert_Some; [done|]. destruct (H1 y b Hy) as [v Hv]. exists v.
    rewrite lookup_delete_ne; [done|]. intros ->. destruct Hne. by eapply H3.
  - intros b v [Hne Hb]%lookup_delete_Some. destruct (H2 b v Hb) as [y Hy]. exists y. rewrite lookup_insert_ne; [done|].
    intros ->. by simplify_eq.
  - intros y z b [[_ ?]|[? ?]]%lookup_insert_Some; [done|]. intros [[_ ?]|[? ?]]%lookup_insert_Some; [done|by eapply H3].
Qed.

(** A new structure for [x], which owned nothing. *)
Lemma owners_acquire objs store x a v :
  objs !! x = None \/ objs !! x = Some None -> store !! a = None -> owners objs store -> owners (<[x := Some a]> objs) (<[a := v]> store).
Proof.
  intros Hx Ha [H1 H2 H3]. assert (forall y, objs !! y <> Some (Some a)) as Hfresh by (intros y Hy; destruct (H1 y a Hy); congruence). split.
  - intros y b [[_ [= ->]]|[? Hy]]%lookup_insert_Some; [rewrite lookup_insert_eq; by eexists|]. destruct (H1 y b Hy) as [u Hu].
    exists u. rewrite lookup_insert_ne; [done|]. intros ->. congruence.
  - intros b u [[<- _]|[? Hb]]%lookup_insert_Some; [exists x; by rewrite lookup_insert_eq|]. destruct (H2 b u Hb) as [y Hy]. exists y.
    rewrite lookup_insert_ne; [done|]. intros ->. by destruct Hx; simplify_eq.
  - intros y z b [[<- [= <-]]|[? Hy]]%lookup_insert_Some [[<- ?]|[? Hz]]%lookup_insert_Some; [done| | |by eapply H3].
    + by destruct (Hfresh z).
    + simplify_eq. by destruct (Hfresh y).
Qed.

Lemma owners_update objs store a u v : store !! a = Some u -> owners objs store -> owners objs (<[a := v]> store).
Proof.
  intros Ha [H1 H2 H3]. split; [| |done].
  - intros x b Hx. destruct (H1 x b Hx) as [z Hz]. destruct (decide (a = b)) as [-> |?]; [rewrite lookup_insert_eq|rewrite lookup_insert_ne by done]; by eexists.
  - intros b z [[<- _]|[_ Hb]]%lookup_insert_Some; by eapply H2.
Qed.

(** *** What the objects hold *)
Context {T : Type} (f : V -> T).

Definition view store objs : gmap nat (option T) := (fun p : ptr => a ← p; f <$> store !! a) <$> objs.

Lemma view_lookup store objs x p : objs !! x = Some p -> view store objs !! x = Some (a ← p; f <$> store !! a).
Proof. intros H. unfold view. by rewrite lookup_fmap, H. Qed.

Lemma view_held store objs x a v : objs !! x = Some (Some a) -> store !! a = Some v -> view store objs !! x = Some (Some (f v)).
Proof. intros Hx Ha. rewrite (view_lookup store objs x (Some a) Hx). cbn [mbind option_bind]. by rewrite Ha. Qed.

Lemma view_insert store objs x p : view store (<[x := p]> objs) = <[x := a ← p; f <$> store !! a]> (view store objs).
Proof. apply fmap_insert. Qed.

Lemma view_null store objs x : view store (<[x := None]> objs) = <[x := None]> (view store objs).
Proof. apply (view_insert store objs x None). Qed.

Lemma view_empty store objs : view store objs = ∅ -> objs = ∅.
Proof. apply fmap_empty_inv. Qed.

Lemma view_delete store objs x : view store (delete x objs) = delete x (view store objs).
Proof. apply fmap_delete. Qed.

Lemma view_move store objs x y p d :
  objs !! y = Some p -> view store objs !! y = Some d -> view store (<[y := None]> (<[x := p]> objs)) = <[y := None]> (<[x := d]> (view store objs)).
Proof. intros Hy Hd. rewrite (view_lookup _ _ _ _ Hy) in Hd. injection Hd as <-. by rewrite view_null, view_insert. Qed.

(** A change at an address nobody holds is not seen. *)
Lemma view_ext store store' objs :
  (forall x a, objs !! x = Some (Some a) -> f <$> store' !! a = f <$> store !! a) -> view store' objs = view store objs.
Proof. intros H. apply map_fmap_ext. intros x [a|] Hx; [|done]. cbn [mbind option_bind]. by eapply H. Qed.

Lemma view_release objs store x a :
  objs !! x = Some (Some a) -> owners objs store -> view (delete a store) (<[x := None]> objs) = <[x := None]> (view store objs).
Proof.
  intros Hx [_ _ H3]. rewrite <- view_null. apply view_ext. intros y b [[_ ?]|[Hne Hy]]%lookup_insert_Some; [done|].
  rewrite lookup_delete_ne; [done|]. intros ->. destruct Hne. by eapply H3.
Qed.

Lemma view_fresh objs store a v : store !! a = None -> owners objs store -> view (<[a := v]> store) objs = view store objs.
Proof.
  intros Ha [H1 _ _]. apply view_ext. intros y b Hy. rewrite lookup_insert_ne; [done|]. intros ->. destruct (H1 y b Hy); congruence.
Qed.

Lemma view_update objs store x a v :
  objs !! x = Some (Some a) -> owners objs store -> view (<[a := v]> store) objs = <[x := Some (f v)]> (view store objs).
Proof.
  intros Hx [_ _ H3]. rewrite <- (insert_id objs x (Some a) Hx) at 1. rewrite view_insert. cbn [mbind option_bind]. rewrite lookup_insert_eq.
  apply map_eq. intros y. destruct (decide (x = y)) as [<- |Hne]; [by rewrite !lookup_insert_eq|]. rewrite !lookup_insert_ne by done.
  unfold view. rewrite !lookup_fmap. destruct (objs !! y) as [[b|]|] eqn:Hy; [|done|done]. cbn [fmap option_fmap option_map mbind option_bind].
  rewrite lookup_insert_ne; [done|]. intros ->. destruct Hne. by eapply H3.
Qed.
End Owners.
Arguments view {V T} f store objs.

(** ** Blocks *)
Definition dict_cells (m : gmap nat (dict_ptrs * netc_dict_t)) : list ptr :=
  map_to_list m ≫= fun x => [p_lzp_table (fst (snd x)); p_dict (fst (snd x))].
Definition ctx_cells (m : gmap nat (ctx_ptrs * nat * netc_ctx_t)) : list ptr :=
  map_to_list m ≫= fun x => ptrs (fst (fst (snd x))).

Lemma dict_cells_insert m a ps d : m !! a = None -> dict_cells (<[a := (ps, d)]> m) ≡ₚ [p_lzp_table ps; p_dict ps] ++ dict_cells m.
Proof. intros H. unfold dict_cells. by rewrite map_to_list_insert. Qed.
Lemma dict_cells_delete m a ps d : m !! a = Some (ps, d) -> dict_cells m ≡ₚ [p_lzp_table ps; p_dict ps] ++ dict_cells (delete a m).
Proof. intros H. rewrite <- (dict_cells_insert (delete a m) a ps d) by apply lookup_delete_eq. by rewrite insert_delete_id. Qed.
Lemma ctx_cells_insert m a ps da c : m !! a = None -> ctx_cells (<[a := (ps, da, c)]> m) ≡ₚ ptrs ps ++ ctx_cells m.
Proof. intros H. unfold ctx_cells. by rewrite map_to_list_insert. Qed.
Lemma ctx_cells_delete m a ps da c : m !! a = Some (ps, da, c) -> ctx_cells m ≡ₚ ptrs ps ++ ctx_cells (delete a m).
Proof. intros H. rewrite <- (ctx_cells_insert (delete a m) a ps da c) by apply lookup_delete_eq. by rewrite insert_delete_id. Qed.
Lemma ctx_cells_update m a ps da c c' : m !! a = Some (ps, da, c) -> ctx_cells (<[a := (ps, da, c')]> m) ≡ₚ ctx_cells m.
Proof. intros H. rewrite <- insert_delete_eq, ctx_cells_insert by apply lookup_delete_eq. by rewrite (ctx_cells_delete m a ps da c). Qed.

(** Blocks that belong to nobody are left out of the running code's. *)
Lemma owns_split ps qs L h : owns (ps ++ qs) L h <-> owns ps (list_to_set (blocks qs) ∪ L) h /\ NoDup (blocks qs) /\ (forall b, b ∈ blocks qs -> b ∉ L).
Proof.
  assert (blocks (ps ++ qs) = blocks ps ++ blocks qs) as Hbs by apply omap_app. split.
  - intros [Hb Hn Ha Hl]. rewrite Hbs in *. apply NoDup_app in Hn as (N1 & N2 & N3). split; [|split; [done|]].
    + constructor; [done|done| |].
      * intros b Hin. pose proof (Ha b ltac:(apply elem_of_app; by left)). specialize (N2 b Hin). set_solver.
      * rewrite Hl, list_to_set_app_L. set_solver.
    + intros b Hin. apply Ha, elem_of_app. by right.
  - intros ([Hb Hn Ha Hl] & Hq & Hd). constructor; [done| | |].
    + rewrite Hbs. apply NoDup_app. split; [done|]. split; [|done]. intros b Hin. specialize (Ha b Hin). set_solver.
    + intros b. rewrite Hbs, elem_of_app. intros [Hin|Hin]; [specialize (Ha b Hin); set_solver|by apply Hd].
    + rewrite Hl, Hbs, list_to_set_app_L. set_solver.
Qed.

Lemma owns_none qs L h : owns qs L h <-> owns [] (list_to_set (blocks qs) ∪ L) h /\ NoDup (blocks qs) /\ (forall b, b ∈ blocks qs -> b ∉ L).
Proof. apply (owns_split [] qs). Qed.

(** A program that runs in any heap where it owns nothing runs beside the
    blocks of others. *)
Lemma runs_beside {A} (m : heapM A) h qs L (R : A -> list ptr) (P : A -> Prop) :
  owns qs L h ->
  (forall L', owns [] L' h -> runs m h (fun a h' => P a /\ owns (R a) L' h')) ->
  runs m h (fun a h' => P a /\ owns (R a ++ qs) L h').
Proof.
  intros Ho H. apply owns_none in Ho as (Ho & Hn & Hd). destruct (H _ Ho) as (a & h' & E & HP & Hr). exists a, h'. split; [done|]. split; [done|].
  by apply owns_split.
Qed.

(** ** The invariant *)

(** A dictionary that can be saved and used to code anything. *)
Definition dict_good (d : netc_dict_t) : Prop := dict_wf d /\ checksummed d /\ dict_ok d /\ dict_full d.

Definition ctx_good (c : netc_ctx_t) : Prop := ctx_ok c /\ ctx_full c /\ has (c_flags c) NETC_CFG_FLAG_STATS = true.

(** [D] and [C] say which objects own which handles; [L]: the blocks that were
    lost. *)
Record mem_inv (w : world) (D C : gmap nat ptr) (L : gset nat) : Prop := {
  mi_owns : owns (dict_cells (w_dict_at w) ++ ctx_cells (w_ctx_at w)) L (w_heap w);
  mi_dict : forall a ps d, w_dict_at w !! a = Some (ps, d) -> p_dict ps = Some a /\ dict_good d;
  mi_ctx : forall a ps da c, w_ctx_at w !! a = Some (ps, da, c) -> p_ctx ps = Some a /\ ctx_good c /\
    exists ps' d, w_dict_at w !! da = Some (ps', d) /\ c_dict c = Some d;
  mi_dicts : owners D (w_dict_at w);
  mi_ctxs : owners C (w_ctx_at w) }.

(** No context uses the dictionary of this handle. *)
Definition unbound (w : world) (p : ptr) : Prop :=
  forall a b ps da c, p = Some a -> w_ctx_at w !! b = Some (ps, da, c) -> da <> a.

(** The invariant, with the dictionaries and contexts that the objects hold. *)
Definition holds (w : world) (D C : gmap nat ptr) (L : gset nat) (DV : gmap nat (option netc_dict_t)) (CV : gmap nat (option netc_ctx_t)) : Prop :=
  mem_inv w D C L /\ view snd (w_dict_at w) D = DV /\ view snd (w_ctx_at w) C = CV.

Definition set_dicts (w : world) (h : heap) (m : gmap nat (dict_ptrs * netc_dict_t)) : world :=
  World h m (w_ctx_at w) (w_files w) (w_open w) (w_dicts w) (w_ctxs w) (w_trainers w).
Definition set_contexts (w : world) (h : heap) (m : gmap nat (ctx_ptrs * nat * netc_ctx_t)) : world :=
  World h (w_dict_at w) m (w_files w) (w_open w) (w_dicts w) (w_ctxs w) (w_trainers w).

Lemma handle_free_ok w D C L DV CV x p :
  holds w D C L DV CV -> D !! x = Some p -> unbound w p ->
  exists h m, handle_free p w = Ok (Some tt, set_dicts w h m) /\ holds (set_dicts w h m) (<[x := None]> D) C L (<[x := None]> DV) CV.
Proof.
  intros ([Ho Hd Hc OD OC] & <- & HC) Hx Hu. destruct p as [a|].
  2:{ exists (w_heap w), (w_dict_at w). split; [by destruct w|]. split; [split; try done; apply owners_null; [by right|done]|].
      split; [apply view_null|done]. }
  destruct (ow_alive _ _ OD x a Hx) as [[ps d] Ha]. unfold handle_free. rewrite Ha.
  rewrite (dict_cells_delete _ _ _ _ Ha), <- app_assoc in Ho. destruct (frees_owns _ _ _ _ Ho) as (h & Hf & Ho').
  exists h, (delete a (w_dict_at w)). split.
  { unfold mbind, sdk_bind, native. cbn [netc_dict_free]. rewrite Hf. done. }
  split; [|split; [by apply view_release|done]].
  split; cbn [set_dicts w_dict_at w_ctx_at w_heap]; [done| | |by apply owners_release|done].
  - intros b ps' d' [_ Hb]%lookup_delete_Some. by apply Hd.
  - intros b ps' da c Hb. destruct (Hc b ps' da c Hb) as (H1 & H2 & ps2 & d2 & H3 & H4). split; [done|]. split; [done|]. exists ps2, d2.
    split; [|done]. rewrite lookup_delete_ne; [done|]. intros <-. by eapply (Hu a b ps' a c).
Qed.

Lemma handle_destroy_ok w D C L DV CV k p :
  holds w D C L DV CV -> C !! k = Some p ->
  exists h m, handle_destroy p w = Ok (Some tt, set_contexts w h m) /\ holds (set_contexts w h m) D (<[k := None]> C) L DV (<[k := None]> CV).
Proof.
  intros ([Ho Hd Hc OD OC] & HD & <-) Hk. destruct p as [a|].
  2:{ exists (w_heap w), (w_ctx_at w). split; [by destruct w|]. split; [split; try done; apply owners_null; [by right|done]|].
      split; [done|apply view_null]. }
  destruct (ow_alive _ _ OC k a Hk) as [[[ps da] c] Ha]. unfold handle_destroy. rewrite Ha.
  assert (owns (ptrs ps ++ dict_cells (w_dict_at w) ++ ctx_cells (delete a (w_ctx_at w))) L (w_heap w)) as Ho1.
  { eapply owns_eq; [exact Ho|]. rewrite (ctx_cells_delete _ _ _ _ _ Ha). solve_Permutation. }
  destruct (frees_owns _ _ _ _ Ho1) as (h & Hf & Ho'). exists h, (delete a (w_ctx_at w)). split.
  { unfold mbind, sdk_bind, native. cbn [netc_ctx_destroy]. fold (ptrs ps). rewrite Hf. done. }
  split; [|split; [done|by apply view_release]].
  split; cbn [set_contexts w_dict_at w_ctx_at w_heap]; [done|done| |done|by apply owners_release].
  intros b ps' da' c' [_ Hb]%lookup_delete_Some. by apply Hc.
Qed.

(** A heap program at work in a world. *)
Lemma native_run {A} (m : heapM A) w Q :
  runs m (w_heap w) Q -> exists a h, native m w = Ok (Some a, set_dicts w h (w_dict_at w)) /\ Q a h.
Proof. intros (a & h & E & HQ). exists a, h. unfold native. by rewrite E. Qed.

(** An address just allocated is not that of another structure. *)
Lemma fresh_dict m ps rest L h a : owns ([p_lzp_table ps; Some a] ++ dict_cells m ++ rest) L h ->
  (forall b ps' d, m !! b = Some (ps', d) -> p_dict ps' = Some b) -> m !! a = None.
Proof.
  intros Ho Hm. destruct (m !! a) as [[ps' d]|] eqn:E; [|done]. exfalso. pose proof (Hm _ _ _ E) as Hp.
  assert ([p_lzp_table ps; Some a] ++ dict_cells m ++ rest ≡ₚ Some a :: Some a :: p_lzp_table ps :: p_lzp_table ps' :: dict_cells (delete a m) ++ rest) as Hperm.
  { rewrite (dict_cells_delete m a ps' d E), Hp. solve_Permutation. }
  rewrite Hperm in Ho. pose proof (own_nodup _ _ _ Ho) as Hn. unfold blocks in Hn. cbn [omap list_omap id] in Hn.
  apply NoDup_cons in Hn as [Hn _]. apply Hn. by left.
Qed.

Lemma fresh_ctx m ps rest L h a : owns (ptrs ps ++ ctx_cells m ++ rest) L h -> p_ctx ps = Some a ->
  (forall b ps' da c, m !! b = Some (ps', da, c) -> p_ctx ps' = Some b) -> m !! a = None.
Proof.
  intros Ho Ha Hm. destruct (m !! a) as [[[ps' da] c]|] eqn:E; [|done]. exfalso. pose proof (Hm _ _ _ _ E) as Hp.
  assert (exists qs, ptrs ps ++ ctx_cells m ++ rest ≡ₚ Some a :: Some a :: qs) as [qs Hperm].
  { exists (take 8 (ptrs ps) ++ take 8 (ptrs ps') ++ ctx_cells (delete a m) ++ rest). rewrite (ctx_cells_delete m a ps' da c E).
    unfold ptrs. cbn [take]. rewrite Ha, Hp. solve_Permutation. }
  rewrite Hperm in Ho. pose proof (own_nodup _ _ _ Ho) as Hn. unfold blocks in Hn. cbn [omap list_omap id] in Hn.
  apply NoDup_cons in Hn as [Hn _]. apply Hn. by left.
Qed.

(** A structure the library returned finds an owner [y]. *)
Lemma store_dict_ok w D C L0 L DV CV h d ps :
  holds w D C L0 DV CV -> owns (dict_owned (Ok (d, ps)) ++ dict_cells (w_dict_at w) ++ ctx_cells (w_ctx_at w)) L h ->
  is_Some (p_dict ps) -> dict_good d ->
  exists a m, store_dict (Ok (d, ps)) (set_dicts w h (w_dict_at w)) = Ok (Some (Ok a), set_dicts w h m) /\
    forall y, D !! y = None \/ D !! y = Some None -> holds (set_dicts w h m) (<[y := Some a]> D) C L (<[y := Some d]> DV) CV.
Proof.
  intros ([_ Hd Hc OD OC] & <- & HC) Ho [a Ha] Hg. exists a, (<[a := (ps, d)]> (w_dict_at w)).
  split; [unfold store_dict; by rewrite Ha|]. intros y Hy. cbn [dict_owned] in Ho.
  assert (w_dict_at w !! a = None) as Hf. { rewrite Ha in Ho. eapply fresh_dict; [exact Ho|]. intros. by eapply Hd. }
  split; [|split; [cbn [set_dicts w_dict_at]; rewrite view_insert; cbn [mbind option_bind]; by rewrite lookup_insert_eq, view_fresh|done]].
  split; cbn [set_dicts w_heap w_dict_at w_ctx_at]; [| | |by apply owners_acquire|done].
  - by rewrite dict_cells_insert, <- app_assoc by done.
  - intros b ps' d' [[<- [= <- <-]]|[_ Hb]]%lookup_insert_Some; [done|by apply Hd].
  - intros b ps' da c Hb. destruct (Hc b ps' da c Hb) as (H1 & H2 & ps2 & d2 & H3 & H4). split; [done|]. split; [done|]. exists ps2, d2.
    split; [|done]. rewrite lookup_insert_ne; [done|]. intros <-. congruence.
Qed.

(** The heap may change under the invariant as long as its blocks stay. *)
Lemma holds_heap w D C L L' DV CV h :
  holds w D C L DV CV -> owns (dict_cells (w_dict_at w) ++ ctx_cells (w_ctx_at w)) L' h -> holds (set_dicts w h (w_dict_at w)) D C L' DV CV.
Proof. by intros ([_ Hd Hc OD OC] & HD & HC) Ho. Qed.

(** Other owners for the same structures. *)
Lemma holds_dicts w D D' C L DV DV' CV :
  holds w D C L DV CV -> owners D' (w_dict_at w) -> view snd (w_dict_at w) D' = DV' -> holds w D' C L DV' CV.
Proof. by intros ([Ho Hd Hc _ OC] & _ & HC) OD HD. Qed.
Lemma holds_ctxs w D C C' L DV CV CV' :
  holds w D C L DV CV -> owners C' (w_ctx_at w) -> view snd (w_ctx_at w) C' = CV' -> holds w D C' L DV CV'.
Proof. by intros ([Ho Hd Hc OD _] & HD & _) OC HC. Qed.

(** An object that owns nothing appears or disappears. *)
Lemma holds_null_dict w D C L DV CV x :
  holds w D C L DV CV -> D !! x = None \/ D !! x = Some None -> holds w (<[x := None]> D) C L (<[x := None]> DV) CV.
Proof. intros Hh Hx. pose proof Hh as (Hi & <- & _). eapply holds_dicts; [exact Hh|apply owners_null; [done|apply Hi]|apply view_null]. Qed.
Lemma holds_null_ctx w D C L DV CV k :
  holds w D C L DV CV -> C !! k = None \/ C !! k = Some None -> holds w D (<[k := None]> C) L DV (<[k := None]> CV).
Proof. intros Hh Hk. pose proof Hh as (Hi & _ & <-). eapply holds_ctxs; [exact Hh|apply owners_null; [done|apply Hi]|apply view_null]. Qed.

Lemma holds_gone_dict w D C L DV CV x :
  holds w D C L DV CV -> D !! x = Some None -> holds w (delete x D) C L (delete x DV) CV.
Proof. intros Hh Hx. pose proof Hh as (Hi & <- & _). eapply holds_dicts; [exact Hh|apply owners_gone; [done|apply Hi]|apply view_delete]. Qed.
Lemma holds_gone_ctx w D C L DV CV k :
  holds w D C L DV CV -> C !! k = Some None -> holds w D (delete k C) L DV (delete k CV).
Proof. intros Hh Hk. pose proof Hh as (Hi & _ & <-). eapply holds_ctxs; [exact Hh|apply owners_gone; [done|apply Hi]|apply view_delete]. Qed.

(** Ownership moves from [y] to [x]. *)
Lemma holds_move_dict w D C L DV CV x y p d :
  holds w D C L DV CV -> x <> y -> D !! x = None \/ D !! x = Some None -> D !! y = Some p -> DV !! y = Some d ->
  holds w (<[y := None]> (<[x := p]> D)) C L (<[y := None]> (<[x := d]> DV)) CV.
Proof.
  intros Hh Hne Hx Hy Hd. pose proof Hh as (Hi & <- & _). eapply holds_dicts; [exact Hh|apply owners_move; [done|done|done|apply Hi]|by apply view_move].
Qed.
Lemma holds_move_ctx w D C L DV CV k j p c :
  holds w D C L DV CV -> k <> j -> C !! k = None \/ C !! k = Some None -> C !! j = Some p -> CV !! j = Some c ->
  holds w D (<[j := None]> (<[k := p]> C)) L DV (<[j := None]> (<[k := c]> CV)).
Proof.
  intros Hh Hne Hk Hj Hc. pose proof Hh as (Hi & _ & <-). eapply holds_ctxs; [exact Hh|apply owners_move; [done|done|done|apply Hi]|by apply view_move].
Qed.

(** What an object holds. *)
Lemma holds_dict w D C L DV CV x p :
  holds w D C L DV CV -> D !! x = Some p ->
  exists v, DV !! x = Some v /\
    match p with Some a => exists ps d, w_dict_at w !! a = Some (ps, d) /\ v = Some d /\ dict_good d | None => v = None end.
Proof.
  intros (Hi & <- & _) Hx. rewrite (view_lookup _ _ _ _ _ Hx). eexists. split; [done|]. destruct p as [a|]; [|done].
  destruct (ow_alive _ _ (mi_dicts _ _ _ _ Hi) x a Hx) as [[ps d] Ha]. exists ps, d. cbn [mbind option_bind]. rewrite Ha.
  split; [done|]. split; [done|]. by eapply mi_dict.
Qed.
Lemma holds_ctx w D C L DV CV k p :
  holds w D C L DV CV -> C !! k = Some p ->
  exists v, CV !! k = Some v /\
    match p with
    | Some a => exists ps da c, w_ctx_at w !! a = Some (ps, da, c) /\ v = Some c /\ ctx_good c /\ is_Some (w_dict_at w !! da)
    | None => v = None
    end.
Proof.
  intros (Hi & _ & <-) Hk. rewrite (view_lookup _ _ _ _ _ Hk). eexists. split; [done|]. destruct p as [a|]; [|done].
  destruct (ow_alive _ _ (mi_ctxs _ _ _ _ Hi) k a Hk) as [[[ps da] c] Ha]. exists ps, da, c. cbn [mbind option_bind]. rewrite Ha.
  destruct (mi_ctx _ _ _ _ Hi a ps da c Ha) as (_ & Hg & ps' & d & Hd & _). by rewrite Hd.
Qed.
Lemma holds_fresh w D C L DV CV x : holds w D C L DV CV -> D !! x = None -> DV !! x = None.
Proof. intros (_ & <- & _) Hx. unfold view. by rewrite lookup_fmap, Hx. Qed.
Lemma holds_fresh_ctx w D C L DV CV k : holds w D C L DV CV -> C !! k = None -> CV !! k = None.
Proof. intros (_ & _ & <-) Hk. unfold view. by rewrite lookup_fmap, Hk. Qed.

(** Bytes from which only usable dictionaries can be loaded. *)
Definition trusted (b : list Z) : Prop :=
  bytes b /\ forall mem d, netc_dict_load mem (Some b) false = Ok d -> checksummed d /\ dict_ok d /\ dict_full d.

Lemma handle_load_ok mem b w D C L DV CV :
  holds w D C L DV CV -> trusted b ->
  exists r h m, handle_load mem b w = Ok (Some r, set_dicts w h m) /\
    match r with
    | Ok a => exists d, netc_dict_load mem (Some b) false = Ok d /\
        forall y, D !! y = None \/ D !! y = Some None -> holds (set_dicts w h m) (<[y := Some a]> D) C L (<[y := Some d]> DV) CV
    | Fail e => netc_dict_load mem (Some b) false = Fail e /\ holds (set_dicts w h m) D C L DV CV
    | Undef => False
    end.
Proof.
  intros Hh [Hb Ht]. pose proof Hh as (Hi & _). pose proof (load_total mem b Hb) as Htot.
  destruct (native_run (dict_load_mem mem b) w _ (runs_beside _ _ _ _ _ _ (mi_owns _ _ _ _ Hi)
    (fun L' Ho => dict_load_runs mem b L' _ Ho ltac:(destruct Htot as [[e ->]|(d & -> & _)]; done)))) as (r & h & E & [He Hnn] & Ho).
  unfold handle_load, mbind, sdk_bind. rewrite E. destruct r as [[d ps]|e|].
  - change (Ok d = netc_dict_load mem (Some b) false) in He.
    destruct Htot as [[e He']|(d' & He' & Hwf & _)]; [congruence|]. assert (d' = d) as -> by congruence.
    destruct (Ht mem d) as (T1 & T2 & T3); [congruence|].
    destruct (store_dict_ok w D C L L DV CV h d ps Hh Ho Hnn) as (a & m & Es & Hm); [exact (conj Hwf (conj T1 (conj T2 T3)))|]. exists (Ok a), h, m.
    rewrite Es. split; [done|]. by exists d.
  - exists (Fail e), h, (w_dict_at w). split; [done|]. split; [done|]. by apply holds_heap with L.
  - exfalso. change (Undef = netc_dict_load mem (Some b) false) in He. destruct Htot as [[e He']|(d' & He' & _)]; congruence.
Qed.

(** Training may lose a block. *)
Definition lost_at_most (n : nat) (L L' : gset nat) : Prop := L ⊆ L' /\ (size L' <= size L + n)%nat.

Lemma lost_one L b : lost_at_most 1 L ({[b]} ∪ L).
Proof.
  split; [set_solver|]. rewrite (size_union_alt ({[b]} : gset nat) L), (size_singleton (C := gset nat) b).
  pose proof (subseteq_size (L ∖ {[b]}) L ltac:(set_solver)). lia.
Qed.

Lemma lost_none n L : lost_at_most n L L.
Proof. split; [done|lia]. Qed.

Lemma handle_train_ok cpu mem packets mid w D C L DV CV :
  holds w D C L DV CV -> packets_ok packets -> 0 <= mid < 256 ->
  exists r h m L', handle_train cpu mem packets mid w = Ok (Some r, set_dicts w h m) /\ lost_at_most 1 L L' /\
    match r with
    | Ok a => exists d, netc_dict_train cpu mem false false packets mid false = Ok d /\
        forall y, D !! y = None \/ D !! y = Some None -> holds (set_dicts w h m) (<[y := Some a]> D) C L' (<[y := Some d]> DV) CV
    | Fail e => netc_dict_train cpu mem false false packets mid false = Fail e /\ holds (set_dicts w h m) D C L' DV CV
    | Undef => False
    end.
Proof.
  intros Hh Hp Hid. pose proof Hh as (Hi & _). unfold handle_train. destruct ((mid =? 0) || (mid =? 255)) eqn:Eid.
  { exists (Fail NETC_ERR_INVALID_ARG), (w_heap w), (w_dict_at w), L. split; [by destruct w|]. split; [apply lost_none|].
    split; [unfold netc_dict_train; by rewrite Eid|]. by destruct w. }
  assert (0 < mid < 255) as Hid' by (bool_to_prop; lia).
  pose proof (mi_owns _ _ _ _ Hi) as Ho. apply owns_none in Ho as (Ho & Hn & Hdis).
  destruct (native_run (dict_train_mem cpu mem packets mid) w _ (dict_train_runs cpu mem packets mid _ _ Hp Hid' Ho))
    as (r & h & E & [He Hnn] & slot & Hslot & Hr).
  set (cells := dict_cells (w_dict_at w) ++ ctx_cells (w_ctx_at w)) in *.
  assert (exists L', lost_at_most 1 L L' /\ owns (dict_owned r ++ cells) L' h) as (L' & HL & Ho').
  { assert (owns ((leak mem slot ++ dict_owned r) ++ cells) L h) as Ho2 by (by apply owns_split). unfold leak in Ho2. destruct (forallb mem (seq 0 6)).
    - destruct Hslot as [b ->]. assert (owns ((dict_owned r ++ cells) ++ [Some b]) L h) as Ho3 by (eapply owns_eq; [exact Ho2|solve_Permutation]).
      apply owns_split in Ho3 as (Ho3 & _ & _). exists ({[b]} ∪ L). split; [apply lost_one|]. unfold blocks in Ho3. cbn [omap list_omap id list_to_set] in Ho3.
      by rewrite (union_empty_r_L {[b]}) in Ho3.
    - exists L. split; [apply lost_none|done]. }
  destruct (dict_train_usable cpu mem packets mid Hp Hid') as (d0 & Hu & Hd0). rewrite Hd0 in He.
  unfold mbind, sdk_bind. rewrite E. destruct r as [[d ps]|e|].
  - change (Ok d = if forallb mem (seq 0 10) then Ok d0 else Fail NETC_ERR_NOMEM) in He. case_if_in He; [|done]. injection He as <-.
    destruct Hu as (_ & U1 & U2 & _ & U3 & U4).
    destruct (store_dict_ok w D C L L' DV CV h d ps Hh Ho' Hnn) as (a & m & Es & Hm); [exact (conj U1 (conj U2 (conj U3 (trained_dict_full d U4))))|].
    exists (Ok a), h, m, L'. rewrite Es. split; [done|]. split; [done|]. exists d. by split.
  - exists (Fail e), h, (w_dict_at w), L'. split; [done|]. split; [done|]. rewrite Hd0. split; [done|]. by apply holds_heap with L.
  - exfalso. change (Undef = if forallb mem (seq 0 10) then Ok d0 else Fail NETC_ERR_NOMEM) in He. by case_if_in He.
Qed.

(** A saved blob is one more block, until it is freed. *)
Lemma handle_save_ok mem a w D C L DV CV ps d :
  holds w D C L DV CV -> w_dict_at w !! a = Some (ps, d) ->
  exists blob, (forall mem, netc_dict_save mem (Some d) false = if mem 0%nat then Ok blob else Fail NETC_ERR_NOMEM) /\
    bytes blob /\ (forall mem, mem 0%nat = true -> mem 1%nat = true -> netc_dict_load mem (Some blob) false = Ok d) /\ 0 < zlen blob /\
  exists h, handle_save mem a w = Ok (Some (if mem 0%nat then Ok (blob, Some (next (w_heap w))) else Fail NETC_ERR_NOMEM), set_dicts w h (w_dict_at w)) /\
    if mem 0%nat then (next (w_heap w) ∉ L) /\ holds (set_dicts w h (w_dict_at w)) D C ({[next (w_heap w)]} ∪ L) DV CV else (h = w_heap w).
Proof.
  intros Hh Ha. pose proof Hh as (Hi & _). destruct (mi_dict _ _ _ _ Hi a ps d Ha) as (_ & Hwf & Hck & Hok & Hfu).
  destruct (load_saved d [] Hwf Hck) as (blob & Hs & Hl & Hb & Hld). exists blob.
  assert (forall mem, netc_dict_save mem (Some d) false = if mem 0%nat then Ok blob else Fail NETC_ERR_NOMEM) as Hsave.
  { intros mem'. destruct (mem' 0%nat) eqn:E; [by apply Hs|]. unfold netc_dict_save. by rewrite E. }
  split; [done|]. split; [done|]. split; [intros; rewrite <- (app_nil_r blob); by apply Hld|].
  split; [rewrite Hl; eapply Z.lt_le_trans; [|apply blob_size_min]; done|].
  unfold handle_save, mbind, sdk_bind, dict_at. rewrite Ha, Hsave.
  destruct (mem 0%nat); [|exists (w_heap w); split; [by destruct w|done]].
  pose proof (mi_owns _ _ _ _ Hi) as Ho. destruct (malloc_owns true _ _ _ Ho) as (p & h & E & Ho' & _).
  assert (p = Some (next (w_heap w))) as -> by (cbn in E; congruence). exists h. unfold native. rewrite E. split; [done|].
  assert (owns ((dict_cells (w_dict_at w) ++ ctx_cells (w_ctx_at w)) ++ [Some (next (w_heap w))]) L h) as Ho2
    by (eapply owns_eq; [exact Ho'|solve_Permutation]).
  apply owns_split in Ho2 as (Ho2 & _ & Hni). unfold blocks in Ho2, Hni. cbn [omap list_omap id list_to_set] in Ho2, Hni.
  split; [apply Hni; by left|]. rewrite (union_empty_r_L {[next (w_heap w)]}) in Ho2. by apply holds_heap with L.
Qed.

Lemma free_blob_ok b w D C L DV CV :
  holds w D C ({[b]} ∪ L) DV CV -> b ∉ L ->
  exists h, native (netc_dict_free_blob (Some b)) w = Ok (Some tt, set_dicts w h (w_dict_at w)) /\ holds (set_dicts w h (w_dict_at w)) D C L DV CV.
Proof.
  intros Hh Hb. pose proof Hh as (Hi & _). pose proof (mi_owns _ _ _ _ Hi) as Ho.
  assert (owns ((dict_cells (w_dict_at w) ++ ctx_cells (w_ctx_at w)) ++ [Some b]) L (w_heap w)) as Ho2.
  { apply owns_split. unfold blocks. cbn [omap list_omap id list_to_set]. rewrite (union_empty_r_L {[b]}). split; [done|].
    split; [apply NoDup_singleton|]. by intros c ->%list_elem_of_singleton. }
  destruct (free_owns (Some b) (dict_cells (w_dict_at w) ++ ctx_cells (w_ctx_at w)) L (w_heap w)) as (h & E & Ho').
  { eapply owns_eq; [exact Ho2|solve_Permutation]. }
  exists h. unfold native, netc_dict_free_blob. rewrite E. split; [done|]. by apply holds_heap with ({[b]} ∪ L).
Qed.

(** A context is created for the object [k]. *)
Lemma handle_create_ok cpu mem a cfg w D C L DV CV ps d :
  holds w D C L DV CV -> w_dict_at w !! a = Some (ps, d) -> cfg_ring_buffer_size cfg = 0 -> has (cfg_flags cfg) NETC_CFG_FLAG_STATS = true ->
  exists p h m, handle_create cpu mem a cfg w = Ok (Some p, set_contexts w h m) /\
    forall k, C !! k = None \/ C !! k = Some None ->
      holds (set_contexts w h m) D (<[k := p]> C) L DV (<[k := netc_ctx_create cpu mem (Some d) (Some cfg)]> CV).
Proof.
  intros ([Ho Hd Hc OD OC] & HD & <-) Ha Hr Hst. destruct (Hd a ps d Ha) as (_ & Hwf & Hck & Hdok & Hdf).
  unfold handle_create, mbind, sdk_bind, dict_at. rewrite Ha.
  pose proof (create_shape cpu mem (Some d) (Some cfg)) as Hs. cbv zeta in Hs.
  apply owns_none in Ho as (Ho & Hn & Hdis). destruct (native_run _ w _ (ctx_create_runs mem (Some d) (Some cfg) _ _ Ho)) as (r & h & E & HQ).
  rewrite E. destruct r as [cp|], (netc_ctx_create cpu mem (Some d) (Some cfg)) as [c|] eqn:Ec;
    [|destruct HQ; congruence|destruct HQ, Hs; congruence|].
  - destruct HQ as (_ & Ho1 & ([b Hb] & _) & _). assert (owns (ptrs cp ++ dict_cells (w_dict_at w) ++ ctx_cells (w_ctx_at w)) L h) as Ho2 by (by apply owns_split).
    assert (w_ctx_at w !! b = None) as Hf.
    { eapply (fresh_ctx _ cp (dict_cells (w_dict_at w))); [eapply owns_eq; [exact Ho2|solve_Permutation]|done|]. intros. by eapply Hc. }
    exists (Some b), h, (<[b := (cp, a, c)]> (w_ctx_at w)). rewrite Hb. split; [done|]. intros k Hk.
    split; [|split; [done|cbn [set_contexts w_ctx_at]; rewrite view_insert; cbn [mbind option_bind]; by rewrite lookup_insert_eq, view_fresh]].
    split; cbn [set_contexts w_heap w_dict_at w_ctx_at]; [|done| |done|by apply owners_acquire].
    + eapply owns_eq; [exact Ho2|]. rewrite ctx_cells_insert by done. solve_Permutation.
    + intros b' cp' da' c' [[<- [= <- <- <-]]|[_ Hb']]%lookup_insert_Some; [|by apply Hc]. split; [done|].
      destruct (create_fields _ _ _ _ _ Ec) as (F1 & _ & F2 & _ & _). split; [|by exists ps, d].
      split; [|split; [|rewrite F2; exact Hst]].
      * eapply create_ok; [| |exact Ec]; [by intros ? [= <-]|cbn [default from_option id]; lia].
      * eapply create_full; [exact Ec|]. by intros ? [= <-].
  - destruct HQ as [_ Ho1]. exists None, h, (w_ctx_at w). split; [done|]. intros k Hk.
    assert (owns (dict_cells (w_dict_at w) ++ ctx_cells (w_ctx_at w)) L h) as Ho2 by (by apply owns_none).
    split; [split; try done; by apply owners_null|]. split; [done|apply view_null].
Qed.

(** A context changes its history. *)
Lemma put_ctx_ok a c' w D C L DV CV k ps da c :
  holds w D C L DV CV -> C !! k = Some (Some a) -> w_ctx_at w !! a = Some (ps, da, c) -> kept_by c c' -> ctx_ok c' ->
  exists m, put_ctx a c' w = Ok (Some tt, set_contexts w (w_heap w) m) /\ holds (set_contexts w (w_heap w) m) D C L DV (<[k := Some c']> CV).
Proof.
  intros ([Ho Hd Hc OD OC] & HD & <-) Hk Ha (K1 & K2 & K3) Hok. exists (<[a := (ps, da, c')]> (w_ctx_at w)). unfold put_ctx. rewrite Ha. split; [done|].
  split; [|split; [done|by apply (view_update snd _ _ k a (ps, da, c'))]].
  destruct (Hc a ps da c Ha) as (H1 & (G1 & G2 & G3) & ps' & d & H3 & H4).
  split; cbn [set_contexts w_heap w_dict_at w_ctx_at]; [|done| |done|by eapply owners_update].
  - by rewrite (ctx_cells_update _ _ _ _ _ _ Ha).
  - intros b bs db cb [[<- [= <- <- <-]]|[_ Hb]]%lookup_insert_Some; [|by apply Hc]. split; [done|].
    split; [split; [done|split; [by apply K3|by rewrite K2]]|]. exists ps', d. split; [done|]. by rewrite K1.
Qed.

Lemma moved_from {T} (m : gmap nat T) x y (u v n : T) :
  m !! y = None -> x <> y -> delete y (<[y := n]> (<[x := v]> (<[x := n]> (<[y := u]> m)))) = <[x := v]> m.
Proof. intros Hy Hne. by rewrite delete_insert_eq, insert_insert_eq, delete_insert_ne, delete_insert_eq, delete_id by done. Qed.

(** The object [x] releases what it held and takes a new structure. *)
Lemma adopt_ok w1 D C L L0 DV CV x p a d w :
  holds w D C L0 DV CV ->
  (forall y, D !! y = None \/ D !! y = Some None -> holds w1 (<[y := Some a]> D) C L (<[y := Some d]> DV) CV) ->
  D !! x = Some p -> unbound w1 p ->
  exists h m, handle_free p w1 = Ok (Some tt, set_dicts w1 h m) /\ holds (set_dicts w1 h m) (<[x := Some a]> D) C L (<[x := Some d]> DV) CV.
Proof.
  intros Hw Hh Hx Hu. set (y := fresh (dom D)). assert (D !! y = None) as Hy by apply not_elem_of_dom, is_fresh.
  assert (x <> y) as Hne by congruence. pose proof (holds_fresh _ _ _ _ _ _ _ Hw Hy) as Hvy.
  destruct (handle_free_ok w1 _ _ _ _ _ x p (Hh y (or_introl Hy))) as (h & m & E & H1); [by rewrite lookup_insert_ne|done|].
  exists h, m. split; [done|]. eapply (holds_move_dict _ _ _ _ _ _ x y (Some a) (Some d)) in H1; [|done| | |].
  - eapply (holds_gone_dict _ _ _ _ _ _ y) in H1; [|by rewrite lookup_insert_eq].
    by rewrite !moved_from in H1 by done.
  - right. by rewrite lookup_insert_eq.
  - by rewrite lookup_insert_ne, lookup_insert_eq.
  - by rewrite lookup_insert_ne, lookup_insert_eq.
Qed.
