(* ===== verification/SdkSpec.v ===== *)
(** * What the C++ binding promises

    Programs over the objects of src/sdk/cpp and their meaning without handles:
    a Dict holds a dictionary or nothing, a Context holds a context or nothing,
    a move transfers the value and leaves nothing behind.  The specification knows
    no heap; it says which calls return what, which throw, and what they change. *)

From Stdlib Require Import String.
From stdpp Require Import prelude gmap strings.
From Stdlib Require Import ZArith Lia.
From S2P Require Import Prelude Simd Header Ctx Dict Train Heap Decompress Compress Platform Sdk.

Local Open Scope Z_scope.

(** ** Programs *)
Inductive op : Type :=
| DictNew (x : nat) | DictMoveNew (x y : nat) | DictAssign (x y : nat) | DictDrop (x : nat)
| DictLoad (x : nat) (data : span) | DictLoadFile (x : nat) (path : string)
| DictSave (x : nat) (out : list Z) | DictSaveFile (x : nat) (path : string)
| DictValid (x : nat) | DictModelId (x : nat)
| TrainerNew (t : nat) | TrainerAdd (t : nat) (data : span) | TrainerAddAll (t : nat) (pkts : list (list Z))
| TrainerCount (t : nat) | TrainerTrain (t : nat) (mid : Z) (x : nat) | TrainerReset (t : nat) | TrainerDrop (t : nat)
| CtxNew (k x : nat) (mode : Mode) (lvl flags : Z) | CtxMoveNew (k j : nat) | CtxAssign (k j : nat) | CtxDrop (k : nat)
| CtxCompress (k : nat) (src : span) (dst : list Z) | CtxDecompress (k : nat) (src : span) (dst : list Z)
| StatelessCompress (x : nat) (src : span) (dst : list Z) | StatelessDecompress (x : nat) (src : span) (dst : list Z)
| CtxReset (k : nat) | CtxSimd (k : nat) | CtxStats (k : nat) (out : netc_stats_t) | CtxValid (k : nat).

(** What a call returns, with the output arguments it sets. *)
Inductive reply : Type :=
| Done | Code (r : Result) | Data (r : Result) (v : list Z) | Counters (r : Result) (s : netc_stats_t)
| Flag (b : bool) | Number (n : Z) | Level (l : SimdLevel).

Definition answer {A} (f : A -> reply) (m : sdk A) : sdk reply := a ← m; mret (f a).
Definition void_call : sdk unit -> sdk reply := answer (fun _ => Done).
Definition data_of (rv : Result * list Z) : reply := Data (fst rv) (snd rv).

Definition exec (e : sdk_env) (o : op) : sdk reply :=
  match o with
  | DictNew x => void_call (Dict_new x) | DictMoveNew x y => void_call (Dict_move_new x y)
  | DictAssign x y => void_call (Dict_move_assign x y) | DictDrop x => void_call (Dict_delete x)
  | DictLoad x data => answer Code (Dict_LoadFromBytes e data x) | DictLoadFile x path => answer Code (Dict_LoadFromFile e path x)
  | DictSave x out => answer data_of (Dict_SaveToBytes e x out) | DictSaveFile x path => answer Code (Dict_SaveToFile e x path)
  | DictValid x => answer Flag (Dict_IsValid x) | DictModelId x => answer Number (Dict_GetModelId x)
  | TrainerNew t => void_call (Trainer_new t) | TrainerAdd t data => void_call (Trainer_AddPacket e t data)
  | TrainerAddAll t pkts => void_call (Trainer_AddPackets e t pkts) | TrainerCount t => answer Number (Trainer_GetCorpusCount t)
  | TrainerTrain t mid x => answer Code (Trainer_Train e t mid x) | TrainerReset t => void_call (Trainer_Reset t) | TrainerDrop t => void_call (Trainer_delete t)
  | CtxNew k x mode lvl flags => void_call (Context_new e k x mode lvl flags) | CtxMoveNew k j => void_call (Context_move_new k j)
  | CtxAssign k j => void_call (Context_move_assign k j) | CtxDrop k => void_call (Context_delete k)
  | CtxCompress k src dst => answer data_of (Context_Compress e k src dst)
  | CtxDecompress k src dst => answer data_of (Context_Decompress e k src dst)
  | StatelessCompress x src dst => answer data_of (Context_CompressStateless e x src dst)
  | StatelessDecompress x src dst => answer data_of (Context_DecompressStateless e x src dst)
  | CtxReset k => void_call (Context_Reset k) | CtxSimd k => answer Level (Context_GetSimdLevel k)
  | CtxStats k out => answer (fun rs => Counters (fst rs) (snd rs)) (Context_GetStats k out)
  | CtxValid k => answer Flag (Context_IsValid k)
  end.

(** A program goes on after an exception, which is the reply None. *)
Fixpoint run (prog : list (sdk_env * op)) (w : world) : outcome unit (list (option reply) * world) :=
  match prog with
  | [] => Ok ([], w)
  | (e, o) :: prog' => '(r, w1) ← exec e o w; '(rs, w2) ← run prog' w1; Ok (r :: rs, w2)
  end.

(** ** Objects without handles *)
Record objects : Type := Objs {
  o_dicts : gmap nat (option netc_dict_t);
  o_ctxs : gmap nat (option netc_ctx_t);
  o_trainers : gmap nat (list (list Z));
  o_files : gmap string (list Z);
  o_open : nat }.

Definition objects0 (files : gmap string (list Z)) : objects := Objs ∅ ∅ ∅ files 0.

Definition set_dict (O : objects) (x : nat) (d : option netc_dict_t) : objects :=
  Objs (<[x := d]> (o_dicts O)) (o_ctxs O) (o_trainers O) (o_files O) (o_open O).
Definition set_ctx (O : objects) (k : nat) (c : option netc_ctx_t) : objects :=
  Objs (o_dicts O) (<[k := c]> (o_ctxs O)) (o_trainers O) (o_files O) (o_open O).
Definition set_trainer (O : objects) (t : nat) (c : list (list Z)) : objects :=
  Objs (o_dicts O) (o_ctxs O) (<[t := c]> (o_trainers O)) (o_files O) (o_open O).
Definition set_file (O : objects) (path : string) (b : list Z) : objects :=
  Objs (o_dicts O) (o_ctxs O) (o_trainers O) (<[path := b]> (o_files O)) (o_open O).

(** An object must be in scope; a new one must not be. *)
Definition held {T} (m : gmap nat T) (x : nat) : outcome unit T := match m !! x with Some v => Ok v | None => Undef end.
Definition unused {T} (m : gmap nat T) (x : nat) : outcome unit unit := match m !! x with None => Ok tt | Some _ => Undef end.

(** ** What each call does *)
Local Abbreviation effect := (outcome unit (option reply * objects)).

(** The dictionary a call produced replaces the one [x] held. *)
Definition spec_adopt (O : objects) (x : nat) (r : result netc_dict_t) : effect :=
  match r with
  | Ok d => Ok (Some (Code R_OK), set_dict O x (Some d))
  | Fail err => Ok (Some (Code (to_Result err)), O)
  | Undef => Undef
  end.

Definition spec_load (e : sdk_env) (O : objects) (x : nat) (bs : list Z) : effect := spec_adopt O x (netc_dict_load (e_mem e) (Some bs) false).

(** A file that cannot be read in full is refused; one that does not fit in
    memory stays open. *)
Definition spec_load_file (e : sdk_env) (O : objects) (x : nat) (path : string) : effect :=
  match (if e_open e path then o_files O !! path else None) with
  | None => Ok (Some (Code R_InvalidArg), O)
  | Some bs =>
      if zlen bs <=? 0 then Ok (Some (Code R_InvalidArg), O) else
      if negb (e_vec e 0%nat) then Ok (None, Objs (o_dicts O) (o_ctxs O) (o_trainers O) (o_files O) (S (o_open O))) else
      if negb (e_read e (zlen bs) =? zlen bs) then Ok (Some (Code R_InvalidArg), O) else
      spec_load e O x bs
  end.

Definition spec_save (e : sdk_env) (d : option netc_dict_t) (out : list Z) : outcome unit (option (Result * list Z)) :=
  match d with
  | None => Ok (Some (R_InvalidArg, out))
  | Some d =>
      match netc_dict_save (e_mem e) (Some d) false with
      | Ok blob => Ok (if e_vec e 0%nat || (zlen blob <=? zlen out) then Some (R_OK, blob) else None)
      | Fail err => Ok (Some (to_Result err, out))
      | Undef => Undef
      end
  end.

Definition spec_save_file (e : sdk_env) (O : objects) (d : option netc_dict_t) (path : string) : effect :=
  r ← spec_save e d [];
  match r with
  | None => Ok (None, O)
  | Some (R_OK, blob) =>
      if negb (e_open e path) then Ok (Some (Code R_InvalidArg), O) else
      let written := e_write e (zlen blob) in
      Ok (Some (Code (if written =? zlen blob then R_OK else R_InvalidArg)),
          set_file O path (take (Z.to_nat (Z.min written (e_flush e written))) blob))
  | Some (r, _) => Ok (Some (Code r), O)
  end.

(** The packets up to the first that cannot be copied; empty ones are skipped. *)
Fixpoint spec_add (e : sdk_env) (i : nat) (c pkts : list (list Z)) : bool * list (list Z) :=
  match pkts with
  | [] => (true, c)
  | p :: pkts' => if zlen p =? 0 then spec_add e (S i) c pkts' else
                  if e_vec e i then spec_add e (S i) (c ++ [p]) pkts' else (false, c)
  end.

Definition spec_adds (e : sdk_env) (O : objects) (t : nat) (pkts : list (list Z)) : effect :=
  c ← held (o_trainers O) t;
  let r := spec_add e 0 c pkts in
  Ok ((if fst r then Some Done else None), set_trainer O t (snd r)).

Definition spec_train (e : sdk_env) (O : objects) (c : list (list Z)) (mid : Z) (x : nat) : effect :=
  if zlen c =? 0 then Ok (Some (Code R_InvalidArg), O) else
  if negb (e_vec e 0%nat && e_vec e 1%nat) then Ok (None, O) else
  spec_adopt O x (netc_dict_train (e_cpu e) (e_mem e) false false (map Some c) mid false).

Definition something {T} (v : option T) : bool := match v with Some _ => true | None => false end.

(** Without a dictionary there is no context. *)
Definition spec_create (e : sdk_env) (d : option netc_dict_t) (cfg : netc_cfg_t) : option netc_ctx_t :=
  match d with Some d => netc_ctx_create (e_cpu e) (e_mem e) (Some d) (Some cfg) | None => None end.

(** The output vector is extended first, if there is memory for it. *)
Definition extended (v : list Z) (n : Z) : list Z := resize v (Z.max (zlen v) n).
Definition extends (e : sdk_env) (v : list Z) (n : Z) : bool := (n <=? zlen v) || e_vec e 0%nat.

Definition packet_reply (r : result (list Z)) : outcome unit reply :=
  match r with Ok v => Ok (Data R_OK v) | Fail err => Ok (Data (to_Result err) []) | Undef => Undef end.

Definition spec_compress (e : sdk_env) (O : objects) (k : nat) (src : span) (dst : list Z) : effect :=
  c ← held (o_ctxs O) k;
  match c with
  | None => Ok (Some (Data R_CtxNull dst), O)
  | Some c =>
      let n := netc_compress_bound (span_size src) in
      if negb (extends e dst n) then Ok (None, O) else
      match netc_compress (Some c) (span_ptr src) (Some (zlen (extended dst n))) false with
      | Ok (c', r) => v ← packet_reply r; Ok (Some v, set_ctx O k (Some c'))
      | Fail err => Ok (Some (Data (to_Result err) []), O)
      | Undef => Undef
      end
  end.

Definition spec_decompress (e : sdk_env) (O : objects) (k : nat) (src : span) (dst : list Z) : effect :=
  c ← held (o_ctxs O) k;
  match c with
  | None => Ok (Some (Data R_CtxNull dst), O)
  | Some c =>
      if negb (extends e dst NETC_MAX_PACKET_SIZE) then Ok (None, O) else
      match netc_decompress (Some c) (span_ptr src) (Some (extended dst NETC_MAX_PACKET_SIZE)) false with
      | Ok (c', out) => Ok (Some (Data R_OK out), set_ctx O k (Some c'))
      | Fail err => Ok (Some (Data (to_Result err) []), O)
      | Undef => Undef
      end
  end.

(** A call with a dictionary and no context. *)
Definition spec_stateless (e : sdk_env) (O : objects) (x : nat) (dst : list Z) (n : Z)
    (call : netc_dict_t -> list Z -> result (list Z)) : effect :=
  d ← held (o_dicts O) x;
  match d with
  | None => Ok (Some (Data R_InvalidArg dst), O)
  | Some d => if negb (extends e dst n) then Ok (None, O) else v ← packet_reply (call d (extended dst n)); Ok (Some v, O)
  end.

Definition spec_simd (c : option netc_ctx_t) : SimdLevel :=
  match c with
  | None => Simd_Generic
  | Some c => match netc_ctx_simd_level (Some c) with 2 => Simd_SSE42 | 3 => Simd_AVX2 | 4 => Simd_NEON | _ => Simd_Generic end
  end.

Definition spec_stats (c : option netc_ctx_t) (out : netc_stats_t) : reply :=
  match c with None => Counters R_CtxNull out | Some c => Counters R_OK (c_stats c) end.

Definition spec (e : sdk_env) (o : op) (O : objects) : effect :=
  match o return effect with
  | DictNew x => _ ← unused (o_dicts O) x; Ok (Some Done, set_dict O x None)
  | DictMoveNew x y => d ← held (o_dicts O) y; _ ← unused (o_dicts O) x; Ok (Some Done, set_dict (set_dict O x d) y None)
  | DictAssign x y => d ← held (o_dicts O) y; Ok (Some Done, if decide (x = y) then O else set_dict (set_dict O x d) y None)
  | DictDrop x => _ ← held (o_dicts O) x; Ok (Some Done, Objs (delete x (o_dicts O)) (o_ctxs O) (o_trainers O) (o_files O) (o_open O))
  | DictLoad x (Null _) => Ok (Some (Code R_InvalidArg), O)
  | DictLoad x (Range bs) => if zlen bs =? 0 then Ok (Some (Code R_InvalidArg), O) else spec_load e O x bs
  | DictLoadFile x path => spec_load_file e O x path
  | DictSave x out => d ← held (o_dicts O) x; r ← spec_save e d out; Ok (option_map data_of r, O)
  | DictSaveFile x path => d ← held (o_dicts O) x; spec_save_file e O d path
  | DictValid x => d ← held (o_dicts O) x; Ok (Some (Flag (something d)), O)
  | DictModelId x => d ← held (o_dicts O) x; Ok (Some (Number (netc_dict_model_id d)), O)
  | TrainerNew t => _ ← unused (o_trainers O) t; Ok (Some Done, set_trainer O t [])
  | TrainerAdd t (Null _) => Ok (Some Done, O)
  | TrainerAdd t (Range bs) => spec_adds e O t [bs]
  | TrainerAddAll t pkts => spec_adds e O t pkts
  | TrainerCount t => c ← held (o_trainers O) t; Ok (Some (Number (zlen c)), O)
  | TrainerTrain t mid x => c ← held (o_trainers O) t; spec_train e O c mid x
  | TrainerReset t => _ ← held (o_trainers O) t; Ok (Some Done, set_trainer O t [])
  | TrainerDrop t => _ ← held (o_trainers O) t; Ok (Some Done, Objs (o_dicts O) (o_ctxs O) (delete t (o_trainers O)) (o_files O) (o_open O))
  | CtxNew k x mode lvl flags =>
      d ← held (o_dicts O) x; _ ← unused (o_ctxs O) k;
      Ok (Some Done, set_ctx O k (spec_create e d (context_cfg mode lvl flags)))
  | CtxMoveNew k j => c ← held (o_ctxs O) j; _ ← unused (o_ctxs O) k; Ok (Some Done, set_ctx (set_ctx O k c) j None)
  | CtxAssign k j => c ← held (o_ctxs O) j; Ok (Some Done, if decide (k = j) then O else set_ctx (set_ctx O k c) j None)
  | CtxDrop k => _ ← held (o_ctxs O) k; Ok (Some Done, Objs (o_dicts O) (delete k (o_ctxs O)) (o_trainers O) (o_files O) (o_open O))
  | CtxCompress k src dst => spec_compress e O k src dst
  | CtxDecompress k src dst => spec_decompress e O k src dst
  | StatelessCompress x src dst => spec_stateless e O x dst (netc_compress_bound (span_size src))
      (fun d v => netc_compress_stateless (Some d) (span_ptr src) (Some (zlen v)) false)
  | StatelessDecompress x src dst => spec_stateless e O x dst NETC_MAX_PACKET_SIZE
      (fun d v => netc_decompress_stateless (Some d) (span_ptr src) (Some v) false)
  | CtxReset k => c ← held (o_ctxs O) k; Ok (Some Done, set_ctx O k (option_map netc_ctx_reset c))
  | CtxSimd k => c ← held (o_ctxs O) k; Ok (Some (Level (spec_simd c)), O)
  | CtxStats k out => c ← held (o_ctxs O) k; Ok (Some (spec_stats c out), O)
  | CtxValid k => c ← held (o_ctxs O) k; Ok (Some (Flag (something c)), O)
  end.

Fixpoint spec_run (prog : list (sdk_env * op)) (O : objects) : outcome unit (list (option reply) * objects) :=
  match prog with
  | [] => Ok ([], O)
  | (e, o) :: prog' => '(r, O1) ← spec e o O; '(rs, O2) ← spec_run prog' O1; Ok (r :: rs, O2)
  end.
