(* ===== verification/SdkMemory.v ===== *)
(** * The C++ binding keeps its promises

    Whatever sequence of constructions, moves, loads, trainings, calls and
    destructions a program performs on the objects of src/sdk/cpp, whichever
    allocations fail and whatever throws, it behaves as SdkSpec.v says and keeps
    the invariant of SdkOwners.v, as long as a dictionary is not released while a
    context is bound to it. *)

From Stdlib Require Import String.
From stdpp Require Import prelude gmap strings.
From Stdlib Require Import ZArith Lia.
From S2P Require Import Prelude Simd Header Ctx Dict Train Training Heap Decompress Compress Packets Session Safety Progress Transport Persist Platform Sdk SdkOwners SdkSpec.

Local Open Scope Z_scope.

(** ** What a program must respect *)

(** No context is bound to the dictionary of [x]. *)
Definition detached (w : world) (x : nat) : Prop := exists p, w_dicts w !! x = Some p /\ unbound w p.

Definition span_ok (P : list Z -> Prop) (s : span) : Prop := forall bs, s = Range bs -> P bs.

(** A packet on which the decoder is defined: its streams can be opened, or it
    decodes. *)
Definition decodable (c : netc_ctx_t) (bs dst : list Z) : Prop :=
  bytes bs /\ readable bs (zlen dst) (has (c_flags c) NETC_CFG_FLAG_COMPACT_HDR) \/
  exists c' out, netc_decompress_ctx c bs dst = Ok (c', out) /\ ctx_ok c' /\ bytes out.

Definition op_ok (w : world) (o : op) : Prop :=
  match o with
  | DictNew x => w_dicts w !! x = None
  | DictMoveNew x y => w_dicts w !! x = None /\ is_Some (w_dicts w !! y)
  | DictAssign x y => is_Some (w_dicts w !! x) /\ is_Some (w_dicts w !! y) /\ (x <> y -> detached w x)
  | DictDrop x => detached w x
  | DictLoad x data => detached w x /\ span_ok trusted data
  | DictLoadFile x path => detached w x /\ forall bs, w_files w !! path = Some bs -> trusted bs
  | DictSave x _ | DictSaveFile x _ | DictValid x | DictModelId x => is_Some (w_dicts w !! x)
  | TrainerNew t => w_trainers w !! t = None
  | TrainerAdd t data => is_Some (w_trainers w !! t) /\ span_ok bytes data
  | TrainerAddAll t pkts => is_Some (w_trainers w !! t) /\ Forall bytes pkts
  | TrainerTrain t mid x => detached w x /\ 0 <= mid < 256 /\ exists c, w_trainers w !! t = Some c /\ zlen c < 2 ^ 32
  | TrainerCount t | TrainerReset t | TrainerDrop t => is_Some (w_trainers w !! t)
  | CtxNew k x _ _ _ => w_ctxs w !! k = None /\ is_Some (w_dicts w !! x)
  | CtxMoveNew k j => w_ctxs w !! k = None /\ is_Some (w_ctxs w !! j)
  | CtxAssign k j => is_Some (w_ctxs w !! k) /\ is_Some (w_ctxs w !! j)
  | CtxDrop k | CtxReset k | CtxSimd k | CtxStats k _ | CtxValid k => is_Some (w_ctxs w !! k)
  | CtxCompress k src _ => is_Some (w_ctxs w !! k) /\ span_ok bytes src
  | CtxDecompress k src dst => is_Some (w_ctxs w !! k) /\ bytes dst /\
      span_ok (fun bs => forall a ps da c, w_ctxs w !! k = Some (Some a) -> w_ctx_at w !! a = Some (ps, da, c) ->
        decodable c bs (extended dst NETC_MAX_PACKET_SIZE)) src
  | StatelessCompress x src _ => is_Some (w_dicts w !! x) /\ span_ok bytes src
  | StatelessDecompress x src dst => is_Some (w_dicts w !! x) /\ bytes dst /\
      span_ok (fun bs => bytes bs /\ readable bs (zlen (extended dst NETC_MAX_PACKET_SIZE)) false) src
  end.

(** Every operation is admissible where it is executed. *)
Fixpoint admissible (w : world) (prog : list (sdk_env * op)) : Prop :=
  match prog with
  | [] => True
  | (e, o) :: prog' => op_ok w o /\ forall r w', exec e o w = Ok (r, w') -> admissible w' prog'
  end.

(** The operations that can lose a block: training, and saving when the copy of
    the blob throws. *)
Definition cost (e : sdk_env) (o : op) : nat :=
  match o with
  | TrainerTrain _ _ _ => 1
  | DictSave _ _ | DictSaveFile _ _ => if e_vec e 0%nat then 0 else 1
  | _ => 0
  end.

(** ** Worlds that hold what the specification says *)
Definition others (w : world) (T : gmap nat (list (list Z))) (F : gmap string (list Z)) (N : nat) : Prop :=
  (w_trainers w = T /\ w_files w = F /\ w_open w = N) /\ forall t c, T !! t = Some c -> Forall bytes c.

Definition rep (w : world) (O : objects) (L : gset nat) : Prop :=
  holds w (w_dicts w) (w_ctxs w) L (o_dicts O) (o_ctxs O) /\ others w (o_trainers O) (o_files O) (o_open O).

(** ** Symbolic execution *)
Definition ensures {A} (m : sdk A) (w : world) (Q : option A -> world -> Prop) : Prop := exists r w', m w = Ok (r, w') /\ Q r w'.

Lemma ens_ret {A} (a : A) w (Q : option A -> world -> Prop) : Q (Some a) w -> ensures (mret a) w Q.
Proof. intros H. by exists (Some a), w. Qed.

Lemma ens_bind {A B} (m : sdk A) (f : A -> sdk B) w Q :
  ensures m w (fun r w' => match r with Some a => ensures (f a) w' Q | None => Q None w' end) -> ensures (m ≫= f) w Q.
Proof.
  intros (r & w1 & E & H). unfold ensures, mbind, sdk_bind. rewrite E. destruct r as [a|]; [|by exists None, w1].
  destruct H as (r2 & w2 & E2 & H). by exists r2, w2.
Qed.

Lemma ens_run {A} (m : sdk A) a w w' (Q : option A -> world -> Prop) : m w = Ok (Some a, w') -> Q (Some a) w' -> ensures m w Q.
Proof. intros. by exists (Some a), w'. Qed.

Lemma ens_answer {A} (f : A -> reply) (m : sdk A) w (Q : option reply -> world -> Prop) :
  ensures m w (fun r w' => Q (option_map f r) w') -> ensures (answer f m) w Q.
Proof. intros H. apply ens_bind. destruct H as ([a|] & w' & E & H); [exists (Some a), w'|exists None, w']; (split; [done|]); [by apply ens_ret|done]. Qed.

Lemma ens_allocate (ok : bool) w (Q : option unit -> world -> Prop) : Q (if ok then Some tt else None) w -> ensures (allocate ok) w Q.
Proof. intros H. by exists (if ok then Some tt else None), w. Qed.

Lemma ens_dict_native x p w (Q : option ptr -> world -> Prop) : w_dicts w !! x = Some p -> Q (Some p) w -> ensures (dict_native x) w Q.
Proof. intros E H. exists (Some p), w. unfold dict_native. by rewrite E. Qed.
Lemma ens_ctx_native k p w (Q : option ptr -> world -> Prop) : w_ctxs w !! k = Some p -> Q (Some p) w -> ensures (ctx_native k) w Q.
Proof. intros E H. exists (Some p), w. unfold ctx_native. by rewrite E. Qed.
Lemma ens_corpus t c w (Q : option (list (list Z)) -> world -> Prop) : w_trainers w !! t = Some c -> Q (Some c) w -> ensures (corpus_ t) w Q.
Proof. intros E H. exists (Some c), w. unfold corpus_. by rewrite E. Qed.
Lemma ens_modify f w (Q : option unit -> world -> Prop) : Q (Some tt) (f w) -> ensures (modify f) w Q.
Proof. intros H. by exists (Some tt), (f w). Qed.
Lemma extended_length v n : zlen (extended v n) = Z.max (zlen v) n.
Proof. unfold extended, resize. rewrite length_app, length_take, length_replicate. lia. Qed.
Lemma extended_bytes v n : bytes v -> bytes (extended v n).
Proof. intros Hb. unfold extended, resize. apply Forall_app. split; [by apply Forall_take|]. apply Forall_replicate. unfold is_byte. lia. Qed.
Lemma ens_grow e v n w (Q : option (list Z) -> world -> Prop) :
  Q (if extends e v n then Some (extended v n) else None) w -> ensures (grow (e_vec e 0%nat) v n) w Q.
Proof.
  intros H. unfold grow, extends in *. destruct (Z.ltb_spec (zlen v) n), (Z.leb_spec n (zlen v)); try lia.
  - apply ens_bind, ens_allocate. cbn [orb] in H. destruct (e_vec e 0%nat); [|done]. apply ens_ret. unfold extended in H. by rewrite Z.max_r in H by lia.
  - apply ens_ret. cbn [orb] in H. unfold extended, resize in H. rewrite Z.max_l, Nat2Z.id, take_ge, Nat.sub_diag, app_nil_r in H by lia. done.
Qed.

Lemma ens_declare_dict x p w (Q : option unit -> world -> Prop) :
  w_dicts w !! x = None -> Q (Some tt) (with_dicts w (<[x := p]> (w_dicts w))) -> ensures (declare_dict x p) w Q.
Proof. intros Hx H. eexists _, _. split; [unfold declare_dict; by rewrite Hx|done]. Qed.
Lemma ens_declare_ctx k p w (Q : option unit -> world -> Prop) :
  w_ctxs w !! k = None -> Q (Some tt) (with_ctxs w (<[k := p]> (w_ctxs w))) -> ensures (declare_ctx k p) w Q.
Proof. intros Hk H. eexists _, _. split; [unfold declare_ctx; by rewrite Hk|done]. Qed.

(** ** The library calls *)
Lemma context_cfg_stats mode lvl flags : has (cfg_flags (context_cfg mode lvl flags)) NETC_CFG_FLAG_STATS = true.
Proof. destruct mode; cbn [context_cfg cfg_flags]; by rewrite !has_lor, orb_true_r. Qed.

Lemma compress_call c bs cap :
  ctx_good c -> bytes bs -> netc_compress_bound (zlen bs) <= cap ->
  (exists err, netc_compress (Some c) (Some bs) (Some cap) false = Fail err) \/
  exists c' pkt, netc_compress (Some c) (Some bs) (Some cap) false = Ok (c', Ok pkt) /\ kept_by c c' /\ ctx_ok c'.
Proof.
  intros (Hok & Hf & _) Hb Hc. destruct (Z.leb_spec (zlen bs) NETC_MAX_PACKET_SIZE) as [Hl|Hl].
  - right. rewrite compress_bound_eq in Hc by lia. pose proof (hdr_size_range (zlen bs) (has (c_flags c) NETC_CFG_FLAG_COMPACT_HDR)).
    unfold NETC_HEADER_SIZE in Hc. destruct (compress_total_gen c bs cap Hok Hf Hb Hl) as (c' & o & E & Hok' & [(pkt & -> & _)|[_ ?]]); [lia| |lia].
    exists c', pkt. split; [done|]. split; [by eapply compress_keeps|done].
  - left. exists NETC_ERR_TOOBIG. unfold netc_compress, netc_compress_ctx. by rewrite (proj2 (Z.ltb_lt _ _) Hl).
Qed.

Lemma decompress_call c bs dst :
  ctx_good c -> bytes dst -> decodable c bs dst ->
  (exists err, netc_decompress (Some c) (Some bs) (Some dst) false = Fail err) \/
  exists c' out, netc_decompress (Some c) (Some bs) (Some dst) false = Ok (c', out) /\ kept_by c c' /\ ctx_ok c'.
Proof.
  intros (Hok & _) Hd Hdec.
  assert ((exists err, netc_decompress_ctx c bs dst = Fail err) \/ exists c' out, netc_decompress_ctx c bs dst = Ok (c', out) /\ ctx_ok c' /\ bytes out)
    as [H|(c' & out & E & Hok' & Hbo)]; [|by left|right].
  - destruct Hdec as [[Hb Hr]|H]; [|by right]. destruct (decompress_safe_gen c bs dst Hok Hb Hd Hr) as [?|(c' & out & E & _ & ? & ?)]; [by left|].
    right. by exists c', out.
  - exists c', out. split; [done|]. split; [by eapply (decompress_keeps c bs dst)|done].
Qed.

(** ** One operation *)

(** A result and a world that an effect of the specification allows. *)
Definition allowed (n : nat) (L : gset nat) (E : outcome unit (option reply * objects)) (r : option reply) (w : world) : Prop :=
  exists O' L', E = Ok (r, O') /\ rep w O' L' /\ lost_at_most n L L'.

Lemma allow n L r w O : rep w O L -> allowed n L (Ok (r, O)) r w.
Proof. intros H. exists O, L. split; [done|]. split; [done|apply lost_none]. Qed.

(** Worlds that differ in the names of the objects only. *)
Lemma rep_intro w w' D C L DV CV T F N :
  holds w' D C L DV CV -> w_heap w = w_heap w' -> w_dict_at w = w_dict_at w' -> w_ctx_at w = w_ctx_at w' ->
  w_dicts w = D -> w_ctxs w = C -> others w T F N -> rep w (Objs DV CV T F N) L.
Proof.
  intros ([Ho Hd Hc OD OC] & <- & <-) Eh Ed Ec <- <- Hot. split; [|done].
  split; [|by rewrite Ed, Ec]. split; rewrite ?Eh, ?Ed, ?Ec; done.
Qed.

Ltac represent H := eapply rep_intro; [exact H|done..].

Section Step.
Context (e : sdk_env) (w : world) (O : objects) (L : gset nat).
Context (Hrep : rep w O L).

Local Abbreviation simulates o := (ensures (exec e o) w (allowed (cost e o) L (spec e o O))).

Lemma rep_dict x p : w_dicts w !! x = Some p -> exists v, held (o_dicts O) x = Ok v /\ o_dicts O !! x = Some v /\
  match p with Some a => exists ps d, w_dict_at w !! a = Some (ps, d) /\ v = Some d /\ dict_good d | None => v = None end.
Proof. intros Hx. destruct Hrep as [Hh _]. destruct (holds_dict _ _ _ _ _ _ _ _ Hh Hx) as (v & Hv & H). exists v. unfold held. by rewrite Hv. Qed.

Lemma rep_ctx k p : w_ctxs w !! k = Some p -> exists v, held (o_ctxs O) k = Ok v /\ o_ctxs O !! k = Some v /\
  match p with
  | Some a => exists ps da c, w_ctx_at w !! a = Some (ps, da, c) /\ v = Some c /\ ctx_good c /\ is_Some (w_dict_at w !! da)
  | None => v = None
  end.
Proof. intros Hk. destruct Hrep as [Hh _]. destruct (holds_ctx _ _ _ _ _ _ _ _ Hh Hk) as (v & Hv & H). exists v. unfold held. by rewrite Hv. Qed.

Lemma rep_trainer t c : w_trainers w !! t = Some c -> held (o_trainers O) t = Ok c /\ Forall bytes c.
Proof. intros Ht. destruct Hrep as [_ ((HT & _) & Hb)]. rewrite HT in Ht. unfold held. rewrite Ht. split; [done|by eapply Hb]. Qed.

Lemma rep_others : others w (o_trainers O) (o_files O) (o_open O).
Proof. apply Hrep. Qed.

Lemma dict_new_sim x : op_ok w (DictNew x) -> simulates (DictNew x).
Proof.
  intros Hx. apply ens_answer, ens_declare_dict; [exact Hx|]. cbn [spec]. unfold unused. destruct Hrep as [Hh Hot].
  rewrite (holds_fresh _ _ _ _ _ _ _ Hh Hx). apply allow. represent (holds_null_dict _ _ _ _ _ _ x Hh (or_introl Hx)).
Qed.

Lemma dict_move_new_sim x y : op_ok w (DictMoveNew x y) -> simulates (DictMoveNew x y).
Proof.
  intros [Hx [p Hy]]. destruct Hrep as [Hh Hot]. destruct (rep_dict y p Hy) as (v & Ev & Hv & _).
  apply ens_answer, ens_bind, (ens_dict_native y p _ _ Hy), ens_bind, ens_declare_dict; [exact Hx|]. apply ens_modify. cbn [spec].
  rewrite Ev. unfold unused. rewrite (holds_fresh _ _ _ _ _ _ _ Hh Hx). apply allow.
  assert (x <> y) as Hne by congruence. represent (holds_move_dict _ _ _ _ _ _ x y p v Hh Hne (or_introl Hx) Hy Hv).
Qed.

Lemma dict_assign_sim x y : op_ok w (DictAssign x y) -> simulates (DictAssign x y).
Proof.
  intros ([p Hx] & [q Hy] & Hu). destruct Hrep as [Hh Hot]. destruct (rep_dict y q Hy) as (v & Ev & Hv & _).
  apply ens_answer. unfold Dict_move_assign. cbn [spec]. rewrite Ev. destruct (decide (x = y)) as [-> |Hne].
  { apply ens_bind, (ens_dict_native y q _ _ Hy), ens_ret. apply allow. exact Hrep. }
  destruct (Hu Hne) as (p' & Hx' & Hun). assert (p' = p) as -> by congruence.
  apply ens_bind, (ens_dict_native x p _ _ Hx), ens_bind, (ens_dict_native y q _ _ Hy), ens_bind.
  destruct (handle_free_ok _ _ _ _ _ _ x p Hh Hx Hun) as (h & m & E & H1). eapply ens_run; [exact E|].
  apply ens_bind, ens_modify, ens_modify. apply allow.
  eapply (holds_move_dict _ _ _ _ _ _ x y q v) in H1; [|done|right; by rewrite lookup_insert_eq|by rewrite lookup_insert_ne|by rewrite lookup_insert_ne].
  rewrite !insert_insert_eq in H1. represent H1.
Qed.

Lemma dict_drop_sim x : op_ok w (DictDrop x) -> simulates (DictDrop x).
Proof.
  intros (p & Hx & Hun). destruct Hrep as [Hh Hot]. destruct (rep_dict x p Hx) as (v & Ev & Hv & _).
  apply ens_answer, ens_bind, (ens_dict_native x p _ _ Hx), ens_bind. cbn [spec]. rewrite Ev.
  destruct (handle_free_ok _ _ _ _ _ _ x p Hh Hx Hun) as (h & m & E & H1). eapply ens_run; [exact E|]. apply ens_modify, allow.
  apply (holds_gone_dict _ _ _ _ _ _ x) in H1; [|by rewrite lookup_insert_eq]. rewrite !delete_insert_eq in H1. represent H1.
Qed.

(** *** Loading, training, saving *)

(** The end of LoadFromBytes and Train: the new dictionary replaces the old. *)
Lemma adopt_sim n h m L' x a d :
  detached w x -> lost_at_most n L L' ->
  (forall y, w_dicts w !! y = None \/ w_dicts w !! y = Some None ->
     holds (set_dicts w h m) (<[y := Some a]> (w_dicts w)) (w_ctxs w) L' (<[y := Some d]> (o_dicts O)) (o_ctxs O)) ->
  ensures (p ← dict_native x; handle_free p;; set_dict_native x (Some a);; mret R_OK) (set_dicts w h m)
    (fun r w' => allowed n L (Ok (Some (Code R_OK), set_dict O x (Some d))) (option_map Code r) w').
Proof.
  intros (p & Hx & Hun) HL Hh1. destruct Hrep as [Hh Hot]. destruct (adopt_ok _ _ _ _ _ _ _ x p a d w Hh Hh1 Hx Hun) as (h' & m' & E & H1).
  apply ens_bind, (ens_dict_native x p); [exact Hx|]. apply ens_bind. eapply ens_run; [exact E|]. apply ens_bind, ens_modify, ens_ret.
  eexists _, L'. split; [done|]. split; [|done]. represent H1.
Qed.

Lemma load_bytes_sim n x bs :
  detached w x -> trusted bs -> (zlen bs =? 0) = false ->
  ensures (Dict_LoadFromBytes e (Range bs) x) w (fun r w' => allowed n L (spec_load e O x bs) (option_map Code r) w').
Proof.
  intros Hx Ht Hn. pose proof Hrep as [Hh Hot]. unfold Dict_LoadFromBytes. rewrite Hn. apply ens_bind.
  destruct (handle_load_ok (e_mem e) bs _ _ _ _ _ _ Hh Ht) as (r & h & m & E & Hr). eapply ens_run; [exact E|].
  unfold spec_load, spec_adopt. destruct r as [a|err|]; [| |done].
  - destruct Hr as (d & Hd & Hr). rewrite Hd. by apply adopt_sim with L; [|apply lost_none|].
  - destruct Hr as [Hd Hr]. rewrite Hd. apply ens_ret, allow. destruct O. represent Hr.
Qed.

Lemma dict_load_sim x data : op_ok w (DictLoad x data) -> simulates (DictLoad x data).
Proof.
  intros [Hx Ht]. apply ens_answer. destruct data as [sz|bs]; [apply ens_ret, allow, Hrep|]. cbn [spec].
  destruct (zlen bs =? 0) eqn:Hn; [|apply load_bytes_sim; [done|by apply Ht|done]].
  unfold Dict_LoadFromBytes. rewrite Hn. apply ens_ret, allow, Hrep.
Qed.

Lemma reopened : with_open (with_open w (S (w_open w))) (pred (w_open (with_open w (S (w_open w))))) = w.
Proof. by destruct w. Qed.

Lemma resize_all (v : list Z) n : n = zlen v -> resize (take (Z.to_nat n) v) n = v.
Proof. intros ->. unfold resize. rewrite Nat2Z.id, take_take, Nat.min_id, take_ge, Nat.sub_diag, app_nil_r by done. done. Qed.

Lemma dict_load_file_sim x path : op_ok w (DictLoadFile x path) -> simulates (DictLoadFile x path).
Proof.
  intros [Hx Ht]. apply ens_answer, ens_bind. eapply ens_run; [done|]. cbn [spec]. unfold spec_load_file.
  pose proof rep_others as ((HT & HF & HN) & Hb). rewrite <- HF. destruct (e_open e path); [|apply ens_ret, allow, Hrep].
  destruct (w_files w !! path) as [bs|] eqn:Ef; [|apply ens_ret, allow, Hrep].
  apply ens_bind, ens_modify. destruct (Z.leb_spec (zlen bs) 0).
  { apply ens_bind, ens_modify. rewrite reopened. apply ens_ret, allow, Hrep. }
  apply ens_bind, ens_allocate. destruct (e_vec e 0%nat); cbn [negb].
  2:{ apply allow. rewrite <- HN. destruct Hrep as [Hh Hot]. represent Hh. }
  apply ens_bind, ens_modify. rewrite reopened. destruct (Z.eqb_spec (e_read e (zlen bs)) (zlen bs)) as [Er|Er]; cbn [negb].
  - rewrite Er, resize_all by done. apply load_bytes_sim; [done|by apply Ht|by apply Z.eqb_neq; lia].
  - apply ens_ret, allow, Hrep.
Qed.

(** Saving, with the blob freed again unless the copy throws. *)
Lemma save_sim x out p v :
  w_dicts w !! x = Some p -> o_dicts O !! x = Some v ->
  ensures (Dict_SaveToBytes e x out) w (fun r w' => spec_save e v out = Ok r /\ exists L' h, w' = set_dicts w h (w_dict_at w) /\
    holds w' (w_dicts w) (w_ctxs w) L' (o_dicts O) (o_ctxs O) /\ lost_at_most (if e_vec e 0%nat then 0 else 1) L L').
Proof.
  intros Hx Hv. destruct (rep_dict x p Hx) as (v' & _ & Hv' & Hp). assert (v' = v) as -> by congruence. pose proof Hrep as [Hh _].
  assert (w = set_dicts w (w_heap w) (w_dict_at w)) as Hw by (by destruct w).
  assert (exists L' h, w = set_dicts w h (w_dict_at w) /\ holds w (w_dicts w) (w_ctxs w) L' (o_dicts O) (o_ctxs O) /\ lost_at_most (if e_vec e 0%nat then 0 else 1) L L') as Hsame.
  { exists L, (w_heap w). split; [done|]. split; [done|apply lost_none]. }
  apply ens_bind, (ens_dict_native x p _ _ Hx). destruct p as [a|]; [|subst v; by apply ens_ret]. destruct Hp as (ps & d & Ha & -> & _).
  destruct (handle_save_ok (e_mem e) a _ _ _ _ _ _ _ _ Hh Ha) as (blob & Hs & Hbb & _ & _ & h & E & Hr). apply ens_bind. eapply ens_run; [exact E|].
  unfold spec_save. rewrite Hs. destruct (e_mem e 0%nat); [|subst h; rewrite <- Hw; by apply ens_ret]. destruct Hr as [Hni Hr].
  apply ens_bind, ens_allocate. destruct (e_vec e 0%nat || (zlen blob <=? zlen out)) eqn:Ev.
  - apply ens_bind. destruct (free_blob_ok _ _ _ _ _ _ _ Hr Hni) as (h' & E' & Hr'). eapply ens_run; [exact E'|]. apply ens_ret.
    split; [done|]. exists L, h'. split; [done|]. split; [done|apply lost_none].
  - split; [done|]. exists ({[next (w_heap w)]} ∪ L), h. split; [done|]. split; [done|]. destruct (e_vec e 0%nat); [done|apply lost_one].
Qed.

Lemma dict_save_sim x out : op_ok w (DictSave x out) -> simulates (DictSave x out).
Proof.
  intros [p Hx]. destruct (rep_dict x p Hx) as (v & Ev & Hv & _). apply ens_answer.
  destruct (save_sim x out p v Hx Hv) as (r & w' & E & Hs & L' & h & -> & Hh & HL). exists r, (set_dicts w h (w_dict_at w)). split; [done|].
  cbn [spec]. rewrite Ev. mstep. rewrite Hs. exists O, L'. split; [done|]. split; [|done]. pose proof rep_others. destruct O. represent Hh.
Qed.

Lemma dict_save_file_sim x path : op_ok w (DictSaveFile x path) -> simulates (DictSaveFile x path).
Proof.
  intros [p Hx]. destruct (rep_dict x p Hx) as (v & Ev & Hv & _). apply ens_answer, ens_bind. pose proof rep_others as ((HT & HF & HN) & Hb).
  destruct (save_sim x [] p v Hx Hv) as (r & w' & E & Hs & L' & h & -> & Hh & HL). exists r, (set_dicts w h (w_dict_at w)). split; [done|].
  assert (forall res, allowed (if e_vec e 0%nat then 0 else 1) L (Ok (res, O)) res (set_dicts w h (w_dict_at w))) as Hdone.
  { intros res. exists O, L'. split; [done|]. split; [|done]. pose proof rep_others. destruct O. represent Hh. }
  cbn [spec]. rewrite Ev. mstep. unfold spec_save_file. rewrite Hs. mstep. destruct r as [[res blob]|]; [|apply Hdone].
  destruct (decide (res = R_OK)) as [-> |Hne].
  2:{ rewrite bool_decide_false by done. apply ens_ret. destruct res; done || apply Hdone. }
  rewrite bool_decide_true by done. cbn [negb]. destruct (e_open e path); cbn [negb]; [|apply ens_ret, Hdone].
  apply ens_bind, ens_modify, ens_bind, ens_modify, ens_bind, ens_modify.
  assert (forall f, allowed (if e_vec e 0%nat then 0 else 1) L (Ok (Some (Code f), set_file O path (take (Z.to_nat (Z.min (e_write e (zlen blob)) (e_flush e (e_write e (zlen blob))))) blob)))
    (Some (Code f)) (with_open (with_files (with_open (set_dicts w h (w_dict_at w)) (S (w_open w)))
      (<[path := take (Z.to_nat (Z.min (e_write e (zlen blob)) (e_flush e (e_write e (zlen blob))))) blob]> (w_files w))) (pred (S (w_open w))))) as Hfin.
  { intros f. eexists _, L'. split; [done|]. split; [|done]. eapply rep_intro; [exact Hh|done..|]. split; [|done]. cbn. by rewrite HF. }
  destruct (_ =? _); apply ens_ret, Hfin.
Qed.

Lemma dict_valid_sim x : op_ok w (DictValid x) -> simulates (DictValid x).
Proof.
  intros [p Hx]. destruct (rep_dict x p Hx) as (v & Ev & _ & Hp). apply ens_answer, ens_bind, (ens_dict_native x p _ _ Hx), ens_ret.
  cbn [spec]. rewrite Ev. destruct p as [a|]; [destruct Hp as (ps & d & _ & -> & _)|subst v]; apply allow, Hrep.
Qed.

Lemma dict_model_id_sim x : op_ok w (DictModelId x) -> simulates (DictModelId x).
Proof.
  intros [p Hx]. destruct (rep_dict x p Hx) as (v & Ev & _ & Hp). apply ens_answer, ens_bind, (ens_dict_native x p _ _ Hx).
  cbn [spec]. rewrite Ev. destruct p as [a|]; [destruct Hp as (ps & d & Ha & -> & _)|subst v; apply ens_ret, allow, Hrep].
  apply ens_bind. eapply ens_run; [unfold dict_at; by rewrite Ha|]. apply ens_ret, allow, Hrep.
Qed.

(** *** Trainers *)
Lemma rep_trainers t c : Forall bytes c -> rep (with_trainers w (<[t := c]> (w_trainers w))) (set_trainer O t c) L.
Proof.
  intros Hc. destruct Hrep as [Hh ((HT & HF & HN) & Hb)]. eapply rep_intro; [exact Hh|done..|]. split; [cbn; by rewrite HT|].
  intros t' c' [[<- <-]|[_ ?]]%lookup_insert_Some; [done|by eapply Hb].
Qed.

Lemma trainer_new_sim t : op_ok w (TrainerNew t) -> simulates (TrainerNew t).
Proof.
  intros Ht. apply ens_answer. pose proof rep_others as ((HT & _) & _). cbn [spec]. unfold unused. rewrite <- HT. cbn [op_ok] in Ht. rewrite Ht.
  eapply ens_run; [unfold Trainer_new, declare_trainer; by rewrite Ht|]. by apply allow, rep_trainers.
Qed.

Lemma add_packets_run t pkts i c v :
  w_trainers v !! t = Some c ->
  add_packets e t i pkts v = Ok ((if fst (spec_add e i c pkts) then Some tt else None), with_trainers v (<[t := snd (spec_add e i c pkts)]> (w_trainers v))).
Proof.
  revert i c v. induction pkts as [|p pkts IH]; intros i c v Hc; cbn [add_packets spec_add].
  { cbn [fst snd]. rewrite insert_id by done. by destruct v. }
  unfold mbind at 1, sdk_bind at 1. destruct (zlen p =? 0); [by apply IH|]. unfold mbind, sdk_bind, corpus_, allocate. rewrite Hc.
  destruct (e_vec e i); [|cbn [fst snd]; rewrite insert_id by done; by destruct v].
  unfold set_corpus_, modify. rewrite (IH _ (c ++ [p])) by apply lookup_insert_eq. cbn [with_trainers w_trainers]. by rewrite insert_insert_eq.
Qed.

Lemma spec_add_bytes pkts i c : Forall bytes pkts -> Forall bytes c -> Forall bytes (snd (spec_add e i c pkts)).
Proof.
  intros Hp. revert i c. induction Hp as [|p pkts Hp _ IH]; intros i c Hc; [done|]. cbn [spec_add].
  destruct (zlen p =? 0); [by apply IH|]. destruct (e_vec e i); [|done]. apply IH, Forall_app. by repeat constructor.
Qed.

Lemma adds_sim t pkts :
  is_Some (w_trainers w !! t) -> Forall bytes pkts ->
  ensures (add_packets e t 0 pkts) w (fun r w' => allowed 0 L (spec_adds e O t pkts) (option_map (fun _ => Done) r) w').
Proof.
  intros [c Hc] Hp. destruct (rep_trainer t c Hc) as [Ec Hb]. eexists _, _. split; [by apply add_packets_run|].
  unfold spec_adds. rewrite Ec. mstep. cbv zeta. destruct (fst _); by apply allow, rep_trainers, spec_add_bytes.
Qed.

Lemma trainer_add_sim t data : op_ok w (TrainerAdd t data) -> simulates (TrainerAdd t data).
Proof.
  intros [Ht Hb]. apply ens_answer. destruct data as [sz|bs]; [apply ens_ret, allow, Hrep|].
  destruct (adds_sim t [bs] Ht) as (r & w' & E & H); [by repeat constructor; apply Hb|]. exists r, w'. split; [|done].
  rewrite <- E. unfold Trainer_AddPacket. cbn [add_packets]. unfold mbind, sdk_bind, mret, sdk_ret, allocate.
  destruct (Z.ltb_spec 0 (zlen bs)), (Z.eqb_spec (zlen bs) 0); try lia; [|done].
  unfold corpus_. destruct Ht as [c ->]. by destruct (e_vec e 0%nat).
Qed.

Lemma trainer_add_all_sim t pkts : op_ok w (TrainerAddAll t pkts) -> simulates (TrainerAddAll t pkts).
Proof. intros [Ht Hp]. apply ens_answer. by apply adds_sim. Qed.

Lemma trainer_count_sim t : op_ok w (TrainerCount t) -> simulates (TrainerCount t).
Proof.
  intros [c Hc]. apply ens_answer, ens_bind, (ens_corpus t c _ _ Hc), ens_ret. cbn [spec]. destruct (rep_trainer t c Hc) as [-> _]. apply allow, Hrep.
Qed.

Lemma trainer_reset_sim t : op_ok w (TrainerReset t) -> simulates (TrainerReset t).
Proof.
  intros [c Hc]. apply ens_answer, ens_bind, (ens_corpus t c _ _ Hc), ens_modify. cbn [spec]. destruct (rep_trainer t c Hc) as [-> _].
  by apply allow, rep_trainers.
Qed.

Lemma trainer_drop_sim t : op_ok w (TrainerDrop t) -> simulates (TrainerDrop t).
Proof.
  intros [c Hc]. apply ens_answer, ens_bind, (ens_corpus t c _ _ Hc), ens_modify. cbn [spec]. destruct (rep_trainer t c Hc) as [-> _].
  apply allow. destruct Hrep as [Hh ((HT & HF & HN) & Hb)]. eapply rep_intro; [exact Hh|done..|]. split; [cbn; by rewrite HT|].
  intros t' c' [_ ?]%lookup_delete_Some. by eapply Hb.
Qed.

Lemma trainer_train_sim t mid x : op_ok w (TrainerTrain t mid x) -> simulates (TrainerTrain t mid x).
Proof.
  intros (Hx & Hid & c & Hc & Hn). destruct (rep_trainer t c Hc) as [Ec Hb]. pose proof Hrep as [Hh Hot].
  apply ens_answer, ens_bind, (ens_corpus t c _ _ Hc). cbn [spec]. rewrite Ec. mstep. unfold spec_train.
  destruct (zlen c =? 0); [apply ens_ret, allow, Hrep|]. apply ens_bind, ens_allocate. destruct (e_vec e 0%nat); [|apply allow, Hrep].
  apply ens_bind, ens_allocate. destruct (e_vec e 1%nat); [|apply allow, Hrep]. cbn [andb negb].
  assert (packets_ok (map Some c)) as Hp. { split; [by rewrite length_map|]. intros pkt (q & [= <-] & Hq)%list_elem_of_fmap. by apply (proj1 (Forall_forall _ _) Hb). }
  apply ens_bind. destruct (handle_train_ok (e_cpu e) (e_mem e) (map Some c) mid _ _ _ _ _ _ Hh Hp Hid) as (r & h & m & L' & E & HL & Hr).
  eapply ens_run; [exact E|]. unfold spec_adopt. destruct r as [a|err|]; [| |done].
  - destruct Hr as (d & -> & Hr). by apply adopt_sim with L'.
  - destruct Hr as [-> Hr]. apply ens_ret. exists O, L'. split; [done|]. split; [|done]. destruct O. represent Hr.
Qed.

(** *** Contexts *)
Lemma ctx_new_sim k x mode lvl flags : op_ok w (CtxNew k x mode lvl flags) -> simulates (CtxNew k x mode lvl flags).
Proof.
  intros [Hk [p Hx]]. destruct (rep_dict x p Hx) as (v & Ev & _ & Hp). pose proof Hrep as [Hh Hot].
  apply ens_answer, ens_bind, (ens_dict_native x p _ _ Hx). cbn [spec]. rewrite Ev. mstep. unfold unused. rewrite (holds_fresh_ctx _ _ _ _ _ _ _ Hh Hk). mstep.
  destruct p as [a|].
  - destruct Hp as (ps & d & Ha & -> & _). set (cfg := context_cfg mode lvl flags).
    assert (has (cfg_flags cfg) NETC_CFG_FLAG_STATS = true) as Hst by (apply context_cfg_stats).
    destruct (handle_create_ok (e_cpu e) (e_mem e) a cfg _ _ _ _ _ _ ps d Hh Ha eq_refl Hst) as (c & h & m & E & Hc).
    apply ens_bind. eapply ens_run; [exact E|]. apply ens_declare_ctx; [exact Hk|]. apply allow. represent (Hc k (or_introl Hk)).
  - subst v. apply ens_declare_ctx; [exact Hk|]. apply allow. represent (holds_null_ctx _ _ _ _ _ _ k Hh (or_introl Hk)).
Qed.

Lemma ctx_move_new_sim k j : op_ok w (CtxMoveNew k j) -> simulates (CtxMoveNew k j).
Proof.
  intros [Hk [p Hj]]. destruct Hrep as [Hh Hot]. destruct (rep_ctx j p Hj) as (v & Ev & Hv & _).
  apply ens_answer, ens_bind, (ens_ctx_native j p _ _ Hj), ens_bind, ens_declare_ctx; [exact Hk|]. apply ens_modify. cbn [spec].
  rewrite Ev. unfold unused. rewrite (holds_fresh_ctx _ _ _ _ _ _ _ Hh Hk). apply allow.
  assert (k <> j) as Hne by congruence. represent (holds_move_ctx _ _ _ _ _ _ k j p v Hh Hne (or_introl Hk) Hj Hv).
Qed.

Lemma ctx_assign_sim k j : op_ok w (CtxAssign k j) -> simulates (CtxAssign k j).
Proof.
  intros ([p Hk] & [q Hj]). destruct Hrep as [Hh Hot]. destruct (rep_ctx j q Hj) as (v & Ev & Hv & _).
  apply ens_answer. unfold Context_move_assign. cbn [spec]. rewrite Ev. destruct (decide (k = j)) as [-> |Hne].
  { apply ens_bind, (ens_ctx_native j q _ _ Hj), ens_ret. apply allow. exact Hrep. }
  apply ens_bind, (ens_ctx_native k p _ _ Hk), ens_bind, (ens_ctx_native j q _ _ Hj), ens_bind.
  destruct (handle_destroy_ok _ _ _ _ _ _ k p Hh Hk) as (h & m & E & H1). eapply ens_run; [exact E|].
  apply ens_bind, ens_modify, ens_modify. apply allow.
  eapply (holds_move_ctx _ _ _ _ _ _ k j q v) in H1; [|done|right; by rewrite lookup_insert_eq|by rewrite lookup_insert_ne|by rewrite lookup_insert_ne].
  rewrite !insert_insert_eq in H1. represent H1.
Qed.

Lemma ctx_drop_sim k : op_ok w (CtxDrop k) -> simulates (CtxDrop k).
Proof.
  intros [p Hk]. destruct Hrep as [Hh Hot]. destruct (rep_ctx k p Hk) as (v & Ev & Hv & _).
  apply ens_answer, ens_bind, (ens_ctx_native k p _ _ Hk), ens_bind. cbn [spec]. rewrite Ev.
  destruct (handle_destroy_ok _ _ _ _ _ _ k p Hh Hk) as (h & m & E & H1). eapply ens_run; [exact E|]. apply ens_modify, allow.
  apply (holds_gone_ctx _ _ _ _ _ _ k) in H1; [|by rewrite lookup_insert_eq]. rewrite !delete_insert_eq in H1. represent H1.
Qed.

(** The context behind [k] changes its history. *)
Lemma put_sim n k a ps da c c' {A} (v : A) (f : A -> reply) :
  w_ctxs w !! k = Some (Some a) -> w_ctx_at w !! a = Some (ps, da, c) -> kept_by c c' -> ctx_ok c' ->
  ensures (put_ctx a c';; mret v) w (fun r w' => allowed n L (Ok (Some (f v), set_ctx O k (Some c'))) (option_map f r) w').
Proof.
  intros Hk Ha Hkept Hok. destruct Hrep as [Hh Hot]. destruct (put_ctx_ok a c' _ _ _ _ _ _ k ps da c Hh Hk Ha Hkept Hok) as (m & E & H1).
  apply ens_bind. eapply ens_run; [exact E|]. apply ens_ret, allow. represent H1.
Qed.

Lemma ens_ctx_with_dict a ps da c (Q : option netc_ctx_t -> world -> Prop) :
  w_ctx_at w !! a = Some (ps, da, c) -> is_Some (w_dict_at w !! da) -> Q (Some c) w -> ensures (ctx_with_dict a) w Q.
Proof. intros Ha [d Hd] H. eapply ens_run; [|exact H]. unfold ctx_with_dict. by rewrite Ha, Hd. Qed.

Lemma ctx_compress_sim k src dst : op_ok w (CtxCompress k src dst) -> simulates (CtxCompress k src dst).
Proof.
  intros [[p Hk] Hb]. destruct (rep_ctx k p Hk) as (v & Ev & _ & Hp).
  apply ens_answer, ens_bind, (ens_ctx_native k p _ _ Hk). cbn [spec]. unfold spec_compress. rewrite Ev. mstep.
  destruct p as [a|]; [|subst v; apply ens_ret, allow, Hrep]. destruct Hp as (ps & da & c & Ha & -> & Hg & Hda). cbv zeta.
  apply ens_bind, ens_grow. set (n := netc_compress_bound (span_size src)). destruct (extends e dst n); cbn [negb]; [|apply allow, Hrep].
  apply ens_bind, (ens_ctx_with_dict a ps da c); [done|done|]. destruct src as [sz|bs]; [apply ens_ret, allow, Hrep|]. cbn [span_ptr].
  destruct (compress_call c bs (zlen (extended dst n)) Hg (Hb bs eq_refl)) as [[err ->]|(c' & pkt & -> & Hkept & Hok)].
  - rewrite extended_length. unfold n. cbn [span_size]. lia.
  - apply ens_ret, allow, Hrep.
  - by eapply (put_sim _ k a ps da c c' (R_OK, pkt) data_of).
Qed.

Lemma ctx_decompress_sim k src dst : op_ok w (CtxDecompress k src dst) -> simulates (CtxDecompress k src dst).
Proof.
  intros ([p Hk] & Hdst & Hdec). destruct (rep_ctx k p Hk) as (v & Ev & _ & Hp).
  apply ens_answer, ens_bind, (ens_ctx_native k p _ _ Hk). cbn [spec]. unfold spec_decompress. rewrite Ev. mstep.
  destruct p as [a|]; [|subst v; apply ens_ret, allow, Hrep]. destruct Hp as (ps & da & c & Ha & -> & Hg & Hda).
  apply ens_bind, ens_grow. destruct (extends e dst NETC_MAX_PACKET_SIZE); cbn [negb]; [|apply allow, Hrep].
  apply ens_bind, (ens_ctx_with_dict a ps da c); [done|done|]. destruct src as [sz|bs]; [apply ens_ret, allow, Hrep|]. cbn [span_ptr].
  destruct (decompress_call c bs (extended dst NETC_MAX_PACKET_SIZE)) as [[err ->]|(c' & out & -> & Hkept & Hok)].
  - exact Hg.
  - by apply extended_bytes.
  - by eapply Hdec.
  - apply ens_ret, allow, Hrep.
  - by eapply (put_sim _ k a ps da c c' (R_OK, out) data_of).
Qed.

(** A call with the dictionary of [x] and no context. *)
Lemma stateless_sim x p dst n (call : netc_dict_t -> list Z -> result (list Z)) :
  w_dicts w !! x = Some p -> (forall d, dict_good d -> call d (extended dst n) <> Undef) ->
  ensures (p ← dict_native x;
           match p with
           | None => mret (R_InvalidArg, dst)
           | Some a => dst ← grow (e_vec e 0%nat) dst n; d ← dict_at a;
               match call d dst with Ok v => mret (R_OK, v) | Fail err => mret (to_Result err, []) | Undef => undef end
           end) w (fun r w' => allowed 0 L (spec_stateless e O x dst n call) (option_map data_of r) w').
Proof.
  intros Hx Hcall. destruct (rep_dict x p Hx) as (v & Ev & _ & Hp).
  apply ens_bind, (ens_dict_native x p _ _ Hx). unfold spec_stateless. rewrite Ev. mstep.
  destruct p as [a|]; [|subst v; apply ens_ret, allow, Hrep]. destruct Hp as (ps & d & Ha & -> & Hg).
  apply ens_bind, ens_grow. destruct (extends e dst n); cbn [negb]; [|apply allow, Hrep].
  apply ens_bind. eapply ens_run; [unfold dict_at; by rewrite Ha|]. specialize (Hcall d Hg).
  destruct (call d (extended dst n)) as [out|err|]; [apply ens_ret, allow, Hrep..|done].
Qed.

Lemma stateless_compress_sim x src dst : op_ok w (StatelessCompress x src dst) -> simulates (StatelessCompress x src dst).
Proof.
  intros [[p Hx] Hb]. apply ens_answer. apply (stateless_sim x p dst _ (fun d v => netc_compress_stateless (Some d) (span_ptr src) (Some (zlen v)) false) Hx).
  intros d (_ & _ & Hd & Hf). destruct src as [sz|bs]; [done|]. cbn [span_ptr span_size]. specialize (Hb bs eq_refl).
  destruct (Z.leb_spec (zlen bs) NETC_MAX_PACKET_SIZE) as [Hl|Hl].
  - destruct (stateless_total d bs (zlen (extended dst (netc_compress_bound (zlen bs)))) Hd Hf Hb Hl) as (pkt & -> & _); [|done].
    rewrite extended_length, compress_bound_eq by lia. lia.
  - unfold netc_compress_stateless. by rewrite (proj2 (Z.ltb_lt _ _) Hl).
Qed.

Lemma stateless_decompress_sim x src dst : op_ok w (StatelessDecompress x src dst) -> simulates (StatelessDecompress x src dst).
Proof.
  intros ([p Hx] & Hdst & Hb). apply ens_answer. apply (stateless_sim x p dst _ (fun d v => netc_decompress_stateless (Some d) (span_ptr src) (Some v) false) Hx).
  intros d (_ & _ & Hd & _). destruct src as [sz|bs]; [done|]. destruct (Hb bs eq_refl) as [Hbb Hr].
  destruct (decompress_stateless_safe d bs (extended dst NETC_MAX_PACKET_SIZE) Hd Hbb (extended_bytes _ _ Hdst) Hr) as [[err E]|(out & E & _)];
    cbn [span_ptr]; by rewrite E.
Qed.

Lemma ctx_reset_sim k : op_ok w (CtxReset k) -> simulates (CtxReset k).
Proof.
  intros [p Hk]. destruct (rep_ctx k p Hk) as (v & Ev & Hv & Hp). apply ens_answer, ens_bind, (ens_ctx_native k p _ _ Hk). cbn [spec]. rewrite Ev. mstep.
  destruct p as [a|]; [|subst v; apply ens_ret, allow]. 2:{ unfold set_ctx. cbn [option_map]. rewrite insert_id by done. destruct O. apply Hrep. }
  destruct Hp as (ps & da & c & Ha & -> & (Hok & _ & _) & Hda). apply ens_bind. eapply ens_run; [unfold ctx_at; by rewrite Ha|].
  apply ens_bind. assert (ensures (put_ctx a (netc_ctx_reset c)) w
    (fun r w' => allowed 0 L (Ok (Some Done, set_ctx O k (Some (netc_ctx_reset c)))) (option_map (fun _ => Done) r) w')) as Hput.
  { destruct (put_sim 0 k a ps da c (netc_ctx_reset c) tt (fun _ => Done) Hk Ha (reset_keeps c) (reset_ok c Hok)) as (r & w' & E & H).
    unfold mbind, sdk_bind in E. destruct (put_ctx a (netc_ctx_reset c) w) as [[[[]|] w1]|e'|] eqn:Ep; try done; [|injection E as <- <-; by eexists _, _].
    injection E as <- <-. by eexists _, _. }
  destruct (c_adapt_freq c); [apply (ens_ctx_with_dict a ps da c); [done|done|exact Hput]|apply ens_ret, Hput].
Qed.

Lemma ctx_simd_sim k : op_ok w (CtxSimd k) -> simulates (CtxSimd k).
Proof.
  intros [p Hk]. destruct (rep_ctx k p Hk) as (v & Ev & _ & Hp). apply ens_answer, ens_bind, (ens_ctx_native k p _ _ Hk). cbn [spec]. rewrite Ev. mstep.
  destruct p as [a|]; [|subst v; apply ens_ret, allow, Hrep]. destruct Hp as (ps & da & c & Ha & -> & _).
  apply ens_bind. eapply ens_run; [unfold ctx_at; by rewrite Ha|]. apply ens_ret, allow, Hrep.
Qed.

(** A context of the binding always counts. *)
Lemma ctx_stats_sim k out : op_ok w (CtxStats k out) -> simulates (CtxStats k out).
Proof.
  intros [p Hk]. destruct (rep_ctx k p Hk) as (v & Ev & _ & Hp). apply ens_answer, ens_bind, (ens_ctx_native k p _ _ Hk). cbn [spec]. rewrite Ev. mstep.
  destruct p as [a|]; [|subst v; apply ens_ret, allow, Hrep]. destruct Hp as (ps & da & c & Ha & -> & (_ & _ & Hst) & _).
  apply ens_bind. eapply ens_run; [unfold ctx_at; by rewrite Ha|]. unfold netc_ctx_stats. rewrite Hst. cbn [negb]. apply ens_ret.
  cbn [spec_stats option_map fst snd]. destruct (c_stats c). apply allow, Hrep.
Qed.

Lemma ctx_valid_sim k : op_ok w (CtxValid k) -> simulates (CtxValid k).
Proof.
  intros [p Hk]. destruct (rep_ctx k p Hk) as (v & Ev & _ & Hp). apply ens_answer, ens_bind, (ens_ctx_native k p _ _ Hk), ens_ret.
  cbn [spec]. rewrite Ev. destruct p as [a|]; [destruct Hp as (ps & da & c & _ & -> & _)|subst v]; apply allow, Hrep.
Qed.

Lemma exec_sim o : op_ok w o -> simulates o.
Proof.
  destruct o; auto using dict_new_sim, dict_move_new_sim, dict_assign_sim, dict_drop_sim, dict_load_sim, dict_load_file_sim, dict_save_sim,
    dict_save_file_sim, dict_valid_sim, dict_model_id_sim, trainer_new_sim, trainer_add_sim, trainer_add_all_sim, trainer_count_sim,
    trainer_train_sim, trainer_reset_sim, trainer_drop_sim, ctx_new_sim, ctx_move_new_sim, ctx_assign_sim, ctx_drop_sim, ctx_compress_sim,
    ctx_decompress_sim, stateless_compress_sim, stateless_decompress_sim, ctx_reset_sim, ctx_simd_sim, ctx_stats_sim, ctx_valid_sim.
Qed.
End Step.

(** ** Programs *)
Definition losses (prog : list (sdk_env * op)) : nat := sum_list_with (fun eo => cost (fst eo) (snd eo)) prog.

Lemma lost_trans n m L1 L2 L3 : lost_at_most n L1 L2 -> lost_at_most m L2 L3 -> lost_at_most (n + m) L1 L3.
Proof. intros [S1 N1] [S2 N2]. split; [by etransitivity|lia]. Qed.

Lemma run_sim prog w O L :
  rep w O L -> admissible w prog ->
  exists rs w' O' L', run prog w = Ok (rs, w') /\ spec_run prog O = Ok (rs, O') /\ rep w' O' L' /\ lost_at_most (losses prog) L L'.
Proof.
  revert w O L. induction prog as [|[e o] prog IH]; intros w O L Hr Ha.
  { exists [], w, O, L. split; [done|]. split; [done|]. split; [done|apply lost_none]. }
  destruct Ha as [Hok Hnext]. destruct (exec_sim e w O L Hr o Hok) as (r & w1 & E & O1 & L1 & Es & Hr1 & HL1).
  destruct (IH w1 O1 L1 Hr1 (Hnext r w1 E)) as (rs & w2 & O2 & L2 & E2 & Es2 & Hr2 & HL2).
  exists (r :: rs), w2, O2, L2. cbn [run spec_run]. rewrite E, Es. mstep. rewrite E2, Es2. split; [done|]. split; [done|]. split; [done|].
  by eapply lost_trans.
Qed.

Lemma rep_start files : rep (world0 files) (objects0 files) ∅.
Proof.
  assert (forall (T : Type) (P : Prop) a (v : T), (∅ : gmap nat T) !! a = Some v -> P) as He by (intros *; by rewrite lookup_empty).
  split; [|split; [done|]; intros t c H; exact (He _ _ _ _ H)]. split; [|done].
  split; [|intros a ps d H; exact (He _ _ _ _ H)|intros a ps da c H; exact (He _ _ _ _ H)|apply owners_empty..]. by apply (owns_start fresh_heap).
Qed.

(** Without objects there are no structures. *)
Lemma owners_none {V} (store : gmap nat V) : owners ∅ store -> store = ∅.
Proof.
  intros [_ H _]. apply map_eq. intros a. rewrite lookup_empty. destruct (store !! a) as [v|] eqn:E; [|done].
  destruct (H a v E) as [x Hx]. by rewrite lookup_empty in Hx.
Qed.

Lemma mem_inv_none w L : mem_inv w ∅ ∅ L -> live (w_heap w) = L.
Proof. intros [Ho _ _ OD OC]. rewrite (owners_none _ OD), (owners_none _ OC) in Ho. by apply owns_nil. Qed.

(** *** Admissibility seen from the values *)

(** No context in scope uses a dictionary like the one [x] holds. *)
Definition detached_value (O : objects) (x : nat) : Prop :=
  exists v, o_dicts O !! x = Some v /\ forall k c, o_ctxs O !! k = Some (Some c) -> v <> None -> c_dict c <> v.

Definition op_fine (O : objects) (o : op) : Prop :=
  match o with
  | DictNew x => o_dicts O !! x = None
  | DictMoveNew x y => o_dicts O !! x = None /\ is_Some (o_dicts O !! y)
  | DictAssign x y => is_Some (o_dicts O !! x) /\ is_Some (o_dicts O !! y) /\ (x <> y -> detached_value O x)
  | DictDrop x => detached_value O x
  | DictLoad x data => detached_value O x /\ span_ok trusted data
  | DictLoadFile x path => detached_value O x /\ forall bs, o_files O !! path = Some bs -> trusted bs
  | DictSave x _ | DictSaveFile x _ | DictValid x | DictModelId x => is_Some (o_dicts O !! x)
  | TrainerNew t => o_trainers O !! t = None
  | TrainerAdd t data => is_Some (o_trainers O !! t) /\ span_ok bytes data
  | TrainerAddAll t pkts => is_Some (o_trainers O !! t) /\ Forall bytes pkts
  | TrainerTrain t mid x => detached_value O x /\ 0 <= mid < 256 /\ exists c, o_trainers O !! t = Some c /\ zlen c < 2 ^ 32
  | TrainerCount t | TrainerReset t | TrainerDrop t => is_Some (o_trainers O !! t)
  | CtxNew k x _ _ _ => o_ctxs O !! k = None /\ is_Some (o_dicts O !! x)
  | CtxMoveNew k j => o_ctxs O !! k = None /\ is_Some (o_ctxs O !! j)
  | CtxAssign k j => is_Some (o_ctxs O !! k) /\ is_Some (o_ctxs O !! j)
  | CtxDrop k | CtxReset k | CtxSimd k | CtxStats k _ | CtxValid k => is_Some (o_ctxs O !! k)
  | CtxCompress k src _ => is_Some (o_ctxs O !! k) /\ span_ok bytes src
  | CtxDecompress k src dst => is_Some (o_ctxs O !! k) /\ bytes dst /\
      span_ok (fun bs => forall c, o_ctxs O !! k = Some (Some c) -> decodable c bs (extended dst NETC_MAX_PACKET_SIZE)) src
  | StatelessCompress x src _ => is_Some (o_dicts O !! x) /\ span_ok bytes src
  | StatelessDecompress x src dst => is_Some (o_dicts O !! x) /\ bytes dst /\
      span_ok (fun bs => bytes bs /\ readable bs (zlen (extended dst NETC_MAX_PACKET_SIZE)) false) src
  end.

Fixpoint fine (O : objects) (prog : list (sdk_env * op)) : Prop :=
  match prog with
  | [] => True
  | (e, o) :: prog' => op_fine O o /\ forall r O', spec e o O = Ok (r, O') -> fine O' prog'
  end.

Section Fine.
Context (w : world) (O : objects) (L : gset nat).
Context (Hrep : rep w O L).

Lemma fine_dict x : is_Some (o_dicts O !! x) -> is_Some (w_dicts w !! x).
Proof. destruct Hrep as [(_ & <- & _) _]. unfold view. by rewrite lookup_fmap, fmap_is_Some. Qed.
Lemma fine_ctx k : is_Some (o_ctxs O !! k) -> is_Some (w_ctxs w !! k).
Proof. destruct Hrep as [(_ & _ & <-) _]. unfold view. by rewrite lookup_fmap, fmap_is_Some. Qed.
Lemma unused_dict x : o_dicts O !! x = None -> w_dicts w !! x = None.
Proof. destruct Hrep as [(_ & <- & _) _]. unfold view. by rewrite lookup_fmap, fmap_None. Qed.
Lemma unused_ctx k : o_ctxs O !! k = None -> w_ctxs w !! k = None.
Proof. destruct Hrep as [(_ & _ & <-) _]. unfold view. by rewrite lookup_fmap, fmap_None. Qed.

Lemma fine_detached x : detached_value O x -> detached w x.
Proof.
  intros (v & Hv & Hc). destruct (fine_dict x ltac:(by rewrite Hv)) as [p Hp]. exists p. split; [done|].
  intros a b ps da c -> Hb ->. destruct (rep_dict w O L Hrep x (Some a) Hp) as (v' & _ & Hv' & ps' & d & Ha & -> & _).
  destruct Hrep as [(Hi & _ & HC) _]. destruct (mi_ctx _ _ _ _ Hi b ps a c Hb) as (_ & _ & ps2 & d2 & Ha2 & Hd2).
  destruct (ow_owned _ _ (mi_ctxs _ _ _ _ Hi) b _ Hb) as [k Hk].
  apply (Hc k c); [rewrite <- HC; by eapply (view_held snd _ _ k b (ps, a, c))|congruence|]. rewrite Hd2. congruence.
Qed.

Lemma fine_ok o : op_fine O o -> op_ok w o.
Proof.
  pose proof (rep_others w O L Hrep) as ((HT & HF & _) & _). destruct o; cbn [op_fine op_ok]; rewrite ?HT, ?HF;
    intuition (auto using fine_dict, fine_ctx, unused_dict, unused_ctx, fine_detached).
  intros bs Hbs a ps da c Hk Ha. match goal with H : span_ok _ _ |- _ => apply (H bs Hbs) end.
  destruct Hrep as [(_ & _ & <-) _]. by eapply (view_held snd _ _ _ _ (ps, da, c)).
Qed.
End Fine.

Lemma fine_admissible prog w O L : rep w O L -> fine O prog -> admissible w prog.
Proof.
  revert w O L. induction prog as [|[e o] prog IH]; intros w O L Hr Hf; [done|]. destruct Hf as [Ho Hnext]. pose proof (fine_ok w O L Hr o Ho) as Hok.
  split; [done|]. intros r w' E. destruct (exec_sim e w O L Hr o Hok) as (r' & w1 & E' & O1 & L1 & Es & Hr1 & _).
  rewrite E in E'. injection E' as <- <-. by eapply IH; [|eapply Hnext].
Qed.

(** *** A program that uses every kind of object *)
Definition calm : sdk_env := Env no_simd (fun _ => true) (fun _ => true) (fun _ => true) (fun n => n) (fun n => n) (fun n => n).

Definition tour : list (sdk_env * op) := map (pair calm)
  [DictNew 0; TrainerNew 0; TrainerAdd 0 (Range [1; 2; 3]); TrainerTrain 0 7 0; CtxNew 0 0 TCP 5 0;
   CtxCompress 0 (Range [1; 2; 3]) []; DictMoveNew 1 0; CtxDrop 0; DictDrop 0; TrainerDrop 0; DictDrop 1].

Lemma set_dict_id O x v : o_dicts O !! x = Some v -> set_dict O x v = O.
Proof. intros H. unfold set_dict. rewrite insert_id by done. by destruct O. Qed.
Lemma set_ctx_id O k v : o_ctxs O !! k = Some v -> set_ctx O k v = O.
Proof. intros H. unfold set_ctx. rewrite insert_id by done. by destruct O. Qed.

(** Whatever a call does, only its object changes. *)
Lemma adopt_shape O x v r rep O' : o_dicts O !! x = Some v -> spec_adopt O x r = Ok (rep, O') -> exists u, O' = set_dict O x u.
Proof. intros Hx. destruct r as [d|err|]; intros [= <- <-]; [by exists (Some d)|exists v; by rewrite set_dict_id]. Qed.

Lemma train_op_shape e O t mid x v rep O' :
  o_dicts O !! x = Some v -> spec e (TrainerTrain t mid x) O = Ok (rep, O') -> exists u, O' = set_dict O x u.
Proof.
  intros Hx H. cbn [spec] in H. apply bind_Ok in H as (c & _ & H). unfold spec_train in H.
  repeat case_if_in H; [injection H as <- <-; exists v; by rewrite set_dict_id..|]. by eapply adopt_shape.
Qed.

Lemma new_op_shape e O k x mode lvl flags rep O' : spec e (CtxNew k x mode lvl flags) O = Ok (rep, O') -> exists c, O' = set_ctx O k c.
Proof. intros H. cbn [spec] in H. apply bind_Ok in H as (d & _ & H). apply bind_Ok in H as (u & _ & H). injection H as <- <-. by eexists. Qed.

Lemma compress_op_shape e O k src dst v rep O' :
  o_ctxs O !! k = Some v -> spec e (CtxCompress k src dst) O = Ok (rep, O') -> exists c, O' = set_ctx O k c.
Proof.
  cbn [spec]. unfold spec_compress, held. intros Hk H. rewrite Hk, bind_Ok_l in H. assert (exists c, O = set_ctx O k c) as Hsame by (exists v; by rewrite set_ctx_id).
  destruct v as [c|]; [|by injection H as <- <-]. cbv zeta in H. case_if_in H; [by injection H as <- <-|].
  destruct (netc_compress _ _ _ _) as [[c' r]|err|]; [|by injection H as <- <-|done].
  apply bind_Ok in H as (u & _ & H). injection H as <- <-. by exists (Some c').
Qed.

Lemma no_ctx_detached O x : is_Some (o_dicts O !! x) -> o_ctxs O = ∅ -> detached_value O x.
Proof. intros [v Hv] HC. exists v. split; [done|]. intros k c Hk. by rewrite HC, lookup_empty in Hk. Qed.

Lemma fine_next e o O O1 r prog : op_fine O o -> spec e o O = Ok (r, O1) -> fine O1 prog -> fine O ((e, o) :: prog).
Proof. intros Ho E Hf. split; [done|]. intros r' O' E'. rewrite E in E'. by injection E' as <- <-. Qed.

Lemma tour_fine : fine (objects0 ∅) tour.
Proof.
  assert (forall bs, Range [1; 2; 3] = Range bs -> bytes bs) as Hb by (intros bs [= <-]; repeat constructor; unfold is_byte; lia).
  apply (fine_next _ _ _ (set_dict (objects0 ∅) 0 None) (Some Done)); [done|done|].
  apply (fine_next _ _ _ (set_trainer (set_dict (objects0 ∅) 0 None) 0 []) (Some Done)); [done|done|].
  apply (fine_next _ _ _ (set_trainer (set_trainer (set_dict (objects0 ∅) 0 None) 0 []) 0 [[1; 2; 3]]) (Some Done));
    [by split; [eexists|]|done|].
  set (O := set_trainer _ 0 [[1; 2; 3]]). split. { split; [by apply no_ctx_detached; [eexists|]|]. split; [lia|]. by eexists. }
  intros r4 O4 E4. destruct (train_op_shape calm O 0 7 0 None _ _ eq_refl E4) as [d ->]. clear E4.
  split; [split; [done|by eexists]|]. intros r5 O5 [c ->]%new_op_shape. split; [by split; [eexists|]|].
  intros r6 O6 E6. destruct (compress_op_shape calm (set_ctx (set_dict O 0 d) 0 c) 0 (Range [1; 2; 3]) [] c _ _ eq_refl E6) as [c' ->]. clear E6. set (O6 := set_ctx (set_ctx (set_dict O 0 d) 0 c) 0 c').
  apply (fine_next _ _ _ (set_dict (set_dict O6 1 d) 0 None) (Some Done)); [by split; [|eexists]|done|].
  apply (fine_next _ _ _ (Objs (<[0%nat := None]> (<[1%nat := d]> (o_dicts O6))) ∅ (o_trainers O6) ∅ 0) (Some Done)); [by eexists|done|].
  set (O8 := Objs _ _ _ _ _).
  apply (fine_next _ _ _ (Objs (delete 0%nat (o_dicts O8)) ∅ (o_trainers O6) ∅ 0) (Some Done)); [by apply no_ctx_detached; [eexists|]|done|].
  apply (fine_next _ _ _ (Objs (delete 0%nat (o_dicts O8)) ∅ (delete 0%nat (o_trainers O6)) ∅ 0) (Some Done)); [by eexists|done|].
  split; [by apply no_ctx_detached; [eexists|]|done].
Qed.

(** ** Properties *)

(** The world without handles: what every object holds. *)
Definition abs (w : world) : objects :=
  Objs (view snd (w_dict_at w) (w_dicts w)) (view snd (w_ctx_at w) (w_ctxs w)) (w_trainers w) (w_files w) (w_open w).

Lemma rep_abs w O L : rep w O L -> O = abs w.
Proof. intros [(_ & HD & HC) ((HT & HF & HN) & _)]. destruct O. cbn in *. by subst. Qed.

(** C11: the C++ binding hides its handles.  The programs over Dict, Trainer and
    Context objects that are considered ([admissible]) name only objects in scope
    and, at each call:
    - no dictionary is released (dropped, overwritten, loaded or trained over)
      while a context is bound to it;
    - the bytes and files that are loaded are [trusted]: whatever dictionary
      netc_dict_load makes of them is checksummed, names only existing classes and
      codes every byte, as those of netc_dict_save are;
    - a packet to be decompressed makes the decoder open no bitstream that is
      longer than 8 bytes and ends in a zero byte ([readable]), or is decoded by
      the context that gets it;
    - fewer than 2^32 packets are trained on, with a model id that is a byte.
    Such a program never dereferences or frees a handle that is gone, whichever
    native and vector allocations fail, whichever files cannot be opened, read or
    written and whatever is thrown; every call returns or throws what the
    specification without handles says, and at the end the objects hold what it
    says. *)
Theorem sdk_refines (files : gmap string (list Z)) (prog : list (sdk_env * op)) :
  admissible (world0 files) prog ->
  exists rs w, run prog (world0 files) = Ok (rs, w) /\ spec_run prog (objects0 files) = Ok (rs, abs w).
Proof.
  intros Ha. destruct (run_sim prog _ _ _ (rep_start files) Ha) as (rs & w & O & L & E & Es & Hr & _). exists rs, w. split; [done|].
  by rewrite <- (rep_abs w O L Hr).
Qed.

Lemma sdk_refines_witness :
  exists rs w, run tour (world0 ∅) = Ok (rs, w) /\ spec_run tour (objects0 ∅) = Ok (rs, abs w).
Proof. apply (sdk_refines ∅ tour). apply (fine_admissible _ _ _ _ (rep_start ∅)). exact tour_fine. Defined.

(** C12: memory of programs that use the C++ binding.  In the programs of C11
    ([admissible]: no dictionary is released while a context is bound to it, only
    trusted blobs and files are loaded, packets to be decompressed are readable or
    decodable, fewer than 2^32 packets are trained on, with a model id that is a
    byte), whichever allocations and file operations fail, every native structure belongs to exactly one object in scope at any time, its
    blocks are live and no other structure's, and every context's dictionary is
    alive.  The blocks lost are one for each training and one for each save whose
    copy of the blob throws; once all objects are gone no other block is left. *)
Theorem sdk_memory_safe (files : gmap string (list Z)) (prog : list (sdk_env * op)) :
  admissible (world0 files) prog ->
  exists rs w L, run prog (world0 files) = Ok (rs, w) /\ mem_inv w (w_dicts w) (w_ctxs w) L /\ (size L <= losses prog)%nat /\
    (w_dicts w = ∅ -> w_ctxs w = ∅ -> live (w_heap w) = L).
Proof.
  intros Ha. destruct (run_sim prog _ _ _ (rep_start files) Ha) as (rs & w & O & L & E & _ & ((Hi & _) & _) & _ & HL). exists rs, w, L.
  split; [done|]. split; [done|]. split; [exact HL|]. intros HD HC. rewrite HD, HC in Hi. by apply mem_inv_none.
Qed.

Lemma sdk_memory_safe_witness :
  exists rs w L, run tour (world0 ∅) = Ok (rs, w) /\ mem_inv w (w_dicts w) (w_ctxs w) L /\ (size L <= 1)%nat /\
    (w_dicts w = ∅ -> w_ctxs w = ∅ -> live (w_heap w) = L).
Proof. apply (sdk_memory_safe ∅ tour). apply (fine_admissible _ _ _ _ (rep_start ∅)). exact tour_fine. Defined.
