(* ===== verification/SdkSession.v ===== *)
(** * A session through the C++ binding

    A program as the binding's users write it (src/sdk/cpp): a Trainer is fed and
    trains a Dict, the Dict is saved to a file and loaded into a second one, two
    Contexts are created and messages travel from one to the other.  The program
    is executed with its handles and its heap; its replies are derived from the
    specification of SdkSpec.v. *)

From Stdlib Require Import String.
From stdpp Require Import prelude gmap strings.
From Stdlib Require Import ZArith Lia.
From S2P Require Import Prelude Lzp Simd Header Ctx Dict Train Training Heap Decompress Compress Packets Sync Session Safety Progress Transport Deploy Platform Sdk SdkOwners SdkSpec SdkMemory.

Local Open Scope Z_scope.

(** ** Programs that go through *)
Definition goes (O : objects) (prog : list (sdk_env * op)) (rs : list (option reply)) (O' : objects) : Prop :=
  fine O prog /\ spec_run prog O = Ok (rs, O').

Lemma goes_nil O : goes O [] [] O.
Proof. done. Qed.

Lemma goes_next e o O O1 O' r prog rs : op_fine O o -> spec e o O = Ok (r, O1) -> goes O1 prog rs O' -> goes O ((e, o) :: prog) (r :: rs) O'.
Proof. intros Ho E [Hf Hs]. split; [by eapply fine_next|]. cbn [spec_run]. rewrite E. mstep. rewrite Hs. by mstep. Qed.

Lemma goes_app O O1 O' p1 p2 rs1 rs2 : goes O p1 rs1 O1 -> goes O1 p2 rs2 O' -> goes O (p1 ++ p2) (rs1 ++ rs2) O'.
Proof.
  revert O rs1. induction p1 as [|[e o] p1 IH]; intros O rs1 [Hf Hs] H2; cbn [spec_run] in Hs; [injection Hs as <- ->; done|].
  destruct Hf as [Ho Hn]. apply bind_Ok in Hs as ([r O2] & E & Hs). apply bind_Ok in Hs as ([rs O3] & Hs & [= <- ->]).
  cbn [app]. eapply goes_next; [done|exact E|]. apply IH; [|done]. split; [by eapply Hn|done].
Qed.

(** ** Saved files can be loaded *)
Lemma load_more mem b d : netc_dict_load mem (Some b) false = Ok d -> netc_dict_load mem_ok (Some b) false = Ok d.
Proof.
  rewrite !load_split. intros H. apply bind_Ok in H as ([[v f] ck] & -> & H). mstep. case_if_in H; [done|]. cbn [mem_ok negb].
  apply bind_Ok in H as ([[[[[id m] c] ts] bg] cur] & -> & H). mstep. case_if_in H; [|done]. unfold get_lzp in *.
  destruct (get_u32 cur) as [[n cur']| |]; rewrite ?bind_Ok_l in *; [|done..]. destruct (NETC_LZP_HT_SIZE <? n); [done|]. by case_if_in H.
Qed.

Lemma saved_trusted d : dict_good d ->
  exists blob, (forall mem, mem 0%nat = true -> netc_dict_save mem (Some d) false = Ok blob) /\ trusted blob /\ 0 < zlen blob /\
    forall mem, mem 0%nat = true -> mem 1%nat = true -> netc_dict_load mem (Some blob) false = Ok d.
Proof.
  intros (Hwf & Hck & Hok & Hfu). destruct (load_saved d [] Hwf Hck) as (blob & Hs & Hl & Hb & Hd). rewrite app_nil_r in Hd. exists blob.
  split; [done|]. split; [|split; [rewrite Hl; eapply Z.lt_le_trans; [|apply blob_size_min]; done|done]].
  split; [done|]. intros mem d' H%load_more. rewrite (Hd mem_ok eq_refl eq_refl) in H. by injection H as <-.
Qed.

(** ** The program *)

(** An environment in which nothing fails. *)
Definition able (cpu : simd_caps) : sdk_env := Env cpu mem_ok (fun _ => true) (fun _ => true) (fun n => n) (fun n => n) (fun n => n).

Definition setup (samples : list (list Z)) (mid : Z) (path : string) (mode : Mode) (lvl flags : Z) : list op :=
  [TrainerNew 0; TrainerAddAll 0 samples; DictNew 0; TrainerTrain 0 mid 0; DictSaveFile 0 path;
   DictNew 1; DictLoadFile 1 path; CtxNew 0 0 mode lvl flags; CtxNew 1 1 mode lvl flags].
Definition exchange (mp : list Z * list Z) : list op := [CtxCompress 0 (Range (fst mp)) []; CtxDecompress 1 (Range (snd mp)) []].
Definition teardown : list op := [CtxDrop 0; CtxDrop 1; DictDrop 0; DictDrop 1; TrainerDrop 0].

Definition session (cpu : simd_caps) (samples : list (list Z)) (mid : Z) (path : string) (mode : Mode) (lvl flags : Z) (mps : list (list Z * list Z))
  : list (sdk_env * op) :=
  map (pair (able cpu)) (setup samples mid path mode lvl flags) ++ map (pair (able cpu)) (mps ≫= exchange) ++ map (pair (able cpu)) teardown.

(** What it answers. *)
Definition setup_replies : list (option reply) :=
  map Some [Done; Done; Done; Code R_OK; Code R_OK; Done; Code R_OK; Done; Done].
Definition exchange_replies (mp : list Z * list Z) : list (option reply) := [Some (Data R_OK (snd mp)); Some (Data R_OK (fst mp))].

(** Messages that travel. *)
Definition sendable (m : list Z) : Prop := bytes m /\ zlen m <= NETC_MAX_PACKET_SIZE /\ (zlen m < 256 \/ Z.odd (zlen m) = false).

Section Session.
Context (cpu : simd_caps).
Local Abbreviation env := (able cpu).

Lemma able_extends v n : extends env v n = true.
Proof. apply orb_true_r. Qed.

Lemma spec_compress_ok O k c m dst c' pkt :
  o_ctxs O !! k = Some (Some c) ->
  netc_compress (Some c) (Some m) (Some (zlen (extended dst (netc_compress_bound (zlen m))))) false = Ok (c', Ok pkt) ->
  spec env (CtxCompress k (Range m) dst) O = Ok (Some (Data R_OK pkt), set_ctx O k (Some c')).
Proof.
  intros Hk Hc. cbn [spec]. unfold spec_compress, held. rewrite Hk, bind_Ok_l. cbv zeta. rewrite able_extends. cbn [negb span_ptr span_size].
  by rewrite Hc.
Qed.

Lemma spec_decompress_ok O k c pkt dst c' m :
  o_ctxs O !! k = Some (Some c) ->
  netc_decompress (Some c) (Some pkt) (Some (extended dst NETC_MAX_PACKET_SIZE)) false = Ok (c', m) ->
  spec env (CtxDecompress k (Range pkt) dst) O = Ok (Some (Data R_OK m), set_ctx O k (Some c')).
Proof.
  intros Hk Hc. cbn [spec]. unfold spec_decompress, held. rewrite Hk, bind_Ok_l. rewrite able_extends. cbn [negb span_ptr]. by rewrite Hc.
Qed.

(** Two dictionaries and two contexts in scope. *)
Definition talking (d : netc_dict_t) (c c' : netc_ctx_t) (T : gmap nat (list (list Z))) (F : gmap string (list Z)) : objects :=
  Objs {[0%nat := Some d; 1%nat := Some d]} {[0%nat := Some c; 1%nat := Some c']} T F 0.

Lemma exchange_goes d c c' T F m :
  link c c' -> sendable m ->
  exists pkt c1 c1', goes (talking d c c' T F) (map (pair env) (exchange (m, pkt))) (exchange_replies (m, pkt)) (talking d c1 c1' T F) /\
    zlen pkt <= netc_compress_bound (zlen m) /\ link c1 c1'.
Proof.
  intros Hl (Hb & Hm & Ho). set (cap := zlen (extended [] (netc_compress_bound (zlen m)))). set (dst := extended [] NETC_MAX_PACKET_SIZE).
  destruct (link_step c c' m cap dst Hl) as (c1 & pkt & c1' & Hc & Hd & Hlen & Hl1 & _).
  { unfold carried, message_ok, cap, dst. rewrite !extended_length. split; [|lia]. split; [done|]. split; [|done]. cbn [length]. lia. }
  exists pkt, c1, c1'. split; [|done].
  assert (o_ctxs (set_ctx (talking d c c' T F) 0 (Some c1)) !! 1%nat = Some (Some c')) as H1 by reflexivity.
  eapply goes_next; [split; [by eexists|intros bs [= <-]; exact Hb]|by eapply (spec_compress_ok _ 0 c)|].
  eapply goes_next; [|by eapply (spec_decompress_ok _ 1 c')|apply goes_nil].
  split; [by eexists|]. split; [constructor|]. intros bs [= <-] c2 H2. rewrite H1 in H2. injection H2 as <-. right. exists c1', m.
  split; [exact Hd|]. split; [apply Hl1|done].
Qed.

Lemma talk_goes d c c' T F msgs :
  link c c' -> Forall sendable msgs ->
  exists pkts c1 c1', length pkts = length msgs /\
    goes (talking d c c' T F) (map (pair env) (zip msgs pkts ≫= exchange)) (zip msgs pkts ≫= exchange_replies) (talking d c1 c1' T F) /\
    Forall2 (fun m pkt => zlen pkt <= netc_compress_bound (zlen m)) msgs pkts.
Proof.
  intros Hl Hm. revert c c' Hl. induction Hm as [|m msgs Hm _ IH]; intros c c' Hl; [by exists [], c, c'|].
  destruct (exchange_goes d c c' T F m Hl Hm) as (pkt & c1 & c1' & Hg & Hlen & Hl1). destruct (IH c1 c1' Hl1) as (pkts & c2 & c2' & Hn & Hg2 & Hf).
  exists (pkt :: pkts), c2, c2'. split; [cbn [length]; lia|]. split; [|by constructor]. exact (goes_app _ _ _ _ _ _ _ Hg Hg2).
Qed.

Lemma teardown_goes d c c' T F : is_Some (T !! 0%nat) -> goes (talking d c c' T F) (map (pair env) teardown) (replicate 5 (Some Done)) (Objs ∅ ∅ (delete 0%nat T) F 0).
Proof.
  intros [t Ht]. eapply (goes_next _ _ _ (Objs {[0%nat := Some d; 1%nat := Some d]} {[1%nat := Some c']} T F 0)); [by eexists|done|].
  eapply (goes_next _ _ _ (Objs {[0%nat := Some d; 1%nat := Some d]} ∅ T F 0)); [by eexists|done|].
  eapply (goes_next _ _ _ (Objs {[1%nat := Some d]} ∅ T F 0)); [by apply no_ctx_detached; [eexists|]|done|].
  eapply (goes_next _ _ _ (Objs ∅ ∅ T F 0)); [by apply no_ctx_detached; [eexists|]|done|].
  eapply goes_next; [by exists t|cbn [spec]; unfold held; cbn [o_trainers]; rewrite Ht; done|apply goes_nil].
Qed.

(** The samples a trainer keeps. *)
Definition kept (samples : list (list Z)) : list (list Z) := filter (fun p => p <> []) samples.

Lemma spec_add_all i c pkts : spec_add env i c pkts = (true, c ++ kept pkts).
Proof.
  revert i c. induction pkts as [|p pkts IH]; intros i c; cbn [spec_add]; [by rewrite app_nil_r|]. unfold kept. rewrite filter_cons.
  destruct p as [|b p]; [by rewrite IH|]. destruct (Z.eqb_spec (zlen (b :: p)) 0) as [H|_]; [cbn [length] in H; lia|].
  cbn [able e_vec]. rewrite IH, <- app_assoc. rewrite decide_True by done. done.
Qed.

Lemma kept_ok samples : Forall bytes samples -> zlen samples < 2 ^ 32 -> packets_ok (map Some (kept samples)).
Proof.
  intros Hb Hn. split.
  - rewrite length_map. pose proof (length_filter (fun p : list Z => p <> []) samples). unfold kept. lia.
  - intros pkt (q & [= <-] & Hq)%list_elem_of_fmap. apply list_elem_of_filter in Hq as [_ Hq]. by apply (proj1 (Forall_forall _ _) Hb).
Qed.

Lemma spec_adds_ok O t c pkts :
  o_trainers O !! t = Some c -> spec env (TrainerAddAll t pkts) O = Ok (Some Done, set_trainer O t (c ++ kept pkts)).
Proof. intros Ht. cbn [spec]. unfold spec_adds, held. rewrite Ht, bind_Ok_l. cbv zeta. by rewrite spec_add_all. Qed.

Lemma spec_train_ok O t c mid x d :
  o_trainers O !! t = Some c -> c <> [] -> netc_dict_train cpu mem_ok false false (map Some c) mid false = Ok d ->
  spec env (TrainerTrain t mid x) O = Ok (Some (Code R_OK), set_dict O x (Some d)).
Proof.
  intros Ht Hne Hd. cbn [spec]. unfold held. rewrite Ht, bind_Ok_l. unfold spec_train. destruct (Z.eqb_spec (zlen c) 0) as [H|_]; [destruct c; done|].
  cbn [able e_vec andb negb e_cpu e_mem]. by rewrite Hd.
Qed.

Lemma spec_save_file_ok O x path d blob :
  o_dicts O !! x = Some (Some d) -> netc_dict_save mem_ok (Some d) false = Ok blob ->
  spec env (DictSaveFile x path) O = Ok (Some (Code R_OK), set_file O path blob).
Proof.
  intros Hx Hs. cbn [spec]. unfold held. rewrite Hx, bind_Ok_l. unfold spec_save_file, spec_save. cbn [able e_mem]. rewrite Hs, bind_Ok_l.
  cbn [able e_vec orb e_open negb e_write e_flush]. by rewrite Z.min_id, Nat2Z.id, take_ge, Z.eqb_refl.
Qed.

Lemma spec_load_file_ok O x path blob d :
  o_files O !! path = Some blob -> 0 < zlen blob -> netc_dict_load mem_ok (Some blob) false = Ok d ->
  spec env (DictLoadFile x path) O = Ok (Some (Code R_OK), set_dict O x (Some d)).
Proof.
  intros Hf Hpos Hl. cbn [spec]. unfold spec_load_file. cbn [able e_open]. rewrite Hf. destruct (Z.leb_spec (zlen blob) 0); [lia|].
  cbn [able e_vec negb e_read]. rewrite Z.eqb_refl. unfold spec_load. cbn [negb able e_mem]. by rewrite Hl.
Qed.

Lemma spec_new_ok O k x mode lvl flags d c :
  o_dicts O !! x = Some (Some d) -> o_ctxs O !! k = None -> netc_ctx_create cpu mem_ok (Some d) (Some (context_cfg mode lvl flags)) = Some c ->
  spec env (CtxNew k x mode lvl flags) O = Ok (Some Done, set_ctx O k (Some c)).
Proof. intros Hx Hk Hc. cbn [spec]. unfold held, unused. rewrite Hx, bind_Ok_l, Hk, bind_Ok_l. unfold spec_create. cbn [able e_cpu e_mem]. by rewrite Hc. Qed.

Lemma setup_goes samples mid path mode lvl flags F :
  Forall bytes samples -> zlen samples < 2 ^ 32 -> kept samples <> [] -> 0 < mid < 255 ->
  let cfg := context_cfg mode lvl flags in
  (has (cfg_flags cfg) NETC_CFG_FLAG_ADAPTIVE = true -> has (cfg_flags cfg) NETC_CFG_FLAG_STATEFUL = true) ->
  (has (cfg_flags cfg) NETC_CFG_FLAG_COMPACT_HDR = false \/ has (cfg_flags cfg) NETC_CFG_FLAG_ADAPTIVE = false) ->
  exists d blob c c', link c c' /\
    goes (objects0 F) (map (pair env) (setup samples mid path mode lvl flags)) setup_replies
      (talking d c c' {[0%nat := kept samples]} (<[path := blob]> F)).
Proof.
  intros Hb Hn Hne Hid cfg Had Hco. pose proof (kept_ok samples Hb Hn) as Hp.
  destruct (dict_train_usable cpu mem_ok (map Some (kept samples)) mid Hp Hid) as (d & (_ & Hwf & Hck & _ & Hok & Htr) & Ht).
  assert (dict_good d) as Hg by (exact (conj Hwf (conj Hck (conj Hok (trained_dict_full d Htr))))).
  destruct (saved_trusted d Hg) as (blob & Hs & Htrust & Hpos & Hload). destruct (create_some cpu (Some d) cfg Had) as [c Hc].
  exists d, blob, c, c. split.
  { eapply (create_link cpu cpu (Some d) cfg cfg); [|done|cbn; lia|done|done|done]. intros t [= <-]. split; [done|by apply trained_dict_full]. }
  set (T := {[0%nat := kept samples]} : gmap nat (list (list Z))).
  eapply (goes_next _ _ _ (Objs ∅ ∅ {[0%nat := []]} F 0)); [done|done|].
  eapply (goes_next _ _ _ (Objs ∅ ∅ T F 0)); [by split; [eexists|]|etransitivity; [by apply (spec_adds_ok _ _ [])|reflexivity]|].
  eapply (goes_next _ _ _ (Objs {[0%nat := None]} ∅ T F 0)); [done|done|].
  eapply (goes_next _ _ _ (Objs {[0%nat := Some d]} ∅ T F 0)).
  { split; [by apply no_ctx_detached; [eexists|]|]. split; [lia|]. exists (kept samples). split; [done|]. destruct Hp as [Hp _]. by rewrite length_map in Hp. }
  { etransitivity; [by apply (spec_train_ok _ _ (kept samples) _ _ d); [|done|rewrite Ht]|reflexivity]. }
  eapply (goes_next _ _ _ (Objs {[0%nat := Some d]} ∅ T (<[path := blob]> F) 0)); [by eexists| |].
  { etransitivity; [by apply (spec_save_file_ok _ _ _ d blob); [|apply Hs]|reflexivity]. }
  eapply (goes_next _ _ _ (Objs {[0%nat := Some d; 1%nat := None]} ∅ T (<[path := blob]> F) 0)); [done|done|].
  eapply (goes_next _ _ _ (Objs {[0%nat := Some d; 1%nat := Some d]} ∅ T (<[path := blob]> F) 0)).
  { split; [by apply no_ctx_detached; [eexists|]|]. cbn [o_files]. intros bs Hbs. rewrite lookup_insert_eq in Hbs. by injection Hbs as <-. }
  { etransitivity; [by apply (spec_load_file_ok _ _ _ blob d); [apply lookup_insert_eq|done|apply Hload]|reflexivity]. }
  eapply (goes_next _ _ _ (Objs {[0%nat := Some d; 1%nat := Some d]} {[0%nat := Some c]} T (<[path := blob]> F) 0)); [by split; [|eexists]| |].
  { etransitivity; [by apply (spec_new_ok _ _ _ _ _ _ d c)|reflexivity]. }
  eapply (goes_next _ _ _ (talking d c c T (<[path := blob]> F))); [by split; [|eexists]| |apply goes_nil].
  etransitivity; [by apply (spec_new_ok _ _ _ _ _ _ d c)|reflexivity].
Qed.
End Session.

Lemma session_losses cpu samples mid path mode lvl flags mps : losses (session cpu samples mid path mode lvl flags mps) = 1%nat.
Proof.
  unfold losses, session. rewrite !sum_list_with_app. induction mps as [|mp mps IH]; [done|]. exact IH.
Qed.

(** ** Properties *)

(** C13: a session through the C++ binding.  With fewer than 2^32 samples of
    which one is not empty, a model id of 1 to 254, adaptive mode only in a
    stateful (TCP) context without compact headers, messages of at most 65535
    bytes that are shorter than 256 bytes or of even size (longer odd ones can meet
    the two-state coder, which does not restore them; [sendable]), and no
    allocation or file operation that fails, the program in which
    a Trainer trains a Dict, the Dict is saved to a file and loaded into another
    Dict, a Context is created on each and every message is compressed by the
    first and decompressed by the second runs without touching a dead handle:
    every call returns OK, every packet is within MaxCompressedSize and every
    message arrives unchanged.  When the objects are gone, at most the block the
    training loses is left. *)
Theorem sdk_session (cpu : simd_caps) (files : gmap string (list Z)) (samples : list (list Z)) (mid : Z) (path : string)
    (mode : Mode) (lvl flags : Z) (msgs : list (list Z)) :
  Forall bytes samples -> zlen samples < 2 ^ 32 -> kept samples <> [] -> 0 < mid < 255 ->
  (has (cfg_flags (context_cfg mode lvl flags)) NETC_CFG_FLAG_ADAPTIVE = true ->
   has (cfg_flags (context_cfg mode lvl flags)) NETC_CFG_FLAG_STATEFUL = true /\
   has (cfg_flags (context_cfg mode lvl flags)) NETC_CFG_FLAG_COMPACT_HDR = false) ->
  Forall sendable msgs ->
  exists pkts w, length pkts = length msgs /\
    run (session cpu samples mid path mode lvl flags (zip msgs pkts)) (world0 files) =
      Ok (setup_replies ++ (zip msgs pkts ≫= exchange_replies) ++ replicate 5 (Some Done), w) /\
    Forall2 (fun m pkt => zlen pkt <= Context_MaxCompressedSize (zlen m)) msgs pkts /\
    (size (live (w_heap w)) <= 1)%nat /\ w_open w = 0%nat.
Proof.
  intros Hb Hn Hne Hid Hflags Hm.
  destruct (setup_goes cpu samples mid path mode lvl flags files Hb Hn Hne Hid) as (d & blob & c & c' & Hl & Hg1).
  { intros H. by apply Hflags. }
  { destruct (has (cfg_flags (context_cfg mode lvl flags)) NETC_CFG_FLAG_ADAPTIVE); [left; by apply Hflags|by right]. }
  destruct (talk_goes cpu d c c' {[0%nat := kept samples]} (<[path := blob]> files) msgs Hl Hm) as (pkts & c1 & c1' & Hlen & Hg2 & Hf).
  pose proof (teardown_goes cpu d c1 c1' {[0%nat := kept samples]} (<[path := blob]> files) ltac:(by eexists)) as Hg3.
  destruct (goes_app _ _ _ _ _ _ _ Hg1 (goes_app _ _ _ _ _ _ _ Hg2 Hg3)) as [Hfine Hs].
  destruct (run_sim _ _ _ _ (rep_start files) (fine_admissible _ _ _ _ (rep_start files) Hfine)) as (rs & w & O & L & E & Es & Hr & _ & HL).
  rewrite Hs in Es. injection Es as <- <-. exists pkts, w. split; [done|]. split; [exact E|]. split; [exact Hf|].
  destruct Hr as [(Hi & HD & HC) ((_ & _ & HN) & _)]. split; [|exact HN]. apply view_empty in HD, HC. rewrite HD, HC in Hi.
  rewrite (mem_inv_none w L Hi), <- (session_losses cpu samples mid path mode lvl flags (zip msgs pkts)). exact HL.
Qed.

Lemma sdk_session_witness :
  exists pkts w, length pkts = 2%nat /\
    run (session no_simd [[1; 2; 3]; []; [4]] 7 "model.dict"%string TCP 5 NETC_CFG_FLAG_DELTA (zip [[1; 2; 3]; [1; 2; 4]] pkts)) (world0 ∅) =
      Ok (setup_replies ++ (zip [[1; 2; 3]; [1; 2; 4]] pkts ≫= exchange_replies) ++ replicate 5 (Some Done), w) /\
    Forall2 (fun m pkt => zlen pkt <= Context_MaxCompressedSize (zlen m)) [[1; 2; 3]; [1; 2; 4]] pkts /\
    (size (live (w_heap w)) <= 1)%nat /\ w_open w = 0%nat.
Proof.
  apply (sdk_session no_simd ∅ [[1; 2; 3]; []; [4]] 7 "model.dict"%string TCP 5 NETC_CFG_FLAG_DELTA [[1; 2; 3]; [1; 2; 4]]).
  - repeat constructor; unfold is_byte; lia.
  - reflexivity.
  - discriminate.
  - split; reflexivity.
  - discriminate.
  - repeat constructor; try (unfold is_byte, NETC_MAX_PACKET_SIZE; simpl; lia); vm_compute; discriminate.
Defined.
