(* ===== verification/SdkFaults.v ===== *)
(** * What the C++ binding does not promise

    Results of src/sdk/cpp that fall short of its headers: a context whose Dict
    object is alive can still hang on a dead dictionary, a file stays open when a
    buffer cannot be allocated, and a truncated file is reported as saved.  And
    one that does hold: the two result enumerations agree. *)

From Stdlib Require Import String.
From stdpp Require Import prelude gmap strings.
From Stdlib Require Import ZArith Lia.
From S2P Require Import Prelude Simd Header Ctx Dict Train Heap Decompress Compress Platform Sdk SdkSpec.

Local Open Scope Z_scope.

(** ** Results *)

(** Result.hpp: the enumeration maps 1:1 to netc_result_t. *)
Theorem result_mapping (e : netc_result_t) :
  Result_value (to_Result e) = netc_result_value (Some e) /\ of_Result (to_Result e) = Some e /\ ResultToString (to_Result e) = netc_strerror (Some e).
Proof. by destruct e. Qed.

(** ** Dangling contexts *)

(** Steps that leave the contexts alone. *)
Definition spares_ctxs {A} (m : sdk A) : Prop := forall w r w', m w = Ok (r, w') -> w_ctxs w' = w_ctxs w /\ w_ctx_at w' = w_ctx_at w /\ w_dicts w' = w_dicts w.

Lemma handle_load_spares mem b : spares_ctxs (handle_load mem b).
Proof.
  intros w r w'. unfold handle_load, mbind, sdk_bind, native. destruct (dict_load_mem mem b (w_heap w)) as [[[[d ps]|err|] h]| |]; try done.
  - unfold store_dict. destruct (p_dict ps); [|done]. by intros [= <- <-].
  - by intros [= <- <-].
Qed.

Lemma handle_free_gone a w r w' :
  handle_free (Some a) w = Ok (r, w') -> w_dict_at w' !! a = None /\ w_ctxs w' = w_ctxs w /\ w_ctx_at w' = w_ctx_at w.
Proof.
  unfold handle_free, mbind, sdk_bind, native. destruct (w_dict_at w !! a) as [[ps d]|]; [|done].
  destruct (netc_dict_free (Some ps) (w_heap w)) as [[? h]| |]; try done. intros [= <- <-]. split; [apply lookup_delete_eq|done].
Qed.

(** Context.hpp asks that the Dict outlive the Context.  That is not
    enough: loading another dictionary into the Dict frees the one the context is
    bound to, and the next Compress reads freed memory. *)
Theorem reload_dangles (e : sdk_env) (w w1 : world) (x k a b : nat) (ps : ctx_ptrs) (c : netc_ctx_t) (data src : span) (dst : list Z) :
  w_dicts w !! x = Some (Some a) -> w_ctxs w !! k = Some (Some b) -> w_ctx_at w !! b = Some (ps, a, c) ->
  Dict_LoadFromBytes e data x w = Ok (Some R_OK, w1) ->
  is_Some (w_dicts w1 !! x) /\ (extends e dst (netc_compress_bound (span_size src)) = true -> Context_Compress e k src dst w1 = Undef).
Proof.
  intros Hx Hk Hb H. unfold Dict_LoadFromBytes in H. destruct data as [sz|bs]; [done|]. destruct (zlen bs =? 0); [done|].
  unfold mbind, sdk_bind in H. destruct (handle_load (e_mem e) bs w) as [[[[a'|err|]|] w2]| |] eqn:El; try done.
  - destruct (handle_load_spares _ _ _ _ _ El) as (E1 & E2 & E3). unfold dict_native in H. rewrite E3, Hx in H.
    destruct (handle_free (Some a) w2) as [[[[]|] w3]| |] eqn:Ef; try done. destruct (handle_free_gone _ _ _ _ Ef) as (F1 & F2 & F3).
    unfold set_dict_native, modify in H. injection H as <-. split; [cbn; rewrite lookup_insert_eq; by eexists|]. intros Hext.
    unfold Context_Compress, mbind, sdk_bind, ctx_native. cbn [with_dicts w_ctxs]. rewrite F2, E1, Hk.
    unfold grow. unfold extends in Hext. unfold mbind, sdk_bind, allocate, mret, sdk_ret, ctx_with_dict.
    destruct (Z.ltb_spec (zlen dst) (netc_compress_bound (span_size src))), (Z.leb_spec (netc_compress_bound (span_size src)) (zlen dst)); try lia;
      cbn [orb] in Hext; rewrite ?Hext; cbn [with_dicts w_ctx_at w_dict_at]; by rewrite F3, E2, Hb, F1.
  - by destruct err.
Qed.

(** ** Files *)

(** LoadFromFile with no memory for its buffer leaves the file open. *)
Theorem load_file_stays_open (e : sdk_env) (w : world) (x : nat) (path : string) (contents : list Z) :
  e_open e path = true -> w_files w !! path = Some contents -> 0 < zlen contents -> e_vec e 0%nat = false ->
  exists w', Dict_LoadFromFile e path x w = Ok (None, w') /\ w_open w' = S (w_open w).
Proof.
  intros Ho Hf Hl Hv. unfold Dict_LoadFromFile, mbind, sdk_bind, file_contents. rewrite Ho, Hf.
  destruct (Z.leb_spec (zlen contents) 0); [lia|]. unfold fopen, modify, allocate. rewrite Hv. by eexists.
Qed.

(** SaveToFile says OK when fclose cannot write out what fwrite accepted. *)
Theorem save_file_truncates (e : sdk_env) (O : objects) (x : nat) (path : string) (d : netc_dict_t) (blob : list Z) :
  o_dicts O !! x = Some (Some d) -> netc_dict_save (e_mem e) (Some d) false = Ok blob -> e_vec e 0%nat = true -> e_open e path = true ->
  e_write e (zlen blob) = zlen blob -> e_flush e (zlen blob) = 0 ->
  spec e (DictSaveFile x path) O = Ok (Some (Code R_OK), set_file O path []).
Proof.
  intros Hx Hs Hv Ho Hw Hfl. cbn [spec]. unfold held. rewrite Hx, bind_Ok_l. unfold spec_save_file, spec_save. rewrite Hs, Hv, bind_Ok_l. cbn [orb].
  rewrite Ho. cbn [negb]. rewrite Hw, Hfl, Z.eqb_refl. by replace (Z.to_nat (Z.min (zlen blob) 0)) with 0%nat by lia.
Qed.
